(* ===== verification/_CoqProject ===== *)
-Q . S2P
Prelude.v
Tables.v
Text.v
Money.v
Exceptions.v
StateMachines.v
Models.v
Ledger.v
LedgerInv.v
LedgerSpec.v
LedgerTypes.v
Economics.v
HoldsSpec.v
DepositsSpec.v
Profiles.v
Pricing.v
Operations.v
OperationsSpec.v
Router.v
RouterSpec.v
Fulfillment.v
FulfillmentSpec.v
Checkout.v
CheckoutSpec.v
Payments.v
TopUps.v
PaymentsInv.v
PaymentsSpec.v
Reversals.v
ReversalsInv.v
ReversalsSpec.v
ReversalsLive.v
Resolution.v
ResolutionSpec.v
Reconciliation.v
ReconciliationSpec.v
StarsGateway.v
Stars.v
StarsSpec.v
Evidence.v
Verifiers.v
EvidenceInv.v
EvidenceSpec.v
VerifiersSpec.v
BybitPay.v
BybitSpec.v
Deposits.v
DepositsHistory.v
Upstream.v
FulfillmentWorker.v
FulfillmentHistory.v
WorkerSpec.v
UpstreamSpec.v
Announcements.v
AnnouncementsSpec.v
OperationsApi.v
OperationsApiSpec.v
Saas.v
Billing.v
PlatformApi.v
SaasSpec.v
BillingSpec.v
Templates.v
Provisioning.v
AdminBots.v
ProvisioningSpec.v
TemplatesSpec.v
