(* ===== verification/Prelude.v ===== *)
(** * GH-Bot-Factory: a verification library of its commerce and payment core

    GH-Bot-Factory is a multi-tenant platform for Telegram shops.  A buyer has
    prepaid wallets; a checkout prices a cart on the server, debits a wallet and
    creates a paid order; fulfillment buys the goods from upstream suppliers
    through a router that may fail over between them, and refunds the wallet
    when that fails for good; top-ups and payments arrive through gateways and
    can be reversed; deposits in crypto assets are converted and credited.  The
    tenants are subscribers of the platform: a plan limits what they may do, a
    billing provider reports what they pay for, and their bots are provisioned by
    durable jobs.  This library models that core, one file per component, and
    proves what makes it correct.

    ** How the code is modelled

    A coroutine over an [AsyncSession] is a function from a session state to an
    outcome (a value or an exception) and a new state: the monad [M] of
    [Models.v], built on [prog] below.  The state holds the session's view of
    the database, the committed version of it, what was drawn from the
    environment (UUIDs, and with them the clock) and the messages sent to other
    systems, which no rollback takes back.  Tables are lists of rows in
    insertion order.  [begin_nested], [commit], [rollback] and the request
    transaction of [get_db_session] are the operations of that state that the
    code uses; unique indexes, [String(n)] and [Numeric(p,s)] columns are
    written out where a row is flushed, because the code relies on the database
    refusing rows.  Money is an integer number of 10^-18 units, so that every
    column and every product the code computes is exact until the place where
    Python or the database rounds it.

    What comes from outside is a parameter: the class [Env] (clock, [uuid4],
    SHA-256, [str] of decimals, exceptions and JSON values, and the effect of
    other sessions between a read and the savepoint that follows it), the class
    [Adapters] of [Router.v] (the supplier adapters a deployment registers, their
    answers, the secret storage), the class [Gateways] of [Payments.v] (the
    payment gateways, likewise), the class [BotApi] of [StarsGateway.v] (what
    the Telegram Bot API answers to a request), the class [BybitApi] of
    [BybitPay.v] (HTTP, clock, HMAC, RSA keys and JSON decoding for Bybit), the
    class [OnChainRegistry] of [Evidence.v] (the verifiers a deployment
    registers), the class [ChainHttp] of [Verifiers.v] (what the nodes answer,
    and SHA-256 of bytes), the class [Sender] of [Announcements.v]
    (Telegram), the class [Wire] of [Billing.v] (HTTP, HMAC and JSON decoding
    for the billing provider), the class [Identities] of [Provisioning.v] (the
    secret store and Telegram's answer for a token) and the class [Settings] of
    [Saas.v].  The answers of the outside may depend on everything that was
    sent before.  Settings and the functions of floats that two places use
    ([float] of a text, the activation timeout) are arguments.  Theorems name
    what they need: [GoodEnv] (the clock advances and UUIDs do not repeat) and
    [Serial] (nobody else writes in that window, what PostgreSQL's row locks
    give the callers that take them); the theorems about idempotency keys of
    the ledger hold for any interference that respects the unique indexes.

    ** Files

    - [Prelude.v]: outcomes, the program monad, Python's tests, record update,
      and the program logic ([steps] for frames, [ensures] and [wp] for
      results) with its tactics and hint database.
    - [Tables.v], [Text.v], [Money.v]: queries, updates and sorting; [str]
      methods; decimals, rounding modes and columns.
    - [Exceptions.v], [StateMachines.v], [Models.v]: the exception classes, the
      order and payment life cycles, the tables and the session.
    - [Ledger.v] ([packages/payments/service.py], [LedgerService]),
      [LedgerInv.v], [LedgerSpec.v], [LedgerTypes.v]: wallets and ledger
      entries; the ledger invariant; that after any history of calls every
      wallet passes the audit of [reconstruct_and_verify_balance], that the
      calls with a canonical reference happen exactly once even when they race,
      replay, what a debit may spend, that a call that raises changes nothing,
      overflow, and that every stored row fits its columns.
    - [Economics.v] ([packages/payments/economics.py]), [HoldsSpec.v],
      [DepositsSpec.v]: holds, asset wallets, FX policies, flexible deposits;
      that reserved funds stay capturable, that a deposit is credited once and
      by the policy's rate, rounding of conversions, choice of the policy.
    - [Deposits.v], [DepositsHistory.v] ([packages/payments/flexible_deposits.py]
      and its worker): sessions of open-amount deposits; over any history of
      creations, reconciliations and passes a deposit is credited at most once
      and a credited one keeps its evidence.
    - [Profiles.v] ([packages/factory/business_profiles.py]): bot profiles and
      their check against the tenant's rows; reading a stored profile fails
      closed, and printing is undone by parsing.
    - [Pricing.v] ([packages/commerce/economics.py]): tiers, rules, supplier
      offers, markup and rounding, quotes.
    - [Operations.v], [OperationsSpec.v] ([packages/operations/service.py]):
      support cases with optimistic locking, warranty claims, coupons,
      announcements.
    - [Router.v], [RouterSpec.v] ([packages/providers/router.py] and the
      registry it uses): eligibility, ordering and failover; one call makes
      suppliers accept at most one order, and the policy decides who is tried.
    - [Fulfillment.v], [FulfillmentSpec.v] ([packages/fulfillment/service.py]):
      one attempt; the complete list of ways it can end and what each does to
      money and order.
    - [Checkout.v], [CheckoutSpec.v] ([packages/commerce/checkout.py]): a
      checkout charges exactly the order it creates, a used idempotency key
      never charges again, and a checkout that raises leaves nothing behind.
    - [Payments.v], [TopUps.v] ([packages/payments/payment_service.py]),
      [PaymentsInv.v], [PaymentsSpec.v]: payment intents, wallet top-ups,
      webhooks, cancellation and refunds; the invariant that ties intents to
      ledger entries, and all that a webhook can do.
    - [Reversals.v] (the reversals of [payment_service.py] and
      [reversal_worker.py]), [ReversalsInv.v], [ReversalsSpec.v],
      [ReversalsLive.v]: a reversal refines a saga (requested, reserved,
      refunded at most once, done), a gateway is asked for money only after it
      was reserved, and a worker that restarts completes what it finds.
    - [Resolution.v], [ResolutionSpec.v] ([packages/payments/resolution.py]):
      the operator's cases; a wallet is reactivated only when nothing else is
      open against it.
    - [Reconciliation.v], [ReconciliationSpec.v]
      ([packages/payments/reconciliation.py] and its worker): polling gateways;
      over any history of requests, webhooks and polling an intent has
      SUCCEEDED exactly when its wallet was credited, once and with its amount,
      and polling and webhooks do the same to an intent.
    - [StarsGateway.v] ([packages/payments/providers/telegram_stars.py]),
      [Stars.v] ([packages/payments/stars_reconciliation.py]), [StarsSpec.v]:
      the Telegram Stars adapter over the answers of the Bot API, and the
      scanner of the refunds Telegram reports; every outbound transaction ends
      as a debit or as a case, scanning again changes nothing, and the scanner
      moves reversals along the same saga as everything else.
    - [Evidence.v] ([packages/payments/platform.py] and
      [onchain_reconciliation.py]), [EvidenceInv.v], [EvidenceSpec.v]: payment
      methods, quotes, evidence of payments with its fingerprints, the decisions
      of the staff and the verification on chain; over any history VERIFIED
      evidence has its intent credited exactly once, the platform credits
      nothing without such evidence, and a ruling is never revised.
    - [Verifiers.v] ([packages/payments/onchain_verifiers.py]),
      [VerifiersSpec.v]: the TronGrid and EVM verifiers; addresses compare as
      accounts whichever way they are written, and the ERC-20 verifier reports
      what the chain behind its node says.
    - [BybitPay.v] ([packages/payments/providers/bybit_pay.py]), [BybitSpec.v]:
      the Bybit Pay adapter; lookup, recovery and webhook report the same order
      of the platform's book, a webhook changes nothing without the platform's
      signature, and a top-up whose creation was lost is found again.
    - [Upstream.v], [UpstreamSpec.v] ([packages/fulfillment/reconciliation.py]
      and its worker): asking suppliers what became of an attempt; what each
      report says is what happened.
    - [FulfillmentWorker.v], [FulfillmentHistory.v], [WorkerSpec.v]
      ([packages/fulfillment/worker.py]): durable jobs, claims, retries and dead
      letters; what becomes of a job, that the queue drains, that a job that is
      retried was not refunded, and that an order is refunded at most once over
      any history of attempts, jobs and reconciliations.
    - [Announcements.v], [AnnouncementsSpec.v]
      ([packages/operations/worker.py]): the delivery of campaigns; nobody
      receives an announcement twice, and COMPLETED campaigns are complete.
    - [OperationsApi.v], [OperationsApiSpec.v]
      ([apps/api/v1/admin_operations.py]): the handlers for cases, coupons and
      announcements; only administrators decide warranty claims, and a customer
      neither sees nor changes the cases of others.
    - [Saas.v] ([packages/saas/service.py], [product_entitlements.py],
      [control_plane.py]), [Billing.v] ([billing.py], [billing_service.py],
      [reconciliation_worker.py], [apps/api/v1/saas_billing.py]),
      [PlatformApi.v] ([apps/api/v1/platform.py]), [SaasSpec.v],
      [BillingSpec.v]: plans, prices, subscriptions, entitlements, billing
      events, the Stripe adapter and the handlers; whatever the operator and the
      provider do, the limits of every tenant resolve and are sensible, a billing
      event is applied once, a forged webhook changes nothing, and a feature gate
      lets through exactly the entitled.
    - [Templates.v] ([packages/factory/templates.py]), [Provisioning.v]
      ([packages/factory/provisioning.py]), [AdminBots.v]
      ([apps/api/v1/admin_bots.py]), [ProvisioningSpec.v], [TemplatesSpec.v]: the
      templates, the provisioning jobs and the tenant's handlers; a Telegram bot
      stays with its tenant under any interleaving of requests and workers, a
      claimed job is always settled, what is built from a template is well
      formed, an accepted configuration names only the tenant's own rows and is
      read back as it was checked, and a bot whose profile is broken is never
      reported ready.

    The interleaving theorems run a list of events, each a whole transaction of
    the code (a request, a worker's claim, a crash between two of them), from
    any state that satisfies the invariant.

    Some theorems record behaviour the code should not have: a top-up reversal
    ignores holds ([reversal_ignores_holds]), a sub-cent debit breaks the audit
    ([subcent_debit_breaks_audit]), a currency code longer than the wallet
    column is accepted and cannot be settled ([long_currency_unsettleable]), a
    retry after a timeout repeats the purchase under a new idempotency key
    ([timeout_retry_repurchases]), a second partial refund is paid and not
    booked ([second_partial_refund_unbooked]), a recovery that was refused is
    kept ([refused_recovery_kept]), the first line of an order decides for all
    of them ([first_line_fulfills_order]), a failed query is persisted
    although the report denies it ([failed_query_persisted]), one deposit whose
    gateway is off stops the reconciliation of all ([stuck_deposit_blocks_all]),
    a synchronisation with the billing provider drops the operator's overrides
    ([sync_drops_overrides]) and ignores a state that returns
    ([returning_state_ignored]), a billing event that failed is never applied
    ([failed_event_sticks]), repeating a provisioning request undoes the rotation
    of a credential ([replay_undoes_rotation]), a tenant gets more bots than its
    plan allows ([bot_limit_exceeded]), a job that kills its worker is tried
    for ever ([stale_job_retried_for_ever]), one transaction with an unreadable
    amount stops the scan of Telegram's refunds ([unreadable_amount_blocks_scan]),
    a refund that needs review joins a case that is closed
    ([review_joins_closed_case]), one cancelled intent stops the verification of
    all evidence ([cancelled_intent_blocks_worker]), one transaction on chain can
    be credited twice when a method's network was renamed
    ([one_transaction_two_credits]), evidence for an address written with its
    checksum is never verified ([checksummed_address_refused]) and an order
    payment whose creation at Bybit was lost is never found again
    ([lost_order_payment_not_recovered]).

    ** Bounds

    Loops of the code are structural recursions, except these: the ledger polls
    for a concurrent entry at most 20 times, as the code does; [count_digits]
    runs on 128 digits, more than the product of two columns has; [remove_all]
    gets the length of the text as fuel, an upper bound of its matches; the
    scan of Telegram's transactions reads as many pages as the setting allows;
    the theorem about the queue gives the number of iterations that empties it.

    ** Not modelled

    Log lines and notification texts; the text of exceptions except as the
    parameter [env_exn_str]; the free text of reconciliation reports; floats
    (the weighted score and the timeout's duration are parameters, latencies
    are compared as decimals, JSON numbers are integers); bracketed IPv6 hosts
    in checkout URLs; the cache of the gateway registry is what it holds, not
    how it is filled; the stored copy of a webhook's payload; time spent
    sleeping; columns that no modelled operation reads; failures of the secret
    store when it writes; the running number of JSON-RPC requests; control
    characters in JSON texts; exponents beyond what [Decimal] holds.  A gateway
    adapter's numbers in JSON are integers or texts, and an amount with more
    than 18 decimals is represented by one that equals no amount in cents.  Of
    the program: the operators' reports and lists, and what surrounds the core:
    the rest of the HTTP API, authentication, the Telegram runtime, the other
    gateway clients (their requests carry floats, which are not modelled), the
    supplier clients, the marketplace and analytics. *)

From Stdlib Require Import ZArith Lia.
From stdpp Require Import base tactics list option strings numbers.

(** ** Outcomes and stateful programs

    A Python coroutine that runs against a database session either returns a
    value or raises; in both cases the session has moved on.  An exception
    does not undo anything by itself: undoing is what savepoints and
    [rollback] do, and they are modelled where the code uses them. *)

Inductive outcome (E A : Type) : Type :=
  | Ok (a : A)
  | Raise (e : E).
Arguments Ok {_ _} _.
Arguments Raise {_ _} _.

Definition prog (E S A : Type) : Type := S → outcome E A * S.

Global Instance prog_ret {E S} : MRet (prog E S) := λ A a s, (Ok a, s).
Global Instance prog_bind {E S} : MBind (prog E S) := λ A B k m s,
  match m s with
  | (Ok a, s') => k a s'
  | (Raise e, s') => (Raise e, s')
  end.
Global Instance prog_throw {E S} : MThrow E (prog E S) := λ A e s, (Raise e, s).

Definition gets {E S A} (f : S → A) : prog E S A := λ s, (Ok (f s), s).
Definition modify {E S} (f : S → S) : prog E S unit := λ s, (Ok tt, f s).

(** [try: m except ...: h]; the handler re-raises what it does not match. *)
Definition catch {E S A} (m : prog E S A) (h : E → prog E S A) : prog E S A :=
  λ s, match m s with
       | (Ok a, s') => (Ok a, s')
       | (Raise e, s') => h e s'
       end.

(** [if c: raise e] *)
Definition raise_if {E S} (c : bool) (e : E) : prog E S unit :=
  if c then mthrow e else mret tt.

Definition of_option {E S A} (e : E) (o : option A) : prog E S A :=
  match o with Some a => mret a | None => mthrow e end.

Definition of_outcome {E S A} (o : outcome E A) : prog E S A :=
  match o with Ok a => mret a | Raise e => mthrow e end.

Definition is_ok {E A} (o : outcome E A) : bool :=
  match o with Ok _ => true | Raise _ => false end.

Fixpoint for_each {E S A} (l : list A) (body : A → prog E S unit) : prog E S unit :=
  match l with
  | [] => mret tt
  | x :: l => body x;; for_each l body
  end.

Fixpoint map_prog {E S A B} (f : A → prog E S B) (l : list A) : prog E S (list B) :=
  match l with
  | [] => mret []
  | x :: l => b ← f x; bs ← map_prog f l; mret (b :: bs)
  end.

(** ** Equality and comparison tests as Python writes them *)

Declare Scope py_scope.
Delimit Scope py_scope with py.
Notation "a == b" := (bool_decide (a = b)) (at level 70, no associativity) : py_scope.
Notation "a != b" := (negb (bool_decide (a = b))) (at level 70, no associativity) : py_scope.
Global Open Scope py_scope.

(** The truth value of a [str | None]: [None] and the empty string are false. *)
Definition truthy (o : option string) : bool :=
  match o with Some s => s != "" | None => false end.

Definition is_some {A} (o : option A) : bool :=
  match o with Some _ => true | None => false end.

(** ** Record update

    [r <| f := v |>] is the Python attribute assignment [r.f = v] on an
    immutable record.  A record type declares its constructor re-applied to
    its projections; the setter of a field is read off that term. *)

Class Eta (R : Type) := eta : R → R.
Class Setter {R T} (f : R → T) := field_update : (T → T) → R → R.
Global Hint Mode Setter - - ! : typeclass_instances.
Arguments field_update {R T} f {Setter} _ _ /.

Ltac derive_setter f :=
  lazymatch type of f with
  | ?R → _ =>
      let inst := constr:(_ : Eta R) in
      let e := eval cbv [eta] in (@eta R inst) in
      let e := (let h := head_of e in eval unfold h in e) in
      lazymatch eval pattern f in e with
      | ?g _ => exact (fun upd r => g (fun x => upd (f x)) r)
      end
  end
with head_of t := lazymatch t with ?h _ => head_of h | _ => t end.

Global Hint Extern 1 (Setter ?f) => derive_setter f : typeclass_instances.

Notation "r <| f := v |>" := (field_update f (λ _, v) r)
  (at level 1, f at next level, left associativity).
Notation "r <| f ::= g |>" := (field_update f g r)
  (at level 1, f at next level, left associativity).

(** ** Program logic

    [steps R m]: whatever [m] does, return or raise, the state it leaves is
    [R]-related to the state it started from.  With [R] a preorder this
    composes along the code, so that a whole handler inherits what its
    primitive writes satisfy (an invariant [I] is the preorder
    [λ s s', I s → I s']). *)

Definition steps {E S A} (R : S → S → Prop) (m : prog E S A) : Prop :=
  ∀ s, R s (m s).2.

Definition keeps {S} (I : S → Prop) : S → S → Prop := λ s s', I s → I s'.

Global Instance keeps_preorder {S} (I : S → Prop) : PreOrder (keeps I).
Proof. split; unfold keeps; [by intros x | by intros x y z Hxy Hyz Hx; auto]. Qed.

Create HintDb steps.

Section steps.
  Context {E S : Type} (R : S → S → Prop) `{!PreOrder R}.

Lemma steps_ret {A} (a : A) : steps R (mret a : prog E S A).
Proof. intros s. reflexivity. Qed.

Lemma steps_throw {A} (e : E) : steps R (mthrow e : prog E S A).
Proof. intros s. reflexivity. Qed.

Lemma steps_gets {A} (f : S → A) : steps R (gets f : prog E S A).
Proof. intros s. reflexivity. Qed.

Lemma steps_modify (f : S → S) :
  (∀ s, R s (f s)) → steps R (modify f : prog E S unit).
Proof. intros Hf s. apply Hf. Qed.

Lemma steps_bind {A B} (m : prog E S A) (k : A → prog E S B) :
  steps R m → (∀ a, steps R (k a)) → steps R (m ≫= k).
Proof.
  intros Hm Hk s. specialize (Hm s). unfold mbind, prog_bind.
  destruct (m s) as [[a|e] s']; cbn in *; [|done].
  etransitivity; [exact Hm | apply Hk].
Qed.

Lemma steps_catch {A} (m : prog E S A) (h : E → prog E S A) :
  steps R m → (∀ e, steps R (h e)) → steps R (catch m h).
Proof.
  intros Hm Hh s. specialize (Hm s). unfold catch.
  destruct (m s) as [[a|e] s']; cbn in *; [done|].
  etransitivity; [exact Hm | apply Hh].
Qed.

Lemma steps_raise_if (c : bool) (e : E) : steps R (raise_if c e : prog E S unit).
Proof. unfold raise_if. destruct c; intros s; reflexivity. Qed.

Lemma steps_of_option {A} (e : E) (o : option A) : steps R (of_option e o : prog E S A).
Proof. unfold of_option. destruct o; intros s; reflexivity. Qed.

Lemma steps_of_outcome {A} (o : outcome E A) : steps R (of_outcome o : prog E S A).
Proof. unfold of_outcome. destruct o; intros s; reflexivity. Qed.

Lemma steps_for_each {A} (l : list A) (body : A → prog E S unit) :
  (∀ x, steps R (body x)) → steps R (for_each l body).
Proof.
  intros Hb. induction l as [|x l IH]; cbn [for_each];
    [apply steps_ret | apply steps_bind; [apply Hb | intros _; exact IH]].
Qed.

Lemma steps_map_prog {A B} (f : A → prog E S B) (l : list A) :
  (∀ x, steps R (f x)) → steps R (map_prog f l).
Proof.
  intros Hf. induction l as [|x l IH]; cbn [map_prog]; [apply steps_ret|].
  apply steps_bind; [apply Hf | intros b].
  apply steps_bind; [exact IH | intros bs; apply steps_ret].
Qed.

End steps.

#[export] Hint Resolve steps_ret steps_throw steps_gets steps_raise_if
  steps_of_option steps_of_outcome : steps.

(** Walks through a handler, splitting on its branches; the writes are left
    to the [steps] hint database. *)
Ltac steps_walk :=
  intros;
  repeat first
    [ progress eauto 3 with steps typeclass_instances
    | apply steps_bind; [typeclasses eauto | | intros ?]
    | apply steps_catch; [typeclasses eauto | | intros ?]
    | apply steps_for_each; [typeclasses eauto | intros ?]
    | apply steps_map_prog; [typeclasses eauto | intros ?]
    | match goal with
      | |- steps _ (match ?x with _ => _ end) => destruct x
      | |- steps _ (let '(_, _) := ?x in _) => destruct x
      end ].

(** *** Running a program: the equations the proofs rewrite with *)

Lemma bind_ok {E S A B} (m : prog E S A) (k : A → prog E S B) s a s' :
  m s = (Ok a, s') → (m ≫= k) s = k a s'.
Proof. unfold mbind, prog_bind. by intros ->. Qed.

Lemma bind_raise {E S A B} (m : prog E S A) (k : A → prog E S B) s e s' :
  m s = (Raise e, s') → (m ≫= k) s = (Raise e, s').
Proof. unfold mbind, prog_bind. by intros ->. Qed.

Lemma bind_inv_ok {E S A B} (m : prog E S A) (k : A → prog E S B) s b s'' :
  (m ≫= k) s = (Ok b, s'') → ∃ a s', m s = (Ok a, s') ∧ k a s' = (Ok b, s'').
Proof.
  unfold mbind, prog_bind. destruct (m s) as [[a|e] s'] eqn:Hm; [eauto | done].
Qed.

Lemma bind_inv_raise {E S A B} (m : prog E S A) (k : A → prog E S B) s e s'' :
  (m ≫= k) s = (Raise e, s'') →
  m s = (Raise e, s'') ∨ ∃ a s', m s = (Ok a, s') ∧ k a s' = (Raise e, s'').
Proof.
  unfold mbind, prog_bind. destruct (m s) as [[a|e'] s'] eqn:Hm; [eauto|].
  intros [= -> ->]. auto.
Qed.

Lemma catch_inv_ok {E S A} (m : prog E S A) (h : E → prog E S A) s a s' :
  catch m h s = (Ok a, s') →
  m s = (Ok a, s') ∨ ∃ e s1, m s = (Raise e, s1) ∧ h e s1 = (Ok a, s').
Proof. unfold catch. destruct (m s) as [[?|e] s1]; eauto. Qed.

Lemma gets_inv {E S A} (f : S → A) s (r : outcome E A) s' :
  gets f s = (r, s') → r = Ok (f s) ∧ s' = s.
Proof. by intros [= <- <-]. Qed.

Lemma modify_inv {E S} (f : S → S) s (r : outcome E unit) s' :
  modify f s = (r, s') → r = Ok tt ∧ s' = f s.
Proof. by intros [= <- <-]. Qed.

Lemma ret_inv {E S A} (a : A) s (r : outcome E A) s' :
  (mret a : prog E S A) s = (r, s') → r = Ok a ∧ s' = s.
Proof. by intros [= <- <-]. Qed.

Lemma throw_inv {E S A} (e : E) s (r : outcome E A) s' :
  (mthrow e : prog E S A) s = (r, s') → r = Raise e ∧ s' = s.
Proof. by intros [= <- <-]. Qed.

Lemma raise_if_ok {E S} (c : bool) (e : E) s u (s' : S) :
  raise_if c e s = (Ok u, s') → c = false ∧ s' = s.
Proof. unfold raise_if. destruct c; [done|]. by intros [= _ <-]. Qed.

Lemma raise_if_raise {E S} (c : bool) (e e' : E) s (s' : S) :
  raise_if c e s = (Raise e', s') → c = true ∧ e' = e ∧ s' = s.
Proof. unfold raise_if. destruct c; [|done]. by intros [= <- <-]. Qed.

Lemma of_option_ok {E S A} (e : E) (o : option A) s a (s' : S) :
  of_option e o s = (Ok a, s') → o = Some a ∧ s' = s.
Proof. unfold of_option. destruct o; [|done]. by intros [= <- <-]. Qed.

(** Decomposes a completed run of a program into the runs of its parts. *)
Ltac run_inv_step :=
  match goal with
  | H : (Ok _, _) = (Ok _, _) |- _ => injection H as H; subst
  | H : (Raise _, _) = (Raise _, _) |- _ => injection H as H; subst
  | H : (Ok _, _) = (Raise _, _) |- _ => discriminate H
  | H : (Raise _, _) = (Ok _, _) |- _ => discriminate H
  | H : Ok _ = Ok _ |- _ => injection H as H; subst
  | H : Ok _ = Raise _ |- _ => discriminate H
  | H : Raise _ = Ok _ |- _ => discriminate H
  | H : gets _ _ = _ |- _ =>
      apply gets_inv in H; destruct H as [H ?]; simplify_eq H; clear H; intros; subst
  | H : modify _ _ = _ |- _ =>
      apply modify_inv in H; destruct H as [H ?]; simplify_eq H; clear H; intros; subst
  | H : mret _ _ = _ |- _ =>
      apply ret_inv in H; destruct H as [H ?]; simplify_eq H; clear H; intros; subst
  | H : mthrow _ _ = _ |- _ =>
      apply throw_inv in H; destruct H as [H ?]; simplify_eq H; clear H; intros; subst
  | H : raise_if _ _ _ = (Ok _, _) |- _ =>
      apply raise_if_ok in H; let G := fresh "Hguard" in destruct H as [G ?]; subst
  | H : of_option _ _ _ = (Ok _, _) |- _ =>
      apply of_option_ok in H; let G := fresh "Hsome" in destruct H as [G ?]; subst
  | H : (_ ≫= _) _ = (Ok _, _) |- _ =>
      apply bind_inv_ok in H;
      let a := fresh "r" in let s := fresh "s" in let H1 := fresh "Hrun" in
      destruct H as (a & s & H1 & H)
  end.
Ltac run_inv := repeat run_inv_step.

(** [ensures I m s]: running [m] from [s] ends in a state satisfying [I],
    whether it returns or raises.  Unlike [steps], the rules hand the results
    of earlier statements to the proofs of later ones. *)
Definition ensures {E S A} (I : S → Prop) (m : prog E S A) (s : S) : Prop := I (m s).2.

Section ensures.
  Context {E S : Type} (I : S → Prop).

Lemma ensures_ret {A} (a : A) s : I s → ensures I (mret a : prog E S A) s.
Proof. done. Qed.

Lemma ensures_throw {A} (e : E) s : I s → ensures I (mthrow e : prog E S A) s.
Proof. done. Qed.

Lemma ensures_bind {A B} (m : prog E S A) (k : A → prog E S B) s :
  ensures I m s →
  (∀ a s', m s = (Ok a, s') → I s' → ensures I (k a) s') →
  ensures I (m ≫= k) s.
Proof.
  unfold ensures, mbind, prog_bind. intros Hm Hk.
  destruct (m s) as [[a|e] s'] eqn:Hr; cbn in *; [by apply Hk | done].
Qed.

Lemma ensures_catch {A} (m : prog E S A) (h : E → prog E S A) s :
  ensures I m s →
  (∀ e s', m s = (Raise e, s') → I s' → ensures I (h e) s') →
  ensures I (catch m h) s.
Proof.
  unfold ensures, catch. intros Hm Hh.
  destruct (m s) as [[a|e] s'] eqn:Hr; cbn in *; [done | by apply Hh].
Qed.

Lemma ensures_for_each {A} (l : list A) (body : A → prog E S unit) s :
  I s → (∀ a s', a ∈ l → I s' → ensures I (body a) s') → ensures I (for_each l body) s.
Proof.
  intros Hs Hb. revert s Hs. induction l as [|a l IH]; intros s Hs; cbn [for_each]; [done|].
  apply ensures_bind; [apply Hb; [left|done]|]. intros [] s' _ Hs'. apply IH; [|done].
  intros x s'' Hx. apply Hb. by right.
Qed.

(** A guard: the rest runs with the condition false. *)
Lemma ensures_guard {B} (c : bool) (e : E) (k : prog E S B) s :
  I s → (c = false → ensures I k s) → ensures I (raise_if c e;; k) s.
Proof.
  intros Hs Hk. apply ensures_bind.
  - unfold raise_if. by destruct c.
  - intros u s' Hr _. apply raise_if_ok in Hr as [Hc ->]. auto.
Qed.

Lemma ensures_gets {A B} (f : S → A) (k : A → prog E S B) s :
  ensures I (k (f s)) s → ensures I (gets f ≫= k) s.
Proof. done. Qed.

Lemma ensures_of_option {A B} (e : E) (o : option A) (k : A → prog E S B) s :
  I s → (∀ a, o = Some a → ensures I (k a) s) → ensures I (of_option e o ≫= k) s.
Proof. intros Hs Hk. destruct o as [a|]; [exact (Hk a eq_refl) | exact Hs]. Qed.

Lemma ensures_of_outcome {A B} (o : outcome E A) (k : A → prog E S B) s :
  I s → (∀ a, o = Ok a → ensures I (k a) s) → ensures I (of_outcome o ≫= k) s.
Proof. intros Hs Hk. destruct o as [a|]; [exact (Hk a eq_refl) | exact Hs]. Qed.

End ensures.

(** [wp m Q s]: running [m] from [s] ends with an outcome and a state that
    satisfy [Q]. *)
Definition wp {E S A} (m : prog E S A) (Q : outcome E A → S → Prop) (s : S) : Prop :=
  Q (m s).1 (m s).2.

Section wp.
  Context {E S : Type}.

Lemma wp_bind {A B} (m : prog E S A) (k : A → prog E S B) Q s :
  wp m (λ r s', match r with Ok a => wp (k a) Q s' | Raise e => Q (Raise e) s' end) s →
  wp (m ≫= k) Q s.
Proof. unfold wp, mbind, prog_bind. intros Hm. by destruct (m s) as [[a|e] s']. Qed.

Lemma wp_catch {A} (m : prog E S A) (h : E → prog E S A) Q s :
  wp m (λ r s', match r with Ok a => Q (Ok a) s' | Raise e => wp (h e) Q s' end) s →
  wp (catch m h) Q s.
Proof. unfold wp, catch. intros Hm. by destruct (m s) as [[a|e] s']. Qed.

Lemma wp_mono {A} (m : prog E S A) (P Q : outcome E A → S → Prop) s :
  wp m P s → (∀ r s', P r s' → Q r s') → wp m Q s.
Proof. unfold wp. auto. Qed.

Lemma wp_ret {A} (a : A) (Q : outcome E A → S → Prop) s : Q (Ok a) s → wp (mret a) Q s.
Proof. done. Qed.

Lemma wp_throw {A} (e : E) (Q : outcome E A → S → Prop) s : Q (Raise e) s → wp (mthrow e) Q s.
Proof. done. Qed.

Lemma wp_gets {A B} (f : S → A) (k : A → prog E S B) Q s :
  wp (k (f s)) Q s → wp (gets f ≫= k) Q s.
Proof. done. Qed.

Lemma wp_of_outcome {A B} (o : outcome E A) (k : A → prog E S B) Q s :
  (∀ a, o = Ok a → wp (k a) Q s) → (∀ e, o = Raise e → Q (Raise e) s) →
  wp (of_outcome o ≫= k) Q s.
Proof. destruct o as [a|e]; [intros Hk _; exact (Hk a eq_refl) | intros _ Hr; exact (Hr e eq_refl)]. Qed.

Lemma wp_of_option {A B} (e : E) (o : option A) (k : A → prog E S B) Q s :
  (∀ a, o = Some a → wp (k a) Q s) → (o = None → Q (Raise e) s) →
  wp (of_option e o ≫= k) Q s.
Proof. destruct o as [a|]; [intros Hk _; exact (Hk a eq_refl) | intros _ Hr; exact (Hr eq_refl)]. Qed.

Lemma wp_guard {B} (c : bool) (e : E) (k : prog E S B) Q s :
  (c = false → wp k Q s) → (c = true → Q (Raise e) s) → wp (raise_if c e;; k) Q s.
Proof. destruct c; [intros _ Hr; exact (Hr eq_refl) | intros Hk _; exact (Hk eq_refl)]. Qed.

(** A first statement whose result is known. *)
Lemma wp_step {A B} (m : prog E S A) (k : A → prog E S B) Q s a s' :
  m s = (Ok a, s') → wp (k a) Q s' → wp (m ≫= k) Q s.
Proof. intros Hm Hk. unfold wp. by rewrite (bind_ok _ _ _ _ _ Hm). Qed.

(** A first statement that only reads. *)
Lemma wp_read {A B} (m : prog E S A) (k : A → prog E S B) Q s :
  steps eq m → (∀ a, m s = (Ok a, s) → wp (k a) Q s) → (∀ e, m s = (Raise e, s) → Q (Raise e) s) →
  wp (m ≫= k) Q s.
Proof.
  intros Hm Hk Hr. apply wp_bind. specialize (Hm s). unfold wp.
  destruct (m s) as [[a|e] s'] eqn:Hs; cbn in *; subst s'; [by apply Hk | by apply Hr].
Qed.

(** A first statement that keeps an invariant, whether it returns or raises. *)
Lemma wp_keep {A B} (I : S → Prop) (m : prog E S A) (k : A → prog E S B) Q s :
  I s → steps (keeps I) m → (∀ a s', m s = (Ok a, s') → I s' → wp (k a) Q s') →
  (∀ e s', I s' → Q (Raise e) s') → wp (m ≫= k) Q s.
Proof.
  intros Hs Hm Hk Hr. apply wp_bind. specialize (Hm s Hs). unfold wp.
  destruct (m s) as [[a|e] s'] eqn:Hrun; cbn in *; [by apply Hk | by apply Hr].
Qed.

(** From the specification of a program to a run of it. *)
Lemma wp_run {A} (m : prog E S A) (Q : outcome E A → S → Prop) s r s' :
  wp m Q s → m s = (r, s') → Q r s'.
Proof. unfold wp. intros HQ Hm. by rewrite Hm in HQ. Qed.

Lemma wp_intro {A} (m : prog E S A) (Q : outcome E A → S → Prop) s :
  (∀ r s', m s = (r, s') → Q r s') → wp m Q s.
Proof. intros HQ. apply HQ, surjective_pairing. Qed.

Lemma steps_run {A} (R : S → S → Prop) (m : prog E S A) s r s' :
  steps R m → m s = (r, s') → R s s'.
Proof. intros Hm Hr. specialize (Hm s). by rewrite Hr in Hm. Qed.

End wp.
