(* ===== verification/Tables.v ===== *)
(** * Tables, queries and sorting

    A database table is the list of its rows in insertion order.  This file
    holds the queries the repositories of the program issue (selection,
    [scalar_one_or_none], conditional [UPDATE], [ORDER BY]) and the lemmas
    that every component shares about them. *)

From Stdlib Require Import ZArith Lia Sorting.Sorted.
From stdpp Require Import base tactics list option strings numbers.
From S2P Require Import Prelude.

(** A [uuid.UUID] is represented by its canonical text, so that [str(u)] is a
    projection and two UUIDs are equal exactly when their texts are. *)
Record UUID := mk_uuid { uuid_str : string }.

Global Instance UUID_eq_dec : EqDecision UUID.
Proof. solve_decision. Defined.

Global Instance uuid_str_inj : Inj (=) (=) uuid_str.
Proof. intros [x] [y]; cbn. by intros ->. Qed.

(** Rows with a primary key. *)
Class Row (A : Type) := row_id : A → UUID.

(** ** Queries *)

Definition select {A} (p : A → bool) (t : list A) : list A := List.filter p t.

(** [scalars().first()] *)
Definition first {A} (p : A → bool) (t : list A) : option A := head (select p t).

(** [scalar_one_or_none()]: raises when more than one row matches. *)
Definition scalar_one_or_none {E A} (many : E) (l : list A) : outcome E (option A) :=
  match l with
  | [] => Ok None
  | [x] => Ok (Some x)
  | _ => Raise many
  end.

(** [session.get(Model, id)] *)
Definition get_row `{Row A} (i : UUID) (t : list A) : option A :=
  first (λ r, row_id r == i) t.

(** [UPDATE t SET ... WHERE p], also an attribute assignment on a loaded row. *)
Definition update_where {A} (p : A → bool) (f : A → A) (t : list A) : list A :=
  map (λ r, if p r then f r else r) t.

Definition update_row `{Row A} (i : UUID) (f : A → A) (t : list A) : list A :=
  update_where (λ r, row_id r == i) f t.

(** [result.rowcount] of the UPDATE above. *)
Definition rowcount {A} (p : A → bool) (t : list A) : nat := length (select p t).

Definition sum_of {A} (f : A → Z) (t : list A) : Z := foldr (λ r acc, f r + acc)%Z 0%Z t.

(** ** Lemmas on queries *)

Lemma select_app {A} (p : A → bool) t1 t2 :
  select p (t1 ++ t2) = select p t1 ++ select p t2.
Proof. apply List.filter_app. Qed.

(** A column without repetitions identifies the row. *)
Lemma NoDup_fmap_inj {A B} (f : A → B) (l : list A) x y :
  NoDup (f <$> l) → x ∈ l → y ∈ l → f x = f y → x = y.
Proof.
  induction l as [|z l IH]; cbn; intros Hnd Hx Hy Heq; [by apply elem_of_nil in Hx|].
  apply list.NoDup_cons in Hnd as [Hz Hnd].
  apply elem_of_cons in Hx as [->|Hx]; apply elem_of_cons in Hy as [->|Hy]; auto.
  - exfalso. apply Hz. rewrite Heq. by apply list_elem_of_fmap_2.
  - exfalso. apply Hz. rewrite <- Heq. by apply list_elem_of_fmap_2.
Qed.

Lemma elem_of_select {A} (p : A → bool) t r : r ∈ select p t ↔ r ∈ t ∧ p r = true.
Proof. unfold select. rewrite !list_elem_of_In, List.filter_In. done. Qed.

Lemma first_Some {A} (p : A → bool) t r : first p t = Some r → r ∈ t ∧ p r = true.
Proof.
  unfold first. destruct (select p t) as [|x l] eqn:Hs; [done|].
  intros [= ->]. apply elem_of_select. rewrite Hs. left.
Qed.

Lemma first_None {A} (p : A → bool) t : first p t = None ↔ select p t = [].
Proof. unfold first. by destruct (select p t). Qed.

Lemma first_is_Some {A} (p : A → bool) t r :
  r ∈ t → p r = true → ∃ r', first p t = Some r'.
Proof.
  intros Hr Hp. destruct (first p t) as [r'|] eqn:Hf; [eauto|].
  apply first_None in Hf. assert (r ∈ select p t) as Hin by (by apply elem_of_select).
  rewrite Hf in Hin. by apply elem_of_nil in Hin.
Qed.

Lemma first_app {A} (p : A → bool) t1 t2 :
  first p (t1 ++ t2) = match first p t1 with Some r => Some r | None => first p t2 end.
Proof. unfold first. rewrite select_app. by destruct (select p t1). Qed.

Lemma select_ext {A} (p q : A → bool) t :
  (∀ r, r ∈ t → p r = q r) → select p t = select q t.
Proof.
  intros H. unfold select. apply List.filter_ext_in.
  intros r Hr. apply H. by apply list_elem_of_In.
Qed.

Lemma select_nil {A} (p : A → bool) t :
  select p t = [] ↔ ∀ r, r ∈ t → p r = false.
Proof.
  split.
  - intros Hs r Hr. destruct (p r) eqn:Hp; [|done].
    assert (r ∈ select p t) as Hin by (by apply elem_of_select).
    rewrite Hs in Hin. by apply elem_of_nil in Hin.
  - intros H. rewrite (select_ext p (λ _, false) t H). clear H.
    induction t as [|x t IH]; [done | exact IH].
Qed.

Lemma sum_of_app {A} (f : A → Z) t1 t2 :
  sum_of f (t1 ++ t2) = (sum_of f t1 + sum_of f t2)%Z.
Proof. unfold sum_of. induction t1 as [|x t1 IH]; cbn; [done|]. rewrite IH. lia. Qed.

Lemma sum_select_cons {A} (f : A → Z) (p : A → bool) x t :
  sum_of f (select p (x :: t)) = ((if p x then f x else 0) + sum_of f (select p t))%Z.
Proof. cbn. by case_match. Qed.

Lemma sum_of_nonneg {A} (f : A → Z) t :
  (∀ r, r ∈ t → (0 ≤ f r)%Z) → (0 ≤ sum_of f t)%Z.
Proof.
  induction t as [|x t IH]; intros H; [done|].
  change (sum_of f (x :: t)) with (f x + sum_of f t)%Z.
  specialize (H x ltac:(left)) as Hx. assert (0 ≤ sum_of f t)%Z by (apply IH; intros r Hr; apply H; by right).
  lia.
Qed.

(** *** Updates *)

Lemma update_where_app {A} (p : A → bool) f t1 t2 :
  update_where p f (t1 ++ t2) = update_where p f t1 ++ update_where p f t2.
Proof. apply List.map_app. Qed.

Lemma length_update_where {A} (p : A → bool) f t : length (update_where p f t) = length t.
Proof. apply List.length_map. Qed.

Lemma elem_of_update_where {A} (p : A → bool) f (t : list A) r :
  r ∈ update_where p f t ↔ ∃ r0, r0 ∈ t ∧ r = (if p r0 then f r0 else r0).
Proof.
  unfold update_where. rewrite list_elem_of_In, List.in_map_iff.
  setoid_rewrite list_elem_of_In. split; intros (r0 & H1 & H2); eauto.
Qed.

(** A query that the update cannot affect returns the updated versions of the
    same rows. *)
Lemma select_update_where {A} (p q : A → bool) f t :
  (∀ r, r ∈ t → p r = true → q (f r) = q r) →
  select q (update_where p f t) = update_where p f (select q t).
Proof.
  intros H. induction t as [|x t IH]; [done|].
  assert (∀ r, r ∈ t → p r = true → q (f r) = q r) as H'
    by (intros r Hr; apply H; by right).
  specialize (IH H'). cbn. unfold select in IH. unfold update_where in *. cbn.
  destruct (p x) eqn:Hp.
  - rewrite (H x ltac:(left) Hp). destruct (q x); cbn; rewrite ?Hp, IH; done.
  - destruct (q x); cbn; rewrite ?Hp, IH; done.
Qed.

(** An UPDATE that does not touch the key. *)
Lemma fmap_update_where {A B} (g : A → B) (p : A → bool) f t :
  (∀ x, x ∈ t → p x = true → g (f x) = g x) → g <$> update_where p f t = g <$> t.
Proof.
  induction t as [|x t IH]; intros Hg; [done|].
  change (g (if p x then f x else x) :: (g <$> update_where p f t) = g x :: (g <$> t)).
  rewrite IH by (intros y Hy; apply Hg; by right).
  f_equal. destruct (p x) eqn:Hp; [|done]. apply Hg; [left|done].
Qed.

Lemma update_where_id {A} (p : A → bool) f (t : list A) :
  (∀ r, r ∈ t → p r = true → f r = r) → update_where p f t = t.
Proof.
  intros H. induction t as [|x t IH]; [done|]. unfold update_where in *. cbn.
  rewrite IH by (intros r Hr; apply H; by right).
  destruct (p x) eqn:Hp; [rewrite (H x) by (done || left)|]; done.
Qed.

Lemma sum_of_update_where {A} (p : A → bool) f (g : A → Z) t :
  (∀ r, r ∈ t → p r = true → g (f r) = g r) →
  sum_of g (update_where p f t) = sum_of g t.
Proof.
  intros H. induction t as [|x t IH]; [done|].
  specialize (IH ltac:(intros r Hr; apply H; by right)).
  unfold sum_of, update_where in *. cbn. rewrite IH.
  destruct (p x) eqn:Hp; [rewrite (H x) by (done || left)|]; done.
Qed.

(** *** Primary-key access *)

Section rows.
  Context {A} `{!Row A}.
  Implicit Types (t : list A) (f : A → A).

Lemma get_row_Some i t r : get_row i t = Some r → r ∈ t ∧ row_id r = i.
Proof. intros H. apply first_Some in H as [? ?]. by rewrite bool_decide_eq_true in *. Qed.

Lemma get_row_None i t : get_row i t = None ↔ ∀ r, r ∈ t → row_id r ≠ i.
Proof.
  unfold get_row. rewrite first_None, select_nil.
  by setoid_rewrite bool_decide_eq_false.
Qed.

Lemma get_row_member t r : NoDup (row_id <$> t) → r ∈ t → get_row (row_id r) t = Some r.
Proof.
  intros Hnd Hr. destruct (get_row (row_id r) t) as [x|] eqn:Hx.
  - apply get_row_Some in Hx as [Hin Hi]. f_equal. by eapply (NoDup_fmap_inj row_id).
  - by destruct (proj1 (get_row_None _ _) Hx r Hr).
Qed.

Lemma get_update_same i f t :
  (∀ r, row_id (f r) = row_id r) →
  get_row i (update_row i f t) = f <$> get_row i t.
Proof.
  intros Hf. unfold get_row, update_row, first.
  rewrite select_update_where by (intros; by rewrite Hf).
  destruct (select _ t) as [|x l] eqn:Hs; [done|]. cbn.
  assert (x ∈ select (λ r, row_id r == i) t) as Hin by (rewrite Hs; left).
  apply elem_of_select in Hin as [_ Hx]. by rewrite Hx.
Qed.

Lemma get_update_ne i j f t :
  i ≠ j → (∀ r, row_id (f r) = row_id r) →
  get_row j (update_row i f t) = get_row j t.
Proof.
  intros Hne Hf. unfold get_row, update_row, first.
  rewrite select_update_where by (intros; by rewrite Hf).
  destruct (select _ t) as [|x l] eqn:Hs; [done|]. cbn.
  assert (x ∈ select (λ r, row_id r == j) t) as Hin by (rewrite Hs; left).
  apply elem_of_select in Hin as [_ Hx]. rewrite bool_decide_eq_true in Hx.
  rewrite bool_decide_eq_false_2 by congruence. done.
Qed.

Lemma get_row_app_new i t r :
  get_row i (t ++ [r]) =
    match get_row i t with
    | Some r' => Some r'
    | None => if row_id r == i then Some r else None
    end.
Proof.
  unfold get_row. rewrite first_app. destruct (first _ t); [done|].
  unfold first. cbn. by destruct (row_id r == i).
Qed.

End rows.

(** ** Sorting

    [list.sort(key=...)] is stable; so is insertion sort with a reflexive
    comparison. *)

Fixpoint insert_by {A} (leb : A → A → bool) (x : A) (l : list A) : list A :=
  match l with
  | [] => [x]
  | y :: l' => if leb x y then x :: y :: l' else y :: insert_by leb x l'
  end.

Definition sort_by {A} (leb : A → A → bool) (l : list A) : list A :=
  foldr (insert_by leb) [] l.

Section sorting.
  Context {A : Type} (leb : A → A → bool).

Lemma insert_by_perm x l : insert_by leb x l ≡ₚ x :: l.
Proof.
  induction l as [|y l IH]; cbn; [done|].
  destruct (leb x y); [done|]. rewrite IH. apply Permutation_swap.
Qed.

Lemma sort_by_perm l : sort_by leb l ≡ₚ l.
Proof. induction l as [|x l IH]; cbn; [done|]. by rewrite insert_by_perm, IH. Qed.

Lemma elem_of_sort_by x l : x ∈ sort_by leb l ↔ x ∈ l.
Proof. by rewrite sort_by_perm. Qed.

Hypothesis leb_total : ∀ x y, leb x y = true ∨ leb y x = true.
Hypothesis leb_trans : ∀ x y z, leb x y = true → leb y z = true → leb x z = true.

Lemma insert_by_sorted x l :
  StronglySorted (λ a b, leb a b = true) l →
  StronglySorted (λ a b, leb a b = true) (insert_by leb x l).
Proof.
  induction 1 as [|y l Hl IH Hy]; cbn; [repeat constructor|].
  destruct (leb x y) eqn:Hxy.
  - constructor; [by constructor|]. constructor; [done|].
    eapply List.Forall_impl; [|exact Hy]. intros z Hz. eauto.
  - constructor; [done|]. rewrite insert_by_perm. constructor; [|done].
    destruct (leb_total x y); congruence.
Qed.

Lemma sort_by_sorted l : StronglySorted (λ a b, leb a b = true) (sort_by leb l).
Proof. induction l; cbn; [constructor | by apply insert_by_sorted]. Qed.

End sorting.

(** A list that is already in order is left alone. *)
Lemma sort_by_id {A} (leb : A → A → bool) l :
  StronglySorted (λ a b, leb a b = true) l → sort_by leb l = l.
Proof.
  induction 1 as [|x l Hl IH Hx]; [done|].
  change (sort_by leb (x :: l)) with (insert_by leb x (sort_by leb l)). rewrite IH.
  destruct l as [|y l]; cbn; [done|]. inversion_clear Hx as [|? ? Hxy ?]. by rewrite Hxy.
Qed.

(** ** [ORDER BY]

    Comparison of UUIDs by their text, lexicographic comparison of an integer
    key and then of the rest, and the facts every sorted query shares. *)

Definition uuid_leb (a b : UUID) : bool := String.leb (uuid_str a) (uuid_str b).

Definition then_by {A} (key : A → Z) (rest : A → A → bool) (a b : A) : bool :=
  ((key a <? key b) || ((key a =? key b) && rest a b))%Z.

Section sorted_heads.
  Context {A : Type}.

(** [leb] is a total preorder. *)
Record ordering (leb : A → A → bool) : Prop := {
  ord_total a b : leb a b = true ∨ leb b a = true;
  ord_trans a b c : leb a b = true → leb b c = true → leb a c = true;
}.

Lemma then_by_ordering (key : A → Z) rest : ordering rest → ordering (then_by key rest).
Proof.
  intros [Ht Htr]. split; unfold then_by.
  - intros a b. specialize (Ht a b). rewrite !orb_true_iff, !andb_true_iff, !Z.ltb_lt, !Z.eqb_eq.
    destruct (Z.lt_trichotomy (key a) (key b)) as [|[|]]; [auto|destruct Ht; eauto 6 with lia|auto].
  - intros a b c. rewrite !orb_true_iff, !andb_true_iff, !Z.ltb_lt, !Z.eqb_eq.
    intros [?|[? ?]] [?|[? ?]]; [left; lia|left; lia|left; lia|right; split; [lia|eauto]].
Qed.

(** The first row of an [ORDER BY] is before every other one. *)
Lemma head_sorted leb l x y :
  ordering leb → head (sort_by leb l) = Some x → y ∈ l → leb x y = true.
Proof.
  intros [Ht Htr] Hh Hy. pose proof (sort_by_sorted leb Ht Htr l) as Hsort.
  rewrite <- (elem_of_sort_by leb) in Hy. destruct (sort_by leb l) as [|z t]; [done|].
  injection Hh as ->. apply elem_of_cons in Hy as [->|Hy].
  - destruct (Ht x x); done.
  - inversion_clear Hsort as [|? ? _ Hall]. rewrite List.Forall_forall in Hall.
    by apply Hall, list_elem_of_In.
Qed.

Lemma head_sort_none (leb : A → A → bool) l : head (sort_by leb l) = None → l = [].
Proof.
  intros Hh. apply Permutation_nil_r. rewrite <- (sort_by_perm leb l). by destruct (sort_by leb l).
Qed.

Lemma head_sort_elem (leb : A → A → bool) l x : head (sort_by leb l) = Some x → x ∈ l.
Proof. intros Hh%head_Some_elem_of. by rewrite elem_of_sort_by in Hh. Qed.

End sorted_heads.

Lemma string_leb_trans x y z :
  String.leb x y = true → String.leb y z = true → String.leb x z = true.
Proof.
  assert (∀ x y z, String.compare x y ≠ Gt → String.compare y z ≠ Gt → String.compare x z ≠ Gt) as Hc.
  { clear. intros x. induction x as [|a x IH]; intros [|b y] [|c z]; cbn; try done.
    unfold Ascii.compare. intros H1 H2.
    destruct (N.compare_spec (Ascii.N_of_ascii a) (Ascii.N_of_ascii b)) as [E1|E1|E1]; [| |done];
    destruct (N.compare_spec (Ascii.N_of_ascii b) (Ascii.N_of_ascii c)) as [E2|E2|E2]; try done;
    destruct (N.compare_spec (Ascii.N_of_ascii a) (Ascii.N_of_ascii c)) as [E3|E3|E3]; try lia; eauto. }
  specialize (Hc x y z). unfold String.leb.
  destruct (String.compare x y), (String.compare y z), (String.compare x z); try done;
    exfalso; by apply Hc.
Qed.

Lemma uuid_ordering {A} (f : A → UUID) : ordering (λ a b, uuid_leb (f a) (f b)).
Proof.
  unfold uuid_leb. split.
  - intros a b. destruct (String.leb_total (uuid_str (f a)) (uuid_str (f b))) as [H|H]; auto.
  - intros a b c. apply string_leb_trans.
Qed.
