(* ===== verification/Text.v ===== *)
(** * Text normalisation

    [str.strip], [str.upper], [str.lower], [str.isalnum], [str.replace] and
    [urllib.parse.urlsplit] as the program uses them, on ASCII text (the identifiers it normalises:
    assets, networks, currencies, idempotency keys, coupon codes). *)

From Stdlib Require Import ZArith Lia Ascii String.
From stdpp Require Import base tactics list option strings numbers.
From S2P Require Import Prelude Tables.

(** ** Characters *)

Definition code (c : ascii) : nat := nat_of_ascii c.

(** [c.isspace()]: tab to carriage return, the four separators, space. *)
Definition is_space (c : ascii) : bool :=
  ((9 <=? code c) && (code c <=? 13) || (28 <=? code c) && (code c <=? 32))%nat.

Definition is_upper (c : ascii) : bool := ((65 <=? code c) && (code c <=? 90))%nat.
Definition is_lower (c : ascii) : bool := ((97 <=? code c) && (code c <=? 122))%nat.
Definition is_digit (c : ascii) : bool := ((48 <=? code c) && (code c <=? 57))%nat.
Definition is_alnum (c : ascii) : bool := is_upper c || is_lower c || is_digit c.

Definition to_upper (c : ascii) : ascii :=
  if is_lower c then ascii_of_nat (code c - 32) else c.
Definition to_lower (c : ascii) : ascii :=
  if is_upper c then ascii_of_nat (code c + 32) else c.

(** ** Strings *)

Abbreviation chars := list_ascii_of_string.
Abbreviation of_chars := string_of_list_ascii.

Fixpoint drop_while {A} (p : A → bool) (l : list A) : list A :=
  match l with
  | [] => []
  | x :: l' => if p x then drop_while p l' else x :: l'
  end.

Definition strip_chars (l : list ascii) : list ascii :=
  rev (drop_while is_space (rev (drop_while is_space l))).

Definition strip (s : string) : string := of_chars (strip_chars (chars s)).
Definition upper (s : string) : string := of_chars (map to_upper (chars s)).
Definition lower (s : string) : string := of_chars (map to_lower (chars s)).

(** [s.isalnum()]: not empty, and every character a letter or a digit. *)
Definition isalnum (s : string) : bool := (s != "") && forallb is_alnum (chars s).

(** [s.replace("_", "")] *)
Definition without_underscores (s : string) : string :=
  of_chars (select (λ c, c != "_"%char) (chars s)).

(** [s[:n]] *)
Definition prefix_of (n : nat) (s : string) : string := of_chars (take n (chars s)).

(** [int(s)]: surrounding space, a sign, digits, single underscores between
    digits. *)
Fixpoint int_digits (l : list ascii) (acc : Z) (after_digit : bool) : option Z :=
  match l with
  | [] => if after_digit then Some acc else None
  | c :: l =>
      if is_digit c then int_digits l (10 * acc + (Z.of_nat (code c) - 48))%Z true
      else if (c == "_"%char) && after_digit then int_digits l acc false
      else None
  end.

Definition int_of_str (s : string) : option Z :=
  match strip_chars (chars s) with
  | "-"%char :: l => Z.opp <$> int_digits l 0 false
  | "+"%char :: l => int_digits l 0 false
  | l => int_digits l 0 false
  end.

(** [s.isalpha()], of ASCII text *)
Definition isalpha (s : string) : bool := (s != "") && forallb (λ c, is_upper c || is_lower c) (chars s).

(** [s.split(c)] *)
Fixpoint split_on (c : ascii) (l : list ascii) : list (list ascii) :=
  match l with
  | [] => [[]]
  | x :: l =>
      if x == c then [] :: split_on c l
      else match split_on c l with
           | [] => [[x]]
           | w :: ws => (x :: w) :: ws
           end
  end.

(** [s.replace(word, by)] *)
Fixpoint replace_chars (n : nat) (word by_ l : list ascii) : list ascii :=
  match n, l with
  | S n, c :: l' =>
      if bool_decide (take (length word) l = word) then by_ ++ replace_chars n word by_ (drop (length word) l)
      else c :: replace_chars n word by_ l'
  | _, _ => l
  end.

Definition replace_word (word by_ s : string) : string :=
  of_chars (replace_chars (String.length s) (chars word) (chars by_) (chars s)).

(** [fragment in s] *)
Fixpoint occurs (fragment s : string) : bool :=
  String.prefix fragment s || match s with EmptyString => false | String _ s => occurs fragment s end.

(** ** URLs

    [urllib.parse.urlsplit], as far as the program looks at its result: the
    scheme and the network location.  [None] is its [ValueError] for unbalanced
    brackets; the address between balanced ones is not checked here. *)

(** The characters before the first one that satisfies [p], and the rest. *)
Fixpoint break_at {A} (p : A → bool) (l : list A) : list A * list A :=
  match l with
  | [] => ([], [])
  | x :: l' => if p x then ([], l) else let '(a, b) := break_at p l' in (x :: a, b)
  end.

Definition is_scheme_char (c : ascii) : bool :=
  is_alnum c || (c == "+"%char) || (c == "-"%char) || (c == "."%char).

Definition split_scheme (l : list ascii) : string * list ascii :=
  match break_at (λ c, c == ":"%char) l with
  | (c :: scheme, _ :: rest) =>
      if (is_upper c || is_lower c) && forallb is_scheme_char (c :: scheme)
      then (lower (of_chars (c :: scheme)), rest) else ("", l)
  | _ => ("", l)
  end.

Definition split_netloc (l : list ascii) : list ascii :=
  match l with
  | "/"%char :: "/"%char :: l =>
      fst (break_at (λ c, (c == "/"%char) || (c == "?"%char) || (c == "#"%char)) l)
  | _ => []
  end.

Definition urlsplit (url : string) : option (string * string) :=
  let l := select (λ c, (c != "009"%char) && (c != "010"%char) && (c != "013"%char))
             (drop_while (λ c, code c <=? 32)%nat (chars url)) in
  let '(scheme, rest) := split_scheme l in
  let netloc := split_netloc rest in
  let has c := existsb (λ c', c' == c) netloc in
  if xorb (has "["%char) (has "]"%char) then None else Some (scheme, of_chars netloc).

(** [parsed.username or parsed.password]: the user information before the last
    [@], without its first colon, is not empty. *)
Definition has_credentials (netloc : string) : bool :=
  match break_at (λ c, c == "@"%char) (rev (chars netloc)) with
  | (_, _ :: userinfo) =>
      let '(username, password) := break_at (λ c, c == ":"%char) (rev userinfo) in
      negb (length username =? 0)%nat || (1 <? length password)%nat
  | _ => false
  end.

(** ** [decimal.Decimal] and [uuid.UUID] from text *)

(** What [Decimal(s)] denotes: [coefficient * 10 ^ exponent], an infinity or a
    NaN. *)
Inductive decimal_literal :=
  | DecFinite (coefficient exponent : Z)
  | DecInfinity (negative : bool)
  | DecNaN.

Definition digits_of (l : list ascii) : option Z :=
  foldl (λ acc c, acc ← acc; if is_digit c then Some (10 * acc + (Z.of_nat (code c) - 48))%Z else None)
    (Some 0%Z) l.

(** An optional sign. *)
Definition signed (l : list ascii) : bool * list ascii :=
  match l with
  | "-"%char :: l => (true, l)
  | "+"%char :: l => (false, l)
  | _ => (false, l)
  end.

Definition signed_int (l : list ascii) : option Z :=
  let '(neg, l) := signed l in
  if (length l =? 0)%nat then None
  else n ← digits_of l; Some (if neg then - n else n)%Z.

(** Digits with an optional point, at least one digit. *)
Definition mantissa (l : list ascii) : option (Z * Z) :=
  let '(whole, rest) := break_at (λ c, c == "."%char) l in
  let fraction := drop 1 rest in
  if (length (whole ++ fraction) =? 0)%nat then None
  else n ← digits_of (whole ++ fraction); Some (n, - Z.of_nat (length fraction))%Z.

Definition decimal_of_str (s : string) : option decimal_literal :=
  let l := select (λ c, c != "_"%char) (strip_chars (chars s)) in
  let '(neg, l) := signed l in
  let word := lower (of_chars l) in
  if (word == "inf") || (word == "infinity") then Some (DecInfinity neg)
  else if (String.prefix "nan" word && forallb is_digit (drop 3 l))
          || (String.prefix "snan" word && forallb is_digit (drop 4 l)) then Some DecNaN
  else
    let '(m, e) := break_at (λ c, (c == "e"%char) || (c == "E"%char)) l in
    '(n, shift) ← mantissa m;
    exponent ← match e with [] => Some 0%Z | _ :: e => signed_int e end;
    Some (DecFinite (if neg then - n else n) (shift + exponent))%Z.

(** [a < b]; ordering a NaN raises [InvalidOperation], here [None]. *)
Definition decimal_ltb (a b : decimal_literal) : option bool :=
  match a, b with
  | DecNaN, _ | _, DecNaN => None
  | DecInfinity na, DecInfinity nb => Some (na && negb nb)
  | DecInfinity na, DecFinite _ _ => Some na
  | DecFinite _ _, DecInfinity nb => Some (negb nb)
  | DecFinite c e, DecFinite c' e' =>
      let m := Z.min e e' in Some (c * 10 ^ (e - m) <? c' * 10 ^ (e' - m))%Z
  end.

Definition hex_digit (c : ascii) : option Z :=
  if is_digit c then Some (Z.of_nat (code c) - 48)%Z
  else if ((97 <=? code (to_lower c)) && (code (to_lower c) <=? 102))%nat
  then Some (Z.of_nat (code (to_lower c)) - 87)%Z else None.

(** [int(s, 16)]: space, a sign, an optional [0x], hexadecimal digits with
    single underscores between them. *)
Fixpoint hex_digits (l : list ascii) (acc : Z) (after_digit : bool) : option Z :=
  match l with
  | [] => if after_digit then Some acc else None
  | c :: l =>
      match hex_digit c with
      | Some d => hex_digits l (16 * acc + d)%Z true
      | None => if (c == "_"%char) && after_digit then hex_digits l acc false else None
      end
  end.

Definition hex_of_str (l : list ascii) : option Z :=
  let '(neg, l) := signed (strip_chars l) in
  n ← match l with
      | "0"%char :: x :: l' =>
          if to_lower x == "x"%char then
            hex_digits (match l' with "_"%char :: l'' => l'' | _ => l' end) 0 false
          else hex_digits l 0 false
      | _ => hex_digits l 0 false
      end;
  Some (if neg then - n else n)%Z.

Fixpoint to_hex (n : nat) (z : Z) : list ascii :=
  match n with
  | O => []
  | S n => to_hex n (z / 16)%Z ++
           [let d := Z.to_nat (z mod 16)%Z in ascii_of_nat (if (d <? 10)%nat then 48 + d else 87 + d)]
  end.

(** Removes every occurrence of a word, scanning from the left. *)
Fixpoint without (n : nat) (word l : list ascii) : list ascii :=
  match n, l with
  | S n, c :: l' =>
      if bool_decide (take (length word) l = word) then without n word (drop (length word) l)
      else c :: without n word l'
  | _, _ => l
  end.

Definition without_word (word : string) (l : list ascii) : list ascii :=
  without (length l) (chars word) l.

(** [uuid.UUID(s)]: [urn:], [uuid:], braces and hyphens are dropped and 32
    characters must remain; the result is written in its canonical form. *)
Definition uuid_of_str (s : string) : option UUID :=
  let l := without_word "uuid:" (without_word "urn:" (chars s)) in
  let brace c := (c == "{"%char) || (c == "}"%char) in
  let l := rev (drop_while brace (rev (drop_while brace l))) in
  let l := select (λ c, c != "-"%char) l in
  if negb (length l =? 32)%nat then None
  else
    n ← hex_of_str l;
    if ((n <? 0) || (2 ^ 128 <=? n))%Z then None
    else
      let h := to_hex 32 n in
      let part i j := of_chars (take j (drop i h)) in
      Some (mk_uuid (part 0 8 +:+ "-" +:+ part 8 4 +:+ "-" +:+ part 12 4 +:+ "-" +:+ part 16 4
                     +:+ "-" +:+ part 20 12))%nat.

(** ** Lemmas *)

Lemma chars_of_chars l : chars (of_chars l) = l.
Proof. apply list_ascii_of_string_of_list_ascii. Qed.

Ltac all_chars c := destruct c as [[] [] [] [] [] [] [] []]; reflexivity.

Lemma to_upper_idem c : to_upper (to_upper c) = to_upper c.
Proof. all_chars c. Qed.

Lemma is_space_to_upper c : is_space (to_upper c) = is_space c.
Proof. all_chars c. Qed.

Lemma drop_while_map {A} (p : A → bool) (f : A → A) l :
  (∀ x, p (f x) = p x) → drop_while p (map f l) = map f (drop_while p l).
Proof. intros Hf. induction l as [|x l IH]; cbn; [done|]. rewrite Hf. by case_match. Qed.

Lemma drop_while_head {A} (p : A → bool) l x l' : drop_while p l = x :: l' → p x = false.
Proof.
  induction l as [|y l IH]; cbn; [done|]. destruct (p y) eqn:Hy; [exact IH|]. by intros [= <- <-].
Qed.

Lemma drop_while_suffix {A} (p : A → bool) l : ∃ k, l = k ++ drop_while p l.
Proof.
  induction l as [|y l [k IH]]; cbn; [by exists []|].
  destruct (p y); [exists (y :: k); cbn; congruence | by exists []].
Qed.

Lemma drop_while_fix {A} (p : A → bool) l :
  match l with [] => True | x :: _ => p x = false end → drop_while p l = l.
Proof. destruct l as [|x l]; cbn; [done|]. by intros ->. Qed.

Lemma strip_chars_idem l : strip_chars (strip_chars l) = strip_chars l.
Proof.
  unfold strip_chars.
  set (m := drop_while is_space l). set (k := drop_while is_space (rev m)).
  assert (drop_while is_space (rev k) = rev k) as ->.
  - apply drop_while_fix. destruct (rev k) as [|x t] eqn:Hk; [done|].
    destruct (drop_while_suffix is_space (rev m)) as [q Hq]. fold k in Hq.
    apply (f_equal (@rev _)) in Hq. rewrite rev_involutive, rev_app_distr, Hk in Hq.
    by apply (drop_while_head _ l x (t ++ rev q)).
  - rewrite rev_involutive. f_equal. apply drop_while_fix.
    destruct k as [|x t] eqn:Hk; [done|]. by apply (drop_while_head _ (rev m) x t).
Qed.

Lemma strip_chars_upper l : strip_chars (map to_upper l) = map to_upper (strip_chars l).
Proof.
  unfold strip_chars. rewrite drop_while_map by apply is_space_to_upper.
  rewrite <- map_rev, drop_while_map by apply is_space_to_upper. by rewrite map_rev.
Qed.

Lemma map_upper_idem l : map to_upper (map to_upper l) = map to_upper l.
Proof. induction l as [|c l IH]; cbn; [done|]. by rewrite to_upper_idem, IH. Qed.

(** [x.strip().upper()] is a normal form. *)
Lemma upper_strip_idem s : upper (strip (upper (strip s))) = upper (strip s).
Proof.
  unfold upper, strip. rewrite !chars_of_chars.
  by rewrite strip_chars_upper, strip_chars_idem, map_upper_idem.
Qed.

Lemma strip_idem s : strip (strip s) = strip s.
Proof. unfold strip. by rewrite chars_of_chars, strip_chars_idem. Qed.

(** ** Lengths *)

Lemma length_append a b : String.length (a +:+ b) = (String.length a + String.length b)%nat.
Proof.
  induction a as [|c a IH]; [done|]. change (String c a +:+ b) with (String c (a +:+ b)). cbn. by rewrite IH.
Qed.

Lemma prefix_of_length n v : (String.length (prefix_of n v) ≤ n)%nat.
Proof.
  unfold prefix_of. enough (∀ l, String.length (of_chars l) = length l) as ->.
  { rewrite length_take. lia. }
  induction l as [|a l IH]; cbn; [done|]. by rewrite IH.
Qed.
