(* ===== verification/Money.v ===== *)
(** * Decimal money

    Every [Decimal] of the program comes from a [Numeric] column with at most
    18 fractional digits, a literal, or arithmetic on those, so a decimal is
    represented by the integer number of 10^-18 units it stands for.  The
    rounding modes of Python's [decimal] and the conversion a PostgreSQL
    [NUMERIC(p, s)] column applies on write are defined on that integer.
    Python rounds the result of an operation to 28 significant digits
    ([context_round]); the definitions of the other files apply it where
    operands can be wide enough (products, and sums of NUMERIC(36, 18)
    columns), and leave it out where the sum of two NUMERIC(14, 2) values
    cannot reach 28 digits. *)

From Stdlib Require Import ZArith Lia.
From stdpp Require Import base tactics numbers option.
From S2P Require Import Prelude.

Local Open Scope Z_scope.

Abbreviation dec := Z (only parsing).

Definition one : dec := 10 ^ 18.

(** The unit of a decimal with [s] fractional digits. *)
Definition quantum (s : Z) : Z := 10 ^ (18 - s).

Abbreviation cent := (quantum 2).

(** [Decimal("n") / 100], for readable amounts. *)
Definition cents (n : Z) : dec := n * 10 ^ 16.

Definition multiple_of (q x : Z) : bool := x mod q =? 0.

(** ** Rounding to a multiple of [q] *)

(** [ROUND_HALF_UP] of [decimal], also PostgreSQL's rounding of [NUMERIC]:
    to nearest, ties away from zero. *)
Definition round_half_up (q x : Z) : Z := Z.sgn x * ((2 * Z.abs x + q) / (2 * q)) * q.

(** [ROUND_DOWN]: towards zero. *)
Definition round_down (q x : Z) : Z := Z.quot x q * q.

(** [ROUND_CEILING]: towards plus infinity. *)
Definition round_ceiling (q x : Z) : Z := - ((- x) / q) * q.

(** [ROUND_HALF_EVEN], the default rounding of [Decimal.quantize]. *)
Definition round_half_even (q x : Z) : Z :=
  let f := x / q in
  let r := x mod q in
  let up := (q <? 2 * r) || ((2 * r =? q) && Z.odd f) in
  (if up then f + 1 else f) * q.

(** ** The default decimal context: 28 significant digits, half even *)

Fixpoint count_digits (fuel : nat) (x : Z) : Z :=
  match fuel with
  | O => 1
  | S fuel => if x <? 10 then 1 else 1 + count_digits fuel (x / 10)
  end.

(** Number of decimal digits; the widest intermediate value of the program,
    a product of two NUMERIC(36, 18) columns, has 72. *)
Definition digits (x : Z) : Z := count_digits 128 (Z.abs x).

Definition context_round (x : Z) : Z :=
  let n := digits x in if n <=? 28 then x else round_half_even (10 ^ (n - 28)) x.

(** [a * b] of two decimals, before any rounding to a column: in units of
    10^-36. *)
Definition mul (a b : dec) : Z := context_round (a * b).

(** [x.quantize(...)] to [s] digits raises [InvalidOperation] when the
    coefficient of the result [r] would need more than 28 digits. *)
Definition fits_context (s : Z) (r : dec) : bool := Z.abs r <? 10 ^ 28 * quantum s.

(** ** NUMERIC(p, s) columns

    PostgreSQL rounds to [s] digits and rejects a value whose absolute value
    reaches 10^(p-s) ("numeric field overflow"). *)
Definition numeric (p s : Z) (x : dec) : option dec :=
  let r := round_half_up (quantum s) x in
  if Z.abs r <? 10 ^ (p - s) * one then Some r else None.

(** The first value a [NUMERIC(14, 2)] column cannot hold. *)
Definition money_limit : dec := 10 ^ 12 * one.

(** ** Lemmas *)

Create HintDb money.

Lemma quantum_pos s : s ≤ 18 → 0 < quantum s.
Proof. intros. unfold quantum. apply Z.pow_pos_nonneg; lia. Qed.

Lemma cent_pos : 0 < cent.
Proof. by apply quantum_pos. Qed.

Lemma multiple_of_spec q x : q ≠ 0 → multiple_of q x = true ↔ (q | x).
Proof.
  intros Hq. unfold multiple_of. rewrite Z.eqb_eq. split.
  - by apply Z.mod_divide.
  - by apply Z.mod_divide.
Qed.

Lemma round_half_up_exact q x : 0 < q → (q | x) → round_half_up q x = x.
Proof.
  intros Hq [k ->]. unfold round_half_up.
  replace (2 * Z.abs (k * q) + q) with (q + Z.abs k * (2 * q)) by (rewrite Z.abs_mul, (Z.abs_eq q) by lia; lia).
  rewrite Z.div_add by lia. rewrite (Z.div_small q) by lia.
  rewrite Z.sgn_mul, (Z.sgn_pos q) by lia.
  pose proof (Z.abs_sgn k). nia.
Qed.

Lemma round_half_up_multiple q x : (q | round_half_up q x).
Proof. unfold round_half_up. by exists (Z.sgn x * ((2 * Z.abs x + q) / (2 * q))). Qed.

Lemma round_half_up_nonneg q x :
  0 < q → 0 ≤ x → round_half_up q x = (2 * x + q) / (2 * q) * q.
Proof.
  intros Hq Hx. unfold round_half_up. rewrite (Z.abs_eq x) by lia.
  destruct (Z.eq_dec x 0) as [->|]; [|rewrite Z.sgn_pos by lia; lia].
  rewrite Z.sgn_0. rewrite Z.mul_0_r, Z.add_0_l, Z.div_small by lia. lia.
Qed.

(** Rounding to nearest moves a value by at most half a unit. *)
Lemma round_half_up_error q x : 0 < q → 2 * Z.abs (round_half_up q x - x) ≤ q.
Proof.
  intros Hq. unfold round_half_up.
  pose proof (Z.mod_pos_bound (2 * Z.abs x + q) (2 * q) ltac:(lia)) as Hr.
  pose proof (Z.div_mod (2 * Z.abs x + q) (2 * q) ltac:(lia)) as Hd.
  set (d := (2 * Z.abs x + q) / (2 * q)) in *.
  set (r := (2 * Z.abs x + q) mod (2 * q)) in *.
  destruct (Z.sgn_spec x) as [[Hx ->]|[[Hx ->]|[Hx ->]]]; nia.
Qed.

Lemma round_half_up_mono q x y : 0 < q → 0 ≤ x → x ≤ y → round_half_up q x ≤ round_half_up q y.
Proof.
  intros Hq Hx Hxy. rewrite !round_half_up_nonneg by lia.
  apply Z.mul_le_mono_nonneg_r; [lia|]. apply Z.div_le_mono; lia.
Qed.

Lemma round_down_le q x : 0 < q → 0 ≤ x → 0 ≤ round_down q x ≤ x.
Proof.
  intros Hq Hx. unfold round_down. rewrite Z.quot_div_nonneg by lia.
  pose proof (Z.mod_pos_bound x q Hq). pose proof (Z.div_mod x q ltac:(lia)).
  pose proof (Z.div_pos x q Hx Hq). nia.
Qed.

Lemma round_down_multiple q x : (q | round_down q x).
Proof. unfold round_down. by exists (Z.quot x q). Qed.

Lemma round_ceiling_bounds q x : 0 < q → x ≤ round_ceiling q x < x + q.
Proof.
  intros Hq. unfold round_ceiling.
  pose proof (Z.mod_pos_bound (- x) q Hq). pose proof (Z.div_mod (- x) q ltac:(lia)). nia.
Qed.

Lemma round_ceiling_multiple q x : (q | round_ceiling q x).
Proof. unfold round_ceiling. by exists (- ((- x) / q)). Qed.

Lemma count_digits_bound fuel x k : 0 < k → 0 ≤ x < 10 ^ k → 1 ≤ count_digits fuel x ≤ k.
Proof.
  revert x k. induction fuel as [|fuel IH]; intros x k Hk Hx; cbn [count_digits]; [lia|].
  destruct (Z.ltb_spec x 10); [lia|].
  assert (1 < k) by (destruct (Z.le_gt_cases k 1); [assert (k = 1) as -> by lia; lia | lia]).
  assert (0 ≤ x / 10 < 10 ^ (k - 1)) as Hd.
  { split; [apply Z.div_pos; lia|]. apply Z.div_lt_upper_bound; [lia|].
    replace k with (Z.succ (k - 1)) in Hx by lia. rewrite Z.pow_succ_r in Hx by lia. lia. }
  specialize (IH (x / 10) (k - 1) ltac:(lia) Hd). lia.
Qed.

(** Values of at most 28 digits are not rounded. *)
Lemma context_round_exact x : Z.abs x < 10 ^ 28 → context_round x = x.
Proof.
  intros Hx. unfold context_round, digits.
  pose proof (count_digits_bound 128 (Z.abs x) 28 ltac:(lia) ltac:(lia)) as Hd.
  by rewrite (proj2 (Z.leb_le _ _)) by lia.
Qed.

Lemma round_half_even_nonneg q x : 0 < q → 0 ≤ x → 0 ≤ round_half_even q x.
Proof.
  intros Hq Hx. unfold round_half_even. pose proof (Z.div_pos x q Hx Hq).
  apply Z.mul_nonneg_nonneg; [case_match; lia | lia].
Qed.

Lemma context_round_nonneg x : 0 ≤ x → 0 ≤ context_round x.
Proof.
  intros Hx. unfold context_round. destruct (Z.leb_spec (digits x) 28); [done|].
  apply round_half_even_nonneg; [apply Z.pow_pos_nonneg; lia | done].
Qed.

Lemma numeric_exact p s x :
  s ≤ 18 → (quantum s | x) → Z.abs x < 10 ^ (p - s) * one → numeric p s x = Some x.
Proof.
  intros Hs Hd Hb. unfold numeric.
  rewrite round_half_up_exact by (done || by apply quantum_pos).
  by rewrite (proj2 (Z.ltb_lt _ _) Hb).
Qed.

Lemma numeric_Some p s x y :
  numeric p s x = Some y →
  y = round_half_up (quantum s) x ∧ Z.abs y < 10 ^ (p - s) * one.
Proof.
  unfold numeric. destruct (Z.ltb_spec (Z.abs (round_half_up (quantum s) x)) (10 ^ (p - s) * one));
    [|done]. intros [= <-]. done.
Qed.

(** A written value that is already a multiple of the column's unit is stored
    unchanged, or rejected. *)
Lemma numeric_exact_inv p s x y :
  s ≤ 18 → (quantum s | x) → numeric p s x = Some y → y = x.
Proof.
  intros Hs Hd [-> _]%numeric_Some. apply round_half_up_exact; [by apply quantum_pos | done].
Qed.

Lemma numeric_multiple p s x y : numeric p s x = Some y → (quantum s | y).
Proof. intros [-> _]%numeric_Some. apply round_half_up_multiple. Qed.

Lemma numeric_money x : (cent | x) → Z.abs x < money_limit → numeric 14 2 x = Some x.
Proof. intros Hx Hb. by apply numeric_exact. Qed.

Lemma numeric_money_overflow x : (cent | x) → money_limit ≤ Z.abs x → numeric 14 2 x = None.
Proof.
  intros Hx Hb. unfold numeric. rewrite round_half_up_exact by (done || apply cent_pos).
  rewrite (proj2 (Z.ltb_ge _ _)); [done|exact Hb].
Qed.

Lemma numeric_money_bound x y : numeric 14 2 x = Some y → Z.abs y < money_limit.
Proof. by intros [_ ?]%numeric_Some. Qed.

Lemma cents_multiple n : (cent | cents n).
Proof. by exists n. Qed.

#[export] Hint Resolve cents_multiple numeric_multiple round_half_up_multiple
  round_down_multiple round_ceiling_multiple Z.divide_add_r Z.divide_sub_r
  Z.divide_0_r cent_pos : money.
