(* ===== verification/Exceptions.v ===== *)
(** * Exceptions

    The exception classes the modelled code raises and catches
    ([packages/core/exceptions.py], [packages/payments/exceptions.py],
    [packages/providers/exceptions.py]) and SQLAlchemy's own.  Messages are
    not modelled: no code branches on them. *)

From Stdlib Require Import ZArith.
From stdpp Require Import base tactics strings.
From S2P Require Import Prelude.

(** ** Exceptions

    [ProviderExn] carries the class and the two class attributes the router
    and the worker branch on; [ProviderErrorFrom] is a [ProviderError] raised
    [from] another exception, whose [__cause__] the fulfillment service looks
    at.  [InvalidOperation] is
    [decimal.InvalidOperation]; [IntegrityError], [DataError],
    [MultipleResultsFound], [NoResultFound] and [PendingRollbackError] are
    SQLAlchemy's. *)

Inductive provider_error_class :=
  | ProviderError
  | ProviderConfigurationError
  | ProviderAuthenticationError
  | ProviderRateLimitError
  | ProviderInsufficientBalanceError
  | ProviderProductUnavailableError
  | ProviderTimeoutError
  | ProviderOrderFailedError.

Inductive exn :=
  | ValueError
  | TemplateValidationError
  | TenantAccessViolationError
  | InvalidStateTransitionError
  | InsufficientFundsError
  | LedgerIntegrityError
  | PaymentError
  | PaymentIntentNotFoundError
  | PaymentIntegrityError
  | PaymentProviderError
  | PaymentProviderTransportError
  | UnsupportedProviderCapabilityError
  | WebhookVerificationError
  | OnChainVerificationPending
  | ProviderExn (cls : provider_error_class) (is_retryable safe_to_failover : bool)
  | ProviderErrorFrom (is_retryable : bool) (cause : exn)
  | SecretNotFoundError
  | TimeoutError
  | InvalidOperation
  | TypeError
  | AttributeError
  | RuntimeError
  | PlatformNotFoundError
  | PlatformConflictError
  | PlatformValidationError
  | BillingEventConflictError
  | EntitlementConfigurationError
  | CommercialAccessDenied
  | FeatureEntitlementDenied
  | BillingProviderError
  | BillingProviderNotConfiguredError
  | BillingWebhookVerificationError
  | BillingProviderResponseError
  | ProvisioningError (code : string) (retryable : bool)
  | HTTPException (status_code : Z)
  | OverflowError
  | IntegrityError
  | DataError
  | MultipleResultsFound
  | NoResultFound
  | PendingRollbackError.

Global Instance provider_error_class_eq_dec : EqDecision provider_error_class.
Proof. solve_decision. Defined.

Global Instance exn_eq_dec : EqDecision exn.
Proof. solve_decision. Defined.

(** The class attributes of [packages/providers/exceptions.py]. *)
Definition class_is_retryable (c : provider_error_class) : bool :=
  match c with
  | ProviderRateLimitError | ProviderInsufficientBalanceError
  | ProviderProductUnavailableError | ProviderTimeoutError => true
  | _ => false
  end.

Definition class_safe_to_failover (c : provider_error_class) : bool :=
  match c with
  | ProviderRateLimitError | ProviderInsufficientBalanceError
  | ProviderProductUnavailableError => true
  | _ => false
  end.

Definition provider_exn (c : provider_error_class) : exn :=
  ProviderExn c (class_is_retryable c) (class_safe_to_failover c).

(** [isinstance(exc, PaymentProviderError)] and [isinstance(exc, PaymentError)]. *)
Definition is_payment_provider_error (e : exn) : bool :=
  match e with
  | PaymentProviderError | PaymentProviderTransportError
  | UnsupportedProviderCapabilityError => true
  | _ => false
  end.

Definition is_payment_error (e : exn) : bool :=
  match e with
  | PaymentError | PaymentIntentNotFoundError | PaymentIntegrityError
  | WebhookVerificationError | OnChainVerificationPending => true
  | _ => is_payment_provider_error e
  end.

(** [type(exc).__name__] *)
Definition class_name (c : provider_error_class) : string :=
  match c with
  | ProviderError => "ProviderError"
  | ProviderConfigurationError => "ProviderConfigurationError"
  | ProviderAuthenticationError => "ProviderAuthenticationError"
  | ProviderRateLimitError => "ProviderRateLimitError"
  | ProviderInsufficientBalanceError => "ProviderInsufficientBalanceError"
  | ProviderProductUnavailableError => "ProviderProductUnavailableError"
  | ProviderTimeoutError => "ProviderTimeoutError"
  | ProviderOrderFailedError => "ProviderOrderFailedError"
  end.

Definition exn_name (e : exn) : string :=
  match e with
  | ValueError => "ValueError"
  | TemplateValidationError => "TemplateValidationError"
  | TenantAccessViolationError => "TenantAccessViolationError"
  | InvalidStateTransitionError => "InvalidStateTransitionError"
  | InsufficientFundsError => "InsufficientFundsError"
  | LedgerIntegrityError => "LedgerIntegrityError"
  | PaymentError => "PaymentError"
  | PaymentIntentNotFoundError => "PaymentIntentNotFoundError"
  | PaymentIntegrityError => "PaymentIntegrityError"
  | PaymentProviderError => "PaymentProviderError"
  | PaymentProviderTransportError => "PaymentProviderTransportError"
  | UnsupportedProviderCapabilityError => "UnsupportedProviderCapabilityError"
  | WebhookVerificationError => "WebhookVerificationError"
  | OnChainVerificationPending => "OnChainVerificationPending"
  | ProviderExn c _ _ => class_name c
  | ProviderErrorFrom _ _ => "ProviderError"
  | SecretNotFoundError => "SecretNotFoundError"
  | TimeoutError => "TimeoutError"
  | InvalidOperation => "InvalidOperation"
  | TypeError => "TypeError"
  | AttributeError => "AttributeError"
  | RuntimeError => "RuntimeError"
  | PlatformNotFoundError => "PlatformNotFoundError"
  | PlatformConflictError => "PlatformConflictError"
  | PlatformValidationError => "PlatformValidationError"
  | BillingEventConflictError => "BillingEventConflictError"
  | EntitlementConfigurationError => "EntitlementConfigurationError"
  | CommercialAccessDenied => "CommercialAccessDenied"
  | FeatureEntitlementDenied => "FeatureEntitlementDenied"
  | BillingProviderError => "BillingProviderError"
  | BillingProviderNotConfiguredError => "BillingProviderNotConfiguredError"
  | BillingWebhookVerificationError => "BillingWebhookVerificationError"
  | BillingProviderResponseError => "BillingProviderResponseError"
  | ProvisioningError _ _ => "ProvisioningError"
  | HTTPException _ => "HTTPException"
  | OverflowError => "OverflowError"
  | IntegrityError => "IntegrityError"
  | DataError => "DataError"
  | MultipleResultsFound => "MultipleResultsFound"
  | NoResultFound => "NoResultFound"
  | PendingRollbackError => "PendingRollbackError"
  end.

(** [isinstance(e, ProviderError)], with [e.is_retryable] and
    [e.safe_to_failover]. *)
Definition as_provider_error (e : exn) : option (bool * bool) :=
  match e with
  | ProviderExn _ retryable safe => Some (retryable, safe)
  | ProviderErrorFrom retryable _ => Some (retryable, false)
  | _ => None
  end.
