(* ===== verification/StateMachines.v ===== *)
(** * Order and payment lifecycles

    [packages/commerce/state_machine.py] and
    [packages/payments/state_machine.py]: the status enumerations, the tables
    of legal transitions and the [can_transition]/[transition] functions, the
    step relations they induce and what holds of every run of a lifecycle. *)

From Stdlib Require Import ZArith Lia Relations.
From stdpp Require Import base tactics list relations.
From S2P Require Import Prelude Exceptions.

(** ** Orders *)

Inductive OrderStatus :=
  | OrderPending
  | OrderPaymentPending
  | OrderPaid
  | OrderProcessing
  | OrderPartiallyFulfilled
  | OrderFulfilled
  | OrderCancelled
  | OrderFailed
  | OrderRefunded.

Global Instance OrderStatus_eq_dec : EqDecision OrderStatus.
Proof. solve_decision. Defined.

Definition LEGAL_TRANSITIONS (s : OrderStatus) : list OrderStatus :=
  match s with
  | OrderPending => [OrderPaymentPending; OrderCancelled; OrderFailed]
  | OrderPaymentPending => [OrderPaid; OrderCancelled; OrderFailed]
  | OrderPaid => [OrderProcessing; OrderRefunded; OrderCancelled; OrderFailed]
  | OrderProcessing =>
      [OrderPartiallyFulfilled; OrderFulfilled; OrderFailed; OrderCancelled; OrderRefunded]
  | OrderPartiallyFulfilled => [OrderFulfilled; OrderFailed]
  | OrderFulfilled => [OrderRefunded]
  | OrderCancelled => []
  | OrderFailed => []
  | OrderRefunded => []
  end.

(** ** Payment intents *)

Inductive PaymentIntentStatus :=
  | PayCreated
  | PayPending
  | PayProcessing
  | PaySucceeded
  | PayFailed
  | PayExpired
  | PayUnknown
  | PayCancelled.

Global Instance PaymentIntentStatus_eq_dec : EqDecision PaymentIntentStatus.
Proof. solve_decision. Defined.

Definition LEGAL_PAYMENT_TRANSITIONS (s : PaymentIntentStatus) : list PaymentIntentStatus :=
  match s with
  | PayCreated =>
      [PayPending; PayProcessing; PaySucceeded; PayCancelled; PayExpired; PayFailed; PayUnknown]
  | PayPending => [PayProcessing; PaySucceeded; PayFailed; PayExpired; PayCancelled; PayUnknown]
  | PayProcessing => [PaySucceeded; PayFailed; PayUnknown; PayCancelled; PayExpired]
  | PayUnknown => [PaySucceeded; PayFailed; PayProcessing; PayExpired; PayCancelled]
  | PaySucceeded => []
  | PayFailed => []
  | PayExpired => []
  | PayCancelled => []
  end.

(** ** The state machine, shared by both classes

    [OrderStateMachine] and [PaymentStateMachine] are the same code over
    different tables. *)

Section machine.
  Context {St : Type} `{!EqDecision St} (legal : St → list St).

Definition can_transition (current target : St) : bool :=
  if current == target then true else bool_decide (target ∈ legal current).

(** The new status, or the exception; the caller writes the status back. *)
Definition transition (current target : St) : outcome exn St :=
  if negb (can_transition current target) then Raise InvalidStateTransitionError
  else Ok target.

(** One call of [transition_to] that changes the status. *)
Inductive moves : St → St → Prop :=
  | moves_to s t : transition s t = Ok t → s ≠ t → moves s t.

Definition terminal (s : St) : Prop := legal s = [].

Lemma can_transition_spec s t : can_transition s t = true ↔ s = t ∨ t ∈ legal s.
Proof.
  unfold can_transition. destruct (decide (s = t)) as [->|Hne].
  - rewrite bool_decide_eq_true_2 by done. intuition.
  - rewrite bool_decide_eq_false_2 by done. rewrite bool_decide_eq_true. intuition.
Qed.

Lemma transition_ok s t u : transition s t = Ok u ↔ u = t ∧ (s = t ∨ t ∈ legal s).
Proof.
  unfold transition. rewrite <- can_transition_spec.
  destruct (can_transition s t); cbn; naive_solver.
Qed.

Lemma transition_raise s t e :
  transition s t = Raise e ↔ e = InvalidStateTransitionError ∧ s ≠ t ∧ t ∉ legal s.
Proof.
  unfold transition. destruct (can_transition s t) eqn:Hc; cbn.
  - apply can_transition_spec in Hc. naive_solver.
  - assert (¬ (s = t ∨ t ∈ legal s)) as Hn by (rewrite <- can_transition_spec, Hc; done).
    naive_solver.
Qed.

Lemma moves_legal s t : moves s t ↔ s ≠ t ∧ t ∈ legal s.
Proof.
  split.
  - intros [s' t' Ht Hne]. apply transition_ok in Ht. naive_solver.
  - intros [Hne Ht]. constructor; [|done]. apply transition_ok. auto.
Qed.

Lemma terminal_stuck s t : terminal s → rtc moves s t → t = s.
Proof.
  intros Hs. destruct 1 as [|s t u Hm _]; [done|].
  apply moves_legal in Hm as [_ Hm]. rewrite Hs in Hm. by apply elem_of_nil in Hm.
Qed.

End machine.

Abbreviation order_moves := (moves LEGAL_TRANSITIONS).
Abbreviation payment_moves := (moves LEGAL_PAYMENT_TRANSITIONS).

(** Takes one named step of a lifecycle. *)
Ltac step_to x :=
  eapply (nsteps_l _ _ _ x); [apply moves_to; [vm_compute; reflexivity | discriminate]|].

(** ** Properties of the order lifecycle *)

(** The number of status changes an order can still make. *)
Definition order_rank (s : OrderStatus) : nat :=
  match s with
  | OrderPending => 6
  | OrderPaymentPending => 5
  | OrderPaid => 4
  | OrderProcessing => 3
  | OrderPartiallyFulfilled => 2
  | OrderFulfilled => 1
  | _ => 0
  end.

Lemma order_moves_rank s t : order_moves s t → order_rank t < order_rank s.
Proof.
  intros [_ Ht]%moves_legal. destruct s; cbn in *;
    repeat (apply elem_of_cons in Ht as [->|Ht]; [cbn; lia|]); by apply elem_of_nil in Ht.
Qed.

Lemma order_moves_nsteps n s t : nsteps order_moves n s t → n + order_rank t ≤ order_rank s.
Proof.
  induction 1 as [|n s t u Hst Htu IH]; [done|]. apply order_moves_rank in Hst. lia.
Qed.

(** An order that is paid, in fulfilment or later got there through
    [PAYMENT_PENDING]. *)
Definition past_payment (s : OrderStatus) : bool :=
  match s with
  | OrderPaid | OrderProcessing | OrderPartiallyFulfilled | OrderFulfilled
  | OrderRefunded => true
  | _ => false
  end.

Lemma past_payment_pred s t :
  order_moves s t → past_payment t = true →
  past_payment s = true ∨ s = OrderPaymentPending.
Proof.
  intros [_ Ht]%moves_legal. destruct s; cbn in *; auto;
    repeat (apply elem_of_cons in Ht as [->|Ht]; [cbn; auto; try discriminate|]);
    by apply elem_of_nil in Ht.
Qed.

(** Every run of an order's lifecycle is finite: starting from any
    status at most six status changes are possible, in particular no status
    is ever revisited. *)
Theorem order_lifecycle_bounded n s t :
  nsteps order_moves n s t → n ≤ 6 ∧ (0 < n → s ≠ t).
Proof.
  intros H%order_moves_nsteps. assert (order_rank s ≤ 6) by (destruct s; cbn; lia).
  split; [lia|]. intros ? ->. lia.
Qed.

Lemma order_lifecycle_bounded_witness :
  nsteps order_moves 6 OrderPending OrderRefunded ∧ 6 ≤ 6 ∧ OrderPending ≠ OrderRefunded.
Proof.
  assert (nsteps order_moves 6 OrderPending OrderRefunded) as H.
  { step_to OrderPaymentPending. step_to OrderPaid. step_to OrderProcessing.
    step_to OrderPartiallyFulfilled. step_to OrderFulfilled. step_to OrderRefunded.
    apply nsteps_O. }
  split; [exact H|]. destruct (order_lifecycle_bounded 6 _ _ H) as [H1 H2].
  split; [exact H1 | apply H2; lia].
Defined.

(** Nothing is fulfilled or refunded unpaid: an order created [PENDING]
    that reached [PAID], [PROCESSING], [PARTIALLY_FULFILLED], [FULFILLED] or
    [REFUNDED] was [PAYMENT_PENDING] before and moved on from it. *)
Theorem order_paid_through_payment_pending s :
  rtc order_moves OrderPending s → past_payment s = true →
  ∃ t, rtc order_moves OrderPending OrderPaymentPending ∧
       order_moves OrderPaymentPending t ∧ rtc order_moves t s.
Proof.
  revert s. refine (rtc_ind_r _ OrderPending _ _); [done|]. intros s t Hs Hst IH Ht.
  destruct (past_payment_pred s t Hst Ht) as [Hp| ->].
  - destruct (IH Hp) as (u & ? & ? & ?). exists u. split_and!; [done..|].
    by eapply rtc_r.
  - exists t. split_and!; [exact Hs | exact Hst | apply rtc_refl].
Qed.

Lemma order_paid_through_payment_pending_witness :
  ∃ t, rtc order_moves OrderPending OrderPaymentPending ∧
       order_moves OrderPaymentPending t ∧ rtc order_moves t OrderPaid.
Proof.
  apply (order_paid_through_payment_pending OrderPaid); [|reflexivity].
  apply (rtc_nsteps_2 2). step_to OrderPaymentPending. step_to OrderPaid. apply nsteps_O.
Defined.

(** ** Properties of the payment lifecycle *)

(** Settlement is final: once a payment intent is [SUCCEEDED], [FAILED],
    [EXPIRED] or [CANCELLED], no sequence of transitions changes it, and a
    [transition] to any other status raises [InvalidStateTransitionError]. *)
Theorem payment_terminal_final s t :
  s ∈ [PaySucceeded; PayFailed; PayExpired; PayCancelled] →
  (rtc payment_moves s t → t = s) ∧
  (t ≠ s → transition LEGAL_PAYMENT_TRANSITIONS s t = Raise InvalidStateTransitionError).
Proof.
  intros Hs. assert (terminal LEGAL_PAYMENT_TRANSITIONS s) as Hterm
    by (unfold terminal; set_unfold; naive_solver).
  split; [by apply terminal_stuck|]. intros Hne. apply transition_raise.
  rewrite Hterm. split_and!; [done.. | by apply not_elem_of_nil].
Qed.

Lemma payment_terminal_final_witness :
  transition LEGAL_PAYMENT_TRANSITIONS PayCancelled PaySucceeded
    = Raise InvalidStateTransitionError.
Proof.
  apply (payment_terminal_final PayCancelled PaySucceeded); [set_solver | discriminate].
Defined.
