(* ===== verification/Models.v ===== *)
(** * Enumerations, rows and the session

    The enumerations and the tables of the program ([packages/*/models.py]) as
    Rocq types, and the state of an [AsyncSession]: the working view of the
    database, the last committed version of it, what the session has consumed
    from its environment and what it has sent to other systems.

    Columns that no modelled operation reads ([updated_at], relationships) are
    left out.  Enumeration members that several Python enumerations share
    carry a prefix here ([HoldActive] is [WalletHoldStatus.ACTIVE]). *)

From Stdlib Require Import ZArith Lia Ascii String.
From stdpp Require Import base tactics list option strings numbers pretty.
From S2P Require Import Prelude Tables Text Money Exceptions StateMachines.

Local Open Scope Z_scope.

(** ** JSON columns: dictionaries in insertion order *)

#[warnings="-register-all"]
Inductive json :=
  | JNull
  | JBool (b : bool)
  | JInt (n : Z)
  | JStr (s : string)
  | JList (l : list json)
  | JObj (o : list (string * json)).

Abbreviation dict := (list (string * json)).

Fixpoint dict_get (k : string) (d : dict) : option json :=
  match d with
  | [] => None
  | (k', v) :: d => if k == k' then Some v else dict_get k d
  end.

Fixpoint dict_set (k : string) (v : json) (d : dict) : dict :=
  match d with
  | [] => [(k, v)]
  | (k', v') :: d => if k == k' then (k, v) :: d else (k', v') :: dict_set k v d
  end.

(** [{**a, **b}] *)
Definition dict_merge (a b : dict) : dict := foldl (λ acc kv, dict_set kv.1 kv.2 acc) a b.

(** [bool(value)] *)
Definition json_truthy (v : json) : bool :=
  match v with
  | JNull | JBool false => false
  | JBool true => true
  | JInt n => negb (n =? 0)
  | JStr s => s != ""
  | JList l => match l with [] => false | _ => true end
  | JObj o => match o with [] => false | _ => true end
  end.

(** [a == b] of two JSON values: objects compare without regard to order. *)
Fixpoint json_eqb (a b : json) {struct a} : bool :=
  match a, b with
  | JNull, JNull => true
  | JBool x, JBool y => Bool.eqb x y
  | JInt x, JInt y => x =? y
  | JBool x, JInt n | JInt n, JBool x => n =? (if x then 1 else 0)
  | JStr x, JStr y => x == y
  | JList l, JList m =>
      (fix go l m := match l, m with
                     | [], [] => true
                     | x :: l, y :: m => json_eqb x y && go l m
                     | _, _ => false
                     end) l m
  | JObj o, JObj p =>
      (length o =? length p)%nat
      && (fix go o := match o with
                      | [] => true
                      | (k, v) :: o =>
                          match dict_get k p with Some w => json_eqb v w | None => false end && go o
                      end) o
  | _, _ => false
  end.

(** [json.dumps(value, separators=(",", ":"))] of ASCII text without control
    characters; the callers pass their keys sorted. *)
Definition json_escape (s : string) : string :=
  of_chars (concat (map (λ c, if (c == "034"%char) || (c == "092"%char) then ["092"%char; c] else [c])
                      (chars s))).

Definition quoted (s : string) : string :=
  of_chars ["034"%char] +:+ json_escape s +:+ of_chars ["034"%char].

Fixpoint comma_separated (l : list string) : string :=
  match l with
  | [] => ""
  | [x] => x
  | x :: l => x +:+ "," +:+ comma_separated l
  end.

Fixpoint dumps (v : json) : string :=
  match v with
  | JNull => "null"
  | JBool b => if b then "true" else "false"
  | JInt n => pretty n
  | JStr s => quoted s
  | JList l => "[" +:+ comma_separated (map dumps l) +:+ "]"
  | JObj o => "{" +:+ comma_separated (map (λ kv, quoted kv.1 +:+ ":" +:+ dumps kv.2) o) +:+ "}"
  end.

(** ** Wallets and the settlement ledger (payments/models.py) *)

Inductive TransactionType := CREDIT | DEBIT | REFUND | ADJUSTMENT.

Global Instance TransactionType_eq_dec : EqDecision TransactionType.
Proof. solve_decision. Defined.

Record Wallet := MkWallet {
  wallet_id : UUID;
  wallet_tenant_id : UUID;
  wallet_user_id : UUID;
  wallet_currency : string;
  wallet_balance : dec;
  wallet_is_active : bool;
}.

Global Instance Wallet_eta : Eta Wallet := λ r,
  MkWallet (wallet_id r) (wallet_tenant_id r) (wallet_user_id r) (wallet_currency r)
    (wallet_balance r) (wallet_is_active r).
Global Instance Wallet_row : Row Wallet := wallet_id.

Record LedgerTransaction := MkLedgerTransaction {
  tx_id : UUID;
  tx_tenant_id : UUID;
  tx_wallet_id : UUID;
  tx_transaction_type : TransactionType;
  tx_amount : dec;
  tx_balance_before : dec;
  tx_balance_after : dec;
  tx_reference_id : option string;
  tx_reference_type : option string;
  tx_description : option string;
  tx_created_at : Z;
}.

Global Instance LedgerTransaction_eta : Eta LedgerTransaction := λ r,
  MkLedgerTransaction (tx_id r) (tx_tenant_id r) (tx_wallet_id r)
    (tx_transaction_type r) (tx_amount r) (tx_balance_before r) (tx_balance_after r)
    (tx_reference_id r) (tx_reference_type r) (tx_description r) (tx_created_at r).
Global Instance LedgerTransaction_row : Row LedgerTransaction := tx_id.

(** ** Holds, asset wallets, FX policies, flexible deposits (payments/economics_models.py) *)

Inductive WalletHoldStatus := HoldActive | HoldCaptured | HoldReleased | HoldExpired.

Global Instance WalletHoldStatus_eq_dec : EqDecision WalletHoldStatus.
Proof. solve_decision. Defined.

Record WalletHold := MkWalletHold {
  hold_id : UUID;
  hold_tenant_id : UUID;
  hold_wallet_id : UUID;
  hold_amount : dec;
  hold_status : WalletHoldStatus;
  hold_idempotency_key : string;
  hold_reference_type : string;
  hold_reference_id : string;
  hold_expires_at : option Z;
  hold_captured_at : option Z;
  hold_released_at : option Z;
}.

Global Instance WalletHold_eta : Eta WalletHold := λ r,
  MkWalletHold (hold_id r) (hold_tenant_id r) (hold_wallet_id r) (hold_amount r)
    (hold_status r) (hold_idempotency_key r) (hold_reference_type r)
    (hold_reference_id r) (hold_expires_at r) (hold_captured_at r) (hold_released_at r).
Global Instance WalletHold_row : Row WalletHold := hold_id.

Inductive AssetLedgerTransactionType :=
  | AssetCredit
  | AssetDebit
  | AssetConversionIn
  | AssetConversionOut
  | AssetAdjustment.

Global Instance AssetLedgerTransactionType_eq_dec : EqDecision AssetLedgerTransactionType.
Proof. solve_decision. Defined.

Record AssetWallet := MkAssetWallet {
  awallet_id : UUID;
  awallet_tenant_id : UUID;
  awallet_user_id : UUID;
  awallet_asset : string;
  awallet_network : string;
  awallet_balance : dec;
  awallet_is_active : bool;
}.

Global Instance AssetWallet_eta : Eta AssetWallet := λ r,
  MkAssetWallet (awallet_id r) (awallet_tenant_id r) (awallet_user_id r)
    (awallet_asset r) (awallet_network r) (awallet_balance r) (awallet_is_active r).
Global Instance AssetWallet_row : Row AssetWallet := awallet_id.

Record AssetLedgerTransaction := MkAssetLedgerTransaction {
  atx_id : UUID;
  atx_tenant_id : UUID;
  atx_wallet_id : UUID;
  atx_transaction_type : AssetLedgerTransactionType;
  atx_amount : dec;
  atx_balance_before : dec;
  atx_balance_after : dec;
  atx_idempotency_key : string;
  atx_reference_type : option string;
  atx_reference_id : option string;
  atx_description : option string;
}.

Global Instance AssetLedgerTransaction_eta : Eta AssetLedgerTransaction := λ r,
  MkAssetLedgerTransaction (atx_id r) (atx_tenant_id r) (atx_wallet_id r)
    (atx_transaction_type r) (atx_amount r) (atx_balance_before r) (atx_balance_after r)
    (atx_idempotency_key r) (atx_reference_type r) (atx_reference_id r)
    (atx_description r).
Global Instance AssetLedgerTransaction_row : Row AssetLedgerTransaction := atx_id.

Inductive FxPolicyMode := FxParity | FxFixedRate.

Global Instance FxPolicyMode_eq_dec : EqDecision FxPolicyMode.
Proof. solve_decision. Defined.

Record FxPolicy := MkFxPolicy {
  fx_id : UUID;
  fx_tenant_id : UUID;
  fx_from_asset : string;
  fx_from_network : string;
  fx_to_currency : string;
  fx_mode : FxPolicyMode;
  fx_rate : dec;
  fx_max_auto_credit_amount : option dec;
  fx_is_enabled : bool;
  fx_acknowledged_at : Z;
  fx_metadata_json : dict;
}.

Global Instance FxPolicy_eta : Eta FxPolicy := λ r,
  MkFxPolicy (fx_id r) (fx_tenant_id r) (fx_from_asset r) (fx_from_network r)
    (fx_to_currency r) (fx_mode r) (fx_rate r) (fx_max_auto_credit_amount r)
    (fx_is_enabled r) (fx_acknowledged_at r) (fx_metadata_json r).
Global Instance FxPolicy_row : Row FxPolicy := fx_id.

Inductive AutoCreditTarget := TargetAssetWallet | TargetSettlementWallet.

Global Instance AutoCreditTarget_eq_dec : EqDecision AutoCreditTarget.
Proof. solve_decision. Defined.

Inductive FlexibleDepositStatus :=
  | DepCreated
  | DepPending
  | DepProcessing
  | DepSettledReview
  | DepCredited
  | DepExpired
  | DepCancelled
  | DepUnknown
  | DepReversed.

Global Instance FlexibleDepositStatus_eq_dec : EqDecision FlexibleDepositStatus.
Proof. solve_decision. Defined.

Record FlexibleDepositSession := MkFlexibleDepositSession {
  dep_id : UUID;
  dep_tenant_id : UUID;
  dep_user_id : UUID;
  dep_payment_method_id : UUID;
  dep_provider : string;
  dep_provider_deposit_id : string;
  dep_idempotency_key : string;
  dep_status : FlexibleDepositStatus;
  dep_checkout_url : option string;
  dep_asset : option string;
  dep_network : option string;
  dep_amount_received : option dec;
  dep_fee_amount : option dec;
  dep_auto_credit_enabled : bool;
  dep_auto_credit_target : AutoCreditTarget;
  dep_auto_credit_basis : string;
  dep_settlement_currency : option string;
  dep_fx_policy_id : option UUID;
  dep_credited_amount : option dec;
  dep_credited_asset : option string;
  dep_credited_currency : option string;
  dep_credited_at : option Z;
  dep_last_reconciled_at : option Z;
  dep_last_error : option string;
  dep_provider_snapshot_json : dict;
  dep_policy_snapshot_json : dict;
}.

Global Instance FlexibleDepositSession_eta : Eta FlexibleDepositSession := λ r,
  MkFlexibleDepositSession (dep_id r) (dep_tenant_id r) (dep_user_id r)
    (dep_payment_method_id r) (dep_provider r) (dep_provider_deposit_id r)
    (dep_idempotency_key r) (dep_status r) (dep_checkout_url r) (dep_asset r)
    (dep_network r) (dep_amount_received r) (dep_fee_amount r)
    (dep_auto_credit_enabled r) (dep_auto_credit_target r) (dep_auto_credit_basis r)
    (dep_settlement_currency r) (dep_fx_policy_id r) (dep_credited_amount r)
    (dep_credited_asset r) (dep_credited_currency r) (dep_credited_at r)
    (dep_last_reconciled_at r) (dep_last_error r) (dep_provider_snapshot_json r)
    (dep_policy_snapshot_json r).
Global Instance FlexibleDepositSession_row : Row FlexibleDepositSession := dep_id.

(** ** Orders (commerce/models.py) *)

Record Order := MkOrder {
  order_id : UUID;
  order_tenant_id : UUID;
  order_user_id : UUID;
  order_number : string;
  order_status : OrderStatus;
  order_total_amount : dec;
  order_currency : string;
  order_checkout_idempotency_key : option string;
  order_checkout_request_hash : option string;
  order_created_at : Z;
}.

Global Instance Order_eta : Eta Order := λ r,
  MkOrder (order_id r) (order_tenant_id r) (order_user_id r) (order_number r)
    (order_status r) (order_total_amount r) (order_currency r)
    (order_checkout_idempotency_key r) (order_checkout_request_hash r)
    (order_created_at r).
Global Instance Order_row : Row Order := order_id.

Record OrderItem := MkOrderItem {
  item_id : UUID;
  item_order_id : UUID;
  item_product_variant_id : UUID;
  item_quantity : Z;
  item_unit_price : dec;
  item_total_price : dec;
  item_sale_terms : dict;
}.

Global Instance OrderItem_eta : Eta OrderItem := λ r,
  MkOrderItem (item_id r) (item_order_id r) (item_product_variant_id r)
    (item_quantity r) (item_unit_price r) (item_total_price r) (item_sale_terms r).
Global Instance OrderItem_row : Row OrderItem := item_id.

(** ** Payment intents, gateway transactions, reversals (payments/models.py) *)

Inductive PaymentIntentPurpose := ORDER_PAYMENT | WALLET_TOPUP.

Global Instance PaymentIntentPurpose_eq_dec : EqDecision PaymentIntentPurpose.
Proof. solve_decision. Defined.

Inductive PaymentTransactionType := PtAuthorization | PtCapture | PtSettlement | PtRefund | PtVoid.

Global Instance PaymentTransactionType_eq_dec : EqDecision PaymentTransactionType.
Proof. solve_decision. Defined.

Record PaymentIntent := MkPaymentIntent {
  intent_id : UUID;
  intent_tenant_id : UUID;
  intent_order_id : option UUID;
  intent_purpose : PaymentIntentPurpose;
  intent_user_id : UUID;
  intent_payment_method_id : option UUID;
  intent_provider : string;
  intent_provider_payment_id : option string;
  intent_checkout_url : option string;
  intent_currency : string;
  intent_amount : dec;
  intent_status : PaymentIntentStatus;
  intent_idempotency_key : string;
  intent_metadata_json : dict;
}.

Global Instance PaymentIntent_eta : Eta PaymentIntent := λ r,
  MkPaymentIntent (intent_id r) (intent_tenant_id r) (intent_order_id r)
    (intent_purpose r) (intent_user_id r) (intent_payment_method_id r)
    (intent_provider r) (intent_provider_payment_id r) (intent_checkout_url r)
    (intent_currency r) (intent_amount r) (intent_status r) (intent_idempotency_key r)
    (intent_metadata_json r).
Global Instance PaymentIntent_row : Row PaymentIntent := intent_id.

Record PaymentTransaction := MkPaymentTransaction {
  ptx_id : UUID;
  ptx_tenant_id : UUID;
  ptx_payment_intent_id : UUID;
  ptx_transaction_type : PaymentTransactionType;
  ptx_amount : dec;
  ptx_currency : string;
  ptx_status : string;
  ptx_provider_tx_id : option string;
  ptx_reference_id : option string;
  ptx_metadata_json : dict;
}.

Global Instance PaymentTransaction_eta : Eta PaymentTransaction := λ r,
  MkPaymentTransaction (ptx_id r) (ptx_tenant_id r) (ptx_payment_intent_id r)
    (ptx_transaction_type r) (ptx_amount r) (ptx_currency r) (ptx_status r)
    (ptx_provider_tx_id r) (ptx_reference_id r) (ptx_metadata_json r).
Global Instance PaymentTransaction_row : Row PaymentTransaction := ptx_id.

Inductive WalletTopUpReversalStatus :=
  | RevRequested
  | RevFundsReserved
  | RevProcessing
  | RevReconciliationRequired
  | RevCompleted
  | RevManualReview.

Global Instance WalletTopUpReversalStatus_eq_dec : EqDecision WalletTopUpReversalStatus.
Proof. solve_decision. Defined.

Record WalletTopUpReversal := MkWalletTopUpReversal {
  rev_id : UUID;
  rev_tenant_id : UUID;
  rev_payment_intent_id : UUID;
  rev_user_id : UUID;
  rev_wallet_id : UUID;
  rev_provider : string;
  rev_original_provider_payment_id : string;
  rev_provider_refund_id : option string;
  rev_amount : dec;
  rev_currency : string;
  rev_idempotency_key : string;
  rev_status : WalletTopUpReversalStatus;
  rev_attempts : Z;
  rev_next_attempt_at : option Z;
  rev_last_attempt_at : option Z;
  rev_completed_at : option Z;
  rev_last_error_code : option string;
  rev_last_error_detail : option string;
  rev_metadata_json : dict;
  rev_created_at : Z;
}.

Global Instance WalletTopUpReversal_eta : Eta WalletTopUpReversal := λ r,
  MkWalletTopUpReversal (rev_id r) (rev_tenant_id r) (rev_payment_intent_id r)
    (rev_user_id r) (rev_wallet_id r) (rev_provider r)
    (rev_original_provider_payment_id r) (rev_provider_refund_id r) (rev_amount r)
    (rev_currency r) (rev_idempotency_key r) (rev_status r) (rev_attempts r)
    (rev_next_attempt_at r) (rev_last_attempt_at r) (rev_completed_at r)
    (rev_last_error_code r) (rev_last_error_detail r) (rev_metadata_json r)
    (rev_created_at r).
Global Instance WalletTopUpReversal_row : Row WalletTopUpReversal := rev_id.

Inductive PaymentReconciliationEventStatus := EvProcessed | EvManualReview | EvIgnored.

Global Instance PaymentReconciliationEventStatus_eq_dec : EqDecision PaymentReconciliationEventStatus.
Proof. solve_decision. Defined.

Record PaymentReconciliationEvent := MkPaymentReconciliationEvent {
  ev_id : UUID;
  ev_tenant_id : UUID;
  ev_provider : string;
  ev_provider_event_id : string;
  ev_event_type : string;
  ev_payment_intent_id : option UUID;
  ev_status : PaymentReconciliationEventStatus;
  ev_amount : dec;
  ev_currency : string;
  ev_occurred_at : option Z;
  ev_classification : string;
  ev_requires_review : bool;
  ev_metadata_json : dict;
}.

Global Instance PaymentReconciliationEvent_eta : Eta PaymentReconciliationEvent := λ r,
  MkPaymentReconciliationEvent (ev_id r) (ev_tenant_id r) (ev_provider r)
    (ev_provider_event_id r) (ev_event_type r) (ev_payment_intent_id r) (ev_status r)
    (ev_amount r) (ev_currency r) (ev_occurred_at r) (ev_classification r)
    (ev_requires_review r) (ev_metadata_json r).
Global Instance PaymentReconciliationEvent_row : Row PaymentReconciliationEvent := ev_id.

Inductive PaymentMethodType :=
  | MtRegulatedProvider
  | MtCryptoGateway
  | MtSelfCustody
  | MtManualTransfer
  | MtExchangeTransfer.

Global Instance PaymentMethodType_eq_dec : EqDecision PaymentMethodType.
Proof. solve_decision. Defined.

Inductive PaymentVerificationMode := VmProviderReconciliation | VmOnchain | VmManual | VmHybrid.

Global Instance PaymentVerificationMode_eq_dec : EqDecision PaymentVerificationMode.
Proof. solve_decision. Defined.

Inductive PaymentObservationSource := SrcProvider | SrcOnchain | SrcManual | SrcExchange.

Global Instance PaymentObservationSource_eq_dec : EqDecision PaymentObservationSource.
Proof. solve_decision. Defined.

Inductive PaymentObservationStatus :=
  | ObsSubmitted
  | ObsPendingVerification
  | ObsManualReview
  | ObsVerified
  | ObsRejected.

Global Instance PaymentObservationStatus_eq_dec : EqDecision PaymentObservationStatus.
Proof. solve_decision. Defined.

Inductive PaymentAssuranceLevel :=
  | AlRegulatedReconciled
  | AlOnchainVerified
  | AlGatewayVerified
  | AlManualApproved.

Global Instance PaymentAssuranceLevel_eq_dec : EqDecision PaymentAssuranceLevel.
Proof. solve_decision. Defined.

Record PaymentMethodConfig := MkPaymentMethodConfig {
  pmc_id : UUID;
  pmc_tenant_id : UUID;
  pmc_code : string;
  pmc_display_name : string;
  pmc_method_type : PaymentMethodType;
  pmc_verification_mode : PaymentVerificationMode;
  pmc_provider_name : option string;
  pmc_asset : option string;
  pmc_network : option string;
  pmc_destination_address : option string;
  pmc_destination_memo : option string;
  pmc_instructions : option string;
  pmc_is_enabled : bool;
  pmc_requires_admin_approval : bool;
  pmc_auto_credit_enabled : bool;
  pmc_auto_credit_target : string;
  pmc_settings_json : dict;
}.

Global Instance PaymentMethodConfig_eta : Eta PaymentMethodConfig := λ r,
  MkPaymentMethodConfig (pmc_id r) (pmc_tenant_id r) (pmc_code r) (pmc_display_name r)
    (pmc_method_type r) (pmc_verification_mode r) (pmc_provider_name r) (pmc_asset r)
    (pmc_network r) (pmc_destination_address r) (pmc_destination_memo r)
    (pmc_instructions r) (pmc_is_enabled r) (pmc_requires_admin_approval r)
    (pmc_auto_credit_enabled r) (pmc_auto_credit_target r) (pmc_settings_json r).
Global Instance PaymentMethodConfig_row : Row PaymentMethodConfig := pmc_id.

Record PaymentQuote := MkPaymentQuote {
  pq_id : UUID;
  pq_tenant_id : UUID;
  pq_payment_intent_id : UUID;
  pq_payment_method_id : UUID;
  pq_settlement_amount : dec;
  pq_settlement_currency : string;
  pq_asset_amount : dec;
  pq_asset : string;
  pq_network : string;
  pq_rate : dec;
  pq_rate_source : string;
  pq_quote_reference : option string;
  pq_quote_fingerprint : string;
  pq_expires_at : Z;
  pq_metadata_json : dict;
  pq_created_at : Z;
}.

Global Instance PaymentQuote_eta : Eta PaymentQuote := λ r,
  MkPaymentQuote (pq_id r) (pq_tenant_id r) (pq_payment_intent_id r)
    (pq_payment_method_id r) (pq_settlement_amount r) (pq_settlement_currency r)
    (pq_asset_amount r) (pq_asset r) (pq_network r) (pq_rate r) (pq_rate_source r)
    (pq_quote_reference r) (pq_quote_fingerprint r) (pq_expires_at r)
    (pq_metadata_json r) (pq_created_at r).
Global Instance PaymentQuote_row : Row PaymentQuote := pq_id.

Record PaymentObservation := MkPaymentObservation {
  obs_id : UUID;
  obs_tenant_id : UUID;
  obs_payment_intent_id : UUID;
  obs_payment_method_id : UUID;
  obs_payment_quote_id : option UUID;
  obs_source : PaymentObservationSource;
  obs_status : PaymentObservationStatus;
  obs_assurance_level : option PaymentAssuranceLevel;
  obs_external_reference : option string;
  obs_asset : option string;
  obs_network : option string;
  obs_destination_address : option string;
  obs_asset_amount : option dec;
  obs_settlement_amount : option dec;
  obs_settlement_currency : option string;
  obs_confirmations : option Z;
  obs_is_final : bool;
  obs_evidence_fingerprint : string;
  obs_observed_at : option Z;
  obs_verified_at : option Z;
  obs_verified_by_user_id : option UUID;
  obs_rejection_reason : option string;
  obs_details_json : dict;
  obs_created_at : Z;
}.

Global Instance PaymentObservation_eta : Eta PaymentObservation := λ r,
  MkPaymentObservation (obs_id r) (obs_tenant_id r) (obs_payment_intent_id r)
    (obs_payment_method_id r) (obs_payment_quote_id r) (obs_source r) (obs_status r)
    (obs_assurance_level r) (obs_external_reference r) (obs_asset r) (obs_network r)
    (obs_destination_address r) (obs_asset_amount r) (obs_settlement_amount r)
    (obs_settlement_currency r) (obs_confirmations r) (obs_is_final r)
    (obs_evidence_fingerprint r) (obs_observed_at r) (obs_verified_at r)
    (obs_verified_by_user_id r) (obs_rejection_reason r) (obs_details_json r)
    (obs_created_at r).
Global Instance PaymentObservation_row : Row PaymentObservation := obs_id.

Record PaymentProviderConfig := MkPaymentProviderConfig {
  cfg_id : UUID;
  cfg_tenant_id : UUID;
  cfg_provider_name : string;
  cfg_is_enabled : bool;
  cfg_credentials_ref : string;
  cfg_webhook_secret_ref : option string;
  cfg_settings_json : dict;
}.

Global Instance PaymentProviderConfig_eta : Eta PaymentProviderConfig := λ r,
  MkPaymentProviderConfig (cfg_id r) (cfg_tenant_id r) (cfg_provider_name r)
    (cfg_is_enabled r) (cfg_credentials_ref r) (cfg_webhook_secret_ref r)
    (cfg_settings_json r).
Global Instance PaymentProviderConfig_row : Row PaymentProviderConfig := cfg_id.

Record PaymentWebhookEvent := MkPaymentWebhookEvent {
  wh_id : UUID;
  wh_tenant_id : UUID;
  wh_provider : string;
  wh_provider_event_id : string;
  wh_payment_intent_id : option UUID;
  wh_event_type : string;
  wh_signature_verified : bool;
  wh_processed : bool;
  wh_processed_at : option Z;
  wh_payload_hash : string;
}.

Global Instance PaymentWebhookEvent_eta : Eta PaymentWebhookEvent := λ r,
  MkPaymentWebhookEvent (wh_id r) (wh_tenant_id r) (wh_provider r)
    (wh_provider_event_id r) (wh_payment_intent_id r) (wh_event_type r)
    (wh_signature_verified r) (wh_processed r) (wh_processed_at r) (wh_payload_hash r).
Global Instance PaymentWebhookEvent_row : Row PaymentWebhookEvent := wh_id.

(** ** Catalogue and pricing (commerce/models.py, commerce/economics_models.py, tenants/models.py) *)

Record Tenant := MkTenant {
  ten_id : UUID;
  ten_name : string;
  ten_is_active : bool;
  ten_settings : dict;
  ten_deleted_at : option Z;
}.

Global Instance Tenant_eta : Eta Tenant := λ r,
  MkTenant (ten_id r) (ten_name r) (ten_is_active r) (ten_settings r) (ten_deleted_at r).
Global Instance Tenant_row : Row Tenant := ten_id.

Record User := MkUser {
  user_id : UUID;
  user_telegram_id : option Z;
}.

Global Instance User_eta : Eta User := λ r,
  MkUser (user_id r) (user_telegram_id r).
Global Instance User_row : Row User := user_id.

Record Product := MkProduct {
  prod_id : UUID;
  prod_tenant_id : UUID;
  prod_category_id : option UUID;
  prod_title : string;
  prod_is_active : bool;
  prod_deleted_at : option Z;
  prod_metadata_json : dict;
}.

Global Instance Product_eta : Eta Product := λ r,
  MkProduct (prod_id r) (prod_tenant_id r) (prod_category_id r) (prod_title r)
    (prod_is_active r) (prod_deleted_at r) (prod_metadata_json r).
Global Instance Product_row : Row Product := prod_id.

Record ProductVariant := MkProductVariant {
  var_id : UUID;
  var_product_id : UUID;
  var_sku : string;
  var_title : string;
  var_price : dec;
  var_currency : string;
  var_stock_quantity : Z;
  var_is_active : bool;
  var_deleted_at : option Z;
}.

Global Instance ProductVariant_eta : Eta ProductVariant := λ r,
  MkProductVariant (var_id r) (var_product_id r) (var_sku r) (var_title r) (var_price r)
    (var_currency r) (var_stock_quantity r) (var_is_active r) (var_deleted_at r).
Global Instance ProductVariant_row : Row ProductVariant := var_id.

Inductive PricingScope := ScopeGlobal | ScopeCategory | ScopeProduct | ScopeVariant.

Global Instance PricingScope_eq_dec : EqDecision PricingScope.
Proof. solve_decision. Defined.

Inductive MarkupMode := MarkupFixed | MarkupPercent | MarkupMixed.

Global Instance MarkupMode_eq_dec : EqDecision MarkupMode.
Proof. solve_decision. Defined.

Record PricingTier := MkPricingTier {
  tier_id : UUID;
  tier_tenant_id : UUID;
  tier_code : string;
  tier_priority : Z;
  tier_is_default : bool;
  tier_is_active : bool;
}.

Global Instance PricingTier_eta : Eta PricingTier := λ r,
  MkPricingTier (tier_id r) (tier_tenant_id r) (tier_code r) (tier_priority r)
    (tier_is_default r) (tier_is_active r).
Global Instance PricingTier_row : Row PricingTier := tier_id.

Record UserPricingTier := MkUserPricingTier {
  utier_id : UUID;
  utier_tenant_id : UUID;
  utier_user_id : UUID;
  utier_tier_id : UUID;
}.

Global Instance UserPricingTier_eta : Eta UserPricingTier := λ r,
  MkUserPricingTier (utier_id r) (utier_tenant_id r) (utier_user_id r) (utier_tier_id r).
Global Instance UserPricingTier_row : Row UserPricingTier := utier_id.

Record PricingRule := MkPricingRule {
  rule_id : UUID;
  rule_tenant_id : UUID;
  rule_scope : PricingScope;
  rule_category_id : option UUID;
  rule_product_id : option UUID;
  rule_product_variant_id : option UUID;
  rule_tier_id : option UUID;
  rule_markup_mode : MarkupMode;
  rule_markup_percent : dec;
  rule_markup_fixed : dec;
  rule_minimum_margin : dec;
  rule_rounding_increment : dec;
  rule_priority : Z;
  rule_is_active : bool;
}.

Global Instance PricingRule_eta : Eta PricingRule := λ r,
  MkPricingRule (rule_id r) (rule_tenant_id r) (rule_scope r) (rule_category_id r)
    (rule_product_id r) (rule_product_variant_id r) (rule_tier_id r)
    (rule_markup_mode r) (rule_markup_percent r) (rule_markup_fixed r)
    (rule_minimum_margin r) (rule_rounding_increment r) (rule_priority r)
    (rule_is_active r).
Global Instance PricingRule_row : Row PricingRule := rule_id.

Record CommercePriceQuote := MkCommercePriceQuote {
  quote_id : UUID;
  quote_tenant_id : UUID;
  quote_user_id : UUID;
  quote_product_variant_id : UUID;
  quote_provider_offer_snapshot_id : option UUID;
  quote_pricing_rule_id : option UUID;
  quote_pricing_tier_id : option UUID;
  quote_supplier_cost : option dec;
  quote_supplier_currency : option string;
  quote_sell_price : dec;
  quote_currency : string;
  quote_quote_fingerprint : string;
  quote_expires_at : Z;
}.

Global Instance CommercePriceQuote_eta : Eta CommercePriceQuote := λ r,
  MkCommercePriceQuote (quote_id r) (quote_tenant_id r) (quote_user_id r)
    (quote_product_variant_id r) (quote_provider_offer_snapshot_id r)
    (quote_pricing_rule_id r) (quote_pricing_tier_id r) (quote_supplier_cost r)
    (quote_supplier_currency r) (quote_sell_price r) (quote_currency r)
    (quote_quote_fingerprint r) (quote_expires_at r).
Global Instance CommercePriceQuote_row : Row CommercePriceQuote := quote_id.

Record OrderItemEconomics := MkOrderItemEconomics {
  econ_id : UUID;
  econ_tenant_id : UUID;
  econ_order_id : UUID;
  econ_order_item_id : UUID;
  econ_bot_id : option UUID;
  econ_price_quote_id : option UUID;
  econ_pricing_tier_id : option UUID;
  econ_pricing_rule_id : option UUID;
  econ_provider_id : option UUID;
  econ_sale_amount : dec;
  econ_sale_currency : string;
  econ_estimated_supplier_cost : option dec;
  econ_estimated_cost_currency : option string;
  econ_actual_supplier_cost : option dec;
  econ_actual_cost_currency : option string;
  econ_gross_profit : option dec;
  econ_attributed_at : option Z;
}.

Global Instance OrderItemEconomics_eta : Eta OrderItemEconomics := λ r,
  MkOrderItemEconomics (econ_id r) (econ_tenant_id r) (econ_order_id r)
    (econ_order_item_id r) (econ_bot_id r) (econ_price_quote_id r)
    (econ_pricing_tier_id r) (econ_pricing_rule_id r) (econ_provider_id r)
    (econ_sale_amount r) (econ_sale_currency r) (econ_estimated_supplier_cost r)
    (econ_estimated_cost_currency r) (econ_actual_supplier_cost r)
    (econ_actual_cost_currency r) (econ_gross_profit r) (econ_attributed_at r).
Global Instance OrderItemEconomics_row : Row OrderItemEconomics := econ_id.

(** ** Providers (providers/models.py) *)

Inductive ProviderHealthStatus := HEALTHY | DEGRADED | UNAVAILABLE | HealthUnknown.

Global Instance ProviderHealthStatus_eq_dec : EqDecision ProviderHealthStatus.
Proof. solve_decision. Defined.

Inductive ProviderCategory :=
  | CatNumber
  | CatAccount
  | CatGift
  | CatDigitalProduct
  | CatService
  | CatOther.

Global Instance ProviderCategory_eq_dec : EqDecision ProviderCategory.
Proof. solve_decision. Defined.

Record Provider := MkProvider {
  prov_id : UUID;
  prov_tenant_id : UUID;
  prov_name : string;
  prov_slug : string;
  prov_provider_type : string;
  prov_category : ProviderCategory;
  prov_is_enabled : bool;
  prov_priority : Z;
  prov_health_status : ProviderHealthStatus;
  prov_consecutive_failures : Z;
  prov_last_health_check_at : option Z;
  prov_last_health_latency_ms : option dec;
  prov_last_health_message : option string;
  prov_metadata_json : dict;
}.

Global Instance Provider_eta : Eta Provider := λ r,
  MkProvider (prov_id r) (prov_tenant_id r) (prov_name r) (prov_slug r)
    (prov_provider_type r) (prov_category r) (prov_is_enabled r) (prov_priority r)
    (prov_health_status r) (prov_consecutive_failures r) (prov_last_health_check_at r)
    (prov_last_health_latency_ms r) (prov_last_health_message r) (prov_metadata_json r).
Global Instance Provider_row : Row Provider := prov_id.

Record ProviderCredential := MkProviderCredential {
  cred_id : UUID;
  cred_tenant_id : UUID;
  cred_provider_id : UUID;
  cred_credential_type : string;
  cred_secret_ref : string;
}.

Global Instance ProviderCredential_eta : Eta ProviderCredential := λ r,
  MkProviderCredential (cred_id r) (cred_tenant_id r) (cred_provider_id r)
    (cred_credential_type r) (cred_secret_ref r).
Global Instance ProviderCredential_row : Row ProviderCredential := cred_id.

Inductive ProviderRoutingStrategy :=
  | RoutePriority
  | RouteLowestCost
  | RouteAvailability
  | RouteHealthiest
  | RouteWeighted
  | RouteManual.

Global Instance ProviderRoutingStrategy_eq_dec : EqDecision ProviderRoutingStrategy.
Proof. solve_decision. Defined.

Record ProviderRoutingPolicy := MkProviderRoutingPolicy {
  pol_id : UUID;
  pol_tenant_id : UUID;
  pol_product_id : UUID;
  pol_product_variant_id : option UUID;
  pol_strategy : ProviderRoutingStrategy;
  pol_preferred_provider_id : option UUID;
  pol_failover_enabled : bool;
  pol_weights_json : dict;
}.

Global Instance ProviderRoutingPolicy_eta : Eta ProviderRoutingPolicy := λ r,
  MkProviderRoutingPolicy (pol_id r) (pol_tenant_id r) (pol_product_id r)
    (pol_product_variant_id r) (pol_strategy r) (pol_preferred_provider_id r)
    (pol_failover_enabled r) (pol_weights_json r).
Global Instance ProviderRoutingPolicy_row : Row ProviderRoutingPolicy := pol_id.

Record ProviderProductMapping := MkProviderProductMapping {
  map_id : UUID;
  map_tenant_id : UUID;
  map_provider_id : UUID;
  map_product_id : UUID;
  map_product_variant_id : option UUID;
  map_external_product_id : string;
  map_is_enabled : bool;
  map_cost_price : dec;
  map_cost_currency : string;
  map_priority_override : option Z;
  map_provider_metadata : dict;
}.

Global Instance ProviderProductMapping_eta : Eta ProviderProductMapping := λ r,
  MkProviderProductMapping (map_id r) (map_tenant_id r) (map_provider_id r)
    (map_product_id r) (map_product_variant_id r) (map_external_product_id r)
    (map_is_enabled r) (map_cost_price r) (map_cost_currency r)
    (map_priority_override r) (map_provider_metadata r).
Global Instance ProviderProductMapping_row : Row ProviderProductMapping := map_id.

Record ProviderOfferSnapshot := MkProviderOfferSnapshot {
  offer_id : UUID;
  offer_tenant_id : UUID;
  offer_provider_id : UUID;
  offer_mapping_id : UUID;
  offer_product_id : UUID;
  offer_product_variant_id : option UUID;
  offer_cost_amount : dec;
  offer_cost_currency : string;
  offer_is_available : bool;
  offer_stock_quantity : option Z;
  offer_min_quantity : Z;
  offer_max_quantity : Z;
  offer_expires_at : Z;
}.

Global Instance ProviderOfferSnapshot_eta : Eta ProviderOfferSnapshot := λ r,
  MkProviderOfferSnapshot (offer_id r) (offer_tenant_id r) (offer_provider_id r)
    (offer_mapping_id r) (offer_product_id r) (offer_product_variant_id r)
    (offer_cost_amount r) (offer_cost_currency r) (offer_is_available r)
    (offer_stock_quantity r) (offer_min_quantity r) (offer_max_quantity r)
    (offer_expires_at r).
Global Instance ProviderOfferSnapshot_row : Row ProviderOfferSnapshot := offer_id.

(** ** Upstream orders (providers/contracts.py, providers/interface.py) *)

Inductive ProviderOrderState :=
  | OsCreated
  | OsPending
  | OsProcessing
  | OsWaitingDelivery
  | OsCompleted
  | OsFailed
  | OsCancelled
  | OsExpired
  | OsRefunded
  | OsUnknown.

Global Instance ProviderOrderState_eq_dec : EqDecision ProviderOrderState.
Proof. solve_decision. Defined.

Record ProviderOrderRequest := MkProviderOrderRequest {
  req_external_product_id : string;
  req_quantity : Z;
  req_recipient : string;
  req_idempotency_key : string;
  req_parameters : dict;
}.

Global Instance ProviderOrderRequest_eta : Eta ProviderOrderRequest := λ r,
  MkProviderOrderRequest (req_external_product_id r) (req_quantity r) (req_recipient r)
    (req_idempotency_key r) (req_parameters r).

Record ProviderOrderResponse := MkProviderOrderResponse {
  resp_external_order_id : string;
  resp_canonical_state : ProviderOrderState;
  resp_cost : dec;
  resp_raw_data : dict;
  resp_delivery : list json;
}.

Global Instance ProviderOrderResponse_eta : Eta ProviderOrderResponse := λ r,
  MkProviderOrderResponse (resp_external_order_id r) (resp_canonical_state r)
    (resp_cost r) (resp_raw_data r) (resp_delivery r).

Inductive NotificationEventType :=
  | NotifyOrderCreated
  | NotifyPaymentConfirmed
  | NotifyFulfillmentStarted
  | NotifyFulfillmentSucceeded
  | NotifyFulfillmentFailed
  | NotifyOrderRefunded.

Global Instance NotificationEventType_eq_dec : EqDecision NotificationEventType.
Proof. solve_decision. Defined.

(** ** Payment gateways (payments/providers/interface.py) *)

Record PaymentCreateRequest := MkPaymentCreateRequest {
  pcr_order_id : option UUID;
  pcr_amount : dec;
  pcr_currency : string;
  pcr_idempotency_key : string;
  pcr_metadata : dict;
  pcr_return_url : option string;
}.

Global Instance PaymentCreateRequest_eta : Eta PaymentCreateRequest := λ r,
  MkPaymentCreateRequest (pcr_order_id r) (pcr_amount r) (pcr_currency r)
    (pcr_idempotency_key r) (pcr_metadata r) (pcr_return_url r).

Record PaymentCreateResult := MkPaymentCreateResult {
  pcres_provider_payment_id : string;
  pcres_status : PaymentIntentStatus;
  pcres_checkout_url : option string;
  pcres_raw_data : dict;
  pcres_verification_attributes : list (string * string);
}.

Global Instance PaymentCreateResult_eta : Eta PaymentCreateResult := λ r,
  MkPaymentCreateResult (pcres_provider_payment_id r) (pcres_status r)
    (pcres_checkout_url r) (pcres_raw_data r) (pcres_verification_attributes r).

Record WebhookVerificationResult := MkWebhookVerificationResult {
  wv_is_valid : bool;
  wv_provider_event_id : string;
  wv_event_type : string;
  wv_provider_payment_id : option string;
  wv_status : option PaymentIntentStatus;
  wv_amount : option dec;
  wv_currency : option string;
  wv_verification_attributes : list (string * string);
}.

Global Instance WebhookVerificationResult_eta : Eta WebhookVerificationResult := λ r,
  MkWebhookVerificationResult (wv_is_valid r) (wv_provider_event_id r) (wv_event_type r)
    (wv_provider_payment_id r) (wv_status r) (wv_amount r) (wv_currency r)
    (wv_verification_attributes r).

Record PaymentRefundRequest := MkPaymentRefundRequest {
  prr_provider_payment_id : string;
  prr_amount : dec;
  prr_currency : string;
  prr_idempotency_key : string;
  prr_reason : option string;
  prr_metadata : dict;
}.

Global Instance PaymentRefundRequest_eta : Eta PaymentRefundRequest := λ r,
  MkPaymentRefundRequest (prr_provider_payment_id r) (prr_amount r) (prr_currency r)
    (prr_idempotency_key r) (prr_reason r) (prr_metadata r).

Record PaymentRefundResult := MkPaymentRefundResult {
  prres_provider_refund_id : string;
  prres_is_success : bool;
}.

Global Instance PaymentRefundResult_eta : Eta PaymentRefundResult := λ r,
  MkPaymentRefundResult (prres_provider_refund_id r) (prres_is_success r).

Record PaymentDetailsResult := MkPaymentDetailsResult {
  pd_provider_payment_id : string;
  pd_status : PaymentIntentStatus;
  pd_amount : dec;
  pd_currency : string;
  pd_verification_attributes : list (string * string);
}.

Global Instance PaymentDetailsResult_eta : Eta PaymentDetailsResult := λ r,
  MkPaymentDetailsResult (pd_provider_payment_id r) (pd_status r) (pd_amount r)
    (pd_currency r) (pd_verification_attributes r).

Record FlexibleDepositCreateRequest := MkFlexibleDepositCreateRequest {
  fdreq_idempotency_key : string;
  fdreq_order_reference : string;
  fdreq_metadata : dict;
  fdreq_return_url : option string;
}.

Global Instance FlexibleDepositCreateRequest_eta : Eta FlexibleDepositCreateRequest := λ r,
  MkFlexibleDepositCreateRequest (fdreq_idempotency_key r) (fdreq_order_reference r)
    (fdreq_metadata r) (fdreq_return_url r).

Record FlexibleDepositResult := MkFlexibleDepositResult {
  fdres_provider_deposit_id : string;
  fdres_status : FlexibleDepositStatus;
  fdres_checkout_url : option string;
  fdres_asset : option string;
  fdres_network : option string;
  fdres_amount_received : option dec;
  fdres_fee_amount : option dec;
  fdres_raw_data : dict;
}.

Global Instance FlexibleDepositResult_eta : Eta FlexibleDepositResult := λ r,
  MkFlexibleDepositResult (fdres_provider_deposit_id r) (fdres_status r)
    (fdres_checkout_url r) (fdres_asset r) (fdres_network r) (fdres_amount_received r)
    (fdres_fee_amount r) (fdres_raw_data r).

(** What leaves the program and no rollback takes back: an order placed with an
    upstream provider, a query of one, its cancellation, a notification, a
    payment created with a gateway, a refund asked of one, an announcement
    handed to Telegram (refused with a rate limit, or not), a request to the
    platform's billing provider, and a secret handed to the vault. *)
Inductive Sent :=
  | SentOrder (provider_id : UUID) (request : ProviderOrderRequest)
  | SentQuery (provider_id : UUID) (external_order_id : string)
  | SentCancel (provider_id : UUID) (external_order_id : string)
  | SentNotice (event : NotificationEventType) (order_id : UUID)
  | SentPayment (tenant_id : UUID) (gateway : string) (request : PaymentCreateRequest)
  | SentRefund (tenant_id : UUID) (gateway : string) (request : PaymentRefundRequest)
  | SentDeposit (tenant_id : UUID) (gateway : string) (request : FlexibleDepositCreateRequest)
  | SentAnnouncement (delivery_id : UUID) (rate_limited : bool)
  | SentBilling (method path : string) (data : list (string * string)) (idempotency_key : option string)
  | SentSecret (ref_ value : string).

(** ** Fulfillment (fulfillment/models.py) *)

Inductive FulfillmentStatus :=
  | FulPending
  | FulProcessing
  | FulSucceeded
  | FulRetrying
  | FulUnknown
  | FulFailed
  | FulCancelled.

Global Instance FulfillmentStatus_eq_dec : EqDecision FulfillmentStatus.
Proof. solve_decision. Defined.

Record FulfillmentAttempt := MkFulfillmentAttempt {
  att_id : UUID;
  att_tenant_id : UUID;
  att_order_id : UUID;
  att_order_item_id : option UUID;
  att_provider_id : option UUID;
  att_attempt_number : Z;
  att_idempotency_key : string;
  att_status : FulfillmentStatus;
  att_external_order_id : option string;
  att_cost_amount : dec;
  att_cost_currency : string;
  att_request_payload : dict;
  att_response_payload : json;
  att_error_classification : option string;
  att_started_at : Z;
  att_completed_at : option Z;
}.

Global Instance FulfillmentAttempt_eta : Eta FulfillmentAttempt := λ r,
  MkFulfillmentAttempt (att_id r) (att_tenant_id r) (att_order_id r)
    (att_order_item_id r) (att_provider_id r) (att_attempt_number r)
    (att_idempotency_key r) (att_status r) (att_external_order_id r) (att_cost_amount r)
    (att_cost_currency r) (att_request_payload r) (att_response_payload r)
    (att_error_classification r) (att_started_at r) (att_completed_at r).
Global Instance FulfillmentAttempt_row : Row FulfillmentAttempt := att_id.

Inductive FulfillmentJobStatus := JobQueued | JobRunning | JobCompleted | JobFailed | JobDeadLetter.

Global Instance FulfillmentJobStatus_eq_dec : EqDecision FulfillmentJobStatus.
Proof. solve_decision. Defined.

Record FulfillmentJobRecord := MkFulfillmentJobRecord {
  job_id : UUID;
  job_tenant_id : UUID;
  job_order_id : UUID;
  job_recipient : string;
  job_attempt_number : Z;
  job_status : FulfillmentJobStatus;
  job_payload : dict;
  job_last_error : option string;
  job_failure_classification : option string;
  job_manual_requeue_count : Z;
  job_locked_at : option Z;
  job_completed_at : option Z;
  job_created_at : Z;
}.

Global Instance FulfillmentJobRecord_eta : Eta FulfillmentJobRecord := λ r,
  MkFulfillmentJobRecord (job_id r) (job_tenant_id r) (job_order_id r) (job_recipient r)
    (job_attempt_number r) (job_status r) (job_payload r) (job_last_error r)
    (job_failure_classification r) (job_manual_requeue_count r) (job_locked_at r)
    (job_completed_at r) (job_created_at r).
Global Instance FulfillmentJobRecord_row : Row FulfillmentJobRecord := job_id.

(** ** Store operations (operations/models.py, tenants/models.py, telegram/models.py) *)

Record Coupon := MkCoupon {
  coupon_id : UUID;
  coupon_tenant_id : UUID;
  coupon_code : string;
  coupon_percent : dec;
  coupon_currency : string;
  coupon_minimum_amount : dec;
  coupon_max_uses : Z;
  coupon_used_count : Z;
  coupon_expires_at : Z;
  coupon_is_active : bool;
}.

Global Instance Coupon_eta : Eta Coupon := λ r,
  MkCoupon (coupon_id r) (coupon_tenant_id r) (coupon_code r) (coupon_percent r)
    (coupon_currency r) (coupon_minimum_amount r) (coupon_max_uses r)
    (coupon_used_count r) (coupon_expires_at r) (coupon_is_active r).
Global Instance Coupon_row : Row Coupon := coupon_id.

Record CouponRedemption := MkCouponRedemption {
  red_id : UUID;
  red_tenant_id : UUID;
  red_coupon_id : UUID;
  red_order_id : UUID;
  red_user_id : UUID;
  red_code : string;
  red_discount_amount : dec;
  red_currency : string;
}.

Global Instance CouponRedemption_eta : Eta CouponRedemption := λ r,
  MkCouponRedemption (red_id r) (red_tenant_id r) (red_coupon_id r) (red_order_id r)
    (red_user_id r) (red_code r) (red_discount_amount r) (red_currency r).
Global Instance CouponRedemption_row : Row CouponRedemption := red_id.

Record SupportCase := MkSupportCase {
  case_id : UUID;
  case_tenant_id : UUID;
  case_user_id : UUID;
  case_order_id : option UUID;
  case_warranty_item_id : option UUID;
  case_kind : string;
  case_subject : string;
  case_status : string;
  case_version : Z;
  case_warranty_terms : option string;
  case_resolution : option string;
}.

Global Instance SupportCase_eta : Eta SupportCase := λ r,
  MkSupportCase (case_id r) (case_tenant_id r) (case_user_id r) (case_order_id r)
    (case_warranty_item_id r) (case_kind r) (case_subject r) (case_status r)
    (case_version r) (case_warranty_terms r) (case_resolution r).
Global Instance SupportCase_row : Row SupportCase := case_id.

Record SupportMessage := MkSupportMessage {
  msg_id : UUID;
  msg_tenant_id : UUID;
  msg_case_id : UUID;
  msg_author_id : UUID;
  msg_is_staff : bool;
  msg_body : string;
}.

Global Instance SupportMessage_eta : Eta SupportMessage := λ r,
  MkSupportMessage (msg_id r) (msg_tenant_id r) (msg_case_id r) (msg_author_id r)
    (msg_is_staff r) (msg_body r).
Global Instance SupportMessage_row : Row SupportMessage := msg_id.

Record AuditLog := MkAuditLog {
  log_id : UUID;
  log_tenant_id : UUID;
  log_user_id : option UUID;
  log_action : string;
  log_resource_type : string;
  log_resource_id : string;
  log_details : dict;
}.

Global Instance AuditLog_eta : Eta AuditLog := λ r,
  MkAuditLog (log_id r) (log_tenant_id r) (log_user_id r) (log_action r)
    (log_resource_type r) (log_resource_id r) (log_details r).
Global Instance AuditLog_row : Row AuditLog := log_id.

Record Announcement := MkAnnouncement {
  ann_id : UUID;
  ann_tenant_id : UUID;
  ann_bot_id : UUID;
  ann_title : string;
  ann_body : string;
  ann_audience : string;
  ann_status : string;
  ann_queued_at : option Z;
}.

Global Instance Announcement_eta : Eta Announcement := λ r,
  MkAnnouncement (ann_id r) (ann_tenant_id r) (ann_bot_id r) (ann_title r) (ann_body r)
    (ann_audience r) (ann_status r) (ann_queued_at r).
Global Instance Announcement_row : Row Announcement := ann_id.

Record AnnouncementDelivery := MkAnnouncementDelivery {
  deliv_id : UUID;
  deliv_tenant_id : UUID;
  deliv_announcement_id : UUID;
  deliv_binding_id : UUID;
  deliv_status : string;
  deliv_next_attempt_at : Z;
  deliv_error_code : option string;
  deliv_telegram_message_id : option Z;
  deliv_updated_at : Z;
}.

Global Instance AnnouncementDelivery_eta : Eta AnnouncementDelivery := λ r,
  MkAnnouncementDelivery (deliv_id r) (deliv_tenant_id r) (deliv_announcement_id r)
    (deliv_binding_id r) (deliv_status r) (deliv_next_attempt_at r) (deliv_error_code r)
    (deliv_telegram_message_id r) (deliv_updated_at r).
Global Instance AnnouncementDelivery_row : Row AnnouncementDelivery := deliv_id.

Record Membership := MkMembership {
  mem_id : UUID;
  mem_tenant_id : UUID;
  mem_user_id : UUID;
  mem_is_active : bool;
}.

Global Instance Membership_eta : Eta Membership := λ r,
  MkMembership (mem_id r) (mem_tenant_id r) (mem_user_id r) (mem_is_active r).
Global Instance Membership_row : Row Membership := mem_id.

Record TenantTelegramUser := MkTenantTelegramUser {
  ttu_id : UUID;
  ttu_tenant_id : UUID;
  ttu_user_id : UUID;
  ttu_bot_id : UUID;
  ttu_telegram_user_id : Z;
  ttu_is_blocked : bool;
}.

Global Instance TenantTelegramUser_eta : Eta TenantTelegramUser := λ r,
  MkTenantTelegramUser (ttu_id r) (ttu_tenant_id r) (ttu_user_id r) (ttu_bot_id r)
    (ttu_telegram_user_id r) (ttu_is_blocked r).
Global Instance TenantTelegramUser_row : Row TenantTelegramUser := ttu_id.

Record Bot := MkBot {
  bot_id : UUID;
  bot_tenant_id : UUID;
  bot_telegram_bot_id : Z;
  bot_username : option string;
  bot_display_name : string;
  bot_token_secret_ref : string;
  bot_credential_status : string;
  bot_credential_version : Z;
  bot_credential_verified_at : option Z;
  bot_credential_rotated_at : option Z;
  bot_credential_last_error_type : option string;
  bot_runtime_revision : Z;
  bot_release_channel : string;
  bot_is_enabled : bool;
  bot_deleted_at : option Z;
  bot_config : dict;
}.

Global Instance Bot_eta : Eta Bot := λ r,
  MkBot (bot_id r) (bot_tenant_id r) (bot_telegram_bot_id r) (bot_username r)
    (bot_display_name r) (bot_token_secret_ref r) (bot_credential_status r)
    (bot_credential_version r) (bot_credential_verified_at r)
    (bot_credential_rotated_at r) (bot_credential_last_error_type r)
    (bot_runtime_revision r) (bot_release_channel r) (bot_is_enabled r)
    (bot_deleted_at r) (bot_config r).
Global Instance Bot_row : Row Bot := bot_id.

(** ** Bot provisioning (factory/models.py) *)

Inductive BotProvisioningStatus :=
  | ProvPending
  | ProvRunning
  | ProvRetry
  | ProvReady
  | ProvFailed
  | ProvCancelled.

Global Instance BotProvisioningStatus_eq_dec : EqDecision BotProvisioningStatus.
Proof. solve_decision. Defined.

Record BotProvisioningJob := MkBotProvisioningJob {
  bpj_id : UUID;
  bpj_tenant_id : UUID;
  bpj_requested_by_user_id : option UUID;
  bpj_bot_id : option UUID;
  bpj_idempotency_key : string;
  bpj_request_fingerprint : string;
  bpj_token_secret_ref : string;
  bpj_expected_username : option string;
  bpj_requested_display_name : option string;
  bpj_desired_enabled : bool;
  bpj_desired_config : dict;
  bpj_status : BotProvisioningStatus;
  bpj_attempt_count : Z;
  bpj_max_attempts : Z;
  bpj_next_attempt_at : option Z;
  bpj_locked_at : option Z;
  bpj_lease_expires_at : option Z;
  bpj_completed_at : option Z;
  bpj_verified_telegram_bot_id : option Z;
  bpj_verified_username : option string;
  bpj_last_error_code : option string;
  bpj_last_error_type : option string;
  bpj_created_at : Z;
}.

Global Instance BotProvisioningJob_eta : Eta BotProvisioningJob := λ r,
  MkBotProvisioningJob (bpj_id r) (bpj_tenant_id r) (bpj_requested_by_user_id r)
    (bpj_bot_id r) (bpj_idempotency_key r) (bpj_request_fingerprint r)
    (bpj_token_secret_ref r) (bpj_expected_username r) (bpj_requested_display_name r)
    (bpj_desired_enabled r) (bpj_desired_config r) (bpj_status r) (bpj_attempt_count r)
    (bpj_max_attempts r) (bpj_next_attempt_at r) (bpj_locked_at r)
    (bpj_lease_expires_at r) (bpj_completed_at r) (bpj_verified_telegram_bot_id r)
    (bpj_verified_username r) (bpj_last_error_code r) (bpj_last_error_type r)
    (bpj_created_at r).
Global Instance BotProvisioningJob_row : Row BotProvisioningJob := bpj_id.

(** ** Platform subscriptions (saas/models.py) *)

Inductive SubscriptionStatus := SubTrialing | SubActive | SubPastDue | SubPaused | SubCanceled.

Global Instance SubscriptionStatus_eq_dec : EqDecision SubscriptionStatus.
Proof. solve_decision. Defined.

Inductive BillingEventStatus := BillReceived | BillApplied | BillIgnored | BillFailed.

Global Instance BillingEventStatus_eq_dec : EqDecision BillingEventStatus.
Proof. solve_decision. Defined.

Inductive BillingInterval := MONTH | YEAR.

Global Instance BillingInterval_eq_dec : EqDecision BillingInterval.
Proof. solve_decision. Defined.

Record SaaSPlan := MkSaaSPlan {
  plan_id : UUID;
  plan_key : string;
  plan_name : string;
  plan_description : option string;
  plan_is_active : bool;
  plan_is_public : bool;
  plan_entitlements : dict;
  plan_metadata_json : dict;
  plan_created_at : Z;
}.

Global Instance SaaSPlan_eta : Eta SaaSPlan := λ r,
  MkSaaSPlan (plan_id r) (plan_key r) (plan_name r) (plan_description r)
    (plan_is_active r) (plan_is_public r) (plan_entitlements r) (plan_metadata_json r)
    (plan_created_at r).
Global Instance SaaSPlan_row : Row SaaSPlan := plan_id.

Record SaaSPlanPrice := MkSaaSPlanPrice {
  price_id : UUID;
  price_plan_id : UUID;
  price_provider : string;
  price_external_price_id : string;
  price_currency : string;
  price_unit_amount_minor : Z;
  price_interval : BillingInterval;
  price_interval_count : Z;
  price_is_active : bool;
  price_metadata_json : dict;
}.

Global Instance SaaSPlanPrice_eta : Eta SaaSPlanPrice := λ r,
  MkSaaSPlanPrice (price_id r) (price_plan_id r) (price_provider r)
    (price_external_price_id r) (price_currency r) (price_unit_amount_minor r)
    (price_interval r) (price_interval_count r) (price_is_active r)
    (price_metadata_json r).
Global Instance SaaSPlanPrice_row : Row SaaSPlanPrice := price_id.

Record TenantSubscription := MkTenantSubscription {
  sub_id : UUID;
  sub_tenant_id : UUID;
  sub_plan_id : UUID;
  sub_status : SubscriptionStatus;
  sub_billing_provider : option string;
  sub_external_customer_id : option string;
  sub_external_subscription_id : option string;
  sub_current_period_start : option Z;
  sub_current_period_end : option Z;
  sub_trial_ends_at : option Z;
  sub_grace_ends_at : option Z;
  sub_provider_synced_at : option Z;
  sub_provider_sync_source : option string;
  sub_provider_sync_error : option string;
  sub_provider_sync_error_at : option Z;
  sub_cancel_at_period_end : bool;
  sub_entitlement_overrides : dict;
  sub_billing_metadata : dict;
  sub_updated_at : Z;
}.

Global Instance TenantSubscription_eta : Eta TenantSubscription := λ r,
  MkTenantSubscription (sub_id r) (sub_tenant_id r) (sub_plan_id r) (sub_status r)
    (sub_billing_provider r) (sub_external_customer_id r)
    (sub_external_subscription_id r) (sub_current_period_start r)
    (sub_current_period_end r) (sub_trial_ends_at r) (sub_grace_ends_at r)
    (sub_provider_synced_at r) (sub_provider_sync_source r) (sub_provider_sync_error r)
    (sub_provider_sync_error_at r) (sub_cancel_at_period_end r)
    (sub_entitlement_overrides r) (sub_billing_metadata r) (sub_updated_at r).
Global Instance TenantSubscription_row : Row TenantSubscription := sub_id.

Record BillingEvent := MkBillingEvent {
  bev_id : UUID;
  bev_provider : string;
  bev_external_event_id : string;
  bev_event_type : string;
  bev_payload_sha256 : string;
  bev_status : BillingEventStatus;
  bev_tenant_id : option UUID;
  bev_subscription_id : option UUID;
  bev_attempts : Z;
  bev_processed_at : option Z;
  bev_event_metadata : dict;
  bev_last_error : option string;
}.

Global Instance BillingEvent_eta : Eta BillingEvent := λ r,
  MkBillingEvent (bev_id r) (bev_provider r) (bev_external_event_id r)
    (bev_event_type r) (bev_payload_sha256 r) (bev_status r) (bev_tenant_id r)
    (bev_subscription_id r) (bev_attempts r) (bev_processed_at r) (bev_event_metadata r)
    (bev_last_error r).
Global Instance BillingEvent_row : Row BillingEvent := bev_id.

Record PlatformAuditLog := MkPlatformAuditLog {
  plog_id : UUID;
  plog_actor : string;
  plog_action : string;
  plog_resource_type : string;
  plog_resource_id : string;
  plog_tenant_id : option UUID;
  plog_details : dict;
  plog_ip_address : option string;
}.

Global Instance PlatformAuditLog_eta : Eta PlatformAuditLog := λ r,
  MkPlatformAuditLog (plog_id r) (plog_actor r) (plog_action r) (plog_resource_type r)
    (plog_resource_id r) (plog_tenant_id r) (plog_details r) (plog_ip_address r).
Global Instance PlatformAuditLog_row : Row PlatformAuditLog := plog_id.

(** ** Financial resolution cases (payments/models.py) *)

Inductive FinancialResolutionCaseStatus := FrcOpen | FrcInProgress | FrcResolved.

Global Instance FinancialResolutionCaseStatus_eq_dec : EqDecision FinancialResolutionCaseStatus.
Proof. solve_decision. Defined.

Record FinancialResolutionCase := MkFinancialResolutionCase {
  frc_id : UUID;
  frc_tenant_id : UUID;
  frc_source_key : string;
  frc_case_type : string;
  frc_severity : string;
  frc_status : FinancialResolutionCaseStatus;
  frc_payment_intent_id : option UUID;
  frc_wallet_id : option UUID;
  frc_reversal_id : option UUID;
  frc_reconciliation_event_id : option UUID;
  frc_assigned_to_user_id : option UUID;
  frc_version : Z;
  frc_resolution_code : option string;
  frc_resolution_note : option string;
  frc_resolved_by_user_id : option UUID;
  frc_resolved_at : option Z;
  frc_metadata_json : dict;
}.

Global Instance FinancialResolutionCase_eta : Eta FinancialResolutionCase := λ r,
  MkFinancialResolutionCase (frc_id r) (frc_tenant_id r) (frc_source_key r)
    (frc_case_type r) (frc_severity r) (frc_status r) (frc_payment_intent_id r)
    (frc_wallet_id r) (frc_reversal_id r) (frc_reconciliation_event_id r)
    (frc_assigned_to_user_id r) (frc_version r) (frc_resolution_code r)
    (frc_resolution_note r) (frc_resolved_by_user_id r) (frc_resolved_at r)
    (frc_metadata_json r).
Global Instance FinancialResolutionCase_row : Row FinancialResolutionCase := frc_id.

(** ** The database and the session *)

(** The tables the modelled services read and write. *)
Record DB := MkDB {
  wallets : list Wallet;
  ledger : list LedgerTransaction;
  holds : list WalletHold;
  asset_wallets : list AssetWallet;
  asset_ledger : list AssetLedgerTransaction;
  fx_policies : list FxPolicy;
  deposits : list FlexibleDepositSession;
  orders : list Order;
  order_items : list OrderItem;
  intents : list PaymentIntent;
  payment_txs : list PaymentTransaction;
  reversals : list WalletTopUpReversal;
  recon_events : list PaymentReconciliationEvent;
  provider_configs : list PaymentProviderConfig;
  webhook_events : list PaymentWebhookEvent;
  resolution_cases : list FinancialResolutionCase;
  tenants : list Tenant;
  products : list Product;
  variants : list ProductVariant;
  tiers : list PricingTier;
  user_tiers : list UserPricingTier;
  pricing_rules : list PricingRule;
  quotes : list CommercePriceQuote;
  item_economics : list OrderItemEconomics;
  providers : list Provider;
  policies : list ProviderRoutingPolicy;
  mappings : list ProviderProductMapping;
  offers : list ProviderOfferSnapshot;
  attempts : list FulfillmentAttempt;
  jobs : list FulfillmentJobRecord;
  coupons : list Coupon;
  redemptions : list CouponRedemption;
  support_cases : list SupportCase;
  support_messages : list SupportMessage;
  audit_logs : list AuditLog;
  announcements : list Announcement;
  deliveries : list AnnouncementDelivery;
  memberships : list Membership;
  telegram_users : list TenantTelegramUser;
  bots : list Bot;
  credentials : list ProviderCredential;
  users : list User;
  payment_methods : list PaymentMethodConfig;
  provisioning_jobs : list BotProvisioningJob;
  plans : list SaaSPlan;
  plan_prices : list SaaSPlanPrice;
  subscriptions : list TenantSubscription;
  billing_events : list BillingEvent;
  platform_logs : list PlatformAuditLog;
  payment_quotes : list PaymentQuote;
  observations : list PaymentObservation;
}.

Global Instance DB_eta : Eta DB := λ r,
  MkDB (wallets r) (ledger r) (holds r) (asset_wallets r) (asset_ledger r)
    (fx_policies r) (deposits r) (orders r) (order_items r) (intents r) (payment_txs r)
    (reversals r) (recon_events r) (provider_configs r) (webhook_events r)
    (resolution_cases r) (tenants r) (products r) (variants r) (tiers r) (user_tiers r)
    (pricing_rules r) (quotes r) (item_economics r) (providers r) (policies r)
    (mappings r) (offers r) (attempts r) (jobs r) (coupons r) (redemptions r)
    (support_cases r) (support_messages r) (audit_logs r) (announcements r)
    (deliveries r) (memberships r) (telegram_users r) (bots r) (credentials r) (users r)
    (payment_methods r) (provisioning_jobs r) (plans r) (plan_prices r)
    (subscriptions r) (billing_events r) (platform_logs r) (payment_quotes r)
    (observations r).

Definition empty_db : DB :=
  MkDB [] [] [] [] [] [] [] [] [] [] [] [] [] [] [] [] []
    [] [] [] [] [] [] [] [] [] [] [] [] [] [] [] [] [] [] [] [] [] [] [] [] [] []
    [] [] [] [] [] [] [] [].

(** What a run of the program takes from outside: the clock (its reading after
    [n] draws, in microseconds), the values [uuid.uuid4()] draws, the effect of
    the transactions that other sessions commit between a fast-path read and
    the savepoint that follows it (the window the [IntegrityError] handlers are
    written for), SHA-256 in hexadecimal, and the text [str] gives a decimal, an
    exception and a JSON value, and [isoformat()] a reading of the clock. *)
Class Env := {
  env_clock : nat → Z;
  env_uuid4 : nat → UUID;
  env_race : DB → DB;
  env_sha256 : string → string;
  env_decimal_str : dec → string;
  env_exn_str : exn → string;
  env_json_str : json → string;
  env_isoformat : Z → string;
}.

(** [timedelta(seconds=n)] on that clock. *)
Definition seconds (n : Z) : Z := n * 1000000.

(** No other session commits in that window: on PostgreSQL the row lock of
    [_lock_wallet] gives this for everything that goes through the wallet. *)
Class Serial (E : Env) : Prop := serial_race : ∀ d, @env_race E d = d.

(** The clock advances and [uuid4] does not repeat itself. *)
Class GoodEnv (E : Env) : Prop := {
  clock_advances : ∀ m n, (m < n)%nat → @env_clock E m < @env_clock E n;
  uuid4_inj : Inj (=) (=) (@env_uuid4 E);
}.

Record Session := MkSession {
  ses_db : DB;
  ses_committed : DB;
  ses_draws : nat;
  ses_sent : list Sent;
}.

Global Instance Session_eta : Eta Session := λ r,
  MkSession (ses_db r) (ses_committed r) (ses_draws r) (ses_sent r).

(** A coroutine over a session. *)
Abbreviation M := (prog exn Session).

Definition query {A} (f : DB → A) : M A := gets (λ s, f (ses_db s)).
Definition write (f : DB → DB) : M unit := modify (λ s, s <| ses_db ::= f |>).

Definition uuid4 `{Env} : M UUID := λ s,
  (Ok (env_uuid4 (ses_draws s)), s <| ses_draws ::= S |>).

(** [datetime.now(UTC)] *)
Definition now `{Env} : M Z := gets (λ s, env_clock (ses_draws s)).

(** A value written to a [String(n)] column. *)
Definition to_varchar (n : nat) (v : string) : M string :=
  if (n <? String.length v)%nat then mthrow DataError else mret v.

(** A nullable [String(n)] column. *)
Definition to_varchar_opt (n : nat) (v : option string) : M unit :=
  match v with Some s => to_varchar n s;; mret tt | None => mret tt end.

(** A message to another system, recorded in order. *)
Definition send (m : Sent) : M unit := modify (λ s, s <| ses_sent ::= (λ l, l ++ [m]) |>).

(** Control returns to the event loop: other sessions may commit. *)
Definition await_others `{Env} : M unit := write env_race.

(** [async with session.begin_nested(): m]: a savepoint; an exception rolls
    the database back to it and propagates. *)
Definition begin_nested {A} (m : M A) : M A := λ s,
  match m s with
  | (Ok a, s') => (Ok a, s')
  | (Raise e, s') => (Raise e, s' <| ses_db := ses_db s |>)
  end.

Definition commit : M unit := modify (λ s, s <| ses_committed := ses_db s |>).
Definition rollback : M unit := modify (λ s, s <| ses_db := ses_committed s |>).

(** [get_db_session]: commits when the handler returns, rolls back and
    re-raises when it does not. *)
Definition in_request {A} (m : M A) : M A :=
  catch (a ← m; commit;; mret a) (λ e, rollback;; mthrow e).

(** [scalar_one_or_none()] of a selection. *)
Definition one_or_none {A} (l : list A) : M (option A) :=
  of_outcome (scalar_one_or_none MultipleResultsFound l).

(** [session.scalar(select(...))]: the first row, if any. *)
Definition scalar {A} (f : DB → list A) : M (option A) := query (λ d, head (f d)).

(** [scalar_one()] *)
Definition scalar_one {A} (f : DB → list A) : M A :=
  rows ← query f; found ← one_or_none rows; of_option NoResultFound found.

(** [try: m except IntegrityError: h] *)
Definition except_integrity {A} (m h : M A) : M A :=
  catch m (λ e, match e with IntegrityError => h | _ => mthrow e end).

(** A value written to a [Numeric(p, s)] column. *)
Definition to_numeric (p s : Z) (x : dec) : M dec := of_option DataError (numeric p s x).

(** ** Lemmas on the session primitives *)

Section session_steps.
  Context (R : Session → Session → Prop) `{!PreOrder R}.

Lemma steps_query {A} (f : DB → A) : steps R (query f).
Proof. intros s. reflexivity. Qed.

Lemma steps_write (f : DB → DB) :
  (∀ s, R s (s <| ses_db ::= f |>)) → steps R (write f).
Proof. intros H s. apply H. Qed.

Lemma steps_one_or_none {A} (l : list A) : steps R (one_or_none l).
Proof. by apply steps_of_outcome. Qed.

Lemma steps_scalar {A} (f : DB → list A) : steps R (scalar f).
Proof. by apply steps_query. Qed.

Lemma steps_scalar_one {A} (f : DB → list A) : steps R (scalar_one f).
Proof.
  intros s. unfold scalar_one, one_or_none, query, mbind, prog_bind, gets. cbn.
  by destruct (f (ses_db s)) as [|? []].
Qed.

Lemma steps_to_numeric p s x : steps R (to_numeric p s x).
Proof. by apply steps_of_option. Qed.

Lemma steps_to_varchar n v : steps R (to_varchar n v).
Proof. unfold to_varchar. case_match; intros s; reflexivity. Qed.

Lemma steps_now `{Env} : steps R now.
Proof. intros s. reflexivity. Qed.

End session_steps.

#[export] Hint Resolve steps_query steps_scalar steps_scalar_one steps_one_or_none steps_to_numeric
  steps_to_varchar steps_now : steps.

(** Two sessions that agree on the database. *)
Definition same_db (s s' : Session) : Prop := ses_db s' = ses_db s.

Global Instance same_db_preorder : PreOrder same_db.
Proof. split; unfold same_db; [by intros x | by intros x y z -> ->]. Qed.

Lemma steps_uuid4 `{Env} (R : Session → Session → Prop) `{!PreOrder R} :
  (∀ s s', same_db s s' → ses_committed s' = ses_committed s → R s s') → steps R uuid4.
Proof. intros H' s. by apply H'. Qed.

(** The environment is consumed in order. *)
Definition later (s s' : Session) : Prop := (ses_draws s ≤ ses_draws s')%nat.

Global Instance later_preorder : PreOrder later.
Proof. split; unfold later; [by intros x | intros x y z; lia]. Qed.

Lemma later_write f : steps later (write f).
Proof. intros s. unfold later. cbn. lia. Qed.

Lemma later_uuid4 `{Env} : steps later uuid4.
Proof. intros s. unfold later. cbn. lia. Qed.

Lemma later_await `{Env} : steps later await_others.
Proof. apply later_write. Qed.

Lemma later_nested {A} (m : M A) : steps later m → steps later (begin_nested m).
Proof.
  intros Hm s. specialize (Hm s). unfold begin_nested. by destruct (m s) as [[a|e] s'].
Qed.

Lemma later_commit : steps later commit.
Proof. intros s. unfold later. cbn. lia. Qed.

Lemma later_rollback : steps later rollback.
Proof. intros s. unfold later. cbn. lia. Qed.

#[export] Hint Resolve later_write later_uuid4 later_await later_nested later_commit
  later_rollback : steps.

(** Only [commit] changes the committed version. *)
Definition same_committed (s s' : Session) : Prop := ses_committed s' = ses_committed s.

Global Instance same_committed_preorder : PreOrder same_committed.
Proof. split; unfold same_committed; [by intros x | by intros x y z -> ->]. Qed.

Lemma committed_write f : steps same_committed (write f).
Proof. by intros s. Qed.

Lemma committed_uuid4 `{Env} : steps same_committed uuid4.
Proof. by intros s. Qed.

Lemma committed_await `{Env} : steps same_committed await_others.
Proof. by intros s. Qed.

Lemma committed_nested {A} (m : M A) : steps same_committed m → steps same_committed (begin_nested m).
Proof.
  intros Hm s. specialize (Hm s). unfold begin_nested. by destruct (m s) as [[a|e] s'].
Qed.

#[export] Hint Resolve committed_write committed_uuid4 committed_await committed_nested : steps.

(** A property of the database that holds in the session's view and in the
    committed version. *)
Definition both (P : DB → Prop) (s : Session) : Prop := P (ses_db s) ∧ P (ses_committed s).

Section both.
  Context (P : DB → Prop).

Lemma both_write f : (∀ d, P d → P (f d)) → steps (keeps (both P)) (write f).
Proof. intros Hf s [Hd Hc]. split; [by apply Hf|done]. Qed.

Lemma both_commit : steps (keeps (both P)) commit.
Proof. intros s [Hd _]. by split. Qed.

Lemma both_rollback : steps (keeps (both P)) rollback.
Proof. intros s [_ Hc]. by split. Qed.

Lemma both_reads {A} (m : M A) : steps eq m → steps (keeps (both P)) m.
Proof. intros Hm s. by rewrite <- (Hm s). Qed.

Lemma both_uuid4 `{Env} : steps (keeps (both P)) uuid4.
Proof. by intros s Hs. Qed.

Lemma both_send m : steps (keeps (both P)) (send m).
Proof. by intros s Hs. Qed.

Lemma both_await `{HE : Env} `{!Serial HE} : steps (keeps (both P)) await_others.
Proof. intros s [Hd Hc]. split; [|done]. cbn. by rewrite serial_race. Qed.

Lemma both_nested {A} (m : M A) : steps (keeps (both P)) m → steps (keeps (both P)) (begin_nested m).
Proof.
  intros Hm s Hs. specialize (Hm s Hs). unfold begin_nested.
  destruct (m s) as [[a|e] s']; [done|]. destruct Hs, Hm. by split.
Qed.

End both.

Lemma query_inv {A} (f : DB → A) s r s' :
  query f s = (r, s') → r = Ok (f (ses_db s)) ∧ s' = s.
Proof. by intros [= <- <-]. Qed.

Lemma write_inv (f : DB → DB) s r s' :
  write f s = (r, s') → r = Ok tt ∧ s' = s <| ses_db ::= f |>.
Proof. by intros [= <- <-]. Qed.

Lemma begin_nested_ok {A} (m : M A) s a s' :
  begin_nested m s = (Ok a, s') → m s = (Ok a, s').
Proof. unfold begin_nested. destruct (m s) as [[?|?] ?]; naive_solver. Qed.

Lemma one_or_none_some {A} (l : list A) (s : Session) x s' :
  one_or_none l s = (Ok (Some x), s') → l = [x] ∧ s' = s.
Proof. destruct l as [|y [|z l]]; cbn; [done| |done]. by intros [= <- <-]. Qed.

Lemma one_or_none_none {A} (l : list A) (s : Session) s' :
  one_or_none l s = (Ok None, s') → l = [] ∧ s' = s.
Proof. destruct l as [|y [|z l]]; cbn; [|done|done]. by intros [= <-]. Qed.

Lemma of_outcome_ok {A} (o : outcome exn A) (s : Session) a s' :
  of_outcome o s = (Ok a, s') → o = Ok a ∧ s' = s.
Proof. destruct o; [|done]. by intros [= <- <-]. Qed.

Lemma to_varchar_ok n v (s : Session) x s' :
  to_varchar n v s = (Ok x, s') → x = v ∧ s' = s ∧ (String.length v ≤ n)%nat.
Proof.
  unfold to_varchar. destruct (Nat.ltb_spec n (String.length v)); [done|]. by intros [= <- <-].
Qed.

(** A savepoint that failed leaves the database as it was. *)
Lemma begin_nested_raise {A} (m : M A) s e s' :
  begin_nested m s = (Raise e, s') → ses_db s' = ses_db s.
Proof. unfold begin_nested. destruct (m s) as [[?|?] ?]; [done|]. by intros [= _ <-]. Qed.

(** [run_inv] with the session primitives. *)
Ltac db_inv_step :=
  match goal with
  | H : query _ _ = _ |- _ =>
      apply query_inv in H; destruct H as [H ?]; simplify_eq H; clear H; intros; subst
  | H : write _ _ = _ |- _ =>
      apply write_inv in H; destruct H as [H ?]; simplify_eq H; clear H; intros; subst
  | H : uuid4 _ = _ |- _ => unfold uuid4 in H; injection H as H; subst
  | H : now _ = _ |- _ => unfold now in H
  | H : to_numeric _ _ _ _ = _ |- _ => unfold to_numeric in H
  | H : begin_nested _ _ = (Ok _, _) |- _ => apply begin_nested_ok in H
  | H : scalar _ _ = _ |- _ => unfold scalar in H
  | H : to_varchar _ _ _ = (Ok _, _) |- _ =>
      apply to_varchar_ok in H; let G := fresh "Hlen" in destruct H as (? & ? & G); subst
  end.
Ltac db_inv := repeat first [run_inv_step | db_inv_step].

(** The same one statement at a time, in the run [H]: a query, a guard, a
    lookup that must succeed. *)
Ltac bind_query H :=
  let x := fresh in let s := fresh in let E := fresh in
  apply bind_inv_ok in H as (x & s & E & H); apply query_inv in E as [E ->]; injection E as ->.
Ltac bind_guard H G :=
  let x := fresh in let s := fresh in
  apply bind_inv_ok in H as (x & s & G & H); apply raise_if_ok in G as [G ->].
Ltac bind_some H a G :=
  let s := fresh in
  apply bind_inv_ok in H as (a & s & G & H); apply of_option_ok in G as [G ->].
Ltac bind_value H a G :=
  let s := fresh in
  apply bind_inv_ok in H as (a & s & G & H); apply of_outcome_ok in G as [G ->].
Ltac bind_write H :=
  let x := fresh in let s := fresh in let E := fresh in
  apply bind_inv_ok in H as (x & s & E & H); apply write_inv in E as [_ ->].

(** ** A concrete environment

    The clock ticks at every draw, UUIDs are numbered, nobody else commits:
    what the evaluated examples run in. *)
Definition demo_env : Env := {|
  env_clock n := Z.of_nat n;
  env_uuid4 n := mk_uuid ("uuid-" +:+ pretty n);
  env_race d := d;
  env_sha256 s := "#" +:+ s;
  env_decimal_str x := pretty (x / quantum 6);
  env_exn_str _ := "error";
  env_json_str := dumps;
  env_isoformat n := pretty n;
|}.

Global Instance demo_env_good : GoodEnv demo_env.
Proof.
  split; cbn; [lia|]. intros m n [= Heq].
  by apply (inj pretty (A := nat)).
Qed.

Global Instance demo_env_serial : Serial demo_env.
Proof. done. Qed.
