(* ===== verification/Ledger.v ===== *)
(** * The settlement ledger

    [packages/payments/service.py], class [LedgerService]: wallet creation and
    locking, the six balance mutations and the audit that replays the ledger.
    Definitions only; the invariant and the theorems are in the files that
    follow. *)

From Stdlib Require Import ZArith Lia.
From stdpp Require Import base tactics list option strings numbers.
From S2P Require Import Prelude Tables Money Exceptions StateMachines Models.

Local Open Scope Z_scope.

Definition CANONICAL_REFUND_TYPE : string := "ORDER_FULFILLMENT_REFUND".
Definition CANONICAL_SETTLEMENT_TYPE : string := "PAYMENT_SETTLEMENT".
Definition CANONICAL_PAYMENT_REFUND_TYPE : string := "PAYMENT_REFUND".
Definition CANONICAL_TOPUP_REVERSAL_TYPE : string := "WALLET_TOPUP_REVERSAL".
Definition CANONICAL_FLEXIBLE_DEPOSIT_TYPE : string := "FLEXIBLE_DEPOSIT_SETTLEMENT".
Definition WALLET_HOLD_CAPTURE_REF : string := "WALLET_HOLD_CAPTURE".

(** ** The partial unique indexes of [ledger_transactions] *)

Definition index_where (ty : TransactionType) (ref_type : string) (tx : LedgerTransaction) : bool :=
  (tx_transaction_type tx == ty) && (tx_reference_type tx == Some ref_type)
  && is_some (tx_reference_id tx).

Definition uq_refund_idempotency (tx : LedgerTransaction) : bool :=
  (tx_transaction_type tx == REFUND) && is_some (tx_reference_type tx)
  && is_some (tx_reference_id tx).

Definition ledger_unique_indexes : list (LedgerTransaction → bool) :=
  [ uq_refund_idempotency;
    index_where CREDIT CANONICAL_SETTLEMENT_TYPE;
    index_where DEBIT CANONICAL_TOPUP_REVERSAL_TYPE;
    index_where CREDIT CANONICAL_FLEXIBLE_DEPOSIT_TYPE;
    index_where DEBIT WALLET_HOLD_CAPTURE_REF ].

(** Both rows are in the same partial index with the same key. *)
Definition ledger_conflict (a b : LedgerTransaction) : bool :=
  existsb (λ p, p a && p b) ledger_unique_indexes
  && (tx_wallet_id a == tx_wallet_id b)
  && (tx_reference_type a == tx_reference_type b)
  && (tx_reference_id a == tx_reference_id b).

(** ** Queries *)

Definition wallet_by_key (tenant_id user_id : UUID) (currency : string) (d : DB) : list Wallet :=
  select (λ w, (wallet_tenant_id w == tenant_id) && (wallet_user_id w == user_id)
               && (wallet_currency w == currency)) (wallets d).

(** The ledger rows of one wallet with a type and a canonical reference. *)
Definition has_reference (wid : UUID) (ty : TransactionType) (ref_type ref_id : string)
    (tx : LedgerTransaction) : bool :=
  (tx_wallet_id tx == wid) && (tx_transaction_type tx == ty)
  && (tx_reference_type tx == Some ref_type) && (tx_reference_id tx == Some ref_id).

Definition find_entry (wid : UUID) (ty : TransactionType) (ref_type ref_id : string) (d : DB)
    : option LedgerTransaction :=
  first (has_reference wid ty ref_type ref_id) (ledger d).

Definition entries (wid : UUID) (l : list LedgerTransaction) : list LedgerTransaction :=
  select (λ tx, tx_wallet_id tx == wid) l.

(** [func.coalesce(func.sum(WalletHold.amount), 0)] over the ACTIVE holds. *)
Definition held_total (wid : UUID) (d : DB) : dec :=
  sum_of hold_amount
    (select (λ h, (hold_wallet_id h == wid) && (hold_status h == HoldActive)) (holds d)).

(** ** Operations *)

Section ledger.
  Context `{Env}.

Definition lock_wallet (wallet : Wallet) : M Wallet :=
  rows ← query (λ d, select (λ w, (wallet_id w == wallet_id wallet)
                                  && (wallet_tenant_id w == wallet_tenant_id wallet)) (wallets d));
  locked ← one_or_none rows;
  of_option ValueError locked.

(** [INSERT INTO wallets], with [uq_wallet_tenant_user_currency]. *)
Definition insert_wallet (tenant_id user_id : UUID) (currency : string) : M Wallet :=
  i ← uuid4;
  currency' ← to_varchar 3 currency;
  clash ← query (λ d, (0 <? length (wallet_by_key tenant_id user_id currency d))%nat);
  raise_if clash IntegrityError;;
  let wallet := MkWallet i tenant_id user_id currency' 0 true in
  write (λ d, d <| wallets ::= (λ t, t ++ [wallet]) |>);;
  mret wallet.

Definition get_or_create_wallet (tenant_id user_id : UUID) (currency : string) : M Wallet :=
  rows ← query (wallet_by_key tenant_id user_id currency);
  found ← one_or_none rows;
  match found with
  | Some wallet => mret wallet
  | None =>
      await_others;;
      catch (begin_nested (insert_wallet tenant_id user_id currency))
        (λ e, match e with
              | IntegrityError =>
                  rows ← query (wallet_by_key tenant_id user_id currency);
                  again ← one_or_none rows;
                  of_option NoResultFound again
              | _ => mthrow e
              end)
  end.

(** [wallet.balance = after; session.add(LedgerTransaction(...)); flush()]:
    the balance and the row are written together, or the database refuses. *)
Definition flush_entry (wallet : Wallet) (ty : TransactionType) (amount before after : dec)
    (reference_id reference_type description : option string) : M LedgerTransaction :=
  created_at ← now;
  i ← uuid4;
  balance_after ← to_numeric 14 2 after;
  amount' ← to_numeric 14 2 amount;
  balance_before ← to_numeric 14 2 before;
  let tx := MkLedgerTransaction i (wallet_tenant_id wallet) (wallet_id wallet) ty amount'
              balance_before balance_after reference_id reference_type description created_at in
  clash ← query (λ d, existsb (ledger_conflict tx) (ledger d));
  raise_if clash IntegrityError;;
  write (λ d, d <| wallets ::= update_row (wallet_id wallet)
                                 (λ w, w <| wallet_balance := balance_after |>) |>
                <| ledger ::= (λ l, l ++ [tx]) |>);;
  mret tx.

Definition credit (wallet : Wallet) (amount : dec)
    (reference_id reference_type description : option string) : M LedgerTransaction :=
  raise_if (amount <=? 0) ValueError;;
  wallet ← lock_wallet wallet;
  let balance_before := wallet_balance wallet in
  let balance_after := balance_before + amount in
  flush_entry wallet CREDIT amount balance_before balance_after
    reference_id reference_type description.

(** Re-reads an entry up to [n] times, sleeping in between. *)
Fixpoint wait_for_entry (n : nat) (read : DB → option LedgerTransaction)
    : M (option LedgerTransaction) :=
  found ← query read;
  match found, n with
  | Some tx, _ => mret (Some tx)
  | None, O => mret None
  | None, S n => await_others;; wait_for_entry n read
  end.

(** The amount check every idempotent operation applies to a prior entry. *)
Definition return_existing (tx : LedgerTransaction) (amount : dec) : M LedgerTransaction :=
  if negb (tx_amount tx =? amount) then mthrow LedgerIntegrityError else mret tx.

Definition settle_payment (wallet : Wallet) (amount : dec) (payment_intent_id : UUID)
    (description : option string) : M LedgerTransaction :=
  raise_if (amount <=? 0) ValueError;;
  wallet ← lock_wallet wallet;
  let wid := wallet_id wallet in
  let ref_id := uuid_str payment_intent_id in
  let stmt := find_entry wid CREDIT CANONICAL_SETTLEMENT_TYPE ref_id in
  existing ← query stmt;
  match existing with
  | Some tx => return_existing tx amount
  | None =>
      await_others;;
      catch
        (begin_nested
           (let balance_before := wallet_balance wallet in
            let balance_after := balance_before + amount in
            flush_entry wallet CREDIT amount balance_before balance_after
              (Some ref_id) (Some CANONICAL_SETTLEMENT_TYPE)
              (if truthy description then description
               else Some ("Payment settlement for intent " +:+ ref_id))))
        (λ e, match e with
              | IntegrityError =>
                  existing ← wait_for_entry 20 stmt;
                  match existing with
                  | Some tx => return_existing tx amount
                  | None => mthrow IntegrityError
                  end
              | _ => mthrow e
              end)
  end.

Definition reserve_topup_reversal (wallet : Wallet) (amount : dec) (reversal_id : UUID)
    (description : option string) : M LedgerTransaction :=
  raise_if (amount <=? 0) ValueError;;
  wallet ← lock_wallet wallet;
  let wid := wallet_id wallet in
  let reference_id := uuid_str reversal_id in
  let stmt := find_entry wid DEBIT CANONICAL_TOPUP_REVERSAL_TYPE reference_id in
  existing ← query stmt;
  match existing with
  | Some tx => return_existing tx amount
  | None =>
      raise_if (wallet_balance wallet <? amount) InsufficientFundsError;;
      await_others;;
      catch
        (begin_nested
           (let balance_before := wallet_balance wallet in
            flush_entry wallet DEBIT amount balance_before (balance_before - amount)
              (Some reference_id) (Some CANONICAL_TOPUP_REVERSAL_TYPE)
              (if truthy description then description
               else Some ("Wallet top-up reversal reservation " +:+ reference_id))))
        (λ e, match e with
              | IntegrityError =>
                  existing ← query stmt;
                  match existing with
                  | Some tx => return_existing tx amount
                  | None => mthrow IntegrityError
                  end
              | _ => mthrow e
              end)
  end.

Definition settle_flexible_deposit (wallet : Wallet) (amount : dec) (flexible_deposit_id : UUID)
    (description : option string) : M LedgerTransaction :=
  raise_if (amount <=? 0) ValueError;;
  wallet ← lock_wallet wallet;
  let ref_id := uuid_str flexible_deposit_id in
  let stmt := find_entry (wallet_id wallet) CREDIT CANONICAL_FLEXIBLE_DEPOSIT_TYPE ref_id in
  existing ← query stmt;
  match existing with
  | Some tx => return_existing tx amount
  | None =>
      await_others;;
      catch
        (begin_nested
           (let before := wallet_balance wallet in
            let after := before + amount in
            flush_entry wallet CREDIT amount before after
              (Some ref_id) (Some CANONICAL_FLEXIBLE_DEPOSIT_TYPE)
              (if truthy description then description else Some "Flexible deposit settlement")))
        (λ e, match e with
              | IntegrityError =>
                  existing ← query stmt;
                  match existing with
                  | None => mthrow LedgerIntegrityError
                  | Some tx => return_existing tx amount
                  end
              | _ => mthrow e
              end)
  end.

Definition debit (wallet : Wallet) (amount : dec)
    (reference_id reference_type description : option string) : M LedgerTransaction :=
  raise_if (amount <=? 0) ValueError;;
  wallet ← lock_wallet wallet;
  raise_if (negb (wallet_is_active wallet)) InsufficientFundsError;;
  held ← query (held_total (wallet_id wallet));
  let available_balance := wallet_balance wallet - held in
  raise_if (available_balance <? amount) InsufficientFundsError;;
  let balance_before := wallet_balance wallet in
  let balance_after := balance_before - amount in
  flush_entry wallet DEBIT amount balance_before balance_after
    reference_id reference_type description.

(** [if reference_id and reference_type: select(...).first()] *)
Definition find_refund (wid : UUID) (reference_id reference_type : option string) (d : DB)
    : option LedgerTransaction :=
  match reference_id, reference_type with
  | Some i, Some t => if (i != "") && (t != "") then find_entry wid REFUND t i d else None
  | _, _ => None
  end.

Definition refund (wallet : Wallet) (amount : dec)
    (reference_id reference_type description : option string) : M LedgerTransaction :=
  raise_if (amount <=? 0) ValueError;;
  wallet ← lock_wallet wallet;
  let stmt := find_refund (wallet_id wallet) reference_id reference_type in
  existing ← query stmt;
  match existing with
  | Some tx => return_existing tx amount
  | None =>
      await_others;;
      catch
        (begin_nested
           (let balance_before := wallet_balance wallet in
            let balance_after := balance_before + amount in
            flush_entry wallet REFUND amount balance_before balance_after
              reference_id reference_type
              (if truthy description then description else Some "Refund")))
        (λ e, match e with
              | IntegrityError =>
                  existing ← (if truthy reference_id && truthy reference_type
                              then wait_for_entry 20 stmt else mret None);
                  match existing with
                  | Some tx => return_existing tx amount
                  | None => mthrow IntegrityError
                  end
              | _ => mthrow e
              end)
  end.

Definition adjust (wallet : Wallet) (target_balance : dec) (reason : string) : M LedgerTransaction :=
  raise_if (target_balance <? 0) ValueError;;
  wallet ← lock_wallet wallet;
  let balance_before := wallet_balance wallet in
  let balance_after := target_balance in
  let diff := Z.abs (balance_after - balance_before) in
  flush_entry wallet ADJUSTMENT diff balance_before balance_after
    None (Some "MANUAL_ADJUSTMENT") (Some reason).

(** ** The audit *)

(** [ORDER BY created_at ASC, id ASC] *)
Definition ledger_order (a b : LedgerTransaction) : bool :=
  (tx_created_at a <? tx_created_at b)
  || ((tx_created_at a =? tx_created_at b)
      && String.leb (uuid_str (tx_id a)) (uuid_str (tx_id b))).

Definition reconstruct_step (reconstructed : dec) (tx : LedgerTransaction) : dec :=
  match tx_transaction_type tx with
  | CREDIT | REFUND => reconstructed + tx_amount tx
  | DEBIT => reconstructed - tx_amount tx
  | ADJUSTMENT => tx_balance_after tx
  end.

Definition reconstruct_and_verify_balance (wid tenant_id : UUID) : M (dec * bool) :=
  found ← query (λ d, get_row wid (wallets d));
  wallet ← of_option ValueError found;
  raise_if (wallet_tenant_id wallet != tenant_id) TenantAccessViolationError;;
  transactions ← query (λ d, sort_by ledger_order (entries wid (ledger d)));
  let reconstructed := foldl reconstruct_step 0 transactions in
  raise_if (negb (reconstructed =? wallet_balance wallet)) LedgerIntegrityError;;
  mret (reconstructed, true).

End ledger.
