(* ===== verification/LedgerInv.v ===== *)
(** * The ledger invariant

    What a healthy ledger looks like (every wallet's balance is the end of a
    chain of entries that starts at zero, entries are dated in order, no two
    rows share a key of a unique index, ...), and that every operation of
    [LedgerService] keeps it, whether it returns or raises.  The theorems
    about whole histories are in [LedgerSpec.v]. *)

From Stdlib Require Import ZArith Lia Sorting.Sorted.
From stdpp Require Import base tactics list option strings numbers.
From S2P Require Import Prelude Tables Money Exceptions StateMachines Models Ledger.

Local Open Scope Z_scope.

(** ** Chains of entries *)

Definition entry_ok (tx : LedgerTransaction) : Prop :=
  match tx_transaction_type tx with
  | CREDIT | REFUND => 0 < tx_amount tx ∧ tx_balance_after tx = tx_balance_before tx + tx_amount tx
  | DEBIT => 0 < tx_amount tx ∧ tx_balance_after tx = tx_balance_before tx - tx_amount tx
  | ADJUSTMENT => tx_amount tx = Z.abs (tx_balance_after tx - tx_balance_before tx)
  end ∧ (cent | tx_amount tx) ∧ (cent | tx_balance_after tx) ∧
  0 ≤ tx_balance_after tx < money_limit.

(** [audit b l c]: each entry takes over where the previous one ended, from
    [b] to [c]. *)
Inductive audit : dec → list LedgerTransaction → dec → Prop :=
  | audit_nil b : audit b [] b
  | audit_cons b tx l c :
      tx_balance_before tx = b → entry_ok tx →
      audit (tx_balance_after tx) l c → audit b (tx :: l) c.

Lemma audit_snoc b l tx :
  audit b l (tx_balance_before tx) → entry_ok tx →
  audit b (l ++ [tx]) (tx_balance_after tx).
Proof.
  intros Ha Hok. remember (tx_balance_before tx) as c eqn:Hc.
  induction Ha as [c|b' tx' l' c' Hb Hok' Ha IH]; cbn.
  - constructor; [done..|constructor].
  - constructor; [done..|]. by apply IH.
Qed.

(** Replaying a chain gives its end: the audit of the code is right. *)
Lemma audit_reconstruct b l c : audit b l c → foldl reconstruct_step b l = c.
Proof.
  induction 1 as [b|b tx l c Hb Hok Ha IH]; cbn; [done|].
  rewrite <- IH. f_equal. unfold reconstruct_step, entry_ok in *.
  destruct (tx_transaction_type tx); lia.
Qed.

Lemma audit_end b l c :
  audit b l c → (cent | b) → 0 ≤ b < money_limit → (cent | c) ∧ 0 ≤ c < money_limit.
Proof.
  induction 1 as [b|b tx l c Hb Hok Ha IH]; [done|]. intros _ _. apply IH; apply Hok.
Qed.

(** ** The invariant *)

Definition wallet_ok (d : DB) (w : Wallet) : Prop :=
  audit 0 (entries (wallet_id w) (ledger d)) (wallet_balance w).

Record ledger_inv `{Env} (s : Session) : Prop := {
  inv_ids : NoDup (wallet_id <$> wallets (ses_db s));
  inv_drawn : ∀ w, w ∈ wallets (ses_db s) →
    ∃ k, (k < ses_draws s)%nat ∧ wallet_id w = env_uuid4 k;
  inv_fk : ∀ tx, tx ∈ ledger (ses_db s) →
    ∃ w, w ∈ wallets (ses_db s) ∧ wallet_id w = tx_wallet_id tx ∧
         wallet_tenant_id w = tx_tenant_id tx;
  inv_wallets : ∀ w, w ∈ wallets (ses_db s) → wallet_ok (ses_db s) w;
  inv_sorted : StronglySorted (λ a b, tx_created_at a < tx_created_at b) (ledger (ses_db s));
  inv_past : ∀ tx, tx ∈ ledger (ses_db s) → tx_created_at tx < env_clock (ses_draws s);
  inv_unique : StronglySorted (λ a b, ledger_conflict b a = false) (ledger (ses_db s));
  inv_holds : ∀ h, h ∈ holds (ses_db s) → 0 < hold_amount h;
}.

(** Only the environment moved on. *)
Definition idle (s s' : Session) : Prop :=
  ses_db s' = ses_db s ∧ ses_committed s' = ses_committed s ∧ (ses_draws s ≤ ses_draws s')%nat.

Global Instance idle_preorder : PreOrder idle.
Proof.
  split; unfold idle; [by intros x | intros x y z (?&?&?) (?&?&?)].
  split_and!; [congruence..|lia].
Qed.

Lemma StronglySorted_snoc {A} (R : A → A → Prop) l x :
  StronglySorted R l → (∀ y, y ∈ l → R y x) → StronglySorted R (l ++ [x]).
Proof.
  induction 1 as [|y l Hl IH Hy]; cbn; intros Hx; [repeat constructor|].
  constructor.
  - apply IH. intros z Hz. apply Hx. by right.
  - apply list.Forall_app; split; [done|]. constructor; [apply Hx; left | constructor].
Qed.

Lemma fmap_update_row_id i f t :
  (∀ w, wallet_id (f w) = wallet_id w) →
  wallet_id <$> t = wallet_id <$> update_row (A := Wallet) i f t.
Proof.
  intros Hf. induction t as [|w t IH]; [done|]. cbn. f_equal; [by case_match | exact IH].
Qed.

Section inv.
  Context `{HE : Env} `{!GoodEnv HE}.

Lemma clock_le m n : (m ≤ n)%nat → env_clock m ≤ env_clock n.
Proof.
  intros Hle. destruct (decide (m = n)) as [->|]; [lia|].
  pose proof (clock_advances m n ltac:(lia)). lia.
Qed.

Lemma ledger_inv_idle s s' : ledger_inv s → idle s s' → ledger_inv s'.
Proof.
  intros [] (Hdb & _ & Hd). constructor; rewrite Hdb; [done | | done.. | | done | done].
  - intros w (k & Hk & ->)%inv_drawn0. exists k. split; [lia | done].
  - intros tx Htx%inv_past0. pose proof (clock_le _ _ Hd). lia.
Qed.

(** *** Locking *)

Lemma lock_wallet_ok w s w' s' :
  lock_wallet w s = (Ok w', s') →
  s' = s ∧ w' ∈ wallets (ses_db s) ∧ wallet_id w' = wallet_id w ∧
  wallet_tenant_id w' = wallet_tenant_id w.
Proof.
  unfold lock_wallet, one_or_none, of_outcome, of_option, mbind, prog_bind, query, gets. cbn.
  destruct (select _ (wallets (ses_db s))) as [|x [|y l]] eqn:Hs; cbn; [done| |done].
  intros [= <- <-]. split; [done|].
  match type of Hs with select ?p ?t = _ => assert (x ∈ select p t) as Hin by (rewrite Hs; left) end.
  apply elem_of_select in Hin as [? Hp]. apply andb_true_iff in Hp as [H1 H2].
  rewrite bool_decide_eq_true in H1, H2. done.
Qed.

Lemma lock_wallet_idle w s : (lock_wallet w s).2 = s.
Proof.
  unfold lock_wallet, one_or_none, of_outcome, of_option, mbind, prog_bind, query, gets. cbn.
  by destruct (select _ (wallets (ses_db s))) as [|x [|y l]].
Qed.

(** *** Writing an entry *)

Lemma flush_entry_ok w ty amount before after rid rty desc s tx s' :
  flush_entry w ty amount before after rid rty desc s = (Ok tx, s') →
  ∃ a' am' b',
    numeric 14 2 after = Some a' ∧ numeric 14 2 amount = Some am' ∧
    numeric 14 2 before = Some b' ∧
    tx = MkLedgerTransaction (env_uuid4 (ses_draws s)) (wallet_tenant_id w) (wallet_id w)
           ty am' b' a' rid rty desc (env_clock (ses_draws s)) ∧
    (∀ x, x ∈ ledger (ses_db s) → ledger_conflict tx x = false) ∧
    s' = s <| ses_draws ::= S |>
           <| ses_db ::= λ d, d <| wallets ::= update_row (wallet_id w)
                                     (λ w, w <| wallet_balance := a' |>) |>
                                <| ledger ::= λ l, l ++ [tx] |> |>.
Proof.
  unfold flush_entry. intros Hr. db_inv.
  eexists _, _, _. split_and!; [done..| |done].
  intros x Hx. apply not_true_iff_false. intros Hc.
  match goal with Hg : false = existsb ?p ?l |- _ =>
    assert (existsb p l = true) as Hex by
      (apply existsb_exists; exists x; split; [by apply list_elem_of_In | exact Hc])
  end. congruence.
Qed.

Lemma flush_entry_raise w ty amount before after rid rty desc s e s' :
  flush_entry w ty amount before after rid rty desc s = (Raise e, s') → idle s s'.
Proof.
  unfold flush_entry, now, to_numeric, uuid4, query, gets, of_option, raise_if, write, modify,
    mbind, prog_bind, mret, prog_ret, mthrow, prog_throw. cbn. intros Hr.
  repeat (case_match; simplify_eq/=); (split_and!; [done..|cbn; lia]).
Qed.

Lemma flush_entry_drawn w ty amount before after rid rty desc s :
  (ses_draws s ≤ ses_draws (flush_entry w ty amount before after rid rty desc s).2)%nat.
Proof.
  destruct (flush_entry w ty amount before after rid rty desc s) as [[tx|e] s'] eqn:Hr; cbn.
  - apply flush_entry_ok in Hr as (? & ? & ? & _ & _ & _ & _ & _ & ->). cbn. lia.
  - by apply flush_entry_raise in Hr as (_ & _ & ?).
Qed.

(** Inserting a valid entry keeps the invariant. *)
Lemma ledger_inv_insert s w ty amount before after rid rty desc tx s' :
  ledger_inv s → w ∈ wallets (ses_db s) → before = wallet_balance w →
  (cent | amount) → (cent | after) → 0 ≤ after →
  (match ty with
   | CREDIT | REFUND => 0 < amount ∧ after = before + amount
   | DEBIT => 0 < amount ∧ after = before - amount
   | ADJUSTMENT => amount = Z.abs (after - before)
   end) →
  flush_entry w ty amount before after rid rty desc s = (Ok tx, s') → ledger_inv s'.
Proof.
  intros Hinv Hw -> Ham Haf Hpos Hty Hr.
  apply flush_entry_ok in Hr as (a' & am' & b' & Ha & Hm & Hb & -> & Hconf & ->).
  pose proof (inv_wallets s Hinv w Hw) as Hwok.
  destruct (audit_end _ _ _ Hwok (Z.divide_0_r _) ltac:(done)) as [Hcb _].
  pose proof (numeric_money_bound _ _ Ha) as Hlim.
  apply numeric_exact_inv in Ha as ->; [|lia|done].
  apply numeric_exact_inv in Hm as ->; [|lia|done].
  apply numeric_exact_inv in Hb as ->; [|lia|done].
  set (tx := MkLedgerTransaction _ _ _ _ _ _ _ _ _ _ _) in *.
  destruct Hinv. constructor; cbn.
  - rewrite <- (fmap_update_row_id (wallet_id w)); [done|done].
  - intros x Hx. apply elem_of_update_where in Hx as (x0 & Hx0 & ->).
    destruct (inv_drawn0 _ Hx0) as (k & ? & ?). exists k. split; [lia|]. by case_bool_decide.
  - intros x [Hx|Hx]%elem_of_app.
    + destruct (inv_fk0 _ Hx) as (w0 & Hw0 & Hid & Ht).
      eexists. split; [apply elem_of_update_where; by exists w0|]. by case_bool_decide.
    + apply list_elem_of_singleton in Hx as ->.
      eexists. split; [apply elem_of_update_where; by exists w|]. by case_bool_decide.
  - intros x Hx. apply elem_of_update_where in Hx as (x0 & Hx0 & ->).
    specialize (inv_wallets0 _ Hx0). unfold wallet_ok, entries in *. cbn.
    case_bool_decide as Hid; cbn; rewrite select_app.
    + assert (x0 = w) as -> by (eapply (NoDup_fmap_inj wallet_id); done).
      cbn. rewrite bool_decide_eq_true_2 by done.
      apply (audit_snoc _ _ tx); [done|]. unfold entry_ok; cbn.
      rewrite Z.abs_eq in Hlim by done. by destruct ty.
    + cbn. rewrite bool_decide_eq_false_2 by done. by rewrite app_nil_r.
  - apply StronglySorted_snoc; [done|]. intros y Hy. by apply inv_past0.
  - intros x [Hx|Hx]%elem_of_app.
    + pose proof (clock_advances (ses_draws s) (S (ses_draws s)) ltac:(lia)).
      specialize (inv_past0 _ Hx). lia.
    + apply list_elem_of_singleton in Hx as ->. cbn. apply clock_advances. lia.
  - by apply StronglySorted_snoc.
  - done.
Qed.
End inv.

(** Names what a successful [lock_wallet] of a decomposed run gives. *)
Ltac lock_inv :=
  match goal with
  | H : lock_wallet _ _ = (Ok _, _) |- _ =>
      apply lock_wallet_ok in H; destruct H as (-> & Hwin & Hwid & Hwten)
  end.

(** ** Interference

    What the invariant proofs assume of the transactions other sessions
    commit: they keep the ledger healthy themselves, and, because of
    [SELECT ... FOR UPDATE], they do not touch a row this session has locked. *)

Class Interference (E : Env) : Prop :=
  race_inv : ∀ s, ledger_inv s → ledger_inv (s <| ses_db ::= env_race |>).

Definition row_lock `{Env} (wid : UUID) : Prop :=
  ∀ d w, wallet_id w = wid → w ∈ wallets d → w ∈ wallets (env_race d).

Global Instance serial_interference (E : Env) : Serial E → Interference E.
Proof.
  intros Hs s Hinv. assert (s <| ses_db ::= env_race |> = s) as ->; [|done].
  destruct s; cbn. by rewrite serial_race.
Qed.

Lemma serial_row_lock (E : Env) wid : Serial E → row_lock wid.
Proof. intros Hs d w _ Hw. by rewrite serial_race. Qed.

(** ** What an operation keeps

    The operations below keep more than [ledger_inv]: any invariant that
    survives reads, races, new wallets and the entries allowed by [ok], a
    predicate on the wallet, the type, the new balance and the reference of the
    entry.  [op_inv I ok] says that of [I], and the lemmas on the operations
    are proved once for all such invariants. *)

Definition entry_fits (w : Wallet) (ty : TransactionType) (amount after : dec) : Prop :=
  (cent | amount) ∧ (cent | after) ∧ 0 ≤ after ∧
  match ty with
  | CREDIT | REFUND => 0 < amount ∧ after = wallet_balance w + amount
  | DEBIT => 0 < amount ∧ after = wallet_balance w - amount
  | ADJUSTMENT => amount = Z.abs (after - wallet_balance w)
  end.

Class op_inv `{Env} (I : Session → Prop)
    (ok : Session → Wallet → TransactionType → dec → option string → Prop) : Prop := {
  oi_ledger s : I s → ledger_inv s;
  oi_idle s s' : I s → idle s s' → I s';
  oi_race s : I s → I (s <| ses_db ::= env_race |>);
  oi_wallet s tenant user cur w s' :
    I s → insert_wallet tenant user cur s = (Ok w, s') → I s';
  oi_flush s w ty amount after rid rty desc tx s' :
    I s → w ∈ wallets (ses_db s) → entry_fits w ty amount after → ok s w ty after rty →
    flush_entry w ty amount (wallet_balance w) after rid rty desc s = (Ok tx, s') → I s';
}.

Section ops.
  Context `{HE : Env} (I : Session → Prop) (ok : Session → Wallet → TransactionType → dec → option string → Prop).
  Context `{!op_inv I ok}.
  Implicit Types (s : Session) (w : Wallet).

Lemma ensures_query {A B} (J : Session → Prop) (f : DB → A) (k : A → M B) s :
  ensures J (k (f (ses_db s))) s → ensures J (query f ≫= k) s.
Proof. done. Qed.

Lemma ensures_lock {B} w (k : Wallet → M B) s :
  I s →
  (∀ w', w' ∈ wallets (ses_db s) → wallet_id w' = wallet_id w → ensures I (k w') s) →
  ensures I (lock_wallet w ≫= k) s.
Proof.
  intros Hs Hk. apply ensures_bind.
  - unfold ensures. by rewrite lock_wallet_idle.
  - intros w' s' Hl _. apply lock_wallet_ok in Hl as (-> & Hin & Hid & _). by apply Hk.
Qed.

Lemma ensures_return_existing tx amount s : I s → ensures I (return_existing tx amount) s.
Proof. unfold return_existing. by destruct (negb _). Qed.

Lemma ensures_wait_for_entry {B} n read (k : option LedgerTransaction → M B) s :
  I s → (∀ o s', I s' → ensures I (k o) s') → ensures I (wait_for_entry n read ≫= k) s.
Proof.
  intros Hs Hk. apply ensures_bind; [|by intros; apply Hk].
  revert s Hs. induction n as [|n IH]; intros s Hs; cbn [wait_for_entry];
    apply ensures_query; destruct (read (ses_db s)); [done..|].
  apply ensures_bind; [by apply oi_race | intros _ s' _ Hs'; by apply IH].
Qed.

Lemma ensures_flush w ty amount after rid rty desc s :
  I s → w ∈ wallets (ses_db s) → entry_fits w ty amount after → ok s w ty after rty →
  ensures I (flush_entry w ty amount (wallet_balance w) after rid rty desc) s.
Proof.
  intros. unfold ensures.
  destruct (flush_entry _ _ _ _ _ _ _ _ s) as [[tx|e] s'] eqn:Hr; cbn.
  - by eapply (oi_flush s w ty amount after).
  - apply flush_entry_raise in Hr. by eapply oi_idle.
Qed.

(** The write of an idempotent operation: other sessions commit, then the
    entry is inserted under a savepoint. *)
Lemma ensures_savepoint_flush w ty amount after rid rty desc h s :
  I s → w ∈ wallets (ses_db s) → row_lock (wallet_id w) → entry_fits w ty amount after →
  (∀ s', I s' → w ∈ wallets (ses_db s') → ok s' w ty after rty) →
  (∀ e s', I s' → ensures I (h e) s') →
  ensures I
    (await_others;; catch (begin_nested
       (flush_entry w ty amount (wallet_balance w) after rid rty desc)) h) s.
Proof.
  intros Hs Hw Hlock Hfit Hok Hh.
  apply ensures_bind; [by apply oi_race|]. intros u s' [= _ <-] Hs'.
  apply ensures_catch; [|by intros; apply Hh].
  assert (w ∈ wallets (ses_db (s <| ses_db ::= env_race |>))) as Hw' by (by apply Hlock).
  pose proof (ensures_flush w ty amount after rid rty desc _ Hs' Hw' Hfit (Hok _ Hs' Hw')) as Hf.
  unfold ensures, begin_nested in *.
  destruct (flush_entry _ _ _ _ _ _ _ _ _) as [[tx|e] s1] eqn:Hr; cbn in *; [done|].
  apply flush_entry_raise in Hr. destruct Hr as (Hdb & Hc & Hd).
  eapply oi_idle; [exact Hs'|]. split_and!; [done..|exact Hd].
Qed.

Lemma wallet_balance_ok s w :
  ledger_inv s → w ∈ wallets (ses_db s) → (cent | wallet_balance w) ∧ 0 ≤ wallet_balance w < money_limit.
Proof.
  intros Hs Hw. apply (audit_end 0 (entries (wallet_id w) (ledger (ses_db s)))).
  - by apply inv_wallets.
  - apply Z.divide_0_r.
  - done.
Qed.

Lemma held_total_nonneg s wid : ledger_inv s → 0 ≤ held_total wid (ses_db s).
Proof.
  intros Hs. apply sum_of_nonneg. intros h [Hh _]%elem_of_select.
  pose proof (inv_holds s Hs h Hh). lia.
Qed.

(** *** Every operation keeps the invariant *)

Ltac op_start :=
  intros; unfold credit, debit, adjust, settle_payment, settle_flexible_deposit,
    reserve_topup_reversal, refund;
  apply ensures_guard; [done|]; intros Hpos; apply ensures_lock; [done|]; intros wl Hwl Hwid;
  match goal with
  | Hs : I ?s |- _ => destruct (wallet_balance_ok s wl (oi_ledger s Hs) Hwl)
  end.

Ltac fits := split_and!; auto with money; lia.

Lemma credit_inv w amount rid rty desc s :
  I s → (cent | amount) →
  (∀ wl, wl ∈ wallets (ses_db s) → 0 < amount → ok s wl CREDIT (wallet_balance wl + amount) rty) →
  ensures I (credit w amount rid rty desc) s.
Proof. op_start. apply ensures_flush; [done|done|fits|]. auto with lia. Qed.

Lemma debit_inv w amount rid rty desc s :
  I s → (cent | amount) →
  (∀ wl, wl ∈ wallets (ses_db s) → 0 < amount →
     held_total (wallet_id wl) (ses_db s) ≤ wallet_balance wl - amount →
     ok s wl DEBIT (wallet_balance wl - amount) rty) →
  ensures I (debit w amount rid rty desc) s.
Proof.
  op_start. apply ensures_guard; [done|]; intros _.
  apply ensures_query. apply ensures_guard; [done|]; intros Havail.
  pose proof (held_total_nonneg s (wallet_id wl) (oi_ledger s ltac:(done))).
  apply ensures_flush; [done|done|fits|]. auto with lia.
Qed.

Lemma adjust_inv w target reason s :
  I s → (cent | target) →
  (∀ wl, wl ∈ wallets (ses_db s) → ok s wl ADJUSTMENT target (Some "MANUAL_ADJUSTMENT")) →
  ensures I (adjust w target reason) s.
Proof.
  op_start. apply ensures_flush; [done|done| |by auto].
  split_and!; [apply Z.divide_abs_r; auto with money|done|lia|done].
Qed.

Lemma settle_payment_inv w amount intent desc s :
  I s → row_lock (wallet_id w) → (cent | amount) →
  (∀ s' wl, I s' → wl ∈ wallets (ses_db s') → 0 < amount →
     ok s' wl CREDIT (wallet_balance wl + amount) (Some CANONICAL_SETTLEMENT_TYPE)) →
  ensures I (settle_payment w amount intent desc) s.
Proof.
  op_start. apply ensures_query. case_match; [by apply ensures_return_existing|].
  apply ensures_savepoint_flush; [done|done|by rewrite Hwid|fits|auto with lia|].
  intros [] s' Hs'; try by apply ensures_throw.
  apply ensures_wait_for_entry; [done|]. intros [tx|] s1 Hs1;
    [by apply ensures_return_existing | by apply ensures_throw].
Qed.

Lemma settle_flexible_deposit_inv w amount dep desc s :
  I s → row_lock (wallet_id w) → (cent | amount) →
  (∀ s' wl, I s' → wl ∈ wallets (ses_db s') → 0 < amount →
     ok s' wl CREDIT (wallet_balance wl + amount) (Some CANONICAL_FLEXIBLE_DEPOSIT_TYPE)) →
  ensures I (settle_flexible_deposit w amount dep desc) s.
Proof.
  op_start. apply ensures_query. case_match; [by apply ensures_return_existing|].
  apply ensures_savepoint_flush; [done|done|by rewrite Hwid|fits|auto with lia|].
  intros [] s' Hs'; try by apply ensures_throw.
  apply ensures_query. case_match; [by apply ensures_return_existing | by apply ensures_throw].
Qed.

Lemma reserve_topup_reversal_inv w amount rev desc s :
  I s → row_lock (wallet_id w) → (cent | amount) →
  (∀ s' wl, I s' → wl ∈ wallets (ses_db s') → 0 < amount →
     ok s' wl DEBIT (wallet_balance wl - amount) (Some CANONICAL_TOPUP_REVERSAL_TYPE)) →
  ensures I (reserve_topup_reversal w amount rev desc) s.
Proof.
  op_start. apply ensures_query. case_match; [by apply ensures_return_existing|].
  apply ensures_guard; [done|]; intros ?.
  apply ensures_savepoint_flush; [done|done|by rewrite Hwid|fits|auto with lia|].
  intros [] s' Hs'; try by apply ensures_throw.
  apply ensures_query. case_match; [by apply ensures_return_existing | by apply ensures_throw].
Qed.

Lemma refund_inv w amount rid rty desc s :
  I s → row_lock (wallet_id w) → (cent | amount) →
  (∀ s' wl, I s' → wl ∈ wallets (ses_db s') → 0 < amount →
     ok s' wl REFUND (wallet_balance wl + amount) rty) →
  ensures I (refund w amount rid rty desc) s.
Proof.
  op_start. apply ensures_query. case_match; [by apply ensures_return_existing|].
  apply ensures_savepoint_flush; [done|done|by rewrite Hwid|fits|auto with lia|].
  intros [] s' Hs'; try by apply ensures_throw.
  destruct (truthy rid && truthy rty); [|by apply ensures_throw].
  apply ensures_wait_for_entry; [done|]. intros [tx|] s1 Hs1;
    [by apply ensures_return_existing | by apply ensures_throw].
Qed.

(** *** Creating a wallet *)

Lemma insert_wallet_ok tenant user cur s w s' :
  insert_wallet tenant user cur s = (Ok w, s') →
  w = MkWallet (env_uuid4 (ses_draws s)) tenant user cur 0 true ∧
  wallet_by_key tenant user cur (ses_db s) = [] ∧
  s' = s <| ses_draws ::= S |> <| ses_db ::= λ d, d <| wallets ::= λ t, t ++ [w] |> |>.
Proof.
  unfold insert_wallet, to_varchar. intros Hr. db_inv. case_match; db_inv.
  split_and!; [done| |done]. cbn in *.
  destruct (wallet_by_key tenant user cur (ses_db s)); [done|]. cbn in *. congruence.
Qed.

Lemma insert_wallet_raise tenant user cur s e s' :
  insert_wallet tenant user cur s = (Raise e, s') → idle s s'.
Proof.
  unfold insert_wallet, to_varchar, uuid4, query, gets, of_option, raise_if, write, modify,
    mbind, prog_bind, mret, prog_ret, mthrow, prog_throw. cbn. intros Hr.
  repeat (case_match; simplify_eq/=); (split_and!; [done..|cbn; lia]).
Qed.

Lemma get_or_create_wallet_inv tenant user cur s :
  I s → ensures I (get_or_create_wallet tenant user cur) s.
Proof.
  intros Hs. apply ensures_query. apply ensures_of_outcome; [done|]. intros [w|] _; [done|].
  apply ensures_bind; [by apply oi_race|]. intros u s' [= _ <-] Hs'.
  apply ensures_catch.
  - unfold ensures, begin_nested.
    destruct (insert_wallet _ _ _ _) as [[w|e] s1] eqn:Hr; cbn in *; [by eapply oi_wallet|].
    apply insert_wallet_raise in Hr as (Hdb & Hc & Hd).
    eapply oi_idle; [exact Hs'|]. split_and!; [done..|exact Hd].
  - intros [] s1 _ Hs1; try by apply ensures_throw.
    apply ensures_query, ensures_of_outcome; [done|]. intros [w|] _; done.
Qed.

End ops.

(** ** The ledger invariant is one of them *)

Section ledger_instance.
  Context `{HE : Env} `{!GoodEnv HE} `{!Interference HE}.

Lemma fresh_wallet_id s w :
  ledger_inv s → w ∈ wallets (ses_db s) → wallet_id w ≠ env_uuid4 (ses_draws s).
Proof.
  intros Hs Hw Heq. destruct (inv_drawn s Hs w Hw) as (k & Hk & Hk').
  rewrite Heq in Hk'. apply uuid4_inj in Hk'. lia.
Qed.

Lemma insert_wallet_inv s tenant user cur w s' :
  ledger_inv s → insert_wallet tenant user cur s = (Ok w, s') → ledger_inv s'.
Proof.
  intros Hs (-> & _ & ->)%insert_wallet_ok. pose proof (fresh_wallet_id s) as Hfresh.
  specialize (λ w, Hfresh w Hs). destruct Hs. constructor; cbn; try done.
  - rewrite fmap_app. apply list.NoDup_app. split_and!; [done| |apply NoDup_singleton].
    intros i (w & -> & Hw)%list_elem_of_fmap. cbn. rewrite list_elem_of_singleton.
    by apply Hfresh.
  - intros w [Hw|Hw]%elem_of_app.
    + destruct (inv_drawn0 _ Hw) as (k & ? & ?). exists k. split; [lia|done].
    + apply list_elem_of_singleton in Hw as ->. exists (ses_draws s). split; [lia|done].
  - intros tx Htx. destruct (inv_fk0 _ Htx) as (w & ? & ? & ?). exists w.
    split_and!; [apply elem_of_app; by left|done..].
  - intros w [Hw|Hw]%elem_of_app; [by apply inv_wallets0|].
    apply list_elem_of_singleton in Hw as ->. unfold wallet_ok, entries. cbn.
    rewrite (proj2 (select_nil _ _)); [constructor|]. intros tx Htx.
    apply bool_decide_eq_false. intros Heq. destruct (inv_fk0 _ Htx) as (w & Hw & Hid & _).
    apply (Hfresh w Hw). congruence.
  - intros tx Htx%inv_past0. pose proof (clock_advances (ses_draws s) (S (ses_draws s)) ltac:(lia)). lia.
Qed.

Global Instance ledger_op_inv : op_inv ledger_inv (λ _ _ _ _ _, True).
Proof.
  constructor.
  - done.
  - apply ledger_inv_idle.
  - apply race_inv.
  - intros. by eapply insert_wallet_inv.
  - intros s w ty amount after rid rty desc tx s' Hs Hw (? & ? & ? & ?) _ Hr.
    by eapply (ledger_inv_insert s w ty amount _ after).
Qed.

End ledger_instance.
