(* ===== verification/LedgerSpec.v ===== *)
(** * What the ledger guarantees

    Theorems about [LedgerService]: whole histories of operations audit
    cleanly, idempotent operations leave exactly one entry even under races,
    failed operations change nothing, a debit never spends reserved or missing
    money, and the bounds of the [NUMERIC(14, 2)] columns. *)

From Stdlib Require Import ZArith Lia Sorting.Sorted.
From stdpp Require Import base tactics list option strings numbers pretty.
From S2P Require Import Prelude Tables Money Exceptions StateMachines Models Ledger LedgerInv.

Local Open Scope Z_scope.

(** ** Histories *)

Inductive ledger_call :=
  | CallWallet (tenant user : UUID) (currency : string)
  | CallCredit (w : Wallet) (amount : dec) (rid rty desc : option string)
  | CallDebit (w : Wallet) (amount : dec) (rid rty desc : option string)
  | CallRefund (w : Wallet) (amount : dec) (rid rty desc : option string)
  | CallSettle (w : Wallet) (amount : dec) (intent : UUID) (desc : option string)
  | CallReverse (w : Wallet) (amount : dec) (reversal : UUID) (desc : option string)
  | CallDeposit (w : Wallet) (amount : dec) (deposit : UUID) (desc : option string)
  | CallAdjust (w : Wallet) (target : dec) (reason : string).

Definition call_amount (c : ledger_call) : dec :=
  match c with
  | CallWallet _ _ _ => 0
  | CallCredit _ a _ _ _ | CallDebit _ a _ _ _ | CallRefund _ a _ _ _
  | CallSettle _ a _ _ | CallReverse _ a _ _ | CallDeposit _ a _ _ | CallAdjust _ a _ => a
  end.

Definition run_call `{Env} (c : ledger_call) : M (option LedgerTransaction) :=
  match c with
  | CallWallet t u cur => get_or_create_wallet t u cur;; mret None
  | CallCredit w a i t d => tx ← credit w a i t d; mret (Some tx)
  | CallDebit w a i t d => tx ← debit w a i t d; mret (Some tx)
  | CallRefund w a i t d => tx ← refund w a i t d; mret (Some tx)
  | CallSettle w a i d => tx ← settle_payment w a i d; mret (Some tx)
  | CallReverse w a i d => tx ← reserve_topup_reversal w a i d; mret (Some tx)
  | CallDeposit w a i d => tx ← settle_flexible_deposit w a i d; mret (Some tx)
  | CallAdjust w a r => tx ← adjust w a r; mret (Some tx)
  end.

(** The calls one after the other; a call that raises leaves whatever it
    leaves and the next one runs. *)
Definition run_history `{Env} (cs : list ledger_call) (s : Session) : Session :=
  foldl (λ s c, (run_call c s).2) s cs.

Definition fresh_session : Session := MkSession empty_db empty_db 0 [].

Section histories.
  Context `{HE : Env} `{!GoodEnv HE} `{!Serial HE}.

Lemma fresh_session_inv : ledger_inv fresh_session.
Proof. constructor; cbn; try constructor; intros x Hx; by apply elem_of_nil in Hx. Qed.

Lemma run_call_inv c s :
  ledger_inv s → (cent | call_amount c) → ledger_inv (run_call c s).2.
Proof.
  intros Hs Ha.
  assert (∀ A B (m : M A) (f : A → B),
    ensures ledger_inv m s → ensures ledger_inv (x ← m; mret (f x)) s) as Hw.
  { intros A B m f Hm. apply ensures_bind; [done | by intros]. }
  destruct c; cbn in *; apply (Hw _ _ _ _).
  - by eapply get_or_create_wallet_inv; [apply ledger_op_inv|].
  - by eapply credit_inv; [apply ledger_op_inv|..].
  - by eapply debit_inv; [apply ledger_op_inv|..].
  - by eapply refund_inv; [apply ledger_op_inv|done|apply serial_row_lock|..].
  - by eapply settle_payment_inv; [apply ledger_op_inv|done|apply serial_row_lock|..].
  - by eapply reserve_topup_reversal_inv; [apply ledger_op_inv|done|apply serial_row_lock|..].
  - by eapply settle_flexible_deposit_inv; [apply ledger_op_inv|done|apply serial_row_lock|..].
  - by eapply adjust_inv; [apply ledger_op_inv|..].
Qed.

Lemma run_history_inv cs s :
  ledger_inv s → (∀ c, c ∈ cs → (cent | call_amount c)) → ledger_inv (run_history cs s).
Proof.
  revert s. induction cs as [|c cs IH]; intros s Hs Hcs; cbn; [done|].
  apply IH; [|intros c' Hc'; apply Hcs; by right].
  apply run_call_inv; [done | apply Hcs; left].
Qed.

Lemma entries_sorted s wid :
  ledger_inv s →
  sort_by ledger_order (entries wid (ledger (ses_db s))) = entries wid (ledger (ses_db s)).
Proof.
  intros Hs. apply sort_by_id. pose proof (inv_sorted s Hs) as Hsort. unfold entries.
  induction Hsort as [|tx l Hl IH Htx]; cbn; [constructor|].
  case_match; [|done]. constructor; [done|]. apply List.Forall_forall.
  intros b Hb. apply List.filter_In in Hb as [Hb _].
  rewrite List.Forall_forall in Htx. specialize (Htx b Hb).
  unfold ledger_order. apply orb_true_iff. left. lia.
Qed.

Lemma get_row_unique s w :
  ledger_inv s → w ∈ wallets (ses_db s) → get_row (wallet_id w) (wallets (ses_db s)) = Some w.
Proof.
  intros Hs Hw. destruct (get_row (wallet_id w) (wallets (ses_db s))) as [w'|] eqn:Hg.
  - apply get_row_Some in Hg as [Hw' Hid]. f_equal.
    eapply (NoDup_fmap_inj wallet_id); [by apply inv_ids | done..].
  - by destruct (proj1 (get_row_None _ _) Hg w Hw).
Qed.

Lemma audit_passes s w :
  ledger_inv s → w ∈ wallets (ses_db s) →
  reconstruct_and_verify_balance (wallet_id w) (wallet_tenant_id w) s
    = (Ok (wallet_balance w, true), s).
Proof.
  intros Hs Hw. unfold reconstruct_and_verify_balance, query, gets, mbind, prog_bind, of_option.
  cbn. rewrite (get_row_unique s w Hs Hw). cbn. rewrite bool_decide_eq_true_2 by done. cbn.
  rewrite entries_sorted by done.
  rewrite (audit_reconstruct 0 _ (wallet_balance w)) by (by apply inv_wallets).
  by rewrite Z.eqb_refl.
Qed.

End histories.

(** [C1] The ledger always audits.  After any sequence of calls of
    [LedgerService] on whole-cent amounts, with any arguments, in any order and
    whether they return or raise, [reconstruct_and_verify_balance] succeeds on
    every wallet and returns its stored balance, and every balance is between
    zero and the bound of its NUMERIC(14, 2) column. *)
Theorem ledger_history_audits `{HE : Env} cs w :
  GoodEnv HE → Serial HE →
  (∀ c, c ∈ cs → (cent | call_amount c)) →
  w ∈ wallets (ses_db (run_history cs fresh_session)) →
  reconstruct_and_verify_balance (wallet_id w) (wallet_tenant_id w)
    (run_history cs fresh_session)
  = (Ok (wallet_balance w, true), run_history cs fresh_session)
  ∧ 0 ≤ wallet_balance w < money_limit.
Proof.
  intros HG HS Hcs Hw.
  assert (ledger_inv (run_history cs fresh_session)) as Hinv
    by (apply run_history_inv; [apply fresh_session_inv | done]).
  split; [by apply audit_passes | by eapply wallet_balance_ok].
Qed.

Section demo.
Let tenant := mk_uuid "tenant-1".
Let user := mk_uuid "user-1".
Let w0 := MkWallet (mk_uuid "uuid-0") tenant user "USD" 0 true.

Definition demo_calls : list ledger_call :=
  [ CallWallet tenant user "USD";
    CallCredit w0 (cents 1000) None None None;
    CallSettle w0 (cents 500) (mk_uuid "pi-1") None;
    CallSettle w0 (cents 500) (mk_uuid "pi-1") None;
    CallDebit w0 (cents 9999) None None None;
    CallDebit w0 (cents 350) (Some "ORD-1") (Some "ORDER_CHECKOUT") None;
    CallAdjust w0 (cents 1200) "correction";
    CallRefund w0 (cents 350) (Some "order-1") (Some CANONICAL_REFUND_TYPE) None ].

Definition demo_wallet : Wallet := MkWallet (mk_uuid "uuid-0") tenant user "USD" (cents 1550) true.
End demo.

Lemma demo_calls_cents c : c ∈ demo_calls → (cent | call_amount c).
Proof.
  intros Hc. apply multiple_of_spec; [done|].
  repeat (apply elem_of_cons in Hc as [->|Hc]; [vm_compute; reflexivity|]).
  by apply elem_of_nil in Hc.
Qed.

Lemma ledger_history_audits_witness :
  (@reconstruct_and_verify_balance (wallet_id demo_wallet) (wallet_tenant_id demo_wallet)
     (@run_history demo_env demo_calls fresh_session)).1 = Ok (cents 1550, true).
Proof.
  rewrite (proj1 (@ledger_history_audits demo_env demo_calls demo_wallet _ _
    demo_calls_cents ltac:(vm_compute; left))).
  reflexivity.
Defined.

(** ** Idempotent operations *)

Definition ledger_unique (d : DB) : Prop :=
  StronglySorted (λ a b, ledger_conflict b a = false) (ledger d).

(** The type and reference type of an entry that a unique index covers. *)
Definition indexed (ty : TransactionType) (ref_type : string) : bool :=
  match ty with
  | REFUND => true
  | CREDIT => (ref_type == CANONICAL_SETTLEMENT_TYPE)
              || (ref_type == CANONICAL_FLEXIBLE_DEPOSIT_TYPE)
  | DEBIT => (ref_type == CANONICAL_TOPUP_REVERSAL_TYPE) || (ref_type == WALLET_HOLD_CAPTURE_REF)
  | ADJUSTMENT => false
  end.

Lemma has_reference_spec wid ty rty rid tx :
  has_reference wid ty rty rid tx = true ↔
  tx_wallet_id tx = wid ∧ tx_transaction_type tx = ty ∧
  tx_reference_type tx = Some rty ∧ tx_reference_id tx = Some rid.
Proof. unfold has_reference. rewrite !andb_true_iff, !bool_decide_eq_true. tauto. Qed.

Lemma indexed_conflict wid ty rty rid a b :
  indexed ty rty = true →
  has_reference wid ty rty rid a = true → has_reference wid ty rty rid b = true →
  ledger_conflict a b = true.
Proof.
  intros Hix (Ha1 & Ha2 & Ha3 & Ha4)%has_reference_spec (Hb1 & Hb2 & Hb3 & Hb4)%has_reference_spec.
  unfold ledger_conflict, ledger_unique_indexes, uq_refund_idempotency, index_where.
  cbn [existsb]. rewrite Ha1, Ha2, Ha3, Ha4, Hb1, Hb2, Hb3, Hb4. cbn [is_some].
  rewrite (bool_decide_eq_true_2 (wid = wid)), (bool_decide_eq_true_2 (Some rty = Some rty)),
    (bool_decide_eq_true_2 (Some rid = Some rid)) by done.
  destruct ty; cbn in Hix; try done.
  all: apply orb_true_iff in Hix as [Hix|Hix]; apply bool_decide_eq_true in Hix as ->; done.
Qed.

(** At most one entry per key of a unique index. *)
Lemma unique_entry wid ty rty rid d tx :
  indexed ty rty = true → ledger_unique d → find_entry wid ty rty rid d = Some tx →
  select (has_reference wid ty rty rid) (ledger d) = [tx].
Proof.
  intros Hix Hu. unfold find_entry, first, ledger_unique in *.
  induction Hu as [|x l Hl IH Hx]; cbn; [done|].
  destruct (has_reference wid ty rty rid x) eqn:Hp; cbn; [|by apply IH].
  intros [= ->]. f_equal. apply select_nil. intros y Hy.
  rewrite List.Forall_forall in Hx. specialize (Hx y (proj1 (list_elem_of_In _ _) Hy)).
  apply not_true_iff_false. intros Hy'. rewrite (indexed_conflict wid ty rty rid) in Hx; done.
Qed.

Lemma unique_insert wid ty rty rid l tx :
  indexed ty rty = true →
  has_reference wid ty rty rid tx = true →
  (∀ x, x ∈ l → ledger_conflict tx x = false) →
  select (has_reference wid ty rty rid) (l ++ [tx]) = [tx].
Proof.
  intros Hix Htx Hc. rewrite select_app. cbn. rewrite Htx.
  rewrite (proj2 (select_nil _ _)); [done|]. intros x Hx. apply not_true_iff_false. intros Hx'.
  specialize (Hc x Hx). rewrite (indexed_conflict wid ty rty rid) in Hc; done.
Qed.

Lemma find_refund_some wid i t :
  (i != "") && (t != "") = true →
  ∀ d, find_refund wid (Some i) (Some t) d = find_entry wid REFUND t i d.
Proof. cbn. by intros ->. Qed.

Section races.
  Context `{HE : Env}.
  Hypothesis race_unique : ∀ d, ledger_unique d → ledger_unique (env_race d).

Lemma wait_for_entry_ok n read s o s' :
  wait_for_entry n read s = (Ok o, s') → ledger_unique (ses_db s) →
  ledger_unique (ses_db s') ∧ read (ses_db s') = o.
Proof.
  revert s. induction n as [|n IH]; intros s Hr Hu; cbn [wait_for_entry] in Hr; db_inv;
    destruct (read (ses_db s)) eqn:Hq; db_inv; [done..|].
  unfold await_others in *. db_inv. eapply IH; [done|]. by apply race_unique.
Qed.

Lemma return_existing_ok tx amount s tx' s' :
  return_existing tx amount s = (Ok tx', s') → tx' = tx ∧ tx_amount tx = amount ∧ s' = s.
Proof.
  unfold return_existing. destruct (Z.eqb_spec (tx_amount tx) amount); cbn; intros Hr; by db_inv.
Qed.

(** What the write of an idempotent operation leaves behind, whoever wins. *)
Lemma savepoint_exactly_once w ty rty rid amount before after desc (h : exn → M LedgerTransaction) s tx s' :
  indexed ty rty = true → (cent | amount) →
  (∀ e s1 tx s2, ledger_unique (ses_db s1) → h e s1 = (Ok tx, s2) →
     select (has_reference (wallet_id w) ty rty rid) (ledger (ses_db s2)) = [tx] ∧
     tx_amount tx = amount) →
  ledger_unique (ses_db s) →
  (await_others;; catch (begin_nested
     (flush_entry w ty amount before after (Some rid) (Some rty) desc)) h) s = (Ok tx, s') →
  select (has_reference (wallet_id w) ty rty rid) (ledger (ses_db s')) = [tx] ∧
  tx_amount tx = amount.
Proof.
  intros Hix Ham Hh Hu Hr. apply bind_inv_ok in Hr as (u & s0 & Hw & Hr).
  assert (ledger_unique (ses_db s0)) as Hu0
    by (apply write_inv in Hw as [_ ->]; cbn; by apply race_unique).
  apply catch_inv_ok in Hr as [Hn|(e & s1 & Hn & Hr)].
  - apply begin_nested_ok in Hn.
    apply flush_entry_ok in Hn as (a' & am' & b' & _ & Hm & _ & Htx & Hc & ->).
    split; [cbn; apply unique_insert; [done| |done]|].
    + rewrite Htx. by apply has_reference_spec.
    + rewrite Htx. cbn. by apply numeric_exact_inv in Hm.
  - apply begin_nested_raise in Hn. eapply Hh; [|exact Hr]. by rewrite Hn.
Qed.

Lemma existing_exactly_once wid ty rty rid amount s tx0 tx s' :
  indexed ty rty = true → ledger_unique (ses_db s) →
  find_entry wid ty rty rid (ses_db s) = Some tx0 →
  return_existing tx0 amount s = (Ok tx, s') →
  select (has_reference wid ty rty rid) (ledger (ses_db s')) = [tx] ∧ tx_amount tx = amount.
Proof.
  intros Hix Hu Hf Hr. apply return_existing_ok in Hr as (-> & Ha & ->).
  split; [by eapply unique_entry | done].
Qed.

(** The re-read of [settle_flexible_deposit] and [reserve_topup_reversal]. *)
Lemma reread_exactly_once wid ty rty rid amount (miss : M LedgerTransaction) s tx s' :
  indexed ty rty = true → ledger_unique (ses_db s) →
  (∀ s1, ∃ e, (miss s1).1 = Raise e) →
  (existing ← query (find_entry wid ty rty rid);
   match existing with Some tx => return_existing tx amount | None => miss end) s = (Ok tx, s') →
  select (has_reference wid ty rty rid) (ledger (ses_db s')) = [tx] ∧ tx_amount tx = amount.
Proof.
  intros Hix Hu Hmiss Hr. db_inv. destruct (find_entry _ _ _ _ _) as [tx0|] eqn:Hf;
    [by eapply existing_exactly_once|].
  destruct (Hmiss s) as [e He]. by rewrite Hr in He.
Qed.

(** The polling re-read of [settle_payment] and [refund]. *)
Lemma polling_exactly_once n read wid ty rty rid amount s tx s' :
  indexed ty rty = true → ledger_unique (ses_db s) →
  (∀ d, read d = find_entry wid ty rty rid d) →
  (existing ← wait_for_entry n read;
   match existing with
   | Some tx => return_existing tx amount
   | None => mthrow IntegrityError
   end) s = (Ok tx, s') →
  select (has_reference wid ty rty rid) (ledger (ses_db s')) = [tx] ∧ tx_amount tx = amount.
Proof.
  intros Hix Hu Hread Hr. apply bind_inv_ok in Hr as (o & s3 & Hwait & Hr).
  eapply wait_for_entry_ok in Hwait as [Hu2 Hq]; [|done..]. rewrite Hread in Hq.
  destruct o as [tx2|]; [by eapply existing_exactly_once | by db_inv].
Qed.

End races.

(** The wallet, type and canonical reference under which a call is idempotent. *)
Definition idempotency_key (c : ledger_call) : option (UUID * TransactionType * string * string) :=
  match c with
  | CallSettle w _ i _ => Some (wallet_id w, CREDIT, CANONICAL_SETTLEMENT_TYPE, uuid_str i)
  | CallReverse w _ i _ => Some (wallet_id w, DEBIT, CANONICAL_TOPUP_REVERSAL_TYPE, uuid_str i)
  | CallDeposit w _ i _ => Some (wallet_id w, CREDIT, CANONICAL_FLEXIBLE_DEPOSIT_TYPE, uuid_str i)
  | CallRefund w _ (Some i) (Some t) _ =>
      if (i != "") && (t != "") then Some (wallet_id w, REFUND, t, i) else None
  | _ => None
  end.


(** A competing session that settles the same intent first. *)
Section competitor.
Let w0 := MkWallet (mk_uuid "w") (mk_uuid "t") (mk_uuid "u") "USD" 0 true.

Definition competitor : LedgerTransaction :=
  MkLedgerTransaction (mk_uuid "other") (mk_uuid "t") (mk_uuid "w") CREDIT (cents 500) 0 (cents 500)
    (Some "pi-1") (Some CANONICAL_SETTLEMENT_TYPE) None 7.

Definition racing_env : Env := {|
  env_clock n := Z.of_nat n;
  env_uuid4 n := mk_uuid ("uuid-" +:+ pretty n);
  env_race d := if existsb (ledger_conflict competitor) (ledger d) then d
                else d <| ledger ::= λ l, l ++ [competitor] |>;
  env_sha256 s := s;
  env_decimal_str x := pretty x; env_exn_str _ := "error"; env_json_str := dumps;
  env_isoformat n := pretty n;
|}.

Definition raced_session : Session :=
  MkSession (empty_db <| wallets := [w0] |>) (empty_db <| wallets := [w0] |>) 0 [].

Definition raced_call : ledger_call := CallSettle w0 (cents 500) (mk_uuid "pi-1") None.
End competitor.

Lemma racing_env_unique d : ledger_unique d → ledger_unique (@env_race racing_env d).
Proof.
  intros Hu. cbn. destruct (existsb _ _) eqn:He; [done|].
  apply StronglySorted_snoc; [done|]. intros y Hy. apply not_true_iff_false. intros Hc.
  rewrite <- not_true_iff_false in He. apply He, existsb_exists.
  exists y. split; [by apply list_elem_of_In | done].
Qed.


(** Replays change nothing.  When the canonical entry of an idempotent
    call is already there, the call returns it if the amounts agree and raises
    [LedgerIntegrityError] if they do not; the session is left as it was, so
    no second entry is written and the balance does not move. *)
Theorem idempotent_replay `{HE : Env} c w w' wid ty rty rid s tx :
  idempotency_key c = Some (wid, ty, rty, rid) →
  match c with
  | CallSettle w' _ _ _ | CallReverse w' _ _ _ | CallDeposit w' _ _ _
  | CallRefund w' _ _ _ _ => w' = w
  | _ => False
  end →
  0 < call_amount c →
  lock_wallet w s = (Ok w', s) →
  find_entry wid ty rty rid (ses_db s) = Some tx →
  run_call c s = (if tx_amount tx =? call_amount c then Ok (Some tx)
                  else Raise LedgerIntegrityError, s).
Proof.
  intros Hkey Hw Hpos Hlock Hf.
  pose proof (lock_wallet_ok _ _ _ _ Hlock) as (_ & _ & Hid & _).
  destruct c as [| | |w1 a oi ot d|w1 a i d|w1 a i d|w1 a i d|]; cbn in *; try done; subst w1.
  2-4: simplify_eq; unfold settle_payment, reserve_topup_reversal, settle_flexible_deposit,
    raise_if; rewrite (proj2 (Z.leb_gt _ _) Hpos);
    unfold mbind, prog_bind; cbn; rewrite Hlock, Hid; cbn; rewrite Hf;
    unfold return_existing; by destruct (tx_amount tx =? a).
  destruct oi as [i|], ot as [t|]; try done.
  destruct ((i != "") && (t != "")) eqn:Htr; simplify_eq.
  unfold refund, raise_if; rewrite (proj2 (Z.leb_gt _ _) Hpos).
  unfold mbind, prog_bind; cbn; rewrite Hlock, Hid; cbn; rewrite Htr, Hf.
  unfold return_existing; by destruct (tx_amount tx =? a).
Qed.

Lemma idempotent_replay_witness :
  (@run_call racing_env raced_call (raced_session <| ses_db ::= @env_race racing_env |>)).1
    = Ok (Some competitor).
Proof.
  rewrite (@idempotent_replay racing_env raced_call
    (MkWallet (mk_uuid "w") (mk_uuid "t") (mk_uuid "u") "USD" 0 true)
    (MkWallet (mk_uuid "w") (mk_uuid "t") (mk_uuid "u") "USD" 0 true)
    (mk_uuid "w") CREDIT CANONICAL_SETTLEMENT_TYPE "pi-1"
    (raced_session <| ses_db ::= @env_race racing_env |>) competitor);
    [vm_compute; reflexivity | reflexivity..].
Defined.

(** ** Spending *)

(** An entry that no unique index covers never conflicts. *)
Lemma unindexed_conflict a b :
  match tx_reference_type a with Some t => indexed (tx_transaction_type a) t | None => false end = false →
  ledger_conflict a b = false.
Proof.
  intros Hix. unfold ledger_conflict. apply andb_false_iff. left. apply andb_false_iff. left.
  apply andb_false_iff. left.
  apply not_true_iff_false. intros (p & Hp & [Hpa _]%andb_true_iff)%existsb_exists.
  unfold ledger_unique_indexes, uq_refund_idempotency, index_where in Hp.
  repeat destruct Hp as [<-|Hp]; [..|done].
  all: rewrite !andb_true_iff, ?bool_decide_eq_true in Hpa; destruct Hpa as [[Hty Hr] Hi].
  all: rewrite Hty in Hix.
  all: destruct (tx_reference_type a); [|done]; simplify_eq; done.
Qed.

Section flush.
  Context `{HE : Env}.

(** An entry within the bounds that conflicts with nothing is written. *)
Lemma flush_entry_run w ty amount before after rid rty desc s :
  (cent | amount) → (cent | before) → (cent | after) →
  Z.abs amount < money_limit → Z.abs before < money_limit → Z.abs after < money_limit →
  let tx := MkLedgerTransaction (env_uuid4 (ses_draws s)) (wallet_tenant_id w) (wallet_id w)
              ty amount before after rid rty desc (env_clock (ses_draws s)) in
  (∀ x, x ∈ ledger (ses_db s) → ledger_conflict tx x = false) →
  flush_entry w ty amount before after rid rty desc s =
    (Ok tx, s <| ses_draws ::= S |>
              <| ses_db ::= λ d, d <| wallets ::= update_row (wallet_id w)
                                        (λ w, w <| wallet_balance := after |>) |>
                                   <| ledger ::= λ l, l ++ [tx] |> |>).
Proof.
  intros Ha Hb Hc Hla Hlb Hlc tx Hix. unfold flush_entry, to_numeric.
  rewrite !numeric_money by done. unfold mbind, prog_bind, now, uuid4, query, gets. cbn. fold tx.
  destruct (existsb (ledger_conflict tx) (ledger (ses_db s))) eqn:Hex; [|done].
  apply existsb_exists in Hex as (x & Hx%list_elem_of_In & Hcx). by rewrite Hix in Hcx.
Qed.

(** Up to its last statement, a covered debit of an active wallet. *)
Lemma debit_run w wl amount rid rty desc s :
  lock_wallet w s = (Ok wl, s) → 0 < amount → wallet_is_active wl = true →
  held_total (wallet_id wl) (ses_db s) + amount ≤ wallet_balance wl →
  debit w amount rid rty desc s =
  flush_entry wl DEBIT amount (wallet_balance wl) (wallet_balance wl - amount) rid rty desc s.
Proof.
  intros Hl Hpos Hact Hav. unfold debit, raise_if. rewrite (proj2 (Z.leb_gt _ _) Hpos).
  unfold mbind, prog_bind, query, gets; cbn. rewrite Hl, Hact. cbn.
  by rewrite (proj2 (Z.ltb_ge _ _)) by lia.
Qed.

(** A balance that no longer fits its column is refused. *)
Lemma flush_entry_overflow w ty amount before after rid rty desc s :
  (cent | after) → money_limit ≤ Z.abs after →
  flush_entry w ty amount before after rid rty desc s = (Raise DataError, s <| ses_draws ::= S |>).
Proof.
  intros Hc Hl. unfold flush_entry, to_numeric. rewrite (numeric_money_overflow after) by done. reflexivity.
Qed.

Lemma get_updated_wallet s w b :
  ledger_inv s → w ∈ wallets (ses_db s) →
  get_row (wallet_id w) (update_row (wallet_id w) (λ w, w <| wallet_balance := b |>) (wallets (ses_db s)))
  = Some (w <| wallet_balance := b |>).
Proof.
  intros Hs Hw. rewrite get_update_same by done. by rewrite (get_row_unique s w Hs Hw).
Qed.

End flush.

(** A debit spends exactly the available balance.  On a healthy ledger,
    [debit] of a whole-cent amount either succeeds, and then the amount was
    positive, the wallet active and the amount at most the balance less the
    ACTIVE holds, the stored balance drops by exactly the amount and still
    covers every hold; or it raises, [ValueError] for a non-positive amount and
    [InsufficientFundsError] exactly when the wallet is inactive or its
    available balance too small, and the database is unchanged. *)
Theorem debit_spends_available `{HE : Env} w wl amount rid rty desc s :
  ledger_inv s → lock_wallet w s = (Ok wl, s) → (cent | amount) →
  match rty with Some t => indexed DEBIT t | None => false end = false →
  match debit w amount rid rty desc s with
  | (Ok tx, s') =>
      0 < amount ∧ wallet_is_active wl = true ∧
      held_total (wallet_id wl) (ses_db s) + amount ≤ wallet_balance wl ∧
      get_row (wallet_id wl) (wallets (ses_db s')) =
        Some (wl <| wallet_balance := wallet_balance wl - amount |>) ∧
      0 ≤ held_total (wallet_id wl) (ses_db s') ≤ wallet_balance wl - amount
  | (Raise e, s') =>
      ses_db s' = ses_db s ∧
      if amount <=? 0 then e = ValueError
      else e = InsufficientFundsError ∧
           (wallet_is_active wl = false ∨
            wallet_balance wl < held_total (wallet_id wl) (ses_db s) + amount)
  end.
Proof.
  intros Hs Hl Ham Hix. unfold debit, raise_if.
  destruct (Z.leb_spec amount 0) as [Hneg|Hpos]; [done|].
  unfold mbind, prog_bind, query, gets; cbn. rewrite Hl.
  pose proof (lock_wallet_ok _ _ _ _ Hl) as (_ & Hin & _).
  destruct (wallet_balance_ok s wl Hs Hin) as [Hcb Hb].
  pose proof (held_total_nonneg s (wallet_id wl) Hs) as Hh.
  destruct (wallet_is_active wl) eqn:Hact; cbn; [|by auto].
  destruct (Z.ltb_spec (wallet_balance wl - held_total (wallet_id wl) (ses_db s)) amount) as [Hlt|Hge];
    cbn.
  - split_and!; [done..|right; lia].
  - rewrite flush_entry_run by (done || auto with money || lia || by intros; apply unindexed_conflict).
    cbv beta iota zeta.
    match goal with |- context [0 ≤ held_total ?i ?d' ≤ _] =>
      change (held_total i d') with (held_total i (ses_db s)) end.
    split_and!; [done|done|lia| |done|lia].
    etransitivity; [by apply (get_updated_wallet s wl)|]. cbn. by rewrite Hact.
Qed.

Lemma debit_spends_available_witness :
  get_row (wallet_id demo_wallet) (wallets (ses_db
    (@debit demo_env demo_wallet (cents 1550) None None None
       (@run_history demo_env demo_calls fresh_session)).2))
  = Some (demo_wallet <| wallet_balance := 0 |>).
Proof.
  pose proof (@debit_spends_available demo_env demo_wallet demo_wallet (cents 1550) None None None
    (@run_history demo_env demo_calls fresh_session)
    (@run_history_inv demo_env _ _ demo_calls fresh_session (@fresh_session_inv demo_env)
       demo_calls_cents)
    ltac:(vm_compute; reflexivity) (cents_multiple 1550) eq_refl) as Hd.
  destruct (@debit demo_env demo_wallet (cents 1550) None None None
    (@run_history demo_env demo_calls fresh_session)) as [[tx|e] s'] eqn:Hr.
  - by destruct Hd as (_ & _ & _ & Hget & _).
  - exfalso. revert Hr. vm_compute. discriminate.
Defined.

(** ** Failures *)

Section failures.
  Context `{HE : Env} `{!Serial HE}.

(** [undone m]: when [m] raises, the database is as it was. *)
Definition undone {A} (m : M A) : Prop :=
  ∀ s e s', m s = (Raise e, s') → ses_db s' = ses_db s.

Lemma undone_read {A} (m : M A) : steps same_db m → undone m.
Proof. intros Hm s e s' Hr. specialize (Hm s). rewrite Hr in Hm. exact Hm. Qed.

(** Reads first, one write last. *)
Lemma undone_bind {A B} (m : M A) (k : A → M B) :
  steps same_db m → (∀ a, undone (k a)) → undone (m ≫= k).
Proof.
  intros Hm Hk s e s' [Hr|(a & s1 & Hr & Hr')]%bind_inv_raise; specialize (Hm s); rewrite Hr in Hm.
  - exact Hm.
  - etransitivity; [by eapply Hk | exact Hm].
Qed.

Lemma undone_ret {A B} (m : M A) (f : A → B) : undone m → undone (x ← m; mret (f x)).
Proof. intros Hm s e s' [Hr|(a & s1 & Hr & Hr')]%bind_inv_raise; [by eapply Hm | done]. Qed.

Lemma undone_savepoint {A} (m : M A) h :
  (∀ e, steps same_db (h e)) → undone (catch (begin_nested m) h).
Proof.
  intros Hh s e s' Hr. unfold catch in Hr.
  destruct (begin_nested m s) as [[a|e1] s1] eqn:Hn; [done|].
  apply begin_nested_raise in Hn. specialize (Hh e1 s1). rewrite Hr in Hh.
  etransitivity; [exact Hh | exact Hn].
Qed.

Lemma undone_flush w ty amount before after rid rty desc :
  undone (flush_entry w ty amount before after rid rty desc).
Proof. intros s e s' Hr. by apply flush_entry_raise in Hr as [? _]. Qed.

Lemma steps_lock w : steps same_db (lock_wallet w).
Proof. intros s. by rewrite lock_wallet_idle. Qed.

Lemma steps_await : steps same_db await_others.
Proof. intros s. unfold same_db. cbn. by rewrite serial_race. Qed.

Lemma steps_wait n read : steps same_db (wait_for_entry n read).
Proof.
  induction n as [|n IH]; cbn [wait_for_entry]; steps_walk. apply steps_await.
Qed.

Lemma steps_return_existing tx amount : steps same_db (return_existing tx amount).
Proof. unfold return_existing. steps_walk. Qed.
End failures.

#[export] Hint Resolve steps_lock steps_wait steps_return_existing steps_await : steps.

(** Walks to the one write of a ledger operation. *)
Ltac undone_walk :=
  repeat first
    [ apply undone_flush
    | apply undone_savepoint; intros []; by steps_walk
    | apply undone_read; by steps_walk
    | apply undone_bind; [by steps_walk | intros ?]
    | match goal with |- undone (match ?x with _ => _ end) => destruct x end ].

(** A ledger operation that raises changes nothing: whatever the call,
    its arguments and the exception, no wallet, no balance and no entry differs
    from before the call. *)
Theorem failed_calls_change_nothing `{HE : Env} c s e s' :
  Serial HE → run_call c s = (Raise e, s') → ses_db s' = ses_db s.
Proof.
  intros HS. revert s e s'. fold (undone (run_call c)).
  destruct c; cbn [run_call]; apply undone_ret;
    unfold get_or_create_wallet, credit, debit, refund, settle_payment, reserve_topup_reversal,
      settle_flexible_deposit, adjust;
    undone_walk.
Qed.

Lemma failed_calls_change_nothing_witness :
  ses_db (@run_call demo_env (CallDebit demo_wallet (cents 9999) None None None)
            (@run_history demo_env demo_calls fresh_session)).2
  = ses_db (@run_history demo_env demo_calls fresh_session).
Proof.
  apply (@failed_calls_change_nothing demo_env
    (CallDebit demo_wallet (cents 9999) None None None) _ InsufficientFundsError _ _).
  vm_compute. reflexivity.
Defined.

(** Credits respect the width of the balance column.  On a healthy ledger
    a positive whole-cent credit succeeds exactly when the new balance is below
    10^12, and then the balance grows by exactly the amount; otherwise the
    database refuses the write ([DataError], numeric field overflow) and
    nothing changes: a balance never wraps or saturates. *)
Theorem credit_overflow_refused `{HE : Env} w wl amount rid rty desc s :
  ledger_inv s → lock_wallet w s = (Ok wl, s) → (cent | amount) → 0 < amount →
  match rty with Some t => indexed CREDIT t | None => false end = false →
  match credit w amount rid rty desc s with
  | (Ok tx, s') =>
      wallet_balance wl + amount < money_limit ∧
      get_row (wallet_id wl) (wallets (ses_db s')) =
        Some (wl <| wallet_balance := wallet_balance wl + amount |>)
  | (Raise e, s') =>
      e = DataError ∧ money_limit ≤ wallet_balance wl + amount ∧ ses_db s' = ses_db s
  end.
Proof.
  intros Hs Hl Ham Hpos Hix. unfold credit, raise_if. rewrite (proj2 (Z.leb_gt _ _) Hpos).
  unfold mbind, prog_bind; cbn. rewrite Hl.
  pose proof (lock_wallet_ok _ _ _ _ Hl) as (_ & Hin & _).
  destruct (wallet_balance_ok s wl Hs Hin) as [Hcb Hb].
  destruct (Z.lt_ge_cases (wallet_balance wl + amount) money_limit) as [Hlt|Hge].
  - rewrite flush_entry_run by (done || auto with money || lia || by intros; apply unindexed_conflict).
    cbv beta iota zeta. split; [done|]. by apply (get_updated_wallet s wl).
  - rewrite flush_entry_overflow by (auto with money || lia). done.
Qed.

Lemma credit_overflow_refused_witness :
  (@credit demo_env demo_wallet (10 ^ 12 * one) None None None
     (@run_history demo_env demo_calls fresh_session)).1 = Raise DataError.
Proof.
  pose proof (@credit_overflow_refused demo_env demo_wallet demo_wallet (10 ^ 12 * one) None None None
    (@run_history demo_env demo_calls fresh_session)
    (@run_history_inv demo_env _ _ demo_calls fresh_session (@fresh_session_inv demo_env)
       demo_calls_cents)
    ltac:(vm_compute; reflexivity) ltac:(apply multiple_of_spec; done) ltac:(done) eq_refl) as Hd.
  destruct (@credit demo_env demo_wallet (10 ^ 12 * one) None None None
    (@run_history demo_env demo_calls fresh_session)) as [[tx|e] s'] eqn:Hr; cbn.
  - destruct Hd as [Hlt _]. revert Hlt. vm_compute. discriminate.
  - by destruct Hd as (-> & _).
Defined.

(** Whole cents are needed: a debit of half a cent, which
    [debit] accepts, stores the balance rounded one way and the amount rounded
    the other, so the audit of that wallet raises [LedgerIntegrityError] from
    then on although no money was lost. *)
Theorem subcent_debit_breaks_audit :
  let d := CallDebit demo_wallet (one / 200) None None None in
  let s := @run_history demo_env (demo_calls ++ [d]) fresh_session in
  (∃ r, (@run_call demo_env d (@run_history demo_env demo_calls fresh_session)).1 = Ok r) ∧
  (@reconstruct_and_verify_balance (wallet_id demo_wallet) (wallet_tenant_id demo_wallet) s).1
    = Raise LedgerIntegrityError.
Proof. vm_compute. eauto. Qed.
