(* ===== verification/LedgerTypes.v ===== *)
(** * The ledger's rows are well typed

    What the columns and foreign keys of wallets and ledger entries promise,
    kept by every ledger operation whatever amounts it is called with. *)

From Stdlib Require Import ZArith Lia Ascii String.
From stdpp Require Import base tactics list option strings numbers pretty.
From S2P Require Import Prelude Tables Text Money Exceptions StateMachines Models Ledger.
From S2P Require Import LedgerInv LedgerSpec.

Local Open Scope Z_scope.

(** A value of a [Numeric(14, 2)] column. *)
Definition stored_amount (x : dec) : Prop := numeric 14 2 x = Some x.

Lemma stored_numeric x y : numeric 14 2 x = Some y → stored_amount y.
Proof.
  intros Hx. apply numeric_money; [by eapply (numeric_multiple 14 2)|].
  apply numeric_Some in Hx as [_ Hlt]. unfold money_limit. cbn in *. lia.
Qed.

Definition wallet_typed (w : Wallet) : Prop :=
  stored_amount (wallet_balance w) ∧ (String.length (wallet_currency w) ≤ 3)%nat.

(** There is a wallet with this id in this tenant. *)
Definition wallet_of (tenant_id wid : UUID) (d : DB) : Prop :=
  ∃ w, w ∈ wallets d ∧ wallet_id w = wid ∧ wallet_tenant_id w = tenant_id.

(** The entry's amounts fit their columns and its wallet exists, in the
    tenant of the entry. *)
Record entry_typed (d : DB) (tx : LedgerTransaction) : Prop := {
  et_amount : stored_amount (tx_amount tx);
  et_before : stored_amount (tx_balance_before tx);
  et_after : stored_amount (tx_balance_after tx);
  et_wallet : wallet_of (tx_tenant_id tx) (tx_wallet_id tx) d;
}.

Record well_typed (d : DB) : Prop := {
  wt_wallets : ∀ w, w ∈ wallets d → wallet_typed w;
  wt_entries : ∀ tx, tx ∈ ledger d → entry_typed d tx;
}.

Definition typed (s : Session) : Prop := well_typed (ses_db s).

(** While an operation runs, the wallet it has locked stays. *)
Definition typed_with (w : Wallet) (s : Session) : Prop :=
  typed s ∧ wallet_of (wallet_tenant_id w) (wallet_id w) (ses_db s).

Lemma wallet_of_mono d d' t i :
  (∀ w, w ∈ wallets d → ∃ w', w' ∈ wallets d' ∧ wallet_id w' = wallet_id w
                              ∧ wallet_tenant_id w' = wallet_tenant_id w) →
  wallet_of t i d → wallet_of t i d'.
Proof. intros Hsub (w & Hw & <- & <-). destruct (Hsub w Hw) as (w' & ? & ? & ?). by exists w'. Qed.

Lemma set_balance_keeps wid b d d' w :
  wallets d' = update_row wid (λ x : Wallet, x <| wallet_balance := b |>) (wallets d) → w ∈ wallets d →
  ∃ w', w' ∈ wallets d' ∧ wallet_id w' = wallet_id w ∧ wallet_tenant_id w' = wallet_tenant_id w.
Proof.
  intros -> Hw. eexists. split; [apply elem_of_update_where; by exists w|]. by case_bool_decide.
Qed.

Section keeps.
  Context `{HE : Env} `{!Serial HE}.

(** *** The one write of entries *)
Lemma flush_typed w ty amount before after rid rty desc :
  steps (keeps (typed_with w)) (flush_entry w ty amount before after rid rty desc).
Proof.
  intros s [[Hws Hes] Hw]. destruct (flush_entry _ _ _ _ _ _ _ _ s) as [[tx|e] s'] eqn:Hr; cbn [snd].
  2: { apply flush_entry_raise in Hr as [Hdb _]. split; [split|]; by rewrite Hdb. }
  apply flush_entry_ok in Hr as (a' & am' & b' & Ha & Ham & Hb & -> & _ & ->).
  apply stored_numeric in Ha, Ham, Hb.
  match goal with |- typed_with w ?x => set (d' := ses_db x) end.
  assert (∀ x, x ∈ wallets (ses_db s) → ∃ x', x' ∈ wallets d' ∧ wallet_id x' = wallet_id x
                                            ∧ wallet_tenant_id x' = wallet_tenant_id x) as Hsub
    by (intros x; by apply (set_balance_keeps (wallet_id w) a')).
  split; [split|]; cbn.
  - intros x (y & Hy & ->)%elem_of_update_where. destruct (Hws y Hy). by case_bool_decide.
  - intros tx [Htx|Htx]%elem_of_app.
    + destruct (Hes tx Htx) as [E1 E2 E3 E4]. split; try done. by eapply wallet_of_mono.
    + apply list_elem_of_singleton in Htx as ->. split; try done. by eapply wallet_of_mono.
  - by eapply wallet_of_mono.
Qed.

Lemma typed_nested {A} (I : DB → Prop) (m : M A) :
  steps (keeps (λ s, I (ses_db s))) m → steps (keeps (λ s, I (ses_db s))) (begin_nested m).
Proof.
  intros Hm s Hs. specialize (Hm s Hs). unfold begin_nested. by destruct (m s) as [[a|e] s'].
Qed.

Lemma flush_nested_typed w ty amount before after rid rty desc :
  steps (keeps (typed_with w)) (begin_nested (flush_entry w ty amount before after rid rty desc)).
Proof.
  apply (typed_nested (λ d, well_typed d ∧ wallet_of (wallet_tenant_id w) (wallet_id w) d)), flush_typed.
Qed.

Lemma reads_typed {A} (I : DB → Prop) (m : M A) : steps same_db m → steps (keeps (λ s, I (ses_db s))) m.
Proof. intros Hm s Hs. by rewrite (Hm s). Qed.

Lemma wait_typed w n read : steps (keeps (typed_with w)) (wait_for_entry n read).
Proof.
  apply (reads_typed (λ d, well_typed d ∧ wallet_of (wallet_tenant_id w) (wallet_id w) d)), steps_wait.
Qed.

Lemma await_typed w : steps (keeps (typed_with w)) await_others.
Proof.
  apply (reads_typed (λ d, well_typed d ∧ wallet_of (wallet_tenant_id w) (wallet_id w) d)), steps_await.
Qed.

Lemma return_typed w tx a : steps (keeps (typed_with w)) (return_existing tx a).
Proof. unfold return_existing. steps_walk. Qed.

Hint Resolve flush_typed flush_nested_typed wait_typed await_typed return_typed : steps.

(** An operation locks its wallet first. *)
Lemma lock_typed {A} w (k : Wallet → M A) :
  (∀ w', steps (keeps (typed_with w')) (k w')) → steps (keeps typed) (w' ← lock_wallet w; k w').
Proof.
  intros Hk s Hs. unfold mbind, prog_bind. destruct (lock_wallet w s) as [[w'|e] s1] eqn:Hl.
  - apply lock_wallet_ok in Hl as (-> & Hin & _). apply (Hk w'). split; [done|]. by exists w'.
  - pose proof (steps_run _ _ _ _ _ (steps_lock w) Hl) as Hdb. unfold same_db in Hdb. unfold typed. cbn. by rewrite Hdb.
Qed.

Lemma wallet_typed_op t u c : steps (keeps typed) (get_or_create_wallet t u c).
Proof.
  assert (steps (keeps typed) (insert_wallet t u c)) as Hins.
  { intros s [Hws Hes]. destruct (insert_wallet t u c s) as [[w|e] s'] eqn:Hr; cbn.
    - pose proof Hr as (Hw & _ & ->)%insert_wallet_ok.
      assert (String.length c ≤ 3)%nat as Hc.
      { unfold insert_wallet in Hr. apply bind_inv_ok in Hr as (i & s1 & _ & Hr).
        apply bind_inv_ok in Hr as (c' & s2 & Hv & _). unfold to_varchar in Hv.
        destruct (3 <? String.length c)%nat eqn:Hlen; [done|]. by apply Nat.ltb_ge in Hlen. }
      split; cbn.
      + intros x [Hx|Hx]%elem_of_app; [by apply Hws|]. apply list_elem_of_singleton in Hx as ->.
        rewrite Hw. by split.
      + intros tx Htx. destruct (Hes tx Htx) as [E1 E2 E3 E4]. split; try done.
        eapply wallet_of_mono; [|exact E4]. intros x Hx. exists x.
        split; [apply elem_of_app; by left|done].
    - apply insert_wallet_raise in Hr as [Hdb _]. unfold typed. rewrite Hdb. by split. }
  assert (steps (keeps typed) await_others)
    by (apply (reads_typed well_typed), steps_await).
  assert (steps (keeps typed) (begin_nested (insert_wallet t u c))) by (by apply (typed_nested well_typed)).
  unfold get_or_create_wallet. steps_walk.
Qed.

Lemma call_typed c : steps (keeps typed) (run_call c).
Proof.
  pose proof wallet_typed_op.
  destruct c; cbn [run_call]; [steps_walk|..];
    (apply steps_bind; [typeclasses eauto| |intros ?; steps_walk]);
    unfold credit, debit, refund, settle_payment, reserve_topup_reversal, settle_flexible_deposit, adjust;
    (apply steps_bind; [typeclasses eauto|steps_walk|intros _]);
    apply lock_typed; intros wl; steps_walk.
Qed.

End keeps.


Definition typed_wallet : Wallet := MkWallet (mk_uuid "uuid-0") (mk_uuid "t") (mk_uuid "u") "USD" 0 true.

(** 10.005 and a sum that overflows the column. *)
Definition typed_calls : list ledger_call :=
  [ CallWallet (mk_uuid "t") (mk_uuid "u") "USD"; CallCredit typed_wallet (10005 * 10 ^ 15) None None None;
    CallDebit typed_wallet (cents 500) None None None; CallCredit typed_wallet (cents (10 ^ 14)) None None None;
    CallWallet (mk_uuid "t") (mk_uuid "u") "EURO" ].

Definition typed_demo : Session := @run_history demo_env typed_calls (MkSession empty_db empty_db 0 []).

