(* ===== verification/Economics.v ===== *)
(** * Holds, asset ledger, FX policies and deposit settlement

    [packages/payments/economics.py]: the reservation layer over wallet
    balances ([WalletHoldService]), the high-precision asset ledger
    ([AssetLedgerService]), the tenant's explicit conversion policies
    ([FxPolicyService]) and the settlement of flexible deposits.  Definitions
    only; the theorems are in [HoldsSpec.v] and [DepositsSpec.v]. *)

From Stdlib Require Import ZArith Lia.
From stdpp Require Import base tactics list option strings numbers.
From S2P Require Import Prelude Tables Text Money Exceptions StateMachines Models Ledger.

Local Open Scope Z_scope.

Definition FLEXIBLE_DEPOSIT_SETTLEMENT_REF : string := "FLEXIBLE_DEPOSIT_SETTLEMENT".

(** ** Identifiers *)

Definition normalize_asset (value : string) : outcome exn string :=
  let normalized := upper (strip value) in
  if (normalized == "") || (24 <? String.length normalized)%nat then Raise ValueError
  else Ok normalized.

Definition normalize_network (value : option string) : outcome exn string :=
  let normalized := upper (strip (if truthy value then default "" value else "OFFCHAIN")) in
  if (normalized == "") || (64 <? String.length normalized)%nat then Raise ValueError
  else Ok normalized.

Definition normalize_currency (value : string) : outcome exn string :=
  let normalized := upper (strip value) in
  let n := String.length normalized in
  if negb ((3 <=? n) && (n <=? 12))%nat || negb (isalnum (without_underscores normalized))
  then Raise ValueError
  else Ok normalized.

(** ** AssetLedgerService *)

Section economics.
  Context `{Env}.

Definition asset_wallet_by_key (tenant_id user_id : UUID) (asset network : string) (d : DB)
    : list AssetWallet :=
  select (λ w, (awallet_tenant_id w == tenant_id) && (awallet_user_id w == user_id)
               && (awallet_asset w == asset) && (awallet_network w == network)) (asset_wallets d).

(** [INSERT INTO asset_wallets], with [uq_asset_wallet_identity]. *)
Definition insert_asset_wallet (tenant_id user_id : UUID) (asset network : string) : M AssetWallet :=
  i ← uuid4;
  clash ← query (λ d, (0 <? length (asset_wallet_by_key tenant_id user_id asset network d))%nat);
  raise_if clash IntegrityError;;
  let wallet := MkAssetWallet i tenant_id user_id asset network 0 true in
  write (λ d, d <| asset_wallets ::= (λ t, t ++ [wallet]) |>);;
  mret wallet.

Definition get_or_create_asset_wallet (tenant_id user_id : UUID) (asset : string)
    (network : option string) : M AssetWallet :=
  asset_code ← of_outcome (normalize_asset asset);
  network_code ← of_outcome (normalize_network network);
  let stmt := asset_wallet_by_key tenant_id user_id asset_code network_code in
  rows ← query stmt;
  found ← one_or_none rows;
  match found with
  | Some wallet => mret wallet
  | None =>
      await_others;;
      except_integrity
        (begin_nested (insert_asset_wallet tenant_id user_id asset_code network_code))
        (scalar_one stmt)
  end.

Definition lock_asset_wallet (wallet : AssetWallet) : M AssetWallet :=
  rows ← query (λ d, select (λ w, (awallet_id w == awallet_id wallet)
                               && (awallet_tenant_id w == awallet_tenant_id wallet))
                            (asset_wallets d));
  locked ← one_or_none rows;
  of_option ValueError locked.

(** The asset entries of a tenant with an idempotency key. *)
Definition asset_entry_by_key (tenant_id : UUID) (key : string) (d : DB)
    : list AssetLedgerTransaction :=
  select (λ tx, (atx_tenant_id tx == tenant_id) && (atx_idempotency_key tx == key)) (asset_ledger d).

(** [wallet.balance = after; session.add(tx); flush()], with
    [uq_asset_ledger_idempotency]. *)
Definition flush_asset_entry (wallet : AssetWallet) (amount before after : dec) (key : string)
    (reference_type reference_id description : option string) : M AssetLedgerTransaction :=
  i ← uuid4;
  balance_after ← to_numeric 36 18 after;
  amount' ← to_numeric 36 18 amount;
  balance_before ← to_numeric 36 18 before;
  clash ← query (λ d, (0 <? length (asset_entry_by_key (awallet_tenant_id wallet) key d))%nat);
  raise_if clash IntegrityError;;
  let tx := MkAssetLedgerTransaction i (awallet_tenant_id wallet) (awallet_id wallet) AssetCredit
              amount' balance_before balance_after key reference_type reference_id description in
  write (λ d, d <| asset_wallets ::= update_row (awallet_id wallet)
                                       (λ w, w <| awallet_balance := balance_after |>) |>
                <| asset_ledger ::= (λ l, l ++ [tx]) |>);;
  mret tx.

Definition asset_credit (wallet : AssetWallet) (amount : dec) (idempotency_key : string)
    (reference_type reference_id description : option string) : M AssetLedgerTransaction :=
  raise_if (amount <=? 0) ValueError;;
  let key := strip idempotency_key in
  raise_if ((key == "") || (180 <? String.length key)%nat) ValueError;;
  wallet ← lock_asset_wallet wallet;
  let stmt := asset_entry_by_key (awallet_tenant_id wallet) key in
  existing ← scalar stmt;
  match existing with
  | Some tx =>
      raise_if ((atx_wallet_id tx != awallet_id wallet) || negb (atx_amount tx =? amount)
                || (atx_transaction_type tx != AssetCredit)) LedgerIntegrityError;;
      mret tx
  | None =>
      await_others;;
      except_integrity
        (begin_nested
           (let before := awallet_balance wallet in
            let after := context_round (before + amount) in
            flush_asset_entry wallet amount before after key reference_type reference_id description))
        (existing ← scalar stmt;
         match existing with
         | None => mthrow LedgerIntegrityError
         | Some tx =>
             raise_if ((atx_wallet_id tx != awallet_id wallet) || negb (atx_amount tx =? amount))
               LedgerIntegrityError;;
             mret tx
         end)
  end.

(** ** WalletHoldService *)

Definition active_total (wid : UUID) : M dec := query (held_total wid).

Definition available_balance (wallet : Wallet) : M dec :=
  total ← active_total (wallet_id wallet); mret (wallet_balance wallet - total).

(** [INSERT INTO wallet_holds], with [uq_wallet_hold_idempotency]. *)
Definition insert_hold (tenant_id wid : UUID) (amount : dec)
    (idempotency_key reference_type reference_id : string) (expires_at : option Z) : M WalletHold :=
  i ← uuid4;
  amount' ← to_numeric 14 2 amount;
  key ← to_varchar 180 idempotency_key;
  rtype ← to_varchar 64 reference_type;
  rid ← to_varchar 160 reference_id;
  clash ← query (λ d, existsb (λ h, (hold_tenant_id h == tenant_id)
                                    && (hold_idempotency_key h == key)) (holds d));
  raise_if clash IntegrityError;;
  let hold := MkWalletHold i tenant_id wid amount' HoldActive key rtype rid expires_at None None in
  write (λ d, d <| holds ::= (λ t, t ++ [hold]) |>);;
  mret hold.

Definition hold_by_key (tenant_id : UUID) (key : string) (d : DB) : list WalletHold :=
  select (λ h, (hold_tenant_id h == tenant_id) && (hold_idempotency_key h == key)) (holds d).

Definition reserve (wallet : Wallet) (amount : dec)
    (idempotency_key reference_type reference_id : string) (expires_at : option Z) : M WalletHold :=
  raise_if (amount <=? 0) ValueError;;
  locked_wallet ← lock_wallet wallet;
  existing ← scalar (hold_by_key (wallet_tenant_id locked_wallet) idempotency_key);
  match existing with
  | Some hold =>
      raise_if ((hold_wallet_id hold != wallet_id locked_wallet) || negb (hold_amount hold =? amount))
        LedgerIntegrityError;;
      mret hold
  | None =>
      total ← active_total (wallet_id locked_wallet);
      let available := wallet_balance locked_wallet - total in
      raise_if (available <? amount) InsufficientFundsError;;
      insert_hold (wallet_tenant_id locked_wallet) (wallet_id locked_wallet) amount
        idempotency_key reference_type reference_id expires_at
  end.

(** [select(WalletHold).where(id, tenant_id).with_for_update()...scalar_one()] *)
Definition lock_hold (hold : WalletHold) : M WalletHold :=
  scalar_one (λ d, select (λ h, (hold_id h == hold_id hold)
                                && (hold_tenant_id h == hold_tenant_id hold)) (holds d)).

Definition update_hold (i : UUID) (f : WalletHold → WalletHold) : M unit :=
  write (λ d, d <| holds ::= update_row i f |>).

Definition capture (hold : WalletHold) (description : option string) : M LedgerTransaction :=
  locked ← lock_hold hold;
  let hid := uuid_str (hold_id locked) in
  if hold_status locked == HoldCaptured then
    existing ← query (find_entry (hold_wallet_id locked) DEBIT WALLET_HOLD_CAPTURE_REF hid);
    of_option LedgerIntegrityError existing
  else
    raise_if (hold_status locked != HoldActive) LedgerIntegrityError;;
    found ← query (λ d, get_row (hold_wallet_id locked) (wallets d));
    wallet ← of_option LedgerIntegrityError found;
    captured_at ← now;
    update_hold (hold_id locked)
      (λ h, h <| hold_status := HoldCaptured |> <| hold_captured_at := Some captured_at |>);;
    debit wallet (hold_amount locked) (Some hid) (Some WALLET_HOLD_CAPTURE_REF)
      (if truthy description then description
       else Some ("Captured hold " +:+ hold_reference_type locked +:+ ":" +:+
                  hold_reference_id locked)).

Definition release (hold : WalletHold) : M WalletHold :=
  locked ← lock_hold hold;
  if hold_status locked == HoldReleased then mret locked
  else
    raise_if (hold_status locked != HoldActive) LedgerIntegrityError;;
    released_at ← now;
    let released := locked <| hold_status := HoldReleased |>
                           <| hold_released_at := Some released_at |> in
    update_hold (hold_id locked)
      (λ h, h <| hold_status := HoldReleased |> <| hold_released_at := Some released_at |>);;
    mret released.

(** ** FxPolicyService *)

(** [value.quantize(Decimal("0.000000000000000001"))] keeps a decimal with at
    most 18 fractional digits, or has no room for it in the context; a decimal
    is finite here. *)
Definition normalize_rate (value : dec) : outcome exn dec :=
  if value <=? 0 then Raise ValueError
  else if fits_context 18 value then Ok value else Raise InvalidOperation.

(** [INSERT INTO fx_policies], with [uq_fx_policy_scope]. *)
Definition insert_fx_policy (tenant_id : UUID) (from_asset from_network to_currency : string)
    (mode : FxPolicyMode) (rate : dec) (max_auto_credit_amount : option dec) (metadata : dict)
    : M FxPolicy :=
  i ← uuid4;
  acknowledged_at ← now;
  rate' ← to_numeric 36 18 rate;
  limit ← match max_auto_credit_amount with
          | Some x => y ← to_numeric 18 6 x; mret (Some y)
          | None => mret None
          end;
  clash ← query (λ d, existsb (λ p, (fx_tenant_id p == tenant_id) && (fx_from_asset p == from_asset)
                                    && (fx_from_network p == from_network)
                                    && (fx_to_currency p == to_currency)) (fx_policies d));
  raise_if clash IntegrityError;;
  let policy := MkFxPolicy i tenant_id from_asset from_network to_currency mode rate' limit true
                  acknowledged_at metadata in
  write (λ d, d <| fx_policies ::= (λ t, t ++ [policy]) |>);;
  mret policy.

Definition create_policy (tenant_id : UUID) (from_asset : string) (from_network : option string)
    (to_currency : string) (mode : FxPolicyMode) (rate : dec) (max_auto_credit_amount : option dec)
    (metadata : dict) : M FxPolicy :=
  rate ← of_outcome (normalize_rate rate);
  raise_if ((mode == FxParity) && negb (rate =? one)) ValueError;;
  raise_if (match max_auto_credit_amount with Some m => m <=? 0 | None => false end) ValueError;;
  asset ← of_outcome (normalize_asset from_asset);
  network ← (if truthy from_network then of_outcome (normalize_network from_network) else mret "ANY");
  currency ← of_outcome (normalize_currency to_currency);
  except_integrity
    (begin_nested
       (insert_fx_policy tenant_id asset network currency mode rate max_auto_credit_amount metadata))
    (mthrow LedgerIntegrityError).

(** The rows of the [select] of [resolve] without a policy id, in its order. *)
Definition resolve_candidates (tenant_id : UUID) (asset network currency : string) (d : DB)
    : list FxPolicy :=
  let scoped :=
    select (λ p, (fx_tenant_id p == tenant_id) && fx_is_enabled p && (fx_from_asset p == asset)
                 && ((fx_from_network p == network) || (fx_from_network p == "ANY"))
                 && (fx_to_currency p == currency)) (fx_policies d) in
  sort_by (λ a b, (fx_from_network a == network) || (fx_from_network b != network)) scoped.

Definition resolve (tenant_id : UUID) (asset network currency : string) (policy_id : option UUID)
    : M FxPolicy :=
  found ← match policy_id with
          | Some i =>
              scalar (λ d, select (λ p, (fx_tenant_id p == tenant_id) && fx_is_enabled p
                                        && (fx_id p == i)) (fx_policies d))
          | None =>
              asset_code ← of_outcome (normalize_asset asset);
              network_code ← of_outcome (normalize_network (Some network));
              currency_code ← of_outcome (normalize_currency currency);
              scalar (resolve_candidates tenant_id asset_code network_code currency_code)
          end;
  policy ← of_option LedgerIntegrityError found;
  asset_code ← of_outcome (normalize_asset asset);
  raise_if (fx_from_asset policy != asset_code) LedgerIntegrityError;;
  network_code ← of_outcome (normalize_network (Some network));
  raise_if ((fx_from_network policy != "ANY") && (fx_from_network policy != network_code))
    LedgerIntegrityError;;
  currency_code ← of_outcome (normalize_currency currency);
  raise_if (fx_to_currency policy != currency_code) LedgerIntegrityError;;
  mret policy.

(** [(amount * rate).quantize(Decimal("0.01"), ROUND_HALF_UP)]; the product is
    in units of 10^-36. *)
Definition convert (policy : FxPolicy) (amount : dec) : outcome exn dec :=
  if amount <=? 0 then Raise ValueError
  else
    let raw := mul amount (fx_rate policy) in
    let result := round_half_up (cent * one) raw / one in
    if fits_context 2 result then Ok result else Raise InvalidOperation.

(** ** FlexibleDepositSettlementService *)

Definition net_asset_amount (amount_received : dec) (fee_amount : option dec) (basis : string)
    : outcome exn dec :=
  let normalized_basis := upper (strip basis) in
  let check (result : dec) := if result <=? 0 then Raise LedgerIntegrityError else Ok result in
  if normalized_basis == "GROSS_RECEIVED" then check amount_received
  else if normalized_basis == "NET_AFTER_FEE" then
    check (context_round (amount_received - default 0 fee_amount))
  else Raise LedgerIntegrityError.

(** Attribute assignments on the deposit, flushed. *)
Definition update_deposit (i : UUID) (f : FlexibleDepositSession → FlexibleDepositSession) : M unit :=
  write (λ d, d <| deposits ::= update_row i f |>).

(** The last four assignments of [settle]. *)
Definition mark_credited (deposit : FlexibleDepositSession) : M unit :=
  credited_at ← now;
  update_deposit (dep_id deposit)
    (λ dep, dep <| dep_status := DepCredited |> <| dep_credited_at := Some credited_at |>
                <| dep_last_error := None |>).

Definition settle (deposit : FlexibleDepositSession) : M unit :=
  if dep_status deposit == DepCredited then mret tt
  else
    let i := dep_id deposit in
    match dep_amount_received deposit with
    | None => mthrow LedgerIntegrityError
    | Some amount_received =>
        raise_if ((amount_received <=? 0) || negb (truthy (dep_asset deposit))
                  || negb (truthy (dep_network deposit))) LedgerIntegrityError;;
        let asset := default "" (dep_asset deposit) in
        let network := default "" (dep_network deposit) in
        if negb (dep_auto_credit_enabled deposit) then
          update_deposit i (λ dep, dep <| dep_status := DepSettledReview |>)
        else
          let basis := if dep_auto_credit_basis deposit == "" then "NET_AFTER_FEE"
                       else dep_auto_credit_basis deposit in
          asset_amount ← of_outcome (net_asset_amount amount_received (dep_fee_amount deposit) basis);
          match dep_auto_credit_target deposit with
          | TargetAssetWallet =>
              wallet ← get_or_create_asset_wallet (dep_tenant_id deposit) (dep_user_id deposit)
                         asset (Some network);
              asset_credit wallet asset_amount ("flexible-deposit:" +:+ uuid_str i)
                (Some FLEXIBLE_DEPOSIT_SETTLEMENT_REF) (Some (uuid_str i))
                (Some ("Flexible deposit via " +:+ dep_provider deposit));;
              update_deposit i (λ dep, dep <| dep_credited_amount := Some asset_amount |>
                                           <| dep_credited_asset := Some asset |>);;
              mark_credited deposit
          | TargetSettlementWallet =>
              raise_if (negb (truthy (dep_settlement_currency deposit))) LedgerIntegrityError;;
              currency ← of_outcome (normalize_currency (default "" (dep_settlement_currency deposit)));
              policy ← resolve (dep_tenant_id deposit) asset network currency
                         (dep_fx_policy_id deposit);
              settlement_amount ← of_outcome (convert policy asset_amount);
              if match fx_max_auto_credit_amount policy with
                 | Some m => m <? settlement_amount
                 | None => false
                 end
              then update_deposit i (λ dep, dep <| dep_status := DepSettledReview |>
                                                <| dep_last_error := Some "AUTO_CREDIT_LIMIT_EXCEEDED" |>)
              else
                wallet ← get_or_create_wallet (dep_tenant_id deposit) (dep_user_id deposit) currency;
                settle_flexible_deposit wallet settlement_amount i
                  (Some ("Flexible " +:+ asset +:+ " deposit via " +:+ dep_provider deposit));;
                update_deposit i (λ dep, dep <| dep_credited_amount := Some settlement_amount |>
                                             <| dep_credited_currency := Some currency |>
                                             <| dep_fx_policy_id := Some (fx_id policy) |>);;
                mark_credited deposit
          end
    end.

End economics.
