(* ===== verification/HoldsSpec.v ===== *)
(** * Reservations are always covered

    [WalletHoldService] promises that the funds it reserved can be captured.
    This file holds the invariant behind that promise (the ACTIVE holds of a
    wallet never exceed its balance, and a hold has a capture entry exactly
    when it is CAPTURED), that reservations, captures, releases and every
    ledger operation that looks at the holds keep it, and which two ledger
    operations do not. *)

From Stdlib Require Import ZArith Lia Sorting.Sorted.
From stdpp Require Import base tactics list option strings numbers.
From S2P Require Import Prelude Tables Text Money Exceptions StateMachines Models Ledger.
From S2P Require Import LedgerInv LedgerSpec Economics.

Local Open Scope Z_scope.

(** ** The invariant *)

Definition capture_entry (h : WalletHold) (d : DB) : option LedgerTransaction :=
  find_entry (hold_wallet_id h) DEBIT WALLET_HOLD_CAPTURE_REF (uuid_str (hold_id h)) d.

Definition covered (d : DB) (w : Wallet) : Prop := held_total (wallet_id w) d ≤ wallet_balance w.

Record hold_inv `{Env} (s : Session) : Prop := {
  hi_ledger : ledger_inv s;
  hi_ids : NoDup (hold_id <$> holds (ses_db s));
  hi_drawn : ∀ h, h ∈ holds (ses_db s) → ∃ k, (k < ses_draws s)%nat ∧ hold_id h = env_uuid4 k;
  hi_fk : ∀ h, h ∈ holds (ses_db s) → ∃ w, w ∈ wallets (ses_db s) ∧ wallet_id w = hold_wallet_id h;
  hi_cents : ∀ h, h ∈ holds (ses_db s) → (cent | hold_amount h);
  hi_covered : ∀ w, w ∈ wallets (ses_db s) → covered (ses_db s) w;
  hi_capture : ∀ h, h ∈ holds (ses_db s) →
    if hold_status h == HoldCaptured
    then ∃ tx, capture_entry h (ses_db s) = Some tx ∧ tx_amount tx = hold_amount h
    else capture_entry h (ses_db s) = None;
  hi_no_stray : ∀ tx rid, tx ∈ ledger (ses_db s) → tx_transaction_type tx = DEBIT →
    tx_reference_type tx = Some WALLET_HOLD_CAPTURE_REF → tx_reference_id tx = Some rid →
    ∃ h, h ∈ holds (ses_db s) ∧ uuid_str (hold_id h) = rid;
}.

(** What an entry must leave to the holds: enough balance, and their reference. *)
Definition leaves_holds (s : Session) (w : Wallet) (ty : TransactionType) (after : dec)
    (rty : option string) : Prop :=
  held_total (wallet_id w) (ses_db s) ≤ after ∧
  (ty = DEBIT → rty ≠ Some WALLET_HOLD_CAPTURE_REF).

Lemma held_total_other s f :
  (∀ d, holds (f d) = holds d) → ∀ wid, held_total wid (f (ses_db s)) = held_total wid (ses_db s).
Proof. intros Hf wid. unfold held_total. by rewrite Hf. Qed.

Lemma find_entry_snoc wid ty rty rid d d' tx :
  ledger d' = ledger d ++ [tx] →
  find_entry wid ty rty rid d' =
  match find_entry wid ty rty rid d with
  | Some x => Some x
  | None => if has_reference wid ty rty rid tx then Some tx else None
  end.
Proof.
  intros Hd. unfold find_entry. rewrite Hd, first_app. destruct (first _ (ledger d)); [done|].
  unfold first. cbn. by case_match.
Qed.

Section keep.
  Context `{HE : Env} `{!GoodEnv HE} `{!Serial HE}.

Lemma hold_inv_idle s s' : hold_inv s → idle s s' → hold_inv s'.
Proof.
  intros Hs Hi. destruct Hi as (Hdb & Hc & Hd). destruct Hs.
  constructor; rewrite ?Hdb; try done.
  - by eapply ledger_inv_idle.
  - intros h (k & ? & ?)%hi_drawn0. exists k. split; [lia|done].
Qed.

Lemma hold_inv_commit s d : hold_inv s → hold_inv (s <| ses_committed := d |>).
Proof. intros [[] ]. constructor; [by constructor | done..]. Qed.

Lemma hold_inv_race s : hold_inv s → hold_inv (s <| ses_db ::= env_race |>).
Proof.
  intros Hs. eapply hold_inv_idle; [exact Hs|]. split_and!; [cbn; apply serial_race|done|done].
Qed.

Lemma hold_inv_wallet s tenant user cur w s' :
  hold_inv s → insert_wallet tenant user cur s = (Ok w, s') → hold_inv s'.
Proof.
  intros Hs Hr. pose proof (hi_ledger s Hs) as Hl.
  pose proof (insert_wallet_inv _ _ _ _ _ _ Hl Hr) as Hl'.
  apply insert_wallet_ok in Hr as (-> & _ & ->). destruct Hs. constructor; cbn; try done.
  - intros h (k & ? & ?)%hi_drawn0. exists k. split; [lia|done].
  - intros h (w & ? & ?)%hi_fk0. exists w. split; [apply elem_of_app; by left | done].
  - intros w [Hw|Hw]%elem_of_app; [by apply hi_covered0|].
    apply list_elem_of_singleton in Hw as ->. unfold covered, held_total. cbn.
    rewrite (proj2 (select_nil _ _)); [done|]. intros h Hh.
    apply andb_false_iff. left. apply bool_decide_eq_false. intros Heq.
    destruct (hi_fk0 h Hh) as (w & Hw & Hid). apply (fresh_wallet_id s w Hl Hw). congruence.
Qed.

Lemma hold_inv_flush s w ty amount after rid rty desc tx s' :
  hold_inv s → w ∈ wallets (ses_db s) → entry_fits w ty amount after →
  leaves_holds s w ty after rty →
  flush_entry w ty amount (wallet_balance w) after rid rty desc s = (Ok tx, s') → hold_inv s'.
Proof.
  intros Hs Hw Hfit [Hheld Href] Hr. pose proof (hi_ledger s Hs) as Hl.
  assert (ledger_inv s') as Hl' by (eapply (oi_flush (op_inv := ledger_op_inv)); done).
  apply flush_entry_ok in Hr as (a' & am' & b' & Ha & _ & _ & Htx & _ & ->).
  apply numeric_exact_inv in Ha as ->; [|done|apply Hfit]. destruct Hs. constructor; cbn; try done.
  - intros h (k & ? & ?)%hi_drawn0. exists k. split; [lia|done].
  - intros h (w0 & Hw0 & Hid)%hi_fk0. eexists.
    split; [apply elem_of_update_where; by exists w0|]. by case_bool_decide.
  - intros x Hx. apply elem_of_update_where in Hx as (x0 & Hx0 & ->).
    specialize (hi_covered0 _ Hx0). unfold covered, held_total in *. cbn.
    case_bool_decide as Heq; cbn in *; [|done].
    change (wallet_id x0 = wallet_id w) in Heq. rewrite Heq. exact Hheld.
  - intros h Hh. specialize (hi_capture0 h Hh). unfold capture_entry in *.
    rewrite (find_entry_snoc _ _ _ _ (ses_db s) _ tx) by done. case_bool_decide.
    + destruct hi_capture0 as (tx0 & -> & ?). eauto.
    + rewrite hi_capture0. case_match eqn:Hhas; [|done]. exfalso.
      apply has_reference_spec in Hhas as (_ & Hty & Hrt & _). subst tx. cbn in *. by apply Href.
  - intros x r [Hx|Hx]%elem_of_app Hty Hrt Hri; [by eapply hi_no_stray0|].
    apply list_elem_of_singleton in Hx as ->. subst tx. cbn in *. by destruct (Href Hty).
Qed.

Global Instance hold_op_inv : op_inv hold_inv leaves_holds.
Proof.
  constructor.
  - apply hi_ledger.
  - apply hold_inv_idle.
  - apply hold_inv_race.
  - intros. by eapply hold_inv_wallet.
  - intros. by eapply (hold_inv_flush s w ty amount after).
Qed.

End keep.

(** ** Holds and their totals *)

Section totals.
  Implicit Types (h : WalletHold) (t : list WalletHold).

Definition counts (wid : UUID) (h : WalletHold) : bool :=
  (hold_wallet_id h == wid) && (hold_status h == HoldActive).

Lemma held_total_snoc wid d h :
  held_total wid (d <| holds ::= λ t, t ++ [h] |>) =
  held_total wid d + (if counts wid h then hold_amount h else 0).
Proof.
  unfold held_total, counts. change (holds (d <| holds ::= ?g |>)) with (holds d ++ [h]).
  rewrite select_app, sum_of_app. f_equal. cbn. case_match; cbn; lia.
Qed.

(** An ACTIVE hold that stops being ACTIVE frees exactly its amount. *)
Lemma held_total_deactivate wid d h f :
  NoDup (hold_id <$> holds d) → h ∈ holds d → hold_status h = HoldActive →
  (∀ h, hold_id (f h) = hold_id h) → (∀ h, hold_status (f h) ≠ HoldActive) →
  held_total wid (d <| holds ::= update_row (hold_id h) f |>) =
  held_total wid d - (if hold_wallet_id h == wid then hold_amount h else 0).
Proof.
  intros Hnd Hh Hact Hid Hst. unfold held_total.
  change (holds (d <| holds ::= ?g |>)) with (g (holds d)). cbv beta. revert Hnd Hh.
  generalize (holds d). intros t. induction t as [|x t IH]; intros Hnd Hh;
    [by apply elem_of_nil in Hh|].
  rewrite fmap_cons, list.NoDup_cons in Hnd. destruct Hnd as [Hx Hnd].
  change (update_row (hold_id h) f (x :: t)) with
    ((if row_id x == hold_id h then f x else x) :: update_row (hold_id h) f t).
  rewrite !sum_select_cons. apply elem_of_cons in Hh as [<-|Hh].
  - rewrite (bool_decide_eq_true_2 (row_id h = hold_id h)) by done.
    rewrite (bool_decide_eq_false_2 (hold_status (f h) = _)) by apply Hst. rewrite andb_false_r, Hact.
    assert (update_row (hold_id h) f t = t) as ->.
    { apply update_where_id. intros r Hr Heq. rewrite bool_decide_eq_true in Heq. exfalso.
      apply Hx. apply list_elem_of_fmap. by exists r. }
    rewrite (bool_decide_eq_true_2 (HoldActive = _)), andb_true_r by done. lia.
  - rewrite (bool_decide_eq_false_2 (row_id x = hold_id h)).
    2: { intros Heq. apply Hx. apply list_elem_of_fmap. exists h. split; [exact Heq|done]. }
    specialize (IH Hnd Hh). lia.
Qed.

End totals.

Lemma lock_hold_ok h s h' s' :
  lock_hold h s = (Ok h', s') →
  s' = s ∧ h' ∈ holds (ses_db s) ∧ hold_id h' = hold_id h ∧ hold_tenant_id h' = hold_tenant_id h.
Proof.
  unfold lock_hold, scalar_one, one_or_none, of_outcome, of_option, mbind, prog_bind, query, gets. cbn.
  destruct (select _ (holds (ses_db s))) as [|x [|y l]] eqn:Hs; cbn; [done| |done].
  intros [= <- <-]. split; [done|].
  match type of Hs with select ?p ?t = _ => assert (x ∈ select p t) as Hin by (rewrite Hs; left) end.
  apply elem_of_select in Hin as [? Hp]. apply andb_true_iff in Hp as [H1 H2].
  rewrite bool_decide_eq_true in H1, H2. done.
Qed.

Lemma lock_hold_run h s :
  NoDup (hold_id <$> holds (ses_db s)) → h ∈ holds (ses_db s) → lock_hold h s = (Ok h, s).
Proof.
  intros Hnd Hh.
  assert (select (λ x, (hold_id x == hold_id h) && (hold_tenant_id x == hold_tenant_id h))
            (holds (ses_db s)) = [h]) as Hsel.
  { revert Hnd Hh. generalize (holds (ses_db s)). intros t.
    induction t as [|x t IH]; intros Hnd Hh; [by apply elem_of_nil in Hh|].
    rewrite fmap_cons, list.NoDup_cons in Hnd. destruct Hnd as [Hx Hnd]. cbn.
    apply elem_of_cons in Hh as [<-|Hh].
    - rewrite !bool_decide_eq_true_2 by done. cbn. f_equal. apply select_nil. intros r Hr.
      apply andb_false_iff. left. apply bool_decide_eq_false. intros Heq. apply Hx.
      apply list_elem_of_fmap. by exists r.
    - rewrite bool_decide_eq_false_2; [by apply IH|]. intros Heq. apply Hx.
      apply list_elem_of_fmap. by exists h. }
  unfold lock_hold, scalar_one, one_or_none, mbind, prog_bind, query, gets. cbn. by rewrite Hsel.
Qed.

(** ** Reservations, captures and releases keep the invariant *)

Section hold_ops.
  Context `{HE : Env} `{!GoodEnv HE} `{!Serial HE}.

Lemma fresh_hold_id s h :
  hold_inv s → h ∈ holds (ses_db s) → hold_id h ≠ env_uuid4 (ses_draws s).
Proof.
  intros Hs Hh Heq. destruct (hi_drawn s Hs h Hh) as (k & Hk & Hk').
  rewrite Heq in Hk'. apply uuid4_inj in Hk'. lia.
Qed.

(** Changing only the holds. *)
Lemma ledger_inv_holds s f n :
  ledger_inv s → (ses_draws s ≤ n)%nat → (∀ h, h ∈ f (holds (ses_db s)) → 0 < hold_amount h) →
  ledger_inv (s <| ses_draws := n |> <| ses_db ::= λ d, d <| holds ::= f |> |>).
Proof.
  intros Hs Hn Hf. assert (ledger_inv (s <| ses_draws := n |>)) as Hs'
    by (eapply ledger_inv_idle; [exact Hs|]; split_and!; done).
  destruct Hs'. by constructor.
Qed.

Lemma insert_hold_ok t wid amount key rt ri ex s h s' :
  insert_hold t wid amount key rt ri ex s = (Ok h, s') → (cent | amount) →
  h = MkWalletHold (env_uuid4 (ses_draws s)) t wid amount HoldActive key rt ri ex None None ∧
  s' = s <| ses_draws := S (ses_draws s) |> <| ses_db ::= λ d, d <| holds ::= λ l, l ++ [h] |> |>.
Proof.
  unfold insert_hold, to_varchar. intros Hr Hc. db_inv.
  repeat (case_match; db_inv). apply numeric_exact_inv in Hsome; [|done..]. by subst.
Qed.

Lemma hold_inv_reserve s wl amount key rt ri ex h s' :
  hold_inv s → wl ∈ wallets (ses_db s) → 0 < amount → (cent | amount) →
  held_total (wallet_id wl) (ses_db s) + amount ≤ wallet_balance wl →
  insert_hold (wallet_tenant_id wl) (wallet_id wl) amount key rt ri ex s = (Ok h, s') →
  hold_inv s'.
Proof.
  intros Hs Hwl Hpos Hcent Hav Hr. pose proof (fresh_hold_id s) as Hfresh.
  specialize (λ h, Hfresh h Hs). apply insert_hold_ok in Hr as (-> & ->); [|done].
  set (h := MkWalletHold _ _ _ _ _ _ _ _ _ _ _). constructor; cbn.
  - apply (ledger_inv_holds s (λ l, l ++ [h]) (S (ses_draws s))); [apply Hs|lia|].
    intros x [Hx|Hx]%elem_of_app;
      [by apply (inv_holds s (hi_ledger s Hs)) | by apply list_elem_of_singleton in Hx as ->].
  - rewrite fmap_app. apply list.NoDup_app. split_and!; [apply Hs| |apply NoDup_singleton].
    intros i (x & -> & Hx)%list_elem_of_fmap. cbn. rewrite list_elem_of_singleton. by apply Hfresh.
  - intros x [Hx|Hx]%elem_of_app.
    + destruct (hi_drawn s Hs x Hx) as (k & ? & ?). exists k. split; [lia|done].
    + apply list_elem_of_singleton in Hx as ->. exists (ses_draws s). split; [lia|done].
  - intros x [Hx|Hx]%elem_of_app; [by apply Hs|].
    apply list_elem_of_singleton in Hx as ->. by exists wl.
  - intros x [Hx|Hx]%elem_of_app; [by apply (hi_cents s Hs)|].
    by apply list_elem_of_singleton in Hx as ->.
  - intros w Hw. pose proof (hi_covered s Hs w Hw) as Hcov. unfold covered in *.
    etransitivity; [apply Z.eq_le_incl, (held_total_snoc (wallet_id w) (ses_db s) h)|].
    unfold counts; cbn. case_bool_decide as Heq; cbn; [|lia].
    assert (wl = w) as -> by (eapply (NoDup_fmap_inj wallet_id); [apply Hs|done..]).
    by rewrite bool_decide_eq_true_2.
  - intros x [Hx|Hx]%elem_of_app; [by apply (hi_capture s Hs)|].
    apply list_elem_of_singleton in Hx as ->. cbn. unfold capture_entry, find_entry. cbn.
    apply first_None, select_nil. intros tx Htx. apply not_true_iff_false.
    intros (_ & Hty & Hrt & Hri)%has_reference_spec.
    destruct (hi_no_stray s Hs tx _ Htx Hty Hrt Hri) as (x & Hx & Heq).
    apply (Hfresh x Hx). by apply (inj uuid_str).
  - intros tx rid Htx Hty Hrt Hri. destruct (hi_no_stray s Hs tx rid Htx Hty Hrt Hri) as (x & Hx & ?).
    exists x. split; [apply elem_of_app; by left|done].
Qed.

Lemma reserve_inv w amount key rt ri ex s h s' :
  hold_inv s → (cent | amount) → reserve w amount key rt ri ex s = (Ok h, s') → hold_inv s'.
Proof.
  intros Hs Hc Hr. unfold reserve in Hr. run_inv. lock_inv. db_inv.
  destruct (head _) as [x|]; db_inv; [done|]. unfold active_total in *. db_inv.
  refine (hold_inv_reserve _ _ _ _ _ _ _ _ _ Hs Hwin _ Hc _ Hr); lia.
Qed.

(** The rows after a hold changed: the others, and the changed one. *)
Lemma hold_update_inv h f t x :
  NoDup (hold_id <$> t) → h ∈ t → x ∈ update_row (A := WalletHold) (hold_id h) f t →
  (x ∈ t ∧ hold_id x ≠ hold_id h) ∨ x = f h.
Proof.
  intros Hnd Hh (x0 & Hx0 & ->)%elem_of_update_where. case_bool_decide as Heq; [right|by left].
  f_equal. change (hold_id x0 = hold_id h) in Heq. revert Hnd Hh Hx0 Heq. clear.
  induction t as [|y t IH]; intros Hnd Hh Hx Heq; [by apply elem_of_nil in Hx|].
  rewrite fmap_cons, list.NoDup_cons in Hnd. destruct Hnd as [Hy Hnd].
  apply elem_of_cons in Hx as [->|Hx]; apply elem_of_cons in Hh as [->|Hh]; auto; exfalso;
    apply Hy, list_elem_of_fmap; eauto.
Qed.

Lemma hold_update_ids i f (t : list WalletHold) :
  (∀ h, hold_id (f h) = hold_id h) → hold_id <$> update_row i f t = hold_id <$> t.
Proof. intros Hf. induction t as [|y t IH]; [done|]. cbn. f_equal; [by case_match|exact IH]. Qed.

(** The hold [h] of [s] stops being ACTIVE. *)
Definition deactivate (h : WalletHold) (f : WalletHold → WalletHold) (s : Session) : Session :=
  s <| ses_db ::= λ d, d <| holds ::= update_row (hold_id h) f |> |>.

Record deactivation (f : WalletHold → WalletHold) : Prop := {
  deact_id h : hold_id (f h) = hold_id h;
  deact_wallet h : hold_wallet_id (f h) = hold_wallet_id h;
  deact_amount h : hold_amount (f h) = hold_amount h;
  deact_status h : hold_status (f h) ≠ HoldActive;
}.

Lemma deactivate_covered s h f w :
  hold_inv s → h ∈ holds (ses_db s) → hold_status h = HoldActive → deactivation f →
  w ∈ wallets (ses_db s) →
  held_total (wallet_id w) (ses_db (deactivate h f s)) =
  held_total (wallet_id w) (ses_db s) - (if hold_wallet_id h == wallet_id w then hold_amount h else 0).
Proof.
  intros Hs Hh Hact Hf Hw. unfold deactivate.
  apply (held_total_deactivate (wallet_id w) (ses_db s) h f); try apply Hf; [apply Hs|done..].
Qed.

Lemma deactivate_ledger s h f :
  hold_inv s → h ∈ holds (ses_db s) → deactivation f → ledger_inv (deactivate h f s).
Proof.
  intros Hs Hh Hf.
  apply (ledger_inv_holds s (update_row (hold_id h) f) (ses_draws s)); [apply Hs|lia|].
  intros x [[Hx _]| ->]%hold_update_inv; [..|apply Hs|done].
  - by apply (inv_holds s (hi_ledger s Hs)).
  - rewrite deact_amount by done. by apply (inv_holds s (hi_ledger s Hs)).
Qed.

(** What a deactivation keeps of the invariant whatever the new status. *)
Lemma deactivate_rows s h f x :
  hold_inv s → h ∈ holds (ses_db s) → deactivation f → x ∈ holds (ses_db (deactivate h f s)) →
  (∃ k, (k < ses_draws s)%nat ∧ hold_id x = env_uuid4 k) ∧
  (∃ w, w ∈ wallets (ses_db s) ∧ wallet_id w = hold_wallet_id x) ∧ (cent | hold_amount x).
Proof.
  intros Hs Hh Hf [[Hx _]| ->]%hold_update_inv; [..|apply Hs|done].
  - split_and!; by apply Hs.
  - rewrite deact_id, deact_wallet, deact_amount by done. split_and!; by apply Hs.
Qed.

Lemma hold_inv_release s h f :
  hold_inv s → h ∈ holds (ses_db s) → hold_status h = HoldActive → deactivation f →
  (∀ h, hold_status (f h) ≠ HoldCaptured) → hold_inv (deactivate h f s).
Proof.
  intros Hs Hh Hact Hf Hnc. pose proof (deactivate_rows s h f) as Hrows.
  constructor; [by apply deactivate_ledger|..].
  - cbn. rewrite hold_update_ids by apply Hf. apply Hs.
  - intros x Hx. by apply Hrows.
  - intros x Hx. by apply Hrows.
  - intros x Hx. by apply Hrows.
  - intros w Hw. pose proof (hi_covered s Hs w Hw) as Hcov. unfold covered in *.
    rewrite deactivate_covered by done.
    pose proof (inv_holds s (hi_ledger s Hs) h Hh). case_match; lia.
  - intros x [[Hx _]| ->]%hold_update_inv; [..|apply Hs|done]; [by apply (hi_capture s Hs)|].
    rewrite bool_decide_eq_false_2 by done. pose proof (hi_capture s Hs h Hh) as Hcap.
    rewrite bool_decide_eq_false_2 in Hcap by congruence.
    unfold capture_entry. by rewrite deact_id, deact_wallet.
  - intros tx rid Htx Hty Hrt Hri. destruct (hi_no_stray s Hs tx rid Htx Hty Hrt Hri) as (x & Hx & <-).
    eexists. split; [apply elem_of_update_where; by exists x|].
    case_match; [by rewrite deact_id|done].
Qed.

Lemma debit_ok w amount rid rty desc s tx s' :
  debit w amount rid rty desc s = (Ok tx, s') →
  ∃ wl, wl ∈ wallets (ses_db s) ∧ wallet_id wl = wallet_id w ∧ 0 < amount ∧
    held_total (wallet_id wl) (ses_db s) ≤ wallet_balance wl - amount ∧
    flush_entry wl DEBIT amount (wallet_balance wl) (wallet_balance wl - amount) rid rty desc s
      = (Ok tx, s').
Proof.
  intros Hr. unfold debit in Hr. run_inv. lock_inv. db_inv.
  eexists. split_and!; [exact Hwin|exact Hwid|lia|lia|eassumption].
Qed.

(** Writing the capture entry of a hold that was just marked CAPTURED. *)
Lemma hold_inv_captured s h f w desc tx s' :
  hold_inv s → h ∈ holds (ses_db s) → hold_status h = HoldActive → deactivation f →
  (∀ h, hold_status (f h) = HoldCaptured) → wallet_id w = hold_wallet_id h →
  debit w (hold_amount h) (Some (uuid_str (hold_id h))) (Some WALLET_HOLD_CAPTURE_REF) desc
    (deactivate h f s) = (Ok tx, s') →
  hold_inv s'.
Proof.
  intros Hs Hh Hact Hf Hcap Hwid Hr.
  pose proof (deactivate_ledger s h f Hs Hh Hf) as Hl1.
  pose proof (hi_cents s Hs h Hh) as Hcent.
  assert (ledger_inv s') as Hl'.
  { eapply (debit_inv ledger_inv (λ _ _ _ _ _, True) w) in Hl1; [|exact Hcent|done].
    unfold ensures in Hl1. erewrite Hr in Hl1. exact Hl1. }
  apply debit_ok in Hr as (wl & Hwl & Hwlid & Hpos & Hav & Hr).
  destruct (wallet_balance_ok (deactivate h f s) wl Hl1 Hwl) as [Hcb _].
  apply flush_entry_ok in Hr as (a' & am' & b' & Ha & Hm & _ & Htx & _ & ->).
  apply numeric_exact_inv in Ha as ->; [|done|auto with money].
  apply numeric_exact_inv in Hm as ->; [|done|done].
  pose proof (deactivate_rows s h f) as Hrows. constructor; cbn [ses_db ses_draws]; [exact Hl'|..].
  - cbn. rewrite hold_update_ids by apply Hf. apply Hs.
  - intros x Hx. destruct (Hrows x Hs Hh Hf Hx) as [(k & ? & ?) _]. exists k. cbn. split; [lia|done].
  - intros x Hx. destruct (Hrows x Hs Hh Hf Hx) as (_ & (w0 & Hw0 & Hid) & _). cbn.
    eexists. split; [apply elem_of_update_where; by exists w0|]. by case_match.
  - intros x Hx. by apply (Hrows x Hs Hh Hf).
  - intros x Hx. apply elem_of_update_where in Hx as (x0 & Hx0 & ->). unfold covered.
    match goal with |- held_total ?i ?d ≤ _ =>
      change (held_total i d) with (held_total i (ses_db (deactivate h f s))) end.
    case_bool_decide as Heq; cbn [wallet_balance wallet_id field_update].
    + change (wallet_id x0 = wallet_id wl) in Heq. cbn. rewrite Heq. exact Hav.
    + change (x0 ∈ wallets (ses_db s)) in Hx0. rewrite deactivate_covered by done.
      pose proof (hi_covered s Hs x0 Hx0). unfold covered in *. case_match; lia.
  - intros x Hx. unfold capture_entry.
    rewrite (find_entry_snoc _ _ _ _ (ses_db s) _ tx) by done.
    apply hold_update_inv in Hx as [[Hx Hne]| ->]; [..|apply Hs|done].
    + pose proof (hi_capture s Hs x Hx) as Hcx. unfold capture_entry in Hcx. case_bool_decide.
      * destruct Hcx as (tx0 & -> & ?). eauto.
      * rewrite Hcx. case_match eqn:Hhas; [|done]. exfalso. apply Hne.
        apply has_reference_spec in Hhas as (_ & _ & _ & Hri). subst tx. cbn in Hri.
        apply (inj uuid_str). congruence.
    + rewrite Hcap, bool_decide_eq_true_2, deact_id, deact_wallet, deact_amount by done.
      pose proof (hi_capture s Hs h Hh) as Hch. rewrite bool_decide_eq_false_2 in Hch by congruence.
      unfold capture_entry in Hch. rewrite Hch. exists tx. subst tx. cbn.
      rewrite (proj2 (has_reference_spec _ _ _ _ _)); [done|]. cbn. split_and!; congruence.
  - intros x rid [Hx|Hx]%elem_of_app Hty Hrt Hri.
    + destruct (hi_no_stray s Hs x rid Hx Hty Hrt Hri) as (y & Hy & <-).
      eexists. split; [apply elem_of_update_where; by exists y|].
      case_match; [by rewrite deact_id|done].
    + apply list_elem_of_singleton in Hx as ->. subst tx. cbn in Hri. injection Hri as <-.
      eexists. split; [apply elem_of_update_where; by exists h|].
      case_match; [by rewrite deact_id|done].
Qed.

End hold_ops.

(** The two status changes of the code. *)
Definition to_captured (t : Z) (h : WalletHold) : WalletHold :=
  h <| hold_status := HoldCaptured |> <| hold_captured_at := Some t |>.
Definition to_released (t : Z) (h : WalletHold) : WalletHold :=
  h <| hold_status := HoldReleased |> <| hold_released_at := Some t |>.

Lemma to_captured_deactivation t : deactivation (to_captured t).
Proof. by split. Qed.
Lemma to_released_deactivation t : deactivation (to_released t).
Proof. by split. Qed.

Section capture.
  Context `{HE : Env} `{!GoodEnv HE} `{!Serial HE}.

Lemma capture_inv h desc s tx s' :
  hold_inv s → capture h desc s = (Ok tx, s') → hold_inv s'.
Proof.
  intros Hs Hr. unfold capture in Hr. apply bind_inv_ok in Hr as (l & s1 & Hlock & Hr).
  apply lock_hold_ok in Hlock as (-> & Hin & _ & _).
  case_bool_decide as Hst; [by db_inv|]. db_inv. unfold update_hold in *. db_inv.
  apply negb_false_iff, bool_decide_eq_true in Hguard. 
  match goal with Hg : Some _ = get_row _ _ |- _ => symmetry in Hg;
    apply get_row_Some in Hg as [_ Hid] end.
  refine (hold_inv_captured s l (to_captured (env_clock (ses_draws s))) _ _ _ _ Hs Hin Hguard
    (to_captured_deactivation _) _ Hid Hr). done.
Qed.

Lemma release_inv h s r s' : hold_inv s → release h s = (Ok r, s') → hold_inv s'.
Proof.
  intros Hs Hr. unfold release in Hr. apply bind_inv_ok in Hr as (l & s1 & Hlock & Hr).
  apply lock_hold_ok in Hlock as (-> & Hin & _ & _).
  case_bool_decide as Hst; [by db_inv|]. db_inv. unfold update_hold in *. db_inv.
  apply negb_false_iff, bool_decide_eq_true in Hguard.
  refine (hold_inv_release s l (to_released (env_clock (ses_draws s))) Hs Hin Hguard
    (to_released_deactivation _) _). done.
Qed.

(** A row that conflicts with a capture entry captures the same hold. *)
Lemma capture_conflict a b rid :
  tx_transaction_type a = DEBIT → tx_reference_type a = Some WALLET_HOLD_CAPTURE_REF →
  tx_reference_id a = Some rid → ledger_conflict a b = true →
  has_reference (tx_wallet_id a) DEBIT WALLET_HOLD_CAPTURE_REF rid b = true.
Proof.
  unfold ledger_conflict. rewrite !andb_true_iff, !bool_decide_eq_true.
  intros Hty Hrt Hri (((Hex & Hw) & Hr) & Hi). apply has_reference_spec.
  split_and!; try congruence.
  apply existsb_exists in Hex as (p & Hp & [Hpa Hpb]%andb_true_iff).
  unfold ledger_unique_indexes, uq_refund_idempotency, index_where in Hp.
  repeat destruct Hp as [<-|Hp]; [..|done].
  all: rewrite !andb_true_iff, ?bool_decide_eq_true in Hpa, Hpb; destruct Hpa as [[Hpa _] _],
    Hpb as [[Hpb _] _]; congruence.
Qed.

Lemma lock_wallet_run w s :
  ledger_inv s → w ∈ wallets (ses_db s) → lock_wallet w s = (Ok w, s).
Proof.
  intros Hs Hw.
  assert (select (λ x, (wallet_id x == wallet_id w) && (wallet_tenant_id x == wallet_tenant_id w))
            (wallets (ses_db s)) = [w]) as Hsel.
  { pose proof (inv_ids s Hs) as Hnd. revert Hnd Hw. generalize (wallets (ses_db s)). intros t.
    induction t as [|x t IH]; intros Hnd Hw; [by apply elem_of_nil in Hw|].
    rewrite fmap_cons, list.NoDup_cons in Hnd. destruct Hnd as [Hx Hnd]. cbn.
    apply elem_of_cons in Hw as [<-|Hw].
    - rewrite !bool_decide_eq_true_2 by done. cbn. f_equal. apply select_nil. intros r Hr.
      apply andb_false_iff. left. apply bool_decide_eq_false. intros Heq. apply Hx.
      apply list_elem_of_fmap. by exists r.
    - rewrite bool_decide_eq_false_2; [by apply IH|]. intros Heq. apply Hx.
      apply list_elem_of_fmap. by exists w. }
  unfold lock_wallet, one_or_none, mbind, prog_bind, query, gets. cbn. by rewrite Hsel.
Qed.

(** Capturing an ACTIVE hold of an active wallet runs to its debit. *)
Lemma capture_active_run h w desc s :
  hold_inv s → h ∈ holds (ses_db s) → hold_status h = HoldActive →
  w ∈ wallets (ses_db s) → wallet_id w = hold_wallet_id h → wallet_is_active w = true →
  ∃ tx s', capture h desc s = (Ok tx, s') ∧ tx_amount tx = hold_amount h ∧
    get_row (wallet_id w) (wallets (ses_db s')) =
      Some (w <| wallet_balance := wallet_balance w - hold_amount h |>) ∧
    holds (ses_db s') = update_row (hold_id h) (to_captured (env_clock (ses_draws s)))
                          (holds (ses_db s)) ∧
    capture_entry h (ses_db s') = Some tx.
Proof.
  intros Hs Hh Hact Hw Hwid Hactive. unfold capture, update_hold.
  erewrite bind_ok by (apply lock_hold_run; [apply Hs|done]). cbv beta zeta.
  rewrite Hact, bool_decide_eq_false_2, (bool_decide_eq_true_2 (HoldActive = _)) by done.
  set (s1 := deactivate h (to_captured (env_clock (ses_draws s))) s).
  assert (ledger_inv s1) as Hl1 by (apply deactivate_ledger; [done..|apply to_captured_deactivation]).
  pose proof (get_row_unique s w (hi_ledger s Hs) Hw) as Hget. rewrite Hwid in Hget.
  unfold raise_if at 1, mbind, prog_bind, query, gets, now, write, modify. cbn [negb].
  cbn -[debit s1]. rewrite Hget. cbn -[debit s1].
  match goal with |- context [debit w ?a ?i ?t ?de ?s0] => change s0 with s1 end.
  pose proof (inv_holds s (hi_ledger s Hs) h Hh) as Hpos.
  pose proof (hi_cents s Hs h Hh) as Hcent.
  destruct (wallet_balance_ok s w (hi_ledger s Hs) Hw) as [Hcb Hb].
  assert (held_total (wallet_id w) (ses_db s1) + hold_amount h ≤ wallet_balance w) as Hav.
  { unfold s1. rewrite deactivate_covered by (done || apply to_captured_deactivation).
    rewrite Hwid, (bool_decide_eq_true_2 (hold_wallet_id h = _)), <- Hwid by done.
    pose proof (hi_covered s Hs w Hw). unfold covered in *. lia. }
  pose proof (held_total_nonneg s1 (wallet_id w) Hl1) as Hnn.
  rewrite (debit_run w w) by (done || by apply lock_wallet_run).
  rewrite flush_entry_run; [|auto with money; lia..|].
  - eexists _, _. split_and!; [done|done|by apply (get_updated_wallet s w), Hw; apply Hs|done|].
    pose proof (hi_capture s Hs h Hh) as Hcap. rewrite bool_decide_eq_false_2 in Hcap by congruence.
    unfold capture_entry in *. erewrite (find_entry_snoc _ _ _ _ (ses_db s)) by done. rewrite Hcap.
    rewrite (proj2 (has_reference_spec _ _ _ _ _)); [done|]. by rewrite <- Hwid.
  - intros x Hx. apply not_true_iff_false. intros Hc.
    apply (capture_conflict _ _ (uuid_str (hold_id h))) in Hc; [|done..]. cbn in Hc.
    pose proof (hi_capture s Hs h Hh) as Hcap. rewrite bool_decide_eq_false_2 in Hcap by congruence.
    apply first_None, (proj1 (select_nil _ _)) with (r := x) in Hcap; [|exact Hx].
    rewrite <- Hwid in Hcap. congruence.
Qed.

End capture.

(** ** Histories of requests *)

Inductive hold_call :=
  | HLedger (c : ledger_call)
  | HReserve (w : Wallet) (amount : dec) (key rtype rid : string) (expires_at : option Z)
  | HCapture (h : WalletHold) (desc : option string)
  | HRelease (h : WalletHold).

Definition run_hold_call `{Env} (c : hold_call) : M unit :=
  match c with
  | HLedger c => run_call c;; mret tt
  | HReserve w a k t i e => reserve w a k t i e;; mret tt
  | HCapture h d => capture h d;; mret tt
  | HRelease h => release h;; mret tt
  end.

(** Each call is a request of its own: it commits, or is rolled back. *)
Definition run_requests `{Env} (cs : list hold_call) (s : Session) : Session :=
  foldl (λ s c, (in_request (run_hold_call c) s).2) s cs.

(** Whole cents; and neither of the two ledger operations that ignore holds,
    nor a debit that poses as a capture. *)
Definition respects_holds (c : hold_call) : Prop :=
  match c with
  | HLedger (CallReverse _ _ _ _) | HLedger (CallAdjust _ _ _) => False
  | HLedger (CallDebit _ a _ t _) => (cent | a) ∧ t ≠ Some WALLET_HOLD_CAPTURE_REF
  | HLedger c => (cent | call_amount c)
  | HReserve _ a _ _ _ _ => (cent | a)
  | _ => True
  end.

Section requests.
  Context `{HE : Env} `{!GoodEnv HE} `{!Serial HE}.

Definition request_inv (s : Session) : Prop := hold_inv s ∧ ses_committed s = ses_db s.

Lemma run_hold_call_ok c s u s' :
  hold_inv s → respects_holds c → run_hold_call c s = (Ok u, s') → hold_inv s'.
Proof.
  intros Hs Hc Hr. destruct c as [c|w a k t i e|h d|h]; cbn in *;
    apply bind_inv_ok in Hr as (x & s1 & Hr & [_ ->]%ret_inv).
  - assert (ensures hold_inv (run_call c) s) as He; [|unfold ensures in He; by rewrite Hr in He].
    assert (∀ A B (m : M A) (f : A → B),
      ensures hold_inv m s → ensures hold_inv (x ← m; mret (f x)) s) as Hw.
    { intros A B m f Hm. apply ensures_bind; [done | by intros]. }
    assert (∀ s' wl a ty t, hold_inv s' → wl ∈ wallets (ses_db s') → 0 < a → ty ≠ DEBIT →
      leaves_holds s' wl ty (wallet_balance wl + a) t) as Hin.
    { intros s2 wl a ty t Hs2 Hwl Ha Hty. split; [|done].
      pose proof (hi_covered s2 Hs2 wl Hwl). unfold covered in *. lia. }
    destruct c; cbn in Hc; try done; apply (Hw _ _ _ _).
    + eapply get_or_create_wallet_inv; [apply hold_op_inv|done].
    + eapply credit_inv; [apply hold_op_inv|done|done|auto].
    + destruct Hc. eapply debit_inv; [apply hold_op_inv|done|done|]. by intros; split.
    + eapply refund_inv; [apply hold_op_inv|done|by apply serial_row_lock|done|auto].
    + eapply settle_payment_inv; [apply hold_op_inv|done|by apply serial_row_lock|done|auto].
    + eapply settle_flexible_deposit_inv; [apply hold_op_inv|done|by apply serial_row_lock|done|auto].
  - by eapply reserve_inv.
  - by eapply capture_inv.
  - by eapply release_inv.
Qed.

Lemma later_wait n read : steps later (wait_for_entry n read).
Proof. induction n as [|n IH]; cbn [wait_for_entry]; steps_walk. Qed.

Lemma committed_wait n read : steps same_committed (wait_for_entry n read).
Proof. induction n as [|n IH]; cbn [wait_for_entry]; steps_walk. Qed.

Lemma draws_grow c : steps later (run_hold_call c).
Proof.
  destruct c as [[]|w a k t i e|h d|h]; cbn [run_hold_call run_call];
    unfold get_or_create_wallet, insert_wallet, credit, debit, refund, settle_payment,
      reserve_topup_reversal, settle_flexible_deposit, adjust, return_existing, reserve, capture,
      release, insert_hold, update_hold, lock_hold, active_total, flush_entry, lock_wallet;
    steps_walk; try apply later_nested; steps_walk; apply later_wait.
Qed.

(** Only [commit] changes the committed version. *)
Lemma commits_nothing c : steps same_committed (run_hold_call c).
Proof.
  destruct c as [[]|w a k t i e|h d|h]; cbn [run_hold_call run_call];
    unfold get_or_create_wallet, insert_wallet, credit, debit, refund, settle_payment,
      reserve_topup_reversal, settle_flexible_deposit, adjust, return_existing, reserve, capture,
      release, insert_hold, update_hold, lock_hold, active_total, flush_entry, lock_wallet;
    steps_walk; try apply committed_nested; steps_walk; apply committed_wait.
Qed.

Lemma request_keeps c s :
  request_inv s → respects_holds c → request_inv (in_request (run_hold_call c) s).2.
Proof.
  intros [Hs Hcom] Hc. pose proof (draws_grow c s) as Hd.
  pose proof (run_hold_call_ok c s) as Hok. unfold in_request, catch, mbind, prog_bind.
  destruct (run_hold_call c s) as [[u|e] s'] eqn:Hr; cbn in *.
  - split; [|done]. by eapply hold_inv_commit, Hok.
  - assert (ses_committed s' = ses_committed s) as Hcs.
    { pose proof (commits_nothing c s) as Hn. unfold same_committed in Hn. by rewrite Hr in Hn. }
    split; [|done]. eapply hold_inv_idle; [exact Hs|]. split_and!; cbn; [congruence..|exact Hd].
Qed.

Lemma run_requests_inv cs s :
  request_inv s → (∀ c, c ∈ cs → respects_holds c) → request_inv (run_requests cs s).
Proof.
  revert s. induction cs as [|c cs IH]; intros s Hs Hcs; cbn; [done|].
  apply IH; [|intros c' Hc'; apply Hcs; by right].
  apply request_keeps; [done | apply Hcs; left].
Qed.

Lemma fresh_request_inv : request_inv fresh_session.
Proof.
  split; [|done]. constructor; [apply fresh_session_inv|..]; cbn;
    try (intros x Hx; by apply elem_of_nil in Hx); [constructor|].
  intros x rid Hx. by apply elem_of_nil in Hx.
Qed.

(** A captured hold is captured again by returning its entry. *)
Lemma capture_again h h' desc s tx :
  hold_inv s → h' ∈ holds (ses_db s) → hold_id h' = hold_id h → hold_tenant_id h' = hold_tenant_id h →
  hold_wallet_id h' = hold_wallet_id h → hold_status h' = HoldCaptured →
  capture_entry h (ses_db s) = Some tx → capture h desc s = (Ok tx, s).
Proof.
  intros Hs Hh' Hid Hten Hwal Hst Hentry. unfold capture.
  assert (lock_hold h s = (Ok h', s)) as Hlock.
  { transitivity (lock_hold h' s); [|apply lock_hold_run; [apply Hs|done]].
    unfold lock_hold. by rewrite Hid, Hten. }
  erewrite bind_ok by exact Hlock. cbv beta zeta. rewrite Hst, bool_decide_eq_true_2 by done.
  unfold capture_entry in Hentry. unfold mbind, prog_bind, query, gets. cbn.
  by rewrite Hwal, Hid, Hentry.
Qed.

End requests.


Section demo_holds.
Let tenant := mk_uuid "tenant-1".
Let user := mk_uuid "user-1".
Let w0 := MkWallet (mk_uuid "uuid-0") tenant user "USD" 0 true.

Definition hold_demo : list hold_call :=
  [ HLedger (CallWallet tenant user "USD");
    HLedger (CallCredit w0 (cents 1000) None None None);
    HReserve w0 (cents 600) "hold-1" "ORDER" "order-1" None;
    HLedger (CallDebit w0 (cents 500) None (Some "ORDER_CHECKOUT") None);
    HLedger (CallDebit w0 (cents 400) None (Some "ORDER_CHECKOUT") None);
    HReserve w0 (cents 1) "hold-2" "ORDER" "order-2" None ].

Definition hold_demo_session : Session := @run_requests demo_env hold_demo fresh_session.

Definition hold_demo_wallet : Wallet :=
  MkWallet (mk_uuid "uuid-0") tenant user "USD" (cents 600) true.

Definition hold_demo_hold : WalletHold :=
  MkWalletHold (mk_uuid "uuid-2") tenant (mk_uuid "uuid-0") (cents 600) HoldActive "hold-1" "ORDER"
    "order-1" None None None.
End demo_holds.


(** A top-up reversal can take reserved money.
    [LedgerService.reserve_topup_reversal] compares the amount with the booked
    balance and not, as [debit] does, with the balance less the ACTIVE holds: on
    a wallet whose 6.00 are reserved it debits those 6.00, after which the hold
    is no longer covered and its capture raises [InsufficientFundsError]. *)
Theorem reversal_ignores_holds :
  let s := @run_requests demo_env
             (hold_demo ++ [HLedger (CallReverse hold_demo_wallet (cents 600) (mk_uuid "rev-1") None)])
             fresh_session in
  held_total (wallet_id hold_demo_wallet) (ses_db hold_demo_session) = cents 600 ∧
  (@debit demo_env hold_demo_wallet (cents 600) None None None hold_demo_session).1
    = Raise InsufficientFundsError ∧
  get_row (wallet_id hold_demo_wallet) (wallets (ses_db s))
    = Some (hold_demo_wallet <| wallet_balance := 0 |>) ∧
  (@capture demo_env hold_demo_hold None s).1 = Raise InsufficientFundsError.
Proof. vm_compute. done. Qed.
