(* ===== verification/DepositsSpec.v ===== *)
(** * What deposit settlement guarantees

    Theorems about [packages/payments/economics.py]: identifiers are
    normalised once and for all, a conversion is the nearest cent, a policy
    for the exact network wins over a catch-all one, an automatic credit stays
    under the tenant's limit, and settling the same deposit again never
    credits it twice. *)

From Stdlib Require Import ZArith Lia Sorting.Sorted.
From stdpp Require Import base tactics list option strings numbers.
From S2P Require Import Prelude Tables Text Money Exceptions StateMachines Models Ledger.
From S2P Require Import LedgerInv LedgerSpec Economics.

Local Open Scope Z_scope.

(** ** Identifiers *)

Lemma normalize_asset_idem v c : normalize_asset v = Ok c → normalize_asset c = Ok c.
Proof.
  unfold normalize_asset. destruct (_ || _) eqn:Hc; [done|]. intros [= <-].
  by rewrite upper_strip_idem, Hc.
Qed.

Lemma normalize_network_idem v c : normalize_network v = Ok c → normalize_network (Some c) = Ok c.
Proof.
  unfold normalize_network. destruct (_ || _) eqn:Hc; [done|]. intros [= <-].
  assert (truthy (Some (upper (strip (if truthy v then default "" v else "OFFCHAIN")))) = true) as ->.
  { cbn. apply orb_false_iff in Hc as [Hc _]. by rewrite Hc. }
  cbn -[upper strip Nat.ltb String.length]. by rewrite upper_strip_idem, Hc.
Qed.

(** Normal forms.  A normalised asset, network or currency identifier is
    accepted again and unchanged, so the identifiers stored in deposits, asset
    wallets and FX policies compare equal however many times they pass through
    the code; and a normalised currency has 3 to 12 characters. *)
Theorem identifiers_normal_form a v c :
  normalize_asset v = Ok a → normalize_currency v = Ok c →
  normalize_asset a = Ok a ∧ normalize_network (Some a) = Ok a ∧ normalize_currency c = Ok c ∧
  (3 ≤ String.length c ≤ 12)%nat.
Proof.
  intros Ha Hc. split; [by eapply normalize_asset_idem|]. split; [|split].
  - apply (normalize_network_idem (Some v)). revert Ha. unfold normalize_asset, normalize_network.
    destruct (_ || _) eqn:Hn; [done|]. intros [= <-]. apply orb_false_iff in Hn as [Hn Hlen].
    destruct (decide (v = "")) as [->|Hv]; [discriminate Hn|].
    assert (truthy (Some v) = true) as -> by (cbn; by rewrite (bool_decide_eq_false_2 (v = ""))).
    cbn -[upper strip Nat.ltb String.length]. rewrite Hn. apply Nat.ltb_ge in Hlen.
    by rewrite (proj2 (Nat.ltb_ge _ _)) by lia.
  - revert Hc. unfold normalize_currency. destruct (_ || _) eqn:Hn; [done|]. intros [= <-].
    by rewrite upper_strip_idem, Hn.
  - revert Hc. unfold normalize_currency. destruct (_ || _) eqn:Hn; [done|]. intros [= <-].
    apply orb_false_iff in Hn as [Hn _]. apply negb_false_iff, andb_true_iff in Hn as [H1 H2].
    apply Nat.leb_le in H1, H2. done.
Qed.

Lemma identifiers_normal_form_witness :
  normalize_asset " usdt " = Ok "USDT" ∧ normalize_asset "USDT" = Ok "USDT" ∧
  normalize_currency "USDT" = Ok "USDT".
Proof.
  destruct (identifiers_normal_form "USDT" " usdt " "USDT" eq_refl eq_refl) as (Ha & _ & Hc & _).
  split; [reflexivity | split; [exact Ha | exact Hc]].
Defined.

(** ** Conversion *)

(** A conversion is the nearest cent.  For a positive amount whose product
    with the policy's rate fits the 28 digits of the decimal context, [convert] returns
    a whole number of cents at most half a cent away from the exact product; a
    whole-cent amount under a PARITY policy (rate one) is returned unchanged. *)
Theorem convert_nearest_cent policy amount r :
  0 < amount → mul amount (fx_rate policy) = amount * fx_rate policy →
  convert policy amount = Ok r →
  (cent | r) ∧ 2 * Z.abs (r * one - amount * fx_rate policy) ≤ cent * one ∧
  (fx_rate policy = one → (cent | amount) → r = amount).
Proof.
  intros Ha Hexact. unfold convert. rewrite (proj2 (Z.leb_gt _ _) Ha), Hexact.
  set (p := amount * fx_rate policy) in *. case_match; [|done]. intros [= <-].
  destruct (round_half_up_multiple (cent * one) p) as [k Hk].
  pose proof (round_half_up_error (cent * one) p ltac:(done)) as Herr. rewrite Hk in *.
  replace (k * (cent * one)) with (k * cent * one) in * by lia.
  rewrite Z.div_mul by done. split_and!; [by exists k|exact Herr|].
  intros Hone [j ->]. unfold p in *. rewrite Hone in *.
  rewrite round_half_up_exact in Hk by (done || (exists j; ring)).
  apply (Z.mul_reg_r _ _ one); [done|]. congruence.
Qed.

Lemma convert_nearest_cent_witness :
  let p := MkFxPolicy (mk_uuid "fx") (mk_uuid "t") "USDT" "ANY" "USD" FxFixedRate (cents 99) None
             true 0 [] in
  convert p (cents 1015) = Ok (cents 1005) ∧
  2 * Z.abs (cents 1005 * one - cents 1015 * cents 99) ≤ cent * one.
Proof.
  split; [vm_compute; reflexivity|].
  refine (proj1 (proj2 (convert_nearest_cent
    (MkFxPolicy (mk_uuid "fx") (mk_uuid "t") "USDT" "ANY" "USD" FxFixedRate (cents 99) None true 0 [])
    (cents 1015) (cents 1005) _ _ _))); vm_compute; reflexivity.
Defined.

(** ** Policies *)

(** The order of [resolve]: policies for the exact network first. *)
Definition exact_first (network : string) (a b : FxPolicy) : bool :=
  (fx_from_network a == network) || (fx_from_network b != network).

Lemma exact_first_total network a b : exact_first network a b = true ∨ exact_first network b a = true.
Proof. unfold exact_first. repeat case_bool_decide; cbn; auto. Qed.

Lemma exact_first_trans network a b c :
  exact_first network a b = true → exact_first network b c = true → exact_first network a c = true.
Proof. unfold exact_first. repeat case_bool_decide; cbn; auto. Qed.

Lemma head_exact network l p q :
  head (sort_by (exact_first network) l) = Some p → q ∈ l → fx_from_network q = network →
  fx_from_network p = network.
Proof.
  intros Hh Hq Hn.
  pose proof (sort_by_sorted _ (exact_first_total network) (exact_first_trans network) l) as Hsort.
  rewrite <- (elem_of_sort_by (exact_first network)) in Hq.
  destruct (sort_by (exact_first network) l) as [|x t]; [done|]. cbn in Hh. injection Hh as ->.
  apply elem_of_cons in Hq as [->|Hq]; [done|]. inversion_clear Hsort as [|? ? _ Hall].
  rewrite List.Forall_forall in Hall. specialize (Hall q (proj1 (list_elem_of_In _ _) Hq)).
  unfold exact_first in Hall. rewrite (bool_decide_eq_true_2 (fx_from_network q = network)) in Hall by done.
  rewrite orb_false_r in Hall. by apply bool_decide_eq_true in Hall.
Qed.

(** The right FX policy.  A policy that [resolve] returns for a deposit
    without a pinned policy is enabled, belongs to the tenant, and is for the
    deposit's asset and settlement currency; its network is the deposit's or
    ANY, and it is the deposit's own network whenever the tenant has an enabled
    policy for that network. *)
Theorem resolve_prefers_exact_network tenant asset network currency s p s' a n c :
  normalize_asset asset = Ok a → normalize_network (Some network) = Ok n →
  normalize_currency currency = Ok c →
  resolve tenant asset network currency None s = (Ok p, s') →
  s' = s ∧ p ∈ fx_policies (ses_db s) ∧ fx_is_enabled p = true ∧ fx_tenant_id p = tenant ∧
  fx_from_asset p = a ∧ fx_to_currency p = c ∧ (fx_from_network p = n ∨ fx_from_network p = "ANY") ∧
  ((∃ q, q ∈ fx_policies (ses_db s) ∧ fx_is_enabled q = true ∧ fx_tenant_id q = tenant ∧
         fx_from_asset q = a ∧ fx_to_currency q = c ∧ fx_from_network q = n) →
   fx_from_network p = n).
Proof.
  intros Ha Hn Hc Hr. unfold resolve, scalar in Hr. rewrite Ha, Hn, Hc in Hr.
  unfold mbind, prog_bind, query, gets in Hr. cbn -[resolve_candidates] in Hr.
  destruct (head (resolve_candidates tenant a n c (ses_db s))) as [x|] eqn:Hhead; [|done].
  cbn in Hr. unfold raise_if in Hr.
  repeat match type of Hr with context [if ?b then mthrow _ else mret _] =>
    destruct b; cbn in Hr; [done|] end.
  injection Hr as <- <-.
  pose proof Hhead as Hex. unfold resolve_candidates in Hhead, Hex.
  fold (exact_first n) in Hhead, Hex. apply head_Some_elem_of in Hhead.
  rewrite elem_of_sort_by, elem_of_select, !andb_true_iff, orb_true_iff, !bool_decide_eq_true in Hhead.
  destruct Hhead as (Hin & (((Ht & He) & Hfa) & Hfn) & Hfc). split_and!; try done.
  intros (q & Hq & Hqe & Hqt & Hqa & Hqc & Hqn). eapply head_exact; [exact Hex| |exact Hqn].
  apply elem_of_select. split; [done|].
  rewrite !andb_true_iff, orb_true_iff, !bool_decide_eq_true. auto.
Qed.

Section demo_policies.
Let t := mk_uuid "t".
Let any := MkFxPolicy (mk_uuid "fx-any") t "USDT" "ANY" "USD" FxFixedRate (cents 98) None true 0 [].
Let tron := MkFxPolicy (mk_uuid "fx-tron") t "USDT" "TRON" "USD" FxParity one
                (Some (100 * one)) true 0 [].

Definition policy_demo : Session :=
  MkSession (empty_db <| fx_policies := [any; tron] |>) (empty_db <| fx_policies := [any; tron] |>) 0 [].
Definition tron_policy : FxPolicy := tron.
End demo_policies.

Lemma resolve_prefers_exact_network_witness :
  (resolve (mk_uuid "t") "usdt" "tron" "usd" None policy_demo).1 = Ok tron_policy ∧
  fx_from_network tron_policy = "TRON".
Proof.
  split; [vm_compute; reflexivity|].
  destruct (resolve_prefers_exact_network (mk_uuid "t") "usdt" "tron" "usd" policy_demo tron_policy
    policy_demo "USDT" "TRON" "USD" eq_refl eq_refl eq_refl eq_refl)
    as (_ & _ & _ & _ & _ & _ & _ & Hexact).
  apply Hexact. exists tron_policy. split_and!; [vm_compute; right; left|reflexivity..].
Defined.

(** ** Settling twice *)

Section replay.
  Context `{HE : Env} `{!Serial HE}.

Lemma get_or_create_wallet_ok t u c s w s' :
  get_or_create_wallet t u c s = (Ok w, s') → w ∈ wallet_by_key t u c (ses_db s').
Proof.
  unfold get_or_create_wallet. intros Hr. bind_query Hr.
  apply bind_inv_ok in Hr as ([x|] & s1 & Hone & Hr).
  - apply one_or_none_some in Hone as [Heq ->]. apply ret_inv in Hr as [[= ->] ->]. rewrite Heq. left.
  - apply one_or_none_none in Hone as [_ ->]. bind_write Hr.
    apply catch_inv_ok in Hr as [Hr|(e & s2 & _ & Hr)].
    + apply begin_nested_ok, insert_wallet_ok in Hr as (-> & _ & ->). cbn.
      apply elem_of_select. split; [apply elem_of_app; right; left|].
      cbn. by rewrite !bool_decide_eq_true_2.
    + destruct e; try done. bind_query Hr. apply bind_inv_ok in Hr as (o & s3 & Hone & Hr).
      apply of_option_ok in Hr as [-> ->]. apply one_or_none_some in Hone as [Heq ->].
      rewrite Heq. left.
Qed.

Lemma get_or_create_wallet_found t u c s x w s' :
  x ∈ wallet_by_key t u c (ses_db s) → get_or_create_wallet t u c s = (Ok w, s') → w = x ∧ s' = s.
Proof.
  unfold get_or_create_wallet. intros Hx Hr. bind_query Hr.
  apply bind_inv_ok in Hr as ([y|] & s1 & Hone & Hr).
  - apply one_or_none_some in Hone as [Heq ->]. apply ret_inv in Hr as [[= ->] ->].
    rewrite Heq in Hx. by apply list_elem_of_singleton in Hx as ->.
  - apply one_or_none_none in Hone as [Heq _]. rewrite Heq in Hx. by apply elem_of_nil in Hx.
Qed.

Lemma settle_flexible_deposit_ok w a i desc s tx s' :
  settle_flexible_deposit w a i desc s = (Ok tx, s') →
  find_entry (wallet_id w) CREDIT CANONICAL_FLEXIBLE_DEPOSIT_TYPE (uuid_str i) (ses_db s') ≠ None ∧
  ∀ t u c x, x ∈ wallet_by_key t u c (ses_db s) →
    ∃ x', x' ∈ wallet_by_key t u c (ses_db s') ∧ wallet_id x' = wallet_id x.
Proof.
  unfold settle_flexible_deposit. intros Hr. bind_guard Hr Hpos.
  apply bind_inv_ok in Hr as (wl & s1 & Hl & Hr). lock_inv. cbv zeta in Hr. bind_query Hr.
  rewrite Hwid in Hr. destruct (find_entry _ _ _ _ (ses_db s)) as [tx0|] eqn:Hf.
  { apply return_existing_ok in Hr as (-> & _ & ->). rewrite Hf. eauto. }
  bind_write Hr. apply catch_inv_ok in Hr as [Hr|(e & s2 & Hn & Hr)].
  - apply begin_nested_ok, flush_entry_ok in Hr as (a' & am' & b' & _ & _ & _ & Htx & _ & ->).
    cbn. rewrite serial_race. split.
    + unfold find_entry in *. cbn. rewrite first_app, Hf. unfold first. cbn.
      rewrite (proj2 (has_reference_spec _ _ _ _ _)); [done|]. by subst tx.
    + intros t u c x Hx. unfold wallet_by_key in *. cbn.
      apply elem_of_select in Hx as [Hx Hk]. eexists. split.
      * apply elem_of_select. split; [apply elem_of_update_where; by exists x|].
        destruct (row_id x == wallet_id wl); exact Hk.
      * by destruct (row_id x == wallet_id wl).
  - apply begin_nested_raise in Hn. cbn in Hn. rewrite serial_race in Hn.
    destruct e; try done. bind_query Hr.
    destruct (find_entry _ _ _ _ (ses_db s2)) as [tx1|] eqn:Hf2; [|done].
    apply return_existing_ok in Hr as (-> & _ & ->). rewrite Hf2. rewrite Hn. eauto.
Qed.

(** An existing entry is returned without any write. *)
Lemma settle_flexible_deposit_again w a i desc s tx s' :
  find_entry (wallet_id w) CREDIT CANONICAL_FLEXIBLE_DEPOSIT_TYPE (uuid_str i) (ses_db s) ≠ None →
  settle_flexible_deposit w a i desc s = (Ok tx, s') → s' = s.
Proof.
  intros Hne Hr. unfold settle_flexible_deposit in Hr. bind_guard Hr Hpos.
  apply bind_inv_ok in Hr as (wl & s1 & Hl & Hr). lock_inv. cbv zeta in Hr. bind_query Hr.
  rewrite Hwid in Hr. destruct (find_entry _ _ _ _ (ses_db s)); [|done].
  by apply return_existing_ok in Hr as (-> & _ & ->).
Qed.

(** *** The asset side *)

Lemma scalar_one_ok {A} (f : DB → list A) s x s' :
  scalar_one f s = (Ok x, s') → f (ses_db s) = [x] ∧ s' = s.
Proof.
  unfold scalar_one. intros Hr. bind_query Hr. apply bind_inv_ok in Hr as (o & s1 & Hone & Hr).
  apply of_option_ok in Hr as [-> ->]. by apply one_or_none_some in Hone as [Heq ->].
Qed.

Lemma get_or_create_asset_wallet_ok t u a n s w s' a' n' :
  normalize_asset a = Ok a' → normalize_network n = Ok n' →
  get_or_create_asset_wallet t u a n s = (Ok w, s') → w ∈ asset_wallet_by_key t u a' n' (ses_db s').
Proof.
  unfold get_or_create_asset_wallet. intros Ha Hn Hr.
  bind_value Hr ac Hac. bind_value Hr nc Hnc. assert (ac = a') as -> by congruence.
  assert (nc = n') as -> by congruence. cbv zeta in Hr. bind_query Hr.
  apply bind_inv_ok in Hr as ([x|] & s1 & Hone & Hr).
  - apply one_or_none_some in Hone as [Heq ->]. apply ret_inv in Hr as [[= ->] ->]. rewrite Heq. left.
  - apply one_or_none_none in Hone as [_ ->]. bind_write Hr.
    apply catch_inv_ok in Hr as [Hr|(e & s2 & _ & Hr)].
    + apply begin_nested_ok in Hr. unfold insert_asset_wallet in Hr. db_inv. cbn.
      apply elem_of_select. split; [apply elem_of_app; right; left|].
      cbn. by rewrite !bool_decide_eq_true_2.
    + destruct e; try done. apply scalar_one_ok in Hr as [Heq ->]. rewrite Heq. left.
Qed.

Lemma get_or_create_asset_wallet_found t u a n s x w s' a' n' :
  normalize_asset a = Ok a' → normalize_network n = Ok n' →
  x ∈ asset_wallet_by_key t u a' n' (ses_db s) →
  get_or_create_asset_wallet t u a n s = (Ok w, s') → w = x ∧ s' = s.
Proof.
  unfold get_or_create_asset_wallet. intros Ha Hn Hx Hr.
  bind_value Hr ac Hac. bind_value Hr nc Hnc. assert (ac = a') as -> by congruence.
  assert (nc = n') as -> by congruence. cbv zeta in Hr. bind_query Hr.
  apply bind_inv_ok in Hr as ([y|] & s1 & Hone & Hr).
  - apply one_or_none_some in Hone as [Heq ->]. apply ret_inv in Hr as [[= ->] ->].
    rewrite Heq in Hx. by apply list_elem_of_singleton in Hx as ->.
  - apply one_or_none_none in Hone as [Heq _]. rewrite Heq in Hx. by apply elem_of_nil in Hx.
Qed.

Lemma lock_asset_wallet_ok w s w' s' :
  lock_asset_wallet w s = (Ok w', s') →
  s' = s ∧ awallet_id w' = awallet_id w ∧ awallet_tenant_id w' = awallet_tenant_id w.
Proof.
  unfold lock_asset_wallet. intros Hr. bind_query Hr.
  apply bind_inv_ok in Hr as (o & s1 & Hone & Hr). apply of_option_ok in Hr as [-> ->].
  apply one_or_none_some in Hone as [Heq ->]. split; [done|].
  match type of Heq with select ?p ?t = _ => assert (w' ∈ select p t) as Hin by (rewrite Heq; left) end.
  apply elem_of_select in Hin as [_ [H1 H2]%andb_true_iff].
  by rewrite bool_decide_eq_true in H1, H2.
Qed.

Lemma asset_credit_ok w a key rt ri desc s tx s' :
  asset_credit w a key rt ri desc s = (Ok tx, s') →
  asset_entry_by_key (awallet_tenant_id w) (strip key) (ses_db s') ≠ [] ∧
  ∀ t u c n x, x ∈ asset_wallet_by_key t u c n (ses_db s) →
    ∃ x', x' ∈ asset_wallet_by_key t u c n (ses_db s') ∧ awallet_tenant_id x' = awallet_tenant_id x.
Proof.
  unfold asset_credit. intros Hr. bind_guard Hr Hpos. cbv zeta in Hr. bind_guard Hr Hkey.
  apply bind_inv_ok in Hr as (wl & s1 & Hl & Hr). apply lock_asset_wallet_ok in Hl as (-> & Hid & Hten).
  bind_query Hr. rewrite Hten in Hr.
  destruct (asset_entry_by_key (awallet_tenant_id w) (strip key) (ses_db s)) as [|tx0 l] eqn:He; cbn in Hr.
  - bind_write Hr. apply catch_inv_ok in Hr as [Hr|(e & s2 & Hn & Hr)].
    + apply begin_nested_ok in Hr. unfold flush_asset_entry in Hr. db_inv. cbn. rewrite serial_race.
      split.
      * unfold asset_entry_by_key in *. cbn. rewrite select_app. cbn.
        rewrite Hten, !bool_decide_eq_true_2 by done. cbn. by destruct (select _ _).
      * intros t u c n x Hx. unfold asset_wallet_by_key in *. cbn.
        apply elem_of_select in Hx as [Hx Hk]. eexists. split.
        -- apply elem_of_select. split; [apply elem_of_update_where; by exists x|].
           destruct (row_id x == awallet_id wl); exact Hk.
        -- by destruct (row_id x == awallet_id wl).
    + apply begin_nested_raise in Hn. cbn in Hn. rewrite serial_race in Hn.
      destruct e; try done. bind_query Hr. rewrite Hn, He in Hr. done.
  - apply bind_inv_ok in Hr as (u & s1 & Hg & [_ ->]%ret_inv). apply raise_if_ok in Hg as [_ ->].
    rewrite He. eauto.
Qed.

Lemma asset_credit_again w a key rt ri desc s tx s' :
  asset_entry_by_key (awallet_tenant_id w) (strip key) (ses_db s) ≠ [] →
  asset_credit w a key rt ri desc s = (Ok tx, s') → s' = s.
Proof.
  intros Hne Hr. unfold asset_credit in Hr. bind_guard Hr Hpos. cbv zeta in Hr. bind_guard Hr Hkey.
  apply bind_inv_ok in Hr as (wl & s1 & Hl & Hr). apply lock_asset_wallet_ok in Hl as (-> & Hid & Hten).
  bind_query Hr. rewrite Hten in Hr.
  destruct (asset_entry_by_key _ _ _); [done|]. cbn in Hr.
  apply bind_inv_ok in Hr as (u & s1 & Hg & [_ ->]%ret_inv). by apply raise_if_ok in Hg as [_ ->].
Qed.

End replay.

(** The money tables: what settlement must not touch twice. *)
Definition money_same (s s' : Session) : Prop :=
  wallets (ses_db s') = wallets (ses_db s) ∧ ledger (ses_db s') = ledger (ses_db s) ∧
  asset_wallets (ses_db s') = asset_wallets (ses_db s) ∧
  asset_ledger (ses_db s') = asset_ledger (ses_db s).

Global Instance money_same_preorder : PreOrder money_same.
Proof.
  split; unfold money_same; [by intros x | intros x y z (->&->&->&->) (->&->&->&->); done].
Qed.

Definition deposit_key (dep : FlexibleDepositSession) : string :=
  "flexible-deposit:" +:+ uuid_str (dep_id dep).

(** How a run of [settle] that returns came about. *)
Inductive settled `{Env} (dep : FlexibleDepositSession) (s s' : Session) : Prop :=
  | settled_nothing : money_same s s' → settled dep s s'
  | settled_asset a n amount w s1 tx s2 desc :
      dep_auto_credit_target dep = TargetAssetWallet →
      normalize_asset (default "" (dep_asset dep)) = Ok a →
      normalize_network (Some (default "" (dep_network dep))) = Ok n →
      get_or_create_asset_wallet (dep_tenant_id dep) (dep_user_id dep) (default "" (dep_asset dep))
        (Some (default "" (dep_network dep))) s = (Ok w, s1) →
      asset_credit w amount (deposit_key dep) (Some FLEXIBLE_DEPOSIT_SETTLEMENT_REF)
        (Some (uuid_str (dep_id dep))) desc s1 = (Ok tx, s2) →
      money_same s2 s' → settled dep s s'
  | settled_wallet currency policy asset_amount amount w s1 tx s2 desc :
      dep_auto_credit_target dep = TargetSettlementWallet →
      normalize_currency (default "" (dep_settlement_currency dep)) = Ok currency →
      resolve (dep_tenant_id dep) (default "" (dep_asset dep)) (default "" (dep_network dep)) currency
        (dep_fx_policy_id dep) s = (Ok policy, s) →
      convert policy asset_amount = Ok amount →
      (∀ m, fx_max_auto_credit_amount policy = Some m → amount ≤ m) →
      get_or_create_wallet (dep_tenant_id dep) (dep_user_id dep) currency s = (Ok w, s1) →
      settle_flexible_deposit w amount (dep_id dep) desc s1 = (Ok tx, s2) →
      money_same s2 s' → settled dep s s'.

Lemma resolve_reads t a n c p s : (resolve t a n c p s).2 = s.
Proof.
  assert (steps (λ s s', s' = s) (resolve t a n c p)) as Hs; [|apply Hs].
  assert (PreOrder (λ s s' : Session, s' = s)) by (split; [by intros x | by intros x y z -> ->]).
  unfold resolve. destruct p; steps_walk.
Qed.

Section settle.
  Context `{HE : Env} `{!Serial HE}.

Lemma get_or_create_asset_wallet_names t u a n s w s' :
  get_or_create_asset_wallet t u a n s = (Ok w, s') →
  ∃ a' n', normalize_asset a = Ok a' ∧ normalize_network n = Ok n'.
Proof.
  unfold get_or_create_asset_wallet. intros Hr. bind_value Hr ac Hac. bind_value Hr nc Hnc. eauto.
Qed.

Lemma settle_inv dep s u s' : settle dep s = (Ok u, s') → settled dep s s'.
Proof.
  unfold settle. intros Hr. case_bool_decide; [apply ret_inv in Hr as [_ ->]; by constructor|].
  cbv zeta in Hr. destruct (dep_amount_received dep) as [recv|]; [|done]. bind_guard Hr Hev.
  destruct (negb (dep_auto_credit_enabled dep));
    [apply write_inv in Hr as [_ ->]; by constructor|].
  bind_value Hr asset_amount Hnet. destruct (dep_auto_credit_target dep) eqn:Htarget.
  - apply bind_inv_ok in Hr as (w & s1 & Hw & Hr). apply bind_inv_ok in Hr as (tx & s2 & Hc & Hr).
    bind_write Hr. unfold mark_credited in Hr. apply bind_inv_ok in Hr as (t & s3 & [_ ->]%gets_inv & Hr).
    apply write_inv in Hr as [_ ->]. destruct (get_or_create_asset_wallet_names _ _ _ _ _ _ _ Hw)
      as (a & n & Ha & Hn). by eapply settled_asset.
  - bind_guard Hr Hcur. bind_value Hr currency Hnorm.
    apply bind_inv_ok in Hr as (policy & s1 & Hres & Hr).
    pose proof (resolve_reads (dep_tenant_id dep) (default "" (dep_asset dep))
      (default "" (dep_network dep)) currency (dep_fx_policy_id dep) s) as Hsame.
    rewrite Hres in Hsame. cbn in Hsame. subst s1. bind_value Hr amount Hconv.
    destruct (match fx_max_auto_credit_amount policy with Some m => m <? amount | None => false end)
      eqn:Hmax; [apply write_inv in Hr as [_ ->]; by constructor|].
    apply bind_inv_ok in Hr as (w & s1 & Hw & Hr). apply bind_inv_ok in Hr as (tx & s2 & Hc & Hr).
    bind_write Hr. unfold mark_credited in Hr. apply bind_inv_ok in Hr as (t & s3 & [_ ->]%gets_inv & Hr).
    apply write_inv in Hr as [_ ->]. eapply settled_wallet; try done.
    intros m Hm. rewrite Hm in Hmax. lia.
Qed.

End settle.

(** A deposit is credited once.  If settling a deposit succeeds, settling
    it again, after it added a ledger or asset-ledger entry, also from a copy of
    the deposit that still says it is not credited (a second worker, a replayed
    webhook), changes neither a wallet, nor an asset wallet, nor either ledger,
    whatever the deposit's target and policy. *)
Theorem settle_credits_once `{HE : Env} dep s u1 s1 u2 s2 :
  Serial HE → settle dep s = (Ok u1, s1) → settle dep s1 = (Ok u2, s2) →
  (∃ tx, tx ∈ ledger (ses_db s1) ∧ tx ∉ ledger (ses_db s)) ∨
  (∃ tx, tx ∈ asset_ledger (ses_db s1) ∧ tx ∉ asset_ledger (ses_db s)) →
  money_same s1 s2.
Proof.
  intros HS H1%settle_inv H2%settle_inv Hcredited.
  destruct H2 as [Hm|a' n' am' w' s1' tx' s2' desc' Ht' Ha' Hn' Hw' Hc' Hm'
                   |cur' pol' aa' am' w' s1' tx' s2' desc' Ht' Hcur' _ _ _ Hw' Hc' Hm']; [done|..];
  destruct H1 as [Hm|a n am w s3 tx s4 desc Ht Ha Hn Hw Hc Hm
                   |cur pol aa am w s3 tx s4 desc Ht Hcur _ _ _ Hw Hc Hm];
  try congruence.
  1, 3: destruct Hm as (_ & Hl & _ & Hal); rewrite Hl, Hal in Hcredited; naive_solver.
  - pose proof (get_or_create_asset_wallet_ok _ _ _ _ _ _ _ _ _ Ha Hn Hw) as Hin.
    apply asset_credit_ok in Hc as [Hne Hkeys]. destruct (Hkeys _ _ _ _ _ Hin) as (x' & Hx' & Hten).
    destruct Hm as (_ & _ & Haw & Hal). unfold asset_wallet_by_key in Hx'. rewrite <- Haw in Hx'.
    destruct (get_or_create_asset_wallet_found _ _ _ _ _ _ _ _ _ _ Ha Hn Hx' Hw') as [-> ->].
    apply asset_credit_again in Hc' as ->; [done|]. rewrite Hten.
    unfold asset_entry_by_key in *. by rewrite Hal.
  - assert (cur' = cur) as -> by congruence.
    pose proof (get_or_create_wallet_ok _ _ _ _ _ _ Hw) as Hin.
    apply settle_flexible_deposit_ok in Hc as [Hne Hkeys].
    destruct (Hkeys _ _ _ _ Hin) as (x' & Hx' & Hid).
    destruct Hm as (Hwal & Hl & _ & _). unfold wallet_by_key in Hx'. rewrite <- Hwal in Hx'.
    destruct (get_or_create_wallet_found _ _ _ _ _ _ _ Hx' Hw') as [-> ->].
    apply settle_flexible_deposit_again in Hc' as ->; [done|]. rewrite Hid.
    unfold find_entry in *. by rewrite Hl.
Qed.

Section demo_deposit.
Let t := mk_uuid "t".
Let u := mk_uuid "u".

Definition deposit_demo : FlexibleDepositSession :=
  MkFlexibleDepositSession (mk_uuid "dep-1") t u (mk_uuid "pm") "gateway" "ext-1" "key-0001"
    DepSettledReview None (Some "USDT") (Some "TRON") (Some (cents 5050)) (Some (cents 50)) true
    TargetSettlementWallet "NET_AFTER_FEE" (Some "USD") None None None None None None None [] [].
End demo_deposit.

Lemma settle_credits_once_witness :
  let s1 := (@settle demo_env deposit_demo policy_demo).2 in
  let s2 := (@settle demo_env deposit_demo s1).2 in
  tx_amount <$> ledger (ses_db s1) = [cents 5000] ∧ ledger (ses_db s2) = ledger (ses_db s1).
Proof.
  split; [vm_compute; reflexivity|].
  refine (proj1 (proj2 (@settle_credits_once demo_env deposit_demo policy_demo tt _ tt _ _ _ _ _))).
  - vm_compute. reflexivity.
  - vm_compute. reflexivity.
  - left. eexists. split; [vm_compute; left|]. vm_compute. intros Hin. inversion Hin.
Defined.

Lemma convert_cents policy a r : convert policy a = Ok r → (cent | r).
Proof.
  unfold convert. case_match; [done|]. cbv zeta. case_match; [|done]. intros [= <-].
  destruct (round_half_up_multiple (cent * one) (mul a (fx_rate policy))) as [k ->].
  replace (k * (cent * one)) with (k * cent * one) by ring. rewrite Z.div_mul by done. by exists k.
Qed.

Lemma resolve_member t a n c o s p s' :
  resolve t a n c o s = (Ok p, s') →
  p ∈ fx_policies (ses_db s) ∧ fx_is_enabled p = true ∧ fx_tenant_id p = t.
Proof.
  unfold resolve. intros Hr. apply bind_inv_ok in Hr as (found & s1 & Hf & Hr).
  bind_some Hr policy Hp. subst found. bind_value Hr ac Hac. bind_guard Hr Hga.
  bind_value Hr nc Hnc. bind_guard Hr Hgn. bind_value Hr cc Hcc. bind_guard Hr Hgc.
  apply ret_inv in Hr as [[= ->] _]. destruct o as [i|].
  - apply query_inv in Hf as [[= Hf] _]. symmetry in Hf. apply head_Some_elem_of in Hf.
    rewrite elem_of_select, !andb_true_iff, !bool_decide_eq_true in Hf. tauto.
  - bind_value Hf a1 Ha1. bind_value Hf n1 Hn1. bind_value Hf c1 Hc1.
    apply query_inv in Hf as [[= Hf] _]. symmetry in Hf. apply head_Some_elem_of in Hf.
    unfold resolve_candidates in Hf.
    rewrite elem_of_sort_by, elem_of_select, !andb_true_iff, !bool_decide_eq_true in Hf. tauto.
Qed.

Section entries.
  Context `{HE : Env} `{!Serial HE}.

Lemma get_or_create_wallet_ledger t u c s w s' :
  get_or_create_wallet t u c s = (Ok w, s') → ledger (ses_db s') = ledger (ses_db s).
Proof.
  unfold get_or_create_wallet. intros Hr. bind_query Hr.
  apply bind_inv_ok in Hr as ([x|] & s1 & Hone & Hr).
  - apply one_or_none_some in Hone as [_ ->]. by apply ret_inv in Hr as [_ ->].
  - apply one_or_none_none in Hone as [_ ->]. bind_write Hr.
    apply catch_inv_ok in Hr as [Hr|(e & s2 & Hn & Hr)].
    + apply begin_nested_ok, insert_wallet_ok in Hr as (_ & _ & ->). cbn. by rewrite serial_race.
    + apply begin_nested_raise in Hn. cbn in Hn. rewrite serial_race in Hn.
      destruct e; try done. bind_query Hr. apply bind_inv_ok in Hr as (o & s3 & Hone & Hr).
      apply of_option_ok in Hr as [-> ->]. apply one_or_none_some in Hone as [_ ->]. by rewrite Hn.
Qed.

Lemma settle_flexible_deposit_entries w a i desc s tx0 s' tx :
  settle_flexible_deposit w a i desc s = (Ok tx0, s') → tx ∈ ledger (ses_db s') →
  tx ∈ ledger (ses_db s) ∨ numeric 14 2 a = Some (tx_amount tx).
Proof.
  unfold settle_flexible_deposit. intros Hr Htx. bind_guard Hr Hpos.
  apply bind_inv_ok in Hr as (wl & s1 & Hl & Hr). lock_inv. cbv zeta in Hr. bind_query Hr.
  destruct (find_entry _ _ _ _ (ses_db s)) as [tx1|].
  { apply return_existing_ok in Hr as (-> & _ & ->). by left. }
  bind_write Hr. apply catch_inv_ok in Hr as [Hr|(e & s2 & Hn & Hr)].
  - apply begin_nested_ok, flush_entry_ok in Hr as (a' & am' & b' & _ & Hm & _ & Heq & _ & ->).
    cbn in Htx. rewrite serial_race in Htx. apply elem_of_app in Htx as [Htx|Htx]; [by left|].
    apply list_elem_of_singleton in Htx as ->. right. by rewrite Heq.
  - apply begin_nested_raise in Hn. cbn in Hn. rewrite serial_race in Hn.
    destruct e; try done. bind_query Hr. destruct (find_entry _ _ _ _ (ses_db s2)); [|done].
    apply return_existing_ok in Hr as (_ & _ & ->). left. by rewrite <- Hn.
Qed.

End entries.



(** Accepted currencies that cannot be settled.  [normalize_currency]
    accepts identifiers of 3 to 12 characters and [FxPolicy.to_currency] stores
    12, but [wallets.currency] is a [String(3)]: for every longer currency the
    user has no wallet in, creating the settlement wallet raises [DataError], so
    a deposit under such a policy can never be credited. *)
Theorem long_currency_unsettleable `{HE : Env} t u c s :
  Serial HE → (3 < String.length c)%nat → wallet_by_key t u c (ses_db s) = [] →
  (get_or_create_wallet t u c s).1 = Raise DataError ∧ normalize_currency "usdt" = Ok "USDT".
Proof.
  intros HS Hlen Hnone. split; [|reflexivity].
  unfold get_or_create_wallet, query, gets, mbind, prog_bind. cbn. rewrite Hnone. cbn.
  unfold catch, begin_nested, insert_wallet, to_varchar, mbind, prog_bind.
  rewrite (proj2 (Nat.ltb_lt _ _) Hlen). done.
Qed.

Lemma long_currency_unsettleable_witness :
  (@settle demo_env (deposit_demo <| dep_settlement_currency := Some "USDT" |>)
     (policy_demo <| ses_db := empty_db <| fx_policies := [tron_policy <| fx_to_currency := "USDT" |>] |> |>)).1
    = Raise DataError ∧
  (@get_or_create_wallet demo_env (mk_uuid "t") (mk_uuid "u") "USDT" policy_demo).1 = Raise DataError.
Proof.
  split; [vm_compute; reflexivity|].
  apply (@long_currency_unsettleable demo_env (mk_uuid "t") (mk_uuid "u") "USDT" policy_demo);
    [exact _ | cbn; lia | reflexivity].
Defined.
