(* ===== verification/Profiles.v ===== *)
(** * Bot business profiles

    [packages/factory/business_profiles.py]: which providers, payment methods,
    routing strategy and pricing tier a bot may use, parsed from the bot's
    configuration.  A malformed stored configuration must fail closed. *)

From Stdlib Require Import ZArith Lia Ascii String.
From stdpp Require Import base tactics list option strings numbers pretty.
From S2P Require Import Prelude Tables Text Money Exceptions StateMachines Models.

Local Open Scope Z_scope.

(** ** uuid.UUID(text) *)

Definition is_hex (c : ascii) : bool :=
  is_digit c || (((65 <=? code c) && (code c <=? 70)) || ((97 <=? code c) && (code c <=? 102)))%nat.

(** [s.replace(pat, "")] for a non-empty [pat]. *)
Fixpoint remove_all (fuel : nat) (pat s : list ascii) : list ascii :=
  match fuel, s with
  | S fuel, c :: s' =>
      if take (length pat) s == pat then remove_all fuel pat (drop (length pat) s)
      else c :: remove_all fuel pat s'
  | _, _ => s
  end.
Definition removed (pat : string) (s : list ascii) : list ascii := remove_all (length s) (chars pat) s.

Definition is_brace (c : ascii) : bool := (c == "{"%char) || (c == "}"%char).

(** The canonical text of 32 hexadecimal digits. *)
Definition hyphenate (h : list ascii) : string :=
  of_chars (take 8 h ++ ["-"%char] ++ take 4 (drop 8 h) ++ ["-"%char] ++ take 4 (drop 12 h)
            ++ ["-"%char] ++ take 4 (drop 16 h) ++ ["-"%char] ++ drop 20 h).

(** [uuid.UUID(text)]; the underscores and signs that [int(text, 16)] would
    also take are not. *)
Definition parse_uuid (text : string) : option UUID :=
  let h := removed "uuid:" (removed "urn:" (chars text)) in
  let h := rev (drop_while is_brace (rev (drop_while is_brace h))) in
  let h := removed "-" h in
  if (length h =? 32)%nat && forallb is_hex h
  then Some (mk_uuid (hyphenate (map to_lower h))) else None.

(** ** The profile *)

Inductive BotBusinessType :=
  | BizGeneral | BizReseller | BizNumberSms | BizAccount | BizGiftCard | BizDigitalProduct | BizHybrid.

Global Instance BotBusinessType_eq_dec : EqDecision BotBusinessType.
Proof. solve_decision. Defined.

Record BotBusinessProfile := MkBotBusinessProfile {
  business_type : BotBusinessType;
  provider_ids : list UUID;
  payment_method_ids : list UUID;
  routing_strategy : option ProviderRoutingStrategy;
  preferred_provider_id : option UUID;
  default_pricing_tier_id : option UUID;
  allow_flexible_auto_credit : bool;
}.

(** [_BUSINESS_PROVIDER_CATEGORIES] *)
Definition allowed_provider_categories (t : BotBusinessType) : list ProviderCategory :=
  match t with
  | BizGeneral | BizReseller | BizHybrid =>
      [CatNumber; CatAccount; CatGift; CatDigitalProduct; CatService; CatOther]
  | BizNumberSms => [CatNumber]
  | BizAccount => [CatAccount]
  | BizGiftCard => [CatGift; CatDigitalProduct]
  | BizDigitalProduct => [CatDigitalProduct; CatGift; CatService]
  end.

(** [BotBusinessProfile()] *)
Definition default_profile : BotBusinessProfile :=
  MkBotBusinessProfile BizGeneral [] [] None None None true.

Definition business_type_value (t : BotBusinessType) : string :=
  match t with
  | BizGeneral => "GENERAL" | BizReseller => "RESELLER" | BizNumberSms => "NUMBER_SMS"
  | BizAccount => "ACCOUNT" | BizGiftCard => "GIFT_CARD" | BizDigitalProduct => "DIGITAL_PRODUCT"
  | BizHybrid => "HYBRID"
  end.

(** [BotBusinessType(text)] *)
Definition parse_business_type (text : string) : option BotBusinessType :=
  find (λ t, business_type_value t == text)
    [BizGeneral; BizReseller; BizNumberSms; BizAccount; BizGiftCard; BizDigitalProduct; BizHybrid].

Definition routing_strategy_value (r : ProviderRoutingStrategy) : string :=
  match r with
  | RoutePriority => "PRIORITY" | RouteLowestCost => "LOWEST_COST"
  | RouteAvailability => "AVAILABILITY" | RouteHealthiest => "HEALTHIEST"
  | RouteWeighted => "WEIGHTED" | RouteManual => "MANUAL"
  end.

(** [ProviderRoutingStrategy(text)] *)
Definition parse_routing_strategy (text : string) : option ProviderRoutingStrategy :=
  find (λ r, routing_strategy_value r == text)
    [RoutePriority; RouteLowestCost; RouteAvailability; RouteHealthiest; RouteWeighted; RouteManual].

(** [str(value)] of a JSON value, where it can denote a UUID or a member. *)
Definition json_str (v : json) : string :=
  match v with
  | JNull => "None"
  | JBool true => "True"
  | JBool false => "False"
  | JInt n => pretty n
  | JStr s => s
  | JList _ => "[]"
  | JObj _ => "{}"
  end.

Definition public_payload (p : BotBusinessProfile) : dict :=
  let uuid_or_null o := match o with Some u => JStr (uuid_str u) | None => JNull end in
  [ ("business_type", JStr (business_type_value (business_type p)));
    ("provider_ids", JList (map (JStr ∘ uuid_str) (provider_ids p)));
    ("payment_method_ids", JList (map (JStr ∘ uuid_str) (payment_method_ids p)));
    ("routing_strategy", match routing_strategy p with
                         | Some r => JStr (routing_strategy_value r)
                         | None => JNull
                         end);
    ("preferred_provider_id", uuid_or_null (preferred_provider_id p));
    ("default_pricing_tier_id", uuid_or_null (default_pricing_tier_id p));
    ("allow_flexible_auto_credit", JBool (allow_flexible_auto_credit p)) ].

(** ** Parsing; [None] is the [ValueError] every check raises *)

Definition field (k : string) (d : dict) : json := default JNull (dict_get k d).

Definition is_blank (v : json) : bool :=
  match v with JNull => true | JStr s => s == "" | _ => false end.

Fixpoint uuid_list_loop (l : list json) (result : list UUID) : option (list UUID) :=
  match l with
  | [] => Some result
  | raw :: l =>
      parsed ← parse_uuid (json_str raw);
      uuid_list_loop l (if existsb (λ u, u == parsed) result then result else result ++ [parsed])
  end.

Definition uuid_list (value : json) : option (list UUID) :=
  if is_blank value then Some []
  else match value with
       | JList l =>
           result ← uuid_list_loop l [];
           if (100 <? length result)%nat then None else Some result
       | _ => None
       end.

Definition optional_uuid (value : json) : option (option UUID) :=
  if is_blank value then Some None else Some <$> parse_uuid (json_str value).

Definition allowed_fields : list string :=
  ["business_type"; "provider_ids"; "payment_method_ids"; "routing_strategy";
   "preferred_provider_id"; "default_pricing_tier_id"; "allow_flexible_auto_credit"].

Definition parse_business_profile (value : option json) : option BotBusinessProfile :=
  match value with
  | None | Some JNull => Some default_profile
  | Some (JObj d) =>
      if existsb (λ kv, negb (existsb (λ k, k == fst kv) allowed_fields)) d then None
      else
        let bt := field "business_type" d in
        biz ← parse_business_type (upper (strip (if json_truthy bt then json_str bt else "GENERAL")));
        let raw_routing := field "routing_strategy" d in
        routing ← (if is_blank raw_routing then Some None
                   else Some <$> parse_routing_strategy (upper (strip (json_str raw_routing))));
        match default (JBool false) (dict_get "allow_flexible_auto_credit" d) with
        | JBool allow =>
            provs ← uuid_list (field "provider_ids" d);
            methods ← uuid_list (field "payment_method_ids" d);
            preferred ← optional_uuid (field "preferred_provider_id" d);
            tier ← optional_uuid (field "default_pricing_tier_id" d);
            let profile := MkBotBusinessProfile biz provs methods routing preferred tier allow in
            if match preferred with
               | Some p => negb (existsb (λ u, u == p) provs)
               | None => false
               end then None
            else if (routing == Some RouteManual) && negb (is_some preferred) then None
            else Some profile
        | _ => None
        end
  | Some _ => None
  end.

(** [uuid.UUID(int=0)] *)
Definition nil_uuid : UUID := mk_uuid "00000000-0000-0000-0000-000000000000".

(** The sentinel a malformed stored configuration resolves to. *)
Definition denied_profile : BotBusinessProfile :=
  MkBotBusinessProfile BizGeneral [nil_uuid] [nil_uuid] None None None false.

Definition business_profile_from_config (config : dict) : BotBusinessProfile :=
  match parse_business_profile (dict_get "_business" config) with
  | Some profile => profile
  | None => denied_profile
  end.

(** *** The profile against the tenant's rows *)

Definition same_set (a b : list UUID) : bool :=
  forallb (λ u, existsb (λ v, v == u) b) a && forallb (λ u, existsb (λ v, v == u) a) b.

Definition validate_business_profile_for_tenant (tenant_id : UUID) (profile : BotBusinessProfile) : M BotBusinessProfile :=
  (if negb (length (provider_ids profile) =? 0)%nat then
     rows ← query (λ d, select (λ p, (prov_tenant_id p == tenant_id)
                                     && existsb (λ u, u == prov_id p) (provider_ids profile)) (providers d));
     raise_if (negb (same_set (map prov_id rows) (provider_ids profile))) ValueError;;
     let allowed := allowed_provider_categories (business_type profile) in
     raise_if (existsb (λ p, negb (existsb (λ c, c == prov_category p) allowed)) rows) ValueError
   else mret tt);;
  (if negb (length (payment_method_ids profile) =? 0)%nat then
     rows ← query (λ d, select (λ m, (pmc_tenant_id m == tenant_id)
                                     && existsb (λ u, u == pmc_id m) (payment_method_ids profile)) (payment_methods d));
     raise_if (negb (same_set (map pmc_id rows) (payment_method_ids profile))) ValueError
   else mret tt);;
  match default_pricing_tier_id profile with
  | Some t =>
      tier ← scalar (λ d, select (λ r, (tier_id r == t) && (tier_tenant_id r == tenant_id) && tier_is_active r)
                            (tiers d));
      raise_if (negb (is_some tier)) ValueError;;
      mret profile
  | None => mret profile
  end.

(** ** Theorems *)

(** What a parsed profile satisfies. *)
Record profile_ok (p : BotBusinessProfile) : Prop := {
  po_providers : NoDup (provider_ids p) ∧ (length (provider_ids p) ≤ 100)%nat;
  po_methods : NoDup (payment_method_ids p) ∧ (length (payment_method_ids p) ≤ 100)%nat;
  po_preferred : ∀ u, preferred_provider_id p = Some u → u ∈ provider_ids p;
  po_manual : routing_strategy p = Some RouteManual → preferred_provider_id p ≠ None;
}.

Lemma existsb_elem (u : UUID) l : existsb (λ v, v == u) l = true ↔ u ∈ l.
Proof.
  rewrite existsb_exists. setoid_rewrite bool_decide_eq_true.
  rewrite list_elem_of_In. split; [by intros (x & Hx & ->) | eauto].
Qed.

Lemma uuid_list_loop_nodup l acc r :
  NoDup acc → uuid_list_loop l acc = Some r → NoDup r.
Proof.
  revert acc. induction l as [|x l IH]; intros acc Hnd; cbn; [by intros [= <-]|].
  destruct (parse_uuid (json_str x)) as [u|]; cbn; [|done]. apply IH.
  destruct (existsb _ acc) eqn:He; [done|]. apply list.NoDup_app. split_and!; [done| |apply NoDup_singleton].
  intros y Hy Hu. apply list_elem_of_singleton in Hu as ->. apply existsb_elem in Hy. congruence.
Qed.

Lemma uuid_list_ok v r : uuid_list v = Some r → NoDup r ∧ (length r ≤ 100)%nat.
Proof.
  unfold uuid_list. destruct (is_blank v); [intros [= <-]; split; [constructor | cbn; lia]|].
  destruct v; try done. destruct (uuid_list_loop l []) as [r'|] eqn:Hl; cbn -[Nat.ltb]; [|done].
  destruct (Nat.ltb_spec 100 (length r')); [done|]. intros [= <-].
  split; [|lia]. eapply uuid_list_loop_nodup; [|exact Hl]. constructor.
Qed.

Lemma parse_business_profile_ok v p : parse_business_profile v = Some p → profile_ok p.
Proof.
  unfold parse_business_profile. destruct v as [[| | | | |d]|]; try done.
  1, 3: intros [= <-]; split; cbn; try done; (split; [constructor | lia]).
  case_match; [done|]. intros Hp.
  apply bind_Some in Hp as (biz & _ & Hp). apply bind_Some in Hp as (routing & _ & Hp).
  case_match; try done.
  apply bind_Some in Hp as (provs & Hprovs & Hp). apply bind_Some in Hp as (methods & Hmethods & Hp).
  apply bind_Some in Hp as (preferred & _ & Hp). apply bind_Some in Hp as (tier & _ & Hp).
  destruct (match preferred with Some p => negb (existsb (λ u, u == p) provs) | None => false end)
    eqn:Hpref; [done|].
  destruct ((routing == Some RouteManual) && negb (is_some preferred)) eqn:Hman; [done|].
  injection Hp as <-. split; cbn.
  - by eapply uuid_list_ok.
  - by eapply uuid_list_ok.
  - intros u ->. apply negb_false_iff, existsb_elem in Hpref. done.
  - intros ->. rewrite bool_decide_eq_true_2 in Hman by done. by destruct preferred.
Qed.

(** A bot's restrictions are well-formed or deny everything.  Whatever a
    bot's stored configuration is, the profile used for it has at most 100
    distinct providers and payment methods each, a preferred provider among
    them, and a preferred provider whenever routing is MANUAL; and when the
    stored value does not parse, the profile is the sentinel that matches no
    provider and no payment method and never allows automatic credit. *)
Theorem stored_profile_fails_closed config :
  profile_ok (business_profile_from_config config) ∧
  (parse_business_profile (dict_get "_business" config) = None →
   let p := business_profile_from_config config in
   provider_ids p = [nil_uuid] ∧ payment_method_ids p = [nil_uuid] ∧
   allow_flexible_auto_credit p = false ∧ default_pricing_tier_id p = None).
Proof.
  unfold business_profile_from_config.
  destruct (parse_business_profile _) as [p|] eqn:Hp.
  - split; [by eapply parse_business_profile_ok | done].
  - split; [|done]. split; cbn; try done; (split; [apply NoDup_singleton | lia]).
Qed.

(** A UUID that is what its text parses to, as every stored one is. *)
Definition canonical (u : UUID) : Prop := parse_uuid (uuid_str u) = Some u.

Lemma uuid_list_loop_roundtrip l acc :
  Forall canonical l → NoDup (acc ++ l) →
  uuid_list_loop (map (JStr ∘ uuid_str) l) acc = Some (acc ++ l).
Proof.
  revert acc. induction l as [|u l IH]; intros acc Hc Hnd; cbn; [by rewrite app_nil_r|].
  inversion_clear Hc as [|? ? Hu Hl]. rewrite Hu. cbn.
  assert (existsb (λ v, v == u) acc = false) as ->.
  { apply not_true_iff_false. rewrite existsb_elem. intros Hin.
    apply list.NoDup_app in Hnd as (_ & Hd & _). apply (Hd u Hin). left. }
  rewrite IH, <- app_assoc; [done|done|]. by rewrite <- app_assoc.
Qed.

Lemma uuid_list_roundtrip l :
  Forall canonical l → NoDup l → (length l ≤ 100)%nat →
  uuid_list (JList (map (JStr ∘ uuid_str) l)) = Some l.
Proof.
  intros Hc Hnd Hlen. unfold uuid_list. cbn [is_blank].
  rewrite (uuid_list_loop_roundtrip l []) by done. cbn -[Nat.ltb].
  by rewrite (proj2 (Nat.ltb_ge _ _)).
Qed.

Lemma canonical_nonblank u : canonical u → is_blank (JStr (uuid_str u)) = false.
Proof.
  intros Hc. cbn. apply bool_decide_eq_false. intros He. unfold canonical in Hc. by rewrite He in Hc.
Qed.

Lemma optional_uuid_roundtrip o :
  (∀ u, o = Some u → canonical u) →
  optional_uuid (match o with Some u => JStr (uuid_str u) | None => JNull end) = Some o.
Proof.
  intros Hc. destruct o as [u|]; [|done]. specialize (Hc u eq_refl).
  unfold optional_uuid. rewrite canonical_nonblank by done. cbn. by rewrite Hc.
Qed.

Lemma business_type_roundtrip b :
  let v := JStr (business_type_value b) in
  parse_business_type (upper (strip (if json_truthy v then json_str v else "GENERAL"))) = Some b.
Proof. by destruct b. Qed.

Lemma routing_roundtrip r :
  let v := match r with Some r => JStr (routing_strategy_value r) | None => JNull end in
  (if is_blank v then Some None else Some <$> parse_routing_strategy (upper (strip (json_str v))))
  = Some r.
Proof. by destruct r as [[]|]. Qed.

(** Profiles round-trip.  Parsing the public payload of a well-formed
    profile gives that profile back. *)
Theorem profile_roundtrip p :
  profile_ok p → Forall canonical (provider_ids p) → Forall canonical (payment_method_ids p) →
  (∀ u, default_pricing_tier_id p = Some u → canonical u) →
  parse_business_profile (Some (JObj (public_payload p))) = Some p.
Proof.
  intros [[Hp1 Hp2] [Hm1 Hm2] Hpref Hman] Hcp Hcm Htier.
  assert (∀ u, preferred_provider_id p = Some u → canonical u) as Hcpref.
  { intros u Hu%Hpref. rewrite Forall_forall in Hcp. by apply Hcp. }
  destruct p as [biz provs methods routing preferred tier allow].
  cbn -[public_payload parse_business_profile] in *.
  set (d := public_payload _). cbn [parse_business_profile].
  change (existsb _ d) with false. cbv iota.
  change (field "business_type" d) with (JStr (business_type_value biz)).
  change (field "routing_strategy" d) with
    (match routing with Some r => JStr (routing_strategy_value r) | None => JNull end).
  change (dict_get "allow_flexible_auto_credit" d) with (Some (JBool allow)).
  change (field "provider_ids" d) with (JList (map (JStr ∘ uuid_str) provs)).
  change (field "payment_method_ids" d) with (JList (map (JStr ∘ uuid_str) methods)).
  change (field "preferred_provider_id" d) with
    (match preferred with Some u => JStr (uuid_str u) | None => JNull end).
  change (field "default_pricing_tier_id" d) with
    (match tier with Some u => JStr (uuid_str u) | None => JNull end).
  rewrite !uuid_list_roundtrip, !optional_uuid_roundtrip by done. cbn [mbind option_bind default].
  assert (match preferred with Some p => negb (existsb (λ u, u == p) provs) | None => false end = false)
    as Hin by (destruct preferred as [u|]; [apply negb_false_iff, existsb_elem; auto | done]).
  assert ((routing == Some RouteManual) && negb (is_some preferred) = false) as Hmanual.
  { case_bool_decide; [|done]. destruct preferred; [done|]. by destruct (Hman H). }
  rewrite business_type_roundtrip. cbn [mbind option_bind]. rewrite routing_roundtrip.
  cbn -[existsb]. by rewrite Hin, Hmanual.
Qed.

Definition profile_demo : BotBusinessProfile :=
  let u := mk_uuid "6f9619ff-8b86-d011-b42d-00c04fc964ff" in
  MkBotBusinessProfile BizGiftCard [u] [] (Some RouteManual) (Some u) None true.

Lemma profile_roundtrip_witness :
  parse_business_profile (Some (JObj (public_payload profile_demo))) = Some profile_demo.
Proof.
  apply profile_roundtrip.
  - split; cbn; [split; [apply NoDup_singleton | lia] | split; [constructor | lia] | |done].
    intros u [= <-]. left.
  - constructor; [vm_compute; reflexivity | constructor].
  - constructor.
  - discriminate.
Defined.

Lemma stored_profile_fails_closed_witness :
  provider_ids (business_profile_from_config [("_business", JStr "oops")]) = [nil_uuid].
Proof.
  apply (proj2 (stored_profile_fails_closed [("_business", JStr "oops")]) eq_refl).
Defined.
