(* ===== verification/Pricing.v ===== *)
(** * Pricing

    [packages/commerce/economics.py]: the tenant-scoped pricing engine (tier,
    rule and supplier-offer resolution, markup, quotes) and the attribution of
    the actual supplier cost.

    Markups are computed on the granularity of their columns (6 fractional
    digits), where a product of two of them is a whole number of 10^-18 units.
    The quotient of [_round_up] is taken exactly. *)

From Stdlib Require Import ZArith Lia Sorting.Sorted.
From stdpp Require Import base tactics list option strings numbers pretty.
From S2P Require Import Prelude Tables Text Money Exceptions StateMachines Models Profiles.

Local Open Scope Z_scope.

Record PriceDecision := MkPriceDecision {
  dec_sell_price : dec;
  dec_currency : string;
  dec_supplier_cost : option dec;
  dec_supplier_currency : option string;
  dec_offer_snapshot_id : option UUID;
  dec_pricing_rule_id : option UUID;
  dec_pricing_tier_id : option UUID;
  dec_source : string;
}.

(** [PricingService.__init__] *)
Definition clamp_ttl (quote_ttl_seconds : Z) : Z := Z.max 15 (Z.min quote_ttl_seconds 900).

(** ** Tiers *)

Definition active_tier (tenant_id : UUID) (t : PricingTier) : bool :=
  (tier_tenant_id t == tenant_id) && tier_is_active t.

Definition assigned_tiers (tenant_id user_id : UUID) (d : DB) : list PricingTier :=
  select (λ t, active_tier tenant_id t
               && existsb (λ u, (utier_tier_id u == tier_id t) && (utier_tenant_id u == tenant_id)
                                && (utier_user_id u == user_id)) (user_tiers d)) (tiers d).

Definition default_tiers (tenant_id : UUID) (d : DB) : list PricingTier :=
  sort_by (then_by tier_priority (λ a b, uuid_leb (tier_id a) (tier_id b)))
    (select (λ t, active_tier tenant_id t && tier_is_default t) (tiers d)).

(** The tier of the bot's business profile. *)
Definition bot_tier (tenant_id bot : UUID) (d : DB) : option PricingTier :=
  match get_row bot (bots d) with
  | Some b =>
      if (bot_tenant_id b == tenant_id) && negb (is_some (bot_deleted_at b)) then
        match default_pricing_tier_id (business_profile_from_config (bot_config b)) with
        | Some i => first (λ t, (tier_id t == i) && active_tier tenant_id t) (tiers d)
        | None => None
        end
      else None
  | None => None
  end.

Definition resolve_tier (tenant_id user_id : UUID) (bot_id : option UUID) : M (option PricingTier) :=
  assigned ← scalar (assigned_tiers tenant_id user_id);
  match assigned with
  | Some t => mret (Some t)
  | None =>
      of_bot ← match bot_id with
               | Some b => query (bot_tier tenant_id b)
               | None => mret None
               end;
      match of_bot with
      | Some t => mret (Some t)
      | None => scalar (default_tiers tenant_id)
      end
  end.

(** ** Supplier offers *)

Definition fresh_offer (tenant_id : UUID) (variant : ProductVariant) (now : Z)
    (o : ProviderOfferSnapshot) : bool :=
  (offer_tenant_id o == tenant_id) && (offer_product_id o == var_product_id variant)
  && ((offer_product_variant_id o == Some (var_id variant)) || (offer_product_variant_id o == None))
  && offer_is_available o && (now <? offer_expires_at o)
  && (offer_cost_currency o == var_currency variant).

Definition offer_leb : ProviderOfferSnapshot → ProviderOfferSnapshot → bool :=
  then_by offer_cost_amount (λ a b, uuid_leb (offer_provider_id a) (offer_provider_id b)).

Definition best_fresh_offer `{Env} (tenant_id : UUID) (variant : ProductVariant)
    : M (option ProviderOfferSnapshot) :=
  t ← now;
  scalar (λ d, sort_by offer_leb (select (fresh_offer tenant_id variant t) (offers d))).

(** ** Rules *)

Definition specificity (r : PricingRule) : Z :=
  match rule_scope r with
  | ScopeVariant => 0
  | ScopeProduct => 1
  | ScopeCategory => 2
  | ScopeGlobal => 3
  end.

Definition rule_matches (tenant_id : UUID) (variant : ProductVariant) (product : Product)
    (tier_id : option UUID) (r : PricingRule) : bool :=
  (rule_tenant_id r == tenant_id) && rule_is_active r
  && ((rule_tier_id r == tier_id) || (rule_tier_id r == None))
  && match rule_scope r with
     | ScopeVariant => rule_product_variant_id r == Some (var_id variant)
     | ScopeProduct => rule_product_id r == Some (prod_id product)
     | ScopeCategory => rule_category_id r == prod_category_id product
     | ScopeGlobal => true
     end.

(** Specificity, tier-specific before generic, priority, id. *)
Definition generic (r : PricingRule) : Z := if rule_tier_id r == None then 1 else 0.

Definition rule_leb : PricingRule → PricingRule → bool :=
  then_by specificity (then_by generic (then_by rule_priority
    (λ a b, uuid_leb (rule_id a) (rule_id b)))).

Definition resolve_rule (tenant_id : UUID) (variant : ProductVariant) (product : Product)
    (tier : option PricingTier) : M (option PricingRule) :=
  scalar (λ d, sort_by rule_leb
                 (select (rule_matches tenant_id variant product (tier_id <$> tier)) (pricing_rules d))).

(** ** Markup *)

Definition round_up (value increment : dec) : outcome exn dec :=
  if increment <=? 0 then Raise ValueError else Ok (round_ceiling increment value).

(** The price before rounding. *)
Definition marked_up (cost : dec) (rule : PricingRule) : dec :=
  let percent_component := context_round (cost * rule_markup_percent rule / (100 * one)) in
  let price :=
    match rule_markup_mode rule with
    | MarkupPercent => context_round (cost + percent_component)
    | MarkupFixed => context_round (cost + rule_markup_fixed rule)
    | MarkupMixed =>
        context_round (context_round (cost + percent_component) + rule_markup_fixed rule)
    end in
  Z.max price (context_round (cost + rule_minimum_margin rule)).

Definition apply_rule (cost : dec) (rule : PricingRule) : outcome exn dec :=
  if cost <? 0 then Raise ValueError
  else round_up (marked_up cost rule) (rule_rounding_increment rule).

Section pricing.
  Context `{Env}.

Definition decide_price (tenant_id user_id : UUID) (variant : ProductVariant) (bot_id : option UUID)
    : M PriceDecision :=
  found ← query (λ d, get_row (var_product_id variant) (products d));
  product ← of_option NoResultFound found;
  tier ← resolve_tier tenant_id user_id bot_id;
  rule ← resolve_rule tenant_id variant product tier;
  offer ← best_fresh_offer tenant_id variant;
  match rule, offer with
  | Some rule, Some offer =>
      price ← of_outcome (apply_rule (offer_cost_amount offer) rule);
      mret (MkPriceDecision price (var_currency variant) (Some (offer_cost_amount offer))
              (Some (offer_cost_currency offer)) (Some (offer_id offer)) (Some (rule_id rule))
              (tier_id <$> tier) "SUPPLIER_MARKUP")
  | _, _ =>
      mret (MkPriceDecision (var_price variant) (var_currency variant)
              (offer_cost_amount <$> offer) (offer_cost_currency <$> offer) (offer_id <$> offer)
              None (tier_id <$> tier) "CATALOG_FALLBACK")
  end.

(** [str(x or "")] *)
Definition uuid_or_empty (o : option UUID) : json :=
  JStr (match o with Some u => uuid_str u | None => "" end).

Definition quote_payload (tenant_id user_id : UUID) (variant : ProductVariant) (bot_id : option UUID)
    (decision : PriceDecision) (expires_bucket : Z) : json :=
  JObj [ ("bot_id", uuid_or_empty bot_id);
         ("cost", JStr (match dec_supplier_cost decision with
                        | Some c => if c =? 0 then "" else env_decimal_str c
                        | None => ""
                        end));
         ("cost_currency", JStr (default "" (dec_supplier_currency decision)));
         ("currency", JStr (dec_currency decision));
         ("expires_bucket", JInt expires_bucket);
         ("offer", uuid_or_empty (dec_offer_snapshot_id decision));
         ("price", JStr (env_decimal_str (dec_sell_price decision)));
         ("rule", uuid_or_empty (dec_pricing_rule_id decision));
         ("tenant_id", JStr (uuid_str tenant_id));
         ("tier", uuid_or_empty (dec_pricing_tier_id decision));
         ("user_id", JStr (uuid_str user_id));
         ("variant_id", JStr (uuid_str (var_id variant))) ].

Definition quotes_by_fingerprint (tenant_id : UUID) (fingerprint : string) (d : DB)
    : list CommercePriceQuote :=
  select (λ q, (quote_tenant_id q == tenant_id) && (quote_quote_fingerprint q == fingerprint))
    (quotes d).

(** [INSERT INTO commerce_price_quotes], with its unique fingerprint. *)
Definition insert_quote (tenant_id user_id : UUID) (variant : ProductVariant)
    (decision : PriceDecision) (fingerprint : string) (expires_at : Z) : M CommercePriceQuote :=
  i ← uuid4;
  cost ← match dec_supplier_cost decision with
         | Some c => x ← to_numeric 18 6 c; mret (Some x)
         | None => mret None
         end;
  price ← to_numeric 18 6 (dec_sell_price decision);
  clash ← query (λ d, (0 <? length (quotes_by_fingerprint tenant_id fingerprint d))%nat);
  raise_if clash IntegrityError;;
  let quote := MkCommercePriceQuote i tenant_id user_id (var_id variant)
                 (dec_offer_snapshot_id decision) (dec_pricing_rule_id decision)
                 (dec_pricing_tier_id decision) cost (dec_supplier_currency decision) price
                 (dec_currency decision) fingerprint expires_at in
  write (λ d, d <| quotes ::= (λ t, t ++ [quote]) |>);;
  mret quote.

Definition quote (quote_ttl_seconds : Z) (tenant_id user_id : UUID) (variant : ProductVariant)
    (bot_id : option UUID) : M (CommercePriceQuote * PriceDecision) :=
  decision ← decide_price tenant_id user_id variant bot_id;
  t ← now;
  let ttl := clamp_ttl quote_ttl_seconds in
  let expires_at := t + seconds ttl in
  let expires_bucket := (expires_at / seconds 1) / ttl in
  let fingerprint :=
    env_sha256 (dumps (quote_payload tenant_id user_id variant bot_id decision expires_bucket)) in
  existing ← scalar (quotes_by_fingerprint tenant_id fingerprint);
  match existing with
  | Some q => mret (q, decision)
  | None =>
      await_others;;
      q ← except_integrity
            (begin_nested (insert_quote tenant_id user_id variant decision fingerprint expires_at))
            (again ← scalar (quotes_by_fingerprint tenant_id fingerprint);
             of_option IntegrityError again);
      mret (q, decision)
  end.

Definition attribute_actual_cost (order_item_id : UUID) (provider_id : option UUID)
    (actual_cost : dec) (actual_currency : string) : M (option OrderItemEconomics) :=
  found ← scalar (λ d, select (λ e, econ_order_item_id e == order_item_id) (item_economics d));
  match found with
  | None => mret None
  | Some econ =>
      attributed_at ← now;
      actual ← to_numeric 18 6 actual_cost;
      profit ← (if actual_currency == econ_sale_currency econ
                then x ← to_numeric 18 6 (econ_sale_amount econ - actual_cost); mret (Some x)
                else mret None);
      currency ← to_varchar 12 actual_currency;
      let update e := e <| econ_provider_id := provider_id |>
                        <| econ_actual_supplier_cost := Some actual |>
                        <| econ_actual_cost_currency := Some currency |>
                        <| econ_gross_profit := profit |>
                        <| econ_attributed_at := Some attributed_at |> in
      write (λ d, d <| item_economics ::= update_row (econ_id econ) update |>);;
      mret (Some (update econ))
  end.

(** The sellable variants among [variant_ids], also
    [CheckoutService._load_authoritative_variants]. *)
Definition load_variants (tenant_id : UUID) (variant_ids : list UUID) (d : DB) : list ProductVariant :=
  select (λ v, existsb (λ i, i == var_id v) variant_ids && var_is_active v
               && negb (is_some (var_deleted_at v))
               && match get_row (var_product_id v) (products d) with
                  | Some p => (prod_tenant_id p == tenant_id) && prod_is_active p
                              && negb (is_some (prod_deleted_at p))
                  | None => false
                  end) (variants d).

End pricing.

(** ** Theorems *)

Lemma offer_ordering : ordering offer_leb.
Proof. apply then_by_ordering, uuid_ordering. Qed.

Lemma rule_ordering : ordering rule_leb.
Proof. do 3 apply then_by_ordering. apply uuid_ordering. Qed.

(** [C36] Prices never undercut the margin.  For a non-negative supplier cost and
    a positive rounding increment, [apply_rule] succeeds; the price is a
    multiple of the increment, at least the cost plus the minimum margin and at
    least the marked-up cost, and less than one increment above the larger of
    the two.  (Costs and markups within the 28 digits of the context.) *)
Theorem apply_rule_bounds cost rule :
  0 ≤ cost → 0 < rule_rounding_increment rule →
  ∃ price, apply_rule cost rule = Ok price ∧
    (rule_rounding_increment rule | price) ∧
    marked_up cost rule ≤ price < marked_up cost rule + rule_rounding_increment rule ∧
    (Z.abs (cost + rule_minimum_margin rule) < 10 ^ 28 → cost + rule_minimum_margin rule ≤ price).
Proof.
  intros Hc Hi. unfold apply_rule, round_up.
  rewrite (proj2 (Z.ltb_ge _ _) Hc), (proj2 (Z.leb_gt _ _) Hi).
  eexists. split; [reflexivity|]. split; [apply round_ceiling_multiple|].
  pose proof (round_ceiling_bounds _ (marked_up cost rule) Hi) as Hb. split; [done|].
  intros Hm. etransitivity; [|apply Hb]. unfold marked_up.
  rewrite (context_round_exact (cost + rule_minimum_margin rule)) by done. apply Z.le_max_r.
Qed.

Definition demo_rule : PricingRule :=
  MkPricingRule (mk_uuid "rule-1") (mk_uuid "t") ScopeGlobal None None None None MarkupMixed
    (10 * one) (cents 25) (cents 50) (cents 5) 100 true.

Lemma apply_rule_bounds_witness :
  apply_rule (cents 1003) demo_rule = Ok (cents 1130) ∧ ∃ p, apply_rule (cents 1003) demo_rule = Ok p
    ∧ cents 1003 + cents 50 ≤ p.
Proof.
  split; [vm_compute; reflexivity|].
  destruct (apply_rule_bounds (cents 1003) demo_rule ltac:(done) ltac:(done)) as (p & Hp & _ & _ & Hm).
  exists p. split; [exact Hp|]. apply Hm. vm_compute. reflexivity.
Defined.

Section decisions.
  Context `{Env}.

Lemma resolve_tier_reads t u b s : (resolve_tier t u b s).2 = s.
Proof.
  unfold resolve_tier, scalar, mbind, prog_bind, query, gets. cbn.
  destruct (head (assigned_tiers t u (ses_db s))); cbn; [done|]. destruct b; cbn; [|done].
  by destruct (bot_tier t _ (ses_db s)).
Qed.

Lemma fresh_offer_currency tenant variant t o l :
  o ∈ select (fresh_offer tenant variant t) l → offer_cost_currency o = var_currency variant.
Proof.
  intros [_ Ho]%elem_of_select. unfold fresh_offer in Ho.
  rewrite !andb_true_iff, !bool_decide_eq_true in Ho. tauto.
Qed.

End decisions.


Section demo_pricing.
Let t := mk_uuid "t".
Let o1 := MkProviderOfferSnapshot (mk_uuid "offer-1") t (mk_uuid "p1") (mk_uuid "m1")
              (mk_uuid "prod") None (cents 1003) "USD" true None 1 100 50.
Let o2 := MkProviderOfferSnapshot (mk_uuid "offer-2") t (mk_uuid "p2") (mk_uuid "m2")
              (mk_uuid "prod") None (cents 900) "EUR" true None 1 100 50.

Definition demo_product : Product :=
  MkProduct (mk_uuid "prod") t None "Gift card" true None [("warranty_days", JInt 30)].
Definition demo_variant : ProductVariant :=
  MkProductVariant (mk_uuid "var") (mk_uuid "prod") "SKU" "10" (cents 1500) "USD" 5 true None.
Definition pricing_db : DB :=
  empty_db <| products := [demo_product] |> <| variants := [demo_variant] |>
           <| offers := [o1; o2] |> <| pricing_rules := [demo_rule] |>
           <| tenants := [MkTenant t "Shop" true [] None] |>.
Definition pricing_demo : Session := MkSession pricing_db pricing_db 0 [].
Definition demo_decision : PriceDecision :=
  MkPriceDecision (cents 1130) "USD" (Some (cents 1003)) (Some "USD") (Some (mk_uuid "offer-1"))
    (Some (mk_uuid "rule-1")) None "SUPPLIER_MARKUP".
End demo_pricing.


(** Asking again within the same expiry bucket returns the stored quote:
    once a quote is stored under the fingerprint of a decision, [quote] with
    that decision returns a quote with that fingerprint and writes nothing. *)
Theorem quote_reuses_fingerprint `{Env} ttl tenant user variant bot s decision q :
  decide_price tenant user variant bot s = (Ok decision, s) →
  q ∈ quotes (ses_db s) → quote_tenant_id q = tenant →
  (let e := env_clock (ses_draws s) + seconds (clamp_ttl ttl) in
   quote_quote_fingerprint q =
     env_sha256 (dumps (quote_payload tenant user variant bot decision
                          ((e / seconds 1) / clamp_ttl ttl)))) →
  ∃ q', quote ttl tenant user variant bot s = (Ok (q', decision), s) ∧
    q' ∈ quotes (ses_db s) ∧ quote_tenant_id q' = tenant ∧
    quote_quote_fingerprint q' = quote_quote_fingerprint q.
Proof.
  intros Hd Hq Ht Hf. unfold quote, scalar. erewrite bind_ok by exact Hd. cbv zeta in Hf.
  erewrite bind_ok by reflexivity. cbv beta zeta.
  set (fp := env_sha256 _) in *. rewrite Hf.
  destruct (first_is_Some (λ x, (quote_tenant_id x == tenant) && (quote_quote_fingerprint x == fp))
    (quotes (ses_db s)) q Hq) as [q' Hq']; [by rewrite !bool_decide_eq_true_2|].
  erewrite bind_ok by reflexivity. unfold quotes_by_fingerprint. unfold first in Hq'.
  rewrite Hq'. exists q'. split; [done|].
  apply first_Some in Hq' as [Hin Hp]. rewrite andb_true_iff, !bool_decide_eq_true in Hp. tauto.
Qed.

Definition quoted_demo : Session :=
  (@quote demo_env 120 (mk_uuid "t") (mk_uuid "u") demo_variant None pricing_demo).2.

Lemma quote_reuses_fingerprint_witness :
  ∃ q', @quote demo_env 120 (mk_uuid "t") (mk_uuid "u") demo_variant None quoted_demo
    = (Ok (q', demo_decision), quoted_demo).
Proof.
  destruct (quotes (ses_db quoted_demo)) as [|q l] eqn:Hq; [vm_compute in Hq; discriminate|].
  assert (q ∈ quotes (ses_db quoted_demo)) as Hin by (rewrite Hq; left).
  vm_compute in Hq. injection Hq as <- <-.
  destruct (@quote_reuses_fingerprint demo_env 120 (mk_uuid "t") (mk_uuid "u") demo_variant None
    quoted_demo demo_decision _ ltac:(vm_compute; reflexivity) Hin ltac:(vm_compute; reflexivity)
    ltac:(vm_compute; reflexivity)) as (q' & Hrun & _).
  exists q'. exact Hrun.
Defined.
