(* ===== verification/Operations.v ===== *)
(** * Store operations: coupons, support and warranty cases, announcements

    [packages/operations/service.py].  Each function is a handler that runs in
    the caller's transaction. *)

From Stdlib Require Import ZArith Lia.
From stdpp Require Import base tactics list option strings numbers.
From S2P Require Import Prelude Tables Text Money Exceptions StateMachines Models.

Local Open Scope Z_scope.

Definition days (n : Z) : Z := seconds (n * 86400).

(** A Python dictionary keyed by UUID, in insertion order. *)
Abbreviation by_uuid A := (list (UUID * A)).

Fixpoint lookup_assoc {A} (k : UUID) (l : by_uuid A) : option A :=
  match l with
  | [] => None
  | (k', v) :: l => if k' == k then Some v else lookup_assoc k l
  end.

Section operations.
  Context `{Env}.

(** [audit(session, ...)]: one [AuditLog] row for the resource. *)
Definition audit (tenant_id actor_id : UUID) (action resource_type : string) (resource_id : UUID)
    (details : dict) : M unit :=
  i ← uuid4;
  write (λ d, d <| audit_logs ::= (λ t, t ++ [MkAuditLog i tenant_id (Some actor_id) action resource_type
                                               (uuid_str resource_id) details]) |>).

Definition tenant_user (tenant_id user_id : UUID) : M unit :=
  member ← query (λ d, existsb (λ m, (mem_tenant_id m == tenant_id) && (mem_user_id m == user_id)
                                     && mem_is_active m) (memberships d));
  binding ← query (λ d, existsb (λ b, (ttu_tenant_id b == tenant_id) && (ttu_user_id b == user_id)
                                      && negb (ttu_is_blocked b)) (telegram_users d));
  raise_if (negb member && negb binding) ValueError.

(** ** Support and warranty cases *)

(** [INSERT INTO support_cases], with [uq_warranty_item_claim]. *)
Definition insert_case (tenant_id user_id : UUID) (order_id warranty_item_id : option UUID)
    (subject : string) (terms : option string) : M SupportCase :=
  i ← uuid4;
  subject' ← to_varchar 160 subject;
  clash ← query (λ d, existsb (λ c, (case_tenant_id c == tenant_id) && is_some warranty_item_id
                                    && (case_warranty_item_id c == warranty_item_id)) (support_cases d));
  raise_if clash IntegrityError;;
  let case := MkSupportCase i tenant_id user_id order_id warranty_item_id
                (if is_some warranty_item_id then "WARRANTY" else "SUPPORT") subject' "OPEN" 1 terms
                None in
  write (λ d, d <| support_cases ::= (λ t, t ++ [case]) |>);;
  mret case.

Definition add_message (tenant_id case_id author_id : UUID) (is_staff : bool) (body : string) : M unit :=
  i ← uuid4;
  write (λ d, d <| support_messages ::=
                   (λ t, t ++ [MkSupportMessage i tenant_id case_id author_id is_staff body]) |>).

(** [snapshot.get("warranty_days", 0)] and [isinstance(days, int)]; a Python
    [bool] is an [int]. *)
Definition warranty_days (terms : dict) : option Z :=
  match default (JInt 0) (dict_get "warranty_days" terms) with
  | JInt n => Some n
  | JBool b => Some (if b then 1 else 0)
  | _ => None
  end.

Definition eligible (now created_at : Z) (d : option Z) : bool :=
  match d with
  | Some n => (1 <=? n) && (n <=? 3650) && (now <=? created_at + days n)
  | None => false
  end.

(** The warranty part of [open_case]: an existing claim, or the terms of a new
    one. *)
Definition warranty_claim (tenant_id iid : UUID) (order : option Order)
    : M (SupportCase + option string) :=
  match order with
  | None => mthrow ValueError
  | Some order =>
      raise_if (order_status order != OrderFulfilled) ValueError;;
      existing ← scalar (λ d, select (λ c, (case_tenant_id c == tenant_id)
                                           && (case_warranty_item_id c == Some iid)) (support_cases d));
      match existing with
      | Some c => mret (inl c)
      | None =>
          item ← scalar (λ d, select (λ i, (item_id i == iid) && (item_order_id i == order_id order)
                                           && existsb (λ o, (order_id o == item_order_id i)
                                                            && (order_tenant_id o == tenant_id)) (orders d))
                                (order_items d));
          let snapshot := match item with Some i => item_sale_terms i | None => [] end in
          t ← now;
          raise_if (negb (eligible t (order_created_at order) (warranty_days snapshot))) ValueError;;
          match default (JStr "") (dict_get "warranty_terms" snapshot) with
          | JStr s => mret (inr (Some s))
          | JNull => mret (inr None)
          | _ => mthrow DataError
          end
      end
  end.

Definition open_case (tenant_id user_id actor_id : UUID) (subject body : string)
    (oid warranty_item_id : option UUID) (is_staff : bool) : M SupportCase :=
  tenant_user tenant_id user_id;;
  order ← match oid with
          | Some i =>
              found ← scalar (λ d, select (λ o, (order_id o == i) && (order_tenant_id o == tenant_id)
                                                && (order_user_id o == user_id)) (orders d));
              o ← of_option ValueError found; mret (Some o)
          | None => mret None
          end;
  claim ← match warranty_item_id with
          | Some i => warranty_claim tenant_id i order
          | None => mret (inr None)
          end;
  match claim with
  | inl existing => mret existing
  | inr terms =>
      case ← insert_case tenant_id user_id oid warranty_item_id subject terms;
      add_message tenant_id (case_id case) actor_id is_staff body;;
      audit tenant_id actor_id "care.case_opened" "support_cases" (case_id case) [];;
      mret case
  end.

Definition case_transitions (status : string) : list string :=
  if status == "OPEN" then ["IN_PROGRESS"; "APPROVED"; "DECLINED"; "RESOLVED"]
  else if status == "IN_PROGRESS" then ["APPROVED"; "DECLINED"; "RESOLVED"]
  else if status == "APPROVED" then ["RESOLVED"]
  else [].

Definition mem (x : string) (l : list string) : bool := existsb (λ y, y == x) l.

Definition update_case (tenant_id cid actor_id : UUID) (expected_version : Z) (body : string)
    (target : option string) (customer_id : option UUID) : M SupportCase :=
  found ← scalar (λ d, select (λ c, (case_tenant_id c == tenant_id) && (case_id c == cid))
                         (support_cases d));
  case ← of_option ValueError found;
  raise_if (match customer_id with Some u => case_user_id case != u | None => false end) ValueError;;
  raise_if (negb (case_version case =? expected_version)) ValueError;;
  raise_if (mem (case_status case) ["RESOLVED"; "DECLINED"]) ValueError;;
  raise_if (truthy target && (is_some customer_id
                              || negb (mem (default "" target) (case_transitions (case_status case)))))
    ValueError;;
  raise_if (truthy target && mem (default "" target) ["APPROVED"; "DECLINED"]
            && (case_kind case != "WARRANTY")) ValueError;;
  let p c := (case_id c == case_id case) && (case_tenant_id c == tenant_id)
             && (case_version c =? expected_version) in
  let status := if truthy target then default "" target else case_status case in
  let resolution := if mem (default "" target) ["RESOLVED"; "DECLINED"] then Some body
                    else case_resolution case in
  n ← query (λ d, rowcount p (support_cases d));
  write (λ d, d <| support_cases ::= update_where p
                     (λ c, c <| case_version := expected_version + 1 |> <| case_status := status |>
                             <| case_resolution := resolution |>) |>);;
  raise_if (negb (n =? 1)%nat) ValueError;;
  add_message tenant_id (case_id case) actor_id (negb (is_some customer_id)) body;;
  audit tenant_id actor_id "care.case_updated" "support_cases" (case_id case)
    [("status", JStr status)];;
  mret (case <| case_version := expected_version + 1 |> <| case_status := status |>
             <| case_resolution := resolution |>).

(** ** Coupons *)

(** [(price * percent / 100).quantize(Decimal("0.01"), ROUND_DOWN)] *)
Definition unit_discount (percent price : dec) : dec :=
  Z.quot (price * percent) (100 * one * cent) * cent.

Definition effective_price (percent price : dec) : dec :=
  Z.max (cents 1) (price - unit_discount percent price).

Definition total_of (prices : by_uuid dec) (quantities : by_uuid Z) : dec :=
  sum_of (λ kp, kp.2 * default 0 (lookup_assoc kp.1 quantities)) prices.

(** [INSERT INTO coupon_redemptions], with [uq_coupon_order]. *)
Definition insert_redemption (tenant_id user_id : UUID) (coupon : Coupon) (order : Order)
    (discount : dec) : M unit :=
  i ← uuid4;
  discount' ← to_numeric 12 2 discount;
  clash ← query (λ d, existsb (λ r, (red_tenant_id r == tenant_id) && (red_order_id r == order_id order))
                        (redemptions d));
  raise_if clash IntegrityError;;
  write (λ d, d <| redemptions ::= (λ t, t ++ [MkCouponRedemption i tenant_id (coupon_id coupon)
                 (order_id order) user_id (coupon_code coupon) discount' (order_currency order)]) |>).

(** Returns the effective prices; the new total is assigned to the order.
    [order] is the caller's object, whose total has not been rounded by the
    database. *)
Definition apply_coupon (tenant_id user_id : UUID) (order : Order) (code : string)
    (prices : by_uuid dec) (quantities : by_uuid Z) : M (by_uuid dec * Order) :=
  found ← scalar (λ d, select (λ c, (coupon_tenant_id c == tenant_id) && (coupon_code c == code))
                         (coupons d));
  t ← now;
  coupon ← of_option ValueError found;
  raise_if (negb (coupon_is_active coupon) || (coupon_expires_at coupon <=? t)
            || (coupon_currency coupon != order_currency order)
            || (order_total_amount order <? coupon_minimum_amount coupon)) ValueError;;
  let p c := (coupon_tenant_id c == tenant_id) && (row_id c == coupon_id coupon)
             && (coupon_used_count c <? coupon_max_uses c) && coupon_is_active c in
  updated ← query (λ d, rowcount p (coupons d));
  write (λ d, d <| coupons ::= update_where p (λ c, c <| coupon_used_count ::= Z.add 1 |>) |>);;
  raise_if (negb (updated =? 1)%nat) ValueError;;
  let effective := map (λ kp, (kp.1, effective_price (coupon_percent coupon) kp.2)) prices in
  let discounted_total := total_of effective quantities in
  let discount := order_total_amount order - discounted_total in
  raise_if (discount <=? 0) ValueError;;
  insert_redemption tenant_id user_id coupon order discount;;
  stored ← to_numeric 12 2 discounted_total;
  write (λ d, d <| orders ::= update_row (order_id order)
                               (λ o, o <| order_total_amount := stored |>) |>);;
  mret (effective, order <| order_total_amount := discounted_total |>).

(** ** Announcements *)

Definition audience (tenant_id : UUID) (item : Announcement) (d : DB) : list UUID :=
  map ttu_id
    (select (λ u, (ttu_tenant_id u == tenant_id) && (ttu_bot_id u == ann_bot_id item)
                  && negb (ttu_is_blocked u) && (0 <? ttu_telegram_user_id u)
                  && ((ann_audience item != "BUYERS")
                      || existsb (λ o, (order_tenant_id o == tenant_id)
                                       && (order_user_id o == ttu_user_id u)
                                       && (order_status o == OrderFulfilled)) (orders d)))
       (telegram_users d)).

(** One delivery row, with its primary key and [uq_announcement_recipient]. *)
Definition insert_delivery (tenant_id announcement_id : UUID) (t : Z) (binding : UUID) : M unit :=
  i ← uuid4;
  clash ← query (λ d, existsb (λ x, (deliv_id x == i)
                                    || (deliv_announcement_id x == announcement_id)
                                       && (deliv_binding_id x == binding)) (deliveries d));
  raise_if clash IntegrityError;;
  write (λ d, d <| deliveries ::=
                   (λ l, l ++ [MkAnnouncementDelivery i tenant_id announcement_id binding "QUEUED" t None None t]) |>).

Definition queue_announcement (tenant_id announcement_id actor_id : UUID) : M Announcement :=
  found ← scalar (λ d, select (λ a, (ann_id a == announcement_id) && (ann_tenant_id a == tenant_id))
                         (announcements d));
  item ← of_option ValueError found;
  raise_if (ann_status item != "DRAFT") ValueError;;
  bot ← scalar (λ d, select (λ b, (bot_id b == ann_bot_id item) && (bot_tenant_id b == tenant_id)
                                  && bot_is_enabled b && negb (is_some (bot_deleted_at b))) (bots d));
  raise_if (negb (is_some bot)) ValueError;;
  recipients ← query (λ d, take (Z.to_nat 10001) (audience tenant_id item d));
  let n := Z.of_nat (length recipients) in
  raise_if ((n =? 0) || (10000 <? n)) ValueError;;
  t ← now;
  for_each recipients (insert_delivery tenant_id (ann_id item) t);;
  write (λ d, d <| announcements ::= update_row (ann_id item)
                     (λ a, a <| ann_status := "QUEUED" |> <| ann_queued_at := Some t |>) |>);;
  audit tenant_id actor_id "announcement.queued" "announcements" (ann_id item)
    [("recipients", JInt n); ("audience", JStr (ann_audience item))];;
  mret (item <| ann_status := "QUEUED" |> <| ann_queued_at := Some t |>).

End operations.
