(* ===== verification/OperationsSpec.v ===== *)
(** * What store operations guarantee

    Theorems about [packages/operations/service.py]: coupons are never
    redeemed more often than allowed and discount what they say, cases follow
    their workflow under optimistic versioning, a warranty is claimed once and
    in time, and a campaign is queued once for a bounded audience. *)

From Stdlib Require Import ZArith Lia.
From stdpp Require Import base tactics list option strings numbers.
From S2P Require Import Prelude Tables Text Money Exceptions StateMachines Models Operations.

Local Open Scope Z_scope.

(** ** Coupons *)

(** A coupon discounts each unit downwards, in whole cents.  For a
    whole-cent price and a percentage of 0 to 100, the discount is never
    negative, never more than the percentage, and less than a cent short of it;
    the unit stays payable (at least 0.01) and never becomes dearer than the
    larger of its price and 0.01. *)
Theorem coupon_unit_price percent price :
  (cent | price) → 0 ≤ price → 0 ≤ percent ≤ 100 * one →
  let e := effective_price percent price in
  let d := unit_discount percent price in
  (cent | e) ∧ cents 1 ≤ e ≤ Z.max (cents 1) price ∧ 0 ≤ d ∧
  d * (100 * one) ≤ price * percent < (d + cent) * (100 * one).
Proof.
  intros [k ->] Hp Hpc e d. unfold e, d, effective_price, unit_discount.
  set (q := Z.quot (k * cent * percent) (100 * one * cent)).
  assert (0 < 100 * one * cent) as Hpos by done. assert (0 < cent) as Hc by done.
  assert (0 ≤ k) as Hk by nia.
  assert (0 ≤ k * cent * percent) as Hn by nia.
  assert (q = (k * cent * percent) / (100 * one * cent)) as Hq by (apply Z.quot_div_nonneg; lia).
  pose proof (Z.div_mod (k * cent * percent) (100 * one * cent) ltac:(lia)) as Hdm.
  pose proof (Z.mod_pos_bound (k * cent * percent) (100 * one * cent) Hpos) as Hmb.
  rewrite <- Hq in Hdm. set (r := (k * cent * percent) mod (100 * one * cent)) in *.
  assert (0 ≤ q) as Hq0 by (rewrite Hq; by apply Z.div_pos).
  change (cents 1) with (1 * cent). split_and!.
  - destruct (Z.max_spec (1 * cent) (k * cent - q * cent)) as [[_ ->]|[_ ->]];
      [exists (k - q); ring | by exists 1].
  - lia.
  - nia.
  - nia.
  - nia.
  - nia.
Qed.

Lemma coupon_unit_price_witness :
  effective_price (15 * one) (cents 999) = cents 850 ∧
  cents 1 ≤ effective_price (15 * one) (cents 999) ≤ Z.max (cents 1) (cents 999).
Proof.
  split; [vm_compute; reflexivity|].
  refine (proj1 (proj2 (coupon_unit_price (15 * one) (cents 999) (cents_multiple 999) _ _)));
    repeat split; vm_compute; discriminate.
Defined.

Definition redeemed (i : UUID) (d : DB) : nat :=
  length (select (λ r, red_coupon_id r == i) (redemptions d)).

(** Each coupon has been used at most as often as allowed, and counts at least
    its redemptions. *)
Definition coupon_inv (d : DB) : Prop :=
  NoDup (coupon_id <$> coupons d) ∧
  ∀ c, c ∈ coupons d → Z.of_nat (redeemed (coupon_id c) d) ≤ coupon_used_count c ≤ coupon_max_uses c.

Lemma redeemed_snoc i d r :
  redeemed i (d <| redemptions ::= λ t, t ++ [r] |>) =
  (redeemed i d + (if red_coupon_id r == i then 1 else 0))%nat.
Proof.
  unfold redeemed. change (redemptions (d <| redemptions ::= ?g |>)) with (redemptions d ++ [r]).
  rewrite select_app, length_app. f_equal. cbn. by case_match.
Qed.

Section coupons.
  Context `{Env}.

(** Counting one more use. *)
Definition count_use (p : Coupon → bool) (d : DB) : DB :=
  d <| coupons ::= update_where p (λ c, c <| coupon_used_count ::= Z.add 1 |>) |>.

Lemma coupon_inv_use p d :
  coupon_inv d → (∀ c, p c = true → coupon_used_count c < coupon_max_uses c) →
  coupon_inv (count_use p d).
Proof.
  intros [Hnd Hc] Hp. split.
  - cbn. by rewrite fmap_update_where.
  - intros c (c0 & Hc0 & ->)%elem_of_update_where. specialize (Hc c0 Hc0).
    assert (∀ i, redeemed i (count_use p d) = redeemed i d) as Hsame by done. rewrite Hsame.
    destruct (p c0) eqn:Hpc; [|done]. specialize (Hp c0 Hpc).
    cbn [coupon_id coupon_used_count coupon_max_uses field_update]. cbn -[redeemed]. lia.
Qed.

Lemma insert_redemption_inv t u coupon order discount s :
  coupon_inv (ses_db s) →
  (∀ c, c ∈ coupons (ses_db s) → coupon_id c = coupon_id coupon →
     Z.of_nat (redeemed (coupon_id c) (ses_db s)) < coupon_used_count c) →
  ensures (λ s, coupon_inv (ses_db s)) (insert_redemption t u coupon order discount) s.
Proof.
  intros [Hnd Hc] Hslack. apply ensures_bind; [done|]. intros i s1 [= _ <-] _.
  apply ensures_bind; [by unfold ensures, to_numeric, of_option; case_match|].
  intros x s2 [_ ->]%of_option_ok _. apply (ensures_bind _ (query _)); [done|].
  intros clash s3 [_ ->]%query_inv _. apply ensures_guard; [done|]. intros _.
  unfold ensures, write, modify. cbn [snd]. split; [done|]. intros c Hcin.
  specialize (Hc c Hcin). specialize (Hslack c Hcin).
  match goal with |- context [redeemed ?j ?d] =>
    assert (redeemed j d = (redeemed j (ses_db s) + (if coupon_id coupon == j then 1 else 0))%nat)
      as -> by apply (redeemed_snoc j (ses_db s)) end.
  case_bool_decide as Heq; [specialize (Hslack (eq_sym Heq))|]; lia.
Qed.

Lemma rowcount_one {A} (p : A → bool) t : rowcount p t = 1%nat → ∃ x, x ∈ t ∧ p x = true.
Proof.
  unfold rowcount. destruct (select p t) as [|x l] eqn:Hs; [done|]. intros _. exists x.
  apply elem_of_select. rewrite Hs. left.
Qed.

(** Every run of [apply_coupon] keeps the counts, also one that raises. *)
Lemma apply_coupon_inv tenant user order code prices quantities s :
  coupon_inv (ses_db s) →
  ensures (λ s, coupon_inv (ses_db s)) (apply_coupon tenant user order code prices quantities) s.
Proof.
  intros Hs. unfold apply_coupon, scalar. apply ensures_bind; [done|].
  intros found s1 [_ ->]%query_inv _. apply ensures_bind; [done|]. intros t s1 [_ ->]%gets_inv _.
  apply ensures_of_option; [done|]. intros coupon _. apply ensures_guard; [done|]. intros _.
  apply ensures_bind; [done|]. intros n s1 [[= ->] ->]%query_inv _.
  set (p := λ c : Coupon, _).
  assert (∀ c, p c = true → coupon_used_count c < coupon_max_uses c) as Hp
    by (intros c Hpc; unfold p in Hpc; rewrite !andb_true_iff in Hpc; lia).
  assert (coupon_inv (count_use p (ses_db s))) as Hinv by (by apply coupon_inv_use).
  apply ensures_bind; [done|]. intros u s1 [_ ->]%write_inv _.
  apply ensures_guard; [done|]. intros Hone. apply negb_false_iff, Nat.eqb_eq in Hone.
  apply ensures_guard; [done|]. intros _.
  assert (∀ c, c ∈ coupons (count_use p (ses_db s)) → coupon_id c = coupon_id coupon →
     Z.of_nat (redeemed (coupon_id c) (ses_db s)) < coupon_used_count c) as Hslack.
  { intros c (c0 & Hc0 & ->)%elem_of_update_where Hid.
    destruct (rowcount_one _ _ Hone) as (c1 & Hc1 & Hpc1).
    assert (c0 = c1) as ->.
    { eapply (NoDup_fmap_inj coupon_id); [apply Hs|done|done|].
      transitivity (coupon_id coupon); [by destruct (p c0)|].
      unfold p in Hpc1. rewrite !andb_true_iff, !bool_decide_eq_true in Hpc1.
      symmetry. apply Hpc1. }
    rewrite Hpc1. pose proof (proj2 Hs c1 Hc1). cbn -[redeemed]. lia. }
  apply ensures_bind; [by apply insert_redemption_inv|]. intros u2 s2 _ Hs2.
  apply ensures_bind; [by unfold ensures, to_numeric, of_option; case_match|].
  intros x s3 [_ ->]%of_option_ok _. exact Hs2.
Qed.

End coupons.

(** The arguments of a call of [apply_coupon]. *)
Record coupon_call := MkCouponCall {
  cc_tenant : UUID; cc_user : UUID; cc_order : Order; cc_code : string;
  cc_prices : by_uuid dec; cc_quantities : by_uuid Z;
}.

Definition redeem_all `{Env} (calls : list coupon_call) (s : Session) : Session :=
  foldl (λ s c, (apply_coupon (cc_tenant c) (cc_user c) (cc_order c) (cc_code c) (cc_prices c)
                   (cc_quantities c) s).2) s calls.

(** [C37] A coupon is never redeemed more often than it allows.  Over any
    sequence of [apply_coupon] calls (any tenants, users, orders and codes;
    calls that raise included), every coupon keeps at most [max_uses]
    redemptions. *)
Theorem coupon_never_oversold `{Env} calls s c :
  coupon_inv (ses_db s) → c ∈ coupons (ses_db (redeem_all calls s)) →
  Z.of_nat (redeemed (coupon_id c) (ses_db (redeem_all calls s))) ≤ coupon_max_uses c.
Proof.
  intros Hs Hc.
  assert (∀ s, coupon_inv (ses_db s) → coupon_inv (ses_db (redeem_all calls s))) as Hall.
  { clear. unfold redeem_all. induction calls as [|x calls IH]; intros s Hs; [done|].
    cbn. apply IH. by apply apply_coupon_inv. }
  destruct (proj2 (Hall s Hs) c Hc) as [H1 H2]. by etransitivity.
Qed.

Section demo_coupons.
Let t := mk_uuid "t".
Let u := mk_uuid "u".
Let coupon := MkCoupon (mk_uuid "c-1") t "SAVE15" (15 * one) "USD" 0 1 0 1000 true.
Let order i := MkOrder (mk_uuid i) t u i OrderPending (cents 1998) "USD" None None 0.

Definition coupon_demo : Session :=
  let d := empty_db <| coupons := [coupon] |> <| orders := [order "o-1"; order "o-2"] |> in
  MkSession d d 0 [].

Definition coupon_calls : list coupon_call :=
  let v := mk_uuid "v" in
  [MkCouponCall t u (order "o-1") "SAVE15" [(v, cents 999)] [(v, 2)];
   MkCouponCall t u (order "o-2") "SAVE15" [(v, cents 999)] [(v, 2)]].
End demo_coupons.

Lemma coupon_demo_inv : coupon_inv (ses_db coupon_demo).
Proof.
  split; [apply NoDup_singleton|]. intros c [->|Hc]%elem_of_cons; [done|by apply elem_of_nil in Hc].
Qed.

Lemma coupon_never_oversold_witness :
  redeemed (mk_uuid "c-1") (ses_db (@redeem_all demo_env coupon_calls coupon_demo)) = 1%nat ∧
  ∀ c, c ∈ coupons (ses_db (@redeem_all demo_env coupon_calls coupon_demo)) →
    Z.of_nat (redeemed (coupon_id c) (ses_db (@redeem_all demo_env coupon_calls coupon_demo)))
    ≤ coupon_max_uses c.
Proof.
  split; [vm_compute; reflexivity|]. intros c Hc.
  exact (@coupon_never_oversold demo_env coupon_calls coupon_demo c coupon_demo_inv Hc).
Defined.

(** What a redemption does.  When [apply_coupon] returns, the coupon is
    active, unexpired, in the order's currency and its minimum is met; the new
    total is the sum of the effective prices times their quantities, strictly
    below the old one, and exactly one redemption is recorded, for the
    difference (rounded to the column). *)
Theorem apply_coupon_effect `{Env} tenant user order code prices quantities s eff order' s' :
  apply_coupon tenant user order code prices quantities s = (Ok (eff, order'), s') →
  ∃ coupon r, coupon ∈ coupons (ses_db s) ∧ coupon_code coupon = code ∧
    coupon_tenant_id coupon = tenant ∧ coupon_is_active coupon = true ∧
    env_clock (ses_draws s) < coupon_expires_at coupon ∧
    coupon_currency coupon = order_currency order ∧
    coupon_minimum_amount coupon ≤ order_total_amount order ∧
    eff = map (λ kp, (kp.1, effective_price (coupon_percent coupon) kp.2)) prices ∧
    order_total_amount order' = total_of eff quantities ∧
    order_total_amount order' < order_total_amount order ∧
    redemptions (ses_db s') = redemptions (ses_db s) ++ [r] ∧
    red_coupon_id r = coupon_id coupon ∧ red_order_id r = order_id order ∧
    numeric 12 2 (order_total_amount order - order_total_amount order') = Some (red_discount_amount r).
Proof.
  unfold apply_coupon, scalar. intros Hr. bind_query Hr.
  apply bind_inv_ok in Hr as (t & s1 & [[= ->] ->]%gets_inv & Hr). bind_some Hr coupon Hc.
  apply head_Some_elem_of in Hc.
  rewrite elem_of_select, andb_true_iff, !bool_decide_eq_true in Hc. destruct Hc as (Hin & Hten & Hcode).
  bind_guard Hr Hok. rewrite !orb_false_iff in Hok. destruct Hok as [[[Hact Hexp] Hcur] Hmin].
  apply negb_false_iff in Hact, Hcur. apply bool_decide_eq_true in Hcur.
  bind_query Hr. bind_write Hr. bind_guard Hr Hone. bind_guard Hr Hpos.
  apply bind_inv_ok in Hr as (u2 & s2 & Hred & Hr). bind_some Hr stored Hst. bind_write Hr.
  apply ret_inv in Hr as [[= -> ->] ->]. unfold insert_redemption in Hred. db_inv.
  eexists coupon, _. cbn. split_and!; try done; try lia.
Qed.

Lemma apply_coupon_effect_witness :
  ∃ eff o s', @apply_coupon demo_env (mk_uuid "t") (mk_uuid "u")
      (MkOrder (mk_uuid "o-1") (mk_uuid "t") (mk_uuid "u") "o-1" OrderPending (cents 1998) "USD"
         None None 0) "SAVE15" [(mk_uuid "v", cents 999)] [(mk_uuid "v", 2)] coupon_demo
      = (Ok (eff, o), s') ∧ order_total_amount o = cents 1700 ∧ order_total_amount o < cents 1998.
Proof.
  eexists _, _, _. split; [vm_compute; reflexivity|]. split; [vm_compute; reflexivity|].
  edestruct (@apply_coupon_effect demo_env (mk_uuid "t") (mk_uuid "u")
      (MkOrder (mk_uuid "o-1") (mk_uuid "t") (mk_uuid "u") "o-1" OrderPending (cents 1998) "USD"
         None None 0) "SAVE15" [(mk_uuid "v", cents 999)] [(mk_uuid "v", 2)] coupon_demo)
    as (c & r & _ & _ & _ & _ & _ & _ & _ & _ & _ & Hlt & _); [vm_compute; reflexivity|].
  exact Hlt.
Defined.

(** ** Cases *)

(** What one accepted update may do to a case. *)
Record case_step (expected : Z) (target : option string) (customer : option UUID)
    (c c' : SupportCase) : Prop := {
  cs_same : case_id c' = case_id c ∧ case_user_id c' = case_user_id c ∧ case_kind c' = case_kind c;
  cs_version : case_version c = expected ∧ case_version c' = expected + 1;
  cs_open : case_status c ≠ "RESOLVED" ∧ case_status c ≠ "DECLINED";
  cs_status : case_status c' = case_status c ∨
    (customer = None ∧ case_status c' ∈ case_transitions (case_status c) ∧
     (case_status c' = "APPROVED" ∨ case_status c' = "DECLINED" → case_kind c = "WARRANTY"));
  cs_owner : ∀ u, customer = Some u → case_user_id c = u;
}.

Lemma mem_elem x l : mem x l = true ↔ x ∈ l.
Proof.
  unfold mem. rewrite existsb_exists. setoid_rewrite bool_decide_eq_true.
  rewrite list_elem_of_In. split; [by intros (y & Hy & ->) | eauto].
Qed.

Lemma update_case_ok `{Env} tenant cid actor v body target customer s c' s' :
  update_case tenant cid actor v body target customer s = (Ok c', s') →
  ∃ c, c ∈ support_cases (ses_db s) ∧ case_id c = cid ∧ case_tenant_id c = tenant ∧
    case_step v target customer c c' ∧
    support_cases (ses_db s') = update_where
      (λ x, (case_id x == case_id c) && (case_tenant_id x == tenant) && (case_version x =? v))
      (λ x, x <| case_version := v + 1 |> <| case_status := case_status c' |>
              <| case_resolution := case_resolution c' |>) (support_cases (ses_db s)).
Proof.
  unfold update_case, scalar. intros Hr. bind_query Hr. bind_some Hr c Hc. apply head_Some_elem_of in Hc.
  rewrite elem_of_select, andb_true_iff, !bool_decide_eq_true in Hc. destruct Hc as (Hin & Hten & Hid).
  bind_guard Hr Hown. bind_guard Hr Hver. bind_guard Hr Hclosed. bind_guard Hr Htrans.
  bind_guard Hr Hkind. bind_query Hr. bind_write Hr. bind_guard Hr Hone.
  unfold add_message, audit in Hr. db_inv. exists c. apply negb_false_iff, Z.eqb_eq in Hver.
  assert (case_status c ≠ "RESOLVED" ∧ case_status c ≠ "DECLINED") as Hop.
  { rewrite <- not_true_iff_false, mem_elem in Hclosed. split; intros Heq; apply Hclosed; rewrite Heq;
      [left | right; left]. }
  split_and!; try done. split; cbn; try done.
  - destruct target as [t|]; [|by left]. cbn [truthy] in *. destruct (t != "") eqn:Ht; [|by left].
    right. cbn in Htrans. apply orb_false_iff in Htrans as [Hcust Hmem].
    apply negb_false_iff, mem_elem in Hmem. cbn. split_and!; [by destruct customer|done|].
    intros Hor. cbn [andb] in Hkind. apply andb_false_iff in Hkind as [Hk|Hk].
    + rewrite <- not_true_iff_false, mem_elem in Hk. exfalso. apply Hk.
      destruct Hor as [->| ->]; [left | right; left].
    + by apply negb_false_iff, bool_decide_eq_true in Hk.
  - intros u ->. by apply negb_false_iff, bool_decide_eq_true in Hown.
Qed.

(** Cases follow their workflow.  When [update_case] returns, the case had
    exactly the version the caller saw and now has the next one; it was not
    closed; its status is unchanged or was moved by staff along
    OPEN -> IN_PROGRESS -> APPROVED / DECLINED / RESOLVED, approval and decline
    only for warranty claims; and a customer only ever updates an own case. *)
Theorem update_case_protocol `{Env} tenant cid actor v body target customer s c' s' :
  update_case tenant cid actor v body target customer s = (Ok c', s') →
  ∃ c, c ∈ support_cases (ses_db s) ∧ case_id c = cid ∧ case_tenant_id c = tenant ∧
    case_step v target customer c c'.
Proof. intros (c & ? & ? & ? & ? & _)%update_case_ok. eauto. Qed.

(** No lost updates.  Of two updates made against the same version of a
    case, the second raises and changes nothing, whoever makes it and whatever
    it asks for. *)
Theorem update_case_no_lost_update `{Env} tenant cid actor v body target customer s c' s'
    actor2 body2 target2 customer2 :
  NoDup (case_id <$> support_cases (ses_db s)) →
  update_case tenant cid actor v body target customer s = (Ok c', s') →
  update_case tenant cid actor2 v body2 target2 customer2 s' = (Raise ValueError, s').
Proof.
  intros Hnd (c & Hin & Hid & Hten & Hstep & Hcases)%update_case_ok.
  destruct (update_case tenant cid actor2 v body2 target2 customer2 s') as [[c2|e] s2] eqn:Hr.
  - exfalso. apply update_case_ok in Hr as (x & Hx & Hxid & Hxten & Hxstep & _).
    rewrite Hcases in Hx. apply elem_of_update_where in Hx as (x0 & Hx0 & ->).
    pose proof (proj1 (cs_version _ _ _ _ _ Hxstep)) as Hv.
    destruct ((case_id x0 == case_id c) && (case_tenant_id x0 == tenant) && (case_version x0 =? v)) eqn:Hp.
    + cbn in Hv. lia.
    + assert (x0 = c) as -> by (eapply (NoDup_fmap_inj case_id); [done..|congruence]).
      rewrite Hten, !bool_decide_eq_true_2 in Hp by done. cbn in Hp.
      pose proof (proj1 (cs_version _ _ _ _ _ Hstep)). lia.
  - revert Hr. unfold update_case, scalar, mbind, prog_bind, query, gets. cbn.
    set (sel := select _ _). destruct (head sel) as [x|] eqn:Hhead; cbn.
    2: { by intros [= <- <-]. }
    apply head_Some_elem_of in Hhead. unfold sel in Hhead.
    rewrite elem_of_select, andb_true_iff, !bool_decide_eq_true in Hhead.
    destruct Hhead as (Hx & Hxten & Hxid). rewrite Hcases in Hx.
    apply elem_of_update_where in Hx as (x0 & Hx0 & ->).
    assert (x0 = c) as ->.
    { eapply (NoDup_fmap_inj case_id); [done..|]. rewrite Hid, <- Hxid. by case_match. }
    rewrite Hten, !(bool_decide_eq_true_2 (_ = _)), (proj1 (cs_version _ _ _ _ _ Hstep)), Z.eqb_refl by done.
    unfold raise_if. cbn.
    destruct (match customer2 with Some u => case_user_id c != u | None => false end);
      cbn; [by intros [= <- <-]|]. rewrite (proj2 (Z.eqb_neq _ _)) by lia. cbn. by intros [= <- <-].
Qed.

Section demo_cases.
Let t := mk_uuid "t".
Let u := mk_uuid "u".

Definition case_demo : Session :=
  let d := empty_db <| support_cases := [MkSupportCase (mk_uuid "case-1") t u None None "SUPPORT"
                                           "Help" "OPEN" 1 None None] |> in
  MkSession d d 0 [].
End demo_cases.

Definition case_demo_next : Session :=
  (@update_case demo_env (mk_uuid "t") (mk_uuid "case-1") (mk_uuid "staff") 1 "On it"
     (Some "IN_PROGRESS") None case_demo).2.

Lemma update_case_protocol_witness :
  ∃ c c', c ∈ support_cases (ses_db case_demo) ∧ case_status c' = "IN_PROGRESS" ∧
    case_step 1 (Some "IN_PROGRESS") None c c'.
Proof.
  edestruct (@update_case_protocol demo_env (mk_uuid "t") (mk_uuid "case-1") (mk_uuid "staff") 1 "On it"
    (Some "IN_PROGRESS") None case_demo) as (c & Hin & _ & _ & Hstep); [vm_compute; reflexivity|].
  exists c. eexists. split; [exact Hin|]. split; [|exact Hstep]. reflexivity.
Defined.

Lemma update_case_no_lost_update_witness :
  @update_case demo_env (mk_uuid "t") (mk_uuid "case-1") (mk_uuid "other") 1 "Closing"
    (Some "RESOLVED") None case_demo_next = (Raise ValueError, case_demo_next).
Proof.
  eapply (@update_case_no_lost_update demo_env (mk_uuid "t") (mk_uuid "case-1") (mk_uuid "staff") 1
    "On it" (Some "IN_PROGRESS") None case_demo).
  - apply NoDup_singleton.
  - vm_compute. reflexivity.
Defined.

(** ** Warranties *)

(** A warranty claim is honoured once, and only in time.  When [open_case]
    returns for a purchased item, either the case was already there and nothing
    was written, or the claim is new: the order belongs to the customer and
    tenant and is FULFILLED, the item belongs to the order, its purchase-time
    terms grant 1 to 3650 days that are not over, and no case for the item
    existed. *)
Theorem warranty_claimed_once `{Env} tenant user actor subject body oid item staff s case s' :
  open_case tenant user actor subject body oid (Some item) staff s = (Ok case, s') →
  case_warranty_item_id case = Some item ∧ case_tenant_id case = tenant ∧
  ((s' = s ∧ case ∈ support_cases (ses_db s)) ∨
   (case_kind case = "WARRANTY" ∧
    support_cases (ses_db s') = support_cases (ses_db s) ++ [case] ∧
    (∀ c, c ∈ support_cases (ses_db s) → case_tenant_id c = tenant →
       case_warranty_item_id c ≠ Some item) ∧
    ∃ order i n, order ∈ orders (ses_db s) ∧ oid = Some (order_id order) ∧
      order_user_id order = user ∧ order_tenant_id order = tenant ∧
      order_status order = OrderFulfilled ∧ i ∈ order_items (ses_db s) ∧ item_id i = item ∧
      item_order_id i = order_id order ∧ warranty_days (item_sale_terms i) = Some n ∧ 1 ≤ n ≤ 3650 ∧
      env_clock (ses_draws s) ≤ order_created_at order + days n)).
Proof.
  unfold open_case. intros Hr. apply bind_inv_ok in Hr as (u0 & s0 & Htu & Hr).
  assert (s0 = s) as -> by (unfold tenant_user in Htu; by db_inv). clear Htu.
  apply bind_inv_ok in Hr as (o & s1 & Ho & Hr). apply bind_inv_ok in Hr as (claim & s2 & Hclaim & Hr).
  destruct oid as [i|]; [|apply ret_inv in Ho as [[= ->] ->]; done].
  unfold scalar in Ho. bind_query Ho. bind_some Ho ord Hord. apply ret_inv in Ho as [[= ->] ->].
  apply head_Some_elem_of in Hord.
  rewrite elem_of_select, !andb_true_iff, !bool_decide_eq_true in Hord.
  destruct Hord as (Hord & (Hoid & Hoten) & Houser). cbn [warranty_claim] in Hclaim.
  bind_guard Hclaim Hst. apply negb_false_iff, bool_decide_eq_true in Hst.
  unfold scalar in Hclaim. bind_query Hclaim.
  destruct (head (select _ (support_cases (ses_db s)))) as [c|] eqn:Hex.
  { apply ret_inv in Hclaim as [[= ->] ->]. apply ret_inv in Hr as [[= ->] ->].
    apply head_Some_elem_of in Hex. rewrite elem_of_select, andb_true_iff, !bool_decide_eq_true in Hex.
    destruct Hex as (? & ? & ?). split_and!; [done..|by left]. }
  bind_query Hclaim. apply bind_inv_ok in Hclaim as (t & s3 & [[= ->] ->]%gets_inv & Hclaim).
  bind_guard Hclaim Hel. apply negb_false_iff in Hel.
  set (found := head (select _ (order_items _))) in *.
  destruct found as [it|] eqn:Hit; [|done]. unfold found in Hit. clear found.
  apply head_Some_elem_of in Hit. rewrite elem_of_select, !andb_true_iff, !bool_decide_eq_true in Hit.
  destruct Hit as (Hit & (Hitid & Hitord) & _).
  assert (s2 = s) as -> by (repeat case_match; by db_inv).
  destruct claim as [c|terms]; [repeat case_match; by db_inv|].
  unfold insert_case, add_message, audit in Hr. db_inv. cbn.
  split_and!; [done|done|right]. split_and!; [done|done| |].
  - intros c Hc Hct Hci. apply (proj1 (first_None _ _)) in Hex.
    apply (proj1 (select_nil _ _)) with (r := c) in Hex; [|done].
    by rewrite Hct, Hci, !bool_decide_eq_true_2 in Hex.
  - unfold eligible in Hel. destruct (warranty_days (item_sale_terms it)) as [n|] eqn:Hn; [|done].
    exists ord, it, n. split_and!; try done; try congruence; lia.
Qed.

Section demo_warranty.
Let t := mk_uuid "t".
Let u := mk_uuid "u".

Definition warranty_demo : Session :=
  let d := empty_db
    <| memberships := [MkMembership (mk_uuid "m") t u true] |>
    <| orders := [MkOrder (mk_uuid "o-1") t u "ORD-1" OrderFulfilled (cents 999) "USD" None None 0] |>
    <| order_items := [MkOrderItem (mk_uuid "i-1") (mk_uuid "o-1") (mk_uuid "v") 1 (cents 999) (cents 999)
                         [("warranty_days", JInt 30); ("warranty_terms", JStr "replacement")]] |> in
  MkSession d d 0 [].

Definition warranty_run : outcome exn SupportCase * Session :=
  @open_case demo_env t u u "Broken" "It broke" (Some (mk_uuid "o-1")) (Some (mk_uuid "i-1")) false
    warranty_demo.
End demo_warranty.

Lemma warranty_claimed_once_witness :
  ∃ case s', warranty_run = (Ok case, s') ∧ case_warranty_terms case = Some "replacement" ∧
    case_warranty_item_id case = Some (mk_uuid "i-1").
Proof.
  eexists _, _. split; [vm_compute; reflexivity|]. split; [reflexivity|].
  edestruct (@warranty_claimed_once demo_env (mk_uuid "t") (mk_uuid "u") (mk_uuid "u") "Broken" "It broke"
    (Some (mk_uuid "o-1")) (mk_uuid "i-1") false warranty_demo) as (Hitem & _);
    [vm_compute; reflexivity|]. exact Hitem.
Defined.

(** ** Announcements *)

Section announcements.
  Context `{Env}.

Lemma insert_deliveries tenant aid t l s u s' :
  for_each l (insert_delivery tenant aid t) s = (Ok u, s') →
  ∃ new, deliveries (ses_db s') = deliveries (ses_db s) ++ new ∧ deliv_binding_id <$> new = l ∧
    (∀ x, x ∈ new → deliv_announcement_id x = aid ∧ deliv_status x = "QUEUED") ∧ NoDup l ∧
    (∀ x, x ∈ deliveries (ses_db s) → deliv_announcement_id x = aid → deliv_binding_id x ∉ l) ∧
    announcements (ses_db s') = announcements (ses_db s) ∧
    (NoDup (deliv_id <$> deliveries (ses_db s)) → NoDup (deliv_id <$> deliveries (ses_db s'))).
Proof.
  revert s. induction l as [|b l IH]; intros s Hr; cbn [for_each] in Hr.
  { apply ret_inv in Hr as [_ ->]. exists []. rewrite app_nil_r.
    split_and!; try done; [by intros x Hx%elem_of_nil|constructor|by intros x _ _ Hx%elem_of_nil]. }
  apply bind_inv_ok in Hr as (u0 & s1 & Hi & Hr). unfold insert_delivery in Hi. db_inv.
  apply IH in Hr as (new & Hd & Hb & Hn & Hnd & Hfresh & Ha & Hids). cbn in Hd, Ha, Hfresh.
  match goal with Hc : false = existsb _ _ |- _ => symmetry in Hc; rename Hc into Hclash end.
  eexists (_ :: new). rewrite Hd, <- app_assoc. split; [done|]. split; [cbn; by f_equal|].
  split; [intros x [->|Hx]%elem_of_cons; auto|]. split; [|split; [|split; [done|]]].
  - apply list.NoDup_cons. split; [|done]. refine (Hfresh (MkAnnouncementDelivery _ _ aid b _ _ _ _ _) _ _);
      [apply elem_of_app; right; left|done].
  - intros x Hx Hxa [Hxb|Hxb]%elem_of_cons.
    + rewrite <- not_true_iff_false in Hclash. apply Hclash, existsb_exists. exists x.
      split; [by apply list_elem_of_In|]. rewrite Hxa, Hxb. apply orb_true_iff. right. by rewrite !bool_decide_eq_true_2.
    + eapply Hfresh; [apply elem_of_app; by left|done|done].
  - intros Hold. rewrite <- app_assoc in Hd. cbn in Hd. rewrite Hd in Hids. apply Hids. cbn.
    rewrite fmap_app. apply list.NoDup_app. split; [done|]. split; [|apply NoDup_singleton].
    intros j Hj ->%list_elem_of_singleton. apply list_elem_of_fmap_1 in Hj as (x & Hxi & Hx). cbn in Hxi.
    rewrite <- not_true_iff_false in Hclash. apply Hclash, existsb_exists. exists x.
    split; [by apply list_elem_of_In|]. apply orb_true_iff. left. by rewrite bool_decide_eq_true_2.
Qed.

Lemma queue_run tenant aid actor s item s' :
  queue_announcement tenant aid actor s = (Ok item, s') →
  ∃ draft new, draft ∈ announcements (ses_db s) ∧ ann_status draft = "DRAFT" ∧
    ann_id draft = aid ∧ ann_tenant_id draft = tenant ∧ ann_status item = "QUEUED" ∧
    deliveries (ses_db s') = deliveries (ses_db s) ++ new ∧
    deliv_binding_id <$> new = audience tenant draft (ses_db s) ∧
    NoDup (audience tenant draft (ses_db s)) ∧ 1 ≤ Z.of_nat (length new) ≤ 10000 ∧
    announcements (ses_db s') = update_row aid
      (λ a, a <| ann_status := "QUEUED" |> <| ann_queued_at := Some (env_clock (ses_draws s)) |>)
      (announcements (ses_db s)) ∧
    (∀ x, x ∈ new → deliv_announcement_id x = aid ∧ deliv_status x = "QUEUED") ∧
    (NoDup (deliv_id <$> deliveries (ses_db s)) → NoDup (deliv_id <$> deliveries (ses_db s'))).
Proof.
  unfold queue_announcement, scalar. intros Hr. bind_query Hr. bind_some Hr draft Hd.
  apply head_Some_elem_of in Hd. rewrite elem_of_select, andb_true_iff, !bool_decide_eq_true in Hd.
  destruct Hd as (Hin & Hid & Hten). bind_guard Hr Hdraft. bind_query Hr. bind_guard Hr Hbot.
  bind_query Hr. bind_guard Hr Hsize. apply bind_inv_ok in Hr as (t & s1 & [[= ->] ->]%gets_inv & Hr).
  apply bind_inv_ok in Hr as (u & s1 & Hdel & Hr). bind_write Hr. unfold audit in Hr. db_inv.
  apply insert_deliveries in Hdel as (new & Hnew & Hb & Hst & Hnd & _ & Hann & Hids).
  apply negb_false_iff, bool_decide_eq_true in Hdraft.
  apply orb_false_iff in Hsize as [Hs1 Hs2]. apply Z.eqb_neq in Hs1. apply Z.ltb_ge in Hs2.
  match type of Hs2 with context [take ?n ?a] => assert (take n a = a) as Htake
    by (apply take_ge; rewrite length_take in Hs2; lia) end.
  rewrite Htake in *. exists draft, new. cbn. rewrite Hann, <- Hb, length_fmap in *.
  split_and!; try done; lia.
Qed.

End announcements.

(** A campaign is queued once, for everybody it is for.  When
    [queue_announcement] returns, the announcement was a draft and is QUEUED,
    and exactly one new delivery exists for each member of its audience, of
    which there are between 1 and 10,000: the audience is never truncated. *)
Theorem queue_announcement_exact `{Env} tenant aid actor s item s' :
  queue_announcement tenant aid actor s = (Ok item, s') →
  ∃ draft new, draft ∈ announcements (ses_db s) ∧ ann_status draft = "DRAFT" ∧
    ann_id draft = aid ∧ ann_tenant_id draft = tenant ∧ ann_status item = "QUEUED" ∧
    deliveries (ses_db s') = deliveries (ses_db s) ++ new ∧
    deliv_binding_id <$> new = audience tenant draft (ses_db s) ∧
    NoDup (audience tenant draft (ses_db s)) ∧ 1 ≤ Z.of_nat (length new) ≤ 10000 ∧
    ∀ a, a ∈ announcements (ses_db s') → ann_id a = aid → ann_status a = "QUEUED".
Proof.
  intros (draft & new & Hin & Hst & Hid & Ht & Hi & Hd & Hb & Hnd & Hl & Ha & _)%queue_run.
  exists draft, new. split_and!; try done; try lia. rewrite Ha.
  intros a (b & Hb' & ->)%elem_of_update_where Haid. case_bool_decide as Hne; [done|].
  exfalso. apply Hne. exact Haid.
Qed.

Section demo_announcement.
Let t := mk_uuid "t".
Let bot := mk_uuid "b".

Definition announcement_demo : Session :=
  let d := empty_db
    <| announcements := [MkAnnouncement (mk_uuid "a-1") t bot "Sale" "Hi" "ALL" "DRAFT" None] |>
    <| bots := [MkBot bot t 77 None "Bot" "BOT_TOKEN" "VERIFIED" 1 None None None 1 "STABLE" true None []] |>
    <| telegram_users := [MkTenantTelegramUser (mk_uuid "tu-1") t (mk_uuid "u") bot 77 false;
                          MkTenantTelegramUser (mk_uuid "tu-2") t (mk_uuid "u2") bot 78 true] |> in
  MkSession d d 0 [].
End demo_announcement.

Lemma queue_announcement_exact_witness :
  ∃ item s', @queue_announcement demo_env (mk_uuid "t") (mk_uuid "a-1") (mk_uuid "staff")
      announcement_demo = (Ok item, s') ∧ length (deliveries (ses_db s')) = 1%nat ∧
    ann_status item = "QUEUED".
Proof.
  eexists _, _. split; [vm_compute; reflexivity|]. split; [reflexivity|].
  edestruct (@queue_announcement_exact demo_env (mk_uuid "t") (mk_uuid "a-1") (mk_uuid "staff")
    announcement_demo) as (draft & new & _ & _ & _ & _ & Hst & _); [vm_compute; reflexivity|].
  exact Hst.
Defined.
