(* ===== verification/Router.v ===== *)
(** * Provider routing

    [packages/providers/router.py], class [ProviderRouter], with the part of
    [packages/providers/clients/registry.py] it goes through: which supplier
    mappings of a product are eligible, in which order they are tried, and the
    failover loop that places one order upstream. *)

From Stdlib Require Import ZArith Lia Ascii String Sorting.Sorted.
From stdpp Require Import base tactics list option strings numbers.
From S2P Require Import Prelude Tables Text Money Exceptions StateMachines Models.

Local Open Scope Z_scope.

(** ** Adapters

    The upstream side is a parameter.  A [ProviderDefinition] is the manifest
    an adapter registers with [ProviderClientRegistry] (the fields the router
    reads); [Adapters] gives the registry's definitions, validators and
    resolvers, the secret storage, the answer of an adapter's [create_order]
    and [get_order] given everything that was sent before, and the rank of the
    double [-math.log(unit) / weight] for a digest prefix and a weight. *)

Record ProviderDefinition := MkProviderDefinition {
  def_key : string;
  def_categories : list ProviderCategory;
  def_required_credentials : list string;
  def_capabilities : ProviderCategory → list string;
}.

Record ProviderOrderCheck := MkProviderOrderCheck {
  check_external_order_id : string;
  check_is_completed : bool;
  check_is_failed : bool;
  check_canonical_state : ProviderOrderState;
  check_raw_data : dict;
  check_delivery : list json;
}.

Class Adapters := {
  reg_definitions : string → option ProviderDefinition;
  reg_config_validator : string → option (dict → ProviderCategory → outcome exn unit);
  reg_capability_resolver : string → option (dict → ProviderCategory → list string);
  reg_credential_resolver : string → option (dict → list string);
  get_secret : string → option string;
  client_create_order : list Sent → Provider → dict → ProviderOrderRequest →
                        outcome exn ProviderOrderResponse;
  client_get_order : list Sent → Provider → dict → string → outcome exn ProviderOrderCheck;
  score_rank : string → Z → Z;
}.

Definition category_value (c : ProviderCategory) : string :=
  match c with
  | CatNumber => "NUMBER" | CatAccount => "ACCOUNT" | CatGift => "GIFT"
  | CatDigitalProduct => "DIGITAL_PRODUCT" | CatService => "SERVICE" | CatOther => "OTHER"
  end.

(** ** [ProviderClientRegistry] *)

Section registry.
  Context `{Adapters}.

Definition adapter_key (provider_type : string) : string := upper (strip provider_type).

Definition get_definition (provider_type : string) : outcome exn ProviderDefinition :=
  match reg_definitions (adapter_key provider_type) with
  | Some d => Ok d
  | None => Raise (provider_exn ProviderError)
  end.

Definition validate_config (provider_type : string) (metadata : dict)
    (category : ProviderCategory) : outcome exn unit :=
  match get_definition (adapter_key provider_type) with
  | Raise e => Raise e
  | Ok d =>
      if existsb (λ c, c == category) (def_categories d) then
        match reg_config_validator (adapter_key provider_type) with
        | Some validator => validator metadata category
        | None => Ok tt
        end
      else Raise (provider_exn ProviderConfigurationError)
  end.

Definition capabilities_for (provider_type : string) (category : ProviderCategory)
    (metadata : dict) : outcome exn (list string) :=
  match get_definition (adapter_key provider_type) with
  | Raise e => Raise e
  | Ok d =>
      match reg_capability_resolver (adapter_key provider_type) with
      | Some resolver => Ok (resolver metadata category)
      | None => Ok (def_capabilities d category)
      end
  end.

Definition required_credentials_for (provider_type : string) (metadata : dict)
  : outcome exn (list string) :=
  match reg_credential_resolver (adapter_key provider_type) with
  | Some resolver => Ok (resolver metadata)
  | None =>
      match get_definition (adapter_key provider_type) with
      | Ok d => Ok (def_required_credentials d)
      | Raise e => Raise e
      end
  end.

(** ** [build_provider_config] *)

Definition provider_credentials (p : Provider) (d : DB) : list ProviderCredential :=
  select (λ c, cred_provider_id c == prov_id p) (credentials d).

Fixpoint resolve_secrets (l : list ProviderCredential) (acc : dict) : outcome exn dict :=
  match l with
  | [] => Ok acc
  | c :: l =>
      match get_secret (cred_secret_ref c) with
      | Some v => resolve_secrets l (dict_set (cred_credential_type c) (JStr v) acc)
      | None => Raise (provider_exn ProviderAuthenticationError)
      end
  end.

Definition build_provider_config (p : Provider) : M dict :=
  definition ← of_outcome (get_definition (prov_provider_type p));
  of_outcome (validate_config (prov_provider_type p) (prov_metadata_json p) (prov_category p));;
  creds ← query (provider_credentials p);
  required ← of_outcome (required_credentials_for (prov_provider_type p) (prov_metadata_json p));
  raise_if (negb (forallb (λ key, existsb (λ c, upper (cred_credential_type c) == key) creds) required))
    (provider_exn ProviderConfigurationError);;
  secrets ← of_outcome (resolve_secrets creds []);
  capabilities ← of_outcome (capabilities_for (prov_provider_type p) (prov_category p)
                               (prov_metadata_json p));
  mret (dict_set "capabilities" (JList (map JStr capabilities))
         (dict_set "adapter_key" (JStr (adapter_key (def_key definition)))
           (dict_set "provider_category" (JStr (category_value (prov_category p)))
             (dict_set "credentials" (JObj secrets) (prov_metadata_json p))))).

End registry.

(** ** Eligible mappings *)

(** A mapping together with [mapping.provider]. *)
Definition Candidate : Type := ProviderProductMapping * Provider.

Record RoutingDirective := MkRoutingDirective {
  dir_strategy : ProviderRoutingStrategy;
  dir_preferred_provider_id : option UUID;
  dir_failover_enabled : bool;
  dir_weights_json : dict;
}.

Definition directive_of (p : ProviderRoutingPolicy) : RoutingDirective :=
  MkRoutingDirective (pol_strategy p) (pol_preferred_provider_id p) (pol_failover_enabled p)
    (pol_weights_json p).

(** The arguments of a routing request.  An absent and an empty set of
    allowed providers or categories are both the empty list: the code tests
    them for truth. *)
Record RouteQuery := MkRouteQuery {
  rq_tenant_id : UUID;
  rq_product_id : UUID;
  rq_variant_id : option UUID;
  rq_routing_key : option string;
  rq_allowed_provider_ids : list UUID;
  rq_allowed_categories : list ProviderCategory;
  rq_strategy_override : option ProviderRoutingStrategy;
  rq_preferred_provider_id : option UUID;
  rq_failover_enabled : option bool;
}.

Global Instance RouteQuery_eta : Eta RouteQuery := λ r,
  MkRouteQuery (rq_tenant_id r) (rq_product_id r) (rq_variant_id r) (rq_routing_key r)
    (rq_allowed_provider_ids r) (rq_allowed_categories r) (rq_strategy_override r)
    (rq_preferred_provider_id r) (rq_failover_enabled r).

Section router.
  Context `{Env} `{Adapters} (max_consecutive_failures : Z).

(** The [WHERE] clauses of the mapping query. *)
Definition mapping_selected (q : RouteQuery) (c : Candidate) : bool :=
  let '(m, p) := c in
  (map_tenant_id m == rq_tenant_id q) && (map_product_id m == rq_product_id q)
  && map_is_enabled m && prov_is_enabled p
  && ((rq_allowed_provider_ids q == [])
      || existsb (λ i, i == prov_id p) (rq_allowed_provider_ids q))
  && ((rq_allowed_categories q == [])
      || existsb (λ k, k == prov_category p) (rq_allowed_categories q))
  && match rq_variant_id q with
     | Some v => (map_product_variant_id m == Some v) || (map_product_variant_id m == None)
     | None => true
     end.

(** [JOIN providers ON mapping.provider_id = provider.id] *)
Definition joined (d : DB) : list Candidate :=
  omap (λ m, p ← get_row (map_provider_id m) (providers d); Some (m, p)) (mappings d).

Definition healthy_enough (c : Candidate) : bool :=
  (prov_health_status c.2 != UNAVAILABLE)
  && negb (max_consecutive_failures <=? prov_consecutive_failures c.2).

(** [offer_snapshots.get(mapping.id)], fresh at [t] or not at all. *)
Definition _snapshot_is_fresh (t : Z) (snapshot : option ProviderOfferSnapshot) : bool :=
  match snapshot with
  | Some o => t <? offer_expires_at o
  | None => false
  end.

Definition snapshot_of (snapshots : list ProviderOfferSnapshot) (m : ProviderProductMapping)
  : option ProviderOfferSnapshot :=
  head (rev (select (λ o, offer_mapping_id o == map_id m) snapshots)).

Definition offered (t : Z) (snapshots : list ProviderOfferSnapshot) (c : Candidate) : bool :=
  match snapshot_of snapshots c.1 with
  | Some o => negb (_snapshot_is_fresh t (Some o) && negb (offer_is_available o))
  | None => true
  end.

Definition load_snapshots (q : RouteQuery) (eligible : list Candidate) (d : DB)
  : list ProviderOfferSnapshot :=
  select (λ o, (offer_tenant_id o == rq_tenant_id q)
               && existsb (λ c : Candidate, map_id c.1 == offer_mapping_id o) eligible) (offers d).

Definition scope_policies (q : RouteQuery) (variant : option UUID) (d : DB)
  : list ProviderRoutingPolicy :=
  select (λ p, (pol_tenant_id p == rq_tenant_id q) && (pol_product_id p == rq_product_id q)
               && (pol_product_variant_id p == variant)) (policies d).

Definition _routing_policy (q : RouteQuery) : M (option ProviderRoutingPolicy) :=
  specific ← match rq_variant_id q with
             | Some v => scalar (scope_policies q (Some v))
             | None => mret None
             end;
  match specific with
  | Some p => mret (Some p)
  | None => scalar (scope_policies q None)
  end.

(** ** Ordering *)

Definition _effective_cost (t : Z) (snapshots : list ProviderOfferSnapshot)
    (m : ProviderProductMapping) : dec * string :=
  match snapshot_of snapshots m with
  | Some o =>
      if _snapshot_is_fresh t (Some o) then (offer_cost_amount o, upper (offer_cost_currency o))
      else (map_cost_price m, upper (map_cost_currency m))
  | None => (map_cost_price m, upper (map_cost_currency m))
  end.

Definition _health_rank (p : Provider) : Z :=
  match prov_health_status p with
  | HEALTHY => 0 | HealthUnknown => 1 | DEGRADED => 2 | UNAVAILABLE => 3
  end.

Definition _weighted_score (routing_key : string) (m : ProviderProductMapping) (weight : Z) : Z :=
  score_rank
    (prefix_of 16 (env_sha256 (routing_key +:+ ":" +:+ uuid_str (map_provider_id m) +:+ ":"
                               +:+ map_external_product_id m)))
    (Z.max weight 1).

(** [weight_for] *)
Definition weight_for (weights : dict) (m : ProviderProductMapping) : Z :=
  let value :=
    match dict_get (uuid_str (map_provider_id m)) weights with
    | None => 1
    | Some (JInt n) => n
    | Some (JBool b) => Z.b2z b
    | Some (JStr s) => default 1 (int_of_str s)
    | Some _ => 1
    end in
  Z.max 1 (Z.min value 1000).

Definition priority_of (c : Candidate) : Z :=
  default (prov_priority c.2) (map_priority_override c.1).

Definition by_provider_id (a b : Candidate) : bool :=
  uuid_leb (map_provider_id a.1) (map_provider_id b.1).

(** [last_health_latency_ms], absent being infinite. *)
Definition by_latency (rest : Candidate → Candidate → bool) : Candidate → Candidate → bool :=
  then_by (λ c, if prov_last_health_latency_ms c.2 then 0 else 1)
    (then_by (λ c, default 0 (prov_last_health_latency_ms c.2)) rest).

Section order.
  Context (t : Z) (snapshots : list ProviderOfferSnapshot) (comparable : bool).

Definition cost_key (c : Candidate) : Z :=
  if comparable then (_effective_cost t snapshots c.1).1 else 0.

Definition priority_order : Candidate → Candidate → bool :=
  then_by priority_of (then_by cost_key by_provider_id).

Definition lowest_cost_order : Candidate → Candidate → bool :=
  then_by (λ c, (_effective_cost t snapshots c.1).1) (then_by priority_of by_provider_id).

Definition availability_order : Candidate → Candidate → bool :=
  then_by (λ c, _health_rank c.2)
    (then_by (λ c, prov_consecutive_failures c.2) (then_by priority_of by_provider_id)).

Definition healthiest_order : Candidate → Candidate → bool :=
  then_by (λ c, _health_rank c.2)
    (then_by (λ c, prov_consecutive_failures c.2) (by_latency (then_by cost_key by_provider_id))).

Definition weighted_order (routing_key : string) (weights : dict)
  : Candidate → Candidate → bool :=
  then_by (λ c, _weighted_score routing_key c.1 (weight_for weights c.1)) by_provider_id.

End order.

(** [len({currency ...}) <= 1] *)
Definition comparable_costs (t : Z) (snapshots : list ProviderOfferSnapshot)
    (l : list Candidate) : bool :=
  match map (λ c : Candidate, (_effective_cost t snapshots c.1).2) l with
  | [] => true
  | k :: ks => forallb (λ k', k' == k) ks
  end.

Definition _order_mappings (t : Z) (l : list Candidate) (policy : option RoutingDirective)
    (routing_key : string) (snapshots : list ProviderOfferSnapshot)
  : outcome exn (list Candidate) :=
  let comparable := comparable_costs t snapshots l in
  match policy with
  | None => Ok (sort_by (priority_order t snapshots comparable) l)
  | Some p =>
      match dir_strategy p with
      | RoutePriority => Ok (sort_by (priority_order t snapshots comparable) l)
      | RouteLowestCost =>
          if comparable then Ok (sort_by (lowest_cost_order t snapshots) l)
          else Raise (provider_exn ProviderConfigurationError)
      | RouteAvailability => Ok (sort_by availability_order l)
      | RouteHealthiest => Ok (sort_by (healthiest_order t snapshots comparable) l)
      | RouteManual =>
          match dir_preferred_provider_id p with
          | None => Ok []
          | Some i =>
              let preferred := select (λ c : Candidate, map_provider_id c.1 == i) l in
              let others := select (λ c : Candidate, map_provider_id c.1 != i) l in
              match preferred with
              | [] => Ok []
              | _ => Ok (preferred ++ sort_by (priority_order t snapshots comparable) others)
              end
          end
      | RouteWeighted => Ok (sort_by (weighted_order routing_key (dir_weights_json p)) l)
      end
  end.

(** The health filter, then the offer filter (only run when something is
    left). *)
Definition eligible_candidates (t : Z) (q : RouteQuery) (d : DB)
  : list Candidate * list ProviderOfferSnapshot :=
  let healthy := select healthy_enough (select (mapping_selected q) (joined d)) in
  let snapshots := load_snapshots q healthy d in
  (select (offered t snapshots) healthy, snapshots).

Definition effective_policy (q : RouteQuery) (stored : option ProviderRoutingPolicy)
  : option RoutingDirective :=
  match rq_strategy_override q with
  | Some s => Some (MkRoutingDirective s (rq_preferred_provider_id q)
                      (default true (rq_failover_enabled q)) [])
  | None => directive_of <$> stored
  end.

Definition effective_routing_key (q : RouteQuery) : string :=
  if truthy (rq_routing_key q) then default "" (rq_routing_key q)
  else "preview:" +:+ uuid_str (rq_tenant_id q) +:+ ":" +:+ uuid_str (rq_product_id q) +:+ ":"
       +:+ match rq_variant_id q with Some v => uuid_str v | None => "default" end.

Definition get_eligible_mappings (q : RouteQuery) : M (list Candidate) :=
  t ← now;
  found ← query (eligible_candidates t q);
  stored ← _routing_policy q;
  let policy := effective_policy q stored in
  ordered ← of_outcome (_order_mappings t found.1 policy (effective_routing_key q) found.2);
  match policy with
  | Some p => if negb (dir_failover_enabled p) then mret (take 1 ordered) else mret ordered
  | None => mret ordered
  end.

(** ** The failover loop *)

(** [provider_record]: the row behind [mapping.provider] as it is now. *)
Definition live_provider (p : Provider) (d : DB) : Provider :=
  default p (get_row (prov_id p) (providers d)).

Definition update_provider (i : UUID) (f : Provider → Provider) : M unit :=
  write (λ d, d <| providers ::= update_row i f |>).

(** [ProviderOrderRequest(...)]; an empty key is replaced by a fresh one. *)
Definition order_request (m : ProviderProductMapping) (quantity : Z) (recipient key : string)
  : M ProviderOrderRequest :=
  key ← (if key == "" then u ← uuid4; mret (uuid_str u) else mret key);
  mret (MkProviderOrderRequest (map_external_product_id m) quantity recipient key []).

(** [except TimeoutError as exc: raise ProviderTimeoutError(...) from exc] *)
Definition timeout_as_provider_error {A} (answer : outcome exn A) : outcome exn A :=
  match answer with
  | Raise TimeoutError => Raise (provider_exn ProviderTimeoutError)
  | a => a
  end.

(** [client.create_order] under [asyncio.timeout]. *)
Definition call_create_order (p : Provider) (config : dict) (request : ProviderOrderRequest)
  : M (outcome exn ProviderOrderResponse) :=
  answer ← gets (λ s, client_create_order (ses_sent s) p config request);
  send (SentOrder (prov_id p) request);;
  mret (timeout_as_provider_error answer).

Definition reset_failures (p : Provider) : M unit :=
  if 0 <? prov_consecutive_failures p then
    update_provider (prov_id p)
      (λ r, r <| prov_consecutive_failures := 0 |> <| prov_health_status := HEALTHY |>)
  else mret tt.

Definition count_failure (p : Provider) : M unit :=
  let failures := prov_consecutive_failures p + 1 in
  update_provider (prov_id p)
    (λ r, r <| prov_consecutive_failures := failures |>
            <| prov_health_status ::= λ h, if max_consecutive_failures <=? failures then DEGRADED else h |>).

(** The exception that ends the loop when every mapping was tried. *)
Definition exhausted (last_exception : option exn) : exn :=
  match last_exception with
  | Some e => ProviderErrorFrom (from_option fst false (as_provider_error e)) e
  | None => provider_exn ProviderError
  end.

Fixpoint try_mappings (quantity : Z) (recipient key : string) (l : list Candidate)
    (last_exception : option exn) : M (Provider * ProviderProductMapping * ProviderOrderResponse) :=
  match l with
  | [] => mthrow (exhausted last_exception)
  | (m, p) :: l =>
      provider_record ← query (live_provider p);
      config ← build_provider_config provider_record;
      request ← order_request m quantity recipient key;
      answer ← call_create_order provider_record config request;
      match answer with
      | Ok response =>
          reset_failures provider_record;;
          provider_record ← query (live_provider provider_record);
          mret (provider_record, m, response)
      | Raise e =>
          match as_provider_error e with
          | Some (retryable, safe) =>
              count_failure provider_record;;
              if negb retryable || negb safe then mthrow e
              else try_mappings quantity recipient key l (Some e)
          | None => mthrow (ProviderErrorFrom false e)
          end
      end
  end.

Definition route_and_execute_order (q : RouteQuery) (quantity : Z)
    (recipient idempotency_key : string)
  : M (Provider * ProviderProductMapping * ProviderOrderResponse) :=
  candidates ← get_eligible_mappings (q <| rq_routing_key := Some idempotency_key |>);
  raise_if (length candidates =? 0)%nat (provider_exn ProviderProductUnavailableError);;
  try_mappings quantity recipient idempotency_key candidates None.

End router.
