(* ===== verification/RouterSpec.v ===== *)
(** * Provider routing: what the failover loop and the ordering guarantee *)

From Stdlib Require Import ZArith Lia Ascii String Sorting.Sorted.
From stdpp Require Import base tactics list option strings numbers.
From S2P Require Import Prelude Tables Text Money Exceptions StateMachines Models Router.

Local Open Scope Z_scope.

(** ** The failover loop *)

Section failover.
  Context `{Env} `{Adapters} (max_failures : Z).

Lemma config_reads p : steps eq (build_provider_config p).
Proof. unfold build_provider_config. steps_walk. Qed.

Lemma eligible_reads q : steps eq (get_eligible_mappings max_failures q).
Proof. unfold get_eligible_mappings, _routing_policy. steps_walk. Qed.

Lemma live_provider_id p d : prov_id (live_provider p d) = prov_id p.
Proof.
  unfold live_provider. destruct (get_row (prov_id p) (providers d)) as [r|] eqn:Hr; [|done].
  by apply get_row_Some in Hr as [_ Hr].
Qed.

(** The upstream side: whether a provider takes on an order, given everything
    it was sent before. *)
Context (accepts : list Sent → UUID → ProviderOrderRequest → bool).

(** An adapter answers with a retryable error that is safe to fail over only
    when the order was not accepted: the contract in the comment above the
    failover test. *)
Definition adapters_honest : Prop :=
  ∀ h p c r e, client_create_order h p c r = Raise e →
  as_provider_error e = Some (true, true) → accepts h (prov_id p) r = false.

(** How many of the orders sent after [h] were accepted. *)
Fixpoint accepted (h new : list Sent) : nat :=
  match new with
  | [] => 0
  | m :: new =>
      ((match m with
        | SentOrder i r => if accepts h i r then 1 else 0
        | _ => 0
        end) + accepted (h ++ [m]) new)%nat
  end.

(** The order that is placed for a mapping. *)
Definition placed_for (quantity : Z) (recipient key : string) (m : Sent) (c : Candidate) : Prop :=
  m = SentOrder (prov_id c.2) (MkProviderOrderRequest (map_external_product_id c.1) quantity
                                 recipient key []).

(** Only supplier health moves, and nothing is committed. *)
Definition health_only (s s' : Session) : Prop :=
  (ses_db s') <| providers := providers (ses_db s) |> = ses_db s
  ∧ ses_committed s' = ses_committed s.

Lemma health_only_trans s1 s2 s3 : health_only s1 s2 → health_only s2 s3 → health_only s1 s3.
Proof.
  intros [Hdb Hc] [Hdb' Hc']. split; [|congruence].
  transitivity ((ses_db s3) <| providers := providers (ses_db s2) |>
                            <| providers := providers (ses_db s1) |>); [by destruct (ses_db s3)|].
  by rewrite Hdb'.
Qed.

Record loop_post (quantity : Z) (recipient key : string) (l : list Candidate) (s : Session)
    (r : outcome exn (Provider * ProviderProductMapping * ProviderOrderResponse))
    (s' : Session) (new : list Sent) : Prop := {
  lp_sent : ses_sent s' = ses_sent s ++ new;
  lp_once : (accepted (ses_sent s) new ≤ 1)%nat;
  lp_order : Forall2 (placed_for quantity recipient key) new (take (length new) l);
  lp_health : health_only s s';
  lp_answer : ∀ p m resp, r = Ok (p, m, resp) →
    ∃ before config p0, let req := MkProviderOrderRequest (map_external_product_id m) quantity
                                     recipient key [] in
    new = before ++ [SentOrder (prov_id p) req] ∧ prov_id p0 = prov_id p
    ∧ client_create_order (ses_sent s ++ before) p0 config req = Ok resp;
}.

Lemma update_provider_health i f s : health_only s (update_provider i f s).2.
Proof. split; [by destruct s as [[] ?]|done]. Qed.

(** Bookkeeping on a provider: it returns, moves supplier health only and
    sends nothing. *)
Definition bookkeeping (m : M unit) : Prop :=
  ∀ s, ∃ s', m s = (Ok tt, s') ∧ health_only s s' ∧ ses_sent s' = ses_sent s.

Lemma reset_failures_books p : bookkeeping (reset_failures p).
Proof.
  intros s. unfold reset_failures. destruct (0 <? prov_consecutive_failures p).
  - eexists. split; [done|]. split; [apply update_provider_health|done].
  - exists s. split; [done|]. split; [by destruct s as [[] ?]|done].
Qed.

Lemma count_failure_books p : bookkeeping (count_failure max_failures p).
Proof. intros s. eexists. split; [done|]. split; [apply update_provider_health|done]. Qed.

Lemma order_request_key m quantity recipient key s :
  key ≠ "" →
  order_request m quantity recipient key s
  = (Ok (MkProviderOrderRequest (map_external_product_id m) quantity recipient key []), s).
Proof. intros Hk. unfold order_request. by rewrite bool_decide_eq_false_2. Qed.

(** What [call_create_order] answers is the adapter's answer, a timeout
    apart. *)
Lemma call_create_order_run p config req s :
  call_create_order p config req s
  = (Ok (timeout_as_provider_error (client_create_order (ses_sent s) p config req)),
     s <| ses_sent ::= λ l, l ++ [SentOrder (prov_id p) req] |>).
Proof. done. Qed.

Lemma accepted_app h a b : accepted h (a ++ b) = (accepted h a + accepted (h ++ a) b)%nat.
Proof.
  revert h. induction a as [|x a IH]; intros h; cbn; [by rewrite app_nil_r|].
  rewrite IH, <- app_assoc. cbn. lia.
Qed.

(** A failure the loop moves on from was not accepted. *)
Lemma safe_failure_not_accepted h p c r e :
  adapters_honest →
  timeout_as_provider_error (client_create_order h p c r) = Raise e →
  as_provider_error e = Some (true, true) → accepts h (prov_id p) r = false.
Proof.
  intros Hhonest Ha Hsafe. destruct (client_create_order h p c r) as [?|e0] eqn:Hc; [done|].
  assert (e = e0) as -> by (destruct e0; cbn in Ha; injection Ha as <-; done). eauto.
Qed.

Lemma accepted_one h m : (accepted h [m] ≤ 1)%nat.
Proof. cbn. destruct m; try destruct (accepts _ _ _); lia. Qed.

Lemma loop_stops quantity recipient key l s e :
  loop_post quantity recipient key l s (Raise e) s [].
Proof. split; cbn; [by rewrite app_nil_r|lia|constructor|by destruct s as [[] ?]|done]. Qed.

(** One order placed at the head of the list, and then the loop ends. *)
Lemma loop_last quantity recipient key m p l s r s' :
  let req := MkProviderOrderRequest (map_external_product_id m) quantity recipient key [] in
  ses_sent s' = ses_sent s ++ [SentOrder (prov_id p) req] →
  health_only s s' →
  (∀ p' m' resp, r = Ok (p', m', resp) →
     m' = m ∧ prov_id p' = prov_id p
     ∧ ∃ config p0, prov_id p0 = prov_id p ∧ client_create_order (ses_sent s) p0 config req = Ok resp) →
  loop_post quantity recipient key ((m, p) :: l) s r s' [SentOrder (prov_id p) req].
Proof.
  intros req Hsent Hh Hok. split; [done|apply accepted_one| |done|].
  - cbn. rewrite take_0. by repeat constructor.
  - intros p' m' resp Hr. destruct (Hok _ _ _ Hr) as (-> & Hp & config & p0 & Hp0 & Hc).
    exists [], config, p0. rewrite app_nil_r, Hp. done.
Qed.

(** A safe failure, and then the rest of the loop. *)
Lemma loop_next quantity recipient key m p l s s1 r s' new :
  let first := SentOrder (prov_id p) (MkProviderOrderRequest (map_external_product_id m) quantity
                                        recipient key []) in
  ses_sent s1 = ses_sent s ++ [first] → health_only s s1 →
  accepted (ses_sent s) [first] = 0%nat →
  loop_post quantity recipient key l s1 r s' new →
  loop_post quantity recipient key ((m, p) :: l) s r s' (first :: new).
Proof.
  intros first Hs Hh Hzero [Hsent Honce Horder Hhealth Hans]. split.
  - by rewrite Hsent, Hs, <- app_assoc.
  - change (first :: new) with ([first] ++ new). rewrite accepted_app, Hzero, <- Hs. exact Honce.
  - cbn. by constructor.
  - exact (health_only_trans _ _ _ Hh Hhealth).
  - intros p' m' resp Hr. destruct (Hans _ _ _ Hr) as (before & config & p0 & -> & Hp & Hc).
    exists (first :: before), config, p0. split; [done|]. split; [done|].
    by rewrite Hs, <- app_assoc in Hc.
Qed.

Lemma try_mappings_spec quantity recipient key l last_exception s :
  key ≠ "" → adapters_honest →
  wp (try_mappings max_failures quantity recipient key l last_exception)
     (λ r s', ∃ new, loop_post quantity recipient key l s r s' new) s.
Proof.
  intros Hkey Hhonest. revert last_exception s.
  induction l as [|[m p] l IH]; intros le s; cbn [try_mappings].
  { apply wp_throw. exists []. apply loop_stops. }
  apply wp_gets. set (p' := live_provider p (ses_db s)).
  assert (prov_id p' = prov_id p) as Hid by apply live_provider_id.
  apply wp_read; [apply config_reads| |intros e _; exists []; apply loop_stops].
  intros config _. eapply wp_step; [by apply order_request_key|].
  eapply wp_step; [apply call_create_order_run|].
  set (req := MkProviderOrderRequest _ _ _ _ _).
  set (s1 := s <| ses_sent ::= _ |>).
  assert (health_only s s1) as Hh1 by (by destruct s as [[] ?]).
  assert (ses_sent s1 = ses_sent s ++ [SentOrder (prov_id p) req]) as Hs1
    by (subst s1; cbn; by rewrite Hid).
  destruct (timeout_as_provider_error _) as [resp|e] eqn:Hans.
  - destruct (reset_failures_books p' s1) as (s2 & Hr & Hh2 & Hs2).
    eapply wp_step; [exact Hr|]. apply wp_gets, wp_ret. eexists. apply loop_last.
    + by rewrite Hs2.
    + exact (health_only_trans _ _ _ Hh1 Hh2).
    + intros ? ? ? [= <- <- <-]. rewrite live_provider_id. split; [done|]. split; [done|].
      exists config, p'. split; [done|]. by destruct (client_create_order _ _ _ _) as [|[]].
  - destruct (as_provider_error e) as [[retryable safe]|] eqn:He.
    2:{ apply wp_throw. eexists. by apply loop_last. }
    destruct (count_failure_books p' s1) as (s2 & Hr & Hh2 & Hs2).
    assert (ses_sent s2 = ses_sent s ++ [SentOrder (prov_id p) req]) as Hsent by congruence.
    pose proof (health_only_trans _ _ _ Hh1 Hh2) as Hh.
    eapply wp_step; [exact Hr|]. destruct (negb retryable || negb safe) eqn:Hstop.
    { apply wp_throw. eexists. by apply loop_last. }
    apply orb_false_iff in Hstop as [->%negb_false_iff ->%negb_false_iff].
    eapply wp_mono; [apply IH|]. intros r s' [new Hnew]. eexists.
    eapply loop_next; [exact Hsent|exact Hh| |exact Hnew].
    cbn. rewrite <- Hid. by erewrite safe_failure_not_accepted.
Qed.

(** The candidates of a routing request, none when the query itself raises. *)
Definition candidates_of (q : RouteQuery) (s : Session) : list Candidate :=
  match (get_eligible_mappings max_failures q s).1 with
  | Ok l => l
  | Raise _ => []
  end.

(** [C19] One call of [route_and_execute_order] makes upstream suppliers take
    on at most one order.  With adapters that report a failure as retryable
    and safe to fail over only when the supplier did not accept the order:
    the orders sent go to a prefix of the eligible mappings in policy order,
    one each, all with the caller's idempotency key; at most one of them was
    accepted; when the call returns, the response is the answer to the last
    one; and apart from supplier health nothing in the database changes. *)
Theorem failover_single_order q quantity recipient key s r s' :
  key ≠ "" → adapters_honest →
  route_and_execute_order max_failures q quantity recipient key s = (r, s') →
  ∃ new, loop_post quantity recipient key
           (candidates_of (q <| rq_routing_key := Some key |>) s) s r s' new.
Proof.
  intros Hkey Hhonest Hrun. unfold candidates_of.
  eapply (wp_run _ (λ r s', ∃ new, loop_post _ _ _ _ s r s' new)); [|exact Hrun].
  unfold route_and_execute_order.
  apply wp_read; [apply eligible_reads| |intros e _; exists []; apply loop_stops].
  intros l Hl. rewrite Hl. cbn [fst].
  apply wp_guard; [intros _|intros _; exists []; apply loop_stops].
  by apply try_mappings_spec.
Qed.

End failover.

(** A supplier that is rate limited, and one that delivers. *)
Definition demo_mapping (i : string) (p : Provider) (cost : dec) : ProviderProductMapping :=
  MkProviderProductMapping (mk_uuid i) (prov_tenant_id p) (prov_id p) (mk_uuid "product") None
    ("ext-" +:+ i) true cost "USD" None [].

Definition demo_provider (i : string) (priority : Z) : Provider :=
  MkProvider (mk_uuid i) (mk_uuid "tenant") i i "MOCK" CatDigitalProduct true priority HEALTHY 0
    None None None [].

Definition routing_db : DB :=
  empty_db <| providers := [demo_provider "slow" 1; demo_provider "fast" 2] |>
           <| mappings := [demo_mapping "m2" (demo_provider "fast" 2) (cents 500);
                           demo_mapping "m1" (demo_provider "slow" 1) (cents 700)] |>.

Definition routing_session : Session := MkSession routing_db routing_db 0 [].

Definition delivered (cost : dec) : ProviderOrderResponse :=
  MkProviderOrderResponse "upstream-1" OsCompleted cost [] [].

Definition demo_adapters : Adapters := {|
  reg_definitions k :=
    if k == "MOCK" then Some (MkProviderDefinition "MOCK" [CatDigitalProduct] [] (λ _, [])) else None;
  reg_config_validator _ := None;
  reg_capability_resolver _ := None;
  reg_credential_resolver _ := None;
  get_secret _ := None;
  client_create_order _ p _ _ :=
    if prov_id p == mk_uuid "slow" then Raise (provider_exn ProviderRateLimitError)
    else Ok (delivered (cents 500));
  client_get_order _ _ _ _ := Raise (provider_exn ProviderError);
  score_rank _ w := w;
|}.

Definition demo_query : RouteQuery :=
  MkRouteQuery (mk_uuid "tenant") (mk_uuid "product") None None [] [] None None None.

Definition demo_accepts (h : list Sent) (i : UUID) (r : ProviderOrderRequest) : bool :=
  i != mk_uuid "slow".

Lemma demo_adapters_honest : @adapters_honest demo_adapters demo_accepts.
Proof.
  intros h p c r e. cbn. unfold demo_accepts.
  by destruct (bool_decide_reflect (prov_id p = mk_uuid "slow")).
Qed.

Definition routed_demo : outcome exn _ * Session :=
  @route_and_execute_order demo_env demo_adapters 3 demo_query 1 "buyer" "key-1" routing_session.

Lemma failover_single_order_witness :
  is_ok routed_demo.1 = true ∧ length (ses_sent routed_demo.2) = 2%nat
  ∧ ∃ new, @loop_post demo_adapters demo_accepts 1 "buyer" "key-1"
             (@candidates_of demo_env demo_adapters 3
                (demo_query <| rq_routing_key := Some "key-1" |>) routing_session)
             routing_session routed_demo.1 routed_demo.2 new.
Proof.
  split; [vm_compute; reflexivity|]. split; [vm_compute; reflexivity|].
  apply (@failover_single_order demo_env demo_adapters 3 demo_accepts demo_query);
    [discriminate|apply demo_adapters_honest|apply surjective_pairing].
Defined.

(** ** Eligibility and order *)

Section ordering.
  Context `{Env} `{Adapters} (max_failures : Z).

(** The policy [_routing_policy] finds. *)
Definition stored_policy (q : RouteQuery) (d : DB) : option ProviderRoutingPolicy :=
  match rq_variant_id q with
  | Some v =>
      match head (scope_policies q (Some v) d) with
      | Some p => Some p
      | None => head (scope_policies q None d)
      end
  | None => head (scope_policies q None d)
  end.

Lemma routing_policy_run q s : _routing_policy q s = (Ok (stored_policy q (ses_db s)), s).
Proof.
  unfold _routing_policy, stored_policy. destruct (rq_variant_id q) as [v|]; [|done].
  unfold scalar, query, gets, mbind, prog_bind, mret, prog_ret. cbn.
  by destruct (head (scope_policies q (Some v) (ses_db s))).
Qed.

(** Why a candidate may be tried. *)
Record may_be_tried (t : Z) (q : RouteQuery) (d : DB) (c : Candidate) : Prop := {
  tried_mapping : c.1 ∈ mappings d;
  tried_provider : get_row (map_provider_id c.1) (providers d) = Some c.2;
  tried_scope : mapping_selected q c = true;
  tried_health : prov_health_status c.2 ≠ UNAVAILABLE;
  tried_failures : prov_consecutive_failures c.2 < max_failures;
}.

(** What the strategy of a policy promises about the first candidate [c] and
    any other eligible one [c']. *)
Definition precedes (t : Z) (snapshots : list ProviderOfferSnapshot) (routing_key : string)
    (policy : option RoutingDirective) (c c' : Candidate) : Prop :=
  match policy with
  | None => priority_of c <= priority_of c'
  | Some p =>
      match dir_strategy p with
      | RoutePriority => priority_of c <= priority_of c'
      | RouteLowestCost =>
          (_effective_cost t snapshots c.1).1 <= (_effective_cost t snapshots c'.1).1
          ∧ (_effective_cost t snapshots c.1).2 = (_effective_cost t snapshots c'.1).2
      | RouteAvailability | RouteHealthiest =>
          _health_rank c.2 < _health_rank c'.2
          ∨ _health_rank c.2 = _health_rank c'.2
            ∧ prov_consecutive_failures c.2 <= prov_consecutive_failures c'.2
      | RouteManual => dir_preferred_provider_id p = Some (map_provider_id c.1)
      | RouteWeighted =>
          _weighted_score routing_key c.1 (weight_for (dir_weights_json p) c.1)
          <= _weighted_score routing_key c'.1 (weight_for (dir_weights_json p) c'.1)
      end
  end.

Lemma elem_of_joined c d :
  c ∈ joined d → c.1 ∈ mappings d ∧ get_row (map_provider_id c.1) (providers d) = Some c.2.
Proof.
  unfold joined. rewrite list_elem_of_omap. intros (m & Hm & Hc).
  destruct (get_row (map_provider_id m) (providers d)) as [p|] eqn:Hp; [|done].
  by injection Hc as <-.
Qed.

Lemma eligible_may_be_tried t q d c :
  c ∈ (eligible_candidates max_failures t q d).1 → may_be_tried t q d c.
Proof.
  unfold eligible_candidates. cbn [fst]. rewrite !elem_of_select.
  intros [[[[Hm Hp]%elem_of_joined Hsel] Hh] _].
  unfold healthy_enough in Hh. rewrite andb_true_iff, negb_true_iff, negb_true_iff in Hh.
  destruct Hh as [Hh Hf%Z.leb_gt]. apply bool_decide_eq_false in Hh. by split.
Qed.

Lemma then_by_le {A} (key : A → Z) rest a b : then_by key rest a b = true → key a <= key b.
Proof. unfold then_by. rewrite orb_true_iff, andb_true_iff. lia. Qed.

Lemma then_by_lex {A} (k1 k2 : A → Z) rest a b :
  then_by k1 (then_by k2 rest) a b = true → k1 a < k1 b ∨ k1 a = k1 b ∧ k2 a <= k2 b.
Proof.
  intros Hab. unfold then_by at 1 in Hab. rewrite orb_true_iff, andb_true_iff in Hab.
  destruct Hab as [?|[? ?%then_by_le]]; [left; lia|right; lia].
Qed.

Lemma by_provider_ordering : ordering by_provider_id.
Proof. apply (uuid_ordering (λ c : Candidate, map_provider_id c.1)). Qed.

Hint Resolve by_provider_ordering then_by_ordering : core.

Lemma healthiest_ordering t snapshots comparable : ordering (healthiest_order t snapshots comparable).
Proof. unfold healthiest_order, by_latency. auto 8. Qed.

Lemma comparable_costs_eq t snapshots l c c' :
  comparable_costs t snapshots l = true → c ∈ l → c' ∈ l →
  (_effective_cost t snapshots c.1).2 = (_effective_cost t snapshots c'.1).2.
Proof.
  unfold comparable_costs. intros Hall Hc Hc'.
  set (f := λ c : Candidate, (_effective_cost t snapshots c.1).2) in *.
  apply (list_elem_of_fmap_2 f) in Hc, Hc'. change (f c = f c').
  change (f <$> l) with (map f l) in *. destruct (map f l) as [|k ks]; [by apply not_elem_of_nil in Hc|].
  rewrite forallb_forall in Hall.
  assert (∀ x, x ∈ k :: ks → x = k) as Hk.
  { intros x [->|Hx]%elem_of_cons; [done|]. by apply list_elem_of_In, Hall, bool_decide_eq_true in Hx. }
  by rewrite (Hk _ Hc), (Hk _ Hc').
Qed.

Lemma select_partition {A} (f : A → bool) l : select f l ++ select (λ x, negb (f x)) l ≡ₚ l.
Proof.
  induction l as [|x l IH]; [done|]. cbn. destruct (f x); cbn.
  - by rewrite IH.
  - rewrite <- Permutation_middle. by rewrite IH.
Qed.

(** A sorted selection: everything is kept, and the first element precedes. *)
Lemma sorted_spec leb (P : Candidate → Candidate → Prop) l l' :
  ordering leb → l' = sort_by leb l → (∀ a b, a ∈ l → b ∈ l → leb a b = true → P a b) →
  l' ≡ₚ l ∧ ∀ c c', head l' = Some c → c' ∈ l → P c c'.
Proof.
  intros Hord -> HP. split; [apply sort_by_perm|]. intros c c' Hc Hc'.
  apply HP; [by eapply head_sort_elem|done|]. by eapply head_sorted.
Qed.

Definition is_manual (policy : option RoutingDirective) : bool :=
  match policy with Some p => dir_strategy p == RouteManual | None => false end.

Lemma order_mappings_sorted t l policy key snapshots l' :
  is_manual policy = false →
  _order_mappings t l policy key snapshots = Ok l' →
  l' ≡ₚ l ∧ ∀ c c', head l' = Some c → c' ∈ l → precedes t snapshots key policy c c'.
Proof.
  unfold _order_mappings. intros Hm Ho. destruct policy as [p|]; cbn in Ho, Hm.
  2:{ injection Ho as <-. eapply sorted_spec; [|done|]; [unfold priority_order; auto|].
      intros a b _ _ Hab%then_by_le. exact Hab. }
  unfold precedes. destruct (dir_strategy p); [ | | | | |done].
  - injection Ho as <-. eapply sorted_spec; [|done|]; [unfold priority_order; auto|].
    intros a b _ _ Hab%then_by_le. exact Hab.
  - destruct (comparable_costs t snapshots l) eqn:Hcmp; [|done]. injection Ho as <-.
    eapply sorted_spec; [|done|]; [unfold lowest_cost_order; auto|].
    intros a b Ha Hb Hab%then_by_le. split; [done|]. by eapply comparable_costs_eq.
  - injection Ho as <-. eapply sorted_spec; [|done|]; [unfold availability_order; auto|].
    intros a b _ _ Hab%then_by_lex. exact Hab.
  - injection Ho as <-. eapply sorted_spec; [|done|]; [apply healthiest_ordering|].
    intros a b _ _ Hab%then_by_lex. exact Hab.
  - injection Ho as <-. eapply sorted_spec; [|done|]; [unfold weighted_order; auto|].
    intros a b _ _ Hab%then_by_le. exact Hab.
Qed.

Lemma order_mappings_manual t l p key snapshots l' :
  dir_strategy p = RouteManual →
  _order_mappings t l (Some p) key snapshots = Ok l' →
  l' = [] ∨ l' ≡ₚ l ∧ ∀ c, head l' = Some c → dir_preferred_provider_id p = Some (map_provider_id c.1).
Proof.
  unfold _order_mappings. intros ->. destruct (dir_preferred_provider_id p) as [i|];
    [|intros [= <-]; auto].
  destruct (select _ l) as [|c cs] eqn:Hsel; intros [= <-]; [auto|]. right. split.
  - rewrite sort_by_perm, app_comm_cons, <- Hsel. apply select_partition.
  - intros ? [= <-]. assert (c ∈ select (λ c : Candidate, map_provider_id c.1 == i) l) as Hc
      by (rewrite Hsel; left).
    apply elem_of_select in Hc as [_ Hc%bool_decide_eq_true]. by rewrite Hc.
Qed.

(** Both cases: a sub-multiset, complete unless the policy is manual. *)
Lemma order_mappings_spec t l policy key snapshots l' :
  _order_mappings t l policy key snapshots = Ok l' →
  l' ⊆+ l ∧ (is_manual policy = false → l' ≡ₚ l)
  ∧ ∀ c c', head l' = Some c → c' ∈ l → precedes t snapshots key policy c c'.
Proof.
  intros Ho. destruct (is_manual policy) eqn:Hm.
  - destruct policy as [p|]; [|done]. apply bool_decide_eq_true in Hm.
    destruct (order_mappings_manual _ _ _ _ _ _ Hm Ho) as [->|[Hperm Hhead]].
    + split; [apply submseteq_nil_l|]. done.
    + split; [by rewrite Hperm|]. split; [done|]. intros c c' Hc _. unfold precedes. rewrite Hm. eauto.
  - destruct (order_mappings_sorted _ _ _ _ _ _ Hm Ho) as [Hperm Hhead].
    split; [by rewrite Hperm|]. auto.
Qed.

Definition failover_allowed (policy : option RoutingDirective) : bool :=
  match policy with Some p => dir_failover_enabled p | None => true end.

(** The routing policy decides who is tried and in which order.  A query
    for eligible mappings reads only.  Every mapping it returns belongs to the
    tenant and the product (and the variant, the allowed providers and the
    allowed categories), is enabled with an enabled provider that is neither
    unavailable nor over the failure threshold.  With failover every eligible
    mapping is returned unless the policy is manual, without it at most one.
    The first one is the policy's choice among all eligible ones: the lowest
    priority number, the lowest effective cost (all in one currency), the best
    health, the lowest weighted score, the preferred provider. *)
Theorem eligible_mappings_follow_policy q s l s' :
  get_eligible_mappings max_failures q s = (Ok l, s') →
  let t := env_clock (ses_draws s) in
  let found := eligible_candidates max_failures t q (ses_db s) in
  let policy := effective_policy q (stored_policy q (ses_db s)) in
  s' = s ∧ l ⊆+ found.1
  ∧ (∀ c, c ∈ l → may_be_tried t q (ses_db s) c)
  ∧ (if failover_allowed policy then is_manual policy = false → l ≡ₚ found.1
     else (length l ≤ 1)%nat)
  ∧ ∀ c c', head l = Some c → c' ∈ found.1 →
      precedes t found.2 (effective_routing_key q) policy c c'.
Proof.
  intros Hrun t found policy. pose proof (eligible_reads max_failures q s) as Hs.
  rewrite Hrun in Hs. cbn in Hs. split; [done|]. subst s'.
  unfold get_eligible_mappings in Hrun.
  apply bind_inv_ok in Hrun as (t' & s1 & [= <- <-] & Hrun). bind_query Hrun.
  rewrite (bind_ok _ _ _ _ _ (routing_policy_run q s)) in Hrun.
  bind_value Hrun ordered Ho. fold t found policy in Ho, Hrun.
  destruct (order_mappings_spec _ _ _ _ _ _ Ho) as (Hsub & Hperm & Hhead).
  assert (if failover_allowed policy then l = ordered else l = take 1 ordered) as Hl.
  { unfold failover_allowed. destruct policy as [p|]; [destruct (dir_failover_enabled p)|];
      cbn in Hrun; by injection Hrun. }
  assert (l ⊆+ ordered ∧ head l = head ordered) as [Hlo Hhd].
  { destruct (failover_allowed policy); subst l; [done|]. split; [apply submseteq_take|].
    by destruct ordered. }
  assert (l ⊆+ found.1) as Hlf by (by etrans).
  split; [done|]. split.
  { intros c Hc. apply eligible_may_be_tried. by eapply elem_of_submseteq. }
  split.
  - destruct (failover_allowed policy); subst l; [done|]. rewrite length_take. lia.
  - intros c c' Hc. rewrite Hhd in Hc. by apply Hhead.
Qed.

End ordering.

Definition cheapest_query : RouteQuery := demo_query <| rq_strategy_override := Some RouteLowestCost |>.

Definition cheapest_demo : list Candidate :=
  @candidates_of demo_env demo_adapters 3 cheapest_query routing_session.

Lemma eligible_mappings_follow_policy_witness :
  map (λ c : Candidate, prov_name c.2) cheapest_demo = ["fast"; "slow"]
  ∧ ∀ c c', head cheapest_demo = Some c →
      c' ∈ (@eligible_candidates 3 0 cheapest_query routing_db).1 →
      (_effective_cost 0 [] c.1).1 <= (_effective_cost 0 [] c'.1).1.
Proof.
  split; [vm_compute; reflexivity|]. intros c c' Hc Hc'.
  assert (@get_eligible_mappings demo_env demo_adapters 3 cheapest_query routing_session
          = (Ok cheapest_demo, routing_session)) as Hrun by (vm_compute; reflexivity).
  destruct (@eligible_mappings_follow_policy demo_env demo_adapters 3 cheapest_query routing_session
              _ _ Hrun) as (_ & _ & _ & _ & Hhead).
  exact (proj1 (Hhead c c' Hc Hc')).
Defined.
