(* ===== verification/Fulfillment.v ===== *)
(** * Order fulfillment

    [packages/fulfillment/service.py], class [FulfillmentService]: one
    fulfillment attempt of a paid order through the provider router, what is
    recorded about it, and the refund that a permanent failure triggers. *)

From Stdlib Require Import ZArith Lia Ascii String.
From stdpp Require Import base tactics list option strings numbers pretty.
From S2P Require Import Prelude Tables Text Money Exceptions StateMachines Models Ledger.
From S2P Require Import Profiles Pricing Router.

Local Open Scope Z_scope.

(** ** Rows *)

Section rows.
  Context `{Env}.

(** [order.transition_to(target)] on the row of an order. *)
Definition transition_order (oid : UUID) (target : OrderStatus) : M unit :=
  found ← query (λ d, get_row oid (orders d));
  match found with
  | Some o =>
      status ← of_outcome (transition LEGAL_TRANSITIONS (order_status o) target);
      write (λ d, d <| orders ::= update_row oid (λ o, o <| order_status := status |>) |>)
  | None => mthrow NoResultFound
  end.

Definition update_attempt (i : UUID) (f : FulfillmentAttempt → FulfillmentAttempt) : M unit :=
  write (λ d, d <| attempts ::= update_row i f |>).

Definition get_attempt (i : UUID) : M FulfillmentAttempt :=
  found ← query (λ d, get_row i (attempts d)); of_option NoResultFound found.

(** The columns of an attempt that a flush can refuse. *)
Definition flush_attempt (i : UUID) : M unit :=
  a ← get_attempt i;
  to_varchar 128 (default "" (att_external_order_id a));;
  to_varchar 3 (att_cost_currency a);;
  amount ← to_numeric 12 2 (att_cost_amount a);
  update_attempt i (λ a, a <| att_cost_amount := amount |>).

(** [FulfillmentAttempt(...); session.add(attempt); flush()] *)
Definition insert_attempt (order : Order) (attempt_number : Z) (key : string) : M UUID :=
  started_at ← now;
  i ← uuid4;
  key ← to_varchar 128 key;
  let attempt := MkFulfillmentAttempt i (order_tenant_id order) (order_id order) None None
                   attempt_number key FulProcessing None 0 (order_currency order) [] (JObj [])
                   None started_at None in
  write (λ d, d <| attempts ::= (λ t, t ++ [attempt]) |>);;
  mret i.

(** [notifications.notify]: a transport that fails is ignored. *)
Definition notify (event : NotificationEventType) (order : Order) : M unit :=
  send (SentNotice event (order_id order)).

End rows.

(** ** Exceptions of the dispatch *)

(** [getattr(e, "is_retryable", False)] *)
Definition exn_is_retryable (e : exn) : bool := from_option fst false (as_provider_error e).

(** [e.__cause__], where the modelled code sets one that matters. *)
Definition exn_cause (e : exn) : option exn :=
  match e with ProviderErrorFrom _ c => Some c | _ => None end.

Definition is_timeout_class (e : exn) : bool :=
  match e with ProviderExn ProviderTimeoutError _ _ | TimeoutError => true | _ => false end.

(** The [is_retryable] and [is_timeout] of the failure flow. *)
Definition failure_retryable (e : exn) : bool :=
  exn_is_retryable e || from_option exn_is_retryable false (exn_cause e).

Definition failure_timeout (e : exn) : bool :=
  is_timeout_class e || from_option is_timeout_class false (exn_cause e).

(** ** Dispatch *)

Definition order_state_value (s : ProviderOrderState) : string :=
  match s with
  | OsCreated => "CREATED" | OsPending => "PENDING" | OsProcessing => "PROCESSING"
  | OsWaitingDelivery => "WAITING_DELIVERY" | OsCompleted => "COMPLETED" | OsFailed => "FAILED"
  | OsCancelled => "CANCELLED" | OsExpired => "EXPIRED" | OsRefunded => "REFUNDED"
  | OsUnknown => "UNKNOWN"
  end.

Definition terminal_failure (s : ProviderOrderState) : bool :=
  match s with OsFailed | OsCancelled | OsExpired | OsRefunded => true | _ => false end.

Definition _provider_response_payload (r : ProviderOrderResponse) : json :=
  JObj [("external_order_id", JStr (resp_external_order_id r));
        ("canonical_state", JStr (order_state_value (resp_canonical_state r)));
        ("raw_data", JObj (resp_raw_data r));
        ("delivery", JList (resp_delivery r))].

(** What the loop over the items accumulates: [responses], [last_provider],
    [cost_currencies] and [total_provider_cost]. *)
Record Dispatch := MkDispatch {
  dsp_responses : list ProviderOrderResponse;
  dsp_last_provider : option Provider;
  dsp_cost_currencies : list string;
  dsp_total_provider_cost : dec;
}.

Definition no_dispatch : Dispatch := MkDispatch [] None [] 0.

(** [cost_currencies.add(currency)] *)
Definition add_currency (currency : string) (l : list string) : list string :=
  if existsb (λ c, c == currency) l then l else l ++ [currency].

Definition add_response (p : Provider) (currency : string) (r : ProviderOrderResponse)
    (d : Dispatch) : Dispatch :=
  let currencies := add_currency currency (dsp_cost_currencies d) in
  MkDispatch (dsp_responses d ++ [r]) (Some p) currencies
    (if (length currencies =? 1)%nat then dsp_total_provider_cost d + resp_cost r
     else dsp_total_provider_cost d).

Section service.
  Context `{Env} `{Adapters} (max_consecutive_failures : Z).

Definition attempt_key (order : Order) (attempt_number : Z) : string :=
  "order:" +:+ uuid_str (order_id order) +:+ ":attempt:" +:+ pretty attempt_number.

Definition item_key (key : string) (items : list OrderItem) (item : OrderItem) : string :=
  if (length items =? 1)%nat then key else key +:+ ":item:" +:+ uuid_str (item_id item).

Definition item_query (order : Order) (profile : BotBusinessProfile) (item : OrderItem)
    (product_id : UUID) : RouteQuery :=
  MkRouteQuery (order_tenant_id order) product_id (Some (item_product_variant_id item)) None
    (provider_ids profile) (allowed_provider_categories (business_type profile))
    (routing_strategy profile) (preferred_provider_id profile) (Some true).

Definition dispatch_item (order : Order) (profile : BotBusinessProfile) (recipient key : string)
    (items : list OrderItem) (aid : UUID) (d : Dispatch) (item : OrderItem) : M Dispatch :=
  variant ← query (λ db, get_row (item_product_variant_id item) (variants db));
  variant ← of_option NoResultFound variant;
  routed ← route_and_execute_order max_consecutive_failures
             (item_query order profile item (var_product_id variant)) (item_quantity item)
             recipient (item_key key items item);
  let '(provider, mapping, response) := routed in
  let cost_currency := upper (map_cost_currency mapping) in
  (if resp_canonical_state response == OsCompleted
   then attribute_actual_cost (item_id item) (Some (prov_id provider)) (resp_cost response)
          cost_currency;; mret tt
   else mret tt);;
  (if terminal_failure (resp_canonical_state response) then
     update_attempt aid
       (λ a, a <| att_provider_id := Some (prov_id provider) |>
               <| att_external_order_id := Some (resp_external_order_id response) |>
               <| att_response_payload := _provider_response_payload response |>);;
     mthrow (ProviderExn ProviderOrderFailedError false false)
   else mret tt);;
  mret (add_response provider cost_currency response d).

Fixpoint dispatch_items (order : Order) (profile : BotBusinessProfile) (recipient key : string)
    (items : list OrderItem) (aid : UUID) (todo : list OrderItem) (d : Dispatch) : M Dispatch :=
  match todo with
  | [] => mret d
  | item :: todo =>
      d ← dispatch_item order profile recipient key items aid d item;
      dispatch_items order profile recipient key items aid todo d
  end.

(** The fields of the attempt after the loop. *)
Definition record_dispatch (aid : UUID) (d : Dispatch) : M unit :=
  update_attempt aid
    (λ a, a <| att_provider_id := prov_id <$> dsp_last_provider d |>
            <| att_external_order_id := resp_external_order_id <$> head (dsp_responses d) |>
            <| att_cost_amount := if (length (dsp_cost_currencies d) =? 1)%nat
                                  then dsp_total_provider_cost d else 0 |>
            <| att_cost_currency := if (length (dsp_cost_currencies d) =? 1)%nat
                                    then default "" (head (dsp_cost_currencies d)) else "MIX" |>
            <| att_response_payload :=
                 match dsp_responses d with
                 | [r] => _provider_response_payload r
                 | l => JList (map _provider_response_payload l)
                 end |>).

Definition nonterminal (d : Dispatch) : list ProviderOrderResponse :=
  select (λ r, resp_canonical_state r != OsCompleted) (dsp_responses d).

(** Upstream has the order but is not done: neither fulfilled nor refunded. *)
Definition settle_nonterminal (order : Order) (aid : UUID) (d : Dispatch)
    (first : ProviderOrderResponse) : M FulfillmentAttempt :=
  let '(status, classification) :=
    if (1 <? length (dsp_responses d))%nat
    then (FulUnknown, Some "MULTI_ITEM_NONTERMINAL_PROVIDER_STATE")
    else if resp_canonical_state first == OsUnknown then (FulUnknown, Some "UPSTREAM_STATE_UNKNOWN")
    else (FulProcessing, None) in
  update_attempt aid (λ a, a <| att_status := status |>
                             <| att_error_classification := classification |>
                             <| att_completed_at := None |>);;
  flush_attempt aid;;
  commit;;
  notify NotifyFulfillmentStarted order;;
  get_attempt aid.

Definition settle_success (order : Order) (aid : UUID) : M FulfillmentAttempt :=
  completed_at ← now;
  update_attempt aid (λ a, a <| att_status := FulSucceeded |>
                             <| att_completed_at := Some completed_at |>);;
  transition_order (order_id order) OrderFulfilled;;
  flush_attempt aid;;
  commit;;
  notify NotifyFulfillmentSucceeded order;;
  get_attempt aid.

(** The [try] block. *)
Definition dispatch (order : Order) (profile : BotBusinessProfile) (recipient key : string)
    (items : list OrderItem) (aid : UUID) : M FulfillmentAttempt :=
  known ← query (λ d, forallb (λ i, is_some (get_row (item_product_variant_id i) (variants d))) items);
  raise_if (negb known) (provider_exn ProviderError);;
  d ← dispatch_items order profile recipient key items aid items no_dispatch;
  record_dispatch aid d;;
  match nonterminal d with
  | first :: _ => settle_nonterminal order aid d first
  | [] => settle_success order aid
  end.

(** ** The failure flow *)

Definition refund_order (order : Order) : M bool :=
  catch
    (wallet ← get_or_create_wallet (order_tenant_id order) (order_user_id order)
                (order_currency order);
     refund wallet (order_total_amount order) (Some (uuid_str (order_id order)))
       (Some CANONICAL_REFUND_TYPE)
       (Some ("Automated refund for unfulfilled order #" +:+ order_number order));;
     transition_order (order_id order) OrderFailed;;
     mret true)
    (λ _, mret false).

(** The failure is recorded, and either left to the next attempt or
    compensated. *)
Definition record_failure (order : Order) (aid : UUID) (attempt_number : Z) (e : exn)
  : M FulfillmentAttempt :=
  let is_retryable := failure_retryable e in
  completed_at ← now;
  update_attempt aid
    (λ a, a <| att_error_classification := Some (exn_name e) |>
            <| att_response_payload := JObj [("error", JStr (env_exn_str e));
                                             ("retryable", JBool is_retryable)] |>
            <| att_completed_at := Some completed_at |>);;
  catch (flush_attempt aid) (λ _, rollback;; mthrow PendingRollbackError);;
  (if is_retryable && (attempt_number <? 3) then
     update_attempt aid
       (λ a, a <| att_status := if failure_timeout e then FulUnknown else FulRetrying |>);;
     commit;;
     notify NotifyFulfillmentStarted order
   else
     update_attempt aid (λ a, a <| att_status := FulFailed |>);;
     refund_successful ← refund_order order;
     commit;;
     notify (if refund_successful : bool then NotifyOrderRefunded else NotifyFulfillmentFailed)
       order);;
  match as_provider_error e with
  | Some _ => mthrow e
  | None => mthrow (ProviderErrorFrom false e)
  end.

(** [except Exception as exc].  A flush that the database refused has rolled
    the transaction back, and the session answers nothing but
    [PendingRollbackError] until it is closed. *)
Definition fail_attempt (order : Order) (aid : UUID) (attempt_number : Z) (e : exn)
  : M FulfillmentAttempt :=
  match e with
  | DataError | IntegrityError => rollback;; mthrow PendingRollbackError
  | _ => record_failure order aid attempt_number e
  end.

(** ** The operation *)

(** The profile of the bot the order was placed with. *)
Definition order_profile (order : Order) (d : DB) : BotBusinessProfile :=
  match head (select (λ e, (econ_order_id e == order_id order) && is_some (econ_bot_id e))
                (item_economics d)) ≫= econ_bot_id with
  | None => default_profile
  | Some i =>
      match get_row i (bots d) with
      | Some b =>
          if (bot_tenant_id b == order_tenant_id order) && negb (is_some (bot_deleted_at b))
          then business_profile_from_config (bot_config b) else default_profile
      | None => default_profile
      end
  end.

Definition order_lines (oid : UUID) (d : DB) : list OrderItem :=
  select (λ i, item_order_id i == oid) (order_items d).

Definition attempts_by_key (key : string) (d : DB) : list FulfillmentAttempt :=
  select (λ a, att_idempotency_key a == key) (attempts d).

(** From the move to [PROCESSING] on. *)
Definition fulfill (order : Order) (items : list OrderItem) (profile : BotBusinessProfile)
    (recipient key : string) (aid : UUID) (attempt_number : Z) : M FulfillmentAttempt :=
  (if order_status order == OrderPaid then transition_order (order_id order) OrderProcessing else mret tt);;
  notify NotifyFulfillmentStarted order;;
  match items with
  | [] =>
      completed_at ← now;
      update_attempt aid (λ a, a <| att_status := FulFailed |>
                                 <| att_error_classification := Some "EMPTY_ORDER_ITEMS" |>
                                 <| att_completed_at := Some completed_at |>);;
      commit;;
      get_attempt aid
  | primary_item :: _ =>
      update_attempt aid (λ a, a <| att_order_item_id := Some (item_id primary_item) |>);;
      catch (dispatch order profile recipient key items aid)
        (fail_attempt order aid attempt_number)
  end.

Definition execute_order_fulfillment (oid : UUID) (recipient : string) (attempt_number : Z)
  : M FulfillmentAttempt :=
  rows ← query (λ d, select (λ o, order_id o == oid) (orders d));
  found ← one_or_none rows;
  order ← of_option ValueError found;
  items ← query (order_lines (order_id order));
  profile ← query (order_profile order);
  let key := attempt_key order attempt_number in
  rows ← query (attempts_by_key key);
  existing ← one_or_none rows;
  match existing with
  | Some a =>
      if att_status a == FulSucceeded then mret a
      else
        update_attempt (att_id a) (λ a, a <| att_status := FulProcessing |>);;
        fulfill order items profile recipient key (att_id a) attempt_number
  | None =>
      aid ← insert_attempt order attempt_number key;
      fulfill order items profile recipient key aid attempt_number
  end.

End service.
