(* ===== verification/FulfillmentSpec.v ===== *)
(** * Fulfillment: what an attempt may do to money and to the order *)

From Stdlib Require Import ZArith Lia Ascii String.
From stdpp Require Import base tactics list option strings numbers pretty.
From S2P Require Import Prelude Tables Text Money Exceptions StateMachines Models Ledger.
From S2P Require Import LedgerInv LedgerSpec DepositsSpec Profiles Pricing Router RouterSpec Fulfillment.

Local Open Scope Z_scope.

Abbreviation attempt_of i s := (get_row i (attempts (ses_db s))).

(** ** Dispatching does not touch money or orders *)

(** Wallets, ledger, orders and the committed version stay; attempts are
    updated, never removed. *)
Record untouched (s s' : Session) : Prop := {
  unt_wallets : wallets (ses_db s') = wallets (ses_db s);
  unt_ledger : ledger (ses_db s') = ledger (ses_db s);
  unt_orders : orders (ses_db s') = orders (ses_db s);
  unt_committed : ses_committed s' = ses_committed s;
  unt_attempts : ∀ i, is_some (attempt_of i s) = true → is_some (attempt_of i s') = true;
}.

Global Instance untouched_preorder : PreOrder untouched.
Proof.
  split; [by intros s; split|]. intros x y z [] []. split; [congruence..|eauto].
Qed.

Lemma untouched_same_db s s' :
  ses_db s' = ses_db s → ses_committed s' = ses_committed s → untouched s s'.
Proof. intros Hdb Hc. split; rewrite ?Hdb; auto. Qed.

(** A write to other tables. *)
Lemma untouched_write (f : DB → DB) :
  (∀ d, wallets (f d) = wallets d ∧ ledger (f d) = ledger d ∧ orders (f d) = orders d
        ∧ attempts (f d) = attempts d) →
  steps untouched (write f).
Proof.
  intros Hf s. destruct (Hf (ses_db s)) as (Hw & Hl & Ho & Ha).
  split; cbn; rewrite ?Ha; auto.
Qed.

Lemma is_some_update_row {A} `{Row A} i j (f : A → A) t :
  (∀ r, row_id (f r) = row_id r) →
  is_some (get_row i (update_row j f t)) = is_some (get_row i t).
Proof.
  intros Hf. destruct (decide (j = i)) as [->|Hne].
  - rewrite get_update_same by done. by destruct (get_row i t).
  - by rewrite get_update_ne.
Qed.

Section frame.
  Context `{Env} `{Adapters} (max_failures : Z).

Lemma untouched_update_attempt i f :
  (∀ a, att_id (f a) = att_id a) → steps untouched (update_attempt i f).
Proof.
  intros Hf s. split; try done. intros j. cbn. by rewrite is_some_update_row.
Qed.

Lemma untouched_update_provider i f : steps untouched (update_provider i f).
Proof. by apply untouched_write. Qed.

Lemma untouched_uuid4 : steps untouched uuid4.
Proof. intros s. by apply untouched_same_db. Qed.

Lemma untouched_send m : steps untouched (send m).
Proof. intros s. by apply untouched_same_db. Qed.

Lemma untouched_get_attempt i : steps untouched (get_attempt i).
Proof. unfold get_attempt. steps_walk. Qed.

Hint Resolve untouched_update_provider untouched_uuid4 untouched_send untouched_get_attempt : steps.

Lemma untouched_reads {A} (m : M A) : steps eq m → steps untouched m.
Proof. intros Hm s. by rewrite <- (Hm s). Qed.

Lemma untouched_try quantity recipient key l last_exception :
  steps untouched (try_mappings max_failures quantity recipient key l last_exception).
Proof.
  revert last_exception. induction l as [|[m p] l IH]; intros le; cbn [try_mappings]; [steps_walk|].
  apply steps_bind; [typeclasses eauto|steps_walk|intros pr].
  apply steps_bind; [typeclasses eauto|apply untouched_reads, config_reads|intros config].
  unfold order_request, call_create_order, reset_failures, count_failure. steps_walk.
Qed.

Lemma untouched_route q quantity recipient key :
  steps untouched (route_and_execute_order max_failures q quantity recipient key).
Proof.
  unfold route_and_execute_order.
  apply steps_bind; [typeclasses eauto|apply untouched_reads, eligible_reads|intros l].
  apply steps_bind; [typeclasses eauto|steps_walk|intros _]. apply untouched_try.
Qed.

Lemma untouched_attribute i p c k : steps untouched (attribute_actual_cost i p c k).
Proof.
  unfold attribute_actual_cost. steps_walk. by apply untouched_write.
Qed.

Hint Resolve untouched_route untouched_attribute : steps.

Lemma untouched_dispatch_item order profile recipient key items aid d item :
  steps untouched (dispatch_item max_failures order profile recipient key items aid d item).
Proof. unfold dispatch_item. steps_walk; by apply untouched_update_attempt. Qed.

Lemma untouched_dispatch_items order profile recipient key items aid todo d :
  steps untouched (dispatch_items max_failures order profile recipient key items aid todo d).
Proof.
  revert d. induction todo as [|i todo IH]; intros d; cbn [dispatch_items]; [steps_walk|].
  apply steps_bind; [typeclasses eauto|apply untouched_dispatch_item|auto].
Qed.

End frame.

(** ** The refund *)

Section refund.
  Context `{HE : Env} `{!Serial HE}.

Lemma committed_wait_for_entry n read : steps same_committed (wait_for_entry n read).
Proof. induction n as [|n IH]; cbn [wait_for_entry]; steps_walk. Qed.

Lemma committed_flush_entry w ty amount before after rid rty desc :
  steps same_committed (flush_entry w ty amount before after rid rty desc).
Proof. unfold flush_entry. steps_walk. Qed.

Hint Resolve committed_wait_for_entry committed_flush_entry : steps.

Lemma committed_refund w amount rid rty desc : steps same_committed (refund w amount rid rty desc).
Proof. unfold refund, lock_wallet, return_existing. steps_walk. Qed.

Lemma committed_get_or_create t u c : steps same_committed (get_or_create_wallet t u c).
Proof.
  unfold get_or_create_wallet. steps_walk.
  apply committed_nested. unfold insert_wallet. steps_walk.
Qed.

(** A savepoint with a handler that only reads: the body's effect or none. *)
Lemma savepoint_effect {A} (m : M A) h s r s' :
  (∀ e, steps same_db (h e)) → catch (begin_nested m) h s = (r, s') →
  ses_db s' = ses_db s ∧ (∃ e s1, ses_db s1 = ses_db s ∧ h e s1 = (r, s'))
  ∨ ∃ a, r = Ok a ∧ m s = (Ok a, s').
Proof.
  intros Hh Hr. unfold catch in Hr. destruct (begin_nested m s) as [[a|e] s1] eqn:Hn.
  - injection Hr as <- <-. right. exists a. split; [done|]. by apply begin_nested_ok.
  - left. specialize (Hh e s1). rewrite Hr in Hh. apply begin_nested_raise in Hn.
    unfold same_db in Hh. cbn in Hh. split; [congruence|]. eauto.
Qed.

(** Polling while nobody else commits reads the same database again. *)
Lemma wait_for_entry_serial n read s o s' :
  wait_for_entry n read s = (Ok o, s') → o = read (ses_db s).
Proof.
  revert s. induction n as [|n IH]; intros s Hr; cbn [wait_for_entry] in Hr; bind_query Hr;
    destruct (read (ses_db s)) eqn:Hq; [by apply ret_inv in Hr as [[= ->] _]..|].
  - bind_write Hr. apply IH in Hr. cbn in Hr. by rewrite serial_race, Hq in Hr.
Qed.

(** An empty wallet may be opened, and nothing else. *)
Lemma get_or_create_wallet_effect t u c s :
  wp (get_or_create_wallet t u c)
     (λ _ s', ∃ new, ses_db s' = (ses_db s) <| wallets ::= λ l, l ++ new |>
                     ∧ Forall (λ w, wallet_balance w = 0) new) s.
Proof.
  assert (∀ s1 : Session, ses_db s1 = ses_db s →
    ∃ new, ses_db s1 = (ses_db s) <| wallets ::= λ l, l ++ new |>
           ∧ Forall (λ w, wallet_balance w = 0) new) as Hsame.
  { intros s1 ->. exists []. split; [|constructor]. destruct (ses_db s). cbn. by rewrite app_nil_r. }
  unfold get_or_create_wallet. apply wp_gets.
  destruct (wallet_by_key t u c (ses_db s)) as [|x [|y l]]; [|by apply Hsame..].
  eapply wp_step; [done|]. eapply wp_step; [done|].
  unfold wp. destruct (catch _ _ _) as [r s'] eqn:Hr. cbn [fst snd].
  apply savepoint_effect in Hr as [[Hdb _]|(w & -> & Hr)]; [| |intros []; by steps_walk].
  - apply Hsame. rewrite Hdb. apply serial_race.
  - apply insert_wallet_ok in Hr as (-> & _ & ->).
    eexists. split; [cbn; by rewrite serial_race|]. by repeat constructor.
Qed.

(** What the ledger entry of a refund says. *)
Record refund_entry (order : Order) (w : Wallet) (tx : LedgerTransaction) : Prop := {
  re_type : tx_transaction_type tx = REFUND;
  re_amount : numeric 14 2 (order_total_amount order) = Some (tx_amount tx);
  re_wallet : tx_wallet_id tx = wallet_id w;
  re_owner : wallet_tenant_id w = order_tenant_id order ∧ wallet_user_id w = order_user_id order
             ∧ wallet_currency w = order_currency order;
  re_reference : tx_reference_id tx = Some (uuid_str (order_id order))
                 ∧ tx_reference_type tx = Some CANONICAL_REFUND_TYPE;
}.

Lemma lock_wallet_reads w : steps eq (lock_wallet w).
Proof. intros s. by rewrite lock_wallet_idle. Qed.

(** A refund either leaves the database alone or adds one entry for a
    reference that had none. *)
Lemma refund_effect w amount i t desc s :
  (i != "") && (t != "") = true →
  wp (refund w amount (Some i) (Some t) desc)
     (λ r s', ses_db s' = ses_db s
              ∧ (∀ tx, r = Ok tx → find_entry (wallet_id w) REFUND t i (ses_db s) = Some tx)
        ∨ ∃ tx after, r = Ok tx ∧ find_entry (wallet_id w) REFUND t i (ses_db s) = None
          ∧ tx_transaction_type tx = REFUND ∧ numeric 14 2 amount = Some (tx_amount tx)
          ∧ tx_wallet_id tx = wallet_id w
          ∧ tx_reference_id tx = Some i ∧ tx_reference_type tx = Some t
          ∧ ses_db s' = (ses_db s) <| wallets ::= update_row (wallet_id w)
                                        (λ x, x <| wallet_balance := after |>) |>
                                   <| ledger ::= λ l, l ++ [tx] |>) s.
Proof.
  intros Hit. unfold refund.
  apply wp_guard; [intros _|by left]. apply wp_read; [apply lock_wallet_reads| |by left].
  intros wl Hl. apply lock_wallet_ok in Hl as (_ & _ & Hwid & _). cbv zeta. apply wp_gets.
  rewrite (find_refund_some _ _ _ Hit), Hwid.
  destruct (find_entry _ _ _ _ (ses_db s)) as [tx0|] eqn:Hf.
  { left. split; [apply steps_return_existing|]. intros tx Hr.
    destruct (return_existing tx0 amount s) as [r1 s1] eqn:Hx. cbn in Hr. subst r1.
    by apply return_existing_ok in Hx as (-> & _). }
  eapply wp_step; [done|]. unfold wp. destruct (catch _ _ _) as [r s'] eqn:Hr. cbn [fst snd].
  apply savepoint_effect in Hr as [[Hdb (e & s1 & Hs1 & Hr)]|(tx & -> & Hr)];
    [| |intros []; by steps_walk].
  - left. rewrite Hdb. split; [apply serial_race|]. intros tx ->. exfalso.
    destruct e; try done. apply bind_inv_ok in Hr as (o & s2 & Hw & Hr).
    apply andb_true_iff in Hit as [Hi Ht]. unfold truthy in Hw.
    rewrite Hi, Ht in Hw. cbn [andb] in Hw. apply wait_for_entry_serial in Hw.
    rewrite find_refund_some, Hs1 in Hw by (by rewrite Hi, Ht). cbn in Hw.
    rewrite serial_race, Hf in Hw. by subst o.
  - apply flush_entry_ok in Hr as (a' & am' & b' & _ & Ham & _ & -> & _ & ->).
    right. eexists _, a'. split; [done|]. rewrite Hwid. split_and!; try done.
    cbn. by rewrite serial_race.
Qed.

Definition owns (order : Order) (w : Wallet) : Prop :=
  wallet_tenant_id w = order_tenant_id order ∧ wallet_user_id w = order_user_id order
  ∧ wallet_currency w = order_currency order.

(** The buyer's wallet has the refund of this order in its ledger. *)
Definition refund_on_record (order : Order) (s : Session) : Prop :=
  ∃ w tx, owns order w ∧ find_entry (wallet_id w) REFUND CANONICAL_REFUND_TYPE
                           (uuid_str (order_id order)) (ses_db s) = Some tx.

(** The refund was made now: one new entry, for an order that had none. *)
Definition refund_made (order : Order) (s s' : Session) : Prop :=
  ∃ w tx, refund_entry order w tx ∧ ledger (ses_db s') = ledger (ses_db s) ++ [tx]
          ∧ find_entry (wallet_id w) REFUND CANONICAL_REFUND_TYPE
              (uuid_str (order_id order)) (ses_db s) = None.

(** No entry is written and no balance moves; at most an empty wallet is
    opened. *)
Definition funds_still (s s' : Session) : Prop :=
  ledger (ses_db s') = ledger (ses_db s)
  ∧ ∃ new, wallets (ses_db s') = wallets (ses_db s) ++ new
           ∧ Forall (λ w, wallet_balance w = 0) new.

Definition order_set (oid : UUID) (st : OrderStatus) (s s' : Session) : Prop :=
  orders (ses_db s') = update_row oid (λ o, o <| order_status := st |>) (orders (ses_db s)).

Lemma transition_order_effect oid target s :
  wp (transition_order oid target)
     (λ r s', match r with
              | Ok _ => s' = s <| ses_db ::= λ d, d <| orders ::= update_row oid
                                   (λ o, o <| order_status := target |>) |> |>
              | Raise e => s' = s ∧ (e = InvalidStateTransitionError ∨ e = NoResultFound)
              end) s.
Proof.
  unfold transition_order. apply wp_gets. destruct (get_row oid (orders (ses_db s))) as [o|];
    [|apply wp_throw; auto].
  apply wp_of_outcome; intros x Hx; unfold transition in Hx; destruct (negb _); try done;
    injection Hx as <-; auto. done.
Qed.

Record compensated (order : Order) (s : Session) (b : bool) (s' : Session) : Prop := {
  cp_committed : ses_committed s' = ses_committed s;
  cp_attempts : attempts (ses_db s') = attempts (ses_db s);
  cp_money : funds_still s s' ∨ refund_made order s s';
  cp_announced : b = true → refund_on_record order s';
  cp_orders : if b then order_set (order_id order) OrderFailed s s'
              else orders (ses_db s') = orders (ses_db s);
}.

Lemma find_entry_appended wid ty rty rid d tx t :
  tx_wallet_id tx = wid → tx_transaction_type tx = ty →
  tx_reference_type tx = Some rty → tx_reference_id tx = Some rid →
  find_entry wid ty rty rid d = None →
  find_entry wid ty rty rid (d <| wallets := t |> <| ledger ::= λ l, l ++ [tx] |>) = Some tx.
Proof.
  intros H1 H2 H3 H4 Hnone. unfold find_entry in *. cbn. rewrite first_app, Hnone.
  unfold first. cbn. by rewrite (proj2 (has_reference_spec _ _ _ _ _)).
Qed.

(** Opening the buyer's wallet and refunding the order to it. *)
Record repaid (order : Order) (s : Session) (ok : bool) (s' : Session) : Prop := {
  rp_committed : ses_committed s' = ses_committed s;
  rp_attempts : attempts (ses_db s') = attempts (ses_db s);
  rp_orders : orders (ses_db s') = orders (ses_db s);
  rp_money : funds_still s s' ∨ refund_made order s s';
  rp_record : ok = true → refund_on_record order s';
}.

Lemma repay_spec order desc s :
  uuid_str (order_id order) ≠ "" →
  wp (wallet ← get_or_create_wallet (order_tenant_id order) (order_user_id order) (order_currency order);
      refund wallet (order_total_amount order) (Some (uuid_str (order_id order)))
        (Some CANONICAL_REFUND_TYPE) desc)
     (λ r s', repaid order s (is_ok r) s') s.
Proof.
  intros Hid. set (oid := uuid_str (order_id order)) in *. apply wp_bind, wp_intro. intros r1 s1 Hw.
  pose proof (steps_run _ _ _ _ _ (committed_get_or_create _ _ _) Hw) as Hc1.
  destruct (wp_run _ _ _ _ _ (get_or_create_wallet_effect _ _ _ s) Hw) as (new & Hdb1 & Hnew).
  assert (∀ b s2, ses_db s2 = ses_db s1 → ses_committed s2 = ses_committed s1 →
           (b = true → refund_on_record order s2) → repaid order s b s2) as Hopen.
  { intros b s2 Hdb Hc Hb. split; rewrite ?Hdb, ?Hdb1; try done; [by rewrite Hc|].
    left. split; rewrite Hdb, Hdb1; [done|]. by exists new. }
  destruct r1 as [w|e]; [|by apply Hopen].
  assert (owns order w) as Hown.
  { apply get_or_create_wallet_ok, elem_of_select in Hw as [_ Hk].
    rewrite !andb_true_iff, !bool_decide_eq_true in Hk. by destruct Hk as [[? ?] ?]. }
  apply wp_intro. intros r2 s2 Hr.
  pose proof (steps_run _ _ _ _ _ (committed_refund _ _ _ _ _) Hr) as Hc2.
  assert ((oid != "") && (CANONICAL_REFUND_TYPE != "") = true) as Hit
    by (by rewrite (bool_decide_eq_false_2 (oid = ""))).
  apply (wp_run _ _ _ _ _ (refund_effect _ _ _ _ _ s1 Hit)) in Hr.
  destruct Hr as [[Hdb2 Hrec]|(tx & after & -> & Hnone & Hty & Ham & Hwid & Hri & Hrt & Hdb2)].
  - apply Hopen; [done..|]. destruct r2 as [tx|e]; [|done]. intros _. exists w, tx. split; [done|].
    rewrite <- (Hrec tx eq_refl). by rewrite Hdb2.
  - assert (ledger (ses_db s1) = ledger (ses_db s)) as Hl1 by (by rewrite Hdb1).
    split; rewrite ?Hc2, ?Hdb2; [exact Hc1|by rewrite Hdb1|by rewrite Hdb1|right|intros _]; exists w, tx.
    + split; [by split|]. rewrite Hdb2. cbn. rewrite Hl1. split; [done|].
      unfold find_entry in *. by rewrite <- Hl1.
    + split; [done|]. unfold find_entry. rewrite Hdb2.
      by apply (find_entry_appended _ _ _ _ (ses_db s1) tx []).
Qed.

(** The same with statements after it. *)
Lemma wp_repay {A} order desc (k : M A) (Q : outcome exn A → Session → Prop) s :
  uuid_str (order_id order) ≠ "" →
  (∀ s', repaid order s true s' → wp k Q s') →
  (∀ e s', repaid order s false s' → Q (Raise e) s') →
  wp (wallet ← get_or_create_wallet (order_tenant_id order) (order_user_id order) (order_currency order);
      refund wallet (order_total_amount order) (Some (uuid_str (order_id order)))
        (Some CANONICAL_REFUND_TYPE) desc;; k) Q s.
Proof.
  intros Hid Hk Hr. pose proof (repay_spec order desc s Hid) as Hp. unfold wp, mbind, prog_bind in *.
  destruct (get_or_create_wallet _ _ _ s) as [[w|e] s1]; [|by apply Hr].
  destruct (refund _ _ _ _ _ s1) as [[tx|e] s2]; [by apply Hk|by apply Hr].
Qed.

Lemma refund_order_spec order s :
  uuid_str (order_id order) ≠ "" →
  wp (refund_order order) (λ r s', ∃ b, r = Ok b ∧ compensated order s b s') s.
Proof.
  intros Hid. unfold refund_order. apply wp_catch, wp_repay; [done|..].
  - intros s1 [Hc Ha Ho Hm Hrec]. apply wp_bind, wp_intro. intros r s2 Hr.
    apply (wp_run _ _ _ _ _ (transition_order_effect _ _ s1)) in Hr. destruct r as [[]|e].
    + apply wp_ret. exists true. split; [done|]. subst s2. split; [done..| |].
      * intros _. by apply Hrec.
      * unfold order_set. cbn. by rewrite Ho.
    + destruct Hr as [-> _]. exists false. split; [done|]. by split.
  - intros e s1 [Hc Ha Ho Hm _]. exists false. split; [done|]. by split.
Qed.

End refund.

(** ** One attempt *)

Section attempt.
  Context `{HE : Env} `{!Serial HE} `{Adapters} (max_failures : Z).
  Context (order : Order) (items : list OrderItem) (profile : BotBusinessProfile).
  Context (recipient key : string) (attempt_number : Z).

Definition same_funds (s s' : Session) : Prop :=
  wallets (ses_db s') = wallets (ses_db s) ∧ ledger (ses_db s') = ledger (ses_db s).

(** A paid order has moved on to [PROCESSING]; any other is where it was. *)
Definition begun (s s' : Session) : Prop :=
  if order_status order == OrderPaid then order_set (order_id order) OrderProcessing s s'
  else orders (ses_db s') = orders (ses_db s).

(** Everything the session sees is committed. *)
Definition persisted (s : Session) : Prop := ses_committed s = ses_db s.

(** What the service raises for an exception of the dispatch. *)
Definition reraised (e : exn) : exn :=
  match as_provider_error e with Some _ => e | None => ProviderErrorFrom false e end.

Definition is_final (e : exn) : bool := negb (failure_retryable e && (attempt_number <? 3)).

(** The ways an attempt can end. *)
Inductive attempt_case (s : Session) : outcome exn FulfillmentAttempt → Session → Prop :=
  | AttemptReplayed a :
      att_status a = FulSucceeded → attempt_case s (Ok a) s
  | AttemptFulfilled a s' aid d s0 s1 :
      att_status a = FulSucceeded →
      dispatch_items max_failures order profile recipient key items aid items no_dispatch s0
        = (Ok d, s1) →
      length (dsp_responses d) = length items →
      Forall (λ r, resp_canonical_state r = OsCompleted) (dsp_responses d) →
      order_status <$> get_row (order_id order) (orders (ses_db s')) = Some OrderFulfilled →
      same_funds s s' → persisted s' → attempt_case s (Ok a) s'
  | AttemptPending a s' :
      att_status a = FulProcessing ∨ att_status a = FulUnknown →
      begun s s' → same_funds s s' → persisted s' → attempt_case s (Ok a) s'
  | AttemptEmpty a s' :
      items = [] → att_status a = FulFailed →
      begun s s' → same_funds s s' → persisted s' → attempt_case s (Ok a) s'
  | AttemptRetry e s' :
      is_final e = false →
      begun s s' → same_funds s s' → persisted s' → attempt_case s (Raise (reraised e)) s'
  | AttemptFailed e s' :
      is_final e = true →
      funds_still s s' ∨ refund_made order s s' →
      begun s s' ∨ order_set (order_id order) OrderFailed s s' →
      (last (ses_sent s') = Some (SentNotice NotifyOrderRefunded (order_id order)) →
       refund_on_record order s' ∧ order_set (order_id order) OrderFailed s s') →
      persisted s' → attempt_case s (Raise (reraised e)) s'
  | AttemptAborted e s' :
      as_provider_error e = None → ses_committed s' = ses_committed s → attempt_case s (Raise e) s'.

Lemma flush_attempt_effect aid s :
  is_some (attempt_of aid s) = true →
  wp (flush_attempt aid)
     (λ r s', match r with
              | Ok _ => ∃ amount, s' = s <| ses_db ::= λ d, d <| attempts ::= update_row aid
                                             (λ a, a <| att_cost_amount := amount |>) |> |>
              | Raise e => e = DataError ∧ s' = s
              end) s.
Proof.
  intros Hex. unfold flush_attempt, get_attempt. apply wp_bind, wp_gets.
  destruct (attempt_of aid s) as [a|]; [|done]. cbn [of_option].
  apply wp_ret. apply wp_bind. unfold to_varchar at 1.
  destruct (_ <? _)%nat; [by apply wp_throw|]. apply wp_ret, wp_bind. unfold to_varchar.
  destruct (_ <? _)%nat; [by apply wp_throw|]. apply wp_ret, wp_of_option; [|done].
  intros amount _. by exists amount.
Qed.

Lemma finish_attempt aid event s :
  is_some (attempt_of aid s) = true →
  wp (flush_attempt aid;; commit;; notify event order;; get_attempt aid)
     (λ r s', match r with
              | Ok a => persisted s' ∧ same_funds s s' ∧ orders (ses_db s') = orders (ses_db s)
                        ∧ Some (att_status a) = att_status <$> attempt_of aid s
              | Raise e => e = DataError ∧ ses_committed s' = ses_committed s
              end) s.
Proof.
  intros Hex. apply wp_bind. eapply wp_mono; [by apply flush_attempt_effect|].
  intros [u|e] s1; [|by intros [-> ->]]. intros [amount ->].
  eapply wp_step; [done|]. eapply wp_step; [done|]. unfold get_attempt. apply wp_gets. cbn.
  rewrite get_update_same by done. destruct (attempt_of aid s) as [a|]; [|done]. cbn. done.
Qed.

Lemma dispatch_items_length aid todo d s d' s' :
  dispatch_items max_failures order profile recipient key items aid todo d s = (Ok d', s') →
  length (dsp_responses d') = (length (dsp_responses d) + length todo)%nat.
Proof.
  revert d s. induction todo as [|i todo IH]; intros d s Hr; cbn [dispatch_items] in Hr.
  - apply ret_inv in Hr as [[= ->] _]. cbn. lia.
  - apply bind_inv_ok in Hr as (d1 & s1 & Hi & Hr). apply IH in Hr. rewrite Hr.
    unfold dispatch_item in Hi. bind_query Hi. bind_some Hi v Hv.
    apply bind_inv_ok in Hi as ([[p m] resp] & s2 & _ & Hi).
    apply bind_inv_ok in Hi as ([] & s3 & _ & Hi). apply bind_inv_ok in Hi as ([] & s4 & _ & Hi).
    apply ret_inv in Hi as [[= ->] _]. cbn. rewrite length_app. cbn. lia.
Qed.

Lemma nonterminal_nil d :
  nonterminal d = [] → Forall (λ r, resp_canonical_state r = OsCompleted) (dsp_responses d).
Proof.
  unfold nonterminal. rewrite select_nil. intros Hn. apply List.Forall_forall.
  intros r Hr%list_elem_of_In. by apply Hn, negb_false_iff, bool_decide_eq_true in Hr.
Qed.

(** What the [try] block returns or raises. *)
Inductive dispatch_case (aid : UUID) (s : Session) : outcome exn FulfillmentAttempt → Session → Prop :=
  | DispatchFulfilled a s' d s0 s1 :
      att_status a = FulSucceeded →
      dispatch_items max_failures order profile recipient key items aid items no_dispatch s0
        = (Ok d, s1) →
      Forall (λ r, resp_canonical_state r = OsCompleted) (dsp_responses d) →
      order_set (order_id order) OrderFulfilled s s' →
      same_funds s s' → persisted s' → dispatch_case aid s (Ok a) s'
  | DispatchPending a s' :
      att_status a = FulProcessing ∨ att_status a = FulUnknown →
      orders (ses_db s') = orders (ses_db s) →
      same_funds s s' → persisted s' → dispatch_case aid s (Ok a) s'
  | DispatchRaised e s' : untouched s s' → dispatch_case aid s (Raise e) s'
  | DispatchRefused s' :
      ses_committed s' = ses_committed s → dispatch_case aid s (Raise DataError) s'.

Lemma settle_success_spec aid s s1 d s0 s2 :
  is_some (attempt_of aid s) = true → untouched s0 s →
  dispatch_items max_failures order profile recipient key items aid items no_dispatch s1 = (Ok d, s2) →
  Forall (λ r, resp_canonical_state r = OsCompleted) (dsp_responses d) →
  wp (settle_success order aid) (dispatch_case aid s0) s.
Proof.
  intros Hex Hun Hd Hall. unfold settle_success. apply wp_gets.
  eapply wp_step; [done|]. set (s3 := s <| ses_db ::= _ |>).
  assert (untouched s0 s3) as Hun3.
  { etrans; [exact Hun|]. by apply (untouched_update_attempt aid (λ a, _)). }
  assert (Some FulSucceeded = att_status <$> attempt_of aid s3) as Hst.
  { subst s3. cbn. rewrite get_update_same by done. by destruct (attempt_of aid s). }
  apply wp_bind, wp_intro. intros r s4 Hr.
  apply (wp_run _ _ _ _ _ (transition_order_effect _ _ s3)) in Hr.
  destruct r as [[]|e]; [|destruct Hr as [-> _]; by apply DispatchRaised].
  assert (attempt_of aid s4 = attempt_of aid s3) as Ha4 by (by subst s4).
  eapply wp_mono; [apply finish_attempt; rewrite Ha4; by destruct (attempt_of aid s3)|].
  destruct Hun3 as [Hw Hl Ho Hc _].
  intros [a|e] s5; [intros (Hp & [Hw5 Hl5] & Ho5 & Ha5)|intros [-> Hc5]].
  - eapply DispatchFulfilled; try done.
    + rewrite Ha4, <- Hst in Ha5. by injection Ha5.
    + unfold order_set. rewrite Ho5. subst s4. cbn in *. by rewrite Ho.
    + subst s4. split; [by rewrite Hw5|by rewrite Hl5].
  - apply DispatchRefused. rewrite Hc5. subst s4. exact Hc.
Qed.

Lemma settle_nonterminal_spec aid d first s s0 :
  is_some (attempt_of aid s) = true → untouched s0 s →
  wp (settle_nonterminal order aid d first) (dispatch_case aid s0) s.
Proof.
  intros Hex [Hw Hl Ho Hc _]. unfold settle_nonterminal.
  assert (∀ st cl, st = FulProcessing ∨ st = FulUnknown →
    wp (update_attempt aid (λ a, a <| att_status := st |> <| att_error_classification := cl |>
                                   <| att_completed_at := None |>);;
        flush_attempt aid;; commit;; notify NotifyFulfillmentStarted order;; get_attempt aid)
       (dispatch_case aid s0) s) as Hgo.
  { intros st cl Hst. eapply wp_step; [done|]. set (s3 := s <| ses_db ::= _ |>).
    assert (Some st = att_status <$> attempt_of aid s3) as Hst3.
    { subst s3. cbn. rewrite get_update_same by done. by destruct (attempt_of aid s). }
    eapply wp_mono; [apply finish_attempt; by destruct (attempt_of aid s3)|].
    intros [a|e] s5; [intros (Hp & [Hw5 Hl5] & Ho5 & Ha5)|intros [-> Hc5]].
    - apply DispatchPending; [|by rewrite Ho5|split; [by rewrite Hw5|by rewrite Hl5]|done].
      rewrite <- Hst3 in Ha5. injection Ha5 as ->. done.
    - apply DispatchRefused. by rewrite Hc5. }
  destruct (_ <? _)%nat; [apply Hgo; auto|].
  destruct (_ == _); apply Hgo; auto.
Qed.

Lemma dispatch_spec aid s :
  is_some (attempt_of aid s) = true →
  wp (dispatch max_failures order profile recipient key items aid) (dispatch_case aid s) s.
Proof.
  intros Hex. unfold dispatch. apply wp_gets.
  apply wp_guard; [intros _|intros _; by apply DispatchRaised].
  apply wp_bind, wp_intro. intros r s1 Hd.
  pose proof (steps_run _ _ _ _ _ (untouched_dispatch_items _ _ _ _ _ _ _ _ _) Hd) as Hun.
  destruct r as [d|e]; [|by apply DispatchRaised].
  eapply wp_step; [done|]. set (s2 := s1 <| ses_db ::= _ |>).
  assert (untouched s s2) as Hun2.
  { etrans; [exact Hun|]. by apply (untouched_update_attempt aid (λ a, _)). }
  assert (is_some (attempt_of aid s2) = true) as Hex2 by (by apply (unt_attempts _ _ Hun2)).
  destruct (nonterminal d) as [|first rest] eqn:Hn.
  - eapply settle_success_spec; [done..|]. by apply nonterminal_nil.
  - by apply settle_nonterminal_spec.
Qed.

(** How the failure flow ends, seen from a state with the same money and
    orders. *)
Inductive failure_case (e : exn) (s : Session) : outcome exn FulfillmentAttempt → Session → Prop :=
  | FailureRetry s' :
      is_final e = false → orders (ses_db s') = orders (ses_db s) →
      same_funds s s' → persisted s' → failure_case e s (Raise (reraised e)) s'
  | FailureFinal s' :
      is_final e = true →
      funds_still s s' ∨ refund_made order s s' →
      orders (ses_db s') = orders (ses_db s) ∨ order_set (order_id order) OrderFailed s s' →
      (last (ses_sent s') = Some (SentNotice NotifyOrderRefunded (order_id order)) →
       refund_on_record order s' ∧ order_set (order_id order) OrderFailed s s') →
      persisted s' → failure_case e s (Raise (reraised e)) s'
  | FailureAborted e' s' :
      as_provider_error e' = None → ses_committed s' = ses_committed s → failure_case e s (Raise e') s'.

Lemma reraise_spec e s0 s :
  (∀ e', failure_case e s0 (Raise e') s) ∨ failure_case e s0 (Raise (reraised e)) s →
  wp (match as_provider_error e with
      | Some _ => mthrow e
      | None => mthrow (ProviderErrorFrom false e)
      end) (failure_case e s0) s.
Proof. unfold reraised. destruct (as_provider_error e); intros [?|?]; apply wp_throw; auto. Qed.

Lemma record_failure_spec aid e s :
  uuid_str (order_id order) ≠ "" → is_some (attempt_of aid s) = true →
  wp (record_failure order aid attempt_number e) (failure_case e s) s.
Proof.
  intros Hid Hex. unfold record_failure. cbv zeta. apply wp_gets. eapply wp_step; [done|].
  set (s1 := s <| ses_db ::= _ |>).
  assert (untouched s s1) as Hun1 by (by apply (untouched_update_attempt aid (λ a, _))).
  assert (is_some (attempt_of aid s1) = true) as Hex1 by (by apply (unt_attempts _ _ Hun1)).
  apply wp_bind, wp_catch. eapply wp_mono; [by apply flush_attempt_effect|].
  intros [u|e'] s2; [|intros [_ ->]; by apply FailureAborted].
  intros [amount ->]. set (s2 := s1 <| ses_db ::= _ |>).
  assert (wallets (ses_db s2) = wallets (ses_db s) ∧ ledger (ses_db s2) = ledger (ses_db s)
          ∧ orders (ses_db s2) = orders (ses_db s)) as (Hw & Hl & Ho) by done.
  destruct (failure_retryable e && (attempt_number <? 3)) eqn:Hfin.
  - apply wp_bind. eapply wp_step; [done|]. eapply wp_step; [done|]. apply wp_intro.
    intros r s3 [= <- <-]. apply reraise_spec. right.
    apply FailureRetry; [unfold is_final; by rewrite Hfin|done..].
  - apply wp_bind. eapply wp_step; [done|]. set (s3 := s2 <| ses_db ::= _ |>).
    apply wp_bind, wp_intro. intros r s4 Hr.
    apply (wp_run _ _ _ _ _ (refund_order_spec _ s3 Hid)) in Hr as (b & -> & [_ _ Hm Hb Ho4]).
    eapply wp_step; [done|]. apply wp_intro. intros r s5 [= <- <-]. apply reraise_spec. right.
    apply FailureFinal; [unfold is_final; by rewrite Hfin|exact Hm| | |done].
    + destruct b; [right|left]; exact Ho4.
    + intros Hlast. cbn in Hlast. rewrite last_snoc in Hlast. destruct b; [|done].
      split; [by apply Hb|exact Ho4].
Qed.

Lemma fail_attempt_spec aid e s :
  uuid_str (order_id order) ≠ "" → is_some (attempt_of aid s) = true →
  wp (fail_attempt order aid attempt_number e) (failure_case e s) s.
Proof.
  intros Hid Hex. destruct e; cbn [fail_attempt];
    first [by apply record_failure_spec | by apply FailureAborted].
Qed.

(** Between the start of the attempt and the dispatch. *)
Record prepared (s s2 : Session) : Prop := {
  prep_funds : same_funds s s2;
  prep_begun : begun s s2;
  prep_committed : ses_committed s2 = ses_committed s;
  prep_order : is_some (get_row (order_id order) (orders (ses_db s2))) = true;
}.

Lemma order_set_again st s s2 s' :
  begun s s2 → order_set (order_id order) st s2 s' → order_set (order_id order) st s s'.
Proof.
  unfold begun, order_set. intros Hb ->. destruct (_ == _); rewrite Hb; [|done].
  unfold update_row, update_where. rewrite map_map. apply map_ext. intros o.
  destruct (row_id o == order_id order) eqn:Ho.
  - change (row_id (o <| order_status := OrderProcessing |>)) with (row_id o). by rewrite Ho.
  - by rewrite Ho.
Qed.

Lemma begun_same s s2 s' :
  begun s s2 → orders (ses_db s') = orders (ses_db s2) → begun s s'.
Proof. unfold begun, order_set. intros Hb ->. done. Qed.

Lemma same_funds_trans s s2 s' : same_funds s s2 → same_funds s2 s' → same_funds s s'.
Proof. intros [? ?] [? ?]. split; congruence. Qed.

Lemma dispatched_case aid s s2 a s' :
  prepared s s2 → dispatch_case aid s2 (Ok a) s' → attempt_case s (Ok a) s'.
Proof.
  intros [Hf Hb Hc Ho] Hd. inversion Hd; subst.
  - eapply AttemptFulfilled; try done.
    + match goal with Hr : dispatch_items _ _ _ _ _ _ _ _ _ _ = _ |- _ =>
        exact (dispatch_items_length _ _ _ _ _ _ Hr) end.
    + match goal with Hs : order_set _ _ _ _ |- _ => unfold order_set in Hs; rewrite Hs end.
      rewrite get_update_same by done. by destruct (get_row _ _).
    + by eapply same_funds_trans.
  - eapply AttemptPending; try done; [by eapply begun_same|by eapply same_funds_trans].
Qed.

Lemma failed_case e s s2 r s' :
  prepared s s2 → failure_case e s2 r s' → attempt_case s r s'.
Proof.
  intros [[Hw Hl] Hb Hc Ho] Hd. inversion Hd; subst.
  - eapply AttemptRetry; try done; [by eapply begun_same|by eapply same_funds_trans].
  - eapply AttemptFailed; try done.
    + unfold funds_still, refund_made, find_entry in *. by rewrite <- Hw, <- Hl.
    + match goal with Ho' : _ ∨ _ |- begun _ _ ∨ _ => destruct Ho' end;
        [left; by eapply begun_same|right; by eapply order_set_again].
    + match goal with Hn : last _ = _ → _ |- _ => intros Hlast; destruct (Hn Hlast) end.
      split; [done|by eapply order_set_again].
  - apply AttemptAborted; [done|congruence].
Qed.

Lemma prepared_start s s1 :
  untouched s s1 → get_row (order_id order) (orders (ses_db s1)) = Some order →
  wp (if order_status order == OrderPaid then transition_order (order_id order) OrderProcessing
      else mret tt)
     (λ r s2, r = Ok tt ∧ prepared s s2 ∧ attempts (ses_db s2) = attempts (ses_db s1)) s1.
Proof.
  intros [Hw Hl Ho Hc _] Hrow. unfold begun.
  destruct (bool_decide_reflect (order_status order = OrderPaid)) as [Hp|Hp].
  - unfold transition_order. apply wp_gets. rewrite Hrow, Hp. cbn.
    eapply wp_step; [done|]. unfold wp. cbn. split; [done|]. split; [|done].
    split; [by split| |done|].
    + unfold begun, order_set. rewrite bool_decide_eq_true_2 by done. cbn. by rewrite Ho.
    + cbn. rewrite get_update_same by done. by rewrite Hrow.
  - apply wp_ret. split; [done|]. split; [|done]. split; [by split| |done|by rewrite Hrow].
    unfold begun. by rewrite bool_decide_eq_false_2.
Qed.

Lemma fulfill_spec aid s s1 :
  uuid_str (order_id order) ≠ "" → is_some (attempt_of aid s1) = true → untouched s s1 →
  get_row (order_id order) (orders (ses_db s1)) = Some order →
  wp (fulfill max_failures order items profile recipient key aid attempt_number)
     (attempt_case s) s1.
Proof.
  intros Hid Hex Hun Hrow. unfold fulfill. apply wp_bind.
  eapply wp_mono; [by apply prepared_start|]. intros r s2 (-> & Hprep & Ha).
  eapply wp_step; [done|]. set (s3 := s2 <| ses_sent ::= _ |>).
  assert (prepared s s3) as Hprep3 by (destruct Hprep; by split).
  assert (items = [] ∨ ∃ i rest, items = i :: rest) as [Hitems|(i & rest & Hitems)]
    by (destruct items; eauto); rewrite Hitems.
  - apply wp_gets. eapply wp_step; [done|]. eapply wp_step; [done|]. unfold get_attempt.
    apply wp_gets. cbn. rewrite get_update_same, Ha by done.
    destruct (attempt_of aid s1) as [a|]; [|done]. cbn. destruct Hprep3 as [[? ?] ? ? ?].
    eapply AttemptEmpty; try done.
  - eapply wp_step; [done|]. set (s4 := s3 <| ses_db ::= _ |>).
    assert (prepared s s4) as Hprep4 by (destruct Hprep3; by split).
    assert (is_some (attempt_of aid s4) = true) as Hex4.
    { subst s4. cbn. by rewrite is_some_update_row, Ha. }
    apply wp_catch, wp_intro. intros r s5 Hd. rewrite <- Hitems in Hd.
    apply (wp_run _ _ _ _ _ (dispatch_spec aid s4 Hex4)) in Hd.
    destruct r as [a|e]; [by eapply dispatched_case|].
    inversion Hd as [| |? ? Hun5|? Hc5]; subst.
    + eapply wp_mono; [apply fail_attempt_spec; [done|by apply (unt_attempts _ _ Hun5)]|].
      intros r s6 Hf. eapply failed_case; [|exact Hf].
      destruct Hprep4 as [[Hw Hl] Hb Hc Ho], Hun5 as [Hw5 Hl5 Ho5 Hc5 _].
      split; [split; congruence|by eapply begun_same|congruence|by rewrite Ho5].
    + apply AttemptAborted; [done|]. change (ses_committed s5 = ses_committed s).
      rewrite Hc5. by destruct Hprep4.
Qed.

End attempt.

Lemma execute_cases `{HE : Env} `{Adapters} max_failures oid recipient n s r s' :
  Serial HE → uuid_str oid ≠ "" →
  execute_order_fulfillment max_failures oid recipient n s = (r, s') →
  (is_ok r = false ∧ s' = s)
  ∨ ∃ order, get_row oid (orders (ses_db s)) = Some order
    ∧ attempt_case max_failures order (order_lines oid (ses_db s)) (order_profile order (ses_db s))
        recipient (attempt_key order n) n s r s'.
Proof.
  intros HS Hid Hrun. revert Hrun.
  apply (wp_run _ (λ r s', (is_ok r = false ∧ s' = s) ∨ ∃ order, _ ∧ attempt_case _ _ _ _ _ _ _ s r s')).
  unfold execute_order_fulfillment. apply wp_gets.
  apply wp_bind, wp_intro. intros o1 s1 Ho.
  destruct (select (λ o, order_id o == oid) (orders (ses_db s))) as [|order [|o2 l]] eqn:Hsel;
    injection Ho as <- <-; [by left| |by left].
  assert (get_row oid (orders (ses_db s)) = Some order) as Hrow.
  { unfold get_row, first. unfold row_id, Order_row. by rewrite Hsel. }
  assert (order_id order = oid) as <- by (by apply get_row_Some in Hrow as [_ ?]).
  eapply wp_mono; [|intros r1 s1 Hc; right; exists order; split; [exact Hrow|exact Hc]].
  eapply wp_step; [done|]. apply wp_gets, wp_gets. cbv zeta. apply wp_gets.
  apply wp_bind, wp_intro. intros a1 s1 Ha.
  destruct (attempts_by_key _ (ses_db s)) as [|a [|a2 l]] eqn:Hatt; injection Ha as <- <-.
  - unfold insert_attempt. apply wp_bind, wp_gets.
    eapply wp_step; [done|]. apply wp_bind. unfold to_varchar.
    destruct (_ <? _)%nat; [by apply wp_throw, AttemptAborted|]. apply wp_ret.
    eapply wp_step; [done|]. apply wp_ret. apply fulfill_spec; try done.
    + cbn. rewrite get_row_app_new.
      destruct (get_row (env_uuid4 (ses_draws s)) (attempts (ses_db s))); [done|].
      unfold row_id, FulfillmentAttempt_row. cbn. by rewrite bool_decide_eq_true_2.
    + split; try done. intros i. cbn. rewrite get_row_app_new. by destruct (get_row i _).
  - destruct (bool_decide_reflect (att_status a = FulSucceeded)) as [Hs|Hs];
      [by apply wp_ret, AttemptReplayed|].
    assert (a ∈ attempts (ses_db s)) as Hin.
    { assert (a ∈ attempts_by_key (attempt_key order n) (ses_db s)) as Hin by (rewrite Hatt; left).
      by apply elem_of_select in Hin as [? _]. }
    eapply wp_step; [done|]. apply fulfill_spec; try done.
    + cbn. rewrite is_some_update_row by done. destruct (get_row (att_id a) _) eqn:Hg; [done|].
      rewrite get_row_None in Hg. by apply Hg in Hin.
    + by apply (untouched_update_attempt (att_id a) (λ a, _)).
  - by apply AttemptAborted.
Qed.


(** A paid order of one line, for the suppliers of the routing example. *)
Definition paid_order : Order :=
  MkOrder (mk_uuid "order-1") (mk_uuid "tenant") (mk_uuid "buyer") "ORD-1" OrderPaid (cents 900) "USD"
    None None 0.

Definition paid_db : DB :=
  routing_db <| variants := [MkProductVariant (mk_uuid "variant") (mk_uuid "product") "SKU" "Variant"
                               (cents 900) "USD" 1 true None] |>
             <| orders := [paid_order] |>
             <| order_items := [MkOrderItem (mk_uuid "item-1") (mk_uuid "order-1") (mk_uuid "variant") 1
                                  (cents 900) (cents 900) []] |>.

Definition paid_session : Session := MkSession paid_db paid_db 0 [].

Definition fulfilled_demo : outcome exn FulfillmentAttempt * Session :=
  @execute_order_fulfillment demo_env demo_adapters 3 (mk_uuid "order-1") "buyer" 1 paid_session.


(** ** Refunds are unique *)

(** No wallet holds two refunds of one order. *)
Definition refunds_unique (d : DB) : Prop :=
  ∀ wid rid, (length (select (has_reference wid REFUND CANONICAL_REFUND_TYPE rid) (ledger d)) ≤ 1)%nat.

(** ** Retrying after a timeout *)

(** A supplier that takes on every order, too slowly to say so in time. *)
Definition slow_adapters : Adapters := {|
  reg_definitions := @reg_definitions demo_adapters;
  reg_config_validator _ := None;
  reg_capability_resolver _ := None;
  reg_credential_resolver _ := None;
  get_secret _ := None;
  client_create_order _ _ _ _ := Raise TimeoutError;
  client_get_order _ _ _ _ := Raise (provider_exn ProviderError);
  score_rank _ w := w;
|}.

Definition order_keys (l : list Sent) : list string :=
  omap (λ m, match m with SentOrder _ r => Some (req_idempotency_key r) | _ => None end) l.

(** A retry after a timeout can buy the same line twice.  The first
    attempt at a slow supplier ends as [UNKNOWN] with a retryable error, and
    the second attempt (what the worker schedules next) sends the same line
    again under another idempotency key, so that the supplier cannot recognise
    it: the router's rule that a timeout must converge through reconciliation
    holds within one attempt only. *)
Theorem timeout_retry_repurchases :
  let first := @execute_order_fulfillment demo_env slow_adapters 3 (mk_uuid "order-1") "buyer" 1
                 paid_session in
  let second := @execute_order_fulfillment demo_env slow_adapters 3 (mk_uuid "order-1") "buyer" 2
                  first.2 in
  (match first.1 with Raise e => failure_retryable e | Ok _ => false end) = true
  ∧ map att_status (attempts (ses_db first.2)) = [FulUnknown]
  ∧ order_keys (ses_sent second.2) = ["order:order-1:attempt:1"; "order:order-1:attempt:2"].
Proof. vm_compute. auto. Qed.
