(* ===== verification/Checkout.v ===== *)
(** * Checkout

    [packages/commerce/checkout.py], class [CheckoutService]: an idempotent
    cart checkout at server-side prices, the wallet debit that pays for it and
    the hand-over to fulfillment. *)

From Stdlib Require Import ZArith Lia Ascii String.
From stdpp Require Import base tactics list option strings numbers pretty.
From S2P Require Import Prelude Tables Text Money Exceptions StateMachines Models Ledger.
From S2P Require Import Profiles Pricing Operations Router Fulfillment.

Local Open Scope Z_scope.

Record CheckoutLine := MkCheckoutLine {
  line_variant_id : UUID;
  line_quantity : Z;
}.

(** The arguments of [checkout_cart]. *)
Record CheckoutRequest := MkCheckoutRequest {
  co_tenant_id : UUID;
  co_user_id : UUID;
  co_lines : list CheckoutLine;
  co_recipient : string;
  co_execute_sync : bool;
  co_idempotency_key : option string;
  co_enqueue_durable : bool;
  co_bot_id : option UUID;
  co_coupon_code : option string;
}.

(** ** Validation *)

(** [quantity_by_variant[k] = quantity_by_variant.get(k, 0) + n] *)
Fixpoint add_quantity (k : UUID) (n : Z) (l : by_uuid Z) : by_uuid Z :=
  match l with
  | [] => [(k, n)]
  | (k', m) :: l => if k' == k then (k', m + n) :: l else (k', m) :: add_quantity k n l
  end.

Fixpoint merge_lines (lines : list CheckoutLine) (acc : by_uuid Z) : outcome exn (by_uuid Z) :=
  match lines with
  | [] => Ok acc
  | l :: lines =>
      if line_quantity l <=? 0 then Raise ValueError
      else merge_lines lines (add_quantity (line_variant_id l) (line_quantity l) acc)
  end.

(** [idempotency_key.strip()], not empty and at most 100 characters. *)
Definition clean_key (key : option string) : outcome exn (option string) :=
  match key with
  | None => Ok None
  | Some k =>
      let k := strip k in
      if (k == "") || (100 <? String.length k)%nat then Raise ValueError else Ok (Some k)
  end.

(** [coupon_code.strip().upper() if coupon_code else None] *)
Definition clean_coupon (code : option string) : outcome exn (option string) :=
  if truthy code then
    let c := upper (strip (default "" code)) in
    if (40 <? String.length c)%nat then Raise ValueError else Ok (Some c)
  else Ok None.

Section checkout.
  Context `{Env} `{Adapters} (max_consecutive_failures : Z).

Definition request_payload (quantities : by_uuid Z) (recipient : string) (coupon : option string)
  : json :=
  let items :=
    ("items", JList (map (λ kq : UUID * Z, JList [JStr (uuid_str kq.1); JInt kq.2])
                       (sort_by (λ a b : UUID * Z, uuid_leb a.1 b.1) quantities))) in
  let recipient := ("recipient", JStr recipient) in
  if truthy coupon then JObj [("coupon_code", JStr (default "" coupon)); items; recipient]
  else JObj [items; recipient].

Definition _request_hash (quantities : by_uuid Z) (recipient : string) (coupon : option string)
  : string :=
  env_sha256 (dumps (request_payload quantities recipient coupon)).

(** ** Orders by idempotency key *)

Definition orders_by_checkout_key (tenant_id user_id : UUID) (key : string) (d : DB) : list Order :=
  select (λ o, (order_tenant_id o == tenant_id) && (order_user_id o == user_id)
               && (order_checkout_idempotency_key o == Some key)) (orders d).

Definition _find_idempotent_order (tenant_id user_id : UUID) (key : string) : M (option Order) :=
  rows ← query (orders_by_checkout_key tenant_id user_id key); one_or_none rows.

Definition _assert_idempotent_request_matches (order : Order) (request_hash : string) : M unit :=
  raise_if (order_checkout_request_hash order != Some request_hash) ValueError.

Definition live_order (order : Order) (d : DB) : Order :=
  default order (get_row (order_id order) (orders d)).

Definition _resume_or_return (order : Order) (recipient : string) (execute_sync : bool)
  : M (Order * option FulfillmentAttempt) :=
  if execute_sync && ((order_status order == OrderPaid) || (order_status order == OrderProcessing))
  then
    attempt ← execute_order_fulfillment max_consecutive_failures (order_id order) recipient 1;
    order ← query (live_order order);
    mret (order, Some attempt)
  else mret (order, None).

(** What a request with an already used key gets: the order it created. *)
Definition replay (order : Order) (request_hash recipient : string) (execute_sync : bool)
  : M (Order * option FulfillmentAttempt) :=
  _assert_idempotent_request_matches order request_hash;;
  _resume_or_return order recipient execute_sync.

(** ** The order, its lines and its payment *)

(** [uuid.uuid4().hex[:8].upper()] *)
Definition order_number_of (u : UUID) : string :=
  "ORD-" +:+ upper (prefix_of 8 (of_chars (removed "-" (chars (uuid_str u))))).

(** The primary key, the unique order number and
    [uq_order_checkout_idempotency]. *)
Definition order_conflict (a b : Order) : bool :=
  (order_id a == order_id b) || (order_number a == order_number b)
  || (is_some (order_checkout_idempotency_key a)
      && (order_tenant_id a == order_tenant_id b) && (order_user_id a == order_user_id b)
      && (order_checkout_idempotency_key a == order_checkout_idempotency_key b)).

(** [session.add(order); flush()]; the row holds the total as the column
    rounds it, the caller's object as it was computed. *)
Definition insert_order (tenant_id user_id : UUID) (number : string) (total : dec)
    (currency : string) (key hash : option string) : M Order :=
  created_at ← now;
  i ← uuid4;
  stored ← to_numeric 12 2 total;
  currency' ← to_varchar 3 currency;
  let row := MkOrder i tenant_id user_id number OrderPending stored currency' key hash created_at in
  clash ← query (λ d, existsb (order_conflict row) (orders d));
  raise_if clash IntegrityError;;
  write (λ d, d <| orders ::= (λ t, t ++ [row]) |>);;
  mret (row <| order_total_amount := total |>).

Definition sale_terms (product : option Product) (decision : PriceDecision) (coupon : option string)
  : dict :=
  let metadata := from_option prod_metadata_json [] product in
  [ ("warranty_days", default (JInt 0) (dict_get "warranty_days" metadata));
    ("warranty_terms",
      JStr (prefix_of 2000 (env_json_str (default (JStr "") (dict_get "warranty_terms" metadata)))));
    ("base_unit_price", JStr (env_decimal_str (dec_sell_price decision)));
    ("coupon_code", match coupon with Some c => JStr c | None => JNull end) ].

(** One [OrderItem] and its [OrderItemEconomics]. *)
Definition insert_line (tenant_id : UUID) (order : Order) (bot_id : option UUID)
    (coupon : option string) (variant : ProductVariant) (quantity : Z) (price : dec)
    (quote : CommercePriceQuote) (decision : PriceDecision) : M unit :=
  product ← query (λ d, get_row (var_product_id variant) (products d));
  i ← uuid4;
  unit_price ← to_numeric 12 2 price;
  total_price ← to_numeric 12 2 (price * quantity);
  write (λ d, d <| order_items ::= (λ t, t ++ [MkOrderItem i (order_id order) (var_id variant) quantity
                     unit_price total_price (sale_terms product decision coupon)]) |>);;
  e ← uuid4;
  sale_amount ← to_numeric 18 6 (price * quantity);
  estimated ← match dec_supplier_cost decision with
              | Some c => x ← to_numeric 18 6 (c * quantity); mret (Some x)
              | None => mret None
              end;
  write (λ d, d <| item_economics ::= (λ t, t ++ [MkOrderItemEconomics e tenant_id (order_id order) i
                     bot_id (Some (quote_id quote)) (dec_pricing_tier_id decision)
                     (dec_pricing_rule_id decision) None sale_amount (dec_currency decision)
                     estimated (dec_supplier_currency decision) None None None None]) |>).

Definition insert_job (tenant_id oid : UUID) (recipient : string) : M unit :=
  created_at ← now;
  i ← uuid4;
  recipient ← to_varchar 255 recipient;
  write (λ d, d <| jobs ::= (λ t, t ++ [MkFulfillmentJobRecord i tenant_id oid recipient 1 JobQueued
                     [("source", JStr "checkout")] None None 0 None None created_at]) |>).

Abbreviation quoted_prices := (by_uuid (CommercePriceQuote * PriceDecision)).

(** [sum(decision.sell_price * quantity)] *)
Definition cart_total (quoted : quoted_prices) (quantities : by_uuid Z) : dec :=
  total_of (map (λ kq : UUID * (CommercePriceQuote * PriceDecision), (kq.1, dec_sell_price kq.2.2))
              quoted) quantities.

(** From the inserted order to the commit. *)
Definition pay_order (req : CheckoutRequest) (recipient : string) (coupon : option string)
    (quantities : by_uuid Z) (variants : list ProductVariant) (quoted : quoted_prices)
    (order : Order) : M Order :=
  let prices := map (λ kq : UUID * (CommercePriceQuote * PriceDecision),
                       (kq.1, dec_sell_price kq.2.2)) quoted in
  priced ← (if truthy coupon
            then apply_coupon (co_tenant_id req) (co_user_id req) order (default "" coupon) prices
                   quantities
            else mret (prices, order));
  let '(effective_prices, order) := priced in
  for_each variants
    (λ v, match lookup_assoc (var_id v) quoted, lookup_assoc (var_id v) quantities,
                lookup_assoc (var_id v) effective_prices with
          | Some (quote, decision), Some quantity, Some price =>
              insert_line (co_tenant_id req) order (co_bot_id req) coupon v quantity price quote
                decision
          | _, _, _ => mthrow NoResultFound
          end);;
  transition_order (order_id order) OrderPaymentPending;;
  wallet ← get_or_create_wallet (co_tenant_id req) (co_user_id req) (order_currency order);
  debit wallet (order_total_amount order) (Some (order_number order)) (Some "ORDER_CHECKOUT")
    (Some ("Purchase of " +:+ pretty (sum_of snd quantities) +:+ " item(s)"));;
  transition_order (order_id order) OrderPaid;;
  (if co_enqueue_durable req then insert_job (co_tenant_id req) (order_id order) recipient
   else mret tt);;
  commit;;
  notify NotifyPaymentConfirmed order;;
  mret order.

(** ** The operation *)

(** [sales_paused] *)
Definition sales_open (tenant_id : UUID) (d : DB) : bool :=
  match get_row tenant_id (tenants d) with
  | Some t => negb (match dict_get "sales_paused" (ten_settings t) with
                    | Some (JBool true) => true
                    | _ => false
                    end)
  | None => false
  end.

Definition one_currency (quoted : quoted_prices) : option string :=
  match quoted with
  | [] => None
  | (_, (_, decision)) :: rest =>
      if forallb (λ kq : UUID * (CommercePriceQuote * PriceDecision),
                    dec_currency kq.2.2 == dec_currency decision) rest
      then Some (dec_currency decision) else None
  end.

(** A request that is not a replay. *)
Definition place_order (req : CheckoutRequest) (recipient : string) (key coupon : option string)
    (quantities : by_uuid Z) (request_hash : string) : M (Order * option FulfillmentAttempt) :=
  open ← query (sales_open (co_tenant_id req));
  raise_if (negb open) ValueError;;
  variants ← query (load_variants (co_tenant_id req) (map fst quantities));
  raise_if (negb (length variants =? length quantities)%nat) ValueError;;
  quoted ← map_prog (λ v, q ← quote 120 (co_tenant_id req) (co_user_id req) v (co_bot_id req);
                          mret (var_id v, q)) variants;
  currency ← of_option ValueError (one_currency quoted);
  u ← uuid4;
  let total := cart_total quoted quantities in
  await_others;;
  inserted ← catch
    (o ← insert_order (co_tenant_id req) (co_user_id req) (order_number_of u) total currency key
           (if is_some key then Some request_hash else None); mret (Ok o))
    (λ e, match e with
          | IntegrityError =>
              rollback;;
              await_others;;
              match key with
              | None => mthrow IntegrityError
              | Some k =>
                  existing ← _find_idempotent_order (co_tenant_id req) (co_user_id req) k;
                  winner ← of_option IntegrityError existing;
                  mret (Raise winner)
              end
          | _ => mthrow e
          end);
  match inserted with
  | Raise winner => replay winner request_hash recipient (co_execute_sync req)
  | Ok order =>
      order ← pay_order req recipient coupon quantities variants quoted order;
      if co_execute_sync req then
        attempt ← execute_order_fulfillment max_consecutive_failures (order_id order) recipient 1;
        row ← query (live_order order);
        mret (row <| order_total_amount := order_total_amount order |>, Some attempt)
      else
        row ← query (live_order order);
        mret (row <| order_total_amount := order_total_amount order |>, None)
  end.

Definition checkout_cart (req : CheckoutRequest) : M (Order * option FulfillmentAttempt) :=
  raise_if (co_execute_sync req && co_enqueue_durable req) ValueError;;
  let recipient := strip (co_recipient req) in
  raise_if (recipient == "") ValueError;;
  raise_if (length (co_lines req) =? 0)%nat ValueError;;
  raise_if (50 <? length (co_lines req))%nat ValueError;;
  quantities ← of_outcome (merge_lines (co_lines req) []);
  key ← of_outcome (clean_key (co_idempotency_key req));
  coupon ← of_outcome (clean_coupon (co_coupon_code req));
  let request_hash := _request_hash quantities recipient coupon in
  existing ← match key with
             | Some k => _find_idempotent_order (co_tenant_id req) (co_user_id req) k
             | None => mret None
             end;
  match existing with
  | Some order => replay order request_hash recipient (co_execute_sync req)
  | None => place_order req recipient key coupon quantities request_hash
  end.

(** The single-line wrapper. *)
Definition checkout (req : CheckoutRequest) (variant_id : UUID) (quantity : Z)
  : M (Order * option FulfillmentAttempt) :=
  checkout_cart (MkCheckoutRequest (co_tenant_id req) (co_user_id req)
                   [MkCheckoutLine variant_id quantity] (co_recipient req) (co_execute_sync req)
                   (co_idempotency_key req) (co_enqueue_durable req) (co_bot_id req)
                   (co_coupon_code req)).

End checkout.
