(* ===== verification/CheckoutSpec.v ===== *)
(** * Checkout: what a purchase charges, once and atomically *)

From Stdlib Require Import ZArith Lia Ascii String.
From stdpp Require Import base tactics list option strings numbers pretty.
From S2P Require Import Prelude Tables Text Money Exceptions StateMachines Models Ledger.
From S2P Require Import LedgerInv LedgerSpec HoldsSpec DepositsSpec Profiles Pricing Operations Router.
From S2P Require Import RouterSpec Fulfillment FulfillmentSpec Checkout.

Local Open Scope Z_scope.

(** ** Frames *)

(** Pricing a cart and writing its lines leave money, orders and jobs alone. *)
Record quiet (s s' : Session) : Prop := {
  quiet_wallets : wallets (ses_db s') = wallets (ses_db s);
  quiet_ledger : ledger (ses_db s') = ledger (ses_db s);
  quiet_holds : holds (ses_db s') = holds (ses_db s);
  quiet_orders : orders (ses_db s') = orders (ses_db s);
  quiet_jobs : jobs (ses_db s') = jobs (ses_db s);
  quiet_committed : ses_committed s' = ses_committed s;
}.

Global Instance quiet_preorder : PreOrder quiet.
Proof. split; [by intros s; split|]. intros x y z [] []. split; congruence. Qed.

Lemma quiet_write f :
  (∀ d, wallets (f d) = wallets d ∧ ledger (f d) = ledger d ∧ holds (f d) = holds d
        ∧ orders (f d) = orders d ∧ jobs (f d) = jobs d) →
  steps quiet (write f).
Proof. intros Hf s. destruct (Hf (ses_db s)) as (? & ? & ? & ? & ?). by split. Qed.

Section frames.
  Context `{HE : Env} `{!Serial HE}.

Lemma quiet_uuid4 : steps quiet uuid4.
Proof. by intros s; split. Qed.

Lemma quiet_await : steps quiet await_others.
Proof. intros s. split; cbn; by rewrite ?serial_race. Qed.

Lemma quiet_nested {A} (m : M A) : steps quiet m → steps quiet (begin_nested m).
Proof.
  intros Hm s. specialize (Hm s). unfold begin_nested.
  destruct (m s) as [[a|e] s']; [done|]. by destruct Hm; split.
Qed.

Hint Resolve quiet_uuid4 quiet_await : steps.

Lemma quiet_insert_quote t u v d f x : steps quiet (insert_quote t u v d f x).
Proof. unfold insert_quote. steps_walk; by apply quiet_write. Qed.

Lemma quiet_decide t u v b : steps quiet (decide_price t u v b).
Proof. unfold decide_price, resolve_tier, resolve_rule, best_fresh_offer. steps_walk. Qed.

Lemma quiet_quote ttl t u v b : steps quiet (quote ttl t u v b).
Proof.
  unfold quote, except_integrity. apply steps_bind; [typeclasses eauto|apply quiet_decide|intros d].
  steps_walk; by apply quiet_nested, quiet_insert_quote.
Qed.

Lemma quiet_insert_line t o b c v n p q d : steps quiet (insert_line t o b c v n p q d).
Proof. unfold insert_line. steps_walk; by apply quiet_write. Qed.

End frames.

(** ** Inserting and updating one row *)

Lemma update_row_snoc {A} `{Row A} i (f : A → A) t r :
  (∀ x, x ∈ t → row_id x ≠ i) → row_id r = i → update_row i f (t ++ [r]) = t ++ [f r].
Proof.
  intros Ht Hr. unfold update_row. rewrite update_where_app. f_equal.
  - apply update_where_id. intros x Hx Heq%bool_decide_eq_true. by apply Ht in Heq.
  - unfold update_where. cbn. by rewrite bool_decide_eq_true_2.
Qed.

(** A row of the table and the object the caller holds: the total apart, which
    the column rounds, they agree. *)
Record row_of (order row : Order) : Prop := {
  ro_id : order_id row = order_id order;
  ro_tenant : order_tenant_id row = order_tenant_id order;
  ro_user : order_user_id row = order_user_id order;
  ro_number : order_number row = order_number order;
  ro_currency : order_currency row = order_currency order;
  ro_key : order_checkout_idempotency_key row = order_checkout_idempotency_key order;
  ro_hash : order_checkout_request_hash row = order_checkout_request_hash order;
  ro_total : numeric 12 2 (order_total_amount order) = Some (order_total_amount row);
}.

(** The order of a checkout is the last row, and the only one with its id. *)
Definition last_order (os : list Order) (order row : Order) (s : Session) : Prop :=
  orders (ses_db s) = os ++ [row] ∧ row_of order row ∧ ∀ o, o ∈ os → order_id o ≠ order_id order.

(** Everything but the orders. *)
Record aside (s s' : Session) : Prop := {
  as_wallets : wallets (ses_db s') = wallets (ses_db s);
  as_ledger : ledger (ses_db s') = ledger (ses_db s);
  as_holds : holds (ses_db s') = holds (ses_db s);
  as_jobs : jobs (ses_db s') = jobs (ses_db s);
  as_committed : ses_committed s' = ses_committed s;
}.

Global Instance aside_preorder : PreOrder aside.
Proof. split; [by intros s; split|]. intros x y z [] []. split; congruence. Qed.

Lemma quiet_aside s s' : quiet s s' → aside s s'.
Proof. intros []. by split. Qed.

Lemma last_order_quiet os order row s s' :
  quiet s s' → last_order os order row s → last_order os order row s'.
Proof. intros [] (Ho & Hr & Hf). split; [congruence|done]. Qed.

Section payment.
  Context `{HE : Env} `{!Serial HE}.

Lemma transition_last os order row target s u s' :
  last_order os order row s → transition_order (order_id order) target s = (Ok u, s') →
  last_order os order (row <| order_status := target |>) s' ∧ aside s s'.
Proof.
  intros (Ho & Hr & Hf) Hrun.
  apply (wp_run _ _ _ _ _ (transition_order_effect _ _ s)) in Hrun. cbv beta iota in Hrun. subst s'.
  split; [|by split]. split; [|split; [by destruct Hr; split|done]].
  change (update_row (order_id order) (λ o, o <| order_status := target |>) (orders (ses_db s))
          = os ++ [row <| order_status := target |>]).
  rewrite Ho. apply update_row_snoc; [done|by destruct Hr].
Qed.

(** [apply_coupon] moves the total of the order. *)
Lemma apply_coupon_last os order row t u code prices quantities s eff order' s' :
  last_order os order row s →
  apply_coupon t u order code prices quantities s = (Ok (eff, order'), s') →
  ∃ row', last_order os order' row' s' ∧ aside s s' ∧ order_status row' = order_status row
    ∧ order_currency order' = order_currency order ∧ order_number order' = order_number order
    ∧ order_id order' = order_id order ∧ order_tenant_id order' = order_tenant_id order
    ∧ order_user_id order' = order_user_id order
    ∧ order_checkout_idempotency_key order' = order_checkout_idempotency_key order
    ∧ order_checkout_request_hash order' = order_checkout_request_hash order.
Proof.
  intros (Ho & Hr & Hf) Hrun. unfold apply_coupon in Hrun. bind_query Hrun.
  apply bind_inv_ok in Hrun as (tm & s1 & [= _ <-] & Hrun). bind_some Hrun coupon Hc.
  bind_guard Hrun Hg1. cbv zeta in Hrun. bind_query Hrun. bind_write Hrun. bind_guard Hrun Hg2.
  bind_guard Hrun Hg3. apply bind_inv_ok in Hrun as ([] & s2 & Hred & Hrun).
  apply bind_inv_ok in Hrun as (stored & s3 & Hst & Hrun). apply of_option_ok in Hst as [Hst ->].
  bind_write Hrun. apply ret_inv in Hrun as [[= -> ->] ->].
  assert (∃ r n, s2 = s <| ses_db ::= λ d, d <| coupons := coupons (ses_db s2) |>
                                             <| redemptions := r |> |> <| ses_draws := n |>)
    as (r & n & Hs2).
  { unfold insert_redemption in Hred. db_inv. eexists _, _. reflexivity. }
  exists (row <| order_total_amount := stored |>). split_and!; try done.
  - split; [|split; [destruct Hr; by split|done]].
    change (update_row (order_id order) (λ o, o <| order_total_amount := stored |>)
              (orders (ses_db s2)) = os ++ [row <| order_total_amount := stored |>]).
    replace (orders (ses_db s2)) with (os ++ [row]) by (by rewrite Hs2, <- Ho).
    apply update_row_snoc; [done|by destruct Hr].
  - rewrite Hs2. by split.
Qed.

(** The ledger entry that pays for an order, and that the money was there. *)
Record payment_entry (order : Order) (s : Session) (w : Wallet) (tx : LedgerTransaction) : Prop := {
  pe_type : tx_transaction_type tx = DEBIT;
  pe_wallet : tx_wallet_id tx = wallet_id w;
  pe_owner : owns order w;
  pe_amount : numeric 14 2 (order_total_amount order) = Some (tx_amount tx);
  pe_positive : 0 < order_total_amount order;
  pe_available : held_total (wallet_id w) (ses_db s) + order_total_amount order <= wallet_balance w;
  pe_after : numeric 14 2 (wallet_balance w - order_total_amount order) = Some (tx_balance_after tx);
  pe_reference : tx_reference_id tx = Some (order_number order)
                 ∧ tx_reference_type tx = Some "ORDER_CHECKOUT";
}.

(** A completed purchase, from [s] to [s']. *)
Record purchase (req : CheckoutRequest) (order : Order) (s s' : Session) : Prop := {
  pu_row : ∃ row, orders (ses_db s') = orders (ses_db s) ++ [row] ∧ row_of order row
                  ∧ order_status row = OrderPaid;
  pu_buyer : order_tenant_id order = co_tenant_id req ∧ order_user_id order = co_user_id req;
  pu_debit : ∃ w tx, payment_entry order s w tx ∧ ledger (ses_db s') = ledger (ses_db s) ++ [tx];
  pu_job : if co_enqueue_durable req
           then ∃ job, jobs (ses_db s') = jobs (ses_db s) ++ [job] ∧ job_order_id job = order_id order
                       ∧ job_status job = JobQueued
           else jobs (ses_db s') = jobs (ses_db s);
  pu_persisted : persisted s';
}.

Lemma held_total_same wid d d' : holds d' = holds d → held_total wid d' = held_total wid d.
Proof. unfold held_total. by intros ->. Qed.

(** Locking a wallet that is in the table gives that wallet. *)
Lemma lock_wallet_same w s wl s' :
  w ∈ wallets (ses_db s) → lock_wallet w s = (Ok wl, s') → wl = w ∧ s' = s.
Proof.
  intros Hin Hl. unfold lock_wallet in Hl. bind_query Hl.
  apply bind_inv_ok in Hl as (o & s1 & Hone & Hl). apply of_option_ok in Hl as [-> ->].
  apply one_or_none_some in Hone as [Hsel ->]. split; [|done].
  match type of Hsel with select ?p ?t = _ => assert (w ∈ select p t) as Hw end.
  { apply elem_of_select. split; [done|]. by rewrite !bool_decide_eq_true_2. }
  rewrite Hsel in Hw. by apply list_elem_of_singleton in Hw.
Qed.

(** The debit, with the wallet opened if need be. *)
Lemma debit_effect order desc s w s1 tx s2 :
  get_or_create_wallet (order_tenant_id order) (order_user_id order) (order_currency order) s
    = (Ok w, s1) →
  debit w (order_total_amount order) (Some (order_number order)) (Some "ORDER_CHECKOUT") desc s1
    = (Ok tx, s2) →
  payment_entry order s w tx ∧ ledger (ses_db s2) = ledger (ses_db s) ++ [tx]
  ∧ orders (ses_db s2) = orders (ses_db s) ∧ jobs (ses_db s2) = jobs (ses_db s).
Proof.
  intros Hw Hd.
  destruct (wp_run _ _ _ _ _ (get_or_create_wallet_effect _ _ _ s) Hw) as (new & Hdb1 & _).
  apply get_or_create_wallet_ok, elem_of_select in Hw as [Hin Hk].
  rewrite !andb_true_iff, !bool_decide_eq_true in Hk. destruct Hk as [[Ht Hu] Hc].
  unfold debit in Hd. bind_guard Hd Hpos. apply bind_inv_ok in Hd as (wl & s3 & Hl & Hd).
  apply lock_wallet_same in Hl as [-> ->]; [|done]. bind_guard Hd Hact. bind_query Hd.
  cbv zeta in Hd. bind_guard Hd Hav.
  apply flush_entry_ok in Hd as (a' & am' & b' & Ha & Ham & _ & -> & _ & ->).
  split; [|cbn; rewrite Hdb1; done].
  split; try done.
  - apply Z.leb_gt in Hpos. exact Hpos.
  - apply Z.ltb_ge in Hav. rewrite Hdb1 in Hav.
    change (held_total _ _) with (held_total (wallet_id w) (ses_db s)) in Hav. lia.
Qed.

Lemma payment_entry_aside order s s1 w tx :
  aside s s1 → payment_entry order s1 w tx → payment_entry order s w tx.
Proof.
  intros [_ _ Hh _ _] []. split; try done. by rewrite <- (held_total_same _ _ _ Hh).
Qed.

Lemma insert_job_effect t oid recipient s u s' :
  insert_job t oid recipient s = (Ok u, s') →
  ∃ job, jobs (ses_db s') = jobs (ses_db s) ++ [job] ∧ job_order_id job = oid
         ∧ job_status job = JobQueued ∧ orders (ses_db s') = orders (ses_db s)
         ∧ ledger (ses_db s') = ledger (ses_db s).
Proof.
  unfold insert_job. intros Hr. apply bind_inv_ok in Hr as (c & s1 & [= _ <-] & Hr).
  apply bind_inv_ok in Hr as (i & s1 & [= _ <-] & Hr).
  apply bind_inv_ok in Hr as (rc & s1 & Hv & Hr). apply to_varchar_ok in Hv as (-> & -> & _).
  apply write_inv in Hr as [_ ->]. eexists. cbn. by split_and!.
Qed.

(** The durable job, if asked for. *)
Lemma job_effect (durable : bool) t oid recipient s u s' :
  (if durable then insert_job t oid recipient else mret tt) s = (Ok u, s') →
  orders (ses_db s') = orders (ses_db s) ∧ ledger (ses_db s') = ledger (ses_db s)
  ∧ if durable
    then ∃ job, jobs (ses_db s') = jobs (ses_db s) ++ [job] ∧ job_order_id job = oid
                ∧ job_status job = JobQueued
    else jobs (ses_db s') = jobs (ses_db s).
Proof.
  destruct durable; intros Hr; [|by apply ret_inv in Hr as [_ ->]].
  apply insert_job_effect in Hr as (job & Hj & Hi & Hs & Ho & Hl). eauto 6.
Qed.

(** The coupon, if any. *)
Lemma price_cart_last os order row coupon t u prices quantities s eff order' s' :
  last_order os order row s →
  (if truthy coupon then apply_coupon t u order (default "" coupon) prices quantities
   else mret (prices, order)) s = (Ok (eff, order'), s') →
  ∃ row', last_order os order' row' s' ∧ aside s s' ∧ order_status row' = order_status row
    ∧ order_currency order' = order_currency order ∧ order_number order' = order_number order
    ∧ order_id order' = order_id order ∧ order_tenant_id order' = order_tenant_id order
    ∧ order_user_id order' = order_user_id order
    ∧ order_checkout_idempotency_key order' = order_checkout_idempotency_key order
    ∧ order_checkout_request_hash order' = order_checkout_request_hash order.
Proof.
  intros Hlast Hr. destruct (truthy coupon); [by eapply apply_coupon_last|].
  apply ret_inv in Hr as [[= -> ->] ->]. exists row. by split_and!.
Qed.

Lemma pay_order_effect req recipient coupon quantities vs quoted order row os s order' s' :
  order_tenant_id order = co_tenant_id req → order_user_id order = co_user_id req →
  last_order os order row s →
  pay_order req recipient coupon quantities vs quoted order s = (Ok order', s') →
  (∃ row', last_order os order' row' s' ∧ order_status row' = OrderPaid)
  ∧ order_tenant_id order' = co_tenant_id req ∧ order_user_id order' = co_user_id req
  ∧ order_checkout_idempotency_key order' = order_checkout_idempotency_key order
  ∧ order_checkout_request_hash order' = order_checkout_request_hash order
  ∧ (∃ w tx, payment_entry order' s w tx ∧ ledger (ses_db s') = ledger (ses_db s) ++ [tx])
  ∧ (if co_enqueue_durable req
     then ∃ job, jobs (ses_db s') = jobs (ses_db s) ++ [job] ∧ job_order_id job = order_id order'
                 ∧ job_status job = JobQueued
     else jobs (ses_db s') = jobs (ses_db s))
  ∧ persisted s'.
Proof.
  intros Ht Hu Hlast Hr. unfold pay_order in Hr. cbv zeta in Hr.
  apply bind_inv_ok in Hr as ([eff order1] & s1 & Hcoupon & Hr).
  eapply price_cart_last in Hcoupon as (row1 & Hl1 & Has1 & _ & _ & _ & _ & Ht1 & Hu1 & Hk1 & Hh1);
    [|done].
  apply bind_inv_ok in Hr as ([] & s2 & Hlines & Hr).
  assert (quiet s1 s2) as Hq2.
  { eapply steps_run; [|exact Hlines]. apply steps_for_each; [typeclasses eauto|]. intros v.
    repeat case_match; try apply quiet_insert_line; by apply steps_throw; typeclasses eauto. }
  pose proof (last_order_quiet _ _ _ _ _ Hq2 Hl1) as Hl2.
  pose proof (transitivity Has1 (quiet_aside _ _ Hq2)) as Has2.
  apply bind_inv_ok in Hr as ([] & s3 & Htr & Hr).
  destruct (transition_last _ _ _ _ _ _ _ Hl2 Htr) as [Hl3 Has3].
  pose proof (transitivity Has2 Has3) as Has03.
  apply bind_inv_ok in Hr as (w & s4 & Hw & Hr). apply bind_inv_ok in Hr as (tx & s5 & Hd & Hr).
  rewrite <- Ht, <- Ht1, <- Hu, <- Hu1 in Hw.
  destruct (debit_effect _ _ _ _ _ _ _ Hw Hd) as (Hpe & Hl5 & Ho5 & Hj5).
  apply bind_inv_ok in Hr as ([] & s6 & Htr6 & Hr).
  assert (last_order os order1 (row1 <| order_status := OrderPaymentPending |>) s5) as Hlo5.
  { destruct Hl3 as (Ho3 & ? & ?). split; [congruence|done]. }
  destruct (transition_last _ _ _ _ _ _ _ Hlo5 Htr6) as [Hl6 [_ Hlg6 _ Hj6 _]].
  apply bind_inv_ok in Hr as ([] & s7 & Hjob & Hr).
  apply bind_inv_ok in Hr as ([] & s8 & [= <-] & Hr).
  apply bind_inv_ok in Hr as ([] & s9 & [= <-] & Hr). apply ret_inv in Hr as [[= ->] ->].
  apply job_effect in Hjob as (Ho7 & Hlg7 & Hj7).
  assert (ledger (ses_db s7) = ledger (ses_db s) ++ [tx]) as Hledger.
  { rewrite Hlg7, Hlg6, Hl5. f_equal. apply Has03. }
  assert (jobs (ses_db s6) = jobs (ses_db s)) as Hjobs by (rewrite Hj6, Hj5; apply Has03).
  split_and!; try congruence.
  - exists (row1 <| order_status := OrderPaid |>). split; [|done].
    destruct Hl6 as (Ho6 & ? & ?). split; [cbn; rewrite Ho7; exact Ho6|done].
  - exists w, tx. split; [|exact Hledger]. by eapply payment_entry_aside.
  - cbn. rewrite <- Hjobs. exact Hj7.
  - done.
Qed.

End payment.

(** ** Placing an order *)

Section placing.
  Context `{HE : Env} `{!Serial HE} `{Adapters} (max_failures : Z).

Lemma insert_order_effect t u number total currency key hash s order s' :
  insert_order t u number total currency key hash s = (Ok order, s') →
  ∃ row, last_order (orders (ses_db s)) order row s' ∧ aside s s'
    ∧ order_tenant_id order = t ∧ order_user_id order = u
    ∧ order_checkout_idempotency_key order = key ∧ order_checkout_request_hash order = hash.
Proof.
  unfold insert_order. intros Hr. apply bind_inv_ok in Hr as (c & s1 & [= _ <-] & Hr).
  apply bind_inv_ok in Hr as (i & s1 & [= <- <-] & Hr). bind_some Hr stored Hst.
  apply bind_inv_ok in Hr as (cur & s1 & Hv & Hr). apply to_varchar_ok in Hv as (-> & -> & _).
  cbv zeta in Hr. bind_query Hr. bind_guard Hr Hclash. bind_write Hr.
  apply ret_inv in Hr as [[= ->] ->]. eexists. split; [|by split_and!].
  split; [cbn; reflexivity|]. split; [by split|].
  intros o Ho Heq. apply not_true_iff_false in Hclash. apply Hclash, existsb_exists.
  exists o. split; [by apply list_elem_of_In|]. unfold order_conflict.
  apply orb_true_iff. left. apply orb_true_iff. left. by apply bool_decide_eq_true.
Qed.

Lemma quiet_quotes req vs :
  steps quiet (map_prog (λ v, q ← quote 120 (co_tenant_id req) (co_user_id req) v (co_bot_id req);
                              mret (var_id v, q)) vs).
Proof.
  apply steps_map_prog; [typeclasses eauto|]. intros v.
  apply steps_bind; [typeclasses eauto|apply quiet_quote|intros q; by apply steps_ret; typeclasses eauto].
Qed.

(** The live row of a fresh order is the row, and the object returned is it
    with the computed total. *)
Lemma live_last os order row s :
  last_order os order row s → live_order order (ses_db s) = row.
Proof.
  intros (Ho & Hr & Hf). unfold live_order. rewrite Ho, get_row_app_new.
  rewrite (proj2 (get_row_None _ _)) by (intros o Hin; by apply Hf).
  unfold row_id, Order_row. by rewrite bool_decide_eq_true_2 by apply Hr.
Qed.

(** The object the caller gets back: the stored row with the computed total. *)
Lemma returned_row order row :
  row_of order row →
  row_of (row <| order_total_amount := order_total_amount order |>) row
  ∧ ∀ s w tx, payment_entry order s w tx →
      payment_entry (row <| order_total_amount := order_total_amount order |>) s w tx.
Proof.
  intros Hr. split; [destruct Hr; by split|]. intros s w tx [? ? (? & ? & ?) ? ? ? ? [? ?]].
  destruct Hr. split; try done.
  - unfold owns. cbn. split_and!; congruence.
  - cbn. split; congruence.
Qed.

Lemma committed_insert_order t u number total currency key hash :
  steps same_committed (insert_order t u number total currency key hash).
Proof. unfold insert_order. steps_walk. Qed.

(** Without a competitor there is no winner to return. *)
Lemma no_winner req key s s5 (r : outcome Order Order) s6 :
  ses_committed s5 = ses_db s →
  match key with Some k => orders_by_checkout_key (co_tenant_id req) (co_user_id req) k (ses_db s) = []
               | None => True end →
  (rollback;; await_others;;
   match key with
   | None => mthrow IntegrityError
   | Some k =>
       existing ← _find_idempotent_order (co_tenant_id req) (co_user_id req) k;
       winner ← of_option IntegrityError existing;
       mret (Raise winner)
   end) s5 ≠ (Ok r, s6).
Proof.
  intros Hc Hkey Hr. apply bind_inv_ok in Hr as ([] & s7 & [= <-] & Hr).
  apply bind_inv_ok in Hr as ([] & s8 & [= <-] & Hr). destruct key as [k|]; [|done].
  apply bind_inv_ok in Hr as (o & s9 & Hf & Hr). unfold _find_idempotent_order in Hf.
  bind_query Hf. cbn in Hf. rewrite serial_race, Hc, Hkey in Hf.
  apply ret_inv in Hf as [[= ->] ->]. done.
Qed.

Lemma place_order_effect req recipient key coupon quantities hash s order att s' :
  co_execute_sync req = false → persisted s →
  match key with Some k => orders_by_checkout_key (co_tenant_id req) (co_user_id req) k (ses_db s) = []
               | None => True end →
  place_order max_failures req recipient key coupon quantities hash s = (Ok (order, att), s') →
  att = None ∧ purchase req order s s'
  ∧ order_checkout_idempotency_key order = key
  ∧ order_checkout_request_hash order = (if is_some key then Some hash else None).
Proof.
  intros Hsync Hp Hkey Hr. unfold place_order in Hr. bind_query Hr. bind_guard Hr Hopen.
  bind_query Hr. bind_guard Hr Hlen. apply bind_inv_ok in Hr as (quoted & s1 & Hq & Hr).
  apply (steps_run _ _ _ _ _ (quiet_quotes _ _)) in Hq. bind_some Hr currency Hcur.
  apply bind_inv_ok in Hr as (u & s2 & Hu & Hr). apply (steps_run quiet) in Hu; [|apply quiet_uuid4].
  cbv zeta in Hr.
  apply bind_inv_ok in Hr as ([] & s3 & Ha & Hr). apply (steps_run quiet) in Ha; [|apply quiet_await].
  pose proof (transitivity Hq (transitivity Hu Ha)) as Hq3.
  apply bind_inv_ok in Hr as (inserted & s4 & Hins & Hr).
  apply catch_inv_ok in Hins as [Hins|(e & s5 & Hraise & Hins)].
  2:{ exfalso. destruct e; try done. revert Hins. eapply no_winner; [|exact Hkey].
      apply (steps_run same_committed) in Hraise.
      - rewrite Hraise, (quiet_committed _ _ Hq3). exact Hp.
      - apply steps_bind; [typeclasses eauto|apply committed_insert_order|]. by intros o s7. }
  apply bind_inv_ok in Hins as (o & s5 & Hins & Hret). apply ret_inv in Hret as [[= ->] ->].
  apply insert_order_effect in Hins as (row & Hlast & Has & Ht & Hu' & Hk & Hh).
  apply bind_inv_ok in Hr as (order' & s6 & Hpay & Hr).
  eapply pay_order_effect in Hpay as ((row' & Hl6 & Hpaid) & Ht' & Hu6 & Hk' & Hh' & Hdebit & Hjob & Hper);
    [|done..].
  rewrite Hsync in Hr. bind_query Hr. apply ret_inv in Hr as [[= -> ->] ->].
  rewrite (live_last _ _ _ _ Hl6). split; [done|].
  pose proof (transitivity (quiet_aside _ _ Hq3) Has) as Has4.
  destruct Hl6 as (Ho6 & Hrow & _). pose proof (returned_row _ _ Hrow) as [Hrow' Hpe'].
  split; [|destruct Hrow; split; cbn; congruence]. split.
  - exists row'. split; [|done]. rewrite Ho6. f_equal. apply Hq3.
  - destruct Hrow. split; cbn; congruence.
  - destruct Hdebit as (w & tx & Hpe & Hl). exists w, tx. split.
    + by eapply payment_entry_aside, Hpe'.
    + rewrite Hl. f_equal. apply Has4.
  - rewrite (as_jobs _ _ Has4) in Hjob. destruct (co_enqueue_durable req); [|done].
    destruct Hjob as (job & Hj & Hi & Hs). exists job. split_and!; try done.
    rewrite Hi. symmetry. apply Hrow.
  - done.
Qed.

End placing.

(** ** The whole request *)

Section requests.
  Context `{HE : Env} `{!Serial HE} `{Adapters} (max_failures : Z).

(** What [checkout_cart] checks before it looks at the database: the merged
    quantities, the cleaned idempotency key and the cleaned coupon code. *)
Definition validated (req : CheckoutRequest) : outcome exn (by_uuid Z * option string * option string) :=
  if (co_execute_sync req && co_enqueue_durable req) || (strip (co_recipient req) == "")
     || (length (co_lines req) =? 0)%nat || (50 <? length (co_lines req))%nat then Raise ValueError
  else
    match merge_lines (co_lines req) [] with
    | Raise e => Raise e
    | Ok quantities =>
        match clean_key (co_idempotency_key req) with
        | Raise e => Raise e
        | Ok key =>
            match clean_coupon (co_coupon_code req) with
            | Raise e => Raise e
            | Ok coupon => Ok (quantities, key, coupon)
            end
        end
    end.

Definition hash_of (req : CheckoutRequest) (quantities : by_uuid Z) (coupon : option string) : string :=
  _request_hash quantities (strip (co_recipient req)) coupon.

Lemma checkout_cart_run req s :
  checkout_cart max_failures req s =
    match validated req with
    | Raise e => (Raise e, s)
    | Ok (quantities, key, coupon) =>
        (existing ← match key with
                    | Some k => _find_idempotent_order (co_tenant_id req) (co_user_id req) k
                    | None => mret None
                    end;
         match existing with
         | Some order => replay max_failures order (hash_of req quantities coupon)
                           (strip (co_recipient req)) (co_execute_sync req)
         | None => place_order max_failures req (strip (co_recipient req)) key coupon quantities
                     (hash_of req quantities coupon)
         end) s
    end.
Proof.
  unfold checkout_cart, validated, hash_of, raise_if.
  destruct (co_execute_sync req && co_enqueue_durable req); [done|].
  destruct (strip (co_recipient req) == ""); [done|].
  destruct (length (co_lines req) =? 0)%nat; [done|]. destruct (50 <? length (co_lines req))%nat; [done|].
  destruct (merge_lines (co_lines req) []) as [q|]; [|done].
  destruct (clean_key (co_idempotency_key req)) as [k|]; [|done].
  by destruct (clean_coupon (co_coupon_code req)).
Qed.

(** A key that belongs to an order is answered with that order or refused. *)
Lemma used_key req quantities k coupon row s :
  co_execute_sync req = false → validated req = Ok (quantities, Some k, coupon) →
  orders_by_checkout_key (co_tenant_id req) (co_user_id req) k (ses_db s) = [row] →
  checkout_cart max_failures req s =
    (if order_checkout_request_hash row != Some (hash_of req quantities coupon)
     then Raise ValueError else Ok (row, None), s).
Proof.
  intros Hsync Hv Hrow. rewrite checkout_cart_run, Hv.
  assert (_find_idempotent_order (co_tenant_id req) (co_user_id req) k s = (Ok (Some row), s)) as Hf.
  { unfold _find_idempotent_order, mbind, prog_bind, query, gets. by rewrite Hrow. }
  rewrite (bind_ok _ _ _ _ _ Hf). unfold replay, _assert_idempotent_request_matches, raise_if.
  destruct (negb _); [done|]. unfold _resume_or_return. by rewrite Hsync.
Qed.

Lemma checkout_outcome req s order att s' :
  co_execute_sync req = false → persisted s →
  checkout_cart max_failures req s = (Ok (order, att), s') →
  att = None ∧ ∃ quantities key coupon, validated req = Ok (quantities, key, coupon)
  ∧ ((∃ k, key = Some k ∧ s' = s
           ∧ orders_by_checkout_key (co_tenant_id req) (co_user_id req) k (ses_db s) = [order]
           ∧ order_checkout_request_hash order = Some (hash_of req quantities coupon))
     ∨ purchase req order s s' ∧ order_checkout_idempotency_key order = key
       ∧ ∀ k, key = Some k →
           orders_by_checkout_key (co_tenant_id req) (co_user_id req) k (ses_db s) = []
           ∧ order_checkout_request_hash order = Some (hash_of req quantities coupon)).
Proof.
  intros Hsync Hp Hr. destruct (validated req) as [[[quantities key] coupon]|e] eqn:Hv.
  2:{ rewrite checkout_cart_run, Hv in Hr. done. }
  destruct key as [k|].
  - destruct (orders_by_checkout_key (co_tenant_id req) (co_user_id req) k (ses_db s))
      as [|row [|row2 l]] eqn:Hrows.
    + rewrite checkout_cart_run, Hv in Hr. apply bind_inv_ok in Hr as (o & s1 & Hf & Hr).
      unfold _find_idempotent_order in Hf. bind_query Hf. rewrite Hrows in Hf.
      apply ret_inv in Hf as [[= ->] ->].
      eapply place_order_effect in Hr as (-> & Hpu & Hk & Hh); [|done..]. split; [done|].
      eexists _, _, _. split; [done|]. right. split_and!; [done..|]. by intros ? [= <-].
    + rewrite (used_key _ _ _ _ _ _ Hsync Hv Hrows) in Hr.
      destruct (bool_decide_reflect (order_checkout_request_hash row
                                     = Some (hash_of req quantities coupon))); [|done].
      injection Hr as -> -> ->. split; [done|]. eexists _, _, _. split; [done|]. left. eauto.
    + rewrite checkout_cart_run, Hv in Hr. apply bind_inv_ok in Hr as (o & s1 & Hf & Hr).
      unfold _find_idempotent_order in Hf. bind_query Hf. by rewrite Hrows in Hf.
  - rewrite checkout_cart_run, Hv in Hr. apply bind_inv_ok in Hr as (o & s1 & Hf & Hr).
    apply ret_inv in Hf as [[= ->] ->].
    eapply place_order_effect in Hr as (-> & Hpu & Hk & Hh); [|done..]. split; [done|].
    eexists _, _, _. split; [done|]. right. by split_and!.
Qed.

End requests.


Section idempotency.
  Context `{HE : Env} `{!Serial HE} `{Adapters} (max_failures : Z).

(** After a keyed checkout the key belongs to its order and to no other. *)
Lemma key_claimed req quantities k coupon order s s' :
  purchase req order s s' → order_checkout_idempotency_key order = Some k →
  orders_by_checkout_key (co_tenant_id req) (co_user_id req) k (ses_db s) = [] →
  order_checkout_request_hash order = Some (hash_of req quantities coupon) →
  ∃ row, orders_by_checkout_key (co_tenant_id req) (co_user_id req) k (ses_db s') = [row]
         ∧ order_id row = order_id order
         ∧ order_checkout_request_hash row = Some (hash_of req quantities coupon).
Proof.
  intros [(row & Ho & Hrow & _) [Ht Hu] _ _ _] Hk Hnone Hh. exists row.
  unfold orders_by_checkout_key in *. rewrite Ho, select_app, Hnone. destruct Hrow. cbn.
  rewrite !bool_decide_eq_true_2 by congruence. cbn. split_and!; congruence.
Qed.

End idempotency.


(** ** Atomicity *)

(** [atomic m]: when [m] raises it has committed nothing. *)
Definition atomic {A} (m : M A) : Prop :=
  ∀ s e s', m s = (Raise e, s') → ses_committed s' = ses_committed s.

Lemma atomic_steps {A} (m : M A) : steps same_committed m → atomic m.
Proof. intros Hm s e s' Hr. exact (steps_run _ _ _ _ _ Hm Hr). Qed.

Lemma atomic_bind {A B} (m : M A) (k : A → M B) :
  steps same_committed m → (∀ a, atomic (k a)) → atomic (m ≫= k).
Proof.
  intros Hm Hk s e s' [Hr|(a & s1 & Hr & Hr')]%bind_inv_raise;
    pose proof (steps_run _ _ _ _ _ Hm Hr) as Hs; [exact Hs|].
  rewrite (Hk a _ _ _ Hr'). exact Hs.
Qed.

Section atomicity.
  Context `{HE : Env} `{!Serial HE} `{Adapters} (max_failures : Z).

Lemma committed_rollback : steps same_committed rollback.
Proof. by intros s. Qed.

Hint Resolve committed_rollback committed_insert_order committed_get_or_create
  committed_flush_entry : steps.

Lemma committed_quiet {A} (m : M A) : steps quiet m → steps same_committed m.
Proof. intros Hm s. apply (Hm s). Qed.

Lemma committed_transition i st : steps same_committed (transition_order i st).
Proof. unfold transition_order. steps_walk. Qed.

Lemma committed_coupon t u o c p q : steps same_committed (apply_coupon t u o c p q).
Proof. unfold apply_coupon, insert_redemption. steps_walk. Qed.

Lemma committed_debit w a r1 r2 d : steps same_committed (debit w a r1 r2 d).
Proof. unfold debit, lock_wallet. steps_walk. Qed.

Lemma committed_job t o r : steps same_committed (insert_job t o r).
Proof. unfold insert_job. steps_walk. Qed.

Hint Resolve committed_transition committed_coupon committed_debit committed_job : steps.

Lemma atomic_returns {A} (m : M A) : (∀ s, is_ok (m s).1 = true) → atomic m.
Proof. intros Hm s e s' Hr. specialize (Hm s). by rewrite Hr in Hm. Qed.

Lemma atomic_pay_order req recipient coupon quantities vs quoted order :
  atomic (pay_order req recipient coupon quantities vs quoted order).
Proof.
  unfold pay_order. apply atomic_bind; [steps_walk|intros [eff o]].
  apply atomic_bind.
  { apply steps_for_each; [typeclasses eauto|]. intros v. repeat case_match;
      try (apply committed_quiet, quiet_insert_line); by apply steps_throw; typeclasses eauto. }
  intros _. do 4 (apply atomic_bind; [steps_walk|intros ?]).
  apply atomic_bind; [steps_walk|intros ?]. by apply atomic_returns.
Qed.

Lemma committed_find t u k : steps same_committed (_find_idempotent_order t u k).
Proof. unfold _find_idempotent_order. steps_walk. Qed.

Hint Resolve committed_find : steps.

Lemma committed_replay order hash recipient :
  steps same_committed (replay max_failures order hash recipient false).
Proof. unfold replay, _assert_idempotent_request_matches, _resume_or_return. cbn. steps_walk. Qed.

Lemma atomic_place_order req recipient key coupon quantities hash :
  co_execute_sync req = false →
  atomic (place_order max_failures req recipient key coupon quantities hash).
Proof.
  intros Hsync. unfold place_order. do 4 (apply atomic_bind; [steps_walk|intros ?]).
  apply atomic_bind; [apply committed_quiet, quiet_quotes|intros quoted].
  do 4 (apply atomic_bind; [steps_walk|intros ?]). rewrite Hsync.
  match goal with |- atomic (match ?x with _ => _ end) => destruct x as [order|winner] end.
  - intros s e s' [Hr|(o & s1 & _ & Hr)]%bind_inv_raise; [by eapply atomic_pay_order|done].
  - apply atomic_steps, committed_replay.
Qed.

Lemma atomic_checkout req :
  co_execute_sync req = false → atomic (checkout_cart max_failures req).
Proof.
  intros Hsync. unfold checkout_cart. do 8 (apply atomic_bind; [steps_walk|intros ?]).
  rewrite Hsync.
  match goal with |- atomic (match ?x with _ => _ end) => destruct x as [order|] end;
    [apply atomic_steps, committed_replay|by apply atomic_place_order].
Qed.

(** A request that raises rolls back to what was committed. *)
Lemma atomic_request {A} (m : M A) s e s' :
  atomic m → in_request m s = (Raise e, s') →
  ses_committed s' = ses_committed s ∧ ses_db s' = ses_committed s.
Proof.
  intros Hm Hr. unfold in_request, catch, mbind, prog_bind in Hr.
  destruct (m s) as [[a|e1] s1] eqn:Hs; [done|]. injection Hr as _ <-. cbn.
  by rewrite (Hm _ _ _ Hs).
Qed.

End atomicity.

(** [C32] Checkout is atomic: a (not synchronously fulfilled) checkout that
    raises, for whatever reason and at whatever point (validation, pricing,
    coupon, insufficient funds, a database refusal, the job), has committed
    nothing, so that the rollback of the request leaves no order, no debit and
    no job behind. *)
Theorem checkout_atomic `{HE : Env} `{Adapters} max_failures req s e s' :
  Serial HE → co_execute_sync req = false →
  in_request (checkout_cart max_failures req) s = (Raise e, s') →
  ses_committed s' = ses_committed s ∧ ses_db s' = ses_committed s.
Proof.
  intros HS Hsync. by apply atomic_request, atomic_checkout.
Qed.

(** ** A concrete purchase *)

Definition shop_db : DB :=
  paid_db <| tenants := [MkTenant (mk_uuid "tenant") "Shop" true [] None] |>
          <| products := [MkProduct (mk_uuid "product") (mk_uuid "tenant") None "Product" true None []] |>
          <| wallets := [MkWallet (mk_uuid "wallet") (mk_uuid "tenant") (mk_uuid "buyer") "USD"
                           (cents 5000) true] |>.

Definition shop_session : Session := MkSession shop_db shop_db 0 [].

Definition cart (quantity : Z) : CheckoutRequest :=
  MkCheckoutRequest (mk_uuid "tenant") (mk_uuid "buyer")
    [MkCheckoutLine (mk_uuid "variant") quantity] "@buyer" false (Some " key-7 ") true None None.

Definition bought_demo : outcome exn (Order * option FulfillmentAttempt) * Session :=
  @checkout_cart demo_env demo_adapters 3 (cart 3) shop_session.

Definition bought_order : Order :=
  match bought_demo.1 with Ok (o, _) => o | Raise _ => paid_order end.

Lemma bought_run :
  @checkout_cart demo_env demo_adapters 3 (cart 3) shop_session
  = (Ok (bought_order, None), bought_demo.2).
Proof. vm_compute. reflexivity. Qed.



Definition refused_demo : outcome exn (Order * option FulfillmentAttempt) * Session :=
  in_request (@checkout_cart demo_env demo_adapters 3 (cart 30)) shop_session.

Lemma refused_run :
  in_request (@checkout_cart demo_env demo_adapters 3 (cart 30)) shop_session
  = (Raise InsufficientFundsError, refused_demo.2).
Proof. vm_compute. reflexivity. Qed.

Lemma checkout_atomic_witness :
  refused_demo.1 = Raise InsufficientFundsError ∧ ses_db refused_demo.2 = shop_db.
Proof.
  split; [vm_compute; reflexivity|].
  exact (proj2 (@checkout_atomic demo_env demo_adapters 3 (cart 30) shop_session
                  InsufficientFundsError refused_demo.2 demo_env_serial eq_refl refused_run)).
Defined.
