(* ===== verification/Payments.v ===== *)
(** * Payment intents and gateway settlement

    [packages/payments/payment_service.py], class [PaymentService]: the intent
    that represents one payment at a gateway, what the gateway says about it
    (synchronously or in a webhook), the settlement that credits the wallet,
    and the refund through the gateway.  The gateways behind
    [packages/payments/providers/interface.py] and the state of the registry
    ([packages/payments/providers/registry.py]) are the class [Gateways]. *)

From Stdlib Require Import ZArith Lia Ascii String.
From stdpp Require Import base tactics list option strings numbers pretty.
From S2P Require Import Prelude Tables Text Money Exceptions StateMachines Models Ledger.

Local Open Scope Z_scope.

(** ** Gateways *)

(** A [PaymentProvider]: its capabilities and its calls.  What a gateway
    answers depends on what it has been sent so far. *)
Record FlexibleGateway := MkFlexibleGateway {
  gw_create_flexible_deposit : list Sent → FlexibleDepositCreateRequest → outcome exn FlexibleDepositResult;
  gw_get_flexible_deposit : list Sent → string → outcome exn FlexibleDepositResult;
}.

Record Gateway := MkGateway {
  supports_refunds : bool;
  supports_partial_refunds : bool;
  supports_safe_refund_retries : bool;
  supports_payment_lookup : bool;
  supports_creation_recovery : bool;
  gw_create_payment : list Sent → PaymentCreateRequest → outcome exn PaymentCreateResult;
  gw_verify_webhook : string → list (string * string) → string → outcome exn WebhookVerificationResult;
  gw_refund : list Sent → PaymentRefundRequest → outcome exn PaymentRefundResult;
  gw_get_payment : list Sent → string → outcome exn PaymentDetailsResult;
  gw_recover_payment_creation :
    option (list Sent → PaymentCreateRequest → outcome exn PaymentDetailsResult);
  gw_list_recent_star_transactions : option (list Sent → outcome exn (list dict));
  gw_flexible_deposits : option FlexibleGateway;
}.

(** The instances and factories of the registry, and the secret storage. *)
Class Gateways := {
  gw_overrides : UUID → string → option Gateway;
  gw_cached : UUID → string → option Gateway;
  gw_factories : string → option (dict → string → option string → outcome exn Gateway);
  gw_secret : string → option string;
}.

Section registry.
  Context `{Gateways}.

Definition get_payment_secret (ref : string) : M string := of_option SecretNotFoundError (gw_secret ref).

Definition configs_of (tenant_id : UUID) (name : string) (d : DB) : list PaymentProviderConfig :=
  select (λ c, (cfg_tenant_id c == tenant_id) && (cfg_provider_name c == name)) (provider_configs d).

(** [get_secret(ref) if ref else ...] *)
Definition webhook_secret_of (c : PaymentProviderConfig) : M (option string) :=
  if truthy (cfg_webhook_secret_ref c)
  then s ← get_payment_secret (default "" (cfg_webhook_secret_ref c)); mret (Some s)
  else mret None.

(** [PaymentProviderRegistry.get_provider]; that a new instance is cached is
    invisible to one call. *)
Definition get_provider (tenant_id : UUID) (provider_name : string) : M Gateway :=
  let name := lower provider_name in
  match gw_overrides tenant_id name with
  | Some g => mret g
  | None =>
      rows ← query (configs_of tenant_id name);
      found ← one_or_none rows;
      config ← of_option PaymentProviderError found;
      raise_if (negb (cfg_is_enabled config)) PaymentProviderError;;
      factory ← of_option PaymentProviderError (gw_factories name);
      match gw_cached tenant_id name with
      | Some g => mret g
      | None =>
          credentials ← get_payment_secret (cfg_credentials_ref config);
          secret ← webhook_secret_of config;
          of_outcome (factory (cfg_settings_json config) credentials secret)
      end
  end.

Definition call_create_payment (g : Gateway) (tenant_id : UUID) (name : string)
    (r : PaymentCreateRequest) : M PaymentCreateResult :=
  answer ← gets (λ s, gw_create_payment g (ses_sent s) r);
  send (SentPayment tenant_id name r);;
  of_outcome answer.

Definition call_refund (g : Gateway) (tenant_id : UUID) (name : string)
    (r : PaymentRefundRequest) : M PaymentRefundResult :=
  answer ← gets (λ s, gw_refund g (ses_sent s) r);
  send (SentRefund tenant_id name r);;
  of_outcome answer.

End registry.

(** ** What a gateway returned *)

Definition _validated_checkout_url (checkout_url : option string) : outcome exn (option string) :=
  match checkout_url with
  | None => Ok None
  | Some url =>
      match urlsplit (strip url) with
      | None => Raise ValueError
      | Some (scheme, netloc) =>
          if (lower scheme != "https") || (netloc == "") then Raise PaymentProviderError
          else if has_credentials netloc then Raise PaymentProviderError
          else Ok (Some (strip url))
      end
  end.

Abbreviation attributes := (list (string * string)).

Fixpoint attr_get (k : string) (l : attributes) : option string :=
  match l with
  | [] => None
  | (k', v) :: l => if k == k' then Some v else attr_get k l
  end.

Fixpoint attr_set (k v : string) (l : attributes) : attributes :=
  match l with
  | [] => [(k, v)]
  | (k', v') :: l => if k == k' then (k, v) :: l else (k', v') :: attr_set k v l
  end.

Definition bad_attribute (key value : string) : bool :=
  (key == "") || (64 <? String.length key)%nat || (value == "") || (255 <? String.length value)%nat
  || existsb (λ fragment, occurs fragment key) ["secret"; "token"; "password"; "key"].

Fixpoint normalize_attributes (l : attributes) (acc : attributes) : outcome exn attributes :=
  match l with
  | [] => Ok acc
  | (raw_key, raw_value) :: l =>
      let key := lower (strip raw_key) in
      let value := lower (strip raw_value) in
      if bad_attribute key value then Raise PaymentProviderError
      else normalize_attributes l (attr_set key value acc)
  end.

Definition _normalized_provider_verification_attributes (l : attributes) : outcome exn attributes :=
  normalize_attributes l [].

(** [str(value)] *)
Definition json_text `{Env} (v : json) : string :=
  match v with JStr s => s | _ => env_json_str v end.

Definition assert_provider_verification_attributes `{Env} (intent : PaymentIntent) (l : attributes)
    : outcome exn unit :=
  match dict_get "_provider_verification" (intent_metadata_json intent) with
  | None => Ok tt
  | Some raw =>
      if negb (json_truthy raw) then Ok tt
      else
        match raw with
        | JObj o =>
            match _normalized_provider_verification_attributes (map (λ kv, (kv.1, json_text kv.2)) o) with
            | Raise e => Raise e
            | Ok expected =>
                match _normalized_provider_verification_attributes l with
                | Raise e => Raise e
                | Ok actual =>
                    if forallb (λ kv : string * string, attr_get kv.1 actual == Some kv.2) expected
                    then Ok tt else Raise PaymentIntegrityError
                end
            end
        | _ => Raise PaymentIntegrityError
        end
  end.

(** ** Rows *)

(** The indexes [uq_payment_intent_tenant_idempotency] and
    [uq_active_order_payment_intent], and the primary key. *)
Definition active_intent (i : PaymentIntent) : bool :=
  (intent_status i == PayCreated) || (intent_status i == PayPending)
  || (intent_status i == PayProcessing).

Definition intent_conflict (a b : PaymentIntent) : bool :=
  (intent_id a == intent_id b)
  || ((intent_tenant_id a == intent_tenant_id b)
      && (intent_idempotency_key a == intent_idempotency_key b))
  || (active_intent a && active_intent b && (intent_tenant_id a == intent_tenant_id b)
      && is_some (intent_order_id a) && (intent_order_id a == intent_order_id b)).

(** [uq_topup_reversal_payment_tx]: in a [LIKE] pattern an underscore stands
    for any character. *)
Definition like_topup_reversal (s : string) : bool :=
  String.prefix "topup" s && String.prefix "reversal:" (of_chars (drop 6 (chars s))).

Definition topup_reversal_tx (t : PaymentTransaction) : bool :=
  (ptx_transaction_type t == PtRefund) && from_option like_topup_reversal false (ptx_reference_id t).

Definition payment_tx_conflict (a b : PaymentTransaction) : bool :=
  (ptx_id a == ptx_id b)
  || (topup_reversal_tx a && topup_reversal_tx b && (ptx_tenant_id a == ptx_tenant_id b)
      && (ptx_payment_intent_id a == ptx_payment_intent_id b)
      && (ptx_reference_id a == ptx_reference_id b)).

Definition webhook_conflict (a b : PaymentWebhookEvent) : bool :=
  (wh_id a == wh_id b)
  || ((wh_tenant_id a == wh_tenant_id b) && (wh_provider a == wh_provider b)
      && (wh_provider_event_id a == wh_provider_event_id b)).

Section rows.
  Context `{Env}.

Definition update_intent (i : UUID) (f : PaymentIntent → PaymentIntent) : M unit :=
  write (λ d, d <| intents ::= update_row i f |>).

(** [intent.transition_to(target)] and [order.transition_to(target)] on a
    loaded row. *)
Definition intent_transition_to (intent : PaymentIntent) (target : PaymentIntentStatus) : M unit :=
  status ← of_outcome (transition LEGAL_PAYMENT_TRANSITIONS (intent_status intent) target);
  update_intent (intent_id intent) (λ i, i <| intent_status := status |>).

Definition order_transition_to (order : Order) (target : OrderStatus) : M unit :=
  status ← of_outcome (transition LEGAL_TRANSITIONS (order_status order) target);
  write (λ d, d <| orders ::= update_row (order_id order) (λ o, o <| order_status := status |>) |>).

(** The attributes of the object as they are now. *)
Definition live_intent (intent : PaymentIntent) : M PaymentIntent :=
  query (λ d, default intent (get_row (intent_id intent) (intents d))).

Definition insert_intent (i : UUID → PaymentIntent) : M PaymentIntent :=
  u ← uuid4;
  let row := i u in
  to_varchar 50 (intent_provider row);;
  to_varchar 3 (intent_currency row);;
  amount ← to_numeric 12 2 (intent_amount row);
  to_varchar 100 (intent_idempotency_key row);;
  let row := row <| intent_amount := amount |> in
  clash ← query (λ d, existsb (intent_conflict row) (intents d));
  raise_if clash IntegrityError;;
  write (λ d, d <| intents ::= (λ t, t ++ [row]) |>);;
  mret row.

(** The columns of an intent that a later flush can refuse. *)
Definition flush_intent (intent : PaymentIntent) : M PaymentIntent :=
  row ← live_intent intent;
  to_varchar_opt 100 (intent_provider_payment_id row);;
  to_varchar_opt 2048 (intent_checkout_url row);;
  mret row.

Definition insert_payment_tx (intent : PaymentIntent) (ty : PaymentTransactionType) (amount : dec)
    (currency : string) (provider_tx_id reference_id : option string) (metadata : dict)
    : M PaymentTransaction :=
  u ← uuid4;
  amount ← to_numeric 12 2 amount;
  to_varchar 3 currency;;
  to_varchar_opt 100 provider_tx_id;;
  to_varchar_opt 100 reference_id;;
  let row := MkPaymentTransaction u (intent_tenant_id intent) (intent_id intent) ty amount currency
               "SUCCESS" provider_tx_id reference_id metadata in
  clash ← query (λ d, existsb (payment_tx_conflict row) (payment_txs d));
  raise_if clash IntegrityError;;
  write (λ d, d <| payment_txs ::= (λ t, t ++ [row]) |>);;
  mret row.

End rows.

(** ** Settlement *)

Section service.
  Context `{Env} `{Gateways}.

Definition get_payment_intent (tenant_id iid : UUID) : M PaymentIntent :=
  rows ← query (λ d, select (λ i, intent_id i == iid) (intents d));
  found ← one_or_none rows;
  intent ← of_option PaymentIntentNotFoundError found;
  raise_if (intent_tenant_id intent != tenant_id) TenantAccessViolationError;;
  mret intent.

(** The amount and currency a gateway verified, where it gave them. *)
Definition verify_settlement (intent : PaymentIntent) (amount : option dec) (currency : option string)
    : M unit :=
  raise_if (is_some amount && (amount != Some (intent_amount intent))) PaymentIntegrityError;;
  raise_if (is_some currency && (currency != Some (intent_currency intent))) PaymentIntegrityError.

(** The ledger entries of a wallet with the canonical settlement reference. *)
Definition settlement_entry (wid iid : UUID) (d : DB) : option LedgerTransaction :=
  first (λ tx, (tx_wallet_id tx == wid) && (tx_reference_type tx == Some CANONICAL_SETTLEMENT_TYPE)
               && (tx_reference_id tx == Some (uuid_str iid))) (ledger d).

Definition mark_succeeded (intent : PaymentIntent) : M unit :=
  if intent_status intent != PaySucceeded then intent_transition_to intent PaySucceeded else mret tt.

Definition mark_paid (order : Order) : M unit :=
  if (order_status order == OrderPending) || (order_status order == OrderPaymentPending)
  then order_transition_to order OrderPaid else mret tt.

Definition _settle_wallet_topup (intent : PaymentIntent) (amount : option dec)
    (currency : option string) : M (PaymentIntent * LedgerTransaction) :=
  raise_if (is_some (intent_order_id intent)) PaymentIntegrityError;;
  verify_settlement intent amount currency;;
  wallet ← get_or_create_wallet (intent_tenant_id intent) (intent_user_id intent)
             (intent_currency intent);
  existing ← query (settlement_entry (wallet_id wallet) (intent_id intent));
  match existing with
  | Some tx =>
      mark_succeeded intent;;
      row ← live_intent intent;
      mret (row, tx)
  | None =>
      tx ← settle_payment wallet (intent_amount intent) (intent_id intent)
             (Some ("Wallet top-up settlement via " +:+ intent_provider intent));
      mark_succeeded intent;;
      insert_payment_tx intent PtSettlement (intent_amount intent) (intent_currency intent)
        (intent_provider_payment_id intent) (Some (uuid_str (intent_id intent)))
        [("purpose", JStr "WALLET_TOPUP")];;
      row ← live_intent intent;
      mret (row, tx)
  end.

Definition settle_payment_intent (tenant_id iid : UUID) (amount : option dec)
    (currency : option string) : M (PaymentIntent * LedgerTransaction) :=
  intent ← get_payment_intent tenant_id iid;
  if intent_purpose intent == WALLET_TOPUP then _settle_wallet_topup intent amount currency
  else
    oid ← of_option PaymentIntegrityError (intent_order_id intent);
    found ← query (λ d, get_row oid (orders d));
    order ← of_option TenantAccessViolationError found;
    raise_if (order_tenant_id order != tenant_id) TenantAccessViolationError;;
    verify_settlement intent amount currency;;
    raise_if (negb (intent_amount intent =? order_total_amount order)) PaymentIntegrityError;;
    raise_if (intent_currency intent != order_currency order) PaymentIntegrityError;;
    wallet ← get_or_create_wallet tenant_id (intent_user_id intent) (intent_currency intent);
    existing ← query (settlement_entry (wallet_id wallet) (intent_id intent));
    match existing with
    | Some tx =>
        mark_succeeded intent;;
        mark_paid order;;
        row ← live_intent intent;
        mret (row, tx)
    | None =>
        tx ← settle_payment wallet (intent_amount intent) (intent_id intent)
               (Some ("Payment settlement for order " +:+ order_number order));
        mark_succeeded intent;;
        mark_paid order;;
        insert_payment_tx intent PtSettlement (intent_amount intent) (intent_currency intent)
          (intent_provider_payment_id intent) (Some (uuid_str (intent_id intent))) [];;
        row ← live_intent intent;
        mret (row, tx)
    end.

(** ** Creation and cancellation *)

(** The arguments of [create_payment_intent]. *)
Record IntentRequest := MkIntentRequest {
  ir_tenant_id : UUID;
  ir_user_id : UUID;
  ir_order_id : UUID;
  ir_provider_name : string;
  ir_idempotency_key : string;
  ir_metadata : dict;
  ir_return_url : option string;
}.

Definition intents_by_key (tenant_id : UUID) (key : string) (d : DB) : list PaymentIntent :=
  select (λ i, (intent_tenant_id i == tenant_id) && (intent_idempotency_key i == key)) (intents d).

Definition _mark_provider_creation_ambiguous (intent : PaymentIntent) : M unit :=
  (if intent_status intent != PayUnknown then intent_transition_to intent PayUnknown else mret tt);;
  detected_at ← now;
  let note := JObj [("detected_at", JStr (env_isoformat detected_at));
                    ("provider", JStr (intent_provider intent));
                    ("reason", JStr "transport_outcome_unknown")] in
  update_intent (intent_id intent)
    (λ i, i <| intent_metadata_json ::= dict_set "_provider_creation_ambiguity" note |>).

Definition _store_provider_verification_attributes (intent : PaymentIntent) (l : attributes)
    : M unit :=
  normalized ← of_outcome (_normalized_provider_verification_attributes l);
  if (length normalized =? 0)%nat then mret tt
  else
    update_intent (intent_id intent)
      (λ i, i <| intent_metadata_json ::= dict_set "_provider_verification"
                   (JObj (map (λ kv : string * string, (kv.1, JStr kv.2)) normalized)) |>).

(** The request to the gateway was answered. *)
Definition apply_create_result (req : IntentRequest) (intent : PaymentIntent) (order : Order)
    (result : PaymentCreateResult) : M PaymentIntent :=
  update_intent (intent_id intent)
    (λ i, i <| intent_provider_payment_id := Some (pcres_provider_payment_id result) |>);;
  url ← of_outcome (_validated_checkout_url (pcres_checkout_url result));
  update_intent (intent_id intent) (λ i, i <| intent_checkout_url := url |>);;
  _store_provider_verification_attributes intent (pcres_verification_attributes result);;
  (if pcres_status result == PaySucceeded then
     settle_payment_intent (ir_tenant_id req) (intent_id intent) (Some (order_total_amount order))
       (Some (order_currency order));; mret tt
   else if pcres_status result != intent_status intent then
     intent_transition_to intent (pcres_status result)
   else mret tt);;
  found ← query (λ d, get_row (order_id order) (orders d));
  (match found with
   | Some o => if order_status o == OrderPending then order_transition_to o OrderPaymentPending
               else mret tt
   | None => mret tt
   end);;
  flush_intent intent.

Definition create_payment_intent (req : IntentRequest) : M PaymentIntent :=
  let tenant_id := ir_tenant_id req in
  let key := ir_idempotency_key req in
  raise_if (key == "") ValueError;;
  found ← query (λ d, get_row (ir_order_id req) (orders d));
  order ← of_option PaymentError found;
  raise_if (order_tenant_id order != tenant_id) TenantAccessViolationError;;
  raise_if ((order_status order != OrderPending) && (order_status order != OrderPaymentPending))
    PaymentError;;
  raise_if (order_user_id order != ir_user_id req) TenantAccessViolationError;;
  let amount := order_total_amount order in
  rows ← query (intents_by_key tenant_id key);
  existing ← one_or_none rows;
  match existing with
  | Some i =>
      raise_if (intent_order_id i != Some (ir_order_id req)) PaymentIntegrityError;;
      raise_if (negb (intent_amount i =? amount)) PaymentIntegrityError;;
      mret i
  | None =>
      await_others;;
      inserted ← except_integrity
        (i ← begin_nested (insert_intent (λ u,
               MkPaymentIntent u tenant_id (Some (ir_order_id req)) ORDER_PAYMENT (ir_user_id req)
                 None (lower (ir_provider_name req)) None None (order_currency order) amount
                 PayCreated key (ir_metadata req)));
         mret (Ok i))
        (rows ← query (intents_by_key tenant_id key);
         again ← one_or_none rows;
         match again with
         | Some i =>
             raise_if ((intent_order_id i != Some (ir_order_id req))
                       || negb (intent_amount i =? amount)) PaymentIntegrityError;;
             mret (Raise i)
         | None => mthrow PaymentError
         end);
      match inserted with
      | Raise winner => mret winner
      | Ok intent =>
          gateway ← get_provider tenant_id (ir_provider_name req);
          answer ← catch
            (r ← call_create_payment gateway tenant_id (lower (ir_provider_name req))
                   (MkPaymentCreateRequest (Some (ir_order_id req)) amount (order_currency order) key
                      (ir_metadata req) (ir_return_url req));
             mret (Some r))
            (λ e, match e with
                  | TimeoutError | PaymentProviderTransportError => mret None
                  | _ => mthrow e
                  end);
          match answer with
          | None =>
              _mark_provider_creation_ambiguous intent;;
              (if order_status order == OrderPending
               then order_transition_to order OrderPaymentPending else mret tt);;
              flush_intent intent
          | Some result => apply_create_result req intent order result
          end
      end
  end.

Definition closed_intent (s : PaymentIntentStatus) : bool :=
  (s == PaySucceeded) || (s == PayFailed) || (s == PayExpired) || (s == PayCancelled).

Definition cancel_payment_intent (tenant_id iid : UUID) : M PaymentIntent :=
  intent ← get_payment_intent tenant_id iid;
  raise_if (closed_intent (intent_status intent)) InvalidStateTransitionError;;
  intent_transition_to intent PayCancelled;;
  found ← query (λ d, oid ← intent_order_id intent; get_row oid (orders d));
  (match found with
   | Some order => if order_status order == OrderPaymentPending
                   then order_transition_to order OrderCancelled else mret tt
   | None => mret tt
   end);;
  live_intent intent.

(** ** Webhooks *)

Definition webhook_events_of (tenant_id : UUID) (name event_id : string) (d : DB)
    : list PaymentWebhookEvent :=
  select (λ e, (wh_tenant_id e == tenant_id) && (wh_provider e == name)
               && (wh_provider_event_id e == event_id)) (webhook_events d).

Definition intents_by_provider_id (tenant_id : UUID) (pid : string) (d : DB) : list PaymentIntent :=
  select (λ i, (intent_tenant_id i == tenant_id) && (intent_provider_payment_id i == Some pid))
    (intents d).

(** [PaymentWebhookEvent(...); session.add(event); flush()]; the parsed payload
    it stores is read by nobody. *)
Definition insert_webhook_event (tenant_id : UUID) (name : string) (v : WebhookVerificationResult)
    (intent : option PaymentIntent) (payload_hash : string) : M PaymentWebhookEvent :=
  u ← uuid4;
  to_varchar 50 name;;
  to_varchar 100 (wv_provider_event_id v);;
  to_varchar 100 (wv_event_type v);;
  let row := MkPaymentWebhookEvent u tenant_id name (wv_provider_event_id v) (intent_id <$> intent)
               (wv_event_type v) true false None payload_hash in
  clash ← query (λ d, existsb (webhook_conflict row) (webhook_events d));
  raise_if clash IntegrityError;;
  write (λ d, d <| webhook_events ::= (λ t, t ++ [row]) |>);;
  mret row.

(** Step 5: what a verified event does to the intent it is about. *)
Definition apply_webhook (tenant_id : UUID) (intent : PaymentIntent) (v : WebhookVerificationResult)
    : M unit :=
  of_outcome (assert_provider_verification_attributes intent (wv_verification_attributes v));;
  verify_settlement intent (wv_amount v) (wv_currency v);;
  match wv_status v with
  | Some PaySucceeded =>
      settle_payment_intent tenant_id (intent_id intent) (wv_amount v) (wv_currency v);; mret tt
  | Some PayFailed => if intent_status intent != PayFailed
                      then intent_transition_to intent PayFailed else mret tt
  | Some PayCancelled => if intent_status intent != PayCancelled
                         then intent_transition_to intent PayCancelled else mret tt
  | Some PayExpired => if intent_status intent != PayExpired
                       then intent_transition_to intent PayExpired else mret tt
  | _ => mret tt
  end.

Definition mark_processed (event : PaymentWebhookEvent) : M PaymentWebhookEvent :=
  processed_at ← now;
  write (λ d, d <| webhook_events ::= update_row (wh_id event)
                     (λ e, e <| wh_processed := true |> <| wh_processed_at := Some processed_at |>) |>);;
  query (λ d, default event (get_row (wh_id event) (webhook_events d))).

(** The authentic event behind a delivery. *)
Definition verify_delivery (tenant_id : UUID) (provider_name payload : string)
    (headers : list (string * string)) : M WebhookVerificationResult :=
  rows ← query (configs_of tenant_id (lower provider_name));
  found ← one_or_none rows;
  config ← of_option PaymentProviderError found;
  raise_if (negb (cfg_is_enabled config)) PaymentProviderError;;
  secret ← webhook_secret_of config;
  gateway ← get_provider tenant_id provider_name;
  v ← of_outcome (gw_verify_webhook gateway payload headers (default "" secret));
  raise_if (negb (wv_is_valid v)) WebhookVerificationError;;
  mret v.

Definition process_webhook (tenant_id : UUID) (provider_name payload : string)
    (headers : list (string * string)) : M PaymentWebhookEvent :=
  let name := lower provider_name in
  v ← verify_delivery tenant_id provider_name payload headers;
  rows ← query (webhook_events_of tenant_id name (wv_provider_event_id v));
  existing ← one_or_none rows;
  match existing with
  | Some event => mret event
  | None =>
      intent ← (if truthy (wv_provider_payment_id v) then
                  rows ← query (intents_by_provider_id tenant_id (default "" (wv_provider_payment_id v)));
                  one_or_none rows
                else mret None);
      await_others;;
      inserted ← except_integrity
        (e ← begin_nested (insert_webhook_event tenant_id name v intent (env_sha256 payload));
         mret (Ok e))
        (rows ← query (webhook_events_of tenant_id name (wv_provider_event_id v));
         again ← one_or_none rows;
         winner ← of_option IntegrityError again;
         mret (Raise winner));
      match inserted with
      | Raise winner => mret winner
      | Ok event =>
          (match intent with Some i => apply_webhook tenant_id i v | None => mret tt end);;
          mark_processed event
      end
  end.

(** ** Refunds *)

Definition refund_payment (tenant_id iid : UUID) (amount : option dec) (reason key : option string)
    : M PaymentTransaction :=
  intent ← get_payment_intent tenant_id iid;
  raise_if (intent_purpose intent == WALLET_TOPUP) PaymentError;;
  raise_if (intent_status intent != PaySucceeded) PaymentError;;
  let refund_amount := default (intent_amount intent) amount in
  raise_if ((refund_amount <=? 0) || (intent_amount intent <? refund_amount)) ValueError;;
  gateway ← get_provider tenant_id (intent_provider intent);
  raise_if (negb (supports_refunds gateway)) UnsupportedProviderCapabilityError;;
  raise_if (negb (supports_partial_refunds gateway) && (refund_amount <? intent_amount intent))
    UnsupportedProviderCapabilityError;;
  let refund_key := if truthy key then default "" key
                    else "refund_" +:+ uuid_str (intent_id intent) +:+ "_"
                         +:+ env_decimal_str refund_amount in
  result ← call_refund gateway tenant_id (lower (intent_provider intent))
             (MkPaymentRefundRequest (default "" (intent_provider_payment_id intent)) refund_amount
                (intent_currency intent) refund_key reason []);
  tx ← insert_payment_tx intent PtRefund refund_amount (intent_currency intent)
         (Some (prres_provider_refund_id result)) (Some refund_key)
         [("reason", match reason with Some r => JStr r | None => JNull end)];
  wallet ← get_or_create_wallet tenant_id (intent_user_id intent) (intent_currency intent);
  refund wallet refund_amount (Some (uuid_str (intent_id intent)))
    (Some CANONICAL_PAYMENT_REFUND_TYPE)
    (if truthy reason then reason
     else Some ("Payment refund for intent " +:+ uuid_str (intent_id intent)));;
  found ← query (λ d, oid ← intent_order_id intent; get_row oid (orders d));
  (match found with
   | Some order =>
       if (refund_amount =? intent_amount intent) && (order_status order == OrderPaid)
       then order_transition_to order OrderRefunded else mret tt
   | None => mret tt
   end);;
  mret tx.

End service.
