(* ===== verification/TopUps.v ===== *)
(** * Wallet top-ups

    The part of [packages/payments/payment_service.py] that funds wallets: the
    tenant's top-up policy, the creation of a top-up intent, and the
    settlement of a Telegram Stars payment. *)

From Stdlib Require Import ZArith Lia Ascii String.
From stdpp Require Import base tactics list option strings numbers pretty.
From S2P Require Import Prelude Tables Text Money Exceptions StateMachines Models Ledger Payments.

Local Open Scope Z_scope.

(** The arguments of [create_wallet_topup_intent]. *)
Record TopupRequest := MkTopupRequest {
  tr_tenant_id : UUID;
  tr_user_id : UUID;
  tr_amount : dec;
  tr_currency : string;
  tr_provider_name : string;
  tr_idempotency_key : string;
  tr_metadata : dict;
  tr_return_url : option string;
  tr_payment_method_id : option UUID;
  tr_provider_context : list (string * string);
}.

(** ** The policy of the gateway's configuration *)

Definition literal_of (x : dec) : decimal_literal := DecFinite x (-18).

Definition literal_ltb (a b : decimal_literal) : outcome exn bool :=
  match decimal_ltb a b with Some r => Ok r | None => Raise InvalidOperation end.

(** [policy.get(k) is v] for a boolean [v] *)
Definition policy_is (k : string) (v : bool) (policy : dict) : bool :=
  match dict_get k policy with Some (JBool b) => Bool.eqb b v | _ => false end.

(** [len(c) == 3 and c.isalpha()] of the normalised currency. *)
Definition topup_currency (currency : string) : outcome exn string :=
  let c := upper (strip currency) in
  if negb (String.length c =? 3)%nat || negb (forallb (λ c, is_upper c || is_lower c) (chars c))
  then Raise PaymentError else Ok c.

(** [amount.quantize(Decimal("0.01"))], which must not change it. *)
Definition topup_amount (amount : dec) : outcome exn dec :=
  let q := round_half_even (quantum 2) amount in
  if negb (fits_context 2 q) then Raise PaymentError
  else if negb (q =? amount) || (q <=? 0) then Raise PaymentError
  else Ok q.

Section policy.
  Context `{Env}.

(** [Decimal(str(policy.get(k, default)))] *)
Definition policy_decimal (k default_value : string) (policy : dict) : outcome exn decimal_literal :=
  match decimal_of_str (json_text (default (JStr default_value) (dict_get k policy))) with
  | Some l => Ok l
  | None => Raise PaymentProviderError
  end.

Definition topup_limits (policy : dict) : outcome exn (decimal_literal * decimal_literal) :=
  match policy_decimal "topup_min_amount" "1.00" policy with
  | Raise e => Raise e
  | Ok min_amount =>
      match policy_decimal "topup_max_amount" "1000.00" policy with
      | Raise e => Raise e
      | Ok max_amount =>
          match literal_ltb (DecFinite 0 (-2)) min_amount with
          | Raise e => Raise e
          | Ok false => Raise PaymentProviderError
          | Ok true =>
              match literal_ltb max_amount min_amount with
              | Raise e => Raise e
              | Ok true => Raise PaymentProviderError
              | Ok false => Ok (min_amount, max_amount)
              end
          end
      end
  end.

(** What a [for] loop over the configured currencies yields. *)
Definition json_items (v : json) : outcome exn (list json) :=
  match v with
  | JList l => Ok l
  | JObj o => Ok (map (λ kv, JStr kv.1) o)
  | JStr s => Ok (map (λ c, JStr (String c EmptyString)) (chars s))
  | _ => Raise TypeError
  end.

Definition topup_currencies (policy : dict) : outcome exn (list string) :=
  match json_items (default (JList [JStr "USD"]) (dict_get "topup_currencies" policy)) with
  | Raise e => Raise e
  | Ok l => Ok (map upper (select (λ s, strip s != "") (map json_text l)))
  end.

Definition whole_units_ok (policy : dict) (amount : dec) : bool :=
  negb (policy_is "topup_whole_units_only" true policy) || multiple_of one amount.

(** Limits, currency and whole units. *)
Definition check_topup_policy (policy : dict) (amount : dec) (currency : string) : outcome exn unit :=
  match topup_limits policy with
  | Raise e => Raise e
  | Ok (min_amount, max_amount) =>
      match topup_currencies policy with
      | Raise e => Raise e
      | Ok currencies =>
          if negb (existsb (λ c, c == currency) currencies) then Raise PaymentError
          else
            match literal_ltb (literal_of amount) min_amount, literal_ltb max_amount (literal_of amount) with
            | Ok false, Ok false =>
                if whole_units_ok policy amount then Ok tt else Raise PaymentError
            | Raise e, _ => Raise e
            | Ok true, _ => Raise PaymentError
            | Ok false, Raise e => Raise e
            | Ok false, Ok true => Raise PaymentError
            end
      end
  end.

(** [str(policy.get(k) or d)] *)
Definition policy_text (k d : string) (policy : dict) : string :=
  match dict_get k policy with
  | Some v => if json_truthy v then json_text v else d
  | None => d
  end.

(** The metadata of the intent, with the terms the customer accepted. *)
Definition topup_metadata (policy metadata : dict) (accepted_at : Z) : outcome exn dict :=
  if policy_is "terms_required" true policy then
    let terms_url := strip (policy_text "terms_url" "" policy) in
    match urlsplit terms_url with
    | None => Raise ValueError
    | Some (scheme, netloc) =>
        if (lower scheme != "https") || (netloc == "") then Raise PaymentProviderError
        else if negb (policy_is "terms_accepted" true metadata) then Raise PaymentError
        else Ok (dict_set "terms_accepted_at" (JStr (env_isoformat accepted_at))
                   (dict_set "terms_version" (JStr (policy_text "terms_version" "current" policy))
                      (dict_set "terms_url" (JStr terms_url) metadata)))
    end
  else Ok metadata.

End policy.

(** ** Creation *)

Section service.
  Context `{Env} `{Gateways}.

(** The request an idempotency key is bound to. *)
Definition same_topup (req : TopupRequest) (provider currency : string) (amount : dec)
    (i : PaymentIntent) : bool :=
  (intent_purpose i == WALLET_TOPUP) && (intent_user_id i == tr_user_id req)
  && (intent_provider i == provider) && (intent_payment_method_id i == tr_payment_method_id req)
  && (intent_amount i =? amount) && (intent_currency i == currency).

Definition topup_request_metadata (req : TopupRequest) (intent : PaymentIntent) : dict :=
  let m := dict_set "user_id" (JStr (uuid_str (tr_user_id req)))
             (dict_set "tenant_id" (JStr (uuid_str (tr_tenant_id req)))
                (dict_set "payment_intent_id" (JStr (uuid_str (intent_id intent)))
                   (dict_set "purpose" (JStr "WALLET_TOPUP") (intent_metadata_json intent)))) in
  if (length (tr_provider_context req) =? 0)%nat then m
  else dict_set "_provider_context"
         (JObj (map (λ kv : string * string, (kv.1, JStr kv.2)) (tr_provider_context req))) m.

Definition apply_topup_result (intent : PaymentIntent) (result : PaymentCreateResult)
    : M PaymentIntent :=
  let iid := intent_id intent in
  update_intent iid
    (λ i, i <| intent_provider_payment_id := Some (pcres_provider_payment_id result) |>);;
  url ← of_outcome (_validated_checkout_url (pcres_checkout_url result));
  update_intent iid (λ i, i <| intent_checkout_url := url |>);;
  _store_provider_verification_attributes intent (pcres_verification_attributes result);;
  (if (length (pcres_raw_data result) =? 0)%nat then mret tt
   else update_intent iid (λ i, i <| intent_metadata_json ::= dict_set "provider_create"
                                        (JObj (pcres_raw_data result)) |>));;
  (if pcres_status result == PaySucceeded then
     row ← live_intent intent;
     _settle_wallet_topup row (Some (intent_amount intent)) (Some (intent_currency intent));; mret tt
   else if pcres_status result != intent_status intent then
     intent_transition_to intent (pcres_status result)
   else mret tt);;
  flush_intent intent.

Definition create_wallet_topup_intent (req : TopupRequest) : M PaymentIntent :=
  let tenant_id := tr_tenant_id req in
  let key := tr_idempotency_key req in
  raise_if (key == "") ValueError;;
  let provider := lower (strip (tr_provider_name req)) in
  currency ← of_outcome (topup_currency (tr_currency req));
  amount ← of_outcome (topup_amount (tr_amount req));
  rows ← query (λ d, select cfg_is_enabled (configs_of tenant_id provider d));
  found ← one_or_none rows;
  config ← of_option PaymentProviderError found;
  let policy := cfg_settings_json config in
  raise_if (policy_is "topup_enabled" false policy) PaymentProviderError;;
  of_outcome (check_topup_policy policy amount currency);;
  accepted_at ← now;
  metadata ← of_outcome (topup_metadata policy (tr_metadata req) accepted_at);
  rows ← query (intents_by_key tenant_id key);
  existing ← one_or_none rows;
  match existing with
  | Some i =>
      raise_if (negb (same_topup req provider currency amount i) || is_some (intent_order_id i))
        PaymentIntegrityError;;
      mret i
  | None =>
      await_others;;
      inserted ← except_integrity
        (i ← begin_nested (insert_intent (λ u,
               MkPaymentIntent u tenant_id None WALLET_TOPUP (tr_user_id req)
                 (tr_payment_method_id req) provider None None currency amount PayCreated key
                 metadata));
         mret (Ok i))
        (rows ← query (intents_by_key tenant_id key);
         again ← one_or_none rows;
         match again with
         | Some i => if same_topup req provider currency amount i then mret (Raise i)
                     else mthrow PaymentIntegrityError
         | None => mthrow PaymentIntegrityError
         end);
      match inserted with
      | Raise winner => mret winner
      | Ok intent =>
          gateway ← get_provider tenant_id provider;
          answer ← catch
            (r ← call_create_payment gateway tenant_id (lower provider)
                   (MkPaymentCreateRequest None amount currency key
                      (topup_request_metadata req intent) (tr_return_url req));
             mret (Some r))
            (λ e, match e with
                  | TimeoutError | PaymentProviderTransportError => mret None
                  | _ => mthrow e
                  end);
          match answer with
          | None => _mark_provider_creation_ambiguous intent;; flush_intent intent
          | Some result => apply_topup_result intent result
          end
      end
  end.

(** ** Telegram Stars *)

Definition stars_prefix : string := "ghbf:wallet-topup:".

Definition _parse_stars_invoice_payload (payload : string) : outcome exn UUID :=
  if String.prefix stars_prefix payload then
    match uuid_of_str (of_chars (drop (String.length stars_prefix) (chars payload))) with
    | Some u => Ok u
    | None => Raise PaymentIntegrityError
    end
  else Raise PaymentIntegrityError.

Definition validate_telegram_stars_checkout (tenant_id user_id : UUID) (payload : string)
    (amount : dec) (currency : string) : M PaymentIntent :=
  iid ← of_outcome (_parse_stars_invoice_payload payload);
  intent ← get_payment_intent tenant_id iid;
  raise_if ((intent_purpose intent != WALLET_TOPUP) || (intent_provider intent != "telegram_stars"))
    PaymentIntegrityError;;
  raise_if (intent_user_id intent != user_id) PaymentIntegrityError;;
  raise_if ((upper currency != "XTR") || (intent_currency intent != "XTR")) PaymentIntegrityError;;
  raise_if (negb (amount =? intent_amount intent)) PaymentIntegrityError;;
  raise_if ((intent_status intent != PayPending) && (intent_status intent != PayProcessing)
            && (intent_status intent != PaySucceeded)) PaymentError;;
  mret intent.

(** The intent is already bound to another charge. *)
Definition bound_elsewhere (intent : PaymentIntent) (charge_id : string) : bool :=
  let existing := default "" (intent_provider_payment_id intent) in
  (existing != "") && negb (String.prefix "stars_invoice:" existing) && (existing != charge_id).

Definition settle_telegram_stars_topup (tenant_id user_id : UUID) (payload charge_id : string)
    (amount : dec) (currency : string) : M PaymentIntent :=
  intent ← validate_telegram_stars_checkout tenant_id user_id payload amount currency;
  raise_if (charge_id == "") PaymentIntegrityError;;
  raise_if (bound_elsewhere intent charge_id) PaymentIntegrityError;;
  update_intent (intent_id intent)
    (λ i, i <| intent_provider_payment_id := Some charge_id |>
            <| intent_metadata_json ::= dict_set "telegram_payment_charge_id" (JStr charge_id) |>);;
  row ← live_intent intent;
  to_varchar_opt 100 (intent_provider_payment_id row);;
  settled ← _settle_wallet_topup row (Some amount) (Some "XTR");
  mret settled.1.

End service.
