(* ===== verification/PaymentsInv.v ===== *)
(** * Payment intents: the books

    What the ledger operations write while nobody else commits, and the
    invariant [books] that ties payment intents to ledger entries: an intent
    has succeeded exactly when its owner's wallet holds one settlement credit
    for it, of its amount.  The settlement operations keep it. *)

From Stdlib Require Import ZArith Lia Ascii String Sorting.Sorted.
From stdpp Require Import base tactics list option strings numbers pretty.
From S2P Require Import Prelude Tables Text Money Exceptions StateMachines Models Ledger.
From S2P Require Import LedgerInv LedgerSpec DepositsSpec Fulfillment FulfillmentSpec Payments TopUps.

Local Open Scope Z_scope.

(** ** Ledger operations while nobody else commits *)

(** Who owns the wallets. *)
Definition wallet_key (w : Wallet) : UUID * UUID * string :=
  (wallet_tenant_id w, wallet_user_id w, wallet_currency w).

Definition owners (d : DB) : list (UUID * (UUID * UUID * string)) :=
  map (λ w, (wallet_id w, wallet_key w)) (wallets d).

Lemma owners_set_balance wid b t :
  map (λ w, (wallet_id w, wallet_key w)) (update_row wid (λ w : Wallet, w <| wallet_balance := b |>) t)
  = map (λ w, (wallet_id w, wallet_key w)) t.
Proof.
  unfold update_row, update_where. rewrite List.map_map. apply List.map_ext.
  intros w. by destruct (_ == _).
Qed.

Lemma wallet_by_key_spec t u c d w :
  w ∈ wallet_by_key t u c d ↔ w ∈ wallets d ∧ wallet_key w = (t, u, c).
Proof.
  unfold wallet_by_key, wallet_key. rewrite elem_of_select, !andb_true_iff, !bool_decide_eq_true.
  split; [intros (? & [? ?] & ?)|intros (? & [= ? ? ?])]; naive_solver.
Qed.

(** The entry a ledger operation has just written for a reference. *)
Record new_entry (w : Wallet) (ty : TransactionType) (rty rid : string) (amount : dec)
    (s s' : Session) (tx : LedgerTransaction) : Prop := {
  ne_wallet : tx_wallet_id tx = wallet_id w;
  ne_type : tx_transaction_type tx = ty;
  ne_amount : numeric 14 2 amount = Some (tx_amount tx);
  ne_reference : tx_reference_type tx = Some rty ∧ tx_reference_id tx = Some rid;
  ne_unique : ∀ x, x ∈ ledger (ses_db s) → ledger_conflict tx x = false;
  ne_db : ses_db s' = (ses_db s) <| wallets ::= update_row (wallet_id w)
                                     (λ x, x <| wallet_balance := tx_balance_after tx |>) |>
                                 <| ledger ::= λ l, l ++ [tx] |>;
}.

Section ledger.
  Context `{HE : Env} `{!Serial HE}.

Lemma flush_entry_new w ty amount before after rid rty desc s tx s' :
  flush_entry w ty amount before after (Some rid) (Some rty) desc s = (Ok tx, s') →
  new_entry w ty rty rid amount s s' tx.
Proof.
  intros (a' & am' & b' & _ & Ham & _ & -> & Hu & ->)%flush_entry_ok. by split.
Qed.

(** The write every idempotent operation ends with: under a savepoint, with a
    handler that looks for a competitor's entry. *)
Lemma savepoint_new w ty amount before after rid rty desc (h : exn → M LedgerTransaction) s tx s' :
  (∀ e, steps same_db (h e)) →
  (await_others;; catch (begin_nested
     (flush_entry w ty amount before after (Some rid) (Some rty) desc)) h) s = (Ok tx, s') →
  new_entry w ty rty rid amount s s' tx
  ∨ ∃ e s1, ses_db s1 = ses_db s ∧ h e s1 = (Ok tx, s').
Proof.
  intros Hh Hr. bind_write Hr. apply savepoint_effect in Hr as [[_ (e & s1 & Hs1 & Hr)]|(x & [= <-] & Hr)];
    [| |done].
  - right. exists e, s1. split; [|done]. rewrite Hs1. cbn. apply serial_race.
  - left. apply flush_entry_new in Hr as []. split; try done; cbn in *; by rewrite serial_race in *.
Qed.

Lemma settle_payment_effect w amount iid desc s tx s' :
  settle_payment w amount iid desc s = (Ok tx, s') →
  (∃ wl, wallet_id wl = wallet_id w
         ∧ find_entry (wallet_id w) CREDIT CANONICAL_SETTLEMENT_TYPE (uuid_str iid) (ses_db s) = None
         ∧ new_entry wl CREDIT CANONICAL_SETTLEMENT_TYPE (uuid_str iid) amount s s' tx)
  ∨ find_entry (wallet_id w) CREDIT CANONICAL_SETTLEMENT_TYPE (uuid_str iid) (ses_db s) = Some tx
    ∧ ses_db s' = ses_db s.
Proof.
  unfold settle_payment. intros Hr. bind_guard Hr Hpos.
  apply bind_inv_ok in Hr as (wl & s1 & Hl & Hr). apply lock_wallet_ok in Hl as (-> & _ & Hwid & _).
  cbv zeta in Hr. bind_query Hr. rewrite Hwid in Hr.
  destruct (find_entry _ _ _ _ (ses_db s)) as [x|] eqn:Hf.
  { right. by apply return_existing_ok in Hr as (-> & _ & ->). }
  left. exists wl. split; [done|]. split; [done|].
  apply savepoint_new in Hr as [Hr|(e & s1 & Hs1 & Hr)]; [done| |intros []; by steps_walk].
  exfalso. destruct e; try done. apply bind_inv_ok in Hr as (o & s2 & Hw & Hr).
  apply wait_for_entry_serial in Hw. rewrite Hs1, Hf in Hw. by subst o.
Qed.

Lemma refund_new w amount i t desc s tx s' :
  refund w amount (Some i) (Some t) desc s = (Ok tx, s') →
  (∃ wl, wallet_id wl = wallet_id w ∧ new_entry wl REFUND t i amount s s' tx) ∨ ses_db s' = ses_db s.
Proof.
  unfold refund. intros Hr. bind_guard Hr Hpos.
  apply bind_inv_ok in Hr as (wl & s1 & Hl & Hr). apply lock_wallet_ok in Hl as (-> & _ & Hwid & _).
  cbv zeta in Hr. apply bind_inv_ok in Hr as (o & s1 & Hq & Hr). apply query_inv in Hq as [_ ->].
  destruct o as [x|]; [right; by apply return_existing_ok in Hr as (_ & _ & ->)|].
  apply savepoint_new in Hr as [Hr|(e & s1 & Hs1 & Hr)]; [left; by exists wl| |intros []; by steps_walk].
  right. rewrite <- Hs1. eapply (steps_run same_db); [|exact Hr]. destruct e; by steps_walk.
Qed.

(** The owner's wallet is found, or opened empty. *)
Lemma owner_wallet t u c s w s' :
  get_or_create_wallet t u c s = (Ok w, s') →
  wallet_key w = (t, u, c) ∧ w ∈ wallets (ses_db s')
  ∧ (ses_db s' = ses_db s
     ∨ ses_db s' = (ses_db s) <| wallets ::= λ l, l ++ [w] |>
       ∧ wallet_balance w = 0 ∧ wallet_by_key t u c (ses_db s) = []).
Proof.
  intros Hr. pose proof (get_or_create_wallet_ok _ _ _ _ _ _ Hr) as [Hin Hk]%wallet_by_key_spec.
  split; [done|]. split; [done|]. unfold get_or_create_wallet in Hr. bind_query Hr.
  apply bind_inv_ok in Hr as ([x|] & s1 & Hl & Hr).
  { apply one_or_none_some in Hl as [_ ->]. apply ret_inv in Hr as [_ ->]. by left. }
  apply one_or_none_none in Hl as [Hl ->]. bind_write Hr.
  apply savepoint_effect in Hr as [[Hdb _]|(x & [= <-] & Hr)]; [| |intros []; by steps_walk].
  - left. rewrite Hdb. cbn. apply serial_race.
  - right. apply insert_wallet_ok in Hr as (Hw & _ & ->).
    split_and!; [cbn; by rewrite serial_race|by rewrite Hw|done].
Qed.

Lemma committed_settle_payment w amount iid desc :
  steps same_committed (settle_payment w amount iid desc).
Proof.
  pose proof committed_wait_for_entry. pose proof committed_flush_entry.
  unfold settle_payment, lock_wallet, return_existing. steps_walk.
Qed.

End ledger.

(** ** The books *)

Definition intent_key (i : PaymentIntent) : UUID * UUID * string :=
  (intent_tenant_id i, intent_user_id i, intent_currency i).

Definition is_settlement (tx : LedgerTransaction) : bool :=
  tx_reference_type tx == Some CANONICAL_SETTLEMENT_TYPE.

(** [tx] credits the wallet of the intent's owner with the intent's amount. *)
Record settles (d : DB) (i : PaymentIntent) (tx : LedgerTransaction) : Prop := {
  st_type : tx_transaction_type tx = CREDIT;
  st_reference : tx_reference_type tx = Some CANONICAL_SETTLEMENT_TYPE
                 ∧ tx_reference_id tx = Some (uuid_str (intent_id i));
  st_amount : tx_amount tx = intent_amount i;
  st_wallet : (tx_wallet_id tx, intent_key i) ∈ owners d;
}.

Record books (d : DB) : Prop := {
  bk_ids : NoDup (intent_id <$> intents d);
  bk_cents : ∀ i, i ∈ intents d → numeric 14 2 (intent_amount i) = Some (intent_amount i);
  bk_owners : NoDup (snd <$> owners d);
  bk_unique : ledger_unique d;
  bk_backed : ∀ tx, tx ∈ ledger d → is_settlement tx = true →
    ∃ i, i ∈ intents d ∧ settles d i tx ∧ intent_status i = PaySucceeded;
  bk_settled : ∀ i, i ∈ intents d → intent_status i = PaySucceeded →
    ∃ tx, tx ∈ ledger d ∧ settles d i tx;
}.

(** All the settlement entries of one intent, in any wallet. *)
Definition settlements (i : PaymentIntent) (d : DB) : list LedgerTransaction :=
  select (λ tx, is_settlement tx && (tx_reference_id tx == Some (uuid_str (intent_id i)))) (ledger d).

Lemma settles_reference d i tx :
  settles d i tx → is_settlement tx && (tx_reference_id tx == Some (uuid_str (intent_id i))) = true.
Proof.
  intros [_ [H1 H2] _ _]. unfold is_settlement. rewrite andb_true_iff, !bool_decide_eq_true. done.
Qed.

(** An entry that refers to an intent settles that intent. *)
Lemma books_entry d i tx :
  books d → i ∈ intents d → tx ∈ settlements i d → settles d i tx ∧ intent_status i = PaySucceeded.
Proof.
  intros Hb Hi [Htx Hr]%elem_of_select. apply andb_true_iff in Hr as [Hs Hr].
  rewrite bool_decide_eq_true in Hr.
  destruct (bk_backed d Hb tx Htx Hs) as (j & Hj & Hset & Hok).
  assert (i = j) as ->; [|done]. eapply NoDup_fmap_inj; [apply (bk_ids d Hb)|done..|].
  destruct Hset as [_ [_ Hr'] _ _]. rewrite Hr in Hr'. apply (inj uuid_str). congruence.
Qed.

(** Two entries cannot settle the same intent. *)
Lemma settles_conflict d i a b :
  books d → settles d i a → settles d i b → ledger_conflict a b = true.
Proof.
  intros Hb [Ha1 [Ha2 Ha3] _ Hao] [Hb1 [Hb2 Hb3] _ Hbo].
  assert (tx_wallet_id a = tx_wallet_id b) as Hw.
  { pose proof (NoDup_fmap_inj snd (owners d) _ _ (bk_owners d Hb) Hao Hbo eq_refl). congruence. }
  apply (indexed_conflict (tx_wallet_id b) CREDIT CANONICAL_SETTLEMENT_TYPE (uuid_str (intent_id i)));
    [done|by apply has_reference_spec..].
Qed.

(** What the books say of an intent. *)
Definition balanced (d : DB) (i : PaymentIntent) : Prop :=
  if intent_status i == PaySucceeded
  then ∃ tx, settlements i d = [tx] ∧ settles d i tx
  else settlements i d = [].

Lemma books_balanced d i : books d → i ∈ intents d → balanced d i.
Proof.
  intros Hb Hi. unfold balanced. pose proof (books_entry d i) as Hentry.
  case_bool_decide as Hok.
  - destruct (bk_settled d Hb i Hi Hok) as (tx & Htx & Hset). exists tx. split; [|done].
    assert (tx ∈ settlements i d) as Hin
      by (apply elem_of_select; split; [done|by eapply settles_reference]).
    pose proof (bk_unique d Hb) as Hu. unfold settlements in *.
    assert (∀ x, x ∈ settlements i d → settles d i x) as Hall by (intros; by apply Hentry).
    unfold settlements in Hall.
    assert (StronglySorted (λ a b, ledger_conflict b a = false)
              (select (λ tx, is_settlement tx && (tx_reference_id tx == Some (uuid_str (intent_id i))))
                 (ledger d))) as Hss.
    { clear -Hu. unfold ledger_unique in Hu. induction Hu as [|x l Hl IH Hx]; cbn; [constructor|].
      destruct (_ && _); [|done]. constructor; [done|]. apply List.Forall_forall.
      intros y Hy. rewrite List.Forall_forall in Hx. apply Hx. by apply List.filter_In in Hy as [? _]. }
    destruct (select _ (ledger d)) as [|x [|y l]]; [by apply elem_of_nil in Hin| |].
    { apply list_elem_of_singleton in Hin as ->. done. }
    exfalso. inversion_clear Hss as [|? ? _ Hx]. apply List.Forall_inv in Hx.
    assert (ledger_conflict y x = true); [|congruence].
    apply (settles_conflict d i); [done|apply Hall; right; left|apply Hall; left].
  - destruct (settlements i d) as [|x l] eqn:Hs; [done|]. exfalso. apply Hok.
    apply (Hentry x Hb Hi). left.
Qed.

(** *** Changes that keep the books *)

(** Only other tables changed. *)
Definition same_books (s s' : Session) : Prop :=
  intents (ses_db s') = intents (ses_db s) ∧ wallets (ses_db s') = wallets (ses_db s)
  ∧ ledger (ses_db s') = ledger (ses_db s).

Global Instance same_books_preorder : PreOrder same_books.
Proof.
  split; [by intros s|]. intros x y z (? & ? & ?) (? & ? & ?). split_and!; congruence.
Qed.

Lemma books_frame d d' :
  intents d' = intents d → owners d' = owners d → ledger d' = ledger d → books d → books d'.
Proof.
  intros Hi Ho Hl [B1 B2 B3 B4 B5 B6]. split; rewrite ?Hi, ?Ho, ?Hl; try done.
  - unfold ledger_unique. by rewrite Hl.
  - intros tx Htx Hs. destruct (B5 tx Htx Hs) as (i & Hin & [S1 S2 S3 S4] & Hok).
    exists i. split_and!; [done| |done]. split; try done. by rewrite Ho.
  - intros i Hin Hok. destruct (B6 i Hin Hok) as (tx & Htx & [S1 S2 S3 S4]).
    exists tx. split; [done|]. split; try done. by rewrite Ho.
Qed.

Lemma books_same s s' : same_books s s' → books (ses_db s) → books (ses_db s').
Proof. intros (Hi & Hw & Hl). apply books_frame; [done| |done]. unfold owners. by rewrite Hw. Qed.

(** A new empty wallet for an owner who had none. *)
Lemma books_wallet d w :
  wallet_by_key (wallet_tenant_id w) (wallet_user_id w) (wallet_currency w) d = [] →
  books d → books (d <| wallets ::= λ l, l ++ [w] |>).
Proof.
  intros Hnew [B1 B2 B3 B4 B5 B6].
  assert (∀ x, x ∈ owners d → x ∈ owners (d <| wallets ::= λ l, l ++ [w] |>)) as Hsub.
  { intros x Hx. unfold owners. cbn. rewrite List.map_app. apply elem_of_app. by left. }
  split; try done.
  - unfold owners. cbn. rewrite List.map_app, fmap_app. apply list.NoDup_app.
    split_and!; [done| |apply NoDup_singleton].
    intros k Hk ->%list_elem_of_singleton. apply list_elem_of_fmap in Hk as ([i k'] & Hk' & Hk).
    unfold owners in Hk. apply list_elem_of_In, List.in_map_iff in Hk as (w' & [= <- <-] & Hw').
    assert (w' ∈ wallet_by_key (wallet_tenant_id w) (wallet_user_id w) (wallet_currency w) d) as Hin
      by (apply wallet_by_key_spec; split; [by apply list_elem_of_In|done]).
    rewrite Hnew in Hin. by apply elem_of_nil in Hin.
  - intros tx Htx Hs. destruct (B5 tx Htx Hs) as (i & Hin & [S1 S2 S3 S4] & Hok).
    exists i. split_and!; [done| |done]. split; auto.
  - intros i Hin Hok. destruct (B6 i Hin Hok) as (tx & Htx & [S1 S2 S3 S4]).
    exists tx. split; [done|]. split; auto.
Qed.

(** An intent changed, but not in who owns it, its amount or whether it
    succeeded. *)
Definition same_claim (i j : PaymentIntent) : Prop :=
  intent_id j = intent_id i ∧ intent_amount j = intent_amount i ∧ intent_key j = intent_key i
  ∧ (intent_status j = PaySucceeded ↔ intent_status i = PaySucceeded).

Lemma settles_claim d d' i j tx :
  owners d' = owners d → same_claim i j → settles d i tx → settles d' j tx.
Proof.
  intros Ho (H1 & H2 & H3 & _) [S1 S2 S3 S4]. split; [done|by rewrite H1|by rewrite H2|by rewrite H3, Ho].
Qed.

Lemma update_row_ids {A} `{!Row A} iid (f : A → A) t :
  (∀ x, x ∈ t → row_id x = iid → row_id (f x) = row_id x) →
  row_id <$> update_row iid f t = row_id <$> t.
Proof.
  intros Hf. induction t as [|x t IH]; [done|].
  cbn. f_equal; [|apply IH; intros y Hy; apply Hf; by right].
  case_bool_decide; [|done]. apply Hf; [left|done].
Qed.

Lemma books_intent d iid f :
  (∀ i, i ∈ intents d → intent_id i = iid → same_claim i (f i)) →
  books d → books (d <| intents ::= update_row iid f |>).
Proof.
  intros Hf [B1 B2 B3 B4 B5 B6].
  assert (∀ i, i ∈ intents d → same_claim i (if row_id i == iid then f i else i)) as Hc.
  { intros i Hi. case_bool_decide; [by apply Hf|]. by split. }
  split; cbn; try done.
  - change intent_id with (@row_id PaymentIntent _) in *. rewrite update_row_ids; [done|].
    intros x Hx Hid. by destruct (Hf x Hx Hid).
  - intros j (i & Hi & ->)%elem_of_update_where. destruct (Hc i Hi) as (_ & -> & _). auto.
  - intros tx Htx Hs. destruct (B5 tx Htx Hs) as (i & Hin & Hset & Hok).
    destruct (Hc i Hin) as (? & ? & ? & Hst). eexists. split; [apply elem_of_update_where; eauto|].
    split; [|by apply Hst]. apply (settles_claim d _ i); [done|by apply Hc|done].
  - intros j (i & Hi & ->)%elem_of_update_where Hok. destruct (Hc i Hi) as (? & ? & ? & Hst).
    destruct (B6 i Hi ltac:(by apply Hst)) as (tx & Htx & Hset). exists tx. split; [done|].
    apply (settles_claim d _ i); [done|by apply Hc|done].
Qed.

(** A new intent that has not succeeded. *)
Lemma books_new_intent d i :
  (∀ j, j ∈ intents d → intent_id j ≠ intent_id i) →
  numeric 14 2 (intent_amount i) = Some (intent_amount i) → intent_status i ≠ PaySucceeded →
  books d → books (d <| intents ::= λ t, t ++ [i] |>).
Proof.
  intros Hnew Ham Hst [B1 B2 B3 B4 B5 B6]. split; cbn; try done.
  - rewrite fmap_app. apply list.NoDup_app. split_and!; [done| |apply NoDup_singleton].
    intros k (j & -> & Hj)%list_elem_of_fmap Hk%list_elem_of_singleton. by eapply Hnew.
  - intros j [Hj|Hj]%elem_of_app; [auto|]. by apply list_elem_of_singleton in Hj as ->.
  - intros tx Htx Hs. destruct (B5 tx Htx Hs) as (j & Hin & [] & Hok).
    exists j. split_and!; [apply elem_of_app; by left|by split|done].
  - intros j [Hj|Hj]%elem_of_app Hok; [|by apply list_elem_of_singleton in Hj as ->].
    destruct (B6 j Hj Hok) as (tx & Htx & []). exists tx. split; [done|]. by split.
Qed.

(** An entry that is no settlement. *)
Lemma books_other_entry w ty rty rid amount s s' tx :
  rty ≠ CANONICAL_SETTLEMENT_TYPE → new_entry w ty rty rid amount s s' tx →
  books (ses_db s) → books (ses_db s').
Proof.
  intros Hrty [_ _ _ [Hr _] Hu Hdb] Hb. rewrite Hdb.
  assert (owners (ses_db s') = owners (ses_db s)) as Ho
    by (rewrite Hdb; unfold owners; cbn; apply owners_set_balance).
  rewrite Hdb in Ho. destruct Hb as [B1 B2 B3 B4 B5 B6]. split; rewrite ?Ho; try done.
  - apply StronglySorted_snoc; [exact B4|]. exact Hu.
  - intros x [Hx|Hx]%elem_of_app Hs.
    + destruct (B5 x Hx Hs) as (i & Hin & Hset & Hok). exists i. split_and!; [done| |done].
      apply (settles_claim (ses_db s) _ i); [exact Ho|by split|done].
    + exfalso. apply list_elem_of_singleton in Hx as ->. unfold is_settlement in Hs.
      rewrite bool_decide_eq_true, Hr in Hs. congruence.
  - intros i Hin Hok. destruct (B6 i Hin Hok) as (x & Hx & Hset). exists x.
    split; [apply elem_of_app; by left|]. apply (settles_claim (ses_db s) _ i); [exact Ho|by split|done].
Qed.

(** *** Settling *)

Definition succeed (iid : UUID) (t : list PaymentIntent) : list PaymentIntent :=
  update_row iid (λ i, i <| intent_status := PaySucceeded |>) t.

(** The settlement entry and the new status together keep the books. *)
Lemma books_settle i w s s1 tx :
  books (ses_db s) → i ∈ intents (ses_db s) → (wallet_id w, intent_key i) ∈ owners (ses_db s) →
  new_entry w CREDIT CANONICAL_SETTLEMENT_TYPE (uuid_str (intent_id i)) (intent_amount i) s s1 tx →
  let d := (ses_db s1) <| intents ::= succeed (intent_id i) |> in
  settles d i tx ∧ books d.
Proof.
  intros Hb Hi Hw [Hwid Hty Ham [Hrt Hri] Hu Hdb] d. rewrite (bk_cents _ Hb i Hi) in Ham.
  assert (owners d = owners (ses_db s)) as Ho
    by (subst d; rewrite Hdb; unfold owners; cbn; apply owners_set_balance).
  assert (intents d = succeed (intent_id i) (intents (ses_db s))) as Hids by (subst d; by rewrite Hdb).
  assert (ledger d = ledger (ses_db s) ++ [tx]) as Hl by (subst d; by rewrite Hdb).
  clearbody d. clear Hdb.
  assert (settles d i tx) as Hset.
  { split; [done|done|congruence|]. by rewrite Hwid, Ho. }
  split; [done|]. destruct Hb as [B1 B2 B3 B4 B5 B6].
  assert (∀ j, j ∈ intents (ses_db s) → intent_id j = intent_id i → j = i) as Hsame
    by (intros j Hj; by eapply NoDup_fmap_inj).
  set (f := λ j : PaymentIntent, if row_id j == intent_id i then j <| intent_status := PaySucceeded |> else j).
  assert (∀ j x, settles (ses_db s) j x → settles d (f j) x) as Hkeep.
  { intros j x [S1 S2 S3 S4]. unfold f. split; try done; [by case_match..|]. rewrite Ho. by case_match. }
  split; rewrite ?Ho, ?Hl, ?Hids; try done.
  - change intent_id with (@row_id PaymentIntent _). unfold succeed. by rewrite update_row_ids.
  - intros j (k & Hk & ->)%elem_of_update_where. case_match; by apply (B2 k).
  - unfold ledger_unique. rewrite Hl. apply StronglySorted_snoc; [exact B4|exact Hu].
  - intros x [Hx|Hx]%elem_of_app Hs.
    + destruct (B5 x Hx Hs) as (j & Hj & Hjx & Hok). exists (f j).
      split_and!; [apply elem_of_update_where; by exists j|by apply Hkeep|unfold f; by case_match].
    + apply list_elem_of_singleton in Hx as ->. exists (f i).
      split_and!; [apply elem_of_update_where; by exists i| |].
      * unfold f. rewrite bool_decide_eq_true_2 by done. destruct Hset. by split.
      * unfold f. by rewrite bool_decide_eq_true_2.
  - intros j (k & Hk & ->)%elem_of_update_where Hok. fold (f k) in *.
    destruct (decide (intent_id k = intent_id i)) as [Heq|Hne].
    + apply Hsame in Heq as ->; [|done]. exists tx. split; [apply elem_of_app; right; left|].
      unfold f. rewrite bool_decide_eq_true_2 by done. destruct Hset. by split.
    + unfold f in Hok. rewrite bool_decide_eq_false_2 in Hok by done.
      destruct (B6 k Hk Hok) as (x & Hx & Hkx). exists x. split; [apply elem_of_app; by left|].
      by apply Hkeep.
Qed.

(** What settling an intent does: it succeeds, and it is credited unless it had
    succeeded before. *)
Record settled (i : PaymentIntent) (s s' : Session) : Prop := {
  sd_intents : intents (ses_db s') = succeed (intent_id i) (intents (ses_db s));
  sd_entry : ∃ tx, settles (ses_db s') i tx
    ∧ if intent_status i == PaySucceeded
      then tx ∈ ledger (ses_db s) ∧ ledger (ses_db s') = ledger (ses_db s)
      else ledger (ses_db s') = ledger (ses_db s) ++ [tx];
  sd_books : books (ses_db s');
}.

Lemma settled_frame i s s1 s2 : same_books s1 s2 → settled i s s1 → settled i s s2.
Proof.
  intros Hs [S1 (tx & [T1 T2 T3 T4] & S2) S3]. pose proof (books_same _ _ Hs S3).
  destruct Hs as (Hi & Hw & Hl). split; [congruence| |done]. exists tx. split.
  - split; try done. unfold owners. by rewrite Hw.
  - by rewrite Hl.
Qed.

Lemma settled_from i s0 s s' :
  intents (ses_db s) = intents (ses_db s0) → ledger (ses_db s) = ledger (ses_db s0) →
  settled i s s' → settled i s0 s'.
Proof. intros Hi Hl [S1 S2 S3]. split; [by rewrite <- Hi| |done]. by rewrite <- Hl. Qed.

Lemma succeed_idem d i :
  books d → i ∈ intents d → intent_status i = PaySucceeded → succeed (intent_id i) (intents d) = intents d.
Proof.
  intros Hb Hi Hok. apply update_where_id. intros j Hj Hid. rewrite bool_decide_eq_true in Hid.
  assert (j = i) as -> by (eapply NoDup_fmap_inj; [apply (bk_ids _ Hb)|done..]).
  destruct i; cbn in *. by subst.
Qed.

Lemma mark_succeeded_effect i s u s' :
  mark_succeeded i s = (Ok u, s') →
  if intent_status i == PaySucceeded then s' = s
  else s' = s <| ses_db ::= λ d, d <| intents ::= succeed (intent_id i) |> |>.
Proof.
  unfold mark_succeeded. case_bool_decide; cbn [negb]; intros Hr; [by apply ret_inv in Hr as [_ ->]|].
  unfold intent_transition_to in Hr. bind_value Hr st Hst. apply transition_ok in Hst as [-> _].
  by apply write_inv in Hr as [_ ->].
Qed.

Lemma settlement_entry_none wid iid d :
  settlement_entry wid iid d = None → find_entry wid CREDIT CANONICAL_SETTLEMENT_TYPE (uuid_str iid) d = None.
Proof.
  unfold settlement_entry, find_entry. rewrite !first_None, !select_nil. intros Hn tx Htx.
  specialize (Hn tx Htx). unfold has_reference. destruct (tx_transaction_type tx == CREDIT);
    [|by rewrite andb_false_r]. by rewrite andb_true_r.
Qed.

Lemma settlement_entry_some wid i d tx :
  settlement_entry wid (intent_id i) d = Some tx →
  tx_wallet_id tx = wid ∧ tx ∈ settlements i d.
Proof.
  intros [Htx Hp]%first_Some. rewrite !andb_true_iff, !bool_decide_eq_true in Hp.
  destruct Hp as [[Hw Ht] Hr]. split; [done|]. apply elem_of_select. split; [done|].
  unfold is_settlement. by rewrite Ht, Hr, !bool_decide_eq_true_2.
Qed.

Definition same_shop (s s' : Session) : Prop :=
  orders (ses_db s') = orders (ses_db s) ∧ webhook_events (ses_db s') = webhook_events (ses_db s).

Global Instance same_shop_preorder : PreOrder same_shop.
Proof. split; [by intros s|]. intros x y z (? & ?) (? & ?). split; congruence. Qed.

Lemma same_shop_db s s' : ses_db s' = ses_db s → same_shop s s'.
Proof. intros Hdb. unfold same_shop. by rewrite Hdb. Qed.

Lemma elem_of_owners w d : w ∈ wallets d → (wallet_id w, wallet_key w) ∈ owners d.
Proof.
  intros Hw. apply list_elem_of_In, (List.in_map (λ w, (wallet_id w, wallet_key w))).
  by apply list_elem_of_In.
Qed.

Section settlement.
  Context `{HE : Env} `{!Serial HE} `{Gateways}.

(** The credit of an intent that was not settled, with the new status. *)
Lemma settle_fresh i w desc s tx s1 :
  books (ses_db s) → i ∈ intents (ses_db s) → (wallet_id w, intent_key i) ∈ owners (ses_db s) →
  settlement_entry (wallet_id w) (intent_id i) (ses_db s) = None →
  settle_payment w (intent_amount i) (intent_id i) desc s = (Ok tx, s1) →
  let s2 := s1 <| ses_db ::= λ d, d <| intents ::= succeed (intent_id i) |> |> in
  intent_status i ≠ PaySucceeded ∧ settled i s s2 ∧ same_shop s s2.
Proof.
  intros Hb Hi Ho Hse Hs s2.
  assert (intent_status i ≠ PaySucceeded) as Hok.
  { intros Hok. destruct (bk_settled _ Hb i Hi Hok) as (x & Hx & [S1 [S2 S2'] S3 S4]).
    pose proof (NoDup_fmap_inj snd _ _ _ (bk_owners _ Hb) Ho S4 eq_refl) as Heq.
    unfold settlement_entry in Hse. apply first_None in Hse.
    rewrite select_nil in Hse. specialize (Hse x Hx).
    rewrite S2, S2', !bool_decide_eq_true_2 in Hse by congruence. done. }
  split; [done|]. apply settlement_entry_none in Hse.
  apply settle_payment_effect in Hs as [(wl & Hwid & _ & Hne)|[Hf _]]; [|congruence].
  rewrite <- Hwid in Ho. destruct (books_settle i wl s s1 tx Hb Hi Ho Hne) as [Hset Hb'].
  pose proof (ne_db _ _ _ _ _ _ _ _ Hne) as Hdb. subst s2.
  split; [|split; cbn; by rewrite Hdb]. split; [cbn; by rewrite Hdb| |exact Hb']. exists tx.
  split; [exact Hset|]. rewrite bool_decide_eq_false_2 by done. cbn. by rewrite Hdb.
Qed.

(** The part that order payments and top-ups share. *)
Lemma settle_tail {A} i w desc (found paid : LedgerTransaction → M A) s r s' :
  books (ses_db s) → i ∈ intents (ses_db s) → w ∈ wallets (ses_db s) → wallet_key w = intent_key i →
  (existing ← query (settlement_entry (wallet_id w) (intent_id i));
   match existing with
   | Some tx => mark_succeeded i;; found tx
   | None => tx ← settle_payment w (intent_amount i) (intent_id i) desc; mark_succeeded i;; paid tx
   end) s = (Ok r, s') →
  ∃ k tx s1, settled i s s1 ∧ same_shop s s1 ∧ (k = found ∨ k = paid) ∧ k tx s1 = (Ok r, s').
Proof.
  intros Hb Hi Hw Hk Hr. pose proof (elem_of_owners _ _ Hw) as Ho. rewrite Hk in Ho.
  bind_query Hr. destruct (settlement_entry _ _ (ses_db s)) as [tx|] eqn:Hse.
  - apply settlement_entry_some in Hse as [_ Htx].
    destruct (books_entry _ _ _ Hb Hi Htx) as [Hset Hok]. apply elem_of_select in Htx as [Htx _].
    apply bind_inv_ok in Hr as (u & s1 & Hm & Hr). apply mark_succeeded_effect in Hm.
    rewrite bool_decide_eq_true_2 in Hm by done. subst s1.
    exists found, tx, s. split_and!; [|done|by left|done].
    split; [by rewrite succeed_idem| |done]. exists tx. by rewrite bool_decide_eq_true_2.
  - apply bind_inv_ok in Hr as (tx & s1 & Hs & Hr).
    destruct (settle_fresh i w desc s tx s1) as (Hok & Hset & Hsh); [done..|].
    apply bind_inv_ok in Hr as (u & s2 & Hm & Hr). apply mark_succeeded_effect in Hm.
    rewrite bool_decide_eq_false_2 in Hm by done. subst s2.
    exists paid, tx. eexists. split_and!; [exact Hset|exact Hsh|by right|exact Hr].
Qed.

(** Opening the owner's wallet keeps the books. *)
Lemma owner_wallet_books t u c s w s' :
  books (ses_db s) → get_or_create_wallet t u c s = (Ok w, s') →
  books (ses_db s') ∧ w ∈ wallets (ses_db s') ∧ wallet_key w = (t, u, c) ∧ same_shop s s'
  ∧ intents (ses_db s') = intents (ses_db s) ∧ ledger (ses_db s') = ledger (ses_db s).
Proof.
  intros Hb (Hk & Hw & [Hdb|(Hdb & _ & Hnew)])%owner_wallet.
  - split_and!; try done; rewrite ?Hdb; [done|by apply same_shop_db|done..].
  - split_and!; try done; rewrite ?Hdb; [|split; by rewrite Hdb|done..].
    apply books_wallet; [|done]. unfold wallet_key in Hk. by simplify_eq.
Qed.

Lemma same_books_write (f : DB → DB) :
  (∀ d, intents (f d) = intents d ∧ wallets (f d) = wallets d ∧ ledger (f d) = ledger d) →
  steps same_books (write f).
Proof. intros Hf s. apply Hf. Qed.

Lemma same_books_uuid4 : steps same_books uuid4.
Proof. by intros s. Qed.

Lemma same_books_nested {A} (m : M A) : steps same_books m → steps same_books (begin_nested m).
Proof. intros Hm s. specialize (Hm s). unfold begin_nested. by destruct (m s) as [[a|e] s']. Qed.

Lemma same_books_varchar_opt n v : steps same_books (to_varchar_opt n v).
Proof. unfold to_varchar_opt. steps_walk. Qed.

Hint Resolve same_books_uuid4 same_books_nested same_books_varchar_opt : steps.

Lemma same_books_payment_tx i ty a c p rid md : steps same_books (insert_payment_tx i ty a c p rid md).
Proof. unfold insert_payment_tx. steps_walk; by apply same_books_write. Qed.

Lemma same_books_order o st : steps same_books (order_transition_to o st).
Proof. unfold order_transition_to. steps_walk; by apply same_books_write. Qed.

Lemma same_shop_payment_tx i ty a c p rid md : steps same_shop (insert_payment_tx i ty a c p rid md).
Proof. unfold insert_payment_tx, to_varchar_opt. steps_walk; by intros s. Qed.

(** The order an intent pays for, and what settling does to it. *)
Definition order_effect (i : PaymentIntent) (s s' : Session) : Prop :=
  match intent_purpose i with
  | WALLET_TOPUP => intent_order_id i = None ∧ orders (ses_db s') = orders (ses_db s)
  | ORDER_PAYMENT =>
      ∃ oid o, intent_order_id i = Some oid ∧ get_row oid (orders (ses_db s)) = Some o
        ∧ order_tenant_id o = intent_tenant_id i
        ∧ order_total_amount o = intent_amount i ∧ order_currency o = intent_currency i
        ∧ order_status o ≠ OrderPending
        ∧ orders (ses_db s')
          = if order_status o == OrderPaymentPending
            then update_row oid (λ o, o <| order_status := OrderPaid |>) (orders (ses_db s))
            else orders (ses_db s)
  end.

Definition verified (i : PaymentIntent) (amount : option dec) (currency : option string) : Prop :=
  (∀ a, amount = Some a → a = intent_amount i) ∧ (∀ c, currency = Some c → c = intent_currency i).

Lemma verify_settlement_ok i a c s u s' :
  verify_settlement i a c s = (Ok u, s') → s' = s ∧ verified i a c.
Proof.
  unfold verify_settlement. intros Hr. bind_guard Hr Ha. apply raise_if_ok in Hr as [Hc ->].
  split; [done|]. split.
  - intros x ->. cbn in Ha. rewrite negb_false_iff, bool_decide_eq_true in Ha. congruence.
  - intros x ->. cbn in Hc. rewrite negb_false_iff, bool_decide_eq_true in Hc. congruence.
Qed.

Lemma get_payment_intent_ok t iid s i s' :
  get_payment_intent t iid s = (Ok i, s') →
  s' = s ∧ i ∈ intents (ses_db s) ∧ intent_id i = iid ∧ intent_tenant_id i = t.
Proof.
  unfold get_payment_intent. intros Hr. bind_query Hr.
  apply bind_inv_ok in Hr as (o & s1 & Ho & Hr). bind_some Hr x Hx. subst o.
  apply one_or_none_some in Ho as [Hs ->]. bind_guard Hr Ht.
  apply ret_inv in Hr as [[= <-] ->]. rewrite negb_false_iff, bool_decide_eq_true in Ht.
  assert (i ∈ select (λ i, intent_id i == iid) (intents (ses_db s))) as [Hin Hid]%elem_of_select
    by (rewrite Hs; left).
  rewrite bool_decide_eq_true in Hid. done.
Qed.

(** What a returning settlement did. *)
Record settlement_done (i : PaymentIntent) (amount : option dec) (currency : option string)
    (s s' : Session) : Prop := {
  dn_settled : settled i s s';
  dn_verified : verified i amount currency;
  dn_order : order_effect i s s';
  dn_events : webhook_events (ses_db s') = webhook_events (ses_db s);
}.

Lemma live_intent_reads i s x s' : live_intent i s = (Ok x, s') → s' = s.
Proof. unfold live_intent. by intros [_ ->]%query_inv. Qed.

Lemma settle_wallet_topup_spec i a c s r s' :
  books (ses_db s) → i ∈ intents (ses_db s) → _settle_wallet_topup i a c s = (Ok r, s') →
  settled i s s' ∧ verified i a c ∧ intent_order_id i = None ∧ same_shop s s'.
Proof.
  intros Hb Hi Hr. unfold _settle_wallet_topup in Hr. bind_guard Hr Hno.
  apply bind_inv_ok in Hr as (u & s0 & [-> Hv]%verify_settlement_ok & Hr).
  apply bind_inv_ok in Hr as (w & s1 & Hw & Hr).
  destruct (owner_wallet_books _ _ _ _ _ _ Hb Hw) as (Hb1 & Hin & Hk & Hsh1 & Hi1 & Hl1).
  rewrite <- Hi1 in Hi.
  apply settle_tail in Hr as (k & tx & s2 & Hset & Hsh2 & Hkk & Hr); [|done..].
  assert (same_books s2 s' ∧ same_shop s2 s') as [Hsb Hsh3].
  { destruct Hkk as [->| ->].
    - apply bind_inv_ok in Hr as (x & s3 & ->%live_intent_reads & Hr). by apply ret_inv in Hr as [_ ->].
    - apply bind_inv_ok in Hr as (p & s3 & Hp3 & Hr).
      apply bind_inv_ok in Hr as (x & s4 & ->%live_intent_reads & Hr). apply ret_inv in Hr as [_ ->].
      split; [apply (steps_run _ _ _ _ _ (same_books_payment_tx _ _ _ _ _ _ _) Hp3)|].
      apply (steps_run _ _ _ _ _ (same_shop_payment_tx _ _ _ _ _ _ _) Hp3). }
  split_and!; [|done|by destruct (intent_order_id i)|by rewrite Hsh1, Hsh2].
  eapply settled_from; [exact Hi1|exact Hl1|]. by eapply settled_frame.
Qed.

Lemma mark_paid_effect o s u s' :
  mark_paid o s = (Ok u, s') →
  order_status o ≠ OrderPending ∧ same_books s s'
  ∧ webhook_events (ses_db s') = webhook_events (ses_db s)
  ∧ orders (ses_db s')
    = if order_status o == OrderPaymentPending
      then update_row (order_id o) (λ o, o <| order_status := OrderPaid |>) (orders (ses_db s))
      else orders (ses_db s).
Proof.
  unfold mark_paid, order_transition_to. intros Hr.
  destruct (decide (order_status o = OrderPaymentPending)) as [Hs|Hs].
  - rewrite (bool_decide_eq_true_2 _ Hs) in *. rewrite orb_true_r in Hr. bind_value Hr st Hst.
    apply transition_ok in Hst as [-> _]. apply write_inv in Hr as [_ ->]. by rewrite Hs.
  - rewrite (bool_decide_eq_false_2 _ Hs) in *. rewrite orb_false_r in Hr.
    case_bool_decide as Hp; [|by apply ret_inv in Hr as [_ ->]].
    exfalso. bind_value Hr st Hst. rewrite Hp in Hst. by vm_compute in Hst.
Qed.

Lemma settle_payment_intent_spec t iid a c s r s' :
  books (ses_db s) → settle_payment_intent t iid a c s = (Ok r, s') →
  ∃ i, i ∈ intents (ses_db s) ∧ intent_id i = iid ∧ intent_tenant_id i = t
       ∧ settlement_done i a c s s'.
Proof.
  intros Hb Hr. unfold settle_payment_intent in Hr.
  apply bind_inv_ok in Hr as (i & s0 & (-> & Hi & Hid & Ht)%get_payment_intent_ok & Hr).
  exists i. split_and!; [done..|]. case_bool_decide as Hp.
  { apply settle_wallet_topup_spec in Hr as (Hset & Hv & Hno & [Ho He]); [|done..].
    split; try done. unfold order_effect. by rewrite Hp. }
  bind_some Hr oid Hoid. bind_query Hr. bind_some Hr o Ho. bind_guard Hr Hot.
  apply bind_inv_ok in Hr as (u & s0 & [-> Hv]%verify_settlement_ok & Hr).
  bind_guard Hr Ham. bind_guard Hr Hcur.
  rewrite negb_false_iff in Hot, Ham, Hcur. rewrite bool_decide_eq_true in Hot, Hcur.
  apply Z.eqb_eq in Ham. apply bind_inv_ok in Hr as (w & s1 & Hw & Hr).
  destruct (owner_wallet_books _ _ _ _ _ _ Hb Hw) as (Hb1 & Hin & Hk & [Ho1 He1] & Hi1 & Hl1).
  rewrite <- Hi1 in Hi. rewrite <- Ht in Hk.
  apply settle_tail in Hr as (k & tx & s2 & Hset & [Ho2 He2] & Hkk & Hr); [|done..].
  assert (∃ u s3, mark_paid o s2 = (Ok u, s3) ∧ same_books s3 s' ∧ same_shop s3 s')
    as (u' & s3 & Hm & Hsb & [Ho3 He3]).
  { destruct Hkk as [->| ->]; apply bind_inv_ok in Hr as (u' & s3 & Hm & Hr); exists u', s3.
    - apply bind_inv_ok in Hr as (x & s4 & ->%live_intent_reads & Hr). by apply ret_inv in Hr as [_ ->].
    - apply bind_inv_ok in Hr as (p & s4 & Hp4 & Hr).
      apply bind_inv_ok in Hr as (x & s5 & ->%live_intent_reads & Hr). apply ret_inv in Hr as [_ ->].
      split; [done|]. split; [apply (steps_run _ _ _ _ _ (same_books_payment_tx _ _ _ _ _ _ _) Hp4)|].
      apply (steps_run _ _ _ _ _ (same_shop_payment_tx _ _ _ _ _ _ _) Hp4). }
  apply mark_paid_effect in Hm as (Hnp & Hsb' & He & Hord).
  split; [|done| |congruence].
  - eapply settled_from; [exact Hi1|exact Hl1|]. eapply settled_frame; [exact Hsb|].
    by eapply settled_frame.
  - unfold order_effect. destruct (intent_purpose i); [|done].
    destruct (get_row_Some _ _ _ Ho) as [_ Hoi]. exists oid, o. split_and!; try done; [congruence..|].
    rewrite Ho3, Hord, Ho2, Ho1. change (order_id o) with (row_id o). by rewrite Hoi.
Qed.

End settlement.

(** ** Requests *)

(** A [Numeric(12, 2)] value fits a [Numeric(14, 2)] column. *)
Lemma numeric_narrow x a : numeric 12 2 x = Some a → numeric 14 2 a = Some a.
Proof.
  intros Hx. apply numeric_money; [by eapply (numeric_multiple 12 2)|].
  apply numeric_Some in Hx as [_ Hlt]. unfold money_limit. cbn in *. lia.
Qed.

(** A request that raises is rolled back, so an invariant of the database that
    every returning run keeps is kept by every request. *)
Lemma in_request_keeps {A} (I : DB → Prop) (m : M A) s :
  persisted s → steps same_committed m → I (ses_db s) →
  (∀ a s', m s = (Ok a, s') → I (ses_db s')) →
  persisted (in_request m s).2 ∧ I (ses_db (in_request m s).2).
Proof.
  intros Hp Hm HI Hok. specialize (Hm s). unfold in_request, catch, mbind, prog_bind.
  destruct (m s) as [[a|e] s'] eqn:Hr; cbn in *.
  - split; [done|]. by eapply Hok.
  - unfold same_committed, persisted in *. split; [done|]. cbn. by rewrite Hm, Hp.
Qed.

(** A row inserted under a savepoint, or the handler of the conflict. *)
Lemma except_inserted {A C} (m : M A) (g : A → C) (h : M C) s r s' :
  except_integrity (x ← begin_nested m; mret (g x)) h s = (Ok r, s') →
  (∃ x, r = g x ∧ m s = (Ok x, s')) ∨ ∃ s1, ses_db s1 = ses_db s ∧ h s1 = (Ok r, s').
Proof.
  unfold except_integrity. intros [Hr|(e & s1 & Hm & Hr)]%catch_inv_ok.
  - apply bind_inv_ok in Hr as (x & s1 & Hx%begin_nested_ok & [[= ->] ->]%ret_inv). eauto.
  - right. apply bind_inv_raise in Hm as [Hm|(x & s2 & _ & Hm)]; [|by apply ret_inv in Hm as [? _]].
    apply begin_nested_raise in Hm. destruct e; try by apply throw_inv in Hr as [? _]. eauto.
Qed.
