(* ===== verification/PaymentsSpec.v ===== *)
(** * Payment intents: properties

    What a webhook delivery does, and that the books balance over every
    history of payment requests. *)

From Stdlib Require Import ZArith Lia Ascii String Sorting.Sorted.
From stdpp Require Import base tactics list option strings numbers pretty.
From S2P Require Import Prelude Tables Text Money Exceptions StateMachines Models Ledger.
From S2P Require Import LedgerInv LedgerSpec DepositsSpec Fulfillment FulfillmentSpec Payments TopUps.
From S2P Require Import PaymentsInv.

Local Open Scope Z_scope.

(** ** Webhooks *)

(** The gateway said that the payment will not happen. *)
Definition closes (st : PaymentIntentStatus) : bool :=
  (st == PayFailed) || (st == PayCancelled) || (st == PayExpired).

(** What a verified event means for the intent it is about: money moves only
    for a success, a failure closes an open intent, anything else is noted. *)
Definition intent_effect `{Env} (v : WebhookVerificationResult) (i : PaymentIntent)
    (s s' : Session) : Prop :=
  assert_provider_verification_attributes i (wv_verification_attributes v) = Ok tt
  ∧ verified i (wv_amount v) (wv_currency v)
  ∧ match wv_status v with
    | Some PaySucceeded => settled i s s' ∧ order_effect i s s'
    | Some st =>
        wallets (ses_db s') = wallets (ses_db s) ∧ ledger (ses_db s') = ledger (ses_db s)
        ∧ orders (ses_db s') = orders (ses_db s)
        ∧ if closes st
          then transition LEGAL_PAYMENT_TRANSITIONS (intent_status i) st = Ok st
               ∧ intents (ses_db s')
                 = update_row (intent_id i) (λ i, i <| intent_status := st |>) (intents (ses_db s))
          else intents (ses_db s') = intents (ses_db s)
    | None => same_books s s' ∧ orders (ses_db s') = orders (ses_db s)
    end.

(** The intent an event is about. *)
Definition about (t : UUID) (v : WebhookVerificationResult) (d : DB) : list PaymentIntent :=
  if truthy (wv_provider_payment_id v)
  then intents_by_provider_id t (default "" (wv_provider_payment_id v)) d else [].

Section webhooks.
  Context `{HE : Env} `{!Serial HE} `{Gateways}.

Lemma get_provider_reads t name : steps eq (get_provider t name).
Proof. unfold get_provider, webhook_secret_of, get_payment_secret. steps_walk. Qed.

Lemma verify_delivery_reads t name payload headers : steps eq (verify_delivery t name payload headers).
Proof.
  pose proof get_provider_reads. unfold verify_delivery, webhook_secret_of, get_payment_secret. steps_walk.
Qed.

(** A status change that leaves money and orders alone. *)
Lemma intent_transition_effect i st s u s' :
  intent_transition_to i st s = (Ok u, s') →
  transition LEGAL_PAYMENT_TRANSITIONS (intent_status i) st = Ok st
  ∧ s' = s <| ses_db ::= λ d, d <| intents ::= update_row (intent_id i)
                                      (λ i, i <| intent_status := st |>) |> |>.
Proof.
  unfold intent_transition_to. intros Hr. bind_value Hr x Hx.
  pose proof Hx as [-> _]%transition_ok. by apply write_inv in Hr as [_ ->].
Qed.

(** [if intent.status != st: intent.transition_to(st)] *)
Lemma close_intent_effect i st s u s' :
  books (ses_db s) → i ∈ intents (ses_db s) →
  (if intent_status i != st then intent_transition_to i st else mret tt) s = (Ok u, s') →
  transition LEGAL_PAYMENT_TRANSITIONS (intent_status i) st = Ok st
  ∧ (∀ t, orders (ses_db s') = t ↔ orders (ses_db s) = t)
  ∧ wallets (ses_db s') = wallets (ses_db s) ∧ ledger (ses_db s') = ledger (ses_db s)
  ∧ webhook_events (ses_db s') = webhook_events (ses_db s)
  ∧ intents (ses_db s')
    = update_row (intent_id i) (λ i, i <| intent_status := st |>) (intents (ses_db s)).
Proof.
  intros Hb Hi Hr. case_bool_decide as Hst; cbn [negb] in Hr.
  - apply ret_inv in Hr as [_ ->]. split_and!; try done.
    + apply transition_ok. auto.
    + symmetry. apply update_where_id. intros j Hj Hid. rewrite bool_decide_eq_true in Hid.
      assert (j = i) as -> by (eapply NoDup_fmap_inj; [apply (bk_ids _ Hb)|done..]).
      destruct i; cbn in *. by subst.
  - by apply intent_transition_effect in Hr as [Ht ->].
Qed.

Lemma apply_webhook_effect t v i s u s' :
  books (ses_db s) → i ∈ intents (ses_db s) → apply_webhook t i v s = (Ok u, s') →
  intent_effect v i s s' ∧ webhook_events (ses_db s') = webhook_events (ses_db s)
  ∧ books (ses_db s').
Proof.
  intros Hb Hi Hr. unfold apply_webhook in Hr. bind_value Hr x Hattr. destruct x.
  apply bind_inv_ok in Hr as (u1 & s0 & [-> Hv]%verify_settlement_ok & Hr).
  unfold intent_effect.
  match goal with |- (_ ∧ _ ∧ ?P) ∧ ?Q ∧ ?R => cut (P ∧ Q ∧ R); [tauto|] end.
  assert (∀ st, closes st = true → st ≠ PaySucceeded →
    (if intent_status i != st then intent_transition_to i st else mret tt) s = (Ok u, s') →
    (wallets (ses_db s') = wallets (ses_db s) ∧ ledger (ses_db s') = ledger (ses_db s)
     ∧ orders (ses_db s') = orders (ses_db s)
     ∧ if closes st
       then transition LEGAL_PAYMENT_TRANSITIONS (intent_status i) st = Ok st
            ∧ intents (ses_db s')
              = update_row (intent_id i) (λ i, i <| intent_status := st |>) (intents (ses_db s))
       else intents (ses_db s') = intents (ses_db s))
    ∧ webhook_events (ses_db s') = webhook_events (ses_db s) ∧ books (ses_db s')) as Hclose.
  { intros st Hcl Hne Hrun. destruct (close_intent_effect _ _ _ _ _ Hb Hi Hrun) as (Ht & Ho & Hw & Hl & He & Hin).
    rewrite Hcl. split_and!; try done; [by apply Ho|].
    apply (books_frame ((ses_db s) <| intents ::= update_row (intent_id i)
             (λ i, i <| intent_status := st |>) |>)); [done|unfold owners; by rewrite Hw|done|].
    apply books_intent; [|done]. intros j Hj Hid.
    assert (j = i) as -> by (eapply NoDup_fmap_inj; [apply (bk_ids _ Hb)|done..]).
    split_and!; try done. cbn. split; [done|]. intros Hok. rewrite Hok in Ht.
    apply transition_ok in Ht as [_ [Ht|Ht]]; [done|by apply elem_of_nil in Ht]. }
  destruct (wv_status v) as [[]|] eqn:Hstatus; try (by apply ret_inv in Hr as [_ ->]); try by auto.
  apply bind_inv_ok in Hr as ([r tx] & s1 & Hr & [_ ->]%ret_inv).
  apply settle_payment_intent_spec in Hr as (j & Hj & Hid & _ & [Hset _ Hord Hev]); [|done].
  assert (j = i) as -> by (eapply NoDup_fmap_inj; [apply (bk_ids _ Hb)|done..]).
  destruct Hset. by split_and!.
Qed.

Lemma insert_webhook_event_ok t name v i hash s e s' :
  insert_webhook_event t name v i hash s = (Ok e, s') →
  e = MkPaymentWebhookEvent (env_uuid4 (ses_draws s)) t name (wv_provider_event_id v)
        (intent_id <$> i) (wv_event_type v) true false None hash
  ∧ (∀ x, x ∈ webhook_events (ses_db s) → wh_id x ≠ wh_id e)
  ∧ ses_db s' = (ses_db s) <| webhook_events ::= λ l, l ++ [e] |>.
Proof.
  unfold insert_webhook_event. intros Hr. db_inv. split_and!; [done| |done].
  intros x Hx Heq.
  match goal with Hg : false = existsb ?p ?l |- _ =>
    assert (existsb p l = true); [|congruence]; apply existsb_exists; exists x end.
  split; [by apply list_elem_of_In|]. unfold webhook_conflict. by rewrite bool_decide_eq_true_2.
Qed.

Lemma mark_processed_effect e s r s' :
  (∃ l, webhook_events (ses_db s) = l ++ [e] ∧ ∀ x, x ∈ l → wh_id x ≠ wh_id e) →
  mark_processed e s = (Ok r, s') →
  wh_processed r = true ∧ wh_provider_event_id r = wh_provider_event_id e
  ∧ wh_payment_intent_id r = wh_payment_intent_id e
  ∧ same_books s s' ∧ orders (ses_db s') = orders (ses_db s)
  ∧ ∃ l, webhook_events (ses_db s) = l ++ [e] ∧ webhook_events (ses_db s') = l ++ [r].
Proof.
  intros (l & Hl & Hne) Hr. unfold mark_processed in Hr.
  apply bind_inv_ok in Hr as (n & s1 & Hn & Hr). apply gets_inv in Hn as [_ ->].
  bind_write Hr. apply query_inv in Hr as [Hr ->]. cbn in *. rewrite Hl in *.
  assert (∀ f, update_row (wh_id e) f (l ++ [e]) = l ++ [f e]) as Hu.
  { intros f. unfold update_row. rewrite update_where_app, update_where_id.
    - cbn. by rewrite bool_decide_eq_true_2.
    - intros x Hx Hid. rewrite bool_decide_eq_true in Hid. by destruct (Hne x). }
  rewrite Hu in Hr |- *. rewrite get_row_app_new in Hr.
  rewrite (proj2 (get_row_None _ _)) in Hr by (intros x Hx; by apply Hne).
  rewrite bool_decide_eq_true_2 in Hr by done. cbn in Hr. simplify_eq. split_and!; try done. by exists l.
Qed.

(** What a delivery of a verified event does: nothing when the event has been
    recorded before; otherwise it is recorded as processed and the intent it
    is about, if any, is brought up to date. *)
Inductive delivery (t : UUID) (name : string) (v : WebhookVerificationResult) (s : Session)
    (e : PaymentWebhookEvent) (s' : Session) : Prop :=
  | delivered_again :
      webhook_events_of t name (wv_provider_event_id v) (ses_db s) = [e] →
      ses_db s' = ses_db s → delivery t name v s e s'
  | delivered_first :
      webhook_events_of t name (wv_provider_event_id v) (ses_db s) = [] →
      webhook_events (ses_db s') = webhook_events (ses_db s) ++ [e] →
      wh_provider_event_id e = wv_provider_event_id v → wh_processed e = true →
      books (ses_db s') →
      match about t v (ses_db s) with
      | [] => same_books s s' ∧ orders (ses_db s') = orders (ses_db s)
      | [i] => wh_payment_intent_id e = Some (intent_id i) ∧ intent_effect v i s s'
      | _ => False
      end →
      delivery t name v s e s'.

Lemma intent_effect_frame v i s0 s s1 s2 :
  ses_db s = (ses_db s0) <| webhook_events := webhook_events (ses_db s) |> →
  same_books s1 s2 → orders (ses_db s2) = orders (ses_db s1) →
  intent_effect v i s s1 → intent_effect v i s0 s2.
Proof.
  intros Hdb Hsb Ho (Ha & Hv & Heff). pose proof Hsb as (Hi & Hw & Hl). split; [done|]. split; [done|].
  assert (intents (ses_db s) = intents (ses_db s0) ∧ wallets (ses_db s) = wallets (ses_db s0)
          ∧ ledger (ses_db s) = ledger (ses_db s0) ∧ orders (ses_db s) = orders (ses_db s0))
    as (Ei & Ew & El & Eo) by (by rewrite Hdb).
  clear Hdb. unfold same_books, order_effect in *. rewrite Ei, Ew, El, Eo in *.
  destruct (wv_status v) as [[]|]; rewrite ?Hi, ?Hw, ?Hl, ?Ho; try done.
  destruct Heff as [Hset Hord]. split; [|exact Hord].
  eapply settled_from; [exact Ei|exact El|]. by eapply settled_frame.
Qed.

Lemma process_webhook_spec t name payload headers s e s' :
  books (ses_db s) → process_webhook t name payload headers s = (Ok e, s') →
  ∃ v, verify_delivery t name payload headers s = (Ok v, s) ∧ delivery t (lower name) v s e s'.
Proof.
  intros Hb Hr. unfold process_webhook in Hr. cbv zeta in Hr.
  apply bind_inv_ok in Hr as (v & s0 & Hv & Hr).
  pose proof (steps_run _ _ _ _ _ (verify_delivery_reads _ _ _ _) Hv) as <-.
  exists v. split; [done|]. bind_query Hr. apply bind_inv_ok in Hr as ([x|] & s0 & Hx & Hr).
  { apply one_or_none_some in Hx as [Hx ->]. apply ret_inv in Hr as [[= ->] ->].
    by apply delivered_again. }
  apply one_or_none_none in Hx as [Hx ->].
  apply bind_inv_ok in Hr as (oi & s0 & Hoi & Hr).
  assert (s0 = s ∧ about t v (ses_db s) = option_list oi) as [-> Hab].
  { unfold about. destruct (truthy _); [|by apply ret_inv in Hoi as [[= ->] ->]].
    bind_query Hoi. destruct oi; [apply one_or_none_some in Hoi|apply one_or_none_none in Hoi];
      by destruct Hoi as [-> ->]. }
  bind_write Hr. apply bind_inv_ok in Hr as (ins & s1 & Hins & Hr).
  apply except_inserted in Hins as [(x & -> & Hins)|(s2 & Hd2 & Hins)].
  2: { exfalso. bind_query Hins. rewrite Hd2 in Hins. cbn in Hins.
       rewrite serial_race, Hx in Hins. by vm_compute in Hins. }
  apply insert_webhook_event_ok in Hins as (Hxe & Hne & Hdb1). cbn in Hne, Hdb1.
  rewrite serial_race in Hne, Hdb1. apply bind_inv_ok in Hr as (u & s2 & Happ & Hr).
  assert (books (ses_db s1)) as Hb1 by (rewrite Hdb1; by apply (books_frame (ses_db s))).
  assert (books (ses_db s2) ∧ webhook_events (ses_db s2) = webhook_events (ses_db s1)
          ∧ match oi with None => s2 = s1 | Some i => intent_effect v i s1 s2 end)
    as (Hb2 & He2 & Heff).
  { destruct oi as [i|]; [|by apply ret_inv in Happ as [_ ->]].
    apply apply_webhook_effect in Happ as (? & ? & ?); [done|done|]. rewrite Hdb1. cbn.
    assert (i ∈ about t v (ses_db s)) as Hin by (rewrite Hab; left). unfold about in Hin.
    destruct (truthy _); [|by apply elem_of_nil in Hin]. by apply elem_of_select in Hin as [? _]. }
  assert (webhook_events (ses_db s2) = webhook_events (ses_db s) ++ [x]) as He by (by rewrite He2, Hdb1).
  apply mark_processed_effect in Hr as (Hp & Hid & Hpi & Hsb & Ho & l & Hl & Hl'); [|by eexists].
  rewrite He in Hl. apply app_inj_tail in Hl as [<- _].
  apply delivered_first; [done|done|by rewrite Hid, Hxe|done|by eapply books_same|].
  rewrite Hab. destruct oi as [i|]; cbn.
  - split; [by rewrite Hpi, Hxe|]. eapply intent_effect_frame; [|exact Hsb|exact Ho|exact Heff].
    by rewrite Hdb1.
  - subst s2. rewrite Ho, Hdb1. split; [|done]. destruct Hsb as (? & ? & ?).
    unfold same_books. by rewrite Hdb1 in *.
Qed.

End webhooks.

(** ** Histories of payment requests *)

Inductive payment_request :=
  | ReqCreate (req : IntentRequest)
  | ReqTopup (req : TopupRequest)
  | ReqStars (tenant_id user_id : UUID) (payload charge_id : string) (amount : dec) (currency : string)
  | ReqSettle (tenant_id iid : UUID) (amount : option dec) (currency : option string)
  | ReqWebhook (tenant_id : UUID) (provider_name payload : string) (headers : list (string * string))
  | ReqCancel (tenant_id iid : UUID)
  | ReqRefund (tenant_id iid : UUID) (amount : option dec) (reason key : option string).

Definition handle_payment `{Env} `{Gateways} (r : payment_request) : M unit :=
  match r with
  | ReqCreate req => create_payment_intent req;; mret tt
  | ReqTopup req => create_wallet_topup_intent req;; mret tt
  | ReqStars t u p ch a c => settle_telegram_stars_topup t u p ch a c;; mret tt
  | ReqSettle t i a c => settle_payment_intent t i a c;; mret tt
  | ReqWebhook t n p h => process_webhook t n p h;; mret tt
  | ReqCancel t i => cancel_payment_intent t i;; mret tt
  | ReqRefund t i a r k => refund_payment t i a r k;; mret tt
  end.

(** One request after another, each in its own transaction. *)
Definition run_payments `{Env} `{Gateways} (rs : list payment_request) (s : Session) : Session :=
  foldl (λ s r, (in_request (handle_payment r) s).2) s rs.

Section requests.
  Context `{HE : Env} `{!Serial HE} `{Gateways}.

Lemma reads_books {A} (m : M A) s a s' :
  steps eq m → m s = (Ok a, s') → s' = s.
Proof. intros Hm Hr. by rewrite (steps_run _ _ _ _ _ Hm Hr). Qed.

(** The books balance and the intent [iid] is there and has not succeeded. *)
Record open_books (iid : UUID) (s : Session) : Prop := {
  ob_books : books (ses_db s);
  ob_open : ∀ i, i ∈ intents (ses_db s) → intent_id i = iid → intent_status i ≠ PaySucceeded;
  ob_there : ∃ i, i ∈ intents (ses_db s) ∧ intent_id i = iid;
}.

(** A change to other attributes of the intent. *)
Definition same_terms (f : PaymentIntent → PaymentIntent) : Prop :=
  ∀ i, same_claim i (f i) ∧ intent_status (f i) = intent_status i.

Lemma update_intent_open iid f s u s' :
  same_terms f → open_books iid s → update_intent iid f s = (Ok u, s') → open_books iid s'.
Proof.
  intros Hf [Hb Ho (x & Hx & Hxid)] Hr. apply write_inv in Hr as [_ ->]. split; cbn.
  - apply books_intent; [|done]. intros i _ _. apply Hf.
  - intros j (i & Hi & ->)%elem_of_update_where Hid. destruct (Hf i) as [(Hk & _) Hst].
    case_bool_decide; [rewrite Hst|]; by apply (Ho i).
  - eexists. split; [apply elem_of_update_where; by exists x|].
    destruct (Hf x) as [(Hk & _) _]. by case_bool_decide; [rewrite Hk|].
Qed.

Lemma intent_transition_open i st s u s' :
  st ≠ PaySucceeded → open_books (intent_id i) s → intent_transition_to i st s = (Ok u, s') →
  open_books (intent_id i) s'.
Proof.
  intros Hst [Hb Ho (x & Hx & Hxid)] [_ ->]%intent_transition_effect. split; cbn.
  - apply books_intent; [|done]. intros j Hj Hid. split_and!; try done. cbn.
    split; [done|]. intros Hok. by destruct (Ho j).
  - intros j (k & Hk & ->)%elem_of_update_where Hid. case_bool_decide as Hc; [done|by apply Ho].
  - eexists. split; [apply elem_of_update_where; by exists x|]. by case_bool_decide.
Qed.

Lemma open_books_same iid s s' : same_books s s' → open_books iid s → open_books iid s'.
Proof. intros Hs [Hb Ho Hx]. split; [by eapply books_same|by destruct Hs as (-> & _)..]. Qed.

Lemma flush_intent_reads i : steps eq (flush_intent i).
Proof. unfold flush_intent, live_intent, to_varchar_opt. steps_walk. Qed.

Lemma insert_intent_ok f s i s' :
  insert_intent f s = (Ok i, s') →
  (∃ a, i = (f (env_uuid4 (ses_draws s))) <| intent_amount := a |> ∧ numeric 14 2 a = Some a)
  ∧ (∀ j, j ∈ intents (ses_db s) → intent_id j ≠ intent_id i)
  ∧ ses_db s' = (ses_db s) <| intents ::= λ t, t ++ [i] |>.
Proof.
  unfold insert_intent. intros Hr. db_inv. cbn [ses_db] in *. split_and!; [|  |done].
  - eexists. split; [done|]. by eapply numeric_narrow.
  - intros j Hj Heq.
    match goal with Hg : false = existsb ?p ?l |- _ =>
      assert (existsb p l = true); [|congruence]; apply existsb_exists; exists j end.
    split; [by apply list_elem_of_In|]. unfold intent_conflict. by rewrite bool_decide_eq_true_2.
Qed.

Lemma store_attributes_open i l s u s' :
  open_books (intent_id i) s → _store_provider_verification_attributes i l s = (Ok u, s') →
  open_books (intent_id i) s'.
Proof.
  intros Ho Hr. unfold _store_provider_verification_attributes in Hr. bind_value Hr n Hn.
  destruct (_ =? 0)%nat; [by apply ret_inv in Hr as [_ ->]|].
  by eapply update_intent_open; [| |exact Hr].
Qed.

Lemma mark_ambiguous_open i s u s' :
  open_books (intent_id i) s → _mark_provider_creation_ambiguous i s = (Ok u, s') →
  open_books (intent_id i) s'.
Proof.
  intros Ho Hr. unfold _mark_provider_creation_ambiguous in Hr.
  apply bind_inv_ok in Hr as (u1 & s1 & H1 & Hr).
  assert (open_books (intent_id i) s1) as Ho1.
  { destruct (_ != _); [by eapply intent_transition_open; [| |exact H1]|].
    by apply ret_inv in H1 as [_ ->]. }
  apply bind_inv_ok in Hr as (n & s2 & Hn & Hr). apply gets_inv in Hn as [_ ->].
  by eapply update_intent_open; [| |exact Hr].
Qed.

Lemma apply_create_result_books req i o result s r s' :
  open_books (intent_id i) s → apply_create_result req i o result s = (Ok r, s') →
  books (ses_db s').
Proof.
  intros Ho Hr. unfold apply_create_result in Hr.
  apply bind_inv_ok in Hr as (u1 & s1 & H1 & Hr).
  eapply update_intent_open in H1; [|by intros x|exact Ho]. bind_value Hr url Hurl.
  apply bind_inv_ok in Hr as (u2 & s2 & H2 & Hr).
  eapply update_intent_open in H2; [|by intros x|exact H1].
  apply bind_inv_ok in Hr as (u3 & s3 & H3%store_attributes_open & Hr); [|done].
  apply bind_inv_ok in Hr as (u4 & s4 & H4 & Hr).
  assert (books (ses_db s4)) as Hb4.
  { case_bool_decide as Hst.
    - apply bind_inv_ok in H4 as (x & s5 & Hs & [_ ->]%ret_inv).
      apply settle_payment_intent_spec in Hs as (j & _ & _ & _ & [Hset _ _ _]); [|apply H3].
      by destruct Hset.
    - destruct (_ != _); [|apply ret_inv in H4 as [_ ->]; apply H3].
      by apply intent_transition_open in H4 as [? _]. }
  bind_query Hr. apply bind_inv_ok in Hr as (u5 & s5 & H5 & Hr).
  apply (reads_books _ _ _ _ (flush_intent_reads i)) in Hr as ->.
  eapply books_same; [|exact Hb4]. eapply (steps_run same_books); [|exact H5].
  pose proof same_books_order. steps_walk.
Qed.

(** A freshly inserted intent. *)
Lemma insert_intent_open f s i s' :
  books (ses_db s) → (∀ u, intent_status (f u) = PayCreated) →
  insert_intent f s = (Ok i, s') → open_books (intent_id i) s'.
Proof.
  intros Hb Hf ((a & Hi & Ham) & Hnew & Hdb)%insert_intent_ok.
  assert (intent_status i = PayCreated) as Hst by (by rewrite Hi; cbn; rewrite Hf). split.
  - rewrite Hdb. apply books_new_intent; [done|by rewrite Hi|by rewrite Hst|done].
  - rewrite Hdb. cbn. intros j [Hj|Hj]%elem_of_app Hid; [by destruct (Hnew j)|].
    apply list_elem_of_singleton in Hj as ->. by rewrite Hst.
  - exists i. rewrite Hdb. split; [apply elem_of_app; right; left|done].
Qed.

(** Asking a gateway for a payment changes no row. *)
Lemma create_call_same g t n r s (answer : option PaymentCreateResult) s' :
  catch (x ← call_create_payment g t n r; mret (Some x))
    (λ e, match e with
          | TimeoutError | PaymentProviderTransportError => mret None
          | _ => mthrow e
          end) s = (Ok answer, s') → same_books s s'.
Proof.
  intros Hr. eapply (steps_run same_books); [|exact Hr]. unfold call_create_payment.
  steps_walk; by intros s1.
Qed.

Lemma create_books req s i s' :
  books (ses_db s) → create_payment_intent req s = (Ok i, s') → books (ses_db s').
Proof.
  intros Hb Hr. unfold create_payment_intent in Hr. cbv zeta in Hr. bind_guard Hr Hkey.
  bind_query Hr. bind_some Hr o Ho. bind_guard Hr Ht. bind_guard Hr Hst. bind_guard Hr Hu.
  bind_query Hr. apply bind_inv_ok in Hr as ([x|] & s0 & Hx & Hr).
  { apply one_or_none_some in Hx as [_ ->]. bind_guard Hr Hg1. bind_guard Hr Hg2. by apply ret_inv in Hr as [_ ->]. }
  apply one_or_none_none in Hx as [Hx ->]. bind_write Hr.
  apply bind_inv_ok in Hr as (ins & s1 & Hins & Hr).
  apply except_inserted in Hins as [(x & -> & Hins)|(s2 & Hd2 & Hins)].
  2: { exfalso. bind_query Hins. rewrite Hd2 in Hins. cbn in Hins.
       rewrite serial_race, Hx in Hins. by vm_compute in Hins. }
  apply insert_intent_open in Hins as Hob; [|cbn; by rewrite serial_race|done].
  apply bind_inv_ok in Hr as (g & s2 & Hg & Hr).
  apply (reads_books _ _ _ _ (get_provider_reads _ _)) in Hg as ->.
  apply bind_inv_ok in Hr as (answer & s2 & Hans & Hr).
  apply create_call_same in Hans as Hsb.
  apply (open_books_same _ _ _ Hsb) in Hob. destruct answer as [result|].
  { by eapply apply_create_result_books. }
  apply bind_inv_ok in Hr as (u & s3 & Hm3%mark_ambiguous_open & Hr); [|done].
  apply bind_inv_ok in Hr as (u4 & s4 & Hs4 & Hr).
  apply (reads_books _ _ _ _ (flush_intent_reads x)) in Hr as ->.
  eapply books_same; [|apply Hm3]. eapply (steps_run same_books); [|exact Hs4].
  pose proof same_books_order. steps_walk.
Qed.

Lemma live_intent_open i s row s' :
  open_books (intent_id i) s → live_intent i s = (Ok row, s') →
  s' = s ∧ row ∈ intents (ses_db s) ∧ intent_id row = intent_id i.
Proof.
  intros [_ _ (x & Hx & Hid)] Hr. apply query_inv in Hr as [Hr ->]. split; [done|].
  destruct (get_row (intent_id i) (intents (ses_db s))) as [y|] eqn:Hg.
  - cbn in Hr. injection Hr as ->. by apply get_row_Some in Hg.
  - rewrite get_row_None in Hg. by destruct (Hg x).
Qed.

Lemma apply_topup_result_books i result s r s' :
  open_books (intent_id i) s → apply_topup_result i result s = (Ok r, s') → books (ses_db s').
Proof.
  intros Ho Hr. unfold apply_topup_result in Hr. cbv zeta in Hr.
  apply bind_inv_ok in Hr as (u1 & s1 & H1 & Hr).
  eapply update_intent_open in H1; [|by intros x|exact Ho]. bind_value Hr url Hurl.
  apply bind_inv_ok in Hr as (u2 & s2 & H2 & Hr).
  eapply update_intent_open in H2; [|by intros x|exact H1].
  apply bind_inv_ok in Hr as (u3 & s3 & H3%store_attributes_open & Hr); [|done].
  apply bind_inv_ok in Hr as (u4 & s4 & H4 & Hr).
  assert (open_books (intent_id i) s4) as Hob4.
  { destruct (_ =? 0)%nat; [by apply ret_inv in H4 as [_ ->]|].
    by eapply update_intent_open in H4; [|by intros x|exact H3]. }
  apply bind_inv_ok in Hr as (u5 & s5 & H5 & Hr).
  apply (reads_books _ _ _ _ (flush_intent_reads i)) in Hr as ->. case_bool_decide as Hst.
  - apply bind_inv_ok in H5 as (row & s6 & Hlive & H5).
    apply live_intent_open in Hlive as (-> & Hin & _); [|done].
    apply bind_inv_ok in H5 as (x & s6 & Hs & [_ ->]%ret_inv).
    by apply settle_wallet_topup_spec in Hs as ([_ _ ?] & _); [|apply Hob4|].
  - destruct (_ != _); [|apply ret_inv in H5 as [_ ->]; apply Hob4].
    by apply intent_transition_open in H5 as [? _].
Qed.

Lemma create_topup_books req s i s' :
  books (ses_db s) → create_wallet_topup_intent req s = (Ok i, s') → books (ses_db s').
Proof.
  intros Hb Hr. unfold create_wallet_topup_intent in Hr. cbv zeta in Hr. bind_guard Hr Hkey.
  bind_value Hr cur Hcur. bind_value Hr am Ham. bind_query Hr.
  apply bind_inv_ok in Hr as (oc & s0 & Hoc & Hr). apply of_outcome_ok in Hoc as [_ ->].
  bind_some Hr cfg Hcfg. bind_guard Hr Hen. bind_value Hr u Hpol.
  apply bind_inv_ok in Hr as (n & s0 & Hn & Hr). apply gets_inv in Hn as [_ ->].
  bind_value Hr md Hmd. bind_query Hr. apply bind_inv_ok in Hr as ([x|] & s0 & Hx & Hr).
  { apply one_or_none_some in Hx as [_ ->]. bind_guard Hr Hg. by apply ret_inv in Hr as [_ ->]. }
  apply one_or_none_none in Hx as [Hx ->]. bind_write Hr.
  apply bind_inv_ok in Hr as (ins & s1 & Hins & Hr).
  apply except_inserted in Hins as [(x & -> & Hins)|(s2 & Hd2 & Hins)].
  2: { exfalso. bind_query Hins. rewrite Hd2 in Hins. cbn in Hins.
       rewrite serial_race, Hx in Hins. by vm_compute in Hins. }
  apply insert_intent_open in Hins as Hob; [|cbn; by rewrite serial_race|done].
  apply bind_inv_ok in Hr as (g & s2 & Hg & Hr).
  apply (reads_books _ _ _ _ (get_provider_reads _ _)) in Hg as ->.
  apply bind_inv_ok in Hr as (answer & s2 & Hans & Hr). apply create_call_same in Hans as Hsb.
  apply (open_books_same _ _ _ Hsb) in Hob. destruct answer as [result|].
  { by eapply apply_topup_result_books. }
  apply bind_inv_ok in Hr as (u' & s3 & Hm%mark_ambiguous_open & Hr); [|done].
  apply (reads_books _ _ _ _ (flush_intent_reads x)) in Hr as ->. apply Hm.
Qed.

Lemma stars_books t u payload charge a c s i s' :
  books (ses_db s) → settle_telegram_stars_topup t u payload charge a c s = (Ok i, s') →
  books (ses_db s').
Proof.
  intros Hb Hr. unfold settle_telegram_stars_topup in Hr.
  apply bind_inv_ok in Hr as (x & s0 & Hv & Hr). unfold validate_telegram_stars_checkout in Hv.
  bind_value Hv iid Hiid.
  apply bind_inv_ok in Hv as (y & s2 & (-> & Hx & _)%get_payment_intent_ok & Hv).
  bind_guard Hv Hg1. bind_guard Hv Hg2. bind_guard Hv Hg3. bind_guard Hv Hg4. bind_guard Hv Hg5.
  apply ret_inv in Hv as [[= <-] ->]. bind_guard Hr Hc. bind_guard Hr Hb'.
  apply bind_inv_ok in Hr as (u1 & s1 & Hup & Hr). apply write_inv in Hup as [_ ->].
  set (s1 := s <| ses_db ::= _ |>) in *.
  assert (books (ses_db s1)) as Hb1 by (apply books_intent; [by intros j _ _|done]).
  apply bind_inv_ok in Hr as (row & s2 & Hlive & Hr). apply query_inv in Hlive as [Hlive ->].
  assert (row ∈ intents (ses_db s1)) as Hrow.
  { destruct (get_row (intent_id x) (intents (ses_db s1))) as [z|] eqn:Hz; cbn in Hlive.
    - injection Hlive as ->. by apply get_row_Some in Hz as [? _].
    - exfalso. rewrite get_row_None in Hz. subst s1. cbn in Hz.
      eapply Hz; [apply elem_of_update_where; exists x; split; [exact Hx|reflexivity]|].
      by rewrite bool_decide_eq_true_2. }
  apply bind_inv_ok in Hr as (u2 & s2 & Hvc & Hr).
  assert (s2 = s1) as ->
    by (eapply reads_books; [|exact Hvc]; unfold to_varchar_opt; steps_walk).
  apply bind_inv_ok in Hr as (r & s3 & Hs & [_ ->]%ret_inv).
  by apply settle_wallet_topup_spec in Hs as ([_ _ ?] & _).
Qed.

Lemma cancel_books t iid s i s' :
  books (ses_db s) → cancel_payment_intent t iid s = (Ok i, s') → books (ses_db s').
Proof.
  intros Hb Hr. unfold cancel_payment_intent in Hr.
  apply bind_inv_ok in Hr as (x & s0 & (-> & Hx & _)%get_payment_intent_ok & Hr). bind_guard Hr Hcl.
  apply bind_inv_ok in Hr as (u & s1 & Hs1 & Hr).
  assert (open_books (intent_id x) s) as Hob.
  { split; [done| |by exists x]. intros j Hj Hid Hok.
    assert (j = x) as -> by (eapply NoDup_fmap_inj; [apply (bk_ids _ Hb)|done..]).
    unfold closed_intent in Hcl. by rewrite Hok in Hcl. }
  apply intent_transition_open in Hs1 as [Hb1 _]; [|done|done]. bind_query Hr.
  apply bind_inv_ok in Hr as (u2 & s2 & Hs2 & ->%live_intent_reads).
  eapply books_same; [|exact Hb1]. eapply (steps_run same_books); [|exact Hs2].
  pose proof same_books_order. steps_walk.
Qed.

Lemma refund_books t iid a reason key s tx s' :
  books (ses_db s) → refund_payment t iid a reason key s = (Ok tx, s') → books (ses_db s').
Proof.
  intros Hb Hr. unfold refund_payment in Hr.
  apply bind_inv_ok in Hr as (x & s0 & (-> & Hx & _)%get_payment_intent_ok & Hr).
  bind_guard Hr Hg1. bind_guard Hr Hg2. cbv zeta in Hr. bind_guard Hr Ham.
  apply bind_inv_ok in Hr as (g & s1 & Hgp & Hr).
  apply (reads_books _ _ _ _ (get_provider_reads _ _)) in Hgp as ->. bind_guard Hr Hc1. bind_guard Hr Hc2.
  apply bind_inv_ok in Hr as (res & s1 & Hs1 & Hr).
  assert (same_books s s1) as Hsb1.
  { eapply (steps_run same_books); [|exact Hs1]. unfold call_refund. steps_walk; by intros s2. }
  apply bind_inv_ok in Hr as (p & s2 & Hs2 & Hr).
  pose proof (steps_run _ _ _ _ _ (same_books_payment_tx _ _ _ _ _ _ _) Hs2) as Hsb2.
  apply (books_same _ _ Hsb1), (books_same _ _ Hsb2) in Hb.
  apply bind_inv_ok in Hr as (w & s3 & Hs3 & Hr).
  destruct (owner_wallet_books _ _ _ _ _ _ Hb Hs3) as (Hb3 & _).
  apply bind_inv_ok in Hr as (le & s4 & Hs4 & Hr).
  assert (books (ses_db s4)) as Hb4.
  { apply refund_new in Hs4 as [(wl & _ & Hne)| ->]; [|done].
    eapply books_other_entry; [|exact Hne|exact Hb3]. discriminate. }
  bind_query Hr. apply bind_inv_ok in Hr as (u5 & s5 & Hs5 & [_ ->]%ret_inv).
  eapply books_same; [|exact Hb4]. eapply (steps_run same_books); [|exact Hs5].
  pose proof same_books_order. steps_walk.
Qed.

Lemma handle_payment_books r s u s' :
  books (ses_db s) → handle_payment r s = (Ok u, s') → books (ses_db s').
Proof.
  intros Hb Hr. destruct r; cbn in Hr; apply bind_inv_ok in Hr as (x & s1 & Hr & [_ ->]%ret_inv).
  - by eapply create_books.
  - by eapply create_topup_books.
  - by eapply stars_books.
  - apply settle_payment_intent_spec in Hr as (i & _ & _ & _ & [[_ _ ?] _ _ _]); done.
  - apply process_webhook_spec in Hr as (v & _ & [_ ->|]); done.
  - by eapply cancel_books.
  - by eapply refund_books.
Qed.

End requests.

Section histories.
  Context `{HE : Env} `{!Serial HE} `{Gateways}.

Lemma committed_send m : steps same_committed (send m).
Proof. by intros s. Qed.

Lemma committed_get_provider t name : steps same_committed (get_provider t name).
Proof. intros s. by rewrite <- (get_provider_reads t name s). Qed.

Lemma committed_settle_intent t i a c : steps same_committed (settle_payment_intent t i a c).
Proof.
  pose proof committed_get_or_create. pose proof committed_settle_payment.
  unfold settle_payment_intent, _settle_wallet_topup, get_payment_intent, verify_settlement,
    mark_succeeded, mark_paid, intent_transition_to, order_transition_to, live_intent,
    insert_payment_tx, to_varchar_opt, update_intent. steps_walk.
Qed.

Hint Resolve committed_send committed_get_provider committed_settle_intent : steps.

Lemma committed_create req : steps same_committed (create_payment_intent req).
Proof.
  unfold create_payment_intent, except_integrity, insert_intent, call_create_payment,
    apply_create_result, _mark_provider_creation_ambiguous, _store_provider_verification_attributes,
    intent_transition_to, order_transition_to, flush_intent, live_intent, to_varchar_opt,
    update_intent. steps_walk.
  all: apply committed_nested; steps_walk.
Qed.

Lemma committed_webhook t n p h : steps same_committed (process_webhook t n p h).
Proof.
  unfold process_webhook, verify_delivery, webhook_secret_of, get_payment_secret, except_integrity,
    insert_webhook_event, apply_webhook, verify_settlement, intent_transition_to, mark_processed,
    update_intent. steps_walk.
  all: apply committed_nested; steps_walk.
Qed.

Lemma committed_settle_topup i a c : steps same_committed (_settle_wallet_topup i a c).
Proof.
  pose proof committed_get_or_create. pose proof committed_settle_payment.
  unfold _settle_wallet_topup, verify_settlement, mark_succeeded, intent_transition_to, live_intent,
    insert_payment_tx, to_varchar_opt, update_intent. steps_walk.
Qed.

Lemma committed_topup req : steps same_committed (create_wallet_topup_intent req).
Proof.
  pose proof committed_settle_topup.
  unfold create_wallet_topup_intent, except_integrity, insert_intent, call_create_payment,
    apply_topup_result, _mark_provider_creation_ambiguous, _store_provider_verification_attributes,
    intent_transition_to, flush_intent, live_intent, to_varchar_opt, update_intent. steps_walk.
  all: apply committed_nested; steps_walk.
Qed.

Lemma committed_stars t u p ch a c : steps same_committed (settle_telegram_stars_topup t u p ch a c).
Proof.
  pose proof committed_settle_topup.
  unfold settle_telegram_stars_topup, validate_telegram_stars_checkout, get_payment_intent,
    live_intent, to_varchar_opt, update_intent. steps_walk.
Qed.

Lemma committed_handle r : steps same_committed (handle_payment r).
Proof.
  pose proof committed_create. pose proof committed_webhook.
  pose proof committed_topup. pose proof committed_stars.
  pose proof committed_get_or_create. pose proof committed_refund.
  destruct r; cbn [handle_payment]; [steps_walk..| |];
    unfold cancel_payment_intent, refund_payment, get_payment_intent, call_refund, insert_payment_tx,
      intent_transition_to, order_transition_to, live_intent, to_varchar_opt, update_intent; steps_walk.
Qed.

Lemma run_payments_books rs s :
  persisted s → books (ses_db s) →
  persisted (run_payments rs s) ∧ books (ses_db (run_payments rs s)).
Proof.
  revert s. induction rs as [|r rs IH]; intros s Hp Hb; [done|].
  destruct (in_request_keeps books (handle_payment r) s Hp (committed_handle r) Hb) as [Hp' Hb'];
    [intros u s' Hr; by eapply handle_payment_books|]. by apply IH.
Qed.

End histories.

(** A gateway that takes every payment and confirms it in a webhook whose
    payload is the payment's id. *)
Definition demo_gateway : Gateway := {|
  supports_refunds := true;
  supports_partial_refunds := true;
  supports_safe_refund_retries := true;
  supports_payment_lookup := true;
  supports_creation_recovery := false;
  gw_create_payment _ r :=
    Ok (MkPaymentCreateResult ("pay-" +:+ pcr_idempotency_key r) PayPending
          (Some "https://gateway.example/pay") [] [("Order", "42")]);
  gw_verify_webhook payload _ _ :=
    Ok (MkWebhookVerificationResult true ("evt-" +:+ payload) "payment.succeeded" (Some payload)
          (Some PaySucceeded) (Some (cents 2500)) (Some "USD") [("order", " 42")]);
  gw_refund _ r := Ok (MkPaymentRefundResult ("ref-" +:+ prr_idempotency_key r) true);
  gw_get_payment _ pid := Ok (MkPaymentDetailsResult pid PaySucceeded (cents 2500) "USD" [("order", "42")]);
  gw_recover_payment_creation := None;
  gw_list_recent_star_transactions := None;
  gw_flexible_deposits := None;
|}.

Definition demo_gateways : Gateways := {|
  gw_overrides _ name := if name == "mock" then Some demo_gateway else None;
  gw_cached _ _ := None;
  gw_factories _ := None;
  gw_secret _ := None;
|}.

Definition pay_db : DB :=
  empty_db <| orders := [MkOrder (mk_uuid "order-1") (mk_uuid "t") (mk_uuid "u") "ORD-1" OrderPending
                           (cents 2500) "USD" None None 0] |>
           <| provider_configs := [MkPaymentProviderConfig (mk_uuid "cfg") (mk_uuid "t") "mock" true
                                     "ref" None []] |>.

Definition pay_session : Session := MkSession pay_db pay_db 0 [].

Lemma pay_db_books : books pay_db.
Proof. split; cbn; try constructor; intros x Hx; by apply elem_of_nil in Hx. Qed.

Definition demo_intent_request : IntentRequest :=
  MkIntentRequest (mk_uuid "t") (mk_uuid "u") (mk_uuid "order-1") "Mock" "k1" [] None.

(** [C18] What a webhook does.  When [process_webhook] returns, the delivery was
    authenticated by the tenant's enabled gateway.  If the event had been
    recorded, the stored record is returned and nothing changes.  Otherwise the
    event is recorded as processed, and if it names a payment of the tenant,
    the attributes stored for that intent and every amount and currency the
    gateway reported agree with the intent, and: a success settles it (a credit
    to the owner's wallet unless it had succeeded before, and the order paid
    for becomes [PAID]); a failure, cancellation or expiry closes it, which is
    legal only while it is open; any other news changes nothing. *)
Theorem webhook_effects `{HE : Env} `{Gateways} t name payload headers s e s' :
  Serial HE → books (ses_db s) → process_webhook t name payload headers s = (Ok e, s') →
  ∃ v, verify_delivery t name payload headers s = (Ok v, s) ∧ delivery t (lower name) v s e s'.
Proof. intros HS. apply process_webhook_spec. Qed.

Definition created_session : Session :=
  @run_payments demo_env demo_gateways [ReqCreate demo_intent_request] pay_session.

Definition delivery_demo : outcome exn PaymentWebhookEvent * Session :=
  @process_webhook demo_env demo_gateways (mk_uuid "t") "mock" "pay-k1" [] created_session.

Definition delivered_event : PaymentWebhookEvent :=
  MkPaymentWebhookEvent (mk_uuid "uuid-1") (mk_uuid "t") "mock" "evt-pay-k1" (Some (mk_uuid "uuid-0"))
    "payment.succeeded" true true (Some 5) "#pay-k1".

Lemma webhook_effects_witness :
  delivery_demo.1 = Ok delivered_event
  ∧ map tx_amount (ledger (ses_db delivery_demo.2)) = [cents 2500]
  ∧ ∃ v, @verify_delivery demo_gateways (mk_uuid "t") "mock" "pay-k1" [] created_session
         = (Ok v, created_session)
         ∧ @delivery demo_env (mk_uuid "t") "mock" v created_session delivered_event delivery_demo.2.
Proof.
  split; [vm_compute; reflexivity|]. split; [vm_compute; reflexivity|].
  refine (@webhook_effects demo_env demo_gateways (mk_uuid "t") "mock" "pay-k1" [] created_session
            delivered_event delivery_demo.2 demo_env_serial _ _).
  - refine (proj2 (@run_payments_books demo_env demo_env_serial demo_gateways
              [ReqCreate demo_intent_request] pay_session eq_refl pay_db_books)).
  - vm_compute. reflexivity.
Defined.

(** ** Refunds *)

(** What was sent stays sent. *)
Definition same_sent (s s' : Session) : Prop := ses_sent s' = ses_sent s.

Global Instance same_sent_preorder : PreOrder same_sent.
Proof. split; unfold same_sent; [by intros x | by intros x y z -> ->]. Qed.

Section refunds.
  Context `{HE : Env} `{!Serial HE} `{Gateways}.

Lemma sent_write f : steps same_sent (write f).
Proof. by intros s. Qed.

Lemma sent_uuid4 : steps same_sent uuid4.
Proof. by intros s. Qed.

Lemma sent_await : steps same_sent await_others.
Proof. by intros s. Qed.

Lemma sent_nested {A} (m : M A) : steps same_sent m → steps same_sent (begin_nested m).
Proof. intros Hm s. specialize (Hm s). unfold begin_nested. by destruct (m s) as [[a|e] s']. Qed.

Hint Resolve sent_write sent_uuid4 sent_await sent_nested : steps.

Lemma sent_wait n read : steps same_sent (wait_for_entry n read).
Proof. induction n as [|n IH]; cbn [wait_for_entry]; steps_walk. Qed.

Hint Resolve sent_wait : steps.

Lemma sent_refund w a i t desc : steps same_sent (refund w a i t desc).
Proof.
  unfold refund, lock_wallet, return_existing. steps_walk.
  all: apply sent_nested; unfold flush_entry; steps_walk.
Qed.

Lemma sent_wallet t u c : steps same_sent (get_or_create_wallet t u c).
Proof.
  unfold get_or_create_wallet. steps_walk. all: apply sent_nested; unfold insert_wallet; steps_walk.
Qed.

(** The refund of another amount than the one on record is refused. *)
Lemma refund_other_amount w a i t desc s tx s' x :
  (i != "") && (t != "") = true →
  find_entry (wallet_id w) REFUND t i (ses_db s) = Some x → tx_amount x ≠ a →
  refund w a (Some i) (Some t) desc s ≠ (Ok tx, s').
Proof.
  intros Hit Hf Hne Hr. unfold refund in Hr. bind_guard Hr Hpos.
  apply bind_inv_ok in Hr as (wl & s1 & Hl & Hr). apply lock_wallet_ok in Hl as (-> & _ & Hwid & _).
  cbv zeta in Hr. apply bind_inv_ok in Hr as (o & s1 & Hq & Hr). apply query_inv in Hq as [Hq ->].
  rewrite (find_refund_some _ _ _ Hit), Hwid, Hf in Hq. simplify_eq.
  by apply return_existing_ok in Hr as (_ & ? & _).
Qed.

End refunds.

(** The request [refund_payment] sends for an amount. *)
Definition refund_request `{Env} (i : PaymentIntent) (a : dec) (reason key : option string)
    : PaymentRefundRequest :=
  MkPaymentRefundRequest (default "" (intent_provider_payment_id i)) a (intent_currency i)
    (if truthy key then default "" key
     else "refund_" +:+ uuid_str (intent_id i) +:+ "_" +:+ env_decimal_str a) reason [].

(** A second partial refund is paid and not booked.  Suppose an order
    payment has been refunded in part, and another part, of a different amount,
    is refunded through a gateway that supports partial refunds.  Then the
    gateway is asked to pay the second part and agrees, but the request raises
    and is rolled back: the ledger allows one refund per intent, and the check
    comes after the call. *)
Theorem second_partial_refund_unbooked `{HE : Env} `{Gateways} t i g a reason key s w x res :
  Serial HE → persisted s →
  get_payment_intent t (intent_id i) s = (Ok i, s) →
  intent_purpose i = ORDER_PAYMENT → intent_status i = PaySucceeded → uuid_str (intent_id i) ≠ "" →
  get_provider t (intent_provider i) s = (Ok g, s) →
  supports_refunds g = true → supports_partial_refunds g = true → 0 < a ≤ intent_amount i →
  wallet_by_key t (intent_user_id i) (intent_currency i) (ses_db s) = [w] →
  find_entry (wallet_id w) REFUND CANONICAL_PAYMENT_REFUND_TYPE (uuid_str (intent_id i)) (ses_db s)
    = Some x → tx_amount x ≠ a →
  gw_refund g (ses_sent s) (refund_request i a reason key) = Ok res →
  ∃ e s', in_request (refund_payment t (intent_id i) (Some a) reason key) s = (Raise e, s')
    ∧ ses_db s' = ses_db s
    ∧ ses_sent s' = ses_sent s
                    ++ [SentRefund t (lower (intent_provider i)) (refund_request i a reason key)].
Proof.
  intros HS Hp Hget Hpur Hst Hid Hg Hsr Hspr Ham Hw Hf Hne Hres.
  set (req := refund_request i a reason key) in *.
  assert (∃ e s', refund_payment t (intent_id i) (Some a) reason key s = (Raise e, s')
    ∧ ses_sent s' = ses_sent s ++ [SentRefund t (lower (intent_provider i)) req]) as (e & s' & Hr & Hs).
  { unfold refund_payment. rewrite (bind_ok _ _ _ _ _ Hget), Hpur, Hst. cbv zeta.
    change (default (intent_amount i) (Some a)) with a.
    unfold raise_if. rewrite (bool_decide_eq_false_2 (ORDER_PAYMENT = WALLET_TOPUP)) by done.
    rewrite (bool_decide_eq_true_2 (PaySucceeded = PaySucceeded)) by done. cbn [negb].
    rewrite (proj2 (Z.leb_gt a 0)), (proj2 (Z.ltb_ge (intent_amount i) a)) by lia. cbn [orb].
    do 3 (erewrite bind_ok by reflexivity). rewrite (bind_ok _ _ _ _ _ Hg), Hsr, Hspr. cbn [negb andb].
    do 2 (erewrite bind_ok by reflexivity).
    change (MkPaymentRefundRequest _ _ _ _ _ _) with req.
    set (s1 := s <| ses_sent ::= λ l, l ++ [SentRefund t (lower (intent_provider i)) req] |>).
    assert (call_refund g t (lower (intent_provider i)) req s = (Ok res, s1)) as Hcall
      by (unfold call_refund, mbind, prog_bind, gets; cbv beta iota; by rewrite Hres).
    rewrite (bind_ok _ _ _ _ _ Hcall).
    match goal with |- ∃ e s', ?m s1 = _ ∧ _ =>
      assert (steps same_sent m) as Hsent;
      [|destruct (m s1) as [[r|e] s2] eqn:Hm; [exfalso|exists e, s2; split; [done|]];
        [|by rewrite (steps_run _ _ _ _ _ Hsent Hm)]] end.
    { pose proof sent_refund. pose proof sent_wallet. pose proof sent_write. pose proof sent_uuid4.
      unfold insert_payment_tx, to_varchar_opt, order_transition_to. steps_walk. }
    apply bind_inv_ok in Hm as (p & s3 & Hins & Hm). apply bind_inv_ok in Hm as (w' & s4 & Hgw & Hm).
    apply bind_inv_ok in Hm as (le & s5 & Href & _).
    assert (wallets (ses_db s3) = wallets (ses_db s) ∧ ledger (ses_db s3) = ledger (ses_db s)) as [Hw3 Hl3].
    { pose proof (steps_run _ _ _ _ _ (same_books_payment_tx _ _ _ _ _ _ _) Hins) as (_ & ? & ?). done. }
    assert (w' = w ∧ s4 = s3) as [-> ->].
    { eapply get_or_create_wallet_found; [|exact Hgw]. unfold wallet_by_key in *. rewrite Hw3, Hw. left. }
    eapply refund_other_amount; [|..|exact Href]; [|unfold find_entry in *; by rewrite Hl3|done].
    by rewrite (bool_decide_eq_false_2 _ Hid). }
  assert (ses_committed s' = ses_committed s) as Hc.
  { pose proof (committed_handle (ReqRefund t (intent_id i) (Some a) reason key) s) as Hc.
    cbn in Hc. unfold mbind, prog_bind in Hc. rewrite Hr in Hc. exact Hc. }
  exists e, (s' <| ses_db := ses_committed s' |>). split_and!; [|by cbn; rewrite Hc, Hp|done].
  unfold in_request, catch, mbind, prog_bind. by rewrite Hr.
Qed.

Definition part_refunded : Session :=
  @run_payments demo_env demo_gateways
    [ ReqCreate demo_intent_request; ReqWebhook (mk_uuid "t") "mock" "pay-k1" [];
      ReqRefund (mk_uuid "t") (mk_uuid "uuid-0") (Some (cents 1000)) None None ] pay_session.

Definition part_refunded_intent : PaymentIntent :=
  MkPaymentIntent (mk_uuid "uuid-0") (mk_uuid "t") (Some (mk_uuid "order-1")) ORDER_PAYMENT (mk_uuid "u")
    None "mock" (Some "pay-k1") (Some "https://gateway.example/pay") "USD" (cents 2500) PaySucceeded "k1"
    [("_provider_verification", JObj [("order", JStr "42")])].

Definition part_refunded_wallet : Wallet :=
  MkWallet (mk_uuid "uuid-2") (mk_uuid "t") (mk_uuid "u") "USD" (cents 3500) true.

Definition first_refund : LedgerTransaction :=
  MkLedgerTransaction (mk_uuid "uuid-6") (mk_uuid "t") (mk_uuid "uuid-2") REFUND (cents 1000)
    (cents 2500) (cents 3500) (Some "uuid-0") (Some "PAYMENT_REFUND")
    (Some "Payment refund for intent uuid-0") 6.

Lemma second_partial_refund_unbooked_witness :
  ∃ e s', @in_request _ (@refund_payment demo_env demo_gateways (mk_uuid "t") (mk_uuid "uuid-0")
            (Some (cents 500)) None None) part_refunded = (Raise e, s')
    ∧ ses_db s' = ses_db part_refunded
    ∧ ses_sent s' = ses_sent part_refunded
        ++ [SentRefund (mk_uuid "t") "mock" (@refund_request demo_env part_refunded_intent (cents 500) None None)].
Proof.
  refine (@second_partial_refund_unbooked demo_env demo_gateways (mk_uuid "t") part_refunded_intent
    demo_gateway (cents 500) None None part_refunded part_refunded_wallet first_refund
    (MkPaymentRefundResult "ref-refund_uuid-0_5000000" true) demo_env_serial
    _ _ eq_refl eq_refl _ _ eq_refl eq_refl _ _ _ _ _); vm_compute; try reflexivity; try discriminate.
  split; [reflexivity|discriminate].
Defined.
