(* ===== verification/Reversals.v ===== *)
(** * Reversing wallet top-ups

    The top-up reversal saga: the operations of
    [packages/payments/payment_service.py] on [WalletTopUpReversal], the worker
    that asks the gateway for the refund ([packages/payments/reversal_worker.py])
    and the case an operator sees when the saga is stuck
    ([packages/payments/resolution.py], [ensure_case_for_reversal]). *)

From Stdlib Require Import ZArith Lia Ascii String.
From stdpp Require Import base tactics list option strings numbers pretty.
From S2P Require Import Prelude Tables Text Money Exceptions StateMachines Models Ledger Payments.

Local Open Scope Z_scope.

(** ** Rows *)

(** The primary key, [uq_topup_reversal_tenant_intent] and
    [uq_topup_reversal_tenant_idempotency]. *)
Definition reversal_conflict (a b : WalletTopUpReversal) : bool :=
  (rev_id a == rev_id b)
  || ((rev_tenant_id a == rev_tenant_id b)
      && ((rev_payment_intent_id a == rev_payment_intent_id b)
          || (rev_idempotency_key a == rev_idempotency_key b))).

Definition case_conflict (a b : FinancialResolutionCase) : bool :=
  (frc_id a == frc_id b)
  || ((frc_tenant_id a == frc_tenant_id b) && (frc_source_key a == frc_source_key b)).

Definition json_of_text (o : option string) : json :=
  match o with Some s => JStr s | None => JNull end.

Section rows.
  Context `{Env}.

Definition update_reversal (i : UUID) (f : WalletTopUpReversal → WalletTopUpReversal) : M unit :=
  write (λ d, d <| reversals ::= update_row i f |>).

Definition live_reversal (r : WalletTopUpReversal) : M WalletTopUpReversal :=
  query (λ d, default r (get_row (rev_id r) (reversals d))).

Definition set_wallet_active (wid : UUID) (b : bool) : M unit :=
  write (λ d, d <| wallets ::= update_row wid (λ w, w <| wallet_is_active := b |>) |>).

Definition insert_reversal (f : UUID → Z → WalletTopUpReversal) : M WalletTopUpReversal :=
  created_at ← now;
  u ← uuid4;
  let r := f u created_at in
  to_varchar 50 (rev_provider r);;
  to_varchar 100 (rev_original_provider_payment_id r);;
  to_varchar_opt 100 (rev_provider_refund_id r);;
  amount ← to_numeric 12 2 (rev_amount r);
  to_varchar 3 (rev_currency r);;
  to_varchar 100 (rev_idempotency_key r);;
  let r := r <| rev_amount := amount |> in
  clash ← query (λ d, existsb (reversal_conflict r) (reversals d));
  raise_if clash IntegrityError;;
  write (λ d, d <| reversals ::= (λ t, t ++ [r]) |>);;
  mret r.

(** The refund id a later flush can refuse. *)
Definition flush_reversal (r : WalletTopUpReversal) : M WalletTopUpReversal :=
  row ← live_reversal r;
  to_varchar_opt 100 (rev_provider_refund_id row);;
  mret row.

End rows.

(** ** Operator cases *)

Section cases.
  Context `{Env}.

Definition _source_key_for_reversal (rid : UUID) : string := "reversal:" +:+ uuid_str rid.

Definition reversal_case_type (r : WalletTopUpReversal) : string :=
  if truthy (rev_last_error_code r) then default "" (rev_last_error_code r)
  else "TOPUP_REVERSAL_MANUAL_REVIEW".

Definition reversal_case_metadata (r : WalletTopUpReversal) : dict :=
  [ ("origin", default (JStr "MERCHANT_REQUEST") (dict_get "origin" (rev_metadata_json r)));
    ("last_error_code", json_of_text (rev_last_error_code r));
    ("last_error_detail", json_of_text (rev_last_error_detail r)) ].

Definition case_severity (wallet : option Wallet) : string :=
  match wallet with
  | Some w => if wallet_is_active w then "HIGH" else "CRITICAL"
  | None => "HIGH"
  end.

Definition update_frc (i : UUID) (f : FinancialResolutionCase → FinancialResolutionCase) : M unit :=
  write (λ d, d <| resolution_cases ::= update_row i f |>).

Definition insert_frc (f : UUID → FinancialResolutionCase) : M FinancialResolutionCase :=
  u ← uuid4;
  let c := f u in
  to_varchar 160 (frc_source_key c);;
  to_varchar 100 (frc_case_type c);;
  clash ← query (λ d, existsb (case_conflict c) (resolution_cases d));
  raise_if clash IntegrityError;;
  write (λ d, d <| resolution_cases ::= (λ t, t ++ [c]) |>);;
  mret c.

Definition cases_by_source (tenant_id : UUID) (key : string) (d : DB) : list FinancialResolutionCase :=
  select (λ c, (frc_tenant_id c == tenant_id) && (frc_source_key c == key)) (resolution_cases d).

(** What the refresh of an existing case changes, and whether it changed. *)
Definition refreshed_case (r : WalletTopUpReversal) (severity : string)
    (c : FinancialResolutionCase) : FinancialResolutionCase :=
  let changed := (frc_case_type c != reversal_case_type r) || (frc_severity c != severity)
                 || (frc_wallet_id c != Some (rev_wallet_id r))
                 || negb (json_eqb (JObj (frc_metadata_json c)) (JObj (reversal_case_metadata r))) in
  c <| frc_case_type := reversal_case_type r |> <| frc_severity := severity |>
    <| frc_wallet_id := Some (rev_wallet_id r) |>
    <| frc_metadata_json := reversal_case_metadata r |>
    <| frc_version := if changed && (frc_status c != FrcResolved) then frc_version c + 1
                      else frc_version c |>.

Definition ensure_case_for_reversal (r : WalletTopUpReversal) : M (option FinancialResolutionCase) :=
  if rev_status r != RevManualReview then mret None
  else
    let key := _source_key_for_reversal (rev_id r) in
    rows ← query (cases_by_source (rev_tenant_id r) key);
    existing ← one_or_none rows;
    wallet ← query (λ d, get_row (rev_wallet_id r) (wallets d));
    let severity := case_severity wallet in
    match existing with
    | Some c =>
        let c' := refreshed_case r severity c in
        update_frc (frc_id c) (λ _, c');;
        mret (Some c')
    | None =>
        await_others;;
        except_integrity
          (c ← begin_nested (insert_frc (λ u,
                 MkFinancialResolutionCase u (rev_tenant_id r) key (reversal_case_type r) severity
                   FrcOpen (Some (rev_payment_intent_id r)) (Some (rev_wallet_id r))
                   (Some (rev_id r)) None None 1 None None None None (reversal_case_metadata r)));
           mret (Some c))
          (rows ← query (cases_by_source (rev_tenant_id r) key);
           again ← one_or_none rows;
           c ← of_option IntegrityError again;
           mret (Some c))
    end.

End cases.

(** ** The saga *)

Section saga.
  Context `{Env} `{Gateways}.

Definition reversal_tx_ref (r : WalletTopUpReversal) : string := "topup_reversal:" +:+ uuid_str (rev_id r).

Definition reversal_txs (intent : PaymentIntent) (r : WalletTopUpReversal) (d : DB)
    : option PaymentTransaction :=
  first (λ t, (ptx_tenant_id t == intent_tenant_id intent)
              && (ptx_payment_intent_id t == intent_id intent)
              && (ptx_transaction_type t == PtRefund)
              && (ptx_reference_id t == Some (reversal_tx_ref r))) (payment_txs d).

Definition tx_mismatch (t : PaymentTransaction) (r : WalletTopUpReversal) : bool :=
  negb (ptx_amount t =? rev_amount r) || (ptx_currency t != rev_currency r).

Definition _record_topup_reversal_payment_transaction (intent : PaymentIntent)
    (r : WalletTopUpReversal) (provider_tx_id origin : string) : M unit :=
  existing ← query (reversal_txs intent r);
  match existing with
  | Some t => raise_if (tx_mismatch t r) PaymentIntegrityError
  | None =>
      await_others;;
      except_integrity
        (begin_nested (insert_payment_tx intent PtRefund (rev_amount r) (rev_currency r)
           (Some provider_tx_id) (Some (reversal_tx_ref r))
           [("purpose", JStr "WALLET_TOPUP"); ("reversal_id", JStr (uuid_str (rev_id r)));
            ("origin", JStr origin)]);; mret tt)
        (again ← query (reversal_txs intent r);
         t ← of_option IntegrityError again;
         raise_if (tx_mismatch t r) PaymentIntegrityError)
  end.

(** The attributes set when a reversal is done. *)
Definition completed_at (now : Z) (r : WalletTopUpReversal) : WalletTopUpReversal :=
  r <| rev_status := RevCompleted |> <| rev_completed_at := Some now |>
    <| rev_last_error_code := None |> <| rev_last_error_detail := None |>.

Definition complete_wallet_topup_reversal_from_provider_event (tenant_id : UUID)
    (r : WalletTopUpReversal) (provider_tx_id : string) (provider_metadata : option dict)
    : M WalletTopUpReversal :=
  raise_if (rev_tenant_id r != tenant_id) TenantAccessViolationError;;
  if (rev_status r == RevCompleted) || (rev_status r == RevManualReview) then mret r
  else
    intent ← get_payment_intent tenant_id (rev_payment_intent_id r);
    raise_if (intent_provider_payment_id intent != Some provider_tx_id) PaymentIntegrityError;;
    found ← query (λ d, get_row (rev_wallet_id r) (wallets d));
    wallet ← of_option PaymentIntegrityError found;
    raise_if (wallet_tenant_id wallet != tenant_id) PaymentIntegrityError;;
    reserve_topup_reversal wallet (rev_amount r) (rev_id r)
      (Some ("Reserve observed top-up refund " +:+ uuid_str (intent_id intent)));;
    n ← now;
    update_reversal (rev_id r) (λ x,
      completed_at n
        (x <| rev_metadata_json ::= (λ md,
                let md := dict_set "provider_observed_outbound" (JBool true) md in
                match provider_metadata with
                | Some o => dict_set "provider_observation" (JObj o) md
                | None => md
                end) |>
           <| rev_provider_refund_id := Some provider_tx_id |>)
        <| rev_next_attempt_at := None |>);;
    _record_topup_reversal_payment_transaction intent r provider_tx_id
      "merchant_request_provider_observed";;
    flush_reversal r.

(** The reversal of an intent. *)
Definition reversals_of_intent (tenant_id iid : UUID) (d : DB) : list WalletTopUpReversal :=
  select (λ r, (rev_tenant_id r == tenant_id) && (rev_payment_intent_id r == iid)) (reversals d).

Definition reversals_by_key (tenant_id : UUID) (key : string) (d : DB) : list WalletTopUpReversal :=
  select (λ r, (rev_tenant_id r == tenant_id) && (rev_idempotency_key r == key)) (reversals d).

(** The wallet a settled top-up was credited to. *)
Definition settled_wallet (tenant_id : UUID) (intent : PaymentIntent) : M Wallet :=
  wallet ← get_or_create_wallet tenant_id (intent_user_id intent) (intent_currency intent);
  entry ← query (settlement_entry (wallet_id wallet) (intent_id intent));
  settlement ← of_option PaymentIntegrityError entry;
  raise_if (negb (tx_amount settlement =? intent_amount intent)) PaymentIntegrityError;;
  mret wallet.

Definition external_key (tenant_id : UUID) (intent : PaymentIntent) (pid : string) : string :=
  "external:" +:+ prefix_of 64 (env_sha256 (uuid_str tenant_id +:+ ":" +:+ intent_provider intent
                                            +:+ ":" +:+ pid +:+ ":external-reversal")).

(** [try: reserve_topup_reversal(...) except InsufficientFundsError] *)
Definition reserve_external (wallet : Wallet) (intent : PaymentIntent) (r : WalletTopUpReversal)
    : M bool :=
  catch
    (reserve_topup_reversal wallet (intent_amount intent) (rev_id r)
       (Some ("External provider reversal for top-up " +:+ uuid_str (intent_id intent)));; mret true)
    (λ e, match e with InsufficientFundsError => mret false | _ => mthrow e end).

(** What follows the insertion of an externally observed reversal. *)
Definition finish_external (intent : PaymentIntent) (wallet : Wallet) (r : WalletTopUpReversal)
    (pid : string) (funded : bool) : M WalletTopUpReversal :=
  if funded then
    n ← now;
    update_reversal (rev_id r) (completed_at n);;
    _record_topup_reversal_payment_transaction intent r pid "external_provider";;
    flush_reversal r
  else
    set_wallet_active (wallet_id wallet) false;;
    update_reversal (rev_id r) (λ x,
      x <| rev_status := RevManualReview |>
        <| rev_last_error_code := Some "EXTERNAL_REVERSAL_INSUFFICIENT_FUNDS" |>
        <| rev_last_error_detail :=
             Some "Provider reversed the top-up after some or all wallet value was spent; wallet frozen pending financial review." |>
        <| rev_next_attempt_at := None |>);;
    flush_reversal r.

(** [try: async with begin_nested(): add(reversal) except IntegrityError]: the
    row inserted ([inl]), or the one a concurrent request inserted ([inr]). *)
Definition insert_or_winner (tenant_id iid : UUID) (f : UUID → Z → WalletTopUpReversal)
    : M (WalletTopUpReversal + WalletTopUpReversal) :=
  await_others;;
  except_integrity
    (r ← begin_nested (insert_reversal f); mret (inl r))
    (rows ← query (reversals_of_intent tenant_id iid);
     again ← one_or_none rows;
     winner ← of_option PaymentIntegrityError again;
     mret (inr winner)).

Definition record_external_wallet_topup_reversal (tenant_id : UUID) (intent : PaymentIntent)
    (provider_metadata : dict) : M WalletTopUpReversal :=
  raise_if (intent_tenant_id intent != tenant_id) TenantAccessViolationError;;
  raise_if (intent_purpose intent != WALLET_TOPUP) PaymentIntegrityError;;
  raise_if (intent_status intent != PaySucceeded) PaymentIntegrityError;;
  raise_if (negb (truthy (intent_provider_payment_id intent))) PaymentIntegrityError;;
  let pid := default "" (intent_provider_payment_id intent) in
  let iid := intent_id intent in
  rows ← query (reversals_of_intent tenant_id iid);
  existing ← one_or_none rows;
  match existing with
  | Some r => complete_wallet_topup_reversal_from_provider_event tenant_id r pid (Some provider_metadata)
  | None =>
      wallet ← settled_wallet tenant_id intent;
      inserted ← insert_or_winner tenant_id iid (λ u created_at,
        MkWalletTopUpReversal u tenant_id iid (intent_user_id intent) (wallet_id wallet)
          (intent_provider intent) pid (Some pid) (intent_amount intent)
          (intent_currency intent) (external_key tenant_id intent pid) RevRequested 0 None None
          None None None
          [("origin", JStr "EXTERNAL_PROVIDER"); ("provider_observation", JObj provider_metadata)]
          created_at);
      match inserted with
      | inr winner =>
          complete_wallet_topup_reversal_from_provider_event tenant_id winner pid
            (Some provider_metadata)
      | inl r =>
          funded ← reserve_external wallet intent r;
          finish_external intent wallet r pid funded
      end
  end.

(** [(reversal.metadata_json or {}).get("origin") == "EXTERNAL_PROVIDER"] *)
Definition external_origin (r : WalletTopUpReversal) : bool :=
  match dict_get "origin" (rev_metadata_json r) with
  | Some (JStr s) => s == "EXTERNAL_PROVIDER"
  | _ => false
  end.

Definition review_event (tenant_id : UUID) (r : WalletTopUpReversal) (d : DB)
    : option PaymentReconciliationEvent :=
  first (λ e, (ev_tenant_id e == tenant_id) && (ev_provider e == rev_provider r)
              && (ev_provider_event_id e == rev_original_provider_payment_id r)
              && ev_requires_review e) (recon_events d).

Definition resolve_external_wallet_topup_reversal (tenant_id rid : UUID) : M WalletTopUpReversal :=
  found ← query (λ d, get_row rid (reversals d));
  r ← of_option PaymentIntentNotFoundError found;
  raise_if (rev_tenant_id r != tenant_id) PaymentIntentNotFoundError;;
  raise_if (negb (external_origin r)) PaymentError;;
  if rev_status r == RevCompleted then mret r
  else
    raise_if (rev_status r != RevManualReview) PaymentError;;
    intent ← get_payment_intent tenant_id (rev_payment_intent_id r);
    found ← query (λ d, get_row (rev_wallet_id r) (wallets d));
    wallet ← of_option PaymentIntegrityError found;
    raise_if (wallet_tenant_id wallet != tenant_id) PaymentIntegrityError;;
    reserve_topup_reversal wallet (rev_amount r) rid
      (Some ("Resolve external provider reversal for top-up " +:+ uuid_str (intent_id intent)));;
    n ← now;
    update_reversal rid (completed_at n);;
    _record_topup_reversal_payment_transaction intent r
      (if truthy (rev_provider_refund_id r) then default "" (rev_provider_refund_id r)
       else rev_original_provider_payment_id r) "external_provider_manual_resolution";;
    others ← query (λ d, select (λ x, (rev_wallet_id x == wallet_id wallet)
                                      && (rev_status x == RevManualReview) && (rev_id x != rid))
                           (reversals d));
    (if (length others =? 0)%nat then set_wallet_active (wallet_id wallet) true else mret tt);;
    event ← query (review_event tenant_id r);
    (match event with
     | Some e =>
         resolved_at ← now;
         write (λ d, d <| recon_events ::= update_row (ev_id e) (λ e,
                  e <| ev_status := EvProcessed |> <| ev_requires_review := false |>
                    <| ev_classification := "EXTERNAL_REVERSAL_RESOLVED" |>
                    <| ev_metadata_json ::= dict_set "resolved_at" (JStr (env_isoformat resolved_at)) |>) |>)
     | None => mret tt
     end);;
    flush_reversal r.

Definition request_wallet_topup_reversal (tenant_id iid : UUID) (key : string)
    (reason : option string) (requested_by : option UUID) : M WalletTopUpReversal :=
  raise_if (key == "") ValueError;;
  intent ← get_payment_intent tenant_id iid;
  raise_if (intent_purpose intent != WALLET_TOPUP) PaymentError;;
  raise_if (intent_status intent != PaySucceeded) PaymentError;;
  let pid := default "" (intent_provider_payment_id intent) in
  raise_if (negb (truthy (intent_provider_payment_id intent)) || String.prefix "stars_invoice:" pid)
    PaymentIntegrityError;;
  rows ← query (reversals_by_key tenant_id key);
  by_key ← one_or_none rows;
  match by_key with
  | Some r =>
      raise_if (rev_payment_intent_id r != iid) PaymentIntegrityError;;
      mret r
  | None =>
      rows ← query (reversals_of_intent tenant_id iid);
      by_intent ← one_or_none rows;
      match by_intent with
      | Some r => mret r
      | None =>
          gateway ← get_provider tenant_id (intent_provider intent);
          raise_if (negb (supports_refunds gateway)) UnsupportedProviderCapabilityError;;
          raise_if (negb (supports_safe_refund_retries gateway)) UnsupportedProviderCapabilityError;;
          wallet ← settled_wallet tenant_id intent;
          inserted ← insert_or_winner tenant_id iid (λ u created_at,
            MkWalletTopUpReversal u tenant_id iid (intent_user_id intent) (wallet_id wallet)
              (intent_provider intent) pid None (intent_amount intent)
              (intent_currency intent) key RevRequested 0 None None None None None
              [("reason", json_of_text reason);
               ("requested_by_user_id", json_of_text (uuid_str <$> requested_by))]
              created_at);
          match inserted with
          | inr winner => mret winner
          | inl r =>
              reserve_topup_reversal wallet (intent_amount intent) (rev_id r)
                (if truthy reason then reason
                 else Some ("Reserve funds for top-up refund " +:+ uuid_str iid));;
              n ← now;
              update_reversal (rev_id r) (λ x,
                x <| rev_status := RevFundsReserved |> <| rev_next_attempt_at := Some n |>);;
              live_reversal r
          end
      end
  end.

Definition reversal_reason (r : WalletTopUpReversal) : option string :=
  match dict_get "reason" (rev_metadata_json r) with Some (JStr s) => Some s | _ => None end.

Definition reversal_refund_request (intent : PaymentIntent) (user : User) (r : WalletTopUpReversal)
    : PaymentRefundRequest :=
  MkPaymentRefundRequest (rev_original_provider_payment_id r) (rev_amount r) (rev_currency r)
    (rev_idempotency_key r) (reversal_reason r)
    [ ("telegram_user_id", match user_telegram_id user with Some n => JInt n | None => JNull end);
      ("payment_intent_id", JStr (uuid_str (intent_id intent)));
      ("reversal_id", JStr (uuid_str (rev_id r))) ].

Definition process_wallet_topup_reversal (tenant_id rid : UUID) : M WalletTopUpReversal :=
  found ← query (λ d, get_row rid (reversals d));
  r ← of_option PaymentIntentNotFoundError found;
  raise_if (rev_tenant_id r != tenant_id) PaymentIntentNotFoundError;;
  if rev_status r == RevCompleted then mret r
  else
    raise_if (rev_status r != RevProcessing) PaymentError;;
    intent ← get_payment_intent tenant_id (rev_payment_intent_id r);
    found ← query (λ d, get_row (rev_user_id r) (users d));
    user ← of_option PaymentIntegrityError found;
    gateway ← get_provider tenant_id (rev_provider r);
    result ← call_refund gateway tenant_id (lower (rev_provider r))
               (reversal_refund_request intent user r);
    raise_if (negb (prres_is_success result)) PaymentProviderError;;
    n ← now;
    update_reversal rid (λ x,
      completed_at n (x <| rev_provider_refund_id := Some (prres_provider_refund_id result) |>)
        <| rev_next_attempt_at := None |>);;
    _record_topup_reversal_payment_transaction intent r (prres_provider_refund_id result)
      "merchant_request";;
    flush_reversal r.

(** ** The worker *)

Definition claimable (now : Z) (r : WalletTopUpReversal) : bool :=
  ((rev_status r == RevFundsReserved) || (rev_status r == RevReconciliationRequired))
  && match rev_next_attempt_at r with None => true | Some t => t <=? now end.

(** The row a claim takes. *)
Definition claims (rid : UUID) (now : Z) (r : WalletTopUpReversal) : bool :=
  (rev_id r == rid) && claimable now r.

Definition claim_reversal (rid : UUID) : M bool :=
  n ← now;
  rows ← query (λ d, rowcount (claims rid n) (reversals d));
  write (λ d, d <| reversals ::= update_where (claims rid n) (λ r,
           r <| rev_status := RevProcessing |> <| rev_attempts ::= Z.succ |>
             <| rev_last_attempt_at := Some n |> <| rev_next_attempt_at := None |>) |>);;
  commit;;
  mret (0 <? rows)%nat.

Definition recover_processing : M nat :=
  n ← now;
  let stuck r := rev_status r == RevProcessing in
  rows ← query (λ d, rowcount stuck (reversals d));
  write (λ d, d <| reversals ::= update_where stuck (λ r,
           r <| rev_status := RevReconciliationRequired |> <| rev_next_attempt_at := Some n |>
             <| rev_last_error_code := Some "WORKER_RECOVERY" |>
             <| rev_last_error_detail := Some "Recovered an interrupted provider refund attempt." |>) |>);;
  commit;;
  mret rows.

(** [min(max_backoff, 2 ** max(0, min(attempts, 12)))] *)
Definition backoff (max_backoff attempts : Z) : Z := Z.min max_backoff (2 ^ Z.max 0 (Z.min attempts 12)).

Definition _mark_retry (max_backoff : Z) (rid : UUID) (error_code : string) : M unit :=
  found ← query (λ d, get_row rid (reversals d));
  match found with
  | Some r =>
      if rev_status r == RevCompleted then mret tt
      else
        n ← now;
        update_reversal rid (λ x,
          x <| rev_status := RevReconciliationRequired |>
            <| rev_next_attempt_at := Some (n + seconds (backoff max_backoff (rev_attempts r))) |>
            <| rev_last_error_code := Some (prefix_of 100 error_code) |>
            <| rev_last_error_detail :=
                 Some "Provider refund outcome is uncertain; safe retry scheduled." |>);;
        commit
  | None => mret tt
  end.

Definition _mark_manual_review (rid : UUID) (error_code detail : string) : M unit :=
  found ← query (λ d, get_row rid (reversals d));
  match found with
  | Some r =>
      if rev_status r == RevCompleted then mret tt
      else
        update_reversal rid (λ x,
          x <| rev_status := RevManualReview |> <| rev_next_attempt_at := None |>
            <| rev_last_error_code := Some (prefix_of 100 error_code) |>
            <| rev_last_error_detail := Some (prefix_of 255 detail) |>);;
        row ← live_reversal r;
        ensure_case_for_reversal row;;
        commit
  | None => mret tt
  end.

(** The session of an [async with] block: what was not committed is gone. *)
Definition in_session {A} (m : M A) : M A :=
  catch (a ← m; rollback;; mret a) (λ e, rollback;; mthrow e).

Definition _process_claimed (max_backoff : Z) (rid : UUID) : M unit :=
  in_session
    (found ← query (λ d, get_row rid (reversals d));
     match found with
     | None => mret tt
     | Some r =>
         catch (process_wallet_topup_reversal (rev_tenant_id r) rid;; commit)
           (λ e,
              rollback;;
              if is_payment_provider_error e || (e == TimeoutError)
              then in_session (_mark_retry max_backoff rid (exn_name e))
              else if is_payment_error e || (e == ValueError)
              then in_session (_mark_manual_review rid (exn_name e) (env_exn_str e))
              else in_session (_mark_retry max_backoff rid (exn_name e)))
     end).

Definition due_reversals (limit : nat) (now : Z) (d : DB) : list UUID :=
  take limit (map rev_id (sort_by (λ a b, rev_created_at a <=? rev_created_at b)
                            (select (claimable now) (reversals d)))).

Fixpoint poll_each (max_backoff : Z) (ids : list UUID) (processed : nat) : M nat :=
  match ids with
  | [] => mret processed
  | rid :: ids =>
      claimed ← in_session (claim_reversal rid);
      if (claimed : bool) then _process_claimed max_backoff rid;; poll_each max_backoff ids (S processed)
      else poll_each max_backoff ids processed
  end.

Definition poll_once (max_backoff : Z) (limit : nat) : M nat :=
  n ← now;
  ids ← query (due_reversals limit n);
  poll_each max_backoff ids 0.

End saga.
