(* ===== verification/ReversalsInv.v ===== *)
(** * Top-up reversals: the abstract saga and the invariant

    The reversal of a wallet top-up, seen from outside, is a small state
    machine ([saga_step]): the owner's funds are held before the gateway is
    asked to refund, and they stay held until somebody has decided.  [saga_of]
    reads that machine's state off the tables, and [saga_inv] ties the
    reversal rows to the ledger: a reversal that holds funds has exactly one
    reservation entry, a debit of its amount from its wallet, and any other
    has none.  The lemmas say which changes of the tables are moves of the
    machine. *)

From Stdlib Require Import ZArith Lia Ascii String.
From stdpp Require Import base tactics list option strings numbers pretty relations.
From S2P Require Import Prelude Tables Text Money Exceptions StateMachines Models Ledger.
From S2P Require Import LedgerInv LedgerSpec DepositsSpec FulfillmentSpec Payments PaymentsInv.
From S2P Require Import Reversals.

Local Open Scope Z_scope.

(** ** The abstract saga *)

Inductive saga :=
  | Idle
  | Held
  | Asked
  | Done
  | Review (held : bool).

Inductive saga_step : saga → saga → Prop :=
  | SagaReserve : saga_step Idle Held
  | SagaAsk : saga_step Held Asked
  | SagaConfirm : saga_step Asked Done
  | SagaUncertain : saga_step Asked Held
  | SagaStuck : saga_step Asked (Review true)
  | SagaObserved a : a ∈ [Idle; Held; Asked] → saga_step a Done
  | SagaUnfunded : saga_step Idle (Review false)
  | SagaResolve : saga_step (Review false) Done.

(** Whether the funds are out of the wallet. *)
Definition saga_holds (a : saga) : bool :=
  match a with
  | Idle => false
  | Held | Asked | Done => true
  | Review held => held
  end.

(** ** Reading the saga off the tables *)

Definition rev_key (r : WalletTopUpReversal) : UUID * UUID :=
  (rev_tenant_id r, rev_payment_intent_id r).

Definition is_reservation (tx : LedgerTransaction) : bool :=
  tx_reference_type tx == Some CANONICAL_TOPUP_REVERSAL_TYPE.

Definition reservation_of (r : WalletTopUpReversal) (tx : LedgerTransaction) : bool :=
  is_reservation tx && (tx_reference_id tx == Some (uuid_str (rev_id r))).

(** Every reservation entry that refers to a reversal, in any wallet. *)
Definition reservations (r : WalletTopUpReversal) (d : DB) : list LedgerTransaction :=
  select (reservation_of r) (ledger d).

Definition row_saga (d : DB) (r : WalletTopUpReversal) : saga :=
  match rev_status r with
  | RevRequested => Idle
  | RevFundsReserved | RevReconciliationRequired => Held
  | RevProcessing => Asked
  | RevCompleted => Done
  | RevManualReview => Review (0 <? length (reservations r d))%nat
  end.

(** The saga of a tenant's payment intent. *)
Definition saga_of (d : DB) (k : UUID * UUID) : saga :=
  match first (λ r, rev_key r == k) (reversals d) with
  | Some r => row_saga d r
  | None => Idle
  end.

(** [tx] takes the amount of the reversal out of its wallet. *)
Record reserves (r : WalletTopUpReversal) (tx : LedgerTransaction) : Prop := {
  rs_type : tx_transaction_type tx = DEBIT;
  rs_reference : tx_reference_type tx = Some CANONICAL_TOPUP_REVERSAL_TYPE
                 ∧ tx_reference_id tx = Some (uuid_str (rev_id r));
  rs_wallet : tx_wallet_id tx = rev_wallet_id r;
  rs_amount : tx_amount tx = rev_amount r;
}.

(** A reversal holds exactly what its saga says. *)
Definition held_exactly (d : DB) (r : WalletTopUpReversal) : Prop :=
  if saga_holds (row_saga d r)
  then ∃ tx, reservations r d = [tx] ∧ reserves r tx
  else reservations r d = [].

Record saga_inv (d : DB) : Prop := {
  si_ids : NoDup (rev_id <$> reversals d);
  si_keys : NoDup (rev_key <$> reversals d);
  si_cents : ∀ r, r ∈ reversals d → numeric 14 2 (rev_amount r) = Some (rev_amount r);
  si_backed : ∀ tx, tx ∈ ledger d → is_reservation tx = true →
    ∃ r, r ∈ reversals d ∧ tx_reference_id tx = Some (uuid_str (rev_id r));
  si_exact : ∀ r, r ∈ reversals d → held_exactly d r;
  si_external : ∀ r, r ∈ reversals d → external_origin r = true →
    row_saga d r ∈ [Idle; Done; Review false];
}.

(** [d'] satisfies the invariant, and every saga got there by legal steps. *)
Definition saga_moves (d d' : DB) : Prop :=
  saga_inv d' ∧ ∀ k, rtc saga_step (saga_of d k) (saga_of d' k).

Lemma saga_moves_refl d : saga_inv d → saga_moves d d.
Proof. by split. Qed.

Lemma saga_moves_trans d1 d2 d3 : saga_moves d1 d2 → saga_moves d2 d3 → saga_moves d1 d3.
Proof. intros [_ H1] [H3 H2]. split; [done|]. intros k. etrans; [apply H1|apply H2]. Qed.

(** ** Consequences of the invariant *)

Lemma reserves_reservation r tx : reserves r tx → reservation_of r tx = true.
Proof.
  intros [_ [H1 H2] _ _]. unfold reservation_of, is_reservation.
  by rewrite andb_true_iff, !bool_decide_eq_true.
Qed.

(** The query [reserve_topup_reversal] makes finds the reservation exactly when
    the saga holds funds. *)
Lemma reservation_found d r :
  saga_inv d → r ∈ reversals d →
  is_some (find_entry (rev_wallet_id r) DEBIT CANONICAL_TOPUP_REVERSAL_TYPE (uuid_str (rev_id r)) d)
  = saga_holds (row_saga d r).
Proof.
  intros Hi Hr. pose proof (si_exact d Hi r Hr) as He. unfold held_exactly in He.
  destruct (find_entry _ _ _ _ d) as [x|] eqn:Hf; cbn; destruct (saga_holds _); try done; exfalso.
  - apply first_Some in Hf as [Hx (_ & _ & H1 & H2)%has_reference_spec].
    assert (x ∈ reservations r d) as Hin.
    { apply elem_of_select. split; [done|]. unfold reservation_of, is_reservation.
      by rewrite andb_true_iff, !bool_decide_eq_true. }
    rewrite He in Hin. by apply elem_of_nil in Hin.
  - destruct He as (tx & Hl & [H1 [H2 H3] H4 H5]).
    assert (tx ∈ reservations r d) as [Hin _]%elem_of_select by (rewrite Hl; left).
    apply first_None in Hf. rewrite select_nil in Hf. specialize (Hf tx Hin).
    assert (has_reference (rev_wallet_id r) DEBIT CANONICAL_TOPUP_REVERSAL_TYPE (uuid_str (rev_id r)) tx
            = true); [by apply has_reference_spec|congruence].
Qed.

Lemma saga_of_row d r : saga_inv d → r ∈ reversals d → saga_of d (rev_key r) = row_saga d r.
Proof.
  intros Hi Hr. unfold saga_of.
  destruct (first_is_Some (λ x, rev_key x == rev_key r) (reversals d) r Hr) as [x Hx];
    [by apply bool_decide_eq_true|].
  rewrite Hx. apply first_Some in Hx as [Hx Hk]. rewrite bool_decide_eq_true in Hk.
  by assert (x = r) as -> by (by eapply NoDup_fmap_inj; [apply (si_keys d Hi)|..]).
Qed.

Lemma rev_id_inj d x y :
  saga_inv d → x ∈ reversals d → y ∈ reversals d → rev_id x = rev_id y → x = y.
Proof. intros Hi. apply NoDup_fmap_inj, (si_ids d Hi). Qed.

Lemma reversal_get d r : saga_inv d → r ∈ reversals d → get_row (rev_id r) (reversals d) = Some r.
Proof.
  intros Hi Hr. destruct (get_row (rev_id r) (reversals d)) as [x|] eqn:Hx.
  - apply get_row_Some in Hx as [Hx Hid]. f_equal. by apply (rev_id_inj d).
  - rewrite get_row_None in Hx. by destruct (Hx r Hr).
Qed.

(** ** Moves *)

(** Who the reversal is about, and how much. *)
Definition same_reversal (r x : WalletTopUpReversal) : Prop :=
  rev_id x = rev_id r ∧ rev_key x = rev_key r ∧ rev_wallet_id x = rev_wallet_id r
  ∧ rev_amount x = rev_amount r ∧ external_origin x = external_origin r.

Lemma reservations_same r x d : same_reversal r x → reservations x d = reservations r d.
Proof. intros (Hid & _). unfold reservations, reservation_of. by rewrite Hid. Qed.

Lemma reserves_same r x tx : same_reversal r x → reserves r tx → reserves x tx.
Proof. intros (Hid & _ & Hw & Ha & _) [? ? ? ?]. split; [done|by rewrite Hid|by rewrite Hw|by rewrite Ha]. Qed.

(** Entries were added that reserve nothing for [x]. *)
Lemma reservations_app x d d' l :
  ledger d' = ledger d ++ l → (∀ tx, tx ∈ l → reservation_of x tx = false) →
  reservations x d' = reservations x d.
Proof.
  intros Hl Hn. unfold reservations. rewrite Hl, select_app.
  by rewrite (proj2 (select_nil (reservation_of x) l) Hn), app_nil_r.
Qed.

Lemma row_saga_same x d d' : reservations x d' = reservations x d → row_saga d' x = row_saga d x.
Proof. intros Hr. unfold row_saga. by rewrite Hr. Qed.

Lemma held_exactly_same x d d' :
  reservations x d' = reservations x d → held_exactly d x → held_exactly d' x.
Proof. intros Hr. unfold held_exactly. by rewrite (row_saga_same _ _ _ Hr), Hr. Qed.

(** Nothing about reversals changed. *)
Lemma saga_frame d d' l :
  reversals d' = reversals d → ledger d' = ledger d ++ l →
  (∀ tx, tx ∈ l → is_reservation tx = false) → saga_inv d → saga_moves d d'.
Proof.
  intros Hr Hl Hn Hi.
  assert (∀ x, reservations x d' = reservations x d) as Hres.
  { intros x. eapply reservations_app; [done|]. intros tx Htx. unfold reservation_of. by rewrite Hn. }
  split; [split; rewrite ?Hr; try apply Hi|].
  - rewrite Hl. intros tx [Htx|Htx]%elem_of_app; [by apply Hi|]. by rewrite Hn.
  - intros r Hin. by apply (held_exactly_same r d), Hi.
  - intros r Hin Hx. rewrite (row_saga_same _ _ _ (Hres r)). by apply Hi.
  - intros k. unfold saga_of. rewrite Hr. destruct (first _ _) as [x|]; [|done].
    by rewrite (row_saga_same _ _ _ (Hres x)).
Qed.

(** A reversal that was not there appears, without funds. *)
Lemma saga_insert d r :
  (∀ x, x ∈ reversals d → reversal_conflict r x = false) →
  rev_status r = RevRequested → numeric 14 2 (rev_amount r) = Some (rev_amount r) →
  saga_inv d → saga_moves d (d <| reversals ::= λ t, t ++ [r] |>).
Proof.
  intros Hnew Hst Ham Hi.
  assert (∀ x, x ∈ reversals d → rev_id x ≠ rev_id r ∧ rev_key x ≠ rev_key r) as Hne.
  { intros x Hx. specialize (Hnew x Hx). unfold reversal_conflict in Hnew.
    apply orb_false_iff in Hnew as [H1 H2]. rewrite bool_decide_eq_false in H1. split; [congruence|].
    unfold rev_key. intros [= Ht Hp]. by rewrite Ht, Hp, !bool_decide_eq_true_2 in H2. }
  assert (reservations r d = []) as Hnone.
  { apply select_nil. intros tx Htx. destruct (reservation_of r tx) eqn:Hr; [exfalso|done].
    apply andb_true_iff in Hr as [Hr1 Hr2]. rewrite bool_decide_eq_true in Hr2.
    destruct (si_backed d Hi tx Htx Hr1) as (x & Hx & Hid). destruct (Hne x Hx) as [Hnid _]. apply Hnid, (inj uuid_str). congruence. }
  split; [split; cbn|].
  - rewrite fmap_app. apply list.NoDup_app. split_and!; [apply Hi| |apply NoDup_singleton].
    intros k (x & -> & Hx)%list_elem_of_fmap Hk%list_elem_of_singleton. by destruct (Hne x Hx).
  - rewrite fmap_app. apply list.NoDup_app. split_and!; [apply Hi| |apply NoDup_singleton].
    intros k (x & -> & Hx)%list_elem_of_fmap Hk%list_elem_of_singleton. by destruct (Hne x Hx).
  - intros x [Hx|Hx]%elem_of_app; [by apply Hi|]. by apply list_elem_of_singleton in Hx as ->.
  - intros tx Htx Hr. destruct (si_backed d Hi tx Htx Hr) as (x & Hx & Hid).
    exists x. split; [apply elem_of_app; by left|done].
  - intros x [Hx|Hx]%elem_of_app; [by apply Hi|]. apply list_elem_of_singleton in Hx as ->.
    unfold held_exactly, row_saga. rewrite Hst. exact Hnone.
  - intros x [Hx|Hx]%elem_of_app; [by apply Hi|]. apply list_elem_of_singleton in Hx as ->.
    unfold row_saga. rewrite Hst. intros _. left.
  - intros k. unfold saga_of. cbn. rewrite first_app. destruct (first _ (reversals d)); [done|].
    unfold first. cbn. destruct (_ == k); cbn; [|done]. unfold row_saga. by rewrite Hst.
Qed.

(** What has to be known of a reversal [x] that became [y]. *)
Record row_moves (d d' : DB) (x y : WalletTopUpReversal) : Prop := {
  rm_same : same_reversal x y;
  rm_exact : held_exactly d' y;
  rm_external : external_origin x = true → row_saga d' y ∈ [Idle; Done; Review false];
  rm_steps : rtc saga_step (row_saga d x) (row_saga d' y);
}.

(** Reversals change one by one, and reservations are entered for some. *)
Lemma saga_map d d' g l :
  saga_inv d → reversals d' = map g (reversals d) → ledger d' = ledger d ++ l →
  (∀ tx, tx ∈ l → ∃ x, x ∈ reversals d ∧ tx_reference_id tx = Some (uuid_str (rev_id x))) →
  (∀ x, x ∈ reversals d → row_moves d d' x (g x)) → saga_moves d d'.
Proof.
  intros Hi Hrev Hl Hnew Hg.
  assert (∀ y, y ∈ reversals d' ↔ ∃ x, x ∈ reversals d ∧ y = g x) as Hin.
  { intros y. rewrite Hrev, list_elem_of_In, List.in_map_iff. setoid_rewrite list_elem_of_In.
    split; intros (x & ? & ?); eauto. }
  assert (∀ {B} (k : WalletTopUpReversal → B),
             (∀ x, x ∈ reversals d → k (g x) = k x) → k <$> reversals d' = k <$> reversals d) as Hmap.
  { intros B k Hk. rewrite Hrev. clear -Hk. induction (reversals d) as [|x t IH]; [done|]. cbn.
    rewrite IH, Hk; [done|left|intros y Hy; apply Hk; by right]. }
  split; [split|].
  - rewrite Hmap; [apply Hi|]. intros x Hx. apply (rm_same _ _ _ _ (Hg x Hx)).
  - rewrite Hmap; [apply Hi|]. intros x Hx. apply (rm_same _ _ _ _ (Hg x Hx)).
  - intros y (x & Hx & ->)%Hin. destruct (rm_same _ _ _ _ (Hg x Hx)) as (_ & _ & _ & -> & _). by apply Hi.
  - intros tx Htx Htr. rewrite Hl in Htx.
    assert (∃ x, x ∈ reversals d ∧ tx_reference_id tx = Some (uuid_str (rev_id x))) as (x & Hx & Hid)
      by (apply elem_of_app in Htx as [Htx|Htx]; [by apply (si_backed d Hi)|by apply Hnew]).
    exists (g x). split; [apply Hin; eauto|]. by destruct (rm_same _ _ _ _ (Hg x Hx)) as (-> & _).
  - intros y (x & Hx & ->)%Hin. apply (Hg x Hx).
  - intros y (x & Hx & ->)%Hin He. apply (Hg x Hx).
    by destruct (rm_same _ _ _ _ (Hg x Hx)) as (_ & _ & _ & _ & <-).
  - intros k. unfold saga_of, first. rewrite Hrev. change (map g) with (update_where (λ _, true) g).
    rewrite select_update_where
      by (intros x Hx _; by destruct (rm_same _ _ _ _ (Hg x Hx)) as (_ & -> & _)).
    destruct (select _ (reversals d)) as [|x t] eqn:Hs; [done|]. cbn. apply (Hg x).
    assert (x ∈ select (λ r, rev_key r == k) (reversals d)) as Hx by (rewrite Hs; left).
    by apply elem_of_select in Hx as [? _].
Qed.

(** A reversal nothing happened to. *)
Lemma row_moves_refl d d' x :
  saga_inv d → x ∈ reversals d → reservations x d' = reservations x d → row_moves d d' x x.
Proof.
  intros Hi Hx Hr. split; [by split|by apply (held_exactly_same x d), Hi| |].
  - rewrite (row_saga_same x d d' Hr). by apply Hi.
  - by rewrite (row_saga_same x d d' Hr).
Qed.

(** One reversal changes, and possibly a reservation is entered for it. *)
Lemma saga_update d d' r f l :
  saga_inv d → r ∈ reversals d →
  reversals d' = update_row (rev_id r) f (reversals d) → ledger d' = ledger d ++ l →
  (∀ tx, tx ∈ l → reservation_of r tx = true) → row_moves d d' r (f r) → saga_moves d d'.
Proof.
  intros Hi Hr Hrev Hl Hres Hrow.
  assert (∀ tx, tx ∈ l → tx_reference_id tx = Some (uuid_str (rev_id r))) as Href.
  { intros tx [_ Htx]%Hres%andb_true_iff. by rewrite bool_decide_eq_true in Htx. }
  apply (saga_map d d' _ l Hi Hrev Hl); [eauto|]. intros x Hx. case_bool_decide as Hid.
  { by rewrite (rev_id_inj d x r). }
  apply row_moves_refl; [done..|]. eapply reservations_app; [done|]. intros tx Htx%Href.
  unfold reservation_of. rewrite Htx, andb_false_iff, bool_decide_eq_false. right.
  intros [= Heq%(inj uuid_str)]. by apply Hid.
Qed.

(** The status changed, the funds did not move. *)
Lemma row_restatus d d' r y :
  saga_inv d → r ∈ reversals d → same_reversal r y → ledger d' = ledger d →
  saga_holds (row_saga d' y) = saga_holds (row_saga d r) →
  (external_origin r = true → row_saga d' y ∈ [Idle; Done; Review false]) →
  saga_step (row_saga d r) (row_saga d' y) → row_moves d d' r y.
Proof.
  intros Hi Hr Hsame Hl Hh Hext Hstep.
  assert (reservations y d' = reservations r d) as Hres.
  { rewrite (reservations_same r y) by done. unfold reservations. by rewrite Hl. }
  split; [done| |done|by apply rtc_once].
  unfold held_exactly. rewrite Hh, Hres. pose proof (si_exact d Hi r Hr) as He. unfold held_exactly in He.
  destruct (saga_holds (row_saga d r)); [|done]. destruct He as (tx & Htx & Hs). exists tx. split; [done|].
  by eapply reserves_same.
Qed.

(** What reserving the funds of a reversal does: an entry, unless they are
    held already. *)
Record reserved (r : WalletTopUpReversal) (s s' : Session) : Prop := {
  rd_reversals : reversals (ses_db s') = reversals (ses_db s);
  rd_entry : ∃ l, ledger (ses_db s') = ledger (ses_db s) ++ l
    ∧ if saga_holds (row_saga (ses_db s) r) then l = [] else ∃ tx, l = [tx] ∧ reserves r tx;
}.

(** The funds are reserved and the status says so. *)
Lemma saga_fund d' r f s s1 :
  saga_inv (ses_db s) → r ∈ reversals (ses_db s) → reserved r s s1 → same_reversal r (f r) →
  reversals d' = update_row (rev_id r) f (reversals (ses_db s)) → ledger d' = ledger (ses_db s1) →
  saga_holds (row_saga d' (f r)) = true →
  (external_origin r = true → row_saga d' (f r) ∈ [Idle; Done; Review false]) →
  saga_step (row_saga (ses_db s) r) (row_saga d' (f r)) → saga_moves (ses_db s) d'.
Proof.
  intros Hi Hr [_ (l & Hl & Hcase)] Hsame Hrev Hl' Hh Hext Hstep. rewrite Hl in Hl'.
  assert (reservations (f r) d' = reservations r (ses_db s) ++ select (reservation_of r) l) as Hres.
  { rewrite (reservations_same r (f r)) by done. unfold reservations. by rewrite Hl', select_app. }
  pose proof (si_exact _ Hi r Hr) as He. unfold held_exactly in He.
  apply (saga_update _ d' r f l Hi Hr Hrev Hl'); [|split; [done| |done|by apply rtc_once]].
  - intros tx Htx. destruct (saga_holds (row_saga (ses_db s) r)); [subst l; by apply elem_of_nil in Htx|].
    destruct Hcase as (y & -> & Hy). apply list_elem_of_singleton in Htx as ->.
    by apply reserves_reservation.
  - unfold held_exactly. rewrite Hh, Hres. destruct (saga_holds (row_saga (ses_db s) r)).
    + destruct He as (tx & -> & Htx). subst l. exists tx. split; [done|]. by eapply reserves_same.
    + destruct Hcase as (tx & -> & Htx). rewrite He. exists tx. cbn.
      rewrite (reserves_reservation r tx Htx). split; [done|]. by eapply reserves_same.
Qed.

(** ** Operations that leave reversals alone *)

Definition same_saga (s s' : Session) : Prop :=
  reversals (ses_db s') = reversals (ses_db s) ∧ ledger (ses_db s') = ledger (ses_db s).

Global Instance same_saga_preorder : PreOrder same_saga.
Proof. split; [by intros s|]. intros x y z (? & ?) (? & ?). split; congruence. Qed.

Lemma saga_same s s' : same_saga s s' → saga_inv (ses_db s) → saga_moves (ses_db s) (ses_db s').
Proof.
  intros [Hr Hl]. apply (saga_frame _ _ []); [done|by rewrite app_nil_r|by intros tx ?%elem_of_nil].
Qed.

Lemma same_saga_db s s' : ses_db s' = ses_db s → same_saga s s'.
Proof. unfold same_saga. by intros ->. Qed.

Section frames.
  Context `{HE : Env} `{!Serial HE}.

Lemma same_saga_write (f : DB → DB) :
  (∀ d, reversals (f d) = reversals d ∧ ledger (f d) = ledger d) → steps same_saga (write f).
Proof. intros Hf s. apply Hf. Qed.

Lemma same_saga_uuid4 : steps same_saga uuid4.
Proof. by intros s. Qed.

Lemma same_saga_await : steps same_saga await_others.
Proof. intros s. apply same_saga_db. cbn. apply serial_race. Qed.

Lemma same_saga_nested {A} (m : M A) : steps same_saga m → steps same_saga (begin_nested m).
Proof. intros Hm s. specialize (Hm s). unfold begin_nested. by destruct (m s) as [[a|e] s']. Qed.

Lemma same_saga_varchar_opt n v : steps same_saga (to_varchar_opt n v).
Proof. unfold to_varchar_opt. steps_walk. Qed.

Hint Resolve same_saga_uuid4 same_saga_await same_saga_nested same_saga_varchar_opt : steps.
Hint Extern 1 (steps same_saga (write _)) => by apply same_saga_write : steps.

Lemma same_saga_payment_tx i ty a c p rid md : steps same_saga (insert_payment_tx i ty a c p rid md).
Proof. unfold insert_payment_tx. steps_walk. Qed.

Hint Resolve same_saga_payment_tx : steps.

Lemma same_saga_record i r p o : steps same_saga (_record_topup_reversal_payment_transaction i r p o).
Proof.
  unfold _record_topup_reversal_payment_transaction, except_integrity. steps_walk.
Qed.

Lemma same_saga_flush r : steps same_saga (flush_reversal r).
Proof. unfold flush_reversal, live_reversal. steps_walk. Qed.

Lemma same_saga_wallet_active w b : steps same_saga (set_wallet_active w b).
Proof. unfold set_wallet_active. steps_walk. Qed.

Lemma same_saga_case r : steps same_saga (ensure_case_for_reversal r).
Proof.
  unfold ensure_case_for_reversal, except_integrity, update_frc, insert_frc. steps_walk.
  all: apply same_saga_nested; steps_walk.
Qed.

Lemma same_saga_wallet t u c : steps same_saga (get_or_create_wallet t u c).
Proof.
  unfold get_or_create_wallet, insert_wallet. steps_walk.
  all: apply same_saga_nested; steps_walk.
Qed.

End frames.

#[export] Hint Resolve same_saga_uuid4 same_saga_await same_saga_nested same_saga_varchar_opt
  same_saga_payment_tx same_saga_record same_saga_flush same_saga_wallet_active same_saga_case
  same_saga_wallet : steps.
#[export] Hint Extern 1 (steps same_saga (write _)) => by apply same_saga_write : steps.
