(* ===== verification/ReversalsSpec.v ===== *)
(** * Top-up reversals: properties

    Every request and every worker step moves the sagas of [ReversalsInv.v] by
    legal steps and keeps the invariant, over any history; the gateway is only
    asked for refunds whose funds are committed out of the wallet; and a due
    reversal whose gateway confirms is completed by the next pass of the
    worker. *)

From Stdlib Require Import ZArith Lia Ascii String.
From stdpp Require Import base tactics list option strings numbers pretty relations.
From S2P Require Import Prelude Tables Text Money Exceptions StateMachines Models Ledger.
From S2P Require Import LedgerInv LedgerSpec DepositsSpec FulfillmentSpec Payments PaymentsInv.
From S2P Require Import TopUps PaymentsSpec Reversals ReversalsInv.

Local Open Scope Z_scope.

(** ** Requests *)

Lemma origin_kept k v o :
  k ≠ "origin" → dict_get "origin" (dict_set k v o) = dict_get "origin" o.
Proof.
  intros Hk. induction o as [|[k' v'] o IH]; cbn; [by rewrite bool_decide_eq_false_2|].
  destruct (decide (k = k')) as [<-|Hne].
  - rewrite bool_decide_eq_true_2 by done. cbn. by rewrite !(bool_decide_eq_false_2 (_ = k)).
  - rewrite bool_decide_eq_false_2 by done. cbn. by rewrite IH.
Qed.

Section requests.
  Context `{HE : Env} `{!Serial HE} `{Gateways}.

Lemma reserve_reserved w amount r desc s tx s' :
  saga_inv (ses_db s) → r ∈ reversals (ses_db s) → wallet_id w = rev_wallet_id r →
  (∀ a, numeric 14 2 amount = Some a → a = rev_amount r) →
  reserve_topup_reversal w amount (rev_id r) desc s = (Ok tx, s') → reserved r s s'.
Proof.
  intros Hi Hin Hw Ham Hr. unfold reserve_topup_reversal in Hr. bind_guard Hr Hpos.
  apply bind_inv_ok in Hr as (wl & s1 & Hl & Hr). apply lock_wallet_ok in Hl as (-> & _ & Hwid & _).
  cbv zeta in Hr. bind_query Hr. rewrite Hwid, Hw in Hr.
  pose proof (reservation_found _ _ Hi Hin) as Hf.
  destruct (find_entry _ _ _ _ (ses_db s)) as [x|] eqn:He; cbn in Hf.
  { apply return_existing_ok in Hr as (_ & _ & ->). split; [done|]. exists [].
    by rewrite app_nil_r, <- Hf. }
  bind_guard Hr Hbal. apply savepoint_new in Hr as [[N1 N2 N3 N4 _ N6]|(e & s1 & Hs1 & Hr)];
    [| |intros []; by steps_walk].
  - split; [by rewrite N6|]. exists [tx]. split; [by rewrite N6|]. rewrite <- Hf. exists tx.
    split; [done|]. split; [done|done|by rewrite N1, Hwid|by apply Ham].
  - exfalso. destruct e; try done. bind_query Hr. by rewrite Hs1, He in Hr.
Qed.

(** The end of every operation that has reserved the funds. *)
Lemma fund_tail {A} r st (g : Z → WalletTopUpReversal → WalletTopUpReversal) (k : M A) s s1 x s' :
  saga_inv (ses_db s) → r ∈ reversals (ses_db s) → reserved r s s1 →
  (∀ n, same_reversal r (g n r) ∧ rev_status (g n r) = st) →
  st = RevCompleted ∧ saga_step (row_saga (ses_db s) r) Done
  ∨ st = RevFundsReserved ∧ saga_step (row_saga (ses_db s) r) Held ∧ external_origin r = false →
  steps same_saga k →
  (n ← now; update_reversal (rev_id r) (g n);; k) s1 = (Ok x, s') →
  saga_moves (ses_db s) (ses_db s').
Proof.
  intros Hi Hin Hres Hg Hst Hk Hr. apply bind_inv_ok in Hr as (n & s2 & Hn & Hr).
  apply gets_inv in Hn as [_ ->]. bind_write Hr. apply (steps_run _ _ _ _ _ Hk) in Hr as [Hrev Hl].
  destruct (Hg n) as [Hsame Hgst]. pose proof (rd_reversals _ _ _ Hres) as Hrr. cbn in Hrev, Hl.
  rewrite Hrr in Hrev.
  assert (row_saga (ses_db s') (g n r) = if st == RevCompleted then Done else Held) as Hrs
    by (unfold row_saga; rewrite Hgst; by destruct Hst as [[-> _]|[-> _]]).
  apply (saga_fund (ses_db s') r (g n) s s1); try done; rewrite Hrs.
  - by case_bool_decide.
  - destruct Hst as [[-> _]|(_ & _ & ->)]; [|done]. intros _. right. left.
  - by destruct Hst as [[-> ?]|(-> & ? & _)].
Qed.

Lemma complete_moves t r pid md s x s' :
  saga_inv (ses_db s) → r ∈ reversals (ses_db s) →
  complete_wallet_topup_reversal_from_provider_event t r pid md s = (Ok x, s') →
  saga_moves (ses_db s) (ses_db s').
Proof.
  intros Hi Hin Hr. unfold complete_wallet_topup_reversal_from_provider_event in Hr.
  bind_guard Hr Ht. destruct (_ || _) eqn:Hdone.
  { apply ret_inv in Hr as [_ ->]. by apply saga_moves_refl. }
  apply bind_inv_ok in Hr as (i & s0 & (-> & _)%get_payment_intent_ok & Hr). bind_guard Hr Hpid.
  bind_query Hr. bind_some Hr w Hw. bind_guard Hr Hwt. apply get_row_Some in Hw as [_ Hw].
  apply bind_inv_ok in Hr as (tx & s1 & Hres & Hr).
  apply reserve_reserved in Hres; [|done..|by intros a; rewrite (si_cents _ Hi r Hin); intros [= ->]].
  eapply (fund_tail r RevCompleted); [done..| | | |exact Hr].
  - intros n. split; [|done]. split_and!; try done. unfold external_origin. cbn.
    by destruct md; rewrite !origin_kept.
  - left. split; [done|]. constructor. unfold row_saga. apply orb_false_iff in Hdone as [D1 D2].
    rewrite bool_decide_eq_false in D1, D2. destruct (rev_status r); set_solver.
  - steps_walk.
Qed.

Lemma settled_wallet_saga t i s w s' :
  settled_wallet t i s = (Ok w, s') → same_saga s s'.
Proof.
  intros Hr. eapply (steps_run same_saga); [|exact Hr]. unfold settled_wallet. steps_walk.
Qed.

Lemma varchar_opt_reads n v (s : Session) x s' : to_varchar_opt n v s = (Ok x, s') → s' = s.
Proof. intros Hr. symmetry. eapply (steps_run eq); [|exact Hr]. unfold to_varchar_opt. steps_walk. Qed.

Lemma insert_reversal_ok f s r s' :
  insert_reversal f s = (Ok r, s') →
  (∃ u n a, r = (f u n) <| rev_amount := a |> ∧ numeric 12 2 (rev_amount (f u n)) = Some a)
  ∧ (∀ x, x ∈ reversals (ses_db s) → reversal_conflict r x = false)
  ∧ ses_db s' = (ses_db s) <| reversals ::= λ t, t ++ [r] |>.
Proof.
  unfold insert_reversal. intros Hr. db_inv.
  repeat match goal with Hv : to_varchar_opt _ _ _ = _ |- _ => apply varchar_opt_reads in Hv; subst end.
  cbn [ses_db] in *. split_and!; [|  |done].
  - by do 3 eexists.
  - intros x Hx.
    match goal with Hg : false = existsb ?p ?l |- _ =>
      destruct (p x) eqn:Hp; [|done]; assert (existsb p l = true); [|congruence];
      apply existsb_exists; exists x; split; [by apply list_elem_of_In|done] end.
Qed.

(** A new reversal: the row is there, without funds. *)
Lemma insert_or_winner_moves t iid f s x s' :
  saga_inv (ses_db s) → (∀ u n, rev_status (f u n) = RevRequested) →
  reversals_of_intent t iid (ses_db s) = [] →
  insert_or_winner t iid f s = (Ok x, s') →
  ∃ r u n, x = inl r ∧ r = (f u n) <| rev_amount := rev_amount r |>
    ∧ numeric 12 2 (rev_amount (f u n)) = Some (rev_amount r)
    ∧ r ∈ reversals (ses_db s') ∧ saga_moves (ses_db s) (ses_db s').
Proof.
  intros Hi Hf Hnone Hr. unfold insert_or_winner in Hr. bind_write Hr.
  apply except_inserted in Hr as [(r & -> & Hr)|(s1 & Hs1 & Hr)].
  - apply insert_reversal_ok in Hr as ((u & n & a & Hrf & Ham) & Hnew & Hdb).
    cbn in Hnew, Hdb. rewrite serial_race in Hnew, Hdb.
    exists r, u, n. assert (rev_amount r = a) as Hra by (by rewrite Hrf).
    split_and!; [done|by rewrite Hra|by rewrite Hra|rewrite Hdb; cbn; apply elem_of_app; right; left|].
    rewrite Hdb. apply saga_insert; [done|by rewrite Hrf; cbn|rewrite Hra; by eapply numeric_narrow|done].
  - bind_query Hr. rewrite Hs1 in Hr. cbn in Hr. rewrite serial_race, Hnone in Hr.
    by vm_compute in Hr.
Qed.

Lemma reversals_of_intent_moved t iid s s' :
  same_saga s s' → reversals_of_intent t iid (ses_db s') = reversals_of_intent t iid (ses_db s).
Proof. intros [Hr _]. unfold reversals_of_intent. by rewrite Hr. Qed.

(** The two roundings of the amount agree. *)
Lemma numeric_same_scale x a b : numeric 12 2 x = Some a → numeric 14 2 x = Some b → b = a.
Proof. intros [-> _]%numeric_Some [-> _]%numeric_Some. done. Qed.

Lemma request_moves t iid key reason by_user s x s' :
  saga_inv (ses_db s) → request_wallet_topup_reversal t iid key reason by_user s = (Ok x, s') →
  saga_moves (ses_db s) (ses_db s').
Proof.
  intros Hi Hr. unfold request_wallet_topup_reversal in Hr. bind_guard Hr Hkey.
  apply bind_inv_ok in Hr as (i & s0 & (-> & _)%get_payment_intent_ok & Hr).
  bind_guard Hr Hg1. bind_guard Hr Hg2. cbv zeta in Hr. bind_guard Hr Hg3. bind_query Hr.
  apply bind_inv_ok in Hr as ([r|] & s1 & Hrow & Hr).
  { apply one_or_none_some in Hrow as [_ ->]. bind_guard Hr Hg4. apply ret_inv in Hr as [_ ->].
    by apply saga_moves_refl. }
  apply one_or_none_none in Hrow as [_ ->]. bind_query Hr.
  apply bind_inv_ok in Hr as ([r|] & s1 & Hrow & Hr).
  { apply one_or_none_some in Hrow as [_ ->]. apply ret_inv in Hr as [_ ->]. by apply saga_moves_refl. }
  apply one_or_none_none in Hrow as [Hnone ->].
  apply bind_inv_ok in Hr as (g & s1 & Hg & Hr).
  apply (reads_books _ _ _ _ (get_provider_reads _ _)) in Hg as ->. bind_guard Hr Hg5. bind_guard Hr Hg6.
  apply bind_inv_ok in Hr as (w & s1 & Hs1%settled_wallet_saga & Hr).
  rewrite <- (reversals_of_intent_moved _ _ _ _ Hs1) in Hnone.
  pose proof (saga_same _ _ Hs1 Hi) as Hm1.
  apply bind_inv_ok in Hr as (ins & s2 & Hins & Hr).
  apply insert_or_winner_moves in Hins as (r & u & n & -> & Hrf & Ham & Hin & Hm2);
    [|apply Hm1|done|done].
  apply bind_inv_ok in Hr as (tx & s3 & Hres & Hr).
  apply reserve_reserved in Hres; [|apply Hm2|done|by rewrite Hrf|intros a; by eapply numeric_same_scale].
  eapply saga_moves_trans; [exact Hm1|]. eapply saga_moves_trans; [exact Hm2|].
  eapply (fund_tail r RevFundsReserved); [apply Hm2|done|done|..|exact Hr].
  - by intros m.
  - right. rewrite Hrf. split; [done|]. split; [constructor|done].
  - unfold live_reversal. steps_walk.
Qed.

Lemma reserve_undone w amount rid desc : undone (reserve_topup_reversal w amount rid desc).
Proof.
  unfold reserve_topup_reversal.
  repeat first
    [ apply undone_savepoint; intros []; by steps_walk
    | apply undone_read; by steps_walk
    | apply undone_bind; [by steps_walk | intros ?]
    | match goal with |- undone (match ?x with _ => _ end) => destruct x end ].
Qed.

Lemma reserve_external_ok w i r s (b : bool) s' :
  saga_inv (ses_db s) → r ∈ reversals (ses_db s) → wallet_id w = rev_wallet_id r →
  (∀ a, numeric 14 2 (intent_amount i) = Some a → a = rev_amount r) →
  reserve_external w i r s = (Ok b, s') → if b then reserved r s s' else ses_db s' = ses_db s.
Proof.
  intros Hi Hin Hw Ham [Hr|(e & s1 & Hr & He)]%catch_inv_ok.
  - apply bind_inv_ok in Hr as (tx & s1 & Hr & [[= ->] ->]%ret_inv). by eapply reserve_reserved.
  - apply bind_inv_raise in Hr as [Hr|(tx & s2 & _ & Hr)]; [|by apply ret_inv in Hr as [? _]].
    apply reserve_undone in Hr. destruct e; try by apply throw_inv in He as [? _].
    by apply ret_inv in He as [[= ->] ->].
Qed.

(** A reversal without a reservation goes to review. *)
Lemma unfunded_moves r f d d' :
  saga_inv d → r ∈ reversals d → rev_status r = RevRequested → same_reversal r (f r) →
  rev_status (f r) = RevManualReview →
  reversals d' = update_row (rev_id r) f (reversals d) → ledger d' = ledger d → saga_moves d d'.
Proof.
  intros Hi Hin Hst Hsame Hst' Hrev Hl.
  assert (row_saga d r = Idle) as Hs by (unfold row_saga; by rewrite Hst).
  pose proof (si_exact d Hi r Hin) as He. unfold held_exactly in He. rewrite Hs in He. cbn in He.
  assert (row_saga d' (f r) = Review false) as Hs'.
  { unfold row_saga. rewrite Hst', (reservations_same r (f r)) by done.
    unfold reservations in *. by rewrite Hl, He. }
  apply (saga_update d d' r f []); [done|done|done|by rewrite app_nil_r|by intros tx ?%elem_of_nil|].
  apply row_restatus; [done..| | |]; rewrite ?Hs, ?Hs'; [done| |constructor].
  intros _. right. right. left.
Qed.

Lemma finish_external_moves i w r pid (b : bool) s s1 x s' :
  saga_inv (ses_db s) → r ∈ reversals (ses_db s) → rev_status r = RevRequested →
  (if b then reserved r s s1 else ses_db s1 = ses_db s) →
  finish_external i w r pid b s1 = (Ok x, s') → saga_moves (ses_db s) (ses_db s').
Proof.
  intros Hi Hin Hst Hb Hr. unfold finish_external in Hr. destruct b.
  - eapply (fund_tail r RevCompleted); [done..| | | |exact Hr].
    + by intros n.
    + left. split; [done|]. unfold row_saga. rewrite Hst. constructor. left.
    + steps_walk.
  - bind_write Hr. bind_write Hr. apply (steps_run _ _ _ _ _ (same_saga_flush r)) in Hr as [Hrev Hl].
    cbn in Hrev, Hl. rewrite Hb in Hrev, Hl. by eapply unfunded_moves; [| | | | |exact Hrev|].
Qed.

Lemma one_of_intent t iid s r s' :
  one_or_none (reversals_of_intent t iid (ses_db s)) s = (Ok (Some r), s') →
  s' = s ∧ r ∈ reversals (ses_db s).
Proof.
  intros [Hr ->]%one_or_none_some. split; [done|].
  assert (r ∈ reversals_of_intent t iid (ses_db s)) as [? _]%elem_of_select by (rewrite Hr; left). done.
Qed.

Lemma external_moves t i md s x s' :
  saga_inv (ses_db s) → record_external_wallet_topup_reversal t i md s = (Ok x, s') →
  saga_moves (ses_db s) (ses_db s').
Proof.
  intros Hi Hr. unfold record_external_wallet_topup_reversal in Hr. bind_guard Hr Hg1.
  bind_guard Hr Hg2. bind_guard Hr Hg3. bind_guard Hr Hg4. cbv zeta in Hr. bind_query Hr.
  apply bind_inv_ok in Hr as ([r|] & s1 & Hrow & Hr).
  { apply one_of_intent in Hrow as [-> Hin]. by eapply complete_moves. }
  apply one_or_none_none in Hrow as [Hnone ->].
  apply bind_inv_ok in Hr as (w & s1 & Hs1%settled_wallet_saga & Hr).
  rewrite <- (reversals_of_intent_moved _ _ _ _ Hs1) in Hnone.
  pose proof (saga_same _ _ Hs1 Hi) as Hm1.
  apply bind_inv_ok in Hr as (ins & s2 & Hins & Hr).
  apply insert_or_winner_moves in Hins as (r & u & n & -> & Hrf & Ham & Hin & Hm2);
    [|apply Hm1|done|done].
  apply bind_inv_ok in Hr as (b & s3 & Hb & Hr).
  apply reserve_external_ok in Hb; [|apply Hm2|done|by rewrite Hrf|intros a; by eapply numeric_same_scale].
  eapply saga_moves_trans; [exact Hm1|]. eapply saga_moves_trans; [exact Hm2|].
  eapply finish_external_moves; [apply Hm2|done|by rewrite Hrf|exact Hb|exact Hr].
Qed.

Lemma resolve_moves t rid s x s' :
  saga_inv (ses_db s) → resolve_external_wallet_topup_reversal t rid s = (Ok x, s') →
  saga_moves (ses_db s) (ses_db s').
Proof.
  intros Hi Hr. unfold resolve_external_wallet_topup_reversal in Hr. bind_query Hr.
  bind_some Hr r Hin. apply get_row_Some in Hin as [Hin <-]. bind_guard Hr Ht. bind_guard Hr Hext.
  destruct (_ == RevCompleted).
  { apply ret_inv in Hr as [_ ->]. by apply saga_moves_refl. }
  bind_guard Hr Hst. apply bind_inv_ok in Hr as (i & s0 & (-> & _)%get_payment_intent_ok & Hr).
  bind_query Hr. bind_some Hr w Hw. bind_guard Hr Hwt. apply get_row_Some in Hw as [_ Hw].
  apply bind_inv_ok in Hr as (tx & s1 & Hres & Hr).
  apply reserve_reserved in Hres; [|done..|by intros a; rewrite (si_cents _ Hi r Hin); intros [= ->]].
  eapply (fund_tail r RevCompleted); [done..| | | |exact Hr].
  - by intros n.
  - left. split; [done|]. apply negb_false_iff in Hst, Hext. rewrite bool_decide_eq_true in Hst.
    pose proof (si_external _ Hi r Hin Hext) as Hrow. unfold row_saga in *. rewrite Hst in *.
    destruct (_ <? _)%nat; [set_solver|apply SagaResolve].
  - steps_walk.
Qed.

End requests.

(** ** The worker *)

Lemma in_session_state {A} (m : M A) s :
  in_session m s = ((m s).1, (m s).2 <| ses_db := ses_committed (m s).2 |>).
Proof. unfold in_session, catch, mbind, prog_bind. by destruct (m s) as [[a|e] s']. Qed.

(** The worker settles the fate of a reversal it has claimed. *)
Lemma asked_moves d d' r y :
  saga_inv d → r ∈ reversals d → rev_status r = RevProcessing → same_reversal r y →
  rev_status y ∈ [RevReconciliationRequired; RevCompleted; RevManualReview] →
  ledger d' = ledger d → row_moves d d' r y.
Proof.
  intros Hi Hin Hst Hsame Hy Hl.
  assert (row_saga d r = Asked) as Hs by (unfold row_saga; by rewrite Hst).
  pose proof (si_exact d Hi r Hin) as He. unfold held_exactly in He. rewrite Hs in He. cbn in He.
  assert (row_saga d' y ∈ [Held; Done; Review true]) as Hs'.
  { unfold row_saga. rewrite (reservations_same r y) by done. unfold reservations in *. rewrite Hl.
    destruct He as (tx & -> & _). destruct (rev_status y); set_solver. }
  apply row_restatus; [done..| | |]; rewrite ?Hs.
  - destruct (row_saga d' y) as [| | | |[]]; set_solver.
  - intros Hext. pose proof (si_external d Hi r Hin Hext) as Hno. rewrite Hs in Hno. set_solver.
  - rewrite !list.elem_of_cons, elem_of_nil in Hs'.
    destruct Hs' as [-> |[-> |[-> |[]]]]; [apply SagaUncertain|apply SagaConfirm|apply SagaStuck].
Qed.

Section worker.
  Context `{HE : Env} `{!Serial HE} `{Gateways}.

Lemma claimable_held d n r : claimable n r = true → row_saga d r = Held.
Proof.
  unfold claimable. intros [Hst _]%andb_true_iff. rewrite orb_true_iff, !bool_decide_eq_true in Hst.
  unfold row_saga. by destruct Hst as [-> | ->].
Qed.

Lemma claim_moves rid s :
  saga_inv (ses_db s) →
  let run := in_session (claim_reversal rid) s in
  persisted run.2 ∧ saga_moves (ses_db s) (ses_db run.2)
  ∧ (run.1 = Ok true → ∃ x, x ∈ reversals (ses_db run.2) ∧ rev_id x = rid ∧ rev_status x = RevProcessing).
Proof.
  intros Hi. rewrite in_session_state. cbn.
  split; [done|]. split.
  - eapply (saga_map _ _ _ [] Hi); [reflexivity|by rewrite app_nil_r|by intros tx ?%elem_of_nil|].
    intros x Hx. cbn. destruct (claims rid (env_clock (ses_draws s)) x) eqn:Hdue; [|by apply row_moves_refl].
    apply andb_true_iff in Hdue as [_ Hs%(claimable_held (ses_db s))].
    apply row_restatus; [done|done|done|done|..]; rewrite ?Hs; [done| |apply SagaAsk].
    intros Hext. pose proof (si_external _ Hi x Hx Hext) as Hno. rewrite Hs in Hno. set_solver.
  - intros [= Hn%Nat.ltb_lt]. unfold rowcount in Hn.
    destruct (select (claims rid (env_clock (ses_draws s))) (reversals (ses_db s))) as [|x l] eqn:Hsel; [cbn in Hn; lia|].
    assert (x ∈ select (claims rid (env_clock (ses_draws s))) (reversals (ses_db s))) as [Hx Hd]%elem_of_select by (rewrite Hsel; left).
    eexists. split; [apply elem_of_update_where; exists x; split; [done|reflexivity]|].
    rewrite Hd. apply andb_true_iff in Hd as [Hid _]. by rewrite bool_decide_eq_true in Hid.
Qed.

Lemma recover_moves s :
  saga_inv (ses_db s) →
  let run := in_session recover_processing s in
  persisted run.2 ∧ saga_moves (ses_db s) (ses_db run.2).
Proof.
  intros Hi. rewrite in_session_state. cbn. split; [done|].
  eapply (saga_map _ _ _ [] Hi); [reflexivity|by rewrite app_nil_r|by intros tx ?%elem_of_nil|].
  intros x Hx. cbn. case_bool_decide as Hst; [|by apply row_moves_refl].
  apply asked_moves; try done. left.
Qed.

(** The gateway's confirmation ends the saga. *)
Lemma process_moves t rid s x s' :
  saga_inv (ses_db s) → process_wallet_topup_reversal t rid s = (Ok x, s') →
  saga_moves (ses_db s) (ses_db s').
Proof.
  intros Hi Hr. unfold process_wallet_topup_reversal in Hr. bind_query Hr. bind_some Hr r Hin.
  apply get_row_Some in Hin as [Hin <-]. bind_guard Hr Ht. destruct (_ == RevCompleted).
  { apply ret_inv in Hr as [_ ->]. by apply saga_moves_refl. }
  bind_guard Hr Hst. apply negb_false_iff in Hst. rewrite bool_decide_eq_true in Hst.
  apply bind_inv_ok in Hr as (i & s0 & (-> & _)%get_payment_intent_ok & Hr). bind_query Hr.
  bind_some Hr u Hu. apply bind_inv_ok in Hr as (g & s1 & Hg & Hr).
  apply (reads_books _ _ _ _ (get_provider_reads _ _)) in Hg as ->.
  apply bind_inv_ok in Hr as (res & s1 & Hcall & Hr).
  assert (ses_db s1 = ses_db s) as Hdb.
  { eapply (steps_run same_db); [|exact Hcall]. unfold call_refund. steps_walk; by intros s2. }
  bind_guard Hr Hok. apply bind_inv_ok in Hr as (n & s2 & Hn & Hr). apply gets_inv in Hn as [_ ->].
  bind_write Hr. assert (steps same_saga (_record_topup_reversal_payment_transaction i r
    (prres_provider_refund_id res) "merchant_request";; flush_reversal r)) as Hk by steps_walk.
  apply (steps_run _ _ _ _ _ Hk) in Hr as [Hrev Hl]. cbn in Hrev, Hl. rewrite Hdb in Hrev, Hl.
  eapply (saga_update _ _ r _ [] Hi Hin Hrev); [by rewrite app_nil_r|by intros tx ?%elem_of_nil|].
  apply asked_moves; try done. right. left.
Qed.

Lemma committed_process t rid : steps same_committed (process_wallet_topup_reversal t rid).
Proof.
  pose proof committed_get_provider. pose proof committed_send.
  unfold process_wallet_topup_reversal, get_payment_intent, call_refund, update_reversal,
    _record_topup_reversal_payment_transaction, except_integrity, insert_payment_tx, flush_reversal,
    live_reversal, to_varchar_opt. steps_walk.
  all: apply committed_nested; steps_walk.
Qed.

Lemma mark_retry_moves mb rid code s :
  persisted s → saga_inv (ses_db s) →
  (∀ x, x ∈ reversals (ses_db s) → rev_id x = rid → rev_status x = RevProcessing) →
  let run := in_session (_mark_retry mb rid code) s in
  persisted run.2 ∧ saga_moves (ses_db s) (ses_db run.2).
Proof.
  intros Hp Hi Hst. rewrite in_session_state. split; [done|]. unfold _mark_retry, mbind, prog_bind, query, gets.
  cbn. destruct (get_row rid (reversals (ses_db s))) as [r|] eqn:Hr; cbn.
  2: { rewrite Hp. by apply saga_moves_refl. }
  apply get_row_Some in Hr as [Hr Hid]. specialize (Hst r Hr Hid). rewrite Hst. cbn.
  eapply (saga_update _ _ r _ [] Hi Hr); [cbn; by rewrite <- Hid|by rewrite app_nil_r
    |by intros tx ?%elem_of_nil|].
  apply asked_moves; try done. left.
Qed.

Lemma committed_case r : steps same_committed (ensure_case_for_reversal r).
Proof.
  unfold ensure_case_for_reversal, except_integrity, update_frc, insert_frc. steps_walk.
  all: apply committed_nested; steps_walk.
Qed.

(** What a block has committed is what is left of it. *)
Lemma in_session_ensures {A} (I : DB → Prop) (m : M A) s :
  ensures (λ s', I (ses_committed s')) m s →
  persisted (in_session m s).2 ∧ I (ses_db (in_session m s).2).
Proof. rewrite in_session_state. by split. Qed.

Lemma mark_review_moves rid code detail s :
  persisted s → saga_inv (ses_db s) →
  (∀ x, x ∈ reversals (ses_db s) → rev_id x = rid → rev_status x = RevProcessing) →
  let run := in_session (_mark_manual_review rid code detail) s in
  persisted run.2 ∧ saga_moves (ses_db s) (ses_db run.2).
Proof.
  intros Hp Hi Hst. pose proof (saga_moves_refl _ Hi) as Hrefl. apply in_session_ensures.
  apply ensures_gets. destruct (get_row rid (reversals (ses_db s))) as [r|] eqn:Hr.
  2: { apply ensures_ret. by rewrite Hp. }
  apply get_row_Some in Hr as [Hr Hid]. specialize (Hst r Hr Hid). rewrite Hst. cbn [bool_decide].
  apply ensures_bind; [unfold ensures; cbn; by rewrite Hp|]. intros u s1 [_ ->]%write_inv _.
  apply ensures_gets. apply ensures_bind.
  { unfold ensures. rewrite committed_case. cbn. by rewrite Hp. }
  intros o s2 Hcase _. apply (steps_run _ _ _ _ _ (same_saga_case _)) in Hcase as [Hrev Hl].
  cbn in Hrev, Hl. rewrite <- Hid in Hrev. unfold ensures. cbn.
  eapply (saga_update _ _ r _ [] Hi Hr Hrev); [by rewrite app_nil_r|by intros tx ?%elem_of_nil|].
  apply asked_moves; try done. right. right. left.
Qed.

Lemma process_claimed_moves mb rid s :
  persisted s → saga_inv (ses_db s) →
  (∀ x, x ∈ reversals (ses_db s) → rev_id x = rid → rev_status x = RevProcessing) →
  let run := _process_claimed mb rid s in
  persisted run.2 ∧ saga_moves (ses_db s) (ses_db run.2).
Proof.
  intros Hp Hi Hst. pose proof (saga_moves_refl _ Hi) as Hrefl. apply in_session_ensures.
  apply ensures_gets. destruct (get_row rid (reversals (ses_db s))) as [r|].
  2: { apply ensures_ret. by rewrite Hp. }
  unfold ensures, catch, mbind, prog_bind. pose proof (committed_process (rev_tenant_id r) rid s) as Hc.
  destruct (process_wallet_topup_reversal (rev_tenant_id r) rid s) as [[x|e] s1] eqn:Hr; cbn in Hc; cbn -[in_session].
  { by eapply process_moves. }
  change (MkSession _ _ _ _) with (s1 <| ses_db := ses_committed s1 |>).
  set (s2 := s1 <| ses_db := ses_committed s1 |>).
  assert (ses_db s2 = ses_db s ∧ persisted s2) as [Hdb Hp2] by (split; [cbn; by rewrite Hc|done]).
  clearbody s2. rewrite <- Hdb in *.
  destruct (_ || _); [|destruct (_ || _)].
  - destruct (mark_retry_moves mb rid (exn_name e) s2 Hp2 Hi Hst) as [Hq Hm]. by rewrite Hq.
  - destruct (mark_review_moves rid (exn_name e) (env_exn_str e) s2 Hp2 Hi Hst) as [Hq Hm]. by rewrite Hq.
  - destruct (mark_retry_moves mb rid (exn_name e) s2 Hp2 Hi Hst) as [Hq Hm]. by rewrite Hq.
Qed.

Lemma poll_each_moves mb ids n s :
  persisted s → saga_inv (ses_db s) →
  persisted (poll_each mb ids n s).2 ∧ saga_moves (ses_db s) (ses_db (poll_each mb ids n s).2).
Proof.
  revert n s. induction ids as [|rid ids IH]; intros n s Hp Hi; [split; [done|by apply saga_moves_refl]|].
  cbn [poll_each]. destruct (claim_moves rid s Hi) as (Hp1 & Hm1 & Hst1). unfold mbind, prog_bind.
  destruct (in_session (claim_reversal rid) s) as [[[]|e] s1]; cbn in Hp1, Hm1, Hst1; [| |by split].
  - destruct Hst1 as (x & Hx & Hid & Hst); [done|].
    destruct (process_claimed_moves mb rid s1 Hp1 (proj1 Hm1)) as [Hp2 Hm2].
    { intros y Hy Hyid. rewrite (rev_id_inj _ y x (proj1 Hm1)); congruence. }
    destruct (_process_claimed mb rid s1) as [[[]|e] s2]; cbn in Hp2, Hm2.
    + destruct (IH (S n) s2 Hp2 (proj1 Hm2)) as [Hp3 Hm3]. split; [done|].
      eapply saga_moves_trans; [exact Hm1|]. by eapply saga_moves_trans.
    + split; [done|]. by eapply saga_moves_trans.
  - destruct (IH n s1 Hp1 (proj1 Hm1)) as [Hp3 Hm3]. split; [done|]. by eapply saga_moves_trans.
Qed.

End worker.

(** ** Payments leave the reversals alone *)

Definition other_entries (s s' : Session) : Prop :=
  reversals (ses_db s') = reversals (ses_db s)
  ∧ ∃ l, ledger (ses_db s') = ledger (ses_db s) ++ l ∧ ∀ tx, tx ∈ l → is_reservation tx = false.

Global Instance other_entries_preorder : PreOrder other_entries.
Proof.
  split.
  - intros s. split; [done|]. exists []. split; [by rewrite app_nil_r|by intros tx ?%elem_of_nil].
  - intros x y z (R1 & l1 & L1 & N1) (R2 & l2 & L2 & N2). split; [congruence|].
    exists (l1 ++ l2). split; [by rewrite L2, L1, app_assoc|].
    intros tx [Htx|Htx]%elem_of_app; auto.
Qed.

Lemma other_entries_moves s s' :
  other_entries s s' → saga_inv (ses_db s) → saga_moves (ses_db s) (ses_db s').
Proof. intros (Hr & l & Hl & Hn). by apply (saga_frame _ _ l). Qed.

Section payments.
  Context `{HE : Env} `{!Serial HE} `{Gateways}.

Lemma other_db s s' : ses_db s' = ses_db s → other_entries s s'.
Proof. intros Hs. split; [by rewrite Hs|]. exists []. rewrite Hs, app_nil_r. split; [done|by intros tx ?%elem_of_nil]. Qed.

Lemma other_write (f : DB → DB) :
  (∀ d, reversals (f d) = reversals d ∧ ledger (f d) = ledger d) → steps other_entries (write f).
Proof.
  intros Hf s. destruct (Hf (ses_db s)) as [Hr Hl]. split; [exact Hr|]. exists [].
  rewrite app_nil_r. split; [exact Hl|by intros tx ?%elem_of_nil].
Qed.

Lemma other_uuid4 : steps other_entries uuid4.
Proof. intros s. by apply other_db. Qed.

Lemma other_send m : steps other_entries (send m).
Proof. intros s. by apply other_db. Qed.

Lemma other_await : steps other_entries await_others.
Proof. intros s. apply other_db. cbn. apply serial_race. Qed.

Lemma other_nested {A} (m : M A) : steps other_entries m → steps other_entries (begin_nested m).
Proof.
  intros Hm s. specialize (Hm s). unfold begin_nested.
  destruct (m s) as [[a|e] s']; [done|]. by apply other_db.
Qed.

Lemma other_flush w ty amount before after rid rty desc :
  rty ≠ CANONICAL_TOPUP_REVERSAL_TYPE →
  steps other_entries (flush_entry w ty amount before after rid (Some rty) desc).
Proof.
  intros Hne s. destruct (flush_entry _ _ _ _ _ _ _ _ s) as [[tx|e] s'] eqn:Hr; cbn.
  - apply flush_entry_ok in Hr as (a & am & b & _ & _ & _ & -> & _ & ->). split; [done|].
    eexists [_]. split; [reflexivity|]. intros x ->%list_elem_of_singleton. unfold is_reservation. cbn.
    apply bool_decide_eq_false. congruence.
  - apply flush_entry_raise in Hr as [Hr _]. by apply other_db.
Qed.

Lemma other_reads {A} (m : M A) : steps eq m → steps other_entries m.
Proof. intros Hm s. rewrite <- (Hm s). reflexivity. Qed.

Hint Resolve other_uuid4 other_send other_await other_nested : steps.
Hint Extern 1 (steps other_entries (write _)) => by apply other_write : steps.
Hint Extern 2 (steps other_entries (flush_entry _ _ _ _ _ _ (Some _) _)) =>
  by apply other_flush : steps.

Lemma other_wait n read : steps other_entries (wait_for_entry n read).
Proof. induction n as [|n IH]; cbn [wait_for_entry]; steps_walk. Qed.

Lemma other_wallet t u c : steps other_entries (get_or_create_wallet t u c).
Proof.
  unfold get_or_create_wallet, insert_wallet. steps_walk.
  all: apply other_nested; steps_walk.
Qed.

Lemma other_get_provider t name : steps other_entries (get_provider t name).
Proof. apply other_reads, get_provider_reads. Qed.

Hint Resolve other_wait other_wallet other_get_provider : steps.

Lemma other_settle w a i desc : steps other_entries (settle_payment w a i desc).
Proof. unfold settle_payment, lock_wallet, return_existing. steps_walk. Qed.

Lemma other_refund w a i desc :
  steps other_entries (refund w a i (Some CANONICAL_PAYMENT_REFUND_TYPE) desc).
Proof. unfold refund, lock_wallet, return_existing. steps_walk. Qed.

Hint Extern 0 (steps other_entries (settle_payment _ _ _ _)) => apply other_settle : steps.
Hint Extern 0 (steps other_entries (refund _ _ _ _ _)) => apply other_refund : steps.

Lemma other_settle_topup i a c : steps other_entries (_settle_wallet_topup i a c).
Proof.
  unfold _settle_wallet_topup, verify_settlement, mark_succeeded, intent_transition_to, live_intent,
    insert_payment_tx, to_varchar_opt, update_intent. steps_walk.
Qed.

Hint Resolve other_settle_topup : steps.

Lemma other_settle_intent t i a c : steps other_entries (settle_payment_intent t i a c).
Proof.
  unfold settle_payment_intent, get_payment_intent, verify_settlement, mark_succeeded, mark_paid,
    intent_transition_to, order_transition_to, live_intent, insert_payment_tx, to_varchar_opt,
    update_intent. steps_walk.
Qed.

Hint Resolve other_settle_intent : steps.

Lemma other_creates r : steps other_entries (create_payment_intent r).
Proof.
  unfold create_payment_intent, except_integrity, insert_intent, call_create_payment,
    apply_create_result, _mark_provider_creation_ambiguous, _store_provider_verification_attributes,
    intent_transition_to, order_transition_to, flush_intent, live_intent, to_varchar_opt,
    update_intent. steps_walk.
  all: apply other_nested; steps_walk.
Qed.

Lemma other_topup req : steps other_entries (create_wallet_topup_intent req).
Proof.
  unfold create_wallet_topup_intent, except_integrity, insert_intent, call_create_payment,
    apply_topup_result, _mark_provider_creation_ambiguous, _store_provider_verification_attributes,
    intent_transition_to, flush_intent, live_intent, to_varchar_opt, update_intent. steps_walk.
  all: apply other_nested; steps_walk.
Qed.

Lemma other_webhook t n p h : steps other_entries (process_webhook t n p h).
Proof.
  unfold process_webhook, verify_delivery, webhook_secret_of, get_payment_secret, except_integrity,
    insert_webhook_event, apply_webhook, verify_settlement, intent_transition_to, mark_processed,
    update_intent. steps_walk.
  all: apply other_nested; steps_walk.
Qed.

Hint Resolve other_creates other_topup other_webhook : steps.

Lemma other_stars t u p ch a c : steps other_entries (settle_telegram_stars_topup t u p ch a c).
Proof.
  unfold settle_telegram_stars_topup, validate_telegram_stars_checkout, get_payment_intent,
    live_intent, to_varchar_opt, update_intent. steps_walk.
Qed.

Lemma other_cancel t i : steps other_entries (cancel_payment_intent t i).
Proof.
  unfold cancel_payment_intent, get_payment_intent, intent_transition_to, order_transition_to,
    live_intent, update_intent. steps_walk.
Qed.

Lemma other_refund_payment t i a r k : steps other_entries (refund_payment t i a r k).
Proof.
  unfold refund_payment, get_payment_intent, call_refund, insert_payment_tx, order_transition_to,
    to_varchar_opt. steps_walk.
Qed.

Hint Resolve other_stars other_cancel other_refund_payment : steps.

Lemma other_handle r : steps other_entries (handle_payment r).
Proof. destruct r; cbn [handle_payment]; steps_walk. Qed.

End payments.

(** ** Histories *)

(** What can happen to the reversals of a shop: requests of its owner and of
    the reconciliation, payments of any kind, and the steps of workers, of
    which one may stop after it has claimed a reversal. *)
Inductive saga_op :=
  | OpPayment (r : payment_request)
  | OpRequest (tenant_id iid : UUID) (key : string) (reason : option string) (by_user : option UUID)
  | OpExternal (tenant_id iid : UUID) (observation : dict)
  | OpObserved (tenant_id rid : UUID) (provider_tx_id : string) (observation : option dict)
  | OpResolve (tenant_id rid : UUID)
  | OpClaim (rid : UUID)
  | OpRecover
  | OpPoll (max_backoff : Z) (limit : nat).

Section histories.
  Context `{HE : Env} `{Gateways}.

(** The callers load the intent or the reversal first. *)
Definition external_request (t iid : UUID) (md : dict) : M WalletTopUpReversal :=
  i ← get_payment_intent t iid; record_external_wallet_topup_reversal t i md.

Definition observed_request (t rid : UUID) (pid : string) (md : option dict) : M WalletTopUpReversal :=
  found ← query (λ d, get_row rid (reversals d));
  r ← of_option PaymentIntentNotFoundError found;
  complete_wallet_topup_reversal_from_provider_event t r pid md.

Definition run_op (op : saga_op) (s : Session) : Session :=
  match op with
  | OpPayment r => (in_request (handle_payment r) s).2
  | OpRequest t i k r u => (in_request (request_wallet_topup_reversal t i k r u) s).2
  | OpExternal t i md => (in_request (external_request t i md) s).2
  | OpObserved t r p md => (in_request (observed_request t r p md) s).2
  | OpResolve t r => (in_request (resolve_external_wallet_topup_reversal t r) s).2
  | OpClaim r => (in_session (claim_reversal r) s).2
  | OpRecover => (in_session recover_processing s).2
  | OpPoll mb l => (poll_once mb l s).2
  end.

Definition run_ops (ops : list saga_op) (s : Session) : Session := foldl (λ s op, run_op op s) s ops.

Hint Resolve committed_get_provider committed_send : steps.

Lemma committed_reserve w a r desc : steps same_committed (reserve_topup_reversal w a r desc).
Proof.
  pose proof committed_flush_entry. unfold reserve_topup_reversal, lock_wallet, return_existing. steps_walk.
Qed.

Lemma committed_record i r p o :
  steps same_committed (_record_topup_reversal_payment_transaction i r p o).
Proof.
  unfold _record_topup_reversal_payment_transaction, except_integrity, insert_payment_tx, to_varchar_opt.
  steps_walk. all: apply committed_nested; steps_walk.
Qed.

Lemma committed_flush_reversal r : steps same_committed (flush_reversal r).
Proof. unfold flush_reversal, live_reversal, to_varchar_opt. steps_walk. Qed.

Lemma committed_settled_wallet t i : steps same_committed (settled_wallet t i).
Proof. pose proof committed_get_or_create. unfold settled_wallet. steps_walk. Qed.

Lemma committed_insert t i f : steps same_committed (insert_or_winner t i f).
Proof.
  unfold insert_or_winner, except_integrity, insert_reversal, to_varchar_opt. steps_walk.
  all: apply committed_nested; steps_walk.
Qed.

Hint Resolve committed_reserve committed_record committed_flush_reversal committed_settled_wallet
  committed_insert : steps.

Lemma committed_complete t r p md :
  steps same_committed (complete_wallet_topup_reversal_from_provider_event t r p md).
Proof.
  unfold complete_wallet_topup_reversal_from_provider_event, get_payment_intent, update_reversal. steps_walk.
Qed.

Hint Resolve committed_complete : steps.

Lemma committed_external t i md : steps same_committed (external_request t i md).
Proof.
  unfold external_request, get_payment_intent, record_external_wallet_topup_reversal,
    reserve_external, finish_external, update_reversal, set_wallet_active. steps_walk.
Qed.

Lemma committed_request t i k r u : steps same_committed (request_wallet_topup_reversal t i k r u).
Proof.
  unfold request_wallet_topup_reversal, get_payment_intent, update_reversal, live_reversal. steps_walk.
Qed.

Lemma committed_resolve t r : steps same_committed (resolve_external_wallet_topup_reversal t r).
Proof.
  unfold resolve_external_wallet_topup_reversal, get_payment_intent, update_reversal, set_wallet_active.
  steps_walk.
Qed.

Lemma request_keeps_saga {A} (m : M A) s :
  persisted s → saga_inv (ses_db s) → steps same_committed m →
  (∀ a s', m s = (Ok a, s') → saga_moves (ses_db s) (ses_db s')) →
  persisted (in_request m s).2 ∧ saga_moves (ses_db s) (ses_db (in_request m s).2).
Proof. intros Hp Hi Hm Hok. apply in_request_keeps; [done|done|by apply saga_moves_refl|done]. Qed.

Lemma run_op_moves `{!Serial HE} op s :
  persisted s → saga_inv (ses_db s) →
  persisted (run_op op s) ∧ saga_moves (ses_db s) (ses_db (run_op op s)).
Proof.
  intros Hp Hi. destruct op; cbn [run_op].
  - apply request_keeps_saga; [done..|apply committed_handle|].
    intros u s' Hr. apply other_entries_moves; [|done]. by eapply (steps_run _ _ _ _ _ (other_handle r)).
  - apply request_keeps_saga; [done..|apply committed_request|]. intros x s'. by apply request_moves.
  - apply request_keeps_saga; [done..|apply committed_external|].
    intros x s' Hr. apply bind_inv_ok in Hr as (i & s0 & (-> & _)%get_payment_intent_ok & Hr).
    by eapply external_moves.
  - apply request_keeps_saga; [done..|unfold observed_request; steps_walk|].
    intros x s' Hr. unfold observed_request in Hr. bind_query Hr. bind_some Hr r Hin.
    apply get_row_Some in Hin as [Hin _]. by eapply complete_moves.
  - apply request_keeps_saga; [done..|apply committed_resolve|]. intros x s'. by apply resolve_moves.
  - by destruct (claim_moves rid s Hi) as (? & ? & _).
  - by apply recover_moves.
  - by apply poll_each_moves.
Qed.

Lemma run_ops_moves `{!Serial HE} ops s :
  persisted s → saga_inv (ses_db s) →
  persisted (run_ops ops s) ∧ saga_moves (ses_db s) (ses_db (run_ops ops s)).
Proof.
  revert s. induction ops as [|op ops IH]; intros s Hp Hi; [split; [done|by apply saga_moves_refl]|].
  destruct (run_op_moves op s Hp Hi) as [Hp1 Hm1]. destruct (IH _ Hp1 (proj1 Hm1)) as [Hp2 Hm2].
  split; [done|]. by eapply saga_moves_trans.
Qed.

End histories.

(** The reversal code implements the saga.  Take any history of reversal
    requests, refunds observed at the gateway, operators' resolutions, payment
    requests of every kind, and worker steps (passes, recoveries, and workers
    that stop right after a claim), each request returning or raising and being
    rolled back.  For every payment intent, the state its tables show
    afterwards is reached from the one they showed before by legal steps of the
    abstract machine [saga_step] (in particular the gateway is asked only
    while funds are held, a finished reversal stays finished, and one that is
    stuck with funds held is never taken up again by the code); and the ledger
    agrees with that state: a reversal whose saga holds funds has exactly one
    reservation entry, a debit of its amount from its wallet, and a reversal
    whose saga does not hold funds has none. *)
Theorem reversals_refine_saga `{HE : Env} `{Gateways} ops s :
  Serial HE → persisted s → saga_inv (ses_db s) →
  (∀ k, rtc saga_step (saga_of (ses_db s) k) (saga_of (ses_db (run_ops ops s)) k))
  ∧ ∀ r, r ∈ reversals (ses_db (run_ops ops s)) → held_exactly (ses_db (run_ops ops s)) r.
Proof.
  intros HS Hp Hi. destruct (run_ops_moves ops s Hp Hi) as [_ [Hi' Hk]]. split; [done|].
  intros r. apply (si_exact _ Hi').
Qed.

Definition rev_db : DB :=
  empty_db <| users := [MkUser (mk_uuid "u") (Some 77)] |>
           <| provider_configs := [MkPaymentProviderConfig (mk_uuid "cfg") (mk_uuid "t") "mock" true
                                     "ref" None []] |>.

Definition rev_session : Session := MkSession rev_db rev_db 0 [].

(** A top-up is paid and credited, its refund is requested, a worker claims it
    and stops; after the recovery the next pass completes it. *)
Definition demo_topup : list saga_op :=
  [ OpPayment (ReqTopup (MkTopupRequest (mk_uuid "t") (mk_uuid "u") (cents 2500) " usd" "mock" "k2"
                           [] None None []));
    OpPayment (ReqWebhook (mk_uuid "t") "mock" "pay-k2" []) ].

Definition demo_reversal : list saga_op :=
  demo_topup ++
  [ OpRequest (mk_uuid "t") (mk_uuid "uuid-0") "rk" (Some "changed my mind") None;
    OpClaim (mk_uuid "uuid-5"); OpRecover; OpPoll 3600 50 ].

Definition reversed_demo : Session := @run_ops demo_env demo_gateways demo_reversal rev_session.

Lemma rev_db_saga : saga_inv rev_db.
Proof. split; try apply NoDup_nil_2; intros x Hx; by apply elem_of_nil in Hx. Qed.

Lemma reversals_refine_saga_witness :
  map rev_status (reversals (ses_db reversed_demo)) = [RevCompleted]
  ∧ map tx_transaction_type (ledger (ses_db reversed_demo)) = [CREDIT; DEBIT]
  ∧ rtc saga_step Idle (saga_of (ses_db reversed_demo) (mk_uuid "t", mk_uuid "uuid-0"))
  ∧ ∀ r, r ∈ reversals (ses_db reversed_demo) → held_exactly (ses_db reversed_demo) r.
Proof.
  split; [vm_compute; reflexivity|]. split; [vm_compute; reflexivity|]. unfold reversed_demo.
  destruct (@reversals_refine_saga demo_env demo_gateways demo_reversal rev_session
              demo_env_serial eq_refl rev_db_saga) as [Hk Hr].
  split; [exact (Hk (mk_uuid "t", mk_uuid "uuid-0"))|exact Hr].
Defined.
