(* ===== verification/ReversalsLive.v ===== *)
(** * Top-up reversals: the worker makes progress

    A pass of the reversal worker never stops early, whatever the gateways do,
    and after a (re)start it completes every due reversal whose gateway
    confirms the refund, also those an earlier worker left in [PROCESSING].
    It asks a gateway only for refunds whose funds are committed out of the
    wallet. *)

From Stdlib Require Import ZArith Lia Ascii String.
From stdpp Require Import base tactics list option strings numbers pretty relations.
From S2P Require Import Prelude Tables Text Money Exceptions StateMachines Models Ledger.
From S2P Require Import LedgerInv LedgerSpec DepositsSpec FulfillmentSpec Payments PaymentsInv.
From S2P Require Import TopUps PaymentsSpec Reversals ReversalsInv ReversalsSpec.

Local Open Scope Z_scope.

(** ** The rows the worker relies on *)

Definition case_key (c : FinancialResolutionCase) : UUID * string := (frc_tenant_id c, frc_source_key c).

(** Identifiers are UUIDs, the generated ones came from the environment, and
    the cases obey their unique constraint. *)
Record calm `{Env} (n : nat) (d : DB) : Prop := {
  cm_ids : ∀ r, r ∈ reversals d → (String.length (uuid_str (rev_id r)) ≤ 36)%nat;
  cm_txs : ∀ t, t ∈ payment_txs d → ∃ k, (k < n)%nat ∧ ptx_id t = env_uuid4 k;
  cm_cases : ∀ c, c ∈ resolution_cases d → ∃ k, (k < n)%nat ∧ frc_id c = env_uuid4 k;
  cm_case_ids : NoDup (frc_id <$> resolution_cases d);
  cm_case_keys : NoDup (case_key <$> resolution_cases d);
}.

Definition calm_at `{Env} (s : Session) : Prop :=
  calm (ses_draws s) (ses_db s) ∧ calm (ses_draws s) (ses_committed s).

Definition calm_later `{Env} (s s' : Session) : Prop := later s s' ∧ (calm_at s → calm_at s').

Global Instance calm_later_preorder `{Env} : PreOrder calm_later.
Proof.
  split; [by intros s; split|]. intros x y z [L1 C1] [L2 C2]. split; [by etrans|auto].
Qed.

Section calm.
  Context `{HE : Env} `{!Serial HE} `{Gateways}.

Lemma calm_mono m n d : (m ≤ n)%nat → calm m d → calm n d.
Proof.
  intros Hmn [C1 C2 C3 C4 C5]. split; [done| | |done|done].
  - intros t Ht. destruct (C2 t Ht) as (k & ? & ?). exists k. split; [lia|done].
  - intros c Hc. destruct (C3 c Hc) as (k & ? & ?). exists k. split; [lia|done].
Qed.

Lemma calm_frame n d d' :
  (∀ r, r ∈ reversals d' → ∃ x, x ∈ reversals d ∧ rev_id r = rev_id x) →
  payment_txs d' = payment_txs d → resolution_cases d' = resolution_cases d → calm n d → calm n d'.
Proof.
  intros Hr Ht Hc [C1 C2 C3 C4 C5]. split; rewrite ?Ht, ?Hc; try done.
  intros r (x & Hx & ->)%Hr. auto.
Qed.

Lemma calm_write f : (∀ n d, calm n d → calm n (f d)) → steps calm_later (write f).
Proof. intros Hf s. split; [apply later_write|]. intros [C1 C2]. split; [by apply Hf|done]. Qed.

Lemma calm_uuid4 : steps calm_later uuid4.
Proof.
  intros s. split; [apply later_uuid4|]. intros [C1 C2]. split; cbn; (eapply calm_mono; [|done]; lia).
Qed.

Lemma calm_await : steps calm_later await_others.
Proof. apply calm_write. intros n d. by rewrite serial_race. Qed.

Lemma later_send m : steps later (send m).
Proof. intros s. unfold later. cbn. lia. Qed.

Lemma calm_send m : steps calm_later (send m).
Proof. intros s. split; [apply later_send|done]. Qed.

Lemma calm_commit : steps calm_later commit.
Proof. intros s. split; [apply later_commit|]. by intros [C1 C2]. Qed.

Lemma calm_rollback : steps calm_later rollback.
Proof. intros s. split; [apply later_rollback|]. by intros [C1 C2]. Qed.

Lemma calm_nested {A} (m : M A) : steps calm_later m → steps calm_later (begin_nested m).
Proof.
  intros Hm s. specialize (Hm s). unfold begin_nested. destruct (m s) as [[a|e] s']; [done|].
  destruct Hm as [Hl Hm]. split; [done|]. intros Hc. destruct (Hm Hc) as [_ C2].
  split; [|done]. cbn. eapply calm_mono; [exact Hl|]. by destruct Hc.
Qed.

Lemma calm_reads {A} (m : M A) : steps eq m → steps calm_later m.
Proof. intros Hm s. rewrite <- (Hm s). reflexivity. Qed.

(** An insertion: the last thing it does is to add the row. *)
Lemma calm_insert {A} (m : M A) :
  undone m → steps same_committed m → steps later m →
  (∀ a s s', m s = (Ok a, s') → calm (ses_draws s) (ses_db s) → calm (ses_draws s') (ses_db s')) →
  steps calm_later m.
Proof.
  intros Hu Hc Hl Hok s. specialize (Hc s). specialize (Hl s). split; [done|]. intros [C1 C2].
  destruct (m s) as [[a|e] s'] eqn:Hr; cbn in *; unfold same_committed in Hc.
  - split; [by eapply Hok|]. rewrite Hc. by eapply calm_mono.
  - apply Hu in Hr. split; [rewrite Hr|rewrite Hc]; by eapply calm_mono.
Qed.

Lemma undone_insert (f : DB → DB) {A} (a : A) : undone (write f;; mret a).
Proof. by intros s e s' Hr. Qed.

Ltac undone_walk :=
  repeat first
    [ apply undone_insert
    | apply undone_read; by steps_walk
    | apply undone_bind; [by steps_walk|intros ?]
    | match goal with |- undone (let _ := _ in _) => cbv zeta end ].

Lemma same_db_uuid4 : steps same_db uuid4.
Proof. by intros s. Qed.

Lemma same_db_varchar_opt n v : steps same_db (to_varchar_opt n v).
Proof. unfold to_varchar_opt. steps_walk. Qed.

Hint Resolve same_db_uuid4 same_db_varchar_opt : steps.

Lemma calm_payment_tx i ty a c p rid md : steps calm_later (insert_payment_tx i ty a c p rid md).
Proof.
  apply calm_insert.
  - unfold insert_payment_tx. undone_walk.
  - unfold insert_payment_tx, to_varchar_opt. steps_walk.
  - unfold insert_payment_tx, to_varchar_opt. steps_walk.
  - intros x s s' Hr [C1 C2 C3 C4 C5]. unfold insert_payment_tx in Hr. db_inv.
    repeat match goal with Hv : to_varchar_opt _ _ _ = _ |- _ => apply varchar_opt_reads in Hv; subst end.
    split; cbn; try done.
    + intros t [Ht|Ht]%elem_of_app.
      * destruct (C2 t Ht) as (k & ? & ?). exists k. split; [lia|done].
      * apply list_elem_of_singleton in Ht as ->. exists (ses_draws s). split; [lia|done].
    + intros t Ht. destruct (C3 t Ht) as (k & ? & ?). exists k. split; [lia|done].
Qed.

Lemma calm_get_provider t name : steps calm_later (get_provider t name).
Proof. apply calm_reads, get_provider_reads. Qed.

Lemma calm_varchar_opt n v : steps calm_later (to_varchar_opt n v).
Proof. unfold to_varchar_opt. steps_walk. Qed.

Hint Resolve calm_uuid4 calm_await calm_send calm_commit calm_rollback calm_nested calm_varchar_opt
  calm_get_provider : steps.
Hint Extern 0 (steps calm_later (insert_payment_tx _ _ _ _ _ _ _)) => apply calm_payment_tx : steps.

(** Changing a reversal without touching its identifier. *)
Lemma calm_reversals p f :
  (∀ r, rev_id (f r) = rev_id r) →
  steps calm_later (write (λ d, d <| reversals ::= update_where p f |>)).
Proof.
  intros Hf. apply calm_write. intros n d. apply calm_frame; try done.
  intros r (x & Hx & ->)%elem_of_update_where. exists x. split; [done|]. by case_match; [apply Hf|].
Qed.

Hint Extern 0 (steps calm_later (update_reversal _ _)) => by apply calm_reversals : steps.

Lemma calm_record i r p o : steps calm_later (_record_topup_reversal_payment_transaction i r p o).
Proof. unfold _record_topup_reversal_payment_transaction, except_integrity. steps_walk. Qed.

Lemma calm_process t rid : steps calm_later (process_wallet_topup_reversal t rid).
Proof.
  pose proof calm_record.
  unfold process_wallet_topup_reversal, get_payment_intent, call_refund, flush_reversal, live_reversal.
  steps_walk.
Qed.

(** ** Blocks that cannot fail *)

Lemma select_key {A B} `{EqDecision B} (f : A → B) k (p : A → bool) l :
  (∀ x, p x = true ↔ f x = k) → NoDup (f <$> l) → select p l = [] ∨ ∃ x, select p l = [x] ∧ x ∈ l.
Proof.
  intros Hp. induction l as [|x l IH]; [by left|]. intros [Hx Hl]%list.NoDup_cons. cbn.
  destruct (p x) eqn:Hpx; [right; exists x|].
  - split; [|left]. f_equal. apply select_nil. intros y Hy. destruct (p y) eqn:Hpy; [|done].
    exfalso. apply Hx. apply Hp in Hpx, Hpy. apply list_elem_of_fmap. exists y. split; congruence.
  - destruct (IH Hl) as [?|(y & ? & ?)]; [by left|]. right. exists y. split; [done|]. by right.
Qed.

Lemma insert_frc_total f s :
  GoodEnv HE → calm (ses_draws s) (ses_db s) → (∀ u, frc_id (f u) = u) →
  (∀ u, (String.length (frc_source_key (f u)) ≤ 160)%nat
        ∧ (String.length (frc_case_type (f u)) ≤ 100)%nat
        ∧ case_key (f u) ∉ case_key <$> resolution_cases (ses_db s)) →
  insert_frc f s = (Ok (f (env_uuid4 (ses_draws s))),
                    s <| ses_draws ::= S |>
                      <| ses_db ::= λ d, d <| resolution_cases ::= (λ t, t ++ [f (env_uuid4 (ses_draws s))]) |> |>).
Proof.
  intros HG Hc Hid Hf. set (c := f (env_uuid4 (ses_draws s))). destruct (Hf (env_uuid4 (ses_draws s))) as (F1 & F2 & F3).
  fold c in F1, F2, F3. unfold insert_frc, mbind, prog_bind, uuid4. fold c.
  unfold to_varchar. rewrite (proj2 (Nat.ltb_ge _ _) F1), (proj2 (Nat.ltb_ge _ _) F2). cbn.
  destruct (existsb _ _) eqn:Hex; [exfalso|done].
  apply existsb_exists in Hex as (x & Hx%list_elem_of_In & Hcf). unfold case_conflict in Hcf.
  apply orb_true_iff in Hcf as [Hcf|Hcf].
  - rewrite bool_decide_eq_true in Hcf. unfold c in Hcf. rewrite Hid in Hcf.
    destruct (cm_cases _ _ Hc x Hx) as (k & Hk & Heq). pose proof uuid4_inj.
    assert (k = ses_draws s) by (apply (inj env_uuid4); congruence). lia.
  - apply F3. apply andb_true_iff in Hcf as [K1 K2]. rewrite bool_decide_eq_true in K1, K2.
    apply list_elem_of_fmap. exists x. split; [|done]. unfold case_key. congruence.
Qed.

Lemma calm_new_case n d c :
  frc_id c = env_uuid4 n → GoodEnv HE → case_key c ∉ case_key <$> resolution_cases d →
  calm n d → calm (S n) (d <| resolution_cases ::= λ t, t ++ [c] |>).
Proof.
  intros Hid HG Hkey Hc. pose proof (calm_mono n (S n) d ltac:(lia) Hc) as [C1 C2 C3 C4 C5].
  split; cbn; try done.
  - intros x [Hx|Hx]%elem_of_app; [by apply C3|]. apply list_elem_of_singleton in Hx as ->. exists n. split; [lia|done].
  - rewrite fmap_app. apply list.NoDup_app. split_and!; [done| |apply NoDup_singleton].
    intros k (x & -> & Hx)%list_elem_of_fmap Hk%list_elem_of_singleton.
    destruct (cm_cases n d Hc x Hx) as (m & Hm & Heq). pose proof uuid4_inj.
    assert (m = n) by (apply (inj env_uuid4); congruence). lia.
  - rewrite fmap_app. apply list.NoDup_app. split_and!; [done| |apply NoDup_singleton].
    intros k (x & -> & Hx)%list_elem_of_fmap Hk%list_elem_of_singleton. apply Hkey. rewrite <- Hk.
    by apply list_elem_of_fmap_2.
Qed.

Lemma calm_update_case n d c c' :
  c ∈ resolution_cases d → frc_id c' = frc_id c → case_key c' = case_key c →
  calm n d → calm n (d <| resolution_cases ::= update_row (frc_id c) (λ _, c') |>).
Proof.
  intros Hin Hid Hkey [C1 C2 C3 C4 C5].
  assert (∀ x, x ∈ resolution_cases d → frc_id x = frc_id c → x = c) as Hsame
    by (intros x Hx; by apply (NoDup_fmap_inj frc_id (resolution_cases d))).
  assert (∀ {B} (k : FinancialResolutionCase → B), k c' = k c →
    k <$> update_row (frc_id c) (λ _, c') (resolution_cases d) = k <$> resolution_cases d) as Hmap.
  { intros B k Hk. clear -Hsame Hk. induction (resolution_cases d) as [|x t IH]; [done|]. cbn.
    f_equal; [|apply IH; intros y Hy; apply Hsame; by right]. case_bool_decide as Hx; [|done].
    rewrite Hk. f_equal. symmetry. apply Hsame; [left|done]. }
  split; cbn; try done; [|by rewrite Hmap..].
  intros x (y & Hy & ->)%elem_of_update_where. case_bool_decide; [rewrite Hid|]; by apply C3.
Qed.

Lemma reversal_case_type_length r :
  (∀ c, rev_last_error_code r = Some c → (String.length c ≤ 100)%nat) →
  (String.length (reversal_case_type r) ≤ 100)%nat.
Proof.
  intros Hc. unfold reversal_case_type. destruct (truthy _); [|cbn; lia].
  destruct (rev_last_error_code r) as [c|]; cbn; [by apply Hc|lia].
Qed.

(** Opening or refreshing the operator's case. *)
Lemma ensure_case_total r s :
  GoodEnv HE → calm_at s → (String.length (uuid_str (rev_id r)) ≤ 36)%nat →
  (∀ c, rev_last_error_code r = Some c → (String.length c ≤ 100)%nat) →
  wp (ensure_case_for_reversal r) (λ o s', is_ok o = true ∧ calm_at s') s.
Proof.
  intros HG [C1 C2] Hid Hcode. unfold ensure_case_for_reversal. destruct (_ != _); [apply wp_ret; split; [done|by split]|].
  cbv zeta. apply wp_gets. set (key := _source_key_for_reversal (rev_id r)).
  destruct (select_key case_key (rev_tenant_id r, key)
              (λ c, (frc_tenant_id c == rev_tenant_id r) && (frc_source_key c == key))
              (resolution_cases (ses_db s))) as [Hn|(c & Hc & Hin)].
  { intros c. rewrite andb_true_iff, !bool_decide_eq_true. unfold case_key.
    split; [intros [-> ->]; done|intros [= -> ->]; done]. }
  { apply (cm_case_keys _ _ C1). }
  - unfold cases_by_source. rewrite Hn. apply (wp_step _ _ _ _ None s); [done|]. apply wp_gets.
    apply (wp_step _ _ _ _ tt s); [unfold await_others, write, modify; cbn; by rewrite serial_race; destruct s|].
    assert ((rev_tenant_id r, key) ∉ case_key <$> resolution_cases (ses_db s)) as Hkey.
    { intros (c & Heq & Hin)%list_elem_of_fmap. rewrite select_nil in Hn. specialize (Hn c Hin).
      unfold case_key in Heq. injection Heq as H1 H2.
      by rewrite <- H1, <- H2, !bool_decide_eq_true_2 in Hn. }
    match goal with |- wp (except_integrity (x ← begin_nested (insert_frc ?f); _) _) _ _ =>
      pose proof (insert_frc_total f s HG C1) as Hins end.
    unfold except_integrity. apply wp_catch, wp_bind. unfold begin_nested. unfold wp at 1.
    rewrite Hins; [|done|]; clear Hins.
    + split; [done|]. split; [by apply calm_new_case|].
      eapply calm_mono; [|exact C2]. cbn. lia.
    + intros u. split_and!; [|by apply reversal_case_type_length|done].
      unfold key, _source_key_for_reversal. cbn [frc_source_key]. rewrite length_append. cbn. lia.
  - unfold cases_by_source. rewrite Hc. apply (wp_step _ _ _ _ (Some c) s); [done|]. apply wp_gets.
    apply wp_bind. unfold wp at 1. cbn [fst snd update_frc write modify]. apply wp_ret. split; [done|].
    split; [|done]. apply calm_update_case; done.
Qed.

Lemma wp_total {A} (m : M A) (Q : Session → Prop) s :
  wp m (λ o s', is_ok o = true ∧ Q s') s → ∃ a s', m s = (Ok a, s') ∧ Q s'.
Proof. unfold wp. destruct (m s) as [[a|e] s']; cbn; [intros [_ ?]; eauto|by intros [? _]]. Qed.

(** Both ways a failed attempt is put away return. *)
Lemma mark_retry_total mb rid code s :
  calm_at s → wp (_mark_retry mb rid code) (λ o s', is_ok o = true ∧ calm_at s') s.
Proof.
  intros Hc. assert (steps calm_later (_mark_retry mb rid code)) as Hs by (unfold _mark_retry; steps_walk).
  destruct (Hs s) as [_ Hc']. unfold wp. split; [|by apply Hc'].
  unfold _mark_retry, mbind, prog_bind, query, gets. destruct (get_row _ _) as [r|]; [|done].
  by destruct (_ == _).
Qed.

Lemma mark_review_total rid code detail s :
  GoodEnv HE → calm_at s →
  wp (_mark_manual_review rid code detail) (λ o s', is_ok o = true ∧ calm_at s') s.
Proof.
  intros HG Hc. apply wp_gets. destruct (get_row rid (reversals (ses_db s))) as [r|] eqn:Hr; [|by apply wp_ret].
  destruct (_ == RevCompleted); [by apply wp_ret|].
  apply wp_bind. unfold wp at 1. cbn [fst snd update_reversal write modify].
  match goal with |- context [wp _ _ ?s1] => set (s2 := s1) end.
  assert (calm_at s2) as Hc2.
  { destruct Hc as [C1 C2]. split; [|done]. eapply calm_frame; [..|exact C1]; try done.
    intros x (y & Hy & ->)%elem_of_update_where. exists y. split; [done|]. by case_match. }
  apply wp_gets. pose proof (get_row_Some _ _ _ Hr) as [Hin Hid]. change (rev_id r = rid) in Hid.
  match goal with |- context [ensure_case_for_reversal ?x] => set (row := x) end.
  assert (∃ y, y ∈ reversals (ses_db s2) ∧ rev_id row = rev_id y
               ∧ rev_last_error_code row = Some (prefix_of 100 code)) as (y & Hy & Hrow & Hcode).
  { eexists. split; [apply elem_of_update_where; exists r; split; [done|reflexivity]|].
    subst row s2. cbn. rewrite Hid, get_update_same, Hr by done. cbn.
    by rewrite bool_decide_eq_true_2. }
  apply wp_bind. eapply wp_mono.
  { apply ensure_case_total; [done|done|rewrite Hrow; by apply (cm_ids _ _ (proj1 Hc2))|].
    rewrite Hcode. intros c [= <-]. apply prefix_of_length. }
  intros [o|e] s3 [? Hc3]; [|done]. unfold wp. cbn. split; [done|]. by destruct Hc3.
Qed.

Lemma in_session_total {A} (m : M A) s :
  wp m (λ o s', is_ok o = true ∧ calm_at s') s →
  wp (in_session m) (λ o s', is_ok o = true ∧ calm_at s') s.
Proof.
  unfold wp. rewrite in_session_state. cbn. intros [? [C1 C2]]. split; [done|]. by split.
Qed.

Lemma process_claimed_total mb rid s :
  GoodEnv HE → calm_at s →
  wp (_process_claimed mb rid) (λ o s', is_ok o = true ∧ calm_at s') s.
Proof.
  intros HG Hc. apply in_session_total, wp_gets.
  destruct (get_row rid (reversals (ses_db s))) as [r|]; [|by apply wp_ret].
  apply wp_catch, wp_bind, wp_intro. intros o s1 Hr.
  destruct (steps_run _ _ _ _ _ (calm_process _ _) Hr) as [_ Hc1]. specialize (Hc1 Hc).
  destruct o as [x|e].
  { unfold wp. cbn. split; [done|]. by destruct Hc1. }
  apply (wp_step _ _ _ _ tt (s1 <| ses_db := ses_committed s1 |>)); [done|].
  assert (calm_at (s1 <| ses_db := ses_committed s1 |>)) by (by destruct Hc1).
  repeat case_match; apply in_session_total; auto using mark_retry_total, mark_review_total.
Qed.

Lemma claim_total rid s :
  calm_at s → wp (in_session (claim_reversal rid)) (λ o s', is_ok o = true ∧ calm_at s') s.
Proof.
  intros Hc. apply in_session_total. split; [done|].
  assert (steps calm_later (claim_reversal rid)) as Hs.
  { unfold claim_reversal. steps_walk. by apply calm_reversals. }
  by apply Hs.
Qed.

(** A pass never stops early. *)
Lemma poll_each_total mb ids n s :
  GoodEnv HE → calm_at s → wp (poll_each mb ids n) (λ o s', is_ok o = true ∧ calm_at s') s.
Proof.
  intros HG. revert n s. induction ids as [|rid ids IH]; intros n s Hc; [by apply wp_ret|].
  cbn [poll_each]. destruct (wp_total _ _ _ (claim_total rid s Hc)) as (b & s1 & Hr & Hc1).
  apply (wp_step _ _ _ _ _ _ Hr). destruct b; [|by apply IH].
  destruct (wp_total _ _ _ (process_claimed_total mb rid s1 HG Hc1)) as (u & s2 & Hr2 & Hc2).
  apply (wp_step _ _ _ _ _ _ Hr2). by apply IH.
Qed.

End calm.

(** ** A reversal that waits for its turn *)

Lemma in_session_ok {A} (m : M A) s a s' :
  m s = (Ok a, s') → in_session m s = (Ok a, s' <| ses_db := ses_committed s' |>).
Proof. intros Hr. by rewrite in_session_state, Hr. Qed.

(** What the gateway needs to be asked for, and confirm, the refund of [r]. *)
Record confirmable `{Env} `{Gateways} (r : WalletTopUpReversal) (i : PaymentIntent) (u : User)
    (g : Gateway) (res : PaymentRefundResult) (s : Session) : Prop := {
  cf_intent : select (λ x, intent_id x == rev_payment_intent_id r) (intents (ses_db s)) = [i]
              ∧ intent_tenant_id i = rev_tenant_id r;
  cf_user : get_row (rev_user_id r) (users (ses_db s)) = Some u;
  cf_gateway : get_provider (rev_tenant_id r) (rev_provider r) s = (Ok g, s);
  cf_answer : ∀ sent, gw_refund g sent (reversal_refund_request i u r) = Ok res;
  cf_success : prres_is_success res = true ∧ (String.length (prres_provider_refund_id res) ≤ 100)%nat;
  cf_columns : numeric 12 2 (rev_amount r) = Some (rev_amount r)
               ∧ (String.length (rev_currency r) ≤ 3)%nat;
  cf_unrecorded : ∀ t, t ∈ payment_txs (ses_db s) → ptx_reference_id t ≠ Some (reversal_tx_ref r);
}.

(** The parts of the database that decide it. *)
Record ready (r : WalletTopUpReversal) (d0 d : DB) : Prop := {
  rd_row : get_row (rev_id r) (reversals d) = Some r;
  rd_intents : intents d = intents d0;
  rd_users : users d = users d0;
  rd_configs : provider_configs d = provider_configs d0;
  rd_txs : ∀ t, t ∈ payment_txs d → ptx_reference_id t ≠ Some (reversal_tx_ref r);
}.

Definition ready_at (r : WalletTopUpReversal) (d0 : DB) (s : Session) : Prop :=
  ready r d0 (ses_db s) ∧ ready r d0 (ses_committed s).

Lemma tx_ref_inj r x : reversal_tx_ref x = reversal_tx_ref r → rev_id x = rev_id r.
Proof. intros Heq. apply (inj uuid_str). unfold reversal_tx_ref in Heq. by injection Heq. Qed.

Section ready.
  Context `{HE : Env} `{!Serial HE} `{Gateways} (r : WalletTopUpReversal) (d0 : DB).

Abbreviation kept := (keeps (ready_at r d0)).

Lemma ready_write f : (∀ d, ready r d0 d → ready r d0 (f d)) → steps kept (write f).
Proof. intros Hf s [R1 R2]. split; [by apply Hf|done]. Qed.

Lemma ready_uuid4 : steps kept uuid4.
Proof. by intros s Hs. Qed.

Lemma ready_send m : steps kept (send m).
Proof. by intros s Hs. Qed.

Lemma ready_await : steps kept await_others.
Proof. apply ready_write. intros d. by rewrite serial_race. Qed.

Lemma ready_commit : steps kept commit.
Proof. by intros s [R1 R2]. Qed.

Lemma ready_rollback : steps kept rollback.
Proof. by intros s [R1 R2]. Qed.

Lemma ready_nested {A} (m : M A) : steps kept m → steps kept (begin_nested m).
Proof.
  intros Hm s Hs. specialize (Hm s Hs). unfold begin_nested. destruct (m s) as [[a|e] s']; [done|].
  destruct Hm as [_ R2]. by destruct Hs.
Qed.

Lemma ready_reads {A} (m : M A) : steps eq m → steps kept m.
Proof. intros Hm s. by rewrite <- (Hm s). Qed.

(** Updates of other reversals. *)
Lemma ready_update_where d p f :
  (∀ x, rev_id (f x) = rev_id x) → (∀ x, p x = true → rev_id x ≠ rev_id r) →
  ready r d0 d → ready r d0 (d <| reversals ::= update_where p f |>).
Proof.
  intros Hf Hp [R1 R2 R3 R4 R5]. split; try done. cbn. unfold get_row, first in *.
  rewrite select_update_where by (intros x _ _; cbn; by rewrite Hf).
  destruct (select _ (reversals d)) as [|x l] eqn:Hs; [done|]. injection R1 as ->. cbn.
  destruct (p r) eqn:Hpr; [by apply Hp in Hpr|done].
Qed.

Lemma ready_update rid f :
  rid ≠ rev_id r → (∀ x, rev_id (f x) = rev_id x) → steps kept (update_reversal rid f).
Proof.
  intros Hne Hf. apply ready_write. intros d. apply ready_update_where; [done|].
  intros x Hx Heq. rewrite bool_decide_eq_true in Hx. apply Hne. by rewrite <- Hx.
Qed.

Lemma ready_payment_tx i ty a c p ref md :
  ref ≠ Some (reversal_tx_ref r) → steps kept (insert_payment_tx i ty a c p ref md).
Proof.
  intros Hne. unfold insert_payment_tx, to_varchar_opt.
  pose proof ready_uuid4. steps_walk. apply ready_write. intros d [R1 R2 R3 R4 R5]. split; try done. cbn.
  intros t [Ht|Ht]%elem_of_app; [by apply R5|]. by apply list_elem_of_singleton in Ht as ->.
Qed.

Hint Resolve ready_uuid4 ready_send ready_await ready_commit ready_rollback ready_nested : steps.

Lemma ready_record i x p o :
  rev_id x ≠ rev_id r → steps kept (_record_topup_reversal_payment_transaction i x p o).
Proof.
  intros Hne. assert (∀ a c q md, steps kept (insert_payment_tx i PtRefund a c q (Some (reversal_tx_ref x)) md)).
  { intros. apply ready_payment_tx. intros Heq. apply Hne, tx_ref_inj. congruence. }
  unfold _record_topup_reversal_payment_transaction, except_integrity. steps_walk.
Qed.

Lemma ready_case x : steps kept (ensure_case_for_reversal x).
Proof.
  assert (∀ f : list FinancialResolutionCase → list FinancialResolutionCase,
             steps kept (write (λ d, d <| resolution_cases ::= f |>))) as Hw.
  { intros f. apply ready_write. by intros d []. }
  unfold ensure_case_for_reversal, except_integrity, update_frc, insert_frc. steps_walk.
  all: apply ready_nested; steps_walk.
Qed.

Lemma ready_process t rid : rid ≠ rev_id r → steps kept (process_wallet_topup_reversal t rid).
Proof.
  intros Hne s Hs. unfold process_wallet_topup_reversal.
  destruct (get_row rid (reversals (ses_db s))) as [x|] eqn:Hx; [|by unfold mbind, prog_bind, query, gets; rewrite Hx].
  pose proof (get_row_Some _ _ _ Hx) as [_ Hid]. change (rev_id x = rid) in Hid.
  assert (∀ i p o, steps kept (_record_topup_reversal_payment_transaction i x p o)) as Hrec
    by (intros; apply ready_record; congruence).
  assert (∀ t name, steps kept (get_provider t name)) as Hgp
    by (intros; apply ready_reads, get_provider_reads).
  assert (∀ f, (∀ y, rev_id (f y) = rev_id y) → steps kept (update_reversal rid f)) as Hup
    by (intros; by apply ready_update).
  apply (ensures_gets (ready_at r d0)). rewrite Hx. apply ensures_of_option; [done|].
  intros a [= <-]. revert s Hs Hx.
  match goal with |- ∀ s, _ → _ → ensures _ ?m _ => cut (steps kept m); [intros Hm s Hs _; by apply Hm|] end.
  unfold get_payment_intent, call_refund, flush_reversal, live_reversal, to_varchar_opt.
  steps_walk.
Qed.

Lemma ready_session {A} (m : M A) : steps kept m → steps kept (in_session m).
Proof. intros Hm. unfold in_session. steps_walk. Qed.

Lemma ready_process_claimed mb rid : rid ≠ rev_id r → steps kept (_process_claimed mb rid).
Proof.
  intros Hne. pose proof ready_case. pose proof (λ t, ready_process t rid Hne).
  assert (∀ f, (∀ y, rev_id (f y) = rev_id y) → steps kept (update_reversal rid f)) as Hup
    by (intros; by apply ready_update).
  assert (∀ code, steps kept (in_session (_mark_retry mb rid code)))
    by (intros; apply ready_session; unfold _mark_retry; steps_walk).
  assert (∀ code detail, steps kept (in_session (_mark_manual_review rid code detail)))
    by (intros; apply ready_session; unfold _mark_manual_review, live_reversal; steps_walk).
  apply ready_session. steps_walk.
Qed.

Lemma ready_claim rid : rid ≠ rev_id r → steps kept (in_session (claim_reversal rid)).
Proof.
  intros Hne. apply ready_session. unfold claim_reversal. steps_walk. apply ready_write.
  intros d. apply ready_update_where; [done|].
  intros x [Hx _]%andb_true_iff Heq. rewrite bool_decide_eq_true in Hx. congruence.
Qed.

End ready.

(** ** Its turn *)

Section turn.
  Context `{HE : Env} `{!GoodEnv HE} `{!Serial HE} `{Gateways}.

Lemma varchar_opt_total n v s :
  (∀ x, v = Some x → (String.length x ≤ n)%nat) → to_varchar_opt n v s = (Ok tt, s).
Proof.
  intros Hv. unfold to_varchar_opt. destruct v as [x|]; [|done]. unfold to_varchar.
  by rewrite (proj2 (Nat.ltb_ge _ _) (Hv x eq_refl)).
Qed.

Lemma payment_tx_total i ty a c p ref md s :
  calm (ses_draws s) (ses_db s) → numeric 12 2 a = Some a → (String.length c ≤ 3)%nat →
  (∀ x, p = Some x → (String.length x ≤ 100)%nat) → (∀ x, ref = Some x → (String.length x ≤ 100)%nat) →
  (∀ t, t ∈ payment_txs (ses_db s) → ptx_reference_id t ≠ ref) →
  ∃ t s', insert_payment_tx i ty a c p ref md s = (Ok t, s').
Proof.
  intros Hc Ha Hlen Hp Href Hnew. unfold insert_payment_tx.
  erewrite (bind_ok uuid4) by reflexivity. unfold to_numeric. rewrite Ha. erewrite bind_ok by reflexivity.
  unfold to_varchar. rewrite (proj2 (Nat.ltb_ge _ _) Hlen). erewrite bind_ok by reflexivity.
  rewrite !(bind_ok _ _ _ _ _ (varchar_opt_total _ _ _ Hp)),
    !(bind_ok _ _ _ _ _ (varchar_opt_total _ _ _ Href)).
  cbv zeta. erewrite bind_ok by reflexivity. cbn [ses_db].
  match goal with |- context [raise_if ?b _] => destruct b eqn:Hex end; [exfalso|by do 2 eexists].
  apply existsb_exists in Hex as (t & Ht%list_elem_of_In & Hcf). unfold payment_tx_conflict in Hcf.
  apply orb_true_iff in Hcf as [Hcf|Hcf].
  - rewrite bool_decide_eq_true in Hcf. cbn in Hcf. destruct (cm_txs _ _ Hc t Ht) as (k & Hk & Heq).
    pose proof uuid4_inj. assert (k = ses_draws s) by (apply (inj env_uuid4); congruence). lia.
  - apply andb_true_iff in Hcf as [_ Hcf]. rewrite bool_decide_eq_true in Hcf. by apply (Hnew t Ht).
Qed.

(** The record of the refund is new, so it is accepted. *)
Lemma record_total i x p o s :
  calm (ses_draws s) (ses_db s) → (String.length (uuid_str (rev_id x)) ≤ 36)%nat →
  (∀ t, t ∈ payment_txs (ses_db s) → ptx_reference_id t ≠ Some (reversal_tx_ref x)) →
  numeric 12 2 (rev_amount x) = Some (rev_amount x) → (String.length (rev_currency x) ≤ 3)%nat →
  (String.length p ≤ 100)%nat →
  ∃ s', _record_topup_reversal_payment_transaction i x p o s = (Ok tt, s').
Proof.
  intros Hc Hid Hnew Ham Hcur Hp. unfold _record_topup_reversal_payment_transaction.
  assert (reversal_txs i x (ses_db s) = None) as Hnone.
  { apply first_None, select_nil. intros t Ht. rewrite !andb_false_iff, !bool_decide_eq_false.
    right. by apply Hnew. }
  erewrite (bind_ok (query _)) by reflexivity. rewrite Hnone.
  assert (await_others s = (Ok tt, s)) as Haw
    by (unfold await_others, write, modify; cbn; by rewrite serial_race; destruct s).
  rewrite (bind_ok _ _ _ _ _ Haw). unfold except_integrity, catch, mbind, prog_bind, begin_nested.
  edestruct payment_tx_total as (t & s' & ->); [exact Hc|exact Ham|exact Hcur| | |exact Hnew|by eexists].
  - by intros y [= <-].
  - intros y Hy. assert (y = reversal_tx_ref x) as -> by congruence.
    unfold reversal_tx_ref. rewrite length_append. cbn. lia.
Qed.

Lemma get_payment_intent_total t iid i s :
  select (λ x, intent_id x == iid) (intents (ses_db s)) = [i] → intent_tenant_id i = t →
  get_payment_intent t iid s = (Ok i, s).
Proof.
  intros Hs Ht. unfold get_payment_intent, query, gets, mbind, prog_bind, one_or_none. rewrite Hs. cbn.
  by rewrite bool_decide_eq_true_2.
Qed.

Definition refund_done (r y : WalletTopUpReversal) (res : PaymentRefundResult) : Prop :=
  rev_status y = RevCompleted ∧ rev_provider_refund_id y = Some (prres_provider_refund_id res)
  ∧ rev_key y = rev_key r.

(** A claimed reversal whose gateway confirms is completed. *)
Lemma process_total r i u g res s :
  get_row (rev_id r) (reversals (ses_db s)) = Some r → rev_status r = RevProcessing →
  calm_at s → confirmable r i u g res s →
  ∃ x s', process_wallet_topup_reversal (rev_tenant_id r) (rev_id r) s = (Ok x, s')
    ∧ ∃ y, get_row (rev_id r) (reversals (ses_db s')) = Some y ∧ refund_done r y res.
Proof.
  intros Hrow Hst [Hc _] [[F1 F1'] F2 F3 F4 [F5 F5'] [F6 F6'] F7]. unfold process_wallet_topup_reversal.
  pose proof (get_row_Some _ _ _ Hrow) as [Hin _].
  erewrite (bind_ok (query _)) by reflexivity. rewrite Hrow. erewrite bind_ok by reflexivity.
  rewrite (bool_decide_eq_true_2 (rev_tenant_id r = _)) by done. erewrite bind_ok by reflexivity. rewrite Hst.
  rewrite (bool_decide_eq_false_2 (RevProcessing = RevCompleted)) by done.
  rewrite (bool_decide_eq_true_2 (RevProcessing = _)) by done. erewrite bind_ok by reflexivity.
  rewrite (bind_ok _ _ _ _ _ (get_payment_intent_total _ _ _ _ F1 F1')).
  erewrite (bind_ok (query _)) by reflexivity. rewrite F2. erewrite bind_ok by reflexivity.
  rewrite (bind_ok _ _ _ _ _ F3). erewrite (bind_ok (call_refund _ _ _ _))
    by (unfold call_refund, mbind, prog_bind, gets, send, modify; cbn; rewrite F4; reflexivity).
  rewrite F5. erewrite bind_ok by reflexivity. erewrite (bind_ok now) by reflexivity.
  unfold update_reversal at 1. erewrite (bind_ok (write _)) by reflexivity.
  match goal with |- context [_record_topup_reversal_payment_transaction ?i ?x ?p ?o ≫= ?k] =>
    match goal with |- context [(_ ≫= k) ?s1] => set (s2 := s1) end end.
  assert (get_row (rev_id r) (reversals (ses_db s2))
          = Some (completed_at (env_clock (ses_draws s))
                    (r <| rev_provider_refund_id := Some (prres_provider_refund_id res) |>)
                    <| rev_next_attempt_at := None |>)) as Hrow2
    by (subst s2; cbn; by rewrite get_update_same, Hrow).
  destruct (record_total i r (prres_provider_refund_id res) "merchant_request" s2) as (s3 & Hrec); try done.
  { subst s2. cbn. eapply calm_frame; [..|exact Hc]; try done.
    intros x (y & Hy & ->)%elem_of_update_where. exists y. split; [done|]. by case_match. }
  { by apply (cm_ids _ _ Hc). }
  rewrite (bind_ok _ _ _ _ _ Hrec).
  pose proof (steps_run _ _ _ _ _ (same_saga_record _ _ _ _) Hrec) as [Hrev _].
  assert (live_reversal r s3 = (Ok (completed_at (env_clock (ses_draws s))
                    (r <| rev_provider_refund_id := Some (prres_provider_refund_id res) |>)
                    <| rev_next_attempt_at := None |>), s3)) as Hlive
    by (unfold live_reversal, query, gets; by rewrite Hrev, Hrow2).
  unfold flush_reversal. rewrite (bind_ok _ _ _ _ _ Hlive).
  erewrite (bind_ok (to_varchar_opt _ _)) by (apply varchar_opt_total; by intros y [= <-]).
  do 2 eexists. split; [done|]. rewrite Hrev, Hrow2. by eexists.
Qed.

(** The registry reads the gateway's configuration and nothing else. *)
Lemma get_provider_frame t name g s1 s2 :
  provider_configs (ses_db s2) = provider_configs (ses_db s1) →
  get_provider t name s1 = (Ok g, s1) → get_provider t name s2 = (Ok g, s2).
Proof.
  intros Hc. unfold get_provider. destruct (gw_overrides _ _); [by intros [= ->]|].
  unfold webhook_secret_of, get_payment_secret, configs_of, query, gets, mbind, prog_bind, one_or_none,
    of_outcome, of_option, raise_if. cbn. rewrite Hc.
  destruct (scalar_one_or_none _ _) as [[c|]|]; [|done..]. cbn.
  destruct (negb _); [done|]. destruct (gw_factories _); [|done]. cbn.
  destruct (gw_cached _ _); [by intros [= ->]|]. destruct (gw_secret _); [|done]. cbn.
  destruct (truthy _); cbn; [destruct (gw_secret _); [|done]|]; cbn; (destruct (o _ _ _); [|done]); by intros [= ->].
Qed.

(** The row as the claim leaves it. *)
Definition claimed_row (n : Z) (r : WalletTopUpReversal) : WalletTopUpReversal :=
  r <| rev_status := RevProcessing |> <| rev_attempts ::= Z.succ |>
    <| rev_last_attempt_at := Some n |> <| rev_next_attempt_at := None |>.

Lemma claim_run r s :
  get_row (rev_id r) (reversals (ses_db s)) = Some r → claimable (env_clock (ses_draws s)) r = true →
  ∃ s1, in_session (claim_reversal (rev_id r)) s = (Ok true, s1)
    ∧ get_row (rev_id r) (reversals (ses_db s1)) = Some (claimed_row (env_clock (ses_draws s)) r)
    ∧ intents (ses_db s1) = intents (ses_db s) ∧ users (ses_db s1) = users (ses_db s)
    ∧ provider_configs (ses_db s1) = provider_configs (ses_db s)
    ∧ payment_txs (ses_db s1) = payment_txs (ses_db s).
Proof.
  intros Hrow Hcl. rewrite in_session_state.
  assert (0 <? rowcount (claims (rev_id r) (env_clock (ses_draws s))) (reversals (ses_db s)) = true)%nat as Hn.
  { apply Nat.ltb_lt. unfold rowcount. apply get_row_Some in Hrow as [Hin _].
    assert (r ∈ select (claims (rev_id r) (env_clock (ses_draws s))) (reversals (ses_db s))) as Hs.
    { apply elem_of_select. split; [done|]. unfold claims. by rewrite Hcl, bool_decide_eq_true_2. }
    destruct (select _ _); [by apply elem_of_nil in Hs|cbn; lia]. }
  exists ((claim_reversal (rev_id r) s).2 <| ses_db := ses_committed (claim_reversal (rev_id r) s).2 |>).
  split; [|split_and!; [|done..]].
  - apply f_equal2; [|reflexivity].
    change (Ok (E := exn) (0 <? rowcount (claims (rev_id r) (env_clock (ses_draws s)))
                                 (reversals (ses_db s)))%nat = Ok true). by rewrite Hn.
  - change (get_row (rev_id r) (update_where (claims (rev_id r) (env_clock (ses_draws s)))
              (claimed_row (env_clock (ses_draws s))) (reversals (ses_db s)))
            = Some (claimed_row (env_clock (ses_draws s)) r)).
    unfold get_row, first in *. rewrite select_update_where by (by intros).
    destruct (select _ _) as [|x l]; [done|]. injection Hrow as ->. cbn. unfold claims.
    by rewrite Hcl, bool_decide_eq_true_2.
Qed.

Lemma confirmable_frame r x i u g res s s' :
  rev_id x = rev_id r → rev_tenant_id x = rev_tenant_id r → rev_provider x = rev_provider r →
  rev_payment_intent_id x = rev_payment_intent_id r → rev_user_id x = rev_user_id r →
  rev_amount x = rev_amount r → rev_currency x = rev_currency r →
  reversal_refund_request i u x = reversal_refund_request i u r →
  intents (ses_db s') = intents (ses_db s) → users (ses_db s') = users (ses_db s) →
  provider_configs (ses_db s') = provider_configs (ses_db s) →
  (∀ t, t ∈ payment_txs (ses_db s') → ptx_reference_id t ≠ Some (reversal_tx_ref r)) →
  confirmable r i u g res s → confirmable x i u g res s'.
Proof.
  intros E1 E2 E3 E4 E5 E6 E7 E8 W1 W2 W3 W4 [F1 F2 F3 F4 F5 F6 F7].
  split; rewrite ?W1, ?W2, ?E1, ?E2, ?E3, ?E4, ?E5, ?E6, ?E7, ?E8; try done.
  - by eapply get_provider_frame.
  - unfold reversal_tx_ref. by rewrite E1.
Qed.

Lemma turn_completes r i u g res mb s :
  persisted s → saga_inv (ses_db s) → calm_at s →
  get_row (rev_id r) (reversals (ses_db s)) = Some r → claimable (env_clock (ses_draws s)) r = true →
  confirmable r i u g res s →
  ∃ s1 s2, in_session (claim_reversal (rev_id r)) s = (Ok true, s1)
    ∧ _process_claimed mb (rev_id r) s1 = (Ok tt, s2)
    ∧ persisted s2 ∧ calm_at s2 ∧ saga_inv (ses_db s2) ∧ saga_of (ses_db s2) (rev_key r) = Done.
Proof.
  intros Hp Hi Hc Hrow Hcl Hf.
  destruct (claim_run r s Hrow Hcl) as (s1 & Hclaim & Hrow1 & W1 & W2 & W3 & W4). exists s1.
  pose proof (claim_moves (rev_id r) s Hi) as (Hp1 & Hm1 & _). rewrite Hclaim in Hp1, Hm1. cbn in Hp1, Hm1.
  pose proof (wp_run _ _ _ _ _ (claim_total (rev_id r) s Hc) Hclaim) as [_ Hc1].
  set (x := claimed_row (env_clock (ses_draws s)) r) in *.
  assert (confirmable x i u g res s1) as Hf1.
  { eapply (confirmable_frame r x i u g res s s1); try done. rewrite W4. apply Hf. }
  destruct (process_total x i u g res s1 Hrow1 eq_refl Hc1 Hf1) as (y & s2 & Hr & z & Hz & Hdone).
  pose proof (process_moves _ _ _ _ _ (proj1 Hm1) Hr) as [Hi2 _].
  pose proof (steps_run _ _ _ _ _ (calm_process _ _) Hr) as [_ Hc2]. specialize (Hc2 Hc1).
  exists (s2 <| ses_committed := ses_db s2 |>). split; [done|]. split.
  { change (rev_id x) with (rev_id r) in *. unfold _process_claimed.
    rewrite (in_session_ok _ s1 tt (s2 <| ses_committed := ses_db s2 |>)); [done|].
    erewrite (bind_ok (query _)) by reflexivity. rewrite Hrow1. unfold catch, mbind, prog_bind. by rewrite Hr. }
  split; [done|]. split; [by destruct Hc2|]. split; [done|].
  cbn. apply get_row_Some in Hz as [Hz _]. destruct Hdone as (Hst & _ & Hkey).
  change (rev_key x) with (rev_key r) in Hkey. rewrite <- Hkey, (saga_of_row _ z Hi2 Hz).
  unfold row_saga. by rewrite Hst.
Qed.

Lemma claimable_later m n r : (m ≤ n)%nat → claimable (env_clock m) r = true → claimable (env_clock n) r = true.
Proof.
  intros Hmn. unfold claimable. rewrite !andb_true_iff. intros [Hst Hd]. split; [done|].
  destruct (rev_next_attempt_at r) as [t|]; [|done]. apply Z.leb_le in Hd. apply Z.leb_le.
  destruct (decide (m = n)) as [->|Hne]; [done|].
  pose proof (clock_advances m n ltac:(lia)). lia.
Qed.

Lemma done_stays a : rtc saga_step Done a → a = Done.
Proof.
  intros Hr. remember Done as b eqn:Hb. revert Hb. induction Hr as [|x y z Hxy _ _]; [done|].
  intros ->. inversion Hxy; subst. set_solver.
Qed.

Lemma later_process_claimed mb rid : steps later (_process_claimed mb rid).
Proof.
  pose proof later_send. assert (∀ t name, steps later (get_provider t name)) as Hgp.
  { intros t name s. by rewrite <- (get_provider_reads t name s). }
  unfold _process_claimed, in_session, _mark_retry, _mark_manual_review, ensure_case_for_reversal,
    process_wallet_topup_reversal, get_payment_intent, call_refund, except_integrity, update_frc,
    insert_frc, _record_topup_reversal_payment_transaction, insert_payment_tx, update_reversal,
    flush_reversal, live_reversal, to_varchar_opt. steps_walk.
  all: apply later_nested; steps_walk.
Qed.

(** A waiting reversal is completed somewhere in the pass. *)
Lemma poll_each_completes r i u g res s0 mb ids n s :
  persisted s → saga_inv (ses_db s) → calm_at s → ready_at r (ses_db s0) s →
  confirmable r i u g res s0 → claimable (env_clock (ses_draws s)) r = true → rev_id r ∈ ids →
  ∃ n' s', poll_each mb ids n s = (Ok n', s') ∧ persisted s' ∧ saga_of (ses_db s') (rev_key r) = Done.
Proof.
  intros Hp Hi Hc Hrd Hf Hcl Hin. revert n s Hp Hi Hc Hrd Hcl.
  induction ids as [|rid ids IH]; intros n s Hp Hi Hc Hrd Hcl; [by apply elem_of_nil in Hin|].
  cbn [poll_each]. destruct (decide (rid = rev_id r)) as [->|Hne].
  - destruct Hrd as [[R1 R2 R3 R4 R5] _].
    destruct (turn_completes r i u g res mb s) as (s1 & s2 & H1 & H2 & Hp2 & Hc2 & Hi2 & Hd); try done.
    { by eapply (confirmable_frame r r i u g res s0 s). }
    rewrite (bind_ok _ _ _ _ _ H1), (bind_ok _ _ _ _ _ H2).
    destruct (wp_total _ _ _ (poll_each_total mb ids (S n) s2 ltac:(done) Hc2)) as (n' & s' & Hr & _).
    exists n', s'. split; [done|]. pose proof (poll_each_moves mb ids (S n) s2 Hp2 Hi2) as [Hp' [_ Hk]].
    rewrite Hr in Hp', Hk. split; [done|]. apply done_stays. rewrite <- Hd. apply Hk.
  - apply elem_of_cons in Hin as [Hin|Hin]; [by destruct Hne|].
    destruct (wp_total _ _ _ (claim_total rid s Hc)) as (b & s1 & Hr1 & Hc1).
    rewrite (bind_ok _ _ _ _ _ Hr1).
    pose proof (claim_moves rid s Hi) as (Hp1 & [Hi1 _] & Hst1). rewrite Hr1 in Hp1, Hi1, Hst1. cbn in Hp1, Hi1, Hst1.
    pose proof (steps_run _ _ _ _ _ (ready_claim r (ses_db s0) rid Hne) Hr1 Hrd) as Hrd1.
    assert (later s s1) as Hl1.
    { eapply (steps_run later); [|exact Hr1]. unfold in_session, claim_reversal. steps_walk. }
    pose proof (claimable_later _ _ _ Hl1 Hcl) as Hcl1. destruct b; [|by apply IH].
    destruct (wp_total _ _ _ (process_claimed_total mb rid s1 ltac:(done) Hc1)) as ([] & s2 & Hr2 & Hc2).
    rewrite (bind_ok _ _ _ _ _ Hr2). destruct Hst1 as (y & Hy & Hyid & Hyst); [done|].
    destruct (process_claimed_moves mb rid s1 Hp1 Hi1) as [Hp2 [Hi2 _]].
    { intros z Hz Hzid. rewrite (rev_id_inj _ z y Hi1); congruence. }
    rewrite Hr2 in Hp2, Hi2.
    pose proof (steps_run _ _ _ _ _ (ready_process_claimed r (ses_db s0) mb rid Hne) Hr2 Hrd1) as Hrd2.
    apply IH; try done. eapply claimable_later; [|exact Hcl1].
    by eapply (steps_run later _ _ _ _ (later_process_claimed mb rid)).
Qed.

Lemma due_reversals_all limit n d r :
  (length (reversals d) ≤ limit)%nat → r ∈ reversals d → claimable n r = true →
  rev_id r ∈ due_reversals limit n d.
Proof.
  intros Hl Hin Hcl. unfold due_reversals. rewrite take_ge.
  - apply list_elem_of_fmap_2, elem_of_sort_by, elem_of_select. done.
  - rewrite List.length_map, sort_by_perm. etrans; [|exact Hl]. apply List.filter_length_le.
Qed.

(** [recover_processing], on the row of one reversal. *)
Definition recovered (n : Z) (r : WalletTopUpReversal) : WalletTopUpReversal :=
  if rev_status r == RevProcessing
  then r <| rev_status := RevReconciliationRequired |> <| rev_next_attempt_at := Some n |>
         <| rev_last_error_code := Some "WORKER_RECOVERY" |>
         <| rev_last_error_detail := Some "Recovered an interrupted provider refund attempt." |>
  else r.

Definition after_recovery (s : Session) : Session :=
  let d := (ses_db s) <| reversals ::= map (recovered (env_clock (ses_draws s))) |> in
  s <| ses_db := d |> <| ses_committed := d |>.

Lemma recover_run s :
  in_session recover_processing s =
  (Ok (rowcount (λ r, rev_status r == RevProcessing) (reversals (ses_db s))), after_recovery s).
Proof. by rewrite in_session_state. Qed.

Lemma restart_completes r i u g res mb limit s :
  persisted s → saga_inv (ses_db s) → calm_at s → r ∈ reversals (ses_db s) →
  rev_status r = RevProcessing ∨ claimable (env_clock (ses_draws s)) r = true →
  confirmable r i u g res s → (length (reversals (ses_db s)) ≤ limit)%nat →
  ∃ n s', poll_once mb limit (in_session recover_processing s).2 = (Ok n, s')
    ∧ persisted s' ∧ saga_of (ses_db s') (rev_key r) = Done.
Proof.
  intros Hp Hi Hc Hin Hdue Hf Hlim. pose proof (recover_moves s Hi) as [Hp1 [Hi1 _]].
  rewrite recover_run in *. cbn [snd] in *. set (s1 := after_recovery s) in *.
  set (now0 := env_clock (ses_draws s)) in *. set (x := recovered now0 r).
  assert (x ∈ reversals (ses_db s1)) as Hx by (apply list_elem_of_In, List.in_map, list_elem_of_In; done).
  assert (rev_id x = rev_id r ∧ rev_key x = rev_key r) as [Hxid Hxk]
    by (unfold x, recovered; by case_match).
  assert (claimable now0 x = true) as Hcl.
  { unfold x, recovered. case_bool_decide as Hst; [|by destruct Hdue].
    unfold claimable. cbn. by rewrite Z.leb_refl. }
  assert (calm_at s1) as Hc1.
  { destruct Hc as [C1 _]. assert (calm (ses_draws s) (ses_db s1)) as C; [|by split].
    eapply calm_frame; [..|exact C1]; try done.
    intros y (z & Hz & Hzin)%list_elem_of_In%List.in_map_iff. exists z.
    split; [by apply list_elem_of_In|]. subst y. unfold recovered. by case_match. }
  assert (confirmable x i u g res s1) as Hf1.
  { eapply (confirmable_frame r x i u g res s s1); try done; try apply Hf;
      unfold x, recovered; by case_match. }
  unfold poll_once. erewrite (bind_ok now) by reflexivity. erewrite (bind_ok (query _)) by reflexivity.
  rewrite <- Hxk. eapply (poll_each_completes x i u g res s1); try done.
  - assert (ready x (ses_db s1) (ses_db s1)) as R; [|by split].
    split; try done; [by apply reversal_get|apply Hf1].
  - apply due_reversals_all; [|done|done]. cbn. by rewrite List.length_map.
Qed.

End turn.


(** [C16] The worker makes progress.  Let a reversal's refund be outstanding:
    its row is in [PROCESSING] (a worker was interrupted) or due for an attempt.
    If its intent, its user and its gateway are there and the gateway confirms
    the refund when asked, then starting a worker ([recover_processing]) and one
    pass of it over the backlog ([poll_once], with a limit that covers the
    table) returns, whatever happens to the other reversals of the backlog, and
    the reversal is completed in the committed database. *)
Theorem outstanding_reversal_completed `{HE : Env} `{Gateways} r i u g res mb limit s :
  GoodEnv HE → Serial HE → persisted s → saga_inv (ses_db s) → calm_at s →
  r ∈ reversals (ses_db s) →
  rev_status r = RevProcessing ∨ claimable (env_clock (ses_draws s)) r = true →
  confirmable r i u g res s → (length (reversals (ses_db s)) ≤ limit)%nat →
  ∃ n s', poll_once mb limit (in_session recover_processing s).2 = (Ok n, s')
    ∧ persisted s' ∧ saga_of (ses_db s') (rev_key r) = Done.
Proof. intros HG HS. apply restart_completes. Qed.

(** The demonstration of [ReversalsSpec.v], stopped after the claim. *)
Definition interrupted_demo : Session :=
  @run_ops demo_env demo_gateways
    (demo_topup ++ [OpRequest (mk_uuid "t") (mk_uuid "uuid-0") "rk" (Some "changed my mind") None;
                    OpClaim (mk_uuid "uuid-5")]) rev_session.

Definition interrupted_reversal : WalletTopUpReversal :=
  MkWalletTopUpReversal (mk_uuid "uuid-5") (mk_uuid "t") (mk_uuid "uuid-0") (mk_uuid "u")
    (mk_uuid "uuid-2") "mock" "pay-k2" None (cents 2500) "USD" "rk" RevProcessing 1 None (Some 7)
    None None None [("reason", JStr "changed my mind"); ("requested_by_user_id", JNull)] 5.

Definition interrupted_intent : PaymentIntent :=
  MkPaymentIntent (mk_uuid "uuid-0") (mk_uuid "t") None WALLET_TOPUP (mk_uuid "u") None "mock"
    (Some "pay-k2") (Some "https://gateway.example/pay") "USD" (cents 2500) PaySucceeded "k2"
    [("_provider_verification", JObj [("order", JStr "42")])].

Lemma interrupted_calm : @calm_at demo_env interrupted_demo.
Proof.
  assert (ses_committed interrupted_demo = ses_db interrupted_demo) as Hp by (vm_compute; reflexivity).
  assert (reversals (ses_db interrupted_demo) = [interrupted_reversal]) as Hr by (vm_compute; reflexivity).
  assert (ptx_id <$> payment_txs (ses_db interrupted_demo) = [@env_uuid4 demo_env 4]) as Ht
    by (vm_compute; reflexivity).
  assert (resolution_cases (ses_db interrupted_demo) = []) as Hk by (vm_compute; reflexivity).
  assert (ses_draws interrupted_demo = 7%nat) as Hn by (vm_compute; reflexivity).
  revert Hp Hr Ht Hk Hn. generalize interrupted_demo as s. intros s Hp Hr Ht Hk Hn.
  assert (@calm demo_env (ses_draws s) (ses_db s)) as Hc; [|split; [done|by rewrite Hp]].
  rewrite Hn. split; rewrite ?Hr, ?Hk; try apply NoDup_nil_2.
  - intros x ->%list_elem_of_singleton. cbn. lia.
  - intros t Hin. exists 4%nat. split; [lia|].
    pose proof (list_elem_of_fmap_2 ptx_id _ _ Hin) as Hid. rewrite Ht in Hid.
    by apply list_elem_of_singleton in Hid.
  - intros c Hin. by apply elem_of_nil in Hin.
Qed.

Lemma interrupted_confirmable :
  @confirmable demo_env demo_gateways interrupted_reversal interrupted_intent (MkUser (mk_uuid "u") (Some 77))
    demo_gateway (MkPaymentRefundResult "ref-rk" true) interrupted_demo.
Proof.
  split.
  - split; vm_compute; reflexivity.
  - vm_compute. reflexivity.
  - vm_compute. reflexivity.
  - intros sent. reflexivity.
  - split; [reflexivity|]. cbn. lia.
  - split; [vm_compute; reflexivity|]. cbn. lia.
  - assert (ptx_reference_id <$> payment_txs (ses_db interrupted_demo) = [Some "uuid-0"]) as Ht
      by (vm_compute; reflexivity).
    revert Ht. generalize interrupted_demo as s. intros s Ht t Hin Heq. pose proof (list_elem_of_fmap_2 ptx_reference_id _ _ Hin) as Hid.
    rewrite Ht, Heq in Hid. apply list_elem_of_singleton in Hid. discriminate Hid.
Qed.

Lemma interrupted_saga : saga_inv (ses_db interrupted_demo).
Proof.
  unfold interrupted_demo.
  exact (proj1 (proj2 (@run_ops_moves demo_env demo_gateways demo_env_serial _ rev_session eq_refl rev_db_saga))).
Qed.

Lemma outstanding_reversal_completed_witness :
  rev_status interrupted_reversal = RevProcessing
  ∧ ∃ n s', @poll_once demo_env demo_gateways 3600 50 (in_session (@recover_processing demo_env) interrupted_demo).2
            = (Ok n, s')
    ∧ persisted s' ∧ saga_of (ses_db s') (mk_uuid "t", mk_uuid "uuid-0") = Done.
Proof.
  split; [reflexivity|].
  refine (@outstanding_reversal_completed demo_env demo_gateways interrupted_reversal interrupted_intent
            (MkUser (mk_uuid "u") (Some 77)) demo_gateway (MkPaymentRefundResult "ref-rk" true) 3600 50
            interrupted_demo demo_env_good demo_env_serial _ interrupted_saga interrupted_calm _
            (or_introl eq_refl) interrupted_confirmable _).
  - vm_compute. reflexivity.
  - vm_compute. left.
  - vm_compute. lia.
Defined.

(** ** What the worker asks for *)

Section asking.
  Context `{HE : Env} `{!Serial HE} `{Gateways}.

Hint Resolve sent_write sent_uuid4 sent_await sent_nested : steps.

Lemma sent_commit : steps same_sent commit.
Proof. by intros s. Qed.

Lemma sent_rollback : steps same_sent rollback.
Proof. by intros s. Qed.

Hint Resolve sent_commit sent_rollback : steps.

Lemma sent_mark_retry mb rid code : steps same_sent (in_session (_mark_retry mb rid code)).
Proof. unfold in_session, _mark_retry, update_reversal. steps_walk. Qed.

Lemma sent_mark_review rid code detail : steps same_sent (in_session (_mark_manual_review rid code detail)).
Proof.
  unfold in_session, _mark_manual_review, live_reversal, update_reversal, ensure_case_for_reversal,
    except_integrity, update_frc, insert_frc. steps_walk.
  all: apply sent_nested; steps_walk.
Qed.

Lemma sent_record i r p o : steps same_sent (_record_topup_reversal_payment_transaction i r p o;; flush_reversal r).
Proof.
  unfold _record_topup_reversal_payment_transaction, except_integrity, insert_payment_tx, flush_reversal,
    live_reversal, to_varchar_opt. steps_walk.
  all: apply sent_nested; steps_walk.
Qed.

(** The refund the worker asks for is the one the row describes. *)
Definition asks_refund (r : WalletTopUpReversal) (s s' : Session) : Prop :=
  ∃ i u, intent_id i = rev_payment_intent_id r
    ∧ ses_sent s' = ses_sent s ++ [SentRefund (rev_tenant_id r) (lower (rev_provider r))
                                     (reversal_refund_request i u r)].

Lemma process_sent t rid s :
  wp (process_wallet_topup_reversal t rid)
    (λ _ s', ses_sent s' = ses_sent s
             ∨ ∃ r, get_row rid (reversals (ses_db s)) = Some r ∧ rev_status r = RevProcessing
                    ∧ asks_refund r s s') s.
Proof.
  unfold process_wallet_topup_reversal. apply wp_gets.
  apply wp_of_option; [|by left]. intros r Hr. apply wp_guard; [|by left].
  intros Ht. destruct (_ == RevCompleted); [apply wp_ret; by left|]. apply wp_guard; [|by left].
  intros Hst. apply negb_false_iff in Ht, Hst. rewrite bool_decide_eq_true in Ht, Hst. subst t.
  apply wp_bind, wp_intro. intros o s1 Hi.
  assert (s1 = s) as ->.
  { symmetry. eapply (steps_run eq); [|exact Hi]. unfold get_payment_intent. steps_walk. }
  destruct o as [i|e]; [|by left]. apply get_payment_intent_ok in Hi as (_ & _ & Hid & _).
  apply wp_gets. apply wp_of_option; [|by left]. intros u _. apply wp_read; [apply get_provider_reads| |by left].
  intros g _. apply wp_bind, wp_intro. intros o s1 Hcall.
  assert (ses_sent s1 = ses_sent s ++ [SentRefund (rev_tenant_id r) (lower (rev_provider r))
                                         (reversal_refund_request i u r)]) as Hsent.
  { unfold call_refund, mbind, prog_bind, gets, send, modify in Hcall. cbn in Hcall.
    destruct (gw_refund _ _ _); cbn in Hcall; by injection Hcall as _ <-. }
  destruct o as [res|e]; [|right; exists r; by split_and!; [..|exists i, u]].
  apply wp_intro. intros o s2 Hr2. right. exists r. split_and!; [done|done|]. exists i, u. split; [done|].
  rewrite <- Hsent. eapply (steps_run same_sent); [|exact Hr2]. pose proof sent_record.
  unfold update_reversal. steps_walk.
Qed.

Lemma in_session_wp {A} (m : M A) (Q : outcome exn A → Session → Prop) s :
  wp m (λ o s', Q o (s' <| ses_db := ses_committed s' |>)) s → wp (in_session m) Q s.
Proof. unfold wp. by rewrite in_session_state. Qed.

Lemma process_claimed_sent mb rid s :
  wp (_process_claimed mb rid)
    (λ _ s', ses_sent s' = ses_sent s
             ∨ ∃ t, ses_sent s' = ses_sent (process_wallet_topup_reversal t rid s).2) s.
Proof.
  apply in_session_wp, wp_gets.
  destruct (get_row rid (reversals (ses_db s))) as [r|]; [|apply wp_ret; by left].
  apply wp_catch, wp_bind, wp_intro. intros o s1 Hr. destruct o as [x|e].
  { right. exists (rev_tenant_id r). by rewrite Hr. }
  apply (wp_step _ _ _ _ tt (s1 <| ses_db := ses_committed s1 |>)); [done|].
  right. exists (rev_tenant_id r). rewrite Hr. cbn [snd].
  change (ses_sent (?x <| ses_db := ?d |>)) with (ses_sent x).
  set (s2 := s1 <| ses_db := ses_committed s1 |>). change (ses_sent s1) with (ses_sent s2).
  clearbody s2. destruct (_ || _); [apply sent_mark_retry|].
  destruct (_ || _); [apply sent_mark_review|apply sent_mark_retry].
Qed.

Lemma asked_is_funded mb rid s o s' :
  persisted s → saga_inv (ses_db s) → _process_claimed mb rid s = (o, s') →
  ses_sent s' = ses_sent s
  ∨ ∃ r tx, r ∈ reversals (ses_committed s) ∧ rev_id r = rid ∧ rev_status r = RevProcessing
      ∧ reservations r (ses_committed s) = [tx] ∧ reserves r tx ∧ asks_refund r s s'.
Proof.
  intros Hp Hi Hr. unfold persisted in Hp. rewrite Hp.
  destruct (wp_run _ _ _ _ _ (process_claimed_sent mb rid s) Hr) as [?|[t Hs]]; [by left|].
  destruct (process_sent t rid s) as [Hps|(r & Hrow & Hst & i & u & Hid & Hps)]; [left; congruence|].
  right. apply get_row_Some in Hrow as [Hin Hrid]. pose proof (si_exact _ Hi r Hin) as He.
  unfold held_exactly, row_saga in He. rewrite Hst in He. destruct He as (tx & Htx & Hres).
  exists r, tx. split_and!; try done. exists i, u. split; [done|]. congruence.
Qed.

End asking.


