(* ===== verification/Resolution.v ===== *)
(** * Financial resolution cases

    [packages/payments/resolution.py], class [FinancialResolutionService]: the
    cases operators work on when money needs a human decision.  Opening the
    case of a reversal is in [Reversals.v]; here is the case of a
    reconciliation event, claiming and releasing, and the four decisions. *)

From Stdlib Require Import ZArith Lia Ascii String.
From stdpp Require Import base tactics list option strings numbers pretty.
From S2P Require Import Prelude Tables Text Money Exceptions StateMachines Models Ledger.
From S2P Require Import Payments Reversals.

Local Open Scope Z_scope.

Inductive FinancialResolutionAction :=
  | RETRY_LOCAL_REVERSAL
  | ACKNOWLEDGE_NO_WALLET_IMPACT
  | CLOSE_KEEP_WALLET_FROZEN
  | MARK_FALSE_POSITIVE_AND_UNFREEZE.

Global Instance FinancialResolutionAction_eq_dec : EqDecision FinancialResolutionAction.
Proof. solve_decision. Defined.

Definition action_value (a : FinancialResolutionAction) : string :=
  match a with
  | RETRY_LOCAL_REVERSAL => "RETRY_LOCAL_REVERSAL"
  | ACKNOWLEDGE_NO_WALLET_IMPACT => "ACKNOWLEDGE_NO_WALLET_IMPACT"
  | CLOSE_KEEP_WALLET_FROZEN => "CLOSE_KEEP_WALLET_FROZEN"
  | MARK_FALSE_POSITIVE_AND_UNFREEZE => "MARK_FALSE_POSITIVE_AND_UNFREEZE"
  end.

Section resolution.
  Context `{Env} `{Gateways}.

Definition _source_key_for_event (eid : UUID) : string := "event:" +:+ uuid_str eid.

(** ** Opening the case of a reconciliation event *)

Definition _wallet_for_intent (intent : option PaymentIntent) : M (option Wallet) :=
  match intent with
  | None => mret None
  | Some i =>
      rows ← query (wallet_by_key (intent_tenant_id i) (intent_user_id i) (intent_currency i));
      one_or_none rows
  end.

(** The reversal the event is about, when the caller did not pass it. *)
Definition reviewed_reversal (event : PaymentReconciliationEvent) (given : option WalletTopUpReversal)
    (d : DB) : option WalletTopUpReversal :=
  match given, ev_payment_intent_id event with
  | Some r, _ => Some r
  | None, None => None
  | None, Some iid =>
      first (λ r, (rev_tenant_id r == ev_tenant_id event) && (rev_payment_intent_id r == iid)
                  && (rev_status r == RevManualReview)) (reversals d)
  end.

Definition event_case_metadata (event : PaymentReconciliationEvent) : dict :=
  [ ("provider", JStr (ev_provider event));
    ("provider_event_id", JStr (ev_provider_event_id event));
    ("event_type", JStr (ev_event_type event));
    ("detail", default JNull (dict_get "detail" (ev_metadata_json event))) ].

(** [if getattr(existing, attr) != value and value is not None] *)
Definition refreshed {A} `{EqDecision A} (old new : option A) : option A :=
  match new with Some _ => new | None => old end.

Definition refreshed_event_case (event : PaymentReconciliationEvent) (severity : string)
    (wallet : option UUID) (c : FinancialResolutionCase) : FinancialResolutionCase :=
  let merged := dict_merge (frc_metadata_json c) (event_case_metadata event) in
  let stale := negb (json_eqb (JObj merged) (JObj (frc_metadata_json c))) in
  let changed :=
    (frc_case_type c != ev_classification event) || (frc_severity c != severity)
    || (frc_reconciliation_event_id c != Some (ev_id event))
    || (frc_payment_intent_id c != refreshed (frc_payment_intent_id c) (ev_payment_intent_id event))
    || (frc_wallet_id c != refreshed (frc_wallet_id c) wallet) || stale in
  c <| frc_case_type := ev_classification event |> <| frc_severity := severity |>
    <| frc_reconciliation_event_id := Some (ev_id event) |>
    <| frc_payment_intent_id := refreshed (frc_payment_intent_id c) (ev_payment_intent_id event) |>
    <| frc_wallet_id := refreshed (frc_wallet_id c) wallet |>
    <| frc_metadata_json := if stale then merged else frc_metadata_json c |>
    <| frc_version := if changed && (frc_status c != FrcResolved) then frc_version c + 1
                      else frc_version c |>.

Definition ensure_case_for_reconciliation_event (event : PaymentReconciliationEvent)
    (given : option WalletTopUpReversal) : M (option FinancialResolutionCase) :=
  if negb (ev_requires_review event) then mret None
  else
    reversal ← query (reviewed_reversal event given);
    let key := match reversal with
               | Some r => _source_key_for_reversal (rev_id r)
               | None => _source_key_for_event (ev_id event)
               end in
    rows ← query (cases_by_source (ev_tenant_id event) key);
    existing ← one_or_none rows;
    intent ← query (λ d, iid ← ev_payment_intent_id event; get_row iid (intents d));
    wallet ← (match reversal with
              | Some r => query (λ d, get_row (rev_wallet_id r) (wallets d))
              | None => _wallet_for_intent intent
              end);
    let severity := case_severity wallet in
    match existing with
    | Some c =>
        let c' := refreshed_event_case event severity (wallet_id <$> wallet) c in
        update_frc (frc_id c) (λ _, c');;
        mret (Some c')
    | None =>
        await_others;;
        except_integrity
          (c ← begin_nested (insert_frc (λ u,
                 MkFinancialResolutionCase u (ev_tenant_id event) key (ev_classification event) severity
                   FrcOpen (ev_payment_intent_id event) (wallet_id <$> wallet) (rev_id <$> reversal)
                   (Some (ev_id event)) None 1 None None None None (event_case_metadata event)));
           mret (Some c))
          (rows ← query (cases_by_source (ev_tenant_id event) key);
           again ← one_or_none rows;
           c ← of_option IntegrityError again;
           mret (Some c))
    end.

(** ** Claiming and releasing *)

Definition _locked_case (tenant_id cid : UUID) : M FinancialResolutionCase :=
  rows ← query (λ d, select (λ c, (frc_id c == cid) && (frc_tenant_id c == tenant_id))
                       (resolution_cases d));
  found ← one_or_none rows;
  of_option PaymentError found.

Definition _verify_version (c : FinancialResolutionCase) (expected_version : Z) : M unit :=
  raise_if (negb (frc_version c =? expected_version)) PaymentIntegrityError.

Definition live_case (c : FinancialResolutionCase) : M FinancialResolutionCase :=
  query (λ d, default c (get_row (frc_id c) (resolution_cases d))).

(** [case.assigned_to_user_id not in (None, actor_user_id)] *)
Definition assigned_elsewhere (c : FinancialResolutionCase) (actor : UUID) : bool :=
  match frc_assigned_to_user_id c with None => false | Some u => u != actor end.

Definition claim_case (tenant_id cid actor : UUID) (expected_version : Z) : M FinancialResolutionCase :=
  c ← _locked_case tenant_id cid;
  _verify_version c expected_version;;
  raise_if (frc_status c == FrcResolved) PaymentError;;
  raise_if (assigned_elsewhere c actor) PaymentIntegrityError;;
  update_frc (frc_id c) (λ c, c <| frc_assigned_to_user_id := Some actor |>
                                <| frc_status := FrcInProgress |> <| frc_version ::= Z.succ |>);;
  live_case c.

Definition release_case (tenant_id cid actor : UUID) (expected_version : Z) (allow_override : bool)
    : M FinancialResolutionCase :=
  c ← _locked_case tenant_id cid;
  _verify_version c expected_version;;
  raise_if (frc_status c == FrcResolved) PaymentError;;
  raise_if (assigned_elsewhere c actor && negb allow_override) PaymentIntegrityError;;
  update_frc (frc_id c) (λ c, c <| frc_assigned_to_user_id := None |>
                                <| frc_status := FrcOpen |> <| frc_version ::= Z.succ |>);;
  live_case c.

(** ** Deciding *)

Definition update_event (eid : UUID) (f : PaymentReconciliationEvent → PaymentReconciliationEvent) : M unit :=
  write (λ d, d <| recon_events ::= update_row eid f |>).

Definition _mark_event_resolved (c : FinancialResolutionCase) (ignored : bool)
    (action : FinancialResolutionAction) (actor : UUID) (note : string) : M unit :=
  match frc_reconciliation_event_id c with
  | None => mret tt
  | Some eid =>
      found ← query (λ d, get_row eid (recon_events d));
      event ← of_option PaymentIntegrityError found;
      raise_if (ev_tenant_id event != frc_tenant_id c) PaymentIntegrityError;;
      n ← now;
      update_event eid (λ e,
        e <| ev_requires_review := false |>
          <| ev_status := if ignored then EvIgnored else EvProcessed |>
          <| ev_metadata_json ::= dict_set "operator_resolution"
               (JObj [ ("action", JStr (action_value action)); ("actor_user_id", JStr (uuid_str actor));
                       ("resolved_at", JStr (env_isoformat n)); ("note", JStr note) ]) |>)
  end.

(** [(case.metadata_json or {}).get("asset_wallet_id")] *)
Definition asset_ref (c : FinancialResolutionCase) : json :=
  default JNull (dict_get "asset_wallet_id" (frc_metadata_json c)).

(** [metadata_json["asset_wallet_id"].as_string() == value] *)
Definition same_asset_ref (v : json) (c : FinancialResolutionCase) : bool :=
  match v, asset_ref c with JStr a, JStr b => a == b | _, _ => false end.

Definition wallet_filter (c x : FinancialResolutionCase) : bool :=
  match frc_wallet_id c with
  | Some w => frc_wallet_id x == Some w
  | None => same_asset_ref (asset_ref c) x
  end.

Definition other_open (c x : FinancialResolutionCase) : bool :=
  (frc_tenant_id x == frc_tenant_id c) && wallet_filter c x && (frc_status x != FrcResolved)
  && (frc_id x != frc_id c).

Definition _other_open_case_count (c : FinancialResolutionCase) : M nat :=
  if negb (is_some (frc_wallet_id c)) && negb (json_truthy (asset_ref c)) then mret 0%nat
  else query (λ d, length (select (other_open c) (resolution_cases d))).

(** The wallet a case freezes: of a currency ([inl]) or of an asset ([inr]). *)
Definition _resolution_wallet (c : FinancialResolutionCase) : M (Wallet + AssetWallet) :=
  match frc_wallet_id c with
  | Some wid =>
      found ← query (λ d, first (λ w, (wallet_id w == wid) && (wallet_tenant_id w == frc_tenant_id c))
                            (wallets d));
      w ← of_option PaymentIntegrityError found;
      mret (inl w)
  | None =>
      raise_if (negb (json_truthy (asset_ref c))) PaymentError;;
      text ← (match asset_ref c with JStr s => mret s | _ => mthrow AttributeError end);
      aid ← of_option ValueError (uuid_of_str text);
      found ← query (λ d, first (λ w, (awallet_id w == aid) && (awallet_tenant_id w == frc_tenant_id c))
                            (asset_wallets d));
      w ← of_option PaymentIntegrityError found;
      mret (inr w)
  end.

Definition is_active (w : Wallet + AssetWallet) : bool :=
  match w with inl w => wallet_is_active w | inr w => awallet_is_active w end.

Definition resolution_wallet_id (w : Wallet + AssetWallet) : UUID :=
  match w with inl w => wallet_id w | inr w => awallet_id w end.

Definition activate (w : Wallet + AssetWallet) : M unit :=
  match w with
  | inl w => set_wallet_active (wallet_id w) true
  | inr w => write (λ d, d <| asset_wallets ::=
                        update_row (awallet_id w) (λ w, w <| awallet_is_active := true |>) |>)
  end.

Definition retry_local_reversal (tenant_id : UUID) (c : FinancialResolutionCase) (actor : UUID)
    (note : string) : M string :=
  rid ← of_option PaymentError (frc_reversal_id c);
  found ← query (λ d, get_row rid (reversals d));
  r ← of_option PaymentIntegrityError found;
  raise_if (rev_tenant_id r != tenant_id) PaymentIntegrityError;;
  raise_if (negb (external_origin r)) PaymentError;;
  resolved ← resolve_external_wallet_topup_reversal tenant_id rid;
  raise_if (rev_status resolved != RevCompleted) PaymentIntegrityError;;
  _mark_event_resolved c false RETRY_LOCAL_REVERSAL actor note;;
  wallet ← query (λ d, wid ← frc_wallet_id c; get_row wid (wallets d));
  (match wallet with
   | Some w =>
       others ← _other_open_case_count c;
       if (0 <? others)%nat then set_wallet_active (wallet_id w) false else mret tt
   | None => mret tt
   end);;
  mret "EXTERNAL_REVERSAL_DEBIT_APPLIED".

Definition acknowledge_no_wallet_impact (c : FinancialResolutionCase) (actor : UUID) (note : string)
    : M string :=
  raise_if (is_some (frc_wallet_id c) || is_some (frc_reversal_id c) || json_truthy (asset_ref c))
    PaymentError;;
  _mark_event_resolved c true ACKNOWLEDGE_NO_WALLET_IMPACT actor note;;
  mret "NO_WALLET_IMPACT_ACKNOWLEDGED".

Definition close_keep_wallet_frozen (c : FinancialResolutionCase) (actor : UUID) (note : string)
    : M string :=
  wallet ← _resolution_wallet c;
  raise_if (is_active wallet) PaymentError;;
  _mark_event_resolved c false CLOSE_KEEP_WALLET_FROZEN actor note;;
  mret "WALLET_REMAINS_FROZEN".

Definition pending_reversal (tenant_id wid : UUID) (r : WalletTopUpReversal) : bool :=
  (rev_tenant_id r == tenant_id) && (rev_wallet_id r == wid) && (rev_status r == RevManualReview).

Definition mark_false_positive (tenant_id : UUID) (c : FinancialResolutionCase) (actor : UUID)
    (actor_is_owner : bool) (note : string) : M string :=
  raise_if (negb actor_is_owner) TenantAccessViolationError;;
  raise_if (String.length note <? 20)%nat PaymentError;;
  raise_if (is_some (frc_reversal_id c)) PaymentError;;
  wallet ← _resolution_wallet c;
  raise_if (is_active wallet) PaymentError;;
  others ← _other_open_case_count c;
  raise_if (0 <? others)%nat PaymentIntegrityError;;
  pending ← query (λ d, length (select (pending_reversal tenant_id (resolution_wallet_id wallet))
                                  (reversals d)));
  raise_if (0 <? pending)%nat PaymentIntegrityError;;
  activate wallet;;
  _mark_event_resolved c true MARK_FALSE_POSITIVE_AND_UNFREEZE actor note;;
  mret "FALSE_POSITIVE_WALLET_REACTIVATED".

Definition decide_case (tenant_id : UUID) (c : FinancialResolutionCase) (actor : UUID)
    (action : FinancialResolutionAction) (actor_is_owner : bool) (note : string) : M string :=
  match action with
  | RETRY_LOCAL_REVERSAL => retry_local_reversal tenant_id c actor note
  | ACKNOWLEDGE_NO_WALLET_IMPACT => acknowledge_no_wallet_impact c actor note
  | CLOSE_KEEP_WALLET_FROZEN => close_keep_wallet_frozen c actor note
  | MARK_FALSE_POSITIVE_AND_UNFREEZE => mark_false_positive tenant_id c actor actor_is_owner note
  end.

Definition resolve_case (tenant_id cid actor : UUID) (expected_version : Z)
    (action : FinancialResolutionAction) (note : string) (actor_is_owner : bool)
    : M FinancialResolutionCase :=
  c ← _locked_case tenant_id cid;
  _verify_version c expected_version;;
  if frc_status c == FrcResolved then mret c
  else
    raise_if (assigned_elsewhere c actor) PaymentIntegrityError;;
    update_frc (frc_id c) (λ c, c <| frc_assigned_to_user_id := Some actor |>);;
    let clean_note := strip note in
    raise_if (String.length clean_note <? 12)%nat PaymentError;;
    code ← decide_case tenant_id c actor action actor_is_owner clean_note;
    n ← now;
    update_frc (frc_id c) (λ c,
      c <| frc_status := FrcResolved |> <| frc_resolution_code := Some code |>
        <| frc_resolution_note := Some clean_note |> <| frc_resolved_by_user_id := Some actor |>
        <| frc_resolved_at := Some n |> <| frc_version ::= Z.succ |>
        <| frc_metadata_json ::= dict_set "resolution_action" (JStr (action_value action)) |>);;
    live_case c.

End resolution.
