(* ===== verification/ResolutionSpec.v ===== *)
(** * Financial resolution cases: properties

    When a decision may put a frozen wallet back into service, and how cases
    move between operators. *)

From Stdlib Require Import ZArith Lia Ascii String.
From stdpp Require Import base tactics list option strings numbers pretty relations.
From S2P Require Import Prelude Tables Text Money Exceptions StateMachines Models Ledger.
From S2P Require Import LedgerInv LedgerSpec DepositsSpec FulfillmentSpec Payments PaymentsInv.
From S2P Require Import PaymentsSpec Reversals ReversalsInv ReversalsSpec Resolution.

Local Open Scope Z_scope.

(** ** Frozen wallets *)

Definition flags (d : DB) : list (UUID * bool) := map (λ w, (wallet_id w, wallet_is_active w)) (wallets d).

Definition same_flags (s s' : Session) : Prop :=
  flags (ses_db s') = flags (ses_db s) ∧ resolution_cases (ses_db s') = resolution_cases (ses_db s)
  ∧ reversals (ses_db s') = reversals (ses_db s).

Global Instance same_flags_preorder : PreOrder same_flags.
Proof. split; [by intros s|]. intros x y z (? & ? & ?) (? & ? & ?). split_and!; congruence. Qed.

(** No other case of the tenant is open for the wallet, and none of its
    reversals waits for review. *)
Definition clear (tenant_id wid cid : UUID) (d : DB) : Prop :=
  (∀ x, x ∈ resolution_cases d → frc_tenant_id x = tenant_id → frc_wallet_id x = Some wid →
     frc_id x ≠ cid → frc_status x = FrcResolved)
  ∧ ∀ r, r ∈ reversals d → rev_tenant_id r = tenant_id → rev_wallet_id r = wid →
      rev_status r ≠ RevManualReview.

(** A wallet in service was in service before, or its record is clear. *)
Definition guarded (tenant_id cid : UUID) (d d' : DB) : Prop :=
  ∀ i, (i, true) ∈ flags d' → (i, true) ∈ flags d ∨ clear tenant_id i cid d'.

Lemma flags_set wid b d i :
  (i, true) ∈ flags (d <| wallets ::= update_row wid (λ w, w <| wallet_is_active := b |>) |>) →
  (i ≠ wid ∧ (i, true) ∈ flags d) ∨ (i = wid ∧ b = true).
Proof.
  unfold flags. intros Hi. apply list_elem_of_In, List.in_map_iff in Hi as (w & [= Hid Ha] & Hw).
  apply list_elem_of_In, elem_of_update_where in Hw as (w0 & Hw0 & ->).
  case_bool_decide as Hc; cbn in *.
  - right. split; [|done]. by rewrite <- Hc, <- Hid.
  - left. split; [intros ->; by apply Hc|]. apply list_elem_of_In, List.in_map_iff. exists w0.
    split; [by rewrite Hid, Ha|by apply list_elem_of_In].
Qed.

Section frames.
  Context `{HE : Env} `{!Serial HE}.

Lemma flags_write (f : DB → DB) :
  (∀ d, wallets (f d) = wallets d ∧ resolution_cases (f d) = resolution_cases d ∧ reversals (f d) = reversals d) →
  steps same_flags (write f).
Proof. intros Hf s. destruct (Hf (ses_db s)) as (Hw & ? & ?). split_and!; [|done..]. unfold flags. cbn. by rewrite Hw. Qed.

Lemma flags_balance wid b t :
  map (λ w, (wallet_id w, wallet_is_active w)) (update_row wid (λ w : Wallet, w <| wallet_balance := b |>) t)
  = map (λ w, (wallet_id w, wallet_is_active w)) t.
Proof.
  unfold update_row, update_where. rewrite List.map_map. apply List.map_ext. intros w. by destruct (_ == _).
Qed.

Lemma flags_uuid4 : steps same_flags uuid4.
Proof. by intros s. Qed.

Lemma flags_db s s' : ses_db s' = ses_db s → same_flags s s'.
Proof. unfold same_flags, flags. by intros ->. Qed.

Lemma flags_await : steps same_flags await_others.
Proof. intros s. apply flags_db. cbn. apply serial_race. Qed.

Lemma flags_nested {A} (m : M A) : steps same_flags m → steps same_flags (begin_nested m).
Proof. intros Hm s. specialize (Hm s). unfold begin_nested. by destruct (m s) as [[a|e] s']. Qed.

Lemma flags_flush w ty amount before after rid rty desc :
  steps same_flags (flush_entry w ty amount before after rid rty desc).
Proof.
  intros s. destruct (flush_entry _ _ _ _ _ _ _ _ s) as [[tx|e] s'] eqn:Hr; cbn.
  - apply flush_entry_ok in Hr as (a & am & b & _ & _ & _ & -> & _ & ->).
    split_and!; [|done..]. unfold flags. cbn. apply flags_balance.
  - apply flush_entry_raise in Hr as [Hr _]. by apply flags_db.
Qed.

Hint Resolve flags_uuid4 flags_await flags_nested flags_flush : steps.
Hint Extern 1 (steps same_flags (write _)) => by apply flags_write : steps.

Lemma flags_reserve w a rid desc : steps same_flags (reserve_topup_reversal w a rid desc).
Proof. unfold reserve_topup_reversal, lock_wallet, return_existing. steps_walk. Qed.

Lemma flags_record i r p o : steps same_flags (_record_topup_reversal_payment_transaction i r p o).
Proof.
  unfold _record_topup_reversal_payment_transaction, except_integrity, insert_payment_tx, to_varchar_opt.
  steps_walk. all: apply flags_nested; steps_walk.
Qed.

Lemma flags_event c ig ac u n : steps same_flags (_mark_event_resolved c ig ac u n).
Proof. unfold _mark_event_resolved, update_event. steps_walk. Qed.

Lemma flags_flush_reversal r : steps same_flags (flush_reversal r).
Proof. unfold flush_reversal, live_reversal, to_varchar_opt. steps_walk. Qed.

End frames.

#[export] Hint Resolve flags_uuid4 flags_await flags_nested flags_flush flags_reserve flags_record
  flags_event flags_flush_reversal : steps.
#[export] Hint Extern 1 (steps same_flags (write _)) => by apply flags_write : steps.

Section decisions.
  Context `{HE : Env} `{!Serial HE} `{Gateways}.

Lemma resolve_external_flags t rid s x s' :
  resolve_external_wallet_topup_reversal t rid s = (Ok x, s') →
  ∃ r, get_row rid (reversals (ses_db s)) = Some r
    ∧ resolution_cases (ses_db s') = resolution_cases (ses_db s)
    ∧ (flags (ses_db s') = flags (ses_db s)
       ∨ (∀ i, (i, true) ∈ flags (ses_db s') → (i, true) ∈ flags (ses_db s) ∨ i = rev_wallet_id r)
         ∧ ∀ y, y ∈ reversals (ses_db s') → rev_wallet_id y = rev_wallet_id r → rev_status y ≠ RevManualReview).
Proof.
  intros Hr. unfold resolve_external_wallet_topup_reversal in Hr. bind_query Hr.
  bind_some Hr r Hrow. exists r. split; [done|]. bind_guard Hr Ht. bind_guard Hr Hext.
  destruct (_ == RevCompleted); [apply ret_inv in Hr as [_ ->]; by split; [|left]|].
  bind_guard Hr Hst. apply bind_inv_ok in Hr as (i & s0 & (-> & _)%get_payment_intent_ok & Hr).
  bind_query Hr. bind_some Hr w Hw. apply get_row_Some in Hw as [_ Hw]. change (wallet_id w = rev_wallet_id r) in Hw.
  bind_guard Hr Hwt. apply bind_inv_ok in Hr as (tx & s1 & Hres & Hr).
  apply (steps_run _ _ _ _ _ (flags_reserve _ _ _ _)) in Hres as (Hf1 & Hc1 & Hv1).
  apply bind_inv_ok in Hr as (n & s2 & Hn & Hr). apply gets_inv in Hn as [_ ->]. bind_write Hr.
  apply bind_inv_ok in Hr as (u & s2 & Hrec & Hr).
  apply (steps_run _ _ _ _ _ (flags_record _ _ _ _)) in Hrec as (Hf2 & Hc2 & Hv2). cbn in Hf2, Hc2, Hv2.
  bind_query Hr. apply bind_inv_ok in Hr as (u2 & s3 & Hact & Hr).
  assert (same_flags s3 s') as (Hf4 & Hc4 & Hv4) by (eapply (steps_run same_flags); [|exact Hr]; steps_walk).
  unfold flags in Hf2. cbn in Hf2. fold (flags (ses_db s1)) in Hf2. fold (flags (ses_db s2)) in Hf2.
  destruct (_ =? 0)%nat eqn:Hothers.
  - unfold set_wallet_active in Hact. apply write_inv in Hact as [_ ->]. cbn in Hc4, Hv4. split; [congruence|].
    right. split.
    + intros j Hj. rewrite Hf4 in Hj. apply flags_set in Hj as [[_ Hj]|[-> _]]; [left; congruence|by right].
    + intros y Hy Hyw Hyst. rewrite Hv4, Hv2 in Hy. pose proof Hy as Hy'.
      apply elem_of_update_where in Hy' as (y0 & Hy0 & Heq). case_bool_decide as Hid; [by rewrite Heq in Hyst|].
      subst y. apply Nat.eqb_eq, nil_length_inv in Hothers. rewrite Hv2 in Hothers.
      rewrite select_nil in Hothers. specialize (Hothers y0 Hy). rewrite Hw in Hothers.
      rewrite !bool_decide_eq_true_2 in Hothers by done. cbn in Hothers.
      by rewrite bool_decide_eq_false_2 in Hothers.
  - apply ret_inv in Hact as [_ ->]. split; [congruence|]. left. congruence.
Qed.

(** The cases of reversals freeze the wallets of the reversals. *)
Definition linked (d : DB) : Prop :=
  ∀ c r, c ∈ resolution_cases d → r ∈ reversals d → frc_reversal_id c = Some (rev_id r) →
    frc_wallet_id c = Some (rev_wallet_id r).

Lemma no_others c d x wid :
  select (other_open c) (resolution_cases d) = [] → frc_wallet_id c = Some wid →
  x ∈ resolution_cases d → frc_tenant_id x = frc_tenant_id c → frc_wallet_id x = Some wid →
  frc_id x ≠ frc_id c → frc_status x = FrcResolved.
Proof.
  intros Hn Hw Hx Ht Hxw Hid. rewrite select_nil in Hn. specialize (Hn x Hx).
  unfold other_open, wallet_filter in Hn. rewrite Hw, Ht, Hxw in Hn.
  rewrite !bool_decide_eq_true_2 in Hn by done. rewrite (bool_decide_eq_false_2 (frc_id x = _)) in Hn by done.
  cbn in Hn. rewrite andb_true_r, negb_false_iff in Hn. by rewrite bool_decide_eq_true in Hn.
Qed.

Lemma retry_guarded t c actor note s x s' :
  frc_tenant_id c = t →
  (∀ r, r ∈ reversals (ses_db s) → frc_reversal_id c = Some (rev_id r) → frc_wallet_id c = Some (rev_wallet_id r)) →
  retry_local_reversal t c actor note s = (Ok x, s') →
  resolution_cases (ses_db s') = resolution_cases (ses_db s) ∧ guarded t (frc_id c) (ses_db s) (ses_db s').
Proof.
  intros Ht Hlink Hr. unfold retry_local_reversal in Hr. bind_some Hr rid Hrid. bind_query Hr.
  bind_some Hr r Hrow. bind_guard Hr Hg1. bind_guard Hr Hg2.
  apply bind_inv_ok in Hr as (y & s1 & (r' & Hrow' & Hc1 & Hcase)%resolve_external_flags & Hr).
  rewrite Hrow in Hrow'. injection Hrow' as <-. apply get_row_Some in Hrow as [Hin Hid].
  change (rev_id r = rid) in Hid. subst rid. specialize (Hlink r Hin Hrid).
  bind_guard Hr Hg3. apply bind_inv_ok in Hr as (u & s2 & Hev & Hr).
  apply (steps_run _ _ _ _ _ (flags_event _ _ _ _ _)) in Hev as (Hf2 & Hc2 & Hv2). bind_query Hr.
  apply bind_inv_ok in Hr as (u2 & s3 & Hact & [_ ->]%ret_inv). rewrite Hlink in Hact. cbn [mbind option_bind] in Hact.
  destruct Hcase as [Hsame|[Hone Hrevs]].
  { (* the wallet was not put back *)
    assert (resolution_cases (ses_db s3) = resolution_cases (ses_db s2)
            ∧ ∀ i, (i, true) ∈ flags (ses_db s3) → (i, true) ∈ flags (ses_db s2)) as [Hc3 Hf3].
    { destruct (get_row (rev_wallet_id r) (wallets (ses_db s2))) as [w|]; [|by apply ret_inv in Hact as [_ ->]].
      apply bind_inv_ok in Hact as (n & s4 & Hn & Hact).
      assert (s4 = s2) as -> by (symmetry; eapply (steps_run eq); [|exact Hn]; unfold _other_open_case_count; steps_walk).
      destruct (_ <? _)%nat; [|by apply ret_inv in Hact as [_ ->]].
      apply write_inv in Hact as [_ ->]. split; [done|]. intros i [[_ ?]|[_ ?]]%flags_set; done. }
    split; [congruence|]. intros i Hi. left. apply Hf3 in Hi. congruence. }
  destruct (get_row (rev_wallet_id r) (wallets (ses_db s2))) as [w|] eqn:Hw.
  2: { apply ret_inv in Hact as [_ ->]. split; [congruence|]. intros i Hi. rewrite Hf2 in Hi.
       pose proof Hi as Hi'. apply Hone in Hi' as [?| ->]; [by left|]. exfalso. rewrite <- Hf2 in Hi.
       apply list_elem_of_In, List.in_map_iff in Hi as (w & [= Hwid _] & Hwin%list_elem_of_In).
       rewrite get_row_None in Hw. by apply (Hw w Hwin). }
  apply get_row_Some in Hw as [_ Hwid]. change (wallet_id w = rev_wallet_id r) in Hwid.
  apply bind_inv_ok in Hact as (n & s4 & Hn & Hact). unfold _other_open_case_count in Hn.
  rewrite Hlink in Hn. cbn [is_some negb andb] in Hn. apply query_inv in Hn as [[= ->] ->].
  destruct (0 <? _)%nat eqn:Hothers.
  - apply write_inv in Hact as [_ ->]. cbn. split; [congruence|]. intros i Hi.
    apply flags_set in Hi as [[Hne Hi]|[_ ?]]; [|done]. left. rewrite Hf2 in Hi.
    apply Hone in Hi as [?| ->]; [done|]. by rewrite Hwid in Hne.
  - apply ret_inv in Hact as [_ ->]. split; [congruence|]. intros i Hi. rewrite Hf2 in Hi.
    apply Hone in Hi as [?| ->]; [by left|]. right. split.
    + intros z Hz Htz Hwz Hne. apply (no_others c (ses_db s2) z (rev_wallet_id r)); try done; [|congruence].
      apply Nat.ltb_ge in Hothers. destruct (select _ _); [done|cbn in Hothers; lia].
    + intros z Hz _ Hzw. rewrite Hv2 in Hz. by apply Hrevs.
Qed.

Lemma resolution_wallet_ok c s w s' :
  _resolution_wallet c s = (Ok w, s') →
  s' = s ∧ match w with inl x => frc_wallet_id c = Some (wallet_id x) | inr _ => True end.
Proof.
  unfold _resolution_wallet. intros Hr. destruct (frc_wallet_id c) as [wid|].
  - bind_query Hr. bind_some Hr x Hx. apply ret_inv in Hr as [[= ->] ->]. split; [done|].
    apply first_Some in Hx as [_ [Hid _]%andb_true_iff]. rewrite bool_decide_eq_true in Hid. by rewrite Hid.
  - bind_guard Hr Hj. apply bind_inv_ok in Hr as (text & s1 & Ht & Hr).
    assert (s1 = s) as -> by (destruct (asset_ref c); try done; by apply ret_inv in Ht as [_ ->]).
    bind_some Hr aid Ha. bind_query Hr. bind_some Hr x Hx. by apply ret_inv in Hr as [[= ->] ->].
Qed.

Lemma false_positive_guarded t c actor owner note s x s' :
  frc_tenant_id c = t → mark_false_positive t c actor owner note s = (Ok x, s') →
  owner = true ∧ resolution_cases (ses_db s') = resolution_cases (ses_db s)
  ∧ guarded t (frc_id c) (ses_db s) (ses_db s').
Proof.
  intros Ht Hr. unfold mark_false_positive in Hr. bind_guard Hr Hown. bind_guard Hr Hlen. bind_guard Hr Hrev.
  apply bind_inv_ok in Hr as (w & s1 & [-> Hw]%resolution_wallet_ok & Hr). bind_guard Hr Hact.
  apply bind_inv_ok in Hr as (n & s1 & Hn & Hr).
  assert (s1 = s) as -> by (symmetry; eapply (steps_run eq); [|exact Hn]; unfold _other_open_case_count; steps_walk).
  bind_guard Hr Ho. bind_query Hr. bind_guard Hr Hp. apply bind_inv_ok in Hr as (u & s1 & Hset & Hr).
  apply bind_inv_ok in Hr as (u2 & s2 & Hev & [_ ->]%ret_inv).
  apply (steps_run _ _ _ _ _ (flags_event _ _ _ _ _)) in Hev as (Hf2 & Hc2 & Hv2).
  split; [by destruct owner|]. destruct w as [w|aw]; cbn [activate] in Hset.
  - apply write_inv in Hset as [_ ->]. cbn in Hc2, Hv2. split; [done|]. intros i Hi. rewrite Hf2 in Hi.
    apply flags_set in Hi as [[_ Hi]|[-> _]]; [by left|]. right. split.
    + intros z Hz Htz Hwz Hne. unfold _other_open_case_count in Hn. rewrite Hw in Hn.
      cbn [is_some negb andb] in Hn. apply query_inv in Hn as [[= ->] _]. rewrite Hc2 in Hz.
      apply (no_others c (ses_db s) z (wallet_id w)); try done; [|congruence].
      apply Nat.ltb_ge in Ho. destruct (select _ _); [done|cbn in Ho; lia].
    + intros z Hz Htz Hzw Hst. rewrite Hv2 in Hz. apply Nat.ltb_ge in Hp. cbn [resolution_wallet_id] in Hp.
      assert (z ∈ select (pending_reversal t (wallet_id w)) (reversals (ses_db s))) as Hin.
      { apply elem_of_select. split; [done|]. unfold pending_reversal. by rewrite Htz, Hzw, Hst, !bool_decide_eq_true_2. }
      cbn in Hin. destruct (select _ _); [by apply elem_of_nil in Hin|cbn in Hp; lia].
  - apply write_inv in Hset as [_ ->]. cbn in Hc2. split; [done|]. intros i Hi. left. by rewrite Hf2 in Hi.
Qed.

Lemma locked_case_ok t cid s c s' :
  _locked_case t cid s = (Ok c, s') →
  s' = s ∧ c ∈ resolution_cases (ses_db s) ∧ frc_id c = cid ∧ frc_tenant_id c = t.
Proof.
  unfold _locked_case. intros Hr. bind_query Hr. apply bind_inv_ok in Hr as (o & s1 & Ho & Hr).
  apply of_option_ok in Hr as [-> ->]. apply one_or_none_some in Ho as [Hs ->]. split; [done|].
  assert (c ∈ select (λ c, (frc_id c == cid) && (frc_tenant_id c == t)) (resolution_cases (ses_db s))) as Hin
    by (rewrite Hs; left).
  apply elem_of_select in Hin as [Hin Hp]. by rewrite andb_true_iff, !bool_decide_eq_true in Hp.
Qed.

Definition may_reactivate (action : FinancialResolutionAction) (owner : bool) : Prop :=
  action = RETRY_LOCAL_REVERSAL ∨ action = MARK_FALSE_POSITIVE_AND_UNFREEZE ∧ owner = true.

Lemma decide_guarded t c actor action owner note s x s' :
  frc_tenant_id c = t →
  (∀ r, r ∈ reversals (ses_db s) → frc_reversal_id c = Some (rev_id r) → frc_wallet_id c = Some (rev_wallet_id r)) →
  decide_case t c actor action owner note s = (Ok x, s') →
  resolution_cases (ses_db s') = resolution_cases (ses_db s)
  ∧ ∀ i, (i, true) ∈ flags (ses_db s') →
      (i, true) ∈ flags (ses_db s) ∨ clear t i (frc_id c) (ses_db s') ∧ may_reactivate action owner.
Proof.
  intros Ht Hlink Hr. unfold may_reactivate.
  destruct action; cbn [decide_case] in Hr.
  - apply retry_guarded in Hr as [Hc Hg]; [|done..]. split; [done|]. intros i Hi. destruct (Hg i Hi); auto.
  - assert (same_flags s s') as (Hf & Hc & _).
    { eapply (steps_run same_flags); [|exact Hr]. unfold acknowledge_no_wallet_impact. steps_walk. }
    split; [done|]. intros i Hi. left. congruence.
  - assert (same_flags s s') as (Hf & Hc & _).
    { unfold close_keep_wallet_frozen in Hr.
      apply bind_inv_ok in Hr as (w & s1 & [-> Hw]%resolution_wallet_ok & Hr).
      eapply (steps_run same_flags); [|exact Hr]. steps_walk. }
    split; [done|]. intros i Hi. left. congruence.
  - apply false_positive_guarded in Hr as (Ho & Hc & Hg); [|done]. split; [done|].
    intros i Hi. destruct (Hg i Hi); auto.
Qed.

Lemma clear_update t i cid f d :
  (∀ c, frc_id (f c) = frc_id c) → clear t i cid d →
  clear t i cid (d <| resolution_cases ::= update_row cid f |>).
Proof.
  intros Hf [Hc Hr]. split; [|done]. intros x (x0 & Hx0 & ->)%elem_of_update_where.
  case_bool_decide as Hid; [|by apply Hc]. intros _ _ Hne. exfalso. apply Hne. by rewrite Hf.
Qed.

Lemma resolve_guarded t cid actor v action note owner s c s' :
  linked (ses_db s) → resolve_case t cid actor v action note owner s = (Ok c, s') →
  ∀ i, (i, true) ∈ flags (ses_db s') →
    (i, true) ∈ flags (ses_db s) ∨ clear t i cid (ses_db s') ∧ may_reactivate action owner.
Proof.
  intros Hlink Hr. unfold resolve_case in Hr.
  apply bind_inv_ok in Hr as (c0 & s0 & (-> & Hin & Hid & Ht)%locked_case_ok & Hr).
  apply bind_inv_ok in Hr as (u0 & s0 & [_ ->]%raise_if_ok & Hr).
  destruct (_ == FrcResolved); [apply ret_inv in Hr as [_ ->]; by left|].
  bind_guard Hr Has. bind_write Hr. cbv zeta in Hr. bind_guard Hr Hlen.
  apply bind_inv_ok in Hr as (code & s1 & Hdec & Hr).
  apply decide_guarded in Hdec as [Hc Hg]; [|done|intros r Hrin; by apply (Hlink c0 r)].
  apply bind_inv_ok in Hr as (n & s2 & Hn & Hr). apply gets_inv in Hn as [_ ->]. bind_write Hr.
  apply query_inv in Hr as [_ ->]. intros i Hi. destruct (Hg i Hi) as [?|[Hcl Hm]]; [by left|].
  right. split; [|done]. rewrite <- Hid in *. by apply clear_update.
Qed.

End decisions.

(** [C29] A frozen wallet is put back into service only when its record is
    clear.  Let an operator decide a case, with any action and note, and let
    the decision go through.  A wallet that is active afterwards was active
    before, or: no other case of the tenant for that wallet is unresolved, no
    reversal of the tenant on it waits for review, and the decision was to
    apply the reversal that froze it, or an owner's finding that the alarm was
    false.  (That a case about a reversal names the reversal's wallet is how
    cases are opened.) *)
Theorem wallet_reactivated_only_when_clear `{HE : Env} t cid actor v action note owner s c s' :
  Serial HE → linked (ses_db s) → resolve_case t cid actor v action note owner s = (Ok c, s') →
  ∀ i, (i, true) ∈ flags (ses_db s') →
    (i, true) ∈ flags (ses_db s) ∨ clear t i cid (ses_db s') ∧ may_reactivate action owner.
Proof. intros HS. apply resolve_guarded. Qed.

Definition frozen_db : DB :=
  empty_db <| wallets := [MkWallet (mk_uuid "w") (mk_uuid "t") (mk_uuid "u") "USD" (cents 2500) false] |>
           <| resolution_cases :=
                [MkFinancialResolutionCase (mk_uuid "case") (mk_uuid "t") "event:e" "OUTBOUND_INTEGRITY_MISMATCH"
                   "CRITICAL" FrcOpen None (Some (mk_uuid "w")) None None None 1 None None None None []] |>.

Definition frozen_session : Session := MkSession frozen_db frozen_db 0 [].

Definition unfreeze_demo : outcome exn FinancialResolutionCase * Session :=
  @resolve_case demo_env (mk_uuid "t") (mk_uuid "case") (mk_uuid "owner") 1
    MARK_FALSE_POSITIVE_AND_UNFREEZE " Checked with the gateway, no refund. " true frozen_session.

Lemma frozen_linked : linked frozen_db.
Proof. intros c r _ Hr. by apply elem_of_nil in Hr. Qed.

Lemma wallet_reactivated_only_when_clear_witness :
  flags (ses_db unfreeze_demo.2) = [(mk_uuid "w", true)]
  ∧ ((mk_uuid "w", true) ∈ flags frozen_db
     ∨ clear (mk_uuid "t") (mk_uuid "w") (mk_uuid "case") (ses_db unfreeze_demo.2)
       ∧ may_reactivate MARK_FALSE_POSITIVE_AND_UNFREEZE true).
Proof.
  split; [vm_compute; reflexivity|].
  assert (is_ok unfreeze_demo.1 = true) as Hok by (vm_compute; reflexivity).
  destruct unfreeze_demo as [[c|e] s'] eqn:Hrun; [|discriminate Hok]. unfold unfreeze_demo in Hrun.
  refine (@wallet_reactivated_only_when_clear demo_env _ _ _ _ _ _ _ frozen_session c s'
            demo_env_serial frozen_linked Hrun (mk_uuid "w") _).
  replace s' with (Ok (E := exn) c, s').2 by reflexivity. rewrite <- Hrun. vm_compute. left.
Defined.
