(* ===== verification/Reconciliation.v ===== *)
(** * Payment reconciliation

    [packages/payments/reconciliation.py] and its worker
    ([provider_reconciliation_worker.py]): open intents are compared with what
    their gateway says, and creations whose outcome was lost are recovered. *)

From Stdlib Require Import ZArith Lia Ascii String.
From stdpp Require Import base tactics list option strings numbers pretty.
From S2P Require Import Prelude Tables Text Money Exceptions StateMachines Models Ledger.
From S2P Require Import Payments TopUps Reversals Resolution.

Local Open Scope Z_scope.

(** ** Intents against their gateway *)

Definition purpose_value (p : PaymentIntentPurpose) : string :=
  match p with ORDER_PAYMENT => "ORDER_PAYMENT" | WALLET_TOPUP => "WALLET_TOPUP" end.

Fixpoint dict_remove (k : string) (d : dict) : dict :=
  match d with
  | [] => []
  | (k', v) :: d => if k == k' then d else (k', v) :: dict_remove k d
  end.

Definition _has_creation_ambiguity (intent : PaymentIntent) : bool :=
  match dict_get "_provider_creation_ambiguity" (intent_metadata_json intent) with
  | Some (JObj marker) =>
      match dict_get "reason" marker with
      | Some (JStr r) => r == "transport_outcome_unknown"
      | _ => false
      end
  | _ => false
  end.

Definition _recovery_request (intent : PaymentIntent) : PaymentCreateRequest :=
  MkPaymentCreateRequest (intent_order_id intent) (intent_amount intent) (intent_currency intent)
    (intent_idempotency_key intent)
    ([ ("purpose", JStr (purpose_value (intent_purpose intent)));
       ("payment_intent_id", JStr (uuid_str (intent_id intent)));
       ("tenant_id", JStr (uuid_str (intent_tenant_id intent)));
       ("user_id", JStr (uuid_str (intent_user_id intent))) ]
     ++ match intent_payment_method_id intent with
        | Some pm => [("payment_method_id", JStr (uuid_str pm))]
        | None => []
        end)
    None.

Section reconcile.
  Context `{Env} `{Gateways}.

(** The expectation stored for the intent is checked, or stored for the first
    time. *)
Definition check_attributes (intent : PaymentIntent) (details : PaymentDetailsResult) (may_store : bool)
    : M unit :=
  match dict_get "_provider_verification" (intent_metadata_json intent) with
  | Some expected =>
      if json_truthy expected
      then of_outcome (assert_provider_verification_attributes intent (pd_verification_attributes details))
      else if may_store
           then _store_provider_verification_attributes intent (pd_verification_attributes details)
           else mret tt
  | None =>
      if may_store
      then _store_provider_verification_attributes intent (pd_verification_attributes details)
      else mret tt
  end.

Definition apply_status (intent : PaymentIntent) (details : PaymentDetailsResult) : M unit :=
  match pd_status details with
  | PaySucceeded =>
      settle_payment_intent (intent_tenant_id intent) (intent_id intent)
        (Some (pd_amount details)) (Some (pd_currency details));; mret tt
  | PayFailed | PayCancelled | PayExpired | PayProcessing =>
      if intent_status intent != pd_status details
      then intent_transition_to intent (pd_status details) else mret tt
  | _ => mret tt
  end.

Definition _apply_details (intent : PaymentIntent) (details : PaymentDetailsResult) (may_store : bool)
    : M PaymentIntent :=
  (if Some (pd_provider_payment_id details) != intent_provider_payment_id intent
   then
     raise_if (is_some (intent_provider_payment_id intent)) PaymentIntegrityError;;
     update_intent (intent_id intent) (λ i,
       i <| intent_provider_payment_id := Some (pd_provider_payment_id details) |>)
   else mret tt);;
  raise_if (negb (pd_amount details =? intent_amount intent)
            || (pd_currency details != intent_currency intent)) PaymentIntegrityError;;
  check_attributes intent details may_store;;
  apply_status intent details;;
  flush_intent intent.

Definition _recover_creation_ambiguity (intent : PaymentIntent) : M PaymentIntent :=
  gateway ← get_provider (intent_tenant_id intent) (intent_provider intent);
  if negb (supports_creation_recovery gateway) then mret intent
  else
    recover ← of_option UnsupportedProviderCapabilityError (gw_recover_payment_creation gateway);
    answer ← catch
      (a ← gets (λ s, recover (ses_sent s) (_recovery_request intent)); d ← of_outcome a; mret (Some d))
      (λ e, if (e == TimeoutError) || is_payment_provider_error e then mret None else mthrow e);
    match answer with
    | None => mret intent
    | Some details =>
        raise_if (pd_provider_payment_id details == "") PaymentIntegrityError;;
        n ← now;
        let ambiguity := default JNull (dict_get "_provider_creation_ambiguity" (intent_metadata_json intent)) in
        update_intent (intent_id intent) (λ i,
          i <| intent_metadata_json ::= (λ md,
                 dict_set "_provider_creation_recovery"
                   (JObj [ ("recovered_at", JStr (env_isoformat n)); ("provider", JStr (intent_provider intent));
                           ("original_ambiguity", ambiguity) ])
                   (dict_remove "_provider_creation_ambiguity" md)) |>);;
        row ← live_intent intent;
        _apply_details row details true
    end.

(** [TimeoutError] and [PaymentProviderError]: the state is unknown. *)
Definition mark_unknown (intent : PaymentIntent) : M PaymentIntent :=
  (if intent_status intent != PayUnknown then intent_transition_to intent PayUnknown else mret tt);;
  flush_intent intent.

Definition reconcile_intent (tenant_id iid : UUID) : M PaymentIntent :=
  intent ← get_payment_intent tenant_id iid;
  if intent_status intent == PaySucceeded then mret intent
  else if negb (truthy (intent_provider_payment_id intent)) then
    if (intent_status intent == PayUnknown) && _has_creation_ambiguity intent
    then _recover_creation_ambiguity intent
    else mthrow PaymentError
  else
    gateway ← get_provider tenant_id (intent_provider intent);
    raise_if (negb (supports_payment_lookup gateway)) UnsupportedProviderCapabilityError;;
    answer ← catch
      (a ← gets (λ s, gw_get_payment gateway (ses_sent s)
                        (default "" (intent_provider_payment_id intent)));
       d ← of_outcome a; mret (Some d))
      (λ e, if (e == TimeoutError) || is_payment_provider_error e then mret None else mthrow e);
    match answer with
    | None => mark_unknown intent
    | Some details => _apply_details intent details false
    end.

(** *** The scan *)

Definition open_status (st : PaymentIntentStatus) : bool :=
  (st == PayPending) || (st == PayProcessing) || (st == PayUnknown).

Definition scanned (tenant_id : option UUID) (excluded : list string) (i : PaymentIntent) : bool :=
  (match tenant_id with Some t => intent_tenant_id i == t | None => true end)
  && negb (existsb (λ name, intent_provider i == name) excluded).

Definition normalized_exclusions (names : list string) : list string :=
  map (λ name, lower (strip name)) (select (λ name, strip name != "") names).

(** [ORDER BY updated_at, id]; [updated_at] says when a row was last written. *)
Definition by_age (updated_at : UUID → Z) : list PaymentIntent → list PaymentIntent :=
  sort_by (then_by (λ i, updated_at (intent_id i)) (λ a b, uuid_leb (intent_id a) (intent_id b))).

Definition pending_candidates (updated_at : UUID → Z) (tenant_id : option UUID) (limit : nat)
    (excluded : list string) (d : DB) : list PaymentIntent :=
  let backed := take limit (by_age updated_at (select (λ i,
                  open_status (intent_status i) && is_some (intent_provider_payment_id i)
                  && scanned tenant_id excluded i) (intents d))) in
  let remaining := (limit - length backed)%nat in
  if (0 <? remaining)%nat then
    let ambiguous := take (Nat.min (remaining * 4) 200) (by_age updated_at (select (λ i,
                       (intent_status i == PayUnknown) && negb (is_some (intent_provider_payment_id i))
                       && scanned tenant_id excluded i) (intents d))) in
    take limit (backed ++ select _has_creation_ambiguity ambiguous)
  else backed.

(** Every failure is logged and passed over; what it had changed stays in the
    session.  A column error is different: the savepoint of the ledger has
    undone it, or it was a flush of the intent, and then the session refuses
    to go on. *)
Definition passed_over (i : PaymentIntent) (e : exn) : M (list PaymentIntent) :=
  match e with
  | DataError =>
      catch (flush_intent i;; mret []) (λ _, rollback;; mthrow PendingRollbackError)
  | _ => mret []
  end.

Fixpoint reconcile_each (l : list PaymentIntent) : M (list PaymentIntent) :=
  match l with
  | [] => mret []
  | i :: l =>
      rec ← catch (x ← reconcile_intent (intent_tenant_id i) (intent_id i); mret [x]) (passed_over i);
      rest ← reconcile_each l;
      mret (rec ++ rest)
  end.

Definition reconcile_pending_intents (updated_at : UUID → Z) (tenant_id : option UUID) (limit : Z)
    (exclude_providers : list string) : M (list PaymentIntent) :=
  let limit := Z.to_nat (Z.max 1 (Z.min limit 200)) in
  l ← query (pending_candidates updated_at tenant_id limit (normalized_exclusions exclude_providers));
  reconcile_each l.

(** *** The worker *)

Record Stats := MkStats {
  st_scanned : nat;
  st_succeeded : nat;
  st_processing : nat;
  st_unknown : nat;
  st_terminal : nat;
}.

Definition stats_of (l : list PaymentIntent) : Stats :=
  let count p := length (select p (map intent_status l)) in
  let open := λ st, (st == PayPending) || (st == PayProcessing) in
  MkStats (length l) (count (λ st, st == PaySucceeded)) (count open) (count (λ st, st == PayUnknown))
    (count (λ st, (st != PaySucceeded) && negb (open st) && (st != PayUnknown))).

Definition run_once (updated_at : UUID → Z) (batch_size : Z) : M Stats :=
  l ← reconcile_pending_intents updated_at None batch_size ["telegram_stars"];
  mret (stats_of l).

(** One iteration of the worker's loop. *)
Definition reconciliation_pass (updated_at : UUID → Z) (batch_size : Z) : M Stats :=
  in_session (stats ← run_once updated_at batch_size; commit;; mret stats).

End reconcile.
