(* ===== verification/ReconciliationSpec.v ===== *)
(** * Payment reconciliation: properties

    The books of [PaymentsInv.v] balance over histories in which requests and
    passes of the reconciliation worker alternate.  The worker swallows
    exceptions and commits what the failed reconciliation had done, so here
    every outcome of a settlement matters, not only the returning ones. *)

From Stdlib Require Import ZArith Lia Ascii String Sorting.Sorted.
From stdpp Require Import base tactics list option strings numbers pretty.
From S2P Require Import Prelude Tables Text Money Exceptions StateMachines Models Ledger.
From S2P Require Import LedgerInv LedgerSpec DepositsSpec Fulfillment FulfillmentSpec Payments TopUps.
From S2P Require Import PaymentsInv PaymentsSpec Reversals ReversalsSpec ReversalsLive Reconciliation.

Local Open Scope Z_scope.

Definition in_books (s : Session) : Prop := books (ses_db s).

(** Every row of the intent [iid] has a status that satisfies [P]. *)
Definition at_status (P : PaymentIntentStatus → Prop) (iid : UUID) (s : Session) : Prop :=
  in_books s ∧ ∀ j, j ∈ intents (ses_db s) → intent_id j = iid → P (intent_status j).

(** Only the intent [iid] changes, and none is added. *)
Definition others_kept (iid : UUID) (s s' : Session) : Prop :=
  ∀ j, j ∈ intents (ses_db s') → intent_id j ≠ iid → j ∈ intents (ses_db s).

Global Instance others_kept_preorder iid : PreOrder (others_kept iid).
Proof. split; unfold others_kept; [by intros s|]. intros x y z H1 H2 j Hj Hne. auto. Qed.

(** *** Whatever the outcome *)

Section outcomes.
  Context `{HE : Env} `{!Serial HE} `{Gateways}.

Lemma undone_settle_payment w a iid desc : undone (settle_payment w a iid desc).
Proof. unfold settle_payment. undone_walk. Qed.

Lemma undone_get_wallet t u c : undone (get_or_create_wallet t u c).
Proof. unfold get_or_create_wallet. undone_walk. Qed.

Lemma books_steps {A} (m : M A) s : steps same_books m → in_books s → ensures in_books m s.
Proof. intros Hm Hb. eapply books_same; [apply Hm|exact Hb]. Qed.

Lemma mark_succeeded_legal i s :
  closes (intent_status i) = false → intent_status i ≠ PaySucceeded →
  mark_succeeded i s = (Ok tt, s <| ses_db ::= λ d, d <| intents ::= succeed (intent_id i) |> |>).
Proof.
  intros Hc Hok. unfold mark_succeeded. rewrite (bool_decide_eq_false_2 _ Hok). cbn [negb].
  unfold intent_transition_to. by destruct (intent_status i).
Qed.

(** Once the wallet is credited nothing can keep an open intent from
    succeeding; what fails afterwards does not touch the books. *)
Lemma settle_tail_any {A} i w desc (found paid : LedgerTransaction → M A) s :
  in_books s → i ∈ intents (ses_db s) → w ∈ wallets (ses_db s) → wallet_key w = intent_key i →
  closes (intent_status i) = false →
  (∀ tx, steps same_books (found tx)) → (∀ tx, steps same_books (paid tx)) →
  ensures in_books
    (existing ← query (settlement_entry (wallet_id w) (intent_id i));
     match existing with
     | Some tx => mark_succeeded i;; found tx
     | None => tx ← settle_payment w (intent_amount i) (intent_id i) desc; mark_succeeded i;; paid tx
     end) s.
Proof.
  intros Hb Hi Hw Hk Hcl Hfound Hpaid. pose proof (elem_of_owners _ _ Hw) as Ho. rewrite Hk in Ho.
  apply ensures_gets. destruct (settlement_entry _ _ (ses_db s)) as [tx|] eqn:Hse.
  - apply settlement_entry_some in Hse as [_ Htx]. destruct (books_entry _ _ _ Hb Hi Htx) as [_ Hok].
    unfold mark_succeeded. rewrite bool_decide_eq_true_2 by done. by apply books_steps; [apply Hfound|].
  - unfold ensures. destruct (settle_payment w (intent_amount i) (intent_id i) desc s) as [[tx|e] s1] eqn:Hs.
    + destruct (settle_fresh i w desc s tx s1) as (Hok & [_ _ Hb2] & _); [done..|].
      erewrite bind_ok by exact Hs. erewrite bind_ok by (by apply mark_succeeded_legal).
      eapply books_same; [apply Hpaid|exact Hb2].
    + erewrite bind_raise by exact Hs. cbn. unfold in_books.
      by rewrite (undone_settle_payment _ _ _ _ _ _ _ Hs).
Qed.

Lemma live_intent_same i : steps same_books (live_intent i).
Proof. by intros s. Qed.

Lemma mark_paid_same o : steps same_books (mark_paid o).
Proof. pose proof same_books_order. unfold mark_paid. steps_walk. Qed.

Hint Resolve live_intent_same mark_paid_same same_books_payment_tx : steps.

(** The wallet of the owner, then the tail. *)
Lemma settle_wallet_any {A} t u c (k : Wallet → M A) s :
  in_books s →
  (∀ w s1, in_books s1 → w ∈ wallets (ses_db s1) → wallet_key w = (t, u, c) →
     intents (ses_db s1) = intents (ses_db s) → ensures in_books (k w) s1) →
  ensures in_books (w ← get_or_create_wallet t u c; k w) s.
Proof.
  intros Hb Hk. unfold ensures. destruct (get_or_create_wallet t u c s) as [[w|e] s1] eqn:Hw.
  - erewrite bind_ok by exact Hw.
    destruct (owner_wallet_books _ _ _ _ _ _ Hb Hw) as (Hb1 & Hin & Hkey & _ & Hi1 & _). by apply Hk.
  - erewrite bind_raise by exact Hw. cbn. unfold in_books.
    by rewrite (undone_get_wallet _ _ _ _ _ _ Hw).
Qed.

Lemma get_intent_any {A} (I : Session → Prop) t iid (k : PaymentIntent → M A) s :
  I s →
  (∀ i, i ∈ intents (ses_db s) → intent_id i = iid → intent_tenant_id i = t → ensures I (k i) s) →
  ensures I (i ← get_payment_intent t iid; k i) s.
Proof.
  intros Hs Hk. unfold ensures. destruct (get_payment_intent t iid s) as [[i|e] s1] eqn:Hg.
  - erewrite bind_ok by exact Hg. apply get_payment_intent_ok in Hg as (-> & Hi & Hid & Ht). by apply Hk.
  - erewrite bind_raise by exact Hg. cbn.
    assert (steps eq (get_payment_intent t iid)) as Hst by (unfold get_payment_intent; steps_walk).
    by rewrite <- (steps_run _ _ _ _ _ Hst Hg).
Qed.

Lemma verify_any {A} (I : Session → Prop) i a c (k : M A) s :
  I s → ensures I k s → ensures I (verify_settlement i a c;; k) s.
Proof.
  intros Hs Hk. apply ensures_bind.
  - unfold verify_settlement. by apply ensures_guard; [|intros _; unfold raise_if; destruct (_ && _)].
  - by intros u s1 [-> _]%verify_settlement_ok _.
Qed.

Lemma settle_topup_any i a c s :
  in_books s → i ∈ intents (ses_db s) → closes (intent_status i) = false →
  ensures in_books (_settle_wallet_topup i a c) s.
Proof.
  intros Hb Hi Hcl. unfold _settle_wallet_topup. apply ensures_guard; [done|intros _].
  apply verify_any; [done|]. apply settle_wallet_any; [done|]. intros w s1 Hb1 Hw Hk Hi1.
  rewrite <- Hi1 in Hi. apply settle_tail_any; try done; intros tx; steps_walk.
Qed.

Lemma settle_any t iid a c s :
  at_status (λ st, closes st = false) iid s → ensures in_books (settle_payment_intent t iid a c) s.
Proof.
  intros [Hb Hst]. unfold settle_payment_intent. apply get_intent_any; [done|]. intros i Hi Hid Ht.
  pose proof (Hst i Hi Hid) as Hcl. case_bool_decide; [by apply settle_topup_any|].
  apply ensures_of_option; [done|intros oid Hoid]. apply ensures_gets.
  apply ensures_of_option; [done|intros o Ho]. apply ensures_guard; [done|intros _].
  apply verify_any; [done|]. do 2 (apply ensures_guard; [done|intros _]).
  apply settle_wallet_any; [done|]. intros w s1 Hb1 Hw Hk Hi1.
  rewrite <- Hi1 in Hi. rewrite <- Ht in Hk. apply settle_tail_any; try done; intros tx; steps_walk.
Qed.

End outcomes.

(** *** Reconciling one intent *)

Section reconciled.
  Context `{HE : Env} `{!Serial HE} `{Gateways}.

Lemma at_status_update P iid i f :
  same_terms f → steps (keeps (at_status P iid)) (update_intent i f).
Proof.
  intros Hf s [Hb Hs]. split; cbn.
  - apply books_intent; [|done]. intros x _ _. apply Hf.
  - intros j (x & Hx & ->)%elem_of_update_where Hid. destruct (Hf x) as [(Hk & _) Hst].
    case_bool_decide; [rewrite Hst|]; apply (Hs x); congruence.
Qed.

Lemma at_status_store P iid i l :
  steps (keeps (at_status P iid)) (_store_provider_verification_attributes i l).
Proof.
  unfold _store_provider_verification_attributes. steps_walk. by apply at_status_update.
Qed.

Lemma at_status_attributes P iid i d b : steps (keeps (at_status P iid)) (check_attributes i d b).
Proof. pose proof at_status_store. unfold check_attributes. steps_walk. Qed.

(** A change of status to anything but success. *)
Lemma transition_any i st s :
  st ≠ PaySucceeded → at_status (λ x, x = intent_status i) (intent_id i) s →
  ensures in_books (intent_transition_to i st) s.
Proof.
  intros Hst [Hb Hs]. unfold intent_transition_to. apply ensures_of_outcome; [done|].
  intros x Hx. pose proof Hx as [-> _]%transition_ok. apply books_intent; [|done].
  intros j Hj Hid. split_and!; try done. cbn. split; [done|]. rewrite (Hs j Hj Hid). intros Hok.
  rewrite Hok in Hx. apply transition_ok in Hx as [_ [?|Hx]]; [done|by apply elem_of_nil in Hx].
Qed.

(** What a statement promises when it was given the intent [i]: the books
    balance unless it raised and [i] was closed before. *)
Definition balances {A} (i : PaymentIntent) (o : outcome exn A) (s : Session) : Prop :=
  is_ok o = true ∨ closes (intent_status i) = false → in_books s.

Lemma wp_ensures {A} (i : PaymentIntent) (m : M A) s : ensures in_books m s → wp m (balances i) s.
Proof. by intros Hm _. Qed.

Lemma apply_status_any i d s :
  at_status (λ x, x = intent_status i) (intent_id i) s → wp (apply_status i d) (balances i) s.
Proof.
  intros Hs. unfold apply_status. pose proof Hs as [Hb Hst].
  assert (∀ st, st ≠ PaySucceeded →
    wp (if intent_status i != st then intent_transition_to i st else mret tt) (balances i) s) as Hmove.
  { intros st Hne. apply wp_ensures. destruct (_ != _); [by apply transition_any|done]. }
  destruct (pd_status d); try (by apply Hmove); try by apply wp_ensures.
  apply wp_bind, wp_intro. intros [[r tx]|e] s1 Hr.
  - apply wp_ret. intros _. by apply settle_payment_intent_spec in Hr as (j & _ & _ & _ & [[_ _ ?] _ _ _]).
  - intros [?|Hcl]; [done|].
    eapply (f_equal snd) in Hr. cbn in Hr. subst s1. apply settle_any. split; [done|].
    intros j Hj Hid. by rewrite (Hst j Hj Hid).
Qed.

Lemma apply_details_any i d b s :
  at_status (λ x, x = intent_status i) (intent_id i) s → wp (_apply_details i d b) (balances i) s.
Proof.
  intros Hs. unfold _apply_details. eapply wp_keep; [exact Hs| | |by intros e s1 [? _] _].
  { steps_walk. by apply at_status_update. }
  intros u1 s1 _ Hs1. apply wp_guard; [intros _|by intros _ _; destruct Hs1].
  eapply wp_keep; [exact Hs1|apply at_status_attributes| |by intros e s2 [? _] _].
  intros u2 s2 _ Hs2. apply wp_bind. eapply wp_mono; [by apply apply_status_any|].
  intros [u3|e] s3 Hb3; [|exact Hb3]. apply wp_ensures. unfold ensures.
  rewrite <- (flush_intent_reads i s3). apply Hb3. by left.
Qed.

Lemma live_at_status i s row s' :
  at_status (λ x, x = intent_status i) (intent_id i) s → live_intent i s = (Ok row, s') →
  s' = s ∧ intent_id row = intent_id i ∧ intent_status row = intent_status i.
Proof.
  intros [_ Hst] Hr. apply query_inv in Hr as [Hr ->]. split; [done|].
  destruct (get_row (intent_id i) (intents (ses_db s))) as [y|] eqn:Hg; cbn in Hr; injection Hr as ->.
  - apply get_row_Some in Hg as [Hy Hid]. auto.
  - done.
Qed.

Lemma gateway_answer_reads (ask : list Sent → outcome exn PaymentDetailsResult) :
  steps eq (catch
    (a ← gets (λ s, ask (ses_sent s)); d ← of_outcome a; mret (Some d))
    (λ e, if (e == TimeoutError) || is_payment_provider_error e then mret None else mthrow e) : M _).
Proof. steps_walk. Qed.

Lemma recover_any i s :
  at_status (λ x, x = intent_status i) (intent_id i) s → wp (_recover_creation_ambiguity i) (balances i) s.
Proof.
  intros Hs. pose proof Hs as [Hb _]. unfold _recover_creation_ambiguity.
  apply wp_read; [apply get_provider_reads| |by intros e _ _]. intros g _.
  destruct (negb _); [by apply wp_ensures|]. apply wp_of_option; [intros f _|by intros _ _].
  apply wp_read; [apply (gateway_answer_reads (λ l, f l (_recovery_request i)))| |by intros e _ _].
  intros [d|] _; [|by apply wp_ensures]. apply wp_guard; [intros _|by intros _ _].
  apply wp_gets. eapply wp_keep; [exact Hs|by apply at_status_update| |by intros e s1 [? _] _].
  intros u s1 _ Hs1. apply wp_bind, wp_intro. intros r s2 Hr.
  destruct r as [row|e]; [|by apply query_inv in Hr as [? _]].
  apply live_at_status in Hr as (-> & Hid & Hst); [|done].
  eapply wp_mono; [apply apply_details_any; by rewrite Hid, Hst|].
  unfold balances. by rewrite Hst.
Qed.

Lemma reconcile_intent_any t iid s :
  in_books s →
  wp (reconcile_intent t iid)
     (λ o s', is_ok o = true ∨ at_status (λ st, closes st = false) iid s → in_books s') s.
Proof.
  intros Hb. unfold reconcile_intent.
  apply wp_read; [unfold get_payment_intent; by steps_walk| |by intros e _ _].
  intros i (_ & Hi & Hid & Ht)%get_payment_intent_ok.
  assert (at_status (λ x, x = intent_status i) (intent_id i) s) as Hs.
  { split; [done|]. intros j Hj Hj'. f_equal. eapply NoDup_fmap_inj; [apply (bk_ids _ Hb)|done..]. }
  eapply (wp_mono _ (balances i)).
  2: { intros o s' Hbal [?|[_ Hcl]]; apply Hbal; [by left|right; by apply Hcl]. }
  case_bool_decide; [by apply wp_ensures|]. destruct (negb (truthy _)).
  { destruct (_ && _); [by apply recover_any|by apply wp_ensures]. }
  apply wp_read; [apply get_provider_reads| |by intros e _ _]. intros g _.
  apply wp_guard; [intros _|by intros _ _].
  apply wp_read; [apply (gateway_answer_reads (λ l, gw_get_payment g l _))| |by intros e _ _].
  intros [d|] _; [by apply apply_details_any|]. apply wp_ensures, ensures_bind.
  - destruct (_ != _); [by apply transition_any|done].
  - intros u s1 _ Hb1. unfold ensures. by rewrite <- (flush_intent_reads i s1).
Qed.

End reconciled.

(** *** A pass of the worker *)

Section pass.
  Context `{HE : Env} `{!Serial HE} `{Gateways}.

Lemma others_write iid f : (∀ d, intents (f d) = intents d) → steps (others_kept iid) (write f).
Proof. intros Hf s j Hj _. cbn in Hj. by rewrite Hf in Hj. Qed.

Lemma others_uuid4 iid : steps (others_kept iid) uuid4.
Proof. by intros s j Hj _. Qed.

Lemma others_await iid : steps (others_kept iid) await_others.
Proof. intros s j Hj _. cbn in Hj. by rewrite serial_race in Hj. Qed.

Lemma others_nested iid {A} (m : M A) :
  steps (others_kept iid) m → steps (others_kept iid) (begin_nested m).
Proof. intros Hm s. specialize (Hm s). unfold begin_nested. destruct (m s) as [[a|e] s']; [done|by intros j Hj _]. Qed.

Lemma others_reads iid {A} (m : M A) : steps eq m → steps (others_kept iid) m.
Proof. intros Hm s. by rewrite <- (Hm s). Qed.

Lemma others_update i f :
  same_terms f → steps (others_kept i) (update_intent i f).
Proof.
  intros Hf s j (x & Hx & ->)%elem_of_update_where Hid.
  case_bool_decide as Hc; [|done]. destruct (Hf x) as [(Hk & _) _]. by rewrite Hk in Hid.
Qed.

Lemma others_status i st :
  steps (others_kept i) (update_intent i (λ x, x <| intent_status := st |>)).
Proof. intros s j (x & Hx & ->)%elem_of_update_where Hid. by case_bool_decide. Qed.

Hint Resolve others_uuid4 others_await others_nested others_status : steps.
Hint Extern 1 (steps (others_kept _) (write _)) => apply others_write; reflexivity : steps.
Hint Extern 1 (steps (others_kept _) (update_intent _ _)) => apply others_update; by intros ? : steps.

Lemma others_wait iid n read : steps (others_kept iid) (wait_for_entry n read).
Proof. induction n as [|n IH]; cbn [wait_for_entry]; steps_walk. Qed.

Lemma others_wallet iid t u c : steps (others_kept iid) (get_or_create_wallet t u c).
Proof.
  unfold get_or_create_wallet. steps_walk. all: apply others_nested; unfold insert_wallet; steps_walk.
Qed.

Lemma others_settle_payment iid w a i desc : steps (others_kept iid) (settle_payment w a i desc).
Proof.
  pose proof others_wait. unfold settle_payment, lock_wallet, return_existing. steps_walk.
  all: apply others_nested; unfold flush_entry; steps_walk.
Qed.

Lemma others_transition i st : steps (others_kept (intent_id i)) (intent_transition_to i st).
Proof. unfold intent_transition_to. steps_walk. Qed.

Lemma others_payment_tx iid i ty a c p r md : steps (others_kept iid) (insert_payment_tx i ty a c p r md).
Proof. unfold insert_payment_tx, to_varchar_opt. steps_walk. Qed.

Lemma others_mark_paid iid o : steps (others_kept iid) (mark_paid o).
Proof. unfold mark_paid, order_transition_to. steps_walk. Qed.

Lemma others_live iid i : steps (others_kept iid) (live_intent i).
Proof. by intros s j Hj _. Qed.

Lemma others_get_intent {A} t iid (k : PaymentIntent → M A) :
  (∀ i, intent_id i = iid → steps (others_kept iid) (k i)) →
  steps (others_kept iid) (i ← get_payment_intent t iid; k i).
Proof.
  intros Hk s. unfold mbind, prog_bind.
  destruct (get_payment_intent t iid s) as [[i|e] s1] eqn:Hg.
  - apply get_payment_intent_ok in Hg as (-> & _ & Hid & _). by apply Hk.
  - assert (steps eq (get_payment_intent t iid)) as Hst by (unfold get_payment_intent; steps_walk).
    by rewrite <- (steps_run _ _ _ _ _ Hst Hg).
Qed.

Hint Resolve others_wallet others_settle_payment others_transition others_payment_tx others_mark_paid
  others_live : steps.

Lemma others_mark_succeeded i : steps (others_kept (intent_id i)) (mark_succeeded i).
Proof. unfold mark_succeeded. steps_walk. Qed.

Hint Resolve others_mark_succeeded : steps.

Lemma others_settle t iid a c : steps (others_kept iid) (settle_payment_intent t iid a c).
Proof.
  apply others_get_intent. intros i <-. unfold _settle_wallet_topup, verify_settlement. steps_walk.
Qed.

Lemma others_store i l : steps (others_kept (intent_id i)) (_store_provider_verification_attributes i l).
Proof. unfold _store_provider_verification_attributes. steps_walk. Qed.

Hint Resolve others_settle others_store : steps.

Lemma others_apply i d b : steps (others_kept (intent_id i)) (_apply_details i d b).
Proof.
  assert (steps (others_kept (intent_id i)) (flush_intent i)) by (apply others_reads, flush_intent_reads).
  unfold _apply_details, check_attributes, apply_status. steps_walk.
Qed.

Lemma others_recover i : steps (others_kept (intent_id i)) (_recover_creation_ambiguity i).
Proof.
  assert (∀ {A} (k : PaymentIntent → M A),
    (∀ row, intent_id row = intent_id i → steps (others_kept (intent_id i)) (k row)) →
    steps (others_kept (intent_id i)) (row ← live_intent i; k row)) as Hlive.
  { intros A k Hk s. apply Hk. destruct (get_row _ _) as [y|] eqn:Hg; [|done].
    by apply get_row_Some in Hg as [_ ?]. }
  unfold _recover_creation_ambiguity, now.
  repeat first
    [ apply others_reads; by steps_walk
    | apply others_reads, get_provider_reads
    | apply Hlive; intros row <-; apply others_apply
    | apply others_update; by intros ?
    | apply steps_bind; [typeclasses eauto| |intros ?]
    | match goal with |- steps _ (match ?x with _ => _ end) => destruct x end ].
Qed.

Lemma others_reconcile t iid : steps (others_kept iid) (reconcile_intent t iid).
Proof.
  apply others_get_intent. intros i <-. unfold mark_unknown.
  pose proof (others_recover i). pose proof (others_apply i).
  repeat first
    [ done
    | apply others_reads; by steps_walk
    | apply others_reads, get_provider_reads
    | apply others_reads, flush_intent_reads
    | apply others_transition
    | apply steps_bind; [typeclasses eauto| |intros ?]
    | match goal with |- steps _ (match ?x with _ => _ end) => destruct x end ].
Qed.

(** *** What a scan selects *)

Lemma nodup_select (p : PaymentIntent → bool) l :
  NoDup (intent_id <$> l) → NoDup (intent_id <$> select p l).
Proof.
  induction l as [|x l IH]; [done|]. cbn. intros [Hx Hnd]%list.NoDup_cons.
  destruct (p x); [|by apply IH]. cbn. apply list.NoDup_cons. split; [|by apply IH].
  intros (y & Hy & [Hin _]%elem_of_select)%list_elem_of_fmap. apply Hx. rewrite Hy.
  by apply list_elem_of_fmap_2.
Qed.

Lemma nodup_take n (l : list PaymentIntent) :
  NoDup (intent_id <$> l) → NoDup (intent_id <$> take n l).
Proof. intros Hl. eapply sublist_NoDup; [exact Hl|]. apply fmap_sublist, sublist_take. Qed.

Lemma elem_of_take_in n (l : list PaymentIntent) i : i ∈ take n l → i ∈ l.
Proof. intros Hi. rewrite <- (take_drop n l). apply elem_of_app. by left. Qed.

Lemma scan_ids f p n d :
  books d →
  let l := take n (by_age f (select p (intents d))) in
  NoDup (intent_id <$> l) ∧ ∀ i, i ∈ l → i ∈ intents d ∧ p i = true.
Proof.
  intros Hb l. split.
  - apply nodup_take. unfold by_age. rewrite sort_by_perm. apply nodup_select, (bk_ids d Hb).
  - intros i Hi%elem_of_take_in. by apply elem_of_sort_by, elem_of_select in Hi.
Qed.

Lemma candidates_ids f t n ex d :
  books d →
  NoDup (intent_id <$> pending_candidates f t n ex d)
  ∧ ∀ i, i ∈ pending_candidates f t n ex d → i ∈ intents d ∧ open_status (intent_status i) = true.
Proof.
  intros Hb. unfold pending_candidates. cbv zeta.
  set (p := λ i, open_status (intent_status i) && _ && _).
  set (q := λ i, (intent_status i == PayUnknown) && _ && _).
  destruct (scan_ids f p n d Hb) as [Hp1 Hp2]. set (backed := take n _) in *.
  assert (∀ i, i ∈ backed → i ∈ intents d ∧ open_status (intent_status i) = true
                            ∧ is_some (intent_provider_payment_id i) = true) as Hback.
  { intros i Hi. destruct (Hp2 i Hi) as [Hin Hpi]. subst p. cbn in Hpi. rewrite !andb_true_iff in Hpi. tauto. }
  destruct (0 <? _)%nat; [|split; [done|intros i Hi; destruct (Hback i Hi); tauto]].
  set (m := Nat.min _ _). destruct (scan_ids f q m d Hb) as [Hq1 Hq2]. set (amb := take m _) in *.
  assert (∀ i, i ∈ select _has_creation_ambiguity amb → i ∈ intents d ∧ open_status (intent_status i) = true
                            ∧ is_some (intent_provider_payment_id i) = false) as Hamb.
  { intros i [Hi _]%elem_of_select. destruct (Hq2 i Hi) as [Hin Hqi]. subst q. cbn in Hqi.
    rewrite !andb_true_iff, negb_true_iff, bool_decide_eq_true in Hqi. destruct Hqi as [[-> ?] _]. done. }
  split.
  - apply nodup_take. rewrite fmap_app. apply list.NoDup_app. split_and!; [done| |by apply nodup_select].
    intros k (x & -> & Hx)%list_elem_of_fmap (y & Hxy & Hy)%list_elem_of_fmap.
    destruct (Hback x Hx) as (Hx1 & _ & Hx2), (Hamb y Hy) as (Hy1 & _ & Hy2).
    assert (x = y) as -> by (eapply NoDup_fmap_inj; [apply (bk_ids _ Hb)|done..]). congruence.
  - intros i Hi%elem_of_take_in. apply elem_of_app in Hi as [Hi|Hi];
      [destruct (Hback i Hi)|destruct (Hamb i Hi)]; tauto.
Qed.

(** *** The loop *)

(** Both the view and the committed version of the database balance. *)
Definition safe (s : Session) : Prop := in_books s ∧ books (ses_committed s).

Lemma open_payable st : open_status st = true → closes st = false.
Proof. by destruct st. Qed.

Lemma committed_reconcile t iid : steps same_committed (reconcile_intent t iid).
Proof.
  pose proof committed_get_provider. pose proof committed_settle_intent.
  unfold reconcile_intent, _recover_creation_ambiguity, _apply_details, mark_unknown, apply_status,
    check_attributes, _store_provider_verification_attributes, get_payment_intent,
    intent_transition_to, flush_intent, live_intent, to_varchar_opt, update_intent. steps_walk.
Qed.

Lemma passed_over_safe i e s : safe s → ensures safe (passed_over i e) s.
Proof.
  intros Hs. unfold passed_over. destruct e; try done. apply ensures_catch.
  - apply ensures_bind; [|done]. unfold ensures. by rewrite <- (flush_intent_reads i s).
  - intros e s1 _ [_ Hc]. by split.
Qed.

Lemma passed_over_kept i e s r s' : passed_over i e s = (Ok r, s') → s' = s.
Proof.
  unfold passed_over. intros Hr. destruct e; try (by apply ret_inv in Hr as [_ ->]).
  apply catch_inv_ok in Hr as [Hr|(e & s1 & _ & Hr)]; [|done].
  symmetry. eapply (steps_run eq); [|exact Hr]. pose proof (flush_intent_reads i). steps_walk.
Qed.

Lemma reconcile_each_safe l s :
  safe s → NoDup (intent_id <$> l) →
  (∀ i j, i ∈ l → j ∈ intents (ses_db s) → intent_id j = intent_id i → closes (intent_status j) = false) →
  ensures safe (reconcile_each l) s.
Proof.
  revert s. induction l as [|i l IH]; intros s Hs Hnd Hopen; [done|].
  apply list.NoDup_cons in Hnd as [Hi Hnd]. cbn [reconcile_each].
  set (m := x ← reconcile_intent (intent_tenant_id i) (intent_id i); mret [x]).
  assert (ensures safe m s) as Hm.
  { destruct Hs as [Hb Hc]. split.
    - subst m. apply ensures_bind; [|done].
      apply (reconcile_intent_any (intent_tenant_id i) (intent_id i) s Hb). right. split; [done|].
      intros j Hj Hid. eapply Hopen; [left|done..].
    - assert (steps same_committed m) as Hsc by (pose proof committed_reconcile; subst m; steps_walk).
      by rewrite (Hsc s). }
  assert (steps (others_kept (intent_id i)) m) as Hothers
    by (pose proof others_reconcile; subst m; steps_walk).
  apply ensures_bind.
  { apply ensures_catch; [done|]. intros e s1 _ Hs1. by apply passed_over_safe. }
  intros rec s1 Hr Hs1. apply ensures_bind; [|by intros rest s2 _ Hs2].
  assert (others_kept (intent_id i) s s1) as Hk.
  { apply catch_inv_ok in Hr as [Hr|(e & s2 & Hr & Hp)]; [by eapply steps_run|].
    apply passed_over_kept in Hp as ->. by eapply steps_run. }
  apply IH; [done..|]. intros i' j Hi' Hj Hid. apply (Hopen i'); [by right| |done].
  apply Hk; [done|]. intros Heq. apply Hi. rewrite <- Heq, Hid. by apply list_elem_of_fmap_2.
Qed.

Lemma pass_safe f n s :
  persisted s → in_books s →
  persisted (reconciliation_pass f n s).2 ∧ in_books (reconciliation_pass f n s).2.
Proof.
  intros Hp Hb. unfold reconciliation_pass. rewrite in_session_state. cbn [snd ses_db].
  split; [done|]. unfold in_books. cbn.
  assert (ensures safe (stats ← run_once f n; commit;; mret stats) s) as [_ Hc]; [|exact Hc].
  assert (safe s) as Hs by (split; [done|]; unfold persisted in Hp; by rewrite Hp).
  apply ensures_bind; [|intros st s1 _ [Hb1 _]; by split].
  unfold run_once, reconcile_pending_intents. apply ensures_bind; [|done].
  apply ensures_gets. destruct (candidates_ids f None (Z.to_nat (Z.max 1 (Z.min n 200)))
    (normalized_exclusions ["telegram_stars"]) (ses_db s) Hb) as [Hnd Hin].
  apply reconcile_each_safe; [done..|]. intros i j Hi Hj Hid. destruct (Hin i Hi) as [Hi' Ho].
  assert (j = i) as -> by (eapply NoDup_fmap_inj; [apply (bk_ids _ Hb)|done..]).
  by apply open_payable.
Qed.

End pass.

(** ** Histories *)

(** What happens to the payments of a shop: requests, a request to reconcile
    one intent, and passes of the worker. *)
Inductive payment_event :=
  | EvRequest (r : payment_request)
  | EvReconcile (tenant_id iid : UUID)
  | EvPass (updated_at : UUID → Z) (batch_size : Z).

Definition run_event `{Env} `{Gateways} (s : Session) (ev : payment_event) : Session :=
  match ev with
  | EvRequest r => (in_request (handle_payment r) s).2
  | EvReconcile t iid => (in_request (reconcile_intent t iid) s).2
  | EvPass f n => (reconciliation_pass f n s).2
  end.

Definition run_events `{Env} `{Gateways} (evs : list payment_event) (s : Session) : Session :=
  foldl run_event s evs.

Lemma run_events_books `{HE : Env} `{!Serial HE} `{Gateways} evs s :
  persisted s → in_books s → persisted (run_events evs s) ∧ in_books (run_events evs s).
Proof.
  revert s. induction evs as [|ev evs IH]; intros s Hp Hb; [done|].
  assert (persisted (run_event s ev) ∧ in_books (run_event s ev)) as [? ?]; [|by apply IH].
  destruct ev as [r|t iid|f n]; cbn [run_event].
  - apply in_request_keeps; [done|apply committed_handle|done|].
    intros u s' Hr. by eapply handle_payment_books.
  - apply in_request_keeps; [done|apply committed_reconcile|done|]. intros i s' Hr.
    pose proof (wp_run _ _ _ _ _ (reconcile_intent_any t iid s Hb) Hr) as Hw. apply Hw. by left.
  - by apply pass_safe.
Qed.

(** [C6] The payment books balance.  Start from a database whose books balance
    (an empty one does) and let any sequence of things happen: order payments
    and wallet top-ups created, intents settled, cancelled, refunded, Telegram
    Stars payments and webhooks delivered, single intents reconciled on
    request, and passes of the reconciliation worker, with any arguments, in
    any order and repeated at will.  A request that raises is rolled back; the
    worker passes over failures and commits what they left.  Then an intent
    that is [SUCCEEDED] has exactly one settlement entry in the whole ledger, a
    credit of the intent's amount to the wallet of its owner in its currency;
    an intent in any other status has none. *)
Theorem books_balance `{HE : Env} `{Gateways} evs s i :
  Serial HE → persisted s → books (ses_db s) →
  i ∈ intents (ses_db (run_events evs s)) → balanced (ses_db (run_events evs s)) i.
Proof.
  intros HS Hp Hb Hi. apply books_balanced; [|done]. by apply run_events_books.
Qed.

(** A gateway that loses the answer to every creation and knows about the
    payment afterwards. *)
Definition lossy_gateway (amount : dec) : Gateway := {|
  supports_refunds := true;
  supports_partial_refunds := true;
  supports_safe_refund_retries := true;
  supports_payment_lookup := true;
  supports_creation_recovery := true;
  gw_create_payment _ _ := Raise TimeoutError;
  gw_verify_webhook payload _ _ :=
    Ok (MkWebhookVerificationResult true ("evt-" +:+ payload) "payment.succeeded" (Some payload)
          (Some PaySucceeded) (Some amount) (Some "USD") []);
  gw_refund _ r := Ok (MkPaymentRefundResult ("ref-" +:+ prr_idempotency_key r) true);
  gw_get_payment _ pid := Ok (MkPaymentDetailsResult pid PaySucceeded amount "USD" []);
  gw_recover_payment_creation :=
    Some (λ _ r, Ok (MkPaymentDetailsResult ("pay-" +:+ pcr_idempotency_key r) PayProcessing amount "USD" []));
  gw_list_recent_star_transactions := None;
  gw_flexible_deposits := None;
|}.

Definition lossy_gateways (amount : dec) : Gateways := {|
  gw_overrides _ name := if name == "mock" then Some (lossy_gateway amount) else None;
  gw_cached _ _ := None;
  gw_factories _ := None;
  gw_secret _ := None;
|}.

Definition recovery_events : list payment_event :=
  [ EvRequest (ReqCreate demo_intent_request); EvPass (λ _, 0) 50; EvPass (λ _, 0) 50;
    EvRequest (ReqWebhook (mk_uuid "t") "mock" "pay-k1" []);
    EvReconcile (mk_uuid "t") (mk_uuid "uuid-0"); EvPass (λ _, 0) 50 ].

Definition recovered_demo : Session :=
  @run_events demo_env (lossy_gateways (cents 2500)) recovery_events pay_session.

Lemma books_balance_witness :
  map intent_status (intents (ses_db recovered_demo)) = [PaySucceeded]
  ∧ map tx_amount (ledger (ses_db recovered_demo)) = [cents 2500]
  ∧ map order_status (orders (ses_db recovered_demo)) = [OrderPaid]
  ∧ (∀ i, i ∈ intents (ses_db recovered_demo) → balanced (ses_db recovered_demo) i).
Proof.
  do 3 (split; [vm_compute; reflexivity|]). unfold recovered_demo. intros i Hi.
  exact (@books_balance demo_env (lossy_gateways (cents 2500)) recovery_events pay_session i
           demo_env_serial eq_refl pay_db_books Hi).
Defined.

(** ** A refused recovery *)

Lemma dict_get_remove k d : NoDup (fst <$> d) → dict_get k (dict_remove k d) = None.
Proof.
  induction d as [|[k' v] d IH]; [done|]. cbn. intros [Hk Hnd]%list.NoDup_cons.
  case_bool_decide as Hc; cbn.
  - subst k'. clear IH Hnd. induction d as [|[k' v'] d IH]; [done|]. cbn in *.
    rewrite not_elem_of_cons in Hk. destruct Hk as [Hne Hk].
    rewrite bool_decide_eq_false_2 by done. by apply IH.
  - rewrite bool_decide_eq_false_2 by done. by apply IH.
Qed.

Lemma dict_get_set_other k k' v d : k ≠ k' → dict_get k (dict_set k' v d) = dict_get k d.
Proof.
  intros Hne. induction d as [|[k1 v1] d IH]; cbn.
  - by rewrite bool_decide_eq_false_2.
  - case_bool_decide as Hc; cbn; [subst k1; by rewrite !bool_decide_eq_false_2|].
    by case_bool_decide.
Qed.

(** The row of an intent after an update of it. *)
Lemma get_intent_updated d i f :
  books d → i ∈ intents d → intent_id (f i) = intent_id i →
  get_row (intent_id i) (update_row (intent_id i) f (intents d)) = Some (f i).
Proof.
  intros Hb Hi Hf. destruct (get_row _ _) as [j|] eqn:Hg.
  - apply get_row_Some in Hg as [(x & Hx & ->)%elem_of_update_where Hid].
    case_bool_decide as Hc.
    + f_equal. f_equal. eapply NoDup_fmap_inj; [apply (bk_ids _ Hb)|done..].
    + by destruct Hc.
  - rewrite get_row_None in Hg. destruct (Hg (f i)); [|done].
    apply elem_of_update_where. exists i. split; [done|]. by rewrite bool_decide_eq_true_2.
Qed.

Lemma get_intent_found i s :
  in_books s → i ∈ intents (ses_db s) →
  get_payment_intent (intent_tenant_id i) (intent_id i) s = (Ok i, s).
Proof.
  intros Hb Hi. apply get_payment_intent_total; [|done].
  destruct (select_key intent_id (intent_id i) (λ x, intent_id x == intent_id i) (intents (ses_db s)))
    as [Hn|(x & Hx & Hin)]; [intros x; apply bool_decide_eq_true|apply (bk_ids _ Hb)| |].
  - rewrite select_nil in Hn. specialize (Hn i Hi). by rewrite bool_decide_eq_true_2 in Hn.
  - rewrite Hx. f_equal. assert (x ∈ [x]) as Hxx by left. rewrite <- Hx in Hxx.
    apply elem_of_select in Hxx as [_ Hid]. rewrite bool_decide_eq_true in Hid.
    eapply NoDup_fmap_inj; [apply (bk_ids _ Hb)|done..].
Qed.

(** What the refused recovery leaves in the row. *)
Definition bound_to `{Env} (i : PaymentIntent) (d : PaymentDetailsResult) (n : Z) : PaymentIntent :=
  i <| intent_metadata_json ::= (λ md,
         dict_set "_provider_creation_recovery"
           (JObj [ ("recovered_at", JStr (env_isoformat n)); ("provider", JStr (intent_provider i));
                   ("original_ambiguity", default JNull (dict_get "_provider_creation_ambiguity"
                                                           (intent_metadata_json i))) ])
           (dict_remove "_provider_creation_ambiguity" md)) |>
    <| intent_provider_payment_id := Some (pd_provider_payment_id d) |>.

Section refused.
  Context `{HE : Env} `{Gateways}.
  Context (i : PaymentIntent) (g : Gateway) (d : PaymentDetailsResult)
    (recover : list Sent → PaymentCreateRequest → outcome exn PaymentDetailsResult).

(** The gateway can recover the lost creation, and reports another amount. *)
Record misreported (s : Session) : Prop := {
  mr_status : intent_status i = PayUnknown;
  mr_unbound : intent_provider_payment_id i = None;
  mr_marker : _has_creation_ambiguity i = true;
  mr_gateway : get_provider (intent_tenant_id i) (intent_provider i) s = (Ok g, s);
  mr_supports : supports_creation_recovery g = true;
  mr_recover : gw_recover_payment_creation g = Some recover;
  mr_answer : recover (ses_sent s) (_recovery_request i) = Ok d;
  mr_identity : pd_provider_payment_id d ≠ "";
  mr_amount : pd_amount d ≠ intent_amount i;
}.

Lemma details_refused j b s :
  intent_provider_payment_id j = None → pd_amount d ≠ intent_amount j →
  _apply_details j d b s
  = (Raise PaymentIntegrityError, s <| ses_db ::= λ db, db <| intents ::= update_row (intent_id j)
       (λ x, x <| intent_provider_payment_id := Some (pd_provider_payment_id d) |>) |> |>).
Proof.
  intros Hn Ha. unfold _apply_details. rewrite Hn.
  rewrite (proj2 (Z.eqb_neq _ _) Ha). reflexivity.
Qed.

Lemma refused_recovery s :
  in_books s → i ∈ intents (ses_db s) → misreported s →
  ∃ s', reconcile_intent (intent_tenant_id i) (intent_id i) s = (Raise PaymentIntegrityError, s')
    ∧ get_row (intent_id i) (intents (ses_db s')) = Some (bound_to i d (env_clock (ses_draws s))).
Proof.
  intros Hb Hi [M1 M2 M3 M4 M5 M6 M7 M8 M9]. unfold reconcile_intent.
  rewrite (bind_ok _ _ _ _ _ (get_intent_found i s Hb Hi)), M1, M2, M3. cbn [truthy negb].
  unfold _recover_creation_ambiguity. rewrite bool_decide_eq_false_2, bool_decide_eq_true_2 by done.
  cbn [andb]. rewrite (bind_ok _ _ _ _ _ M4), M5, M6. cbn [negb].
  do 2 (erewrite bind_ok by (cbn; unfold catch, mbind, prog_bind, gets; cbn; by rewrite ?M7)).
  cbv beta iota. rewrite bool_decide_eq_false_2 by done. do 3 (erewrite bind_ok by reflexivity).
  set (f := λ x : PaymentIntent, x <| intent_metadata_json ::= _ |>).
  set (s1 := s <| ses_db ::= _ |>).
  assert (live_intent i s1 = (Ok (f i), s1)) as Hlive.
  { unfold live_intent, query, gets. subst s1. cbn -[f]. by rewrite get_intent_updated. }
  rewrite (bind_ok _ _ _ _ _ Hlive), details_refused by done. eexists. split; [reflexivity|].
  assert (in_books s1) as Hb1 by (apply books_intent; [by intros x _ _|done]).
  change (intent_id i) with (intent_id (f i)). cbn -[f s1].
  rewrite (get_intent_updated (ses_db s1) (f i)); [done|done| |done].
  subst s1. apply elem_of_update_where. exists i. split; [done|]. by rewrite bool_decide_eq_true_2.
Qed.

End refused.

(** A refused recovery is kept.  The worker finds an [UNKNOWN] intent
    whose creation was lost, and the gateway reports a payment of another
    amount for it.  The reconciliation raises, but the worker passes over the
    exception and commits: afterwards the intent carries the identity of the
    payment that was refused, and no longer the marker that made it
    recoverable. *)
Theorem refused_recovery_kept `{HE : Env} `{Gateways} i g d recover f n s :
  in_books s →
  pending_candidates f None (Z.to_nat (Z.max 1 (Z.min n 200)))
    (normalized_exclusions ["telegram_stars"]) (ses_db s) = [i] →
  misreported i g d recover s → NoDup (fst <$> intent_metadata_json i) →
  ∃ s' j, reconciliation_pass f n s = (Ok (stats_of []), s')
    ∧ get_row (intent_id i) (intents (ses_committed s')) = Some j
    ∧ intent_provider_payment_id j = Some (pd_provider_payment_id d)
    ∧ _has_creation_ambiguity j = false.
Proof.
  intros Hb Hc Hm Hnd.
  destruct (candidates_ids f None (Z.to_nat (Z.max 1 (Z.min n 200)))
    (normalized_exclusions ["telegram_stars"]) (ses_db s) Hb) as [_ Hin].
  destruct (refused_recovery i g d recover s Hb) as (s1 & Hr & Hrow); [apply Hin; rewrite Hc; left|done|].
  unfold reconciliation_pass. rewrite in_session_state.
  assert (run_once f n s = (Ok (stats_of []), s1)) as Hrun.
  { unfold run_once, reconcile_pending_intents, query, gets, mbind, prog_bind. cbv beta iota zeta.
    rewrite Hc. cbn. unfold catch, mbind, prog_bind. by rewrite Hr. }
  erewrite bind_ok by exact Hrun. eexists _, _. split; [reflexivity|]. cbn -[bound_to].
  split; [exact Hrow|]. split; [done|]. unfold _has_creation_ambiguity, bound_to. cbn -[dict_set dict_remove].
  by rewrite dict_get_set_other, dict_get_remove.
Qed.

Definition lost_session : Session :=
  @run_events demo_env (lossy_gateways (cents 1)) [EvRequest (ReqCreate demo_intent_request)] pay_session.

Definition lost_intent : PaymentIntent :=
  default (MkPaymentIntent (mk_uuid "") (mk_uuid "") None ORDER_PAYMENT (mk_uuid "") None "" None None ""
             0 PayCreated "" []) (head (intents (ses_db lost_session))).

Lemma refused_recovery_kept_witness :
  ∃ s' j, @reconciliation_pass demo_env (lossy_gateways (cents 1)) (λ _, 0) 50 lost_session
          = (Ok (stats_of []), s')
    ∧ get_row (mk_uuid "uuid-0") (intents (ses_committed s')) = Some j
    ∧ intent_provider_payment_id j = Some "pay-k1" ∧ _has_creation_ambiguity j = false.
Proof.
  refine (@refused_recovery_kept demo_env (lossy_gateways (cents 1)) lost_intent (lossy_gateway (cents 1))
    (MkPaymentDetailsResult "pay-k1" PayProcessing (cents 1) "USD" []) _ (λ _, 0) 50 lost_session _ _ _ _).
  - exact (proj2 (@run_events_books demo_env demo_env_serial (lossy_gateways (cents 1))
             [EvRequest (ReqCreate demo_intent_request)] pay_session eq_refl pay_db_books)).
  - vm_compute. reflexivity.
  - split; vm_compute; try reflexivity; discriminate.
  - vm_compute. repeat constructor. intros Hin. by apply elem_of_nil in Hin.
Defined.

(** ** Two ways to hear the same news *)

(** A webhook and a lookup that report the same about an intent; [PROCESSING]
    is the one status that only the lookup acts on. *)
Record same_news (i : PaymentIntent) (v : WebhookVerificationResult) (d : PaymentDetailsResult) : Prop := {
  sn_payment : intent_provider_payment_id i = Some (pd_provider_payment_id d);
  sn_status : wv_status v = Some (pd_status d) ∧ pd_status d ≠ PayProcessing;
  sn_amount : wv_amount v = Some (pd_amount d);
  sn_currency : wv_currency v = Some (pd_currency d);
  sn_attributes : wv_verification_attributes v = pd_verification_attributes d;
}.

Section news.
  Context `{HE : Env}.

Lemma check_attributes_assert i d s :
  check_attributes i d false s
  = of_outcome (assert_provider_verification_attributes i (pd_verification_attributes d)) s.
Proof.
  unfold check_attributes. destruct (dict_get "_provider_verification" (intent_metadata_json i)) as [e|] eqn:He.
  - destruct (json_truthy e) eqn:Ht; [done|]. unfold assert_provider_verification_attributes. by rewrite He, Ht.
  - unfold assert_provider_verification_attributes. by rewrite He.
Qed.

Lemma verify_settlement_details i d s :
  verify_settlement i (Some (pd_amount d)) (Some (pd_currency d)) s
  = raise_if (negb (pd_amount d =? intent_amount i) || (pd_currency d != intent_currency i))
      PaymentIntegrityError s.
Proof.
  unfold verify_settlement. cbn [is_some andb].
  assert ((Some (pd_amount d) != Some (intent_amount i)) = negb (pd_amount d =? intent_amount i)) as ->.
  { case_bool_decide as Hx; destruct (Z.eqb_spec (pd_amount d) (intent_amount i)); cbn; congruence. }
  assert ((Some (pd_currency d) != Some (intent_currency i)) = (pd_currency d != intent_currency i)) as ->.
  { do 2 case_bool_decide; cbn; congruence. }
  by destruct (negb (pd_amount d =? intent_amount i)), (pd_currency d != intent_currency i).
Qed.

Lemma webhook_status i v d s :
  same_news i v d →
  match wv_status v with
  | Some PaySucceeded =>
      settle_payment_intent (intent_tenant_id i) (intent_id i) (wv_amount v) (wv_currency v);; mret tt
  | Some PayFailed => if intent_status i != PayFailed then intent_transition_to i PayFailed else mret tt
  | Some PayCancelled => if intent_status i != PayCancelled then intent_transition_to i PayCancelled else mret tt
  | Some PayExpired => if intent_status i != PayExpired then intent_transition_to i PayExpired else mret tt
  | _ => mret tt
  end s = apply_status i d s.
Proof.
  intros [_ [-> Hne] -> -> _]. unfold apply_status. by destruct (pd_status d).
Qed.

(** Both do the same checks, in another order, before the same change. *)
Lemma webhook_run i v d s :
  same_news i v d →
  apply_webhook (intent_tenant_id i) i v s
  = match assert_provider_verification_attributes i (pd_verification_attributes d) with
    | Raise e => (Raise e, s)
    | Ok _ =>
        if negb (pd_amount d =? intent_amount i) || (pd_currency d != intent_currency i)
        then (Raise PaymentIntegrityError, s) else apply_status i d s
    end.
Proof.
  intros Hn. pose proof Hn as [_ _ Ha Hc Hat]. unfold apply_webhook. rewrite <- Hat.
  destruct (assert_provider_verification_attributes _ _) as [u|e]; [|done].
  rewrite (bind_ok _ _ _ _ _ (eq_refl : of_outcome (Ok u) s = _)). unfold mbind, prog_bind at 1.
  rewrite Ha, Hc, verify_settlement_details. unfold raise_if. destruct (_ || _); [done|].
  rewrite <- Ha, <- Hc. by apply webhook_status.
Qed.

Lemma lookup_run i v d s :
  same_news i v d →
  _apply_details i d false s
  = if negb (pd_amount d =? intent_amount i) || (pd_currency d != intent_currency i)
    then (Raise PaymentIntegrityError, s)
    else match assert_provider_verification_attributes i (pd_verification_attributes d) with
         | Raise e => (Raise e, s)
         | Ok _ => (apply_status i d;; flush_intent i) s
         end.
Proof.
  intros [Hp _ _ _ _]. unfold _apply_details. rewrite Hp.
  rewrite (bool_decide_eq_true_2 (Some _ = Some _)) by done. cbn [negb].
  rewrite (bind_ok _ _ _ _ _ (eq_refl : (mret tt : M unit) s = _)). unfold raise_if.
  destruct (_ || _); [done|]. rewrite (bind_ok _ _ _ _ _ (eq_refl : (mret tt : M unit) s = _)).
  unfold mbind at 1, prog_bind at 1. rewrite check_attributes_assert.
  by destruct (assert_provider_verification_attributes _ _).
Qed.

Lemma news_agree i v d s :
  same_news i v d →
  (apply_webhook (intent_tenant_id i) i v s).2 = (_apply_details i d false s).2.
Proof.
  intros Hn. rewrite (webhook_run i v d s Hn), (lookup_run i v d s Hn).
  destruct (assert_provider_verification_attributes _ _), (_ || _); try done.
  unfold mbind, prog_bind. destruct (apply_status i d s) as [[u|e] s1]; [|done].
  cbn. by rewrite <- (flush_intent_reads i s1).
Qed.

Lemma news_agree_outcome i v d s :
  same_news i v d → (_apply_details i d false s).1 = Raise DataError
  ∨ is_ok (apply_webhook (intent_tenant_id i) i v s).1 = is_ok (_apply_details i d false s).1.
Proof.
  intros Hn. rewrite (webhook_run i v d s Hn), (lookup_run i v d s Hn).
  destruct (assert_provider_verification_attributes _ _), (_ || _); auto.
  unfold mbind, prog_bind. destruct (apply_status i d s) as [[u|e] s1]; [|auto].
  destruct (flush_intent i s1) as [[r|e] s2] eqn:Hf; [auto|]. left. cbn. f_equal.
  unfold flush_intent, live_intent, to_varchar_opt, to_varchar in Hf.
  apply bind_inv_raise in Hf as [Hf|(row & s3 & _ & Hf)]; [by apply query_inv in Hf as [? _]|].
  repeat match goal with
  | Hf : _ = (Raise e, _) |- _ => apply bind_inv_raise in Hf as [Hf|(? & ? & _ & Hf)]
  end;
  repeat match goal with
  | Hf : (match ?x with _ => _ end) _ = _ |- _ => destruct x
  | Hf : (match ?x with _ => _ end ≫= _) _ = _ |- _ => destruct x
  | Hf : _ = (Raise e, _) |- _ => apply bind_inv_raise in Hf as [Hf|(? & ? & _ & Hf)]
  end; by inversion Hf.
Qed.

End news.

(** [C26] Polling and webhooks agree.  Suppose a webhook and a lookup at the
    gateway report the same decisive (or still pending) news about an intent.
    Then acting on the webhook and acting on the lookup leave the database, and
    everything else in the session, in the same state, whatever that state was
    and whether the news is accepted or refused: an amount, a currency or an
    attribute that differs is refused by both without a change, a success
    settles through the same gate, and a failure closes the intent the same
    way.  They also succeed or fail together, unless the final flush of the
    lookup refuses a column. *)
Theorem polling_and_webhooks_agree `{HE : Env} i v d s :
  same_news i v d →
  (apply_webhook (intent_tenant_id i) i v s).2 = (_apply_details i d false s).2
  ∧ ((_apply_details i d false s).1 = Raise DataError
     ∨ is_ok (apply_webhook (intent_tenant_id i) i v s).1 = is_ok (_apply_details i d false s).1).
Proof. intros Hn. split; [by apply news_agree|by apply news_agree_outcome]. Qed.

Definition paid_news : WebhookVerificationResult :=
  MkWebhookVerificationResult true "evt" "payment.succeeded" (Some "pay-k1") (Some PaySucceeded)
    (Some (cents 2500)) (Some "USD") [("order", "42")].

Definition paid_details : PaymentDetailsResult :=
  MkPaymentDetailsResult "pay-k1" PaySucceeded (cents 2500) "USD" [("order", "42")].

Definition created_intent : PaymentIntent :=
  default lost_intent (head (intents (ses_db created_session))).

Lemma polling_and_webhooks_agree_witness :
  let w := @apply_webhook demo_env (mk_uuid "t") created_intent paid_news created_session in
  let p := @_apply_details demo_env created_intent paid_details false created_session in
  map tx_amount (ledger (ses_db w.2)) = [cents 2500] ∧ w.2 = p.2
  ∧ (p.1 = Raise DataError ∨ is_ok w.1 = is_ok p.1).
Proof.
  split; [vm_compute; reflexivity|].
  refine (@polling_and_webhooks_agree demo_env created_intent paid_news paid_details created_session _).
  split; try (vm_compute; reflexivity). split; [vm_compute; reflexivity|discriminate].
Defined.
