(* ===== verification/StarsGateway.v ===== *)
(** * The Telegram Stars gateway

    [packages/payments/providers/telegram_stars.py], class
    [TelegramStarsProvider]: the adapter that turns calls of the Telegram Bot
    API into a [Gateway].  What the API answers to a request ([BotApi]) is the
    world's; everything the adapter does before and after is here. *)

From Stdlib Require Import ZArith Lia Ascii String.
From stdpp Require Import base tactics list option strings numbers pretty.
From S2P Require Import Prelude Tables Text Money Exceptions StateMachines Models Payments TopUps.

Local Open Scope Z_scope.

(** [int(value)] of a JSON value, and its exceptions. *)
Definition json_int (v : json) : outcome exn Z :=
  match v with
  | JInt n => Ok n
  | JBool b => Ok (if b then 1 else 0)
  | JStr s => match int_of_str s with Some n => Ok n | None => Raise ValueError end
  | JNull | JList _ | JObj _ => Raise TypeError
  end.

Definition json_dict (v : json) : option dict :=
  match v with JObj o => Some o | _ => None end.

(** [v is not None] of [d.get(k)] *)
Definition has_value (k : string) (d : dict) : bool :=
  match dict_get k d with Some JNull | None => false | Some _ => true end.

(** ** The Bot API *)

(** The answer to one POST: no connection, bytes that are not JSON, or a
    document. *)
Inductive BotAnswer :=
  | RequestFailed
  | InvalidResponse
  | Answered (parsed : json).

(** What [https://.../bot<token>/<method>] answers to a payload, after the
    messages already sent. *)
Class BotApi := bot_api : list Sent → string → dict → BotAnswer.

(** An exception with the description the adapter looks at. *)
Abbreviation api_error := (exn * string)%type.

Record Stars := MkStars {
  stars_settings : dict;
  stars_api_base : string;
  stars_bot_token : string;
  stars_scan_pages : nat;
}.

Section adapter.
  Context `{Env} `{BotApi}.

Definition rstrip_slash (s : string) : string :=
  of_chars (rev (drop_while (λ c, c == "/"%char) (rev (chars s)))).

(** [TelegramStarsProvider.__init__] *)
Definition init_stars (settings : dict) (bot_token : string) : outcome exn Stars :=
  if (bot_token == "") || negb (occurs ":" bot_token) then Raise PaymentProviderError
  else
    match json_int (default (JInt 10) (dict_get "transaction_scan_pages" settings)) with
    | Raise e => Raise e
    | Ok pages =>
        Ok (MkStars settings
              (rstrip_slash (policy_text "api_base_url" "https://api.telegram.org" settings)) bot_token
              (Z.to_nat (Z.max 1 (Z.min pages 50))))
    end.

Definition _whole_stars (amount : dec) : outcome exn Z :=
  if (amount <=? 0) || negb (multiple_of one amount) then Raise PaymentProviderError
  else Ok (amount / one).

Definition _call (g : Stars) (sent : list Sent) (method : string) (payload : dict)
    : outcome api_error json :=
  match bot_api sent (stars_api_base g +:+ "/bot" +:+ stars_bot_token g +:+ "/" +:+ method) payload with
  | RequestFailed => Raise (PaymentProviderError, "Telegram Bot API request failed.")
  | InvalidResponse => Raise (PaymentProviderError, "Telegram Bot API returned an invalid response.")
  | Answered (JObj parsed) =>
      if json_truthy (default JNull (dict_get "ok" parsed))
      then Ok (default JNull (dict_get "result" parsed))
      else Raise (PaymentProviderError,
                  policy_text "description" "Telegram Bot API rejected the request." parsed)
  | Answered _ => Raise (AttributeError, "")
  end.

(** *** Invoices *)

Definition _invoice_payload (r : PaymentCreateRequest) : outcome exn string :=
  let intent_id := strip (policy_text "payment_intent_id" "" (pcr_metadata r)) in
  if intent_id == "" then Raise PaymentProviderError else Ok (stars_prefix +:+ intent_id).

(** The document of [createInvoiceLink]. *)
Definition invoice_request (g : Stars) (invoice_payload : string) (amount : Z) : dict :=
  let setting k alt n := prefix_of n (policy_text k alt (stars_settings g)) in
  [ ("title", JStr (setting "invoice_title" "Wallet top-up" 32%nat));
    ("description", JStr (setting "invoice_description" "Add Telegram Stars to your store wallet." 255%nat));
    ("payload", JStr invoice_payload);
    ("currency", JStr "XTR");
    ("prices", JList [JObj [("label", JStr (setting "price_label" "Wallet credit" 32%nat));
                            ("amount", JInt amount)]]) ].

Definition stars_create_payment (g : Stars) (sent : list Sent) (r : PaymentCreateRequest)
    : outcome exn PaymentCreateResult :=
  if upper (pcr_currency r) != "XTR" then Raise PaymentProviderError
  else
    match _whole_stars (pcr_amount r), _invoice_payload r with
    | Raise e, _ => Raise e
    | Ok _, Raise e => Raise e
    | Ok amount, Ok invoice_payload =>
        match _call g sent "createInvoiceLink" (invoice_request g invoice_payload amount) with
        | Raise e => Raise e.1
        | Ok (JStr url) =>
            if String.prefix "https://" url then
              Ok (MkPaymentCreateResult
                    ("stars_invoice:" +:+
                       json_text (default JNull (dict_get "payment_intent_id" (pcr_metadata r))))
                    PayPending (Some url) [("invoice_payload", JStr invoice_payload)] [])
            else Raise PaymentProviderError
        | Ok _ => Raise PaymentProviderError
        end
    end.

(** *** The transaction history *)

(** [result.get("transactions", []) if isinstance(result, dict) else []] *)
Definition page_of (result : json) : outcome exn (list json) :=
  match result with
  | JObj o => json_items (default (JList []) (dict_get "transactions" o))
  | _ => Ok []
  end.

Definition get_page (g : Stars) (sent : list Sent) (page : Z) : outcome exn (list json) :=
  match _call g sent "getStarTransactions" [("offset", JInt (page * 100)); ("limit", JInt 100)] with
  | Raise e => Raise e.1
  | Ok result => page_of result
  end.

(** The loop over [n] pages, from [page] on. *)
Fixpoint list_pages (g : Stars) (sent : list Sent) (n : nat) (page : Z) : outcome exn (list dict) :=
  match n with
  | O => Ok []
  | S n =>
      match get_page g sent page with
      | Raise e => Raise e
      | Ok l =>
          let found := omap json_dict l in
          if (length l <? 100)%nat then Ok found
          else match list_pages g sent n (page + 1) with
               | Raise e => Raise e
               | Ok rest => Ok (found ++ rest)
               end
      end
  end.

Definition list_recent_star_transactions (g : Stars) (sent : list Sent) : outcome exn (list dict) :=
  list_pages g sent (stars_scan_pages g) 0.

(** The first transaction of a page with the id; the loop fails on an element
    that is not an object. *)
Fixpoint find_in_page (transaction_id : string) (l : list json) : outcome exn (option dict) :=
  match l with
  | [] => Ok None
  | JObj t :: l =>
      if json_text (default JNull (dict_get "id" t)) == transaction_id then Ok (Some t)
      else find_in_page transaction_id l
  | _ => Raise AttributeError
  end.

Fixpoint find_pages (g : Stars) (sent : list Sent) (transaction_id : string) (n : nat) (page : Z)
    : outcome exn (option dict) :=
  match n with
  | O => Ok None
  | S n =>
      match get_page g sent page with
      | Raise e => Raise e
      | Ok l =>
          match find_in_page transaction_id l with
          | Ok None => if (length l <? 100)%nat then Ok None
                       else find_pages g sent transaction_id n (page + 1)
          | r => r
          end
      end
  end.

Definition _find_star_transaction (g : Stars) (sent : list Sent) (transaction_id : string)
    : outcome exn (option dict) :=
  find_pages g sent transaction_id (stars_scan_pages g) 0.

Definition stars_get_payment (g : Stars) (sent : list Sent) (provider_payment_id : string)
    : outcome exn PaymentDetailsResult :=
  let details status amount := Ok (MkPaymentDetailsResult provider_payment_id status amount "XTR" []) in
  if String.prefix "stars_invoice:" provider_payment_id then details PayPending 0
  else
    match _find_star_transaction g sent provider_payment_id with
    | Raise e => Raise e
    | Ok None => details PayUnknown 0
    | Ok (Some t) =>
        match json_int (default (JInt 0) (dict_get "amount" t)) with
        | Raise e => Raise e
        | Ok n =>
            details (if has_value "source" t then PaySucceeded
                     else if has_value "receiver" t then PaySucceeded else PayUnknown)
                    (Z.abs n * one)
        end
    end.

(** *** Refunds *)

(** [isinstance(v, int) and v > 0], as Python has it: [True] is an integer. *)
Definition positive_int (v : json) : bool :=
  match v with JInt n => 0 <? n | JBool b => b | _ => false end.

(** [result is not True] is an error too. *)
Definition refund_confirmed (answer : outcome api_error json) : outcome api_error unit :=
  match answer with
  | Raise e => Raise e
  | Ok (JBool true) => Ok tt
  | Ok _ => Raise (PaymentProviderError, "Telegram did not confirm the Stars refund.")
  end.

(** An error that says the charge is refunded already counts as success. *)
Definition already_refunded (e : api_error) : bool :=
  (e.1 == PaymentProviderError)
  && (occurs "CHARGE_ALREADY_REFUNDED" (upper e.2) || occurs "ALREADY REFUNDED" (upper e.2)).

Definition stars_refund (g : Stars) (sent : list Sent) (r : PaymentRefundRequest)
    : outcome exn PaymentRefundResult :=
  if upper (prr_currency r) != "XTR" then Raise PaymentProviderError
  else
    match _whole_stars (prr_amount r) with
    | Raise e => Raise e
    | Ok _ =>
        let telegram_user_id := default JNull (dict_get "telegram_user_id" (prr_metadata r)) in
        let charge_id := strip (prr_provider_payment_id r) in
        if negb (positive_int telegram_user_id) then Raise PaymentProviderError
        else if (charge_id == "") || String.prefix "stars_invoice:" charge_id
        then Raise PaymentProviderError
        else
          match refund_confirmed
                  (_call g sent "refundStarPayment"
                     [("user_id", telegram_user_id); ("telegram_payment_charge_id", JStr charge_id)]) with
          | Ok _ => Ok (MkPaymentRefundResult charge_id true)
          | Raise e => if already_refunded e then Ok (MkPaymentRefundResult charge_id true) else Raise e.1
          end
    end.

(** The adapter as the registry's factory builds it. *)
Definition stars_gateway (g : Stars) : Gateway :=
  MkGateway true false true true false (stars_create_payment g)
    (λ _ _ _, Raise UnsupportedProviderCapabilityError) (stars_refund g) (stars_get_payment g) None
    (Some (list_recent_star_transactions g)) None.

Definition _create_telegram_stars_provider (settings : dict) (credentials : string)
    (webhook_secret : option string) : outcome exn Gateway :=
  match init_stars settings credentials with
  | Ok g => Ok (stars_gateway g)
  | Raise e => Raise e
  end.

End adapter.
