(* ===== verification/Stars.v ===== *)
(** * Telegram Stars reconciliation

    [packages/payments/stars_reconciliation.py]: the scanner that compares the
    outbound transactions Telegram reports with the reversals of the shop.  A
    refund nobody asked for is mirrored into the wallet; one that fits no
    settled top-up freezes the wallet and opens a case. *)

From Stdlib Require Import ZArith Lia Ascii String.
From stdpp Require Import base tactics list option strings numbers pretty.
From S2P Require Import Prelude Tables Text Money Exceptions StateMachines Models Ledger.
From S2P Require Import Payments TopUps Reversals Resolution StarsGateway.

Local Open Scope Z_scope.

Definition EVENT_TYPE : string := "TELEGRAM_STARS_OUTBOUND_INVOICE".

(** ** Reading a transaction *)

(** [d.get(k) == s] for a string literal. *)
Definition field_is (k s : string) (d : dict) : bool :=
  match dict_get k d with Some (JStr x) => x == s | _ => false end.

Definition _is_relevant_outbound (transaction : dict) : bool :=
  match dict_get "receiver" transaction with
  | Some (JObj receiver) =>
      field_is "type" "user" receiver && field_is "transaction_type" "invoice_payment" receiver
  | _ => false
  end.

Definition _transaction_amount (transaction : dict) : outcome exn dec :=
  match json_int (default (JInt 0) (dict_get "amount" transaction)) with
  | Ok n => Ok (Z.abs n * one)
  | Raise _ => Raise PaymentIntegrityError
  end.

(** [datetime.fromtimestamp] takes the years 1 to 9999. *)
Definition _occurred_at (transaction : dict) : option Z :=
  match json_int (default JNull (dict_get "date" transaction)) with
  | Ok raw => if (-62135596800 <=? raw) && (raw <=? 253402300799) then Some (seconds raw) else None
  | Raise _ => None
  end.

(** [transaction.get("receiver") or {}]: an object here. *)
Definition receiver_of (transaction : dict) : dict :=
  match dict_get "receiver" transaction with Some (JObj r) => r | _ => [] end.

(** [receiver["user"]["id"]], if there is one. *)
Definition receiver_user_id (receiver : dict) : option json :=
  match dict_get "user" receiver with
  | Some (JObj user) => if has_value "id" user then dict_get "id" user else None
  | _ => None
  end.

Definition payment_status_value (st : PaymentIntentStatus) : string :=
  match st with
  | PayCreated => "CREATED"
  | PayPending => "PENDING"
  | PayProcessing => "PROCESSING"
  | PaySucceeded => "SUCCEEDED"
  | PayFailed => "FAILED"
  | PayExpired => "EXPIRED"
  | PayUnknown => "UNKNOWN"
  | PayCancelled => "CANCELLED"
  end.

(** ** Rows *)

(** The primary key and [uq_payment_reconciliation_provider_event]. *)
Definition event_conflict (a b : PaymentReconciliationEvent) : bool :=
  (ev_id a == ev_id b)
  || ((ev_tenant_id a == ev_tenant_id b) && (ev_provider a == ev_provider b)
      && (ev_provider_event_id a == ev_provider_event_id b) && (ev_event_type a == ev_event_type b)).

(** The event of one outbound transaction. *)
Definition is_outbound (tenant_id : UUID) (transaction_id : string) (e : PaymentReconciliationEvent)
    : bool :=
  (ev_tenant_id e == tenant_id) && (ev_provider e == "telegram_stars")
  && (ev_provider_event_id e == transaction_id) && (ev_event_type e == EVENT_TYPE).

Definition stars_topup (tenant_id : UUID) (i : PaymentIntent) : bool :=
  (intent_tenant_id i == tenant_id) && (intent_provider i == "telegram_stars")
  && (intent_purpose i == WALLET_TOPUP).

Section scanner.
  Context `{Env} `{Gateways}.

Definition insert_event (f : UUID → PaymentReconciliationEvent) : M PaymentReconciliationEvent :=
  u ← uuid4;
  let e := f u in
  to_varchar 50 (ev_provider e);;
  to_varchar 100 (ev_provider_event_id e);;
  to_varchar 100 (ev_event_type e);;
  amount ← to_numeric 12 2 (ev_amount e);
  to_varchar 3 (ev_currency e);;
  to_varchar 100 (ev_classification e);;
  let e := e <| ev_amount := amount |> in
  clash ← query (λ d, existsb (event_conflict e) (recon_events d));
  raise_if clash IntegrityError;;
  write (λ d, d <| recon_events ::= (λ t, t ++ [e]) |>);;
  mret e.

Definition _existing_event (tenant_id : UUID) (transaction_id : string)
    : M (option PaymentReconciliationEvent) :=
  rows ← query (λ d, select (is_outbound tenant_id transaction_id) (recon_events d));
  one_or_none rows.

Definition _find_intent (tenant_id : UUID) (transaction_id : string) (invoice_payload : option string)
    : M (option PaymentIntent) :=
  rows ← query (λ d, select (λ i, stars_topup tenant_id i
                                  && (intent_provider_payment_id i == Some transaction_id)) (intents d));
  found ← one_or_none rows;
  match found, invoice_payload with
  | Some i, _ => mret (Some i)
  | None, None => mret None
  | None, Some payload =>
      match _parse_stars_invoice_payload payload with
      | Raise _ => mret None
      | Ok iid =>
          candidate ← query (λ d, get_row iid (intents d));
          mret (match candidate with
                | Some i => if stars_topup tenant_id i then Some i else None
                | None => None
                end)
      end
  end.

Definition _freeze_intent_wallet (intent : PaymentIntent) : M unit :=
  rows ← query (wallet_by_key (intent_tenant_id intent) (intent_user_id intent) (intent_currency intent));
  wallet ← one_or_none rows;
  match wallet with
  | Some w => set_wallet_active (wallet_id w) false
  | None => mret tt
  end.

(** Why the transaction does not fit the intent. *)
Definition integrity_error (intent : PaymentIntent) (user : option User) (receiver : dict)
    (transaction_id : string) (amount : dec) : option string :=
  if intent_status intent != PaySucceeded
  then Some ("Intent is not settled: " +:+ payment_status_value (intent_status intent) +:+ ".")
  else if (intent_currency intent != "XTR") || negb (intent_amount intent =? amount)
  then Some ("Provider reversal amount/currency mismatch: intent="
             +:+ env_decimal_str (intent_amount intent) +:+ " " +:+ intent_currency intent
             +:+ ", provider=" +:+ env_decimal_str amount +:+ " XTR.")
  else if intent_provider_payment_id intent != Some transaction_id
  then Some "Provider transaction identifier does not match the settled intent."
  else match u ← user; user_telegram_id u with
  | None => Some "Settled intent user has no Telegram identity."
  | Some telegram_id =>
      match receiver_user_id receiver with
      | None => None
      | Some raw =>
          match json_int raw with
          | Raise _ => Some "Provider reversal receiver contains an invalid Telegram user identifier."
          | Ok n => if n =? telegram_id then None
                    else Some "Provider reversal receiver does not match the settled intent user."
          end
      end
  end.

(** What became of a transaction: the attributes of its event, and the
    reversal its case is about. *)
Record Verdict := MkVerdict {
  vd_status : PaymentReconciliationEventStatus;
  vd_classification : string;
  vd_requires_review : bool;
  vd_detail : option string;
  vd_reversal : option WalletTopUpReversal;
}.

Definition review (classification : string) (detail : option string)
    (reversal : option WalletTopUpReversal) : Verdict :=
  MkVerdict EvManualReview classification true detail reversal.

Definition processed (classification : string) (reversal : option WalletTopUpReversal) : Verdict :=
  MkVerdict EvProcessed classification false None reversal.

(** The transaction fits: it completes the reversal somebody asked for, or is
    mirrored as one nobody asked for. *)
Definition apply_outbound (tenant_id : UUID) (intent : PaymentIntent) (transaction_id : string)
    (transaction : dict) : M Verdict :=
  rows ← query (reversals_of_intent tenant_id (intent_id intent));
  found ← one_or_none rows;
  match found with
  | Some r =>
      r' ← complete_wallet_topup_reversal_from_provider_event tenant_id r transaction_id
             (Some transaction);
      mret (if rev_status r' == RevManualReview
            then review "LOCAL_REVERSAL_REQUIRES_REVIEW" (rev_last_error_detail r') (Some r')
            else processed "EXPECTED_MERCHANT_REFUND" (Some r'))
  | None =>
      r ← record_external_wallet_topup_reversal tenant_id intent transaction;
      mret (if rev_status r == RevCompleted
            then processed "EXTERNAL_REVERSAL_APPLIED" (Some r)
            else review "EXTERNAL_REVERSAL_INSUFFICIENT_FUNDS" (rev_last_error_detail r) (Some r))
  end.

Definition classify (tenant_id : UUID) (intent : option PaymentIntent) (transaction_id : string)
    (amount : dec) (transaction : dict) : M Verdict :=
  match intent with
  | None =>
      mret (review "UNMATCHED_GHBF_OUTBOUND"
              (Some "Telegram reported an outbound GH-Bot-Factory invoice transaction with no local intent.")
              None)
  | Some i =>
      user ← query (λ d, get_row (intent_user_id i) (users d));
      match integrity_error i user (receiver_of transaction) transaction_id amount with
      | Some detail =>
          _freeze_intent_wallet i;;
          mret (review "OUTBOUND_INTEGRITY_MISMATCH" (Some detail) None)
      | None => apply_outbound tenant_id i transaction_id transaction
      end
  end.

Definition outbound_event (tenant_id : UUID) (intent : option PaymentIntent) (transaction_id : string)
    (amount : dec) (transaction : dict) (v : Verdict) (u : UUID) : PaymentReconciliationEvent :=
  MkPaymentReconciliationEvent u tenant_id "telegram_stars" transaction_id EVENT_TYPE
    (intent_id <$> intent) (vd_status v) amount "XTR" (_occurred_at transaction)
    (vd_classification v) (vd_requires_review v)
    [("detail", json_of_text (vd_detail v)); ("transaction", JObj transaction)].

(** An event that requires review has a case. *)
Definition with_case (e : PaymentReconciliationEvent) (reversal : option WalletTopUpReversal)
    : M PaymentReconciliationEvent :=
  (if ev_requires_review e then ensure_case_for_reconciliation_event e reversal;; mret tt
   else mret tt);;
  mret e.

Definition record_outbound (tenant_id : UUID) (intent : option PaymentIntent) (transaction_id : string)
    (amount : dec) (transaction : dict) (v : Verdict) : M PaymentReconciliationEvent :=
  await_others;;
  e ← except_integrity
        (begin_nested (insert_event (outbound_event tenant_id intent transaction_id amount transaction v)))
        (again ← _existing_event tenant_id transaction_id;
         of_option IntegrityError again);
  with_case e (vd_reversal v).

Definition process_outbound_transaction (tenant_id : UUID) (transaction : dict)
    : M (option PaymentReconciliationEvent) :=
  if negb (_is_relevant_outbound transaction) then mret None
  else
    let transaction_id := strip (policy_text "id" "" transaction) in
    if transaction_id == "" then mret None
    else
      existing ← _existing_event tenant_id transaction_id;
      match existing with
      | Some e => e ← with_case e None; mret (Some e)
      | None =>
          let payload := strip (policy_text "invoice_payload" "" (receiver_of transaction)) in
          let invoice_payload := if payload == "" then None else Some payload in
          if (payload != "") && negb (String.prefix stars_prefix payload) then mret None
          else
            amount ← of_outcome (_transaction_amount transaction);
            intent ← _find_intent tenant_id transaction_id invoice_payload;
            if negb (is_some intent) && negb (is_some invoice_payload) then mret None
            else
              v ← classify tenant_id intent transaction_id amount transaction;
              e ← record_outbound tenant_id intent transaction_id amount transaction v;
              mret (Some e)
      end.

(** ** The scan *)

Fixpoint scan_each (tenant_id : UUID) (l : list dict) : M nat :=
  match l with
  | [] => mret 0%nat
  | t :: l =>
      event ← process_outbound_transaction tenant_id t;
      n ← scan_each tenant_id l;
      mret ((if is_some event then 1 else 0) + n)%nat
  end.

Definition scan_tenant (tenant_id : UUID) : M nat :=
  provider ← get_provider tenant_id "telegram_stars";
  listing ← of_option PaymentProviderError (gw_list_recent_star_transactions provider);
  answer ← gets (λ s, listing (ses_sent s));
  transactions ← of_outcome answer;
  scan_each tenant_id transactions.

(** *** The worker *)

Definition stars_config (c : PaymentProviderConfig) : bool :=
  (cfg_provider_name c == "telegram_stars") && cfg_is_enabled c.

Definition reconciliation_enabled (c : PaymentProviderConfig) : bool :=
  json_truthy (default (JBool true) (dict_get "chargeback_reconciliation_enabled" (cfg_settings_json c))).

(** One tenant, in a session of its own; a failure is logged. *)
Definition poll_tenant (tenant_id : UUID) : M nat :=
  in_session
    (rows ← query (λ d, select (λ c, (cfg_tenant_id c == tenant_id) && stars_config c)
                          (provider_configs d));
     config ← one_or_none rows;
     match config with
     | None => mret 0%nat
     | Some c =>
         if negb (reconciliation_enabled c) then mret 0%nat
         else catch (n ← scan_tenant tenant_id; commit;; mret n) (λ _, rollback;; mret 0%nat)
     end).

Fixpoint poll_tenants (l : list UUID) : M nat :=
  match l with
  | [] => mret 0%nat
  | t :: l =>
      n ← poll_tenant t;
      total ← poll_tenants l;
      mret (n + total)%nat
  end.

Definition poll_once : M nat :=
  tenant_ids ← in_session (query (λ d, map cfg_tenant_id (select stars_config (provider_configs d))));
  poll_tenants tenant_ids.

End scanner.
