(* ===== verification/StarsSpec.v ===== *)
(** * Telegram Stars: properties

    The adapter lists exactly the window of the history it was configured
    for; every outbound transaction the scanner takes up ends as money out of
    the wallet or as a case for an operator; scanning again changes nothing;
    and the scanner, interleaved with everything else that touches reversals,
    moves their sagas by legal steps only. *)

From Stdlib Require Import ZArith Lia Ascii String.
From stdpp Require Import base tactics list option strings numbers pretty relations.
From S2P Require Import Prelude Tables Text Money Exceptions StateMachines Models Ledger.
From S2P Require Import LedgerInv LedgerSpec DepositsSpec FulfillmentSpec Payments PaymentsInv.
From S2P Require Import TopUps PaymentsSpec Reversals ReversalsInv ReversalsSpec Resolution.
From S2P Require Import StarsGateway Stars.

Local Open Scope Z_scope.

(** ** The transaction window *)

Definition page_document (l : list dict) : json :=
  JObj [("ok", JBool true); ("result", JObj [("transactions", JList (map JObj l))])].

(** The documented behaviour of [getStarTransactions]: the part of the history
    from [offset] on, at most [limit] transactions. *)
Definition serves_history `{Env} `{BotApi} (g : Stars) (history : list dict) : Prop :=
  ∀ sent offset,
    bot_api sent (stars_api_base g +:+ "/bot" +:+ stars_bot_token g +:+ "/getStarTransactions")
      [("offset", JInt (Z.of_nat offset)); ("limit", JInt 100)]
    = Answered (page_document (take 100 (drop offset history))).

Lemma omap_json_dict (l : list dict) : omap json_dict (map JObj l) = l.
Proof. induction l as [|d l IH]; cbn; [done|]. by f_equal. Qed.

Section window.
  Context `{Env} `{BotApi}.

Lemma served_page g history sent p :
  serves_history g history →
  get_page g sent (Z.of_nat p) = Ok (map JObj (take 100 (drop (100 * p) history))).
Proof.
  intros Hs. unfold get_page, _call.
  replace (Z.of_nat p * 100) with (Z.of_nat (100 * p)) by lia. by rewrite Hs.
Qed.

Lemma served_pages g history sent n p :
  serves_history g history →
  list_pages g sent n (Z.of_nat p) = Ok (take (100 * n) (drop (100 * p) history)).
Proof.
  intros Hs. revert p. induction n as [|n IH]; intros p; cbn [list_pages]; [by rewrite Nat.mul_0_r|].
  rewrite (served_page g history) by done. rewrite omap_json_dict, List.length_map.
  set (rest := drop (100 * p) history).
  destruct (Nat.ltb_spec (length (take 100 rest)) 100) as [Hlt|Hge]; rewrite length_take in *.
  - f_equal. rewrite !take_ge by lia. done.
  - replace (Z.of_nat p + 1) with (Z.of_nat (S p)) by lia. rewrite IH. f_equal.
    replace (100 * S n)%nat with (100 + 100 * n)%nat by lia. rewrite <- take_take_drop. f_equal.
    unfold rest. rewrite drop_drop. do 2 f_equal. lia.
Qed.

End window.

(** The adapter sees the [100 * pages] most recent transactions, whatever it
    was configured with, and nothing older. *)
Theorem listing_is_window `{Env} `{BotApi} settings token g history sent :
  init_stars settings token = Ok g → serves_history g history →
  list_recent_star_transactions g sent = Ok (take (100 * stars_scan_pages g) history)
  ∧ (1 ≤ stars_scan_pages g ≤ 50)%nat.
Proof.
  intros Hg Hs. split; [by apply (served_pages g history sent _ 0)|].
  unfold init_stars in Hg. destruct (_ || _); [done|]. destruct (json_int _) as [n|]; [|done].
  injection Hg as <-. cbn. lia.
Qed.

(** ** What opening a case leaves alone *)

Definition quiet (s s' : Session) : Prop :=
  wallets (ses_db s') = wallets (ses_db s) ∧ ledger (ses_db s') = ledger (ses_db s)
  ∧ reversals (ses_db s') = reversals (ses_db s) ∧ intents (ses_db s') = intents (ses_db s)
  ∧ recon_events (ses_db s') = recon_events (ses_db s)
  ∧ holds (ses_db s') = holds (ses_db s) ∧ users (ses_db s') = users (ses_db s).

Global Instance quiet_preorder : PreOrder quiet.
Proof.
  split; [by intros s; split_and!|].
  intros x y z (? & ? & ? & ? & ? & ? & ?) (? & ? & ? & ? & ? & ? & ?). split_and!; congruence.
Qed.

Lemma quiet_saga s s' : quiet s s' → same_saga s s'.
Proof. intros (_ & Hl & Hr & _). by split. Qed.

Section cases.
  Context `{HE : Env} `{!Serial HE} `{Gateways}.

Lemma quiet_db s s' : ses_db s' = ses_db s → quiet s s'.
Proof. unfold quiet. by intros ->. Qed.

Lemma quiet_frc (f : list FinancialResolutionCase → list FinancialResolutionCase) :
  steps quiet (write (λ d, d <| resolution_cases ::= f |>)).
Proof. by intros s; split_and!. Qed.

Lemma hushed_uuid4 : steps quiet uuid4.
Proof. by intros s; split_and!. Qed.

Lemma hushed_await : steps quiet await_others.
Proof. intros s. apply quiet_db. cbn. apply serial_race. Qed.

Lemma hushed_nested {A} (m : M A) : steps quiet m → steps quiet (begin_nested m).
Proof. intros Hm s. specialize (Hm s). unfold begin_nested. by destruct (m s) as [[a|e] s']. Qed.

Hint Resolve quiet_frc hushed_uuid4 hushed_await hushed_nested : steps.

Lemma quiet_insert_frc f : steps quiet (insert_frc f).
Proof. unfold insert_frc. steps_walk. Qed.

Hint Resolve quiet_insert_frc : steps.

Lemma quiet_event_case e r : steps quiet (ensure_case_for_reconciliation_event e r).
Proof.
  unfold ensure_case_for_reconciliation_event, _wallet_for_intent, except_integrity, update_frc.
  steps_walk. all: apply hushed_nested; steps_walk.
Qed.

Lemma quiet_with_case e r : steps quiet (with_case e r).
Proof. pose proof quiet_event_case. unfold with_case. steps_walk. Qed.

Lemma insert_frc_ok f s c s' :
  insert_frc f s = (Ok c, s') →
  (∃ u, c = f u) ∧ resolution_cases (ses_db s') = resolution_cases (ses_db s) ++ [c].
Proof. unfold insert_frc. intros Hr. db_inv. split; [by eexists|done]. Qed.

(** The event has a case of its tenant, new or refreshed. *)
Lemma event_case_ok e r s x s' :
  ev_requires_review e = true → ensure_case_for_reconciliation_event e r s = (Ok x, s') →
  ∃ c, c ∈ resolution_cases (ses_db s') ∧ frc_tenant_id c = ev_tenant_id e
       ∧ frc_reconciliation_event_id c = Some (ev_id e).
Proof.
  intros Hrev Hr. unfold ensure_case_for_reconciliation_event in Hr. rewrite Hrev in Hr. cbn [negb] in Hr.
  bind_query Hr. cbv zeta in Hr. bind_query Hr. apply bind_inv_ok in Hr as (found & s1 & Hf & Hr).
  bind_query Hr. apply bind_inv_ok in Hr as (w & s2 & Hw & Hr).
  assert (s1 = s) as -> by (symmetry; eapply (steps_run eq); [|exact Hf]; steps_walk).
  assert (s2 = s) as ->.
  { symmetry. eapply (steps_run eq); [|exact Hw]. unfold _wallet_for_intent. steps_walk. }
  destruct found as [c|].
  - apply one_or_none_some in Hf as [Hf _]. bind_write Hr. apply ret_inv in Hr as [_ ->].
    match type of Hf with ?l = _ => assert (c ∈ l) as Hc by (rewrite Hf; left) end.
    apply elem_of_select in Hc as [Hc Hk]. apply andb_true_iff in Hk as [Hk _]. rewrite bool_decide_eq_true in Hk.
    exists (refreshed_event_case e (case_severity w) (wallet_id <$> w) c). split; [|done].
    cbn. apply elem_of_update_where. exists c. split; [done|]. by rewrite bool_decide_eq_true_2.
  - apply one_or_none_none in Hf as [Hf _]. bind_write Hr.
    apply except_inserted in Hr as [(c & -> & Hr)|(s1 & Hs1 & Hr)].
    + apply insert_frc_ok in Hr as [[u Hc] Hl]. exists c. rewrite Hl, Hc.
      split; [apply elem_of_app; right; left|done].
    + exfalso. bind_query Hr. rewrite Hs1 in Hr. cbn in Hr. rewrite serial_race, Hf in Hr. done.
Qed.

End cases.

(** ** Recording the event *)

Section events.
  Context `{HE : Env} `{!Serial HE} `{Gateways}.

Lemma insert_outbound_ok f s e s' :
  insert_event f s = (Ok e, s') →
  (∃ u a, e = (f u) <| ev_amount := a |> ∧ numeric 12 2 (ev_amount (f u)) = Some a)
  ∧ ses_db s' = (ses_db s) <| recon_events ::= λ t, t ++ [e] |>.
Proof. unfold insert_event. intros Hr. db_inv. cbn [ses_db] in *. split; [by do 2 eexists|done]. Qed.

(** What recording a verdict does: the event is entered, it is the only one of
    its transaction, it has a case when it needs one, and nothing else of the
    books changes. *)
Record recorded (t : UUID) (tid : string) (i : option PaymentIntent) (v : Verdict) (s s' : Session)
    (e : PaymentReconciliationEvent) : Prop := {
  rc_intent : ev_payment_intent_id e = intent_id <$> i;
  rc_event : recon_events (ses_db s') = recon_events (ses_db s) ++ [e];
  rc_only : select (is_outbound t tid) (recon_events (ses_db s')) = [e];
  rc_review : ev_requires_review e = vd_requires_review v;
  rc_class : ev_classification e = vd_classification v;
  rc_case : ev_requires_review e = true →
    ∃ c, c ∈ resolution_cases (ses_db s') ∧ frc_tenant_id c = t
         ∧ frc_reconciliation_event_id c = Some (ev_id e);
  rc_wallets : wallets (ses_db s') = wallets (ses_db s);
  rc_intents : intents (ses_db s') = intents (ses_db s);
  rc_saga : same_saga s s';
}.

Lemma record_outbound_ok t i tid amount tr v s e s' :
  select (is_outbound t tid) (recon_events (ses_db s)) = [] →
  record_outbound t i tid amount tr v s = (Ok e, s') → recorded t tid i v s s' e.
Proof.
  intros Hnone Hr. unfold record_outbound in Hr. apply bind_inv_ok in Hr as ([] & s0 & Hs0 & Hr).
  assert (ses_db s0 = ses_db s) as Hdb0 by (apply write_inv in Hs0 as [_ ->]; cbn; apply serial_race).
  apply bind_inv_ok in Hr as (e0 & s1 & He & Hr).
  assert (insert_event (outbound_event t i tid amount tr v) s0 = (Ok e0, s1)) as Hins.
  { apply catch_inv_ok in He as [He|(x & s2 & Hx & He)]; [by apply begin_nested_ok in He|exfalso].
    apply begin_nested_raise in Hx. destruct x; try by apply throw_inv in He as [? _].
    apply bind_inv_ok in He as (o & s3 & Ho & He). unfold _existing_event in Ho. bind_query Ho.
    rewrite Hx, Hdb0, Hnone in Ho. apply of_outcome_ok in Ho as [[= <-] ->]. done. }
  apply insert_outbound_ok in Hins as ((u & a & Hu & _) & Hdb). rewrite Hdb0 in Hdb. clear He.
  assert (is_outbound t tid e0 = true) as Hout.
  { rewrite Hu. unfold is_outbound. cbn. by rewrite !bool_decide_eq_true_2. }
  assert (e = e0) as ->.
  { unfold with_case in Hr. apply bind_inv_ok in Hr as (? & ? & _ & [[= ->] _]%ret_inv). done. }
  pose proof (steps_run _ _ _ _ _ (quiet_with_case _ _) Hr) as (Hw & Hl & Hv & Hi & Hev & _).
  rewrite Hdb in Hw, Hl, Hv, Hi, Hev. cbn in Hw, Hl, Hv, Hi, Hev.
  split; [by rewrite Hu|done| |by rewrite Hu|by rewrite Hu| |done|done|by split].
  - rewrite Hev, select_app, Hnone. cbn. by rewrite Hout.
  - intros Hrv. unfold with_case in Hr. rewrite Hrv in Hr. apply bind_inv_ok in Hr as (x & s2 & Hc & [_ ->]%ret_inv).
    apply bind_inv_ok in Hc as (y & s3 & Hc & [_ ->]%ret_inv).
    apply event_case_ok in Hc as (c & Hin & Ht & Hid); [|done]. exists c. split_and!; [done|by rewrite Ht, Hu|done].
Qed.

End events.

(** ** What becomes of a transaction *)

(** The reversal of an intent whose money is out of the wallet: exactly one
    reservation, a debit of its amount. *)
Definition taken (t iid : UUID) (d : DB) : Prop :=
  ∃ r tx, r ∈ reversals d ∧ rev_key r = (t, iid) ∧ rev_status r = RevCompleted
          ∧ reservations r d = [tx] ∧ reserves r tx.

(** The reversal that waits for an operator. *)
Definition waits (t iid : UUID) (d : DB) : Prop :=
  ∃ r, r ∈ reversals d ∧ rev_key r = (t, iid) ∧ rev_status r = RevManualReview.

Definition frozen (wid : UUID) (d : DB) : Prop :=
  ∀ w, w ∈ wallets d → wallet_id w = wid → wallet_is_active w = false.

(** The wallet of the intent cannot be used. *)
Definition intent_frozen (i : PaymentIntent) (d : DB) : Prop :=
  ∀ w, w ∈ wallet_by_key (intent_tenant_id i) (intent_user_id i) (intent_currency i) d →
    wallet_is_active w = false.

(** How a verdict shows in the tables. *)
Inductive judged (t : UUID) (i : PaymentIntent) (d : DB) (v : Verdict) : Prop :=
  | JudgedTaken : vd_requires_review v = false → taken t (intent_id i) d → judged t i d v
  | JudgedMismatch : vd_classification v = "OUTBOUND_INTEGRITY_MISMATCH" →
      vd_requires_review v = true → intent_frozen i d → judged t i d v
  | JudgedStuck : vd_classification v = "LOCAL_REVERSAL_REQUIRES_REVIEW" →
      vd_requires_review v = true → waits t (intent_id i) d → judged t i d v
  | JudgedUnfunded : vd_classification v = "EXTERNAL_REVERSAL_INSUFFICIENT_FUNDS" →
      vd_requires_review v = true → waits t (intent_id i) d → intent_frozen i d → judged t i d v.

Section outcomes.
  Context `{HE : Env} `{!Serial HE} `{Gateways}.

Lemma flush_reversal_ok r s x s' :
  flush_reversal r s = (Ok x, s') → s' = s ∧ x = default r (get_row (rev_id r) (reversals (ses_db s))).
Proof.
  unfold flush_reversal, live_reversal. intros Hr. bind_query Hr.
  apply bind_inv_ok in Hr as (u & s1 & Hs1%varchar_opt_reads & Hr). subst s1.
  by apply ret_inv in Hr as [[= ->] ->].
Qed.

(** The row after an update that kept its key. *)
Lemma updated_row r f s s' :
  saga_inv (ses_db s) → r ∈ reversals (ses_db s) → (∀ x, rev_id (f x) = rev_id x) →
  reversals (ses_db s') = update_row (rev_id r) f (reversals (ses_db s)) →
  get_row (rev_id r) (reversals (ses_db s')) = Some (f r).
Proof.
  intros Hi Hin Hf ->. rewrite get_update_same by done. by rewrite (reversal_get _ _ Hi Hin).
Qed.

(** What the operations that reserve the funds return. *)
Lemma funded_row r (g : Z → WalletTopUpReversal → WalletTopUpReversal) (rec : M unit) s s1 x s' :
  saga_inv (ses_db s) → r ∈ reversals (ses_db s) → reversals (ses_db s1) = reversals (ses_db s) →
  (∀ n y, rev_id (g n y) = rev_id y) → steps same_saga rec →
  (n ← now; update_reversal (rev_id r) (g n);; rec;; flush_reversal r) s1 = (Ok x, s') →
  ∃ n, x = g n r ∧ x ∈ reversals (ses_db s').
Proof.
  intros Hi Hin Hs1 Hg Hrec Hr. apply bind_inv_ok in Hr as (n & s2 & Hn & Hr).
  apply gets_inv in Hn as [_ ->]. bind_write Hr. apply bind_inv_ok in Hr as (u & s2 & Hu & Hr).
  apply (steps_run _ _ _ _ _ Hrec) in Hu as [Hrev _]. cbn in Hrev. rewrite Hs1 in Hrev.
  apply flush_reversal_ok in Hr as [-> ->]. exists n.
  rewrite (updated_row r (g n) s s2) by done. split; [done|].
  assert (get_row (rev_id r) (reversals (ses_db s2)) = Some (g n r)) as Hrow by (by apply (updated_row r (g n) s s2)).
  by apply get_row_Some in Hrow as [? _].
Qed.

Lemma completed_taken d r t iid :
  saga_inv d → r ∈ reversals d → rev_key r = (t, iid) → rev_status r = RevCompleted → taken t iid d.
Proof.
  intros Hi Hr Hk Hst. pose proof (si_exact d Hi r Hr) as He. unfold held_exactly, row_saga in He.
  rewrite Hst in He. destruct He as (tx & Htx & Hres). by exists r, tx.
Qed.

(** An observed refund completes the reversal, unless an operator has it. *)
Lemma complete_result t r pid md s x s' :
  saga_inv (ses_db s) → r ∈ reversals (ses_db s) →
  complete_wallet_topup_reversal_from_provider_event t r pid md s = (Ok x, s') →
  saga_moves (ses_db s) (ses_db s') ∧ x ∈ reversals (ses_db s') ∧ rev_key x = rev_key r
  ∧ (rev_status x = RevCompleted ∨ rev_status x = RevManualReview).
Proof.
  intros Hi Hin Hr. split; [by eapply complete_moves|].
  unfold complete_wallet_topup_reversal_from_provider_event in Hr.
  bind_guard Hr Ht. destruct (_ || _) eqn:Hdone.
  { apply ret_inv in Hr as [[= ->] ->]. split_and!; [done..|].
    apply orb_true_iff in Hdone. by rewrite !bool_decide_eq_true in Hdone. }
  apply bind_inv_ok in Hr as (i & s0 & (-> & _)%get_payment_intent_ok & Hr). bind_guard Hr Hpid.
  bind_query Hr. bind_some Hr w Hw. bind_guard Hr Hwt. apply get_row_Some in Hw as [_ Hw].
  apply bind_inv_ok in Hr as (tx & s1 & Hres & Hr).
  apply reserve_reserved in Hres; [|done..|by intros a; rewrite (si_cents _ Hi r Hin); intros [= ->]].
  eapply (funded_row r) in Hr as (n & -> & Hx); [by split_and!; auto|done|done|apply Hres|done|].
  apply same_saga_record.
Qed.

(** The wallet of a key is the only one. *)
Lemma get_or_create_wallet_only t u c s w s' :
  get_or_create_wallet t u c s = (Ok w, s') → wallet_by_key t u c (ses_db s') = [w].
Proof.
  unfold get_or_create_wallet. intros Hr. bind_query Hr.
  apply bind_inv_ok in Hr as ([x|] & s1 & Hone & Hr).
  - apply one_or_none_some in Hone as [Heq ->]. by apply ret_inv in Hr as [[= ->] ->].
  - apply one_or_none_none in Hone as [Hnone ->]. bind_write Hr.
    apply catch_inv_ok in Hr as [Hr|(e & s2 & _ & Hr)].
    + apply begin_nested_ok, insert_wallet_ok in Hr as (-> & _ & ->).
      unfold wallet_by_key in *. cbn. rewrite serial_race, select_app, Hnone. cbn.
      by rewrite !bool_decide_eq_true_2.
    + destruct e; try by apply throw_inv in Hr as [? _]. bind_query Hr.
      apply bind_inv_ok in Hr as (o & s3 & Ho & [-> ->]%of_option_ok).
      by apply one_or_none_some in Ho as [Ho ->].
Qed.

Definition same_wallets (s s' : Session) : Prop := wallets (ses_db s') = wallets (ses_db s).

Global Instance same_wallets_preorder : PreOrder same_wallets.
Proof. split; unfold same_wallets; [by intros x|by intros x y z -> ->]. Qed.

Lemma wallets_insert t iid f : steps same_wallets (insert_or_winner t iid f).
Proof.
  assert (steps same_wallets uuid4) by (by intros s).
  assert (steps same_wallets await_others) by (intros s; unfold same_wallets; cbn; by rewrite serial_race).
  assert (∀ f, steps same_wallets (write (λ d, d <| reversals ::= f |>))) by (by intros g s).
  assert (∀ {A} (m : M A), steps same_wallets m → steps same_wallets (begin_nested m)) as Hn.
  { intros A m Hm s. specialize (Hm s). unfold begin_nested. by destruct (m s) as [[a|e] s']. }
  unfold insert_or_winner, except_integrity, insert_reversal, to_varchar_opt. steps_walk.
  all: apply Hn; steps_walk.
Qed.

(** Freezing the only wallet of a key. *)
Lemma frozen_key t u c w d d' :
  wallet_by_key t u c d = [w] →
  wallets d' = update_row (wallet_id w) (λ w, w <| wallet_is_active := false |>) (wallets d) →
  ∀ x, x ∈ wallet_by_key t u c d' → wallet_is_active x = false.
Proof.
  intros Hone Hw x. unfold wallet_by_key in *. rewrite Hw. unfold update_row.
  rewrite select_update_where by done. rewrite Hone. cbn. rewrite bool_decide_eq_true_2 by done.
  by intros ->%list_elem_of_singleton.
Qed.

Lemma unfunded_result i w r pid s s1 x s' :
  saga_inv (ses_db s) → r ∈ reversals (ses_db s) → ses_db s1 = ses_db s →
  finish_external i w r pid false s1 = (Ok x, s') →
  x ∈ reversals (ses_db s') ∧ rev_key x = rev_key r ∧ rev_status x = RevManualReview
  ∧ wallets (ses_db s') = update_row (wallet_id w) (λ w, w <| wallet_is_active := false |>) (wallets (ses_db s)).
Proof.
  intros Hi Hin Hdb Hr. unfold finish_external in Hr. bind_write Hr. bind_write Hr.
  apply flush_reversal_ok in Hr as [-> ->]. cbn [ses_db].
  match goal with |- context [default r ?o] => eassert (o = Some _) as Hrow end.
  { eapply (updated_row r _ s); [done|done| |cbn; rewrite Hdb; reflexivity]. done. }
  rewrite Hrow. apply get_row_Some in Hrow as [Hx _]. split_and!; [exact Hx|done|done|]. cbn. by rewrite Hdb.
Qed.

(** A refund nobody asked for is taken from the wallet, or freezes it. *)
Lemma external_result t i md s x s' :
  saga_inv (ses_db s) → reversals_of_intent t (intent_id i) (ses_db s) = [] →
  record_external_wallet_topup_reversal t i md s = (Ok x, s') →
  saga_moves (ses_db s) (ses_db s') ∧ x ∈ reversals (ses_db s') ∧ rev_key x = (t, intent_id i)
  ∧ (rev_status x = RevCompleted
     ∨ rev_status x = RevManualReview ∧ intent_frozen i (ses_db s')).
Proof.
  intros Hi Hnone Hr. split; [by eapply external_moves|].
  unfold record_external_wallet_topup_reversal in Hr. bind_guard Hr Hg1.
  apply negb_false_iff in Hg1. rewrite bool_decide_eq_true in Hg1.
  bind_guard Hr Hg2. bind_guard Hr Hg3. bind_guard Hr Hg4. cbv zeta in Hr. bind_query Hr.
  rewrite Hnone in Hr. apply bind_inv_ok in Hr as (o & s0 & Ho & Hr).
  apply of_outcome_ok in Ho as [[= <-] ->].
  apply bind_inv_ok in Hr as (w & s1 & Hs1 & Hr). pose proof (settled_wallet_saga _ _ _ _ _ Hs1) as Hsame.
  assert (wallet_by_key t (intent_user_id i) (intent_currency i) (ses_db s1) = [w]) as Hone.
  { unfold settled_wallet in Hs1. apply bind_inv_ok in Hs1 as (w1 & s2 & Hw1 & Hs1).
    apply get_or_create_wallet_only in Hw1. bind_query Hs1. bind_some Hs1 e He. bind_guard Hs1 Hga.
    by apply ret_inv in Hs1 as [[= ->] ->]. }
  rewrite <- (reversals_of_intent_moved _ _ _ _ Hsame) in Hnone.
  pose proof (saga_same _ _ Hsame Hi) as Hm1.
  apply bind_inv_ok in Hr as (ins & s2 & Hins & Hr).
  pose proof (steps_run _ _ _ _ _ (wallets_insert _ _ _) Hins) as Hw2.
  apply insert_or_winner_moves in Hins as (r & u & n & -> & Hrf & Ham & Hin & Hm2);
    [|apply Hm1|done|done].
  apply bind_inv_ok in Hr as (b & s3 & Hb & Hr).
  apply reserve_external_ok in Hb; [|apply Hm2|done|by rewrite Hrf|intros a; by eapply numeric_same_scale].
  destruct b.
  - unfold finish_external in Hr. eapply (funded_row r) in Hr as (m & -> & Hx); [|apply Hm2|done|apply Hb|done|apply same_saga_record].
    split_and!; [done| |by left]. rewrite Hrf. done.
  - apply (unfunded_result _ _ _ _ s2) in Hr as (Hx & Hk & Hst & Hw); [|apply Hm2|done|done].
    split_and!; [done|by rewrite Hk, Hrf|]. right. split; [done|]. unfold intent_frozen. rewrite Hg1.
    apply (frozen_key _ _ _ w (ses_db s1)); [done|]. by rewrite Hw, Hw2.
Qed.

End outcomes.

(** ** Operations that enter no event *)

Definition same_events (s s' : Session) : Prop := recon_events (ses_db s') = recon_events (ses_db s).

Global Instance same_events_preorder : PreOrder same_events.
Proof. split; unfold same_events; [by intros x|by intros x y z -> ->]. Qed.

Section silent.
  Context `{HE : Env} `{!Serial HE} `{Gateways}.

Lemma events_uuid4 : steps same_events uuid4.
Proof. by intros s. Qed.

Lemma events_await : steps same_events await_others.
Proof. intros s. unfold same_events. cbn. by rewrite serial_race. Qed.

Lemma events_nested {A} (m : M A) : steps same_events m → steps same_events (begin_nested m).
Proof. intros Hm s. specialize (Hm s). unfold begin_nested. by destruct (m s) as [[a|e] s']. Qed.

Hint Resolve events_uuid4 events_await events_nested : steps.
Hint Extern 1 (steps same_events (write _)) => by intros ? : steps.
Hint Extern 4 (steps same_events (begin_nested _)) => apply events_nested; steps_walk : steps.

Lemma events_complete t r p md :
  steps same_events (complete_wallet_topup_reversal_from_provider_event t r p md).
Proof.
  unfold complete_wallet_topup_reversal_from_provider_event, get_payment_intent, reserve_topup_reversal,
    lock_wallet, flush_entry, return_existing, update_reversal, flush_reversal, live_reversal,
    _record_topup_reversal_payment_transaction, except_integrity, insert_payment_tx, to_varchar_opt.
  steps_walk.
Qed.

Lemma events_external t i md : steps same_events (record_external_wallet_topup_reversal t i md).
Proof.
  pose proof events_complete.
  unfold record_external_wallet_topup_reversal, settled_wallet, get_or_create_wallet, insert_wallet,
    insert_or_winner, insert_reversal, reserve_external, finish_external, set_wallet_active,
    reserve_topup_reversal, lock_wallet, flush_entry, return_existing, update_reversal, flush_reversal,
    live_reversal, _record_topup_reversal_payment_transaction, except_integrity, insert_payment_tx,
    to_varchar_opt. steps_walk.
Qed.

Lemma events_classify t i tid a tr : steps same_events (classify t i tid a tr).
Proof.
  pose proof events_complete. pose proof events_external.
  unfold classify, apply_outbound, _freeze_intent_wallet, set_wallet_active. steps_walk.
Qed.

End silent.

(** ** One transaction *)

Section transactions.
  Context `{HE : Env} `{!Serial HE} `{Gateways}.

Lemma apply_outbound_ok t i tid tr s v s' :
  saga_inv (ses_db s) → apply_outbound t i tid tr s = (Ok v, s') →
  saga_moves (ses_db s) (ses_db s') ∧ judged t i (ses_db s') v.
Proof.
  intros Hi Hr. unfold apply_outbound in Hr. bind_query Hr.
  apply bind_inv_ok in Hr as ([r|] & s1 & Hrow & Hr).
  - pose proof (one_of_intent _ _ _ _ _ Hrow) as [-> Hin]. apply one_or_none_some in Hrow as [Hrow _].
    assert (r ∈ reversals_of_intent t (intent_id i) (ses_db s)) as Hk by (rewrite Hrow; left).
    apply elem_of_select in Hk as [_ Hk]. rewrite andb_true_iff, !bool_decide_eq_true in Hk.
    assert (rev_key r = (t, intent_id i)) as Hkey by (unfold rev_key; by destruct Hk as [-> ->]).
    apply bind_inv_ok in Hr as (x & s1 & Hx & [[= ->] ->]%ret_inv).
    apply complete_result in Hx as (Hm & Hx & Hkx & Hst); [|done..]. split; [done|]. rewrite Hkey in Hkx.
    destruct Hst as [Hst|Hst]; rewrite Hst.
    + apply JudgedTaken; [done|]. by eapply completed_taken; [apply Hm|..].
    + apply JudgedStuck; [done|done|]. by exists x.
  - apply one_or_none_none in Hrow as [Hrow ->].
    apply bind_inv_ok in Hr as (x & s1 & Hx & [[= ->] ->]%ret_inv).
    apply external_result in Hx as (Hm & Hx & Hkx & Hst); [|done..]. split; [done|].
    destruct Hst as [Hst|[Hst Hf]]; rewrite Hst.
    + apply JudgedTaken; [done|]. by eapply completed_taken; [apply Hm|..].
    + apply JudgedUnfunded; [done|done| |done]. by exists x.
Qed.

Lemma freeze_ok i s u s' :
  _freeze_intent_wallet i s = (Ok u, s') → same_saga s s' ∧ intent_frozen i (ses_db s').
Proof.
  unfold _freeze_intent_wallet. intros Hr. bind_query Hr.
  apply bind_inv_ok in Hr as ([w|] & s1 & Hw & Hr).
  - apply one_or_none_some in Hw as [Hw ->]. apply write_inv in Hr as [_ ->]. split; [done|].
    unfold intent_frozen. apply (frozen_key _ _ _ w (ses_db s)); [exact Hw|reflexivity].
  - apply one_or_none_none in Hw as [Hw ->]. apply ret_inv in Hr as [_ ->]. split; [done|].
    intros x Hx. rewrite Hw in Hx. by apply elem_of_nil in Hx.
Qed.

Lemma classify_ok t i tid a tr s v s' :
  saga_inv (ses_db s) → classify t (Some i) tid a tr s = (Ok v, s') →
  saga_moves (ses_db s) (ses_db s') ∧ judged t i (ses_db s') v
  ∧ (vd_requires_review v = false →
     integrity_error i (get_row (intent_user_id i) (users (ses_db s))) (receiver_of tr) tid a = None).
Proof.
  intros Hi Hr. unfold classify in Hr. bind_query Hr. destruct (integrity_error _ _ _ _ _) as [d|].
  - apply bind_inv_ok in Hr as (u & s1 & [Hs Hf]%freeze_ok & [[= ->] ->]%ret_inv).
    split; [by apply saga_same|]. split; [|done]. by apply JudgedMismatch.
  - apply apply_outbound_ok in Hr as [Hm Hj]; [|done]. done.
Qed.

(** The intent of a transaction belongs to the tenant's Stars top-ups. *)
Lemma find_intent_ok t tid p s i s' :
  _find_intent t tid p s = (Ok (Some i), s') →
  s' = s ∧ i ∈ intents (ses_db s) ∧ stars_topup t i = true.
Proof.
  unfold _find_intent. intros Hr. bind_query Hr. apply bind_inv_ok in Hr as ([x|] & s1 & Hx & Hr).
  - apply one_or_none_some in Hx as [Hx ->]. apply ret_inv in Hr as [[= ->] ->]. split; [done|].
    match type of Hx with ?l = _ => assert (x ∈ l) as Hin by (rewrite Hx; left) end.
    apply elem_of_select in Hin as [Hin Hk]. split; [done|]. by apply andb_true_iff in Hk as [Hk _].
  - apply one_or_none_none in Hx as [_ ->]. destruct p as [p|]; [|by apply ret_inv in Hr as [? _]].
    destruct (_parse_stars_invoice_payload p) as [iid|]; [|by apply ret_inv in Hr as [? _]].
    bind_query Hr. apply ret_inv in Hr as [Hr ->]. destruct (get_row iid _) as [x|] eqn:Hrow; [|done].
    destruct (stars_topup t x) eqn:Hst; [|done]. injection Hr as ->. apply get_row_Some in Hrow as [? _]. done.
Qed.

Lemma find_intent_reads t tid p : steps eq (_find_intent t tid p).
Proof. unfold _find_intent. steps_walk. Qed.

Lemma existing_event_ok t tid s o s' :
  _existing_event t tid s = (Ok o, s') →
  s' = s ∧ select (is_outbound t tid) (recon_events (ses_db s)) = option_list o.
Proof.
  unfold _existing_event. intros Hr. bind_query Hr. destruct o as [e|].
  - by apply one_or_none_some in Hr as [-> ->].
  - by apply one_or_none_none in Hr as [-> ->].
Qed.

(** The transaction's identifier, as the events have it. *)
Definition tx_id (tr : dict) : string := strip (policy_text "id" "" tr).

(** A run that took the transaction up for the first time. *)
Lemma process_new t tr s e s' :
  select (is_outbound t (tx_id tr)) (recon_events (ses_db s)) = [] →
  process_outbound_transaction t tr s = (Ok (Some e), s') →
  ∃ i a v s1, _transaction_amount tr = Ok a
    ∧ (∀ x, i = Some x → x ∈ intents (ses_db s) ∧ stars_topup t x = true)
    ∧ classify t i (tx_id tr) a tr s = (Ok v, s1) ∧ recorded t (tx_id tr) i v s1 s' e.
Proof.
  intros Hnone Hr. unfold process_outbound_transaction in Hr. fold (tx_id tr) in Hr.
  destruct (_is_relevant_outbound tr); cbn [negb] in Hr; [|by apply ret_inv in Hr as [? _]].
  cbv zeta in Hr. destruct (tx_id tr == ""); [by apply ret_inv in Hr as [? _]|].
  apply bind_inv_ok in Hr as (o & s0 & [-> Ho]%existing_event_ok & Hr). rewrite Hnone in Ho.
  destruct o; [done|]. destruct (_ && _); [by apply ret_inv in Hr as [? _]|].
  bind_value Hr a Ha. apply bind_inv_ok in Hr as (i & s0 & Hi & Hr).
  destruct (_ && _); [by apply ret_inv in Hr as [? _]|].
  pose proof (steps_run _ _ _ _ _ (find_intent_reads _ _ _) Hi) as <-.
  apply bind_inv_ok in Hr as (v & s1 & Hv & Hr). apply bind_inv_ok in Hr as (x & s2 & Hx & Hr).
  apply ret_inv in Hr as [[= ->] ->]. exists i, a, v, s1. split_and!; [done| |done|].
  - intros y ->. by apply find_intent_ok in Hi as (_ & ? & ?).
  - apply record_outbound_ok in Hx; [done|]. pose proof (steps_run _ _ _ _ _ (events_classify _ _ _ _ _) Hv) as ->. done.
Qed.

(** A transaction that is passed over. *)
Lemma process_none t tr s s' : process_outbound_transaction t tr s = (Ok None, s') → ses_db s' = ses_db s.
Proof.
  intros Hr. unfold process_outbound_transaction in Hr.
  destruct (negb _); [by apply ret_inv in Hr as [_ ->]|]. cbv zeta in Hr.
  destruct (_ == _); [by apply ret_inv in Hr as [_ ->]|].
  apply bind_inv_ok in Hr as ([y|] & s0 & [-> _]%existing_event_ok & Hr).
  { by apply bind_inv_ok in Hr as (? & ? & _ & [? _]%ret_inv). }
  destruct (_ && _); [by apply ret_inv in Hr as [_ ->]|]. bind_value Hr a Ha.
  apply bind_inv_ok in Hr as (i & s0 & Hi & Hr).
  pose proof (steps_run _ _ _ _ _ (find_intent_reads _ _ _) Hi) as <-.
  destruct (_ && _); [by apply ret_inv in Hr as [_ ->]|].
  apply bind_inv_ok in Hr as (v & s1 & _ & Hr). by apply bind_inv_ok in Hr as (? & ? & _ & [? _]%ret_inv).
Qed.

(** A transaction that was taken up before. *)
Lemma process_again t tr s r s' :
  select (is_outbound t (tx_id tr)) (recon_events (ses_db s)) ≠ [] →
  process_outbound_transaction t tr s = (r, s') →
  quiet s s' ∧ ∀ e, r = Ok (Some e) → select (is_outbound t (tx_id tr)) (recon_events (ses_db s)) = [e].
Proof.
  intros Hsome Hr. unfold process_outbound_transaction in Hr. fold (tx_id tr) in Hr.
  destruct (negb _); [by apply ret_inv in Hr as [-> ->]|]. cbv zeta in Hr.
  destruct (_ == _); [by apply ret_inv in Hr as [-> ->]|].
  unfold mbind at 1, prog_bind at 1 in Hr.
  destruct (_existing_event t (tx_id tr) s) as [[o|x] s0] eqn:Ho.
  2: { injection Hr as <- <-. assert (s0 = s) as ->; [|done].
       symmetry. eapply (steps_run eq); [|exact Ho]. unfold _existing_event. steps_walk. }
  apply existing_event_ok in Ho as [-> Ho]. destruct o as [e|]; [|by rewrite Ho in Hsome].
  split.
  - eapply (steps_run quiet); [|exact Hr]. pose proof quiet_with_case. steps_walk.
  - intros e' ->. apply bind_inv_ok in Hr as (e0 & s1 & Hw & [[= ->] ->]%ret_inv).
    unfold with_case in Hw. apply bind_inv_ok in Hw as (? & ? & _ & [[= ->] _]%ret_inv). done.
Qed.

(** The sagas an accepted transaction has moved. *)
Lemma process_outbound_moves t tr s x s' :
  saga_inv (ses_db s) → process_outbound_transaction t tr s = (Ok x, s') →
  saga_moves (ses_db s) (ses_db s').
Proof.
  intros Hi Hr. pose proof (saga_moves_refl _ Hi) as Hrefl.
  destruct (select (is_outbound t (tx_id tr)) (recon_events (ses_db s))) as [|y l] eqn:Hsel.
  - destruct x as [e|].
    + apply process_new in Hr as (i & a & v & s1 & _ & _ & Hv & Hrec); [|done].
      assert (saga_moves (ses_db s) (ses_db s1)) as Hm.
      { destruct i as [i|]; [by apply classify_ok in Hv as [? _]|]. by apply ret_inv in Hv as [_ ->]. }
      eapply saga_moves_trans; [exact Hm|]. apply saga_same; [apply Hrec|apply Hm].
    + by apply process_none in Hr as ->.
  - apply process_again in Hr as [Hq _]; [by apply saga_same; [apply quiet_saga|]|by rewrite Hsel].
Qed.

End transactions.

(** ** The scan and the worker *)

Section worker.
  Context `{HE : Env}.

Hint Resolve committed_get_provider committed_complete : steps.
Hint Extern 4 (steps same_committed (begin_nested _)) => apply committed_nested; steps_walk : steps.

Lemma committed_record_external `{Gateways} t i md :
  steps same_committed (record_external_wallet_topup_reversal t i md).
Proof.
  pose proof committed_settled_wallet. pose proof committed_insert. pose proof committed_reserve.
  pose proof committed_record. pose proof committed_flush_reversal.
  unfold record_external_wallet_topup_reversal, reserve_external, finish_external, update_reversal,
    set_wallet_active. steps_walk.
Qed.

Lemma committed_process_outbound `{Gateways} t tr : steps same_committed (process_outbound_transaction t tr).
Proof.
  pose proof committed_record_external.
  unfold process_outbound_transaction, _existing_event, _find_intent, classify, apply_outbound,
    _freeze_intent_wallet, set_wallet_active, record_outbound, with_case, insert_event,
    ensure_case_for_reconciliation_event, _wallet_for_intent, update_frc, insert_frc, except_integrity.
  steps_walk.
Qed.

Lemma committed_scan `{Gateways} t : steps same_committed (scan_tenant t).
Proof.
  pose proof committed_process_outbound. unfold scan_tenant. steps_walk.
  match goal with |- steps _ (scan_each _ ?l) => induction l; cbn [scan_each]; steps_walk end.
Qed.

Lemma scan_each_moves `{!Serial HE} `{Gateways} t l s n s' :
  saga_inv (ses_db s) → scan_each t l s = (Ok n, s') → saga_moves (ses_db s) (ses_db s').
Proof.
  revert s n. induction l as [|tr l IH]; intros s n Hi Hr; cbn [scan_each] in Hr.
  - apply ret_inv in Hr as [_ ->]. by apply saga_moves_refl.
  - apply bind_inv_ok in Hr as (o & s1 & Ho & Hr). apply bind_inv_ok in Hr as (m & s2 & Hm & [_ ->]%ret_inv).
    apply process_outbound_moves in Ho; [|done]. eapply saga_moves_trans; [exact Ho|].
    by apply (IH s1 m); [apply Ho|].
Qed.

Lemma scan_moves `{!Serial HE} `{Gateways} t s n s' :
  saga_inv (ses_db s) → scan_tenant t s = (Ok n, s') → saga_moves (ses_db s) (ses_db s').
Proof.
  intros Hi Hr. unfold scan_tenant in Hr. apply bind_inv_ok in Hr as (g & s1 & Hg & Hr).
  apply (reads_books _ _ _ _ (get_provider_reads _ _)) in Hg as ->. bind_some Hr f Hf.
  apply bind_inv_ok in Hr as (o & s1 & Ho & Hr). apply gets_inv in Ho as [_ ->]. bind_value Hr l Hl.
  by eapply scan_each_moves.
Qed.

Lemma poll_tenant_moves `{!Serial HE} `{Gateways} t s :
  persisted s → saga_inv (ses_db s) →
  persisted (poll_tenant t s).2 ∧ saga_moves (ses_db s) (ses_db (poll_tenant t s).2).
Proof.
  intros Hp Hi. pose proof (saga_moves_refl _ Hi) as Hrefl.
  apply (in_session_ensures (saga_moves (ses_db s))). apply ensures_gets.
  apply ensures_bind; [unfold ensures; by rewrite (steps_one_or_none same_committed), Hp|].
  intros o s1 Ho _. assert (s1 = s) as -> by (symmetry; eapply (steps_run eq); [|exact Ho]; steps_walk).
  destruct o as [c|]; [|by apply ensures_ret; rewrite Hp].
  destruct (negb _); [by apply ensures_ret; rewrite Hp|].
  unfold ensures, catch, mbind, prog_bind. pose proof (committed_scan t s) as Hc.
  destruct (scan_tenant t s) as [[n|e] s2] eqn:Hr; cbn in *.
  - by apply scan_moves in Hr.
  - by rewrite Hc, Hp.
Qed.

Lemma poll_tenants_moves `{!Serial HE} `{Gateways} l s :
  persisted s → saga_inv (ses_db s) →
  persisted (poll_tenants l s).2 ∧ saga_moves (ses_db s) (ses_db (poll_tenants l s).2).
Proof.
  revert s. induction l as [|t l IH]; intros s Hp Hi; [split; [done|by apply saga_moves_refl]|].
  cbn [poll_tenants]. destruct (poll_tenant_moves t s Hp Hi) as [Hp1 Hm1]. unfold mbind, prog_bind.
  destruct (poll_tenant t s) as [[n|e] s1]; cbn in Hp1, Hm1; [|done].
  destruct (IH s1 Hp1 (proj1 Hm1)) as [Hp2 Hm2].
  destruct (poll_tenants l s1) as [[m|e] s2]; cbn in *; (split; [done|by eapply saga_moves_trans]).
Qed.

Lemma poll_once_moves `{!Serial HE} `{Gateways} s :
  persisted s → saga_inv (ses_db s) →
  persisted (Stars.poll_once s).2 ∧ saga_moves (ses_db s) (ses_db (Stars.poll_once s).2).
Proof.
  intros Hp Hi. unfold Stars.poll_once.
  set (f := λ d, map cfg_tenant_id (select stars_config (provider_configs d))).
  assert (in_session (query f) s = (Ok (f (ses_db s)), s)) as Hs.
  { rewrite in_session_state. cbn. f_equal. destruct s. unfold persisted in Hp. cbn in *. by rewrite Hp. }
  rewrite (bind_ok _ _ _ _ _ Hs). by apply poll_tenants_moves.
Qed.

End worker.

(** ** Histories with the scanner *)

(** A pass of the scanner, or anything else that touches reversals; what the
    gateways answer, and so the window Telegram reports, is that of the
    moment. *)
Inductive stars_op :=
  | OpStarsPoll
  | OpOther (op : saga_op).

Definition run_stars_op `{HE : Env} (world : Gateways) (op : stars_op) (s : Session) : Session :=
  match op with
  | OpStarsPoll => (@Stars.poll_once HE world s).2
  | OpOther op => @run_op HE world op s
  end.

Definition run_stars `{HE : Env} (history : list (Gateways * stars_op)) (s : Session) : Session :=
  foldl (λ s x, run_stars_op x.1 x.2 s) s history.

Lemma run_stars_moves `{HE : Env} `{!Serial HE} history s :
  persisted s → saga_inv (ses_db s) →
  persisted (run_stars history s) ∧ saga_moves (ses_db s) (ses_db (run_stars history s)).
Proof.
  revert s. induction history as [|[G op] history IH]; intros s Hp Hi;
    [split; [done|by apply saga_moves_refl]|].
  assert (persisted (run_stars_op G op s) ∧ saga_moves (ses_db s) (ses_db (run_stars_op G op s))) as [Hp1 Hm1]
    by (destruct op; [by apply poll_once_moves|by apply run_op_moves]).
  destruct (IH _ Hp1 (proj1 Hm1)) as [Hp2 Hm2]. split; [done|]. by eapply saga_moves_trans.
Qed.

(** ** Every outbound transaction is accounted for *)

Lemma judged_same t i v s s' :
  same_saga s s' → wallets (ses_db s') = wallets (ses_db s) →
  judged t i (ses_db s) v → judged t i (ses_db s') v.
Proof.
  intros [Hr Hl] Hw.
  assert (∀ r, reservations r (ses_db s') = reservations r (ses_db s)) as Hres
    by (intros r; unfold reservations; by rewrite Hl).
  assert (∀ iid, taken t iid (ses_db s) → taken t iid (ses_db s')) as Ht
    by (intros iid (r & tx & ? & ? & ? & ? & ?); exists r, tx; by rewrite Hr, Hres).
  assert (∀ iid, waits t iid (ses_db s) → waits t iid (ses_db s')) as Hwt
    by (intros iid (r & ?); exists r; by rewrite Hr).
  assert (intent_frozen i (ses_db s) → intent_frozen i (ses_db s')) as Hf
    by (unfold intent_frozen, wallet_by_key; by rewrite Hw).
  intros []; [eapply JudgedTaken|eapply JudgedMismatch|eapply JudgedStuck|eapply JudgedUnfunded]; eauto.
Qed.

(** What the checks of a transaction that was accepted establish. *)
Lemma integrity_ok `{Env} i u receiver tid a :
  integrity_error i u receiver tid a = None →
  intent_status i = PaySucceeded ∧ intent_currency i = "XTR" ∧ intent_amount i = a
  ∧ intent_provider_payment_id i = Some tid ∧ ∃ x n, u = Some x ∧ user_telegram_id x = Some n
  ∧ ∀ raw m, receiver_user_id receiver = Some raw → json_int raw = Ok m → m = n.
Proof.
  unfold integrity_error. destruct (_ != PaySucceeded) eqn:H1; [done|].
  destruct ((_ != "XTR") || _) eqn:H2; [done|]. destruct (_ != Some tid) eqn:H3; [done|].
  apply orb_false_iff in H2 as [H2 H4]. rewrite !negb_false_iff, !bool_decide_eq_true in *.
  apply Z.eqb_eq in H4. destruct u as [x|]; cbn; [|done]. destruct (user_telegram_id x) as [n|] eqn:Hn; [|done].
  intros Hrest. split_and!; [done..|]. exists x, n. split_and!; [done..|]. intros raw m Hraw Hm.
  rewrite Hraw, Hm in Hrest. destruct (Z.eqb_spec m n); [done|done].
Qed.


(** Scanning is idempotent.  Once a transaction has been taken up, in
    whatever way, scanning a transaction with the same identifier again,
    whatever else it says, changes no wallet, ledger entry, hold, reversal,
    intent or event, whether the scan of it returns or raises; and when it
    returns an event, it is the same one. *)
Theorem rescan_changes_nothing `{HE : Env} t tr tr' s e s' r s'' :
  Serial HE → process_outbound_transaction t tr s = (Ok (Some e), s') → tx_id tr' = tx_id tr →
  process_outbound_transaction t tr' s' = (r, s'') →
  quiet s' s'' ∧ (∀ e', r = Ok (Some e') → e' = e).
Proof.
  intros HS Hr Hid Hr'.
  assert (select (is_outbound t (tx_id tr)) (recon_events (ses_db s')) = [e]) as Hone.
  { destruct (select (is_outbound t (tx_id tr)) (recon_events (ses_db s))) as [|x l] eqn:Hsel.
    - apply process_new in Hr as (? & ? & ? & ? & _ & _ & _ & Hrec); [apply Hrec|done].
    - apply process_again in Hr as [(_ & _ & _ & _ & -> & _) He]; [by apply He|by rewrite Hsel]. }
  rewrite <- Hid in Hone. apply process_again in Hr' as [Hq He]; [|by rewrite Hone].
  split; [done|]. intros e' Hres. apply He in Hres. congruence.
Qed.

(** [C14] The Stars scanner implements the saga too.  Take any history in which
    passes of the scanner, over whatever Telegram reports at that moment, are
    interleaved with reversal requests, passes of the reversal worker,
    operators' decisions and payments.  Every saga moves by legal steps only,
    and afterwards a reversal whose saga holds funds has exactly one
    reservation entry, a debit of its amount from its wallet: a refund that
    both the worker and the scanner see is taken from the wallet once. *)
Theorem scanner_refines_saga `{HE : Env} history s :
  Serial HE → persisted s → saga_inv (ses_db s) →
  (∀ k, rtc saga_step (saga_of (ses_db s) k) (saga_of (ses_db (run_stars history s)) k))
  ∧ ∀ r, r ∈ reversals (ses_db (run_stars history s)) → held_exactly (ses_db (run_stars history s)) r.
Proof.
  intros HS Hp Hi. destruct (run_stars_moves history s Hp Hi) as [_ [Hi' Hk]]. split; [done|].
  intros r. apply (si_exact _ Hi').
Qed.

(** ** A shop with Telegram Stars *)

Definition stars_uuid (n : nat) : UUID :=
  mk_uuid ("00000000-0000-4000-8000-" +:+ of_chars (to_hex 12 (Z.of_nat n))).

(** The environment of the examples, with UUIDs in their canonical form. *)
Definition stars_env : Env := {|
  env_clock n := Z.of_nat n;
  env_uuid4 := stars_uuid;
  env_race d := d;
  env_sha256 s := "#" +:+ s;
  env_decimal_str x := pretty (x / one);
  env_exn_str _ := "error";
  env_json_str := dumps;
  env_isoformat n := pretty n;
|}.

Global Instance stars_env_serial : Serial stars_env.
Proof. done. Qed.

(** A Bot API that makes invoices, confirms refunds and has a history. *)
Definition demo_api (history : list dict) : BotApi := λ _ url payload,
  if url == "https://api.telegram.org/bot1:token/getStarTransactions" then
    match dict_get "offset" payload with
    | Some (JInt o) => Answered (page_document (take 100 (drop (Z.to_nat o) history)))
    | _ => InvalidResponse
    end
  else if url == "https://api.telegram.org/bot1:token/createInvoiceLink" then
    Answered (JObj [("ok", JBool true); ("result", JStr "https://t.me/invoice")])
  else Answered (JObj [("ok", JBool true); ("result", JBool true)]).

Definition stars_world (history : list dict) : Gateways := {|
  gw_overrides _ _ := None;
  gw_cached _ _ := None;
  gw_factories name :=
    if name == "telegram_stars"
    then Some (@_create_telegram_stars_provider stars_env (demo_api history)) else None;
  gw_secret _ := Some "1:token";
|}.

Definition stars_db : DB :=
  empty_db <| users := [MkUser (mk_uuid "u") (Some 77)] |>
           <| provider_configs := [MkPaymentProviderConfig (mk_uuid "cfg") (mk_uuid "t") "telegram_stars"
                                     true "ref" None [("topup_currencies", JList [JStr "XTR"])]] |>.

Definition stars_session : Session := MkSession stars_db stars_db 0 [].

Definition stars_invoice (n : nat) : string := stars_prefix +:+ uuid_str (stars_uuid n).

(** Fifty Stars are bought and paid. *)
Definition stars_topup_demo : list (Gateways * stars_op) :=
  [ (stars_world [],
     OpOther (OpPayment (ReqTopup (MkTopupRequest (mk_uuid "t") (mk_uuid "u") (50 * one) "XTR"
                                     "telegram_stars" "k" [] None None []))));
    (stars_world [],
     OpOther (OpPayment (ReqStars (mk_uuid "t") (mk_uuid "u") (stars_invoice 0) "charge-1" (50 * one) "XTR"))) ].

Definition outbound_demo (user amount : Z) : dict :=
  [ ("id", JStr "charge-1"); ("amount", JInt amount); ("date", JInt 1700000000);
    ("receiver", JObj [ ("type", JStr "user"); ("transaction_type", JStr "invoice_payment");
                        ("user", JObj [("id", JInt user)]);
                        ("invoice_payload", JStr (stars_invoice 0)) ]) ].

Definition paid_stars : Session := @run_stars stars_env stars_topup_demo stars_session.

Lemma stars_db_saga : saga_inv stars_db.
Proof. split; try apply NoDup_nil_2; intros x Hx; by apply elem_of_nil in Hx. Qed.

Lemma paid_stars_saga : saga_inv (ses_db paid_stars).
Proof. apply (run_stars_moves stars_topup_demo stars_session eq_refl stars_db_saga). Qed.

Definition scanned_demo (tr : dict) : outcome exn (option PaymentReconciliationEvent) * Session :=
  @process_outbound_transaction stars_env (mk_uuid "t") tr paid_stars.

Definition event_of (r : outcome exn (option PaymentReconciliationEvent)) : PaymentReconciliationEvent :=
  match r with
  | Ok (Some e) => e
  | _ => MkPaymentReconciliationEvent (mk_uuid "") (mk_uuid "") "" "" "" None EvIgnored 0 "" None "" false []
  end.


(** Scanned again, with another amount: nothing changes. *)
Lemma rescan_changes_nothing_witness :
  let first := scanned_demo (outbound_demo 77 50) in
  let second := @process_outbound_transaction stars_env (mk_uuid "t") (outbound_demo 77 12) first.2 in
  second.1 = first.1 ∧ quiet first.2 second.2.
Proof.
  cbv zeta. split; [vm_compute; reflexivity|].
  eapply (@rescan_changes_nothing stars_env (mk_uuid "t") (outbound_demo 77 50) (outbound_demo 77 12)
            paid_stars (event_of (scanned_demo (outbound_demo 77 50)).1)
            (scanned_demo (outbound_demo 77 50)).2 (scanned_demo (outbound_demo 77 50)).1
            (process_outbound_transaction (mk_uuid "t") (outbound_demo 77 12)
               (scanned_demo (outbound_demo 77 50)).2).2 stars_env_serial);
    vm_compute; reflexivity.
Defined.

(** The top-up is paid, refunded at Telegram, and scanned twice; the second
    window has a transaction more. *)
Definition stars_history : list (Gateways * stars_op) :=
  stars_topup_demo ++
  [ (stars_world [outbound_demo 77 50], OpStarsPoll);
    (stars_world [[("id", JStr "other")]; outbound_demo 77 50], OpStarsPoll) ].

Lemma scanner_refines_saga_witness :
  let final := @run_stars stars_env stars_history stars_session in
  map rev_status (reversals (ses_db final)) = [RevCompleted]
  ∧ map tx_transaction_type (ledger (ses_db final)) = [CREDIT; DEBIT]
  ∧ rtc saga_step Idle (saga_of (ses_db final) (mk_uuid "t", stars_uuid 0))
  ∧ ∀ r, r ∈ reversals (ses_db final) → held_exactly (ses_db final) r.
Proof.
  cbv zeta. split; [vm_compute; reflexivity|]. split; [vm_compute; reflexivity|].
  destruct (@scanner_refines_saga stars_env stars_history stars_session stars_env_serial eq_refl
              stars_db_saga) as [Hk Hr].
  split; [exact (Hk (mk_uuid "t", stars_uuid 0))|exact Hr].
Defined.

(** The adapter lists two pages of a history of 250. *)
Lemma listing_is_window_witness :
  let history := map (λ n, [("id", JInt (Z.of_nat n))]) (seq 0 250) in
  let g := MkStars [("transaction_scan_pages", JInt 2)] "https://api.telegram.org" "1:token" 2 in
  @list_recent_star_transactions stars_env (demo_api history) g [] = Ok (take 200 history).
Proof.
  cbv zeta. refine (proj1 (@listing_is_window stars_env (demo_api _) [("transaction_scan_pages", JInt 2)]
                             "1:token" _ _ [] eq_refl _)).
  intros sent offset. unfold bot_api, demo_api. rewrite bool_decide_eq_true_2 by reflexivity.
  change (dict_get "offset" _) with (Some (JInt (Z.of_nat offset))). cbv iota. by rewrite Nat2Z.id.
Defined.

(** One transaction whose amount cannot be read makes the scan of its tenant
    raise, and the pass rolls everything back: a refund next to it in the
    window is not taken from the wallet, now and as long as the transaction
    is in the window. *)
Example unreadable_amount_blocks_scan :
  let bad := [ ("id", JStr "charge-0"); ("amount", JStr "n/a");
               ("receiver", JObj [("type", JStr "user"); ("transaction_type", JStr "invoice_payment")]) ] in
  let pass window := @Stars.poll_once stars_env (stars_world window) paid_stars in
  let balances r := map wallet_balance (wallets (ses_db r)) in
  ((pass [outbound_demo 77 50]).1, balances (pass [outbound_demo 77 50]).2) = (Ok 1%nat, [0])
  ∧ ((pass [outbound_demo 77 50; bad]).1, balances (pass [outbound_demo 77 50; bad]).2)
    = (Ok 0%nat, [50 * one]).
Proof. vm_compute. split; reflexivity. Qed.

(** A reversal that waits for an operator, and whose case was closed: the
    event of the refund Telegram then reports needs review, and is attached to
    the closed case; no case is open. *)
Definition closed_case_session : Session :=
  let r := MkWalletTopUpReversal (mk_uuid "r") (mk_uuid "t") (stars_uuid 0) (mk_uuid "u")
             (match wallets (ses_db paid_stars) with w :: _ => wallet_id w | [] => mk_uuid "" end)
             "telegram_stars" "charge-1" None (50 * one) "XTR" "rk" RevManualReview 3 None None None
             (Some "PaymentError") None [] 0 in
  let c := MkFinancialResolutionCase (mk_uuid "c") (mk_uuid "t") (_source_key_for_reversal (mk_uuid "r"))
             "PaymentError" "CRITICAL" FrcResolved (Some (stars_uuid 0)) None (Some (mk_uuid "r")) None None 2
             (Some "WALLET_REMAINS_FROZEN") None None None [] in
  paid_stars <| ses_db ::= (λ d, d <| reversals := [r] |> <| resolution_cases := [c] |>) |>.

Example review_joins_closed_case :
  let run := @process_outbound_transaction stars_env (mk_uuid "t") (outbound_demo 77 50) closed_case_session in
  ev_requires_review (event_of run.1) = true
  ∧ map (λ c, (frc_status c, frc_reconciliation_event_id c)) (resolution_cases (ses_db run.2))
    = [(FrcResolved, Some (ev_id (event_of run.1)))].
Proof. vm_compute. split; reflexivity. Qed.
