(* ===== verification/Evidence.v ===== *)
(** * Payment methods and payment evidence

    [packages/payments/platform.py], class [PaymentPlatformService]: the
    tenant's payment methods, top-ups that are paid outside of any gateway,
    quotes, and the evidence customers submit for them.  Evidence is only an
    observation; a wallet is credited when a trusted verifier or a privileged
    person has made it VERIFIED.  [packages/payments/onchain_reconciliation.py]
    is the worker that asks the verifiers. *)

From Stdlib Require Import ZArith Lia Ascii String.
From stdpp Require Import base tactics list option strings numbers pretty.
From S2P Require Import Prelude Tables Text Money Exceptions StateMachines Models Ledger.
From S2P Require Import Payments TopUps Reversals.

Local Open Scope Z_scope.

(** ** Verifiers *)

(** [OnChainVerificationResult]; the amount is in units of 10^-36, the finest
    a token has, and [oc_observed_aware] says whether the time carries a zone. *)
Record OnChainVerificationResult := MkOnChainVerificationResult {
  oc_network : string;
  oc_tx_hash : string;
  oc_asset : string;
  oc_destination_address : string;
  oc_asset_amount : Z;
  oc_confirmations : Z;
  oc_is_final : bool;
  oc_succeeded : bool;
  oc_observed_at : option Z;
  oc_observed_aware : bool;
}.

(** An [OnChainVerifier]: its name and what it says about a transaction, given
    what was asked before ([n] draws of the environment) and the expected asset
    and destination. *)
Record OnChainVerifier := MkOnChainVerifier {
  verifier_name : string;
  verify_transaction : nat → string → string → option string → option string →
    outcome exn OnChainVerificationResult;
}.

(** The verifiers the application registered, under normalised names. *)
Class OnChainRegistry := registered : list (string * OnChainVerifier).

(** [OnChainVerifierRegistry.register]: a [dict] entry. *)
Fixpoint register (network : string) (v : OnChainVerifier) (l : list (string * OnChainVerifier))
    : list (string * OnChainVerifier) :=
  match l with
  | [] => [(upper (strip network), v)]
  | (n, v') :: l =>
      if n == upper (strip network) then (n, v) :: l else (n, v') :: register network v l
  end.

Definition has_verifier `{OnChainRegistry} (network : string) : bool :=
  existsb (λ nv, nv.1 == upper (strip network)) registered.

Definition get_verifier `{OnChainRegistry} (network : string) : outcome exn OnChainVerifier :=
  match first (λ nv, nv.1 == upper (strip network)) registered with
  | Some nv => Ok nv.2
  | None => Raise PaymentError
  end.

Definition registered_networks `{OnChainRegistry} : list string :=
  sort_by String.leb (map fst registered).

(** ** Texts *)

(** [(value or "").strip() or None] *)
Definition clean (v : option string) : option string :=
  let s := strip (default "" v) in if s == "" then None else Some s.

Definition code_char (c : ascii) : bool := is_lower c || is_digit c.

(** [^[a-z0-9][a-z0-9_-]{1,63}$] *)
Definition is_method_code (s : string) : bool :=
  match chars s with
  | c :: l =>
      code_char c && forallb (λ c, code_char c || (c == "_"%char) || (c == "-"%char)) l
      && (1 <=? length l)%nat && (length l <=? 63)%nat
  | [] => false
  end.

Definition _normalize_code (code : string) : outcome exn string :=
  let normalized := lower (strip code) in
  if is_method_code normalized then Ok normalized else Raise PaymentError.

(** Letters in capitals, digits and the characters of [extra]. *)
Definition identifier_of (n : nat) (extra : string) (v : option string) : outcome exn (option string) :=
  let s := upper (strip (default "" v)) in
  if s == "" then Ok None
  else if (n <? String.length s)%nat
          || negb (forallb (λ c, is_upper c || is_digit c || existsb (λ x, x == c) (chars extra)) (chars s))
  then Raise PaymentError else Ok (Some s).

Definition _normalize_asset : option string → outcome exn (option string) := identifier_of 24 "._-".

Definition _normalize_network : option string → outcome exn (option string) := identifier_of 64 "._:-".

Definition is_hash (l : list ascii) : bool := (length l =? 64)%nat && forallb (λ c, is_some (hex_digit c)) l.

Definition _normalize_onchain_reference (reference : string) : string :=
  let normalized := strip reference in
  match chars normalized with
  | "0"%char :: "x"%char :: l => if is_hash l then lower normalized else normalized
  | l => if is_hash l then lower normalized else normalized
  end.

(** [_SECRET_KEY_RE.search] *)
Definition credential_like (key : string) : bool :=
  existsb (λ word, occurs word (lower key))
    ["secret"; "password"; "privatekey"; "private_key"; "private-key"; "apikey"; "api_key"; "api-key";
     "token"; "seed"; "mnemonic"].

Fixpoint public_json (v : json) : bool :=
  match v with
  | JObj o => forallb (λ kv, negb (credential_like kv.1) && public_json kv.2) o
  | JList l => forallb public_json l
  | _ => true
  end.

Definition _assert_public_settings (settings : option dict) : outcome exn dict :=
  let result := default [] settings in
  if public_json (JObj result) then Ok result else Raise PaymentIntegrityError.

Definition method_type_value (t : PaymentMethodType) : string :=
  match t with
  | MtRegulatedProvider => "REGULATED_PROVIDER"
  | MtCryptoGateway => "CRYPTO_GATEWAY"
  | MtSelfCustody => "SELF_CUSTODY"
  | MtManualTransfer => "MANUAL_TRANSFER"
  | MtExchangeTransfer => "EXCHANGE_TRANSFER"
  end.

Definition verification_mode_value (m : PaymentVerificationMode) : string :=
  match m with
  | VmProviderReconciliation => "PROVIDER_RECONCILIATION"
  | VmOnchain => "ONCHAIN"
  | VmManual => "MANUAL"
  | VmHybrid => "HYBRID"
  end.

Definition observation_source_value (s : PaymentObservationSource) : string :=
  match s with
  | SrcProvider => "PROVIDER"
  | SrcOnchain => "ONCHAIN"
  | SrcManual => "MANUAL"
  | SrcExchange => "EXCHANGE"
  end.

(** ** Payment methods *)

Definition provider_backed (t : PaymentMethodType) : bool :=
  (t == MtRegulatedProvider) || (t == MtCryptoGateway).

Definition onchain_mode (m : PaymentVerificationMode) : bool := (m == VmOnchain) || (m == VmHybrid).

Definition manual_mode (m : PaymentVerificationMode) : bool := (m == VmManual) || (m == VmHybrid).

Definition _validate_method_shape (method_type : PaymentMethodType)
    (verification_mode : PaymentVerificationMode)
    (provider_name asset network destination_address : option string) (requires_admin_approval : bool)
    : outcome exn unit :=
  let provider := clean provider_name in
  let destination := clean destination_address in
  if provider_backed method_type
     && (negb (is_some provider)
         || negb ((verification_mode == VmProviderReconciliation) || (verification_mode == VmHybrid)))
  then Raise PaymentError
  else if onchain_mode verification_mode
          && (negb (truthy asset) || negb (truthy network) || negb (is_some destination))
  then Raise PaymentError
  else if (method_type == MtSelfCustody) && negb (onchain_mode verification_mode)
  then Raise PaymentError
  else if ((method_type == MtManualTransfer) || (method_type == MtExchangeTransfer))
          && (negb (manual_mode verification_mode) || negb requires_admin_approval)
  then Raise PaymentError
  else Ok tt.

Definition credit_target (t : string) : outcome exn string :=
  if (t == "ASSET_WALLET") || (t == "SETTLEMENT_WALLET") then Ok t else Raise PaymentError.

Definition method_name (display_name : string) : outcome exn string :=
  let name := strip display_name in
  if (name == "") || (120 <? String.length name)%nat then Raise PaymentError else Ok name.

(** The arguments of [create_method]. *)
Record MethodRequest := MkMethodRequest {
  mr_tenant_id : UUID;
  mr_code : string;
  mr_display_name : string;
  mr_method_type : PaymentMethodType;
  mr_verification_mode : PaymentVerificationMode;
  mr_provider_name : option string;
  mr_asset : option string;
  mr_network : option string;
  mr_destination_address : option string;
  mr_destination_memo : option string;
  mr_instructions : option string;
  mr_is_enabled : bool;
  mr_requires_admin_approval : bool;
  mr_auto_credit_enabled : bool;
  mr_auto_credit_target : string;
  mr_settings : option dict;
}.

(** The arguments of [update_method]; [None] leaves the attribute alone. *)
Record MethodUpdate := MkMethodUpdate {
  mu_display_name : option string;
  mu_provider_name : option string;
  mu_asset : option string;
  mu_network : option string;
  mu_destination_address : option string;
  mu_destination_memo : option string;
  mu_instructions : option string;
  mu_requires_admin_approval : option bool;
  mu_auto_credit_enabled : option bool;
  mu_auto_credit_target : option string;
  mu_settings : option dict;
}.

(** The primary key and [uq_payment_method_tenant_code]. *)
Definition method_conflict (a b : PaymentMethodConfig) : bool :=
  (pmc_id a == pmc_id b) || ((pmc_tenant_id a == pmc_tenant_id b) && (pmc_code a == pmc_code b)).

Section methods.
  Context `{Env}.

(** The columns of a method that the database can refuse. *)
Definition method_columns (m : PaymentMethodConfig) : M unit :=
  to_varchar 64 (pmc_code m);;
  to_varchar 120 (pmc_display_name m);;
  to_varchar_opt 50 (pmc_provider_name m);;
  to_varchar_opt 24 (pmc_asset m);;
  to_varchar_opt 64 (pmc_network m);;
  to_varchar_opt 255 (pmc_destination_address m);;
  to_varchar_opt 255 (pmc_destination_memo m);;
  to_varchar_opt 2000 (pmc_instructions m);;
  to_varchar 32 (pmc_auto_credit_target m);;
  mret tt.

Definition insert_method (f : UUID → PaymentMethodConfig) : M PaymentMethodConfig :=
  u ← uuid4;
  let m := f u in
  method_columns m;;
  clash ← query (λ d, existsb (method_conflict m) (payment_methods d));
  raise_if clash IntegrityError;;
  write (λ d, d <| payment_methods ::= (λ t, t ++ [m]) |>);;
  mret m.

Definition create_method (r : MethodRequest) : M PaymentMethodConfig :=
  code ← of_outcome (_normalize_code (mr_code r));
  asset ← of_outcome (_normalize_asset (mr_asset r));
  network ← of_outcome (_normalize_network (mr_network r));
  let provider := lower <$> clean (mr_provider_name r) in
  let destination := clean (mr_destination_address r) in
  settings ← of_outcome (_assert_public_settings (mr_settings r));
  of_outcome (_validate_method_shape (mr_method_type r) (mr_verification_mode r) provider asset network
                destination (mr_requires_admin_approval r));;
  target ← of_outcome (credit_target (upper (strip
             (if mr_auto_credit_target r == "" then "ASSET_WALLET" else mr_auto_credit_target r))));
  name ← of_outcome (method_name (mr_display_name r));
  await_others;;
  except_integrity
    (begin_nested (insert_method (λ u,
       MkPaymentMethodConfig u (mr_tenant_id r) code name (mr_method_type r) (mr_verification_mode r)
         provider asset network destination (clean (mr_destination_memo r)) (clean (mr_instructions r))
         (mr_is_enabled r) (mr_requires_admin_approval r) (mr_auto_credit_enabled r) target settings)))
    (mthrow PaymentIntegrityError).

Definition get_method (tenant_id method_id : UUID) (enabled_only : bool) : M PaymentMethodConfig :=
  rows ← query (λ d, select (λ m, (pmc_id m == method_id) && (pmc_tenant_id m == tenant_id)
                                  && (negb enabled_only || pmc_is_enabled m)) (payment_methods d));
  found ← one_or_none rows;
  of_option PaymentError found.

(** [ORDER BY display_name, id] *)
Definition method_leb (a b : PaymentMethodConfig) : bool :=
  match String.compare (pmc_display_name a) (pmc_display_name b) with
  | Lt => true
  | Gt => false
  | Eq => uuid_leb (pmc_id a) (pmc_id b)
  end.

Definition list_methods (tenant_id : UUID) (enabled_only : bool) : M (list PaymentMethodConfig) :=
  query (λ d, sort_by method_leb (select (λ m, (pmc_tenant_id m == tenant_id)
                                               && (negb enabled_only || pmc_is_enabled m))
                                    (payment_methods d))).

Definition update_pmc (i : UUID) (f : PaymentMethodConfig → PaymentMethodConfig) : M unit :=
  write (λ d, d <| payment_methods ::= update_row i f |>).

(** The flush at the end: the row as it is now, if its columns take it. *)
Definition flush_method (m : PaymentMethodConfig) : M PaymentMethodConfig :=
  row ← query (λ d, default m (get_row (pmc_id m) (payment_methods d)));
  method_columns row;;
  mret row.

(** [if value is not None: method.attribute = ...] *)
Definition assign {A} (i : UUID) (v : option A) (f : A → PaymentMethodConfig → PaymentMethodConfig)
    : M unit :=
  match v with Some x => update_pmc i (f x) | None => mret tt end.

Definition update_method (tenant_id method_id : UUID) (u : MethodUpdate) : M PaymentMethodConfig :=
  m ← get_method tenant_id method_id false;
  let or_old {A} (new old : option A) := match new with Some _ => new | None => old end in
  asset ← of_outcome (_normalize_asset (or_old (mu_asset u) (pmc_asset m)));
  network ← of_outcome (_normalize_network (or_old (mu_network u) (pmc_network m)));
  of_outcome (_validate_method_shape (pmc_method_type m) (pmc_verification_mode m)
                (or_old (mu_provider_name u) (pmc_provider_name m)) asset network
                (or_old (mu_destination_address u) (pmc_destination_address m))
                (default (pmc_requires_admin_approval m) (mu_requires_admin_approval u)));;
  match mu_display_name u with
  | Some n => name ← of_outcome (method_name n); update_pmc method_id (λ m, m <| pmc_display_name := name |>)
  | None => mret tt
  end;;
  assign method_id (mu_provider_name u) (λ p m, m <| pmc_provider_name := lower <$> clean (Some p) |>);;
  assign method_id (mu_asset u) (λ _ m, m <| pmc_asset := asset |>);;
  assign method_id (mu_network u) (λ _ m, m <| pmc_network := network |>);;
  assign method_id (mu_destination_address u) (λ a m, m <| pmc_destination_address := clean (Some a) |>);;
  assign method_id (mu_destination_memo u) (λ a m, m <| pmc_destination_memo := clean (Some a) |>);;
  assign method_id (mu_instructions u) (λ a m, m <| pmc_instructions := clean (Some a) |>);;
  assign method_id (mu_requires_admin_approval u) (λ b m, m <| pmc_requires_admin_approval := b |>);;
  assign method_id (mu_auto_credit_enabled u) (λ b m, m <| pmc_auto_credit_enabled := b |>);;
  match mu_auto_credit_target u with
  | Some t => target ← of_outcome (credit_target (upper (strip t)));
              update_pmc method_id (λ m, m <| pmc_auto_credit_target := target |>)
  | None => mret tt
  end;;
  match mu_settings u with
  | Some s => settings ← of_outcome (_assert_public_settings (Some s));
              update_pmc method_id (λ m, m <| pmc_settings_json := settings |>)
  | None => mret tt
  end;;
  flush_method m.

Definition set_method_enabled (tenant_id method_id : UUID) (is_enabled : bool) : M PaymentMethodConfig :=
  m ← get_method tenant_id method_id false;
  update_pmc method_id (λ m, m <| pmc_is_enabled := is_enabled |>);;
  flush_method m.

End methods.

(** ** Top-ups *)

Definition _normalize_topup_amount (amount : dec) (currency : string) : outcome exn (dec * string) :=
  match topup_currency currency with
  | Raise e => Raise e
  | Ok c => match topup_amount amount with Ok a => Ok (a, c) | Raise e => Raise e end
  end.

Section topups.
  Context `{Env} `{Gateways}.

(** [Decimal(str(settings.get(k, default_value)))] *)
Definition limit_of (k default_value : string) (settings : dict) : outcome exn decimal_literal :=
  match decimal_of_str (json_text (default (JStr default_value) (dict_get k settings))) with
  | Some l => Ok l
  | None => Raise PaymentIntegrityError
  end.

Definition method_limits (settings : dict) : outcome exn (decimal_literal * decimal_literal) :=
  match limit_of "topup_min_amount" "1.00" settings, limit_of "topup_max_amount" "1000.00" settings with
  | Raise e, _ | Ok _, Raise e => Raise e
  | Ok min_amount, Ok max_amount =>
      match literal_ltb (DecFinite 0 0) min_amount with
      | Raise e => Raise e
      | Ok false => Raise PaymentIntegrityError
      | Ok true =>
          match literal_ltb max_amount min_amount with
          | Raise e => Raise e
          | Ok true => Raise PaymentIntegrityError
          | Ok false => Ok (min_amount, max_amount)
          end
      end
  end.

Definition method_currencies (settings : dict) : outcome exn (list string) :=
  match json_items (default (JList [JStr "USD"]) (dict_get "topup_currencies" settings)) with
  | Raise e => Raise e
  | Ok l => Ok (map upper (select (λ s, s != "") (map (λ v, strip (json_text v)) l)))
  end.

Definition _validate_topup_policy (method : PaymentMethodConfig) (amount : dec) (currency : string)
    : outcome exn unit :=
  match method_limits (pmc_settings_json method) with
  | Raise e => Raise e
  | Ok (min_amount, max_amount) =>
      match method_currencies (pmc_settings_json method) with
      | Raise e => Raise e
      | Ok currencies =>
          if negb (existsb (λ c, c == currency) currencies) then Raise PaymentError
          else
            match literal_ltb (literal_of amount) min_amount, literal_ltb max_amount (literal_of amount) with
            | Raise e, _ => Raise e
            | Ok true, _ => Raise PaymentError
            | Ok false, Raise e => Raise e
            | Ok false, Ok over => if (over : bool) then Raise PaymentError else Ok tt
            end
      end
  end.

(** The request an idempotency key is bound to. *)
Definition same_local_topup (user_id method_id : UUID) (amount : dec) (currency : string)
    (i : PaymentIntent) : bool :=
  (intent_purpose i == WALLET_TOPUP) && (intent_user_id i == user_id)
  && (intent_payment_method_id i == Some method_id) && (intent_amount i =? amount)
  && (intent_currency i == currency).

Definition instruction_snapshot (m : PaymentMethodConfig) : dict :=
  [ ("method_code", JStr (pmc_code m)); ("display_name", JStr (pmc_display_name m));
    ("method_type", JStr (method_type_value (pmc_method_type m)));
    ("verification_mode", JStr (verification_mode_value (pmc_verification_mode m)));
    ("asset", json_of_text (pmc_asset m)); ("network", json_of_text (pmc_network m));
    ("destination_address", json_of_text (pmc_destination_address m));
    ("destination_memo", json_of_text (pmc_destination_memo m));
    ("instructions", json_of_text (pmc_instructions m)) ].

Definition create_local_topup_intent (tenant_id user_id method_id : UUID) (amount : dec)
    (currency idempotency_key : string) : M PaymentIntent :=
  raise_if ((idempotency_key == "") || (100 <? String.length idempotency_key)%nat) PaymentError;;
  method ← get_method tenant_id method_id true;
  raise_if (provider_backed (pmc_method_type method)) PaymentError;;
  normalized ← of_outcome (_normalize_topup_amount amount currency);
  let '(amount, currency) := normalized in
  of_outcome (_validate_topup_policy method amount currency);;
  rows ← query (intents_by_key tenant_id idempotency_key);
  existing ← one_or_none rows;
  match existing with
  | Some i =>
      raise_if (negb (same_local_topup user_id (pmc_id method) amount currency i)) PaymentIntegrityError;;
      mret i
  | None =>
      await_others;;
      except_integrity
        (begin_nested (insert_intent (λ u,
           MkPaymentIntent u tenant_id None WALLET_TOPUP user_id (Some (pmc_id method))
             ("method:" +:+ pmc_code method) None None currency amount PayPending idempotency_key
             [("payment_instruction", JObj (instruction_snapshot method))])))
        (rows ← query (intents_by_key tenant_id idempotency_key);
         again ← one_or_none rows;
         match again with
         | Some i => if same_local_topup user_id (pmc_id method) amount currency i then mret i
                     else mthrow PaymentIntegrityError
         | None => mthrow PaymentIntegrityError
         end)
  end.

Definition create_topup_intent (tenant_id user_id method_id : UUID) (amount : dec)
    (currency idempotency_key : string) (provider_context : list (string * string)) : M PaymentIntent :=
  method ← get_method tenant_id method_id true;
  normalized ← of_outcome (_normalize_topup_amount amount currency);
  let '(amount, currency) := normalized in
  of_outcome (_validate_topup_policy method amount currency);;
  if negb (provider_backed (pmc_method_type method))
  then create_local_topup_intent tenant_id user_id (pmc_id method) amount currency idempotency_key
  else
    let provider_name := lower (strip (default "" (pmc_provider_name method))) in
    raise_if (provider_name == "") PaymentIntegrityError;;
    let pay_currency := lower (strip (policy_text "provider_pay_currency" "" (pmc_settings_json method))) in
    create_wallet_topup_intent (MkTopupRequest tenant_id user_id amount currency provider_name idempotency_key
      ([("source", JStr "payment_method"); ("payment_method_code", JStr (pmc_code method))]
       ++ (if pay_currency == "" then [] else [("provider_pay_currency", JStr pay_currency)]))
      None (Some (pmc_id method)) provider_context).

End topups.

(** ** Quotes *)

(** The arguments of [record_quote]; [qr_expires_aware] says whether the time
    carries a zone. *)
Record QuoteRequest := MkQuoteRequest {
  qr_tenant_id : UUID;
  qr_intent_id : UUID;
  qr_settlement_amount : dec;
  qr_settlement_currency : string;
  qr_asset_amount : dec;
  qr_asset : string;
  qr_network : string;
  qr_rate : dec;
  qr_rate_source : string;
  qr_expires_at : Z;
  qr_expires_aware : bool;
  qr_quote_reference : option string;
  qr_metadata : option dict;
}.

(** The primary key and [uq_payment_quote_tenant_fingerprint]. *)
Definition quote_conflict (a b : PaymentQuote) : bool :=
  (pq_id a == pq_id b)
  || ((pq_tenant_id a == pq_tenant_id b) && (pq_quote_fingerprint a == pq_quote_fingerprint b)).

Section quotes.
  Context `{Env}.

(** The document, with its keys sorted. *)
Definition _quote_fingerprint (tenant_id intent_id method_id : UUID) (settlement_amount : dec)
    (settlement_currency : string) (asset_amount : dec) (asset network : string) (rate : dec)
    (rate_source : string) (quote_reference : option string) (expires_at : Z) : string :=
  env_sha256 (dumps (JObj
    [ ("asset", JStr asset); ("asset_amount", JStr (env_decimal_str asset_amount));
      ("expires_at", JStr (env_isoformat expires_at)); ("intent_id", JStr (uuid_str intent_id));
      ("method_id", JStr (uuid_str method_id)); ("network", JStr network);
      ("quote_reference", json_of_text quote_reference); ("rate", JStr (env_decimal_str rate));
      ("rate_source", JStr rate_source); ("settlement_amount", JStr (env_decimal_str settlement_amount));
      ("settlement_currency", JStr settlement_currency); ("tenant_id", JStr (uuid_str tenant_id)) ])).

Definition insert_payment_quote (f : UUID → Z → PaymentQuote) : M PaymentQuote :=
  created_at ← now;
  u ← uuid4;
  let q := f u created_at in
  settlement ← to_numeric 18 6 (pq_settlement_amount q);
  to_varchar 12 (pq_settlement_currency q);;
  amount ← to_numeric 36 18 (pq_asset_amount q);
  to_varchar 24 (pq_asset q);;
  to_varchar 64 (pq_network q);;
  rate ← to_numeric 36 18 (pq_rate q);
  to_varchar 100 (pq_rate_source q);;
  to_varchar_opt 160 (pq_quote_reference q);;
  to_varchar 64 (pq_quote_fingerprint q);;
  let q := q <| pq_settlement_amount := settlement |> <| pq_asset_amount := amount |> <| pq_rate := rate |> in
  clash ← query (λ d, existsb (quote_conflict q) (payment_quotes d));
  raise_if clash IntegrityError;;
  write (λ d, d <| payment_quotes ::= (λ t, t ++ [q]) |>);;
  mret q.

Definition quotes_by_fingerprint (tenant_id : UUID) (fingerprint : string) (d : DB) : list PaymentQuote :=
  select (λ q, (pq_tenant_id q == tenant_id) && (pq_quote_fingerprint q == fingerprint)) (payment_quotes d).

Definition record_quote (r : QuoteRequest) : M PaymentQuote :=
  let tenant_id := qr_tenant_id r in
  intent ← get_payment_intent tenant_id (qr_intent_id r);
  mid ← of_option PaymentError (intent_payment_method_id intent);
  method ← get_method tenant_id mid false;
  let currency := upper (strip (qr_settlement_currency r)) in
  asset ← of_outcome (_normalize_asset (Some (qr_asset r)));
  network ← of_outcome (_normalize_network (Some (qr_network r)));
  raise_if (negb (qr_settlement_amount r =? intent_amount intent) || (currency != intent_currency intent))
    PaymentIntegrityError;;
  method_asset ← of_outcome (_normalize_asset (pmc_asset method));
  raise_if (asset != method_asset) PaymentIntegrityError;;
  method_network ← of_outcome (_normalize_network (pmc_network method));
  raise_if (network != method_network) PaymentIntegrityError;;
  raise_if ((qr_asset_amount r <=? 0) || (qr_rate r <=? 0)) PaymentError;;
  n ← now;
  raise_if (negb (qr_expires_aware r)) PaymentError;;
  raise_if (qr_expires_at r <=? n) PaymentError;;
  let source := strip (qr_rate_source r) in
  raise_if ((source == "") || (100 <? String.length source)%nat) PaymentError;;
  let reference := clean (qr_quote_reference r) in
  let fingerprint :=
    _quote_fingerprint tenant_id (intent_id intent) (pmc_id method) (qr_settlement_amount r) currency
      (qr_asset_amount r) (default "" asset) (default "" network) (qr_rate r) source reference
      (qr_expires_at r) in
  rows ← query (quotes_by_fingerprint tenant_id fingerprint);
  existing ← one_or_none rows;
  match existing with
  | Some q => mret q
  | None =>
      metadata ← of_outcome (_assert_public_settings (qr_metadata r));
      await_others;;
      except_integrity
        (begin_nested (insert_payment_quote (λ u created_at,
           MkPaymentQuote u tenant_id (intent_id intent) (pmc_id method) (qr_settlement_amount r) currency
             (qr_asset_amount r) (default "" asset) (default "" network) (qr_rate r) source reference
             fingerprint (qr_expires_at r) metadata created_at)))
        (rows ← query (quotes_by_fingerprint tenant_id fingerprint);
         again ← one_or_none rows;
         of_option IntegrityError again)
  end.

(** [ORDER BY created_at DESC, id DESC] *)
Definition quote_leb (a b : PaymentQuote) : bool :=
  then_by (λ q, - pq_created_at q) (λ a b, uuid_leb (pq_id b) (pq_id a)) a b.

Definition _latest_live_quote (tenant_id intent_id : UUID) : M (option PaymentQuote) :=
  n ← now;
  query (λ d, head (sort_by quote_leb
    (select (λ q, (pq_tenant_id q == tenant_id) && (pq_payment_intent_id q == intent_id)
                  && (n <=? pq_expires_at q)) (payment_quotes d)))).

End quotes.

(** ** Observations *)

(** The primary key, [uq_payment_observation_tenant_fingerprint] and
    [uq_payment_observation_chain_reference]. *)
Definition chain_reference (o : PaymentObservation) : option (string * string) :=
  match obs_source o, obs_network o, obs_external_reference o with
  | SrcOnchain, Some n, Some r => Some (n, r)
  | _, _, _ => None
  end.

Definition observation_conflict (a b : PaymentObservation) : bool :=
  (obs_id a == obs_id b)
  || ((obs_tenant_id a == obs_tenant_id b) && (obs_evidence_fingerprint a == obs_evidence_fingerprint b))
  || (is_some (chain_reference a) && (chain_reference a == chain_reference b)).

Section observations.
  Context `{Env}.

(** The document, with its keys sorted. *)
Definition _fingerprint (tenant_id intent_id method_id : UUID) (source : PaymentObservationSource)
    (external_reference asset network destination_address : option string) (asset_amount : option dec)
    : string :=
  env_sha256 (dumps (JObj
    [ ("asset", json_of_text asset);
      ("asset_amount", match asset_amount with Some a => JStr (env_decimal_str a) | None => JNull end);
      ("destination_address", JStr (strip (default "" destination_address)));
      ("external_reference", JStr (strip (default "" external_reference)));
      ("intent_id", JStr (uuid_str intent_id)); ("method_id", JStr (uuid_str method_id));
      ("network", json_of_text network); ("source", JStr (observation_source_value source));
      ("tenant_id", JStr (uuid_str tenant_id)) ])).

(** A nullable [Numeric(p, s)] column. *)
Definition to_numeric_opt (p s : Z) (v : option dec) : M (option dec) :=
  match v with Some x => a ← to_numeric p s x; mret (Some a) | None => mret None end.

(** The row as its columns store it. *)
Definition observation_columns (o : PaymentObservation) : M PaymentObservation :=
  to_varchar_opt 255 (obs_external_reference o);;
  to_varchar_opt 24 (obs_asset o);;
  to_varchar_opt 64 (obs_network o);;
  to_varchar_opt 255 (obs_destination_address o);;
  amount ← to_numeric_opt 36 18 (obs_asset_amount o);
  settlement ← to_numeric_opt 18 6 (obs_settlement_amount o);
  to_varchar_opt 12 (obs_settlement_currency o);;
  raise_if (2 ^ 31 <=? default 0 (obs_confirmations o)) DataError;;
  to_varchar 64 (obs_evidence_fingerprint o);;
  to_varchar_opt 500 (obs_rejection_reason o);;
  mret (o <| obs_asset_amount := amount |> <| obs_settlement_amount := settlement |>).

Definition insert_observation (f : UUID → Z → PaymentObservation) : M PaymentObservation :=
  created_at ← now;
  u ← uuid4;
  o ← observation_columns (f u created_at);
  clash ← query (λ d, existsb (observation_conflict o) (observations d));
  raise_if clash IntegrityError;;
  write (λ d, d <| observations ::= (λ t, t ++ [o]) |>);;
  mret o.

Definition observations_by_fingerprint (tenant_id : UUID) (fingerprint : string) (d : DB)
    : list PaymentObservation :=
  select (λ o, (obs_tenant_id o == tenant_id) && (obs_evidence_fingerprint o == fingerprint)) (observations d).

(** Whether the method takes evidence of that kind. *)
Definition accepts_source (mode : PaymentVerificationMode) (source : PaymentObservationSource)
    (external_reference : option string) : bool :=
  match source with
  | SrcOnchain => onchain_mode mode && (strip (default "" external_reference) != "")
  | SrcManual | SrcExchange => manual_mode mode
  | SrcProvider => false
  end.

Definition terminal_intent (st : PaymentIntentStatus) : bool :=
  (st == PayFailed) || (st == PayExpired) || (st == PayCancelled).

(** The arguments of [submit_observation]. *)
Record Submission := MkSubmission {
  sub_tenant : UUID;
  sub_user_id : UUID;
  sub_intent_id : UUID;
  sub_source : PaymentObservationSource;
  sub_external_reference : option string;
  sub_asset_amount : option dec;
  sub_details : option dict;
}.

Definition submitted_reference (r : Submission) : option string :=
  let ref := clean (sub_external_reference r) in
  if sub_source r == SrcOnchain then _normalize_onchain_reference <$> ref else ref.

Definition submit_observation (r : Submission) : M PaymentObservation :=
  let tenant_id := sub_tenant r in
  intent ← get_payment_intent tenant_id (sub_intent_id r);
  raise_if ((intent_user_id intent != sub_user_id r) || (intent_purpose intent != WALLET_TOPUP)) PaymentError;;
  mid ← of_option PaymentError (intent_payment_method_id intent);
  raise_if (terminal_intent (intent_status intent)) PaymentError;;
  method ← get_method tenant_id mid false;
  raise_if (negb (accepts_source (pmc_verification_mode method) (sub_source r) (sub_external_reference r)))
    PaymentError;;
  raise_if (match sub_asset_amount r with Some a => a <=? 0 | None => false end) PaymentError;;
  asset ← of_outcome (_normalize_asset (pmc_asset method));
  network ← of_outcome (_normalize_network (pmc_network method));
  let ref := submitted_reference r in
  let fingerprint := _fingerprint tenant_id (intent_id intent) (pmc_id method) (sub_source r) ref asset network
                       (pmc_destination_address method) (sub_asset_amount r) in
  rows ← query (observations_by_fingerprint tenant_id fingerprint);
  existing ← one_or_none rows;
  match existing with
  | Some o =>
      raise_if (obs_payment_intent_id o != intent_id intent) PaymentIntegrityError;;
      mret o
  | None =>
      quote ← (if sub_source r == SrcOnchain then _latest_live_quote tenant_id (intent_id intent) else mret None);
      let status := if sub_source r == SrcOnchain then ObsPendingVerification else ObsManualReview in
      observed_at ← now;
      details ← of_outcome (_assert_public_settings (sub_details r));
      await_others;;
      except_integrity
        (begin_nested (insert_observation (λ u created_at,
           MkPaymentObservation u tenant_id (intent_id intent) (pmc_id method) (pq_id <$> quote) (sub_source r)
             status None ref asset network (pmc_destination_address method) (sub_asset_amount r) None None
             None false fingerprint (Some observed_at) None None None details created_at)))
        (rows ← query (observations_by_fingerprint tenant_id fingerprint);
         again ← one_or_none rows;
         of_option PaymentIntegrityError again)
  end.

Definition get_observation (tenant_id observation_id : UUID) : M PaymentObservation :=
  rows ← query (λ d, select (λ o, (obs_id o == observation_id) && (obs_tenant_id o == tenant_id))
                       (observations d));
  found ← one_or_none rows;
  of_option PaymentError found.

Definition update_observation (i : UUID) (f : PaymentObservation → PaymentObservation) : M unit :=
  write (λ d, d <| observations ::= update_row i f |>).

Definition live_observation (o : PaymentObservation) : M PaymentObservation :=
  query (λ d, default o (get_row (obs_id o) (observations d))).

(** [session.flush()]: what the columns make of the row. *)
Definition flush_observation (o : PaymentObservation) : M PaymentObservation :=
  row ← live_observation o;
  stored ← observation_columns row;
  update_observation (obs_id o) (λ _, stored);;
  mret stored.

(** *** Decisions *)

Definition approve_manual_observation (tenant_id observation_id actor_user_id : UUID)
    (approved_amount : option dec) (approved_currency : option string) : M PaymentObservation :=
  o ← get_observation tenant_id observation_id;
  if obs_status o == ObsVerified then
    settle_payment_intent tenant_id (obs_payment_intent_id o) (obs_settlement_amount o)
      (obs_settlement_currency o);;
    mret o
  else
    raise_if (obs_status o == ObsRejected) PaymentIntegrityError;;
    raise_if (obs_source o == SrcProvider) PaymentIntegrityError;;
    intent ← get_payment_intent tenant_id (obs_payment_intent_id o);
    let amount := default (intent_amount intent) approved_amount in
    let currency := upper (strip (if truthy approved_currency then default "" approved_currency
                                  else intent_currency intent)) in
    raise_if (negb (amount =? intent_amount intent) || (currency != intent_currency intent))
      PaymentIntegrityError;;
    n ← now;
    update_observation observation_id (λ o,
      o <| obs_settlement_amount := Some (intent_amount intent) |>
        <| obs_settlement_currency := Some (intent_currency intent) |>
        <| obs_assurance_level := Some AlManualApproved |> <| obs_status := ObsVerified |>
        <| obs_is_final := true |> <| obs_verified_at := Some n |>
        <| obs_verified_by_user_id := Some actor_user_id |> <| obs_rejection_reason := None |>);;
    settle_payment_intent tenant_id (intent_id intent) (Some (intent_amount intent))
      (Some (intent_currency intent));;
    flush_observation o.

Definition reject_observation (tenant_id observation_id actor_user_id : UUID) (reason : string)
    : M PaymentObservation :=
  o ← get_observation tenant_id observation_id;
  raise_if (obs_status o == ObsVerified) PaymentIntegrityError;;
  if obs_status o == ObsRejected then mret o
  else
    let reason := strip reason in
    raise_if ((reason == "") || (500 <? String.length reason)%nat) PaymentError;;
    n ← now;
    update_observation observation_id (λ o,
      o <| obs_status := ObsRejected |> <| obs_rejection_reason := Some reason |>
        <| obs_verified_by_user_id := Some actor_user_id |> <| obs_verified_at := Some n |>
        <| obs_is_final := true |>);;
    flush_observation o.

End observations.

(** ** Verification on the chain *)

(** What the verifier must agree on with the method and the evidence. *)
Definition check_result (method : PaymentMethodConfig) (reference : string) (r : OnChainVerificationResult)
    : outcome exn (option string * option string) :=
  match _normalize_network (pmc_network method), _normalize_asset (pmc_asset method) with
  | Raise e, _ | Ok _, Raise e => Raise e
  | Ok expected_network, Ok expected_asset =>
      match _normalize_network (Some (oc_network r)) with
      | Raise e => Raise e
      | Ok network =>
          if network != expected_network then Raise PaymentIntegrityError
          else
            match _normalize_asset (Some (oc_asset r)) with
            | Raise e => Raise e
            | Ok asset =>
                if asset != expected_asset then Raise PaymentIntegrityError
                else if lower (strip (oc_tx_hash r)) != lower (strip reference) then Raise PaymentIntegrityError
                else if strip (default "" (pmc_destination_address method)) != strip (oc_destination_address r)
                then Raise PaymentIntegrityError
                else Ok (expected_network, expected_asset)
            end
      end
  end.

Section verification.
  Context `{Env} `{Gateways} `{OnChainRegistry}.

(** The quote does not price this payment. *)
Definition quote_mismatch (q : PaymentQuote) (intent : PaymentIntent) (method : PaymentMethodConfig)
    (expected_network expected_asset : option string) (r : OnChainVerificationResult) : outcome exn bool :=
  if (pq_payment_intent_id q != intent_id intent) || (pq_payment_method_id q != pmc_id method)
     || negb (pq_settlement_amount q =? intent_amount intent)
     || (pq_settlement_currency q != intent_currency intent)
  then Ok true
  else
    match _normalize_asset (Some (pq_asset q)) with
    | Raise e => Raise e
    | Ok asset =>
        if asset != expected_asset then Ok true
        else
          match _normalize_network (Some (pq_network q)) with
          | Raise e => Raise e
          | Ok network => Ok ((network != expected_network) || negb (oc_asset_amount r =? pq_asset_amount q * one))
          end
    end.

(** The evidence is real, and a person has to decide. *)
Definition for_review (reason : option string) (settlement : option (dec * string)) (o : PaymentObservation)
    : PaymentObservation :=
  let o := o <| obs_status := ObsManualReview |> <| obs_assurance_level := Some AlOnchainVerified |> in
  let o := match settlement with
           | Some (a, c) => o <| obs_settlement_amount := Some a |> <| obs_settlement_currency := Some c |>
           | None => o
           end in
  match reason with Some r => o <| obs_rejection_reason := Some r |> | None => o end.

(** The transaction is final: it settles the intent when a quote says so. *)
Definition conclude (tenant_id : UUID) (o : PaymentObservation) (method : PaymentMethodConfig)
    (expected_network expected_asset : option string) (r : OnChainVerificationResult)
    : M PaymentObservation :=
  intent ← get_payment_intent tenant_id (obs_payment_intent_id o);
  quote ← query (λ d, qid ← obs_payment_quote_id o; get_row qid (payment_quotes d));
  match quote with
  | None => update_observation (obs_id o) (for_review None None);; flush_observation o
  | Some q =>
      raise_if (pq_tenant_id q != tenant_id) PaymentIntegrityError;;
      raise_if (is_some (oc_observed_at r) && negb (oc_observed_aware r)) PaymentIntegrityError;;
      n ← now;
      if pq_expires_at q <? default n (oc_observed_at r) then
        update_observation (obs_id o)
          (for_review (Some "Transaction occurred after the authoritative payment quote expired.") None);;
        flush_observation o
      else
        mismatch ← of_outcome (quote_mismatch q intent method expected_network expected_asset r);
        if (mismatch : bool) then
          update_observation (obs_id o)
            (for_review (Some "Verified chain payment does not exactly match the authoritative quote.")
               (Some (pq_settlement_amount q, pq_settlement_currency q)));;
          flush_observation o
        else
          n ← now;
          update_observation (obs_id o) (λ o,
            o <| obs_status := ObsVerified |> <| obs_assurance_level := Some AlOnchainVerified |>
              <| obs_settlement_amount := Some (pq_settlement_amount q) |>
              <| obs_settlement_currency := Some (pq_settlement_currency q) |>
              <| obs_verified_at := Some n |>);;
          settle_payment_intent tenant_id (intent_id intent) (Some (pq_settlement_amount q))
            (Some (pq_settlement_currency q));;
          flush_observation o
  end.

Definition verification_summary (name : string) (r : OnChainVerificationResult) : dict :=
  [ ("verifier", JStr name);
    ("verification_summary",
     JObj [ ("network", JStr (oc_network r)); ("asset", JStr (oc_asset r));
            ("confirmations", JInt (oc_confirmations r)); ("is_final", JBool (oc_is_final r));
            ("succeeded", JBool (oc_succeeded r)) ]) ].

(** The amount as the column rounds it. *)
Definition stored_amount (r : OnChainVerificationResult) : dec := round_half_up one (oc_asset_amount r) / one.

(** What the verifier reported is written to the observation. *)
Definition apply_report (tenant_id : UUID) (o : PaymentObservation) (method : PaymentMethodConfig)
    (name : string) (expected_network expected_asset : option string) (r : OnChainVerificationResult)
    : M PaymentObservation :=
  n ← now;
  let seen o := o <| obs_is_final := oc_is_final r |> <| obs_confirmations := Some (Z.max 0 (oc_confirmations r)) |>
                  <| obs_observed_at := Some (default n (oc_observed_at r)) |> in
  if negb (oc_succeeded r) then
    update_observation (obs_id o) (λ o,
      seen o <| obs_status := ObsRejected |>
             <| obs_rejection_reason := Some "Authoritative chain verifier reports transaction failure." |>);;
    flush_observation o
  else
    update_observation (obs_id o) (λ o,
      seen o <| obs_asset_amount := Some (stored_amount r) |>
             <| obs_details_json ::= (λ md, dict_merge md (verification_summary name r)) |>);;
    if negb (oc_is_final r) then
      update_observation (obs_id o) (λ o, o <| obs_status := ObsPendingVerification |>);;
      flush_observation o
    else conclude tenant_id o method expected_network expected_asset r.

Definition verify_onchain_observation (tenant_id observation_id : UUID) : M PaymentObservation :=
  o ← get_observation tenant_id observation_id;
  raise_if (obs_source o != SrcOnchain) PaymentError;;
  if obs_status o == ObsVerified then mret o
  else
    raise_if (obs_status o == ObsRejected) PaymentIntegrityError;;
    method ← get_method tenant_id (obs_payment_method_id o) false;
    raise_if (negb (truthy (obs_external_reference o)) || negb (truthy (pmc_network method)))
      PaymentIntegrityError;;
    let reference := default "" (obs_external_reference o) in
    let network := default "" (pmc_network method) in
    verifier ← of_outcome (get_verifier network);
    answer ← gets (λ s, verify_transaction verifier (ses_draws s) network reference (pmc_asset method)
                          (pmc_destination_address method));
    r ← of_outcome answer;
    expected ← of_outcome (check_result method reference r);
    apply_report tenant_id o method (verifier_name verifier) expected.1 expected.2 r.

(** ** The worker *)

Record OnChainStats := MkOnChainStats {
  ocs_scanned : nat;
  ocs_verified : nat;
  ocs_review : nat;
  ocs_pending : nat;
  ocs_errors : nat;
}.

Global Instance OnChainStats_eta : Eta OnChainStats := λ r,
  MkOnChainStats (ocs_scanned r) (ocs_verified r) (ocs_review r) (ocs_pending r) (ocs_errors r).

(** Pending evidence of enabled methods on networks with a verifier. *)
Definition due_observation (d : DB) (o : PaymentObservation) : bool :=
  (obs_source o == SrcOnchain) && (obs_status o == ObsPendingVerification)
  && match get_row (obs_payment_method_id o) (payment_methods d) with
     | Some m => pmc_is_enabled m
                 && match pmc_network m with
                    | Some n => existsb (λ x, x == n) registered_networks
                    | None => false
                    end
     | None => false
     end.

(** [ORDER BY created_at, id LIMIT batch_size] *)
Definition due_observations (batch_size : nat) (d : DB) : list PaymentObservation :=
  take batch_size (sort_by (then_by obs_created_at (λ a b, uuid_leb (obs_id a) (obs_id b)))
                     (select (due_observation d) (observations d))).

Definition count_observation (st : PaymentObservationStatus) (s : OnChainStats) : OnChainStats :=
  match st with
  | ObsVerified => s <| ocs_verified ::= S |>
  | ObsManualReview => s <| ocs_review ::= S |>
  | _ => s <| ocs_pending ::= S |>
  end.

(** The exceptions the loop passes over. *)
Definition passed_observation (e : exn) : M (OnChainStats → OnChainStats) :=
  if e == OnChainVerificationPending then mret (λ s, s <| ocs_pending ::= S |>)
  else if is_payment_error e then mret (λ s, s <| ocs_errors ::= S |>)
  else mthrow e.

Fixpoint verify_each (l : list PaymentObservation) (stats : OnChainStats) : M OnChainStats :=
  match l with
  | [] => mret stats
  | o :: l =>
      count ← catch
        (x ← verify_onchain_observation (obs_tenant_id o) (obs_id o); mret (count_observation (obs_status x)))
        passed_observation;
      verify_each l (count (stats <| ocs_scanned ::= S |>))
  end.

(** The flush that ends a pass, for the rows the pass has touched. *)
Definition flush_all (l : list PaymentObservation) : M unit := for_each l (λ o, flush_observation o;; mret tt).

Definition onchain_run_once (batch_size : nat) : M OnChainStats :=
  if (length registered_networks =? 0)%nat then mret (MkOnChainStats 0 0 0 0 0)
  else
    l ← query (due_observations batch_size);
    stats ← verify_each l (MkOnChainStats 0 0 0 0 0);
    flush_all l;;
    mret stats.

(** One iteration of the loop. *)
Definition onchain_pass (batch_size : nat) : M OnChainStats :=
  in_session (stats ← onchain_run_once batch_size; commit;; mret stats).

End verification.
