(* ===== verification/Verifiers.v ===== *)
(** * Verifiers of transactions on a chain

    [packages/payments/onchain_verifiers.py]: the verifier of TRC-20 transfers
    over TronGrid and the one of ERC-20 transfers over JSON-RPC.  Both turn
    documents of a node the installation trusts into an
    [OnChainVerificationResult]; what the node answers ([ChainHttp]) is the
    world's. *)

From Stdlib Require Import ZArith Lia Ascii String.
From stdpp Require Import base tactics list option strings numbers pretty.
From S2P Require Import Prelude Tables Text Money Exceptions StateMachines Models Payments TopUps.
From S2P Require Import StarsGateway Evidence.

Local Open Scope Z_scope.

(** ** HTTP *)

(** What [httpx] makes of a request: an [HTTPError], a redirect, a status that
    [raise_for_status] refuses, or a body with its announced and real length,
    and the document in it if it is JSON. *)
Inductive ChainAnswer :=
  | ChainFailed
  | ChainRedirect
  | ChainStatus (status_code : Z)
  | ChainBody (content_length : option string) (size : Z) (document : option json).

(** The answer to the [k]-th request of a verification that started after [n]
    draws of the environment (method, URL, headers, document or query), and
    SHA-256 of bytes. *)
Class ChainHttp := {
  chain_http : nat → nat → string → string → list (string * string) → json → ChainAnswer;
  chain_sha256 : list Z → list Z;
}.

Definition max_response_bytes : Z := 256 * 1024.

(** A [Content-Length] that is no number is not looked at. *)
Definition _assert_response_size (content_length : option string) (size max_bytes : Z) : outcome exn unit :=
  let announced :=
    match content_length with
    | Some s => if s == "" then None else int_of_str s
    | None => None
    end in
  if match announced with Some n => max_bytes <? n | None => false end then Raise PaymentProviderError
  else if max_bytes <? size then Raise PaymentProviderError
  else Ok tt.

Definition _json_object (content_length : option string) (size : Z) (document : option json)
    : outcome exn dict :=
  match _assert_response_size content_length size max_response_bytes with
  | Raise e => Raise e
  | Ok _ =>
      match document with
      | Some (JObj payload) => Ok payload
      | _ => Raise PaymentProviderError
      end
  end.

(** The common part of [_request] and [_rpc]. *)
Definition body_of (a : ChainAnswer) : outcome exn dict :=
  match a with
  | ChainFailed | ChainRedirect | ChainStatus _ => Raise PaymentProviderError
  | ChainBody content_length size document => _json_object content_length size document
  end.

(** ** Texts and numbers *)

Definition hex_chars (l : list ascii) : bool := forallb (λ c, is_some (hex_digit c)) l.

(** [0x] and [n] hexadecimal digits. *)
Definition is_0x (n : nat) (s : string) : bool :=
  match chars s with
  | "0"%char :: "x"%char :: l => (length l =? n)%nat && hex_chars l
  | _ => false
  end.

(** [s.removeprefix("0x")] *)
Definition without_0x (s : string) : string :=
  match s with
  | String "0" (String "x" s') => s'
  | _ => s
  end.

(** [hex(n)] *)
Definition hex_text (n : Z) : string :=
  let digits_ := to_hex (S (Z.to_nat (Z.log2 (Z.abs n) / 4))) (Z.abs n) in
  (if n <? 0 then "-0x" else "0x") +:+ of_chars digits_.

(** [int(s, 10)] refuses more than 4300 digits. *)
Definition decimal_int (s : string) : option Z :=
  if (4300 <? length (select is_digit (chars s)))%nat then None else int_of_str s.

(** [Decimal(value) / Decimal(10) ** decimals], in units of 10^-36: 28
    significant digits, half even. *)
Definition token_amount (value decimals : Z) : Z :=
  let n := count_digits (S (Z.to_nat (Z.log2 (Z.abs value)))) (Z.abs value) in
  (if n <=? 28 then value else round_half_even (10 ^ (n - 28)) value) * 10 ^ (36 - decimals).

(** [datetime.fromtimestamp(n / 1000, tz=UTC)], the time in microseconds:
    [ValueError] (or [OSError]) outside of the years 1 to 9999, [OverflowError]
    outside of the platform's [time_t]. *)
Definition instant_of_ms (n : Z) : outcome exn Z :=
  if (-62135596800000 <=? n) && (n <=? 253402300799999) then Ok (n * 1000)
  else if (- 2 ^ 63 * 1000 <=? n) && (n <? 2 ^ 63 * 1000) then Raise ValueError
  else Raise OverflowError.

(** ** TRON addresses *)

Definition _B58_ALPHABET : string := "123456789ABCDEFGHJKLMNPQRSTUVWXYZabcdefghijkmnopqrstuvwxyz".

Fixpoint index_of (c : ascii) (l : list ascii) : option Z :=
  match l with
  | [] => None
  | x :: l => if x == c then Some 0 else Z.succ <$> index_of c l
  end.

Fixpoint b58_number (l : list ascii) (number : Z) : outcome exn Z :=
  match l with
  | [] => Ok number
  | c :: l =>
      match index_of c (chars _B58_ALPHABET) with
      | Some d => b58_number l (number * 58 + d)
      | None => Raise PaymentIntegrityError
      end
  end.

(** [number.to_bytes(n, "big")] *)
Fixpoint to_bytes (n : nat) (number : Z) : list Z :=
  match n with
  | O => []
  | S n => to_bytes n (number / 256) ++ [number mod 256]
  end.

(** [(number.bit_length() + 7) // 8] *)
Definition byte_length (number : Z) : nat :=
  if number =? 0 then 0%nat else Z.to_nat ((Z.log2 number + 8) / 8).

Definition leading_ones (l : list ascii) : nat := length (break_at (λ c, c != "1"%char) l).1.

Definition _b58decode (value : string) : outcome exn (list Z) :=
  match b58_number (chars value) 0 with
  | Raise e => Raise e
  | Ok number => Ok (repeat 0 (leading_ones (chars value)) ++ to_bytes (byte_length number) number)
  end.

(** [payload.hex()] *)
Definition hex_bytes (l : list Z) : string := of_chars (flat_map (to_hex 2) l).

Section addresses.
  Context `{ChainHttp}.

Definition _tron_base58_to_hex (address : string) : outcome exn string :=
  match _b58decode address with
  | Raise e => Raise e
  | Ok decoded =>
      if negb (length decoded =? 25)%nat then Raise PaymentIntegrityError
      else
        let payload := take 21 decoded in
        let checksum := drop 21 decoded in
        let expected := take 4 (chain_sha256 (chain_sha256 payload)) in
        if (checksum != expected) || negb (length payload =? 21)%nat || (head payload != Some 65)
        then Raise PaymentIntegrityError
        else Ok (hex_bytes payload)
  end.

Definition _normalize_tron_address (address : string) : outcome exn string :=
  let candidate := strip address in
  if String.prefix "T" candidate then _tron_base58_to_hex candidate
  else
    let raw := without_0x (lower candidate) in
    if (raw == "") || negb (hex_chars (chars raw)) then Raise PaymentIntegrityError
    else
      let raw :=
        if (String.length raw =? 64)%nat then "41" +:+ of_chars (drop 24 (chars raw))
        else if (String.length raw =? 40)%nat then "41" +:+ raw
        else raw in
      if negb (String.length raw =? 42)%nat || negb (String.prefix "41" raw)
      then Raise PaymentIntegrityError
      else Ok raw.

End addresses.

(** ** TronGrid *)

Record TronTRC20Token := MkTronTRC20Token {
  trc_asset : string;
  trc_contract_address : string;
  trc_decimals : Z;
}.

(** The attributes of a [TronGridTRC20Verifier]. *)
Record TronGridTRC20Verifier := MkTronGridTRC20Verifier {
  tron_token : TronTRC20Token;
  tron_base_url : string;
  tron_api_key : option string;
}.

Definition is_http (url : string) : bool := String.prefix "https://" url || String.prefix "http://" url.

(** [2 <= timeout_seconds <= 30] *)
Definition sane_timeout (timeout_seconds : dec) : bool :=
  (2 * one <=? timeout_seconds) && (timeout_seconds <=? 30 * one).

Section tron.
  Context `{Env} `{ChainHttp}.

(** [TronGridTRC20Verifier.__init__] *)
Definition init_tron (token : TronTRC20Token) (api_key : option string) (base_url : string)
    (timeout_seconds : dec) : outcome exn TronGridTRC20Verifier :=
  if (strip (trc_asset token) == "") || (trc_decimals token <? 0) || (36 <? trc_decimals token)
  then Raise ValueError
  else
    match _normalize_tron_address (trc_contract_address token) with
    | Raise e => Raise e
    | Ok _ =>
        let base_url := rstrip_slash base_url in
        if negb (is_http base_url) then Raise ValueError
        else if negb (sane_timeout timeout_seconds) then Raise ValueError
        else Ok (MkTronGridTRC20Verifier
                   (MkTronTRC20Token (upper (strip (trc_asset token))) (strip (trc_contract_address token))
                      (trc_decimals token))
                   base_url (clean api_key))
    end.

Definition _request (v : TronGridTRC20Verifier) (n k : nat) (method path : string) (document : json)
    : outcome exn dict :=
  body_of (chain_http n k method (tron_base_url v +:+ path)
             match tron_api_key v with Some key => [("TRON-PRO-API-KEY", key)] | None => [] end document).

Definition _event_result (event : dict) : dict :=
  match dict_get "result" event with Some (JObj r) => r | _ => [] end.

(** [d.get(k, d.get(alt))], where [None] is a JSON null or nothing. *)
Definition get_either (k alt : string) (d : dict) : option json :=
  match (match dict_get k d with Some v => Some v | None => dict_get alt d end) with
  | Some JNull | None => None
  | Some v => Some v
  end.

Definition event_amount (v : json) : option Z :=
  let amount_text := strip (json_text v) in
  if String.prefix "0x" (lower amount_text) then hex_of_str (chars amount_text) else decimal_int amount_text.

(** What [block_timestamp] says; only an [OverflowError] leaves the loop. *)
Definition event_time (item : dict) : outcome exn (option Z) :=
  match dict_get "block_timestamp" item with
  | Some JNull | None => Ok None
  | Some raw =>
      match json_int raw with
      | Raise _ => Ok None
      | Ok n =>
          match instant_of_ms n with
          | Ok t => Ok (Some t)
          | Raise OverflowError => Raise OverflowError
          | Raise _ => Ok None
          end
      end
  end.

(** The transferred amount, if the event is the transfer that is looked for. *)
Definition transfer_event (tx_hash expected_contract expected_to : string) (item : json) : option (dict * Z) :=
  match item with
  | JObj item =>
      if lower (policy_text "transaction_id" "" item) != lower tx_hash then None
      else if policy_text "event_name" "" item != "Transfer" then None
      else
        match _normalize_tron_address (policy_text "contract_address" "" item) with
        | Raise _ => None
        | Ok contract =>
            if contract != expected_contract then None
            else
              match get_either "to" "1" (_event_result item), get_either "value" "2" (_event_result item) with
              | Some to_value, Some amount_value =>
                  match _normalize_tron_address (json_text to_value) with
                  | Raise _ => None
                  | Ok to_ =>
                      if to_ != expected_to then None
                      else match event_amount amount_value with Some a => Some (item, a) | None => None end
                  end
              | _, _ => None
              end
        end
  | _ => None
  end.

Fixpoint transfer_events (decimals : Z) (tx_hash expected_contract expected_to : string) (events : list json)
    : outcome exn (list (Z * option Z)) :=
  match events with
  | [] => Ok []
  | item :: events =>
      match transfer_event tx_hash expected_contract expected_to item with
      | None => transfer_events decimals tx_hash expected_contract expected_to events
      | Some (event, value) =>
          match event_time event with
          | Raise e => Raise e
          | Ok observed_at =>
              match transfer_events decimals tx_hash expected_contract expected_to events with
              | Raise e => Raise e
              | Ok matches => Ok ((token_amount value decimals, observed_at) :: matches)
              end
          end
      end
  end.

Definition _parse_transfer_event (v : TronGridTRC20Verifier) (payload : dict)
    (tx_hash expected_destination : string) : outcome exn (Z * option Z) :=
  match dict_get "data" payload with
  | Some (JList events) =>
      match _normalize_tron_address (trc_contract_address (tron_token v)),
            _normalize_tron_address expected_destination with
      | Raise e, _ | Ok _, Raise e => Raise e
      | Ok expected_contract, Ok expected_to =>
          match transfer_events (trc_decimals (tron_token v)) tx_hash expected_contract expected_to events with
          | Raise e => Raise e
          | Ok [] => Raise OnChainVerificationPending
          | Ok [m] => Ok m
          | Ok _ => Raise PaymentIntegrityError
          end
      end
  | _ => Raise PaymentProviderError
  end.

(** The result of the solidified receipt, in capitals. *)
Definition receipt_result (receipt : dict) : outcome exn string :=
  if negb (json_truthy (default JNull (dict_get "id" receipt))) then Raise OnChainVerificationPending
  else
    match dict_get "receipt" receipt with
    | Some (JObj receipt_data) => Ok (upper (policy_text "result" "" receipt_data))
    | _ => Raise OnChainVerificationPending
    end.

Definition tron_verify_transaction (v : TronGridTRC20Verifier) (n : nat) (network tx_hash : string)
    (expected_asset expected_destination : option string) : outcome exn OnChainVerificationResult :=
  let destination := default "" expected_destination in
  if upper (strip network) != "TRON" then Raise PaymentIntegrityError
  else if negb (is_hash (chars (strip tx_hash))) then Raise PaymentIntegrityError
  else if truthy expected_asset && (upper (strip (default "" expected_asset)) != trc_asset (tron_token v))
  then Raise PaymentIntegrityError
  else if negb (truthy expected_destination) then Raise PaymentIntegrityError
  else
    match _normalize_tron_address destination with
    | Raise e => Raise e
    | Ok _ =>
        let tx_hash := lower tx_hash in
        let result amount succeeded observed_at :=
          MkOnChainVerificationResult "TRON" tx_hash (trc_asset (tron_token v)) destination amount 1 true
            succeeded observed_at true in
        match _request v n 0 "POST" "/walletsolidity/gettransactioninfobyid" (JObj [("value", JStr tx_hash)]) with
        | Raise e => Raise e
        | Ok receipt =>
            match receipt_result receipt with
            | Raise e => Raise e
            | Ok outcome_ =>
                if outcome_ != "SUCCESS" then Ok (result 0 false None)
                else
                  match _request v n 1 "GET" ("/v1/transactions/" +:+ tx_hash +:+ "/events")
                          (JObj [("only_confirmed", JStr "true")]) with
                  | Raise e => Raise e
                  | Ok payload =>
                      match _parse_transfer_event v payload tx_hash destination with
                      | Raise e => Raise e
                      | Ok (amount, observed_at) => Ok (result amount true observed_at)
                      end
                  end
            end
        end
    end.

Definition tron_verifier (v : TronGridTRC20Verifier) : OnChainVerifier :=
  MkOnChainVerifier "trongrid-trc20" (tron_verify_transaction v).

End tron.

(** ** JSON-RPC *)

Record EvmTokenIdentity := MkEvmTokenIdentity {
  evm_network : string;
  evm_chain_id : Z;
  evm_asset : string;
  evm_contract_address : string;
  evm_decimals : Z;
}.

(** The attributes of an [EvmERC20Verifier]. *)
Record EvmERC20Verifier := MkEvmERC20Verifier {
  evm_token : EvmTokenIdentity;
  evm_rpc_url : string;
}.

Definition _ERC20_TRANSFER_TOPIC : string :=
  "0xddf252ad1be2c89b69c2b068fc378daa952ba7f163c4a11628f55a4df523b3ef".

(** [EvmERC20Verifier.__init__] *)
Definition init_evm (token : EvmTokenIdentity) (rpc_url : string) (timeout_seconds : dec)
    : outcome exn EvmERC20Verifier :=
  let contract := lower (strip (evm_contract_address token)) in
  let rpc_url := strip rpc_url in
  if negb (is_0x 40 contract) then Raise ValueError
  else if (evm_chain_id token <=? 0) || (evm_decimals token <? 0) || (36 <? evm_decimals token)
  then Raise ValueError
  else if negb (is_http rpc_url) then Raise ValueError
  else if negb (sane_timeout timeout_seconds) then Raise ValueError
  else Ok (MkEvmERC20Verifier
             (MkEvmTokenIdentity (upper (strip (evm_network token))) (evm_chain_id token)
                (upper (strip (evm_asset token))) contract (evm_decimals token))
             rpc_url).

Section evm.
  Context `{Env} `{ChainHttp}.

(** A call; its running number, which nothing is compared with, is left out. *)
Definition _rpc (v : EvmERC20Verifier) (n k : nat) (method : string) (params : list json) : outcome exn json :=
  match body_of (chain_http n k "POST" (evm_rpc_url v) []
          (JObj [("jsonrpc", JStr "2.0"); ("method", JStr method); ("params", JList params)])) with
  | Raise e => Raise e
  | Ok body =>
      if has_value "error" body then Raise PaymentProviderError
      else Ok (default JNull (dict_get "result" body))
  end.

Definition _parse_hex_int (value : json) : outcome exn Z :=
  match value with
  | JStr s =>
      if negb (String.prefix "0x" s) then Raise PaymentProviderError
      else match hex_of_str (chars s) with Some n => Ok n | None => Raise PaymentProviderError end
  | _ => Raise PaymentProviderError
  end.

(** [self._parse_hex_int(await self._rpc(...), ...)] *)
Definition rpc_int (v : EvmERC20Verifier) (n k : nat) (method : string) (params : list json) : outcome exn Z :=
  match _rpc v n k method params with Ok r => _parse_hex_int r | Raise e => Raise e end.

(** The value of a log that is a transfer to the destination. *)
Definition transfer_log (contract destination : string) (log : json) : option json :=
  match log with
  | JObj log =>
      if lower (policy_text "address" "" log) != contract then None
      else
        match dict_get "topics" log with
        | Some (JList (topic0 :: _ :: topic2 :: _)) =>
            if lower (json_text topic0) != _ERC20_TRANSFER_TOPIC then None
            else if without_0x (lower (json_text topic2))
                    != of_chars (repeat "0"%char 24) +:+ without_0x destination
            then None
            else Some (JStr (policy_text "data" "" log))
        | _ => None
        end
  | _ => None
  end.

Fixpoint transfer_amounts (contract destination : string) (logs : list json) : outcome exn (list Z) :=
  match logs with
  | [] => Ok []
  | log :: logs =>
      match transfer_log contract destination log with
      | None => transfer_amounts contract destination logs
      | Some data =>
          match _parse_hex_int data with
          | Raise e => Raise e
          | Ok value =>
              match transfer_amounts contract destination logs with
              | Raise e => Raise e
              | Ok l => Ok (value :: l)
              end
          end
      end
  end.

(** The one transfer the receipt must hold. *)
Definition transferred (v : EvmERC20Verifier) (destination : string) (receipt : dict) : outcome exn Z :=
  match dict_get "logs" receipt with
  | Some (JList logs) =>
      match transfer_amounts (evm_contract_address (evm_token v)) destination logs with
      | Raise e => Raise e
      | Ok [value] => Ok (token_amount value (evm_decimals (evm_token v)))
      | Ok _ => Raise PaymentIntegrityError
      end
  | _ => Raise PaymentProviderError
  end.

(** The time of the block, if the node knows it; a time [datetime] cannot
    hold raises. *)
Definition block_time (block : json) : outcome exn (option Z) :=
  match block with
  | JObj b =>
      if has_value "timestamp" b then
        match _parse_hex_int (default JNull (dict_get "timestamp" b)) with
        | Raise e => Raise e
        | Ok t => match instant_of_ms (t * 1000) with Ok u => Ok (Some u) | Raise e => Raise e end
        end
      else Ok None
  | _ => Ok None
  end.

(** The receipt, its status and its block. *)
Definition get_receipt (v : EvmERC20Verifier) (n : nat) (tx_hash : string) : outcome exn (dict * Z * Z) :=
  match _rpc v n 1 "eth_getTransactionReceipt" [JStr tx_hash] with
  | Raise e => Raise e
  | Ok JNull => Raise OnChainVerificationPending
  | Ok (JObj receipt) =>
      match _parse_hex_int (default JNull (dict_get "status" receipt)) with
      | Raise e => Raise e
      | Ok status =>
          match _parse_hex_int (default JNull (dict_get "blockNumber" receipt)) with
          | Raise e => Raise e
          | Ok block_number => Ok (receipt, status, block_number)
          end
      end
  | Ok _ => Raise PaymentProviderError
  end.

(** The number of the finalized block and of the latest one. *)
Definition get_heights (v : EvmERC20Verifier) (n : nat) : outcome exn (Z * Z) :=
  match _rpc v n 2 "eth_getBlockByNumber" [JStr "finalized"; JBool false] with
  | Raise e => Raise e
  | Ok (JObj finalized) =>
      if negb (has_value "number" finalized) then Raise OnChainVerificationPending
      else
        match _parse_hex_int (default JNull (dict_get "number" finalized)) with
        | Raise e => Raise e
        | Ok finalized_number =>
            match rpc_int v n 3 "eth_blockNumber" [] with
            | Raise e => Raise e
            | Ok latest_number => Ok (finalized_number, latest_number)
            end
        end
  | Ok _ => Raise OnChainVerificationPending
  end.

Definition evm_verify_transaction (v : EvmERC20Verifier) (n : nat) (network tx_hash : string)
    (expected_asset expected_destination : option string) : outcome exn OnChainVerificationResult :=
  let token := evm_token v in
  let destination := lower (strip (default "" expected_destination)) in
  if upper (strip network) != evm_network token then Raise PaymentIntegrityError
  else if truthy expected_asset && (upper (strip (default "" expected_asset)) != evm_asset token)
  then Raise PaymentIntegrityError
  else if negb (is_0x 64 (strip tx_hash)) then Raise PaymentIntegrityError
  else if negb (is_0x 40 destination) then Raise PaymentIntegrityError
  else
    match rpc_int v n 0 "eth_chainId" [] with
    | Raise e => Raise e
    | Ok chain_id =>
        if negb (chain_id =? evm_chain_id token) then Raise PaymentIntegrityError
        else
          match get_receipt v n tx_hash with
          | Raise e => Raise e
          | Ok (receipt, status, block_number) =>
              match get_heights v n with
              | Raise e => Raise e
              | Ok (finalized_number, latest_number) =>
                  let is_final := block_number <=? finalized_number in
                  let result amount is_final succeeded observed_at :=
                    MkOnChainVerificationResult (evm_network token) (lower tx_hash) (evm_asset token) destination
                      amount (Z.max 0 (latest_number - block_number + 1)) is_final succeeded observed_at true in
                  if negb (status =? 1) then
                    if negb is_final then Raise OnChainVerificationPending else Ok (result 0 true false None)
                  else
                    match transferred v destination receipt with
                    | Raise e => Raise e
                    | Ok amount =>
                        match _rpc v n 4 "eth_getBlockByNumber" [JStr (hex_text block_number); JBool false] with
                        | Raise e => Raise e
                        | Ok block =>
                            match block_time block with
                            | Raise e => Raise e
                            | Ok observed_at => Ok (result amount is_final true observed_at)
                            end
                        end
                    end
              end
          end
    end.

Definition evm_verifier (v : EvmERC20Verifier) : OnChainVerifier :=
  MkOnChainVerifier "evm-erc20" (evm_verify_transaction v).

End evm.

(** ** Registration *)

(** The settings that are looked at. *)
Record ChainSettings := MkChainSettings {
  payment_tron_usdt_enabled : bool;
  payment_trongrid_api_key : option string;
  payment_trongrid_base_url : string;
  payment_tron_timeout_seconds : dec;
  payment_bsc_token_enabled : bool;
  payment_bsc_rpc_url : option string;
  payment_bsc_token_asset : option string;
  payment_bsc_token_contract : option string;
  payment_bsc_chain_id : Z;
  payment_bsc_token_decimals : Z;
  payment_bsc_timeout_seconds : dec;
}.

Definition TRON_USDT_CONTRACT : string := "TR7NHqjeKQxGTCi8q8ZY4pL8otSzgjLj6t".

Section registration.
  Context `{Env} `{ChainHttp}.

Definition register_tron (s : ChainSettings) (registry : list (string * OnChainVerifier))
    : outcome exn (list (string * OnChainVerifier) * list string) :=
  if payment_tron_usdt_enabled s then
    match init_tron (MkTronTRC20Token "USDT" TRON_USDT_CONTRACT 6) (payment_trongrid_api_key s)
            (payment_trongrid_base_url s) (payment_tron_timeout_seconds s) with
    | Raise e => Raise e
    | Ok v => Ok (register "TRON" (tron_verifier v) registry, ["TRON"])
    end
  else Ok (registry, []).

Definition register_bsc (s : ChainSettings) (registry : list (string * OnChainVerifier))
    : outcome exn (list (string * OnChainVerifier) * list string) :=
  if payment_bsc_token_enabled s then
    if negb (truthy (payment_bsc_rpc_url s)) then Raise ValueError
    else if negb (truthy (payment_bsc_token_asset s)) then Raise ValueError
    else if negb (truthy (payment_bsc_token_contract s)) then Raise ValueError
    else
      match init_evm (MkEvmTokenIdentity "BSC" (payment_bsc_chain_id s) (default "" (payment_bsc_token_asset s))
                        (default "" (payment_bsc_token_contract s)) (payment_bsc_token_decimals s))
              (default "" (payment_bsc_rpc_url s)) (payment_bsc_timeout_seconds s) with
      | Raise e => Raise e
      | Ok v => Ok (register "BSC" (evm_verifier v) registry, ["BSC"])
      end
  else Ok (registry, []).

Definition register_configured_onchain_verifiers (registry : list (string * OnChainVerifier)) (s : ChainSettings)
    : outcome exn (list (string * OnChainVerifier) * list string) :=
  match register_tron s registry with
  | Raise e => Raise e
  | Ok (registry, tron) =>
      match register_bsc s registry with
      | Raise e => Raise e
      | Ok (registry, bsc) => Ok (registry, tron ++ bsc)
      end
  end.

End registration.
