(* ===== verification/EvidenceInv.v ===== *)
(** * Payment evidence and the payment traffic around it

    What the requests and passes of [ReconciliationSpec.v] leave alone: no
    evidence, no ledger entry and no term of an intent is changed by them. *)

From Stdlib Require Import ZArith Lia Ascii String.
From stdpp Require Import base tactics list option strings numbers pretty.
From S2P Require Import Prelude Tables Text Money Exceptions StateMachines Models Ledger.
From S2P Require Import LedgerInv LedgerSpec DepositsSpec Fulfillment FulfillmentSpec Payments TopUps.
From S2P Require Import PaymentsInv PaymentsSpec Reversals ReversalsSpec ReversalsLive Reconciliation.
From S2P Require Import ReconciliationSpec Evidence.

Local Open Scope Z_scope.

(** ** What other payment traffic leaves alone *)

(** What never changes of an intent. *)
Definition intent_terms (i : PaymentIntent) : UUID * UUID * PaymentIntentPurpose * option UUID :=
  (intent_id i, intent_tenant_id i, intent_purpose i, intent_order_id i).

(** A top-up is not about an order. *)
Definition no_order (i : PaymentIntent) : Prop :=
  intent_purpose i = WALLET_TOPUP → intent_order_id i = None.

(** The evidence is untouched, entries are only added, intents are only added
    and keep their terms. *)
Record aside (s s' : Session) : Prop := {
  as_observations : observations (ses_db s') = observations (ses_db s);
  as_ledger : ∀ tx, tx ∈ ledger (ses_db s) → tx ∈ ledger (ses_db s');
  as_terms : ∀ i, i ∈ intents (ses_db s) → ∃ j, j ∈ intents (ses_db s') ∧ intent_terms j = intent_terms i;
  as_topups : (∀ i, i ∈ intents (ses_db s) → no_order i) → ∀ i, i ∈ intents (ses_db s') → no_order i;
}.

Global Instance aside_preorder : PreOrder aside.
Proof.
  split.
  - intros s. split; eauto.
  - intros x y z [H1 H2 H3 H4] [G1 G2 G3 G4]. split; [by rewrite G1|by auto| |by auto].
    intros i (j & Hj & Hij)%H3. destruct (G3 j Hj) as (k & Hk & Hjk). exists k. split; [done|congruence].
Qed.

Lemma aside_db s s' : ses_db s' = ses_db s → aside s s'.
Proof. intros Hd. split; rewrite Hd; eauto. Qed.

Lemma aside_write f :
  (∀ d, observations (f d) = observations d ∧ ledger (f d) = ledger d ∧ intents (f d) = intents d) →
  steps aside (write f).
Proof. intros Hf s. destruct (Hf (ses_db s)) as (H1 & H2 & H3). split; cbn; rewrite ?H1, ?H2, ?H3; eauto. Qed.

Lemma aside_uuid4 `{Env} : steps aside uuid4.
Proof. intros s. by apply aside_db. Qed.

Lemma aside_send m : steps aside (send m).
Proof. intros s. by apply aside_db. Qed.

Lemma aside_await `{HE : Env} `{!Serial HE} : steps aside await_others.
Proof. intros s. apply aside_db. cbn. by rewrite serial_race. Qed.

Lemma aside_reads {A} (m : M A) : steps eq m → steps aside m.
Proof. intros Hm s. by rewrite <- (Hm s). Qed.

Lemma aside_nested {A} (m : M A) : steps aside m → steps aside (begin_nested m).
Proof.
  intros Hm s. specialize (Hm s). unfold begin_nested.
  destruct (m s) as [[a|e] s']; [done|]. by apply aside_db.
Qed.

Lemma aside_varchar_opt n v : steps aside (to_varchar_opt n v).
Proof. unfold to_varchar_opt. steps_walk. Qed.

Lemma aside_intent iid f :
  (∀ i, intent_terms (f i) = intent_terms i) → steps aside (update_intent iid f).
Proof.
  intros Hf s. split; cbn; [done|auto| |].
  - intros i Hi. eexists. split; [apply elem_of_update_where; by exists i|]. by case_bool_decide.
  - intros Ht i (j & Hj & ->)%elem_of_update_where. case_bool_decide; [|by auto].
    injection (Hf j) as _ _ Hp Ho. unfold no_order. rewrite Hp, Ho. by apply Ht.
Qed.

#[export] Hint Resolve aside_uuid4 aside_send aside_await aside_nested aside_varchar_opt : steps.
#[export] Hint Extern 2 (steps aside (write _)) => by apply aside_write : steps.
#[export] Hint Extern 2 (steps aside (update_intent _ _)) => by apply aside_intent : steps.

Section aside.
  Context `{HE : Env} `{!Serial HE} `{Gateways}.

Lemma aside_add i : no_order i → steps aside (write (λ d, d <| intents ::= λ t, t ++ [i] |>)).
Proof.
  intros Hi s. split; cbn; [done|auto| |].
  - intros j Hj. exists j. split; [apply elem_of_app; by left|done].
  - intros Ht j [Hj|Hj%list_elem_of_singleton]%elem_of_app; [by auto|]. by subst j.
Qed.

Lemma aside_insert_intent f : (∀ u, no_order (f u)) → steps aside (insert_intent f).
Proof. intros Hf. unfold insert_intent. steps_walk. apply aside_add. apply Hf. Qed.

Lemma aside_wait n read : steps aside (wait_for_entry n read).
Proof. induction n as [|n IH]; cbn [wait_for_entry]; steps_walk. Qed.

Lemma aside_entry w ty a b c rid rty desc : steps aside (flush_entry w ty a b c rid rty desc).
Proof.
  unfold flush_entry. steps_walk. intros s. split; cbn; [done| |eauto|done].
  intros x Hx. apply elem_of_app. by left.
Qed.

Lemma aside_lock w : steps aside (lock_wallet w).
Proof. unfold lock_wallet. steps_walk. Qed.

Hint Resolve aside_wait aside_entry aside_lock : steps.

Lemma aside_wallet t u c : steps aside (get_or_create_wallet t u c).
Proof. unfold get_or_create_wallet, insert_wallet. steps_walk. apply aside_nested. steps_walk. Qed.

Lemma aside_settle_payment w a iid desc : steps aside (settle_payment w a iid desc).
Proof. unfold settle_payment, return_existing. steps_walk. Qed.

Lemma aside_refund w a i t desc : steps aside (refund w a i t desc).
Proof. unfold refund, return_existing. steps_walk. Qed.

Lemma aside_provider t name : steps aside (get_provider t name).
Proof. apply aside_reads, get_provider_reads. Qed.

Hint Resolve aside_wallet aside_settle_payment aside_refund aside_provider : steps.

Lemma aside_settle_topup i a c : steps aside (_settle_wallet_topup i a c).
Proof.
  unfold _settle_wallet_topup, verify_settlement, mark_succeeded, intent_transition_to, live_intent,
    insert_payment_tx. steps_walk.
Qed.

Lemma aside_settle t i a c : steps aside (settle_payment_intent t i a c).
Proof.
  pose proof aside_settle_topup. unfold settle_payment_intent, get_payment_intent, verify_settlement,
    mark_succeeded, mark_paid, intent_transition_to, order_transition_to, live_intent,
    insert_payment_tx. steps_walk.
Qed.

Hint Resolve aside_settle_topup aside_settle : steps.

Lemma aside_create req : steps aside (create_payment_intent req).
Proof.
  unfold create_payment_intent, except_integrity, call_create_payment,
    apply_create_result, _mark_provider_creation_ambiguous, _store_provider_verification_attributes,
    intent_transition_to, order_transition_to, flush_intent, live_intent. steps_walk.
  all: apply aside_nested, aside_insert_intent; done.
Qed.

Lemma aside_topup req : steps aside (create_wallet_topup_intent req).
Proof.
  unfold create_wallet_topup_intent, except_integrity, call_create_payment,
    apply_topup_result, _mark_provider_creation_ambiguous, _store_provider_verification_attributes,
    intent_transition_to, flush_intent, live_intent. steps_walk.
  all: apply aside_nested, aside_insert_intent; done.
Qed.

Lemma aside_webhook t n p h : steps aside (process_webhook t n p h).
Proof.
  unfold process_webhook, verify_delivery, webhook_secret_of, get_payment_secret, except_integrity,
    insert_webhook_event, apply_webhook, verify_settlement, intent_transition_to, mark_processed.
  steps_walk. all: apply aside_nested; steps_walk.
Qed.

Hint Resolve aside_create aside_topup aside_webhook : steps.

Lemma aside_handle r : steps aside (handle_payment r).
Proof.
  destruct r; cbn [handle_payment];
    unfold settle_telegram_stars_topup, validate_telegram_stars_checkout, cancel_payment_intent, refund_payment,
      get_payment_intent, call_refund, insert_payment_tx, intent_transition_to, order_transition_to, live_intent;
    steps_walk.
Qed.

Lemma aside_reconcile t iid : steps aside (reconcile_intent t iid).
Proof.
  unfold reconcile_intent, _recover_creation_ambiguity, _apply_details, mark_unknown, apply_status,
    check_attributes, _store_provider_verification_attributes, get_payment_intent,
    intent_transition_to, flush_intent, live_intent. steps_walk.
Qed.

(** *** Whole requests and passes *)

Definition beside (s : Session) (d : DB) : Prop := aside s (s <| ses_db := d |>).

Lemma beside_steps {A} s (m : M A) :
  steps aside m → steps same_committed m → steps (keeps (both (beside s))) m.
Proof.
  intros Ha Hc s1 [Hd Hk]. split; [|by rewrite (Hc s1)].
  destruct (Ha s1) as [H1 H2 H3 H4], Hd as [G1 G2 G3 G4].
  unfold beside. etransitivity; [by split|]. by split.
Qed.

Lemma beside_self s : beside s (ses_db s).
Proof. by apply aside_db. Qed.

Lemma beside_each s l : steps (keeps (both (beside s))) (reconcile_each l).
Proof.
  assert (∀ t i, steps (keeps (both (beside s))) (reconcile_intent t i)) as Hr
    by (intros; apply beside_steps; [apply aside_reconcile|apply committed_reconcile]).
  pose proof (both_rollback (beside s)).
  assert (∀ i, steps (keeps (both (beside s))) (flush_intent i)) as Hf
    by (intros; apply both_reads, flush_intent_reads).
  induction l as [|i l IH]; cbn [reconcile_each]; [steps_walk|]. unfold passed_over. steps_walk.
Qed.

Lemma event_aside s ev : persisted s → aside s (run_event s ev).
Proof.
  intros Hp. cut (beside s (ses_db (run_event s ev))).
  { intros [H1 H2 H3 H4]. by split. }
  destruct ev as [r|t i|f n]; cbn [run_event].
  - apply in_request_keeps; [done|apply committed_handle|apply beside_self|].
    intros u s' Hr. pose proof (steps_run _ _ _ _ _ (aside_handle r) Hr) as [? ? ? ?]. by split.
  - apply in_request_keeps; [done|apply committed_reconcile|apply beside_self|].
    intros u s' Hr. pose proof (steps_run _ _ _ _ _ (aside_reconcile t i) Hr) as [? ? ? ?]. by split.
  - unfold reconciliation_pass. rewrite in_session_state. cbn [snd ses_db].
    assert (steps (keeps (both (beside s))) (stats ← run_once f n; commit;; mret stats)) as Hk.
    { unfold run_once, reconcile_pending_intents. pose proof (both_commit (beside s)).
      pose proof (beside_each s). steps_walk. }
    apply (Hk s). split; [apply beside_self|]. rewrite Hp. apply beside_self.
Qed.

End aside.

