(* ===== verification/EvidenceSpec.v ===== *)
(** * Payment evidence: properties

    Evidence becomes VERIFIED exactly when the wallet of the payer is credited
    ([Evidence.v]), over every history in which requests to the payment
    platform, passes of the on-chain worker and the payment traffic of
    [ReconciliationSpec.v] alternate. *)

From Stdlib Require Import ZArith Lia Ascii String.
From stdpp Require Import base tactics list option strings numbers pretty.
From S2P Require Import Prelude Tables Text Money Exceptions StateMachines Models Ledger.
From S2P Require Import LedgerInv LedgerSpec DepositsSpec Fulfillment FulfillmentSpec Payments TopUps.
From S2P Require Import PaymentsInv PaymentsSpec Reversals ReversalsSpec ReversalsLive Reconciliation.
From S2P Require Import ReconciliationSpec Evidence EvidenceInv.

Local Open Scope Z_scope.

(** ** The evidence *)

(** What never changes of an observation. *)
Definition claim_of (o : PaymentObservation) :=
  (obs_id o, obs_tenant_id o, obs_payment_intent_id o, obs_payment_method_id o, obs_payment_quote_id o,
   obs_source o, obs_external_reference o, obs_network o, obs_evidence_fingerprint o).

(** A ruling was given. *)
Definition ruled (o : PaymentObservation) : bool :=
  (obs_status o == ObsVerified) || (obs_status o == ObsRejected).

(** Verified by a named person or by the verifier of a chain, for good. *)
Definition accepted (o : PaymentObservation) : Prop :=
  obs_is_final o = true
  ∧ (obs_assurance_level o = Some AlManualApproved ∧ is_some (obs_verified_by_user_id o) = true
     ∨ obs_assurance_level o = Some AlOnchainVerified ∧ obs_source o = SrcOnchain).

(** The intent has a settlement entry. *)
Definition paid (iid : UUID) (d : DB) : Prop :=
  ∃ tx, tx ∈ ledger d ∧ is_settlement tx = true ∧ tx_reference_id tx = Some (uuid_str iid).

(** The intent evidence is about. *)
Definition about_topup (o : PaymentObservation) (d : DB) : Prop :=
  ∃ i, i ∈ intents d ∧ intent_id i = obs_payment_intent_id o ∧ intent_tenant_id i = obs_tenant_id o
       ∧ intent_purpose i = WALLET_TOPUP.

(** Verified evidence was accepted and paid for, and every settlement has
    such evidence, except for the [exempt] entries and for the intent that is
    [owed], being settled right now. *)
Record proven (exempt : LedgerTransaction → Prop) (owed : option UUID) (d : DB) : Prop := {
  pv_books : books d;
  pv_topups : ∀ i, i ∈ intents d → no_order i;
  pv_ids : NoDup (obs_id <$> observations d);
  pv_chain : ∀ o x, o ∈ observations d → x ∈ observations d →
    is_some (chain_reference o) = true → chain_reference x = chain_reference o → x = o;
  pv_about : ∀ o, o ∈ observations d → about_topup o d;
  pv_paid : ∀ o, o ∈ observations d → obs_status o = ObsVerified →
    accepted o ∧ (owed = Some (obs_payment_intent_id o) ∨ paid (obs_payment_intent_id o) d);
  pv_evidence : ∀ tx, tx ∈ ledger d → is_settlement tx = true →
    exempt tx ∨ ∃ o, o ∈ observations d ∧ obs_status o = ObsVerified
                     ∧ tx_reference_id tx = Some (uuid_str (obs_payment_intent_id o));
}.

Lemma about_aside o s s' : aside s s' → about_topup o (ses_db s) → about_topup o (ses_db s').
Proof.
  intros Ha (i & Hi & Hid & Ht & Hp). destruct (as_terms _ _ Ha i Hi) as (j & Hj & [= H1 H2 H3 H4]).
  exists j. split_and!; congruence.
Qed.

Lemma paid_aside iid s s' : aside s s' → paid iid (ses_db s) → paid iid (ses_db s').
Proof. intros Ha (tx & Htx & H1 & H2). exists tx. split_and!; [by apply (as_ledger _ _ Ha)|done..]. Qed.

(** What happens elsewhere keeps the books and needs no evidence. *)
Lemma proven_aside s s' :
  aside s s' → books (ses_db s') → proven (λ _, True) None (ses_db s) → proven (λ _, True) None (ses_db s').
Proof.
  intros Ha Hb [_ Ht Hids Hch Hab Hpd _]. pose proof (as_observations _ _ Ha) as Ho.
  split; [done|by apply (as_topups _ _ Ha)|by rewrite Ho|by rewrite Ho| | |by left]; intros o; rewrite Ho; intros Hin.
  - eapply about_aside; [exact Ha|by apply Hab].
  - intros Hv. destruct (Hpd o Hin Hv) as [? [?|?]]; [done|]. split; [done|]. right. by eapply paid_aside.
Qed.

(** Tables other than intents, wallets, ledger and observations do not matter. *)
Lemma proven_same E w s s' :
  same_books s s' → observations (ses_db s') = observations (ses_db s) →
  proven E w (ses_db s) → proven E w (ses_db s').
Proof.
  intros Hsb Ho [Hb Ht Hids Hch Hab Hpd Hev]. pose proof Hsb as (Hi & _ & Hl).
  split; unfold about_topup, paid; rewrite ?Ho, ?Hi, ?Hl; try done. by eapply books_same.
Qed.

(** *** Changing a row *)

Section rows.
  Context (E : LedgerTransaction → Prop).

Lemma observation_ids oid f d :
  (∀ x, x ∈ observations d → obs_id x = oid → obs_id (f x) = obs_id x) →
  obs_id <$> update_row oid f (observations d) = obs_id <$> observations d.
Proof. apply (update_row_ids oid f). Qed.

Lemma update_one (o : PaymentObservation) f d x :
  NoDup (obs_id <$> observations d) → o ∈ observations d →
  x ∈ update_row (obs_id o) f (observations d) ↔ x = f o ∨ x ∈ observations d ∧ obs_id x ≠ obs_id o.
Proof.
  intros Hnd Ho. split.
  - intros (y & Hy & ->)%elem_of_update_where. case_bool_decide as Hc; [|by right]. left. f_equal.
    by eapply NoDup_fmap_inj.
  - intros Hx. apply elem_of_update_where. destruct Hx as [->|[Hx Hne]].
    + exists o. split; [done|]. by rewrite bool_decide_eq_true_2.
    + exists x. split; [done|]. by rewrite bool_decide_eq_false_2.
Qed.

Lemma claim_chain o x : claim_of x = claim_of o → chain_reference x = chain_reference o.
Proof. unfold chain_reference. by intros [= _ _ _ _ _ -> -> -> _]. Qed.

(** The row [o] becomes [f o]: it either stays as verified as it was, or it is
    verified now, accepted, and its intent is owed. *)
Lemma proven_update w o f d :
  proven E None d → o ∈ observations d → claim_of (f o) = claim_of o →
  (obs_status o = ObsVerified → obs_status (f o) = ObsVerified) →
  (obs_status (f o) = ObsVerified →
   accepted (f o) ∧ (w = Some (obs_payment_intent_id o) ∨ obs_status o = ObsVerified)) →
  proven E w (d <| observations ::= update_row (obs_id o) f |>).
Proof.
  intros [Hb Ht Hids Hch Hab Hpd Hev] Ho Hcl Hstay Hnew. apply claim_chain in Hcl as Hchain.
  injection Hcl as Hid Hten Hint _ _ _ _ _ _.
  pose proof (λ x, update_one o f d x Hids Ho) as Hrow. split; cbn; [by apply (books_frame d)|done| | | | |].
  - rewrite observation_ids; [done|]. intros x Hx Heq.
    by rewrite (NoDup_fmap_inj obs_id (observations d) x o Hids Hx Ho Heq).
  - intros x y [->|[Hx Hxo]]%Hrow [->|[Hy Hyo]]%Hrow; rewrite ?Hchain; intros Hs Heq; [done|..].
    + by destruct Hyo; rewrite (Hch o y Ho Hy Hs Heq).
    + by destruct Hxo; rewrite <- (Hch x o Hx Ho Hs Heq).
    + by apply Hch.
  - intros x [->|[Hx _]]%Hrow; [|by apply Hab]. destruct (Hab o Ho) as (i & Hi).
    exists i. by rewrite Hint, Hten.
  - intros x [->|[Hx _]]%Hrow Hv.
    + destruct (Hnew Hv) as [Hacc Hor]. rewrite Hint. split; [done|]. destruct Hor as [->|Hv']; [by left|].
      destruct (Hpd o Ho Hv') as [_ [?|?]]; [done|by right].
    + destruct (Hpd x Hx Hv) as [? [?|?]]; [done|]. split; [done|by right].
  - intros tx Htx Hs. destruct (Hev tx Htx Hs) as [He|(x & Hx & Hv & Href)]; [by left|]. right.
    destruct (decide (obs_id x = obs_id o)) as [Heq|Hne].
    + rewrite (NoDup_fmap_inj obs_id (observations d) x o Hids Hx Ho Heq) in *. exists (f o).
      split_and!; [apply Hrow; auto|by apply Hstay|by rewrite Hint].
    + exists x. split_and!; [apply Hrow; auto|done..].
Qed.

End rows.

(** ** Settling *)

(** [hard m]: what [m] raises is not a payment error. *)
Definition hard {A} (m : M A) : Prop := ∀ s e s', m s = (Raise e, s') → is_payment_error e = false.

Lemma hard_bind {A B} (m : M A) (k : A → M B) : hard m → (∀ a, hard (k a)) → hard (m ≫= k).
Proof. intros Hm Hk s e s' [Hr|(a & s1 & _ & Hr)]%bind_inv_raise; [by eapply Hm|by eapply Hk]. Qed.

Lemma hard_catch {A} (m : M A) h :
  hard m → (∀ e, is_payment_error e = false → hard (h e)) → hard (catch m h).
Proof.
  intros Hm Hh s e s' Hr. unfold catch in Hr. destruct (m s) as [[a|e1] s1] eqn:H1; [done|].
  eapply Hh; [by eapply Hm|exact Hr].
Qed.

Lemma hard_nested {A} (m : M A) : hard m → hard (begin_nested m).
Proof.
  intros Hm s e s' Hr. unfold begin_nested in Hr. destruct (m s) as [[a|e1] s1] eqn:H1; [done|].
  injection Hr as <- _. by eapply Hm.
Qed.

Lemma hard_throw {A} e : is_payment_error e = false → hard (mthrow e : M A).
Proof. by intros He s e' s' [= -> _]. Qed.

Lemma hard_raise_if c e : is_payment_error e = false → hard (raise_if c e : M unit).
Proof. intros He. destruct c; [by apply hard_throw|done]. Qed.

Lemma hard_of_option {A} e (o : option A) : is_payment_error e = false → hard (of_option e o : M A).
Proof. intros He. destruct o; [done|by apply hard_throw]. Qed.

Lemma hard_one_or_none {A} (l : list A) : hard (one_or_none l).
Proof. destruct l as [|? []]; [done..|by apply hard_throw]. Qed.

Lemma hard_varchar n v : hard (to_varchar n v).
Proof. unfold to_varchar. case_match; [by apply hard_throw|done]. Qed.

Lemma hard_transition i st : hard (intent_transition_to i st).
Proof.
  unfold intent_transition_to. apply hard_bind; [|done]. intros s e s' Hr. unfold transition in Hr.
  by repeat (case_match; simplify_eq/=; try (injection Hr as <- _)).
Qed.

(** Walks through a program that raises no payment error. *)
Ltac hard_walk :=
  repeat first
    [ done
    | solve [eauto 2]
    | apply hard_transition
    | apply hard_bind; [|intros ?]
    | apply hard_catch; [|intros ? ?]
    | apply hard_nested
    | by apply hard_throw
    | by apply hard_raise_if
    | by apply hard_of_option
    | apply hard_one_or_none
    | apply hard_varchar
    | match goal with |- hard (match ?x with _ => _ end) => destruct x end ].

Section settling.
  Context `{HE : Env} `{!Serial HE}.

Lemma hard_wait n read : hard (wait_for_entry n read).
Proof. induction n as [|n IH]; cbn [wait_for_entry]; hard_walk. Qed.

Lemma hard_get_wallet t u c : hard (get_or_create_wallet t u c).
Proof. unfold get_or_create_wallet, insert_wallet. hard_walk. Qed.

Lemma hard_settle_payment w a iid desc : hard (settle_payment w a iid desc).
Proof.
  pose proof hard_wait. unfold settle_payment, lock_wallet, flush_entry, to_numeric, return_existing. hard_walk.
Qed.

Lemma hard_settle_topup i :
  intent_order_id i = None → hard (_settle_wallet_topup i (Some (intent_amount i)) (Some (intent_currency i))).
Proof.
  intros Ho. pose proof hard_get_wallet. pose proof hard_settle_payment.
  unfold _settle_wallet_topup, verify_settlement, mark_succeeded, insert_payment_tx, to_numeric, to_varchar_opt.
  rewrite Ho, (bool_decide_eq_true_2 (Some (intent_amount i) = _)),
    (bool_decide_eq_true_2 (Some (intent_currency i) = _)) by done. cbn [is_some negb andb]. hard_walk.
Qed.

Lemma hard_settle i s e s' :
  in_books s → i ∈ intents (ses_db s) → intent_purpose i = WALLET_TOPUP → intent_order_id i = None →
  settle_payment_intent (intent_tenant_id i) (intent_id i) (Some (intent_amount i)) (Some (intent_currency i)) s
    = (Raise e, s') → is_payment_error e = false.
Proof.
  intros Hb Hi Hp Ho. unfold settle_payment_intent. rewrite (bind_ok _ _ _ _ _ (get_intent_found i s Hb Hi)).
  rewrite Hp, bool_decide_eq_true_2 by done. by apply hard_settle_topup.
Qed.

(** A settlement that returns pays what is owed. *)
Lemma settle_owed E t iid a c o s r s' :
  proven E (Some iid) (ses_db s) → o ∈ observations (ses_db s) → obs_status o = ObsVerified →
  obs_payment_intent_id o = iid → settle_payment_intent t iid a c s = (Ok r, s') → proven E None (ses_db s').
Proof.
  intros [Hb Ht Hids Hch Hab Hpd Hev] Ho Hv <- Hr. pose proof (steps_run _ _ _ _ _ (aside_settle _ _ _ _) Hr) as Has.
  pose proof (as_observations _ _ Has) as Hobs.
  apply settle_payment_intent_spec in Hr as (i & Hi & Hid & _ & [[Hins (tx & Htx & Hl) Hb'] _ _ _]); [|done].
  assert (tx ∈ ledger (ses_db s') ∧ ∀ x, x ∈ ledger (ses_db s') → x ∈ ledger (ses_db s) ∨ x = tx) as [Hin Hnew].
  { case_bool_decide; [destruct Hl as [? ->]; by auto|]. rewrite Hl.
    split; [apply elem_of_app; right; left|]. intros x [?|?%list_elem_of_singleton]%elem_of_app; auto. }
  destruct (st_reference _ _ _ Htx) as [Hty Href]. rewrite Hid in Href.
  split; [done|by apply (as_topups _ _ Has)|by rewrite Hobs|by rewrite Hobs| | |]; rewrite ?Hobs.
  - intros x Hx. eapply about_aside; [exact Has|by apply Hab].
  - intros x Hx Hvx. destruct (Hpd x Hx Hvx) as [Hacc [[= Heq]|Hpx]]; (split; [done|]; right).
    + exists tx. rewrite <- Heq. split_and!; [done|by apply bool_decide_eq_true|done].
    + by eapply paid_aside.
  - intros x [Hx| ->]%Hnew Hs; [by apply Hev|]. right. by exists o.
Qed.

End settling.

(** ** The operations *)

(** After a payment error, or without any, the evidence is proven. *)
Definition kept {A} (E : LedgerTransaction → Prop) (r : outcome exn A) (s : Session) : Prop :=
  match r with Ok _ => True | Raise e => is_payment_error e = true end → proven E None (ses_db s).

(** The evidence is proven and [o] is an unverified row of it. *)
Record at_row (E : LedgerTransaction → Prop) (o : PaymentObservation) (s : Session) : Prop := {
  ar_proven : proven E None (ses_db s);
  ar_row : o ∈ observations (ses_db s);
  ar_open : obs_status o ≠ ObsVerified;
}.

Section operations.
  Context `{HE : Env} `{!Serial HE} (E : LedgerTransaction → Prop).

Lemma wp_proven {A} (m : M A) s : proven E None (ses_db s) → steps same_db m → wp m (kept E) s.
Proof. intros Hp Hm _. by rewrite (Hm s). Qed.

Lemma kept_proven {A} (r : outcome exn A) s : proven E None (ses_db s) → kept E r s.
Proof. by intros Hp _. Qed.

Hint Resolve kept_proven : core.

Lemma get_observation_reads t i : steps eq (get_observation t i).
Proof. unfold get_observation. steps_walk. Qed.

Lemma get_observation_ok t i s o s' :
  get_observation t i s = (Ok o, s') →
  s' = s ∧ o ∈ observations (ses_db s) ∧ obs_id o = i ∧ obs_tenant_id o = t.
Proof.
  unfold get_observation. intros Hr. bind_query Hr. apply bind_inv_ok in Hr as (x & s1 & Hx & Hr).
  apply of_option_ok in Hr as [-> ->]. apply one_or_none_some in Hx as [Hs ->].
  assert (o ∈ select (λ o, (obs_id o == i) && (obs_tenant_id o == t)) (observations (ses_db s)))
    as [Hin [Hi Ht]%andb_true_iff]%elem_of_select by (rewrite Hs; left).
  rewrite bool_decide_eq_true in Hi, Ht. done.
Qed.

Lemma get_method_reads t i b : steps eq (get_method t i b).
Proof. unfold get_method. steps_walk. Qed.

Lemma get_intent_reads t i : steps eq (get_payment_intent t i).
Proof. unfold get_payment_intent. steps_walk. Qed.

(** A change that does not verify. *)
Lemma wp_update {A} o f (k : M A) Q s :
  at_row E o s → claim_of (f o) = claim_of o → obs_status (f o) ≠ ObsVerified →
  (∀ s', at_row E (f o) s' → wp k Q s') → wp (update_observation (obs_id o) f;; k) Q s.
Proof.
  intros [Hp Ho Hst] Hcl Hne Hk. eapply wp_step; [reflexivity|]. apply Hk. split; [| |done].
  - by apply proven_update.
  - apply elem_of_update_where. exists o. split; [done|]. by rewrite bool_decide_eq_true_2.
Qed.

Lemma observation_columns_reads o : steps eq (observation_columns o).
Proof. unfold observation_columns, to_varchar_opt, to_numeric_opt. steps_walk. Qed.

Lemma hard_columns o : hard (observation_columns o).
Proof. unfold observation_columns, to_varchar_opt, to_numeric_opt, to_numeric. hard_walk. Qed.

Lemma columns_ok o s x s' :
  observation_columns o s = (Ok x, s') →
  s' = s ∧ ∃ a b, x = o <| obs_asset_amount := a |> <| obs_settlement_amount := b |>.
Proof.
  intros Hr. split; [by rewrite (steps_run _ _ _ _ _ (observation_columns_reads o) Hr)|].
  unfold observation_columns, to_numeric_opt in Hr.
  repeat (apply bind_inv_ok in Hr as (? & ? & _ & Hr)). apply ret_inv in Hr as [[= ->] _]. eauto.
Qed.

(** A flush rounds amounts. *)
Lemma wp_flush o s : proven E None (ses_db s) → wp (flush_observation o) (kept E) s.
Proof.
  intros Hp. unfold flush_observation. apply wp_gets. set (row := default o _).
  apply wp_read; [apply observation_columns_reads| |by auto]. intros x (_ & a & b & ->)%columns_ok.
  eapply wp_step; [reflexivity|]. apply wp_ret, kept_proven. subst row.
  destruct (get_row (obs_id o) (observations (ses_db s))) as [y|] eqn:Hg; cbn [default].
  - apply get_row_Some in Hg as [Hy Hid]. change (row_id y) with (obs_id y) in Hid. rewrite <- Hid.
    apply (proven_update E None y (λ _, y <| obs_asset_amount := a |> <| obs_settlement_amount := b |>)
      (ses_db s)); try done. intros Hv. destruct (pv_paid _ _ _ Hp y Hy Hv) as [Hacc _]. auto.
  - rewrite get_row_None in Hg. eapply proven_same; [| |exact Hp]; [done|]. cbn.
    apply update_where_id. intros y Hy Heq. rewrite bool_decide_eq_true in Heq. by destruct (Hg y Hy).
Qed.

(** The row is verified and its intent settled. *)
Lemma wp_verify {A} o i f t (k : M A) s :
  at_row E o s → i ∈ intents (ses_db s) → intent_id i = obs_payment_intent_id o → intent_tenant_id i = t →
  claim_of (f o) = claim_of o → obs_status (f o) = ObsVerified → accepted (f o) →
  (∀ s', proven E None (ses_db s') → wp k (kept E) s') →
  wp (update_observation (obs_id o) f;;
      settle_payment_intent t (intent_id i) (Some (intent_amount i)) (Some (intent_currency i));; k)
    (kept E) s.
Proof.
  intros [Hp Ho Hst] Hi Hid <- Hcl Hv Hacc Hk. eapply wp_step; [reflexivity|]. set (s1 := _ <| ses_db ::= _ |>).
  assert (proven E (Some (intent_id i)) (ses_db s1)) as Hp1.
  { apply proven_update; try done. intros _. split; [done|]. left. by rewrite Hid. }
  assert (f o ∈ observations (ses_db s1)) as Hf.
  { apply elem_of_update_where. exists o. split; [done|]. by rewrite bool_decide_eq_true_2. }
  apply wp_bind, wp_intro. intros [[r tx]|e] s2 Hr.
  - apply Hk. eapply settle_owed; [exact Hp1|exact Hf|done| |exact Hr].
    injection Hcl as _ _ Hint _ _ _ _ _ _. congruence.
  - intros He. destruct (pv_about _ _ _ Hp o Ho) as (j & Hj & Hjid & _ & Hpur).
    assert (j = i) as -> by (eapply NoDup_fmap_inj; [apply (bk_ids _ (pv_books _ _ _ Hp))|done..|congruence]).
    apply hard_settle in Hr; [congruence|by apply (pv_books _ _ _ Hp1)|done|done|].
    by apply (pv_topups _ _ _ Hp).
Qed.

Lemma reject_proven t i u reason s : proven E None (ses_db s) → wp (reject_observation t i u reason) (kept E) s.
Proof.
  intros Hp. unfold reject_observation. apply wp_read; [apply get_observation_reads| |by auto].
  intros o (_ & Ho & <- & _)%get_observation_ok. apply wp_guard; [|by auto]. intros Hv%bool_decide_eq_false.
  case_bool_decide; [by apply wp_ret, kept_proven|]. apply wp_guard; [|by auto]. intros _. apply wp_gets.
  apply (wp_update o); [by split|done..|]. intros s' [? _ _]. by apply wp_flush.
Qed.

Lemma approve_proven t i u a c s :
  proven E None (ses_db s) → wp (approve_manual_observation t i u a c) (λ r s', is_ok r = true → kept E r s') s.
Proof.
  intros Hp. unfold approve_manual_observation. apply wp_read; [apply get_observation_reads| |by auto].
  intros o (_ & Ho & <- & Ht)%get_observation_ok. case_bool_decide as Hv.
  { apply wp_bind, wp_intro. intros [[r tx]|e] s1 Hr; [|by auto]. apply wp_ret. intros _ _.
    eapply settle_owed; [| exact Ho|done|done|exact Hr]. destruct Hp as [? ? ? ? ? Hpd ?]. split; try done.
    intros x Hx Hvx. destruct (Hpd x Hx Hvx) as [? [?|?]]; [done|auto]. }
  do 2 (apply wp_guard; [intros _|done]). apply wp_read; [apply get_intent_reads| |by auto].
  intros x (_ & Hx & Hid & Htx)%get_payment_intent_ok. apply wp_guard; [intros _|by auto]. apply wp_gets.
  eapply wp_mono; [apply (wp_verify o x); try done|by intros].
  - split; [done|]. left. done.
  - intros s' Hp'. by apply wp_flush.
Qed.

(** *** The chain *)

Lemma claim_id o x : claim_of x = claim_of o → obs_id x = obs_id o.
Proof. by intros [= -> _]. Qed.

Lemma wp_review o x reason settlement s :
  at_row E x s → claim_of x = claim_of o →
  wp (update_observation (obs_id o) (for_review reason settlement);; flush_observation o) (kept E) s.
Proof.
  intros Hx Hcl. rewrite <- (claim_id _ _ Hcl). apply (wp_update x); [done|..].
  - by destruct settlement as [[]|], reason.
  - by destruct settlement as [[]|], reason.
  - intros s' [Hp _ _]. by apply wp_flush.
Qed.

Lemma quote_matches q i m n a r :
  quote_mismatch q i m n a r = Ok false →
  pq_settlement_amount q = intent_amount i ∧ pq_settlement_currency q = intent_currency i.
Proof.
  unfold quote_mismatch. destruct (_ || _ || _ || _) eqn:Hm; [done|]. intros _.
  rewrite !orb_false_iff, !negb_false_iff, !bool_decide_eq_true, Z.eqb_eq in Hm. tauto.
Qed.

Lemma conclude_proven `{OnChainRegistry} t o x m n a r s :
  at_row E x s → claim_of x = claim_of o → obs_source x = SrcOnchain → obs_is_final x = true →
  wp (conclude t o m n a r) (kept E) s.
Proof.
  intros Hx Hcl Hsrc Hfin. unfold conclude. pose proof (ar_proven _ _ _ Hx) as Hp.
  apply wp_read; [apply get_intent_reads| |by auto]. intros i (_ & Hi & Hid & Ht)%get_payment_intent_ok.
  apply wp_gets. destruct (_ ← _; _) as [q|]; [|by apply (wp_review o x)].
  do 2 (apply wp_guard; [intros _|by auto]). apply wp_gets. destruct (_ <? _); [by apply (wp_review o x)|].
  apply wp_of_outcome; [|by auto]. intros [] Hq; [by apply (wp_review o x)|].
  apply quote_matches in Hq as [-> ->]. apply wp_gets. rewrite <- (claim_id _ _ Hcl).
  apply (wp_verify x i); [done|done| |done..| |].
  - injection Hcl as _ _ Hint _ _ _ _ _ _. congruence.
  - split; [done|]. by right.
  - intros s' Hp'. by apply wp_flush.
Qed.

Lemma report_proven `{OnChainRegistry} t o m name n a r s :
  at_row E o s → obs_source o = SrcOnchain → wp (apply_report t o m name n a r) (kept E) s.
Proof.
  intros Ho Hsrc. unfold apply_report. apply wp_gets. destruct (oc_succeeded r); cbn [negb].
  - apply (wp_update o); [done|done|by apply (ar_open _ _ _ Ho)|]. intros s1 H1.
    destruct (oc_is_final r) eqn:Hf; cbn [negb].
    + eapply conclude_proven; [exact H1|done..].
    + apply (wp_update _ _ _ _ _ H1); [done..|].
      intros s2 [Hp _ _]. by apply wp_flush.
  - apply (wp_update o); [done..|]. intros s1 [Hp _ _]. by apply wp_flush.
Qed.

Lemma verify_proven `{OnChainRegistry} t i s :
  proven E None (ses_db s) → wp (verify_onchain_observation t i) (kept E) s.
Proof.
  intros Hp. unfold verify_onchain_observation. apply wp_read; [apply get_observation_reads| |by auto].
  intros o (_ & Ho & Hid & Ht)%get_observation_ok. apply wp_guard; [|by auto]. intros Hsrc.
  rewrite negb_false_iff, bool_decide_eq_true in Hsrc. case_bool_decide as Hv; [by apply wp_ret, kept_proven|].
  apply wp_guard; [|by auto]. intros _. apply wp_read; [apply get_method_reads| |by auto]. intros m _.
  apply wp_guard; [|by auto]. intros _. apply wp_of_outcome; [|by auto]. intros v _. apply wp_gets.
  do 2 (apply wp_of_outcome; [|by auto]; intros ? _). apply report_proven; [by split|done].
Qed.

(** *** The worker *)

Lemma verify_each_proven `{OnChainRegistry} l stats s :
  proven E None (ses_db s) → wp (verify_each l stats) (λ r s', is_ok r = true → proven E None (ses_db s')) s.
Proof.
  revert stats s. induction l as [|o l IH]; intros stats s Hp; cbn [verify_each]; [by apply wp_ret|].
  apply wp_bind, wp_catch, wp_bind. eapply wp_mono; [by apply verify_proven|].
  intros [x|e] s1 Hk; cbn beta iota.
  - apply wp_ret. by apply IH, Hk.
  - unfold passed_observation. case_bool_decide as He.
    + apply wp_ret. apply IH, Hk. by rewrite He.
    + destruct (is_payment_error e) eqn:Hpe; [|by apply wp_throw]. apply wp_ret. by apply IH, Hk.
Qed.

Lemma flush_all_proven l s :
  proven E None (ses_db s) → wp (flush_all l) (λ r s', is_ok r = true → proven E None (ses_db s')) s.
Proof.
  unfold flush_all. revert s. induction l as [|o l IH]; intros s Hp; cbn [for_each]; [by apply wp_ret|].
  apply wp_bind, wp_bind. eapply wp_mono; [by apply wp_flush|]. intros [x|e] s1 Hk; cbn beta iota; [|done].
  apply wp_ret. by apply IH, Hk.
Qed.

Lemma run_once_proven `{OnChainRegistry} n s a s' :
  proven E None (ses_db s) → onchain_run_once n s = (Ok a, s') → proven E None (ses_db s').
Proof.
  intros Hp Hr. unfold onchain_run_once in Hr. destruct (_ =? _)%nat; [by apply ret_inv in Hr as [_ ->]|].
  bind_query Hr. apply bind_inv_ok in Hr as (stats & s1 & H1 & Hr).
  apply bind_inv_ok in Hr as (u & s2 & H2 & [_ ->]%ret_inv).
  apply (wp_run _ _ _ _ _ (flush_all_proven _ _ (wp_run _ _ _ _ _ (verify_each_proven _ _ _ Hp) H1 eq_refl)) H2 eq_refl).
Qed.

End operations.

(** *** New rows *)

Definition elsewhere (s s' : Session) : Prop :=
  same_books s s' ∧ observations (ses_db s') = observations (ses_db s).

Global Instance elsewhere_preorder : PreOrder elsewhere.
Proof.
  split; unfold elsewhere; [by intros s|]. intros x y z [? H1] [? H2].
  split; [by etransitivity|]. by rewrite H2, H1.
Qed.

Lemma elsewhere_write f :
  (∀ d, intents (f d) = intents d ∧ wallets (f d) = wallets d ∧ ledger (f d) = ledger d
        ∧ observations (f d) = observations d) →
  steps elsewhere (write f).
Proof. intros Hf s. destruct (Hf (ses_db s)) as (? & ? & ? & ?). by split. Qed.

Lemma elsewhere_uuid4 `{Env} : steps elsewhere uuid4.
Proof. by intros s. Qed.

Lemma elsewhere_await `{HE : Env} `{!Serial HE} : steps elsewhere await_others.
Proof. intros s. unfold elsewhere, same_books. cbn. by rewrite serial_race. Qed.

Lemma elsewhere_nested {A} (m : M A) : steps elsewhere m → steps elsewhere (begin_nested m).
Proof.
  intros Hm s. specialize (Hm s). unfold begin_nested. by destruct (m s) as [[a|e] s'].
Qed.

Lemma elsewhere_varchar_opt n v : steps elsewhere (to_varchar_opt n v).
Proof. unfold to_varchar_opt. steps_walk. Qed.

#[export] Hint Resolve elsewhere_uuid4 elsewhere_await elsewhere_nested elsewhere_varchar_opt : steps.
#[export] Hint Extern 2 (steps elsewhere (write _)) => by apply elsewhere_write : steps.

(** An insertion under a savepoint that returned, or what followed a conflict. *)
Lemma except_nested {A} (m h : M A) s r s' :
  except_integrity (begin_nested m) h s = (Ok r, s') →
  m s = (Ok r, s') ∨ ∃ s1, ses_db s1 = ses_db s ∧ h s1 = (Ok r, s').
Proof.
  unfold except_integrity. intros [Hr%begin_nested_ok|(e & s1 & Hm%begin_nested_raise & Hr)]%catch_inv_ok; [by left|].
  right. exists s1. split; [done|]. by destruct e.
Qed.

Section insertions.
  Context `{HE : Env} `{!Serial HE} (E : LedgerTransaction → Prop).

Lemma elsewhere_create_method r : steps elsewhere (create_method r).
Proof.
  unfold create_method, except_integrity, insert_method, method_columns. steps_walk.
  all: apply elsewhere_nested; steps_walk.
Qed.

Lemma elsewhere_update_method t i u : steps elsewhere (update_method t i u).
Proof.
  unfold update_method, get_method, flush_method, method_columns, assign, update_pmc. steps_walk.
Qed.

Lemma elsewhere_set_enabled t i b : steps elsewhere (set_method_enabled t i b).
Proof. unfold set_method_enabled, get_method, flush_method, method_columns, update_pmc. steps_walk. Qed.

Lemma elsewhere_quote r : steps elsewhere (record_quote r).
Proof.
  unfold record_quote, get_payment_intent, get_method, except_integrity, insert_payment_quote. steps_walk.
  all: apply elsewhere_nested; steps_walk.
Qed.

Lemma proven_elsewhere {A} (m : M A) s r s' :
  steps elsewhere m → proven E None (ses_db s) → m s = (r, s') → proven E None (ses_db s').
Proof. intros Hm Hp Hr. destruct (steps_run _ _ _ _ _ Hm Hr). by eapply proven_same. Qed.

Lemma insert_observation_ok f s o s' :
  insert_observation f s = (Ok o, s') →
  (∃ u c a b, o = (f u c) <| obs_asset_amount := a |> <| obs_settlement_amount := b |>)
  ∧ (∀ x, x ∈ observations (ses_db s) → observation_conflict o x = false)
  ∧ ses_db s' = (ses_db s) <| observations ::= λ t, t ++ [o] |>.
Proof.
  unfold insert_observation. intros Hr. apply bind_inv_ok in Hr as (c & s1 & Hc & Hr). apply gets_inv in Hc as [_ ->].
  apply bind_inv_ok in Hr as (u & s1 & Hu & Hr). injection Hu as Hu Hs1.
  apply bind_inv_ok in Hr as (x & s2 & (-> & a & b & Hx)%columns_ok & Hr). bind_query Hr. bind_guard Hr Hg.
  bind_write Hr. apply ret_inv in Hr as [[= <-] ->]. subst s1. split_and!; [by exists u, c, a, b| |done].
  intros y Hy. destruct (observation_conflict o y) eqn:Hcy; [|done].
  rewrite <- not_true_iff_false in Hg. destruct Hg. apply existsb_exists. exists y.
  by rewrite <- list_elem_of_In.
Qed.

Lemma conflict_id o x : observation_conflict o x = false → obs_id o ≠ obs_id x.
Proof. unfold observation_conflict. rewrite !orb_false_iff, bool_decide_eq_false. tauto. Qed.

Lemma nodup_add o (l : list PaymentObservation) :
  (∀ x, x ∈ l → observation_conflict o x = false) → NoDup (obs_id <$> l) → NoDup (obs_id <$> l ++ [o]).
Proof.
  intros Hnew Hnd. rewrite fmap_app. apply list.NoDup_app. split_and!; [done| |by apply list.NoDup_singleton].
  intros i (x & Hix & Hx)%list_elem_of_fmap Hi%list_elem_of_singleton.
  apply (conflict_id o x (Hnew x Hx)). congruence.
Qed.

Lemma conflict_chain o x :
  observation_conflict o x = false → is_some (chain_reference o) = true → chain_reference x ≠ chain_reference o.
Proof.
  unfold observation_conflict. rewrite !orb_false_iff. intros [_ Hc] Hs Heq. rewrite Hs in Hc.
  by rewrite bool_decide_eq_true_2 in Hc.
Qed.

Lemma proven_add o d :
  proven E None d → (∀ x, x ∈ observations d → observation_conflict o x = false) →
  obs_status o ≠ ObsVerified → about_topup o d → proven E None (d <| observations ::= λ t, t ++ [o] |>).
Proof.
  intros [Hb Ht Hids Hch Hab Hpd Hev] Hnew Hst Ho. split; cbn; [by apply (books_frame d)|done| | | | |].
  - by apply nodup_add.
  - intros x y [Hx|Hx%list_elem_of_singleton]%elem_of_app [Hy|Hy%list_elem_of_singleton]%elem_of_app Hs Heq;
      [by apply Hch| | |congruence]; subst.
    + by destruct (conflict_chain o x (Hnew x Hx)); rewrite Heq.
    + by destruct (conflict_chain o y (Hnew y Hy)).
  - intros x [Hx|Hx%list_elem_of_singleton]%elem_of_app; [by apply Hab|by subst].
  - intros x [Hx|Hx%list_elem_of_singleton]%elem_of_app; [by apply Hpd|by subst].
  - intros tx Htx Hs. destruct (Hev tx Htx Hs) as [?|(x & Hx & ?)]; [by left|]. right. exists x.
    split; [apply elem_of_app; by left|done].
Qed.

Lemma submit_proven r s o s' :
  proven E None (ses_db s) → submit_observation r s = (Ok o, s') → proven E None (ses_db s').
Proof.
  intros Hp Hr. unfold submit_observation in Hr. cbv zeta in Hr.
  apply bind_inv_ok in Hr as (i & s1 & (-> & Hi & Hid & Ht)%get_payment_intent_ok & Hr).
  bind_guard Hr Hg. rewrite orb_false_iff, !negb_false_iff, !bool_decide_eq_true in Hg. destruct Hg as [_ Hpur].
  bind_some Hr mid Hmid. bind_guard Hr Hterm.
  apply bind_inv_ok in Hr as (m & s1 & Hm & Hr). apply (reads_books _ _ _ _ (get_method_reads _ _ _)) in Hm as ->.
  bind_guard Hr Hsrc. bind_guard Hr Hpos. bind_value Hr asset Ha. bind_value Hr network Hn. bind_query Hr.
  apply bind_inv_ok in Hr as ([x|] & s1 & Hx & Hr).
  { apply one_or_none_some in Hx as [_ ->]. bind_guard Hr Hg'. by apply ret_inv in Hr as [_ ->]. }
  apply one_or_none_none in Hx as [Hx ->].
  apply bind_inv_ok in Hr as (q & s1 & Hq & Hr).
  apply reads_books in Hq as ->; [|unfold _latest_live_quote; steps_walk].
  apply bind_inv_ok in Hr as (n & s1 & Hnow & Hr). apply gets_inv in Hnow as [_ ->].
  bind_value Hr details Hd. bind_write Hr. cbn in Hr. rewrite serial_race in Hr.
  apply except_nested in Hr as [(( u & c & a & b & ->) & Hnew & Hdb)%insert_observation_ok|(s1 & Hd1 & Hr)].
  - rewrite Hdb. cbn in Hnew |- *. rewrite ?serial_race in *. apply proven_add; [done..| |].
    + cbn. by case_bool_decide.
    + exists i. by split_and!.
  - bind_query Hr. apply bind_inv_ok in Hr as (again & s2 & Hag & Hr). apply of_option_ok in Hr as [-> ->].
    apply one_or_none_some in Hag as [Hag _]. rewrite Hd1 in Hag. cbn in Hag. rewrite ?serial_race in Hag.
    by rewrite Hag in Hx.
Qed.

Lemma proven_intent f s i s' :
  proven E None (ses_db s) → (∀ u, no_order (f u)) → (∀ u, intent_status (f u) ≠ PaySucceeded) →
  insert_intent f s = (Ok i, s') → proven E None (ses_db s').
Proof.
  intros [Hb Ht Hids Hch Hab Hpd Hev] Hno Hst Hr.
  pose proof (steps_run _ _ _ _ _ (aside_insert_intent f Hno) Hr) as Has.
  apply insert_intent_ok in Hr as ((a & Hi & Ham) & Hnew & Hdb).
  assert (ledger (ses_db s') = ledger (ses_db s)) as Hl by (by rewrite Hdb).
  split; rewrite ?(as_observations _ _ Has), ?Hl; try done.
  - rewrite Hdb. apply books_new_intent; [done|by rewrite Hi|rewrite Hi; apply Hst|done].
  - by apply (as_topups _ _ Has).
  - intros o Ho. eapply about_aside; [exact Has|by apply Hab].
  - intros o Ho Hv. unfold paid. rewrite Hl. by apply Hpd.
Qed.

Lemma local_topup_proven t u mid a c k s i s' :
  proven E None (ses_db s) → create_local_topup_intent t u mid a c k s = (Ok i, s') → proven E None (ses_db s').
Proof.
  intros Hp Hr. unfold create_local_topup_intent in Hr. bind_guard Hr Hk.
  apply bind_inv_ok in Hr as (m & s1 & Hm & Hr). apply (reads_books _ _ _ _ (get_method_reads _ _ _)) in Hm as ->.
  bind_guard Hr Hpb. bind_value Hr n Hn. destruct n as [amount currency]. bind_value Hr v Hv. bind_query Hr.
  apply bind_inv_ok in Hr as ([x|] & s1 & Hx & Hr).
  { apply one_or_none_some in Hx as [_ ->]. bind_guard Hr Hg. by apply ret_inv in Hr as [_ ->]. }
  apply one_or_none_none in Hx as [Hx ->]. bind_write Hr.
  assert (proven E None (ses_db (s <| ses_db ::= env_race |>))) as Hp1 by (cbn; by rewrite serial_race).
  apply except_nested in Hr as [Hr|(s1 & Hd1 & Hr)]; [by eapply proven_intent; [exact Hp1| | |exact Hr]|].
  bind_query Hr. apply bind_inv_ok in Hr as (again & s2 & Hag & Hr). destruct again as [x|]; [|done].
  apply one_or_none_some in Hag as [Hag _]. rewrite Hd1 in Hag. cbn in Hag. rewrite ?serial_race in Hag.
  by rewrite Hag in Hx.
Qed.

End insertions.

(** ** Histories *)

(** The requests of the payment platform. *)
Inductive evidence_request :=
  | ReqMethod (r : MethodRequest)
  | ReqMethodUpdate (tenant_id method_id : UUID) (u : MethodUpdate)
  | ReqMethodEnabled (tenant_id method_id : UUID) (is_enabled : bool)
  | ReqLocalTopup (tenant_id user_id method_id : UUID) (amount : dec) (currency key : string)
  | ReqQuote (r : QuoteRequest)
  | ReqSubmit (r : Submission)
  | ReqApprove (tenant_id oid actor : UUID) (amount : option dec) (currency : option string)
  | ReqReject (tenant_id oid actor : UUID) (reason : string)
  | ReqVerify (verifiers : OnChainRegistry) (tenant_id oid : UUID).

Definition handle_evidence `{Env} (r : evidence_request) : M unit :=
  match r with
  | ReqMethod r => create_method r;; mret tt
  | ReqMethodUpdate t i u => update_method t i u;; mret tt
  | ReqMethodEnabled t i b => set_method_enabled t i b;; mret tt
  | ReqLocalTopup t u m a c k => create_local_topup_intent t u m a c k;; mret tt
  | ReqQuote r => record_quote r;; mret tt
  | ReqSubmit r => submit_observation r;; mret tt
  | ReqApprove t o u a c => approve_manual_observation t o u a c;; mret tt
  | ReqReject t o u reason => reject_observation t o u reason;; mret tt
  | ReqVerify verifiers t o => @verify_onchain_observation _ verifiers t o;; mret tt
  end.

(** A request in its transaction, or a pass of the worker with the verifiers
    it has. *)
Inductive evidence_event :=
  | EvEvidence (r : evidence_request)
  | EvOnchain (verifiers : OnChainRegistry) (batch_size : nat).

Definition run_evidence_event `{Env} (s : Session) (ev : evidence_event) : Session :=
  match ev with
  | EvEvidence r => (in_request (handle_evidence r) s).2
  | EvOnchain verifiers n => (@onchain_pass _ verifiers n s).2
  end.

Definition run_evidence `{Env} (evs : list evidence_event) (s : Session) : Session :=
  foldl run_evidence_event s evs.

Section histories.
  Context `{HE : Env} `{!Serial HE}.

Lemma committed_observation t i : steps same_committed (get_observation t i).
Proof. unfold get_observation. steps_walk. Qed.

Lemma committed_flush o : steps same_committed (flush_observation o).
Proof.
  unfold flush_observation, live_observation, observation_columns, to_varchar_opt, to_numeric_opt,
    update_observation. steps_walk.
Qed.

Hint Resolve committed_observation committed_flush committed_settle_intent : steps.

Lemma committed_verify (verifiers : OnChainRegistry) t i :
  steps same_committed (verify_onchain_observation t i).
Proof.
  unfold verify_onchain_observation, apply_report, conclude, get_method, get_payment_intent,
    update_observation. steps_walk.
Qed.

Lemma committed_onchain (verifiers : OnChainRegistry) n : steps same_committed (onchain_run_once n).
Proof.
  pose proof (committed_verify verifiers).
  assert (∀ l st, steps same_committed (verify_each l st)).
  { induction l; intros st; cbn [verify_each]; unfold passed_observation; steps_walk. }
  unfold onchain_run_once, flush_all. steps_walk.
Qed.

Lemma committed_evidence r : steps same_committed (handle_evidence r).
Proof.
  pose proof committed_verify. destruct r; cbn [handle_evidence];
    unfold create_method, update_method, set_method_enabled, flush_method, insert_method, method_columns, assign,
      update_pmc, create_local_topup_intent, record_quote, insert_payment_quote, submit_observation,
      insert_observation, observation_columns, to_numeric_opt, _latest_live_quote, approve_manual_observation,
      reject_observation, get_method, get_payment_intent, update_observation, except_integrity, insert_intent,
      to_varchar_opt; steps_walk.
  all: apply committed_nested; steps_walk.
Qed.

(** A pass that commits at its end commits everything or nothing. *)
Lemma pass_keeps {A} (I : DB → Prop) (m : M A) s :
  persisted s → steps same_committed m → I (ses_db s) →
  (∀ a s', m s = (Ok a, s') → I (ses_db s')) →
  persisted (in_session (a ← m; commit;; mret a) s).2
  ∧ I (ses_db (in_session (a ← m; commit;; mret a) s).2).
Proof.
  intros Hp Hm HI Hok. specialize (Hm s). rewrite in_session_state. split; [done|].
  unfold mbind, prog_bind. cbn. destruct (m s) as [[a|e] s'] eqn:Hr; cbn in *; [by eapply Hok|].
  unfold same_committed, persisted in *. by rewrite Hm, Hp.
Qed.

Lemma handle_proven E r s u s' :
  proven E None (ses_db s) → handle_evidence r s = (Ok u, s') → proven E None (ses_db s').
Proof.
  intros Hp Hr. destruct r; cbn [handle_evidence] in Hr;
    apply bind_inv_ok in Hr as (x & s1 & Hr & [_ ->]%ret_inv).
  - by eapply proven_elsewhere; [apply elsewhere_create_method|..].
  - by eapply proven_elsewhere; [apply elsewhere_update_method|..].
  - by eapply proven_elsewhere; [apply elsewhere_set_enabled|..].
  - by eapply local_topup_proven.
  - by eapply proven_elsewhere; [apply elsewhere_quote|..].
  - by eapply submit_proven.
  - by apply (wp_run _ _ _ _ _ (approve_proven E _ _ _ _ _ _ Hp) Hr).
  - by apply (wp_run _ _ _ _ _ (reject_proven E _ _ _ _ _ Hp) Hr).
  - by apply (wp_run _ _ _ _ _ (verify_proven E _ _ _ Hp) Hr).
Qed.

Lemma event_proven E ev s :
  persisted s → proven E None (ses_db s) →
  persisted (run_evidence_event s ev) ∧ proven E None (ses_db (run_evidence_event s ev)).
Proof.
  intros Hp Hpr. destruct ev as [r|verifiers n]; cbn [run_evidence_event].
  - apply in_request_keeps; [done|apply committed_evidence|done|]. intros u s' Hr. by eapply handle_proven.
  - apply pass_keeps; [done|apply committed_onchain|done|]. intros a s' Hr. by eapply run_once_proven.
Qed.

Lemma run_proven E evs s :
  persisted s → proven E None (ses_db s) →
  persisted (run_evidence evs s) ∧ proven E None (ses_db (run_evidence evs s)).
Proof.
  revert s. induction evs as [|ev evs IH]; intros s Hp Hpr; [done|].
  destruct (event_proven E ev s Hp Hpr). by apply IH.
Qed.

End histories.

(** *** With the rest of the payment traffic *)

Inductive payments_event :=
  | EvOfEvidence (ev : evidence_event)
  | EvOfGateways (world : Gateways) (ev : payment_event).

Definition run_traffic_event `{HE : Env} (s : Session) (ev : payments_event) : Session :=
  match ev with
  | EvOfEvidence ev => run_evidence_event s ev
  | EvOfGateways world ev => @run_event HE world s ev
  end.

Definition run_traffic `{Env} (evs : list payments_event) (s : Session) : Session :=
  foldl run_traffic_event s evs.

Lemma run_traffic_proven `{HE : Env} `{!Serial HE} evs s :
  persisted s → proven (λ _, True) None (ses_db s) →
  persisted (run_traffic evs s) ∧ proven (λ _, True) None (ses_db (run_traffic evs s)).
Proof.
  revert s. induction evs as [|ev evs IH]; intros s Hp Hpr; [done|].
  assert (persisted (run_traffic_event s ev) ∧ proven (λ _, True) None (ses_db (run_traffic_event s ev)))
    as [? ?]; [|by apply IH].
  destruct ev as [ev|world ev]; cbn [run_traffic_event]; [by apply event_proven|].
  destruct (@run_events_books HE _ world [ev] s Hp (pv_books _ _ _ Hpr)) as [Hp' Hb'].
  split; [done|]. eapply proven_aside; [by apply event_aside|done|done].
Qed.

(** What verified evidence has bought: exactly one credit of the amount of its
    intent to the wallet of the payer. *)
Definition credited (o : PaymentObservation) (d : DB) : Prop :=
  ∃ i tx, i ∈ intents d ∧ intent_id i = obs_payment_intent_id o ∧ intent_tenant_id i = obs_tenant_id o
    ∧ intent_purpose i = WALLET_TOPUP ∧ intent_status i = PaySucceeded
    ∧ settlements i d = [tx] ∧ settles d i tx.

Lemma paid_credited E o d :
  proven E None d → o ∈ observations d → obs_status o = ObsVerified → credited o d.
Proof.
  intros Hp Ho Hv. destruct (pv_paid _ _ _ Hp o Ho Hv) as [_ [?|(tx & Htx & Hs & Href)]]; [done|].
  destruct (pv_about _ _ _ Hp o Ho) as (i & Hi & Hid & Ht & Hpur). pose proof (pv_books _ _ _ Hp) as Hb.
  assert (tx ∈ settlements i d) as Hin.
  { apply elem_of_select. split; [done|]. by rewrite Hs, Href, Hid, bool_decide_eq_true_2. }
  destruct (books_entry _ _ _ Hb Hi Hin) as [Hset Hst].
  pose proof (books_balanced _ _ Hb Hi) as Hbal. unfold balanced in Hbal.
  rewrite Hst, bool_decide_eq_true_2 in Hbal by done. destruct Hbal as (x & Hx & Hsx).
  exists i, x. by split_and!.
Qed.

(** [C8] Verified evidence is money, once.  Start from proven evidence (an
    empty database is) and let anything happen: payment methods are created and
    edited, top-ups opened, quotes recorded, evidence submitted, approved,
    rejected and verified on request, the on-chain worker runs with any
    verifiers, and the gateways' requests, webhooks and reconciliation passes
    go on in between.  The worker passes over payment errors and commits what
    they left.  Then an observation that is [VERIFIED] is final and has either
    the name of a person or a chain verifier behind it, its intent is a
    [SUCCEEDED] top-up of the same tenant, and the ledger has exactly one
    settlement entry for that intent: a credit of its amount to its owner's
    wallet.  And no two observations are about the same transaction of the same
    network. *)
Theorem verified_means_credited `{HE : Env} evs s o :
  Serial HE → persisted s → proven (λ _, True) None (ses_db s) →
  let d := ses_db (run_traffic evs s) in
  o ∈ observations d → obs_status o = ObsVerified →
  accepted o ∧ credited o d
  ∧ ∀ x, x ∈ observations d → is_some (chain_reference o) = true →
         chain_reference x = chain_reference o → x = o.
Proof.
  intros HS Hp Hpr d Ho Hv. destruct (run_traffic_proven evs s Hp Hpr) as [_ Hd].
  split_and!; [by apply (pv_paid _ _ _ Hd)|by eapply paid_credited|].
  intros x Hx. by apply (pv_chain _ _ _ Hd).
Qed.

(** [C9] No credit without evidence.  Whatever is asked of the payment
    platform, and whatever the chain verifiers say, an entry that appears in
    the ledger and settles an intent has a [VERIFIED] observation of that
    intent behind it: submitting evidence does not credit, and a person or a
    verifier has accepted what did. *)
Theorem credit_needs_evidence `{HE : Env} evs s tx :
  Serial HE → persisted s → proven (λ x, x ∈ ledger (ses_db s)) None (ses_db s) →
  let d := ses_db (run_evidence evs s) in
  tx ∈ ledger d → tx ∉ ledger (ses_db s) → is_settlement tx = true →
  ∃ o, o ∈ observations d ∧ obs_status o = ObsVerified ∧ accepted o
       ∧ tx_reference_id tx = Some (uuid_str (obs_payment_intent_id o)) ∧ credited o d.
Proof.
  intros HS Hp Hpr d Htx Hnew Hs. destruct (run_proven _ evs s Hp Hpr) as [_ Hd].
  destruct (pv_evidence _ _ _ Hd tx Htx Hs) as [?|(o & Ho & Hv & Href)]; [done|].
  exists o. split_and!; [done..|by apply (pv_paid _ _ _ Hd)|done|by eapply paid_credited].
Qed.

(** ** Rulings *)

Definition ruling_of (o : PaymentObservation) :=
  (obs_status o, obs_assurance_level o, obs_verified_by_user_id o, obs_verified_at o, obs_rejection_reason o).

(** Rows keep their claims, and their rulings too unless they are [changing]. *)
Record evolves (changing : PaymentObservation → Prop) (d d' : DB) : Prop := {
  evo_ids : NoDup (obs_id <$> observations d) → NoDup (obs_id <$> observations d');
  evo_rows : NoDup (obs_id <$> observations d) → ∀ o, o ∈ observations d →
    ∃ x, x ∈ observations d' ∧ claim_of x = claim_of o ∧ (¬ changing o → ruling_of x = ruling_of o);
}.

(** Only the rows with the key [oid] may be given a ruling. *)
Definition rules_on (oid : UUID) (s s' : Session) : Prop :=
  evolves (λ o, obs_id o = oid) (ses_db s) (ses_db s').

(** A ruling, once given, stands. *)
Definition standing (d d' : DB) : Prop := evolves (λ o, ruled o = false) d d'.

Lemma evolves_same (P : PaymentObservation → Prop) d d' : observations d' = observations d → evolves P d d'.
Proof. intros Ho. split; rewrite Ho; [done|]. intros _ o Hin. by exists o. Qed.

Global Instance rules_on_preorder oid : PreOrder (rules_on oid).
Proof.
  split; [intros s; by apply evolves_same|]. intros x y z [H1 H2] [G1 G2]. split; [by auto|].
  intros Hnd o Ho. destruct (H2 Hnd o Ho) as (p & Hp & Hcp & Hrp).
  destruct (G2 (H1 Hnd) p Hp) as (q & Hq & Hcq & Hrq). exists q. split_and!; [done|congruence|].
  intros Hne. rewrite Hrq, Hrp; [done..|]. by rewrite (claim_id _ _ Hcp).
Qed.

Lemma ruled_of o x : ruling_of x = ruling_of o → ruled x = ruled o.
Proof. unfold ruled. by intros [= -> _ _ _ _]. Qed.

Global Instance standing_preorder : PreOrder standing.
Proof.
  split; [intros s; by apply evolves_same|]. intros x y z [H1 H2] [G1 G2]. split; [by auto|].
  intros Hnd o Ho. destruct (H2 Hnd o Ho) as (p & Hp & Hcp & Hrp).
  destruct (G2 (H1 Hnd) p Hp) as (q & Hq & Hcq & Hrq). exists q. split_and!; [done|congruence|].
  intros Hne. specialize (Hrp Hne). rewrite Hrq; [done|]. by rewrite (ruled_of _ _ Hrp).
Qed.

(** What rules on a row that has no ruling yet leaves the others standing. *)
Lemma rules_standing o s s' :
  o ∈ observations (ses_db s) → ruled o = false → rules_on (obs_id o) s s' → standing (ses_db s) (ses_db s').
Proof.
  intros Ho Hr [H1 H2]. split; [done|]. intros Hnd x Hx. destruct (H2 Hnd x Hx) as (y & Hy & Hc & Hru).
  exists y. split_and!; [done..|]. intros Hne. apply Hru. intros Heq. destruct Hne.
  by rewrite (NoDup_fmap_inj obs_id _ x o Hnd Hx Ho Heq).
Qed.

Section rulings.
  Context `{HE : Env} `{!Serial HE}.

Lemma rules_aside {A} oid (m : M A) : steps aside m → steps (rules_on oid) m.
Proof. intros Hm s. apply evolves_same, (as_observations _ _ (Hm s)). Qed.

Lemma rules_update oid f : (∀ o, claim_of (f o) = claim_of o) → steps (rules_on oid) (update_observation oid f).
Proof.
  intros Hf s. split; cbn.
  - intros Hnd. rewrite observation_ids; [done|]. intros x _ _. apply (claim_id _ _ (Hf x)).
  - intros Hnd o Ho. eexists. split; [apply elem_of_update_where; by exists o|]. by case_bool_decide.
Qed.

Lemma observation_row o y d :
  NoDup (obs_id <$> observations d) → y ∈ observations d →
  default o (get_row (obs_id y) (observations d)) = y.
Proof.
  intros Hnd Hy. assert (get_row (obs_id y) (observations d) = Some y) as ->; [|done].
  exact (get_row_member (observations d) y Hnd Hy).
Qed.

(** A flush changes amounts only. *)
Lemma flush_standing (P : PaymentObservation → Prop) o s :
  evolves P (ses_db s) (ses_db (flush_observation o s).2).
Proof.
  destruct (flush_observation o s) as [[x|e] s'] eqn:Hr; cbn [snd]; unfold flush_observation in Hr.
  - bind_query Hr. apply bind_inv_ok in Hr as (y & s1 & (-> & a & b & ->)%columns_ok & Hr).
    bind_write Hr. apply ret_inv in Hr as [_ ->]. split; cbn.
    + intros Hnd. rewrite observation_ids; [done|]. intros y Hy Hid.
      destruct (get_row (obs_id o) (observations (ses_db s))) as [z|] eqn:Hg; cbn; [|by rewrite <- Hid].
      apply get_row_Some in Hg as [_ Hz]. by rewrite <- Hid in Hz.
    + intros Hnd y Hy. eexists. split; [apply elem_of_update_where; by exists y|].
      case_bool_decide as Hid; [|done]. change (obs_id y = obs_id o) in Hid. rewrite <- Hid.
      by rewrite (observation_row o y).
  - apply bind_inv_raise in Hr as [Hr|(y & s1 & Hq & Hr)]; [done|]. apply query_inv in Hq as [_ ->].
    apply bind_inv_raise in Hr as [Hr|(z & s1 & _ & Hr)]; [|done].
    pose proof (steps_run _ _ _ _ _ (observation_columns_reads _) Hr) as <-. by apply evolves_same.
Qed.

Lemma rules_flush oid o : steps (rules_on oid) (flush_observation o).
Proof. intros s. apply flush_standing. Qed.

Hint Resolve rules_flush : steps.
Hint Extern 2 (steps (rules_on _) (update_observation _ _)) => by apply rules_update : steps.
Hint Extern 2 (steps (rules_on _) (settle_payment_intent _ _ _ _)) => apply rules_aside, aside_settle : steps.

Lemma rules_report (verifiers : OnChainRegistry) t o m name n a r :
  steps (rules_on (obs_id o)) (apply_report t o m name n a r).
Proof.
  assert (∀ i reason st, steps (rules_on i) (update_observation i (for_review reason st)))
    by (intros i reason st; apply rules_update; intros x; by destruct st as [[]|], reason).
  unfold apply_report, conclude, get_payment_intent. steps_walk.
Qed.

Lemma ruled_open o : obs_status o ≠ ObsVerified → obs_status o ≠ ObsRejected → ruled o = false.
Proof. intros. unfold ruled. by rewrite !bool_decide_eq_false_2. Qed.

(** [m] started from [s] leaves the rulings of [s] standing. *)
Definition stands {A} (m : M A) (s : Session) : Prop := wp m (λ _ s', standing (ses_db s) (ses_db s')) s.

Lemma stands_same {A} (m : M A) s : steps same_db m → stands m s.
Proof. intros Hm. apply evolves_same. by rewrite (Hm s). Qed.

Lemma stands_here s : standing (ses_db s) (ses_db s).
Proof. by apply evolves_same. Qed.

Lemma stands_rules {A} (m : M A) o s :
  o ∈ observations (ses_db s) → ruled o = false → steps (rules_on (obs_id o)) m → stands m s.
Proof. intros Ho Hr Hm. eapply rules_standing; [done..|apply Hm]. Qed.

Hint Resolve stands_here : core.

Lemma verify_stands (verifiers : OnChainRegistry) t i s : stands (verify_onchain_observation t i) s.
Proof.
  unfold stands, verify_onchain_observation. apply wp_read; [apply get_observation_reads| |by auto].
  intros o (_ & Ho & <- & Ht)%get_observation_ok. apply wp_guard; [|by auto]. intros _.
  case_bool_decide as Hv; [by apply wp_ret|]. apply wp_guard; [|by auto]. intros Hj%bool_decide_eq_false.
  apply (stands_rules _ o); [done|by apply ruled_open|]. pose proof (rules_report verifiers).
  unfold get_method. steps_walk.
Qed.

Lemma approve_stands t i u a c s : stands (approve_manual_observation t i u a c) s.
Proof.
  unfold stands, approve_manual_observation. apply wp_read; [apply get_observation_reads| |by auto].
  intros o (_ & Ho & <- & Ht)%get_observation_ok. case_bool_decide as Hv.
  { assert (steps aside (settle_payment_intent t (obs_payment_intent_id o) (obs_settlement_amount o)
      (obs_settlement_currency o);; mret o)) as Hm by (pose proof aside_settle; steps_walk).
    apply evolves_same, (as_observations _ _ (Hm s)). }
  apply wp_guard; [|by auto]. intros Hj%bool_decide_eq_false.
  apply (stands_rules _ o); [done|by apply ruled_open|]. unfold get_payment_intent. steps_walk.
Qed.

Lemma reject_stands t i u reason s : stands (reject_observation t i u reason) s.
Proof.
  unfold stands, reject_observation. apply wp_read; [apply get_observation_reads| |by auto].
  intros o (_ & Ho & <- & Ht)%get_observation_ok. apply wp_guard; [|by auto]. intros Hv%bool_decide_eq_false.
  case_bool_decide as Hj; [by apply wp_ret|].
  apply (stands_rules _ o); [done|by apply ruled_open|]. steps_walk.
Qed.

Definition stood (s s' : Session) : Prop := standing (ses_db s) (ses_db s').

Global Instance stood_preorder : PreOrder stood.
Proof.
  split; unfold stood; [by intros s; apply evolves_same|]. intros x y z ? ?. by etransitivity.
Qed.

Lemma insert_standing f s o s' :
  insert_observation f s = (Ok o, s') → standing (ses_db s) (ses_db s').
Proof.
  intros (_ & Hnew & Hdb)%insert_observation_ok. rewrite Hdb. split; cbn.
  - intros Hnd. by apply nodup_add.
  - intros Hnd x Hx. exists x. split; [apply elem_of_app; by left|done].
Qed.

Lemma insert_stands f : steps stood (begin_nested (insert_observation f)).
Proof.
  intros s. destruct (begin_nested (insert_observation f) s) as [[o|e] s'] eqn:Hr.
  - apply begin_nested_ok in Hr. by eapply insert_standing.
  - apply begin_nested_raise in Hr. apply evolves_same. cbn. by rewrite Hr.
Qed.

Lemma stood_aside {A} (m : M A) : steps aside m → steps stood m.
Proof. intros Hm s. apply evolves_same, (as_observations _ _ (Hm s)). Qed.

Lemma stood_elsewhere {A} (m : M A) : steps elsewhere m → steps stood m.
Proof. intros Hm s. destruct (Hm s) as [_ Ho]. by apply evolves_same. Qed.

Lemma stood_await : steps stood await_others.
Proof. apply stood_aside, aside_await. Qed.

Lemma submit_stands r : steps stood (submit_observation r).
Proof.
  pose proof insert_stands. pose proof stood_await.
  unfold submit_observation, get_payment_intent, get_method, _latest_live_quote, except_integrity. steps_walk.
Qed.

Lemma local_topup_aside t u m a c k : steps aside (create_local_topup_intent t u m a c k).
Proof.
  unfold create_local_topup_intent, get_method, except_integrity. steps_walk.
  all: by apply aside_nested, aside_insert_intent.
Qed.

Lemma handle_stands r : steps stood (handle_evidence r).
Proof.
  assert (∀ verifiers t i, steps stood (@verify_onchain_observation HE verifiers t i))
    by (intros verifiers t i s; apply verify_stands).
  assert (∀ t i u a c, steps stood (approve_manual_observation t i u a c))
    by (intros t i u a c s; apply approve_stands).
  assert (∀ t i u reason, steps stood (reject_observation t i u reason))
    by (intros t i u reason s; apply reject_stands).
  pose proof submit_stands.
  pose proof (λ t u m a c k, stood_aside _ (local_topup_aside t u m a c k)).
  pose proof (λ r, stood_elsewhere _ (elsewhere_create_method r)).
  pose proof (λ t i u, stood_elsewhere _ (elsewhere_update_method t i u)).
  pose proof (λ t i b, stood_elsewhere _ (elsewhere_set_enabled t i b)).
  pose proof (λ r, stood_elsewhere _ (elsewhere_quote r)).
  destruct r; cbn [handle_evidence]; steps_walk.
Qed.

Lemma run_once_stands (verifiers : OnChainRegistry) n : steps stood (onchain_run_once n).
Proof.
  assert (∀ t i, steps stood (verify_onchain_observation t i)) by (intros t i s; apply verify_stands).
  assert (∀ o, steps stood (flush_observation o)) by (intros o s; apply flush_standing).
  assert (∀ l st, steps stood (verify_each l st)).
  { induction l; intros st; cbn [verify_each]; unfold passed_observation; steps_walk. }
  unfold onchain_run_once, flush_all. steps_walk.
Qed.

Lemma evidence_event_stands s ev :
  persisted s → persisted (run_evidence_event s ev) ∧ standing (ses_db s) (ses_db (run_evidence_event s ev)).
Proof.
  intros Hp. destruct ev as [r|verifiers n]; cbn [run_evidence_event].
  - apply (in_request_keeps (standing (ses_db s))); [done|apply committed_evidence|by apply evolves_same|].
    intros u s' Hr. exact (steps_run _ _ _ _ _ (handle_stands r) Hr).
  - apply (pass_keeps (standing (ses_db s))); [done|apply committed_onchain|by apply evolves_same|].
    intros u s' Hr. exact (steps_run _ _ _ _ _ (run_once_stands verifiers n) Hr).
Qed.

Lemma traffic_event_stands s ev :
  persisted s → persisted (run_traffic_event s ev) ∧ standing (ses_db s) (ses_db (run_traffic_event s ev)).
Proof.
  intros Hp. destruct ev as [ev|world ev]; cbn [run_traffic_event]; [by apply evidence_event_stands|]. split.
  - destruct ev as [r|t i|f n]; cbn [run_event].
    + by apply (in_request_keeps (λ _, True)); [|apply committed_handle|..].
    + by apply (in_request_keeps (λ _, True)); [|apply committed_reconcile|..].
    + unfold reconciliation_pass. by rewrite in_session_state.
  - apply evolves_same, as_observations. by apply event_aside.
Qed.

End rulings.

(** [C10] A ruling stands, and evidence is never rewritten.  Over any history of
    the payment platform, the on-chain worker and the gateways, an observation
    stays in the table with its tenant, intent, method, quote, source,
    reference, network and fingerprint.  Once it is [VERIFIED] or [REJECTED] it
    keeps that status for ever, with who decided, when, on what grounds and
    with what assurance. *)
Theorem rulings_stand `{HE : Env} evs s o :
  Serial HE → persisted s → NoDup (obs_id <$> observations (ses_db s)) → o ∈ observations (ses_db s) →
  ∃ x, x ∈ observations (ses_db (run_traffic evs s)) ∧ claim_of x = claim_of o
       ∧ (ruled o = true → ruling_of x = ruling_of o).
Proof.
  intros HS Hp Hnd Ho. cut (standing (ses_db s) (ses_db (run_traffic evs s))).
  { intros [_ Hrow]. destruct (Hrow Hnd o Ho) as (x & Hx & Hc & Hr). exists x. split_and!; [done..|].
    intros Hru. apply Hr. by rewrite Hru. }
  clear Hnd Ho. revert s Hp. induction evs as [|ev evs IH]; intros s Hp; [by apply evolves_same|].
  destruct (traffic_event_stands s ev Hp) as [Hp' Hs]. etransitivity; [exact Hs|by apply IH].
Qed.

(** ** An example *)

(** A digest that fits its column. *)
Definition ev_digest (s : string) : string :=
  pretty (foldl (λ h c, (257 * h + Z.of_nat (nat_of_ascii c)) mod 2 ^ 61) 1 (chars s)).

Definition ev_env : Env := {|
  env_clock n := Z.of_nat n;
  env_uuid4 n := mk_uuid ("uuid-" +:+ pretty n);
  env_race d := d;
  env_sha256 := ev_digest;
  env_decimal_str x := pretty x;
  env_exn_str _ := "error";
  env_json_str := dumps;
  env_isoformat n := pretty n;
|}.

Global Instance ev_env_serial : Serial ev_env.
Proof. done. Qed.

Definition ev_tenant : UUID := mk_uuid "t".
Definition ev_hash : string := "0x" +:+ of_chars (repeat "a"%char 64).

Definition demo_method : MethodRequest :=
  MkMethodRequest ev_tenant "usdt" "USDT" MtSelfCustody VmHybrid None (Some "usdt") (Some "tron") (Some "TAddr")
    None None true true true "" None.

(** A verifier that knows one transaction. *)
Definition demo_verifier : OnChainVerifier := MkOnChainVerifier "demo" (λ _ network reference _ _,
  if reference == ev_hash
  then Ok (MkOnChainVerificationResult network reference "USDT" "TAddr" (10 * one * one) 30 true true None true)
  else Raise OnChainVerificationPending).

Definition demo_verifiers : OnChainRegistry := register "tron" demo_verifier [].

(** The method is [uuid-0], the intent [uuid-1], the quote [uuid-2] and the
    observation [uuid-3]. *)
Definition ev_uuid (n : nat) : UUID := @env_uuid4 ev_env n.

Definition demo_quote : QuoteRequest :=
  MkQuoteRequest ev_tenant (ev_uuid 1) (10 * one) "USD" (10 * one) "USDT" "TRON" one "fixed" 1000 true None None.

Definition demo_submission : Submission :=
  MkSubmission ev_tenant (mk_uuid "u") (ev_uuid 1) SrcOnchain (Some ev_hash) None None.

Definition open_evidence : list evidence_event :=
  [ EvEvidence (ReqMethod demo_method);
    EvEvidence (ReqLocalTopup ev_tenant (mk_uuid "u") (ev_uuid 0) (10 * one) "USD" "k");
    EvEvidence (ReqQuote demo_quote); EvEvidence (ReqSubmit demo_submission) ].

Definition no_evidence : Session := MkSession empty_db empty_db 0 [].

Lemma no_evidence_proven E : proven E None empty_db.
Proof.
  assert (books empty_db) by (split; cbn; try constructor; intros x Hx; by apply elem_of_nil in Hx).
  split; [done|..]; cbn; [|apply NoDup_nil_2|..]; by intros x; intros; match goal with
    Hx : _ ∈ [] |- _ => apply elem_of_nil in Hx end.
Qed.

(** The worker finds the transaction, and the top-up is credited. *)
Definition credited_events : list evidence_event := open_evidence ++ [EvOnchain demo_verifiers 10].

Definition credited_demo : Session := @run_evidence ev_env credited_events no_evidence.

Definition credited_traffic : list payments_event := map EvOfEvidence credited_events.

Definition traffic_demo : Session := @run_traffic ev_env credited_traffic no_evidence.

Lemma verified_means_credited_witness :
  ∃ o, observations (ses_db traffic_demo) = [o] ∧ obs_status o = ObsVerified
       ∧ accepted o ∧ credited o (ses_db traffic_demo).
Proof.
  destruct (observations (ses_db traffic_demo)) as [|o [|? ?]] eqn:Ho; [by vm_compute in Ho| |by vm_compute in Ho].
  exists o. assert (obs_status o = ObsVerified) as Hv.
  { assert (map obs_status (observations (ses_db traffic_demo)) = [ObsVerified]) as Hm by (vm_compute; reflexivity).
    rewrite Ho in Hm. by injection Hm. }
  destruct (@verified_means_credited ev_env credited_traffic no_evidence o ev_env_serial eq_refl
              (no_evidence_proven _)) as (Ha & Hc & _); [|exact Hv|].
  - fold traffic_demo. rewrite Ho. left.
  - by split_and!.
Defined.

Lemma credit_needs_evidence_witness :
  ∃ tx o, ledger (ses_db credited_demo) = [tx] ∧ tx_amount tx = 10 * one
    ∧ o ∈ observations (ses_db credited_demo) ∧ obs_status o = ObsVerified
    ∧ tx_reference_id tx = Some (uuid_str (obs_payment_intent_id o)).
Proof.
  destruct (ledger (ses_db credited_demo)) as [|tx [|? ?]] eqn:Hl; [by vm_compute in Hl| |by vm_compute in Hl].
  exists tx.
  assert (map (λ x, (tx_amount x, is_settlement x)) (ledger (ses_db credited_demo)) = [(10 * one, true)]) as Hm
    by (vm_compute; reflexivity).
  rewrite Hl in Hm. injection Hm as Ha Hs.
  destruct (@credit_needs_evidence ev_env credited_events no_evidence tx ev_env_serial eq_refl
              (no_evidence_proven _)) as (o & Ho & Hv & _ & Href & _).
  - fold credited_demo. rewrite Hl. left.
  - by intros Hx%elem_of_nil.
  - done.
  - exists o. by split_and!.
Defined.

(** A rejection that comes too late. *)
Definition late_rejection : list payments_event :=
  [EvOfEvidence (EvEvidence (ReqReject ev_tenant (ev_uuid 3) (mk_uuid "admin") "too late"))].

Lemma rulings_stand_witness :
  ∃ o x, observations (ses_db credited_demo) = [o] ∧ obs_status o = ObsVerified
    ∧ x ∈ observations (ses_db (@run_traffic ev_env late_rejection credited_demo))
    ∧ claim_of x = claim_of o ∧ ruling_of x = ruling_of o.
Proof.
  destruct (observations (ses_db credited_demo)) as [|o [|? ?]] eqn:Ho; [by vm_compute in Ho| |by vm_compute in Ho].
  exists o. assert (obs_status o = ObsVerified) as Hv.
  { assert (map obs_status (observations (ses_db credited_demo)) = [ObsVerified]) as Hm by (vm_compute; reflexivity).
    rewrite Ho in Hm. by injection Hm. }
  destruct (run_proven (HE := ev_env) (λ _, True) credited_events no_evidence eq_refl (no_evidence_proven _))
    as [Hp Hpr].
  destruct (@rulings_stand ev_env late_rejection credited_demo o ev_env_serial Hp (pv_ids _ _ _ Hpr))
    as (x & Hx & Hc & Hr); [rewrite Ho; left|].
  exists x. split_and!; [done..|]. apply Hr. unfold ruled. by rewrite Hv.
Defined.

(** ** What goes wrong *)

(** Nobody's gateways. *)
Definition no_gateways : Gateways := {|
  gw_overrides _ _ := None;
  gw_cached _ _ := None;
  gw_factories _ := None;
  gw_secret _ := None;
|}.

(** Another customer pays with another transaction. *)
Definition other_hash : string := "0x" +:+ of_chars (repeat "b"%char 64).

Definition both_verifier : OnChainVerifier := MkOnChainVerifier "demo" (λ _ network reference _ _,
  Ok (MkOnChainVerificationResult network reference "USDT" "TAddr" (10 * one * one) 30 true true None true)).

Definition both_verifiers : OnChainRegistry := register "tron" both_verifier [].

Definition other_evidence : list evidence_event :=
  [ EvEvidence (ReqLocalTopup ev_tenant (mk_uuid "v") (ev_uuid 0) (10 * one) "USD" "k2");
    EvEvidence (ReqQuote (MkQuoteRequest ev_tenant (ev_uuid 4) (10 * one) "USD" (10 * one) "USDT" "TRON" one
                            "fixed" 1000 true None None));
    EvEvidence (ReqSubmit (MkSubmission ev_tenant (mk_uuid "v") (ev_uuid 4) SrcOnchain (Some other_hash) None None)) ].

Definition cancelled_demo : Session :=
  @run_traffic ev_env (map EvOfEvidence (open_evidence ++ other_evidence)
                       ++ [EvOfGateways no_gateways (EvRequest (ReqCancel ev_tenant (ev_uuid 1)))]) no_evidence.

(** A customer sends a transaction, submits it, and the intent is cancelled
    before the chain is asked.  The settlement then raises
    [InvalidStateTransitionError], which the worker does not pass over: its
    pass is rolled back, and so is every later one.  The payment of the other
    customer, whose transaction is as good, is never credited. *)
Example cancelled_intent_blocks_worker :
  let pass := @onchain_pass ev_env both_verifiers 10 in
  map intent_status (intents (ses_db cancelled_demo)) = [PayCancelled; PayPending]
  ∧ (pass cancelled_demo).1 = Raise InvalidStateTransitionError
  ∧ ses_db (pass cancelled_demo).2 = ses_db cancelled_demo
  ∧ (pass (pass cancelled_demo).2).1 = Raise InvalidStateTransitionError
  ∧ map obs_status (observations (ses_db cancelled_demo)) = [ObsPendingVerification; ObsPendingVerification].
Proof. vm_compute. split_and!; reflexivity. Qed.

Definition on_network (n : string) : evidence_event :=
  EvEvidence (ReqMethodUpdate ev_tenant (ev_uuid 0)
    (MkMethodUpdate None None None (Some n) None None None None None None None)).

(** The network of a transaction is the one the method had when the evidence
    was submitted; the chain that is asked is the one the method has now.  Two
    customers submit the same transaction, one of them while the method names
    another network.  When the method is set back, both are credited for it. *)
Definition same_transaction : list evidence_event :=
  open_evidence
  ++ [ EvEvidence (ReqLocalTopup ev_tenant (mk_uuid "v") (ev_uuid 0) (10 * one) "USD" "k2");
       EvEvidence (ReqQuote (MkQuoteRequest ev_tenant (ev_uuid 4) (10 * one) "USD" (10 * one) "USDT" "TRON" one
                               "fixed" 1000 true None None));
       on_network "bsc";
       EvEvidence (ReqSubmit (MkSubmission ev_tenant (mk_uuid "v") (ev_uuid 4) SrcOnchain (Some ev_hash) None None));
       on_network "tron"; EvOnchain demo_verifiers 10 ].

Example one_transaction_two_credits :
  let d := ses_db (@run_evidence ev_env same_transaction no_evidence) in
  map obs_external_reference (observations d) = [Some ev_hash; Some ev_hash]
  ∧ map obs_network (observations d) = [Some "TRON"; Some "BSC"]
  ∧ map obs_status (observations d) = [ObsVerified; ObsVerified]
  ∧ map (λ w, (wallet_user_id w, wallet_balance w)) (wallets d)
    = [(mk_uuid "u", 10 * one); (mk_uuid "v", 10 * one)].
Proof. vm_compute. split_and!; reflexivity. Qed.
