(* ===== verification/VerifiersSpec.v ===== *)
(** * Verifiers of transactions: properties

    TRON addresses compare as accounts whichever way they are written, and the
    ERC-20 verifier reports what the chain its node serves says ([Verifiers.v]). *)

From Stdlib Require Import ZArith Lia Ascii String.
From stdpp Require Import base tactics list option strings numbers pretty.
From S2P Require Import Prelude Tables Text Money Exceptions StateMachines Models Payments TopUps.
From S2P Require Import StarsGateway Evidence Verifiers EvidenceInv EvidenceSpec.

Local Open Scope Z_scope.

(** ** Numbers in hexadecimal, base 58 and bytes *)

(** The digit [d] as [to_hex] writes it. *)
Definition nibble (d : Z) : ascii :=
  ascii_of_nat (let n := Z.to_nat d in if (n <? 10)%nat then 48 + n else 87 + n)%nat.

Lemma below_sixteen (P : Z → Prop) : (∀ n, (n < 16)%nat → P (Z.of_nat n)) → ∀ d, 0 ≤ d < 16 → P d.
Proof. intros HP d Hd. rewrite <- (Z2Nat.id d) by lia. apply HP. lia. Qed.

Lemma hex_nibble d : 0 ≤ d < 16 → hex_digit (nibble d) = Some d.
Proof. revert d. apply below_sixteen. intros n Hn. do 16 (destruct n as [|n]; [reflexivity|]). lia. Qed.

Lemma to_hex_S n z : to_hex (S n) z = to_hex n (z / 16) ++ [nibble (z mod 16)].
Proof. done. Qed.

Lemma length_to_hex n z : length (to_hex n z) = n.
Proof. revert z. induction n as [|n IH]; intros z; [done|]. rewrite to_hex_S, length_app, IH. cbn. lia. Qed.

(** Hexadecimal digits are digits or small letters. *)
Definition hex_char (c : ascii) : bool := is_some (hex_digit c) && (to_lower c == c) && negb (is_space c).

Lemma nibble_char d : 0 ≤ d < 16 → hex_char (nibble d) = true.
Proof. revert d. apply below_sixteen. intros n Hn. do 16 (destruct n as [|n]; [reflexivity|]). lia. Qed.

Lemma to_hex_chars n z : Forall (λ c, hex_char c = true) (to_hex n z).
Proof.
  revert z. induction n as [|n IH]; intros z; [constructor|]. rewrite to_hex_S. apply Forall_app. split; [apply IH|].
  constructor; [|constructor]. apply nibble_char. apply Z.mod_pos_bound. lia.
Qed.

(** A digit more at the right end. *)
Lemma mod_step b z n : 0 < b → b * ((z / b) mod b ^ Z.of_nat n) + z mod b = z mod b ^ Z.of_nat (S n).
Proof.
  intros Hb. rewrite Nat2Z.inj_succ, Z.pow_succ_r by lia.
  rewrite Z.rem_mul_r by (try apply Z.pow_nonzero; lia). lia.
Qed.

Lemma hex_digits_to_hex n z acc b l :
  hex_digits (to_hex n z ++ l) acc b
  = hex_digits l (16 ^ Z.of_nat n * acc + z mod 16 ^ Z.of_nat n) (b || (0 <? n)%nat).
Proof.
  revert z b l. induction n as [|n IH]; intros z b l.
  - cbn -[Z.pow Z.mul]. rewrite Z.mod_1_r, orb_false_r. f_equal. lia.
  - rewrite to_hex_S, <- app_assoc, IH. cbn [app hex_digits]. rewrite hex_nibble by (apply Z.mod_pos_bound; lia).
    rewrite orb_true_r. f_equal. rewrite <- (mod_step 16 z n) by lia.
    rewrite Nat2Z.inj_succ, Z.pow_succ_r by lia. lia.
Qed.

Lemma strip_solid l : Forall (λ c, is_space c = false) l → strip_chars l = l.
Proof.
  intros Hl. unfold strip_chars. rewrite (drop_while_fix is_space l) by (by destruct Hl).
  rewrite drop_while_fix; [apply rev_involutive|]. destruct (rev l) as [|x k] eqn:Hr; [done|].
  rewrite Forall_forall in Hl. apply Hl. rewrite list_elem_of_In, in_rev, Hr. by left.
Qed.

Lemma solid_hex n z : Forall (λ c, is_space c = false) (to_hex n z).
Proof.
  eapply Forall_impl; [apply to_hex_chars|]. intros c [_ Hc]%andb_true_iff. by apply negb_true_iff.
Qed.

(** Reading back what was written. *)
Lemma hex_text_value n z :
  (0 < n)%nat → 0 ≤ z < 16 ^ Z.of_nat n → hex_of_str (chars ("0x" +:+ of_chars (to_hex n z))) = Some z.
Proof.
  intros Hn Hz. change (chars ("0x" +:+ of_chars (to_hex n z))) with ("0"%char :: "x"%char :: chars (of_chars (to_hex n z))).
  rewrite chars_of_chars. unfold hex_of_str.
  rewrite strip_solid by (do 2 (constructor; [done|]); apply solid_hex). cbn [signed].
  rewrite bool_decide_eq_true_2 by done.
  assert (match to_hex n z with "_"%char :: l'' => l'' | _ => to_hex n z end = to_hex n z) as ->.
  { pose proof (to_hex_chars n z) as Hc. destruct (to_hex n z) as [|c l]; [done|].
    inversion Hc as [|? ? Hc1 _]; subst. by destruct c as [[] [] [] [] [] [] [] []]. }
  rewrite <- (app_nil_r (to_hex n z)), hex_digits_to_hex. cbn [hex_digits]. destruct n as [|n]; [lia|].
  rewrite orb_true_r, Z.mod_small, Z.mul_0_r by lia. done.
Qed.

Lemma parse_hex_text n z :
  (0 < n)%nat → 0 ≤ z < 16 ^ Z.of_nat n → _parse_hex_int (JStr ("0x" +:+ of_chars (to_hex n z))) = Ok z.
Proof.
  intros Hn Hz. unfold _parse_hex_int. rewrite (hex_text_value n z Hn Hz).
  assert (∀ s, String.prefix "0x" ("0x" +:+ s) = true) as -> by (by intros []). done.
Qed.

Lemma parse_quantity z : 0 ≤ z → _parse_hex_int (JStr (hex_text z)) = Ok z.
Proof.
  intros Hz. unfold hex_text. rewrite Z.abs_eq by done. replace (z <? 0) with false by (symmetry; lia).
  apply parse_hex_text; [lia|]. split; [done|].
  rewrite Nat2Z.inj_succ, Z2Nat.id by (apply Z.div_pos; [apply Z.log2_nonneg|lia]).
  destruct (decide (z = 0)) as [->|Hne]; [by vm_compute|].
  change 16 with (2 ^ 4) at 1. rewrite <- Z.pow_mul_r by (pose proof (Z.log2_nonneg z); lia || (apply Z.le_le_succ_r, Z.div_pos; lia)).
  apply Z.log2_lt_pow2; [lia|]. pose proof (Z.div_mod (Z.log2 z) 4). pose proof (Z.mod_pos_bound (Z.log2 z) 4). lia.
Qed.

(** *** Bytes *)

Definition is_byte (b : Z) : Prop := 0 ≤ b < 256.

Definition number_of (l : list Z) : Z := foldl (λ n b, n * 256 + b) 0 l.

Lemma number_of_snoc l b : number_of (l ++ [b]) = number_of l * 256 + b.
Proof. unfold number_of. by rewrite foldl_app. Qed.

Lemma number_of_bound l : Forall is_byte l → 0 ≤ number_of l < 256 ^ Z.of_nat (length l).
Proof.
  induction l as [|b l IH] using rev_ind; intros Hl; [done|].
  apply Forall_app in Hl as [Hl Hb]. inversion Hb as [|? ? Hb1 _]; subst. unfold is_byte in Hb1.
  specialize (IH Hl). rewrite number_of_snoc, length_app, Nat2Z.inj_add, Z.pow_add_r by lia. cbn [length].
  change (256 ^ Z.of_nat 1) with 256. lia.
Qed.

Lemma to_bytes_number l : Forall is_byte l → to_bytes (length l) (number_of l) = l.
Proof.
  induction l as [|b l IH] using rev_ind; intros Hl; [done|].
  apply Forall_app in Hl as [Hl Hb]. inversion Hb as [|? ? Hb1 _]; subst. unfold is_byte in Hb1.
  rewrite length_app, Nat.add_comm, number_of_snoc. cbn [length Nat.add to_bytes].
  rewrite Z.div_add_l, (Z.div_small b), Z.add_0_r by lia.
  rewrite (Z.add_comm _ b), Z.mod_add, Z.mod_small by lia. by rewrite IH.
Qed.

Lemma number_of_app l k : number_of (l ++ k) = number_of l * 256 ^ Z.of_nat (length k) + number_of k.
Proof.
  induction k as [|b k IH] using rev_ind; [rewrite app_nil_r; cbn; lia|].
  rewrite app_assoc, !number_of_snoc, IH, length_app, Nat2Z.inj_add, Z.pow_add_r by lia. cbn [length].
  change (256 ^ Z.of_nat 1) with 256. lia.
Qed.

Lemma hex_bytes_inj l k : Forall is_byte l → Forall is_byte k → hex_bytes l = hex_bytes k → l = k.
Proof.
  unfold hex_bytes. intros Hl Hk Heq. apply (f_equal chars) in Heq. rewrite !chars_of_chars in Heq.
  revert k Hk Heq. induction Hl as [|x l Hx Hl IH]; intros k Hk Heq; destruct Hk as [|y k Hy Hk]; try done.
  cbn [flat_map] in Heq. apply app_inj_1 in Heq as [Hxy Heq]; [|by rewrite !length_to_hex].
  f_equal; [|by apply IH]. unfold is_byte in *.
  pose proof (hex_digits_to_hex 2 x 0 false []) as H1. pose proof (hex_digits_to_hex 2 y 0 false []) as H2.
  rewrite app_nil_r in H1, H2. rewrite Hxy in H1. rewrite H1 in H2. cbn [hex_digits] in H2.
  change (16 ^ Z.of_nat 2) with 256 in H2. rewrite !Z.mod_small in H2 by lia. injection H2. lia.
Qed.

(** ** TRON addresses *)

Lemma chars_append a b : chars (a +:+ b) = chars a ++ chars b.
Proof. induction a as [|c a IH]; [done|]. change (String c a +:+ b) with (String c (a +:+ b)). cbn. by rewrite IH. Qed.

Lemma of_chars_chars s : of_chars (chars s) = s.
Proof. apply string_of_list_ascii_of_string. Qed.

Lemma length_chars s : length (chars s) = String.length s.
Proof. induction s as [|c s IH]; cbn; [done|]. by rewrite IH. Qed.

(** The twenty bytes of an account. *)
Record is_account (a : list Z) : Prop := {
  ac_length : length a = 20%nat;
  ac_bytes : Forall is_byte a;
}.

Definition hex_only (s : string) : Prop := Forall (λ c, hex_char c = true) (chars s).

Lemma hex_only_bytes l : hex_only (hex_bytes l).
Proof.
  unfold hex_only, hex_bytes. rewrite chars_of_chars. induction l as [|b l IH]; [constructor|].
  cbn [flat_map]. apply Forall_app. split; [apply to_hex_chars|done].
Qed.

Lemma length_hex_bytes l : String.length (hex_bytes l) = (2 * length l)%nat.
Proof.
  rewrite <- length_chars. unfold hex_bytes. rewrite chars_of_chars.
  induction l as [|b l IH]; [done|]. cbn [flat_map length]. rewrite length_app, length_to_hex, IH. lia.
Qed.

Lemma hex_only_app a b : hex_only a → hex_only b → hex_only (a +:+ b).
Proof. unfold hex_only. rewrite chars_append. intros. by apply Forall_app. Qed.

Lemma hex_only_chars s : hex_only s → hex_chars (chars s) = true.
Proof.
  unfold hex_only, hex_chars. intros Hs. apply forallb_forall. intros c Hc%list_elem_of_In.
  rewrite Forall_forall in Hs. specialize (Hs c Hc). by apply andb_true_iff in Hs as [[Hs _]%andb_true_iff _].
Qed.

Lemma without_0x_hex s : hex_only s → without_0x s = s.
Proof.
  unfold hex_only. destruct s as [|c [|d s]]; cbn [list_ascii_of_string]; intros Hs; [done|..].
  - clear Hs. destruct c as [[] [] [] [] [] [] [] []]; reflexivity.
  - inversion Hs as [|? ? _ Hd]; subst. inversion Hd as [|? ? Hd1 _]; subst. clear Hs Hd.
    destruct (decide (d = "x"%char)) as [->|Hne]; [by vm_compute in Hd1|].
    destruct c as [[] [] [] [] [] [] [] []]; try reflexivity.
    destruct d as [[] [] [] [] [] [] [] []]; try reflexivity. by destruct Hne.
Qed.

(** An account as a node writes it in hexadecimal: its bytes, with the network
    prefix [41], or padded to 32 bytes; with or without [0x], in any case, with
    space around it. *)
Definition padding : string := of_chars (repeat "0"%char 24).

Definition hex_forms (a : list Z) : list string :=
  [hex_bytes a; "41" +:+ hex_bytes a; padding +:+ hex_bytes a].

Definition written_hex (a : list Z) (s : string) : Prop :=
  ∃ g, g ∈ hex_forms a ∧ (lower (strip s) = g ∨ lower (strip s) = "0x" +:+ g).

Lemma hex_forms_only a g : g ∈ hex_forms a → hex_only g.
Proof.
  unfold hex_forms. rewrite !elem_of_cons. intros [->|[->|[->|[]%elem_of_nil]]].
  - apply hex_only_bytes.
  - apply hex_only_app; [|apply hex_only_bytes]. by repeat constructor.
  - apply hex_only_app; [|apply hex_only_bytes]. by repeat constructor.
Qed.

(** The first character of a hexadecimal form is no [T]. *)
Lemma not_base58 s g :
  hex_only g → lower s = g ∨ lower s = "0x" +:+ g → String.prefix "T" s = false.
Proof.
  destruct s as [|c s]; [done|]. intros Hg Hs. destruct (decide (c = "T"%char)) as [->|Hne].
  - exfalso. destruct Hs as [Hs|Hs]; [|by apply (f_equal chars) in Hs].
    unfold hex_only in Hg. rewrite <- Hs in Hg. unfold lower in Hg. rewrite chars_of_chars in Hg.
    inversion Hg as [|? ? Hc _]; subst. by vm_compute in Hc.
  - apply not_true_iff_false. rewrite String.prefix_correct. cbn. by intros [= ->].
Qed.

Section addresses.
  Context `{ChainHttp}.

Lemma normalize_hex a s :
  is_account a → written_hex a s → _normalize_tron_address s = Ok ("41" +:+ hex_bytes a).
Proof.
  intros [Hlen Hbytes] (g & Hg & Hs). pose proof (hex_forms_only a g Hg) as Hhex.
  unfold _normalize_tron_address. rewrite (not_base58 _ _ Hhex Hs).
  assert (without_0x (lower (strip s)) = g) as -> by (destruct Hs as [-> | ->]; [by apply without_0x_hex|done]).
  rewrite (hex_only_chars _ Hhex). cbn [negb]. pose proof (length_hex_bytes a) as Hl. rewrite Hlen in Hl.
  unfold hex_forms in Hg. rewrite !elem_of_cons in Hg. destruct Hg as [->|[->|[->|[]%elem_of_nil]]].
  - rewrite bool_decide_eq_false_2, orb_false_r by (intros He; by rewrite He in Hl). rewrite Hl.
    cbn [Nat.eqb Nat.mul Nat.add]. rewrite length_append, Hl. by destruct (hex_bytes a).
  - rewrite bool_decide_eq_false_2 by done. rewrite length_append, Hl. cbn [orb Nat.eqb Nat.mul Nat.add String.length].
    rewrite length_append, Hl. by destruct (hex_bytes a).
  - rewrite bool_decide_eq_false_2 by done. rewrite length_append, Hl.
    change (String.length padding + 2 * 20)%nat with 64%nat. cbn [orb Nat.eqb].
    rewrite chars_append, drop_app_length', of_chars_chars by done. rewrite length_append, Hl. by destruct (hex_bytes a).
Qed.

(** *** Base58Check *)

Definition b58_char (d : Z) : ascii := default "1"%char (chars _B58_ALPHABET !! Z.to_nat d).

Fixpoint to_b58 (n : nat) (z : Z) : list ascii :=
  match n with O => [] | S n => to_b58 n (z / 58) ++ [b58_char (z mod 58)] end.

(** The address a wallet shows: prefix, account and checksum, in base 58. *)
Definition tron_address (a : list Z) : string :=
  let payload := 65 :: a in
  of_chars (to_b58 34 (number_of (payload ++ take 4 (chain_sha256 (chain_sha256 payload))))).

Lemma b58_index d : 0 ≤ d < 58 → index_of (b58_char d) (chars _B58_ALPHABET) = Some d.
Proof.
  intros Hd. assert (∀ n, (n < 58)%nat → index_of (b58_char (Z.of_nat n)) (chars _B58_ALPHABET) = Some (Z.of_nat n)) as Hn.
  { intros n Hn. do 58 (destruct n as [|n]; [reflexivity|]). lia. }
  rewrite <- (Z2Nat.id d) by lia. apply Hn. lia.
Qed.

Lemma b58_number_to n z acc l :
  b58_number (to_b58 n z ++ l) acc = b58_number l (58 ^ Z.of_nat n * acc + z mod 58 ^ Z.of_nat n).
Proof.
  revert z l. induction n as [|n IH]; intros z l.
  - cbn -[Z.pow Z.mul]. rewrite Z.mod_1_r. f_equal. lia.
  - cbn [to_b58]. rewrite <- app_assoc, IH. cbn [app b58_number].
    rewrite b58_index by (apply Z.mod_pos_bound; lia). f_equal.
    rewrite <- (mod_step 58 z n) by lia. rewrite Nat2Z.inj_succ, Z.pow_succ_r by lia. lia.
Qed.

Lemma b58_solid n z : Forall (λ c, is_space c = false) (to_b58 n z).
Proof.
  revert z. induction n as [|n IH]; intros z; [constructor|]. cbn [to_b58]. apply Forall_app. split; [apply IH|].
  constructor; [|constructor]. assert (0 ≤ z mod 58 < 58) as Hd by (apply Z.mod_pos_bound; lia).
  assert (∀ n, (n < 58)%nat → is_space (b58_char (Z.of_nat n)) = false) as Hn.
  { intros k Hk. do 58 (destruct k as [|k]; [reflexivity|]). lia. }
  rewrite <- (Z2Nat.id (z mod 58)) by lia. apply Hn. lia.
Qed.

Lemma b58_head n z : 0 ≤ z → ∃ l, to_b58 (S n) z = b58_char ((z / 58 ^ Z.of_nat n) mod 58) :: l.
Proof.
  revert z. induction n as [|n IH]; intros z Hz.
  - exists []. cbn -[Z.pow]. by rewrite Z.div_1_r.
  - destruct (IH (z / 58)) as [l Hl]; [apply Z.div_pos; lia|].
    exists (l ++ [b58_char (z mod 58)]). change (to_b58 (S (S n)) z) with (to_b58 (S n) (z / 58) ++ [b58_char (z mod 58)]).
    rewrite Hl. cbn [app]. rewrite Z.div_div by (try apply Z.pow_pos_nonneg; lia).
    by rewrite Nat2Z.inj_succ, Z.pow_succ_r by lia.
Qed.

(** The numbers between the least and the greatest TRON address. *)
Lemma tron_number z :
  65 * 256 ^ 24 ≤ z < 66 * 256 ^ 24 →
  z / 58 ^ 33 = 26 ∧ z < 58 ^ 34 ∧ byte_length z = 25%nat.
Proof.
  intros Hz. assert (26 * 58 ^ 33 ≤ 65 * 256 ^ 24 ∧ 66 * 256 ^ 24 ≤ 27 * 58 ^ 33 ∧ 27 * 58 ^ 33 ≤ 58 ^ 34
    ∧ 2 ^ 198 ≤ 65 * 256 ^ 24 ∧ 66 * 256 ^ 24 ≤ 2 ^ 199) as (H1 & H2 & H3 & H4 & H5)
    by (split_and!; by vm_compute).
  revert Hz H1 H2 H3 H4 H5. generalize (65 * 256 ^ 24) (66 * 256 ^ 24) (58 ^ 34).
  assert (0 < 58 ^ 33) as Hp by done. revert Hp. generalize (58 ^ 33) as p.
  intros p Hp a b c Hz H1 H2 H3 H4 H5. split_and!.
  - symmetry. apply (Z.div_unique_pos z p 26 (z - p * 26)); lia.
  - lia.
  - unfold byte_length. assert (0 < 2 ^ 198) by done. replace (z =? 0) with false by (symmetry; lia).
    assert (Z.log2 z = 198) as ->; [|done]. apply Z.log2_unique; [lia|]. change (Z.succ 198) with 199. lia.
Qed.

(** SHA-256 yields bytes, at least the four of a checksum. *)
Definition digests_bytes : Prop :=
  ∀ l, (4 ≤ length (chain_sha256 l))%nat ∧ Forall is_byte (chain_sha256 l).

Lemma address_bytes a :
  digests_bytes → is_account a →
  let l := (65 :: a) ++ take 4 (chain_sha256 (chain_sha256 (65 :: a))) in
  length l = 25%nat ∧ Forall is_byte l ∧ 65 * 256 ^ 24 ≤ number_of l < 66 * 256 ^ 24.
Proof.
  intros Hsha [Hlen Hbytes] l. destruct (Hsha (chain_sha256 (65 :: a))) as [Hl Hb].
  assert (length l = 25%nat) as Hl25 by (subst l; rewrite length_app, length_take; cbn [length]; lia).
  assert (Forall is_byte l) as Hlb.
  { subst l. apply Forall_app. split; [constructor; [unfold is_byte; lia|done]|by apply Forall_take]. }
  split_and!; [done..| |]; subst l; cbn [app] in *; set (k := a ++ _) in *;
    change (65 :: k) with ([65] ++ k); rewrite number_of_app; change (number_of [65]) with 65;
    assert (length k = 24%nat) as Hk by (cbn [length] in Hl25; lia);
    pose proof (number_of_bound k (Forall_inv_tail Hlb)) as Hnk; rewrite Hk in *;
    change (Z.of_nat 24) with 24 in *; lia.
Qed.

Lemma normalize_base58 a s :
  digests_bytes → is_account a → strip s = tron_address a →
  _normalize_tron_address s = Ok ("41" +:+ hex_bytes a).
Proof.
  intros Hsha Ha Hs. destruct (address_bytes a Hsha Ha) as (Hlen & Hbytes & Hnum). revert Hs. unfold tron_address.
  set (l := (65 :: a) ++ _) in *. set (z := number_of l) in *. intros Hs.
  destruct (tron_number z Hnum) as (Hhead & Hlt & Hbl). unfold _normalize_tron_address. rewrite Hs.
  assert (0 ≤ z) as Hz by lia.
  destruct (b58_head 33 z Hz) as [r Hr]. change (Z.of_nat 33) with 33 in Hr. rewrite Hhead in Hr.
  change (b58_char (26 mod 58)) with "T"%char in Hr.
  assert (String.prefix "T" (of_chars (to_b58 34 z)) = true) as -> by (rewrite Hr; by destruct r).
  unfold _tron_base58_to_hex, _b58decode. rewrite chars_of_chars.
  rewrite <- (app_nil_r (to_b58 34 z)), b58_number_to, app_nil_r. cbn [b58_number]. change (Z.of_nat 34) with 34.
  rewrite Z.mul_0_r, Z.add_0_l, Z.mod_small, Hbl by lia.
  assert (leading_ones (to_b58 34 z) = 0%nat) as -> by (by rewrite Hr). cbn [repeat app].
  rewrite <- Hlen. subst z. rewrite to_bytes_number by done. rewrite Hlen. cbn [Nat.eqb negb].
  assert (length (65 :: a) = 21%nat) as Hl21 by (cbn; by rewrite (ac_length _ Ha)).
  subst l. rewrite take_app_length', drop_app_length' by done. rewrite Hl21. cbn [head Nat.eqb negb].
  rewrite !bool_decide_eq_true_2 by done. cbn [negb orb]. by change (hex_bytes (65 :: a)) with ("41" +:+ hex_bytes a).
Qed.

(** The ways an account is written. *)
Definition written (a : list Z) (s : string) : Prop := strip s = tron_address a ∨ written_hex a s.

Lemma normalize_written a s :
  digests_bytes → is_account a → written a s → _normalize_tron_address s = Ok ("41" +:+ hex_bytes a).
Proof. intros Hsha Ha [Hs|Hs]; [by apply normalize_base58|by apply normalize_hex]. Qed.

End addresses.

(** [C40] TRON addresses compare as accounts.  An account can be written in
    Base58Check, as its twenty bytes in hexadecimal, with the network prefix or
    padded to an ABI word, with or without [0x], in any case and with space
    around it.  All of these are read as the same canonical text (so what was
    encoded is decoded), and two addresses are read as the same text exactly
    when they are the same account: the verifier cannot take a transfer to
    somebody else for a transfer to the merchant because of how a node writes
    addresses. *)
Theorem addresses_compare `{ChainHttp} a b s s' :
  digests_bytes → is_account a → is_account b → written a s → written b s' →
  _normalize_tron_address s = Ok ("41" +:+ hex_bytes a)
  ∧ (_normalize_tron_address s = _normalize_tron_address s' ↔ a = b).
Proof.
  intros Hsha Ha Hb Hs Hs'. rewrite (normalize_written a s), (normalize_written b s') by done.
  split; [done|]. split; [|by intros ->]. intros [= Heq].
  apply hex_bytes_inj; [apply (ac_bytes _ Ha)|apply (ac_bytes _ Hb)|done].
Qed.

(** ** A chain, and a node that serves it *)

(** What an ERC-20 chain is, as far as a transfer is concerned: logs with the
    contract that emitted them, topics and data as numbers ([lg_width] digits
    of data), transactions in blocks, the finalized and the latest block. *)
Record ChainLog := MkChainLog {
  lg_contract : Z;
  lg_topics : list Z;
  lg_width : nat;
  lg_data : Z;
}.

Record ChainTx := MkChainTx {
  ct_block : Z;
  ct_ok : bool;
  ct_logs : list ChainLog;
}.

Record Chain := MkChain {
  ch_id : Z;
  ch_latest : Z;
  ch_finalized : Z;
  ch_tx : string → option ChainTx;
  ch_time : Z → Z;
}.

(** [Transfer(address,address,uint256)] *)
Definition TRANSFER : Z := 0xddf252ad1be2c89b69c2b068fc378daa952ba7f163c4a11628f55a4df523b3ef.

(** A transfer of the token [contract] to [account]. *)
Definition is_transfer (contract account : Z) (l : ChainLog) : bool :=
  (lg_contract l =? contract)
  && match lg_topics l with
     | signature :: _ :: to_ :: _ => (signature =? TRANSFER) && (to_ =? account)
     | _ => false
     end.

Definition transfers_to (contract account : Z) (t : ChainTx) : list Z :=
  map lg_data (select (is_transfer contract account) (ct_logs t)).

Definition is_word (z : Z) : Prop := 0 ≤ z < 16 ^ 64.
Definition is_address (z : Z) : Prop := 0 ≤ z < 16 ^ 40.

Record log_ok (l : ChainLog) : Prop := {
  lo_contract : is_address (lg_contract l);
  lo_topics : Forall is_word (lg_topics l);
  lo_width : (0 < lg_width l)%nat;
  lo_data : 0 ≤ lg_data l < 16 ^ Z.of_nat (lg_width l);
}.

Record chain_ok (c : Chain) : Prop := {
  co_heights : 0 ≤ ch_id c ∧ 0 ≤ ch_latest c ∧ 0 ≤ ch_finalized c;
  co_tx : ∀ h t, ch_tx c h = Some t → 0 ≤ ct_block t ∧ Forall log_ok (ct_logs t);
  co_time : ∀ b, 0 ≤ ch_time c b ≤ 253402300799;
}.

(** *** The documents of the node *)

Definition hex_word (n : nat) (z : Z) : string := "0x" +:+ of_chars (to_hex n z).

Definition log_json (l : ChainLog) : json :=
  JObj [ ("address", JStr (hex_word 40 (lg_contract l)));
         ("topics", JList (map (λ t, JStr (hex_word 64 t)) (lg_topics l)));
         ("data", JStr (hex_word (lg_width l) (lg_data l))) ].

Definition receipt_json (t : option ChainTx) : json :=
  match t with
  | None => JNull
  | Some t => JObj [ ("status", JStr (hex_text (if ct_ok t then 1 else 0)));
                     ("blockNumber", JStr (hex_text (ct_block t)));
                     ("logs", JList (map log_json (ct_logs t))) ]
  end.

Definition block_json (number time : Z) : json :=
  JObj [("number", JStr (hex_text number)); ("timestamp", JStr (hex_text time))].

(** The node answers a call with this result, in a body of allowed size. *)
Definition answers `{ChainHttp} (v : EvmERC20Verifier) (method : string) (params : list json) (result : json)
    : Prop :=
  ∀ n k, ∃ size, size ≤ max_response_bytes
    ∧ chain_http n k "POST" (evm_rpc_url v) []
        (JObj [("jsonrpc", JStr "2.0"); ("method", JStr method); ("params", JList params)])
      = ChainBody None size (Some (JObj [("jsonrpc", JStr "2.0"); ("result", result)])).

Record serves `{ChainHttp} (v : EvmERC20Verifier) (c : Chain) : Prop := {
  sv_chain : answers v "eth_chainId" [] (JStr (hex_text (ch_id c)));
  sv_receipt : ∀ h, answers v "eth_getTransactionReceipt" [JStr h] (receipt_json (ch_tx c h));
  sv_final : answers v "eth_getBlockByNumber" [JStr "finalized"; JBool false]
               (block_json (ch_finalized c) (ch_time c (ch_finalized c)));
  sv_latest : answers v "eth_blockNumber" [] (JStr (hex_text (ch_latest c)));
  sv_block : ∀ b, 0 ≤ b → answers v "eth_getBlockByNumber" [JStr (hex_text b); JBool false]
                            (block_json b (ch_time c b));
}.

(** What the chain has to say about the payment. *)
Definition chain_verdict (v : EvmERC20Verifier) (c : Chain) (hash : string) (contract account : Z)
    : outcome exn OnChainVerificationResult :=
  let token := evm_token v in
  if negb (ch_id c =? evm_chain_id token) then Raise PaymentIntegrityError
  else
    match ch_tx c hash with
    | None => Raise OnChainVerificationPending
    | Some t =>
        let final := ct_block t <=? ch_finalized c in
        let report amount succeeded observed :=
          MkOnChainVerificationResult (evm_network token) (lower hash) (evm_asset token) (hex_word 40 account)
            amount (Z.max 0 (ch_latest c - ct_block t + 1)) final succeeded observed true in
        if ct_ok t then
          match transfers_to contract account t with
          | [value] => Ok (report (token_amount value (evm_decimals token)) true
                             (Some (seconds (ch_time c (ct_block t)))))
          | _ => Raise PaymentIntegrityError
          end
        else if final then Ok (report 0 false None) else Raise OnChainVerificationPending
    end.

(** *** Reading the documents *)

Lemma to_hex_inj n x y : 0 ≤ x < 16 ^ Z.of_nat n → 0 ≤ y < 16 ^ Z.of_nat n → to_hex n x = to_hex n y → x = y.
Proof.
  intros Hx Hy Heq. destruct n as [|n]; [cbn in *; lia|].
  pose proof (hex_digits_to_hex (S n) x 0 false []) as H1. rewrite Heq, hex_digits_to_hex in H1.
  cbn [hex_digits] in H1. rewrite !orb_true_r in H1. injection H1 as H1. rewrite !Z.mod_small in H1 by done. lia.
Qed.

Lemma hex_word_inj n x y :
  0 ≤ x < 16 ^ Z.of_nat n → 0 ≤ y < 16 ^ Z.of_nat n → hex_word n x = hex_word n y → x = y.
Proof.
  intros Hx Hy Heq. apply (f_equal chars) in Heq. unfold hex_word in Heq.
  rewrite !chars_append, !chars_of_chars in Heq. apply app_inv_head in Heq. by eapply to_hex_inj.
Qed.

Lemma parse_hex_word n z :
  (0 < n)%nat → 0 ≤ z < 16 ^ Z.of_nat n → _parse_hex_int (JStr (hex_word n z)) = Ok z.
Proof. apply parse_hex_text. Qed.

Lemma lower_hex_only s : hex_only s → lower s = s.
Proof.
  unfold hex_only, lower. rewrite <- (of_chars_chars s) at 3. intros Hs. f_equal.
  induction Hs as [|c l Hc _ IH]; cbn; [done|]. rewrite IH. f_equal.
  by apply andb_true_iff in Hc as [[_ Hc%bool_decide_eq_true]%andb_true_iff _].
Qed.

Lemma hex_only_to_hex n z : hex_only (of_chars (to_hex n z)).
Proof. unfold hex_only. rewrite chars_of_chars. apply to_hex_chars. Qed.

Lemma lower_hex_word n z : lower (hex_word n z) = hex_word n z.
Proof.
  unfold hex_word. change (lower ("0x" +:+ of_chars (to_hex n z))) with ("0x" +:+ lower (of_chars (to_hex n z))).
  by rewrite lower_hex_only by apply hex_only_to_hex.
Qed.

Lemma to_hex_pad m n z : 0 ≤ z < 16 ^ Z.of_nat n → to_hex (m + n) z = repeat "0"%char m ++ to_hex n z.
Proof.
  revert z. induction n as [|n IH]; intros z Hz.
  - rewrite Nat.add_0_r, app_nil_r. assert (z = 0) as -> by (cbn in Hz; lia). clear.
    induction m as [|m IH]; [done|]. rewrite to_hex_S. change (0 / 16) with 0. rewrite IH.
    change (nibble (0 mod 16)) with "0"%char. cbn [repeat]. by rewrite <- repeat_cons.
  - rewrite Nat.add_succ_r, !to_hex_S, IH, app_assoc; [done|]. rewrite Nat2Z.inj_succ, Z.pow_succ_r in Hz by lia.
    split; [apply Z.div_pos; lia|]. apply Z.div_lt_upper_bound; lia.
Qed.

Lemma is_0x_word n z : is_0x n (hex_word n z) = true.
Proof.
  unfold is_0x. change (chars (hex_word n z)) with ("0"%char :: "x"%char :: chars (of_chars (to_hex n z))).
  rewrite chars_of_chars, length_to_hex, Nat.eqb_refl. cbn [andb].
  rewrite <- (chars_of_chars (to_hex n z)). apply hex_only_chars, hex_only_to_hex.
Qed.

Lemma count_digits_le f x n : 0 ≤ x < 10 ^ n → 1 ≤ n → count_digits f x ≤ n.
Proof.
  revert x n. induction f as [|f IH]; intros x n Hx Hn; cbn [count_digits]; [done|].
  destruct (Z.ltb_spec x 10); [done|]. destruct (decide (n = 1)) as [->|Hne]; [lia|].
  assert (10 ^ n = 10 * 10 ^ (n - 1)) as Hp by (rewrite <- Z.pow_succ_r by lia; f_equal; lia).
  specialize (IH (x / 10) (n - 1)). assert (count_digits f (x / 10) ≤ n - 1); [|lia].
  apply IH; [|lia]. split; [apply Z.div_pos; lia|]. apply Z.div_lt_upper_bound; lia.
Qed.

Lemma token_amount_exact value d :
  0 ≤ value < 10 ^ 28 → 0 ≤ d ≤ 36 → token_amount value d * 10 ^ d = value * 10 ^ 36.
Proof.
  intros Hv Hd. unfold token_amount. rewrite Z.abs_eq by lia.
  rewrite (proj2 (Z.leb_le _ _) (count_digits_le _ value 28 Hv ltac:(lia))).
  rewrite <- Z.mul_assoc, <- Z.pow_add_r by lia. do 2 f_equal. lia.
Qed.

Section served.
  Context `{Env} `{ChainHttp}.

Lemma rpc_answers v m p r n k : answers v m p r → _rpc v n k m p = Ok r.
Proof.
  intros Ha. destruct (Ha n k) as (size & Hsize & Heq). unfold _rpc. rewrite Heq. unfold body_of, _json_object, _assert_response_size.
  by rewrite (proj2 (Z.ltb_ge _ _) Hsize).
Qed.

Lemma policy_text_hex k n z l :
  dict_get k l = Some (JStr (hex_word n z)) → policy_text k "" l = hex_word n z.
Proof. intros Hk. unfold policy_text. by rewrite Hk. Qed.

(** The destination as a topic. *)
Lemma topic_account t account :
  is_word t → is_address account →
  without_0x (lower (hex_word 64 t)) = padding +:+ without_0x (hex_word 40 account) ↔ t = account.
Proof.
  intros Ht Ha. rewrite lower_hex_word.
  change (without_0x (hex_word 64 t)) with (of_chars (to_hex 64 t)).
  change (without_0x (hex_word 40 account)) with (of_chars (to_hex 40 account)).
  assert (padding +:+ of_chars (to_hex 40 account) = of_chars (to_hex 64 account)) as ->.
  { change (to_hex 64 account) with (to_hex (24 + 40) account). by rewrite (to_hex_pad 24 40 account) by done. }
  split; [|by intros ->]. intros Heq%(f_equal chars). rewrite !chars_of_chars in Heq.
  apply (to_hex_inj 64); [exact Ht| |exact Heq]. split; [apply Ha|].
  eapply Z.lt_trans; [apply Ha|done].
Qed.

Lemma transfer_log_ok contract account l :
  is_address contract → is_address account → log_ok l →
  transfer_log (hex_word 40 contract) (hex_word 40 account) (log_json l)
  = if is_transfer contract account l then Some (JStr (hex_word (lg_width l) (lg_data l))) else None.
Proof.
  intros Hc Ha [Hlc Hlt Hlw Hld]. unfold transfer_log, log_json, is_transfer.
  rewrite (policy_text_hex "address" 40 (lg_contract l)) by done. rewrite lower_hex_word.
  destruct (Z.eqb_spec (lg_contract l) contract) as [->|Hne]; cbn [andb].
  2: { rewrite bool_decide_eq_false_2; [done|]. intros Heq. by apply hex_word_inj in Heq. }
  rewrite bool_decide_eq_true_2 by done. cbn [negb].
  change (dict_get "topics" _) with (Some (JList (map (λ t, JStr (hex_word 64 t)) (lg_topics l)))).
  destruct (lg_topics l) as [|signature [|from [|to_ rest]]]; [done..|]. cbn [map json_text].
  inversion Hlt as [|? ? Hsig Hlt1]; subst. inversion Hlt1 as [|? ? _ Hlt2]; subst. inversion Hlt2 as [|? ? Hto _]; subst.
  assert (_ERC20_TRANSFER_TOPIC = hex_word 64 TRANSFER) as -> by (by vm_compute). rewrite lower_hex_word.
  destruct (Z.eqb_spec signature TRANSFER) as [->|Hne]; cbn [andb].
  2: { rewrite bool_decide_eq_false_2; [done|]. intros Heq%hex_word_inj; [done|done|]. split; by vm_compute. }
  rewrite bool_decide_eq_true_2 by done. cbn [negb]. fold padding.
  rewrite (policy_text_hex "data" (lg_width l) (lg_data l)) by done.
  destruct (Z.eqb_spec to_ account) as [->|Hne].
  - by rewrite bool_decide_eq_true_2 by (by apply topic_account).
  - rewrite bool_decide_eq_false_2; [done|]. by intros Heq%topic_account.
Qed.

Lemma transfer_amounts_ok contract account logs :
  is_address contract → is_address account → Forall log_ok logs →
  transfer_amounts (hex_word 40 contract) (hex_word 40 account) (map log_json logs)
  = Ok (map lg_data (select (is_transfer contract account) logs)).
Proof.
  intros Hc Ha Hl. induction Hl as [|l logs Hl _ IH]; [done|]. cbn [map transfer_amounts].
  rewrite transfer_log_ok by done. unfold select in *. cbn [List.filter].
  destruct (is_transfer contract account l); [|done]. rewrite parse_hex_word by (apply Hl). by rewrite IH.
Qed.

Lemma block_time_ok b t : 0 ≤ t ≤ 253402300799 → block_time (block_json b t) = Ok (Some (seconds t)).
Proof.
  intros Ht. unfold block_time, block_json, has_value.
  change (dict_get "timestamp" _) with (Some (JStr (hex_text t))). cbn [default]; unfold id.
  rewrite parse_quantity by lia. unfold instant_of_ms, seconds.
  replace ((-62135596800000 <=? t * 1000) && (t * 1000 <=? 253402300799999)) with true by (symmetry; lia).
  f_equal. f_equal. lia.
Qed.

Lemma receipt_ok v c hash t n :
  serves v c → chain_ok c → ch_tx c hash = Some t →
  ∃ receipt, get_receipt v n hash = Ok (receipt, if ct_ok t then 1 else 0, ct_block t)
    ∧ dict_get "logs" receipt = Some (JList (map log_json (ct_logs t))).
Proof.
  intros Hs Hc Ht. destruct (co_tx _ Hc hash t Ht) as [Hb _]. unfold get_receipt.
  rewrite (rpc_answers _ _ _ _ _ _ (sv_receipt _ _ Hs hash)), Ht. cbn [receipt_json].
  set (receipt := [_; _; _]). exists receipt. split; [|done].
  change (dict_get "status" receipt) with (Some (JStr (hex_text (if ct_ok t then 1 else 0)))).
  change (dict_get "blockNumber" receipt) with (Some (JStr (hex_text (ct_block t)))). cbn [default]; unfold id.
  rewrite parse_quantity by (by destruct (ct_ok t)). by rewrite parse_quantity.
Qed.

Lemma heights_ok v c n :
  serves v c → chain_ok c → get_heights v n = Ok (ch_finalized c, ch_latest c).
Proof.
  intros Hs Hc. destruct (co_heights _ Hc) as (_ & Hl & Hf). unfold get_heights, rpc_int.
  rewrite (rpc_answers _ _ _ _ _ _ (sv_final _ _ Hs)). unfold block_json, has_value.
  change (dict_get "number" _) with (Some (JStr (hex_text (ch_finalized c)))). cbn [default negb]; unfold id.
  rewrite parse_quantity by done. rewrite (rpc_answers _ _ _ _ _ _ (sv_latest _ _ Hs)). by rewrite parse_quantity.
Qed.

End served.

(** [C11] The verifier of ERC-20 transfers says what the chain says.  Let the
    node serve a chain (its documents are the chain's contents in JSON-RPC
    form).  Then for a transaction hash, a merchant address and the asset of the
    installation, the verifier returns exactly the chain's verdict: nothing yet
    for an unknown transaction or a failure that is not final; a failure once it
    is final; and otherwise the one transfer of the installation's token to the
    merchant, its amount in the token's decimals, its confirmations, whether its
    block is finalized and when it was produced.  A node of another chain, no
    such transfer or several of them are refused.  An amount of up to 28 digits
    is exact. *)
Theorem evm_reports_chain `{Env} `{ChainHttp} v c n network hash asset destination contract account :
  serves v c → chain_ok c → is_address contract → is_address account →
  evm_contract_address (evm_token v) = hex_word 40 contract →
  upper (strip network) = evm_network (evm_token v) → upper (strip asset) = evm_asset (evm_token v) →
  is_0x 64 (strip hash) = true → lower (strip destination) = hex_word 40 account →
  evm_verify_transaction v n network hash (Some asset) (Some destination) = chain_verdict v c hash contract account
  ∧ (∀ value, 0 ≤ value < 10 ^ 28 → 0 ≤ evm_decimals (evm_token v) ≤ 36 →
       token_amount value (evm_decimals (evm_token v)) * 10 ^ evm_decimals (evm_token v) = value * 10 ^ 36).
Proof.
  intros Hs Hc Hcon Hacc Hct Hnet Hass Hhash Hdest. split; [|intros value Hv Hd; by apply token_amount_exact].
  unfold evm_verify_transaction, chain_verdict. cbn [default]; unfold id. rewrite Hdest, Hnet, Hass, Hhash.
  rewrite !bool_decide_eq_true_2 by done. rewrite andb_false_r. cbn [negb].
  assert (is_0x 40 (hex_word 40 account) = true) as -> by apply is_0x_word. cbn [negb].
  unfold rpc_int. rewrite (rpc_answers _ _ _ _ _ _ (sv_chain _ _ Hs)).
  destruct (co_heights _ Hc) as (Hid & _). rewrite parse_quantity by done.
  destruct (ch_id c =? evm_chain_id (evm_token v)); [|done]. cbn [negb].
  destruct (ch_tx c hash) as [t|] eqn:Ht.
  2: { unfold get_receipt. by rewrite (rpc_answers _ _ _ _ _ _ (sv_receipt _ _ Hs hash)), Ht. }
  destruct (receipt_ok v c hash t n Hs Hc Ht) as (receipt & -> & Hlogs). rewrite (heights_ok v c n) by done.
  destruct (co_tx _ Hc hash t Ht) as [Hb Hlg]. destruct (ct_ok t); cbn [negb Z.eqb].
  2: { by destruct (ct_block t <=? ch_finalized c). }
  change (negb (1 =? 1)) with false. cbn [negb]. unfold transferred. rewrite Hlogs, Hct, transfer_amounts_ok by done.
  fold (transfers_to contract account t). destruct (transfers_to contract account t) as [|value [|? ?]]; [done| |done].
  rewrite (rpc_answers _ _ _ _ _ _ (sv_block _ _ Hs _ Hb)).
  by rewrite (block_time_ok _ _ (co_time _ Hc (ct_block t))).
Qed.

(** ** Addresses with a checksum *)

Lemma strip_lower s : strip (lower (strip s)) = lower (strip s).
Proof.
  unfold strip, lower. rewrite !chars_of_chars.
  assert (∀ c, is_space (to_lower c) = is_space c) as Hs by (intros c; all_chars c).
  assert (strip_chars (map to_lower (strip_chars (chars s))) = map to_lower (strip_chars (chars s))) as ->; [|done].
  unfold strip_chars at 1. rewrite drop_while_map by done. rewrite <- map_rev, drop_while_map by done.
  rewrite <- map_rev. f_equal. apply strip_chars_idem.
Qed.

Lemma evm_destination `{Env} `{ChainHttp} v n network hash asset destination r :
  evm_verify_transaction v n network hash asset destination = Ok r →
  oc_destination_address r = lower (strip (default "" destination)).
Proof.
  unfold evm_verify_transaction. intros Hr. repeat (case_match; simplify_eq; try done).
Qed.

Definition refused {A} (s : Session) (r : outcome exn A) (s' : Session) : Prop := is_ok r = false ∧ s' = s.

(** An address written with its checksum is never paid.  The ERC-20
    verifier reports the destination in small letters, and the platform compares
    it with the address of the payment method as it is: when that contains a
    capital letter, as every address in its checksummed form does, verifying
    evidence raises, whatever the chain says, and the evidence stays as it was. *)
Theorem checksummed_address_refused `{HE : Env} `{ChainHttp} (verifiers : OnChainRegistry) v t oid s o m :
  get_observation t oid s = (Ok o, s) → obs_source o = SrcOnchain → ruled o = false →
  get_method t (obs_payment_method_id o) false s = (Ok m, s) →
  get_verifier (default "" (pmc_network m)) = Ok (evm_verifier v) →
  lower (strip (default "" (pmc_destination_address m))) ≠ strip (default "" (pmc_destination_address m)) →
  ∃ e, verify_onchain_observation t oid s = (Raise e, s).
Proof.
  intros Ho Hsrc Hru Hm Hv Hcase. apply orb_false_iff in Hru as [Hn1 Hn2].
  assert (∀ e, refused s (Raise e : outcome exn PaymentObservation) s) as Hraise by done.
  assert (wp (verify_onchain_observation t oid) (refused s) s) as Hw.
  { unfold verify_onchain_observation. eapply wp_step; [exact Ho|]. apply wp_guard; [intros _|done].
    rewrite Hn1. apply wp_guard; [intros _|done]. eapply wp_step; [exact Hm|].
    apply wp_guard; [intros _|done]. apply wp_of_outcome; [|done]. rewrite Hv. intros verifier [= <-].
    apply wp_gets. apply wp_of_outcome; [|done]. intros r Hr%evm_destination.
    apply wp_of_outcome; [|done]. intros x Hcr. exfalso. revert Hcr.
    unfold check_result. repeat (case_match; try done). intros _.
    match goal with Hd : (strip _ != strip _) = false |- _ =>
      rewrite negb_false_iff, bool_decide_eq_true, Hr, strip_lower in Hd; by destruct Hcase end. }
  destruct (verify_onchain_observation t oid s) as [[x|e] s'] eqn:Hrun;
    destruct (wp_run _ _ _ _ _ Hw Hrun) as [Hok ->]; [done|by exists e].
Qed.

(** ** An example *)

(** A node that serves the chain [c]. *)
Definition node_result (c : Chain) (method : string) (params : list json) : json :=
  match params with
  | [] => JStr (hex_text (if method == "eth_chainId" then ch_id c else ch_latest c))
  | JStr p :: _ =>
      if method == "eth_getTransactionReceipt" then receipt_json (ch_tx c p)
      else if p == "finalized" then block_json (ch_finalized c) (ch_time c (ch_finalized c))
      else match hex_of_str (chars p) with
           | Some b => block_json b (ch_time c b)
           | None => JNull
           end
  | _ => JNull
  end.

Definition demo_node (c : Chain) : ChainHttp := {|
  chain_http _ _ _ _ _ document :=
    match document with
    | JObj [_; (_, JStr method); (_, JList params)] =>
        ChainBody None 100 (Some (JObj [("jsonrpc", JStr "2.0"); ("result", node_result c method params)]))
    | _ => ChainFailed
    end;
  chain_sha256 l := repeat (number_of l mod 256) 32;
|}.

Definition demo_account : Z := 0x00112233445566778899aabbccddeeff00112233.
Definition demo_contract : Z := 0x55d398326f99059ff775485246999027b3197955.

Definition demo_chain : Chain :=
  MkChain 56 120 110
    (λ h, if h == ev_hash
          then Some (MkChainTx 100 true
                 [ MkChainLog 7 [TRANSFER; 1; demo_account] 64 9;
                   MkChainLog demo_contract [TRANSFER; 1; demo_account] 64 (10 * 10 ^ 18) ])
          else None)
    (λ b, 1700000000 + b mod 1000).

Definition demo_evm : EvmERC20Verifier :=
  MkEvmERC20Verifier (MkEvmTokenIdentity "BSC" 56 "USDT" (hex_word 40 demo_contract) 18) "https://node".

Lemma hex_text_quantity b : 0 ≤ b → hex_of_str (chars (hex_text b)) = Some b.
Proof.
  intros Hb. pose proof (parse_quantity b Hb) as Hp. unfold _parse_hex_int in Hp.
  destruct (String.prefix "0x" (hex_text b)); [|done]. cbn [negb] in Hp. case_match; [|done]. by injection Hp as ->.
Qed.

Lemma hex_text_not_finalized b : 0 ≤ b → hex_text b ≠ "finalized".
Proof. intros Hb Heq. pose proof (hex_text_quantity b Hb) as Hq. by rewrite Heq in Hq. Qed.

Lemma demo_serves : @serves (demo_node demo_chain) demo_evm demo_chain.
Proof.
  split; intros; intros n k; exists 100; (split; [by vm_compute|]).
  1-4: reflexivity.
  change (bool_decide ("eth_getBlockByNumber" = "eth_getTransactionReceipt")) with false. cbn -[hex_text].
  rewrite (bool_decide_eq_false_2 (hex_text b = "finalized")) by (by apply hex_text_not_finalized).
  by rewrite hex_text_quantity.
Qed.

Lemma demo_log c v :
  is_address c → is_word v → log_ok (MkChainLog c [TRANSFER; 1; demo_account] 64 v).
Proof.
  intros Hc Hv. split; [done| |cbn; lia|done]. cbn. repeat (apply Forall_cons_2; [split; by vm_compute|]). apply Forall_nil_2.
Qed.

Lemma demo_chain_ok : chain_ok demo_chain.
Proof.
  split; cbn [ch_id ch_latest ch_finalized ch_tx ch_time demo_chain]; [done| |].
  - intros h t. case_bool_decide; [|done]. intros [= <-]. split; [done|].
    apply Forall_cons_2; [|apply Forall_cons_2; [|apply Forall_nil_2]]; try apply demo_log; split; by vm_compute.
  - intros b. pose proof (Z.mod_pos_bound b 1000). lia.
Qed.

Definition demo_destination : string := "0X00112233445566778899AABBCCDDEEFF00112233".

Lemma evm_reports_chain_witness :
  @evm_verify_transaction ev_env (demo_node demo_chain) demo_evm 0 "bsc" ev_hash (Some "usdt") (Some demo_destination)
  = Ok (MkOnChainVerificationResult "BSC" ev_hash "USDT" (lower demo_destination) (10 * 10 ^ 36) 21 true true
          (Some (seconds 1700000100)) true).
Proof.
  destruct (@evm_reports_chain ev_env (demo_node demo_chain) demo_evm demo_chain 0 "bsc" ev_hash "usdt"
              demo_destination demo_contract demo_account demo_serves demo_chain_ok) as [-> _];
    try (vm_compute; reflexivity); try (split; by vm_compute).
Defined.

Definition demo_bytes : list Z := map Z.of_nat (seq 1 20).

Lemma addresses_compare_witness :
  @_normalize_tron_address (demo_node demo_chain) (@tron_address (demo_node demo_chain) demo_bytes)
  = @_normalize_tron_address (demo_node demo_chain) (" 0x" +:+ padding +:+ upper (hex_bytes demo_bytes)).
Proof.
  assert (is_account demo_bytes) as Ha by (split; [done|]; repeat (apply Forall_cons_2; [by split; vm_compute|]); apply Forall_nil_2).
  eapply (@addresses_compare (demo_node demo_chain) demo_bytes demo_bytes); [|exact Ha|exact Ha| | |done].
  - intros l. split; [cbn; lia|]. cbn [chain_sha256 demo_node]. apply list.Forall_forall.
    intros x ->%list_elem_of_In%repeat_spec. apply Z.mod_pos_bound. lia.
  - left. vm_compute. reflexivity.
  - right. exists (padding +:+ hex_bytes demo_bytes). split; [right; right; left|]. right. vm_compute. reflexivity.
Defined.

(** A method whose address is written with its checksum. *)
Definition checksum_events : list evidence_event :=
  [ EvEvidence (ReqMethod (MkMethodRequest ev_tenant "usdt" "USDT" MtSelfCustody VmHybrid None (Some "usdt")
      (Some "bsc") (Some "0x00112233445566778899AaBbCcDdEeFf00112233") None None true true true "" None));
    EvEvidence (ReqLocalTopup ev_tenant (mk_uuid "u") (ev_uuid 0) (10 * one) "USD" "k");
    EvEvidence (ReqQuote (MkQuoteRequest ev_tenant (ev_uuid 1) (10 * one) "USD" (10 * one) "USDT" "BSC" one
                            "fixed" 1700000200000000 true None None));
    EvEvidence (ReqSubmit demo_submission) ].

Definition checksum_demo : Session := @run_evidence ev_env checksum_events no_evidence.

Definition evm_verifiers : OnChainRegistry := register "bsc" (@evm_verifier ev_env (demo_node demo_chain) demo_evm) [].

Lemma checksummed_address_refused_witness :
  map obs_status (observations (ses_db checksum_demo)) = [ObsPendingVerification]
  ∧ ∃ e, @verify_onchain_observation ev_env evm_verifiers ev_tenant (ev_uuid 3) checksum_demo = (Raise e, checksum_demo).
Proof.
  split; [vm_compute; reflexivity|].
  eapply (@checksummed_address_refused ev_env (demo_node demo_chain) evm_verifiers demo_evm);
    [vm_compute; reflexivity|vm_compute; reflexivity|vm_compute; reflexivity|vm_compute; reflexivity
    |reflexivity|vm_compute; discriminate].
Defined.
