(* ===== verification/BybitPay.v ===== *)
(** * The Bybit Pay gateway

    [packages/payments/providers/bybit_pay.py], class [BybitPayProvider]: an
    HTTP adapter with signed requests, webhooks under an RSA signature, and the
    recovery of a payment whose creation was not answered.  HTTP, the clock,
    the key material and the JSON decoder are the class [BybitApi]. *)

From Stdlib Require Import ZArith Lia Ascii String.
From stdpp Require Import base tactics list option strings numbers pretty.
From S2P Require Import Prelude Tables Text Money Exceptions StateMachines Models Payments TopUps.
From S2P Require Import StarsGateway Evidence Verifiers.

Local Open Scope Z_scope.

(** ** Calls without state *)

Global Instance outcome_ret {E} : MRet (outcome E) := λ A a, Ok a.
Global Instance outcome_bind {E} : MBind (outcome E) := λ A B k m,
  match m with Ok a => k a | Raise e => Raise e end.

(** [if c: raise PaymentProviderError(...)] *)
Definition refuse_if (c : bool) : outcome exn unit := if c then Raise PaymentProviderError else Ok tt.

(** ** What the adapter is given *)

(** [httpx.URL(value)] *)
Record Url := MkUrl {
  url_scheme : string;
  url_host : string;
  url_username : string;
  url_password : string;
}.

(** [serialization.load_pem_public_key]: it raises, or the key is of another
    kind, or an RSA key with its size and its check of a signature (first
    argument) of a message, PKCS #1 v1.5 with SHA-256. *)
Inductive PublicKey :=
  | PemInvalid
  | PemOther
  | PemRsa (key_size : Z) (verify : string → string → bool).

(** A timeout, another [httpx.RequestError], or a response: its status, the
    length of its body, and the document where the body is JSON. *)
Inductive BybitAnswer :=
  | BybitTimeout
  | BybitRequestError
  | BybitResponse (status_code size : Z) (document : option json).

(** The answer to a request (method, URL, headers, body) after what was sent
    before, the clock when a request is made (milliseconds) and when a webhook
    arrives (seconds), [httpx.URL] where it does not raise, HMAC-SHA-256 in
    hexadecimal, [load_pem_public_key], strict [json.loads] and [float] of a
    text (a float is a finite decimal). *)
Class BybitApi := {
  bybit_http : list Sent → string → string → list (string * string) → option string → BybitAnswer;
  bybit_clock : list Sent → Z;
  bybit_arrival : string → list (string * string) → Z;
  bybit_url : string → option Url;
  bybit_hmac_sha256 : string → string → string;
  bybit_pem : string → PublicKey;
  bybit_loads : string → option json;
  bybit_float : string → option decimal_literal;
}.

(** The attributes of a [BybitPayProvider]. *)
Record BybitPay := MkBybitPay {
  bb_api_key : string;
  bb_api_secret : string;
  bb_merchant_id : string;
  bb_webhook_public_key_pem : string;
  bb_base_url : string;
  bb_recv_window : Z;
  bb_webhook_tolerance : Z;
  bb_success_url : string;
  bb_failed_url : string;
  bb_webhook_url : string;
  bb_shopping_name : string;
  bb_goods_name : string;
  bb_goods_detail : string;
  bb_mcc_code : string;
  bb_merchant_name : option string;
  bb_client_id : option string;
  bb_terminal_type : string;
  bb_currency_types : attributes;
}.

Definition mainnet_base : string := "https://api.bybit.com".
Definition testnet_base : string := "https://api-testnet.bybit.com".

Definition _SAFE_CREATE_FIELDS : list string := ["payId"; "terminalType"; "expireTime"; "checkoutLink"].

(** ** Texts *)

(** The headers of a delivery; the name is compared without regard to case. *)
Fixpoint _header (headers : list (string * string)) (name : string) : option string :=
  match headers with
  | [] => None
  | (key, value) :: headers => if lower key == lower name then Some value else _header headers name
  end.

(** [base64.b64decode(s, validate=True)] *)
Definition b64_alphabet : string := "ABCDEFGHIJKLMNOPQRSTUVWXYZabcdefghijklmnopqrstuvwxyz0123456789+/".

Definition byte_char (z : Z) : ascii := ascii_of_N (Z.to_N (z mod 256)).

Fixpoint b64_bytes (l : list Z) : option (list ascii) :=
  match l with
  | [] => Some []
  | [_] => None
  | [a; b] => Some [byte_char (a * 4 + b / 16)]
  | [a; b; c] => Some [byte_char (a * 4 + b / 16); byte_char (b * 16 + c / 4)]
  | a :: b :: c :: d :: l =>
      rest ← b64_bytes l;
      Some (byte_char (a * 4 + b / 16) :: byte_char (b * 16 + c / 4) :: byte_char (c * 64 + d) :: rest)
  end.

(** The padding completes the last group; after whole groups it is ignored. *)
Definition b64_padding (data pad : nat) : bool :=
  match (data mod 4)%nat with
  | 0%nat => (pad =? 0)%nat || (0 <? data)%nat
  | 2%nat => (pad =? 2)%nat
  | 3%nat => (pad =? 1)%nat
  | _ => false
  end.

Definition b64decode (s : string) : option string :=
  let '(data, pad) := break_at (λ c, c == "="%char) (chars s) in
  if negb (forallb (λ c, c == "="%char) pad) || negb (b64_padding (length data) (length pad)) then None
  else
    values ← mapM (λ c, index_of c (chars b64_alphabet)) data;
    of_chars <$> b64_bytes values.

(** [urllib.parse.quote_plus(s, safe="")] and [urlencode] *)
Definition quote_char (c : ascii) : list ascii :=
  if is_alnum c || existsb (λ d, c == d) ["_"; "."; "-"; "~"]%char then [c]
  else if c == " "%char then ["+"%char]
  else "%"%char :: map to_upper (to_hex 2 (Z.of_nat (code c))).

Definition quote_plus (s : string) : string := of_chars (flat_map quote_char (chars s)).

Fixpoint urlencode (l : list (string * string)) : string :=
  match l with
  | [] => ""
  | [(k, v)] => quote_plus k +:+ "=" +:+ quote_plus v
  | (k, v) :: l => quote_plus k +:+ "=" +:+ quote_plus v +:+ "&" +:+ urlencode l
  end.

(** [len(currency) == 3 and currency.isalpha()] *)
Definition is_currency (c : string) : bool := (String.length c =? 3)%nat && isalpha c.

(** A text of at most [n] characters that is not empty. *)
Definition bounded_text (n : nat) (s : string) : bool := (s != "") && (String.length s <=? n)%nat.

(** ** Amounts *)

(** A finite [Decimal] as an amount.  One with more than 18 decimals becomes an
    odd number of units: like the value it stands for, it equals no amount in
    cents and has the same sign. *)
Definition dec_of_literal (l : decimal_literal) : option dec :=
  match l with
  | DecFinite c e =>
      Some (if 0 <=? e + 18 then c * 10 ^ (e + 18)
            else let q := 10 ^ (- (e + 18)) in
                 if c mod q =? 0 then c / q else Z.lor (c / q) 1)
  | _ => None
  end.

Section settings.
  Context `{Env} `{BybitApi}.

Definition _decimal (value : json) : option dec := l ← decimal_of_str (json_text value); dec_of_literal l.

Definition bybit_status (raw : string) : PaymentIntentStatus :=
  let status := upper (strip raw) in
  if status == "INIT" then PayPending
  else if status == "PAY_SUCCESS" then PaySucceeded
  else if status == "PAY_FAILED" then PayFailed
  else if status == "TIMEOUT" then PayExpired
  else PayUnknown.

(** [str(d.get(k) or "").strip()], and with [.upper()] or [.lower()] *)
Definition field (k : string) (d : dict) : string := strip (policy_text k "" d).
Definition field_upper (k : string) (d : dict) : string := upper (field k d).
Definition field_lower (k : string) (d : dict) : string := lower (field k d).

(** The object in a text; [None] where the decoding raises. *)
Definition _strict_json (payload : string) : option dict :=
  match bybit_loads payload with Some (JObj data) => Some data | _ => None end.

(** ** Settings *)

Definition _parse_credentials (credentials : string) : outcome exn (string * string * string) :=
  let get payload key :=
    let value := field key payload in
    refuse_if (negb (bounded_text 512 value));; mret value in
  match bybit_loads credentials with
  | Some (JObj payload) =>
      refuse_if (existsb (λ kv : string * json, negb (existsb (λ k, kv.1 == k) ["api_key"; "api_secret"; "merchant_id"]))
                   payload);;
      api_key ← get payload "api_key";
      api_secret ← get payload "api_secret";
      merchant_id ← get payload "merchant_id";
      mret (api_key, api_secret, merchant_id)
  | _ => Raise PaymentProviderError
  end.

(** [float(value)]: an integer that rounds to 2^1024 overflows. *)
Definition to_float (v : json) : outcome exn decimal_literal :=
  match v with
  | JInt n => if 2 ^ 1024 - 2 ^ 970 <=? Z.abs n then Raise OverflowError else Ok (DecFinite n 0)
  | JBool b => Ok (DecFinite (if b then 1 else 0) 0)
  | JStr s => match bybit_float s with Some x => Ok x | None => Raise ValueError end
  | JNull | JList _ | JObj _ => Raise TypeError
  end.

Definition _number_setting (settings : dict) (key : string) (default_ minimum maximum : Z)
    : outcome exn decimal_literal :=
  match to_float (default (JInt default_) (dict_get key settings)) with
  | Raise OverflowError => Raise OverflowError
  | Raise _ => Raise PaymentProviderError
  | Ok value =>
      match decimal_ltb value (DecFinite minimum 0), decimal_ltb (DecFinite maximum 0) value with
      | Some false, Some false => Ok value
      | _, _ => Raise PaymentProviderError
      end
  end.

(** [int(value)] of a float *)
Definition truncated (v : decimal_literal) : Z :=
  match v with
  | DecFinite c e => if 0 <=? e then c * 10 ^ e else Z.quot c (10 ^ (- e))
  | _ => 0
  end.

(** [str(settings.get(key, default) or "").strip()], not too long *)
Definition _bounded_setting (settings : dict) (key default_ : string) (limit : nat) : outcome exn string :=
  let v := default (JStr default_) (dict_get key settings) in
  let value := strip (if json_truthy v then json_text v else "") in
  refuse_if (limit <? String.length value)%nat;; mret value.

Definition _required_https_setting (settings : dict) (key : string) : outcome exn string :=
  let value := field key settings in
  refuse_if (value == "");;
  match bybit_url value with
  | None => Raise PaymentProviderError
  | Some parsed =>
      refuse_if ((url_scheme parsed != "https") || (url_host parsed == "")
                 || (url_username parsed != "") || (url_password parsed != ""));;
      refuse_if (256 <? String.length value)%nat;;
      mret value
  end.

Definition or_none (s : string) : option string := if s == "" then None else Some s.

Fixpoint parse_currency_types (l : dict) (acc : attributes) : outcome exn attributes :=
  match l with
  | [] => Ok acc
  | (raw_currency, raw_kind) :: l =>
      let currency := upper (strip raw_currency) in
      let kind := lower (strip (json_text raw_kind)) in
      refuse_if (negb (is_currency currency) || ((kind != "fiat") && (kind != "crypto")));;
      parse_currency_types l (attr_set currency kind acc)
  end.

Definition rsa_key (pem : string) : option (string → string → bool) :=
  match bybit_pem pem with
  | PemRsa key_size verify => if key_size <? 1024 then None else Some verify
  | _ => None
  end.

(** [BybitPayProvider.__init__] *)
Definition init_bybit (settings : dict) (credentials : string) (webhook_secret : option string)
    : outcome exn BybitPay :=
  '(api_key, api_secret, merchant_id) ← _parse_credentials credentials;
  let pem := strip (default "" webhook_secret) in
  let base_url := if json_truthy (default (JBool false) (dict_get "sandbox" settings))
                  then testnet_base else mainnet_base in
  _ ← _number_setting settings "timeout_seconds" 15 2 30;
  recv_window ← _number_setting settings "recv_window_ms" 5000 1000 10000;
  tolerance ← _number_setting settings "webhook_tolerance_seconds" 300 30 3600;
  success_url ← _required_https_setting settings "success_url";
  failed_url ← _required_https_setting settings "failed_url";
  webhook_url ← _required_https_setting settings "webhook_url";
  shopping_name ← _bounded_setting settings "shopping_name" "GH Bot Factory" 120;
  goods_name ← _bounded_setting settings "goods_name" "Wallet top-up" 160;
  goods_detail ← _bounded_setting settings "goods_detail" "Digital wallet balance top-up" 256;
  mcc_code ← _bounded_setting settings "mcc_code" "5816" 16;
  merchant_name ← _bounded_setting settings "merchant_name" "" 120;
  client_id ← _bounded_setting settings "client_id" "" 128;
  let terminal := upper (strip (policy_text "terminal_type" "WEB" settings)) in
  refuse_if (negb (existsb (λ t, terminal == t) ["APP"; "WEB"; "WAP"; "MINIAPP"; "OTHERS"]));;
  currency_types ← match dict_get "currency_types" settings with
                   | Some (JObj ((_ :: _) as raw)) => parse_currency_types raw []
                   | _ => Raise PaymentProviderError
                   end;
  refuse_if ((pem != "") && negb (is_some (rsa_key pem)));;
  mret (MkBybitPay api_key api_secret merchant_id pem base_url (truncated recv_window) (truncated tolerance)
          success_url failed_url webhook_url shopping_name goods_name goods_detail mcc_code
          (or_none merchant_name) (or_none client_id) terminal currency_types).

End settings.

(** ** Requests *)

Section requests.
  Context `{Env} `{BybitApi}.

Definition _sign (g : BybitPay) (timestamp_ms content : string) : string :=
  bybit_hmac_sha256 (bb_api_secret g)
    (timestamp_ms +:+ bb_api_key g +:+ pretty (bb_recv_window g) +:+ content).

Definition _signed_headers (g : BybitPay) (timestamp_ms content : string) : list (string * string) :=
  [ ("Content-Type", "application/json"); ("Accept", "application/json");
    ("X-BAPI-API-KEY", bb_api_key g); ("X-BAPI-TIMESTAMP", timestamp_ms);
    ("X-BAPI-RECV-WINDOW", pretty (bb_recv_window g)); ("X-BAPI-SIGN", _sign g timestamp_ms content) ].

(** A business answer has the code 100000 and an object. *)
Definition business_result (document : option json) : outcome exn dict :=
  match document with
  | Some (JObj data) =>
      match dict_get "retCode" data with
      | Some (JInt 100000) =>
          match dict_get "result" data with
          | Some (JObj result) => Ok result
          | _ => Raise PaymentProviderError
          end
      | _ => Raise PaymentProviderError
      end
  | _ => Raise PaymentProviderError
  end.

Definition answered (a : BybitAnswer) : outcome exn dict :=
  match a with
  | BybitTimeout => Raise TimeoutError
  | BybitRequestError => Raise PaymentProviderTransportError
  | BybitResponse status_code size document =>
      if (300 <=? status_code) && (status_code <? 400) then Raise PaymentProviderError
      else if max_response_bytes <? size then Raise PaymentProviderError
      else if 500 <=? status_code then Raise PaymentProviderTransportError
      else if (status_code <? 200) || (300 <=? status_code) then Raise PaymentProviderError
      else business_result document
  end.

Definition bybit_request_json (g : BybitPay) (sent : list Sent) (method path : string)
    (body : option dict) (query : list (string * string)) : outcome exn dict :=
  let query_string := urlencode query in
  let body_text := (λ b, dumps (JObj b)) <$> body in
  let signing_content := default query_string body_text in
  let timestamp_ms := pretty (bybit_clock sent) in
  let url := bb_base_url g +:+ path +:+ (if query_string == "" then "" else "?" +:+ query_string) in
  answered (bybit_http sent method url (_signed_headers g timestamp_ms signing_content) body_text).

(** [_merchant_trade_no]; a [UUID] is true. *)
Definition _merchant_trade_no (r : PaymentCreateRequest) : outcome exn string :=
  let intent_id := default JNull (dict_get "payment_intent_id" (pcr_metadata r)) in
  let raw := if json_truthy intent_id then json_text intent_id
             else match pcr_order_id r with
                  | Some order_id => uuid_str order_id
                  | None => pcr_idempotency_key r
                  end in
  let value := strip raw in
  refuse_if (negb (bounded_text 64 value));; mret value.

Definition _currency_type (g : BybitPay) (currency : string) : outcome exn string :=
  match attr_get currency (bb_currency_types g) with
  | Some kind => refuse_if (kind == "");; mret kind
  | None => Raise PaymentProviderError
  end.

Definition _client_context (r : PaymentCreateRequest) : outcome exn (string * string * string) :=
  let get raw key :=
    let value := field key raw in
    refuse_if (negb (bounded_text 512 value));; mret value in
  match dict_get "_provider_context" (pcr_metadata r) with
  | Some (JObj raw) =>
      device ← get raw "device";
      browser_version ← get raw "browser_version";
      ip ← get raw "ip";
      mret (device, browser_version, ip)
  | _ => Raise PaymentProviderError
  end.

(** *** Creation *)

(** The document of [create_pay]; of an amount in cents [format(amount, "f")]
    is [str(amount)]. *)
Definition create_body (g : BybitPay) (r : PaymentCreateRequest)
    (currency merchant_trade_no currency_type device browser_version ip : string) : dict :=
  [ ("merchantId", JStr (bb_merchant_id g));
    ("paymentType", JStr "E_COMMERCE");
    ("merchantTradeNo", JStr merchant_trade_no);
    ("goods", JList [JObj [ ("shoppingName", JStr (bb_shopping_name g)); ("mccCode", JStr (bb_mcc_code g));
                            ("goodsName", JStr (bb_goods_name g)); ("goodsDetail", JStr (bb_goods_detail g)) ]]);
    ("orderAmount", JStr (env_decimal_str (pcr_amount r)));
    ("currency", JStr currency);
    ("currencyType", JStr currency_type);
    ("successUrl", JStr (bb_success_url g));
    ("failedUrl", JStr (bb_failed_url g));
    ("webhookUrl", JStr (bb_webhook_url g));
    ("env", JObj [ ("terminalType", JStr (bb_terminal_type g)); ("device", JStr device);
                   ("browserVersion", JStr browser_version); ("ip", JStr ip) ]);
    ("remark", JStr (prefix_of 50 (policy_text "purpose" "wallet_topup" (pcr_metadata r)))) ]
  ++ match bb_merchant_name g with Some n => [("merchantName", JStr n)] | None => [] end
  ++ match bb_client_id g with Some c => [("clientId", JStr c)] | None => [] end.

(** The page the buyer is sent to, where it is an HTTPS URL. *)
Definition checkout_link (result : dict) : option string :=
  let checkout := field "checkoutLink" result in
  if checkout == "" then None
  else match bybit_url checkout with
       | Some parsed =>
           if (url_scheme parsed != "https") || (url_host parsed == "") then None else Some checkout
       | None => None
       end.

(** What the storefront may show of the answer. *)
Definition create_raw_data (result : dict) : dict :=
  let kept := omap (λ key, (λ v, (key, v)) <$> dict_get key result) _SAFE_CREATE_FIELDS in
  let raw_data := kept ++ [("provider_checkout_link", JStr (prefix_of 2048 (policy_text "checkoutLink" "" result)))] in
  let qr_content := policy_text "qrContent" "" result in
  if (qr_content != "") && (String.length qr_content <=? 128 * 1024)%nat
  then raw_data ++ [("qr_content", JStr qr_content)] else raw_data.

Definition order_of (result : dict) : outcome exn dict :=
  match dict_get "order" result with
  | Some (JObj order) => Ok order
  | _ => Raise PaymentProviderError
  end.

Definition amount_of (d : dict) : option dec := _decimal (default JNull (dict_get "amount" d)).

Definition attributes_of (merchant_trade_no merchant_id currency_type : string) : attributes :=
  [("merchant_trade_no", merchant_trade_no); ("merchant_id", merchant_id); ("currency_type", currency_type)].

Definition bybit_create_payment (g : BybitPay) (sent : list Sent) (r : PaymentCreateRequest)
    : outcome exn PaymentCreateResult :=
  refuse_if (pcr_amount r <=? 0);;
  let currency := upper (strip (pcr_currency r)) in
  refuse_if (negb (is_currency currency));;
  merchant_trade_no ← _merchant_trade_no r;
  currency_type ← _currency_type g currency;
  '(device, browser_version, ip) ← _client_context r;
  result ← bybit_request_json g sent "POST" "/v5/bybitpay/create_pay"
             (Some (create_body g r currency merchant_trade_no currency_type device browser_version ip)) [];
  let pay_id := field "payId" result in
  refuse_if (negb (bounded_text 128 pay_id));;
  order ← order_of result;
  refuse_if ((field "merchantTradeNo" order != merchant_trade_no) || (field "payId" order != pay_id));;
  refuse_if ((amount_of order != Some (pcr_amount r)) || (field_upper "currency" order != currency));;
  refuse_if (field_lower "currencyType" order != currency_type);;
  mret (MkPaymentCreateResult pay_id (bybit_status (policy_text "status" "" order)) (checkout_link result)
          (create_raw_data result) (attributes_of merchant_trade_no (bb_merchant_id g) currency_type)).

(** *** Lookup and recovery *)

Definition pay_result (g : BybitPay) (sent : list Sent) (key value : string) : outcome exn dict :=
  result ← bybit_request_json g sent "GET" "/v5/bybitpay/pay_result" None
             [("merchantId", bb_merchant_id g); ("paymentType", "E_COMMERCE"); (key, value)];
  order_of result.

Definition is_kind (kind : string) : bool := (kind == "fiat") || (kind == "crypto").

Definition bybit_get_payment (g : BybitPay) (sent : list Sent) (provider_payment_id : string)
    : outcome exn PaymentDetailsResult :=
  let pay_id := strip provider_payment_id in
  refuse_if (negb (bounded_text 128 pay_id));;
  order ← pay_result g sent "payId" pay_id;
  let merchant_id := field "merchantId" order in
  let merchant_trade_no := field "merchantTradeNo" order in
  let currency := field_upper "currency" order in
  let currency_type := field_lower "currencyType" order in
  refuse_if ((field "payId" order != pay_id) || (merchant_id != bb_merchant_id g));;
  amount ← match amount_of order with
           | Some a => refuse_if ((merchant_trade_no == "") || (a <=? 0));; mret a
           | None => Raise PaymentProviderError
           end;
  refuse_if (negb (is_currency currency) || negb (is_kind currency_type));;
  mret (MkPaymentDetailsResult pay_id (bybit_status (policy_text "status" "" order)) amount currency
          (attributes_of merchant_trade_no merchant_id currency_type)).

Definition bybit_recover_payment_creation (g : BybitPay) (sent : list Sent) (r : PaymentCreateRequest)
    : outcome exn PaymentDetailsResult :=
  merchant_trade_no ← _merchant_trade_no r;
  let currency := upper (strip (pcr_currency r)) in
  expected_type ← _currency_type g currency;
  order ← pay_result g sent "merchantTradeNo" merchant_trade_no;
  let pay_id := field "payId" order in
  let returned_trade_no := field "merchantTradeNo" order in
  let merchant_id := field "merchantId" order in
  let returned_currency := field_upper "currency" order in
  let currency_type := field_lower "currencyType" order in
  refuse_if ((pay_id == "") || (returned_trade_no != merchant_trade_no) || (merchant_id != bb_merchant_id g));;
  refuse_if ((amount_of order != Some (pcr_amount r)) || (returned_currency != currency)
             || (currency_type != expected_type));;
  mret (MkPaymentDetailsResult pay_id (bybit_status (policy_text "status" "" order)) (pcr_amount r)
          returned_currency (attributes_of returned_trade_no merchant_id currency_type)).

(** *** Webhooks *)

Definition bybit_event : string := "bybit_pay.payment.status".

Definition rejected_webhook : WebhookVerificationResult :=
  MkWebhookVerificationResult false "" bybit_event None None None None [].

(** The document of a delivery whose signature is right. *)
Definition authentic (pem timestamp signature payload : string) : option dict :=
  verify ← rsa_key pem;
  decoded_signature ← b64decode signature;
  if negb (verify decoded_signature (timestamp +:+ payload)) then None
  else _strict_json payload.

(** [data.get("finishTime") or data.get("paymentTime") or data.get("createTime") or 0] *)
Definition webhook_time (data : dict) : string :=
  policy_text "finishTime" (policy_text "paymentTime" (policy_text "createTime" "0" data) data) data.

Definition bybit_read_webhook (g : BybitPay) (data : dict) : WebhookVerificationResult :=
  let merchant_id := field "merchantId" data in
  let pay_id := field "payId" data in
  let merchant_trade_no := field "merchantTradeNo" data in
  let raw_status := field_upper "status" data in
  let currency := field_upper "currency" data in
  let currency_type := field_lower "currencyType" data in
  match amount_of data with
  | None => rejected_webhook
  | Some amount =>
      if (field_upper "paymentType" data != "E_COMMERCE") || (merchant_id != bb_merchant_id g)
         || (pay_id == "") || (merchant_trade_no == "") || (raw_status == "") || (amount <=? 0)
         || negb (is_currency currency) || negb (is_kind currency_type)
      then rejected_webhook
      else MkWebhookVerificationResult true
             (prefix_of 255 (pay_id +:+ ":" +:+ raw_status +:+ ":" +:+ webhook_time data)) bybit_event
             (Some pay_id) (Some (bybit_status raw_status)) (Some amount) (Some currency)
             (attributes_of merchant_trade_no merchant_id currency_type)
  end.

(** The time a delivery claims is close to the time it arrives. *)
Definition in_window (g : BybitPay) (now_ : Z) (timestamp : string) : bool :=
  let ts := default 0 (int_of_str timestamp) in
  (0 <? ts) && (Z.abs (now_ - ts) <=? bb_webhook_tolerance g).

Definition bybit_verify_webhook (g : BybitPay) (payload : string) (headers : list (string * string))
    (secret : string) : outcome exn WebhookVerificationResult :=
  let pem := strip (if secret != "" then secret else bb_webhook_public_key_pem g) in
  let timestamp := strip (default "" (_header headers "timestamp")) in
  let signature := strip (default "" (_header headers "signature")) in
  if (pem == "") || (timestamp == "") || (signature == "") then Ok rejected_webhook
  else if negb (in_window g (bybit_arrival payload headers) timestamp) then Ok rejected_webhook
  else if max_response_bytes <? Z.of_nat (String.length payload) then Ok rejected_webhook
  else match authentic pem timestamp signature payload with
       | None => Ok rejected_webhook
       | Some data => Ok (bybit_read_webhook g data)
       end.

(** ** The gateway *)

Definition bybit_gateway (g : BybitPay) : Gateway :=
  MkGateway false false false true true (bybit_create_payment g) (bybit_verify_webhook g)
    (λ _ _, Raise UnsupportedProviderCapabilityError) (bybit_get_payment g)
    (Some (bybit_recover_payment_creation g)) None None.

Definition _create_bybit_pay_provider (settings : dict) (credentials : string)
    (webhook_secret : option string) : outcome exn Gateway :=
  g ← init_bybit settings credentials webhook_secret; mret (bybit_gateway g).

End requests.
