(* ===== verification/BybitSpec.v ===== *)
(** * The Bybit Pay gateway: properties

    The three views of a payment (lookup, recovery, webhook) report the order
    the platform holds, a webhook without the platform's signature changes
    nothing, and which lost creations can be recovered ([BybitPay.v]). *)

From Stdlib Require Import ZArith Lia Ascii String.
From stdpp Require Import base tactics list option strings numbers pretty.
From S2P Require Import Prelude Tables Text Money Exceptions StateMachines Models Ledger Payments TopUps.
From S2P Require Import Reconciliation PaymentsInv PaymentsSpec ReconciliationSpec StarsGateway Evidence Verifiers BybitPay.
From S2P Require Import EvidenceInv EvidenceSpec VerifiersSpec.

Local Open Scope Z_scope.

(** ** Calls without state *)

Lemma bind_Ok {E A B} (m : outcome E A) (k : A → outcome E B) b :
  (m ≫= k) = Ok b ↔ ∃ a, m = Ok a ∧ k a = Ok b.
Proof.
  destruct m as [a|e]; cbn; split.
  - intros Hk. by exists a.
  - by intros (a' & [= <-] & Hk).
  - done.
  - by intros (a' & [=] & _).
Qed.

Lemma refuse_if_Ok c u : refuse_if c = Ok u ↔ c = false.
Proof. by destruct c, u. Qed.

(** A text equals itself. *)
Ltac same_text :=
  repeat match goal with
  | |- context [bool_decide (?x = ?x)] => rewrite (bool_decide_eq_true_2 (x = x)) by reflexivity
  end.

(** ** Base64 *)

Definition b64_char (d : Z) : ascii := default "A"%char (chars b64_alphabet !! Z.to_nat d).

Definition byte_value (c : ascii) : Z := Z.of_nat (code c).

(** RFC 4648: the digits of the groups, and the padding of the last one. *)
Fixpoint b64_digits (l : list ascii) : list Z :=
  match l with
  | [] => []
  | [x] => let x := byte_value x in [x / 4; x mod 4 * 16]
  | [x; y] => let x := byte_value x in let y := byte_value y in [x / 4; x mod 4 * 16 + y / 16; y mod 16 * 4]
  | x :: y :: z :: l =>
      let x := byte_value x in let y := byte_value y in let z := byte_value z in
      x / 4 :: x mod 4 * 16 + y / 16 :: y mod 16 * 4 + z / 64 :: z mod 64 :: b64_digits l
  end.

Definition b64_pad (l : list ascii) : nat :=
  match (length l mod 3)%nat with 1%nat => 2%nat | 2%nat => 1%nat | _ => 0%nat end.

Definition b64encode (s : string) : string :=
  of_chars (map b64_char (b64_digits (chars s)) ++ repeat "="%char (b64_pad (chars s))).

Lemma byte_value_bound c : 0 ≤ byte_value c < 256.
Proof. unfold byte_value, code. pose proof (nat_ascii_bounded c). lia. Qed.

Lemma byte_char_value c z : z mod 256 = byte_value c → byte_char z = c.
Proof.
  intros Hz. unfold byte_char. rewrite Hz. unfold byte_value, code.
  rewrite <- (ascii_N_embedding c) at 2. f_equal. unfold nat_of_ascii. rewrite N_nat_Z. apply N2Z.id.
Qed.

Lemma three_steps (P : list ascii → Prop) :
  P [] → (∀ x, P [x]) → (∀ x y, P [x; y]) → (∀ x y z l, P l → P (x :: y :: z :: l)) → ∀ l, P l.
Proof.
  intros H0 H1 H2 H3.
  assert (∀ l, P l ∧ (∀ x, P (x :: l)) ∧ (∀ x y, P (x :: y :: l))) as Hall by (intros l; induction l; naive_solver).
  intros l. apply (Hall l).
Qed.

Ltac byte_arith :=
  repeat match goal with c : ascii |- _ =>
    let b := fresh "b" in let H := fresh "Hb" in
    pose proof (byte_value_bound c) as H; set (b := byte_value c) in *; clearbody b; clear c end;
  Z.to_euclidean_division_equations; lia.

Lemma b64_bytes_digits l : b64_bytes (b64_digits l) = Some l.
Proof.
  pattern l. apply three_steps; clear l.
  - done.
  - intros x. cbn -[Z.mul Z.div Z.modulo]. do 2 f_equal. apply byte_char_value. byte_arith.
  - intros x y. cbn -[Z.mul Z.div Z.modulo]. f_equal. repeat f_equal; apply byte_char_value; byte_arith.
  - intros x y z l IH. cbn -[Z.mul Z.div Z.modulo]. rewrite IH. cbn -[Z.mul Z.div Z.modulo].
    f_equal. repeat f_equal; apply byte_char_value; byte_arith.
Qed.

Lemma b64_digits_bound l : Forall (λ d, 0 ≤ d < 64) (b64_digits l).
Proof.
  pattern l. apply three_steps; clear l; intros; cbn -[Z.mul Z.div Z.modulo];
    repeat (constructor; [byte_arith|]); first [done|constructor].
Qed.

Lemma b64_char_cases (P : Z → ascii → Prop) :
  (∀ n, (n < 64)%nat → P (Z.of_nat n) (b64_char (Z.of_nat n))) → ∀ d, 0 ≤ d < 64 → P d (b64_char d).
Proof. intros HP d Hd. rewrite <- (Z2Nat.id d) by lia. apply HP. lia. Qed.

Lemma b64_index d : 0 ≤ d < 64 → index_of (b64_char d) (chars b64_alphabet) = Some d.
Proof.
  apply (b64_char_cases (λ d c, index_of c (chars b64_alphabet) = Some d)).
  intros n Hn. do 64 (destruct n as [|n]; [reflexivity|]). lia.
Qed.

Lemma b64_solid d : 0 ≤ d < 64 → is_space (b64_char d) = false ∧ b64_char d ≠ "="%char.
Proof.
  apply (b64_char_cases (λ d c, is_space c = false ∧ c ≠ "="%char)).
  intros n Hn. do 64 (destruct n as [|n]; [split; [reflexivity|discriminate]|]). lia.
Qed.

Lemma break_at_app {A} (p : A → bool) l k :
  Forall (λ x, p x = false) l → match k with [] => True | x :: _ => p x = true end → break_at p (l ++ k) = (l, k).
Proof.
  intros Hl Hk. induction Hl as [|x l Hx Hl IH]; cbn.
  - destruct k as [|y k]; cbn; [done|]. by rewrite Hk.
  - by rewrite Hx, IH.
Qed.

Lemma b64_length l : b64_padding (length (b64_digits l)) (b64_pad l) = true.
Proof.
  pattern l. apply three_steps; clear l; [done..|]. intros x y z l IH.
  assert (b64_pad (x :: y :: z :: l) = b64_pad l) as ->.
  { unfold b64_pad. cbn [length]. replace (S (S (S (length l)))) with (length l + 1 * 3)%nat by lia.
    by rewrite Nat.Div0.mod_add. }
  cbn [b64_digits length]. revert IH. unfold b64_padding.
  replace (S (S (S (S (length (b64_digits l)))))) with (length (b64_digits l) + 1 * 4)%nat by lia.
  rewrite Nat.Div0.mod_add. destruct (_ mod 4)%nat as [|[|[|]]]; try done.
  intros _. apply orb_true_iff. right. apply Nat.ltb_lt. lia.
Qed.

Lemma all_padding n : forallb (λ c, c == "="%char) (repeat "="%char n) = true.
Proof. by induction n. Qed.

(** Decoding undoes encoding, and an encoded text has no space around it. *)
Lemma b64_roundtrip s : b64decode (b64encode s) = Some s.
Proof.
  unfold b64decode, b64encode. rewrite chars_of_chars.
  pose proof (b64_digits_bound (chars s)) as Hb.
  rewrite break_at_app; [| |by destruct (b64_pad (chars s))].
  - rewrite length_map, repeat_length, b64_length. cbn [negb]. rewrite orb_false_r.
    rewrite all_padding. cbn [negb].
    replace (mapM _ (map b64_char _)) with (Some (b64_digits (chars s))).
    + cbn. rewrite b64_bytes_digits. cbn. by rewrite of_chars_chars.
    + symmetry. apply mapM_Some_2. induction Hb; constructor; [by apply b64_index|done].
  - apply Forall_map. eapply Forall_impl; [exact Hb|]. intros d Hd. cbn. by apply bool_decide_eq_false, b64_solid.
Qed.

Lemma b64_strip s : strip (b64encode s) = b64encode s.
Proof.
  unfold strip, b64encode at 1. rewrite chars_of_chars, strip_solid; [done|].
  apply Forall_app. split; [|induction (b64_pad (chars s)); by constructor].
  apply Forall_map. eapply Forall_impl; [apply b64_digits_bound|]. intros d Hd. by apply b64_solid.
Qed.

(** ** The platform's orders

    What the merchant platform holds of a payment, the document it writes of
    it, and what the shop is to make of it. *)

Inductive BybitState := StInit | StPaid | StFailed | StTimeout | StRefunded | StRefundFailed.

Record BybitOrder := MkBybitOrder {
  bo_merchant_id : string;
  bo_trade_no : string;
  bo_pay_id : string;
  bo_state : BybitState;
  bo_amount_text : string;
  bo_currency : string;
  bo_crypto : bool;
  bo_create_time : Z;
}.

Definition state_text (s : BybitState) : string :=
  match s with
  | StInit => "INIT" | StPaid => "PAY_SUCCESS" | StFailed => "PAY_FAILED" | StTimeout => "TIMEOUT"
  | StRefunded => "REFUND_SUCCESS" | StRefundFailed => "REFUND_FAILED"
  end.

Definition state_meaning (s : BybitState) : PaymentIntentStatus :=
  match s with
  | StInit => PayPending | StPaid => PaySucceeded | StFailed => PayFailed | StTimeout => PayExpired
  | StRefunded | StRefundFailed => PayUnknown
  end.

Definition kind_text (o : BybitOrder) : string := if bo_crypto o then "crypto" else "fiat".

Definition order_json (o : BybitOrder) : dict :=
  [ ("merchantId", JStr (bo_merchant_id o)); ("paymentType", JStr "E_COMMERCE");
    ("merchantTradeNo", JStr (bo_trade_no o)); ("payId", JStr (bo_pay_id o));
    ("status", JStr (state_text (bo_state o))); ("amount", JStr (bo_amount_text o));
    ("currency", JStr (bo_currency o)); ("currencyType", JStr (kind_text o));
    ("createTime", JInt (bo_create_time o)) ].

(** The order [o] is over the amount [a]. *)
Definition details (o : BybitOrder) (a : dec) : PaymentDetailsResult :=
  MkPaymentDetailsResult (bo_pay_id o) (state_meaning (bo_state o)) a (bo_currency o)
    [("merchant_trade_no", bo_trade_no o); ("merchant_id", bo_merchant_id o); ("currency_type", kind_text o)].

(** A text without space around it, not empty and not longer than [n]. *)
Definition plain (n : nat) (s : string) : Prop := strip s = s ∧ s ≠ "" ∧ (String.length s ≤ n)%nat.

Record order_ok `{Env} (g : BybitPay) (o : BybitOrder) (a : dec) : Prop := {
  ok_merchant : bo_merchant_id o = bb_merchant_id g;
  ok_merchant_id : plain 512 (bo_merchant_id o);
  ok_trade_no : plain 64 (bo_trade_no o);
  ok_pay_id : plain 128 (bo_pay_id o);
  ok_currency : is_currency (bo_currency o) = true;
  ok_upper : upper (strip (bo_currency o)) = bo_currency o;
  ok_amount : _decimal (JStr (bo_amount_text o)) = Some a;
  ok_positive : 0 < a;
}.

(** A signed request, as the platform checks it. *)
Definition accepted `{BybitApi} (g : BybitPay) (content : string) (headers : list (string * string)) : Prop :=
  ∃ timestamp window,
    attr_get "X-BAPI-API-KEY" headers = Some (bb_api_key g) ∧
    attr_get "X-BAPI-TIMESTAMP" headers = Some timestamp ∧
    attr_get "X-BAPI-RECV-WINDOW" headers = Some window ∧
    attr_get "X-BAPI-SIGN" headers
    = Some (bybit_hmac_sha256 (bb_api_secret g) (timestamp +:+ bb_api_key g +:+ window +:+ content)).

Definition lookup_query (g : BybitPay) (key value : string) : string :=
  "merchantId=" +:+ quote_plus (bb_merchant_id g) +:+ "&paymentType=E_COMMERCE&" +:+ key +:+ "="
  +:+ quote_plus value.

(** The two names an order has. *)
Definition names_of (o : BybitOrder) : list (string * string) :=
  [("payId", bo_pay_id o); ("merchantTradeNo", bo_trade_no o)].

Definition envelope (o : BybitOrder) : json :=
  JObj [("retCode", JInt 100000); ("retMsg", JStr "success"); ("result", JObj [("order", JObj (order_json o))])].

(** The platform answers signed queries from its book. *)
Definition bybit_serves `{BybitApi} (g : BybitPay) (book : list BybitOrder) : Prop :=
  ∀ o key value sent headers, o ∈ book → (key, value) ∈ names_of o →
    accepted g (lookup_query g key value) headers →
    ∃ size, size ≤ max_response_bytes ∧
      bybit_http sent "GET" (bb_base_url g +:+ "/v5/bybitpay/pay_result?" +:+ lookup_query g key value) headers None
      = BybitResponse 200 size (Some (envelope o)).

(** The creation request [r] asks for the order [o]. *)
Definition asks_for `{Env} `{BybitApi} (g : BybitPay) (r : PaymentCreateRequest) (o : BybitOrder) (a : dec) : Prop :=
  _merchant_trade_no r = Ok (bo_trade_no o) ∧ pcr_amount r = a ∧ upper (strip (pcr_currency r)) = bo_currency o
  ∧ attr_get (bo_currency o) (bb_currency_types g) = Some (kind_text o).

(** A delivery of the document [data], signed with the key [pem]. *)
Record signed_delivery `{BybitApi} (g : BybitPay) (pem payload : string) (headers : list (string * string))
    (data : dict) : Prop := {
  sd_proof : ∃ raw_timestamp raw_signature verify bytes,
    _header headers "timestamp" = Some raw_timestamp ∧ strip raw_timestamp ≠ "" ∧
    in_window g (bybit_arrival payload headers) (strip raw_timestamp) = true ∧
    _header headers "signature" = Some raw_signature ∧ b64decode (strip raw_signature) = Some bytes ∧
    strip raw_signature ≠ "" ∧
    rsa_key pem = Some verify ∧ verify bytes (strip raw_timestamp +:+ payload) = true;
  sd_key : pem ≠ "";
  sd_size : Z.of_nat (String.length payload) ≤ max_response_bytes;
  sd_data : bybit_loads payload = Some (JObj data);
}.

Definition same_report (v : WebhookVerificationResult) (d : PaymentDetailsResult) : Prop :=
  wv_is_valid v = true ∧ wv_provider_payment_id v = Some (pd_provider_payment_id d) ∧
  wv_status v = Some (pd_status d) ∧ wv_amount v = Some (pd_amount d) ∧ wv_currency v = Some (pd_currency d) ∧
  wv_verification_attributes v = pd_verification_attributes d.

(** *** Reading an order's document *)

Section views.
  Context `{HE : Env} `{HB : BybitApi}.
  Implicit Types (g : BybitPay) (o : BybitOrder) (a : dec) (d : dict).

Lemma policy_text_str k d s : dict_get k d = Some (JStr s) → policy_text k "" d = s.
Proof. unfold policy_text. intros ->. cbn. by case_bool_decide. Qed.

Lemma field_plain k d s n : dict_get k d = Some (JStr s) → plain n s → field k d = s.
Proof. intros Hk (Hs & _ & _). unfold field. by rewrite (policy_text_str k d s). Qed.

Lemma bounded_plain n s : plain n s → bounded_text n s = true.
Proof.
  intros (_ & Hne & Hl). unfold bounded_text. rewrite bool_decide_eq_false_2 by done. by apply Nat.leb_le.
Qed.

Lemma status_text o : bybit_status (state_text (bo_state o)) = state_meaning (bo_state o).
Proof. by destruct (bo_state o). Qed.

Lemma kind_lower o d : dict_get "currencyType" d = Some (JStr (kind_text o)) → field_lower "currencyType" d = kind_text o.
Proof.
  intros Hd. unfold field_lower, field. rewrite (policy_text_str _ _ _ Hd). unfold kind_text. by destruct (bo_crypto o).
Qed.

Lemma kind_ok o : is_kind (kind_text o) = true.
Proof. unfold kind_text. by destruct (bo_crypto o). Qed.

(** Every field of the document of a sound order. *)
Lemma order_fields g o a :
  order_ok g o a →
  let d := order_json o in
  field "merchantId" d = bo_merchant_id o ∧ field "merchantTradeNo" d = bo_trade_no o ∧
  field "payId" d = bo_pay_id o ∧ field_upper "currency" d = bo_currency o ∧
  field_lower "currencyType" d = kind_text o ∧ amount_of d = Some a ∧
  policy_text "status" "" d = state_text (bo_state o).
Proof.
  intros [_ Hm Ht Hp _ Hu Ha _] d. repeat split.
  - by eapply field_plain.
  - by eapply field_plain.
  - by eapply field_plain.
  - unfold field_upper, field. by rewrite (policy_text_str _ _ (bo_currency o)).
  - by apply kind_lower.
  - exact Ha.
  - by apply policy_text_str.
Qed.

(** *** Lookup *)

Lemma signed_accepted g timestamp content : accepted g content (_signed_headers g timestamp content).
Proof. exists timestamp, (pretty (bb_recv_window g)). by repeat split. Qed.

Lemma lookup_urlencode g key value :
  quote_plus key = key →
  urlencode [("merchantId", bb_merchant_id g); ("paymentType", "E_COMMERCE"); (key, value)]
  = lookup_query g key value.
Proof. intros Hk. unfold lookup_query. cbn [urlencode]. by rewrite Hk. Qed.

Lemma append_nonempty s t : s ≠ "" → s +:+ t ≠ "".
Proof. by destruct s. Qed.

(** A query of the platform under one of the order's names. *)
Lemma pay_result_ok g book o key value sent :
  bybit_serves g book → o ∈ book → (key, value) ∈ names_of o → pay_result g sent key value = Ok (order_json o).
Proof.
  intros Hs Ho Hn.
  assert (quote_plus key = key) as Hk.
  { unfold names_of in Hn. rewrite !elem_of_cons in Hn. by destruct Hn as [[= -> _]|[[= -> _]|[]%elem_of_nil]]. }
  unfold pay_result, bybit_request_json. rewrite lookup_urlencode by done.
  rewrite bool_decide_eq_false_2 by (by apply append_nonempty). cbn [default fmap option_fmap option_map].
  destruct (Hs o key value sent (_signed_headers g (pretty (bybit_clock sent)) (lookup_query g key value)))
    as (size & Hsize & Hhttp); [done..|apply signed_accepted|].
  change ("/v5/bybitpay/pay_result" +:+ "?" +:+ lookup_query g key value)
    with ("/v5/bybitpay/pay_result?" +:+ lookup_query g key value).
  rewrite Hhttp. unfold answered. rewrite (proj2 (Z.ltb_ge _ _) Hsize). done.
Qed.

Lemma get_payment_reports g book o a sent :
  bybit_serves g book → o ∈ book → order_ok g o a → bybit_get_payment g sent (bo_pay_id o) = Ok (details o a).
Proof.
  intros Hs Ho Hok. pose proof (order_fields g o a Hok) as (Fm & Ft & Fp & Fc & Fk & Fa & Fs).
  unfold bybit_get_payment. rewrite (proj1 (ok_pay_id _ _ _ Hok)), bounded_plain by apply Hok. cbn [negb].
  rewrite (pay_result_ok g book o) by (done || (unfold names_of; rewrite !elem_of_cons; tauto)).
  cbn -[order_json]. rewrite Fm, Ft, Fp, Fc, Fk, Fa, Fs, status_text, kind_ok, (ok_currency _ _ _ Hok), (ok_merchant _ _ _ Hok).
  same_text. cbn -[bool_decide].
  rewrite bool_decide_eq_false_2 by apply (ok_trade_no _ _ _ Hok).
  rewrite (proj2 (Z.leb_gt _ _) (ok_positive _ _ _ Hok)). cbn. unfold details. by rewrite (ok_merchant _ _ _ Hok).
Qed.

Lemma recovery_reports g book o a r sent :
  bybit_serves g book → o ∈ book → order_ok g o a → asks_for g r o a →
  bybit_recover_payment_creation g sent r = Ok (details o a).
Proof.
  intros Hs Ho Hok (Ht & Hr & Hc & Hk). pose proof (order_fields g o a Hok) as (Fm & Ft & Fp & Fc & Fk & Fa & Fs).
  unfold bybit_recover_payment_creation. rewrite Ht. cbn -[order_json]. rewrite Hc. unfold _currency_type. rewrite Hk.
  rewrite bool_decide_eq_false_2 by (unfold kind_text; by destruct (bo_crypto o)). cbn -[order_json].
  rewrite (pay_result_ok g book o) by (done || (unfold names_of; rewrite !elem_of_cons; tauto)).
  cbn -[order_json]. rewrite Fm, Ft, Fp, Fc, Fk, Fa, Fs, status_text, (ok_merchant _ _ _ Hok), Hr.
  same_text. rewrite bool_decide_eq_false_2 by apply (ok_pay_id _ _ _ Hok).
  cbn. unfold details. by rewrite (ok_merchant _ _ _ Hok).
Qed.

(** *** Webhooks *)

(** A delivery is accepted only with the platform's signature... *)
Lemma valid_signed g payload headers secret v :
  bybit_verify_webhook g payload headers secret = Ok v → wv_is_valid v = true →
  ∃ data, signed_delivery g (strip (if secret != "" then secret else bb_webhook_public_key_pem g)) payload headers data
          ∧ v = bybit_read_webhook g data.
Proof.
  unfold bybit_verify_webhook. set (pem := strip (if secret != "" then _ else _)).
  destruct (_ || _) eqn:Hempty; [by intros [= <-]|].
  apply orb_false_iff in Hempty as [[Hp Hts]%orb_false_iff Hsg].
  apply bool_decide_eq_false in Hp, Hts, Hsg.
  destruct (_header headers "timestamp") as [ts|] eqn:Ht; [|done].
  destruct (_header headers "signature") as [sg|] eqn:Hg; [|done]. cbn [default from_option] in *.
  destruct (in_window _ _ _) eqn:Hw; [|by intros [= <-]]. cbn [negb].
  destruct (_ <? _) eqn:Hsize; [by intros [= <-]|]. apply Z.ltb_ge in Hsize.
  destruct (authentic _ _ _ _) as [data|] eqn:Ha; [|by intros [= <-]].
  intros [= <-] _. exists data. split; [|done].
  apply bind_Some in Ha as (verify & Hk & Ha). apply bind_Some in Ha as (bytes & Hd & Ha).
  destruct (verify _ _) eqn:Hv; [|done]. cbn [negb] in Ha.
  unfold _strict_json in Ha. destruct (bybit_loads payload) as [[]|] eqn:Hl; simplify_eq/=.
  split; [|done|done|done]. by exists ts, sg, verify, bytes.
Qed.

(** ... and every such delivery is read. *)
Lemma signed_read g payload headers secret data :
  signed_delivery g (strip (if secret != "" then secret else bb_webhook_public_key_pem g)) payload headers data →
  bybit_verify_webhook g payload headers secret = Ok (bybit_read_webhook g data).
Proof.
  intros [(ts & sg & verify & bytes & Ht & Hts & Hw & Hg & Hd & Hsg & Hk & Hv) Hp Hsize Hl].
  unfold bybit_verify_webhook. set (pem := strip (if secret != "" then _ else _)) in *. rewrite Ht, Hg. cbn [default from_option id].
  do 3 rewrite bool_decide_eq_false_2 by done. cbn [orb]. rewrite Hw. cbn [negb].
  rewrite (proj2 (Z.ltb_ge _ _) Hsize). unfold authentic. rewrite Hk. cbn -[b64decode]. rewrite Hd. cbn. rewrite Hv. cbn.
  unfold _strict_json. by rewrite Hl.
Qed.

Lemma webhook_reports g o a : order_ok g o a → same_report (bybit_read_webhook g (order_json o)) (details o a).
Proof.
  intros Hok. pose proof (order_fields g o a Hok) as (Fm & Ft & Fp & Fc & Fk & Fa & Fs).
  assert (field_upper "status" (order_json o) = state_text (bo_state o)) as Fst.
  { unfold field_upper, field. rewrite Fs. by destruct (bo_state o). }
  unfold bybit_read_webhook. cbv zeta. rewrite Fm, Ft, Fp, Fc, Fk, Fa, Fst, status_text, kind_ok, (ok_currency _ _ _ Hok).
  rewrite (ok_merchant _ _ _ Hok). same_text.
  rewrite (bool_decide_eq_false_2 (bo_pay_id o = "")) by apply (ok_pay_id _ _ _ Hok).
  rewrite (bool_decide_eq_false_2 (bo_trade_no o = "")) by apply (ok_trade_no _ _ _ Hok).
  rewrite (bool_decide_eq_false_2 (state_text _ = "")) by (by destruct (bo_state o)).
  rewrite (proj2 (Z.leb_gt _ _) (ok_positive _ _ _ Hok)). cbn -[order_json].
  unfold same_report, details. cbn. by rewrite (ok_merchant _ _ _ Hok).
Qed.

End views.

(** [C12] A payment at Bybit has one meaning, whichever way it is learnt.  For a
    platform that answers signed queries from a book of orders, and a sound
    order of the shop's merchant in it, a lookup by the payment's id returns
    the order's state, amount, currency and verification attributes; the
    recovery of a creation that asked for this order returns the same details;
    and a webhook with the order's document, signed by the platform and
    encoded in Base64, is accepted and reports the same. *)
Theorem bybit_views_agree `{Env} `{BybitApi} g book o a sent :
  bybit_serves g book → o ∈ book → order_ok g o a →
  bybit_get_payment g sent (bo_pay_id o) = Ok (details o a)
  ∧ (∀ r, asks_for g r o a → bybit_recover_payment_creation g sent r = Ok (details o a))
  ∧ (∀ pem verify timestamp signature payload,
       let headers := [("Timestamp", timestamp); ("Signature", b64encode signature)] in
       plain 20 timestamp → in_window g (bybit_arrival payload headers) timestamp = true → signature ≠ "" →
       strip pem ≠ "" → rsa_key (strip pem) = Some verify → verify signature (timestamp +:+ payload) = true →
       Z.of_nat (String.length payload) ≤ max_response_bytes →
       bybit_loads payload = Some (JObj (order_json o)) →
       ∃ v, bybit_verify_webhook g payload headers pem = Ok v ∧ same_report v (details o a)).
Proof.
  intros Hs Ho Hok. split; [by eapply get_payment_reports|]. split; [by intros r Hr; eapply recovery_reports|].
  intros pem verify timestamp signature payload headers (Ht & Hne & _) Hw Hsig Hpem Hk Hv Hsize Hl.
  eexists. split; [|by apply webhook_reports].
  apply signed_read. rewrite (bool_decide_eq_false_2 (pem = "")) by (by intros ->).
  split; [|done..]. exists timestamp, (b64encode signature), verify, signature.
  rewrite Ht, b64_strip. split_and!; try done; [apply b64_roundtrip|].
  intros Hempty. apply (f_equal b64decode) in Hempty. rewrite b64_roundtrip in Hempty.
  injection Hempty as ->. done.
Qed.

(** ** Webhooks reach the books only signed *)

Section signed.
  Context `{HE : Env} `{HG : Gateways} `{HB : BybitApi}.

(** The secret the configuration names, or none. *)
Definition configured_secret (c : PaymentProviderConfig) (secret : string) : Prop :=
  if truthy (cfg_webhook_secret_ref c) then gw_secret (default "" (cfg_webhook_secret_ref c)) = Some secret
  else secret = "".

(** The tenant's gateway of this name is a Bybit adapter. *)
Definition is_bybit (t : UUID) (name : string) : Prop :=
  gw_overrides t name = None ∧ gw_factories name = Some _create_bybit_pay_provider
  ∧ ∀ g, gw_cached t name = Some g → ∃ b, g = bybit_gateway b.

Lemma bybit_provider t name s g s' :
  is_bybit t (lower name) → get_provider t name s = (Ok g, s') → ∃ b, g = bybit_gateway b.
Proof.
  intros (Ho & Hf & Hc) Hr. unfold get_provider in Hr. rewrite Ho, Hf in Hr.
  do 4 apply bind_inv_ok in Hr as (? & ? & _ & Hr). bind_some Hr factory Hfactory. injection Hfactory as <-.
  destruct (gw_cached t (lower name)) as [g'|].
  - destruct (Hc g' eq_refl) as [b ->]. apply ret_inv in Hr as [[= ->] _]. by exists b.
  - do 2 apply bind_inv_ok in Hr as (? & ? & _ & Hr). apply of_outcome_ok in Hr as [Hr _].
    unfold _create_bybit_pay_provider in Hr. apply bind_Ok in Hr as (b & _ & [= <-]). by exists b.
Qed.

Lemma configured_secret_read c s (o : option string) s' :
  webhook_secret_of c s = (Ok o, s') → configured_secret c (default "" o).
Proof.
  unfold webhook_secret_of, configured_secret, get_payment_secret. destruct (truthy _).
  - intros Hr. bind_some Hr x Hx. by apply ret_inv in Hr as [[= ->] _].
  - by intros [[= ->] _]%ret_inv.
Qed.

(** What authenticates a delivery: an enabled configuration and its key. *)
Definition bybit_authentic (t : UUID) (name payload : string) (headers : list (string * string)) (d : DB)
    (b : BybitPay) (data : dict) : Prop :=
  ∃ c secret, c ∈ configs_of t (lower name) d ∧ cfg_is_enabled c = true ∧ configured_secret c secret ∧
    signed_delivery b (strip (if secret != "" then secret else bb_webhook_public_key_pem b)) payload headers data.

Lemma verified_signed t name payload headers s v s' :
  is_bybit t (lower name) → verify_delivery t name payload headers s = (Ok v, s') →
  ∃ b data, bybit_authentic t name payload headers (ses_db s) b data ∧ v = bybit_read_webhook b data.
Proof.
  intros Hby Hr. unfold verify_delivery in Hr. bind_query Hr.
  apply bind_inv_ok in Hr as ([c|] & s0 & Hc & Hr); [|by bind_some Hr c' Hc'].
  apply one_or_none_some in Hc as [Hc ->]. bind_some Hr c' Hc'. injection Hc' as <-. bind_guard Hr Hen.
  apply bind_inv_ok in Hr as (secret & s1 & Hsecret & Hr).
  apply bind_inv_ok in Hr as (g & s2 & Hg & Hr). apply bybit_provider in Hg as [b ->]; [|done].
  bind_value Hr v' Hv. bind_guard Hr Hvalid. apply ret_inv in Hr as [[= ->] _].
  apply negb_false_iff in Hvalid. apply valid_signed in Hv as (data & Hd & ->); [|done].
  exists b, data. split; [|done]. exists c, (default "" secret). split_and!; try done.
  - rewrite Hc. by apply list_elem_of_singleton.
  - by apply negb_false_iff.
  - by eapply configured_secret_read.
Qed.

End signed.


(** ** Lost creations *)

Section lost.
  Context `{HE : Env} `{HG : Gateways} `{HB : BybitApi}.

Lemma dict_get_set_same k v (d : dict) : dict_get k (dict_set k v d) = Some v.
Proof. induction d as [|[k' v'] d IH]; cbn; [|case_bool_decide; cbn]; by rewrite ?bool_decide_eq_true_2, ?bool_decide_eq_false_2 by done. Qed.

(** The number under which a wallet top-up is created is the intent's id. *)
Lemma topup_intent_id req i :
  dict_get "payment_intent_id" (topup_request_metadata req i) = Some (JStr (uuid_str (intent_id i))).
Proof.
  unfold topup_request_metadata.
  assert (∀ m : dict, dict_get "payment_intent_id" m = Some (JStr (uuid_str (intent_id i))) →
            ∀ k v, "payment_intent_id" ≠ k →
            dict_get "payment_intent_id" (dict_set k v m) = Some (JStr (uuid_str (intent_id i)))) as Hset.
  { intros m Hm k v Hk. by rewrite dict_get_set_other. }
  destruct (_ =? _)%nat; repeat (apply Hset; [|done]); apply dict_get_set_same.
Qed.

(** The two requests of one top-up name the same order. *)
Lemma topup_trade_no req i a c url :
  intent_order_id i = None →
  _merchant_trade_no (MkPaymentCreateRequest None a c (intent_idempotency_key i) (topup_request_metadata req i) url)
  = _merchant_trade_no (_recovery_request i).
Proof.
  intros Ho. unfold _merchant_trade_no. cbn [pcr_metadata pcr_order_id pcr_idempotency_key _recovery_request].
  rewrite topup_intent_id, Ho. by destruct (intent_payment_method_id i).
Qed.

(** The queries of the adapter fail as the callers expect. *)
Lemma answered_errors a e : answered a = Raise e → (e == TimeoutError) || is_payment_provider_error e = true.
Proof.
  unfold answered, business_result. intros Ha. by repeat case_match; simplify_eq/=.
Qed.

Lemma pay_result_errors g sent key value e :
  pay_result g sent key value = Raise e → (e == TimeoutError) || is_payment_provider_error e = true.
Proof.
  unfold pay_result, bybit_request_json. destruct (answered _) as [d|e'] eqn:Ha; cbn.
  - unfold order_of. intros Ho. by repeat case_match; simplify_eq/=.
  - intros [= <-]. by eapply answered_errors.
Qed.

Lemma trade_no_errors r e : _merchant_trade_no r = Raise e → e = PaymentProviderError.
Proof. unfold _merchant_trade_no. destruct (bounded_text _ _); by intros [=]. Qed.

Lemma currency_type_errors g c e : _currency_type g c = Raise e → e = PaymentProviderError.
Proof. unfold _currency_type. destruct (attr_get _ _) as [k|]; [destruct (k == "")|]; by intros [=]. Qed.

(** A recovery that raises says the state is unknown; one that returns names
    the order by the number that was asked for. *)
Lemma recovery_outcome g sent r :
  match bybit_recover_payment_creation g sent r with
  | Raise e => (e == TimeoutError) || is_payment_provider_error e = true
  | Ok d => ∃ trade_no order, _merchant_trade_no r = Ok trade_no
            ∧ pay_result g sent "merchantTradeNo" trade_no = Ok order ∧ field "merchantTradeNo" order = trade_no
  end.
Proof.
  unfold bybit_recover_payment_creation.
  destruct (_merchant_trade_no r) as [trade_no|e] eqn:Ht; [|by apply trade_no_errors in Ht as ->].
  cbn -[field]. destruct (_currency_type _ _) as [kind|e] eqn:Hk; [|by apply currency_type_errors in Hk as ->].
  cbn -[field]. destruct (pay_result _ _ _ _) as [order|e] eqn:Hp; [|by apply pay_result_errors in Hp].
  unfold mbind, outcome_bind, refuse_if, mret, outcome_ret.
  destruct (_ || _ || (field "merchantId" order != _)) eqn:Hid; [done|].
  destruct (_ || _ || (field_lower "currencyType" order != _)) eqn:Hterms; [done|].
  exists trade_no, order. split_and!; [done..|].
  apply orb_false_iff in Hid as [[_ Hid]%orb_false_iff _]. by apply negb_false_iff, bool_decide_eq_true in Hid.
Qed.

Lemma recovery_intent_id i :
  dict_get "payment_intent_id" (pcr_metadata (_recovery_request i)) = Some (JStr (uuid_str (intent_id i))).
Proof. reflexivity. Qed.

Lemma recovery_trade_no i :
  uuid_str (intent_id i) ≠ "" →
  _merchant_trade_no (_recovery_request i)
  = if bounded_text 64 (strip (uuid_str (intent_id i))) then Ok (strip (uuid_str (intent_id i)))
    else Raise PaymentProviderError.
Proof.
  intros Hne. unfold _merchant_trade_no. rewrite recovery_intent_id. cbn -[strip bounded_text].
  rewrite bool_decide_eq_false_2 by done. cbn -[strip bounded_text]. by destruct (bounded_text _ _).
Qed.

End lost.

(** A top-up whose creation was not answered is found again.  When the
    platform, that answers signed queries from its book, holds the order a
    wallet top-up asked it to create, the recovery with the request that the
    reconciliation builds from the stored intent returns that order's id,
    state, amount, currency and attributes, although the shop never learnt
    the payment's id. *)
Theorem lost_topup_recovered `{Env} `{BybitApi} g book o req i sent url :
  bybit_serves g book → o ∈ book → order_ok g o (intent_amount i) → intent_order_id i = None →
  asks_for g (MkPaymentCreateRequest None (intent_amount i) (intent_currency i) (intent_idempotency_key i)
                (topup_request_metadata req i) url) o (intent_amount i) →
  bybit_recover_payment_creation g sent (_recovery_request i) = Ok (details o (intent_amount i)).
Proof.
  intros Hs Ho Hok Hnone (Ht & _ & Hc & Hk). eapply recovery_reports; [done..|].
  rewrite topup_trade_no in Ht by done. by split_and!.
Qed.

(** An order payment whose creation was not answered is never found again.
    The payment is created under the number of the order, unless the caller's
    metadata says otherwise; the reconciliation asks for the number of the
    intent.  As long as the platform knows the payment by the number it was
    created with, and no other under the intent's, every run of the
    reconciliation leaves the intent and everything else as they are, even
    when the buyer has paid. *)
Theorem lost_order_payment_not_recovered `{HE : Env} `{HG : Gateways} `{HB : BybitApi} g t i oid s amount currency key url metadata :
  get_payment_intent t (intent_id i) s = (Ok i, s) → intent_status i = PayUnknown →
  _has_creation_ambiguity i = true → intent_provider_payment_id i = None →
  get_provider (intent_tenant_id i) (intent_provider i) s = (Ok (bybit_gateway g), s) →
  dict_get "payment_intent_id" metadata = None →
  bounded_text 64 (strip (uuid_str oid)) = true → uuid_str (intent_id i) ≠ "" →
  strip (uuid_str oid) ≠ strip (uuid_str (intent_id i)) →
  (∀ sent order, pay_result g sent "merchantTradeNo" (strip (uuid_str (intent_id i))) = Ok order →
                 field "merchantTradeNo" order = strip (uuid_str oid)) →
  _merchant_trade_no (MkPaymentCreateRequest (Some oid) amount currency key metadata url) = Ok (strip (uuid_str oid))
  ∧ reconcile_intent t (intent_id i) s = (Ok i, s).
Proof.
  intros Hget Hst Hamb Hpid Hgw Hmd Hoid Hne Hdiff Hbook. split.
  { unfold _merchant_trade_no. cbn [pcr_metadata pcr_order_id]. rewrite Hmd. cbn -[strip bounded_text]. by rewrite Hoid. }
  assert (∃ e, bybit_recover_payment_creation g (ses_sent s) (_recovery_request i) = Raise e
               ∧ (e == TimeoutError) || is_payment_provider_error e = true) as (e & He & Hclass).
  { pose proof (recovery_outcome g (ses_sent s) (_recovery_request i)) as Hout.
    destruct (bybit_recover_payment_creation _ _ _) as [d|e]; [|by exists e].
    exfalso. destruct Hout as (trade_no & order & Ht & Hp & Hf).
    rewrite recovery_trade_no in Ht by done. destruct (bounded_text 64 (strip (uuid_str (intent_id i)))); [|done].
    injection Ht as <-.
    apply Hbook in Hp. congruence. }
  unfold reconcile_intent. rewrite (bind_ok _ _ _ _ _ Hget), Hst, Hpid, Hamb.
  rewrite (bool_decide_eq_false_2 (PayUnknown = PaySucceeded)) by done. same_text.
  cbn -[_recover_creation_ambiguity].
  unfold _recover_creation_ambiguity. rewrite (bind_ok _ _ _ _ _ Hgw). cbn -[bybit_recover_payment_creation].
  unfold mbind, prog_bind, catch, gets, of_outcome, of_option. cbn -[bybit_recover_payment_creation].
  rewrite He. cbn. by rewrite Hclass.
Qed.

(** ** A concrete platform *)

Definition demo_bybit_order : BybitOrder :=
  MkBybitOrder "m-1" "intent-1" "pay-1" StPaid "25.00" "USD" false 1700000000000.

Definition demo_bybit_pay : BybitPay :=
  MkBybitPay "api" "hidden" "m-1" "PEM" testnet_base 5000 300 "https://shop.example/ok" "https://shop.example/no"
    "https://shop.example/hook" "GH Bot Factory" "Wallet top-up" "Digital wallet balance top-up" "5816" None None
    "WEB" [("USD", "fiat")].

Definition demo_credentials : dict :=
  [("api_key", JStr "api"); ("api_secret", JStr "hidden"); ("merchant_id", JStr " m-1 ")].

Definition demo_bybit_settings : dict :=
  [ ("sandbox", JBool true); ("success_url", JStr "https://shop.example/ok");
    ("failed_url", JStr "https://shop.example/no"); ("webhook_url", JStr "https://shop.example/hook");
    ("currency_types", JObj [("usd", JStr "FIAT")]) ].

Definition demo_document : string := dumps (JObj (order_json demo_bybit_order)).

Definition demo_lookups : list string :=
  map (λ kv : string * string,
         bb_base_url demo_bybit_pay +:+ "/v5/bybitpay/pay_result?" +:+ lookup_query demo_bybit_pay kv.1 kv.2)
    (names_of demo_bybit_order).

(** It knows one order, and signs by writing the key's owner before the text. *)
Definition demo_bybit : BybitApi := {|
  bybit_http _ method url _ _ :=
    if (method == "GET") && existsb (λ u, url == u) demo_lookups
    then BybitResponse 200 500 (Some (envelope demo_bybit_order))
    else BybitResponse 200 60 (Some (JObj [("retCode", JInt 110001)]));
  bybit_clock _ := 1700000000000;
  bybit_arrival _ _ := 1700000060;
  bybit_url _ := Some (MkUrl "https" "shop.example" "" "");
  bybit_hmac_sha256 k m := k +:+ m;
  bybit_pem pem := if pem == "PEM" then PemRsa 2048 (λ sig msg, sig == "bybit:" +:+ msg) else PemInvalid;
  bybit_loads text :=
    if text == "credentials" then Some (JObj demo_credentials)
    else if text == demo_document then Some (JObj (order_json demo_bybit_order)) else None;
  bybit_float _ := None;
|}.

Example demo_init :
  @init_bybit demo_env demo_bybit demo_bybit_settings "credentials" (Some "PEM") = Ok demo_bybit_pay.
Proof. vm_compute. reflexivity. Qed.

Lemma demo_bybit_serves : @bybit_serves demo_bybit demo_bybit_pay [demo_bybit_order].
Proof.
  intros o key value sent headers Ho Hn _. apply list_elem_of_singleton in Ho as ->.
  exists 500. split; [unfold max_response_bytes; lia|]. unfold names_of in Hn. rewrite !elem_of_cons in Hn.
  destruct Hn as [[= -> ->]|[[= -> ->]|[]%elem_of_nil]]; vm_compute; reflexivity.
Qed.

Lemma demo_order_ok : @order_ok demo_env demo_bybit_pay demo_bybit_order (cents 2500).
Proof. split; try (vm_compute; reflexivity); repeat split; try (vm_compute; reflexivity); try done; cbn; lia. Qed.

Definition demo_headers : list (string * string) :=
  [("Timestamp", "1700000000"); ("Signature", b64encode ("bybit:" +:+ "1700000000" +:+ demo_document))].

Lemma bybit_views_agree_witness :
  @bybit_get_payment demo_env demo_bybit demo_bybit_pay [] "pay-1" = Ok (details demo_bybit_order (cents 2500))
  ∧ ∃ v, @bybit_verify_webhook demo_env demo_bybit demo_bybit_pay demo_document demo_headers "PEM" = Ok v
         ∧ same_report v (details demo_bybit_order (cents 2500)).
Proof.
  destruct (@bybit_views_agree demo_env demo_bybit demo_bybit_pay [demo_bybit_order] demo_bybit_order (cents 2500) []
              demo_bybit_serves (list_elem_of_here _ _) demo_order_ok) as (Hget & _ & Hhook).
  split; [exact Hget|].
  apply (Hhook "PEM" (λ sig msg, sig == "bybit:" +:+ msg) "1700000000" ("bybit:" +:+ "1700000000" +:+ demo_document)).
  - repeat split; [done|cbn; lia].
  - vm_compute. reflexivity.
  - done.
  - done.
  - reflexivity.
  - by apply bool_decide_eq_true.
  - vm_compute. discriminate.
  - vm_compute. reflexivity.
Defined.

(** A registry with one factory. *)
Definition registry_with (factory : dict → string → option string → outcome exn Gateway) : Gateways := {|
  gw_overrides _ _ := None;
  gw_cached _ _ := None;
  gw_factories name := if name == "bybit_pay" then Some factory else None;
  gw_secret ref := if ref == "cred" then Some "credentials" else if ref == "hook" then Some "PEM" else None;
|}.

Definition demo_registry : Gateways := registry_with (@_create_bybit_pay_provider demo_env demo_bybit).

Definition bybit_db : DB :=
  empty_db <| provider_configs := [MkPaymentProviderConfig (mk_uuid "cfg") (mk_uuid "t") "bybit_pay" true "cred"
                                     (Some "hook") demo_bybit_settings] |>.

Definition bybit_session : Session := MkSession bybit_db bybit_db 0 [].

Lemma bybit_db_books : books bybit_db.
Proof. split; cbn; try constructor; intros x Hx; by apply elem_of_nil in Hx. Qed.

Lemma demo_is_bybit : @is_bybit demo_env demo_registry demo_bybit (mk_uuid "t") "bybit_pay".
Proof. split_and!; [done|reflexivity|done]. Qed.

Definition bybit_delivery : outcome exn PaymentWebhookEvent * Session :=
  @process_webhook demo_env demo_registry (mk_uuid "t") "bybit_pay" demo_document demo_headers bybit_session.


Definition lost_topup : PaymentIntent :=
  MkPaymentIntent (mk_uuid "intent-1") (mk_uuid "t") None WALLET_TOPUP (mk_uuid "u") None "bybit_pay" None None "USD"
    (cents 2500) PayUnknown "k1" [].

Definition lost_topup_request : TopupRequest :=
  MkTopupRequest (mk_uuid "t") (mk_uuid "u") (cents 2500) "USD" "bybit_pay" "k1" [] None None [("ip", "192.0.2.1")].

Lemma lost_topup_recovered_witness :
  @bybit_recover_payment_creation demo_env demo_bybit demo_bybit_pay [] (_recovery_request lost_topup)
  = Ok (details demo_bybit_order (cents 2500)).
Proof.
  apply (@lost_topup_recovered demo_env demo_bybit demo_bybit_pay [demo_bybit_order] demo_bybit_order lost_topup_request
           lost_topup [] None demo_bybit_serves (list_elem_of_here _ _) demo_order_ok); [reflexivity|].
  repeat split; vm_compute; reflexivity.
Defined.

(** The order payment [order-1], created while the answer got lost. *)
Definition lost_payment : PaymentIntent :=
  MkPaymentIntent (mk_uuid "intent-2") (mk_uuid "t") (Some (mk_uuid "order-1")) ORDER_PAYMENT (mk_uuid "u") None
    "bybit_pay" None None "USD" (cents 2500) PayUnknown "k2"
    [("_provider_creation_ambiguity", JObj [("reason", JStr "transport_outcome_unknown")])].

Definition lost_session : Session :=
  let d := bybit_db <| intents := [lost_payment] |> in MkSession d d 0 [].

Lemma registry_provider factory :
  @get_provider (registry_with factory) (mk_uuid "t") "bybit_pay" lost_session
  = of_outcome (factory demo_bybit_settings "credentials" (Some "PEM")) lost_session.
Proof. vm_compute. reflexivity. Qed.

Lemma demo_provider :
  @get_provider demo_registry (mk_uuid "t") "bybit_pay" lost_session
  = (Ok (@bybit_gateway demo_env demo_bybit demo_bybit_pay), lost_session).
Proof. unfold demo_registry. rewrite registry_provider. unfold _create_bybit_pay_provider. by rewrite demo_init. Qed.

Lemma lost_order_payment_not_recovered_witness :
  @reconcile_intent demo_env demo_registry (mk_uuid "t") (mk_uuid "intent-2") lost_session = (Ok lost_payment, lost_session).
Proof.
  apply (@lost_order_payment_not_recovered demo_env demo_registry demo_bybit demo_bybit_pay (mk_uuid "t") lost_payment
           (mk_uuid "order-1") lost_session (cents 2500) "USD" "k2" None []).
  - vm_compute. reflexivity.
  - vm_compute. reflexivity.
  - vm_compute. reflexivity.
  - vm_compute. reflexivity.
  - exact demo_provider.
  - vm_compute. reflexivity.
  - vm_compute. reflexivity.
  - done.
  - done.
  - intros sent order Hp. vm_compute in Hp. discriminate Hp.
Defined.
