(* ===== verification/Deposits.v ===== *)
(** * Flexible deposit sessions

    [packages/payments/flexible_deposits.py], class [FlexibleDepositService]:
    an open-amount invoice at a gateway, what the gateway reports of it, and
    the freeze of the wallet when a credited deposit is reversed; and an
    iteration of [flexible_deposit_worker.py].  The settlement itself is
    [settle] of [Economics.v]. *)

From Stdlib Require Import ZArith Lia Ascii String.
From stdpp Require Import base tactics list option strings numbers pretty.
From S2P Require Import Prelude Tables Text Money Exceptions StateMachines Models Ledger.
From S2P Require Import Economics Payments TopUps Reversals.

Local Open Scope Z_scope.

(** ** The policy of the payment method *)

Definition target_value (t : AutoCreditTarget) : string :=
  match t with TargetAssetWallet => "ASSET_WALLET" | TargetSettlementWallet => "SETTLEMENT_WALLET" end.

Definition parse_target (s : string) : option AutoCreditTarget :=
  if s == "ASSET_WALLET" then Some TargetAssetWallet
  else if s == "SETTLEMENT_WALLET" then Some TargetSettlementWallet
  else None.

(** [sorted(set)] of what was added, in the order of code points. *)
Definition add_value (v : string) (acc : list string) : list string :=
  if existsb (λ x, x == v) acc then acc else acc ++ [v].
Definition sorted_values (l : list string) : list string := sort_by String.leb l.

Fixpoint normalize_values (normalizer : string → outcome exn string) (l : list json) (acc : list string)
    : outcome exn (list string) :=
  match l with
  | [] => Ok acc
  | JStr v :: l =>
      if strip v == "" then Raise PaymentIntegrityError
      else match normalizer v with
           | Ok n => normalize_values normalizer l (add_value n acc)
           | Raise e => Raise e
           end
  | _ :: _ => Raise PaymentIntegrityError
  end.

Definition _allowed_values (settings : dict) (key : string) (normalizer : string → outcome exn string)
    : outcome exn (list string) :=
  match dict_get key settings with
  | None | Some JNull => Ok []
  | Some (JList l) => normalize_values normalizer l []
  | Some _ => Raise PaymentIntegrityError
  end.

(** [target, basis, settlement_currency, fx_policy_id, snapshot] *)
Record PolicySnapshot := MkPolicySnapshot {
  ps_target : AutoCreditTarget;
  ps_basis : string;
  ps_currency : option string;
  ps_fx_policy_id : option UUID;
  ps_auto_credit : bool;
  ps_snapshot : dict;
}.

Definition json_of_option {A} (f : A → string) (o : option A) : json :=
  match o with Some a => JStr (f a) | None => JNull end.

Section policy.
  Context `{Env}.

(** The currency and the conversion policy that settlement-wallet credits need. *)
Definition settlement_terms (settings : dict) : outcome exn (string * UUID) :=
  let raw_currency := strip (policy_text "auto_credit_currency" "" settings) in
  if raw_currency == "" then Raise PaymentIntegrityError
  else
    match normalize_currency raw_currency with
    | Raise e => Raise e
    | Ok currency =>
        let raw_policy := strip (policy_text "fx_policy_id" "" settings) in
        if raw_policy == "" then Raise PaymentIntegrityError
        else match uuid_of_str raw_policy with
             | None => Raise PaymentIntegrityError
             | Some p => Ok (currency, p)
             end
    end.

Definition build_snapshot (settings : dict) (target : AutoCreditTarget) (basis : string)
    (effective : bool) (currency : option string) (fx_policy_id : option UUID) : outcome exn PolicySnapshot :=
  match _allowed_values settings "allowed_assets" normalize_asset with
  | Raise e => Raise e
  | Ok assets =>
      match _allowed_values settings "allowed_networks" (λ v, normalize_network (Some v)) with
      | Raise e => Raise e
      | Ok networks =>
          Ok (MkPolicySnapshot target basis currency fx_policy_id effective
                [("auto_credit_enabled", JBool effective);
                 ("auto_credit_target", JStr (target_value target));
                 ("auto_credit_basis", JStr basis);
                 ("settlement_currency", json_of_option id currency);
                 ("fx_policy_id", json_of_option uuid_str fx_policy_id);
                 ("allowed_assets", JList (map JStr (sorted_values assets)));
                 ("allowed_networks", JList (map JStr (sorted_values networks)))])
      end
  end.

Definition _policy_snapshot (method : PaymentMethodConfig) (allow_auto_credit : bool)
    : outcome exn PolicySnapshot :=
  let settings := pmc_settings_json method in
  if negb (json_truthy (default (JBool false) (dict_get "flexible_deposits_enabled" settings)))
  then Raise PaymentError
  else
    let target_raw := upper (strip (if pmc_auto_credit_target method == "" then "ASSET_WALLET"
                                    else pmc_auto_credit_target method)) in
    match parse_target target_raw with
    | None => Raise PaymentIntegrityError
    | Some target =>
        let basis := upper (strip (policy_text "auto_credit_basis" "NET_AFTER_FEE" settings)) in
        if negb ((basis == "NET_AFTER_FEE") || (basis == "GROSS_RECEIVED"))
        then Raise PaymentIntegrityError
        else
          let effective := pmc_auto_credit_enabled method && allow_auto_credit in
          if effective && (target == TargetSettlementWallet) then
            match settlement_terms settings with
            | Raise e => Raise e
            | Ok (currency, p) => build_snapshot settings target basis effective (Some currency) (Some p)
            end
          else build_snapshot settings target basis effective None None
    end.

End policy.

(** ** What a gateway reports *)

Definition normalize_reported (normalizer : string → outcome exn string) (v : option string)
    : outcome exn (option string) :=
  if truthy v then match normalizer (default "" v) with Ok n => Ok (Some n) | Raise e => Raise e end
  else Ok None.

Definition reported_asset (r : FlexibleDepositResult) : outcome exn (option string) :=
  normalize_reported normalize_asset (fdres_asset r).
Definition reported_network (r : FlexibleDepositResult) : outcome exn (option string) :=
  normalize_reported (λ v, normalize_network (Some v)) (fdres_network r).

(** [set(snapshot.get(key) or [])]; the snapshot was written above. *)
Definition snapshot_values (key : string) (snapshot : dict) : list json :=
  match dict_get key snapshot with Some (JList l) => l | _ => [] end.

Definition outside (allowed : list json) (v : option string) : bool :=
  match v with
  | Some v => negb (length allowed =? 0)%nat && negb (existsb (λ x, json_eqb x (JStr v)) allowed)
  | None => false
  end.

Definition changed (known observed : option string) : bool :=
  truthy known && truthy observed && (known != observed).

Definition _assert_provider_result_allowed (deposit : FlexibleDepositSession) (r : FlexibleDepositResult)
    : outcome exn unit :=
  let snapshot := dep_policy_snapshot_json deposit in
  match reported_asset r with
  | Raise e => Raise e
  | Ok asset =>
      match reported_network r with
      | Raise e => Raise e
      | Ok network =>
          if outside (snapshot_values "allowed_assets" snapshot) asset then Raise PaymentIntegrityError
          else if outside (snapshot_values "allowed_networks" snapshot) network then Raise PaymentIntegrityError
          else if changed (dep_asset deposit) asset then Raise PaymentIntegrityError
          else if changed (dep_network deposit) network then Raise PaymentIntegrityError
          else Ok tt
      end
  end.

Section service.
  Context `{Env} `{Gateways}.

Definition _merchant_reference (tenant_id user_id : UUID) (key : string) : string :=
  "DEP-" +:+ upper (prefix_of 28 (env_sha256 (uuid_str tenant_id +:+ ":" +:+ uuid_str user_id +:+ ":" +:+ key))).

(** The columns of the row are checked when it is flushed. *)
Definition flush_deposit (i : UUID) : M unit :=
  found ← query (λ d, get_row i (deposits d));
  match found with
  | None => mret tt
  | Some x =>
      to_varchar 50 (dep_provider x);;
      to_varchar 128 (dep_provider_deposit_id x);;
      to_varchar_opt 2048 (dep_checkout_url x);;
      to_numeric 36 18 (default 0 (dep_amount_received x));;
      to_numeric 36 18 (default 0 (dep_fee_amount x));;
      mret tt
  end.

(** The assignments of [_apply_provider_result], each before the check that
    follows it. *)
Definition _apply_provider_result (deposit : FlexibleDepositSession) (r : FlexibleDepositResult) : M unit :=
  let i := dep_id deposit in
  raise_if (fdres_provider_deposit_id r != dep_provider_deposit_id deposit) PaymentIntegrityError;;
  of_outcome (_assert_provider_result_allowed deposit r);;
  asset ← of_outcome (reported_asset r);
  (if is_some asset then update_deposit i (λ x, x <| dep_asset := asset |>) else mret tt);;
  network ← of_outcome (reported_network r);
  (if is_some network then update_deposit i (λ x, x <| dep_network := network |>) else mret tt);;
  match fdres_amount_received r with
  | Some amount =>
      raise_if (amount <? 0) PaymentIntegrityError;;
      raise_if (match dep_amount_received deposit with Some before => amount <? before | None => false end)
        PaymentIntegrityError;;
      update_deposit i (λ x, x <| dep_amount_received := Some amount |>)
  | None => mret tt
  end;;
  match fdres_fee_amount r with
  | Some fee =>
      raise_if (fee <? 0) PaymentIntegrityError;;
      update_deposit i (λ x, x <| dep_fee_amount := Some fee |>)
  | None => mret tt
  end;;
  n ← now;
  update_deposit i (λ x,
    (if truthy (fdres_checkout_url r) then x <| dep_checkout_url := fdres_checkout_url r |> else x)
      <| dep_provider_snapshot_json := fdres_raw_data r |> <| dep_last_reconciled_at := Some n |>
      <| dep_status := fdres_status r |> <| dep_last_error := None |>).

Definition _provider (tenant_id : UUID) (provider_name : string) : M FlexibleGateway :=
  g ← get_provider tenant_id provider_name;
  of_option PaymentError (gw_flexible_deposits g).

(** ** A new session *)

Record DepositRequest := MkDepositRequest {
  dr_tenant_id : UUID;
  dr_user_id : UUID;
  dr_payment_method_id : UUID;
  dr_idempotency_key : string;
  dr_return_url : option string;
  dr_allow_auto_credit : bool;
}.

Definition deposits_by_key (tenant_id : UUID) (key : string) (d : DB) : list FlexibleDepositSession :=
  select (λ x, (dep_tenant_id x == tenant_id) && (dep_idempotency_key x == key)) (deposits d).

(** The primary key, [uq_flexible_deposit_idempotency] and
    [uq_flexible_deposit_provider_id]. *)
Definition deposit_conflict (a b : FlexibleDepositSession) : bool :=
  (dep_id a == dep_id b)
  || (dep_tenant_id a == dep_tenant_id b)
     && ((dep_idempotency_key a == dep_idempotency_key b)
         || (dep_provider a == dep_provider b) && (dep_provider_deposit_id a == dep_provider_deposit_id b)).

(** The row, the unique constraints and the foreign key of its FX policy. *)
Definition insert_deposit (x : FlexibleDepositSession) : M unit :=
  clash ← query (λ d, existsb (deposit_conflict x) (deposits d));
  orphan ← query (λ d, match dep_fx_policy_id x with
                       | Some p => negb (is_some (get_row p (fx_policies d)))
                       | None => false
                       end);
  raise_if (clash || orphan) IntegrityError;;
  write (λ d, d <| deposits ::= (λ t, t ++ [x]) |>);;
  flush_deposit (dep_id x).

Definition call_create_deposit (g : FlexibleGateway) (tenant_id : UUID) (name : string)
    (req : FlexibleDepositCreateRequest) : M FlexibleDepositResult :=
  answer ← gets (λ s, gw_create_flexible_deposit g (ses_sent s) req);
  send (SentDeposit tenant_id name req);;
  of_outcome answer.

Definition create (req : DepositRequest) : M FlexibleDepositSession :=
  let t := dr_tenant_id req in
  let key := strip (dr_idempotency_key req) in
  raise_if (negb ((8 <=? String.length key) && (String.length key <=? 100))%nat) PaymentError;;
  found ← scalar (deposits_by_key t key);
  match found with
  | Some existing =>
      raise_if ((dep_user_id existing != dr_user_id req)
                || (dep_payment_method_id existing != dr_payment_method_id req)) PaymentIntegrityError;;
      mret existing
  | None =>
      found ← scalar (λ d, select (λ m, (pmc_id m == dr_payment_method_id req) && (pmc_tenant_id m == t)
                                        && pmc_is_enabled m) (payment_methods d));
      method ← of_option PaymentError found;
      let name := lower (strip (default "" (pmc_provider_name method))) in
      raise_if (name == "") PaymentError;;
      policy ← of_outcome (_policy_snapshot method (dr_allow_auto_credit req));
      g ← _provider t name;
      result ← call_create_deposit g t name
                 (MkFlexibleDepositCreateRequest key (_merchant_reference t (dr_user_id req) key)
                    [("product_name", JStr (pmc_display_name method))] (dr_return_url req));
      raise_if (fdres_provider_deposit_id result == "") PaymentIntegrityError;;
      asset ← of_outcome (reported_asset result);
      network ← of_outcome (reported_network result);
      n ← now;
      u ← uuid4;
      let deposit := MkFlexibleDepositSession u t (dr_user_id req) (pmc_id method) name
                       (fdres_provider_deposit_id result) key (fdres_status result)
                       (fdres_checkout_url result) asset network (fdres_amount_received result)
                       (fdres_fee_amount result) (ps_auto_credit policy) (ps_target policy)
                       (ps_basis policy) (ps_currency policy) (ps_fx_policy_id policy) None None None
                       None (Some n) None (fdres_raw_data result) (ps_snapshot policy) in
      of_outcome (_assert_provider_result_allowed deposit result);;
      await_others;;
      except_integrity (begin_nested (insert_deposit deposit);; mret deposit)
        (found ← scalar (deposits_by_key t key);
         winner ← of_option IntegrityError found;
         raise_if (dep_provider_deposit_id winner != fdres_provider_deposit_id result) PaymentIntegrityError;;
         mret winner)
  end.

(** ** Reconciliation *)

Definition get_deposit (tenant_id i : UUID) : M FlexibleDepositSession :=
  found ← scalar (λ d, select (λ x, (dep_id x == i) && (dep_tenant_id x == tenant_id)) (deposits d));
  of_option PaymentError found.

Definition live_deposit (x : FlexibleDepositSession) : M FlexibleDepositSession :=
  query (λ d, default x (get_row (dep_id x) (deposits d))).

Definition reversal_metadata (x : FlexibleDepositSession) (asset_wallet : option AssetWallet) : dict :=
  [("deposit_id", JStr (uuid_str (dep_id x))); ("provider", JStr (dep_provider x));
   ("provider_deposit_id", JStr (dep_provider_deposit_id x));
   ("credited_amount", JStr (match dep_credited_amount x with
                             | Some a => env_decimal_str a
                             | None => "None"
                             end));
   ("asset", json_of_text (dep_credited_asset x)); ("network", json_of_text (dep_network x));
   ("currency", json_of_text (dep_credited_currency x));
   ("asset_wallet_id", json_of_option (λ w, uuid_str (awallet_id w)) asset_wallet)].

(** The wallet that the deposit was credited to: [(wallet, asset_wallet)]. *)
Definition credited_wallet (x : FlexibleDepositSession) : M (option Wallet * option AssetWallet) :=
  if truthy (dep_credited_currency x) then
    w ← scalar (wallet_by_key (dep_tenant_id x) (dep_user_id x) (default "" (dep_credited_currency x)));
    mret (w, None)
  else
    w ← scalar (λ d, select (λ w, (awallet_tenant_id w == dep_tenant_id x)
                                  && (awallet_user_id w == dep_user_id x)
                                  && (Some (awallet_asset w) == dep_credited_asset x)
                                  && (Some (awallet_network w) == dep_network x)) (asset_wallets d));
    mret (None, w).

Definition freeze (ws : option Wallet * option AssetWallet) : M unit :=
  match ws with
  | (Some w, _) => set_wallet_active (wallet_id w) false
  | (None, Some w) =>
      write (λ d, d <| asset_wallets ::= update_row (awallet_id w) (λ w, w <| awallet_is_active := false |>) |>)
  | (None, None) => mthrow LedgerIntegrityError
  end.

Definition reversal_source_key (x : FlexibleDepositSession) : string :=
  "flexible-reversal:" +:+ uuid_str (dep_id x).

Definition _record_credited_reversal (x : FlexibleDepositSession) : M unit :=
  ws ← credited_wallet x;
  freeze ws;;
  existing ← scalar (cases_by_source (dep_tenant_id x) (reversal_source_key x));
  (if is_some existing then mret tt
   else
     insert_frc (λ u, MkFinancialResolutionCase u (dep_tenant_id x) (reversal_source_key x)
       "FLEXIBLE_DEPOSIT_REVERSED_AFTER_CREDIT" "CRITICAL" FrcOpen None (wallet_id <$> ws.1) None None
       None 1 None None None None (reversal_metadata x ws.2));;
     mret tt);;
  update_deposit (dep_id x) (λ x, x <| dep_status := DepReversed |>
    <| dep_last_error := Some "PROVIDER_REVERSED_AFTER_CREDIT_REQUIRES_FINANCIAL_RESOLUTION" |>).

(** Nothing is asked about a deposit that is over. *)
Definition is_over (x : FlexibleDepositSession) : bool :=
  (dep_status x == DepExpired) || (dep_status x == DepCancelled) || (dep_status x == DepReversed).

(** [except (PaymentProviderError, PaymentIntegrityError, LedgerIntegrityError)] *)
Definition needs_review (e : exn) : bool :=
  is_payment_provider_error e || (e == PaymentIntegrityError) || (e == LedgerIntegrityError).

(** What the gateway's answer does to a deposit. *)
Definition observe (deposit : FlexibleDepositSession) (r : FlexibleDepositResult) : M unit :=
  let i := dep_id deposit in
  raise_if (fdres_provider_deposit_id r != dep_provider_deposit_id deposit) PaymentIntegrityError;;
  if is_some (dep_credited_at deposit) then
    n ← now;
    update_deposit i (λ x, x <| dep_last_reconciled_at := Some n |>);;
    if fdres_status r == DepReversed then _record_credited_reversal deposit
    else
      of_outcome (_assert_provider_result_allowed deposit r);;
      update_deposit i (λ x, x <| dep_status := DepCredited |> <| dep_last_error := None |>)
  else
    _apply_provider_result deposit r;;
    if fdres_status r == DepSettledReview then
      x ← live_deposit deposit;
      flush_deposit i;;
      settle x
    else mret tt.

Definition reconcile (tenant_id i : UUID) : M FlexibleDepositSession :=
  deposit ← get_deposit tenant_id i;
  if is_over deposit then mret deposit
  else
    g ← _provider tenant_id (dep_provider deposit);
    catch
      (answer ← gets (λ s, gw_get_flexible_deposit g (ses_sent s) (dep_provider_deposit_id deposit));
       r ← of_outcome answer;
       observe deposit r;;
       flush_deposit i;;
       live_deposit deposit)
      (λ e,
         if needs_review e then
           n ← now;
           update_deposit i (λ x, x <| dep_status := DepUnknown |>
             <| dep_last_error := Some (prefix_of 500 (env_exn_str e)) |>
             <| dep_last_reconciled_at := Some n |>);;
           flush_deposit i;;
           live_deposit deposit
         else mthrow e).

Definition is_open (x : FlexibleDepositSession) : bool :=
  match dep_status x with
  | DepCredited | DepCreated | DepPending | DepProcessing | DepSettledReview | DepUnknown => true
  | _ => false
  end.

(** [ORDER BY last_reconciled_at ASC NULLS FIRST, id ASC] *)
Definition oldest_first : FlexibleDepositSession → FlexibleDepositSession → bool :=
  then_by (λ x, if is_some (dep_last_reconciled_at x) then 1 else 0)
    (then_by (λ x, default 0 (dep_last_reconciled_at x)) (λ a b, uuid_leb (dep_id a) (dep_id b))).

Definition open_deposits (limit : Z) (d : DB) : list FlexibleDepositSession :=
  take (Z.to_nat (Z.max 1 (Z.min limit 200))) (sort_by oldest_first (select is_open (deposits d))).

Definition reconcile_open (limit : Z) : M (list FlexibleDepositSession) :=
  l ← query (open_deposits limit);
  map_prog (λ x, reconcile (dep_tenant_id x) (dep_id x)) l.

(** An iteration of [_run_loop]: what it raises is logged. *)
Definition deposit_pass (limit : Z) : M unit :=
  catch (in_session (reconcile_open limit;; commit)) (λ _, mret tt).

End service.
