(* ===== verification/DepositsHistory.v ===== *)
(** * Flexible deposits over time

    That a deposit is credited at most once and only when it says so, that what
    was credited is never rewritten, and that one deposit whose gateway is
    unavailable stops the worker for all of them. *)

From Stdlib Require Import ZArith Lia Ascii String.
From stdpp Require Import base tactics list option strings numbers pretty.
From S2P Require Import Prelude Tables Text Money Exceptions StateMachines Models Ledger.
From S2P Require Import LedgerSpec Economics DepositsSpec FulfillmentSpec Payments PaymentsInv.
From S2P Require Import TopUps PaymentsSpec Reversals ReversalsSpec Deposits.

Local Open Scope Z_scope.

(** ** Credits of a deposit *)

Definition wallet_credit (u : string) (tx : LedgerTransaction) : bool :=
  (tx_transaction_type tx == CREDIT) && (tx_reference_type tx == Some CANONICAL_FLEXIBLE_DEPOSIT_TYPE)
  && (tx_reference_id tx == Some u).

Definition asset_entry (u : string) (tx : AssetLedgerTransaction) : bool :=
  (atx_reference_type tx == Some FLEXIBLE_DEPOSIT_SETTLEMENT_REF) && (atx_reference_id tx == Some u).

Definition credits (i : UUID) (d : DB) : nat :=
  rowcount (wallet_credit (uuid_str i)) (ledger d) + rowcount (asset_entry (uuid_str i)) (asset_ledger d).

(** The entry that a credited deposit has. *)
Definition paid (x : FlexibleDepositSession) (d : DB) : Prop :=
  (∃ tx, tx ∈ ledger d ∧ wallet_credit (uuid_str (dep_id x)) tx = true)
  ∨ asset_entry_by_key (dep_tenant_id x) (strip (deposit_key x)) d ≠ [].

(** What was observed and credited. *)
Definition evidence (x : FlexibleDepositSession) :=
  (dep_id x, dep_tenant_id x, dep_user_id x, dep_provider_deposit_id x, (dep_asset x, dep_network x),
   (dep_amount_received x, dep_fee_amount x, dep_fx_policy_id x),
   (dep_credited_amount x, dep_credited_asset x, dep_credited_currency x, dep_credited_at x)).

Record deposits_ok (d : DB) : Prop := {
  do_ids : NoDup (dep_id <$> deposits d);
  do_once : ∀ i, (credits i d ≤ 1)%nat;
  do_none : ∀ x, x ∈ deposits d → dep_credited_at x = None → credits (dep_id x) d = 0%nat;
  do_paid : ∀ x, x ∈ deposits d → is_Some (dep_credited_at x) → paid x d;
  do_known : ∀ i, credits i d ≠ 0%nat → i ∈ dep_id <$> deposits d;
}.

(** A credited deposit keeps its evidence and its credit. *)
Definition frozen (d d' : DB) : Prop :=
  ∀ x, x ∈ deposits d → is_Some (dep_credited_at x) →
    ∃ x', x' ∈ deposits d' ∧ evidence x' = evidence x ∧ credits (dep_id x) d' = credits (dep_id x) d.

Definition moves (d d' : DB) : Prop := deposits_ok d → deposits_ok d' ∧ frozen d d'.

Lemma frozen_refl d : frozen d d.
Proof. intros x Hx _. by exists x. Qed.

Lemma evidence_id x y : evidence x = evidence y → dep_id x = dep_id y ∧ dep_credited_at x = dep_credited_at y.
Proof. unfold evidence. intros [=]. done. Qed.

Lemma frozen_trans d1 d2 d3 : frozen d1 d2 → frozen d2 d3 → frozen d1 d3.
Proof.
  intros H12 H23 x Hx Hc. destruct (H12 x Hx Hc) as (y & Hy & Hev & Hcr).
  pose proof (evidence_id _ _ Hev) as [Hid Hat].
  destruct (H23 y Hy) as (z & Hz & Hev' & Hcr'); [by rewrite Hat|].
  exists z. rewrite Hid in Hcr'. split_and!; congruence.
Qed.

Global Instance moves_preorder : PreOrder moves.
Proof.
  split.
  - intros d Hd. split; [done|apply frozen_refl].
  - intros d1 d2 d3 H12 H23 Hd. destruct (H12 Hd) as [H2 F12], (H23 H2) as [H3 F23].
    split; [done|by eapply frozen_trans].
Qed.

(** ** One row changes *)

(** Entries are only added. *)
Definition grows (d d' : DB) : Prop := ledger d `prefix_of` ledger d' ∧ asset_ledger d `prefix_of` asset_ledger d'.

Lemma grows_refl d : grows d d.
Proof. by split. Qed.

Lemma paid_grows x d d' : grows d d' → paid x d → paid x d'.
Proof.
  intros [[l Hl] [al Hal]] [(tx & Htx & Hc)|Hne].
  - left. exists tx. rewrite Hl. split; [apply elem_of_app; by left|done].
  - right. unfold asset_entry_by_key in *. rewrite Hal, select_app. by destruct (select _ (asset_ledger d)).
Qed.

(** The row [i] becomes [f] of it, and no other deposit is credited. *)
Record row_change (i : UUID) (f : FlexibleDepositSession → FlexibleDepositSession) (d d' : DB) : Prop := {
  rc_rows : deposits d' = update_row i f (deposits d);
  rc_grows : grows d d';
  rc_others : ∀ j, j ≠ i → credits j d' = credits j d;
  rc_id : ∀ x, dep_id (f x) = dep_id x ∧ dep_tenant_id (f x) = dep_tenant_id x;
  rc_row : ∀ x, x ∈ deposits d → dep_id x = i →
    (credits i d' ≤ 1)%nat ∧ (dep_credited_at (f x) = None → credits i d' = 0%nat)
    ∧ (is_Some (dep_credited_at (f x)) → paid (f x) d')
    ∧ (is_Some (dep_credited_at x) → evidence (f x) = evidence x ∧ credits i d' = credits i d);
  rc_exists : i ∈ dep_id <$> deposits d ∨ credits i d' = credits i d;
}.

Lemma paid_same x y d : dep_id x = dep_id y → dep_tenant_id x = dep_tenant_id y → paid x d → paid y d.
Proof. unfold paid, deposit_key. by intros -> ->. Qed.

Lemma row_change_moves i f d d' : row_change i f d d' → moves d d'.
Proof.
  intros [Hrows Hg Hoth Hid Hrow Hex] [Hids Honce Hnone Hpaid Hknown].
  assert (dep_id <$> deposits d' = dep_id <$> deposits d) as Hmap.
  { rewrite Hrows. apply fmap_update_where. intros x _ _. apply Hid. }
  assert (∀ x', x' ∈ deposits d' → ∃ x, x ∈ deposits d ∧ dep_id x' = dep_id x ∧
            (dep_id x = i ∧ x' = f x ∨ dep_id x ≠ i ∧ x' = x)) as Hinv.
  { intros x'. rewrite Hrows. intros (x & Hx & ->)%elem_of_update_where. exists x. split; [done|].
    case_bool_decide as Hc; change (dep_id x = i) in Hc || change (dep_id x ≠ i) in Hc.
    - split; [apply Hid|by left].
    - split; [done|by right]. }
  split; [split|].
  - by rewrite Hmap.
  - intros j. destruct (decide (j = i)) as [->|Hne]; [|by rewrite Hoth].
    destruct Hex as [(x & -> & Hx)%list_elem_of_fmap_1|Heq]; [by apply (Hrow x)|by rewrite Heq].
  - intros x' Hx' Hc. destruct (Hinv x' Hx') as (x & Hx & -> & [[Hi ->]|[Hi ->]]).
    + rewrite Hi. by apply (Hrow x).
    + rewrite Hoth by done. by apply Hnone.
  - intros x' Hx' Hc. destruct (Hinv x' Hx') as (x & Hx & _ & [[Hi ->]|[Hi ->]]).
    + by apply (Hrow x).
    + eapply paid_grows; [done|by apply Hpaid].
  - intros j Hj. rewrite Hmap. destruct (decide (j = i)) as [->|Hne].
    + destruct Hex as [|Heq]; [done|]. apply Hknown. by rewrite <- Heq.
    + apply Hknown. by rewrite <- Hoth.
  - intros x Hx Hc. exists (if bool_decide (dep_id x = i) then f x else x).
    rewrite Hrows. split; [apply elem_of_update_where; by exists x|].
    case_bool_decide as Hi.
    + destruct (Hrow x Hx Hi) as (_ & _ & _ & Hfr). rewrite Hi. by apply Hfr.
    + split; [done|by apply Hoth].
Qed.

Lemma credits_same i d d' : ledger d' = ledger d → asset_ledger d' = asset_ledger d → credits i d' = credits i d.
Proof. unfold credits. by intros -> ->. Qed.

(** Nothing of a deposit and no entry changed. *)
Lemma sames_moves d d' :
  deposits d' = deposits d → ledger d' = ledger d → asset_ledger d' = asset_ledger d → moves d d'.
Proof.
  intros Hd Hl Ha [Hids Honce Hnone Hpaid Hknown].
  assert (∀ i, credits i d' = credits i d) as Hc by (intros i; by apply credits_same).
  split; [split|]; rewrite ?Hd; try done.
  - intros i. by rewrite Hc.
  - intros x Hx. rewrite Hc. by apply Hnone.
  - intros x Hx Hs. eapply paid_grows; [|by apply Hpaid]. split; by rewrite ?Hl, ?Ha.
  - intros i. rewrite Hc. apply Hknown.
  - intros x Hx _. exists x. by rewrite Hd, Hc.
Qed.

(** Bookkeeping on a row. *)
Lemma touch_moves i f d :
  (∀ x, evidence (f x) = evidence x) → moves d (d <| deposits ::= update_row i f |>).
Proof.
  intros Hf Hok. apply (row_change_moves i f); [|done].
  assert (∀ x, dep_id (f x) = dep_id x ∧ dep_tenant_id (f x) = dep_tenant_id x ∧
            dep_credited_at (f x) = dep_credited_at x) as Hid
    by (intros x; specialize (Hf x); unfold evidence in Hf; by injection Hf).
  split; [done|by split|done|intros x; by destruct (Hid x) as (? & ? & _)| |by right].
  intros x Hx <-. destruct (Hid x) as (Hi & Ht & ->). destruct Hok as [_ Honce Hnone Hpaid _].
  split; [apply Honce|]. split; [by apply Hnone|]. split; [|done].
  intros Hc. eapply (paid_same x); [done|done|]. by apply Hpaid.
Qed.

Definition uncredited (i : UUID) (d : DB) : Prop :=
  ∀ x, x ∈ deposits d → dep_id x = i → dep_credited_at x = None.

(** A new observation of a deposit that is not credited. *)
Lemma observe_moves i f d :
  (∀ x, dep_id (f x) = dep_id x ∧ dep_tenant_id (f x) = dep_tenant_id x
        ∧ dep_credited_at (f x) = dep_credited_at x) →
  uncredited i d → moves d (d <| deposits ::= update_row i f |>).
Proof.
  intros Hf Hu Hok. apply (row_change_moves i f); [|done].
  split; [done|by split|done|intros x; by destruct (Hf x) as (? & ? & _)| |by right].
  intros x Hx Hi. destruct (Hf x) as (_ & _ & ->). rewrite (Hu x Hx Hi). destruct Hok as [_ Honce Hnone _ _].
  split; [apply Honce|]. split; [intros _; rewrite <- Hi; by apply Hnone, Hu|].
  split; by intros [? [=]].
Qed.

(** The credit of a deposit, together with the row that records it. *)
Lemma pay_moves x f d d' :
  x ∈ deposits d → dep_credited_at x = None → deposits d' = update_row (dep_id x) f (deposits d) →
  (∀ y, dep_id (f y) = dep_id y ∧ dep_tenant_id (f y) = dep_tenant_id y ∧ is_Some (dep_credited_at (f y))) →
  grows d d' → (∀ j, j ≠ dep_id x → credits j d' = credits j d) →
  (credits (dep_id x) d' ≤ S (credits (dep_id x) d))%nat → paid x d' → moves d d'.
Proof.
  intros Hx Hc Hrows Hf Hg Hoth Hle Hpaid Hok. apply (row_change_moves (dep_id x) f); [|done].
  pose proof (do_none d Hok x Hx Hc) as Hz.
  split; [done|done|done|intros y; by destruct (Hf y) as (? & ? & _)| |left; by apply list_elem_of_fmap_2].
  intros y Hy Hi.
  assert (y = x) as -> by (eapply (NoDup_fmap_inj dep_id); [apply Hok|done..]).
  destruct (Hf x) as (Hfi & Hft & [t ->]). split; [lia|]. split; [done|].
  split; [intros _; by eapply (paid_same x)|]. rewrite Hc. by intros [? [=]].
Qed.

(** ** The ledgers *)

Section ledgers.
  Context `{HE : Env} `{!Serial HE}.

(** A savepoint whose failure is only looked at. *)
Lemma wp_savepoint {A} (m : M A) (h : exn → M A) (Q : outcome exn A → Session → Prop) s :
  (∀ a s', m s = (Ok a, s') → Q (Ok a) s') → (∀ e s', ses_db s' = ses_db s → wp (h e) Q s') →
  wp (catch (begin_nested m) h) Q s.
Proof.
  intros Hm Hh. apply wp_catch. unfold wp, begin_nested.
  destruct (m s) as [[a|e] s'] eqn:Hr; cbn; [by apply Hm|]. by apply Hh.
Qed.

(** What a credit of deposit [u] leaves: the same money, or one entry more. *)
Definition credited_by {A} (u : string) (s : Session) (r : outcome exn A) (s' : Session) : Prop :=
  deposits (ses_db s') = deposits (ses_db s) ∧
  (ledger (ses_db s') = ledger (ses_db s) ∧ asset_ledger (ses_db s') = asset_ledger (ses_db s)
   ∨ is_ok r = true ∧
     ((∃ tx, ledger (ses_db s') = ledger (ses_db s) ++ [tx] ∧ tx_reference_id tx = Some u)
        ∧ asset_ledger (ses_db s') = asset_ledger (ses_db s)
      ∨ ledger (ses_db s') = ledger (ses_db s)
        ∧ ∃ tx, asset_ledger (ses_db s') = asset_ledger (ses_db s) ++ [tx] ∧ atx_reference_id tx = Some u)).

Lemma credited_by_db {A} u s (r : outcome exn A) s' : ses_db s' = ses_db s → credited_by u s r s'.
Proof. unfold credited_by. intros ->. auto. Qed.

Lemma credited_by_reads {A} (m : M A) u s0 s :
  ses_db s = ses_db s0 → steps same_db m → wp m (credited_by u s0) s.
Proof. intros Hs Hm. specialize (Hm s). apply credited_by_db. unfold same_db in Hm. congruence. Qed.

Lemma settle_flexible_deposit_wp w a i desc s :
  wp (settle_flexible_deposit w a i desc) (credited_by (uuid_str i) s) s.
Proof.
  unfold settle_flexible_deposit. apply wp_guard; [intros _|intros _; by apply credited_by_db].
  apply wp_read; [unfold lock_wallet; steps_walk|intros w' _|intros e _; by apply credited_by_db].
  cbv zeta. apply wp_gets. destruct (find_entry _ _ _ _ _) as [tx|];
    [apply credited_by_reads; [done|unfold return_existing; steps_walk]|].
  apply wp_bind. unfold await_others. apply wp_intro. intros r s1 [-> ->]%write_inv.
  assert (ses_db (s <| ses_db ::= env_race |>) = ses_db s) as Hs by (cbn; apply serial_race).
  apply wp_savepoint.
  - intros tx s' Hf. unfold flush_entry in Hf. db_inv. unfold credited_by. cbn. rewrite serial_race. split; [done|]. right. split; [done|]. left.
    split; [|done]. eexists. split; reflexivity.
  - intros e s' Hdb. apply credited_by_reads; [by etrans|]. unfold return_existing. destruct e; steps_walk.
Qed.

Lemma asset_credit_wp w a key rt i desc s :
  wp (asset_credit w a key rt (Some (uuid_str i)) desc) (credited_by (uuid_str i) s) s.
Proof.
  unfold asset_credit. apply wp_guard; [intros _|intros _; by apply credited_by_db].
  cbv zeta. apply wp_guard; [intros _|intros _; by apply credited_by_db].
  apply wp_read; [unfold lock_asset_wallet; steps_walk|intros w' _|intros e _; by apply credited_by_db].
  apply wp_gets. destruct (head _) as [tx|]; [apply credited_by_reads; [done|steps_walk]|].
  apply wp_bind. unfold await_others. apply wp_intro. intros r s1 [-> ->]%write_inv.
  assert (ses_db (s <| ses_db ::= env_race |>) = ses_db s) as Hs by (cbn; apply serial_race).
  unfold except_integrity. apply wp_savepoint.
  - intros tx s' Hf. unfold flush_asset_entry in Hf. db_inv. unfold credited_by. cbn. rewrite serial_race. split; [done|]. right. split; [done|]. right.
    split; [done|]. eexists. split; reflexivity.
  - intros e s' Hdb. apply credited_by_reads; [by etrans|]. destruct e; steps_walk.
Qed.

End ledgers.

(** ** Settlement *)

Definition sames (s s' : Session) : Prop :=
  deposits (ses_db s') = deposits (ses_db s) ∧ ledger (ses_db s') = ledger (ses_db s)
  ∧ asset_ledger (ses_db s') = asset_ledger (ses_db s).

Global Instance sames_preorder : PreOrder sames.
Proof. split; unfold sames; [done|]. intros x y z (-> & -> & ->) (-> & -> & ->). done. Qed.

Lemma sames_db s s' : same_db s s' → sames s s'.
Proof. unfold same_db, sames. by intros ->. Qed.

Lemma rowcount_snoc {A} (p : A → bool) l x :
  (rowcount p (l ++ [x]) = rowcount p l + (if p x then 1 else 0))%nat.
Proof. unfold rowcount. rewrite select_app, length_app. cbn. by destruct (p x). Qed.

Lemma wallet_credit_other i j tx : tx_reference_id tx = Some (uuid_str i) → j ≠ i → wallet_credit (uuid_str j) tx = false.
Proof.
  intros Hr Hne. unfold wallet_credit. rewrite Hr, (bool_decide_eq_false_2 (Some _ = Some _)); [by rewrite andb_false_r|].
  intros [= Heq]. by apply Hne, (inj uuid_str).
Qed.

Lemma asset_entry_other i j tx : atx_reference_id tx = Some (uuid_str i) → j ≠ i → asset_entry (uuid_str j) tx = false.
Proof.
  intros Hr Hne. unfold asset_entry. rewrite Hr, (bool_decide_eq_false_2 (Some _ = Some _)); [by rewrite andb_false_r|].
  intros [= Heq]. by apply Hne, (inj uuid_str).
Qed.

Lemma credited_by_credits {A} i s (r : outcome exn A) s' :
  credited_by (uuid_str i) s r s' →
  grows (ses_db s) (ses_db s') ∧ (∀ j, j ≠ i → credits j (ses_db s') = credits j (ses_db s))
  ∧ (credits i (ses_db s') ≤ S (credits i (ses_db s)))%nat.
Proof.
  intros [_ [[Hl Ha]|[_ [[(tx & Hl & Hr) Ha]|[Hl (tx & Ha & Hr)]]]]]; unfold grows, credits; rewrite Hl, Ha.
  - split_and!; try done. lia.
  - split; [split; [by eexists|done]|]. rewrite !rowcount_snoc. split; [|case_match; lia].
    intros j Hj. rewrite rowcount_snoc, (wallet_credit_other i) by done. lia.
  - split; [split; [done|by eexists]|]. rewrite !rowcount_snoc. split; [|case_match; lia].
    intros j Hj. rewrite rowcount_snoc, (asset_entry_other i) by done. lia.
Qed.

Lemma update_row_twice i f g (l : list FlexibleDepositSession) :
  (∀ x, dep_id (f x) = dep_id x) → update_row i g (update_row i f l) = update_row i (λ x, g (f x)) l.
Proof.
  intros Hf. unfold update_row, update_where. rewrite map_map. apply map_ext. intros x.
  destruct (row_id x == i) eqn:Hx; [|by rewrite Hx].
  change (row_id (f x)) with (dep_id (f x)). rewrite Hf. change (dep_id x) with (row_id x). by rewrite Hx.
Qed.

Section settlement.
  Context `{HE : Env} `{!Serial HE}.

Lemma sames_write (f : DB → DB) :
  (∀ d, deposits (f d) = deposits d ∧ ledger (f d) = ledger d ∧ asset_ledger (f d) = asset_ledger d) →
  steps sames (write f).
Proof. intros Hf s. apply Hf. Qed.

Lemma sames_uuid4 : steps sames uuid4.
Proof. by intros s. Qed.

Lemma sames_await : steps sames await_others.
Proof. intros s. apply sames_db, steps_await. Qed.

Lemma sames_nested {A} (m : M A) : steps sames m → steps sames (begin_nested m).
Proof. intros Hm s. specialize (Hm s). unfold begin_nested. by destruct (m s) as [[a|e] s']. Qed.

Lemma sames_reads {A} (m : M A) : steps same_db m → steps sames m.
Proof. intros Hm s. apply sames_db, Hm. Qed.

Lemma wallet_sames t u c : steps sames (get_or_create_wallet t u c).
Proof.
  unfold get_or_create_wallet. pose proof sames_await. pose proof sames_uuid4.
  assert (steps sames (begin_nested (insert_wallet t u c))).
  { apply sames_nested. unfold insert_wallet. steps_walk. }
  steps_walk.
Qed.

Lemma asset_wallet_sames t u a n : steps sames (get_or_create_asset_wallet t u a n).
Proof.
  unfold get_or_create_asset_wallet, except_integrity. pose proof sames_await. pose proof sames_uuid4.
  assert (∀ a n, steps sames (begin_nested (insert_asset_wallet t u a n))).
  { intros. apply sames_nested. unfold insert_asset_wallet. steps_walk. }
  steps_walk.
Qed.

(** The rows that [settle] writes after the credit. *)
Lemma pay_wp {A} x f s s1 (r : outcome exn A) s2 :
  x ∈ deposits (ses_db s) → dep_credited_at x = None → sames s s1 →
  credited_by (uuid_str (dep_id x)) s1 r s2 → paid x (ses_db s2) →
  (∀ y, dep_id (f y) = dep_id y ∧ dep_tenant_id (f y) = dep_tenant_id y) →
  wp (update_deposit (dep_id x) f;; mark_credited x) (λ _ s', moves (ses_db s) (ses_db s')) s2.
Proof.
  intros Hx Hc (Hd & Hl & Ha) Hby Hpaid Hf. destruct (credited_by_credits _ _ _ _ Hby) as (Hg & Hoth & Hle).
  destruct Hby as [Hd2 _]. unfold update_deposit, mark_credited. eapply wp_step; [reflexivity|]. apply wp_gets.
  eapply (pay_moves x (λ y, (f y) <| dep_status := DepCredited |>
    <| dep_credited_at := Some (env_clock (ses_draws s2)) |> <| dep_last_error := None |>)); try done.
  - etrans; [apply (update_row_twice (dep_id x) f); apply Hf|]. by rewrite Hd2, Hd.
  - intros y. cbn. destruct (Hf y) as [-> ->]. by split_and!.
  - unfold grows in *. cbn. by rewrite <- Hl, <- Ha.
  - intros j Hj. rewrite <- (credits_same j (ses_db s) (ses_db s1)) by done.
    rewrite <- (Hoth j Hj). by apply credits_same.
  - rewrite <- (credits_same (dep_id x) (ses_db s) (ses_db s1)) by done.
    etrans; [|exact Hle]. by rewrite (credits_same _ (ses_db s2)).
Qed.

Lemma moves_raised {A} i s s1 (e : exn) s2 :
  sames s s1 → credited_by i s1 (Raise e : outcome exn A) s2 → moves (ses_db s) (ses_db s2).
Proof.
  intros (Hd & Hl & Ha) [Hd2 [[Hl2 Ha2]|[? _]]]; [|done]. apply sames_moves; congruence.
Qed.

Lemma settle_moves x s :
  x ∈ deposits (ses_db s) → dep_credited_at x = None →
  wp (settle x) (λ _ s', moves (ses_db s) (ses_db s')) s.
Proof.
  intros Hx Hc. unfold settle. destruct (dep_status x == DepCredited); [apply wp_ret; reflexivity|].
  cbv zeta. destruct (dep_amount_received x) as [recv|]; [|apply wp_throw; reflexivity].
  apply wp_guard; [intros _|reflexivity].
  destruct (negb (dep_auto_credit_enabled x)); [by apply touch_moves|].
  apply wp_of_outcome; [intros amount _|reflexivity].
  assert (∀ s1, sames s s1 → moves (ses_db s) (ses_db s1)) as Hsm
    by (intros s1 (? & ? & ?); by apply sames_moves).
  destruct (dep_auto_credit_target x).
  - apply (wp_keep (sames s)); [reflexivity| |intros w s1 Hw Hs1|intros e s1 Hs1; by apply Hsm].
    { intros s0 Hs0. etrans; [exact Hs0|apply asset_wallet_sames]. }
    apply wp_bind. apply wp_intro. intros r s2 Hr. pose proof (asset_credit_wp w amount
      ("flexible-deposit:" +:+ uuid_str (dep_id x)) (Some FLEXIBLE_DEPOSIT_SETTLEMENT_REF) (dep_id x)
      (Some ("Flexible deposit via " +:+ dep_provider x)) s1) as Hby. apply wp_run with (1 := Hby) in Hr as Hby'.
    destruct r as [tx|e]; [|by eapply moves_raised].
    eapply pay_wp; try done. right.
    destruct (get_or_create_asset_wallet_names _ _ _ _ _ _ _ Hw) as (a' & n' & Ha & Hn).
    eapply get_or_create_asset_wallet_ok in Hw; [|done|done].
    unfold asset_wallet_by_key in Hw. rewrite elem_of_select, !andb_true_iff, !bool_decide_eq_true in Hw.
    destruct Hw as (_ & ((<- & _) & _) & _). by eapply asset_credit_ok in Hr as [? _].
  - apply wp_guard; [intros _|reflexivity]. apply wp_of_outcome; [intros currency _|reflexivity].
    apply wp_read; [intros s0; symmetry; apply resolve_reads|intros policy _|intros e _; reflexivity].
    apply wp_of_outcome; [intros settled _|reflexivity].
    case_match; [by apply touch_moves|].
    apply (wp_keep (sames s)); [reflexivity| |intros w s1 Hw Hs1|intros e s1 Hs1; by apply Hsm].
    { intros s0 Hs0. etrans; [exact Hs0|apply wallet_sames]. }
    apply wp_bind. apply wp_intro. intros r s2 Hr. pose proof (settle_flexible_deposit_wp w settled (dep_id x)
      (Some ("Flexible " +:+ default "" (dep_asset x) +:+ " deposit via " +:+ dep_provider x)) s1) as Hby.
    apply wp_run with (1 := Hby) in Hr as Hby'.
    destruct r as [tx|e]; [|by eapply moves_raised].
    eapply pay_wp; try done. left.
    eapply settle_flexible_deposit_ok in Hr as [Hne _]. unfold find_entry in Hne.
    destruct (first _ _) as [tx'|] eqn:Hf; [|done]. apply first_Some in Hf as [Hin Href]. exists tx'.
    split; [done|]. unfold has_reference in Href. unfold wallet_credit.
    rewrite !andb_true_iff in *. naive_solver.
Qed.

End settlement.

(** ** The service *)

Definition moved (s s' : Session) : Prop := moves (ses_db s) (ses_db s').

Global Instance moved_preorder : PreOrder moved.
Proof. split; unfold moved; [by intros s|]. intros x y z H1 H2. by etrans. Qed.

Lemma insert_moves x d :
  dep_credited_at x = None → dep_id x ∉ dep_id <$> deposits d →
  moves d (d <| deposits ::= (λ t, t ++ [x]) |>).
Proof.
  intros Hc Hi [Hids Honce Hnone Hpaid Hknown].
  split; [split|]; cbn; try done.
  - rewrite fmap_app. apply list.NoDup_app. split; [done|]. split; [|apply NoDup_singleton].
    intros j Hj Hx%list_elem_of_singleton. by subst.
  - intros y [Hy|Hy%list_elem_of_singleton]%elem_of_app Hy'; [by apply Hnone|subst y].
    destruct (decide (credits (dep_id x) d = 0%nat)) as [|Hne]; [done|]. by apply Hknown in Hne.
  - intros y [Hy|Hy%list_elem_of_singleton]%elem_of_app Hy'; [by apply Hpaid|subst y].
    rewrite Hc in Hy'. by destruct Hy'.
  - intros j Hj. rewrite fmap_app. apply elem_of_app. left. by apply Hknown.
  - intros y Hy _. exists y. split; [apply elem_of_app; by left|done].
Qed.

Section service.
  Context `{HE : Env} `{!Serial HE} `{Gateways}.

Lemma moved_sames {A} (m : M A) : steps sames m → steps moved m.
Proof. intros Hm s. destruct (Hm s) as (? & ? & ?). by apply sames_moves. Qed.

Lemma moved_touch i f : (∀ x, evidence (f x) = evidence x) → steps moved (update_deposit i f).
Proof. intros Hf s. by apply touch_moves. Qed.

Lemma flush_deposit_reads i : steps eq (flush_deposit i).
Proof. unfold flush_deposit, to_varchar_opt. steps_walk. Qed.

Lemma live_deposit_reads x : steps eq (live_deposit x).
Proof. unfold live_deposit. steps_walk. Qed.

Lemma provider_reads t n : steps eq (_provider t n).
Proof. unfold _provider. pose proof get_provider_reads. steps_walk. Qed.

Lemma moved_reads {A} (m : M A) : steps eq m → steps moved m.
Proof. intros Hm s. rewrite <- (Hm s). reflexivity. Qed.

Lemma moved_reversal x : steps moved (_record_credited_reversal x).
Proof.
  unfold _record_credited_reversal.
  assert (steps moved (credited_wallet x)) by (apply moved_reads; unfold credited_wallet; steps_walk).
  assert (∀ ws, steps moved (freeze ws)).
  { intros ws. apply moved_sames. unfold freeze, set_wallet_active. destruct ws as [[w|] [a|]]; steps_walk;
      by apply sames_write. }
  assert (∀ f, steps moved (insert_frc f)).
  { intros f. apply moved_sames. unfold insert_frc. pose proof sames_uuid4. steps_walk; by apply sames_write. }
  assert (∀ i f, (∀ x, evidence (f x) = evidence x) → steps moved (update_deposit i f)) by apply moved_touch.
  steps_walk.
Qed.

(** While a deposit that is not credited is observed. *)
Definition observing (i : UUID) (d0 : DB) (s : Session) : Prop :=
  moves d0 (ses_db s) ∧ uncredited i (ses_db s) ∧ i ∈ dep_id <$> deposits (ses_db s).

Lemma observing_update i d0 f :
  (∀ x, dep_id (f x) = dep_id x ∧ dep_tenant_id (f x) = dep_tenant_id x
        ∧ dep_credited_at (f x) = dep_credited_at x) →
  steps (keeps (observing i d0)) (update_deposit i f).
Proof.
  intros Hf s (Hm & Hu & Hi). split; [etrans; [exact Hm|by apply observe_moves]|]. split.
  - intros y (x & Hx & ->)%elem_of_update_where Hy. case_bool_decide as Hc; [|by apply Hu].
    destruct (Hf x) as (_ & _ & ->). by apply Hu.
  - cbn. unfold update_row. rewrite fmap_update_where; [done|]. intros x _ _. apply Hf.
Qed.

Lemma observing_apply d0 x r : steps (keeps (observing (dep_id x) d0)) (_apply_provider_result x r).
Proof.
  unfold _apply_provider_result. pose proof (observing_update (dep_id x) d0) as Hu.
  steps_walk; try (apply Hu; intros y; by split_and!).
  apply Hu. intros y. by destruct (truthy (fdres_checkout_url r)).
Qed.

Lemma wp_assuming {A} (m : M A) s d :
  (deposits_ok d → wp m (λ _ s', moves d (ses_db s')) s) → wp m (λ _ s', moves d (ses_db s')) s.
Proof. unfold wp, moves. auto. Qed.

Lemma wp_moved {A} (m : M A) s : steps moved m → wp m (λ _ s', moves (ses_db s) (ses_db s')) s.
Proof. intros Hm. apply Hm. Qed.

Lemma observe_wp x r s :
  x ∈ deposits (ses_db s) → wp (observe x r) (λ _ s', moves (ses_db s) (ses_db s')) s.
Proof.
  intros Hx. apply wp_assuming. intros Hok. unfold observe. apply wp_guard; [intros _|reflexivity].
  destruct (dep_credited_at x) as [t|] eqn:Hc; cbn [is_some].
  - apply wp_moved. pose proof (moved_reversal x).
    assert (∀ i f, (∀ x, evidence (f x) = evidence x) → steps moved (update_deposit i f)) by apply moved_touch.
    steps_walk.
  - assert (observing (dep_id x) (ses_db s) s) as Ho.
    { split; [reflexivity|]. split; [|by apply list_elem_of_fmap_2]. intros y Hy Hi.
      by rewrite (NoDup_fmap_inj dep_id (deposits (ses_db s)) y x (do_ids _ Hok) Hy Hx Hi). }
    apply (wp_keep (observing (dep_id x) (ses_db s))); [done|apply observing_apply| |by intros e s1 (? & _)].
    intros _ s1 _ (Hm & Hu & Hi). destruct (fdres_status r == DepSettledReview); [|by apply wp_ret].
    apply wp_gets. apply list_elem_of_fmap_1 in Hi as (y & Hyi & Hy).
    destruct (get_row (dep_id x) (deposits (ses_db s1))) as [z|] eqn:Hz.
    2: { exfalso. apply get_row_None with (2 := Hy) in Hz. by apply Hz. }
    apply get_row_Some in Hz as [Hzin Hzi]. cbn.
    apply wp_read; [apply flush_deposit_reads|intros _ _|done].
    eapply wp_mono; [apply settle_moves; [done|by apply Hu]|]. intros r' s' Hm'. by etrans.
Qed.

Lemma reconcile_moved t i : steps moved (reconcile t i).
Proof.
  intros s. change (wp (reconcile t i) (λ _ s', moves (ses_db s) (ses_db s')) s).
  unfold reconcile, get_deposit, scalar. apply wp_bind, wp_gets. apply wp_intro. intros r s0 Hr.
  destruct (head _) as [x|] eqn:Hx; cbn in Hr; injection Hr as <- <-; [|reflexivity].
  apply head_Some_elem_of, elem_of_select in Hx as [Hx _].
  destruct (is_over x); [apply wp_ret; reflexivity|].
  apply wp_read; [apply provider_reads|intros g _|reflexivity]. apply wp_catch, wp_gets.
  assert (∀ s' (m : M FlexibleDepositSession), moves (ses_db s) (ses_db s') → steps moved m →
            wp m (λ _ s', moves (ses_db s) (ses_db s')) s') as Hrest.
  { intros s' m Hs' Hm. unfold wp. etrans; [exact Hs'|apply Hm]. }
  assert (∀ e s', moves (ses_db s) (ses_db s') →
    wp (if needs_review e then
           n ← now;
           update_deposit i (λ x, x <| dep_status := DepUnknown |>
             <| dep_last_error := Some (prefix_of 500 (env_exn_str e)) |>
             <| dep_last_reconciled_at := Some n |>);;
           flush_deposit i;;
           live_deposit x
         else mthrow e) (λ _ s', moves (ses_db s) (ses_db s')) s') as Hhandler.
  { intros e s' Hs'. apply Hrest; [done|].
    pose proof (moved_reads _ (flush_deposit_reads i)). pose proof (moved_reads _ (live_deposit_reads x)).
    assert (∀ f, (∀ x, evidence (f x) = evidence x) → steps moved (update_deposit i f)) by apply moved_touch.
    steps_walk. }
  apply wp_of_outcome; [intros r _|intros e _; apply Hhandler; reflexivity].
  apply wp_bind. eapply wp_mono; [by apply observe_wp|]. intros [[]|e] s1 Hs1; [|by apply Hhandler].
  apply wp_read; [apply flush_deposit_reads|intros _ _|intros e _; by apply Hhandler].
  apply wp_gets. by apply wp_ret.
Qed.

End service.

(** ** New sessions *)

Section history.
  Context `{HE : Env} `{!Serial HE} `{Gateways}.

Lemma moved_nested {A} (m : M A) : steps moved m → steps moved (begin_nested m).
Proof.
  intros Hm s. specialize (Hm s). unfold begin_nested. destruct (m s) as [[a|e] s']; [done|]. by unfold moved.
Qed.

Lemma insert_deposit_moved x : dep_credited_at x = None → steps moved (insert_deposit x).
Proof.
  intros Hc s. change (wp (insert_deposit x) (λ _ s', moves (ses_db s) (ses_db s')) s).
  unfold insert_deposit. do 2 apply wp_gets. apply wp_guard; [intros Hclash|reflexivity].
  apply orb_false_iff in Hclash as [Hclash _].
  assert (moves (ses_db s) ((ses_db s) <| deposits ::= (λ t, t ++ [x]) |>)) as Hm.
  { apply insert_moves; [done|]. intros (y & Hi & Hy)%list_elem_of_fmap_1.
    apply not_true_iff_false in Hclash. apply Hclash, existsb_exists. exists y.
    split; [by apply list_elem_of_In|]. unfold deposit_conflict. by rewrite bool_decide_eq_true_2. }
  eapply wp_step; [reflexivity|]. unfold wp. rewrite <- flush_deposit_reads. exact Hm.
Qed.

Lemma moved_await : steps moved await_others.
Proof. apply moved_sames, sames_await. Qed.

Lemma create_moved req : steps moved (create req).
Proof.
  unfold create, call_create_deposit. pose proof moved_await.
  assert (∀ t n, steps moved (_provider t n)) by (intros; apply moved_reads, provider_reads).
  assert (∀ x, dep_credited_at x = None → steps moved (begin_nested (insert_deposit x)))
    by (intros; by apply moved_nested, insert_deposit_moved).
  assert (steps moved uuid4) by (apply moved_sames, sames_uuid4).
  assert (∀ m, steps moved (send m)) by (intros m s; by apply sames_moves).
  unfold except_integrity. steps_walk.
Qed.

Lemma reconcile_open_moved limit : steps moved (reconcile_open limit).
Proof. unfold reconcile_open. pose proof reconcile_moved. steps_walk. Qed.

(** ** Histories *)

Lemma committed_create_deposit req : steps same_committed (create req).
Proof.
  unfold create, call_create_deposit, _provider, except_integrity, insert_deposit, flush_deposit, to_varchar_opt.
  pose proof committed_send. pose proof committed_get_provider. steps_walk.
  all: try (apply committed_nested; steps_walk).
Qed.

Hint Resolve committed_wait_for_entry committed_flush_entry committed_get_or_create : steps.

Lemma committed_settle x : steps same_committed (settle x).
Proof.
  assert (∀ w a i d, steps same_committed (settle_flexible_deposit w a i d)).
  { unfold settle_flexible_deposit, lock_wallet, return_existing. steps_walk. }
  assert (∀ w a k rt ri d, steps same_committed (asset_credit w a k rt ri d)).
  { unfold asset_credit, lock_asset_wallet, except_integrity, flush_asset_entry. steps_walk.
    apply committed_nested. steps_walk. }
  assert (∀ t u a n, steps same_committed (get_or_create_asset_wallet t u a n)).
  { unfold get_or_create_asset_wallet, insert_asset_wallet, except_integrity. steps_walk.
    apply committed_nested. steps_walk. }
  assert (∀ t a n c p, steps same_committed (resolve t a n c p)).
  { intros t a n c p s. by rewrite resolve_reads. }
  unfold settle, mark_credited, update_deposit. steps_walk.
Qed.

Lemma committed_reconcile_deposit t i : steps same_committed (reconcile t i).
Proof.
  pose proof committed_settle.
  assert (∀ t n, steps same_committed (_provider t n)).
  { intros t' n s. by rewrite <- (provider_reads t' n s). }
  assert (∀ i, steps same_committed (flush_deposit i)).
  { intros j s. by rewrite <- (flush_deposit_reads j s). }
  assert (∀ x, steps same_committed (_record_credited_reversal x)).
  { unfold _record_credited_reversal, credited_wallet, freeze, set_wallet_active, insert_frc, update_deposit.
    steps_walk. }
  unfold reconcile, get_deposit, observe, _apply_provider_result, live_deposit, update_deposit. steps_walk.
Qed.

Lemma committed_reconcile_open limit : steps same_committed (reconcile_open limit).
Proof. pose proof committed_reconcile_deposit. unfold reconcile_open. steps_walk. Qed.

Inductive DepositEvent :=
| EvDepositCreate (req : DepositRequest)
| EvDepositReconcile (tenant_id deposit_id : UUID)
| EvDepositPass (limit : Z).

Definition run_deposit_event (s : Session) (ev : DepositEvent) : Session :=
  match ev with
  | EvDepositCreate req => (in_request (create req) s).2
  | EvDepositReconcile t i => (in_request (reconcile t i) s).2
  | EvDepositPass limit => (deposit_pass limit s).2
  end.

Definition run_deposits (evs : list DepositEvent) (s : Session) : Session := foldl run_deposit_event s evs.

Lemma deposit_pass_state limit s :
  (deposit_pass limit s).2 =
    match reconcile_open limit s with
    | (Ok _, s') => s' <| ses_committed := ses_db s' |>
    | (Raise _, s') => s' <| ses_db := ses_committed s' |>
    end.
Proof.
  unfold deposit_pass, catch. rewrite in_session_state. unfold mbind, prog_bind.
  by destruct (reconcile_open limit s) as [[l|e] s'].
Qed.

Lemma event_moves s ev :
  persisted s → persisted (run_deposit_event s ev) ∧ moved s (run_deposit_event s ev).
Proof.
  intros Hp. destruct ev as [req|t i|limit]; cbn [run_deposit_event].
  - apply (in_request_keeps (moves (ses_db s))); [done|apply committed_create_deposit|reflexivity|].
    intros a s' Hr. by apply (steps_run moved) in Hr; [|apply create_moved].
  - apply (in_request_keeps (moves (ses_db s))); [done|apply committed_reconcile_deposit|reflexivity|].
    intros a s' Hr. by apply (steps_run moved) in Hr; [|apply reconcile_moved].
  - rewrite deposit_pass_state. pose proof (reconcile_open_moved limit s) as Hm.
    pose proof (committed_reconcile_open limit s) as Hsc. unfold same_committed in Hsc.
    destruct (reconcile_open limit s) as [[l|e] s']; cbn in *; [done|]. split; [done|].
    unfold moved. cbn. by rewrite Hsc, Hp.
Qed.

Lemma run_deposits_moves evs s : persisted s → persisted (run_deposits evs s) ∧ moved s (run_deposits evs s).
Proof.
  revert s. induction evs as [|ev evs IH]; intros s Hp; [by split|].
  destruct (event_moves s ev Hp) as [Hp1 H1], (IH _ Hp1) as [Hp2 H2]. split; [done|by etrans].
Qed.

End history.

(** [C7] A deposit is credited at most once.  After any history of creations,
    reconciliations and worker passes: every deposit has at most one credit in
    the ledgers together, none while [credited_at] is empty, its entry when it
    is set; and a deposit that was credited before keeps its credit and its
    financial evidence, whatever its gateway reports later. *)
Theorem deposit_credited_once `{HE : Env} `{Gateways} evs s :
  Serial HE → persisted s → deposits_ok (ses_db s) →
  deposits_ok (ses_db (run_deposits evs s)) ∧ frozen (ses_db s) (ses_db (run_deposits evs s)).
Proof. intros HS Hp Hok. by apply run_deposits_moves. Qed.

(** ** A deposit whose gateway is off

    [reconcile] looks the gateway up before its [try], so the exception leaves
    [reconcile_open], and with it the pass: nothing of the pass is committed,
    and the next pass finds the same deposits. *)

Section stuck.
  Context `{HE : Env} `{!Serial HE} `{Gateways}.

Definition gateway_off (t : UUID) (name : string) (d : DB) : Prop :=
  gw_overrides t (lower name) = None ∧
  ∃ c, configs_of t (lower name) d = [c] ∧ cfg_is_enabled c = false.

Lemma provider_off t name s :
  gateway_off t name (ses_db s) → _provider t name s = (Raise PaymentProviderError, s).
Proof.
  intros (Ho & c & Hc & He). unfold _provider, get_provider. rewrite Ho. apply bind_raise.
  erewrite bind_ok; [|reflexivity]. rewrite Hc. unfold mbind, prog_bind. cbn. by rewrite He.
Qed.

(** What the other deposits of a pass leave alone. *)
Record awaits (x : FlexibleDepositSession) (s : Session) : Prop := {
  aw_ids : NoDup (dep_id <$> deposits (ses_db s));
  aw_row : x ∈ deposits (ses_db s);
  aw_off : gateway_off (dep_tenant_id x) (dep_provider x) (ses_db s);
}.

Lemma awaits_same x (s s' : Session) :
  deposits (ses_db s') = deposits (ses_db s) → provider_configs (ses_db s') = provider_configs (ses_db s) →
  awaits x s → awaits x s'.
Proof. intros Hd Hc [H1 H2 H3]. split; unfold gateway_off, configs_of in *; by rewrite ?Hd, ?Hc. Qed.

Lemma awaits_write x f :
  (∀ d, deposits (f d) = deposits d ∧ provider_configs (f d) = provider_configs d) →
  steps (keeps (awaits x)) (write f).
Proof. intros Hf s Hs. destruct (Hf (ses_db s)). by apply (awaits_same x s). Qed.

Lemma awaits_uuid4 x : steps (keeps (awaits x)) uuid4.
Proof. intros s Hs. by apply (awaits_same x s). Qed.

Lemma awaits_await x : steps (keeps (awaits x)) await_others.
Proof. intros s Hs. apply (awaits_same x s); cbn; by rewrite ?serial_race. Qed.

Lemma awaits_nested {A} x (m : M A) : steps (keeps (awaits x)) m → steps (keeps (awaits x)) (begin_nested m).
Proof.
  intros Hm s Hs. specialize (Hm s Hs). unfold begin_nested.
  destruct (m s) as [[a|e] s']; [done|]. by apply (awaits_same x s).
Qed.

Lemma awaits_reads {A} x (m : M A) : steps eq m → steps (keeps (awaits x)) m.
Proof. intros Hm s. by rewrite <- (Hm s). Qed.

Lemma awaits_update x i f :
  i ≠ dep_id x → (∀ y, dep_id (f y) = dep_id y) → steps (keeps (awaits x)) (update_deposit i f).
Proof.
  intros Hi Hf s [H1 H2 H3]. split; cbn; [|apply elem_of_update_where; exists x; split; [done|]|done].
  - unfold update_row. rewrite fmap_update_where; [done|]. intros y _ _. apply Hf.
  - rewrite bool_decide_eq_false_2; [done|]. by intros Heq.
Qed.

Hint Resolve awaits_uuid4 awaits_await : steps.
Hint Extern 1 (steps _ (write _)) => apply awaits_write; done : steps.

Lemma awaits_settle x y : dep_id y ≠ dep_id x → steps (keeps (awaits x)) (settle y).
Proof.
  intros Hne. pose proof (λ f, awaits_update x (dep_id y) f Hne).
  assert (∀ t u c, steps (keeps (awaits x)) (get_or_create_wallet t u c)).
  { unfold get_or_create_wallet. steps_walk. apply awaits_nested. unfold insert_wallet. steps_walk. }
  assert (∀ t u a n, steps (keeps (awaits x)) (get_or_create_asset_wallet t u a n)).
  { unfold get_or_create_asset_wallet, except_integrity. steps_walk.
    apply awaits_nested. unfold insert_asset_wallet. steps_walk. }
  assert (∀ w a i d, steps (keeps (awaits x)) (settle_flexible_deposit w a i d)).
  { unfold settle_flexible_deposit, lock_wallet, return_existing. steps_walk.
    apply awaits_nested. unfold flush_entry. steps_walk. }
  assert (∀ w a k rt ri d, steps (keeps (awaits x)) (asset_credit w a k rt ri d)).
  { unfold asset_credit, lock_asset_wallet, except_integrity. steps_walk.
    apply awaits_nested. unfold flush_asset_entry. steps_walk. }
  assert (∀ t a n c p, steps (keeps (awaits x)) (resolve t a n c p)).
  { intros. apply awaits_reads. intros s. symmetry. apply resolve_reads. }
  unfold settle, mark_credited. steps_walk.
Qed.

Lemma awaits_observe x y r : dep_id y ≠ dep_id x → steps (keeps (awaits x)) (observe y r).
Proof.
  intros Hne. pose proof (λ f, awaits_update x (dep_id y) f Hne) as Hu.
  assert (steps (keeps (awaits x)) (flush_deposit (dep_id y))) by apply awaits_reads, flush_deposit_reads.
  assert (steps (keeps (awaits x)) (z ← live_deposit y; flush_deposit (dep_id y);; settle z)).
  { intros s. unfold live_deposit. erewrite bind_ok; [|reflexivity]. eapply (steps_bind (keeps (awaits x))); [done|intros _].
    apply awaits_settle. destruct (get_row _ _) as [z|] eqn:Hz; [|done].
    apply get_row_Some in Hz as [_ Hz]. by intros Heq; apply Hne; rewrite <- Hz. }
  unfold observe, _record_credited_reversal, _apply_provider_result, credited_wallet, freeze,
    set_wallet_active, insert_frc.
  steps_walk.
  all: apply Hu; intros z; by case_match.
Qed.

Lemma get_deposit_found t i y s s' : get_deposit t i s = (Ok y, s') → s' = s ∧ y ∈ deposits (ses_db s) ∧ dep_id y = i.
Proof.
  unfold get_deposit, scalar. intros (o & s1 & [[= ->] ->]%query_inv & Hr)%bind_inv_ok.
  destruct (head _) as [z|] eqn:Hz; cbn in Hr; [|done]. injection Hr as <- <-.
  apply head_Some_elem_of, elem_of_select in Hz as [Hz Hc]. apply andb_true_iff in Hc as [Hc _].
  by apply bool_decide_eq_true in Hc.
Qed.

Lemma awaits_reconcile x t i : i ≠ dep_id x → steps (keeps (awaits x)) (reconcile t i).
Proof.
  intros Hne s Hs. unfold reconcile.
  change (wp (y ← get_deposit t i; if is_over y then mret y else
    g ← _provider t (dep_provider y);
    catch (answer ← gets (λ s, gw_get_flexible_deposit g (ses_sent s) (dep_provider_deposit_id y));
           r ← of_outcome answer; observe y r;; flush_deposit i;; live_deposit y)
      (λ e, if needs_review e then
          n ← now;
          update_deposit i (λ x, x <| dep_status := DepUnknown |>
             <| dep_last_error := Some (prefix_of 500 (env_exn_str e)) |>
             <| dep_last_reconciled_at := Some n |>);;
           flush_deposit i;;
           live_deposit y
         else mthrow e)) (λ _ s', awaits x s') s).
  apply wp_read; [unfold get_deposit; steps_walk|intros y Hy|done].
  apply get_deposit_found in Hy as (_ & _ & Hy). subst i.
  pose proof (λ r, awaits_observe x y r Hne). pose proof (λ f, awaits_update x (dep_id y) f Hne).
  assert (∀ t n, steps (keeps (awaits x)) (_provider t n)) by (intros; apply awaits_reads, provider_reads).
  assert (steps (keeps (awaits x)) (flush_deposit (dep_id y))) by apply awaits_reads, flush_deposit_reads.
  assert (steps (keeps (awaits x)) (live_deposit y)) by apply awaits_reads, live_deposit_reads.
  match goal with |- wp ?m _ _ => assert (steps (keeps (awaits x)) m) as Hm by steps_walk end.
  by apply Hm.
Qed.

Lemma get_deposit_own x s :
  NoDup (dep_id <$> deposits (ses_db s)) → x ∈ deposits (ses_db s) →
  get_deposit (dep_tenant_id x) (dep_id x) s = (Ok x, s).
Proof.
  intros Hids Hx. unfold get_deposit, scalar. erewrite bind_ok; [|reflexivity]. cbv beta.
  set (l := select _ _).
  assert (x ∈ l) as Hl by (apply elem_of_select; split; [done|]; by rewrite !bool_decide_eq_true_2).
  destruct l as [|y l'] eqn:Heq; [by apply elem_of_nil in Hl|].
  change ((Ok y, s) = (Ok x, s) :> outcome exn _ * Session). do 2 f_equal.
  assert (y ∈ l) as Hy by (rewrite Heq; apply elem_of_cons; by left).
  apply elem_of_select in Hy as [Hy Hc]. apply andb_true_iff in Hc as [Hc%bool_decide_eq_true _].
  by eapply (NoDup_fmap_inj dep_id).
Qed.

Lemma reconcile_stuck x s :
  awaits x s → is_open x = true → reconcile (dep_tenant_id x) (dep_id x) s = (Raise PaymentProviderError, s).
Proof.
  intros [Hids Hx Hoff] Hopen. unfold reconcile. rewrite (bind_ok _ _ _ _ _ (get_deposit_own x s Hids Hx)).
  assert (is_over x = false) as -> by (unfold is_open, is_over in *; by destruct (dep_status x)).
  by rewrite (bind_raise _ _ _ _ _ (provider_off _ _ _ Hoff)).
Qed.

Lemma pass_stuck x l s :
  awaits x s → is_open x = true → x ∈ l → (∀ y, y ∈ l → dep_id y = dep_id x → y = x) →
  ∃ e s', map_prog (λ y, reconcile (dep_tenant_id y) (dep_id y)) l s = (Raise e, s').
Proof.
  intros Hs Hopen Hx Hl. revert s Hs. induction l as [|y l IH]; intros s Hs; [by apply elem_of_nil in Hx|].
  cbn [map_prog]. destruct (decide (dep_id y = dep_id x)) as [Heq|Hne].
  - rewrite (Hl y (list_elem_of_here _ _) Heq), (bind_raise _ _ _ _ _ (reconcile_stuck x s Hs Hopen)). eauto.
  - pose proof (awaits_reconcile x (dep_tenant_id y) (dep_id y) Hne s Hs) as Hs1.
    destruct (reconcile _ _ s) as [[z|e] s1] eqn:Hr; [|rewrite (bind_raise _ _ _ _ _ Hr); eauto].
    rewrite (bind_ok _ _ _ _ _ Hr).
    destruct (IH) with (s := s1) as (e & s2 & Hm); [|by intros; apply Hl; [apply list_elem_of_further|]|done|].
    { apply elem_of_cons in Hx as [->|]; [by destruct Hne|done]. }
    rewrite (bind_raise _ _ _ _ _ Hm). eauto.
Qed.

Lemma elem_of_open limit x d : x ∈ open_deposits limit d → x ∈ deposits d ∧ is_open x = true.
Proof.
  unfold open_deposits. intros (j & Hj & _)%elem_of_take.
  apply list_elem_of_lookup_2 in Hj. by rewrite elem_of_sort_by, elem_of_select in Hj.
Qed.

End stuck.

(** One deposit can stop the worker.  As long as a deposit whose gateway
    was switched off is among those a pass looks at, no pass changes anything:
    the other deposits of every tenant are neither reconciled nor credited. *)
Theorem stuck_deposit_blocks_all `{HE : Env} `{Gateways} n limit x s :
  Serial HE → persisted s → NoDup (dep_id <$> deposits (ses_db s)) →
  x ∈ open_deposits limit (ses_db s) → gateway_off (dep_tenant_id x) (dep_provider x) (ses_db s) →
  ses_db (Nat.iter n (λ s, (deposit_pass limit s).2) s) = ses_db s.
Proof.
  intros HS Hp Hids Hx Hoff.
  assert (∀ s1, ses_db s1 = ses_db s → persisted s1 →
            ses_db (deposit_pass limit s1).2 = ses_db s ∧ persisted (deposit_pass limit s1).2) as Hpass.
  { intros s1 Hdb Hp1. rewrite deposit_pass_state. destruct (elem_of_open _ _ _ Hx) as [Hin Hopen].
    destruct (pass_stuck x (open_deposits limit (ses_db s1)) s1) as (e & s2 & Hm); rewrite ?Hdb; [split; by rewrite Hdb|done..| |].
    { intros y [Hy _]%elem_of_open Heq. by eapply (NoDup_fmap_inj dep_id). }
    assert (reconcile_open limit s1 = (Raise e, s2)) as Hr
      by (unfold reconcile_open; by erewrite bind_ok; [|reflexivity]).
    rewrite Hr.
    pose proof (steps_run _ _ _ _ _ (committed_reconcile_open limit) Hr) as Hc. unfold same_committed in Hc.
    cbn. split; [|done]. by rewrite Hc, Hp1, Hdb. }
  assert (ses_db (Nat.iter n (λ s, (deposit_pass limit s).2) s) = ses_db s
          ∧ persisted (Nat.iter n (λ s, (deposit_pass limit s).2) s)) as [? _]; [|done].
  apply Nat.iter_invariant; [|done]. intros s1 [Hdb Hp1]. by apply Hpass.
Qed.

(** ** The theorems at work *)

Definition demo_deposit_gateway : FlexibleGateway := {|
  gw_create_flexible_deposit _ req :=
    Ok (MkFlexibleDepositResult ("ext-" +:+ fdreq_idempotency_key req) DepCreated (Some "https://pay") None None
          None None []);
  gw_get_flexible_deposit _ i :=
    Ok (MkFlexibleDepositResult i DepSettledReview None (Some "USDT") (Some "TRON") (Some (cents 5050))
          (Some (cents 50)) []);
|}.

Definition demo_deposit_gateways : Gateways := {|
  gw_overrides _ name :=
    if name == "mock" then
      Some (MkGateway true true true true false (gw_create_payment demo_gateway) (gw_verify_webhook demo_gateway)
              (gw_refund demo_gateway) (gw_get_payment demo_gateway) None None (Some demo_deposit_gateway))
    else None;
  gw_cached _ _ := None;
  gw_factories _ := None;
  gw_secret _ := None;
|}.

Definition deposit_method : PaymentMethodConfig :=
  MkPaymentMethodConfig (mk_uuid "pm") (mk_uuid "t") "crypto" "Crypto" MtCryptoGateway VmProviderReconciliation
    (Some " Mock ") None None None None None true false true "asset_wallet"
    [("flexible_deposits_enabled", JBool true); ("allowed_assets", JList [JStr "usdt"])].

Definition deposit_db : DB :=
  empty_db <| payment_methods := [deposit_method] |> <| fx_policies := fx_policies (ses_db policy_demo) |>
           <| provider_configs := [MkPaymentProviderConfig (mk_uuid "cfg") (mk_uuid "t") "gateway" false "ref" None []] |>.

Definition deposit_session : Session := MkSession deposit_db deposit_db 0 [].

Definition deposit_request : DepositRequest :=
  MkDepositRequest (mk_uuid "t") (mk_uuid "u") (mk_uuid "pm") "deposit-0001" None true.

Definition deposit_events : list DepositEvent :=
  [EvDepositCreate deposit_request; EvDepositPass 50; EvDepositCreate deposit_request;
   EvDepositReconcile (mk_uuid "t") (mk_uuid "uuid-0"); EvDepositPass 50].

Definition deposits_demo : Session := @run_deposits demo_env demo_deposit_gateways deposit_events deposit_session.

Lemma deposit_db_ok : deposits_ok deposit_db.
Proof.
  split; cbn; [constructor|lia|intros x Hx; by apply elem_of_nil in Hx..|done].
Qed.

Lemma deposit_credited_once_witness :
  map (λ x, (dep_status x, dep_credited_amount x)) (deposits (ses_db deposits_demo))
    = [(DepCredited, Some (cents 5000))]
  ∧ credits (mk_uuid "uuid-0") (ses_db deposits_demo) = 1%nat
  ∧ deposits_ok (ses_db deposits_demo) ∧ frozen deposit_db (ses_db deposits_demo).
Proof.
  split; [vm_compute; reflexivity|]. split; [vm_compute; reflexivity|].
  refine (@deposit_credited_once demo_env demo_deposit_gateways deposit_events deposit_session demo_env_serial eq_refl _).
  exact deposit_db_ok.
Defined.

(** A deposit whose gateway was switched off, and one that is ready to be
    credited. *)
Definition stuck_db : DB := deposit_db <| deposits := [deposit_demo; deposit_demo <| dep_id := mk_uuid "dep-2" |>
  <| dep_provider := "mock" |> <| dep_idempotency_key := "key-0002" |> ] |>.
Definition stuck_session : Session := MkSession stuck_db stuck_db 0 [].

Lemma stuck_deposit_blocks_all_witness :
  dep_status <$> deposits (ses_db (in_request (@reconcile demo_env demo_deposit_gateways (mk_uuid "t") (mk_uuid "dep-2")) stuck_session).2)
    = [DepSettledReview; DepCredited]
  ∧ ses_db (Nat.iter 7 (λ s, (@deposit_pass demo_env demo_deposit_gateways 50 s).2) stuck_session) = stuck_db.
Proof.
  split; [vm_compute; reflexivity|].
  refine (@stuck_deposit_blocks_all demo_env demo_deposit_gateways 7 50 deposit_demo stuck_session demo_env_serial eq_refl _ _ _).
  - apply (bool_decide_unpack _). vm_compute. reflexivity.
  - vm_compute. left.
  - split; [reflexivity|]. eexists. split; vm_compute; reflexivity.
Defined.
