(* ===== verification/Upstream.v ===== *)
(** * Upstream reconciliation

    [packages/fulfillment/reconciliation.py], class [ReconciliationService],
    and its worker ([reconciliation_worker.py]): attempts whose outcome is open
    are compared with what the supplier says, orders are completed, or failed
    and refunded. *)

From Stdlib Require Import ZArith Lia Ascii String.
From stdpp Require Import base tactics list option strings numbers pretty.
From S2P Require Import Prelude Tables Text Money Exceptions StateMachines Models Ledger.
From S2P Require Import Profiles Pricing Router Fulfillment Payments Reversals.

Local Open Scope Z_scope.

(** [issue_type] of a report; its texts are not modelled. *)
Inductive Issue :=
  | OutOfSyncResolved
  | UpstreamFailedResolved
  | ActivationTimedOutRefunded
  | UpstreamStillPending
  | ProviderQueryFailed
  | StuckWithoutExternalId.

Global Instance Issue_eq_dec : EqDecision Issue.
Proof. solve_decision. Defined.

Record ReconciliationDiscrepancy := MkDiscrepancy {
  disc_order_id : UUID;
  disc_order_number : string;
  disc_issue_type : Issue;
}.

Definition report (order : Order) (issue : Issue) : list ReconciliationDiscrepancy :=
  [MkDiscrepancy (order_id order) (order_number order) issue].

(** [_provider_response_payload] of an answer to a query. *)
Definition check_payload (r : ProviderOrderCheck) : json :=
  JObj [("external_order_id", JStr (check_external_order_id r));
        ("canonical_state", JStr (order_state_value (check_canonical_state r)));
        ("raw_data", JObj (check_raw_data r));
        ("delivery", JList (check_delivery r))].

(** [attempt.external_order_id or attempt.idempotency_key] *)
Definition query_target (a : FulfillmentAttempt) : string :=
  if truthy (att_external_order_id a) then default "" (att_external_order_id a)
  else att_idempotency_key a.

(** The supplier of the attempt, or the one named in its request. *)
Definition attempt_provider (a : FulfillmentAttempt) : option UUID :=
  match att_provider_id a with
  | Some p => Some p
  | None => v ← dict_get "provider_id" (att_request_payload a); parse_uuid (json_str v)
  end.

Definition check_completed (r : ProviderOrderCheck) : bool :=
  check_is_completed r || (check_canonical_state r == OsCompleted).

Definition check_failed (r : ProviderOrderCheck) : bool :=
  check_is_failed r || terminal_failure (check_canonical_state r).

Definition still_open (s : FulfillmentStatus) : bool :=
  (s == FulProcessing) || (s == FulRetrying) || (s == FulUnknown).

Section service.
  Context `{Env} `{Adapters}.
  (** [float(text)] in microseconds, and the timeout of the settings in
      seconds. *)
  Context (float_of : string → option Z) (number_activation_timeout : Z).

Definition provider_of (a : FulfillmentAttempt) : M (option Provider) :=
  match attempt_provider a with
  | None => mret None
  | Some i =>
      rows ← query (λ d, select (λ p, (prov_id p == i) && (prov_tenant_id p == att_tenant_id a))
                           (providers d));
      one_or_none rows
  end.

Definition get_order (p : Provider) (target : string) : M ProviderOrderCheck :=
  config ← build_provider_config p;
  answer ← gets (λ s, client_get_order (ses_sent s) p config target);
  send (SentQuery (prov_id p) target);;
  of_outcome answer.

(** [float(metadata.get("activation_timeout_seconds") or settings...)] *)
Definition activation_timeout (p : Provider) : outcome exn Z :=
  match dict_get "activation_timeout_seconds" (prov_metadata_json p) with
  | Some v =>
      if json_truthy v then
        match v with
        | JInt n => Ok (seconds n)
        | JBool _ => Ok (seconds 1)
        | JStr t => match float_of t with Some x => Ok x | None => Raise ValueError end
        | _ => Raise TypeError
        end
      else Ok (seconds number_activation_timeout)
  | None => Ok (seconds number_activation_timeout)
  end.

(** Completed upstream.  A column the database refuses poisons the session. *)
Definition complete_attempt (order : Order) (aid : UUID) (check : ProviderOrderCheck) : M Issue :=
  catch
    (update_attempt aid (λ a, a <| att_status := FulSucceeded |> <| att_error_classification := None |>);;
     (if check_external_order_id check != ""
      then update_attempt aid (λ a, a <| att_external_order_id := Some (check_external_order_id check) |>)
      else mret tt);;
     (if order_status order != OrderFulfilled then transition_order (order_id order) OrderFulfilled
      else mret tt);;
     a ← get_attempt aid;
     match att_order_item_id a with
     | Some item =>
         if 0 <=? att_cost_amount a
         then attribute_actual_cost item (att_provider_id a) (att_cost_amount a) (att_cost_currency a);;
              mret tt
         else mret tt
     | None => mret tt
     end;;
     flush_attempt aid;;
     commit)
    (λ e, match e with
          | DataError | IntegrityError => rollback;; mthrow PendingRollbackError
          | _ => mthrow e
          end);;
  notify NotifyFulfillmentSucceeded order;;
  mret OutOfSyncResolved.

(** Failed upstream: the order fails and is refunded. *)
Definition fail_and_refund (order : Order) (aid : UUID) (classification description : string)
    (issue : Issue) : M Issue :=
  update_attempt aid (λ a, a <| att_status := FulFailed |>
                             <| att_error_classification := Some classification |>);;
  transition_order (order_id order) OrderFailed;;
  wallet ← get_or_create_wallet (order_tenant_id order) (order_user_id order) (order_currency order);
  refund wallet (order_total_amount order) (Some (uuid_str (order_id order)))
    (Some CANONICAL_REFUND_TYPE) (Some description);;
  commit;;
  notify NotifyOrderRefunded order;;
  mret issue.

(** [f"... {int(activation_timeout // 60)}m ..."] *)
Definition timeout_text (order : Order) (timeout : Z) : string :=
  "Automated refund: activation timed out after " +:+ pretty (timeout / seconds 60) +:+ "m for order #"
  +:+ order_number order.

Definition keep_waiting (aid : UUID) (check : ProviderOrderCheck) : M Issue :=
  let unknown := check_canonical_state check == OsUnknown in
  update_attempt aid (λ a,
    a <| att_status := if unknown then FulUnknown else FulProcessing |>
      <| att_error_classification := if unknown then Some "UPSTREAM_STATE_UNKNOWN" else None |>);;
  commit;;
  mret UpstreamStillPending.

(** The [try] block. *)
Definition apply_check (order : Order) (a : FulfillmentAttempt) (p : Provider) (target : string)
    : M Issue :=
  check ← get_order p target;
  update_attempt (att_id a) (λ a, a <| att_response_payload := check_payload check |>);;
  if check_completed check then complete_attempt order (att_id a) check
  else if check_failed check then
    fail_and_refund order (att_id a) "UPSTREAM_FAILED_RECONCILED"
      ("Automated refund via reconciliation for failed order #" +:+ order_number order)
      UpstreamFailedResolved
  else
    n ← now;
    timeout ← of_outcome (activation_timeout p);
    if (timeout <=? n - att_started_at a)
       && ((check_canonical_state check == OsProcessing) || (check_canonical_state check == OsPending))
    then
      send (SentCancel (prov_id p) target);;
      fail_and_refund order (att_id a) "UPSTREAM_ACTIVATION_TIMEOUT" (timeout_text order timeout)
        ActivationTimedOutRefunded
    else keep_waiting (att_id a) check.

(** [_reconcile_attempt].  Any exception of the block is reported as a failed
    query, and what was changed before it stays in the session; the flag says
    that the session was poisoned and answers nothing more. *)
Definition _reconcile_attempt (aid : UUID) : M (list ReconciliationDiscrepancy * bool) :=
  a ← get_attempt aid;
  found ← query (λ d, get_row (att_order_id a) (orders d));
  match found with
  | None => mret ([], false)
  | Some order =>
      if order_tenant_id order != att_tenant_id a then mret ([], false)
      else
        p ← provider_of a;
        let target := query_target a in
        match p with
        | Some p =>
            if target != "" then
              catch (issue ← apply_check order a p target; mret (report order issue, false))
                (λ e, mret (report order ProviderQueryFailed, e == PendingRollbackError))
            else mret (if truthy (att_external_order_id a) then [] else report order StuckWithoutExternalId,
                       false)
        | None =>
            mret (if truthy (att_external_order_id a) then [] else report order StuckWithoutExternalId,
                  false)
        end
  end.

(** The loops over a list of attempts. *)
Fixpoint reconcile_all (l : list UUID) : M (list ReconciliationDiscrepancy * bool) :=
  match l with
  | [] => mret ([], false)
  | aid :: l =>
      x ← _reconcile_attempt aid;
      raise_if (x.2 && negb (length l =? 0)%nat) PendingRollbackError;;
      rest ← reconcile_all l;
      mret (x.1 ++ rest.1, x.2 || rest.2)
  end.

Definition active_attempts (limit : Z) (d : DB) : list FulfillmentAttempt :=
  take (Z.to_nat (Z.max 1 (Z.min limit 1000)))
    (sort_by (λ a b, att_started_at a <=? att_started_at b)
       (select (λ a, still_open (att_status a)) (attempts d))).

Definition reconcile_active_attempts (limit : Z) : M (list ReconciliationDiscrepancy * bool) :=
  l ← query (active_attempts limit);
  reconcile_all (map att_id l).

(** The latest open attempt of an order; rows are in order of creation. *)
Definition latest_attempt (tenant_id oid : UUID) (d : DB) : option FulfillmentAttempt :=
  head (sort_by (λ a b, att_attempt_number b <=? att_attempt_number a)
          (rev (select (λ a, (att_tenant_id a == tenant_id) && (att_order_id a == oid)
                             && still_open (att_status a)) (attempts d)))).

Definition reconcile_order (tenant_id oid : UUID) : M (list ReconciliationDiscrepancy * bool) :=
  found ← query (λ d, get_row oid (orders d));
  match found with
  | None => mret ([], false)
  | Some order =>
      if order_tenant_id order != tenant_id then mret ([], false)
      else
        latest ← query (latest_attempt tenant_id oid);
        match latest with
        | None => mret ([], false)
        | Some a => _reconcile_attempt (att_id a)
        end
  end.

Definition scan_and_reconcile_tenant (tenant_id : UUID) : M (list ReconciliationDiscrepancy * bool) :=
  l ← query (λ d, select (λ a, (att_tenant_id a == tenant_id) && still_open (att_status a)) (attempts d));
  reconcile_all (map att_id l).

(** [ProviderReconciliationWorker.run_once]: the batch size is clamped when the
    worker is built. *)
Definition worker_run_once (enabled : bool) (batch_size : Z) : M nat :=
  if enabled then
    in_session (x ← reconcile_active_attempts (Z.max 1 (Z.min batch_size 1000)); mret (length x.1))
  else mret 0%nat.

End service.
