(* ===== verification/FulfillmentWorker.v ===== *)
(** * The fulfillment worker

    [packages/fulfillment/worker.py], class [FulfillmentWorker]: durable job
    records, the claim that gives a job to one worker, the in-memory queue that
    wakes it up, and the retries.  The memory of a worker process is the record
    [Worker]; waiting and sleeping take no time in the model. *)

From Stdlib Require Import ZArith Lia Ascii String.
From stdpp Require Import base tactics list option strings numbers pretty.
From S2P Require Import Prelude Tables Text Money Exceptions StateMachines Models Ledger.
From S2P Require Import Router Fulfillment Reversals.

Local Open Scope Z_scope.

Record FulfillmentJob := MkFulfillmentJob {
  fj_order_id : UUID;
  fj_recipient : string;
  fj_attempt_number : Z;
  fj_metadata : option dict;
  fj_job_id : option UUID;
}.

(** [queue], [dead_letter_queue] and [_queued_job_ids]. *)
Record Worker := MkWorker {
  wk_queue : list FulfillmentJob;
  wk_dead_letter : list FulfillmentJob;
  wk_queued_ids : list UUID;
}.

Global Instance Worker_eta : Eta Worker := λ r,
  MkWorker (wk_queue r) (wk_dead_letter r) (wk_queued_ids r).

Definition no_jobs : Worker := MkWorker [] [] [].

(** ** The queue in memory *)

Definition enqueue_persisted_job (w : Worker) (job : FulfillmentJob) : bool * Worker :=
  match fj_job_id job with
  | Some i =>
      if existsb (λ j, j == i) (wk_queued_ids w) then (false, w)
      else (true, w <| wk_queued_ids ::= (λ l, l ++ [i]) |> <| wk_queue ::= (λ l, l ++ [job]) |>)
  | None => (true, w <| wk_queue ::= (λ l, l ++ [job]) |>)
  end.

Definition job_of_record (r : FulfillmentJobRecord) : FulfillmentJob :=
  MkFulfillmentJob (job_order_id r) (job_recipient r) (job_attempt_number r) (Some (job_payload r))
    (Some (job_id r)).

(** The loop over records: how many were scheduled. *)
Fixpoint schedule (w : Worker) (l : list FulfillmentJobRecord) : nat * Worker :=
  match l with
  | [] => (0%nat, w)
  | r :: l =>
      let '(added, w) := enqueue_persisted_job w (job_of_record r) in
      let '(n, w) := schedule w l in
      ((if added then S n else n), w)
  end.

(** [queue.get()] and [_queued_job_ids.discard(job.job_id)] *)
Definition dequeue (w : Worker) : option (FulfillmentJob * Worker) :=
  match wk_queue w with
  | [] => None
  | job :: rest =>
      Some (job, w <| wk_queue := rest |>
                   <| wk_queued_ids ::= select (λ i, Some i != fj_job_id job) |>)
  end.

(** ** Durable jobs *)

Definition claims_job (rid : UUID) (r : FulfillmentJobRecord) : bool :=
  (job_id r == rid) && (job_status r == JobQueued).

Section worker.
  Context `{Env} `{Adapters} (max_consecutive_failures : Z).

Definition claim_job (rid : UUID) : M bool :=
  n ← now;
  rows ← query (λ d, rowcount (claims_job rid) (jobs d));
  write (λ d, d <| jobs ::= update_where (claims_job rid)
                     (λ r, r <| job_status := JobRunning |> <| job_locked_at := Some n |>) |>);;
  commit;;
  mret (0 <? rows)%nat.

Definition stage_durable_job (order : Order) (recipient : string) (attempt_number : Z)
    (metadata : option dict) (job_id : option UUID) : M FulfillmentJob :=
  i ← match job_id with Some i => mret i | None => uuid4 end;
  created_at ← now;
  recipient ← to_varchar 255 recipient;
  clash ← query (λ d, is_some (get_row i (jobs d)));
  raise_if clash IntegrityError;;
  write (λ d, d <| jobs ::= (λ t, t ++ [MkFulfillmentJobRecord i (order_tenant_id order) (order_id order)
           recipient attempt_number JobQueued (default [] metadata) None None 0 None None created_at]) |>);;
  mret (MkFulfillmentJob (order_id order) recipient attempt_number metadata (Some i)).

Definition enqueue (w : Worker) (oid : UUID) (recipient : string) (attempt_number : Z)
    (metadata : option dict) (persist_db : bool) (job_id : option UUID) : M (FulfillmentJob * Worker) :=
  job ← (if persist_db then
           catch
             (in_session
                (found ← query (λ d, get_row oid (orders d));
                 order ← of_option ValueError found;
                 job ← stage_durable_job order recipient attempt_number metadata job_id;
                 commit;;
                 mret job))
             (λ _, mthrow RuntimeError)
         else mret (MkFulfillmentJob oid recipient attempt_number metadata job_id));
  mret (job, (enqueue_persisted_job w job).2).

Definition poll_queued_jobs (w : Worker) (limit : nat) : M (nat * Worker) :=
  records ← query (λ d, take limit (sort_by (λ a b, job_created_at a <=? job_created_at b)
                          (select (λ r, job_status r == JobQueued) (jobs d))));
  mret (schedule w records).

Definition abandoned (r : FulfillmentJobRecord) : bool :=
  (job_status r == JobQueued) || (job_status r == JobRunning).

Definition recover_pending_jobs (w : Worker) : M (nat * Worker) :=
  records ← query (λ d, select abandoned (jobs d));
  write (λ d, d <| jobs ::= update_where abandoned (λ r, r <| job_status := JobQueued |>) |>);;
  commit;;
  mret (schedule w records).

(** ** One job *)

(** The latest queued record of the order, when the job does not name one. *)
Definition latest_queued (oid : UUID) (d : DB) : option UUID :=
  job_id <$> head (sort_by (λ a b, job_created_at b <=? job_created_at a)
                     (select (λ r, (job_order_id r == oid) && (job_status r == JobQueued)) (jobs d))).

(** After a flush that the database refused the session answers nothing. *)
Definition poisoned (e : exn) : bool :=
  match e with DataError | IntegrityError | PendingRollbackError => true | _ => false end.

(** [rec = session.get(...); if rec: ...; session.commit()]; the commit makes
    the [checks] of the columns. *)
Definition update_job (rid : UUID) (checks : M unit) (f : FulfillmentJobRecord → FulfillmentJobRecord)
    : M unit :=
  found ← query (λ d, get_row rid (jobs d));
  match found with
  | Some r =>
      checks;;
      write (λ d, d <| jobs ::= update_row rid f |>);;
      commit
  | None => mret tt
  end.

(** The record of a job that failed. *)
Definition record_job_failure (rid : option UUID) (e : exn)
    (f : FulfillmentJobRecord → FulfillmentJobRecord) : M unit :=
  match rid with
  | None => mret tt
  | Some rid =>
      raise_if (poisoned e) PendingRollbackError;;
      update_job rid (to_varchar 512 (env_exn_str e);; to_varchar 64 (exn_name e);; mret tt)
        (λ r, f r <| job_last_error := Some (env_exn_str e) |>
                  <| job_failure_classification := Some (exn_name e) |>)
  end.

Definition retry_job (max_retries : Z) (job : FulfillmentJob) (e : exn) : bool :=
  match as_provider_error e with
  | Some (is_retryable, _) => is_retryable && (fj_attempt_number job <? max_retries)
  | None => false
  end.

(** The handlers of [ProviderError] and [Exception]. *)
Definition job_failed (max_retries : Z) (w : Worker) (job : FulfillmentJob) (rid : option UUID) (e : exn)
    : M Worker :=
  if retry_job max_retries job e then
    let next := fj_attempt_number job + 1 in
    record_job_failure rid e (λ r, r <| job_status := JobQueued |> <| job_attempt_number := next |>);;
    x ← enqueue w (fj_order_id job) (fj_recipient job) next (fj_metadata job) false rid;
    mret x.2
  else
    record_job_failure rid e (λ r, r <| job_status := JobDeadLetter |>);;
    mret (w <| wk_dead_letter ::= (λ l, l ++ [job]) |>).

Definition run_job (max_retries : Z) (w : Worker) (job : FulfillmentJob) (rid : option UUID)
    : M (option FulfillmentAttempt * Worker) :=
  catch
    (attempt ← execute_order_fulfillment max_consecutive_failures (fj_order_id job) (fj_recipient job)
                 (fj_attempt_number job);
     match rid with
     | Some rid =>
         n ← now;
         update_job rid (mret tt) (λ r, r <| job_status := JobCompleted |> <| job_completed_at := Some n |>)
     | None => mret tt
     end;;
     mret (Some attempt, w))
    (λ e, w ← job_failed max_retries w job rid e; mret (None, w)).

Definition _process_job (max_retries : Z) (w : Worker) (job : FulfillmentJob)
    : M (option FulfillmentAttempt * Worker) :=
  in_session
    (rid ← match fj_job_id job with
           | Some i => mret (Some i)
           | None => query (latest_queued (fj_order_id job))
           end;
     match rid with
     | Some i =>
         claimed ← claim_job i;
         if (claimed : bool) then run_job max_retries w job rid else mret (None, w)
     | None => run_job max_retries w job rid
     end).

(** ** The loop *)

(** [process_one_now], with what it raised as a value: the job has left the
    queue in any case. *)
Definition process_one_now (max_retries : Z) (w : Worker)
    : M (outcome exn (option FulfillmentAttempt) * Worker) :=
  match dequeue w with
  | None => mret (Ok None, w)
  | Some (job, w) =>
      catch (x ← _process_job max_retries w job; mret (Ok x.1, x.2)) (λ e, mret (Raise e, w))
  end.

(** An iteration of [_run_loop].  A job that raises ends the task. *)
Definition loop_step (max_retries : Z) (w : Worker) : M Worker :=
  match dequeue w with
  | None => catch (x ← in_session (poll_queued_jobs w 100); mret x.2) (λ _, mret w)
  | Some (job, w) => x ← _process_job max_retries w job; mret x.2
  end.

End worker.
