(* ===== verification/FulfillmentHistory.v ===== *)
(** * Fulfillment: the worker, the reconciliation and their history

    What processing a job does to its record, that the retries end, that an
    order that was refunded is not bought again, and that an order is refunded
    at most once however attempts, jobs and reconciliation passes interleave. *)

From Stdlib Require Import ZArith Lia Ascii String.
From stdpp Require Import base tactics list option strings numbers pretty.
From S2P Require Import Prelude Tables Text Money Exceptions StateMachines Models Ledger.
From S2P Require Import LedgerInv LedgerSpec DepositsSpec Profiles Pricing Router RouterSpec.
From S2P Require Import Fulfillment FulfillmentSpec Payments Reversals ReversalsSpec ReversalsLive Upstream.
From S2P Require Import FulfillmentWorker.

Local Open Scope Z_scope.

(** ** What fulfillment code leaves alone

    The jobs, the ledger entries and which orders there are.  A property of
    these that survives the refund of an order survives everything the
    fulfillment code does, in the session's view and in the committed version,
    whether it returns or raises. *)

Definition core (d : DB) : list FulfillmentJobRecord * list LedgerTransaction * list UUID :=
  (jobs d, ledger d, map order_id (orders d)).

(** Every order has an id. *)
Definition named (d : DB) : Prop := Forall (λ i, uuid_str i ≠ "") (map order_id (orders d)).

Class RefundClosed (P : DB → Prop) := {
  rc_named : ∀ d, P d → named d;
  rc_core : ∀ d d', core d' = core d → P d → P d';
  rc_refund : ∀ d tx i,
    find_entry (tx_wallet_id tx) REFUND CANONICAL_REFUND_TYPE i d = None →
    has_reference (tx_wallet_id tx) REFUND CANONICAL_REFUND_TYPE i tx = true →
    P d → P (d <| ledger ::= λ l, l ++ [tx] |>);
}.

Section frame.
  Context `{HE : Env} `{!Serial HE} `{Adapters} (P : DB → Prop) `{!RefundClosed P}.

Abbreviation kept := (keeps (both P)).

Lemma kept_write f : (∀ d, core (f d) = core d) → steps kept (write f).
Proof. intros Hf s [Hd Hc]. split; [|done]. eapply rc_core; [apply Hf|exact Hd]. Qed.

Hint Resolve both_commit both_rollback both_uuid4 both_send both_await : steps.
Hint Extern 1 (steps _ (write _)) => apply kept_write; reflexivity : steps.

Lemma kept_attempt i f : steps kept (update_attempt i f).
Proof. unfold update_attempt. steps_walk. Qed.

Lemma kept_provider i f : steps kept (update_provider i f).
Proof. unfold update_provider. steps_walk. Qed.

Lemma kept_get_attempt i : steps kept (get_attempt i).
Proof. unfold get_attempt. steps_walk. Qed.

Lemma kept_transition oid st : steps kept (transition_order oid st).
Proof.
  unfold transition_order. steps_walk. apply kept_write. intros d. unfold core. cbn. f_equal.
  unfold update_row, update_where. rewrite List.map_map. apply List.map_ext. intros x. by destruct (_ == _).
Qed.

Hint Resolve kept_attempt kept_provider kept_get_attempt kept_transition : steps.

Lemma kept_try mf quantity recipient key l le :
  steps kept (try_mappings mf quantity recipient key l le).
Proof.
  revert le. induction l as [|[m p] l IH]; intros le; cbn [try_mappings]; [steps_walk|].
  apply steps_bind; [typeclasses eauto|steps_walk|intros pr].
  apply steps_bind; [typeclasses eauto|apply both_reads, config_reads|intros config].
  unfold order_request, call_create_order, reset_failures, count_failure. steps_walk.
Qed.

Lemma kept_route mf q quantity recipient key :
  steps kept (route_and_execute_order mf q quantity recipient key).
Proof.
  unfold route_and_execute_order.
  apply steps_bind; [typeclasses eauto|apply both_reads, eligible_reads|intros l].
  apply steps_bind; [typeclasses eauto|steps_walk|intros _]. apply kept_try.
Qed.

Lemma kept_attribute i p c k : steps kept (attribute_actual_cost i p c k).
Proof. unfold attribute_actual_cost. steps_walk. Qed.

Lemma kept_flush i : steps kept (flush_attempt i).
Proof. unfold flush_attempt. steps_walk. Qed.

Lemma kept_notify ev o : steps kept (notify ev o).
Proof. unfold notify. steps_walk. Qed.

Hint Resolve kept_route kept_attribute kept_flush kept_notify : steps.

Lemma kept_dispatch_items mf order profile recipient key items aid todo d :
  steps kept (dispatch_items mf order profile recipient key items aid todo d).
Proof.
  revert d. induction todo as [|i todo IH]; intros d; cbn [dispatch_items]; [steps_walk|].
  apply steps_bind; [typeclasses eauto| |auto]. unfold dispatch_item. steps_walk.
Qed.

(** *** Refunds *)

Lemma kept_wallet t u c : steps kept (get_or_create_wallet t u c).
Proof.
  unfold get_or_create_wallet. steps_walk. all: apply both_nested; unfold insert_wallet; steps_walk.
Qed.

Lemma committed_refund_of w a i desc s :
  ses_committed (refund w a (Some i) (Some CANONICAL_REFUND_TYPE) desc s).2 = ses_committed s.
Proof. apply committed_refund. Qed.

Lemma kept_refund w a i desc :
  i ≠ "" → steps kept (refund w a (Some i) (Some CANONICAL_REFUND_TYPE) desc).
Proof.
  intros Hi s [Hd Hc]. unfold both. rewrite committed_refund_of. split; [|done].
  destruct (refund_effect w a i CANONICAL_REFUND_TYPE desc s)
    as [[-> _]|(tx & after & _ & Hf & Ht & _ & Hw & Hri & Hrt & ->)];
    [by rewrite bool_decide_eq_false_2|done|].
  apply (rc_core ((ses_db s) <| ledger ::= λ l, l ++ [tx] |>)); [done|].
  apply (rc_refund _ _ i); [by rewrite Hw| |done]. by apply has_reference_spec.
Qed.

Lemma kept_refund_order order : uuid_str (order_id order) ≠ "" → steps kept (refund_order order).
Proof.
  intros Hid. pose proof kept_wallet.
  assert (∀ w a desc, steps kept (refund w a (Some (uuid_str (order_id order)))
    (Some CANONICAL_REFUND_TYPE) desc)) by (intros; by apply kept_refund).
  unfold refund_order. steps_walk.
Qed.

Lemma kept_fulfill mf order items profile recipient key aid n :
  uuid_str (order_id order) ≠ "" → steps kept (fulfill mf order items profile recipient key aid n).
Proof.
  intros Hid. pose proof (kept_refund_order order Hid). pose proof kept_dispatch_items.
  unfold fulfill, dispatch, record_dispatch, settle_nonterminal, settle_success, fail_attempt, record_failure.
  steps_walk.
Qed.

Lemma order_named d order : P d → order ∈ orders d → uuid_str (order_id order) ≠ "".
Proof.
  intros Hd Hin. pose proof (rc_named d Hd) as Hall. unfold named in Hall. rewrite List.Forall_forall in Hall.
  by apply Hall, List.in_map, list_elem_of_In.
Qed.

Lemma kept_execute mf oid recipient n : steps kept (execute_order_fulfillment mf oid recipient n).
Proof.
  intros s Hs. unfold execute_order_fulfillment. cbv zeta. apply (ensures_gets (both P)).
  destruct (select (λ o, order_id o == oid) (orders (ses_db s))) as [|o [|o2 l]] eqn:Hsel; [done| |done].
  assert (uuid_str (order_id o) ≠ "") as Hid.
  { assert (o ∈ select (λ o, order_id o == oid) (orders (ses_db s))) as [Hin _]%elem_of_select
      by (rewrite Hsel; left). by eapply order_named; [|exact Hin]; apply Hs. }
  pose proof (λ items profile key aid, kept_fulfill mf o items profile recipient key aid n Hid).
  unfold one_or_none, of_option, ensures. do 2 (erewrite bind_ok by reflexivity).
  match goal with |- both P (?m s).2 => enough (steps kept m) as Hm by (by apply Hm) end.
  unfold insert_attempt. steps_walk.
Qed.

(** *** Reconciliation *)

Lemma kept_fail_and_refund order aid c desc issue :
  uuid_str (order_id order) ≠ "" → steps kept (fail_and_refund order aid c desc issue).
Proof.
  intros Hid. pose proof kept_wallet.
  assert (∀ w a desc, steps kept (refund w a (Some (uuid_str (order_id order)))
    (Some CANONICAL_REFUND_TYPE) desc)) by (intros; by apply kept_refund).
  unfold fail_and_refund. steps_walk.
Qed.

Lemma kept_complete order aid check : steps kept (complete_attempt order aid check).
Proof. unfold complete_attempt. steps_walk. Qed.

Lemma kept_get_order p target : steps kept (Upstream.get_order p target).
Proof.
  unfold Upstream.get_order.
  apply steps_bind; [typeclasses eauto|apply both_reads, config_reads|intros config]. steps_walk.
Qed.

Lemma kept_apply_check fl nt order a p target :
  uuid_str (order_id order) ≠ "" → steps kept (apply_check fl nt order a p target).
Proof.
  intros Hid. pose proof (λ aid c desc issue, kept_fail_and_refund order aid c desc issue Hid).
  pose proof kept_complete. pose proof kept_get_order. unfold apply_check, keep_waiting, now. steps_walk.
Qed.

Lemma kept_reconcile fl nt aid : steps kept (_reconcile_attempt fl nt aid).
Proof.
  intros s Hs. unfold _reconcile_attempt. apply (ensures_bind (both P)); [by apply kept_get_attempt|].
  intros a s1 _ Hs1. apply ensures_gets.
  destruct (get_row (att_order_id a) (orders (ses_db s1))) as [order|] eqn:Ho; [|done].
  pose proof (kept_apply_check fl nt order) as Hcheck.
  assert (uuid_str (order_id order) ≠ "") as Hid by (apply get_row_Some in Ho as [Hin _]; eapply order_named; [|exact Hin]; apply Hs1).
  match goal with |- ensures _ ?m s1 => enough (steps kept m) as Hm by (by apply Hm) end.
  assert (steps kept (provider_of a)) by (unfold provider_of; steps_walk).
  pose proof (λ a p target, Hcheck a p target Hid). steps_walk.
Qed.

Lemma kept_reconcile_all fl nt l : steps kept (reconcile_all fl nt l).
Proof.
  pose proof kept_reconcile. induction l as [|aid l IH]; cbn [reconcile_all]; steps_walk.
Qed.

Lemma kept_reconcile_order fl nt t oid : steps kept (reconcile_order fl nt t oid).
Proof. pose proof kept_reconcile. unfold reconcile_order. steps_walk. Qed.

Lemma kept_scan fl nt t : steps kept (scan_and_reconcile_tenant fl nt t).
Proof. pose proof kept_reconcile_all. unfold scan_and_reconcile_tenant. steps_walk. Qed.

Lemma kept_in_session {A} (m : M A) : steps kept m → steps kept (in_session m).
Proof.
  intros Hm s Hs. rewrite in_session_state. cbn. destruct (Hm s Hs) as [_ Hc]. by split.
Qed.

Lemma kept_worker fl nt en b : steps kept (worker_run_once fl nt en b).
Proof.
  unfold worker_run_once, reconcile_active_attempts. destruct en; [|steps_walk].
  apply kept_in_session. pose proof kept_reconcile_all. steps_walk.
Qed.

End frame.

(** ** Refunds over every history *)

(** Orders have ids, and no wallet holds two refunds of one order. *)
Definition refunds_once (d : DB) : Prop := named d ∧ refunds_unique d.

Global Instance refunds_once_closed : RefundClosed refunds_once.
Proof.
  split.
  - by intros d [? _].
  - intros d d' [= _ Hl Ho] [Hn Hu]. split; [unfold named; by rewrite Ho|].
    intros wid rid. rewrite Hl. apply Hu.
  - intros d tx i Hnone Href [Hn Hu]. split; [done|]. intros wid rid. cbn.
    rewrite select_app, length_app. cbn. specialize (Hu wid rid).
    destruct (has_reference wid REFUND CANONICAL_REFUND_TYPE rid tx) eqn:Hr; cbn; [|lia].
    apply has_reference_spec in Hr as (<- & _ & _ & Hr). apply has_reference_spec in Href as (_ & _ & _ & Hi).
    assert (rid = i) as -> by congruence. unfold find_entry in Hnone. apply first_None in Hnone.
    rewrite Hnone. cbn. lia.
Qed.

(** Everything that can move an order along after it was paid: a request for
    an attempt, a job put in the queue, the recovery of jobs after a restart,
    a job processed by some worker process, and the three ways to reconcile. *)
Inductive shop_event :=
  | EvAttempt (oid : UUID) (recipient : string) (attempt_number : Z)
  | EvEnqueue (w : Worker) (oid : UUID) (recipient : string) (attempt_number : Z) (job_id : option UUID)
  | EvRecover (w : Worker)
  | EvJob (max_retries : Z) (w : Worker) (job : FulfillmentJob)
  | EvReconcileOrder (tenant_id oid : UUID)
  | EvScanTenant (tenant_id : UUID)
  | EvReconcilePass (batch_size : Z).

(** A request whose session was poisoned cannot commit. *)
Definition reconcile_request (m : M (list ReconciliationDiscrepancy * bool)) : M unit :=
  in_request (x ← m; raise_if x.2 PendingRollbackError).

Definition run_shop_event `{Env} `{Adapters} (max_failures : Z) (float_of : string → option Z)
    (timeout : Z) (s : Session) (ev : shop_event) : Session :=
  match ev with
  | EvAttempt oid recipient n =>
      (in_request (execute_order_fulfillment max_failures oid recipient n) s).2
  | EvEnqueue w oid recipient n job_id => (enqueue w oid recipient n None true job_id s).2
  | EvRecover w => (in_session (recover_pending_jobs w) s).2
  | EvJob max_retries w job => (_process_job max_failures max_retries w job s).2
  | EvReconcileOrder t oid => (reconcile_request (reconcile_order float_of timeout t oid) s).2
  | EvScanTenant t => (reconcile_request (scan_and_reconcile_tenant float_of timeout t) s).2
  | EvReconcilePass n => (worker_run_once float_of timeout true n s).2
  end.

Definition run_shop `{Env} `{Adapters} (max_failures : Z) (float_of : string → option Z) (timeout : Z)
    (evs : list shop_event) (s : Session) : Session :=
  foldl (run_shop_event max_failures float_of timeout) s evs.

Section history.
  Context `{HE : Env} `{!Serial HE} `{Adapters} (max_failures : Z).

Abbreviation once := (keeps (both refunds_once)).

Lemma once_jobs f : steps once (write (λ d, d <| jobs ::= f |>)).
Proof. by intros s [[Hn Hu] Hc]. Qed.

Lemma once_in_request {A} (m : M A) : steps once m → steps once (in_request m).
Proof.
  pose proof (both_commit refunds_once). pose proof (both_rollback refunds_once).
  intros Hm. unfold in_request. steps_walk.
Qed.

Lemma once_update_job rid checks f : steps eq checks → steps once (update_job rid checks f).
Proof.
  intros Hc%(both_reads refunds_once). pose proof once_jobs. pose proof (both_commit refunds_once). unfold update_job. steps_walk.
Qed.

Lemma once_stage o r n md i : steps once (stage_durable_job o r n md i).
Proof.
  pose proof once_jobs. pose proof (both_uuid4 refunds_once). unfold stage_durable_job. steps_walk.
Qed.

Lemma once_enqueue w oid r n md b i : steps once (enqueue w oid r n md b i).
Proof.
  pose proof once_stage. pose proof (both_commit refunds_once). unfold enqueue.
  apply steps_bind; [typeclasses eauto| |intros job; steps_walk]. destruct b; [|steps_walk].
  apply steps_catch; [typeclasses eauto| |intros e; steps_walk].
  apply kept_in_session. steps_walk.
Qed.

Lemma once_job_failure rid e f : steps once (record_job_failure rid e f).
Proof.
  unfold record_job_failure. destruct rid as [rid|]; [|steps_walk].
  apply steps_bind; [typeclasses eauto|steps_walk|intros _]. apply once_update_job. steps_walk.
Qed.

Lemma once_run_job mr w job rid : steps once (run_job max_failures mr w job rid).
Proof.
  pose proof once_job_failure. pose proof once_enqueue. pose proof (kept_execute refunds_once max_failures).
  assert (∀ rid f, steps once (update_job rid (mret tt) f)) by (intros; apply once_update_job; steps_walk).
  unfold run_job, job_failed. steps_walk.
Qed.

Lemma once_claim rid : steps once (claim_job rid).
Proof. pose proof once_jobs. pose proof (both_commit refunds_once). unfold claim_job. steps_walk. Qed.

Lemma once_process mr w job : steps once (_process_job max_failures mr w job).
Proof.
  pose proof once_run_job. pose proof once_claim. apply kept_in_session. steps_walk.
Qed.

Lemma once_event fl nt s ev : both refunds_once s → both refunds_once (run_shop_event max_failures fl nt s ev).
Proof.
  destruct ev; cbn [run_shop_event].
  - apply (once_in_request _ (kept_execute refunds_once max_failures _ _ _)).
  - apply once_enqueue.
  - apply (kept_in_session refunds_once). unfold recover_pending_jobs.
    pose proof once_jobs. pose proof (both_commit refunds_once). steps_walk.
  - apply once_process.
  - apply once_in_request. pose proof (kept_reconcile_order refunds_once). steps_walk.
  - apply once_in_request. pose proof (kept_scan refunds_once). steps_walk.
  - apply (kept_worker refunds_once).
Qed.

Lemma once_history fl nt evs s :
  both refunds_once s → both refunds_once (run_shop max_failures fl nt evs s).
Proof.
  revert s. induction evs as [|ev evs IH]; intros s Hs; [done|]. by apply IH, once_event.
Qed.

End history.


(** A supplier that takes orders and reports, when asked, that they failed. *)
Definition failing_adapters : Adapters := {|
  reg_definitions := @reg_definitions demo_adapters;
  reg_config_validator _ := None;
  reg_capability_resolver _ := None;
  reg_credential_resolver _ := None;
  get_secret _ := None;
  client_create_order _ _ _ r :=
    Ok (MkProviderOrderResponse "ext-1" OsPending (cents 500) [] []);
  client_get_order _ _ _ t := Ok (MkProviderOrderCheck t false true OsFailed [] []);
  score_rank _ w := w;
|}.

Definition failing_events : list shop_event :=
  [ EvEnqueue no_jobs (mk_uuid "order-1") "buyer" 1 (Some (mk_uuid "job-1"));
    EvJob 3 no_jobs (MkFulfillmentJob (mk_uuid "order-1") "buyer" 1 None (Some (mk_uuid "job-1")));
    EvReconcilePass 200; EvReconcileOrder (mk_uuid "tenant") (mk_uuid "order-1");
    EvAttempt (mk_uuid "order-1") "buyer" 2; EvReconcilePass 200 ].

Definition refunded_demo : Session :=
  @run_shop demo_env failing_adapters 3 (λ _, None) 1200 failing_events paid_session.

