(* ===== verification/WorkerSpec.v ===== *)
(** * The fulfillment worker: properties

    What processing a job does to its record, that a job is given to one
    worker, that the retries end, and that an order that was refunded is not
    scheduled again. *)

From Stdlib Require Import ZArith Lia Ascii String.
From stdpp Require Import base tactics list option strings numbers pretty.
From S2P Require Import Prelude Tables Text Money Exceptions StateMachines Models Ledger.
From S2P Require Import LedgerInv LedgerSpec DepositsSpec Profiles Pricing Router RouterSpec.
From S2P Require Import Fulfillment FulfillmentSpec Reversals ReversalsSpec ReversalsLive.
From S2P Require Import FulfillmentWorker FulfillmentHistory.

Local Open Scope Z_scope.

(** ** The record of a job *)

(** The job records are [t], and orders have ids. *)
Definition jobs_are (t : list FulfillmentJobRecord) (d : DB) : Prop := jobs d = t ∧ named d.

Global Instance jobs_are_closed t : RefundClosed (jobs_are t).
Proof.
  split.
  - by intros d [_ ?].
  - intros d d' [= Hj _ Ho] [Ht Hn]. split; [congruence|]. unfold named. by rewrite Ho.
  - by intros d tx i _ _ [Ht Hn].
Qed.

Lemma exn_name_short e : (String.length (exn_name e) ≤ 64)%nat.
Proof.
  destruct e; try (cbn; lia). match goal with c : provider_error_class |- _ => destruct c; cbn; lia end.
Qed.

Abbreviation job_at rid s := (get_row rid (jobs (ses_db s))).

Section job.
  Context `{HE : Env} `{!Serial HE} `{Adapters} (max_failures max_retries : Z).

(** Running a job with a record: what happens to the record and the worker,
    given the outcome of the attempt. *)
Definition failed_record (r : FulfillmentJobRecord) (job : FulfillmentJob) (e : exn) : FulfillmentJobRecord :=
  (if retry_job max_retries job e
   then r <| job_status := JobQueued |> <| job_attempt_number := fj_attempt_number job + 1 |>
   else r <| job_status := JobDeadLetter |>)
    <| job_last_error := Some (env_exn_str e) |> <| job_failure_classification := Some (exn_name e) |>.

Definition next_try (job : FulfillmentJob) (rid : UUID) : FulfillmentJob :=
  MkFulfillmentJob (fj_order_id job) (fj_recipient job) (fj_attempt_number job + 1) (fj_metadata job) (Some rid).

Definition failed_worker (w : Worker) (job : FulfillmentJob) (rid : UUID) (e : exn) : Worker :=
  if retry_job max_retries job e then (enqueue_persisted_job w (next_try job rid)).2
  else w <| wk_dead_letter ::= (λ l, l ++ [job]) |>.

(** The failure could not be written down: the session was poisoned, or the
    text of the exception does not fit its column. *)
Definition unrecordable (e : exn) : bool := poisoned e || (512 <? String.length (env_exn_str e))%nat.

(** The ways a claimed job can end; [r] is its record when it was claimed. *)
Inductive job_case (w : Worker) (job : FulfillmentJob) (rid : UUID) (r : FulfillmentJobRecord)
    (s' : Session) : outcome exn FulfillmentAttempt →
                     outcome exn (option FulfillmentAttempt * Worker) → Prop :=
  | JobDone a n :
      job_at rid s' = Some (r <| job_status := JobCompleted |> <| job_completed_at := Some n |>) →
      job_case w job rid r s' (Ok a) (Ok (Some a, w))
  | JobFailedOnce e :
      unrecordable e = false → job_at rid s' = Some (failed_record r job e) →
      job_case w job rid r s' (Raise e) (Ok (None, failed_worker w job rid e))
  | JobStuck e e' :
      unrecordable e = true → job_at rid s' = Some r →
      job_case w job rid r s' (Raise e) (Raise e').

Lemma update_job_found rid checks f s r :
  job_at rid s = Some r → checks s = (Ok tt, s) →
  update_job rid checks f s
  = (Ok tt, s <| ses_db ::= λ d, d <| jobs ::= update_row rid f |> |>
              <| ses_committed := (ses_db s) <| jobs ::= update_row rid f |> |>).
Proof.
  intros Hr Hc. unfold update_job, mbind, prog_bind, query, gets. cbn. rewrite Hr, Hc. reflexivity.
Qed.

Lemma job_checks e s :
  (512 <? String.length (env_exn_str e))%nat = false →
  (to_varchar 512 (env_exn_str e);; to_varchar 64 (exn_name e);; mret tt) s = (Ok tt, s).
Proof.
  intros He. unfold to_varchar. rewrite He.
  rewrite (proj2 (Nat.ltb_ge 64 (String.length (exn_name e)))) by apply exn_name_short. done.
Qed.

Lemma get_update_found {A} `{Row A} i (f : A → A) t r :
  (∀ x, row_id (f x) = row_id x) → get_row i t = Some r → get_row i (update_row i f t) = Some (f r).
Proof. intros Hf Hr. rewrite get_update_same by done. by rewrite Hr. Qed.

Lemma in_failed_record r job e : job_id (failed_record r job e) = job_id r.
Proof. unfold failed_record. by destruct (retry_job _ _ _). Qed.

(** The handlers. *)
Lemma job_failed_spec w job rid r e s :
  job_at rid s = Some r →
  job_failed max_retries w job (Some rid) e s
  = if unrecordable e then (Raise (if poisoned e then PendingRollbackError else DataError), s)
    else (Ok (failed_worker w job rid e),
          s <| ses_db ::= λ d, d <| jobs ::= update_row rid (λ r, failed_record r job e) |> |>
            <| ses_committed := (ses_db s) <| jobs ::= update_row rid (λ r, failed_record r job e) |> |>).
Proof.
  intros Hr. unfold job_failed, unrecordable, failed_worker, failed_record, record_job_failure.
  destruct (poisoned e) eqn:Hp; cbn [orb]; [by destruct (retry_job _ _ _)|].
  destruct (512 <? _)%nat eqn:Hlen.
  - assert (∀ f, update_job rid (to_varchar 512 (env_exn_str e);; to_varchar 64 (exn_name e);; mret tt) f s
                 = (Raise DataError, s)) as Hu.
    { intros f. unfold update_job, mbind, prog_bind, query, gets. cbn. rewrite Hr.
      unfold to_varchar. by rewrite Hlen. }
    destruct (retry_job _ _ _); cbn [raise_if]; erewrite bind_raise; [done| |done|];
      (erewrite bind_ok by reflexivity); apply Hu.
  - destruct (retry_job _ _ _); cbn [raise_if]; erewrite bind_ok; [done| |done|];
      (erewrite bind_ok by reflexivity); by eapply update_job_found, job_checks.
Qed.

(** What other jobs see: nothing. *)
Definition others_same (rid : UUID) (s s' : Session) : Prop :=
  ∀ i, i ≠ rid → job_at i s' = job_at i s.

Lemma run_job_case w job rid r s o s2 res s' :
  persisted s → named (ses_db s) → job_at rid s = Some r →
  execute_order_fulfillment max_failures (fj_order_id job) (fj_recipient job) (fj_attempt_number job) s
    = (o, s2) →
  in_session (run_job max_failures max_retries w job (Some rid)) s = (res, s') →
  job_case w job rid r s' o res ∧ others_same rid s s' ∧ persisted s'
  ∧ (is_ok res = true → same_funds s2 s').
Proof.
  intros Hp Hn Hr He. rewrite in_session_state. intros [= <- <-].
  assert (both (jobs_are (jobs (ses_db s))) s2) as [[Hj _] [Hjc _]].
  { assert (both (jobs_are (jobs (ses_db s))) s) as Hs by (split; [done|]; unfold persisted in Hp; by rewrite Hp).
    pose proof (kept_execute (jobs_are (jobs (ses_db s))) max_failures (fj_order_id job) (fj_recipient job)
                  (fj_attempt_number job) s Hs) as Hk. by rewrite He in Hk. }
  assert (job_at rid s2 = Some r) as Hr2 by (by rewrite Hj).
  assert (∀ f, (∀ x, job_id (f x) = job_id x) →
    get_row rid (update_row rid f (jobs (ses_db s2))) = Some (f r)
    ∧ ∀ i, i ≠ rid → get_row i (update_row rid f (jobs (ses_db s2))) = job_at i s) as Hup.
  { intros f Hf. split; [by apply get_update_found|]. intros i Hi. rewrite Hj.
    by apply get_update_ne. }
  unfold run_job, catch. destruct o as [a|e].
  - erewrite bind_ok by exact He. cbv beta iota.
    erewrite (bind_ok (now ≫= _)); [|unfold now, gets, mbind, prog_bind; by apply (update_job_found _ _ _ _ r)].
    destruct (Hup (λ r, r <| job_status := JobCompleted |> <| job_completed_at := Some (env_clock (ses_draws s2)) |>))
      as [Hsame Hothers]; [done|]. split; [|split; [|done]].
    + by eapply JobDone.
    + intros i Hi. by apply Hothers.
  - erewrite bind_raise by exact He. cbv beta iota. unfold mbind, prog_bind.
    rewrite (job_failed_spec _ _ _ r) by done. destruct (unrecordable e) eqn:Hu; cbn [fst snd].
    + split; [|split; [|done]].
      * apply JobStuck; [done|]. cbn. by rewrite Hjc.
      * intros i Hi. cbn. by rewrite Hjc.
    + destruct (Hup (λ r, failed_record r job e)) as [Hsame Hothers]; [intros x; apply in_failed_record|].
      split; [|split; [|done]]; [by apply JobFailedOnce|]. intros i Hi. by apply Hothers.
Qed.

(** The claim: one row goes from [QUEUED] to [RUNNING], in the committed
    version too. *)
Lemma claim_job_state rid s :
  claim_job rid s
  = (Ok (0 <? rowcount (claims_job rid) (jobs (ses_db s)))%nat,
     let d := (ses_db s) <| jobs ::= update_where (claims_job rid)
                (λ r, r <| job_status := JobRunning |> <| job_locked_at := Some (env_clock (ses_draws s)) |>) |> in
     s <| ses_db := d |> <| ses_committed := d |>).
Proof. reflexivity. Qed.

Definition locked (r : FulfillmentJobRecord) (n : Z) : FulfillmentJobRecord :=
  r <| job_status := JobRunning |> <| job_locked_at := Some n |>.

Lemma claim_rows rid r s :
  NoDup (job_id <$> jobs (ses_db s)) → job_at rid s = Some r →
  ∀ x, x ∈ jobs (ses_db s) → job_id x = rid → x = r.
Proof.
  intros Hnd [Hr Hid]%get_row_Some x Hx Hxid. eapply NoDup_fmap_inj; [exact Hnd|done..|].
  unfold row_id, FulfillmentJobRecord_row in Hid. congruence.
Qed.

(** A job that is not queued is left alone. *)
Lemma claim_refused rid r s :
  NoDup (job_id <$> jobs (ses_db s)) → job_at rid s = Some r → job_status r ≠ JobQueued → persisted s →
  claim_job rid s = (Ok false, s).
Proof.
  intros Hnd Hr Hst Hp. pose proof (claim_rows rid r s Hnd Hr) as Hrow.
  assert (∀ x, x ∈ jobs (ses_db s) → claims_job rid x = false) as Hno.
  { intros x Hx. unfold claims_job. case_bool_decide as Hid; [|done]. rewrite (Hrow x Hx Hid).
    by rewrite bool_decide_eq_false_2. }
  rewrite claim_job_state. unfold rowcount. rewrite (proj2 (select_nil _ _)) by done. cbn [length Nat.ltb Nat.leb].
  assert (∀ f, update_where (claims_job rid) f (jobs (ses_db s)) = jobs (ses_db s)) as Hid
    by (intros f; apply update_where_id; intros x Hx Hc; by rewrite Hno in Hc).
  clear -Hp Hid. unfold persisted in Hp. destruct s as [d c dr se]. cbn -[update_where] in *. subst c.
  destruct d. cbn -[update_where] in *. by rewrite Hid.
Qed.

(** A queued job is claimed. *)
Lemma claim_granted rid r s :
  NoDup (job_id <$> jobs (ses_db s)) → job_at rid s = Some r → job_status r = JobQueued →
  (claim_job rid s).1 = Ok true
  ∧ job_at rid (claim_job rid s).2 = Some (locked r (env_clock (ses_draws s)))
  ∧ others_same rid s (claim_job rid s).2
  ∧ persisted (claim_job rid s).2 ∧ orders (ses_db (claim_job rid s).2) = orders (ses_db s).
Proof.
  intros Hnd Hr Hst. pose proof (claim_rows rid r s Hnd Hr) as Hrow.
  assert (∀ f, update_where (claims_job rid) f (jobs (ses_db s)) = update_row rid f (jobs (ses_db s))) as Hup.
  { intros f. apply List.map_ext_in. intros x Hx%list_elem_of_In. unfold claims_job, row_id, FulfillmentJobRecord_row.
    case_bool_decide as Hid; [|done]. rewrite (Hrow x Hx Hid), bool_decide_eq_true_2; done. }
  rewrite claim_job_state. cbn [fst snd]. cbn -[rowcount update_where Nat.ltb].
  split_and!; [|rewrite Hup; by apply (get_update_found rid (λ r, locked r _))| |done..].
  - f_equal. apply Nat.ltb_lt. unfold rowcount. pose proof Hr as [Hin Hid]%get_row_Some.
    assert (r ∈ select (claims_job rid) (jobs (ses_db s))) as Hs.
    { apply elem_of_select. split; [done|]. unfold claims_job. rewrite !bool_decide_eq_true_2; done. }
    destruct (select _ _); [by apply elem_of_nil in Hs|cbn; lia].
  - intros i Hi. cbn -[update_where]. rewrite Hup. by apply get_update_ne.
Qed.

End job.

Lemma process_job_spec `{HE : Env} `{Adapters} max_failures max_retries w job rid r s res s' :
  Serial HE → persisted s → named (ses_db s) → NoDup (job_id <$> jobs (ses_db s)) →
  fj_job_id job = Some rid → job_at rid s = Some r →
  _process_job max_failures max_retries w job s = (res, s') →
  persisted s' ∧ others_same rid s s'
  ∧ if job_status r == JobQueued
    then let '(o, s2) := execute_order_fulfillment max_failures (fj_order_id job) (fj_recipient job)
                           (fj_attempt_number job) (claim_job rid s).2 in
         job_case max_retries w job rid (locked r (env_clock (ses_draws s))) s' o res
         ∧ (is_ok res = true → same_funds s2 s')
    else res = Ok (None, w) ∧ s' = s.
Proof.
  intros HS Hp Hn Hnd Hjob Hr Hrun. unfold _process_job in Hrun. rewrite Hjob, in_session_state in Hrun.
  case_bool_decide as Hst.
  - destruct (claim_granted rid r s Hnd Hr Hst) as (Hok & Hr1 & Hoth & Hp1 & Ho1).
    assert (claim_job rid s = (Ok true, (claim_job rid s).2)) as Hclaim
      by (rewrite <- Hok; apply surjective_pairing).
    set (s1 := (claim_job rid s).2) in *.
    destruct (execute_order_fulfillment max_failures (fj_order_id job) (fj_recipient job)
                (fj_attempt_number job) s1) as [o s2] eqn:He.
    rewrite (bind_ok _ _ _ _ _ (eq_refl : (mret (Some rid) : M _) s = _)) in Hrun. cbv beta iota in Hrun.
    rewrite (bind_ok _ _ _ _ _ Hclaim) in Hrun. cbv beta iota in Hrun.
    rewrite <- in_session_state in Hrun.
    destruct (run_job_case max_failures max_retries w job rid (locked r (env_clock (ses_draws s))) s1 o s2 res s' Hp1)
      as (Hcase & Hoth' & Hp' & Hfunds); try done.
    split_and!; [done| |done..]. intros i Hi. by rewrite Hoth', Hoth.
  - rewrite (bind_ok _ _ _ _ _ (eq_refl : (mret (Some rid) : M _) s = _)) in Hrun. cbv beta iota in Hrun.
    rewrite (bind_ok _ _ _ _ _ (claim_refused rid r s Hnd Hr Hst Hp)) in Hrun. injection Hrun as <- <-.
    unfold persisted in Hp. destruct s as [d c dr se]. cbn in Hp. subst c. done.
Qed.

(** Processing a job.  A job is run only by the worker that moves its
    record from [QUEUED] to [RUNNING]: any other finds it taken, and nothing
    changes and nobody is called.  The claimed job makes one attempt and ends in
    exactly one of these ways: the attempt returned and the record is
    [COMPLETED]; it raised an error that is retryable before the last try, the
    record is [QUEUED] again with the next attempt number, and the job is back
    in memory; any other error puts the record and the job in the dead letters,
    with the error written down.  Only when the session was poisoned by a
    refused flush, or the error text does not fit, does it raise and the record
    stays [RUNNING].  The money is where the attempt left it, records of other
    jobs never change, and everything is committed. *)
Theorem job_processed `{HE : Env} `{Adapters} max_failures max_retries w job rid r s res s' :
  Serial HE → persisted s → named (ses_db s) → NoDup (job_id <$> jobs (ses_db s)) →
  fj_job_id job = Some rid → job_at rid s = Some r →
  _process_job max_failures max_retries w job s = (res, s') →
  persisted s' ∧ others_same rid s s'
  ∧ if job_status r == JobQueued
    then let '(o, s2) := execute_order_fulfillment max_failures (fj_order_id job) (fj_recipient job)
                           (fj_attempt_number job) (claim_job rid s).2 in
         job_case max_retries w job rid (locked r (env_clock (ses_draws s))) s' o res
         ∧ (is_ok res = true → same_funds s2 s')
    else res = Ok (None, w) ∧ s' = s.
Proof. apply process_job_spec. Qed.

Definition queued_session : Session :=
  @run_shop_event demo_env failing_adapters 3 (λ _, None) 1200 paid_session
    (EvEnqueue no_jobs (mk_uuid "order-1") "buyer" 1 (Some (mk_uuid "job-1"))).

Definition demo_job : FulfillmentJob :=
  MkFulfillmentJob (mk_uuid "order-1") "buyer" 1 None (Some (mk_uuid "job-1")).

Definition demo_record : FulfillmentJobRecord :=
  MkFulfillmentJobRecord (mk_uuid "job-1") (mk_uuid "tenant") (mk_uuid "order-1") "buyer" 1 JobQueued [] None
    None 0 None None 0.

(** The suppliers of the demo are out of stock. *)
Definition empty_adapters : Adapters := {|
  reg_definitions := @reg_definitions demo_adapters;
  reg_config_validator _ := None;
  reg_capability_resolver _ := None;
  reg_credential_resolver _ := None;
  get_secret _ := None;
  client_create_order _ _ _ _ := Raise (provider_exn ProviderProductUnavailableError);
  client_get_order _ _ _ _ := Raise (provider_exn ProviderError);
  score_rank _ w := w;
|}.

Definition processed_demo : outcome exn (option FulfillmentAttempt * Worker) * Session :=
  @_process_job demo_env empty_adapters 3 3 no_jobs demo_job queued_session.

Lemma job_processed_witness :
  map job_status (jobs (ses_db processed_demo.2)) = [JobQueued]
  ∧ map job_attempt_number (jobs (ses_db processed_demo.2)) = [2]
  ∧ persisted processed_demo.2 ∧ others_same (mk_uuid "job-1") queued_session processed_demo.2
  ∧ if job_status demo_record == JobQueued
    then let '(o, s2) := @execute_order_fulfillment demo_env empty_adapters 3 (fj_order_id demo_job)
                           (fj_recipient demo_job) (fj_attempt_number demo_job)
                           (@claim_job demo_env (mk_uuid "job-1") queued_session).2 in
         @job_case demo_env 3 no_jobs demo_job (mk_uuid "job-1")
           (locked demo_record (@env_clock demo_env (ses_draws queued_session)))
           processed_demo.2 o processed_demo.1
         ∧ (is_ok processed_demo.1 = true → same_funds s2 processed_demo.2)
    else processed_demo.1 = Ok (None, no_jobs) ∧ processed_demo.2 = queued_session.
Proof.
  split; [vm_compute; reflexivity|]. split; [vm_compute; reflexivity|].
  refine (@job_processed demo_env empty_adapters 3 3 no_jobs demo_job (mk_uuid "job-1")
    demo_record queued_session processed_demo.1 processed_demo.2 demo_env_serial _ _ _ _ _ _).
  - vm_compute. reflexivity.
  - vm_compute. repeat constructor. discriminate.
  - vm_compute. repeat constructor. intros Hin. by apply elem_of_nil in Hin.
  - reflexivity.
  - vm_compute. reflexivity.
  - unfold processed_demo. exact (surjective_pairing _).
Defined.

(** ** The retries end *)

(** How often a job can still be tried. *)
Definition tries_left (max_retries : Z) (job : FulfillmentJob) : nat :=
  Z.to_nat (Z.max 1 (max_retries - fj_attempt_number job + 1)).

Definition workload (max_retries : Z) (w : Worker) : nat :=
  list_sum (map (tries_left max_retries) (wk_queue w)).

(** [process_one_now] until the queue is empty. *)
Fixpoint drain `{Env} `{Adapters} (max_failures max_retries : Z) (fuel : nat) (w : Worker) : M Worker :=
  match fuel with
  | O => mret w
  | S fuel =>
      match wk_queue w with
      | [] => mret w
      | _ => x ← process_one_now max_failures max_retries w; drain max_failures max_retries fuel x.2
      end
  end.

Section drain.
  Context `{HE : Env} `{Adapters} (max_failures max_retries : Z).

Lemma tries_left_pos job : (1 ≤ tries_left max_retries job)%nat.
Proof. unfold tries_left. lia. Qed.

Lemma enqueue_workload w job :
  (workload max_retries (enqueue_persisted_job w job).2 ≤ workload max_retries w + tries_left max_retries job)%nat.
Proof.
  unfold enqueue_persisted_job, workload.
  destruct (fj_job_id job) as [i|]; [destruct (existsb _ _); [cbn; lia|]|];
    cbn; rewrite List.map_app, list_sum_app; cbn; lia.
Qed.

(** A failed job comes back with one try less, or not at all. *)
Lemma job_failed_workload w job rid e s w' s' :
  job_failed max_retries w job rid e s = (Ok w', s') →
  (workload max_retries w' + 1 ≤ workload max_retries w + tries_left max_retries job)%nat.
Proof.
  intros Hr. unfold job_failed in Hr. destruct (retry_job max_retries job e) eqn:Hretry.
  - cbv zeta in Hr. apply bind_inv_ok in Hr as (u & s1 & _ & Hr).
    apply bind_inv_ok in Hr as (x & s2 & Hx & [[= ->] _]%ret_inv).
    unfold enqueue in Hx. apply bind_inv_ok in Hx as (j & s3 & [[= ->] _]%ret_inv & [[= ->] _]%ret_inv).
    cbn [snd]. etrans; [apply Nat.add_le_mono_r, enqueue_workload|].
    unfold retry_job in Hretry. destruct (as_provider_error e) as [[b ?]|]; [|done].
    apply andb_true_iff in Hretry as [_ Hlt%Z.ltb_lt]. unfold tries_left. cbn. lia.
  - apply bind_inv_ok in Hr as (u & s1 & _ & [[= ->] _]%ret_inv).
    pose proof (tries_left_pos job). unfold workload. cbn -[list_sum]. lia.
Qed.

Lemma process_workload w job s x s' :
  _process_job max_failures max_retries w job s = (Ok x, s') →
  (workload max_retries x.2 + 1 ≤ workload max_retries w + tries_left max_retries job)%nat.
Proof.
  assert (∀ rid s x s', run_job max_failures max_retries w job rid s = (Ok x, s') →
    (workload max_retries x.2 + 1 ≤ workload max_retries w + tries_left max_retries job)%nat) as Hrun.
  { clear. intros rid s x s' [Hr|(e & s1 & _ & Hr)]%catch_inv_ok.
    - apply bind_inv_ok in Hr as (a & s1 & _ & Hr). apply bind_inv_ok in Hr as (u & s2 & _ & [[= ->] _]%ret_inv).
      pose proof (tries_left_pos job). cbn. lia.
    - apply bind_inv_ok in Hr as (w' & s2 & Hw & [[= ->] _]%ret_inv). by eapply job_failed_workload. }
  unfold _process_job. rewrite in_session_state. intros [= Hr _].
  match type of Hr with (?m s).1 = _ => destruct (m s) as [o s1] eqn:Hm end. cbn in Hr. subst o.
  apply bind_inv_ok in Hm as ([i|] & s2 & _ & Hm); [|by eapply Hrun].
  apply bind_inv_ok in Hm as ([] & s3 & _ & Hm); [by eapply Hrun|].
  apply ret_inv in Hm as [[= ->] _]. pose proof (tries_left_pos job). cbn. lia.
Qed.

Lemma process_one_total w s :
  ∃ x s', process_one_now max_failures max_retries w s = (Ok x, s')
    ∧ (wk_queue w ≠ [] → workload max_retries x.2 < workload max_retries w)%nat.
Proof.
  unfold process_one_now, dequeue. destruct (wk_queue w) as [|job rest] eqn:Hq; [eexists _, _; by split|].
  set (w1 := w <| wk_queue := rest |> <| wk_queued_ids ::= _ |>).
  assert (workload max_retries w = tries_left max_retries job + workload max_retries w1)%nat as ->
    by (unfold workload; by rewrite Hq).
  pose proof (tries_left_pos job).
  unfold catch, mbind, prog_bind. destruct (_process_job _ _ _ _ s) as [[x|e] s1] eqn:Hp.
  - eexists _, _. split; [reflexivity|]. intros _. apply process_workload in Hp. cbn [snd]. lia.
  - eexists _, _. split; [reflexivity|]. intros _. cbn [snd]. lia.
Qed.

Lemma drain_empty fuel w s :
  (workload max_retries w ≤ fuel)%nat →
  ∃ w' s', drain max_failures max_retries fuel w s = (Ok w', s') ∧ wk_queue w' = [].
Proof.
  revert w s. induction fuel as [|fuel IH]; intros w s Hf; cbn [drain].
  - exists w, s. split; [done|]. destruct (wk_queue w) as [|job rest] eqn:Hq; [done|].
    unfold workload in Hf. rewrite Hq in Hf. cbn in Hf. pose proof (tries_left_pos job). lia.
  - destruct (process_one_total w s) as (x & s1 & Hx & Hlt).
    destruct (wk_queue w) as [|job rest] eqn:Hq; [by eauto|].
    rewrite (bind_ok _ _ _ _ _ Hx). apply IH. specialize (Hlt ltac:(done)). lia.
Qed.

End drain.


(** ** Retries and refunds *)

(** The worker retries only what the service left for another attempt. *)
Lemma retry_not_final max_retries job e :
  max_retries ≤ 3 → retry_job max_retries job (reraised e) = true →
  is_final (fj_attempt_number job) e = false.
Proof.
  intros Hmax Hr. unfold retry_job, reraised, is_final in *.
  destruct (as_provider_error e) as [[b f]|] eqn:He; [|done]. rewrite He in Hr.
  apply andb_true_iff in Hr as [-> Hlt%Z.ltb_lt]. unfold failure_retryable, exn_is_retryable at 1.
  rewrite He. cbn. rewrite (proj2 (Z.ltb_lt _ _)); [done|lia].
Qed.

Lemma retry_provider_error max_retries job e :
  retry_job max_retries job e = true → as_provider_error e ≠ None.
Proof. unfold retry_job. by destruct (as_provider_error e). Qed.

(** A refunded order is not bought again.  When the worker has processed a
    job and put it back in the queue for another attempt, the attempt it made
    moved no money: no ledger entry was written and no balance changed.  So the
    worker never schedules an attempt for an order that the failed attempt
    refunded, provided it makes no more tries than the three after which the
    fulfillment service refunds. *)
Theorem retry_means_no_refund `{HE : Env} `{Adapters} max_failures max_retries w job rid r s res s' r' :
  Serial HE → max_retries ≤ 3 → uuid_str (fj_order_id job) ≠ "" →
  persisted s → named (ses_db s) → NoDup (job_id <$> jobs (ses_db s)) →
  fj_job_id job = Some rid → job_at rid s = Some r → job_status r = JobQueued →
  _process_job max_failures max_retries w job s = (res, s') →
  job_at rid s' = Some r' → job_status r' = JobQueued → same_funds s s'.
Proof.
  intros HS Hmax Hid Hp Hn Hnd Hjob Hr Hst Hrun Hr' Hst'.
  destruct (process_job_spec _ _ _ _ _ _ _ _ _ HS Hp Hn Hnd Hjob Hr Hrun) as (_ & _ & Hcase).
  rewrite bool_decide_eq_true_2 in Hcase by done.
  destruct (execute_order_fulfillment _ _ _ _ _) as [o s2] eqn:He. destruct Hcase as [Hcase Hfunds].
  destruct Hcase as [a n Hrow|e _ Hrow|e e' _ Hrow]; rewrite Hrow in Hr'; injection Hr' as <-; [done| |done].
  destruct (retry_job max_retries job e) eqn:Hretry; [|unfold failed_record in Hst'; by rewrite Hretry in Hst'].
  apply (same_funds_trans s s2); [|by apply Hfunds].
  apply execute_cases in He as [[_ ->]|(order & _ & Hcase)]; [done| |done..].
  inversion Hcase as [| | | |? ? Hfin ? Hsf|? ? Hfin|? ? Hnone]; subst.
  - exact Hsf.
  - by rewrite (retry_not_final max_retries) in Hfin.
  - by apply retry_provider_error in Hretry.
Qed.

Lemma retry_means_no_refund_witness : same_funds queued_session processed_demo.2.
Proof.
  refine (@retry_means_no_refund demo_env empty_adapters 3 3 no_jobs demo_job (mk_uuid "job-1")
    demo_record queued_session processed_demo.1 processed_demo.2
    (default demo_record (job_at (mk_uuid "job-1") processed_demo.2)) demo_env_serial
    _ _ _ _ _ eq_refl _ eq_refl _ _ _).
  - lia.
  - discriminate.
  - vm_compute. reflexivity.
  - vm_compute. repeat constructor. discriminate.
  - vm_compute. repeat constructor. intros Hin. by apply elem_of_nil in Hin.
  - vm_compute. reflexivity.
  - unfold processed_demo. exact (surjective_pairing _).
  - vm_compute. reflexivity.
  - vm_compute. reflexivity.
Defined.
