(* ===== verification/UpstreamSpec.v ===== *)
(** * Upstream reconciliation: properties

    What each report of a reconciled attempt says about the database, and two
    behaviours that the reports hide. *)

From Stdlib Require Import ZArith Lia Ascii String.
From stdpp Require Import base tactics list option strings numbers pretty.
From S2P Require Import Prelude Tables Text Money Exceptions StateMachines Models Ledger.
From S2P Require Import LedgerInv LedgerSpec DepositsSpec Profiles Pricing Router RouterSpec.
From S2P Require Import Fulfillment FulfillmentSpec Payments Reversals Upstream FulfillmentWorker.
From S2P Require Import FulfillmentHistory.

Local Open Scope Z_scope.

(** Nothing the reports talk about changes. *)
Record quiet (s s' : Session) : Prop := {
  qt_wallets : wallets (ses_db s') = wallets (ses_db s);
  qt_ledger : ledger (ses_db s') = ledger (ses_db s);
  qt_orders : orders (ses_db s') = orders (ses_db s);
  qt_attempts : attempts (ses_db s') = attempts (ses_db s);
  qt_committed : ses_committed s' = ses_committed s;
}.

Global Instance quiet_preorder : PreOrder quiet.
Proof. split; [by intros s; split|]. intros x y z [] []. split; congruence. Qed.

Abbreviation order_at i s := (get_row i (orders (ses_db s))).

(** What a report promises about the order and the attempt it is about. *)
Inductive verdict (order : Order) (aid : UUID) (s s' : Session) : Issue → Prop :=
  | VerdictCompleted :
      persisted s' → order_status <$> order_at (order_id order) s' = Some OrderFulfilled →
      att_status <$> attempt_of aid s' = Some FulSucceeded → same_funds s s' →
      verdict order aid s s' OutOfSyncResolved
  | VerdictRefunded issue :
      issue = UpstreamFailedResolved ∨ issue = ActivationTimedOutRefunded →
      persisted s' → order_status <$> order_at (order_id order) s' = Some OrderFailed →
      att_status <$> attempt_of aid s' = Some FulFailed →
      refund_on_record order s' → funds_still s s' ∨ refund_made order s s' →
      verdict order aid s s' issue
  | VerdictPending :
      persisted s' → orders (ses_db s') = orders (ses_db s) → same_funds s s' →
      att_status <$> attempt_of aid s' = Some FulUnknown
      ∨ att_status <$> attempt_of aid s' = Some FulProcessing →
      verdict order aid s s' UpstreamStillPending
  | VerdictFailed :
      ses_committed s' = ses_committed s → verdict order aid s s' ProviderQueryFailed.

(** The outcome of the [try] block: a verdict, or nothing committed. *)
Definition judged (order : Order) (aid : UUID) (s : Session) (o : outcome exn Issue) (s' : Session) : Prop :=
  match o with
  | Ok issue => issue ≠ ProviderQueryFailed ∧ verdict order aid s s' issue
  | Raise _ => ses_committed s' = ses_committed s
  end.

(** The session while the block has not committed: only attempts differ. *)
Record pending (aid : UUID) (s s1 : Session) : Prop := {
  pn_funds : same_funds s s1;
  pn_orders : orders (ses_db s1) = orders (ses_db s);
  pn_committed : ses_committed s1 = ses_committed s;
  pn_attempt : is_some (attempt_of aid s1) = true;
}.

Section cases.
  Context `{HE : Env} `{!Serial HE} `{Adapters}.
  Context (float_of : string → option Z) (timeout : Z).
  Context (order : Order) (aid : UUID) (s : Session).

Lemma pending_quiet s1 s2 : pending aid s s1 → quiet s1 s2 → pending aid s s2.
Proof.
  intros [[Hw Hl] Ho Hc Ha] [Qw Ql Qo Qa Qc]. split; [split|..]; congruence.
Qed.

Lemma pending_update s1 f :
  (∀ a, att_id (f a) = att_id a) → pending aid s s1 →
  pending aid s (s1 <| ses_db ::= λ d, d <| attempts ::= update_row aid f |> |>).
Proof.
  intros Hf [[Hw Hl] Ho Hc Ha]. split; [done..|]. cbn. by rewrite is_some_update_row.
Qed.

Lemma status_updated s1 f st :
  (∀ a, att_id (f a) = att_id a) → (∀ a, att_status (f a) = st) → is_some (attempt_of aid s1) = true →
  att_status <$> get_row aid (update_row aid f (attempts (ses_db s1))) = Some st.
Proof.
  intros Hf Hst Ha. rewrite get_update_same by done. destruct (attempt_of aid s1); [|done]. cbn. by rewrite Hst.
Qed.

Lemma status_unchanged f t st :
  (∀ a, att_id (f a) = att_id a) → (∀ a, att_status (f a) = att_status a) →
  att_status <$> get_row aid t = Some st → att_status <$> get_row aid (update_row aid f t) = Some st.
Proof.
  intros Hf Hst Ha. rewrite get_update_same by done. destruct (get_row aid t); [|done]. cbn in *. by rewrite Hst.
Qed.

Lemma order_moved st t :
  get_row (order_id order) t = Some order →
  order_status <$> get_row (order_id order)
    (update_row (order_id order) (λ o, o <| order_status := st |>) t) = Some st.
Proof. intros Hrow. rewrite get_update_same by done. by rewrite Hrow. Qed.

Lemma quiet_attribute i p c k : steps quiet (attribute_actual_cost i p c k).
Proof. unfold attribute_actual_cost. steps_walk. all: by intros s1; split. Qed.

Lemma quiet_get_order p target : steps quiet (Upstream.get_order p target).
Proof.
  unfold Upstream.get_order. apply steps_bind; [typeclasses eauto| |intros config].
  - intros s1. by rewrite <- (config_reads p s1).
  - steps_walk. all: by intros s1; split.
Qed.

(** Waiting goes on. *)
Lemma keep_waiting_case check s1 :
  pending aid s s1 → wp (keep_waiting aid check) (judged order aid s) s1.
Proof.
  intros [[Hw Hl] Ho Hc Ha]. unfold keep_waiting. cbv zeta. eapply wp_step; [reflexivity|].
  eapply wp_step; [reflexivity|]. apply wp_ret. split; [done|].
  apply VerdictPending; [done|done|done|]. destruct (_ == _); [left|right]; by apply status_updated.
Qed.

(** The failure and the refund. *)
Lemma fail_and_refund_case cl desc issue s1 :
  uuid_str (order_id order) ≠ "" → order_at (order_id order) s = Some order →
  issue = UpstreamFailedResolved ∨ issue = ActivationTimedOutRefunded →
  pending aid s s1 → wp (fail_and_refund order aid cl desc issue) (judged order aid s) s1.
Proof.
  intros Hid Hrow Hissue [[Hw Hl] Ho Hc Ha]. unfold fail_and_refund. eapply wp_step; [reflexivity|].
  set (s2 := s1 <| ses_db ::= _ |>).
  assert (att_status <$> attempt_of aid s2 = Some FulFailed) as Hst by (by apply status_updated).
  apply wp_bind, wp_intro. intros r s3 Hr. apply (wp_run _ _ _ _ _ (transition_order_effect _ _ s2)) in Hr.
  destruct r as [u|e]; [|by destruct Hr as [-> _]].
  assert (ses_committed s3 = ses_committed s ∧ wallets (ses_db s3) = wallets (ses_db s)
          ∧ ledger (ses_db s3) = ledger (ses_db s) ∧ attempts (ses_db s3) = attempts (ses_db s2))
    as (Hc3 & Hw3 & Hl3 & Ha3) by (by subst s3).
  assert (order_status <$> order_at (order_id order) s3 = Some OrderFailed) as Ho3.
  { subst s3. apply order_moved. by rewrite <- Hrow, <- Ho. }
  clear Hr. apply wp_repay; [done|..].
  - intros s4 [Hc4 Ha4 Ho4 Hm Hrec]. do 2 (eapply wp_step; [reflexivity|]). apply wp_ret.
    split; [by destruct Hissue as [->| ->]|]. apply VerdictRefunded; [done|done|by cbn; rewrite Ho4| | |].
    + cbn. by rewrite Ha4, Ha3.
    + by apply Hrec.
    + unfold funds_still, refund_made, find_entry in *. cbn. by rewrite Hw3, Hl3 in Hm.
  - intros e s4 [Hc4 _ _ _ _]. cbn. congruence.
Qed.

(** Completed upstream. *)
Lemma complete_case check s1 :
  order_at (order_id order) s = Some order → pending aid s s1 →
  wp (complete_attempt order aid check) (judged order aid s) s1.
Proof.
  intros Hrow Hp. unfold complete_attempt. apply wp_bind, wp_catch.
  assert (∀ s2, ses_committed s2 = ses_committed s →
    ∀ e, wp (match e with DataError | IntegrityError => rollback;; mthrow PendingRollbackError | _ => mthrow e end)
            (λ (r : outcome exn unit) s', match r with
               | Ok a => wp (notify NotifyFulfillmentSucceeded order;; mret OutOfSyncResolved) (judged order aid s) s'
               | Raise e => judged order aid s (Raise e) s'
               end) s2) as Hhandler by (intros s2 Hc []; exact Hc).
  eapply wp_step; [reflexivity|]. set (s2 := s1 <| ses_db ::= _ |>).
  assert (pending aid s s2) as Hp2 by (by apply pending_update).
  assert (att_status <$> attempt_of aid s2 = Some FulSucceeded) as Hst2.
  { apply status_updated; [done..|by destruct Hp]. }
  apply wp_bind, wp_intro. intros r3 s3 Hr3.
  assert (r3 = Ok tt ∧ pending aid s s3 ∧ att_status <$> attempt_of aid s3 = Some FulSucceeded) as (-> & Hp3 & Hst3).
  { destruct (check_external_order_id check != "").
    - apply write_inv in Hr3 as [-> ->]. split_and!; [done|by apply pending_update|].
      by apply status_unchanged.
    - by apply ret_inv in Hr3 as [-> ->]. }
  clear Hr3. pose proof Hp3 as [[Hw3 Hl3] Ho3 Hc3 Ha3].
  apply wp_bind, wp_intro. intros r4 s4 Hr4.
  assert (match r4 with
          | Ok _ => order_status <$> order_at (order_id order) s4 = Some OrderFulfilled
          | Raise _ => True end
          ∧ same_funds s s4 ∧ ses_committed s4 = ses_committed s ∧ attempts (ses_db s4) = attempts (ses_db s3))
    as (Ho4 & [Hw4 Hl4] & Hc4 & Ha4).
  { case_bool_decide as Hf; cbn [negb] in Hr4.
    - apply ret_inv in Hr4 as [-> ->]. split_and!; try done. by rewrite Ho3, Hrow, <- Hf.
    - apply (wp_run _ _ _ _ _ (transition_order_effect _ _ s3)) in Hr4. destruct r4 as [u|e].
      + subst s4. split_and!; try done. apply order_moved. by rewrite Ho3.
      + by destruct Hr4 as [-> _]. }
  destruct r4 as [u|e]; [|by apply Hhandler].
  apply wp_bind, wp_intro. intros r5 s5 Hr5.
  assert (s5 = s4) as -> by (symmetry; eapply (steps_run eq); [|exact Hr5]; unfold get_attempt; steps_walk).
  destruct r5 as [a|e]; [|by apply Hhandler]. clear Hr5. apply wp_bind, wp_intro. intros r6 s6 Hr6.
  assert (quiet s4 s6) as [Qw Ql Qo Qa Qc].
  { eapply steps_run; [|exact Hr6]. pose proof quiet_attribute. steps_walk. }
  destruct r6 as [u6|e]; [|apply Hhandler; congruence]. clear Hr6.
  apply wp_bind. eapply wp_mono; [apply flush_attempt_effect; by rewrite Qa, Ha4|].
  intros r7 s7 H7. destruct r7 as [u7|e]; [|destruct H7 as [_ ->]; apply Hhandler; congruence].
  destruct H7 as [amount ->]. unfold commit, modify. apply wp_intro. intros r8 s8 [= <- <-].
  eapply wp_step; [reflexivity|]. apply wp_ret. split; [done|].
  apply VerdictCompleted; [done|cbn; by rewrite Qo| |split; cbn; congruence].
  apply status_unchanged; [done..|]. by rewrite Qa, Ha4.
Qed.

Lemma apply_check_case a p target :
  uuid_str (order_id order) ≠ "" → order_at (order_id order) s = Some order →
  attempt_of aid s = Some a → att_id a = aid →
  wp (apply_check float_of timeout order a p target) (judged order aid s) s.
Proof.
  intros Hid Hrow Hat Ha. unfold apply_check. rewrite Ha. apply wp_bind, wp_intro. intros r s1 Hr.
  assert (pending aid s s1) as Hp.
  { eapply pending_quiet; [|by eapply (steps_run quiet); [apply quiet_get_order|exact Hr]].
    split; [done..|]. by rewrite Hat. }
  destruct r as [check|e]; [|by destruct Hp]. clear Hr. eapply wp_step; [reflexivity|].
  set (s2 := s1 <| ses_db ::= _ |>). assert (pending aid s s2) as Hp2 by (by apply pending_update).
  destruct (check_completed check); [by apply complete_case|].
  destruct (check_failed check); [apply fail_and_refund_case; auto|].
  apply wp_gets, wp_of_outcome; [|by intros e _; destruct Hp2]. intros limit _.
  destruct (_ && _); [|by apply keep_waiting_case].
  eapply wp_step; [reflexivity|]. apply fail_and_refund_case; auto.
  eapply pending_quiet; [exact Hp2|]. by split.
Qed.

End cases.

Lemma reconcile_cases `{HE : Env} `{!Serial HE} `{Adapters} fl nt aid s l poisoned s' :
  named (ses_db s) → _reconcile_attempt fl nt aid s = (Ok (l, poisoned), s') →
  s' = s ∧ Forall (λ d, disc_issue_type d = StuckWithoutExternalId) l ∧ poisoned = false
  ∨ ∃ order issue, order ∈ orders (ses_db s) ∧ l = report order issue ∧ verdict order aid s s' issue
    ∧ (poisoned = true → issue = ProviderQueryFailed).
Proof.
  intros Hn Hr. unfold _reconcile_attempt in Hr.
  apply bind_inv_ok in Hr as (a & s1 & Ha & Hr).
  assert (s1 = s ∧ attempt_of aid s = Some a) as [-> Hat].
  { unfold get_attempt in Ha. bind_query Ha. by apply of_option_ok in Ha as [? ->]. }
  bind_query Hr. destruct (get_row (att_order_id a) (orders (ses_db s))) as [order|] eqn:Ho.
  2: { apply ret_inv in Hr as [[= -> ->] ->]. left. by repeat constructor. }
  destruct (_ != _); [apply ret_inv in Hr as [[= -> ->] ->]; left; by repeat constructor|].
  apply bind_inv_ok in Hr as (op & s1 & Hp & Hr).
  assert (s1 = s) as -> by (symmetry; eapply (steps_run eq); [|exact Hp]; unfold provider_of; steps_walk).
  cbv zeta in Hr. assert (∀ l' : list ReconciliationDiscrepancy,
    (mret (if truthy (att_external_order_id a) then [] else report order StuckWithoutExternalId, false) : M _) s
      = (Ok (l, poisoned), s') →
    s' = s ∧ Forall (λ d, disc_issue_type d = StuckWithoutExternalId) l ∧ poisoned = false) as Hstuck.
  { intros _ [[= -> ->] ->]%ret_inv. split_and!; [done| |done]. destruct (truthy _); by repeat constructor. }
  destruct op as [p|]; [|left; by apply Hstuck]. destruct (_ != _); [|left; by apply Hstuck].
  pose proof Ho as [Hin Hoid]%get_row_Some. pose proof Hat as [_ Hid]%get_row_Some.
  unfold row_id, Order_row, FulfillmentAttempt_row in Hoid, Hid.
  assert (order_at (order_id order) s = Some order) as Hrow by (by rewrite Hoid).
  assert (uuid_str (order_id order) ≠ "") as Hname.
  { unfold named in Hn. rewrite List.Forall_forall in Hn. by apply Hn, List.in_map, list_elem_of_In. }
  pose proof (apply_check_case fl nt order aid s a p (query_target a) Hname Hrow Hat Hid) as Hcase.
  right. unfold wp, catch, mbind, prog_bind in *.
  destruct (apply_check fl nt order a p (query_target a) s) as [[issue|e] s1]; cbn in *; simplify_eq.
  - exists order, issue. by destruct Hcase.
  - apply ret_inv in Hr as [[= -> ->] ->].
    exists order, ProviderQueryFailed. split_and!; [done..|by apply VerdictFailed|done].
Qed.

(** Reports are true.  When an attempt is reconciled, the report says what
    happened and it has been committed.  A resolved report means that the order
    is [FULFILLED], the attempt [SUCCEEDED], and no money moved.  A failed or
    timed out report means that the order and the attempt are [FAILED] and the
    buyer's wallet has the refund of the order on record, made now by one entry
    of the order's total or before.  A pending report means that no money moved
    and no order changed.  A failed query commits nothing.  Without a supplier
    to ask, nothing changes at all. *)
Theorem reports_are_true `{HE : Env} `{Adapters} fl nt aid s l poisoned s' :
  Serial HE → named (ses_db s) → _reconcile_attempt fl nt aid s = (Ok (l, poisoned), s') →
  s' = s ∧ Forall (λ d, disc_issue_type d = StuckWithoutExternalId) l ∧ poisoned = false
  ∨ ∃ order issue, order ∈ orders (ses_db s) ∧ l = report order issue ∧ verdict order aid s s' issue
    ∧ (poisoned = true → issue = ProviderQueryFailed).
Proof. intros HS. apply reconcile_cases. Qed.

Definition dispatched_session : Session :=
  @run_shop demo_env failing_adapters 3 (λ _, None) 1200 (take 2 failing_events) paid_session.

Definition open_attempt : UUID := from_option att_id (mk_uuid "") (head (attempts (ses_db dispatched_session))).

Definition reconciled_demo : outcome exn (list ReconciliationDiscrepancy * bool) * Session :=
  @_reconcile_attempt demo_env failing_adapters (λ _, None) 1200 open_attempt dispatched_session.

Definition failed_report : list ReconciliationDiscrepancy :=
  [MkDiscrepancy (mk_uuid "order-1") "ORD-1" UpstreamFailedResolved].

Lemma reports_are_true_witness :
  reconciled_demo.1 = Ok (failed_report, false)
  ∧ map tx_amount (ledger (ses_db reconciled_demo.2)) = [cents 900]
  ∧ (reconciled_demo.2 = dispatched_session
       ∧ Forall (λ d, disc_issue_type d = StuckWithoutExternalId) failed_report ∧ false = false
     ∨ ∃ order issue, order ∈ orders (ses_db dispatched_session) ∧ failed_report = report order issue
         ∧ verdict order open_attempt dispatched_session reconciled_demo.2 issue
         ∧ (false = true → issue = ProviderQueryFailed)).
Proof.
  split; [vm_compute; reflexivity|]. split; [vm_compute; reflexivity|].
  refine (@reports_are_true demo_env failing_adapters (λ _, None) 1200 open_attempt dispatched_session
    failed_report false reconciled_demo.2 demo_env_serial _ _).
  - vm_compute. repeat constructor. discriminate.
  - vm_compute. reflexivity.
Defined.

(** ** What the reports hide *)

(** A supplier that delivers the first line of an order at once and has the
    second still pending. *)
Definition first_line_adapters : Adapters := {|
  reg_definitions := @reg_definitions demo_adapters;
  reg_config_validator _ := None;
  reg_capability_resolver _ := None;
  reg_credential_resolver _ := None;
  get_secret _ := None;
  client_create_order _ _ _ r :=
    Ok (if req_idempotency_key r == "order:order-1:attempt:1:item:item-1"
        then MkProviderOrderResponse "ext-1" OsCompleted (cents 500) [] []
        else MkProviderOrderResponse "ext-2" OsPending (cents 500) [] []);
  client_get_order _ _ _ t :=
    Ok (if t == "ext-1" then MkProviderOrderCheck t true false OsCompleted [] []
        else MkProviderOrderCheck t false false OsPending [] []);
  score_rank _ w := w;
|}.

Definition two_lines_db : DB :=
  paid_db <| order_items ::= λ l, l ++ [MkOrderItem (mk_uuid "item-2") (mk_uuid "order-1") (mk_uuid "variant") 1
                                          (cents 900) (cents 900) []] |>.

Definition two_lines_session (evs : list shop_event) : Session :=
  @run_shop demo_env first_line_adapters 3 (λ _, None) 1200 evs (MkSession two_lines_db two_lines_db 0 []).

Definition queries (l : list Sent) : list string :=
  omap (λ m, match m with SentQuery _ t => Some t | _ => None end) l.

(** One line stands for the whole order.  An order of two lines is
    dispatched: the supplier delivers the first and has the second pending, so
    the order rightly stays in [PROCESSING].  The next reconciliation asks about
    the first line only, which is complete, and makes the order [FULFILLED]
    although the second is still pending upstream and was never asked about. *)
Theorem first_line_fulfills_order :
  map order_status (orders (ses_db (two_lines_session [EvAttempt (mk_uuid "order-1") "buyer" 1]))) = [OrderProcessing]
  ∧ let s := two_lines_session [EvAttempt (mk_uuid "order-1") "buyer" 1; EvReconcilePass 200] in
    map order_status (orders (ses_db s)) = [OrderFulfilled] ∧ queries (ses_sent s) = ["ext-1"]
    ∧ ∀ sent p config, @client_get_order first_line_adapters sent p config "ext-2"
                       = Ok (MkProviderOrderCheck "ext-2" false false OsPending [] []).
Proof. split; [vm_compute; reflexivity|]. repeat split; vm_compute; reflexivity. Qed.

(** An order that costs nothing, which cannot be refunded, beside another. *)
Definition free_order_db : DB :=
  paid_db <| orders := [paid_order <| order_total_amount := 0 |>;
                        paid_order <| order_id := mk_uuid "order-2" |>] |>
          <| order_items ::= λ l, l ++ [MkOrderItem (mk_uuid "item-2") (mk_uuid "order-2") (mk_uuid "variant") 1
                                          (cents 900) (cents 900) []] |>.

Definition free_order_session (evs : list shop_event) : Session :=
  @run_shop demo_env failing_adapters 3 (λ _, None) 1200 evs (MkSession free_order_db free_order_db 0 []).

Definition two_attempts : list shop_event :=
  [EvAttempt (mk_uuid "order-1") "buyer" 1; EvAttempt (mk_uuid "order-2") "buyer" 1].

(** A report of no mutation is not kept in a batch.  Two orders failed
    upstream, and the first cannot be refunded because it cost nothing.  The
    pass reports for the first that the query failed and nothing was changed;
    but the order had been moved to [FAILED] when the refund raised, and the
    commit for the second order persists that. *)
Theorem failed_query_persisted :
  (λ x, map disc_issue_type x.1) <$>
    (match (@reconcile_active_attempts demo_env failing_adapters (λ _, None) 1200 200
              (free_order_session two_attempts)).1 with Ok x => Some x | Raise _ => None end)
    = Some [ProviderQueryFailed; UpstreamFailedResolved]
  ∧ map order_status (orders (ses_db (free_order_session two_attempts))) = [OrderProcessing; OrderProcessing]
  ∧ let s := free_order_session (two_attempts ++ [EvReconcilePass 200]) in
    map order_status (orders (ses_committed s)) = [OrderFailed; OrderFailed]
    ∧ map tx_reference_id (ledger (ses_committed s)) = [Some "order-2"].
Proof. split; [vm_compute; reflexivity|]. repeat split; vm_compute; reflexivity. Qed.
