(* ===== verification/Announcements.v ===== *)
(** * The announcement worker

    [packages/operations/worker.py], class [AnnouncementWorker], and the
    [cancel_announcement] handler of [apps/api/v1/admin_operations.py].  A
    cycle of the worker is three pieces, because others work between them: the
    transaction that sweeps and claims a delivery, the part of the second
    session that reads and calls Telegram, and the part that writes what came
    of it.  [run_once] composes them as the code does. *)

From Stdlib Require Import ZArith Lia.
From stdpp Require Import base tactics list option strings numbers.
From S2P Require Import Prelude Tables Text Money Exceptions StateMachines Models.
From S2P Require Import Operations Reversals.

Local Open Scope Z_scope.

(** What [self.sender] does: it returns the message id or raises
    [TelegramRetryAfter], one of [TelegramForbiddenError] and
    [TelegramBadRequest], or anything else. *)
Inductive send_result :=
  | Delivered (message_id : Z)
  | RetryAfter (retry_after : Z)
  | Rejected
  | SendFailed.

Class Sender := sender : list Sent → Bot → TenantTelegramUser → Announcement → send_result.

(** ** Deliveries of a campaign *)

Definition of_campaign (tenant_id announcement_id : UUID) (x : AnnouncementDelivery) : bool :=
  (deliv_tenant_id x == tenant_id) && (deliv_announcement_id x == announcement_id).

Definition is_pending (x : AnnouncementDelivery) : bool :=
  (deliv_status x == "QUEUED") || (deliv_status x == "RUNNING").

Definition is_failed (x : AnnouncementDelivery) : bool :=
  (deliv_status x == "UNKNOWN") || (deliv_status x == "FAILED").

Definition pending_count (tenant_id announcement_id : UUID) (d : DB) : nat :=
  rowcount (λ x, of_campaign tenant_id announcement_id x && is_pending x) (deliveries d).

Definition failed_count (tenant_id announcement_id : UUID) (d : DB) : nat :=
  rowcount (λ x, of_campaign tenant_id announcement_id x && is_failed x) (deliveries d).

(** [update(Announcement).where(..., status == "QUEUED").values(status=...)] *)
Definition finish_campaign (tenant_id announcement_id : UUID) (status : string) : M unit :=
  write (λ d, d <| announcements ::=
           update_where (λ a, (ann_tenant_id a == tenant_id) && (ann_id a == announcement_id)
                              && (ann_status a == "QUEUED"))
             (λ a, a <| ann_status := status |>) |>).

Definition close_campaign (tenant_id announcement_id : UUID) : M unit :=
  failed ← query (failed_count tenant_id announcement_id);
  finish_campaign tenant_id announcement_id (if (0 <? failed)%nat then "NEEDS_REVIEW" else "COMPLETED").

Section announcements.
  Context `{Env} `{Sender}.

(** ** The first session *)

Definition sweep_campaigns : M unit :=
  campaigns ← query (λ d, take 100 (select (λ a, (ann_status a == "QUEUED")
                 && (pending_count (ann_tenant_id a) (ann_id a) d =? 0)%nat) (announcements d)));
  for_each campaigns (λ a, close_campaign (ann_tenant_id a) (ann_id a)).

(** [status == "RUNNING", updated_at < now - timedelta(minutes=5)] *)
Definition is_stale (now : Z) (x : AnnouncementDelivery) : bool :=
  (deliv_status x == "RUNNING") && (deliv_updated_at x <? now - seconds 300).

Definition interrupt (now : Z) (x : AnnouncementDelivery) : M unit :=
  t ← Models.now;
  write (λ d, d <| deliveries ::=
           update_where (λ y, (deliv_tenant_id y == deliv_tenant_id x) && (deliv_id y == deliv_id x)
                              && is_stale now y)
             (λ y, y <| deliv_status := "UNKNOWN" |> <| deliv_error_code := Some "INTERRUPTED_SEND" |>
                     <| deliv_updated_at := t |>) |>);;
  pending ← query (pending_count (deliv_tenant_id x) (deliv_announcement_id x));
  if (pending =? 0)%nat
  then finish_campaign (deliv_tenant_id x) (deliv_announcement_id x) "NEEDS_REVIEW"
  else mret tt.

Definition sweep_stale (now : Z) : M unit :=
  stale ← query (λ d, take 100 (select (is_stale now) (deliveries d)));
  for_each stale (interrupt now).

Definition is_due (now : Z) (x : AnnouncementDelivery) : bool :=
  (deliv_status x == "QUEUED") && (deliv_next_attempt_at x <=? now).

Definition candidates (now : Z) (d : DB) : list AnnouncementDelivery :=
  take 10 (sort_by (then_by deliv_next_attempt_at (λ a b, uuid_leb (deliv_id a) (deliv_id b)))
             (select (is_due now) (deliveries d))).

Definition claims_delivery (now : Z) (tenant_id delivery_id : UUID) (x : AnnouncementDelivery) : bool :=
  (deliv_tenant_id x == tenant_id) && (deliv_id x == delivery_id) && is_due now x.

Fixpoint claim_first (now : Z) (l : list AnnouncementDelivery) : M (option (UUID * UUID)) :=
  match l with
  | [] => mret None
  | x :: l =>
      let claims := claims_delivery now (deliv_tenant_id x) (deliv_id x) in
      rows ← query (λ d, rowcount claims (deliveries d));
      write (λ d, d <| deliveries ::= update_where claims
               (λ y, y <| deliv_status := "RUNNING" |> <| deliv_updated_at := now |>) |>);;
      if (rows =? 1)%nat then mret (Some (deliv_tenant_id x, deliv_id x)) else claim_first now l
  end.

Definition claim_delivery (now : Z) : M (option (UUID * UUID)) :=
  sweep_campaigns;;
  sweep_stale now;;
  l ← query (candidates now);
  claimed ← claim_first now l;
  commit;;
  mret claimed.

(** ** The second session *)

(** The loaded rows and what the sender did; [None] when the recipient was
    not available and nothing was sent. *)
Record Attempt := MkAttempt {
  at_delivery : AnnouncementDelivery;
  at_announcement : Announcement;
  at_result : option send_result;
}.

Definition call_sender (delivery_id : UUID) (b : Bot) (binding : TenantTelegramUser)
    (a : Announcement) : M send_result :=
  answer ← gets (λ s, sender (ses_sent s) b binding a);
  send (SentAnnouncement delivery_id (match answer with RetryAfter _ => true | _ => false end));;
  mret answer.

Definition attempt_delivery (tenant_id delivery_id : UUID) : M Attempt :=
  found ← scalar (λ d, select (λ x, (deliv_tenant_id x == tenant_id) && (deliv_id x == delivery_id))
                         (deliveries d));
  delivery ← of_option AttributeError found;
  found ← scalar (λ d, select (λ a, (ann_tenant_id a == tenant_id)
                                    && (ann_id a == deliv_announcement_id delivery)) (announcements d));
  announcement ← of_option AttributeError found;
  bot ← scalar (λ d, select (λ b, (bot_tenant_id b == tenant_id) && (bot_id b == ann_bot_id announcement)
                                  && bot_is_enabled b && negb (is_some (bot_deleted_at b))) (bots d));
  binding ← scalar (λ d, select (λ u, (ttu_tenant_id u == tenant_id)
                                      && (ttu_id u == deliv_binding_id delivery)
                                      && (ttu_bot_id u == ann_bot_id announcement)
                                      && negb (ttu_is_blocked u)) (telegram_users d));
  tenant ← query (λ d, existsb (λ t, (ten_id t == tenant_id) && ten_is_active t) (tenants d));
  active_member ← match binding with
                  | Some u => query (λ d, existsb (λ m, (mem_tenant_id m == tenant_id)
                                                        && (mem_user_id m == ttu_user_id u)
                                                        && mem_is_active m) (memberships d))
                  | None => mret false
                  end;
  match bot, binding with
  | Some b, Some u =>
      if tenant && active_member && (ann_status announcement != "CANCELLED") then
        r ← call_sender delivery_id b u announcement;
        mret (MkAttempt delivery announcement (Some r))
      else mret (MkAttempt delivery announcement None)
  | _, _ => mret (MkAttempt delivery announcement None)
  end.

(** [status, error, message_id] *)
Definition verdict (result : option send_result) : string * option string * option Z :=
  match result with
  | None => ("CANCELLED", Some "RECIPIENT_UNAVAILABLE", None)
  | Some (Delivered m) => ("SENT", None, Some m)
  | Some (RetryAfter _) => ("QUEUED", Some "RATE_LIMITED", None)
  | Some Rejected => ("FAILED", Some "TELEGRAM_REJECTED", None)
  | Some SendFailed => ("UNKNOWN", Some "SEND_UNCONFIRMED", None)
  end.

(** An attribute assignment that is flushed: a value that does not differ from
    the one that was loaded is not part of the UPDATE. *)
Definition assign {A} `{EqDecision A} (loaded value current : A) : A :=
  if loaded == value then current else value.

(** The handler of [TelegramRetryAfter]: the delivery and the rest of the
    campaign wait. *)
Definition postpone (now : Z) (delivery : AnnouncementDelivery) (announcement_id : UUID) (retry_after : Z)
    : M unit :=
  t ← Models.now;
  let next := now + seconds (Z.max 1 retry_after) in
  (if deliv_next_attempt_at delivery == next then mret tt
   else write (λ d, d <| deliveries ::= update_row (deliv_id delivery)
                (λ x, x <| deliv_next_attempt_at := next |> <| deliv_updated_at := t |>) |>));;
  write (λ d, d <| deliveries ::=
           update_where (λ x, of_campaign (deliv_tenant_id delivery) announcement_id x
                              && (deliv_status x == "QUEUED"))
             (λ x, x <| deliv_next_attempt_at := next |> <| deliv_updated_at := t |>) |>).

(** An [Integer] column. *)
Definition fits_integer (n : option Z) : bool :=
  match n with Some n => (-2147483648 <=? n) && (n <=? 2147483647) | None => true end.

Definition record_delivery (now : Z) (x : Attempt) : M unit :=
  let delivery := at_delivery x in
  let tenant_id := deliv_tenant_id delivery in
  let announcement_id := ann_id (at_announcement x) in
  match at_result x with
  | Some (RetryAfter n) => postpone now delivery announcement_id n
  | _ => mret tt
  end;;
  let '(status, error, message_id) := verdict (at_result x) in
  t ← Models.now;
  raise_if (negb (fits_integer message_id)) DataError;;
  write (λ d, d <| deliveries ::= update_row (deliv_id delivery)
           (λ y, y <| deliv_status ::= assign (deliv_status delivery) status |>
                   <| deliv_error_code ::= assign (deliv_error_code delivery) error |>
                   <| deliv_telegram_message_id ::= assign (deliv_telegram_message_id delivery) message_id |>
                   <| deliv_updated_at := t |>) |>);;
  pending ← query (pending_count tenant_id announcement_id);
  (if (pending =? 0)%nat then close_campaign tenant_id announcement_id else mret tt);;
  commit.

Definition run_once : M bool :=
  now ← Models.now;
  claimed ← in_session (claim_delivery now);
  match claimed with
  | None => mret false
  | Some (tenant_id, delivery_id) =>
      in_session
        (x ← attempt_delivery tenant_id delivery_id;
         record_delivery now x);;
      mret true
  end.

(** ** The administrator *)

(** [HTTPException(409)] is the caller's mistake: a [ValueError] here. *)
Definition cancel_announcement (tenant_id actor_id announcement_id : UUID) : M Announcement :=
  found ← scalar (λ d, select (λ a, (ann_tenant_id a == tenant_id) && (ann_id a == announcement_id))
                         (announcements d));
  item ← of_option ValueError found;
  raise_if (negb ((ann_status item == "DRAFT") || (ann_status item == "QUEUED"))) ValueError;;
  t ← now;
  write (λ d, d <| announcements ::= update_row (ann_id item) (λ a, a <| ann_status := "CANCELLED" |>) |>
                <| deliveries ::= update_where (λ x, of_campaign tenant_id (ann_id item) x
                                                     && (deliv_status x == "QUEUED"))
                     (λ x, x <| deliv_status := "CANCELLED" |> <| deliv_updated_at := t |>) |>);;
  audit tenant_id actor_id "announcement.cancelled" "announcements" (ann_id item) [];;
  commit;;
  mret (item <| ann_status := "CANCELLED" |>).

End announcements.
