(* ===== verification/AnnouncementsSpec.v ===== *)
(** * Announcements: what a campaign sends

    That no message goes out twice however workers, crashes, rate limits and
    administrators interleave, and that a campaign reported as COMPLETED has no
    delivery whose outcome is open or bad. *)

From Stdlib Require Import ZArith Lia.
From stdpp Require Import base tactics list option strings numbers.
From S2P Require Import Prelude Tables Text Money Exceptions StateMachines Models.
From S2P Require Import Operations OperationsSpec Reversals ReversalsSpec FulfillmentSpec PaymentsInv PaymentsSpec.
From S2P Require Import Announcements.

Local Open Scope Z_scope.

(** ** Workers in the middle of a delivery *)

(** A claimed delivery, and one for which the sender has answered; both with
    the clock reading the cycle began with. *)
Inductive flight :=
  | InClaim (now : Z) (tenant_id delivery_id : UUID)
  | InReply (now : Z) (x : Attempt).

Definition flight_id (f : flight) : UUID :=
  match f with InClaim _ _ i => i | InReply _ x => deliv_id (at_delivery x) end.

(** What can happen: a worker claims; the [k]-th worker under way calls the
    sender, writes the result, or dies; a worker makes a whole cycle; an
    administrator queues or cancels a campaign. *)
Inductive campaign_event :=
  | EvClaim
  | EvSend (k : nat)
  | EvRecord (k : nat)
  | EvCrash (k : nat)
  | EvCycle
  | EvQueue (tenant_id announcement_id actor_id : UUID)
  | EvCancel (tenant_id actor_id announcement_id : UUID).

Section events.
  Context `{Env} `{Sender}.

Definition claim_event : M (Z * option (UUID * UUID)) :=
  n ← now; claimed ← in_session (claim_delivery n); mret (n, claimed).

Definition run_campaign_event (st : Session * list flight) (ev : campaign_event) : Session * list flight :=
  let '(s, fl) := st in
  match ev with
  | EvClaim =>
      match claim_event s with
      | (Ok (n, Some (t, i)), s') => (s', fl ++ [InClaim n t i])
      | (_, s') => (s', fl)
      end
  | EvSend k =>
      match fl !! k with
      | Some (InClaim n t i) =>
          match in_session (attempt_delivery t i) s with
          | (Ok x, s') => (s', <[k := InReply n x]> fl)
          | (Raise _, s') => (s', delete k fl)
          end
      | _ => st
      end
  | EvRecord k =>
      match fl !! k with
      | Some (InReply n x) => ((in_session (record_delivery n x) s).2, delete k fl)
      | _ => st
      end
  | EvCrash k => (s, delete k fl)
  | EvCycle => ((run_once s).2, fl)
  | EvQueue t a actor => ((in_request (queue_announcement t a actor) s).2, fl)
  | EvCancel t actor a => ((in_request (cancel_announcement t actor a) s).2, fl)
  end.

Definition run_campaigns (evs : list campaign_event) (st : Session * list flight) : Session * list flight :=
  foldl run_campaign_event st evs.

End events.

(** ** The invariant *)

(** How often the delivery was handed to Telegram, rate limits aside. *)
Definition sends (i : UUID) (sent : list Sent) : nat :=
  length (List.filter (λ m, match m with SentAnnouncement j false => j == i | _ => false end) sent).

Definition flying (x : AnnouncementDelivery) : Prop := deliv_status x = "RUNNING" ∨ deliv_status x = "UNKNOWN".
Definition settled (x : AnnouncementDelivery) : Prop := deliv_status x = "SENT" ∨ deliv_status x = "CANCELLED".

Definition retrying (r : option send_result) : bool :=
  match r with Some (RetryAfter _) => true | _ => false end.

(** A worker under way holds a row, and has not sent it yet or will put it
    back only if Telegram refused it. *)
Definition airborne (ds : list AnnouncementDelivery) (sent : list Sent) (f : flight) : Prop :=
  (∃ x, x ∈ ds ∧ deliv_id x = flight_id f ∧ flying x) ∧
  match f with
  | InClaim _ _ i => sends i sent = 0%nat
  | InReply _ x => flying (at_delivery x) ∧ (retrying (at_result x) = true → sends (flight_id f) sent = 0%nat)
  end.

Record posted (ds : list AnnouncementDelivery) (sent : list Sent) (fl : list flight) : Prop := {
  po_ids : NoDup (deliv_id <$> ds);
  po_once : ∀ i, (sends i sent ≤ 1)%nat;
  po_queued : ∀ x, x ∈ ds → deliv_status x = "QUEUED" → sends (deliv_id x) sent = 0%nat;
  po_known : ∀ i, sends i sent ≠ 0%nat → i ∈ deliv_id <$> ds;
  po_one : NoDup (flight_id <$> fl);
  po_air : Forall (airborne ds sent) fl;
}.

(** The statuses of deliveries, and that COMPLETED is only said of a campaign
    all of whose deliveries were SENT or CANCELLED. *)
Definition statuses : list string := ["QUEUED"; "RUNNING"; "SENT"; "FAILED"; "UNKNOWN"; "CANCELLED"].

Record campaign_books (d : DB) : Prop := {
  cb_status : ∀ x, x ∈ deliveries d → deliv_status x ∈ statuses;
  cb_completed : ∀ a x, a ∈ announcements d → ann_status a = "COMPLETED" → x ∈ deliveries d →
    of_campaign (ann_tenant_id a) (ann_id a) x = true → settled x;
}.

Definition board (fl : list flight) (sent : list Sent) (d : DB) : Prop :=
  posted (deliveries d) sent fl ∧ campaign_books d.

(** ** Rows that change without being sent *)

Definition same_row (x y : AnnouncementDelivery) : Prop :=
  deliv_id y = deliv_id x ∧ deliv_tenant_id y = deliv_tenant_id x ∧
  deliv_announcement_id y = deliv_announcement_id x.

Definition drifted (x y : AnnouncementDelivery) : Prop :=
  same_row x y ∧
  (deliv_status y = deliv_status x ∨
   (deliv_status x = "RUNNING" ∧ deliv_status y = "UNKNOWN") ∨
   (deliv_status x = "QUEUED" ∧ deliv_status y = "CANCELLED")).

Lemma drifted_refl x : drifted x x.
Proof. unfold drifted, same_row. auto. Qed.

Lemma drifted_flying x y : drifted x y → flying x → flying y.
Proof. intros [_ [Hs|[[_ Hs]|[Hx _]]]] Hf; unfold flying in *; [|by right|]; destruct Hf; naive_solver congruence. Qed.

Lemma drifted_queued x y : drifted x y → deliv_status y = "QUEUED" → deliv_status x = "QUEUED".
Proof. intros [_ Hs] Hq. naive_solver congruence. Qed.

Lemma drifted_settled x y : drifted x y → settled x → settled y.
Proof. unfold settled. intros [_ Hs] Hq. naive_solver congruence. Qed.

Lemma drifted_status x y : drifted x y → deliv_status x ∈ statuses → deliv_status y ∈ statuses.
Proof. intros [_ [->|[[_ ->]|[_ ->]]]] Hx; [done|..]; unfold statuses; rewrite !elem_of_cons; tauto. Qed.

Section updates.
  Context (p : AnnouncementDelivery → bool) (f : AnnouncementDelivery → AnnouncementDelivery).

Lemma update_elem_of x t : x ∈ t → (if p x then f x else x) ∈ update_where p f t.
Proof. intros Hx. apply elem_of_update_where. by exists x. Qed.

Lemma posted_drift fl sent t :
  (∀ x, x ∈ t → p x = true → drifted x (f x)) → posted t sent fl → posted (update_where p f t) sent fl.
Proof.
  intros Hd [Hids Honce Hq Hk Hone Hair].
  assert (∀ x, x ∈ t → drifted x (if p x then f x else x)) as Hall.
  { intros x Hx. destruct (p x) eqn:Hp; [by apply Hd|apply drifted_refl]. }
  assert (deliv_id <$> update_where p f t = deliv_id <$> t) as Hmap.
  { apply fmap_update_where. intros x Hx Hp. by destruct (Hd x Hx Hp) as [[Hi _] _]. }
  split; rewrite ?Hmap; try done.
  - intros y (x & Hx & ->)%elem_of_update_where Hs. pose proof (Hall x Hx) as Hdx.
    pose proof (drifted_queued _ _ Hdx Hs). destruct Hdx as [[-> _] _]. by apply Hq.
  - eapply Forall_impl; [|exact Hair]. intros fl' [(x & Hx & Hi & Hf) Hm]. split; [|done].
    pose proof (Hall x Hx) as Hdx. exists (if p x then f x else x).
    split; [by apply update_elem_of|]. split; [destruct Hdx as [[-> _] _]; done|].
    eapply drifted_flying; eauto.
Qed.

Lemma books_update d :
  (∀ x, x ∈ deliveries d → p x = true →
     same_row x (f x) ∧ deliv_status (f x) ∈ statuses ∧ (settled x → settled (f x))) →
  campaign_books d → campaign_books (d <| deliveries ::= update_where p f |>).
Proof.
  intros Hf [Hst Hc]. split.
  - intros y (x & Hx & ->)%elem_of_update_where. destruct (p x) eqn:Hp; [by apply Hf|by apply Hst].
  - intros a y Ha Hs (x & Hx & ->)%elem_of_update_where Hof. destruct (p x) eqn:Hp; [|by eapply Hc].
    destruct (Hf x Hx Hp) as ((Hi & Ht & Han) & _ & Hset). apply Hset. eapply Hc; eauto.
    revert Hof. unfold of_campaign. by rewrite Ht, Han.
Qed.

Lemma board_drift fl sent d :
  (∀ x, x ∈ deliveries d → p x = true → drifted x (f x)) →
  board fl sent d → board fl sent (d <| deliveries ::= update_where p f |>).
Proof.
  intros Hd [Hp Hb]. split; [by apply posted_drift|]. apply books_update; [|done].
  intros x Hx Hpx. pose proof (Hd x Hx Hpx) as Hdx. split; [apply Hdx|]. split.
  - eapply drifted_status, cb_status; eauto.
  - by apply drifted_settled.
Qed.

End updates.

(** ** Workers come and go *)

Lemma posted_crash k ds sent fl : posted ds sent fl → posted ds sent (delete k fl).
Proof.
  intros [Hids Honce Hq Hk Hone Hair]. split; try done; [|by apply Forall_delete].
  rewrite list_fmap_delete. eapply sublist_NoDup; [exact Hone|apply sublist_delete].
Qed.

(** No other worker holds the delivery of the [k]-th. *)
Lemma posted_alone k f ds sent fl :
  posted ds sent fl → fl !! k = Some f → flight_id f ∉ flight_id <$> delete k fl.
Proof.
  intros [_ _ _ _ Hone _] Hk Hin. rewrite (delete_Permutation _ _ _ Hk) in Hone. cbn in Hone.
  by apply list.NoDup_cons in Hone as [? _].
Qed.

Lemma posted_air k f ds sent fl : posted ds sent fl → fl !! k = Some f → airborne ds sent f.
Proof. intros [_ _ _ _ _ Hair] Hk. by eapply Forall_lookup_1. Qed.

(** The row of a worker is RUNNING or UNKNOWN, also when it is read again. *)
Lemma airborne_row ds sent f x :
  NoDup (deliv_id <$> ds) → airborne ds sent f → x ∈ ds → deliv_id x = flight_id f → flying x.
Proof.
  intros Hnd [(y & Hy & Hi & Hf) _] Hx Hxi.
  by rewrite (NoDup_fmap_inj deliv_id ds x y Hnd Hx Hy ltac:(congruence)).
Qed.

Lemma flying_unsettled x : flying x → settled x → False.
Proof. intros [Hs|Hs] [Hs'|Hs']; congruence. Qed.

(** ** Claims *)

Lemma claims_spec n t i x :
  claims_delivery n t i x = true →
  deliv_id x = i ∧ deliv_tenant_id x = t ∧ deliv_status x = "QUEUED".
Proof.
  unfold claims_delivery, is_due. rewrite !andb_true_iff, !bool_decide_eq_true. naive_solver.
Qed.

Lemma claims_one n t i ds : NoDup (deliv_id <$> ds) → (rowcount (claims_delivery n t i) ds ≤ 1)%nat.
Proof.
  intros Hnd. unfold rowcount. induction ds as [|x ds IH]; [cbn; lia|].
  unfold select. cbn [List.filter]. fold (select (claims_delivery n t i) ds).
  apply list.NoDup_cons in Hnd as [Hx Hnd]. specialize (IH Hnd).
  destruct (claims_delivery n t i x) eqn:Hc; cbn; [|done].
  rewrite (proj2 (select_nil (claims_delivery n t i) ds)); [done|].
  intros y Hy. destruct (claims_delivery n t i y) eqn:Hcy; [|done]. exfalso. apply Hx.
  apply claims_spec in Hc as [-> _], Hcy as [<- _]. by apply list_elem_of_fmap_2.
Qed.

Definition start_send (n : Z) (y : AnnouncementDelivery) : AnnouncementDelivery :=
  y <| deliv_status := "RUNNING" |> <| deliv_updated_at := n |>.

Lemma posted_claim n t i ds sent fl :
  posted ds sent fl → rowcount (claims_delivery n t i) ds = 1%nat →
  posted (update_where (claims_delivery n t i) (start_send n) ds) sent (fl ++ [InClaim n t i]).
Proof.
  intros [Hids Honce Hq Hk Hone Hair] Hrows.
  assert (∃ x, x ∈ ds ∧ claims_delivery n t i x = true) as (x & Hx & Hc).
  { unfold rowcount in Hrows. destruct (select (claims_delivery n t i) ds) as [|x l] eqn:Hsel; [done|].
    exists x. apply elem_of_select. rewrite Hsel. left. }
  pose proof (claims_spec _ _ _ _ Hc) as (Hi & _ & Hst).
  assert (deliv_id <$> update_where (claims_delivery n t i) (start_send n) ds = deliv_id <$> ds) as Hmap
    by (by apply fmap_update_where).
  split; rewrite ?Hmap; try done.
  - intros y (z & Hz & ->)%elem_of_update_where. destruct (claims_delivery n t i z); [done|]. by apply Hq.
  - rewrite fmap_app. apply list.NoDup_app. split; [done|]. split; [|apply NoDup_singleton].
    intros j Hj ->%list_elem_of_singleton. apply list_elem_of_fmap_1 in Hj as (f & Hfi & Hf).
    rewrite list.Forall_forall in Hair. cbn in Hfi.
    destruct (airborne_row ds sent f x Hids (Hair f Hf) Hx ltac:(congruence)); congruence.
  - apply Forall_app. split; [|repeat constructor].
    + eapply Forall_impl; [|exact Hair]. intros f [(y & Hy & Hfi & Hfl) Hm]. split; [|done].
      exists y. split; [|done]. apply elem_of_update_where. exists y. split; [done|].
      destruct (claims_delivery n t i y) eqn:Hcy; [|done].
      apply claims_spec in Hcy as (_ & _ & Hcy). destruct Hfl; congruence.
    + exists (start_send n x). split; [|split; [done|by left]].
      apply elem_of_update_where. exists x. by rewrite Hc.
    + cbn. rewrite <- Hi. by apply Hq.
Qed.

Lemma board_claim n t i fl sent d :
  board fl sent d → rowcount (claims_delivery n t i) (deliveries d) = 1%nat →
  board (fl ++ [InClaim n t i]) sent
    (d <| deliveries ::= update_where (claims_delivery n t i) (start_send n) |>).
Proof.
  intros [Hp Hb] Hrows. split; [by apply posted_claim|]. apply books_update; [|done].
  intros x Hx Hc. split; [done|]. split; [unfold statuses; rewrite !elem_of_cons; tauto|].
  apply claims_spec in Hc as (_ & _ & Hs). intros [|]; congruence.
Qed.

(** ** Sends *)

Lemma sends_app i l l' : sends i (l ++ l') = (sends i l + sends i l')%nat.
Proof. unfold sends. by rewrite List.filter_app, length_app. Qed.

Lemma sends_one i j b : sends i [SentAnnouncement j b] = (if negb b && (j == i) then 1 else 0)%nat.
Proof. unfold sends. cbn. destruct b; cbn; [done|]. by case_bool_decide. Qed.

(** The sender's answer replaces the claim. *)
Lemma posted_send k n t i x a r ds sent m fl :
  posted ds sent fl → fl !! k = Some (InClaim n t i) → x ∈ ds → deliv_id x = i →
  m = [] ∨ m = [SentAnnouncement i (retrying r)] →
  posted ds (sent ++ m) (<[k := InReply n (MkAttempt x a r)]> fl).
Proof.
  intros Hp Hk Hx Hi Hm. pose proof (posted_air _ _ _ _ _ Hp Hk) as Hk'.
  destruct Hp as [Hids Honce Hq Hkn Hone Hair]. pose proof (airborne_row _ _ _ x Hids Hk' Hx Hi) as Hfl.
  destruct Hk' as [_ Hzero].
  assert (∀ j, j ≠ i → sends j (sent ++ m) = sends j sent) as Hother.
  { intros j Hj. rewrite sends_app. destruct Hm as [->| ->]; [cbn; lia|]. rewrite sends_one.
    rewrite bool_decide_eq_false_2 by congruence. rewrite andb_false_r. lia. }
  assert (sends i (sent ++ m) ≤ 1 ∧ (retrying r = true → sends i (sent ++ m) = 0))%nat as [Hone' Hre].
  { rewrite sends_app, Hzero. destruct Hm as [->| ->]; [cbn; lia|]. rewrite sends_one.
    destruct (retrying r); cbn; [lia|]. case_bool_decide; (split; [lia|done]). }
  split; try done.
  - intros j. destruct (decide (j = i)) as [->|Hj]; [done|]. by rewrite Hother.
  - intros y Hy Hs. destruct (decide (deliv_id y = i)) as [Hyi|Hj].
    + destruct (airborne_row ds sent (InClaim n t i) y Hids) as [|]; try done; try congruence.
      by eapply Forall_lookup_1.
    + rewrite Hother by done. by apply Hq.
  - intros j Hj. destruct (decide (j = i)) as [->|Hne]; [rewrite <- Hi; by apply list_elem_of_fmap_2|].
    apply Hkn. by rewrite <- Hother.
  - rewrite list_fmap_insert. cbn. rewrite list_insert_id; [done|]. by rewrite list_lookup_fmap, Hk, <- Hi.
  - rewrite list.Forall_forall in Hair. apply list.Forall_forall. intros f Hf.
    apply list_elem_of_lookup_1 in Hf as [j Hj]. destruct (decide (j = k)) as [->|Hjk].
    + rewrite list_lookup_insert_eq in Hj by eauto using lookup_lt_Some. injection Hj as <-.
      split; [by exists x|]. cbn. rewrite Hi. done.
    + rewrite list_lookup_insert_ne in Hj by done.
      assert (flight_id f ≠ i) as Hne.
      { intros Hfi. apply Hjk. eapply NoDup_lookup; [exact Hone|by rewrite list_lookup_fmap, Hj|].
        rewrite list_lookup_fmap, Hk. cbn. by rewrite Hfi. }
      assert (f ∈ fl) as Hin by by eapply list_elem_of_lookup_2.
      destruct (Hair f Hin) as [Hrow Hm']. split; [done|].
      destruct f; cbn in *; by rewrite Hother.
Qed.

(** ** The result is written *)

Lemma posted_set i g ds sent fl :
  posted ds sent fl → i ∉ flight_id <$> fl → (∀ x, deliv_id (g x) = deliv_id x) →
  (∀ x, x ∈ ds → deliv_id x = i → deliv_status (g x) = "QUEUED" → sends i sent = 0%nat) →
  posted (update_row i g ds) sent fl.
Proof.
  intros [Hids Honce Hq Hk Hone Hair] Hi Hg Hre. unfold update_row.
  assert (deliv_id <$> update_where (λ r, row_id r == i) g ds = deliv_id <$> ds) as Hmap
    by (apply fmap_update_where; auto).
  split; rewrite ?Hmap; try done.
  - intros y (x & Hx & ->)%elem_of_update_where. case_bool_decide as Hc; [|by apply Hq].
    rewrite Hg. change (deliv_id x = i) in Hc. rewrite Hc. eauto.
  - rewrite list.Forall_forall in *. intros f Hf. destruct (Hair f Hf) as [(x & Hx & Hxi & Hfl) Hm].
    split; [|done]. exists x. split; [|done]. apply elem_of_update_where. exists x. split; [done|].
    rewrite bool_decide_eq_false_2; [done|]. change (deliv_id x ≠ i). rewrite Hxi. intros <-.
    apply Hi. by apply list_elem_of_fmap_2.
Qed.

Lemma verdict_status r : (verdict r).1.1 ∈ statuses.
Proof. destruct r as [[]|]; unfold statuses; cbn; rewrite !elem_of_cons; tauto. Qed.

Lemma verdict_queued r : (verdict r).1.1 = "QUEUED" → retrying r = true.
Proof. by destruct r as [[]|]. Qed.

(** ** A campaign ends *)

Lemma rowcount_zero {A} (p : A → bool) t x : rowcount p t = 0%nat → x ∈ t → p x = false.
Proof.
  intros Hz%nil_length_inv Hx. destruct (p x) eqn:Hp; [|done].
  assert (x ∈ select p t) as Hs by (by apply elem_of_select). rewrite Hz in Hs. by apply elem_of_nil in Hs.
Qed.

Lemma books_announcements f d :
  (∀ a, a ∈ f (announcements d) → ann_status a = "COMPLETED" →
     (∃ b, b ∈ announcements d ∧ ann_status b = "COMPLETED" ∧ ann_tenant_id b = ann_tenant_id a
           ∧ ann_id b = ann_id a)
     ∨ (∀ x, x ∈ deliveries d → of_campaign (ann_tenant_id a) (ann_id a) x = true → settled x)) →
  campaign_books d → campaign_books (d <| announcements ::= f |>).
Proof.
  intros Hf [Hst Hc]. split; [done|]. intros a x Ha Hs Hx Hof. cbn in Ha, Hx.
  destruct (Hf a Ha Hs) as [(b & Hb & Hbs & Ht & Hi)|Hall]; [|by apply Hall].
  eapply (Hc b); eauto. by rewrite Ht, Hi.
Qed.

Lemma settled_campaign t a d x :
  campaign_books d → pending_count t a d = 0%nat → failed_count t a d = 0%nat →
  x ∈ deliveries d → of_campaign t a x = true → settled x.
Proof.
  intros [Hst _] Hp Hf Hx Hof. specialize (Hst x Hx).
  pose proof (rowcount_zero _ _ _ Hp Hx) as Hp'. pose proof (rowcount_zero _ _ _ Hf Hx) as Hf'.
  cbv beta in Hp', Hf'. rewrite Hof in Hp', Hf'. cbn [andb] in Hp', Hf'. unfold is_pending, is_failed in *.
  rewrite orb_false_iff, !bool_decide_eq_false in *. unfold settled, statuses in *.
  rewrite !elem_of_cons, elem_of_nil in Hst. naive_solver.
Qed.

(** ** The transactions *)

Definition held (fl : list flight) (sent : list Sent) (s : Session) : Prop :=
  board fl sent (ses_db s) ∧ board fl sent (ses_committed s) ∧ ses_sent s = sent.

Section transactions.
  Context `{Env} (fl : list flight) (sent : list Sent).

Abbreviation holds := (keeps (held fl sent)).

Lemma holds_write f : (∀ d, board fl sent d → board fl sent (f d)) → steps holds (write f).
Proof. intros Hf s (Hd & Hc & Hs). split; [by apply Hf|done]. Qed.

Lemma holds_drift p f :
  (∀ x, p x = true → drifted x (f x)) → steps holds (write (λ d, d <| deliveries ::= update_where p f |>)).
Proof. intros Hf. apply holds_write. intros d. apply board_drift. auto. Qed.

Lemma holds_commit : steps holds commit.
Proof. by intros s (Hd & Hc & Hs). Qed.

Lemma holds_rollback : steps holds rollback.
Proof. by intros s (Hd & Hc & Hs). Qed.

Lemma holds_finish t a st : st ≠ "COMPLETED" → steps holds (finish_campaign t a st).
Proof.
  intros Hst. apply holds_write. intros d [Hp Hb]. split; [done|]. apply books_announcements; [|done].
  intros x (y & Hy & ->)%elem_of_update_where Hx. case_match; [by cbn in Hx|eauto 10].
Qed.

(** The campaigns that are swept keep their deliveries while they are closed. *)
Lemma close_held t a ds s :
  held fl sent s → deliveries (ses_db s) = ds → pending_count t a (ses_db s) = 0%nat →
  ensures (λ s', held fl sent s' ∧ deliveries (ses_db s') = ds) (close_campaign t a) s.
Proof.
  intros Hh Hds Hp. apply ensures_gets. split; [|done].
  destruct (Nat.ltb_spec 0 (failed_count t a (ses_db s))) as [|Hz]; [by apply holds_finish|].
  destruct Hh as ((Hpo & Hb) & Hc & Hs). split; [|done]. split; [done|].
  apply books_announcements; [|done]. intros x (y & Hy & ->)%elem_of_update_where Hx.
  destruct (_ && _ && _) eqn:Hm; [|eauto 10]. right.
  rewrite !andb_true_iff, !bool_decide_eq_true in Hm. destruct Hm as [[Ht Ha] _]. cbn. rewrite Ht, Ha.
  intros z. apply settled_campaign; [done|done|lia].
Qed.

Lemma pending_deliveries t a d d' : deliveries d' = deliveries d → pending_count t a d' = pending_count t a d.
Proof. unfold pending_count. by intros ->. Qed.

Lemma sweep_campaigns_holds : steps holds sweep_campaigns.
Proof.
  intros s Hh. change (ensures (held fl sent) sweep_campaigns s). unfold sweep_campaigns.
  apply ensures_gets. set (l := take 100 _).
  assert (∀ a, a ∈ l → pending_count (ann_tenant_id a) (ann_id a) (ses_db s) = 0%nat) as Hl.
  { intros a Ha. eapply elem_of_sublist in Ha; [|apply sublist_take]. apply elem_of_select in Ha as [_ Ha].
    apply andb_true_iff in Ha as [_ Ha]. by apply Nat.eqb_eq. }
  clearbody l. remember (deliveries (ses_db s)) as ds eqn:Hds. symmetry in Hds.
  assert (∀ a, a ∈ l → ∀ s', deliveries (ses_db s') = ds →
            pending_count (ann_tenant_id a) (ann_id a) (ses_db s') = 0%nat) as Hl'.
  { intros a Ha s' Hs'. rewrite <- (Hl a Ha). apply pending_deliveries. congruence. }
  enough (ensures (λ s', held fl sent s' ∧ deliveries (ses_db s') = ds)
            (for_each l (λ a, close_campaign (ann_tenant_id a) (ann_id a))) s) as [? _] by done.
  apply ensures_for_each; [done|]. intros a s' Ha [Hs' Hd']. apply close_held; [done|done|]. eauto.
Qed.

Lemma is_stale_running n x : is_stale n x = true → deliv_status x = "RUNNING".
Proof. unfold is_stale. rewrite andb_true_iff, bool_decide_eq_true. by intros [? _]. Qed.

Lemma sweep_stale_holds n : steps holds (sweep_stale n).
Proof.
  unfold sweep_stale, interrupt. pose proof holds_finish.
  assert (∀ t i u, steps holds (write (λ d, d <| deliveries ::= update_where
            (λ y, (deliv_tenant_id y == t) && (deliv_id y == i) && is_stale n y)
            (λ y, y <| deliv_status := "UNKNOWN" |> <| deliv_error_code := Some "INTERRUPTED_SEND" |>
                    <| deliv_updated_at := u |>) |>))).
  { intros t i u. apply holds_drift. intros x [_ Hx%is_stale_running]%andb_true_iff.
    split; [done|]. right. by left. }
  steps_walk.
Qed.

(** A claim is committed together with the worker that made it. *)
Lemma claim_first_wp n l s :
  held fl sent s →
  wp (claim_first n l) (λ r s', ses_sent s' = sent ∧ board fl sent (ses_committed s') ∧
    match r with
    | Ok (Some (t, i)) => board (fl ++ [InClaim n t i]) sent (ses_db s')
    | _ => board fl sent (ses_db s')
    end) s.
Proof.
  revert s. induction l as [|x l IH]; intros s Hs; cbn [claim_first]; [by destruct Hs as (? & ? & ?)|].
  apply wp_gets. eapply wp_step; [reflexivity|]. destruct Hs as (Hd & Hc & Hsent).
  destruct (Nat.eqb_spec (rowcount (claims_delivery n (deliv_tenant_id x) (deliv_id x)) (deliveries (ses_db s))) 1)
    as [Hone|Hne].
  - apply wp_ret. split; [done|]. split; [done|]. by apply board_claim.
  - apply IH. split; [|done]. cbn. rewrite update_where_id; [by destruct s as [[]]|].
    intros y Hy Hcy. exfalso. destruct Hd as [[Hids _ _ _ _ _] _].
    pose proof (claims_one n (deliv_tenant_id x) (deliv_id x) _ Hids) as Hle.
    pose proof (rowcount_zero (claims_delivery n (deliv_tenant_id x) (deliv_id x)) (deliveries (ses_db s)) y
      ltac:(lia) Hy). congruence.
Qed.

Lemma claim_delivery_wp n s :
  held fl sent s →
  wp (claim_delivery n) (λ r s', ses_sent s' = sent ∧
    match r with
    | Ok (Some (t, i)) => board (fl ++ [InClaim n t i]) sent (ses_committed s')
    | _ => board fl sent (ses_committed s')
    end) s.
Proof.
  intros Hs. unfold claim_delivery.
  apply (wp_keep (held fl sent)); [done|apply sweep_campaigns_holds|intros _ s1 _ Hs1|by intros e s1 (? & ? & ?)].
  apply (wp_keep (held fl sent)); [done|apply sweep_stale_holds|intros _ s2 _ Hs2|by intros e s2' (? & ? & ?)].
  apply wp_gets, wp_bind. eapply wp_mono; [by apply claim_first_wp|].
  intros [[[t i]|]|e] s3 (Hsent & Hc & Hd); done.
Qed.

End transactions.

(** What the second session has done when it knows the sender's answer: it has
    read, and called the sender at most once. *)
Definition attempted (i : UUID) (s : Session) (r : outcome exn Attempt) (s' : Session) : Prop :=
  ses_db s' = ses_db s ∧ ses_committed s' = ses_committed s ∧
  match r with
  | Ok x => at_delivery x ∈ deliveries (ses_db s) ∧ deliv_id (at_delivery x) = i ∧
      ∃ m, ses_sent s' = ses_sent s ++ m ∧ (m = [] ∨ m = [SentAnnouncement i (retrying (at_result x))])
  | Raise _ => ses_sent s' = ses_sent s
  end.

Section deliveries.
  Context `{Env} `{Sender}.

Lemma attempt_wp t i s : wp (attempt_delivery t i) (attempted i s) s.
Proof.
  unfold attempt_delivery, scalar. apply wp_gets, wp_of_option; [intros x Hx|done].
  apply head_Some_elem_of in Hx. rewrite elem_of_select, andb_true_iff, !bool_decide_eq_true in Hx.
  destruct Hx as (Hin & _ & Hi). apply wp_gets, wp_of_option; [intros a _|done].
  assert (∀ b : Announcement, wp (mret (MkAttempt x b None)) (attempted i s) s) as Hnone.
  { intros b. apply wp_ret. split_and!; try done. exists []. rewrite app_nil_r. auto. }
  do 3 apply wp_gets. apply wp_read; [steps_walk|intros active _|intros e Hr; by case_match].
  destruct (head _) as [b|]; [|done]. destruct (head _) as [u|]; [|done].
  destruct (_ && _ && _); [|done]. eapply wp_step; [reflexivity|]. apply wp_ret.
  split_and!; try done. eexists. split; [done|]. right. cbn. by destruct (sender _ _ _ _).
Qed.

(** The worker's row while the result is written. *)
Definition written (i : UUID) (fl : list flight) (sent : list Sent) (s : Session) : Prop :=
  held fl sent s ∧ ∃ y, y ∈ deliveries (ses_db s) ∧ deliv_id y = i ∧ flying y.

Lemma written_drift i fl sent p f :
  (∀ x, p x = true → drifted x (f x)) →
  steps (keeps (written i fl sent)) (write (λ d, d <| deliveries ::= update_where p f |>)).
Proof.
  intros Hf s [Hh (y & Hy & Hi & Hfl)]. split; [by apply (holds_drift fl sent p f Hf s)|].
  assert (drifted y (if p y then f y else y)) as Hd
    by (destruct (p y) eqn:Hp; [by apply Hf|apply drifted_refl]).
  exists (if p y then f y else y). split; [by apply update_elem_of|].
  split; [by destruct Hd as [[-> _] _]|by eapply drifted_flying].
Qed.

Lemma postpone_written i fl sent n x a r : steps (keeps (written i fl sent)) (postpone n x a r).
Proof.
  unfold postpone, update_row.
  assert (∀ p m t, steps (keeps (written i fl sent)) (write (λ d, d <| deliveries ::= update_where p
            (λ x, x <| deliv_next_attempt_at := m |> <| deliv_updated_at := t |>) |>))).
  { intros p m t. apply written_drift. intros y _. split; [done|by left]. }
  steps_walk.
Qed.

Lemma written_result i g fl sent s :
  written i fl sent s → i ∉ flight_id <$> fl →
  (∀ y, same_row y (g y) ∧ (flying y → deliv_status (g y) ∈ statuses) ∧
        (flying y → deliv_status (g y) = "QUEUED" → sends i sent = 0%nat)) →
  held fl sent (s <| ses_db ::= λ d, d <| deliveries ::= update_row i g |> |>).
Proof.
  intros [(Hd & Hc & Hs) (y & Hy & Hi & Hfl)] Hal Hg. split; [|done]. destruct Hd as [Hp Hb]. cbn.
  assert (∀ x, x ∈ deliveries (ses_db s) → deliv_id x = i → flying x) as Hrow.
  { intros x Hx Hxi. by rewrite (NoDup_fmap_inj deliv_id _ x y (po_ids _ _ _ Hp) Hx Hy ltac:(congruence)). }
  split.
  - apply posted_set; [done|done|by intros x; destruct (Hg x) as [[? _] _]|].
    intros x Hx Hxi. apply Hg. by apply Hrow.
  - unfold update_row. apply books_update; [|done]. intros x Hx Hxi%bool_decide_eq_true.
    pose proof (Hrow x Hx Hxi) as Hf. destruct (Hg x) as (Hsame & Hst & _).
    split; [done|]. split; [by apply Hst|]. intros Hset. by destruct (flying_unsettled x).
Qed.

(** The result that the [k]-th worker writes. *)
Lemma record_board k n x fl sent s :
  board fl sent (ses_db s) → persisted s → ses_sent s = sent → fl !! k = Some (InReply n x) →
  ensures (held (delete k fl) sent) (record_delivery n x) s.
Proof.
  intros [Hpo Hb] Hper Hsent Hk. pose proof (posted_alone _ _ _ _ _ Hpo Hk) as Hal.
  pose proof (posted_air _ _ _ _ _ Hpo Hk) as [Hrow [Hfly Hre]]. cbn [flight_id] in *.
  assert (written (deliv_id (at_delivery x)) (delete k fl) sent s) as Hw.
  { split; [|done]. assert (board (delete k fl) sent (ses_db s)) by (split; [by apply posted_crash|done]).
    split; [done|]. unfold persisted in Hper. by rewrite Hper. }
  unfold record_delivery.
  assert (steps (keeps (written (deliv_id (at_delivery x)) (delete k fl) sent))
            match at_result x with
            | Some (RetryAfter m) => postpone n (at_delivery x) (ann_id (at_announcement x)) m
            | _ => mret tt
            end) as Hpost by (pose proof postpone_written; steps_walk).
  specialize (Hpost s Hw). apply ensures_bind; [apply Hpost|]. intros [] s1 Hr1 _.
  rewrite Hr1 in Hpost. cbn [snd] in Hpost.
  pose proof (verdict_status (at_result x)) as Hst. pose proof (verdict_queued (at_result x)) as Hq.
  destruct (verdict (at_result x)) as [[st err] mid]. cbn [fst] in Hst, Hq.
  apply ensures_gets, ensures_guard; [apply Hpost|intros _].
  apply ensures_bind; [|intros [] s2 [_ ->]%write_inv Hs2].
  - apply written_result; [done|done|]. intros y. split; [done|]. cbn. unfold assign.
    split; intros Hy; case_bool_decide as Heq; try done.
    + destruct Hy as [->| ->]; unfold statuses; rewrite !elem_of_cons; tauto.
    + intros Hsy. destruct Hy; congruence.
    + intros Hsq. by apply Hre, Hq.
  - apply ensures_gets. apply ensures_bind; [|intros [] s3 _ Hs3; by apply holds_commit].
    destruct (Nat.eqb_spec (pending_count (deliv_tenant_id (at_delivery x)) (ann_id (at_announcement x))
      (ses_db (s1 <| ses_db ::= λ d, d <| deliveries ::= update_row (deliv_id (at_delivery x)) (λ y,
         y <| deliv_status ::= assign (deliv_status (at_delivery x)) st |>
           <| deliv_error_code ::= assign (deliv_error_code (at_delivery x)) err |>
           <| deliv_telegram_message_id ::= assign (deliv_telegram_message_id (at_delivery x)) mid |>
           <| deliv_updated_at := env_clock (ses_draws s1) |>) |> |>))) 0); [|done].
    by eapply close_held.
Qed.

End deliveries.

(** ** Campaigns are queued and cancelled *)

Lemma posted_queue new ds sent fl :
  posted ds sent fl → NoDup (deliv_id <$> ds ++ new) → posted (ds ++ new) sent fl.
Proof.
  intros [Hids Honce Hq Hk Hone Hair] Hnd. split; try done.
  - intros x [Hx|Hx]%elem_of_app Hs; [by apply Hq|].
    destruct (decide (sends (deliv_id x) sent = 0%nat)) as [|Hne]; [done|]. apply Hk in Hne.
    rewrite fmap_app in Hnd. apply list.NoDup_app in Hnd as (_ & Hdis & _).
    destruct (Hdis _ Hne). by apply list_elem_of_fmap_2.
  - intros i Hi. rewrite fmap_app. apply elem_of_app. left. by apply Hk.
  - eapply Forall_impl; [|exact Hair]. intros f [(x & Hx & Hrow) Hm]. split; [|done].
    exists x. split; [|done]. apply elem_of_app. by left.
Qed.

Section campaigns.
  Context `{Env} `{Sender}.

Lemma queue_board t aid actor fl sent s item s' :
  queue_announcement t aid actor s = (Ok item, s') →
  board fl sent (ses_db s) → board fl sent (ses_db s').
Proof.
  intros (draft & new & _ & _ & _ & _ & _ & Hd & _ & _ & _ & Ha & Hnew & Hids)%queue_run [Hp [Hst Hc]].
  split; [rewrite Hd; apply posted_queue; [done|]; rewrite <- Hd; apply Hids, Hp|]. split.
  - intros x. rewrite Hd. intros [Hx|Hx]%elem_of_app; [by apply Hst|]. destruct (Hnew x Hx) as [_ ->]. left.
  - intros a x. rewrite Ha, Hd. intros (b & Hb & ->)%elem_of_update_where Hs Hx Hof.
    case_bool_decide as Hbid; [done|]. apply elem_of_app in Hx as [Hx|Hx]; [by eapply Hc|].
    destruct (Hnew x Hx) as [Hxa _]. unfold of_campaign in Hof.
    rewrite andb_true_iff, !bool_decide_eq_true in Hof. destruct Hof as [_ Hof].
    destruct Hbid. change (ann_id b = aid). congruence.
Qed.

Lemma queue_committed t aid actor : steps same_committed (queue_announcement t aid actor).
Proof. unfold queue_announcement, insert_delivery, audit. steps_walk. Qed.

Lemma queue_sent t aid actor : steps same_sent (queue_announcement t aid actor).
Proof. unfold queue_announcement, insert_delivery, audit. pose proof sent_write. pose proof sent_uuid4. steps_walk. Qed.

Lemma cancel_holds fl sent t actor aid : steps (keeps (held fl sent)) (cancel_announcement t actor aid).
Proof.
  unfold cancel_announcement, audit. pose proof (holds_commit fl sent).
  assert (steps (keeps (held fl sent)) uuid4) by (by intros s Hs).
  assert (∀ f, steps (keeps (held fl sent)) (write (λ d, d <| audit_logs ::= f |>)))
    by (intros f; apply holds_write; intros d [Hp [Hst Hc]]; by split).
  assert (∀ i p n, (∀ x, p x = true → deliv_status x = "QUEUED") → steps (keeps (held fl sent))
    (write (λ d, d <| announcements ::= update_row i (λ a, a <| ann_status := "CANCELLED" |>) |>
      <| deliveries ::= update_where p (λ x, x <| deliv_status := "CANCELLED" |> <| deliv_updated_at := n |>) |>)))
    as Hcancel.
  { intros i p n Hp. apply holds_write. intros d [Hpo Hb]. apply board_drift.
    - intros x _ Hx. split; [done|]. right; right. split; [by apply Hp|done].
    - split; [done|]. apply books_announcements; [|done].
      intros a (b & Hb' & ->)%elem_of_update_where Ha. case_match; [by cbn in Ha|eauto 10]. }
  steps_walk. apply Hcancel. intros x [_ Hx]%andb_true_iff. by apply bool_decide_eq_true in Hx.
Qed.

End campaigns.

(** ** Every history *)

Definition aloft (st : Session * list flight) : Prop :=
  persisted st.1 ∧ board st.2 (ses_sent st.1) (ses_db st.1).

Section history.
  Context `{Env} `{Sender}.

Lemma aloft_held s fl : aloft (s, fl) → held fl (ses_sent s) s.
Proof. intros [Hp Hb]. unfold persisted in Hp. cbn in *. split; [done|]. by rewrite Hp. Qed.

Lemma request_aloft {A} (m : M A) s fl :
  steps (keeps (held fl (ses_sent s))) m → aloft (s, fl) → aloft ((in_request m s).2, fl).
Proof.
  intros Hm Hs%aloft_held. specialize (Hm s Hs). unfold in_request, catch, mbind, prog_bind.
  destruct (m s) as [[a|e] s'] eqn:Hr; destruct Hm as (Hd & Hc & Hsent); split; cbn in *; by rewrite ?Hsent.
Qed.

Lemma queue_aloft t aid actor s fl : aloft (s, fl) → aloft ((in_request (queue_announcement t aid actor) s).2, fl).
Proof.
  intros [Hp Hb]. cbn in Hp, Hb.
  destruct (in_request_keeps (board fl (ses_sent s)) (queue_announcement t aid actor) s) as [Hp' Hb'];
    [done|apply queue_committed|done|intros a s' Hr; by eapply queue_board|].
  split; [done|]. cbn. enough (ses_sent (in_request (queue_announcement t aid actor) s).2 = ses_sent s) as -> by done.
  pose proof (queue_sent t aid actor s) as Hs. unfold in_request, catch, mbind, prog_bind.
  by destruct (queue_announcement t aid actor s) as [[a|e] s'].
Qed.

Lemma claim_aloft s fl : aloft (s, fl) → aloft (run_campaign_event (s, fl) EvClaim).
Proof.
  intros Hs%aloft_held. cbn [run_campaign_event].
  unfold claim_event, now, gets, mbind, prog_bind. rewrite in_session_state.
  pose proof (claim_delivery_wp fl (ses_sent s) (env_clock (ses_draws s)) s Hs) as Hw. unfold wp in Hw.
  destruct (claim_delivery (env_clock (ses_draws s)) s) as [[[[t i]|]|e] s'];
    destruct Hw as [Hsent Hb]; split; cbn in *; by rewrite ?Hsent.
Qed.

Lemma send_aloft k s fl : aloft (s, fl) → aloft (run_campaign_event (s, fl) (EvSend k)).
Proof.
  intros [Hp [Hpo Hb]]. cbn [run_campaign_event fst snd] in *.
  destruct (fl !! k) as [[n t i|]|] eqn:Hk; [|done..]. rewrite in_session_state.
  pose proof (attempt_wp t i s) as Hw. unfold wp, persisted in *.
  destruct (attempt_delivery t i s) as [[[x a r]|e] s']; destruct Hw as (Hd & Hc & Hw); cbn [fst snd] in *.
  - destruct Hw as (Hx & Hi & m & Hsent & Hm). split; [done|]. cbn. rewrite Hc, Hp, Hsent.
    split; [|done]. by eapply posted_send.
  - split; [done|]. cbn. rewrite Hc, Hp, Hw. split; [by apply posted_crash|done].
Qed.

Lemma record_aloft k s fl : aloft (s, fl) → aloft (run_campaign_event (s, fl) (EvRecord k)).
Proof.
  intros [Hp Hb]. cbn [run_campaign_event fst snd] in *.
  destruct (fl !! k) as [[|n x]|] eqn:Hk; [done| |done]. rewrite in_session_state.
  destruct (record_board k n x fl (ses_sent s) s Hb Hp eq_refl Hk) as (_ & Hc & Hsent).
  split; [done|]. cbn. by rewrite Hsent.
Qed.

(** A cycle of a worker is its three steps with nothing in between. *)
Lemma cycle_steps s fl :
  run_campaign_event (s, fl) EvCycle = run_campaigns [EvClaim; EvSend (length fl); EvRecord (length fl)] (s, fl).
Proof.
  assert (∀ s', run_campaigns [EvSend (length fl); EvRecord (length fl)] (s', fl) = (s', fl)) as Hidle.
  { intros s'. unfold run_campaigns. cbn [foldl run_campaign_event].
    rewrite (lookup_ge_None_2 fl (length fl)) by lia. cbn [run_campaign_event].
    by rewrite (lookup_ge_None_2 fl (length fl)) by lia. }
  change (run_campaign_event (s, fl) EvCycle =
    run_campaigns [EvSend (length fl); EvRecord (length fl)] (run_campaign_event (s, fl) EvClaim)).
  cbn [run_campaign_event]. unfold run_once, claim_event, now, gets, mbind, prog_bind, mret, prog_ret. rewrite in_session_state.
  destruct (claim_delivery (env_clock (ses_draws s)) s) as [[[[t i]|]|e] s1]; cbn [fst snd];
    [|by rewrite Hidle..]. clear Hidle.
  unfold run_campaigns. cbn [foldl run_campaign_event]. rewrite list_lookup_middle by done.
  set (s2 := s1 <| ses_db := ses_committed s1 |>) in *.
  pose proof (attempt_wp t i s2) as Hw. unfold wp in Hw. rewrite !in_session_state. cbv beta.
  destruct (attempt_delivery t i s2) as [[x|e] s3] eqn:Hr; destruct Hw as (Hd & Hc & _); cbn [fst snd] in *.
  - assert (s3 <| ses_db := ses_committed s3 |> = s3) as ->.
    { destruct s3 as [d c n l]. cbn in *. unfold field_update. cbn. congruence. }
    rewrite insert_app_r_alt, Nat.sub_diag by lia. cbn [list_insert run_campaign_event].
    change (<[0%nat:=?y]> [?z]) with [y].
    rewrite list_lookup_middle by done. rewrite delete_middle, app_nil_r, in_session_state.
    by destruct (record_delivery _ x s3) as [[u|e] s4].
  - rewrite delete_middle, app_nil_r. cbn [run_campaign_event].
    by rewrite (lookup_ge_None_2 fl (length fl)) by lia.
Qed.

Lemma history_aloft evs st : aloft st → aloft (run_campaigns evs st).
Proof.
  revert st. induction evs as [|ev evs IH]; intros st Hst; [done|]. apply IH. clear IH. destruct st as [s fl].
  destruct ev as [|k|k|k| |t a actor|t actor a].
  - by apply claim_aloft.
  - by apply send_aloft.
  - by apply record_aloft.
  - destruct Hst as [Hp [Hpo Hb]]. split; [done|]. split; [by apply posted_crash|done].
  - rewrite cycle_steps. unfold run_campaigns. cbn [foldl].
    apply claim_aloft in Hst. destruct (run_campaign_event (s, fl) EvClaim) as [s1 fl1].
    apply (send_aloft (length fl)) in Hst. destruct (run_campaign_event (s1, fl1) _) as [s2 fl2].
    by apply record_aloft.
  - by apply queue_aloft.
  - apply request_aloft; [apply cancel_holds|done].
Qed.

End history.

(** Nothing was sent yet and nobody is under way. *)
Lemma aloft_start s :
  persisted s → NoDup (deliv_id <$> deliveries (ses_db s)) → campaign_books (ses_db s) →
  (∀ j, sends j (ses_sent s) = 0%nat) → aloft (s, []).
Proof.
  intros Hp Hnd Hb Hs. split; [done|]. split; [|done]. split; [done|..].
  - intros j. rewrite Hs. lia.
  - intros x _ _. apply Hs.
  - intros j. by rewrite Hs.
  - apply NoDup_nil_2.
  - apply Forall_nil_2.
Qed.

(** [C27] A customer receives an announcement at most once.  Over every history
    of campaigns queued and cancelled, and of any number of workers that claim
    deliveries, call Telegram, write the result, make whole cycles of
    [run_once], or die at any of these points, each delivery is handed to
    Telegram at most once, not counting the calls that Telegram refused with a
    rate limit: an ambiguous send is never repeated. *)
Theorem announcement_sent_at_most_once `{Env} `{Sender} evs s s' fl i :
  persisted s → NoDup (deliv_id <$> deliveries (ses_db s)) → campaign_books (ses_db s) →
  (∀ j, sends j (ses_sent s) = 0%nat) →
  run_campaigns evs (s, []) = (s', fl) → (sends i (ses_sent s') ≤ 1)%nat.
Proof.
  intros Hp Hnd Hb Hs Hr. pose proof (history_aloft evs _ (aloft_start s Hp Hnd Hb Hs)) as Ha.
  rewrite Hr in Ha. destruct Ha as [_ [[_ Honce _ _ _ _] _]]. apply Honce.
Qed.

(** COMPLETED means completed.  Over the same histories, when an
    announcement is COMPLETED every one of its deliveries is SENT or
    CANCELLED: none is waiting, under way, rejected or of unknown outcome, and
    none becomes so later. *)
Theorem completed_campaigns_settled `{Env} `{Sender} evs s s' fl a x :
  persisted s → NoDup (deliv_id <$> deliveries (ses_db s)) → campaign_books (ses_db s) →
  (∀ j, sends j (ses_sent s) = 0%nat) →
  run_campaigns evs (s, []) = (s', fl) →
  a ∈ announcements (ses_db s') → ann_status a = "COMPLETED" → x ∈ deliveries (ses_db s') →
  of_campaign (ann_tenant_id a) (ann_id a) x = true → deliv_status x = "SENT" ∨ deliv_status x = "CANCELLED".
Proof.
  intros Hp Hnd Hb Hs Hr Ha Hst Hx Hof.
  pose proof (history_aloft evs _ (aloft_start s Hp Hnd Hb Hs)) as Hal.
  rewrite Hr in Hal. destruct Hal as [_ [_ [_ Hc]]]. by eapply Hc.
Qed.

(** A campaign for two customers, on a clock that advances ten minutes at every
    draw.  The second call of Telegram is rate limited; cancelling another
    campaign lets time pass. *)
Definition demo_sender : Sender := λ sent _ u _,
  match length sent with 1%nat => RetryAfter 1 | _ => Delivered 7 end.

Definition slow_env : Env := {|
  env_clock n := Z.of_nat n * seconds 600;
  env_uuid4 := @env_uuid4 demo_env;
  env_race d := d;
  env_sha256 := @env_sha256 demo_env;
  env_decimal_str := @env_decimal_str demo_env;
  env_exn_str := @env_exn_str demo_env;
  env_json_str := @env_json_str demo_env;
  env_isoformat := @env_isoformat demo_env;
|}.

Definition campaign_start : Session :=
  let t := mk_uuid "t" in
  let bot := mk_uuid "b" in
  let d := empty_db
    <| tenants := [MkTenant t "Shop" true [] None] |>
    <| announcements := [MkAnnouncement (mk_uuid "a-1") t bot "Sale" "Hi" "ALL" "DRAFT" None;
                         MkAnnouncement (mk_uuid "a-2") t bot "Later" "Hi" "ALL" "DRAFT" None] |>
    <| bots := [MkBot bot t 77 None "Bot" "BOT_TOKEN" "VERIFIED" 1 None None None 1 "STABLE" true None []] |>
    <| memberships := [MkMembership (mk_uuid "m-1") t (mk_uuid "u1") true;
                       MkMembership (mk_uuid "m-2") t (mk_uuid "u2") true] |>
    <| telegram_users := [MkTenantTelegramUser (mk_uuid "tu-1") t (mk_uuid "u1") bot 77 false;
                          MkTenantTelegramUser (mk_uuid "tu-2") t (mk_uuid "u2") bot 78 false] |> in
  MkSession d d 0 [].

Definition queue_demo : campaign_event := EvQueue (mk_uuid "t") (mk_uuid "a-1") (mk_uuid "staff").
Definition wait_demo : campaign_event := EvCancel (mk_uuid "t") (mk_uuid "staff") (mk_uuid "a-2").

(** The worker that sent the first message dies before it can say so. *)
Definition crash_demo : Session * list flight :=
  @run_campaigns slow_env demo_sender
    [queue_demo; EvClaim; EvSend 0; EvCrash 0; EvCycle; wait_demo; EvCycle; EvCycle] (campaign_start, []).

Definition smooth_demo : Session * list flight :=
  @run_campaigns slow_env demo_sender [queue_demo; EvCycle; EvCycle; wait_demo; EvCycle] (campaign_start, []).

Lemma campaign_start_books : campaign_books (ses_db campaign_start).
Proof. split; [by intros x Hx%elem_of_nil|]. by intros a x _ _ Hx%elem_of_nil. Qed.

Lemma announcement_sent_at_most_once_witness :
  deliv_status <$> deliveries (ses_db crash_demo.1) = ["UNKNOWN"; "SENT"]
  ∧ ses_sent crash_demo.1 = [SentAnnouncement (mk_uuid "uuid-0") false;
                             SentAnnouncement (mk_uuid "uuid-1") true;
                             SentAnnouncement (mk_uuid "uuid-1") false]
  ∧ (sends (mk_uuid "uuid-1") (ses_sent crash_demo.1) ≤ 1)%nat.
Proof.
  split; [vm_compute; reflexivity|]. split; [vm_compute; reflexivity|].
  refine (@announcement_sent_at_most_once slow_env demo_sender
    [queue_demo; EvClaim; EvSend 0; EvCrash 0; EvCycle; wait_demo; EvCycle; EvCycle] campaign_start
    crash_demo.1 crash_demo.2 (mk_uuid "uuid-1") _ _ campaign_start_books _ _);
    [reflexivity|vm_compute; constructor|reflexivity|]. unfold crash_demo. exact (surjective_pairing _).
Defined.

Lemma completed_campaigns_settled_witness :
  ann_status <$> announcements (ses_db smooth_demo.1) = ["COMPLETED"; "CANCELLED"]
  ∧ ∀ a x, head (announcements (ses_db smooth_demo.1)) = Some a → head (deliveries (ses_db smooth_demo.1)) = Some x →
      deliv_status x = "SENT" ∨ deliv_status x = "CANCELLED".
Proof.
  split; [vm_compute; reflexivity|]. intros a x Ha Hx.
  refine (@completed_campaigns_settled slow_env demo_sender
    [queue_demo; EvCycle; EvCycle; wait_demo; EvCycle] campaign_start
    smooth_demo.1 smooth_demo.2 a x _ _ campaign_start_books _ _ (head_Some_elem_of _ _ Ha) _
    (head_Some_elem_of _ _ Hx) _);
    [reflexivity|vm_compute; constructor|reflexivity|unfold smooth_demo; exact (surjective_pairing _)|..];
    vm_compute in Ha, Hx; injection Ha as <-; injection Hx as <-; reflexivity.
Defined.
