(* ===== verification/OperationsApi.v ===== *)
(** * The store's operations desk

    The handlers of [apps/api/v1/admin_operations.py]: support and warranty
    cases for staff and for customers, coupons and announcements, over the
    services of [Operations.v] and [Announcements.v].  A handler is what runs
    after the request body was parsed and the caller authenticated; the
    validation of the body and the role checks of [apps/api/deps.py] are here. *)

From Stdlib Require Import ZArith Lia Ascii String.
From stdpp Require Import base tactics list option strings numbers pretty.
From S2P Require Import Prelude Tables Text Money Exceptions StateMachines Models.
From S2P Require Import Operations Reversals Announcements.

Local Open Scope Z_scope.

(** ** Callers *)

Inductive Role := OWNER | ADMIN | MANAGER | STAFF | CUSTOMER.

Global Instance Role_eq_dec : EqDecision Role.
Proof. solve_decision. Defined.

(** What the handlers read of an [AuthenticatedPrincipal]. *)
Record Caller := MkCaller {
  caller_tenant_id : UUID;
  caller_user_id : UUID;
  caller_roles : list Role;
}.

Definition has_role (l : list Role) (p : Caller) : bool :=
  existsb (λ r, existsb (λ r', r == r') l) (caller_roles p).

Definition is_staff_or_above (p : Caller) : bool := has_role [STAFF; MANAGER; ADMIN; OWNER] p.
Definition is_admin_or_owner (p : Caller) : bool := has_role [ADMIN; OWNER] p.

Definition require_staff_or_above (p : Caller) : M unit :=
  raise_if (negb (is_staff_or_above p)) (HTTPException 403).
Definition require_admin_or_owner (p : Caller) : M unit :=
  raise_if (negb (is_admin_or_owner p)) (HTTPException 403).

(** ** Request bodies

    Texts are stripped before their length is checked ([str_strip_whitespace]);
    a body that is refused answers 422. *)

Definition length_in (lo hi : nat) (s : string) : bool :=
  (lo <=? String.length s)%nat && (String.length s <=? hi)%nat.

Record CaseRequest := MkCaseRequest {
  car_subject : string;
  car_body : string;
  car_order_id : option UUID;
  car_warranty_item_id : option UUID;
}.

Definition check_case_request (r : CaseRequest) : outcome exn CaseRequest :=
  let r := MkCaseRequest (strip (car_subject r)) (strip (car_body r)) (car_order_id r) (car_warranty_item_id r) in
  if length_in 3 160 (car_subject r) && length_in 1 3000 (car_body r) then Ok r else Raise (HTTPException 422).

(** [ReplyRequest], and [CaseUpdate] with a status. *)
Record CaseUpdate := MkCaseUpdate {
  cup_body : string;
  cup_expected_version : Z;
  cup_status : option string;
}.

Definition check_case_update (r : CaseUpdate) : outcome exn CaseUpdate :=
  let r := MkCaseUpdate (strip (cup_body r)) (cup_expected_version r) (strip <$> cup_status r) in
  if length_in 1 3000 (cup_body r) && (1 <=? cup_expected_version r)
     && match cup_status r with Some st => mem st ["IN_PROGRESS"; "APPROVED"; "DECLINED"; "RESOLVED"] | None => true end
  then Ok r else Raise (HTTPException 422).

Record CouponRequest := MkCouponRequest {
  cpr_code : string;
  cpr_percent : dec;
  cpr_currency : string;
  cpr_minimum_amount : dec;
  cpr_max_uses : Z;
  cpr_expires_at : Z;
}.

(** [^[A-Za-z0-9_-]+$] *)
Definition is_code (s : string) : bool :=
  (s != "") && forallb (λ c, is_alnum c || (c == "_"%char) || (c == "-"%char)) (chars s).

Definition check_coupon_request (r : CouponRequest) : outcome exn CouponRequest :=
  let r := MkCouponRequest (strip (cpr_code r)) (cpr_percent r) (strip (cpr_currency r)) (cpr_minimum_amount r)
             (cpr_max_uses r) (cpr_expires_at r) in
  if length_in 2 40 (cpr_code r) && is_code (cpr_code r)
     && (0 <? cpr_percent r) && (cpr_percent r <=? 90 * one) && multiple_of cent (cpr_percent r)
     && length_in 3 3 (cpr_currency r) && forallb is_upper (chars (cpr_currency r))
     && (0 <=? cpr_minimum_amount r) && (cpr_minimum_amount r <? 10 ^ 10 * one)
     && multiple_of cent (cpr_minimum_amount r)
     && (1 <=? cpr_max_uses r) && (cpr_max_uses r <=? 1000000)
  then Ok r else Raise (HTTPException 422).

Record AnnouncementRequest := MkAnnouncementRequest {
  anr_bot_id : UUID;
  anr_title : string;
  anr_body : string;
  anr_audience : string;
}.

Definition check_announcement_request (r : AnnouncementRequest) : outcome exn AnnouncementRequest :=
  let r := MkAnnouncementRequest (anr_bot_id r) (strip (anr_title r)) (strip (anr_body r)) (strip (anr_audience r)) in
  if length_in 2 120 (anr_title r) && length_in 1 3500 (anr_body r) && mem (anr_audience r) ["ALL"; "BUYERS"]
  then Ok r else Raise (HTTPException 422).

(** ** Errors as answers *)

(** [except e: raise HTTPException(code)] *)
Definition answer_with {A} (e : exn) (code : Z) (m : M A) : M A :=
  catch m (λ x, if x == e then mthrow (HTTPException code) else mthrow x).

(** [except IntegrityError: rollback; raise HTTPException(409)] *)
Definition conflict_409 {A} (m : M A) : M A :=
  catch m (λ x, if x == IntegrityError then rollback;; mthrow (HTTPException 409) else mthrow x).

(** The module's own [commit]. *)
Definition commit_or_409 : M unit := conflict_409 commit.

Section desk.
  Context `{Env}.

(** ** Cases *)

(** A case with its messages, in the order they were written. *)
Definition detail (tenant_id cid : UUID) (customer_id : option UUID) : M (SupportCase * list SupportMessage) :=
  found ← scalar (λ d, select (λ c, (case_tenant_id c == tenant_id) && (case_id c == cid)) (support_cases d));
  case ← of_option (HTTPException 404) found;
  raise_if (match customer_id with Some u => case_user_id case != u | None => false end) (HTTPException 404);;
  messages ← query (λ d, select (λ m, (msg_tenant_id m == tenant_id) && (msg_case_id m == case_id case))
                           (support_messages d));
  mret (case, messages).

Definition case_detail (p : Caller) (cid : UUID) : M (SupportCase * list SupportMessage) :=
  require_staff_or_above p;; detail (caller_tenant_id p) cid None.

Definition customer_case_detail (p : Caller) (cid : UUID) : M (SupportCase * list SupportMessage) :=
  detail (caller_tenant_id p) cid (Some (caller_user_id p)).

(** The common part of [create_case] and [customer_create_case]. *)
Definition open_and_show (p : Caller) (user_id : UUID) (is_staff : bool) (customer_id : option UUID)
    (req : CaseRequest) : M (SupportCase * list SupportMessage) :=
  answer_with ValueError 400
    (conflict_409
       (item ← open_case (caller_tenant_id p) user_id (caller_user_id p) (car_subject req) (car_body req)
                 (car_order_id req) (car_warranty_item_id req) is_staff;
        commit_or_409;;
        detail (caller_tenant_id p) (case_id item) customer_id)).

Definition create_case (p : Caller) (user_id : UUID) (req : CaseRequest) : M (SupportCase * list SupportMessage) :=
  require_staff_or_above p;;
  req ← of_outcome (check_case_request req);
  open_and_show p user_id true None req.

Definition customer_create_case (p : Caller) (req : CaseRequest) : M (SupportCase * list SupportMessage) :=
  req ← of_outcome (check_case_request req);
  open_and_show p (caller_user_id p) false (Some (caller_user_id p)) req.

Definition reply_case (p : Caller) (cid : UUID) (req : CaseUpdate) : M (SupportCase * list SupportMessage) :=
  require_staff_or_above p;;
  req ← of_outcome (check_case_update req);
  raise_if (mem (default "" (cup_status req)) ["APPROVED"; "DECLINED"] && negb (is_admin_or_owner p))
    (HTTPException 403);;
  answer_with ValueError 409
    (update_case (caller_tenant_id p) cid (caller_user_id p) (cup_expected_version req) (cup_body req)
       (cup_status req) None;;
     commit_or_409;;
     detail (caller_tenant_id p) cid None).

Definition customer_reply (p : Caller) (cid : UUID) (req : CaseUpdate) : M (SupportCase * list SupportMessage) :=
  req ← of_outcome (check_case_update (MkCaseUpdate (cup_body req) (cup_expected_version req) None));
  answer_with ValueError 409
    (update_case (caller_tenant_id p) cid (caller_user_id p) (cup_expected_version req) (cup_body req) None
       (Some (caller_user_id p));;
     commit_or_409;;
     detail (caller_tenant_id p) cid (Some (caller_user_id p))).

(** ** Coupons *)

(** [INSERT INTO coupons], with [uq_coupon_tenant_code] and the primary key. *)
Definition insert_coupon (tenant_id : UUID) (req : CouponRequest) : M Coupon :=
  i ← uuid4;
  code ← to_varchar 40 (upper (cpr_code req));
  percent ← to_numeric 5 2 (cpr_percent req);
  currency ← to_varchar 3 (cpr_currency req);
  minimum_amount ← to_numeric 12 2 (cpr_minimum_amount req);
  clash ← query (λ d, existsb (λ c, (coupon_id c == i) || (coupon_tenant_id c == tenant_id) && (coupon_code c == code))
                        (coupons d));
  raise_if clash IntegrityError;;
  let item := MkCoupon i tenant_id code percent currency minimum_amount (cpr_max_uses req) 0 (cpr_expires_at req) true in
  write (λ d, d <| coupons ::= (λ t, t ++ [item]) |>);;
  mret item.

Definition create_coupon (p : Caller) (req : CouponRequest) : M Coupon :=
  require_admin_or_owner p;;
  req ← of_outcome (check_coupon_request req);
  t ← now;
  raise_if (cpr_expires_at req <=? t) (HTTPException 400);;
  conflict_409
    (item ← insert_coupon (caller_tenant_id p) req;
     audit (caller_tenant_id p) (caller_user_id p) "coupon.created" "coupons" (coupon_id item) [];;
     commit_or_409;;
     mret item).

Definition toggle_coupon (p : Caller) (cid : UUID) (is_active : bool) : M Coupon :=
  require_admin_or_owner p;;
  found ← scalar (λ d, select (λ c, (coupon_id c == cid) && (coupon_tenant_id c == caller_tenant_id p)) (coupons d));
  item ← of_option (HTTPException 404) found;
  write (λ d, d <| coupons ::= update_row (coupon_id item) (λ c, c <| coupon_is_active := is_active |>) |>);;
  audit (caller_tenant_id p) (caller_user_id p) "coupon.status_changed" "coupons" (coupon_id item)
    [("is_active", JBool is_active)];;
  commit_or_409;;
  mret (item <| coupon_is_active := is_active |>).

(** ** Announcements *)

Definition insert_announcement (tenant_id : UUID) (req : AnnouncementRequest) : M Announcement :=
  i ← uuid4;
  title ← to_varchar 120 (anr_title req);
  audience_ ← to_varchar 20 (anr_audience req);
  clash ← query (λ d, existsb (λ a, ann_id a == i) (announcements d));
  raise_if clash IntegrityError;;
  let item := MkAnnouncement i tenant_id (anr_bot_id req) title (anr_body req) audience_ "DRAFT" None in
  write (λ d, d <| announcements ::= (λ t, t ++ [item]) |>);;
  mret item.

Definition create_announcement (p : Caller) (req : AnnouncementRequest) : M Announcement :=
  require_admin_or_owner p;;
  req ← of_outcome (check_announcement_request req);
  bot ← scalar (λ d, select (λ b, (bot_id b == anr_bot_id req) && (bot_tenant_id b == caller_tenant_id p)
                                  && negb (is_some (bot_deleted_at b))) (bots d));
  raise_if (negb (is_some bot)) (HTTPException 404);;
  item ← insert_announcement (caller_tenant_id p) req;
  audit (caller_tenant_id p) (caller_user_id p) "announcement.created" "announcements" (ann_id item) [];;
  commit_or_409;;
  mret item.

Definition send_announcement (p : Caller) (aid : UUID) : M Announcement :=
  require_admin_or_owner p;;
  answer_with ValueError 409
    (item ← queue_announcement (caller_tenant_id p) aid (caller_user_id p);
     commit_or_409;;
     mret item).

(** The handler around [Announcements.cancel_announcement]. *)
Definition stop_announcement (p : Caller) (aid : UUID) : M Announcement :=
  require_admin_or_owner p;;
  answer_with ValueError 409 (cancel_announcement (caller_tenant_id p) (caller_user_id p) aid).

(** ** The desk as a whole *)

(** A request of the module; each runs in its own transaction. *)
Inductive DeskRequest :=
  | ReadCase (cid : UUID)
  | OpenCase (user_id : UUID) (req : CaseRequest)
  | ReplyCase (cid : UUID) (req : CaseUpdate)
  | CustomerReadCase (cid : UUID)
  | CustomerOpenCase (req : CaseRequest)
  | CustomerReply (cid : UUID) (req : CaseUpdate)
  | CreateCoupon (req : CouponRequest)
  | ToggleCoupon (cid : UUID) (is_active : bool)
  | CreateAnnouncement (req : AnnouncementRequest)
  | SendAnnouncement (aid : UUID)
  | StopAnnouncement (aid : UUID).

(** What the caller is shown, where it is a case. *)
Definition desk (p : Caller) (r : DeskRequest) : M (option (SupportCase * list SupportMessage)) :=
  match r with
  | ReadCase cid => c ← case_detail p cid; mret (Some c)
  | OpenCase user_id req => c ← create_case p user_id req; mret (Some c)
  | ReplyCase cid req => c ← reply_case p cid req; mret (Some c)
  | CustomerReadCase cid => c ← customer_case_detail p cid; mret (Some c)
  | CustomerOpenCase req => c ← customer_create_case p req; mret (Some c)
  | CustomerReply cid req => c ← customer_reply p cid req; mret (Some c)
  | CreateCoupon req => create_coupon p req;; mret None
  | ToggleCoupon cid is_active => toggle_coupon p cid is_active;; mret None
  | CreateAnnouncement req => create_announcement p req;; mret None
  | SendAnnouncement aid => send_announcement p aid;; mret None
  | StopAnnouncement aid => stop_announcement p aid;; mret None
  end.

Definition run_desk (l : list (Caller * DeskRequest)) (s : Session) : Session :=
  foldl (λ s pr, (in_request (desk pr.1 pr.2) s).2) s l.

End desk.
