(* ===== verification/OperationsApiSpec.v ===== *)
(** * The store's operations desk: properties

    Who may do what at the desk of [OperationsApi.v]: only administrators
    decide warranty claims, and a customer neither sees nor changes anything
    but the own cases, whatever the order of requests. *)

From Stdlib Require Import ZArith Lia Ascii String.
From stdpp Require Import base tactics list option strings numbers pretty.
From S2P Require Import Prelude Tables Text Money Exceptions StateMachines Models.
From S2P Require Import Operations OperationsSpec Reversals Announcements OperationsApi.

Local Open Scope Z_scope.

(** ** Writes of the desk, table by table

    [P] is a property of the support cases that adding an open case keeps. *)

Section tables.
  Context `{HE : Env} (P : DB → Prop).
  Hypothesis P_cases : ∀ d d', support_cases d' = support_cases d → P d → P d'.

Abbreviation kept m := (steps (keeps (both P)) m).

Lemma desk_write f : (∀ d, support_cases (f d) = support_cases d) → kept (write f).
Proof. intros Hf. apply both_write. intros d. apply P_cases, Hf. Qed.

Lemma desk_audit t a act ty r l : kept (audit t a act ty r l).
Proof. unfold audit. pose proof (both_uuid4 P). pose proof desk_write. steps_walk. Qed.

Lemma kept_conflict {A} (m : M A) : kept m → kept (conflict_409 m).
Proof. intros Hm. unfold conflict_409. pose proof (both_rollback P). steps_walk. Qed.

Lemma kept_answer {A} e code (m : M A) : kept m → kept (answer_with e code m).
Proof. intros Hm. unfold answer_with. steps_walk. Qed.

Lemma kept_commit : kept commit_or_409.
Proof. apply kept_conflict, both_commit. Qed.

Lemma kept_detail t cid u : kept (detail t cid u).
Proof. unfold detail. steps_walk. Qed.

Lemma kept_message t c a b body : kept (add_message t c a b body).
Proof. unfold add_message. pose proof (both_uuid4 P). pose proof desk_write. steps_walk. Qed.

(** Coupons and announcements leave the cases alone. *)
Lemma kept_create_coupon p req : kept (create_coupon p req).
Proof.
  unfold create_coupon, require_admin_or_owner, insert_coupon.
  pose proof (both_uuid4 P). pose proof desk_write. pose proof desk_audit. pose proof kept_commit.
  repeat (apply steps_bind; [typeclasses eauto|steps_walk|intros ?]). apply kept_conflict. steps_walk.
Qed.

Lemma kept_toggle_coupon p cid b : kept (toggle_coupon p cid b).
Proof.
  unfold toggle_coupon, require_admin_or_owner.
  pose proof desk_write. pose proof desk_audit. pose proof kept_commit. steps_walk.
Qed.

Lemma kept_create_announcement p req : kept (create_announcement p req).
Proof.
  unfold create_announcement, require_admin_or_owner, insert_announcement.
  pose proof (both_uuid4 P). pose proof desk_write. pose proof desk_audit. pose proof kept_commit. steps_walk.
Qed.

Lemma kept_send_announcement p aid : kept (send_announcement p aid).
Proof.
  unfold send_announcement, require_admin_or_owner. apply steps_bind; [typeclasses eauto|steps_walk|intros _].
  apply kept_answer. unfold queue_announcement, insert_delivery.
  pose proof (both_uuid4 P). pose proof desk_write. pose proof desk_audit. pose proof kept_commit. steps_walk.
Qed.

Lemma kept_stop_announcement p aid : kept (stop_announcement p aid).
Proof.
  unfold stop_announcement, require_admin_or_owner. apply steps_bind; [typeclasses eauto|steps_walk|intros _].
  apply kept_answer. unfold cancel_announcement.
  pose proof (both_commit P). pose proof desk_write. pose proof desk_audit. steps_walk.
Qed.

(** A new case is appended, open. *)
Hypothesis P_open : ∀ d c, case_status c = "OPEN" → P d → P (d <| support_cases ::= (λ t, t ++ [c]) |>).

Lemma kept_open_case t u a subject body oid item staff : kept (open_case t u a subject body oid item staff).
Proof.
  unfold open_case, tenant_user, warranty_claim, insert_case.
  pose proof (both_uuid4 P). pose proof kept_message. pose proof desk_audit.
  assert (∀ c, case_status c = "OPEN" → kept (write (λ d, d <| support_cases ::= (λ t, t ++ [c]) |>))) as Hins.
  { intros c Hc. apply both_write. intros d. by apply P_open. }
  steps_walk; by apply Hins.
Qed.

Lemma kept_open_and_show p u staff customer req : kept (open_and_show p u staff customer req).
Proof.
  unfold open_and_show. apply kept_answer, kept_conflict.
  pose proof kept_open_case. pose proof kept_commit. pose proof kept_detail. steps_walk.
Qed.

Lemma kept_create_case p u req : kept (create_case p u req).
Proof. unfold create_case, require_staff_or_above. pose proof kept_open_and_show. steps_walk. Qed.

Lemma kept_customer_create_case p req : kept (customer_create_case p req).
Proof. unfold customer_create_case. pose proof kept_open_and_show. steps_walk. Qed.

(** The rest of a reply, once the case was updated. *)
Lemma kept_reply t cid u a v body target customer s :
  ensures (both P) (update_case t cid a v body target customer) s →
  ensures (both P) (answer_with ValueError 409
    (update_case t cid a v body target customer;; commit_or_409;; detail t cid u)) s.
Proof.
  intros Hu. apply ensures_catch.
  - apply ensures_bind; [done|]. intros c s1 _ Hs1.
    assert (kept (commit_or_409;; detail t cid u)) as Hk
      by (pose proof kept_commit; pose proof kept_detail; steps_walk).
    exact (Hk s1 Hs1).
  - intros e s1 _ Hs1. by case_match.
Qed.

End tables.

(** ** Decisions *)

Definition decided (c : SupportCase) : Prop := case_status c = "APPROVED" ∨ case_status c = "DECLINED".

(** Every decided case of [d] was decided that way in [d0], or [allowed] names
    its tenant, its id and the decision. *)
Definition decisions (allowed : UUID → UUID → string → Prop) (d0 d : DB) : Prop :=
  ∀ c, c ∈ support_cases d → decided c →
    (∃ c0, c0 ∈ support_cases d0 ∧ case_tenant_id c0 = case_tenant_id c ∧ case_id c0 = case_id c
           ∧ case_status c0 = case_status c)
    ∨ allowed (case_tenant_id c) (case_id c) (case_status c).

Section decisions.
  Context `{HE : Env} (allowed : UUID → UUID → string → Prop) (d0 : DB).

Abbreviation fair := (both (decisions allowed d0)).

Lemma decisions_cases d d' : support_cases d' = support_cases d → decisions allowed d0 d → decisions allowed d0 d'.
Proof. unfold decisions. by intros ->. Qed.

Lemma decisions_open d c :
  case_status c = "OPEN" → decisions allowed d0 d → decisions allowed d0 (d <| support_cases ::= (λ t, t ++ [c]) |>).
Proof.
  intros Hc Hd x Hx Hdec. cbn in Hx. apply elem_of_app in Hx as [Hx|Hx]; [by apply Hd|].
  apply list_elem_of_singleton in Hx as ->. unfold decided in Hdec. rewrite Hc in Hdec. by destruct Hdec.
Qed.

(** One update: the decision it makes is allowed, or it makes none. *)
Lemma decisions_update p (c : SupportCase) v st res d :
  decisions allowed d0 d → c ∈ support_cases d →
  (∀ x, p x = true → case_id x = case_id c ∧ case_tenant_id x = case_tenant_id c) →
  st = case_status c ∨ (st = "APPROVED" ∨ st = "DECLINED" → allowed (case_tenant_id c) (case_id c) st) →
  decisions allowed d0 (d <| support_cases ::= update_where p
    (λ x, x <| case_version := v |> <| case_status := st |> <| case_resolution := res |>) |>).
Proof.
  intros Hd Hc Hp Hst x Hx Hdec. cbn in Hx. apply elem_of_update_where in Hx as (y & Hy & ->).
  destruct (p y) eqn:Hpy; [|by apply Hd]. destruct (Hp y Hpy) as [Hid Hten]. unfold decided in Hdec. cbn in *.
  rewrite Hid, Hten. destruct Hst as [->|Hst]; [|right; by apply Hst].
  by apply (Hd c Hc).
Qed.

Lemma update_case_fair t cid actor v body target customer s :
  fair s → (target = Some "APPROVED" ∨ target = Some "DECLINED" → ∀ st, target = Some st → allowed t cid st) →
  ensures fair (update_case t cid actor v body target customer) s.
Proof.
  intros Hs Ht. unfold update_case, scalar. apply ensures_gets. apply ensures_of_option; [done|]. intros c Hc.
  apply head_Some_elem_of in Hc. rewrite elem_of_select, andb_true_iff, !bool_decide_eq_true in Hc.
  destruct Hc as (Hin & Hten & Hid). do 5 (apply ensures_guard; [done|]; intros _). apply ensures_gets.
  apply ensures_bind; [|intros _ s1 _ Hs1].
  - split; [|apply Hs]. apply (decisions_update _ c); [apply Hs|done| |].
    + intros x. rewrite !andb_true_iff, !bool_decide_eq_true. intros [[-> ->] _]. by rewrite Hten.
    + destruct target as [st|]; [|by left]. cbn [truthy default]. case_bool_decide; cbn [negb]; [by left|].
      right. cbn. rewrite Hten, Hid. intros Hdec. apply Ht; [|done]. by destruct Hdec as [->| ->]; [left|right].
  - pose proof (desk_audit (decisions allowed d0) decisions_cases).
    pose proof (kept_message (decisions allowed d0) decisions_cases).
    match goal with |- ensures _ ?m _ => assert (steps (keeps fair) m) as Hk by steps_walk end.
    exact (Hk s1 Hs1).
Qed.

(** A request of the desk decides a case only if it is an administrator's. *)
Lemma desk_fair p r s :
  fair s →
  (∀ cid req st, r = ReplyCase cid req → is_admin_or_owner p = true → strip <$> cup_status req = Some st →
                 allowed (caller_tenant_id p) cid st) →
  ensures fair (desk p r) s.
Proof.
  intros Hs Hr. set (Pk := decisions allowed d0).
  assert (∀ A (m : M A) B (k : A → B), ensures fair m s → ensures fair (a ← m; mret (k a)) s) as Hret.
  { intros A m B k Hm. apply ensures_bind; [done|]. by intros. }
  assert (∀ A (m : M A), steps (keeps fair) m → ensures fair m s) as Hkept by (intros A m Hm; by apply Hm).
  destruct r as [cid|u req|cid req|cid|req|cid req|req|cid b|req|aid|aid]; unfold desk; apply Hret.
  - apply Hkept. unfold case_detail, require_staff_or_above. pose proof (kept_detail Pk). steps_walk.
  - apply Hkept, (kept_create_case Pk); [apply decisions_cases|apply decisions_open].
  - unfold reply_case, require_staff_or_above. apply ensures_guard; [done|]. intros _.
    apply ensures_of_outcome; [done|]. intros req' Hreq. apply ensures_guard; [done|]. intros Hadmin.
    apply (kept_reply Pk). apply update_case_fair; [done|]. intros Hdec st Hst.
    assert (cup_status req' = strip <$> cup_status req) as Hcup.
    { unfold check_case_update in Hreq. case_match; [|done]. by injection Hreq as <-. }
    apply (Hr cid req); [done| |by rewrite <- Hcup].
    destruct Hdec as [Hdec|Hdec]; rewrite Hdec in Hadmin; cbn in Hadmin; by apply negb_false_iff in Hadmin.
  - apply Hkept, kept_detail.
  - apply Hkept, (kept_customer_create_case Pk); [apply decisions_cases|apply decisions_open].
  - unfold customer_reply. apply ensures_of_outcome; [done|]. intros req' _.
    apply (kept_reply Pk). apply update_case_fair; [done|]. by intros [Hn|Hn].
  - apply Hkept, (kept_create_coupon Pk), decisions_cases.
  - apply Hkept, (kept_toggle_coupon Pk), decisions_cases.
  - apply Hkept, (kept_create_announcement Pk), decisions_cases.
  - apply Hkept, (kept_send_announcement Pk), decisions_cases.
  - apply Hkept, (kept_stop_announcement Pk), decisions_cases.
Qed.

End decisions.

(** ** Requests *)

Lemma request_both {A} (P : DB → Prop) (m : M A) s : ensures (both P) m s → both P (in_request m s).2.
Proof.
  unfold ensures, in_request, catch, mbind, prog_bind. destruct (m s) as [[a|e] s1]; cbn.
  - intros [Hd _]. by split.
  - intros [_ Hc]. by split.
Qed.

(** An administrator's reply among the requests [l] that decides a case. *)
Definition admin_decision (l : list (Caller * DeskRequest)) (t cid : UUID) (st : string) : Prop :=
  ∃ p req, (p, ReplyCase cid req) ∈ l ∧ caller_tenant_id p = t ∧ is_admin_or_owner p = true
           ∧ strip <$> cup_status req = Some st.

Lemma run_desk_fair `{HE : Env} l k d0 s :
  both (decisions (admin_decision l) d0) s → k ⊆ l → both (decisions (admin_decision l) d0) (run_desk k s).
Proof.
  unfold run_desk. revert s. induction k as [|[p r] k IH]; intros s Hs Hk; [done|]. cbn. apply IH.
  - apply request_both, desk_fair; [done|]. intros cid req st -> Hadmin Hst. exists p, req.
    split_and!; [apply Hk; by left|done..].
  - intros pr Hpr. apply Hk. by right.
Qed.

(** [C38] Only administrators decide warranty claims.  After any sequence of
    requests at the desk, by anybody and each in its own transaction, a case
    that is APPROVED or DECLINED was so at the beginning, or the sequence
    contains a reply by an ADMIN or OWNER of the case's tenant that asked for
    exactly this decision of exactly this case. *)
Theorem desk_decisions `{HE : Env} l s c :
  ses_committed s = ses_db s → c ∈ support_cases (ses_db (run_desk l s)) → decided c →
  (∃ c0, c0 ∈ support_cases (ses_db s) ∧ case_tenant_id c0 = case_tenant_id c ∧ case_id c0 = case_id c
         ∧ case_status c0 = case_status c)
  ∨ admin_decision l (case_tenant_id c) (case_id c) (case_status c).
Proof.
  intros Hsync. assert (both (decisions (admin_decision l) (ses_db s)) s) as Hs.
  { split; rewrite ?Hsync; intros x Hx _; left; eauto 10. }
  by apply (run_desk_fair l l (ses_db s) s).
Qed.

(** ** Customers *)

Section customers.
  Context `{HE : Env}.

Lemma not_admin p : is_staff_or_above p = false → is_admin_or_owner p = false.
Proof.
  unfold is_staff_or_above, is_admin_or_owner, has_role. intros Hp. apply not_true_iff_false. intros Ha.
  rewrite <- not_true_iff_false in Hp. apply Hp. apply existsb_exists in Ha as (r & Hr & Ha).
  apply existsb_exists. exists r. split; [done|]. cbn in *. rewrite !orb_true_iff in *. tauto.
Qed.

(** What [detail] shows belongs to the tenant, to the customer, and together. *)
Lemma detail_shown t cid u s c ms s' :
  detail t cid (Some u) s = (Ok (c, ms), s') →
  case_tenant_id c = t ∧ case_user_id c = u ∧ Forall (λ m, msg_tenant_id m = t ∧ msg_case_id m = case_id c) ms.
Proof.
  unfold detail, scalar. intros Hr. bind_query Hr. bind_some Hr x Hx. bind_guard Hr Hu. bind_query Hr.
  apply ret_inv in Hr as [[= -> ->] _]. apply head_Some_elem_of in Hx.
  rewrite elem_of_select, andb_true_iff, !bool_decide_eq_true in Hx.
  apply negb_false_iff, bool_decide_eq_true in Hu. split_and!; [apply Hx|done|].
  apply Forall_forall. intros m Hm. rewrite elem_of_select, andb_true_iff, !bool_decide_eq_true in Hm. apply Hm.
Qed.

Lemma answer_ok {A} e code (m : M A) s a s' : answer_with e code m s = (Ok a, s') → m s = (Ok a, s').
Proof. intros [Hr|(x & s1 & _ & Hr)]%catch_inv_ok; [done|]. by case_match. Qed.

Lemma conflict_ok {A} (m : M A) s a s' : conflict_409 m s = (Ok a, s') → m s = (Ok a, s').
Proof. intros [Hr|(x & s1 & _ & Hr)]%catch_inv_ok; [done|]. by case_match. Qed.

(** Whatever a customer is shown comes from [detail]. *)
Lemma customer_shown p r s x s' :
  is_staff_or_above p = false → desk p r s = (Ok (Some x), s') →
  ∃ cid s1 s2, detail (caller_tenant_id p) cid (Some (caller_user_id p)) s1 = (Ok x, s2).
Proof.
  intros Hp Hr. pose proof (not_admin p Hp) as Ha.
  destruct r; unfold desk in Hr; apply bind_inv_ok in Hr as (y & s0 & Hy & Hr);
    apply ret_inv in Hr as [Hr _]; try discriminate Hr; injection Hr as ->.
  - exfalso. unfold case_detail, require_staff_or_above in Hy. bind_guard Hy Hg. by rewrite Hp in Hg.
  - exfalso. unfold create_case, require_staff_or_above in Hy. bind_guard Hy Hg. by rewrite Hp in Hg.
  - exfalso. unfold reply_case, require_staff_or_above in Hy. bind_guard Hy Hg. by rewrite Hp in Hg.
  - by eexists _, _, _.
  - unfold customer_create_case in Hy. bind_value Hy q Hq. apply answer_ok, conflict_ok in Hy.
    do 2 apply bind_inv_ok in Hy as (? & ? & _ & Hy). by eexists _, _, _.
  - unfold customer_reply in Hy. bind_value Hy q Hq. apply answer_ok in Hy.
    do 2 apply bind_inv_ok in Hy as (? & ? & _ & Hy). by eexists _, _, _.
Qed.

(** The cases of [d0] that are not the customer's are still there. *)
Definition others_kept (p : Caller) (d0 d : DB) : Prop :=
  ∀ c, c ∈ support_cases d0 → case_user_id c ≠ caller_user_id p ∨ case_tenant_id c ≠ caller_tenant_id p →
       c ∈ support_cases d.

Lemma others_cases p d0 d d' : support_cases d' = support_cases d → others_kept p d0 d → others_kept p d0 d'.
Proof. unfold others_kept. by intros ->. Qed.

Lemma others_open p d0 d c :
  case_status c = "OPEN" → others_kept p d0 d → others_kept p d0 (d <| support_cases ::= (λ t, t ++ [c]) |>).
Proof. intros _ Hd x Hx Ho. cbn. apply elem_of_app. left. by apply Hd. Qed.

Lemma others_reply p cid v body s :
  NoDup (case_id <$> support_cases (ses_db s)) → both (others_kept p (ses_db s)) s →
  ensures (both (others_kept p (ses_db s)))
    (update_case (caller_tenant_id p) cid (caller_user_id p) v body None (Some (caller_user_id p))) s.
Proof.
  intros Hnd Hs. unfold update_case, scalar. apply ensures_gets. apply ensures_of_option; [done|]. intros c Hc.
  apply head_Some_elem_of in Hc. rewrite elem_of_select, andb_true_iff, !bool_decide_eq_true in Hc.
  destruct Hc as (Hin & Hten & Hid). apply ensures_guard; [done|]. intros Hu.
  apply negb_false_iff, bool_decide_eq_true in Hu. do 4 (apply ensures_guard; [done|]; intros _). apply ensures_gets.
  apply ensures_bind; [|intros _ s1 _ Hs1].
  - split; [|apply Hs]. intros x Hx Ho. cbn. apply elem_of_update_where. exists x. split; [done|].
    destruct (_ && _) eqn:Hp; [|done]. exfalso. rewrite !andb_true_iff, !bool_decide_eq_true in Hp.
    assert (x = c) as -> by (eapply (NoDup_fmap_inj case_id); [done..|apply Hp]). by destruct Ho.
  - pose proof (desk_audit _ (others_cases p (ses_db s))).
    pose proof (kept_message _ (others_cases p (ses_db s))).
    match goal with |- ensures _ ?m _ => assert (steps (keeps (both (others_kept p (ses_db s)))) m) as Hk by steps_walk end.
    exact (Hk s1 Hs1).
Qed.

(** The tables a customer has no business with. *)
Definition shop_kept (d0 d : DB) : Prop :=
  coupons d = coupons d0 ∧ announcements d = announcements d0 ∧ deliveries d = deliveries d0.

Lemma shop_customer p r d0 : is_staff_or_above p = false → steps (keeps (both (shop_kept d0))) (desk p r).
Proof.
  intros Hp. pose proof (not_admin p Hp) as Ha.
  assert (∀ f, (∀ d, coupons (f d) = coupons d ∧ announcements (f d) = announcements d ∧ deliveries (f d) = deliveries d) →
            steps (keeps (both (shop_kept d0))) (write f)) as Hw.
  { intros f Hf. apply both_write. intros d Hd. destruct (Hf d) as (E1 & E2 & E3). unfold shop_kept. by rewrite E1, E2, E3. }
  pose proof (both_uuid4 (shop_kept d0)). pose proof (both_commit (shop_kept d0)).
  pose proof (both_rollback (shop_kept d0)).
  destruct r; unfold desk, case_detail, customer_case_detail, create_case, reply_case, create_coupon, toggle_coupon,
    create_announcement, send_announcement, stop_announcement, require_staff_or_above, require_admin_or_owner;
    rewrite ?Hp, ?Ha; cbn [negb]; try (intros s Hs; exact Hs).
  - unfold detail. steps_walk.
  - unfold customer_create_case, open_and_show, answer_with, conflict_409, commit_or_409, conflict_409, open_case,
      tenant_user, warranty_claim, insert_case, add_message, audit, detail. steps_walk.
  - unfold customer_reply, answer_with, commit_or_409, conflict_409, update_case, add_message, audit, detail. steps_walk.
Qed.

End customers.

(** [C39] A customer is confined to the own cases.  A caller without a staff
    role, with any request of the desk: every case of another user or tenant
    is afterwards as it was, coupons, announcements and their deliveries are
    unchanged, and if the answer shows a case, it is a case of this user in
    this tenant with messages of this case only. *)
Theorem customer_confined `{HE : Env} p r s o s' :
  NoDup (case_id <$> support_cases (ses_db s)) → ses_committed s = ses_db s → is_staff_or_above p = false →
  in_request (desk p r) s = (o, s') →
  others_kept p (ses_db s) (ses_db s') ∧ shop_kept (ses_db s) (ses_db s')
  ∧ (∀ c ms, o = Ok (Some (c, ms)) →
       case_tenant_id c = caller_tenant_id p ∧ case_user_id c = caller_user_id p
       ∧ Forall (λ m, msg_tenant_id m = caller_tenant_id p ∧ msg_case_id m = case_id c) ms).
Proof.
  intros Hnd Hsync Hp Hr. pose proof (not_admin p Hp) as Ha.
  assert (s' = (in_request (desk p r) s).2) as -> by (by rewrite Hr).
  assert (both (others_kept p (ses_db s)) s) as Ho by (by split; rewrite ?Hsync; intros c Hc _).
  split_and!.
  - apply (request_both (others_kept p (ses_db s))).
    assert (∀ A (m : M A), steps (keeps (both (others_kept p (ses_db s)))) m →
              ensures (both (others_kept p (ses_db s))) m s) as Hkept by (intros A m Hm; by apply Hm).
    destruct r; unfold desk, case_detail, create_case, reply_case, create_coupon, toggle_coupon, create_announcement,
      send_announcement, stop_announcement, require_staff_or_above, require_admin_or_owner;
      rewrite ?Hp, ?Ha; cbn [negb]; try exact Ho.
    + apply Hkept. pose proof (kept_detail (others_kept p (ses_db s))). unfold customer_case_detail. steps_walk.
    + apply Hkept. pose proof (kept_customer_create_case _ (others_cases p (ses_db s)) (others_open p (ses_db s))).
      steps_walk.
    + apply ensures_bind; [|by intros]. unfold customer_reply. apply ensures_of_outcome; [done|]. intros q _.
      apply kept_reply. by apply others_reply.
  - apply (request_both (shop_kept (ses_db s))). apply (shop_customer p r (ses_db s) Hp).
    by split; rewrite ?Hsync; split_and!.
  - intros c ms ->. unfold in_request in Hr. apply catch_inv_ok in Hr as [Hr|(e & s1 & _ & Hr)].
    + apply bind_inv_ok in Hr as (y & s1 & Hy & Hr). apply bind_inv_ok in Hr as (? & s2 & _ & Hr).
      apply ret_inv in Hr as [[= <-] _]. apply customer_shown in Hy as (cid & s3 & s4 & Hy); [|done].
      by apply detail_shown in Hy.
    + by apply bind_inv_ok in Hr as (? & ? & _ & Hr).
Qed.

(** ** An example *)

Definition desk_session : Session :=
  let t := mk_uuid "t" in
  let d := empty_db <| support_cases := [MkSupportCase (mk_uuid "claim") t (mk_uuid "ann") None (Some (mk_uuid "item"))
                                           "WARRANTY" "Broken" "OPEN" 1 (Some "1 year") None;
                                         MkSupportCase (mk_uuid "help") t (mk_uuid "bob") None None
                                           "SUPPORT" "Help" "OPEN" 1 None None] |>
                    <| memberships := [MkMembership (mk_uuid "m") t (mk_uuid "ann") true] |> in
  MkSession d d 0 [].

Definition customer_ann : Caller := MkCaller (mk_uuid "t") (mk_uuid "ann") [CUSTOMER].
Definition staff_sue : Caller := MkCaller (mk_uuid "t") (mk_uuid "sue") [STAFF].
Definition admin_ada : Caller := MkCaller (mk_uuid "t") (mk_uuid "ada") [ADMIN].

(** Staff tries to approve, the customer writes, the administrator approves. *)
Definition desk_day : list (Caller * DeskRequest) :=
  [ (staff_sue, ReplyCase (mk_uuid "claim") (MkCaseUpdate "Fine" 1 (Some "APPROVED")));
    (customer_ann, CustomerReply (mk_uuid "claim") (MkCaseUpdate "Please" 1 None));
    (admin_ada, ReplyCase (mk_uuid "claim") (MkCaseUpdate "Granted" 2 (Some "APPROVED"))) ].

Definition approved_claim : SupportCase :=
  MkSupportCase (mk_uuid "claim") (mk_uuid "t") (mk_uuid "ann") None (Some (mk_uuid "item")) "WARRANTY" "Broken"
    "APPROVED" 3 (Some "1 year") None.

Lemma desk_decisions_witness :
  approved_claim ∈ support_cases (ses_db (@run_desk demo_env desk_day desk_session))
  ∧ ((∃ c0, c0 ∈ support_cases (ses_db desk_session) ∧ case_tenant_id c0 = mk_uuid "t"
            ∧ case_id c0 = mk_uuid "claim" ∧ case_status c0 = "APPROVED")
     ∨ admin_decision desk_day (mk_uuid "t") (mk_uuid "claim") "APPROVED").
Proof.
  assert (approved_claim ∈ support_cases (ses_db (@run_desk demo_env desk_day desk_session))) as Hin.
  { replace (support_cases (ses_db (@run_desk demo_env desk_day desk_session)))
      with [approved_claim; MkSupportCase (mk_uuid "help") (mk_uuid "t") (mk_uuid "bob") None None
                              "SUPPORT" "Help" "OPEN" 1 None None] by (vm_compute; reflexivity).
    left. }
  split; [exact Hin|].
  refine (@desk_decisions demo_env desk_day desk_session approved_claim _ Hin _); [reflexivity|by left].
Defined.

Lemma customer_confined_witness :
  is_ok (@in_request _ (@desk demo_env customer_ann (CustomerReadCase (mk_uuid "help"))) desk_session).1 = false
  ∧ others_kept customer_ann (ses_db desk_session)
      (ses_db (@in_request _ (@desk demo_env customer_ann (CustomerReply (mk_uuid "claim") (MkCaseUpdate "Please" 1 None)))
                 desk_session).2).
Proof.
  split; [vm_compute; reflexivity|].
  destruct (@in_request _ (@desk demo_env customer_ann (CustomerReply (mk_uuid "claim") (MkCaseUpdate "Please" 1 None)))
              desk_session) as [o s'] eqn:Hr.
  refine (proj1 (@customer_confined demo_env customer_ann _ desk_session o s' _ _ _ Hr)).
  - change (NoDup [mk_uuid "claim"; mk_uuid "help"]). apply NoDup_cons. split; [|apply NoDup_singleton].
    by intros [[=]|[]%elem_of_nil]%elem_of_cons.
  - reflexivity.
  - reflexivity.
Defined.
