(* ===== verification/Saas.v ===== *)
(** * Platform plans, entitlements and commercial access

    [packages/saas/service.py] (the limits and features of a tenant),
    [packages/saas/product_entitlements.py] (who may use what) and
    [packages/saas/control_plane.py] (plans, prices, subscriptions, billing
    events and the platform's audit log). *)

From Stdlib Require Import ZArith Lia Ascii String.
From stdpp Require Import base tactics list option strings numbers pretty.
From S2P Require Import Prelude Tables Text Money Exceptions StateMachines Models Payments.

Local Open Scope Z_scope.

(** The fields of [packages.core.config.settings] that the platform reads. *)
Class Settings := {
  factory_max_bots_per_tenant : Z;
  factory_max_enabled_bots_per_tenant : Z;
  factory_max_open_provisioning_jobs_per_tenant : Z;
  billing_provider : string;
  stripe_secret_key : option string;
  stripe_webhook_secret : option string;
  billing_webhook_tolerance_seconds : Z;
  billing_past_due_grace_days : Z;
  billing_reconcile_enabled : bool;
  billing_success_url : option string;
  billing_cancel_url : option string;
  billing_portal_return_url : option string;
}.

(** ** Entitlements (service.py) *)

Abbreviation flags := (list (string * bool)).

Definition as_obj (v : option json) : dict := match v with Some (JObj o) => o | _ => [] end.

Definition merge_key (merged : dict) (kv : string * json) : dict :=
  match kv.2 with
  | JObj value =>
      if kv.1 == "features"
      then dict_set "features" (JObj (dict_merge (as_obj (dict_get "features" merged)) value)) merged
      else dict_set kv.1 (JObj value) merged
  | value => dict_set kv.1 value merged
  end.

Definition merge_entitlements (plan overrides : dict) : dict := foldl merge_key plan overrides.

Definition _required_positive_int (data : dict) (key : string) : outcome exn Z :=
  match dict_get key data with
  | Some (JInt n) => if n <? 1 then Raise EntitlementConfigurationError else Ok n
  | _ => Raise EntitlementConfigurationError
  end.

Fixpoint flag_list (l : dict) : outcome exn flags :=
  match l with
  | [] => Ok []
  | (key, JBool b) :: l =>
      if strip key == "" then Raise EntitlementConfigurationError
      else match flag_list l with Ok fs => Ok ((key, b) :: fs) | Raise e => Raise e end
  | _ :: _ => Raise EntitlementConfigurationError
  end.

Definition _feature_flags (data : dict) : outcome exn flags :=
  let raw := default JNull (dict_get "features" data) in
  if negb (json_truthy raw) then Ok []
  else match raw with
       | JObj o => flag_list o
       | _ => Raise EntitlementConfigurationError
       end.

Definition validate_entitlement_document (data : dict) : outcome exn unit :=
  match _required_positive_int data "max_bots" with
  | Raise e => Raise e
  | Ok max_bots =>
      match _required_positive_int data "max_enabled_bots" with
      | Raise e => Raise e
      | Ok max_enabled_bots =>
          match _required_positive_int data "max_open_provisioning_jobs" with
          | Raise e => Raise e
          | Ok _ =>
              if max_bots <? max_enabled_bots then Raise EntitlementConfigurationError
              else match _feature_flags data with Ok _ => Ok tt | Raise e => Raise e end
          end
      end
  end.

Record EntitlementSnapshot := MkEntitlementSnapshot {
  ent_source : string;
  ent_plan_key : option string;
  ent_plan_name : option string;
  ent_subscription_status : option SubscriptionStatus;
  ent_max_bots : Z;
  ent_max_enabled_bots : Z;
  ent_max_open_provisioning_jobs : Z;
  ent_features : flags;
}.

Record TenantUsageSnapshot := MkTenantUsageSnapshot {
  use_bots : Z;
  use_enabled_bots : Z;
  use_open_provisioning_jobs : Z;
}.

Definition SELF_HOSTED_DEFAULTS : string := "SELF_HOSTED_DEFAULTS".
Definition SAAS_PLAN : string := "SAAS_PLAN".

Definition subscriptions_of (tenant_id : UUID) (d : DB) : list TenantSubscription :=
  select (λ s, sub_tenant_id s == tenant_id) (subscriptions d).

(** [scalar_one_or_none()] of the tenant's subscription. *)
Definition get_tenant_subscription (tenant_id : UUID) : M (option TenantSubscription) :=
  rows ← query (subscriptions_of tenant_id); one_or_none rows.

Section entitlements.
  Context `{Env} `{Settings}.

Definition self_hosted : EntitlementSnapshot :=
  MkEntitlementSnapshot SELF_HOSTED_DEFAULTS None (Some "Self-hosted") None factory_max_bots_per_tenant
    factory_max_enabled_bots_per_tenant factory_max_open_provisioning_jobs_per_tenant [].

Definition resolve_tenant_entitlements (tenant_id : UUID) : M EntitlementSnapshot :=
  subscription ← get_tenant_subscription tenant_id;
  match subscription with
  | None => mret self_hosted
  | Some subscription =>
      found ← query (λ d, get_row (sub_plan_id subscription) (plans d));
      plan ← of_option EntitlementConfigurationError found;
      let merged := merge_entitlements (plan_entitlements plan) (sub_entitlement_overrides subscription) in
      of_outcome (validate_entitlement_document merged);;
      max_bots ← of_outcome (_required_positive_int merged "max_bots");
      max_enabled_bots ← of_outcome (_required_positive_int merged "max_enabled_bots");
      max_jobs ← of_outcome (_required_positive_int merged "max_open_provisioning_jobs");
      features ← of_outcome (_feature_flags merged);
      mret (MkEntitlementSnapshot SAAS_PLAN (Some (plan_key plan)) (Some (plan_name plan))
              (Some (sub_status subscription)) max_bots max_enabled_bots max_jobs features)
  end.

Definition is_open_job (s : BotProvisioningStatus) : bool :=
  match s with ProvPending | ProvRunning | ProvRetry => true | _ => false end.

Definition resolve_tenant_usage (tenant_id : UUID) : M TenantUsageSnapshot :=
  bots_ ← query (λ d, rowcount (λ b, (bot_tenant_id b == tenant_id) && negb (is_some (bot_deleted_at b))) (bots d));
  enabled ← query (λ d, rowcount (λ b, (bot_tenant_id b == tenant_id) && negb (is_some (bot_deleted_at b))
                                       && bot_is_enabled b) (bots d));
  open_ ← query (λ d, rowcount (λ j, (bpj_tenant_id j == tenant_id) && is_open_job (bpj_status j))
                        (provisioning_jobs d));
  mret (MkTenantUsageSnapshot (Z.of_nat bots_) (Z.of_nat enabled) (Z.of_nat open_)).

(** ** Commercial access (product_entitlements.py) *)

Inductive CommercialAccessState := AccessSelfHosted | AccessActive | AccessGrace | AccessBlocked.

Record CommercialAccessSnapshot := MkCommercialAccessSnapshot {
  acc_state : CommercialAccessState;
  acc_allowed : bool;
  acc_subscription_status : option SubscriptionStatus;
  acc_grace_ends_at : option Z;
}.

Definition commercial_access_for_subscription (subscription : option TenantSubscription) (current : Z)
    : CommercialAccessSnapshot :=
  match subscription with
  | None => MkCommercialAccessSnapshot AccessSelfHosted true None None
  | Some s =>
      match sub_status s with
      | SubActive | SubTrialing =>
          MkCommercialAccessSnapshot AccessActive true (Some (sub_status s)) (sub_grace_ends_at s)
      | SubPastDue =>
          if match sub_grace_ends_at s with Some grace_end => current <? grace_end | None => false end
          then MkCommercialAccessSnapshot AccessGrace true (Some (sub_status s)) (sub_grace_ends_at s)
          else MkCommercialAccessSnapshot AccessBlocked false (Some (sub_status s)) (sub_grace_ends_at s)
      | _ => MkCommercialAccessSnapshot AccessBlocked false (Some (sub_status s)) (sub_grace_ends_at s)
      end
  end.

Definition resolve_commercial_access (tenant_id : UUID) : M CommercialAccessSnapshot :=
  subscription ← scalar (subscriptions_of tenant_id);
  n ← now;
  mret (commercial_access_for_subscription subscription n).

Definition PRODUCT_FEATURES : list string := ["custom_branding"; "canary_rollout"; "runtime_controls"].

Fixpoint flag_get (k : string) (l : flags) : option bool :=
  match l with [] => None | (k', b) :: l => if k == k' then Some b else flag_get k l end.

(** [sorted(set(PRODUCT_FEATURES) | set(configured))] *)
Definition feature_keys (configured : flags) : list string :=
  sort_by String.leb (foldl (λ acc k, if existsb (λ x, x == k) acc then acc else acc ++ [k]) []
                        (PRODUCT_FEATURES ++ map fst configured)).

Definition effective_feature_flags (e : EntitlementSnapshot) (access : CommercialAccessSnapshot) : flags :=
  if ent_source e == SELF_HOSTED_DEFAULTS then map (λ k, (k, true)) (feature_keys (ent_features e))
  else map (λ k, (k, default false (flag_get k (ent_features e)) && acc_allowed access))
         (feature_keys (ent_features e)).

Record ProductEntitlementSnapshot := MkProductEntitlementSnapshot {
  pe_entitlements : EntitlementSnapshot;
  pe_access : CommercialAccessSnapshot;
  pe_effective_features : flags;
}.

Definition resolve_product_entitlements (tenant_id : UUID) : M ProductEntitlementSnapshot :=
  e ← resolve_tenant_entitlements tenant_id;
  access ← resolve_commercial_access tenant_id;
  mret (MkProductEntitlementSnapshot e access (effective_feature_flags e access)).

Definition require_commercial_access (tenant_id : UUID) : M CommercialAccessSnapshot :=
  access ← resolve_commercial_access tenant_id;
  raise_if (negb (acc_allowed access)) CommercialAccessDenied;;
  mret access.

Definition require_feature_entitlement (tenant_id : UUID) (feature : string) : M ProductEntitlementSnapshot :=
  snapshot ← resolve_product_entitlements tenant_id;
  raise_if (negb (acc_allowed (pe_access snapshot))) CommercialAccessDenied;;
  raise_if ((ent_source (pe_entitlements snapshot) != SELF_HOSTED_DEFAULTS)
            && negb (default false (flag_get feature (pe_effective_features snapshot))))
    FeatureEntitlementDenied;;
  mret snapshot.

End entitlements.

(** ** The control plane (control_plane.py) *)

Definition _SECRETISH : list string :=
  ["secret"; "token"; "password"; "credential"; "authorization"; "api_key"; "apikey"; "private_key"].

Definition is_key_char (c : ascii) : bool := is_lower c || is_digit c.

(** [re.fullmatch("[a-z0-9][a-z0-9-]{1,62}[a-z0-9]", key)] *)
Definition plan_key_ok (key : string) : bool :=
  let l := chars key in
  ((3 <=? length l) && (length l <=? 64))%nat
  && forallb (λ c, is_key_char c || (c == "-"%char)) l
  && match head l with Some c => is_key_char c | None => false end
  && match last l with Some c => is_key_char c | None => false end.

Definition normalize_plan_key (value : string) : outcome exn string :=
  let key := lower (strip value) in
  if plan_key_ok key then Ok key else Raise PlatformValidationError.

Definition secretish (key : string) : bool := existsb (λ fragment, occurs fragment (lower key)) _SECRETISH.

Fixpoint safe_metadata (v : json) : bool :=
  match v with
  | JObj o => forallb (λ kv, negb (secretish kv.1) && safe_metadata kv.2) o
  | JList l => forallb safe_metadata l
  | _ => true
  end.

Definition _ensure_safe_metadata (value : dict) : M unit :=
  raise_if (negb (safe_metadata (JObj value))) PlatformValidationError.

Definition _validate_plan_state (is_active is_public : bool) : M unit :=
  raise_if (is_public && negb is_active) PlatformValidationError.

Definition validate_plan_entitlements (entitlements : dict) : M unit :=
  match validate_entitlement_document entitlements with
  | Ok _ => mret tt
  | Raise EntitlementConfigurationError => mthrow PlatformValidationError
  | Raise e => mthrow e
  end.

Definition validate_subscription_overrides (plan overrides : dict) : M unit :=
  validate_plan_entitlements (merge_entitlements plan overrides).

Section control_plane.
  Context `{Env} `{Settings}.

Definition flush_plan (i : UUID) : M unit :=
  found ← query (λ d, get_row i (plans d));
  match found with
  | None => mret tt
  | Some p => to_varchar 64 (plan_key p);; to_varchar 120 (plan_name p);; to_varchar_opt 500 (plan_description p)
  end.

Record PlanRequest := MkPlanRequest {
  plr_key : string;
  plr_name : string;
  plr_description : option string;
  plr_is_active : bool;
  plr_is_public : bool;
  plr_entitlements : dict;
  plr_metadata_json : dict;
}.

Definition stripped (o : option string) : option string := if truthy o then strip <$> o else None.

Definition create_plan (req : PlanRequest) : M SaaSPlan :=
  key ← of_outcome (normalize_plan_key (plr_key req));
  let name := strip (plr_name req) in
  raise_if (name == "") PlatformValidationError;;
  validate_plan_entitlements (plr_entitlements req);;
  _validate_plan_state (plr_is_active req) (plr_is_public req);;
  _ensure_safe_metadata (plr_metadata_json req);;
  existing ← scalar (λ d, select (λ p, plan_key p == key) (plans d));
  raise_if (is_some existing) PlatformConflictError;;
  await_others;;
  n ← now;
  i ← uuid4;
  let plan := MkSaaSPlan i key name (stripped (plr_description req)) (plr_is_active req) (plr_is_public req)
                (plr_entitlements req) (plr_metadata_json req) n in
  clash ← query (λ d, existsb (λ p, (plan_id p == i) || (plan_key p == key)) (plans d));
  raise_if clash PlatformConflictError;;
  write (λ d, d <| plans ::= (λ t, t ++ [plan]) |>);;
  flush_plan i;;
  mret plan.

Record PlanUpdate := MkPlanUpdate {
  plu_plan_id : UUID;
  plu_name : option string;
  plu_description : option string;
  plu_description_supplied : bool;
  plu_is_active : option bool;
  plu_is_public : option bool;
  plu_entitlements : option dict;
  plu_metadata_json : option dict;
}.

Definition update_plan_row (i : UUID) (f : SaaSPlan → SaaSPlan) : M unit :=
  write (λ d, d <| plans ::= update_row i f |>).

(** The subscribers' overrides must still fit. *)
Definition set_entitlements (i : UUID) (entitlements : dict) : M unit :=
  validate_plan_entitlements entitlements;;
  subs ← query (λ d, select (λ s, sub_plan_id s == i) (subscriptions d));
  for_each subs (λ s, validate_subscription_overrides entitlements (sub_entitlement_overrides s));;
  update_plan_row i (λ p, p <| plan_entitlements := entitlements |>).

Definition update_plan (req : PlanUpdate) : M unit :=
  let i := plu_plan_id req in
  rows ← query (λ d, select (λ p, plan_id p == i) (plans d));
  found ← one_or_none rows;
  plan ← of_option PlatformNotFoundError found;
  let next_active := default (plan_is_active plan) (plu_is_active req) in
  let next_public := default (plan_is_public plan) (plu_is_public req) in
  _validate_plan_state next_active next_public;;
  match plu_name req with
  | Some name =>
      raise_if (strip name == "") PlatformValidationError;;
      update_plan_row i (λ p, p <| plan_name := strip name |>)
  | None => mret tt
  end;;
  (if plu_description_supplied req
   then update_plan_row i (λ p, p <| plan_description := stripped (plu_description req) |>) else mret tt);;
  match plu_entitlements req with Some e => set_entitlements i e | None => mret tt end;;
  match plu_metadata_json req with
  | Some metadata =>
      _ensure_safe_metadata metadata;;
      update_plan_row i (λ p, p <| plan_metadata_json := metadata |>)
  | None => mret tt
  end;;
  update_plan_row i (λ p, p <| plan_is_active := next_active |> <| plan_is_public := next_public |>);;
  flush_plan i.

Definition get_plan_by_key (key : string) (require_active : bool) : M SaaSPlan :=
  key ← of_outcome (normalize_plan_key key);
  found ← scalar (λ d, select (λ p, plan_key p == key) (plans d));
  plan ← of_option PlatformNotFoundError found;
  raise_if (require_active && negb (plan_is_active plan)) PlatformValidationError;;
  mret plan.

(** ** Prices *)

Record PriceRequest := MkPriceRequest {
  prq_plan_id : UUID;
  prq_provider : string;
  prq_external_price_id : string;
  prq_currency : string;
  prq_unit_amount_minor : Z;
  prq_interval : BillingInterval;
  prq_interval_count : Z;
  prq_is_active : bool;
  prq_metadata_json : option dict;
}.

(** The primary key, [uq_saas_plan_price_provider_external] and
    [uq_saas_plan_price_slot]. *)
Definition price_conflict (a b : SaaSPlanPrice) : bool :=
  (price_id a == price_id b)
  || (price_provider a == price_provider b) && (price_external_price_id a == price_external_price_id b)
  || (price_plan_id a == price_plan_id b) && (price_provider a == price_provider b)
     && (price_currency a == price_currency b) && (price_interval a == price_interval b)
     && (price_interval_count a == price_interval_count b).

(** An [Integer] column. *)
Definition to_integer (n : Z) : M unit :=
  raise_if (negb ((- 2 ^ 31 <=? n) && (n <? 2 ^ 31))) DataError.

Definition create_plan_price (req : PriceRequest) : M SaaSPlanPrice :=
  found ← query (λ d, get_row (prq_plan_id req) (plans d));
  plan ← of_option PlatformNotFoundError found;
  let provider := lower (strip (prq_provider req)) in
  let external := strip (prq_external_price_id req) in
  let currency := upper (strip (prq_currency req)) in
  raise_if ((provider == "") || (external == "")) PlatformValidationError;;
  raise_if (negb (String.length currency =? 3)%nat || negb (isalpha currency)) PlatformValidationError;;
  raise_if (prq_unit_amount_minor req <? 0) PlatformValidationError;;
  raise_if ((prq_interval_count req <? 1) || (36 <? prq_interval_count req)) PlatformValidationError;;
  let metadata := default [] (prq_metadata_json req) in
  _ensure_safe_metadata metadata;;
  i ← uuid4;
  let price := MkSaaSPlanPrice i (plan_id plan) provider external currency (prq_unit_amount_minor req)
                 (prq_interval req) (prq_interval_count req) (prq_is_active req) metadata in
  to_varchar 50 provider;; to_varchar 255 external;; to_integer (prq_unit_amount_minor req);;
  clash ← query (λ d, existsb (price_conflict price) (plan_prices d));
  raise_if clash PlatformConflictError;;
  write (λ d, d <| plan_prices ::= (λ t, t ++ [price]) |>);;
  mret price.

Definition update_plan_price (i : UUID) (is_active : option bool) (metadata_json : option dict) : M unit :=
  rows ← query (λ d, select (λ p, price_id p == i) (plan_prices d));
  found ← one_or_none rows;
  of_option PlatformNotFoundError found;;
  let update f := write (λ d, d <| plan_prices ::= update_row i f |>) in
  match is_active with Some b => update (λ p, p <| price_is_active := b |>) | None => mret tt end;;
  match metadata_json with
  | Some metadata =>
      _ensure_safe_metadata metadata;; update (λ p, p <| price_metadata_json := metadata |>)
  | None => mret tt
  end.

(** ** Subscriptions *)

(** An UPDATE is issued, and [updated_at] set, when a column changes. *)
Definition subscription_unchanged (a b : TenantSubscription) : bool :=
  (sub_plan_id a == sub_plan_id b) && (sub_status a == sub_status b)
  && (sub_billing_provider a == sub_billing_provider b)
  && (sub_external_customer_id a == sub_external_customer_id b)
  && (sub_external_subscription_id a == sub_external_subscription_id b)
  && (sub_current_period_start a == sub_current_period_start b)
  && (sub_current_period_end a == sub_current_period_end b)
  && (sub_trial_ends_at a == sub_trial_ends_at b) && (sub_grace_ends_at a == sub_grace_ends_at b)
  && (sub_provider_synced_at a == sub_provider_synced_at b)
  && (sub_provider_sync_source a == sub_provider_sync_source b)
  && (sub_provider_sync_error a == sub_provider_sync_error b)
  && (sub_provider_sync_error_at a == sub_provider_sync_error_at b)
  && Bool.eqb (sub_cancel_at_period_end a) (sub_cancel_at_period_end b)
  && json_eqb (JObj (sub_entitlement_overrides a)) (JObj (sub_entitlement_overrides b))
  && json_eqb (JObj (sub_billing_metadata a)) (JObj (sub_billing_metadata b)).

Definition touched (n : Z) (old new : TenantSubscription) : TenantSubscription :=
  if subscription_unchanged old new then new else new <| sub_updated_at := n |>.

Definition update_subscription (i : UUID) (f : TenantSubscription → TenantSubscription) : M unit :=
  n ← now;
  write (λ d, d <| subscriptions ::= update_row i (λ s, touched n s (f s)) |>).

Record SubscriptionRequest := MkSubscriptionRequest {
  sr_tenant_id : UUID;
  sr_plan_key : string;
  sr_status : SubscriptionStatus;
  sr_billing_provider : option string;
  sr_external_customer_id : option string;
  sr_external_subscription_id : option string;
  sr_current_period_start : option Z;
  sr_current_period_end : option Z;
  sr_trial_ends_at : option Z;
  sr_grace_ends_at : option Z;
  sr_cancel_at_period_end : bool;
  sr_entitlement_overrides : option dict;
  sr_billing_metadata : option dict;
}.

Global Instance SubscriptionRequest_eta : Eta SubscriptionRequest := λ r,
  MkSubscriptionRequest (sr_tenant_id r) (sr_plan_key r) (sr_status r) (sr_billing_provider r)
    (sr_external_customer_id r) (sr_external_subscription_id r) (sr_current_period_start r)
    (sr_current_period_end r) (sr_trial_ends_at r) (sr_grace_ends_at r) (sr_cancel_at_period_end r)
    (sr_entitlement_overrides r) (sr_billing_metadata r).

(** The columns that [upsert_subscription] assigns. *)
Definition assign_subscription (plan : SaaSPlan) (req : SubscriptionRequest) (s : TenantSubscription)
    : TenantSubscription :=
  s <| sub_plan_id := plan_id plan |> <| sub_status := sr_status req |>
    <| sub_billing_provider := if truthy (sr_billing_provider req)
                               then (λ p, lower (strip p)) <$> sr_billing_provider req else None |>
    <| sub_external_customer_id := stripped (sr_external_customer_id req) |>
    <| sub_external_subscription_id := stripped (sr_external_subscription_id req) |>
    <| sub_current_period_start := sr_current_period_start req |>
    <| sub_current_period_end := sr_current_period_end req |>
    <| sub_trial_ends_at := sr_trial_ends_at req |> <| sub_grace_ends_at := sr_grace_ends_at req |>
    <| sub_cancel_at_period_end := sr_cancel_at_period_end req |>
    <| sub_entitlement_overrides := default [] (sr_entitlement_overrides req) |>
    <| sub_billing_metadata := default [] (sr_billing_metadata req) |>.

(** The primary key, [uq_tenant_subscription_tenant] and
    [uq_tenant_subscription_provider_external_id], which ignores NULLs. *)
Definition subscription_conflict (a b : TenantSubscription) : bool :=
  (sub_id a == sub_id b) || (sub_tenant_id a == sub_tenant_id b)
  || is_some (sub_billing_provider a) && is_some (sub_external_subscription_id a)
     && (sub_billing_provider a == sub_billing_provider b)
     && (sub_external_subscription_id a == sub_external_subscription_id b).

(** The flush of the subscription [s]: its columns and the constraints against
    the other rows. *)
Definition check_subscription (s : TenantSubscription) : M unit :=
  to_varchar_opt 50 (sub_billing_provider s);;
  to_varchar_opt 255 (sub_external_customer_id s);;
  to_varchar_opt 255 (sub_external_subscription_id s);;
  clash ← query (λ d, existsb (λ x, (sub_id x != sub_id s) && subscription_conflict s x) (subscriptions d));
  raise_if clash PlatformConflictError.

Definition later_than (a b : option Z) : bool :=
  match a, b with Some a, Some b => b <? a | _, _ => false end.

Definition upsert_subscription (req : SubscriptionRequest) : M TenantSubscription :=
  let t := sr_tenant_id req in
  found ← query (λ d, get_row t (tenants d));
  tenant ← of_option PlatformNotFoundError found;
  raise_if (is_some (ten_deleted_at tenant)) PlatformNotFoundError;;
  subscription ← get_tenant_subscription t;
  plan ← get_plan_by_key (sr_plan_key req) false;
  raise_if (negb (plan_is_active plan)
            && match subscription with Some s => sub_plan_id s != plan_id plan | None => true end)
    PlatformValidationError;;
  validate_subscription_overrides (plan_entitlements plan) (default [] (sr_entitlement_overrides req));;
  _ensure_safe_metadata (default [] (sr_billing_metadata req));;
  raise_if (truthy (stripped (sr_external_subscription_id req))
            && negb (truthy (if truthy (sr_billing_provider req)
                             then (λ p, lower (strip p)) <$> sr_billing_provider req else None)))
    PlatformValidationError;;
  raise_if (later_than (sr_current_period_start req) (sr_current_period_end req)) PlatformValidationError;;
  match subscription with
  | Some s =>
      check_subscription (assign_subscription plan req s);;
      update_subscription (sub_id s) (assign_subscription plan req);;
      query (λ d, default s (get_row (sub_id s) (subscriptions d)))
  | None =>
      n ← now;
      i ← uuid4;
      let s := assign_subscription plan req
                 (MkTenantSubscription i t (plan_id plan) SubActive None None None None None None None
                    None None None None false [] [] n) in
      taken ← query (λ d, existsb (λ x, sub_id x == i) (subscriptions d));
      raise_if taken PlatformConflictError;;
      check_subscription s;;
      write (λ d, d <| subscriptions ::= (λ l, l ++ [s]) |>);;
      mret s
  end.

(** The events keep their row: [billing_events.subscription_id] is SET NULL. *)
Definition clear_subscription (tenant_id : UUID) : M TenantSubscription :=
  subscription ← get_tenant_subscription tenant_id;
  s ← of_option PlatformNotFoundError subscription;
  write (λ d, d <| subscriptions ::= select (λ x, sub_id x != sub_id s) |>
                <| billing_events ::= update_where (λ e, bev_subscription_id e == Some (sub_id s))
                     (λ e, e <| bev_subscription_id := None |>) |>);;
  mret s.

(** ** Billing events *)

Definition subscription_status_value (s : SubscriptionStatus) : string :=
  match s with
  | SubTrialing => "TRIALING" | SubActive => "ACTIVE" | SubPastDue => "PAST_DUE"
  | SubPaused => "PAUSED" | SubCanceled => "CANCELED"
  end.

(** [_canonical_billing_value] of a [datetime]. *)
Definition canonical_time (t : option Z) : json :=
  match t with Some t => JStr (replace_word "+00:00" "Z" (env_isoformat t)) | None => JNull end.

Definition text_or_null (o : option string) : json := match o with Some s => JStr s | None => JNull end.

(** [json.dumps(..., sort_keys=True)] sorts every object by its keys. *)
Fixpoint sorted_json (v : json) : json :=
  match v with
  | JObj o => JObj (sort_by (λ a b, String.leb a.1 b.1) (map (λ kv, (kv.1, sorted_json kv.2)) o))
  | JList l => JList (map sorted_json l)
  | v => v
  end.

Definition _billing_fingerprint (payload : dict) : string := env_sha256 (dumps (sorted_json (JObj payload))).

(** The arguments of [converge_billing_event]: the event and, in
    [ber_subscription], what it says of the subscription. *)
Record BillingEventRequest := MkBillingEventRequest {
  ber_provider : string;
  ber_external_event_id : string;
  ber_event_type : string;
  ber_subscription : SubscriptionRequest;
  ber_event_metadata : option dict;
}.

Definition fingerprint_payload (provider event_id event_type plan_key : string) (req : BillingEventRequest) : dict :=
  let r := ber_subscription req in
  [("provider", JStr provider); ("external_event_id", JStr event_id); ("event_type", JStr event_type);
   ("tenant_id", JStr (uuid_str (sr_tenant_id r))); ("plan_key", JStr plan_key);
   ("status", JStr (subscription_status_value (sr_status r)));
   ("external_customer_id", text_or_null (sr_external_customer_id r));
   ("external_subscription_id", text_or_null (sr_external_subscription_id r));
   ("current_period_start", canonical_time (sr_current_period_start r));
   ("current_period_end", canonical_time (sr_current_period_end r));
   ("trial_ends_at", canonical_time (sr_trial_ends_at r));
   ("grace_ends_at", canonical_time (sr_grace_ends_at r));
   ("cancel_at_period_end", JBool (sr_cancel_at_period_end r));
   ("entitlement_overrides", JObj (default [] (sr_entitlement_overrides r)));
   ("billing_metadata", JObj (default [] (sr_billing_metadata r)));
   ("event_metadata", JObj (default [] (ber_event_metadata req)))].

Record BillingConvergenceResult := MkBillingConvergenceResult {
  conv_event : BillingEvent;
  conv_subscription : TenantSubscription;
  conv_duplicate : bool;
}.

Definition events_by_key (provider event_id : string) (d : DB) : list BillingEvent :=
  select (λ e, (bev_provider e == provider) && (bev_external_event_id e == event_id)) (billing_events d).

(** An event that was recorded before. *)
Definition recorded (event : BillingEvent) (payload_sha256 : string) : M BillingConvergenceResult :=
  raise_if (bev_payload_sha256 event != payload_sha256) BillingEventConflictError;;
  found ← query (λ d, match bev_subscription_id event with
                      | Some i => get_row i (subscriptions d)
                      | None => None
                      end);
  s ← of_option PlatformConflictError found;
  mret (MkBillingConvergenceResult event s true).

(** The unique key of the event, its primary key and the foreign key of its
    tenant. *)
Definition insert_event (event : BillingEvent) : M unit :=
  to_varchar 50 (bev_provider event);; to_varchar 255 (bev_external_event_id event);;
  to_varchar 120 (bev_event_type event);; to_varchar 64 (bev_payload_sha256 event);;
  clash ← query (λ d, existsb (λ e, (bev_id e == bev_id event)
                    || (bev_provider e == bev_provider event)
                       && (bev_external_event_id e == bev_external_event_id event)) (billing_events d));
  orphan ← query (λ d, match bev_tenant_id event with
                       | Some t => negb (is_some (get_row t (tenants d)))
                       | None => false
                       end);
  raise_if (clash || orphan) IntegrityError;;
  write (λ d, d <| billing_events ::= (λ t, t ++ [event]) |>).

Definition update_event (i : UUID) (f : BillingEvent → BillingEvent) : M unit :=
  write (λ d, d <| billing_events ::= update_row i f |>).

(** The subscription is brought to what the new event says. *)
Definition apply_event (event : BillingEvent) (req : SubscriptionRequest) : M BillingConvergenceResult :=
  let i := bev_id event in
  s ← catch (begin_nested (upsert_subscription req))
        (λ e,
           n ← now;
           update_event i (λ x, x <| bev_status := BillFailed |>
             <| bev_last_error := Some (prefix_of 1000 (env_exn_str e)) |> <| bev_processed_at := Some n |>);;
           mthrow e);
  n ← now;
  update_event i (λ x, x <| bev_status := BillApplied |> <| bev_subscription_id := Some (sub_id s) |>
    <| bev_processed_at := Some n |> <| bev_last_error := None |>);;
  event ← query (λ d, default event (get_row i (billing_events d)));
  mret (MkBillingConvergenceResult event s false).

Definition converge_billing_event (req : BillingEventRequest) : M BillingConvergenceResult :=
  let provider := lower (strip (ber_provider req)) in
  let event_id := strip (ber_external_event_id req) in
  let event_type := strip (ber_event_type req) in
  raise_if ((provider == "") || (event_id == "") || (event_type == "")) PlatformValidationError;;
  let metadata := default [] (ber_event_metadata req) in
  _ensure_safe_metadata metadata;;
  key ← of_outcome (normalize_plan_key (sr_plan_key (ber_subscription req)));
  let payload_sha256 := _billing_fingerprint (fingerprint_payload provider event_id event_type key req) in
  rows ← query (events_by_key provider event_id);
  existing ← one_or_none rows;
  match existing with
  | Some existing => recorded existing payload_sha256
  | None =>
      i ← uuid4;
      let event := MkBillingEvent i provider event_id event_type payload_sha256 BillReceived
                     (Some (sr_tenant_id (ber_subscription req))) None 1 None metadata None in
      await_others;;
      inserted ← except_integrity (begin_nested (insert_event event);; mret true) (mret false);
      if inserted : bool then
        apply_event event ((ber_subscription req) <| sr_billing_provider := Some provider |>)
      else
        rows ← query (events_by_key provider event_id);
        found ← one_or_none rows;
        concurrent ← of_option PlatformConflictError found;
        recorded concurrent payload_sha256
  end.

Definition append_platform_audit (action resource_type resource_id : string) (tenant_id : option UUID)
    (details : dict) (ip_address : option string) (actor : string) : M PlatformAuditLog :=
  _ensure_safe_metadata details;;
  i ← uuid4;
  let record := MkPlatformAuditLog i (prefix_of 120 actor) (prefix_of 100 action)
                  (prefix_of 100 resource_type) (prefix_of 100 resource_id) tenant_id details ip_address in
  to_varchar_opt 45 ip_address;;
  write (λ d, d <| platform_logs ::= (λ t, t ++ [record]) |>);;
  mret record.

Definition platform_counts : M (list (string * Z)) :=
  query (λ d,
    [("tenants", Z.of_nat (length (tenants d)));
     ("active_tenants", Z.of_nat (rowcount (λ t, negb (is_some (ten_deleted_at t)) && ten_is_active t) (tenants d)));
     ("plans", Z.of_nat (length (plans d)));
     ("active_plans", Z.of_nat (rowcount plan_is_active (plans d)));
     ("subscriptions", Z.of_nat (length (subscriptions d)));
     ("billing_events", Z.of_nat (length (billing_events d)))]).

End control_plane.
