(* ===== verification/Billing.v ===== *)
(** * Platform billing

    [packages/saas/billing.py] (the Stripe adapter behind
    [BillingProviderAdapter]), [packages/saas/billing_service.py] (from what the
    provider says to the subscription), the poll of
    [packages/saas/reconciliation_worker.py] and the handlers of
    [apps/api/v1/saas_billing.py] that change state. *)

From Stdlib Require Import ZArith Lia Ascii String.
From stdpp Require Import base tactics list option strings numbers pretty.
From S2P Require Import Prelude Tables Text Money Exceptions StateMachines Models Payments.
From S2P Require Import Operations Reversals Saas.

Local Open Scope Z_scope.

(** ** What an adapter reports *)

Record CheckoutSessionResult := MkCheckoutSessionResult {
  cks_provider : string;
  cks_external_session_id : string;
  cks_url : string;
  cks_expires_at : option Z;
}.

Record PortalSessionResult := MkPortalSessionResult {
  pos_provider : string;
  pos_external_session_id : string;
  pos_url : string;
}.

Record ProviderSubscriptionState := MkProviderSubscriptionState {
  pss_provider : string;
  pss_event_type : string;
  pss_external_event_id : option string;
  pss_tenant_id : UUID;
  pss_external_price_id : string;
  pss_status : SubscriptionStatus;
  pss_external_customer_id : option string;
  pss_external_subscription_id : string;
  pss_current_period_start : option Z;
  pss_current_period_end : option Z;
  pss_trial_ends_at : option Z;
  pss_cancel_at_period_end : bool;
  pss_provider_created_at : Z;
  pss_revision : string;
  pss_event_metadata : dict;
}.

Record VerifiedWebhookEvent := MkVerifiedWebhookEvent {
  vwe_provider : string;
  vwe_external_event_id : string;
  vwe_event_type : string;
  vwe_provider_created_at : Z;
  vwe_subscription_state : option ProviderSubscriptionState;
  vwe_external_subscription_id : option string;
  vwe_tenant_id : option UUID;
}.

Record CheckoutRequest := MkCheckoutRequest {
  ckr_tenant_id : UUID;
  ckr_tenant_name : string;
  ckr_plan_key : string;
  ckr_external_price_id : string;
  ckr_success_url : string;
  ckr_cancel_url : string;
  ckr_idempotency_key : string;
  ckr_existing_customer_id : option string;
}.

(** [BillingProviderAdapter] *)
Record BillingProviderAdapter := MkBillingProviderAdapter {
  provider_name : string;
  create_checkout_session : CheckoutRequest → M CheckoutSessionResult;
  create_portal_session : string → string → M PortalSessionResult;
  verify_webhook : string → string → M VerifiedWebhookEvent;
  fetch_subscription : string → M ProviderSubscriptionState;
}.

(** [isinstance(exc, BillingProviderError)], [..., PlatformConflictError)] and
    [..., PlatformControlPlaneError)] *)
Definition is_billing_provider_error (e : exn) : bool :=
  match e with
  | BillingProviderError | BillingProviderNotConfiguredError | BillingWebhookVerificationError
  | BillingProviderResponseError => true
  | _ => false
  end.

Definition is_platform_conflict (e : exn) : bool :=
  match e with PlatformConflictError | BillingEventConflictError => true | _ => false end.

Definition is_platform_error (e : exn) : bool :=
  is_platform_conflict e || (e == PlatformNotFoundError) || (e == PlatformValidationError).

(** ** Stripe *)

(** [httpx]: no response, or a status and the body where it is JSON. *)
Inductive HttpReply :=
  | HttpFailed
  | HttpResponse (status_code : Z) (body : option json).

(** HTTP, HMAC-SHA-256 in hexadecimal, and [json.loads] of a payload ([None]
    where it or the decoding raises). *)
Class Wire := {
  wire_http : list Sent → string → string → list (string * string) → option string → HttpReply;
  wire_hmac_sha256 : string → string → string;
  wire_json_loads : string → option json;
}.

(** Seconds from year 1 to year 9999; beyond the platform's [time_t] the
    exception is an [OverflowError], which [_timestamp] does not catch. *)
Definition fromtimestamp (n : Z) : outcome exn Z :=
  if (-62135596800 <=? n) && (n <=? 253402300799) then Ok (seconds n)
  else if (- 2 ^ 63 <=? n) && (n <? 2 ^ 63) then Raise ValueError
  else Raise OverflowError.

Definition _timestamp (value : json) : outcome exn (option Z) :=
  let at_ n := match fromtimestamp n with
               | Ok t => Ok (Some t)
               | Raise ValueError => Raise BillingProviderResponseError
               | Raise e => Raise e
               end in
  match value with
  | JNull => Ok None
  | JInt n => at_ n
  | JBool b => at_ (if b then 1 else 0)
  | JStr s =>
      if s == "" then Ok None
      else match int_of_str s with Some n => at_ n | None => Raise BillingProviderResponseError end
  | _ => Raise BillingProviderResponseError
  end.

Definition get_json (k : string) (d : dict) : json := default JNull (dict_get k d).

Section adapter.
  Context `{Env} `{Settings} `{Wire}.

(** [str(d.get(k) or "").strip()] *)
Definition get_text (k : string) (d : dict) : string :=
  let v := get_json k d in strip (if json_truthy v then json_text v else "").

Definition _string_or_none (value : json) : option string :=
  match value with
  | JNull => None
  | v => let text := strip (json_text v) in if text == "" then None else Some text
  end.

Definition _metadata_tenant_id (metadata : dict) (fallback : json) : outcome exn UUID :=
  let own := get_json "ghbf_tenant_id" metadata in
  let raw := if json_truthy own then own else fallback in
  match uuid_of_str (json_text raw) with
  | Some u => Ok u
  | None => Raise BillingProviderResponseError
  end.

Definition _stripe_subscription_price_id (obj : dict) : outcome exn string :=
  match get_json "items" obj with
  | JObj items =>
      match get_json "data" items with
      | JList [JObj item] =>
          match get_json "price" item with
          | JObj price =>
              match get_json "id" price with
              | JStr i => if strip i == "" then Raise BillingProviderResponseError else Ok (strip i)
              | _ => Raise BillingProviderResponseError
              end
          | _ => Raise BillingProviderResponseError
          end
      | _ => Raise BillingProviderResponseError
      end
  | _ => Raise BillingProviderResponseError
  end.

Definition stripe_statuses : list (string * SubscriptionStatus) :=
  [("trialing", SubTrialing); ("active", SubActive); ("past_due", SubPastDue); ("unpaid", SubPastDue);
   ("paused", SubPaused); ("canceled", SubCanceled); ("incomplete", SubPaused);
   ("incomplete_expired", SubCanceled)].

Definition _stripe_subscription_status (value : string) : outcome exn SubscriptionStatus :=
  match first (λ kv, kv.1 == lower (strip value)) stripe_statuses with
  | Some kv => Ok kv.2
  | None => Raise BillingProviderResponseError
  end.

(** [dict], or [{}] where it is none. *)
Definition metadata_of (obj : dict) : dict := as_obj (dict_get "metadata" obj).

Definition _normalize_subscription_object (obj : dict) (event_type : string) (external_event_id : option string)
    (provider_created_at : Z) (revision : option string) : M ProviderSubscriptionState :=
  tenant_id ← of_outcome (_metadata_tenant_id (metadata_of obj) JNull);
  price ← of_outcome (_stripe_subscription_price_id obj);
  let i := get_text "id" obj in
  raise_if (i == "") BillingProviderResponseError;;
  let raw_status := get_json "status" obj in
  status ← of_outcome (_stripe_subscription_status (if json_truthy raw_status then json_text raw_status else ""));
  let revision := match revision with
                  | Some r => r
                  | None => prefix_of 32 (env_sha256 (default "" external_event_id +:+ ":" +:+ i +:+ ":"
                              +:+ subscription_status_value status +:+ ":" +:+ price))
                  end in
  period_start ← of_outcome (_timestamp (get_json "current_period_start" obj));
  period_end ← of_outcome (_timestamp (get_json "current_period_end" obj));
  trial_end ← of_outcome (_timestamp (get_json "trial_end" obj));
  mret (MkProviderSubscriptionState "stripe" event_type external_event_id tenant_id price status
          (_string_or_none (get_json "customer" obj)) i period_start period_end trial_end
          (json_truthy (default (JBool false) (dict_get "cancel_at_period_end" obj)))
          provider_created_at revision [("source", JStr "stripe"); ("external_price_id", JStr price)]).

Definition _request (method path : string) (data : list (string * string)) (idempotency_key : option string)
    : M dict :=
  let key := if truthy idempotency_key then prefix_of 255 <$> idempotency_key else None in
  reply ← gets (λ s, wire_http (ses_sent s) method path data key);
  send (SentBilling method path data key);;
  match reply with
  | HttpFailed => mthrow BillingProviderResponseError
  | HttpResponse status body =>
      raise_if (400 <=? status) BillingProviderResponseError;;
      match body with
      | Some (JObj o) => mret o
      | _ => mthrow BillingProviderResponseError
      end
  end.

(** The id and the address of a hosted session. *)
Definition hosted_session (body : dict) : M (string * string) :=
  let session_id := get_text "id" body in
  let url := get_text "url" body in
  raise_if ((session_id == "") || negb (String.prefix "https://" url)) BillingProviderResponseError;;
  mret (session_id, url).

Definition checkout_data (req : CheckoutRequest) : list (string * string) :=
  let t := uuid_str (ckr_tenant_id req) in
  [("mode", "subscription"); ("line_items[0][price]", ckr_external_price_id req);
   ("line_items[0][quantity]", "1"); ("success_url", ckr_success_url req); ("cancel_url", ckr_cancel_url req);
   ("client_reference_id", t); ("subscription_data[metadata][ghbf_tenant_id]", t);
   ("subscription_data[metadata][ghbf_plan_key]", ckr_plan_key req);
   ("subscription_data[metadata][ghbf_price_id]", ckr_external_price_id req);
   ("metadata[ghbf_tenant_id]", t); ("metadata[ghbf_plan_key]", ckr_plan_key req);
   ("metadata[ghbf_price_id]", ckr_external_price_id req);
   ("metadata[ghbf_tenant_name]", prefix_of 120 (ckr_tenant_name req))]
  ++ (if truthy (ckr_existing_customer_id req) then [("customer", default "" (ckr_existing_customer_id req))] else []).

Definition stripe_create_checkout_session (req : CheckoutRequest) : M CheckoutSessionResult :=
  body ← _request "POST" "/checkout/sessions" (checkout_data req) (Some (ckr_idempotency_key req));
  hosted ← hosted_session body;
  expires_at ← of_outcome (_timestamp (get_json "expires_at" body));
  mret (MkCheckoutSessionResult "stripe" hosted.1 hosted.2 expires_at).

Definition stripe_create_portal_session (external_customer_id return_url : string) : M PortalSessionResult :=
  body ← _request "POST" "/billing_portal/sessions"
           [("customer", external_customer_id); ("return_url", return_url)] None;
  hosted ← hosted_session body;
  mret (MkPortalSessionResult "stripe" hosted.1 hosted.2).

(** The object whose hash names the revision. *)
Definition revision_seed (body : dict) : dict :=
  map (λ k, (k, get_json k body))
    ["id"; "status"; "cancel_at_period_end"; "current_period_start"; "current_period_end"; "trial_end";
     "items"; "metadata"].

Definition stripe_fetch_subscription (external_subscription_id : string) : M ProviderSubscriptionState :=
  body ← _request "GET" ("/subscriptions/" +:+ external_subscription_id) [] None;
  observed_at ← now;
  _normalize_subscription_object body "subscription.reconciled" None observed_at
    (Some (prefix_of 32 (env_sha256 (dumps (sorted_json (JObj (revision_seed body))))))).

(** *** Signatures *)

(** [part.strip().partition("=")], where there is a separator. *)
Definition partition_eq (part : list ascii) : option (string * string) :=
  match break_at (λ c, c == "="%char) (strip_chars part) with
  | (key, _ :: raw) => Some (of_chars key, of_chars raw)
  | _ => None
  end.

Fixpoint signature_parts (parts : list (list ascii)) (timestamp : option Z) (signatures : list string)
    : outcome exn (option Z * list string) :=
  match parts with
  | [] => Ok (timestamp, signatures)
  | part :: parts =>
      match partition_eq part with
      | None => signature_parts parts timestamp signatures
      | Some (key, raw) =>
          if key == "t" then
            match int_of_str raw with
            | Some n => signature_parts parts (Some n) signatures
            | None => Raise BillingWebhookVerificationError
            end
          else if (key == "v1") && (raw != "") then signature_parts parts timestamp (signatures ++ [raw])
          else signature_parts parts timestamp signatures
      end
  end.

Definition _parse_stripe_signature (value : string) : outcome exn (Z * list string) :=
  match signature_parts (split_on ","%char (chars value)) None [] with
  | Raise e => Raise e
  | Ok (Some t, (_ :: _) as signatures) => Ok (t, signatures)
  | Ok _ => Raise BillingWebhookVerificationError
  end.

(** [any(hmac.compare_digest(expected, c) for c in candidates)]: comparing with
    text outside ASCII raises. *)
Fixpoint any_digest (expected : string) (candidates : list string) : outcome exn bool :=
  match candidates with
  | [] => Ok false
  | c :: candidates =>
      if negb (forallb (λ x, (code x <? 128)%nat) (chars c)) then Raise TypeError
      else if expected == c then Ok true
      else any_digest expected candidates
  end.

Definition stripe_verify_webhook (webhook_secret : string) (tolerance : Z) (payload signature_header : string)
    : M VerifiedWebhookEvent :=
  parsed ← of_outcome (_parse_stripe_signature signature_header);
  n ← now;
  raise_if (tolerance <? Z.abs (n / 1000000 - parsed.1)) BillingWebhookVerificationError;;
  let expected := wire_hmac_sha256 webhook_secret (pretty parsed.1 +:+ "." +:+ payload) in
  matched ← of_outcome (any_digest expected parsed.2);
  raise_if (negb matched) BillingWebhookVerificationError;;
  decoded ← of_option BillingWebhookVerificationError (wire_json_loads payload);
  match decoded with
  | JObj event =>
      let event_id := get_text "id" event in
      let event_type := get_text "type" event in
      stamp ← of_outcome (_timestamp (get_json "created" event));
      n ← now;
      let created := default n stamp in
      raise_if ((event_id == "") || (event_type == "")) BillingWebhookVerificationError;;
      match get_json "object" (as_obj (dict_get "data" event)) with
      | JObj obj =>
          if String.prefix "customer.subscription." event_type then
            state ← _normalize_subscription_object obj event_type (Some event_id) created None;
            mret (MkVerifiedWebhookEvent "stripe" event_id event_type created (Some state)
                    (Some (pss_external_subscription_id state)) (Some (pss_tenant_id state)))
          else if event_type == "checkout.session.completed" then
            tenant_id ← of_outcome (_metadata_tenant_id (metadata_of obj) (get_json "client_reference_id" obj));
            subscription_id ← of_option BillingWebhookVerificationError
                                (_string_or_none (get_json "subscription" obj));
            mret (MkVerifiedWebhookEvent "stripe" event_id event_type created None (Some subscription_id)
                    (Some tenant_id))
          else mret (MkVerifiedWebhookEvent "stripe" event_id event_type created None None None)
      | _ => mthrow BillingWebhookVerificationError
      end
  | _ => mthrow BillingWebhookVerificationError
  end.

Definition StripeBillingAdapter (secret_key webhook_secret : string) (tolerance : Z)
    : outcome exn BillingProviderAdapter :=
  if strip secret_key == "" then Raise BillingProviderNotConfiguredError
  else if strip webhook_secret == "" then Raise BillingProviderNotConfiguredError
  else Ok (MkBillingProviderAdapter "stripe" stripe_create_checkout_session stripe_create_portal_session
             (stripe_verify_webhook (strip webhook_secret) tolerance) stripe_fetch_subscription).

Definition get_billing_provider (provider : option string) : outcome exn BillingProviderAdapter :=
  let configured := lower (strip billing_provider) in
  let selected := lower (strip (if truthy provider then default "" provider else configured)) in
  if selected != configured then Raise BillingProviderNotConfiguredError
  else if selected == "stripe" then
    StripeBillingAdapter (default "" stripe_secret_key) (default "" stripe_webhook_secret)
      billing_webhook_tolerance_seconds
  else Raise BillingProviderNotConfiguredError.

End adapter.

(** ** From the provider to the subscription (billing_service.py) *)

Record BillingCatalogItem := MkBillingCatalogItem {
  cat_price : SaaSPlanPrice;
  cat_plan : SaaSPlan;
}.

(** [select(SaaSPlanPrice, SaaSPlan).join(...)] *)
Definition catalog_rows (d : DB) : list BillingCatalogItem :=
  omap (λ p, (λ plan, MkBillingCatalogItem p plan) <$> get_row (price_plan_id p) (plans d)) (plan_prices d).

(** [ORDER BY plan.created_at, plan.key, price.unit_amount_minor] *)
Definition catalog_order : BillingCatalogItem → BillingCatalogItem → bool :=
  then_by (λ c, plan_created_at (cat_plan c))
    (λ a b, if plan_key (cat_plan a) == plan_key (cat_plan b)
            then price_unit_amount_minor (cat_price a) <=? price_unit_amount_minor (cat_price b)
            else String.leb (plan_key (cat_plan a)) (plan_key (cat_plan b))).

Definition list_public_billing_catalog (provider : string) : M (list BillingCatalogItem) :=
  query (λ d, sort_by catalog_order
    (select (λ c, plan_is_active (cat_plan c) && plan_is_public (cat_plan c) && price_is_active (cat_price c)
                  && (price_provider (cat_price c) == lower (strip provider))) (catalog_rows d))).

Definition resolve_checkout_price (i : UUID) (provider : string) : M BillingCatalogItem :=
  rows ← query (λ d, select (λ c, price_id (cat_price c) == i) (catalog_rows d));
  found ← one_or_none rows;
  item ← of_option PlatformNotFoundError found;
  raise_if (price_provider (cat_price item) != lower (strip provider)) PlatformValidationError;;
  raise_if (negb (price_is_active (cat_price item)) || negb (plan_is_active (cat_plan item))
            || negb (plan_is_public (cat_plan item))) PlatformValidationError;;
  mret item.

Definition ensure_checkout_allowed (subscription : option TenantSubscription) : M unit :=
  match subscription with
  | None => mret tt
  | Some s => raise_if (sub_status s != SubCanceled) PlatformConflictError
  end.

(** [timedelta(days=n)] *)
Definition days (n : Z) : Z := seconds (86400 * n).

Definition interval_value (i : BillingInterval) : string := match i with MONTH => "MONTH" | YEAR => "YEAR" end.

Section service.
  Context `{Env} `{Settings} `{Wire}.

(** [str(value)] of a [datetime], which [json.dumps(..., default=str)] writes. *)
Definition time_str (t : option Z) : json :=
  match t with Some t => JStr (replace_word "T" " " (env_isoformat t)) | None => JNull end.

Definition sync_payload (state : ProviderSubscriptionState) : dict :=
  [("subscription_id", JStr (pss_external_subscription_id state));
   ("tenant_id", JStr (uuid_str (pss_tenant_id state)));
   ("price_id", JStr (pss_external_price_id state));
   ("status", JStr (subscription_status_value (pss_status state)));
   ("current_period_start", time_str (pss_current_period_start state));
   ("current_period_end", time_str (pss_current_period_end state));
   ("trial_ends_at", time_str (pss_trial_ends_at state));
   ("cancel_at_period_end", JBool (pss_cancel_at_period_end state));
   ("revision", JStr (pss_revision state))].

Definition _reconciliation_event_id (state : ProviderSubscriptionState) : string :=
  "sync:" +:+ pss_external_subscription_id state +:+ ":"
  +:+ prefix_of 32 (env_sha256 (dumps (sorted_json (JObj (sync_payload state))))).

(** The end of the grace period that the event gives or keeps. *)
Definition grace_for (existing : option TenantSubscription) (state : ProviderSubscriptionState) : option Z :=
  if pss_status state == SubPastDue then
    match existing with
    | Some s => if (sub_status s == SubPastDue) && is_some (sub_grace_ends_at s) then sub_grace_ends_at s
                else Some (pss_provider_created_at state + days billing_past_due_grace_days)
    | None => Some (pss_provider_created_at state + days billing_past_due_grace_days)
    end
  else None.

Definition billing_metadata_for (state : ProviderSubscriptionState) (price : SaaSPlanPrice) : dict :=
  [("external_price_id", JStr (pss_external_price_id state)); ("catalog_price_id", JStr (uuid_str (price_id price)));
   ("billing_interval", JStr (interval_value (price_interval price)));
   ("billing_interval_count", JInt (price_interval_count price)); ("currency", JStr (price_currency price));
   ("unit_amount_minor", JInt (price_unit_amount_minor price))].

Definition subscription_request (state : ProviderSubscriptionState) (price : SaaSPlanPrice) (plan : SaaSPlan)
    (grace_ends_at : option Z) : SubscriptionRequest :=
  MkSubscriptionRequest (pss_tenant_id state) (plan_key plan) (pss_status state) None
    (pss_external_customer_id state) (Some (pss_external_subscription_id state))
    (pss_current_period_start state) (pss_current_period_end state) (pss_trial_ends_at state) grace_ends_at
    (pss_cancel_at_period_end state) None (Some (billing_metadata_for state price)).

Definition mark_synced (i : UUID) (source : string) : M unit :=
  n ← now;
  update_subscription i
    (λ s, s <| sub_provider_synced_at := Some n |> <| sub_provider_sync_source := Some (prefix_of 50 source) |>
            <| sub_provider_sync_error := None |> <| sub_provider_sync_error_at := None |>).

(** The event that stands for a state of the provider. *)
Definition provider_event (state : ProviderSubscriptionState) (external_event_id event_type : option string)
    (source : string) (price : SaaSPlanPrice) (plan : SaaSPlan) (existing : option TenantSubscription)
    : BillingEventRequest :=
  let event_id := if truthy external_event_id then default "" external_event_id
                  else _reconciliation_event_id state in
  let event_type := if truthy event_type then default "" event_type else pss_event_type state in
  let metadata := dict_set "external_price_id" (JStr (pss_external_price_id state))
                    (dict_set "source" (JStr source) (pss_event_metadata state)) in
  MkBillingEventRequest (pss_provider state) event_id event_type
    (subscription_request state price plan (grace_for existing state)) (Some metadata).

Definition converge_provider_subscription_state (state : ProviderSubscriptionState)
    (external_event_id event_type : option string) (source : string) : M BillingConvergenceResult :=
  rows ← query (λ d, select (λ p, (price_provider p == pss_provider state)
                                  && (price_external_price_id p == pss_external_price_id state)) (plan_prices d));
  found ← one_or_none rows;
  price ← of_option PlatformValidationError found;
  found ← query (λ d, get_row (price_plan_id price) (plans d));
  plan ← of_option PlatformValidationError found;
  existing ← get_tenant_subscription (pss_tenant_id state);
  result ← converge_billing_event (provider_event state external_event_id event_type source price plan existing);
  mark_synced (sub_id (conv_subscription result)) source;;
  mret result.

Definition converge_verified_webhook (adapter : BillingProviderAdapter) (verified : VerifiedWebhookEvent)
    : M (option BillingConvergenceResult) :=
  state ← match vwe_subscription_state verified with
          | Some state => mret (Some state)
          | None =>
              if truthy (vwe_external_subscription_id verified) then
                state ← fetch_subscription adapter (default "" (vwe_external_subscription_id verified));
                raise_if (match vwe_tenant_id verified with
                          | Some t => pss_tenant_id state != t
                          | None => false
                          end) PlatformConflictError;;
                mret (Some state)
              else mret None
          end;
  match state with
  | None => mret None
  | Some state =>
      result ← converge_provider_subscription_state state (Some (vwe_external_event_id verified))
                 (Some (vwe_event_type verified)) "SIGNED_WEBHOOK";
      mret (Some result)
  end.

(** ** Reconciliation *)

Record BillingReconcileSummary := MkBillingReconcileSummary {
  brs_provider : string;
  brs_scanned : Z;
  brs_applied : Z;
  brs_duplicates : Z;
  brs_failed : Z;
  brs_errors : list string;
}.

Global Instance BillingReconcileSummary_eta : Eta BillingReconcileSummary := λ r,
  MkBillingReconcileSummary (brs_provider r) (brs_scanned r) (brs_applied r) (brs_duplicates r) (brs_failed r)
    (brs_errors r).

(** [except (BillingProviderError, PlatformValidationError, PlatformConflictError)] *)
Definition sync_failure (e : exn) : bool :=
  is_billing_provider_error e || (e == PlatformValidationError) || is_platform_conflict e.

(** One subscription: whether it was a duplicate. *)
Definition sync_subscription (adapter : BillingProviderAdapter) (s : TenantSubscription) (external_id : string)
    : M bool :=
  state ← fetch_subscription adapter external_id;
  raise_if (pss_tenant_id state != sub_tenant_id s) PlatformConflictError;;
  result ← converge_provider_subscription_state state None None "PULL_RECONCILIATION";
  mret (conv_duplicate result).

Definition record_sync_failure (s : TenantSubscription) (e : exn) : M unit :=
  n ← now;
  update_subscription (sub_id s) (λ s, s <| sub_provider_sync_error := Some (prefix_of 1000 (env_exn_str e)) |>
                                         <| sub_provider_sync_error_at := Some n |>).

Definition sync_step (adapter : BillingProviderAdapter) (sum : BillingReconcileSummary) (s : TenantSubscription)
    : M BillingReconcileSummary :=
  let external_id := default "" (sub_external_subscription_id s) in
  if external_id == "" then mret sum
  else
    catch
      (duplicate ← sync_subscription adapter s external_id;
       mret (if duplicate : bool then sum <| brs_duplicates ::= Z.add 1 |> else sum <| brs_applied ::= Z.add 1 |>))
      (λ e,
         if sync_failure e then
           record_sync_failure s e;;
           mret (sum <| brs_failed ::= Z.add 1 |>
                     <| brs_errors ::= (λ l, l ++ [external_id +:+ ": "
                          +:+ prefix_of 240 (prefix_of 1000 (env_exn_str e))]) |>)
         else mthrow e).

Fixpoint sync_all (adapter : BillingProviderAdapter) (sum : BillingReconcileSummary)
    (l : list TenantSubscription) : M BillingReconcileSummary :=
  match l with
  | [] => mret sum
  | s :: l => sum ← sync_step adapter sum s; sync_all adapter sum l
  end.

Definition provider_subscriptions (provider : string) (limit : nat) (d : DB) : list TenantSubscription :=
  take limit
    (sort_by (then_by sub_updated_at (λ a b, uuid_leb (sub_id a) (sub_id b)))
       (select (λ s, (sub_billing_provider s == Some provider) && is_some (sub_external_subscription_id s))
          (subscriptions d))).

Definition reconcile_provider_subscriptions (adapter : BillingProviderAdapter) (limit : nat)
    : M BillingReconcileSummary :=
  let provider := lower (strip (provider_name adapter)) in
  subs ← query (provider_subscriptions provider limit);
  sum ← sync_all adapter (MkBillingReconcileSummary provider (Z.of_nat (length subs)) 0 0 0 []) subs;
  mret (sum <| brs_errors ::= take 20 |>).

(** [SaaSBillingReconciliationWorker.poll_once] *)
Definition billing_worker_enabled : bool :=
  billing_reconcile_enabled && (lower (strip billing_provider) != "disabled").

Definition billing_poll_once (batch_size : nat) : M (option BillingReconcileSummary) :=
  if negb billing_worker_enabled then mret None
  else
    adapter ← of_outcome (get_billing_provider None);
    in_session
      (summary ← reconcile_provider_subscriptions adapter batch_size;
       append_platform_audit "BILLING_RECONCILIATION_RUN" "BILLING_PROVIDER" (brs_provider summary) None
         [("scanned", JInt (brs_scanned summary)); ("applied", JInt (brs_applied summary));
          ("duplicates", JInt (brs_duplicates summary)); ("failed", JInt (brs_failed summary));
          ("mode", JStr "PERIODIC_PULL")] None "SYSTEM_BILLING_RECONCILER";;
       commit;;
       mret (Some summary)).

(** ** The handlers (apps/api/v1/saas_billing.py) *)

Definition _billing_http_error (e : exn) : exn :=
  if e == PlatformNotFoundError then HTTPException 404
  else if is_platform_conflict e then HTTPException 409
  else if e == PlatformValidationError then HTTPException 422
  else if is_billing_provider_error e then HTTPException 503
  else HTTPException 400.

(** [(status, event_id, duplicate)] *)
Definition stripe_billing_webhook (payload : string) (stripe_signature ip : option string)
    : M (string * string * bool) :=
  catch
    (adapter ← of_outcome (get_billing_provider (Some "stripe"));
     verified ← verify_webhook adapter payload (default "" stripe_signature);
     result ← converge_verified_webhook adapter verified;
     match result with
     | None => rollback;; mret ("IGNORED", vwe_external_event_id verified, false)
     | Some result =>
         let event := conv_event result in
         append_platform_audit
           (if conv_duplicate result then "BILLING_WEBHOOK_DUPLICATE" else "BILLING_WEBHOOK_APPLIED")
           "BILLING_EVENT" (uuid_str (bev_id event)) (bev_tenant_id event)
           [("provider", JStr (bev_provider event)); ("event_type", JStr (bev_event_type event));
            ("duplicate", JBool (conv_duplicate result))] ip "BILLING_WEBHOOK:stripe";;
         commit;;
         mret (if conv_duplicate result then "DUPLICATE" else "APPLIED", vwe_external_event_id verified,
               conv_duplicate result)
     end)
    (λ e,
       if e == BillingWebhookVerificationError then rollback;; mthrow (HTTPException 400)
       else if is_billing_provider_error e then rollback;; mthrow (HTTPException 503)
       else if is_platform_error e then rollback;; mthrow (_billing_http_error e)
       else mthrow e).

Record AuthenticatedPrincipal := MkPrincipal { principal_tenant_id : UUID; principal_user_id : UUID }.

Definition _require_checkout_urls : M (string * string) :=
  let success := strip (default "" billing_success_url) in
  let cancel := strip (default "" billing_cancel_url) in
  raise_if ((success == "") || (cancel == "")) BillingProviderError;;
  mret (success, cancel).

Definition _require_portal_return_url : M string :=
  let portal := strip (default "" billing_portal_return_url) in
  raise_if (portal == "") BillingProviderError;;
  mret portal.

Definition hosted_failure (e : exn) : bool := is_billing_provider_error e || is_platform_error e.

Definition create_tenant_billing_checkout (principal : AuthenticatedPrincipal) (i : UUID)
    (idempotency_key : option string) : M CheckoutSessionResult :=
  let t := principal_tenant_id principal in
  let key := strip (default "" idempotency_key) in
  raise_if ((String.length key <? 8) || (200 <? String.length key))%nat (HTTPException 422);;
  catch
    (adapter ← of_outcome (get_billing_provider None);
     urls ← _require_checkout_urls;
     found ← query (λ d, get_row t (tenants d));
     tenant ← of_option PlatformNotFoundError found;
     raise_if (is_some (ten_deleted_at tenant)) PlatformNotFoundError;;
     subscription ← get_tenant_subscription t;
     ensure_checkout_allowed subscription;;
     item ← resolve_checkout_price i (provider_name adapter);
     let provider_key := env_sha256 ("ghbf:" +:+ uuid_str t +:+ ":" +:+ uuid_str i +:+ ":" +:+ key) in
     result ← create_checkout_session adapter
                (MkCheckoutRequest t (ten_name tenant) (plan_key (cat_plan item))
                   (price_external_price_id (cat_price item)) urls.1 urls.2 provider_key None);
     audit t (principal_user_id principal) "SAAS_BILLING_CHECKOUT_CREATED" "SAAS_PLAN_PRICE"
       (price_id (cat_price item))
       [("provider", JStr (cks_provider result)); ("plan_key", JStr (plan_key (cat_plan item)));
        ("interval", JStr (interval_value (price_interval (cat_price item))))];;
     commit;;
     mret result)
    (λ e, if hosted_failure e then rollback;; mthrow (_billing_http_error e) else mthrow e).

Definition create_tenant_billing_portal (principal : AuthenticatedPrincipal) : M PortalSessionResult :=
  catch
    (adapter ← of_outcome (get_billing_provider None);
     return_url ← _require_portal_return_url;
     found ← get_tenant_subscription (principal_tenant_id principal);
     s ← of_option PlatformConflictError found;
     raise_if ((sub_billing_provider s != Some (provider_name adapter))
               || negb (truthy (sub_external_customer_id s))) PlatformConflictError;;
     result ← create_portal_session adapter (default "" (sub_external_customer_id s)) return_url;
     audit (principal_tenant_id principal) (principal_user_id principal) "SAAS_BILLING_PORTAL_CREATED"
       "TENANT_SUBSCRIPTION" (sub_id s) [("provider", JStr (pos_provider result))];;
     commit;;
     mret result)
    (λ e, if hosted_failure e then rollback;; mthrow (_billing_http_error e) else mthrow e).

End service.
