(* ===== verification/PlatformApi.v ===== *)
(** * The platform operator's handlers

    The handlers of [apps/api/v1/platform.py] that change state, each over a
    function of [Saas.v] or [Billing.v], with its audit record and its error
    codes. *)

From Stdlib Require Import ZArith Lia Ascii String.
From stdpp Require Import base tactics list option strings numbers pretty.
From S2P Require Import Prelude Tables Text Money Exceptions StateMachines Models Payments.
From S2P Require Import Saas Billing.

Local Open Scope Z_scope.

Record PlatformOperator := MkPlatformOperator { actor : string; client_ip : option string }.

Definition _http_error (e : exn) : exn :=
  if e == PlatformNotFoundError then HTTPException 404
  else if is_platform_conflict e then HTTPException 409
  else if e == PlatformValidationError then HTTPException 422
  else HTTPException 400.

(** [try: ...; commit  except PlatformControlPlaneError: rollback; raise _http_error] *)
Definition platform_request {A} (m : M A) : M A :=
  catch (a ← m; commit;; mret a)
    (λ e, if is_platform_error e then rollback;; mthrow (_http_error e) else mthrow e).

Section handlers.
  Context `{Env} `{Settings} `{Wire} (operator : PlatformOperator).

Definition audited (action resource_type resource_id : string) (tenant_id : option UUID) (details : dict) : M unit :=
  append_platform_audit action resource_type resource_id tenant_id details (client_ip operator) (actor operator);;
  mret tt.

Definition create_platform_plan (req : PlanRequest) : M SaaSPlan :=
  platform_request
    (plan ← create_plan req;
     audited "SAAS_PLAN_CREATED" "SAAS_PLAN" (uuid_str (plan_id plan)) None
       [("plan_key", JStr (plan_key plan)); ("is_public", JBool (plan_is_public plan))];;
     mret plan).

(** [fields] are the names in [req.model_fields_set]. *)
Definition patch_platform_plan (req : PlanUpdate) (fields : list string) : M SaaSPlan :=
  platform_request
    (update_plan req;;
     found ← query (λ d, get_row (plu_plan_id req) (plans d));
     plan ← of_option PlatformNotFoundError found;
     audited "SAAS_PLAN_UPDATED" "SAAS_PLAN" (uuid_str (plan_id plan)) None
       [("plan_key", JStr (plan_key plan)); ("changed_fields", JList (map JStr (sort_by String.leb fields)))];;
     mret plan).

Definition create_platform_plan_price (req : PriceRequest) : M SaaSPlanPrice :=
  platform_request
    (price ← create_plan_price req;
     audited "SAAS_PLAN_PRICE_CREATED" "SAAS_PLAN_PRICE" (uuid_str (price_id price)) None
       [("plan_id", JStr (uuid_str (prq_plan_id req))); ("provider", JStr (price_provider price));
        ("currency", JStr (price_currency price)); ("interval", JStr (interval_value (price_interval price)))];;
     mret price).

Definition patch_platform_plan_price (i : UUID) (is_active : option bool) (metadata_json : option dict)
    (fields : list string) : M unit :=
  platform_request
    (update_plan_price i is_active metadata_json;;
     audited "SAAS_PLAN_PRICE_UPDATED" "SAAS_PLAN_PRICE" (uuid_str i) None
       [("changed_fields", JList (map JStr (sort_by String.leb fields)))]).

Definition set_platform_subscription (req : SubscriptionRequest) : M TenantSubscription :=
  platform_request
    (s ← upsert_subscription req;
     found ← query (λ d, get_row (sub_plan_id s) (plans d));
     plan ← of_option RuntimeError found;
     audited "TENANT_SUBSCRIPTION_SET" "TENANT_SUBSCRIPTION" (uuid_str (sub_id s)) (Some (sr_tenant_id req))
       [("plan_key", JStr (plan_key plan)); ("status", JStr (subscription_status_value (sub_status s)))];;
     mret s).

Definition delete_platform_subscription (tenant_id : UUID) : M unit :=
  platform_request
    (s ← clear_subscription tenant_id;
     plan ← query (λ d, get_row (sub_plan_id s) (plans d));
     audited "TENANT_SUBSCRIPTION_CLEARED" "TENANT" (uuid_str tenant_id) (Some tenant_id)
       [("previous_plan_key", match plan with Some p => JStr (plan_key p) | None => JNull end)]).

Definition converge_platform_billing_event (req : BillingEventRequest) : M BillingConvergenceResult :=
  platform_request
    (result ← converge_billing_event req;
     audited (if conv_duplicate result then "BILLING_EVENT_DUPLICATE" else "BILLING_EVENT_APPLIED")
       "BILLING_EVENT" (uuid_str (bev_id (conv_event result))) (Some (sr_tenant_id (ber_subscription req)))
       [("provider", JStr (bev_provider (conv_event result)));
        ("event_type", JStr (bev_event_type (conv_event result))); ("duplicate", JBool (conv_duplicate result))];;
     mret result).

Definition reconcile_platform_billing (provider : option string) (limit : nat) : M BillingReconcileSummary :=
  catch
    (adapter ← of_outcome (get_billing_provider provider);
     summary ← reconcile_provider_subscriptions adapter limit;
     audited "BILLING_RECONCILIATION_RUN" "BILLING_PROVIDER" (brs_provider summary) None
       [("scanned", JInt (brs_scanned summary)); ("applied", JInt (brs_applied summary));
        ("duplicates", JInt (brs_duplicates summary)); ("failed", JInt (brs_failed summary))];;
     commit;;
     mret summary)
    (λ e,
       if is_billing_provider_error e then rollback;; mthrow (HTTPException 503)
       else if is_platform_error e then rollback;; mthrow (_http_error e)
       else mthrow e).

(** ** Requests *)

(** What the platform is asked to do: by its operator, by a tenant, by the
    billing provider, and by the periodic poll. *)
Inductive PlatformEvent :=
  | PeCreatePlan (req : PlanRequest)
  | PeUpdatePlan (req : PlanUpdate) (fields : list string)
  | PeCreatePrice (req : PriceRequest)
  | PeUpdatePrice (i : UUID) (is_active : option bool) (metadata_json : option dict) (fields : list string)
  | PeSubscribe (req : SubscriptionRequest)
  | PeUnsubscribe (tenant_id : UUID)
  | PeBillingEvent (req : BillingEventRequest)
  | PeReconcile (provider : option string) (limit : nat)
  | PeWebhook (payload : string) (signature : option string)
  | PeCheckout (principal : AuthenticatedPrincipal) (price_id : UUID) (key : option string)
  | PePortal (principal : AuthenticatedPrincipal)
  | PePoll (batch_size : nat).

Definition run_platform_event (s : Session) (ev : PlatformEvent) : Session :=
  match ev with
  | PeCreatePlan req => (in_request (create_platform_plan req) s).2
  | PeUpdatePlan req fields => (in_request (patch_platform_plan req fields) s).2
  | PeCreatePrice req => (in_request (create_platform_plan_price req) s).2
  | PeUpdatePrice i a m fields => (in_request (patch_platform_plan_price i a m fields) s).2
  | PeSubscribe req => (in_request (set_platform_subscription req) s).2
  | PeUnsubscribe t => (in_request (delete_platform_subscription t) s).2
  | PeBillingEvent req => (in_request (converge_platform_billing_event req) s).2
  | PeReconcile provider limit => (in_request (reconcile_platform_billing provider limit) s).2
  | PeWebhook payload signature => (in_request (stripe_billing_webhook payload signature (client_ip operator)) s).2
  | PeCheckout principal i key => (in_request (create_tenant_billing_checkout principal i key) s).2
  | PePortal principal => (in_request (create_tenant_billing_portal principal) s).2
  | PePoll n => (billing_poll_once n s).2
  end.

Definition run_platform (evs : list PlatformEvent) (s : Session) : Session := foldl run_platform_event s evs.

End handlers.
