(* ===== verification/SaasSpec.v ===== *)
(** * The platform's books: plans, subscriptions and entitlements

    That the limits of every tenant can always be resolved and are sensible
    whatever the control plane and the billing provider do, that nothing that
    looks like a secret is stored, what a feature gate lets through, and that a
    billing event is applied once. *)

From Stdlib Require Import ZArith Lia Ascii String.
From stdpp Require Import base tactics list option strings numbers pretty.
From S2P Require Import Prelude Tables Text Money Exceptions StateMachines Models Payments.
From S2P Require Import Operations FulfillmentSpec Reversals Saas Billing PlatformApi.

Local Open Scope Z_scope.

Definition doc_ok (doc : dict) : Prop := validate_entitlement_document doc = Ok tt.
Definition safe (metadata : dict) : Prop := safe_metadata (JObj metadata) = true.

Definition plan_ok (p : SaaSPlan) : Prop :=
  doc_ok (plan_entitlements p) ∧ safe (plan_metadata_json p) ∧ (plan_is_public p = true → plan_is_active p = true).

Definition fits (p : SaaSPlan) (s : TenantSubscription) : Prop :=
  plan_id p = sub_plan_id s → doc_ok (merge_entitlements (plan_entitlements p) (sub_entitlement_overrides s)).

Record platform_ok (d : DB) : Prop := {
  po_plan_ids : NoDup (plan_id <$> plans d);
  po_plans : ∀ p, p ∈ plans d → plan_ok p;
  po_sub_ids : NoDup (sub_id <$> subscriptions d);
  po_tenants : NoDup (sub_tenant_id <$> subscriptions d);
  po_subscribed : ∀ s, s ∈ subscriptions d → sub_plan_id s ∈ plan_id <$> plans d;
  po_fits : ∀ p s, p ∈ plans d → s ∈ subscriptions d → fits p s;
  po_safe : (∀ s, s ∈ subscriptions d → safe (sub_billing_metadata s))
            ∧ (∀ p, p ∈ plan_prices d → safe (price_metadata_json p))
            ∧ (∀ e, e ∈ billing_events d → safe (bev_event_metadata e))
            ∧ (∀ l, l ∈ platform_logs d → safe (plog_details l));
}.

Abbreviation sound := (both platform_ok).

(** ** Rows *)

Lemma ok_append_plan p d :
  plan_ok p → plan_id p ∉ plan_id <$> plans d →
  platform_ok d → platform_ok (d <| plans ::= (λ t, t ++ [p]) |>).
Proof.
  intros Hp Hi [H1 H2 H3 H4 H5 H6 H7]. split; cbn; try done.
  - rewrite fmap_app. apply NoDup_app. split; [done|]. split; [|apply NoDup_singleton].
    intros i Hx Hy%list_elem_of_singleton. by subst.
  - intros q [Hq|Hq%list_elem_of_singleton]%elem_of_app; [by apply H2|by subst].
  - intros s Hx. rewrite fmap_app. apply elem_of_app. left. by apply H5.
  - intros q s [Hq|Hq%list_elem_of_singleton]%elem_of_app Hx; [by apply H6|]. subst q.
    intros Heq. exfalso. apply Hi. rewrite Heq. by apply H5.
Qed.

Lemma ok_update_plan i f d :
  (∀ p, p ∈ plans d → plan_id p = i → plan_id (f p) = plan_id p ∧ (plan_ok p → plan_ok (f p))
        ∧ ∀ s, s ∈ subscriptions d → sub_plan_id s = i → fits p s → fits (f p) s) →
  platform_ok d → platform_ok (d <| plans ::= update_row i f |>).
Proof.
  intros Hf [H1 H2 H3 H4 H5 H6 H7].
  assert (plan_id <$> update_row i f (plans d) = plan_id <$> plans d) as Hmap.
  { apply fmap_update_where. intros p Hp Hi%bool_decide_eq_true. by apply Hf. }
  split; cbn; rewrite ?Hmap; try done.
  - intros q (p & Hp & ->)%elem_of_update_where. case_bool_decide as Hi; [|by apply H2].
    apply Hf; [done|done|by apply H2].
  - intros q s (p & Hp & ->)%elem_of_update_where Hs. case_bool_decide as Hi; [|by apply H6].
    intros Heq. destruct (Hf p Hp Hi) as (Hid & _ & Hfit). apply Hfit; [done| |by apply H6|done].
    rewrite <- Heq, Hid. exact Hi.
Qed.

Lemma ok_update_sub i f d :
  (∀ s, s ∈ subscriptions d → sub_id s = i →
     sub_id (f s) = sub_id s ∧ sub_tenant_id (f s) = sub_tenant_id s
     ∧ (safe (sub_billing_metadata s) → safe (sub_billing_metadata (f s)))
     ∧ (sub_plan_id s ∈ plan_id <$> plans d → sub_plan_id (f s) ∈ plan_id <$> plans d)
     ∧ ∀ p, p ∈ plans d → fits p s → fits p (f s)) →
  platform_ok d → platform_ok (d <| subscriptions ::= update_row i f |>).
Proof.
  intros Hf [H1 H2 H3 H4 H5 H6 (H7 & H8)]. split; cbn; try done.
  - unfold update_row. rewrite (fmap_update_where sub_id); [done|]. intros s Hs Hi%bool_decide_eq_true. by apply Hf.
  - unfold update_row. rewrite (fmap_update_where sub_tenant_id); [done|]. intros s Hs Hi%bool_decide_eq_true. by apply Hf.
  - intros q (s & Hs & ->)%elem_of_update_where. case_bool_decide as Hi; [|by apply H5].
    by apply Hf, H5.
  - intros p q Hp (s & Hs & ->)%elem_of_update_where. case_bool_decide as Hi; [|by apply H6].
    destruct (Hf s Hs Hi) as (_ & _ & _ & _ & Hfit). apply Hfit; [done|by apply H6].
  - split; [|done]. intros q (s & Hs & ->)%elem_of_update_where. case_bool_decide as Hi; [|by apply H7].
    by apply Hf, H7.
Qed.

Lemma ok_append_sub s d :
  sub_id s ∉ sub_id <$> subscriptions d → sub_tenant_id s ∉ sub_tenant_id <$> subscriptions d →
  safe (sub_billing_metadata s) → sub_plan_id s ∈ plan_id <$> plans d → (∀ p, p ∈ plans d → fits p s) →
  platform_ok d → platform_ok (d <| subscriptions ::= (λ t, t ++ [s]) |>).
Proof.
  intros Hi Ht Hs Hp Hfit [H1 H2 H3 H4 H5 H6 (H7 & H8)].
  assert (∀ A (l : list A) x, NoDup l → x ∉ l → NoDup (l ++ [x])) as Hnd.
  { intros A l x Hl Hx. apply NoDup_app. split; [done|]. split; [|apply NoDup_singleton].
    intros y Hy Hz%list_elem_of_singleton. by subst. }
  assert (∀ (P : TenantSubscription → Prop), (∀ x, x ∈ subscriptions d → P x) → P s →
            ∀ x, x ∈ subscriptions d ++ [s] → P x) as Hall.
  { intros P Hl Hx x [Hy|Hy%list_elem_of_singleton]%elem_of_app; [by apply Hl|by subst]. }
  split; cbn; rewrite ?fmap_app; [done|done|by apply Hnd|by apply Hnd|by apply Hall| |].
  - intros p x Hx. revert x. apply Hall; [|by apply Hfit]. intros x Hy. by apply H6.
  - split; [by apply Hall|done].
Qed.

Lemma NoDup_fmap_select {A B} (f : A → B) (p : A → bool) l : NoDup (f <$> l) → NoDup (f <$> select p l).
Proof.
  induction l as [|x l IH]; cbn; [done|]. intros [Hx Hl]%NoDup_cons. destruct (p x); [|by apply IH].
  cbn. apply NoDup_cons. split; [|by apply IH]. intros (y & Hy & [Hin _]%elem_of_select)%list_elem_of_fmap_1.
  apply Hx. rewrite Hy. by apply list_elem_of_fmap_2.
Qed.

Lemma ok_clear s d :
  platform_ok d →
  platform_ok (d <| subscriptions ::= select (λ x, sub_id x != sub_id s) |>
                 <| billing_events ::= update_where (λ e, bev_subscription_id e == Some (sub_id s))
                      (λ e, e <| bev_subscription_id := None |>) |>).
Proof.
  intros [H1 H2 H3 H4 H5 H6 (H7 & H8 & H9 & H10)].
  assert (∀ x, x ∈ select (λ x, sub_id x != sub_id s) (subscriptions d) → x ∈ subscriptions d) as Hin
    by (intros x [Hx _]%elem_of_select; done).
  split; cbn; try done; auto.
  - by apply NoDup_fmap_select.
  - by apply NoDup_fmap_select.
  - split_and!; auto. intros e (x & Hx & ->)%elem_of_update_where. case_match; [|by apply H9]. by apply H9 in Hx.
Qed.

(** Rows of the other tables. *)
Lemma ok_rest d d' :
  plans d' = plans d → subscriptions d' = subscriptions d →
  (∀ p, p ∈ plan_prices d' → p ∈ plan_prices d ∨ safe (price_metadata_json p)) →
  (∀ e, e ∈ billing_events d' → e ∈ billing_events d ∨ safe (bev_event_metadata e)) →
  (∀ l, l ∈ platform_logs d' → l ∈ platform_logs d ∨ safe (plog_details l)) →
  platform_ok d → platform_ok d'.
Proof.
  intros Hp Hs Hpr Hev Hlg [H1 H2 H3 H4 H5 H6 (H7 & H8 & H9 & H10)].
  split; rewrite ?Hp, ?Hs; try done. split_and!; [done|..].
  - intros p [?|?]%Hpr; auto.
  - intros e [?|?]%Hev; auto.
  - intros l [?|?]%Hlg; auto.
Qed.

Section keeps.
  Context `{HE : Env} `{!Serial HE} `{Settings} `{Wire}.

Abbreviation kept := (keeps sound).

Lemma kept_rest f :
  (∀ d, plans (f d) = plans d ∧ subscriptions (f d) = subscriptions d ∧ plan_prices (f d) = plan_prices d
        ∧ billing_events (f d) = billing_events d ∧ platform_logs (f d) = platform_logs d) →
  steps kept (write f).
Proof.
  intros Hf. apply both_write. intros d. destruct (Hf d) as (Hp & Hs & Hpr & Hev & Hlg).
  apply ok_rest; rewrite ?Hpr, ?Hev, ?Hlg; auto.
Qed.

Hint Resolve both_commit both_rollback both_uuid4 both_send both_await : steps.

Lemma kept_guard {B} (c : bool) (e : exn) (k : M B) :
  (c = false → steps kept k) → steps kept (raise_if c e;; k).
Proof. intros Hk s Hs. destruct c; [done|]. by apply Hk. Qed.

Lemma kept_safe {B} metadata (k : M B) : (safe metadata → steps kept k) → steps kept (_ensure_safe_metadata metadata;; k).
Proof. intros Hk. apply kept_guard. intros Hn%negb_false_iff. by apply Hk. Qed.

(** Validation: reads only, and when it returns the document is valid. *)
Lemma validate_reads doc s : ∃ r, validate_plan_entitlements doc s = (r, s) ∧ (is_ok r = true → doc_ok doc).
Proof.
  unfold validate_plan_entitlements, doc_ok. destruct (validate_entitlement_document doc) as [[]|e]; [eauto|].
  destruct e; eexists; by split.
Qed.

Lemma kept_validate {B} doc (k : M B) : (doc_ok doc → steps kept k) → steps kept (validate_plan_entitlements doc;; k).
Proof.
  intros Hk s Hs. destruct (validate_reads doc s) as ([[]|e] & Hr & Hd).
  - rewrite (bind_ok _ _ _ _ _ Hr). by apply Hk; [apply Hd|].
  - by rewrite (bind_raise _ _ _ _ _ Hr).
Qed.

Lemma validate_steps doc : steps eq (validate_plan_entitlements doc).
Proof. intros s. by destruct (validate_reads doc s) as (r & -> & _). Qed.

Lemma kept_flush_plan i : steps kept (flush_plan i).
Proof. apply both_reads. unfold flush_plan, to_varchar_opt. steps_walk. Qed.

Hint Resolve kept_flush_plan : steps.

Lemma kept_plan_row i f :
  (∀ p, plan_id (f p) = plan_id p ∧ plan_entitlements (f p) = plan_entitlements p ∧ (plan_ok p → plan_ok (f p))) →
  steps kept (update_plan_row i f).
Proof.
  intros Hf. apply both_write. intros d. apply ok_update_plan. intros p Hp Hi. destruct (Hf p) as (Hid & He & Ho).
  split_and!; try done. intros s _ _. unfold fits. by rewrite Hid, He.
Qed.

Lemma kept_intro {A} (m : M A) : (∀ s, sound s → ensures sound m s) → steps kept m.
Proof. intros Hm s Hs. by apply Hm. Qed.

Lemma kept_tail {A} (m : M A) s : sound s → steps eq m → ensures sound m s.
Proof. intros Hs Hm. unfold ensures. by rewrite <- (Hm s). Qed.

Lemma ensures_validate {B} doc (k : M B) s :
  sound s → (doc_ok doc → ensures sound k s) → ensures sound (validate_plan_entitlements doc;; k) s.
Proof.
  intros Hs Hk. destruct (validate_reads doc s) as ([[]|e] & Hr & Hd); unfold ensures.
  - rewrite (bind_ok _ _ _ _ _ Hr). by apply Hk, Hd.
  - by rewrite (bind_raise _ _ _ _ _ Hr).
Qed.

Lemma create_plan_keeps req : steps kept (create_plan req).
Proof.
  unfold create_plan. apply steps_bind; [typeclasses eauto|steps_walk|intros key]. cbv zeta.
  apply kept_guard. intros _. apply kept_validate. intros Hdoc. apply kept_guard. intros Hst. apply kept_safe. intros Hsafe.
  do 5 (apply steps_bind; [typeclasses eauto|steps_walk|intros ?]).
  apply kept_intro. intros s Hs. apply ensures_gets, ensures_guard; [done|intros Hclash].
  apply ensures_bind; [|intros _ s' _ Hs'; apply kept_tail; [done|unfold flush_plan, to_varchar_opt; steps_walk]].
  destruct Hs as [Hd Hc]. split; [|done]. apply ok_append_plan; [|cbn|done].
  - split_and!; [done|done|]. cbn. intros Hpub. by rewrite Hpub, andb_true_l, negb_false_iff in Hst.
  - intros (p & Hp & Hin)%list_elem_of_fmap_1. apply not_true_iff_false in Hclash. apply Hclash, existsb_exists.
    exists p. split; [by apply list_elem_of_In|]. by rewrite bool_decide_eq_true_2.
Qed.

Lemma set_entitlements_keeps i doc : steps kept (set_entitlements i doc).
Proof.
  unfold set_entitlements. apply kept_validate. intros Hdoc. apply kept_intro. intros s Hs. apply ensures_gets.
  set (subs := select _ _).
  assert (∀ l s0, ∃ r, for_each l (λ x, validate_subscription_overrides doc (sub_entitlement_overrides x)) s0 = (r, s0)
            ∧ (is_ok r = true → ∀ x, x ∈ l → doc_ok (merge_entitlements doc (sub_entitlement_overrides x)))) as Hall.
  { induction l as [|x l IH]; intros s0; cbn [for_each].
    - exists (Ok tt). split; [done|]. intros _ x Hx. by apply elem_of_nil in Hx.
    - destruct (validate_reads (merge_entitlements doc (sub_entitlement_overrides x)) s0) as ([[]|e] & Hr & Hd).
      + unfold validate_subscription_overrides at 1. rewrite (bind_ok _ _ _ _ _ Hr).
        destruct (IH s0) as (r & Hr' & Hd'). exists r. split; [done|]. intros Hok y [->|Hy]%elem_of_cons; auto.
      + exists (Raise e). unfold validate_subscription_overrides at 1. by rewrite (bind_raise _ _ _ _ _ Hr). }
  destruct (Hall subs s) as ([[]|e] & Hr & Hd); [|unfold ensures; by rewrite (bind_raise _ _ _ _ _ Hr)].
  unfold ensures. rewrite (bind_ok _ _ _ _ _ Hr). destruct Hs as [Hok Hc]. split; [|done].
  apply ok_update_plan; [|done]. intros p Hp Hi. split; [done|]. split.
  - intros (_ & Hsafe & Hpub). by split_and!.
  - intros x Hx Hxi _ _. cbn. apply Hd; [done|]. apply elem_of_select. by rewrite bool_decide_eq_true_2.
Qed.

Lemma update_plan_keeps req : steps kept (update_plan req).
Proof.
  unfold update_plan. do 3 (apply steps_bind; [typeclasses eauto|steps_walk|intros ?]). cbv zeta.
  apply kept_guard. intros Hst. pose proof (kept_plan_row (plu_plan_id req)) as Hrow.
  pose proof (set_entitlements_keeps (plu_plan_id req)).
  apply steps_bind; [typeclasses eauto| |intros _].
  { destruct (plu_name req); [|steps_walk]. apply kept_guard. intros _. apply Hrow. by intros p. }
  apply steps_bind; [typeclasses eauto| |intros _].
  { destruct (plu_description_supplied req); [|steps_walk]. apply Hrow. by intros p. }
  apply steps_bind; [typeclasses eauto|steps_walk|intros _].
  apply steps_bind; [typeclasses eauto| |intros _].
  { destruct (plu_metadata_json req) as [m|]; [|steps_walk]. apply kept_safe. intros Hm. apply Hrow. intros p.
    split_and!; try done. by intros (? & ? & ?). }
  apply steps_bind; [typeclasses eauto| |intros _; steps_walk]. apply Hrow. intros p. split_and!; try done.
  intros (? & ? & ?). split_and!; try done. cbn. intros Hp. by rewrite Hp, andb_true_l, negb_false_iff in Hst.
Qed.

Lemma elem_of_snoc {A} (l : list A) x y : y ∈ l ++ [x] → y ∈ l ∨ y = x.
Proof. intros [?|?%list_elem_of_singleton]%elem_of_app; auto. Qed.

Lemma create_price_keeps req : steps kept (create_plan_price req).
Proof.
  unfold create_plan_price. do 2 (apply steps_bind; [typeclasses eauto|steps_walk|intros ?]). cbv zeta.
  do 4 (apply kept_guard; intros _). apply kept_safe. intros Hm. unfold to_integer.
  assert (∀ x, safe (price_metadata_json x) → steps kept (write (λ d, d <| plan_prices ::= (λ t, t ++ [x]) |>))).
  { intros x Hx. apply both_write. intros d. apply ok_rest; cbn; auto. intros y [?| ->]%elem_of_snoc; auto. }
  steps_walk.
Qed.

Lemma update_price_keeps i a m : steps kept (update_plan_price i a m).
Proof.
  unfold update_plan_price.
  assert (∀ f, (∀ x, safe (price_metadata_json x) → safe (price_metadata_json (f x))) →
            steps kept (write (λ d, d <| plan_prices ::= update_row i f |>))) as Hw.
  { intros f Hf. apply both_write. intros d Hd. eapply ok_rest, Hd; cbn; auto.
    intros y (x & Hx & ->)%elem_of_update_where. case_match; [|by left]. right. apply Hf. by apply (po_safe d Hd). }
  do 3 (apply steps_bind; [typeclasses eauto|steps_walk|intros ?]). cbv zeta.
  apply steps_bind; [typeclasses eauto| |intros _].
  { destruct a; [by apply Hw|steps_walk]. }
  destruct m; [|steps_walk]. apply kept_safe. intros Hm. by apply Hw.
Qed.

(** ** Subscriptions *)

(** Only [updated_at] is touched. *)
Lemma touched_row n old new :
  sub_id (touched n old new) = sub_id new ∧ sub_tenant_id (touched n old new) = sub_tenant_id new
  ∧ sub_plan_id (touched n old new) = sub_plan_id new
  ∧ sub_billing_metadata (touched n old new) = sub_billing_metadata new
  ∧ sub_entitlement_overrides (touched n old new) = sub_entitlement_overrides new
  ∧ sub_status (touched n old new) = sub_status new.
Proof. unfold touched. destruct (subscription_unchanged old new); split_and!; reflexivity. Qed.

Lemma touched_fits p n old new : fits p (touched n old new) ↔ fits p new.
Proof. unfold fits. destruct (touched_row n old new) as (_ & _ & -> & _ & -> & _). done. Qed.

Lemma kept_update_sub i f :
  (∀ s, sub_id (f s) = sub_id s ∧ sub_tenant_id (f s) = sub_tenant_id s ∧ sub_plan_id (f s) = sub_plan_id s
        ∧ sub_billing_metadata (f s) = sub_billing_metadata s
        ∧ sub_entitlement_overrides (f s) = sub_entitlement_overrides s) →
  steps kept (update_subscription i f).
Proof.
  intros Hf. unfold update_subscription. apply steps_bind; [typeclasses eauto|steps_walk|intros n].
  apply both_write. intros d. apply ok_update_sub. intros s Hs Hi. destruct (Hf s) as (H1 & H2 & H3 & H4 & H5).
  destruct (touched_row n s (f s)) as (-> & -> & -> & -> & _). rewrite H1, H2, H3, H4. split_and!; try done.
  intros p _. rewrite touched_fits. unfold fits. by rewrite H3, H5.
Qed.

Lemma get_plan_member key r s p s' : get_plan_by_key key r s = (Ok p, s') → p ∈ plans (ses_db s).
Proof.
  unfold get_plan_by_key. intros (k & s1 & Hk & Hr)%bind_inv_ok. apply of_outcome_ok in Hk as [_ ->].
  apply bind_inv_ok in Hr as (o & s2 & [[= ->] ->]%query_inv & Hr). bind_some Hr q Hq. bind_guard Hr Ha.
  apply ret_inv in Hr as [[= ->] _]. by apply head_Some_elem_of, elem_of_select in Hq as [Hq _].
Qed.

Lemma fits_assigned d p req s q :
  platform_ok d → p ∈ plans d → q ∈ plans d →
  doc_ok (merge_entitlements (plan_entitlements p) (default [] (sr_entitlement_overrides req))) →
  fits q (assign_subscription p req s).
Proof.
  intros Hd Hp Hq Hdoc Heq. change (plan_id q = plan_id p) in Heq.
  rewrite (NoDup_fmap_inj plan_id _ q p (po_plan_ids d Hd) Hq Hp Heq). exact Hdoc.
Qed.

Lemma sub_of_tenant t s o s' :
  get_tenant_subscription t s = (Ok o, s') →
  s' = s ∧ match o with
           | Some x => subscriptions_of t (ses_db s) = [x] ∧ x ∈ subscriptions (ses_db s) ∧ sub_tenant_id x = t
           | None => subscriptions_of t (ses_db s) = []
           end.
Proof.
  unfold get_tenant_subscription. intros (rows & s1 & [[= ->] ->]%query_inv & Hr)%bind_inv_ok.
  destruct o as [x|].
  - apply one_or_none_some in Hr as [Hl ->]. split; [done|]. split; [done|].
    assert (x ∈ subscriptions_of t (ses_db s)) as Hx by (rewrite Hl; apply list_elem_of_singleton; done).
    apply elem_of_select in Hx as [? ?%bool_decide_eq_true]. done.
  - by apply one_or_none_none in Hr as [? ->].
Qed.

Lemma check_subscription_reads s : steps eq (check_subscription s).
Proof. unfold check_subscription, to_varchar_opt. steps_walk. Qed.

Lemma assigned_ok d p req s0 :
  platform_ok d → p ∈ plans d →
  doc_ok (merge_entitlements (plan_entitlements p) (default [] (sr_entitlement_overrides req))) →
  safe (default [] (sr_billing_metadata req)) →
  ∀ n, platform_ok (d <| subscriptions ::= update_row s0 (λ x, touched n x (assign_subscription p req x)) |>).
Proof.
  intros Hd Hp Hdoc Hsafe n. apply ok_update_sub; [|done]. intros x Hx Hi.
  destruct (touched_row n x (assign_subscription p req x)) as (-> & -> & -> & -> & _).
  split_and!; try done; [intros _; by apply (list_elem_of_fmap_2 plan_id)|]. intros q Hq _. apply touched_fits.
  by eapply fits_assigned.
Qed.

Lemma new_subscription_keeps p req n i s :
  sound s → p ∈ plans (ses_db s) →
  doc_ok (merge_entitlements (plan_entitlements p) (default [] (sr_entitlement_overrides req))) →
  safe (default [] (sr_billing_metadata req)) →
  let x := assign_subscription p req
             (MkTenantSubscription i (sr_tenant_id req) (plan_id p) SubActive None None None None None None None
                None None None None false [] [] n) in
  ensures sound (taken ← query (λ d, existsb (λ x, sub_id x == i) (subscriptions d));
                 raise_if taken PlatformConflictError;;
                 check_subscription x;;
                 write (λ d, d <| subscriptions ::= (λ l, l ++ [x]) |>);;
                 mret x) s.
Proof.
  intros Hs Hp Hdoc Hsafe x. apply ensures_gets, ensures_guard; [done|intros Hfree].
  apply not_true_iff_false in Hfree.
  assert (i ∉ sub_id <$> subscriptions (ses_db s)) as Hi.
  { intros (y & -> & Hy)%list_elem_of_fmap_1. apply Hfree, existsb_exists. exists y.
    split; [by apply list_elem_of_In|by apply bool_decide_eq_true]. }
  apply ensures_bind; [apply kept_tail; [done|apply check_subscription_reads]|].
  intros [] s1 Hchk _. apply (steps_run eq) in Hchk as Heq; [|apply check_subscription_reads]. subst s1.
  unfold check_subscription in Hchk. do 3 apply bind_inv_ok in Hchk as (? & ? & _ & Hchk).
  apply bind_inv_ok in Hchk as (c & s2 & [[= ->] ->]%query_inv & Hchk). apply raise_if_ok in Hchk as [Hclash <-].
  destruct Hs as [Hd Hc]. split; [|done]. apply ok_append_sub; try done.
  - intros (y & Hy & Hin)%list_elem_of_fmap_1. apply not_true_iff_false in Hclash. apply Hclash, existsb_exists.
    exists y. split; [by apply list_elem_of_In|]. apply andb_true_iff. split.
    + apply negb_true_iff, bool_decide_eq_false. intros Heq. apply Hi.
      rewrite <- (Heq : sub_id y = i). by apply (list_elem_of_fmap_2 sub_id).
    + unfold subscription_conflict. rewrite (bool_decide_eq_true_2 (sub_tenant_id x = _)) by done. by rewrite orb_true_r.
  - by apply (list_elem_of_fmap_2 plan_id).
  - intros q Hq. by apply (fits_assigned (ses_db s) p req _ q).
Qed.

Lemma upsert_keeps req : steps kept (upsert_subscription req).
Proof.
  apply kept_intro. intros s Hs. unfold upsert_subscription. cbv zeta.
  apply ensures_gets, ensures_of_option; [done|intros tenant _]. apply ensures_guard; [done|intros _].
  apply ensures_bind; [apply kept_tail; [done|unfold get_tenant_subscription; steps_walk]|].
  intros subscription s1 Hsub _. apply sub_of_tenant in Hsub as [-> Hsub].
  apply ensures_bind; [apply kept_tail; [done|unfold get_plan_by_key; steps_walk]|].
  intros plan s1 Hplan _. apply (steps_run eq) in Hplan as Heq; [|unfold get_plan_by_key; steps_walk]. subst s1.
  apply get_plan_member in Hplan. apply ensures_guard; [done|intros _].
  apply ensures_validate; [done|intros Hdoc]. apply ensures_guard; [done|intros Hsafe%negb_false_iff].
  do 2 (apply ensures_guard; [done|intros _]). destruct subscription as [x|].
  - apply ensures_bind; [apply kept_tail; [done|apply check_subscription_reads]|].
    intros [] s1 Hchk _. apply (steps_run eq) in Hchk as <-; [|apply check_subscription_reads].
    apply ensures_bind; [|intros [] s1 _ Hs1; apply kept_tail; [done|steps_walk]].
    destruct Hs as [Hd Hc]. split; [|done]. by apply assigned_ok.
  - apply ensures_gets. unfold ensures. erewrite bind_ok; [|reflexivity]. by apply new_subscription_keeps.
Qed.

Lemma clear_keeps t : steps kept (clear_subscription t).
Proof.
  unfold clear_subscription, get_tenant_subscription.
  assert (∀ s, steps kept (write (λ d, d <| subscriptions ::= select (λ x, sub_id x != sub_id s) |>
    <| billing_events ::= update_where (λ e, bev_subscription_id e == Some (sub_id s))
                      (λ e, e <| bev_subscription_id := None |>) |>))) by (intros s; apply both_write, ok_clear).
  steps_walk.
Qed.

(** ** Billing events *)

Lemma kept_update_event i f :
  (∀ e, bev_event_metadata (f e) = bev_event_metadata e) → steps kept (update_event i f).
Proof.
  intros Hf. apply both_write. intros d Hd. eapply ok_rest, Hd; cbn; auto.
  intros y (x & Hx & ->)%elem_of_update_where. case_match; [|by left]. right. unfold safe. rewrite Hf.
  by apply (po_safe d Hd).
Qed.

Lemma kept_insert_event e : safe (bev_event_metadata e) → steps kept (insert_event e).
Proof.
  intros He. unfold insert_event.
  assert (steps kept (write (λ d, d <| billing_events ::= (λ t, t ++ [e]) |>))).
  { apply both_write. intros d. apply ok_rest; cbn; auto. intros y [?| ->]%elem_of_snoc; auto. }
  steps_walk.
Qed.

Lemma converge_keeps req : steps kept (converge_billing_event req).
Proof.
  unfold converge_billing_event. cbv zeta. apply kept_guard. intros _. apply kept_safe. intros Hm.
  pose proof upsert_keeps. assert (∀ r, steps kept (begin_nested (upsert_subscription r))) by (intros; by apply both_nested).
  pose proof (λ i f, kept_update_event i f) as Hu.
  assert (∀ e sh, steps kept (recorded e sh)) by (unfold recorded; steps_walk).
  assert (∀ e r, steps kept (apply_event e r)) by (unfold apply_event; steps_walk).
  unfold except_integrity. steps_walk. apply both_nested. by apply kept_insert_event.
Qed.

Lemma audit_keeps a rt ri t d ip ac : steps kept (append_platform_audit a rt ri t d ip ac).
Proof.
  unfold append_platform_audit. apply kept_safe. intros Hsafe.
  apply steps_bind; [typeclasses eauto|steps_walk|intros i]. cbv zeta.
  apply steps_bind; [typeclasses eauto|unfold to_varchar_opt; steps_walk|intros _].
  apply steps_bind; [typeclasses eauto| |steps_walk]. apply both_write. intros db. apply ok_rest; cbn; auto.
  intros y [?| ->]%elem_of_snoc; auto.
Qed.

Lemma mark_synced_keeps i src : steps kept (mark_synced i src).
Proof.
  unfold mark_synced. apply steps_bind; [typeclasses eauto|steps_walk|intros n]. apply kept_update_sub. by intros x.
Qed.

Lemma sync_failure_keeps x e : steps kept (record_sync_failure x e).
Proof.
  unfold record_sync_failure. apply steps_bind; [typeclasses eauto|steps_walk|intros n].
  apply kept_update_sub. by intros y.
Qed.

Lemma provider_state_keeps st ev ty src : steps kept (converge_provider_subscription_state st ev ty src).
Proof.
  unfold converge_provider_subscription_state, get_tenant_subscription. pose proof converge_keeps.
  pose proof mark_synced_keeps. steps_walk.
Qed.

(** ** Adapters

    What the platform relies on: talking to the billing provider does not touch
    the database. *)

Definition quiet (s s' : Session) : Prop := ses_db s' = ses_db s ∧ ses_committed s' = ses_committed s.

Global Instance quiet_preorder : PreOrder quiet.
Proof. split; unfold quiet; [done|]. intros x y z [-> ->] [-> ->]. done. Qed.

Class QuietAdapter (a : BillingProviderAdapter) : Prop := {
  quiet_checkout : ∀ req, steps quiet (create_checkout_session a req);
  quiet_portal : ∀ c u, steps quiet (create_portal_session a c u);
  quiet_verify : ∀ p h, steps quiet (verify_webhook a p h);
  quiet_fetch : ∀ i, steps quiet (fetch_subscription a i);
}.

Lemma quiet_send m : steps quiet (send m).
Proof. by intros s. Qed.

Lemma stripe_quiet key secret tol a : StripeBillingAdapter key secret tol = Ok a → QuietAdapter a.
Proof.
  unfold StripeBillingAdapter. do 2 (case_match; [done|]). intros [= <-]. pose proof quiet_send.
  assert (∀ m p d k, steps quiet (_request m p d k)) by (unfold _request; steps_walk).
  assert (∀ o ty i n r, steps quiet (_normalize_subscription_object o ty i n r))
    by (unfold _normalize_subscription_object; steps_walk).
  assert (∀ b, steps quiet (hosted_session b)) by (unfold hosted_session; steps_walk).
  split; cbn.
  - unfold stripe_create_checkout_session. steps_walk.
  - unfold stripe_create_portal_session. steps_walk.
  - unfold stripe_verify_webhook. steps_walk.
  - unfold stripe_fetch_subscription. steps_walk.
Qed.

Lemma provider_quiet p a : get_billing_provider p = Ok a → QuietAdapter a.
Proof.
  unfold get_billing_provider. cbv zeta. generalize (lower (strip (if truthy p then default "" p else lower (strip billing_provider)))).
  intros sel. destruct (sel != _); [done|]. destruct (sel == "stripe"); [|done]. apply stripe_quiet.
Qed.

Lemma kept_quiet {A} (m : M A) : steps quiet m → steps kept m.
Proof. intros Hm s [Hd Hc]. destruct (Hm s) as [H1 H2]. split; by rewrite ?H1, ?H2. Qed.

Section adapter.
  Context (a : BillingProviderAdapter) `{!QuietAdapter a}.

Lemma webhook_state_keeps v : steps kept (converge_verified_webhook a v).
Proof.
  unfold converge_verified_webhook. pose proof provider_state_keeps.
  assert (∀ i, steps kept (fetch_subscription a i)) by (intros; apply kept_quiet, quiet_fetch). steps_walk.
Qed.

Lemma reconcile_keeps n : steps kept (reconcile_provider_subscriptions a n).
Proof.
  unfold reconcile_provider_subscriptions. cbv zeta.
  apply steps_bind; [typeclasses eauto|steps_walk|intros l].
  apply steps_bind; [typeclasses eauto| |steps_walk].
  generalize (MkBillingReconcileSummary (lower (strip (provider_name a))) (Z.of_nat (length l)) 0 0 0 []).
  induction l as [|x l IH]; intros sum; cbn [sync_all]; [steps_walk|].
  apply steps_bind; [typeclasses eauto| |auto]. unfold sync_step, sync_subscription.
  pose proof provider_state_keeps. pose proof sync_failure_keeps.
  assert (∀ i, steps kept (fetch_subscription a i)) by (intros; apply kept_quiet, quiet_fetch).
  steps_walk.
Qed.
End adapter.

Lemma kept_adapter {B} p (k : BillingProviderAdapter → M B) :
  (∀ a, QuietAdapter a → steps kept (k a)) → steps kept (a ← of_outcome (get_billing_provider p); k a).
Proof.
  intros Hk. destruct (get_billing_provider p) as [a|e] eqn:Ha; [|by intros s Hs].
  apply (Hk a). by eapply provider_quiet.
Qed.

Lemma kept_request {A} (m : M A) : steps kept m → steps kept (in_request m).
Proof. intros Hm. unfold in_request. steps_walk. Qed.

Lemma kept_session {A} (m : M A) : steps kept m → steps kept (in_session m).
Proof. intros Hm. unfold in_session. steps_walk. Qed.

Lemma kept_platform {A} (m : M A) : steps kept m → steps kept (platform_request m).
Proof. intros Hm. unfold platform_request. steps_walk. Qed.

Lemma event_keeps op ev s : sound s → sound (run_platform_event op s ev).
Proof.
  pose proof audit_keeps. pose proof create_plan_keeps. pose proof update_plan_keeps. pose proof create_price_keeps.
  pose proof update_price_keeps. pose proof upsert_keeps. pose proof clear_keeps. pose proof converge_keeps.
  assert (∀ a rt ri t d, steps kept (audited op a rt ri t d)) by (unfold audited; steps_walk).
  destruct ev; cbn [run_platform_event].
  1-7: apply kept_request, kept_platform; steps_walk.
  - apply kept_request. unfold reconcile_platform_billing. apply steps_catch; [typeclasses eauto| |steps_walk].
    apply kept_adapter. intros a Ha. pose proof (reconcile_keeps a). steps_walk.
  - apply kept_request. unfold stripe_billing_webhook. apply steps_catch; [typeclasses eauto| |steps_walk].
    apply kept_adapter. intros a Ha. pose proof (webhook_state_keeps a).
    assert (∀ p h, steps kept (verify_webhook a p h)) by (intros; apply kept_quiet, quiet_verify). steps_walk.
  - apply kept_request. unfold create_tenant_billing_checkout. cbv zeta. apply kept_guard. intros _.
    apply steps_catch; [typeclasses eauto| |steps_walk]. apply kept_adapter. intros a Ha.
    assert (∀ r, steps kept (create_checkout_session a r)) by (intros; apply kept_quiet, quiet_checkout).
    unfold _require_checkout_urls, get_tenant_subscription, ensure_checkout_allowed, resolve_checkout_price, audit.
    steps_walk; by apply kept_rest.
  - apply kept_request. unfold create_tenant_billing_portal.
    apply steps_catch; [typeclasses eauto| |steps_walk]. apply kept_adapter. intros a Ha.
    assert (∀ c u, steps kept (create_portal_session a c u)) by (intros; apply kept_quiet, quiet_portal).
    unfold _require_portal_return_url, get_tenant_subscription, audit. steps_walk; by apply kept_rest.
  - assert (steps kept (billing_poll_once batch_size)) as Hp; [|by apply Hp].
    unfold billing_poll_once. destruct (negb billing_worker_enabled); [steps_walk|]. apply kept_adapter. intros a Ha.
    apply kept_session. pose proof (reconcile_keeps a). steps_walk.
Qed.

Lemma run_platform_keeps op evs s : sound s → sound (run_platform op evs s).
Proof.
  revert s. induction evs as [|ev evs IH]; intros s Hs; [done|]. cbn. by apply IH, event_keeps.
Qed.

End keeps.

(** ** Entitlements *)

Lemma doc_ok_bounds doc :
  doc_ok doc →
  ∃ b e j fs, _required_positive_int doc "max_bots" = Ok b ∧ _required_positive_int doc "max_enabled_bots" = Ok e
    ∧ _required_positive_int doc "max_open_provisioning_jobs" = Ok j ∧ _feature_flags doc = Ok fs
    ∧ 1 ≤ e ≤ b ∧ 1 ≤ j.
Proof.
  unfold doc_ok, validate_entitlement_document.
  destruct (_required_positive_int doc "max_bots") as [b|] eqn:Hb; [|done].
  destruct (_required_positive_int doc "max_enabled_bots") as [e|] eqn:He; [|done].
  destruct (_required_positive_int doc "max_open_provisioning_jobs") as [j|] eqn:Hj; [|done].
  destruct (b <? e) eqn:Hbe; [done|]. destruct (_feature_flags doc) as [fs|] eqn:Hf; [|done]. intros _.
  exists b, e, j, fs. assert (∀ k n, _required_positive_int doc k = Ok n → 1 ≤ n) as Hpos.
  { unfold _required_positive_int. intros k n. repeat case_match; try done. intros [= ->]. lia. }
  apply Hpos in He as He', Hj as Hj'. split_and!; try done. lia.
Qed.

(** What a tenant may do follows from its subscription, if it has one. *)
Lemma entitlements_resolve `{Settings} t s :
  platform_ok (ses_db s) →
  ∃ e, resolve_tenant_entitlements t s = (Ok e, s) ∧
    (subscriptions_of t (ses_db s) = [] ∧ e = self_hosted
     ∨ ∃ x p b en j fs, subscriptions_of t (ses_db s) = [x] ∧ get_row (sub_plan_id x) (plans (ses_db s)) = Some p
         ∧ e = MkEntitlementSnapshot SAAS_PLAN (Some (plan_key p)) (Some (plan_name p)) (Some (sub_status x)) b en j fs
         ∧ _feature_flags (merge_entitlements (plan_entitlements p) (sub_entitlement_overrides x)) = Ok fs
         ∧ 1 ≤ en ≤ b ∧ 1 ≤ j).
Proof.
  intros Hok. unfold resolve_tenant_entitlements.
  assert (NoDup (sub_tenant_id <$> subscriptions_of t (ses_db s))) as Hnd
    by (apply NoDup_fmap_select, Hok).
  destruct (subscriptions_of t (ses_db s)) as [|x [|y l]] eqn:Hl.
  - exists self_hosted. split; [|by left]. unfold get_tenant_subscription, query, gets, mbind, prog_bind. cbn. by rewrite Hl.
  - assert (x ∈ subscriptions (ses_db s)) as Hx.
    { assert (x ∈ subscriptions_of t (ses_db s)) as Hx by (rewrite Hl; by apply list_elem_of_singleton).
      by apply elem_of_select in Hx as [? _]. }
    pose proof (po_subscribed _ Hok x Hx) as (p & Hpi & Hp)%list_elem_of_fmap_1.
    destruct (get_row (sub_plan_id x) (plans (ses_db s))) as [q|] eqn:Hq.
    2: { exfalso. apply get_row_None with (2 := Hp) in Hq. by apply Hq. }
    apply get_row_Some in Hq as Hq'. destruct Hq' as [Hqin Hqi].
    pose proof (po_fits _ Hok q x Hqin Hx Hqi) as Hdoc.
    destruct (doc_ok_bounds _ Hdoc) as (b & en & j & fs & Hb & He & Hj & Hf & Hbnd).
    eexists. split; [|right; exists x, q, b, en, j, fs; split_and!; try done; apply Hbnd].
    erewrite bind_ok; [|unfold get_tenant_subscription; erewrite bind_ok; [|reflexivity]; by rewrite Hl].
    unfold doc_ok in Hdoc. unfold query, gets, mbind, prog_bind. cbv zeta beta. rewrite Hq. cbn.
    by rewrite Hdoc, Hb, He, Hj, Hf.
  - exfalso. assert (∀ z, z ∈ subscriptions_of t (ses_db s) → sub_tenant_id z = t) as Ht
      by (intros z [_ Hz%bool_decide_eq_true]%elem_of_select; done).
    rewrite Hl in Ht. cbn in Hnd. apply NoDup_cons in Hnd as [Hn _]. apply Hn.
    rewrite (Ht x) by (apply elem_of_cons; by left). rewrite <- (Ht y) by (apply elem_of_cons; right; apply elem_of_cons; by left).
    apply elem_of_cons. by left.
Qed.


(** ** At work *)

Definition demo_settings : Settings := {|
  factory_max_bots_per_tenant := 5;
  factory_max_enabled_bots_per_tenant := 3;
  factory_max_open_provisioning_jobs_per_tenant := 2;
  billing_provider := "stripe";
  stripe_secret_key := Some "sk";
  stripe_webhook_secret := Some "whsec";
  billing_webhook_tolerance_seconds := 300;
  billing_past_due_grace_days := 7;
  billing_reconcile_enabled := true;
  billing_success_url := None;
  billing_cancel_url := None;
  billing_portal_return_url := None;
|}.

(** A provider that does not answer. *)
Definition demo_wire : Wire := {|
  wire_http _ _ _ _ _ := HttpFailed;
  wire_hmac_sha256 key message := "mac(" +:+ key +:+ ";" +:+ message +:+ ")";
  wire_json_loads _ := None;
|}.

Definition demo_operator : PlatformOperator := MkPlatformOperator "LOCAL_PLATFORM_TOKEN" None.

Definition platform_db : DB := empty_db <| tenants := [MkTenant (mk_uuid "t") "Shop" true [] None] |>.
Definition platform_session : Session := MkSession platform_db platform_db 0 [].

Definition limits (bots enabled : Z) : dict :=
  [("max_bots", JInt bots); ("max_enabled_bots", JInt enabled); ("max_open_provisioning_jobs", JInt 1);
   ("features", JObj [("custom_branding", JBool true)])].

Definition demo_subscription (overrides : dict) : SubscriptionRequest :=
  MkSubscriptionRequest (mk_uuid "t") "starter" SubActive None None None None None None None false (Some overrides) None.

(** The second update of the plan is refused: with the override the tenant
    could enable more bots than it may have. *)
Definition platform_events : list PlatformEvent :=
  [ PeCreatePlan (MkPlanRequest " Starter " "Starter" None true true (limits 4 2) []);
    PeSubscribe (demo_subscription [("max_enabled_bots", JInt 4)]);
    PeUpdatePlan (MkPlanUpdate (mk_uuid "uuid-0") None None false None None (Some (limits 6 2)) None) [];
    PeUpdatePlan (MkPlanUpdate (mk_uuid "uuid-0") None None false None None (Some (limits 3 2)) None) [];
    PePoll 10 ].

Definition platform_demo : Session :=
  @run_platform demo_env demo_settings demo_wire demo_operator platform_events platform_session.

Lemma platform_db_ok : platform_ok platform_db.
Proof.
  split; cbn; try apply NoDup_nil_2; try (by intros x Hx%elem_of_nil); [by intros p s Hp%elem_of_nil|].
  split_and!; by intros x Hx%elem_of_nil.
Qed.

