(* ===== verification/BillingSpec.v ===== *)
(** * Platform billing: what gets through and what is applied

    The feature gate, the signature of a webhook, that a billing event is
    applied once, and two ways in which following the billing provider goes
    wrong. *)

From Stdlib Require Import ZArith Lia Ascii String.
From stdpp Require Import base tactics list option strings numbers pretty.
From S2P Require Import Prelude Tables Text Money Exceptions StateMachines Models Payments.
From S2P Require Import PaymentsInv Operations FulfillmentSpec Reversals Saas Billing PlatformApi SaasSpec.

Local Open Scope Z_scope.

(** ** The feature gate *)

Definition commercially_allowed (x : TenantSubscription) (n : Z) : Prop :=
  sub_status x = SubActive ∨ sub_status x = SubTrialing
  ∨ sub_status x = SubPastDue ∧ ∃ g, sub_grace_ends_at x = Some g ∧ n < g.

Lemma allowed_spec x n :
  acc_allowed (commercial_access_for_subscription (Some x) n) = true ↔ commercially_allowed x n.
Proof.
  unfold commercial_access_for_subscription, commercially_allowed.
  destruct (sub_status x); cbn; try naive_solver.
  destruct (sub_grace_ends_at x) as [g|]; cbn; [|naive_solver]. destruct (n <? g) eqn:Hg; cbn; [|naive_solver lia].
  split; [|done]. intros _. right. right. split; [done|]. exists g. split; [done|lia].
Qed.

Lemma flag_get_map (g : string → bool) k l :
  flag_get k (map (λ k, (k, g k)) l) = if bool_decide (k ∈ l) then Some (g k) else None.
Proof.
  induction l as [|x l IH]; cbn [map flag_get]; [done|]. destruct (decide (k = x)) as [<-|Hne].
  - rewrite !bool_decide_eq_true_2; [done|apply elem_of_cons; by left|done].
  - rewrite bool_decide_eq_false_2 by done. rewrite IH.
    destruct (decide (k ∈ l)) as [Hl|Hl]; [rewrite !bool_decide_eq_true_2|rewrite !bool_decide_eq_false_2]; try done.
    + by apply elem_of_cons; right.
    + by intros [?|?]%elem_of_cons.
Qed.

Lemma flag_get_key k l b : flag_get k l = Some b → k ∈ map fst l.
Proof.
  induction l as [|[k' b'] l IH]; cbn; [done|]. case_bool_decide as Hk; [intros _; subst; apply elem_of_cons; by left|].
  intros Hg. apply elem_of_cons. right. by apply IH.
Qed.

Lemma feature_keys_complete k l : k ∈ map fst l → k ∈ feature_keys l.
Proof.
  intros Hk. unfold feature_keys. rewrite elem_of_sort_by.
  set (add := λ (acc : list string) k, if existsb (λ x, x == k) acc then acc else acc ++ [k]).
  assert (∀ ks acc, (k ∈ acc ∨ k ∈ ks) → k ∈ foldl add acc ks) as Hfold.
  { induction ks as [|x ks IH]; intros acc [Ha|Hks]; cbn; try done; [by apply elem_of_nil in Hks| |].
    - apply IH. left. unfold add. case_match; [done|]. apply elem_of_app. by left.
    - apply elem_of_cons in Hks as [<-|Hks]; [|apply IH; by right]. apply IH. left. unfold add.
      destruct (existsb _ acc) eqn:He; [|apply elem_of_app; right; by apply list_elem_of_singleton].
      apply existsb_exists in He as (y & Hy & Hyk%bool_decide_eq_true). subst. by apply list_elem_of_In. }
  apply Hfold. right. apply elem_of_app. by right.
Qed.

Lemma effective_flag e access f :
  ent_source e ≠ SELF_HOSTED_DEFAULTS →
  default false (flag_get f (effective_feature_flags e access)) = true
  ↔ flag_get f (ent_features e) = Some true ∧ acc_allowed access = true.
Proof.
  intros Hsrc. unfold effective_feature_flags. rewrite (bool_decide_eq_false_2 (ent_source e = _)) by done.
  rewrite flag_get_map. case_bool_decide as Hk; cbn.
  - rewrite andb_true_iff. destruct (flag_get f (ent_features e)) as [[]|]; cbn; naive_solver.
  - split; [done|]. intros [Hg _]. exfalso. apply Hk, feature_keys_complete. by eapply flag_get_key.
Qed.

Section gate.
  Context `{HE : Env} `{Settings}.

Lemma access_run t s :
  resolve_commercial_access t s =
    (Ok (commercial_access_for_subscription (head (subscriptions_of t (ses_db s))) (env_clock (ses_draws s))), s).
Proof. reflexivity. Qed.

(** What a tenant has. *)
Definition entitled (t : UUID) (f : string) (s : Session) : Prop :=
  subscriptions_of t (ses_db s) = [] ∨
  ∃ x p fs, subscriptions_of t (ses_db s) = [x] ∧ get_row (sub_plan_id x) (plans (ses_db s)) = Some p
    ∧ _feature_flags (merge_entitlements (plan_entitlements p) (sub_entitlement_overrides x)) = Ok fs
    ∧ flag_get f fs = Some true ∧ commercially_allowed x (env_clock (ses_draws s)).

End gate.

(** The feature gate.  On a sound state [require_feature_entitlement] lets
    a request through exactly when the tenant has no subscription (self-hosted),
    or its plan with the tenant's overrides has the feature switched on and the
    subscription is active, trialing, or past due inside its grace period; it
    refuses with one of the two denials and changes nothing either way. *)
Theorem feature_gate `{HE : Env} `{Settings} t f s :
  platform_ok (ses_db s) →
  (∃ snapshot, require_feature_entitlement t f s = (Ok snapshot, s)) ∧ entitled t f s
  ∨ (require_feature_entitlement t f s = (Raise CommercialAccessDenied, s)
     ∨ require_feature_entitlement t f s = (Raise FeatureEntitlementDenied, s)) ∧ ¬ entitled t f s.
Proof.
  intros Hok. unfold require_feature_entitlement, resolve_product_entitlements, entitled.
  destruct (entitlements_resolve t s Hok) as (e & He & Hcase).
  erewrite bind_ok; [|rewrite (bind_ok _ _ _ _ _ He); rewrite (bind_ok _ _ _ _ _ (access_run t s)); reflexivity].
  destruct Hcase as [[Hl ->]|(x & p & b & en & j & fs & Hl & Hp & -> & Hfs & _)]; rewrite Hl; cbn [head].
  { left. split; [by eexists|by left]. }
  set (access := commercial_access_for_subscription (Some x) (env_clock (ses_draws s))).
  set (ent := MkEntitlementSnapshot _ _ _ _ _ _ _ _).
  cbn [pe_access pe_entitlements pe_effective_features].
  destruct (acc_allowed access) eqn:Ha.
  2: { right. split; [by left|]. intros [?|(y & q & gs & [= <-] & _ & _ & _ & Hc)]; [done|].
       apply allowed_spec in Hc. unfold access in Ha. congruence. }
  pose proof (effective_flag ent access f ltac:(done)) as Heff. change (ent_features ent) with fs in Heff.
  destruct (default false (flag_get f (effective_feature_flags ent access))) eqn:Hg.
  - left. split; [by eexists|]. right. exists x, p, fs. split_and!; try done; [by apply Heff|by apply allowed_spec].
  - right. split; [by right|]. intros [?|(y & q & gs & [= <-] & Hq & Hgs & Hon & Hc)]; [done|].
    assert (q = p) as -> by congruence. assert (gs = fs) as -> by congruence.
    assert (false = true) as Hbad by (apply Heff; by split). done.
Qed.

(** ** Signed webhooks *)

Section webhook.
  Context `{HE : Env} `{Settings} `{Wire}.

(** The header has a timestamp inside the tolerance and the HMAC of the payload
    under that timestamp. *)
Definition authentic (secret : string) (payload header : string) (n : Z) : Prop :=
  ∃ t signatures, _parse_stripe_signature header = Ok (t, signatures)
    ∧ Z.abs (n / 1000000 - t) ≤ billing_webhook_tolerance_seconds
    ∧ wire_hmac_sha256 secret (pretty t +:+ "." +:+ payload) ∈ signatures.

Lemma any_digest_true e l : any_digest e l = Ok true → e ∈ l.
Proof.
  induction l as [|c l IH]; cbn; [done|]. case_match; [done|]. case_bool_decide as He.
  - intros _. subst. apply elem_of_cons. by left.
  - intros Hd. apply elem_of_cons. right. by apply IH.
Qed.

Lemma verify_reads secret tol p h : steps eq (stripe_verify_webhook secret tol p h).
Proof. unfold stripe_verify_webhook, _normalize_subscription_object. steps_walk. Qed.

Lemma verified_authentic secret p h s v s' :
  stripe_verify_webhook secret billing_webhook_tolerance_seconds p h s = (Ok v, s') →
  authentic secret p h (env_clock (ses_draws s)).
Proof.
  unfold stripe_verify_webhook. intros Hr. bind_value Hr parsed Hp.
  apply bind_inv_ok in Hr as (n & s1 & [[= ->] ->]%gets_inv & Hr). bind_guard Hr Htol.
  cbv zeta in Hr. bind_value Hr matched Hm. bind_guard Hr Hmatch. destruct matched; [|done].
  destruct parsed as [t sigs]. exists t, sigs. split; [done|]. split; [cbn in Htol; lia|]. by apply any_digest_true.
Qed.

(** Raising leaves the database as it was committed. *)
Lemma refused {A} (m : M A) s s1 e :
  m s = (Raise e, s1) → ses_committed s1 = ses_committed s → ses_sent s1 = ses_sent s →
  ∃ s', in_request m s = (Raise e, s') ∧ ses_db s' = ses_committed s ∧ ses_committed s' = ses_committed s
        ∧ ses_sent s' = ses_sent s.
Proof.
  intros Hm Hc Hsent. unfold in_request, catch. rewrite (bind_raise _ _ _ _ _ Hm). cbn. eexists. split; [done|].
  cbn. by rewrite Hc.
Qed.

End webhook.

(** [C24] Forged webhooks change nothing.  Unless its header carries a fresh
    timestamp and the HMAC-SHA-256 of exactly this payload under the configured
    secret, a delivery to [/billing/webhooks/stripe] is answered with an error,
    nothing is committed, and nothing is asked of the billing provider. *)
Theorem forged_webhook_refused `{HE : Env} `{Settings} `{Wire} payload signature ip s :
  ¬ authentic (strip (default "" stripe_webhook_secret)) payload (default "" signature) (env_clock (ses_draws s)) →
  ∃ e s', in_request (stripe_billing_webhook payload signature ip) s = (Raise e, s')
    ∧ ses_db s' = ses_committed s ∧ ses_committed s' = ses_committed s ∧ ses_sent s' = ses_sent s.
Proof.
  intros Hforged.
  assert (∃ e s1, stripe_billing_webhook payload signature ip s = (Raise e, s1)
            ∧ ses_committed s1 = ses_committed s ∧ ses_sent s1 = ses_sent s) as (e & s1 & Hm & Hc & Hsent).
  2: { destruct (refused _ s s1 e Hm Hc Hsent) as (s' & Hs'). by exists e, s'. }
  unfold stripe_billing_webhook, catch.
  match goal with |- context [match ?m s with _ => _ end] =>
    assert (∃ e, m s = (Raise e, s)) as (e & ->)
  end.
  - destruct (get_billing_provider (Some "stripe")) as [a|e] eqn:Ha; [|by exists e].
    erewrite bind_ok; [|reflexivity].
    assert (verify_webhook a = stripe_verify_webhook (strip (default "" stripe_webhook_secret))
                                 billing_webhook_tolerance_seconds) as Hv.
    { revert Ha. unfold get_billing_provider, StripeBillingAdapter. repeat case_match; try done. by intros [= <-]. }
    rewrite Hv. pose proof (verify_reads (strip (default "" stripe_webhook_secret))
      billing_webhook_tolerance_seconds payload (default "" signature) s) as Hs.
    destruct (stripe_verify_webhook _ _ _ _ s) as [[v|e] s1] eqn:Hr; cbn in Hs; subst s1.
    + exfalso. by eapply Hforged, verified_authentic.
    + exists e. by apply bind_raise.
  - repeat case_match; eexists _, _; split; try reflexivity; done.
Qed.

(** ** Billing events *)

Definition request_events (req : BillingEventRequest) (d : DB) : list BillingEvent :=
  events_by_key (lower (strip (ber_provider req))) (strip (ber_external_event_id req)) d.

Section events.
  Context `{HE : Env} `{Settings} `{Wire}.

(** The fingerprint of a request that passes the checks. *)
Definition accepted (req : BillingEventRequest) (sha : string) : Prop :=
  lower (strip (ber_provider req)) ≠ "" ∧ strip (ber_external_event_id req) ≠ "" ∧ strip (ber_event_type req) ≠ ""
  ∧ safe (default [] (ber_event_metadata req))
  ∧ ∃ key, normalize_plan_key (sr_plan_key (ber_subscription req)) = Ok key ∧
      sha = _billing_fingerprint (fingerprint_payload (lower (strip (ber_provider req)))
              (strip (ber_external_event_id req)) (strip (ber_event_type req)) key req).

Definition converge_tail (req : BillingEventRequest) (sha : string) : M BillingConvergenceResult :=
  rows ← query (request_events req);
  existing ← one_or_none rows;
  match existing with
  | Some existing => recorded existing sha
  | None =>
      i ← uuid4;
      let event := MkBillingEvent i (lower (strip (ber_provider req))) (strip (ber_external_event_id req))
                     (strip (ber_event_type req)) sha BillReceived (Some (sr_tenant_id (ber_subscription req))) None 1
                     None (default [] (ber_event_metadata req)) None in
      await_others;;
      inserted ← except_integrity (begin_nested (insert_event event);; mret true) (mret false);
      if inserted : bool then
        apply_event event ((ber_subscription req) <| sr_billing_provider := Some (lower (strip (ber_provider req))) |>)
      else
        rows ← query (request_events req);
        found ← one_or_none rows;
        concurrent ← of_option PlatformConflictError found;
        recorded concurrent sha
  end.

Lemma converge_accepted req sha s :
  accepted req sha → converge_billing_event req s = converge_tail req sha s.
Proof.
  intros (Hp & Hi & Ht & Hsafe & key & Hkey & ->). unfold converge_billing_event. cbv zeta.
  rewrite !bool_decide_eq_false_2 by done. cbn [orb]. erewrite bind_ok; [|reflexivity].
  erewrite bind_ok; [|unfold _ensure_safe_metadata; by rewrite Hsafe]. by rewrite Hkey.
Qed.

Lemma converge_refused req s :
  (∃ sha, accepted req sha) ∨ ∃ e, converge_billing_event req s = (Raise e, s).
Proof.
  destruct (normalize_plan_key (sr_plan_key (ber_subscription req))) as [key|e] eqn:Hkey;
    unfold converge_billing_event; cbv zeta.
  - destruct (_ || _) eqn:Hg; [right; by eexists|]. rewrite !orb_false_iff, !bool_decide_eq_false in Hg.
    destruct Hg as [[Hp Hi] Ht]. destruct (safe_metadata (JObj (default [] (ber_event_metadata req)))) eqn:Hs.
    + left. eexists. split_and!; try done. by exists key.
    + right. unfold _ensure_safe_metadata. rewrite Hs. by eexists.
  - right. destruct (_ || _) eqn:Hg; [by eexists|].
    destruct (safe_metadata (JObj (default [] (ber_event_metadata req)))) eqn:Hs; unfold _ensure_safe_metadata; rewrite Hs.
    + rewrite Hkey. by eexists.
    + by eexists.
Qed.

Lemma recorded_reads ev sha : steps eq (recorded ev sha).
Proof. unfold recorded. steps_walk. Qed.

(** A request whose event is recorded changes nothing. *)
Lemma converge_known req s : request_events req (ses_db s) ≠ [] → (converge_billing_event req s).2 = s.
Proof.
  intros Hev. destruct (converge_refused req s) as [[sha Hacc]|[e ->]]; [|done].
  rewrite (converge_accepted req sha s Hacc). unfold converge_tail. erewrite bind_ok; [|reflexivity]. cbv beta.
  destruct (request_events req (ses_db s)) as [|ev [|ev' l]]; [done| |done].
  erewrite bind_ok; [|reflexivity]. symmetry. apply recorded_reads.
Qed.

(** ... and is a duplicate when the fingerprint is the recorded one. *)
Lemma converge_again req sha ev x s :
  accepted req sha → request_events req (ses_db s) = [ev] → bev_payload_sha256 ev = sha →
  match bev_subscription_id ev with Some i => get_row i (subscriptions (ses_db s)) | None => None end = Some x →
  converge_billing_event req s = (Ok (MkBillingConvergenceResult ev x true), s).
Proof.
  intros Hacc Hev Hsha Hx. rewrite (converge_accepted req sha s Hacc). unfold converge_tail.
  erewrite bind_ok; [|reflexivity]. cbv beta. rewrite Hev. erewrite bind_ok; [|reflexivity].
  unfold recorded. rewrite bool_decide_eq_true_2 by done. cbn [negb]. erewrite bind_ok; [|reflexivity].
  erewrite bind_ok; [|reflexivity]. cbv beta. rewrite Hx. reflexivity.
Qed.

(** What the rest of a convergence leaves alone. *)
Definition keeps_catalog (s s' : Session) : Prop :=
  plans (ses_db s') = plans (ses_db s) ∧ plan_prices (ses_db s') = plan_prices (ses_db s)
  ∧ billing_events (ses_db s') = billing_events (ses_db s).

Global Instance keeps_catalog_preorder : PreOrder keeps_catalog.
Proof. split; unfold keeps_catalog; [done|]. intros x y z (-> & -> & ->) (-> & -> & ->). done. Qed.

Lemma catalog_write f :
  (∀ d, plans (f d) = plans d ∧ plan_prices (f d) = plan_prices d ∧ billing_events (f d) = billing_events d) →
  steps keeps_catalog (write f).
Proof. intros Hf s. apply Hf. Qed.

Lemma catalog_reads {A} (m : M A) : steps eq m → steps keeps_catalog m.
Proof. intros Hm s. rewrite <- (Hm s). reflexivity. Qed.

Lemma catalog_update_sub i f : steps keeps_catalog (update_subscription i f).
Proof. unfold update_subscription. apply steps_bind; [typeclasses eauto|steps_walk|intros n]. by apply catalog_write. Qed.

Lemma catalog_upsert req : steps keeps_catalog (upsert_subscription req).
Proof.
  unfold upsert_subscription, get_tenant_subscription, get_plan_by_key, _ensure_safe_metadata. cbv zeta.
  pose proof catalog_update_sub.
  assert (∀ d, steps keeps_catalog (validate_plan_entitlements d)) by (intros; apply catalog_reads, validate_steps).
  assert (∀ p o, steps keeps_catalog (validate_subscription_overrides p o)) by (intros; unfold validate_subscription_overrides; auto).
  assert (∀ x, steps keeps_catalog (check_subscription x)) by (intros; apply catalog_reads, check_subscription_reads).
  assert (steps keeps_catalog uuid4) by (by intros s).
  steps_walk. all: by apply catalog_write.
Qed.

Lemma update_get_row i f x n d :
  get_row i (subscriptions d) = Some x → (∀ y, sub_id (f y) = sub_id y) →
  get_row i (subscriptions (d <| subscriptions ::= update_row i (λ y, touched n y (f y)) |>)) = Some (touched n x (f x)).
Proof.
  intros Hx Hf. cbn. rewrite get_update_same, Hx; [done|]. intros y.
  change (sub_id (touched n y (f y)) = sub_id y). destruct (touched_row n y (f y)) as [-> _]. apply Hf.
Qed.

Lemma get_row_own x d : NoDup (sub_id <$> subscriptions d) → x ∈ subscriptions d → get_row (sub_id x) (subscriptions d) = Some x.
Proof. apply get_row_member. Qed.

Lemma upsert_row req s x s' :
  NoDup (sub_id <$> subscriptions (ses_db s)) → upsert_subscription req s = (Ok x, s') →
  sub_tenant_id x = sr_tenant_id req ∧ sub_status x = sr_status req
  ∧ sub_entitlement_overrides x = default [] (sr_entitlement_overrides req)
  ∧ get_row (sub_id x) (subscriptions (ses_db s')) = Some x.
Proof.
  intros Hnd. unfold upsert_subscription. cbv zeta. intros Hr. bind_query Hr. bind_some Hr tenant Ht. bind_guard Hr Hdel.
  apply bind_inv_ok in Hr as (o & s1 & Hsub & Hr). apply sub_of_tenant in Hsub as [-> Hsub].
  apply bind_inv_ok in Hr as (plan & s1 & Hplan & Hr).
  apply (steps_run eq) in Hplan as <-; [|unfold get_plan_by_key; steps_walk]. bind_guard Hr Ha.
  apply bind_inv_ok in Hr as ([] & s1 & Hval & Hr). apply (steps_run eq) in Hval as <-; [|apply validate_steps].
  unfold _ensure_safe_metadata in Hr. bind_guard Hr Hsafe. bind_guard Hr Hg1. bind_guard Hr Hg2.
  destruct o as [y|].
  - destruct Hsub as (_ & Hy & Hten). apply bind_inv_ok in Hr as ([] & s1 & Hchk & Hr).
    apply (steps_run eq) in Hchk as <-; [|apply check_subscription_reads].
    apply bind_inv_ok in Hr as ([] & s1 & Hu & Hr). unfold update_subscription in Hu.
    apply bind_inv_ok in Hu as (n & s2 & [[= ->] ->]%gets_inv & Hu). apply write_inv in Hu as [_ Hs1].
    apply query_inv in Hr as [[= ->] ->].
    assert (get_row (sub_id y) (subscriptions (ses_db s1))
            = Some (touched (env_clock (ses_draws s)) y (assign_subscription plan req y))) as Hg
      by (rewrite Hs1; apply update_get_row; [by apply get_row_own|done]).
    rewrite Hg. unfold default, from_option, id.
    destruct (touched_row (env_clock (ses_draws s)) y (assign_subscription plan req y))
      as (Hid & -> & _ & _ & -> & ->). rewrite Hid. by split_and!.
  - apply bind_inv_ok in Hr as (n & s2 & [[= ->] ->]%gets_inv & Hr).
    apply bind_inv_ok in Hr as (i & s2 & Hi & Hr). cbn in Hi. injection Hi as <- <-. cbv zeta in Hr.
    bind_query Hr. bind_guard Hr Hfree. apply bind_inv_ok in Hr as ([] & s3 & Hchk & Hr).
    apply (steps_run eq) in Hchk as <-; [|apply check_subscription_reads]. bind_write Hr.
    apply ret_inv in Hr as [[= ->] ->]. split_and!; try done. cbn.
    rewrite get_row_app_new. destruct (get_row _ (subscriptions (ses_db s))) as [z|] eqn:Hz.
    + exfalso. apply get_row_Some in Hz as [Hz Hzi]. apply not_true_iff_false in Hfree.
      apply Hfree, existsb_exists. exists z. split; [by apply list_elem_of_In|by apply bool_decide_eq_true].
    + cbn. by rewrite bool_decide_eq_true_2.
Qed.

Lemma apply_event_inv ev req s r s' :
  apply_event ev req s = (Ok r, s') →
  ∃ x s1 n, upsert_subscription req s = (Ok x, s1) ∧ conv_subscription r = x ∧ conv_duplicate r = false
    ∧ s' = s1 <| ses_db ::= (λ d, d <| billing_events ::= update_row (bev_id ev) (λ e, e <| bev_status := BillApplied |>
             <| bev_subscription_id := Some (sub_id x) |> <| bev_processed_at := Some n |> <| bev_last_error := None |>) |>) |>.
Proof.
  unfold apply_event. cbv zeta. intros (x & s1 & Hx & Hr)%bind_inv_ok.
  apply catch_inv_ok in Hx as [Hx%begin_nested_ok|(e & s2 & _ & Hx)].
  2: { exfalso. apply bind_inv_ok in Hx as (n & s3 & [_ ->]%gets_inv & Hx).
       apply bind_inv_ok in Hx as (u & s3 & _ & Hx). by apply throw_inv in Hx as [? _]. }
  apply bind_inv_ok in Hr as (n & s2 & [[= ->] ->]%gets_inv & Hr). unfold update_event in Hr. bind_write Hr.
  bind_query Hr. apply ret_inv in Hr as [[= ->] ->]. by exists x, s1, (env_clock (ses_draws s1)).
Qed.

Lemma insert_event_ok ev s s' :
  insert_event ev s = (Ok tt, s') →
  s' = s <| ses_db ::= (λ d, d <| billing_events ::= (λ t, t ++ [ev]) |>) |>
  ∧ ∀ e, e ∈ billing_events (ses_db s) → bev_id e ≠ bev_id ev.
Proof.
  unfold insert_event. intros Hr. do 4 apply bind_inv_ok in Hr as (? & ? & (_ & -> & _)%to_varchar_ok & Hr).
  bind_query Hr. bind_query Hr. bind_guard Hr Hclash. apply write_inv in Hr as [_ ->]. split; [done|].
  intros e He Heq. apply orb_false_iff in Hclash as [Hclash _]. apply not_true_iff_false in Hclash.
  apply Hclash, existsb_exists. exists e. split; [by apply list_elem_of_In|]. by rewrite bool_decide_eq_true_2.
Qed.

(** What a convergence that was not a duplicate has done. *)
Record converged (req : BillingEventRequest) (sha : string) (s : Session) (r : BillingConvergenceResult) (s1 : Session)
    : Prop := {
  cv_new : request_events req (ses_db s) = [];
  cv_event : ∃ ev, request_events req (ses_db s1) = [ev] ∧ bev_payload_sha256 ev = sha ∧ bev_status ev = BillApplied
               ∧ bev_subscription_id ev = Some (sub_id (conv_subscription r));
  cv_catalog : plans (ses_db s1) = plans (ses_db s) ∧ plan_prices (ses_db s1) = plan_prices (ses_db s);
  cv_row : get_row (sub_id (conv_subscription r)) (subscriptions (ses_db s1)) = Some (conv_subscription r);
  cv_says : sub_tenant_id (conv_subscription r) = sr_tenant_id (ber_subscription req)
            ∧ sub_status (conv_subscription r) = sr_status (ber_subscription req)
            ∧ sub_entitlement_overrides (conv_subscription r)
              = default [] (sr_entitlement_overrides (ber_subscription req));
}.

Lemma converge_applied `{!Serial HE} req sha s r s1 :
  NoDup (sub_id <$> subscriptions (ses_db s)) → accepted req sha →
  converge_billing_event req s = (Ok r, s1) → conv_duplicate r = false → converged req sha s r s1.
Proof.
  intros Hnd Hacc Hr Hdup. rewrite (converge_accepted req sha s Hacc) in Hr. unfold converge_tail in Hr.
  bind_query Hr. apply bind_inv_ok in Hr as (o & s2 & Hone & Hr). destruct o as [ev|].
  { apply one_or_none_some in Hone as [_ ->]. exfalso. unfold recorded in Hr. bind_guard Hr Hsha. bind_query Hr.
    bind_some Hr x Hx. apply ret_inv in Hr as [[= ->] _]. done. }
  apply one_or_none_none in Hone as [Hnone ->].
  apply bind_inv_ok in Hr as (i & s2 & Hi & Hr). cbn in Hi. injection Hi as <- <-. cbv zeta in Hr.
  bind_write Hr. apply bind_inv_ok in Hr as (ins & s3 & Hins & Hr).
  apply (except_inserted _ (λ _, true)) in Hins as [([] & -> & Hins)|(s4 & Hdb & [[= ->] ->]%ret_inv)].
  2: { exfalso. bind_query Hr. apply bind_inv_ok in Hr as (o & s5 & _ & Hr). bind_some Hr c Hc.
       unfold recorded in Hr. bind_guard Hr Hsha. bind_query Hr. bind_some Hr x Hx. by apply ret_inv in Hr as [[= ->] _]. }
  apply insert_event_ok in Hins as [-> Hfresh]. apply apply_event_inv in Hr as (x & s4 & n & Hup & Hx & _ & ->).
  apply upsert_row in Hup as Hrow; [|cbn; by rewrite serial_race]. destruct Hrow as (Ht & Hst & Hov & Hget).
  apply (steps_run keeps_catalog) in Hup as (Hpl & Hpr & Hev); [|apply catalog_upsert].
  cbn in Hpl, Hpr, Hev. rewrite serial_race in Hpl, Hpr, Hev.
  split; [done| |done|rewrite Hx; exact Hget|rewrite Hx; split_and!; [exact Ht|exact Hst|exact Hov]].
  eexists. split.
  - unfold request_events, events_by_key in *. cbn. rewrite Hev. unfold update_row.
    rewrite select_update_where by done. rewrite select_app, Hnone. cbn.
    rewrite !bool_decide_eq_true_2 by done. cbn. by rewrite bool_decide_eq_true_2.
  - rewrite Hx. by split_and!.
Qed.

Lemma converge_ok_accepted req s r s' : converge_billing_event req s = (Ok r, s') → ∃ sha, accepted req sha.
Proof. intros Hr. destruct (converge_refused req s) as [?|[e He]]; [done|]. rewrite He in Hr. done. Qed.

End events.


(** ** Following the provider *)

Section following.
  Context `{HE : Env} `{Settings} `{Wire}.

(** The price and the plan a state of the provider refers to. *)
Definition catalog_entry (st : ProviderSubscriptionState) (price : SaaSPlanPrice) (plan : SaaSPlan) (d : DB) : Prop :=
  select (λ p, (price_provider p == pss_provider st) && (price_external_price_id p == pss_external_price_id st))
    (plan_prices d) = [price]
  ∧ get_row (price_plan_id price) (plans d) = Some plan.

Lemma provider_state_inv st ev ty src s r s' :
  converge_provider_subscription_state st ev ty src s = (Ok r, s') →
  ∃ price plan existing s1, catalog_entry st price plan (ses_db s)
    ∧ converge_billing_event (provider_event st ev ty src price plan existing) s = (Ok r, s1)
    ∧ mark_synced (sub_id (conv_subscription r)) src s1 = (Ok tt, s').
Proof.
  unfold converge_provider_subscription_state. intros Hr. bind_query Hr.
  apply bind_inv_ok in Hr as (o & s1 & Hone & Hr). bind_some Hr price Hp. subst o. apply one_or_none_some in Hone as [Hrows ->].
  bind_query Hr. bind_some Hr plan Hplan. apply bind_inv_ok in Hr as (existing & s1 & Hex & Hr).
  apply sub_of_tenant in Hex as [-> _]. apply bind_inv_ok in Hr as (res & s1 & Hc & Hr).
  apply bind_inv_ok in Hr as ([] & s2 & Hm & Hr). apply ret_inv in Hr as [[= ->] ->].
  by exists price, plan, existing, s1.
Qed.

Lemma mark_synced_row i src s x u s' :
  mark_synced i src s = (Ok u, s') → get_row i (subscriptions (ses_db s)) = Some x →
  ∃ x', get_row i (subscriptions (ses_db s')) = Some x' ∧ sub_tenant_id x' = sub_tenant_id x
    ∧ sub_status x' = sub_status x ∧ sub_entitlement_overrides x' = sub_entitlement_overrides x.
Proof.
  unfold mark_synced, update_subscription. intros Hr Hx.
  do 2 apply bind_inv_ok in Hr as (? & ? & [[= ->] ->]%gets_inv & Hr). apply write_inv in Hr as [_ ->].
  eexists. split; [apply update_get_row; [done|by intros y]|].
  match goal with |- context [touched ?n ?a ?b] => destruct (touched_row n a b) as (_ & -> & _ & _ & -> & ->) end.
  done.
Qed.

Lemma tenant_lookup t s :
  NoDup (sub_tenant_id <$> subscriptions (ses_db s)) → ∃ o, get_tenant_subscription t s = (Ok o, s).
Proof.
  intros Hnd. apply (NoDup_fmap_select sub_tenant_id (λ x, sub_tenant_id x == t)) in Hnd.
  unfold get_tenant_subscription, query, gets, mbind, prog_bind, one_or_none. fold (subscriptions_of t (ses_db s)) in Hnd.
  destruct (subscriptions_of t (ses_db s)) as [|y [|z l]] eqn:Hl; [by eexists..|]. exfalso.
  assert (∀ w, w ∈ subscriptions_of t (ses_db s) → sub_tenant_id w = t) as Ht
    by (intros w [_ Hw%bool_decide_eq_true]%elem_of_select; done).
  rewrite Hl in Ht. apply NoDup_cons in Hnd as [Hn _]. apply Hn. cbn.
  rewrite (Ht y) by (apply elem_of_cons; by left).
  rewrite <- (Ht z) by (apply elem_of_cons; right; apply elem_of_cons; by left). apply elem_of_cons. by left.
Qed.

Lemma mark_synced_returns i src s : ∃ s', mark_synced i src s = (Ok tt, s') ∧ keeps_catalog s s'.
Proof.
  assert (steps keeps_catalog (mark_synced i src)) as Hk.
  { unfold mark_synced. apply steps_bind; [typeclasses eauto|steps_walk|intros n]. apply catalog_update_sub. }
  specialize (Hk s). eexists. by split.
Qed.

(** Only a payment that is overdue looks at the subscription. *)
Lemma provider_event_same st ev ty src price plan e1 e2 :
  pss_status st ≠ SubPastDue → provider_event st ev ty src price plan e1 = provider_event st ev ty src price plan e2.
Proof.
  intros Hpd. unfold provider_event. do 2 f_equal. unfold grace_for. by rewrite bool_decide_eq_false_2.
Qed.

End following.

(** What the poll recorded of a state. *)
Definition sync_events `{Env} (st : ProviderSubscriptionState) (d : DB) : list BillingEvent :=
  events_by_key (lower (strip (pss_provider st))) (strip (_reconciliation_event_id st)) d.

(** Billing syncs drop the operator's overrides.  Every state of the
    billing provider that is applied, from a webhook or from the poll, leaves
    the tenant's subscription without entitlement overrides, whatever an
    operator had granted. *)
Theorem sync_drops_overrides `{HE : Env} `{Settings} st ev ty src s r s' :
  Serial HE → NoDup (sub_id <$> subscriptions (ses_db s)) →
  converge_provider_subscription_state st ev ty src s = (Ok r, s') → conv_duplicate r = false →
  ∃ x, get_row (sub_id (conv_subscription r)) (subscriptions (ses_db s')) = Some x
    ∧ sub_tenant_id x = pss_tenant_id st ∧ sub_status x = pss_status st ∧ sub_entitlement_overrides x = [].
Proof.
  intros HS Hnd Hr Hdup. apply provider_state_inv in Hr as (price & plan & existing & s1 & _ & Hc & Hm).
  destruct (converge_ok_accepted _ _ _ _ Hc) as [sha Hacc].
  destruct (converge_applied _ sha s r s1 Hnd Hacc Hc Hdup) as [_ _ _ Hrow (Ht & Hst & Hov)].
  destruct (mark_synced_row _ _ _ _ _ _ Hm Hrow) as (x & Hx & Hxt & Hxs & Hxo). exists x.
  split; [done|]. rewrite Hxt, Hxs, Hxo. done.
Qed.

(** A state the provider returns to is not followed.  The poll names a
    state by its content, so when the provider reports a state that it reported
    before (active again after a payment was overdue, say), the event is taken
    for a duplicate: the subscription keeps the status that other events gave it
    meanwhile, and is recorded as synchronised. *)
Theorem returning_state_ignored `{HE : Env} `{Settings} st src s r s1 s2 x :
  Serial HE → NoDup (sub_id <$> subscriptions (ses_db s)) → NoDup (sub_tenant_id <$> subscriptions (ses_db s2)) →
  pss_status st ≠ SubPastDue →
  converge_provider_subscription_state st None None src s = (Ok r, s1) → conv_duplicate r = false →
  plans (ses_db s2) = plans (ses_db s1) → plan_prices (ses_db s2) = plan_prices (ses_db s1) →
  sync_events st (ses_db s2) = sync_events st (ses_db s1) →
  get_row (sub_id (conv_subscription r)) (subscriptions (ses_db s2)) = Some x →
  ∃ r' s3 x', converge_provider_subscription_state st None None src s2 = (Ok r', s3) ∧ conv_duplicate r' = true
    ∧ get_row (sub_id x) (subscriptions (ses_db s3)) = Some x' ∧ sub_status x' = sub_status x.
Proof.
  intros HS Hnd Hnt Hpd Hr Hdup Hpl Hpr Hev Hx.
  apply provider_state_inv in Hr as (price & plan & existing & s0 & [Hprice Hplan] & Hc & Hm).
  destruct (converge_ok_accepted _ _ _ _ Hc) as [sha Hacc].
  destruct (converge_applied _ sha s r s0 Hnd Hacc Hc Hdup) as [_ (ev & He & Hsha & _ & Hsub) [Hcp Hcr] _ _].
  destruct (mark_synced_returns (sub_id (conv_subscription r)) src s0) as (s1' & Hm' & Hk1 & Hk2 & Hk3).
  rewrite Hm in Hm'. injection Hm' as <-. destruct (tenant_lookup (pss_tenant_id st) s2 Hnt) as [o Ho].
  assert (request_events (provider_event st None None src price plan existing) (ses_db s1) = [ev]) as He1
    by (unfold request_events, events_by_key in *; by rewrite Hk3).
  pose proof (converge_again _ sha ev x s2 Hacc) as Hagain.
  specialize (Hagain (eq_trans Hev He1) Hsha). rewrite Hsub in Hagain. specialize (Hagain Hx).
  apply get_row_Some in Hx as Hxi. destruct Hxi as [_ Hxi]. change (sub_id x = sub_id (conv_subscription r)) in Hxi.
  destruct (mark_synced_returns (sub_id x) src s2) as (s3 & Hm3 & _).
  destruct (mark_synced_row (sub_id x) src s2 x tt s3 Hm3) as (x' & Hx' & _ & Hst & _); [by rewrite Hxi|].
  exists (MkBillingConvergenceResult ev x true), s3, x'. split_and!; try done.
  unfold converge_provider_subscription_state. erewrite bind_ok; [|reflexivity]. cbv beta.
  rewrite Hpr, Hk2, Hcr, Hprice. erewrite bind_ok; [|reflexivity]. erewrite bind_ok; [|reflexivity].
  erewrite bind_ok; [|reflexivity]. cbv beta. rewrite Hpl, Hk1, Hcp, Hplan. erewrite bind_ok; [|reflexivity].
  rewrite (bind_ok _ _ _ _ _ Ho), (provider_event_same _ _ _ _ _ _ o existing Hpd), (bind_ok _ _ _ _ _ Hagain).
  by rewrite (bind_ok _ _ _ _ _ Hm3).
Qed.

(** ** A failure that sticks *)

Section failed.
  Context `{HE : Env} `{!Serial HE} `{Settings} `{Wire}.

Lemma apply_event_raises ev req s e s' :
  apply_event ev req s = (Raise e, s') →
  ∃ n, billing_events (ses_db s') = update_row (bev_id ev) (λ x, x <| bev_status := BillFailed |>
         <| bev_last_error := Some (prefix_of 1000 (env_exn_str e)) |> <| bev_processed_at := Some n |>)
         (billing_events (ses_db s)).
Proof.
  unfold apply_event. cbv zeta. intros [Hr|(x & s1 & _ & Hr)]%bind_inv_raise.
  2: { exfalso. by vm_compute in Hr. }
  unfold catch in Hr. destruct (begin_nested (upsert_subscription req) s) as [[x|e'] s1] eqn:Hn; [done|].
  apply begin_nested_raise in Hn. injection Hr as <- <-. eexists. cbn. by rewrite Hn.
Qed.

Lemma insert_event_raises ev s e s' : insert_event ev s = (Raise e, s') → s' = s.
Proof.
  unfold insert_event. intros Hr.
  do 4 (apply bind_inv_raise in Hr as [Hr|(? & ? & (_ & -> & _)%to_varchar_ok & Hr)];
        [unfold to_varchar in Hr; case_match; [by injection Hr|done]|]).
  apply bind_inv_raise in Hr as [Hr|(c & s1 & [_ ->]%query_inv & Hr)]; [done|].
  apply bind_inv_raise in Hr as [Hr|(o & s1 & [_ ->]%query_inv & Hr)]; [done|].
  apply bind_inv_raise in Hr as [Hr|(u & s1 & _ & Hr)]; [by apply raise_if_raise in Hr as (_ & _ & ->)|done].
Qed.

(** What is left of an event that could not be applied. *)
Lemma converge_fails req s e s1 :
  request_events req (ses_db s) = [] → converge_billing_event req s = (Raise e, s1) →
  request_events req (ses_db s1) = []
  ∨ ∃ sha ev, accepted req sha ∧ request_events req (ses_db s1) = [ev] ∧ bev_payload_sha256 ev = sha
      ∧ bev_status ev = BillFailed ∧ bev_subscription_id ev = None.
Proof.
  intros Hnone Hr. destruct (converge_refused req s) as [[sha Hacc]|[e' He']].
  2: { rewrite He' in Hr. injection Hr as <- <-. by left. }
  rewrite (converge_accepted req sha s Hacc) in Hr. unfold converge_tail in Hr.
  erewrite bind_ok in Hr; [|reflexivity]. cbv beta in Hr. rewrite Hnone in Hr. erewrite bind_ok in Hr; [|reflexivity].
  cbv beta iota in Hr. erewrite bind_ok in Hr; [|reflexivity]. cbv beta zeta in Hr. erewrite bind_ok in Hr; [|reflexivity].
  set (ev := MkBillingEvent _ _ _ _ _ _ _ _ _ _ _ _) in Hr.
  match type of Hr with (_ ≫= _) ?st = _ => set (s0 := st) in Hr end.
  assert (ses_db s0 = ses_db s) as Hs0 by (cbn; apply serial_race).
  apply bind_inv_raise in Hr as [Hr|(ins & s2 & Hins & Hr)].
  - left. assert (ses_db s1 = ses_db s0) as ->; [|by rewrite Hs0]. unfold except_integrity, catch in Hr.
    destruct ((begin_nested (insert_event ev);; mret true) s0) as [[b|e1] s2] eqn:Hn; [done|].
    apply bind_inv_raise in Hn as [Hn%begin_nested_raise|(u & s3 & _ & Hn)]; [|done].
    destruct e1; injection Hr as _ <-; done.
  - apply (except_inserted _ (λ _, true)) in Hins as [([] & -> & Hins)|(s4 & Hdb & [[= ->] ->]%ret_inv)].
    + right. exists sha. apply insert_event_ok in Hins as [Hs2 Hfresh].
      assert (billing_events (ses_db s2) = billing_events (ses_db s) ++ [ev]) as Hb by (rewrite Hs2, <- Hs0; done).
      apply apply_event_raises in Hr as (n & Hdb). eexists. split; [done|]. split.
      * unfold request_events, events_by_key in *. rewrite Hdb, Hb. unfold update_row.
        rewrite select_update_where by done. rewrite select_app, Hnone. cbn.
        rewrite !bool_decide_eq_true_2 by done. cbn. by rewrite bool_decide_eq_true_2.
      * done.
    + left. assert (ses_db s1 = ses_db s0) as ->; [|by rewrite Hs0]. rewrite <- Hdb. symmetry. f_equal.
      eapply (steps_run eq); [|exact Hr]. pose proof recorded_reads. steps_walk.
Qed.

End failed.

(** A billing event that failed is never applied.  When applying an event
    fails and the failure is recorded (the poll commits it), every later
    convergence of the same request raises [PlatformConflictError] and changes
    nothing, also when what made it fail has been corrected. *)
Theorem failed_event_sticks `{HE : Env} req s e s1 s2 :
  Serial HE → request_events req (ses_db s) = [] → converge_billing_event req s = (Raise e, s1) →
  request_events req (ses_db s1) ≠ [] → request_events req (ses_db s2) = request_events req (ses_db s1) →
  converge_billing_event req s2 = (Raise PlatformConflictError, s2).
Proof.
  intros HS Hnone Hr Hsome Hsame. destruct (converge_fails req s e s1 Hnone Hr) as [?|(sha & ev & Hacc & Hev & Hsha & _ & Hsub)]; [done|].
  rewrite (converge_accepted req sha s2 Hacc). unfold converge_tail. erewrite bind_ok; [|reflexivity]. cbv beta.
  rewrite Hsame, Hev. erewrite bind_ok; [|reflexivity]. cbv beta iota. unfold recorded.
  rewrite bool_decide_eq_true_2 by done. cbn [negb]. erewrite bind_ok; [|reflexivity].
  erewrite bind_ok; [|reflexivity]. cbv beta. by rewrite Hsub.
Qed.

(** ** At work *)

(** A digest that fits its column. *)
Definition billing_env : Env := {|
  env_clock := @env_clock demo_env;
  env_uuid4 := @env_uuid4 demo_env;
  env_race := @env_race demo_env;
  env_sha256 s := "length-" +:+ pretty (String.length s);
  env_decimal_str := @env_decimal_str demo_env;
  env_exn_str := @env_exn_str demo_env;
  env_json_str := @env_json_str demo_env;
  env_isoformat := @env_isoformat demo_env;
|}.

Lemma billing_env_serial : Serial billing_env.
Proof. intros d. reflexivity. Qed.

(** The platform of [platform_demo] with a price for its plan. *)
Definition priced_demo : Session :=
  @run_platform billing_env demo_settings demo_wire demo_operator
    [PeCreatePrice (MkPriceRequest (mk_uuid "uuid-0") "stripe" "price_1" "usd" 900 MONTH 1 true None)] platform_demo.

Lemma priced_demo_sound : sound priced_demo.
Proof.
  apply (@run_platform_keeps billing_env billing_env_serial demo_settings demo_wire).
  apply (@run_platform_keeps demo_env demo_env_serial demo_settings demo_wire). split; apply platform_db_ok.
Qed.

Lemma feature_gate_witness :
  is_ok (@require_feature_entitlement billing_env demo_settings (mk_uuid "t") "custom_branding" priced_demo).1 = true ∧
  ((∃ snapshot, @require_feature_entitlement billing_env demo_settings (mk_uuid "t") "custom_branding" priced_demo
                = (Ok snapshot, priced_demo)) ∧ @entitled billing_env (mk_uuid "t") "custom_branding" priced_demo
   ∨ (@require_feature_entitlement billing_env demo_settings (mk_uuid "t") "custom_branding" priced_demo
        = (Raise CommercialAccessDenied, priced_demo)
      ∨ @require_feature_entitlement billing_env demo_settings (mk_uuid "t") "custom_branding" priced_demo
        = (Raise FeatureEntitlementDenied, priced_demo))
     ∧ ¬ @entitled billing_env (mk_uuid "t") "custom_branding" priced_demo).
Proof.
  split; [vm_compute; reflexivity|].
  refine (@feature_gate billing_env demo_settings (mk_uuid "t") "custom_branding" priced_demo _).
  exact (proj1 priced_demo_sound).
Defined.

Lemma forged_webhook_refused_witness :
  ∃ e s', in_request (@stripe_billing_webhook billing_env demo_settings demo_wire "{}" (Some "t=0,v1=forged") None) priced_demo
          = (Raise e, s')
    ∧ ses_db s' = ses_committed priced_demo ∧ ses_committed s' = ses_committed priced_demo
    ∧ ses_sent s' = ses_sent priced_demo.
Proof.
  refine (@forged_webhook_refused billing_env demo_settings demo_wire "{}" (Some "t=0,v1=forged") None priced_demo _).
  intros (t & sigs & Hp & _ & Hin). vm_compute in Hp. injection Hp as <- <-.
  apply list_elem_of_singleton in Hin. vm_compute in Hin. discriminate.
Defined.

(** The provider's view of the tenant, as the poll sees it. *)
Definition provider_state (status : SubscriptionStatus) : ProviderSubscriptionState :=
  MkProviderSubscriptionState "stripe" "subscription.reconciled" None (mk_uuid "t") "price_1" status (Some "cus_1")
    "sub_1" None None None false 0 "rev" [("source", JStr "stripe")].

Definition synced (st : ProviderSubscriptionState) (event : option string) (s : Session)
    : outcome exn BillingConvergenceResult * Session :=
  @converge_provider_subscription_state billing_env demo_settings st event None "PULL_RECONCILIATION" s.

Definition first_sync := synced (provider_state SubActive) None priced_demo.
Definition overdue := synced (provider_state SubPastDue) (Some "evt_9") first_sync.2.

Definition result_of (r : outcome exn BillingConvergenceResult) : BillingConvergenceResult :=
  match r with
  | Ok r => r
  | Raise _ => MkBillingConvergenceResult
                 (MkBillingEvent (mk_uuid "") "" "" "" "" BillFailed None None 0 None [] None)
                 (MkTenantSubscription (mk_uuid "") (mk_uuid "") (mk_uuid "") SubActive None None None None None None
                    None None None None None false [] [] 0) true
  end.

Definition row_of (s : Session) : TenantSubscription :=
  default (conv_subscription (result_of (Raise ValueError))) (head (subscriptions (ses_db s))).

Lemma sync_drops_overrides_witness :
  sub_entitlement_overrides (row_of priced_demo) = [("max_enabled_bots", JInt 4)] ∧
  ∃ x, get_row (sub_id (conv_subscription (result_of first_sync.1))) (subscriptions (ses_db first_sync.2)) = Some x
    ∧ sub_tenant_id x = pss_tenant_id (provider_state SubActive) ∧ sub_status x = pss_status (provider_state SubActive)
    ∧ sub_entitlement_overrides x = [].
Proof.
  split; [vm_compute; reflexivity|].
  refine (@sync_drops_overrides billing_env demo_settings (provider_state SubActive) None None
            "PULL_RECONCILIATION" priced_demo (result_of first_sync.1) first_sync.2 billing_env_serial _ _ _).
  - exact (po_sub_ids _ (proj1 priced_demo_sound)).
  - vm_compute. reflexivity.
  - vm_compute. reflexivity.
Defined.

Lemma returning_state_ignored_witness :
  sub_status (row_of overdue.2) = SubPastDue ∧
  ∃ r' s3 x', synced (provider_state SubActive) None overdue.2 = (Ok r', s3) ∧ conv_duplicate r' = true
    ∧ get_row (sub_id (row_of overdue.2)) (subscriptions (ses_db s3)) = Some x'
    ∧ sub_status x' = sub_status (row_of overdue.2).
Proof.
  split; [vm_compute; reflexivity|].
  refine (@returning_state_ignored billing_env demo_settings (provider_state SubActive) "PULL_RECONCILIATION" priced_demo
    (result_of first_sync.1) first_sync.2 overdue.2 (row_of overdue.2) billing_env_serial _ _ _ _ _ _ _ _ _).
  - exact (po_sub_ids _ (proj1 priced_demo_sound)).
  - apply (bool_decide_unpack _). vm_compute. reflexivity.
  - discriminate.
  - vm_compute. reflexivity.
  - vm_compute. reflexivity.
  - vm_compute. reflexivity.
  - vm_compute. reflexivity.
  - vm_compute. reflexivity.
  - vm_compute. reflexivity.
Defined.

Definition demo_event : BillingEventRequest :=
  MkBillingEventRequest "Stripe" "evt_1" "customer.subscription.updated"
    ((demo_subscription []) <| sr_status := SubPaused |>) None.

Definition event_run := @converge_billing_event billing_env demo_event priced_demo.


(** An event for a plan that does not exist yet, and the same event after the
    plan was created. *)
Definition early_event : BillingEventRequest :=
  MkBillingEventRequest "stripe" "evt_2" "customer.subscription.updated"
    ((demo_subscription []) <| sr_plan_key := "pro" |>) None.

Definition early_run := @converge_billing_event billing_env early_event priced_demo.
Definition corrected : Session :=
  @run_platform billing_env demo_settings demo_wire demo_operator
    [PeCreatePlan (MkPlanRequest "pro" "Pro" None true true (limits 9 9) [])]
    (early_run.2 <| ses_committed := ses_db early_run.2 |>).

Lemma failed_event_sticks_witness :
  early_run.1 = Raise PlatformNotFoundError ∧
  @converge_billing_event billing_env early_event corrected = (Raise PlatformConflictError, corrected).
Proof.
  split; [vm_compute; reflexivity|].
  refine (@failed_event_sticks billing_env early_event priced_demo PlatformNotFoundError early_run.2 corrected
            billing_env_serial _ _ _ _).
  - vm_compute. reflexivity.
  - vm_compute. reflexivity.
  - vm_compute. discriminate.
  - vm_compute. reflexivity.
Defined.
