(* ===== verification/Templates.v ===== *)
(** * Bot templates

    [packages/factory/templates.py]: the templates a tenant starts a bot from,
    and the configuration that is built from a template and a request.  Text is
    taken byte by byte, so a limit on the length of a text counts bytes. *)

From Stdlib Require Import ZArith Lia Ascii String.
From stdpp Require Import base tactics list option strings numbers pretty.
From S2P Require Import Prelude Tables Text Money Exceptions StateMachines Models Profiles.
From S2P Require Import Payments.

Local Open Scope Z_scope.

Record TemplateGuidance := MkTemplateGuidance {
  product_source : string;
  what_you_can_sell : string;
  delivery_experience : string;
  operational_complexity : string;
  setup_requirements : list string;
  example_business : string;
  limitations : string;
  supported_hosting : list string;
}.

Record BotTemplate := MkBotTemplate {
  tpl_key : string;
  tpl_version : Z;
  tpl_name : string;
  tpl_description : string;
  tpl_recommended_for : string;
  tpl_default_config : dict;
  tpl_business_type : BotBusinessType;
  tpl_provider_categories : list ProviderCategory;
  tpl_default_routing_strategy : ProviderRoutingStrategy;
  tpl_guidance : option TemplateGuidance;
}.

(** [tuple(ProviderCategory)] *)
Definition every_category : list ProviderCategory :=
  [CatNumber; CatAccount; CatGift; CatDigitalProduct; CatService; CatOther].

Definition strings_json (l : list string) : json := JList (map JStr l).

Definition _template (key name description recommended_for accent welcome tagline : string)
    (modules : option (list string)) (biz : BotBusinessType) (provider_categories : list ProviderCategory)
    (routing : ProviderRoutingStrategy) (guidance : option TemplateGuidance) : BotTemplate :=
  MkBotTemplate key 1 name description recommended_for
    [("currency", JStr "USD"); ("locale", JStr "en");
     ("branding", JObj
        [("welcome_text", JStr welcome); ("store_tagline", JStr tagline); ("store_description", JStr description);
         ("brand_accent", JStr accent); ("brand_logo_url", JStr ""); ("support_contact", JStr "");
         ("support_url", JStr ""); ("menu_text", JStr "Open Store"); ("store_button_text", JStr "🛍️ Open Store")]);
     ("enabled_modules", strings_json (match modules with
                                       | None | Some [] => ["catalog"; "orders"; "account"]
                                       | Some l => l
                                       end));
     ("_business", JObj
        [("business_type", JStr (business_type_value biz)); ("provider_ids", JList []);
         ("payment_method_ids", JList []); ("routing_strategy", JStr (routing_strategy_value routing));
         ("preferred_provider_id", JNull); ("default_pricing_tier_id", JNull);
         ("allow_flexible_auto_credit", JBool false)])]
    biz provider_categories routing guidance.

(** ** The templates *)

Definition general_commerce : BotTemplate :=
  _template "general-commerce" "General Commerce"
    "Balanced storefront for most digital catalogs and service businesses."
    "Default choice for the first production bot."
    "#7C6CFF"
    "Welcome to our store!"
    "Fast checkout. Secure delivery. Built for Telegram."
    None BizGeneral [] RoutePriority
    (Some (MkTemplateGuidance "stored"
       "Physical or digital items, manual orders, mixed catalogs, and standard merchandise."
       "Standard cart checkout, order confirmation, and customer status tracking."
       "Low"
       ["Upload product catalog and product images"; "Configure stock inventory and retail pricing"; "Enable at least one payment method"]
       "A boutique merchandise store or general goods merchant selling directly via Telegram."
       "Does not automate live 3rd-party supplier API fulfillment out of the box."
       ["managed"; "dedicated"; "source_license"])).

Definition digital_goods : BotTemplate :=
  _template "digital-goods" "Digital Goods"
    "Delivery-first layout for keys, subscriptions, gift cards, and downloadable goods."
    "Stores where fulfillment speed and order history matter most."
    "#2D8CFF"
    "Welcome! Your digital products are only a few taps away."
    "Instant digital delivery with a clear order trail."
    None BizGeneral [] RoutePriority
    (Some (MkTemplateGuidance "stored"
       "License keys, software downloads, digital files, pre-generated vouchers, and subscriptions."
       "Immediate digital artifact delivery in bot chat and order history screen with one-tap clipboard copy."
       "Low"
       ["Add digital product variants"; "Load digital stock or keys inventory"; "Enable payment gateway"]
       "A software license seller or digital asset merchant fulfilling downloadable items instantly."
       "Keys and digital artifacts must be stocked in advance unless connected to a supplier API."
       ["managed"; "dedicated"; "source_license"])).

Definition gift_cards : BotTemplate :=
  _template "gift-cards" "Gift Cards"
    "Simple catalog for prepaid cards, vouchers, and denomination-based products."
    "Gift-card and voucher storefronts with fast digital fulfillment."
    "#F59E0B"
    "Choose a gift card and we will deliver it securely."
    "Digital gift cards and vouchers with tracked delivery."
    None BizGeneral [] RoutePriority
    (Some (MkTemplateGuidance "stored"
       "Fixed-denomination gift cards, store credit vouchers, and digital coupons."
       "Fast digital code delivery with redemption instructions and one-tap copy button."
       "Low"
       ["Create card denominations (e.g. $10, $25, $50)"; "Pre-stock voucher codes in inventory"; "Configure customer payment method"]
       "A store credit or brand voucher distributor with managed manual stock."
       "Fixed denominations only; no live balance polling against third-party gift networks."
       ["managed"; "dedicated"; "source_license"])).

Definition gaming_store : BotTemplate :=
  _template "gaming-store" "Gaming Store"
    "High-energy storefront for game credits, top-ups, memberships, and codes."
    "Gaming communities and virtual goods catalogs."
    "#9B5CFF"
    "Game on. Choose what you need and we will handle the delivery."
    "Credits, codes, and gaming essentials delivered securely."
    None BizGeneral [] RoutePriority
    (Some (MkTemplateGuidance "hybrid"
       "Game keys, points top-ups, in-game currency, game accounts, and subscription passes."
       "High-energy storefront with instant key delivery or player ID top-up confirmation."
       "Medium"
       ["Categorize game titles and products"; "Stock game keys or connect gaming provider APIs"; "Configure crypto or wallet payments"]
       "A gaming community shop selling Steam/PlayStation codes, Riot Points, and gamer passes."
       "Player ID collection is required for assisted direct top-ups."
       ["managed"; "dedicated"; "source_license"])).

Definition services : BotTemplate :=
  _template "services" "Services"
    "Clean storefront for fixed-price services and assisted fulfillment."
    "Consulting, setup packages, digital services, and managed work."
    "#00A884"
    "Welcome. Choose the service that fits what you need."
    "Simple service ordering with transparent status tracking."
    None BizGeneral [] RoutePriority
    (Some (MkTemplateGuidance "stored"
       "Fixed-price consulting, technical setup, graphic design, translation, or assisted services."
       "Consultation booking, milestone tracking, and manual order status completion."
       "Low"
       ["Define service offerings and deliverables"; "Set turnaround timelines"; "Specify customer contact and intake channel"]
       "A freelance design or IT setup agency selling scoped service packages."
       "Fulfillment requires human operator action; not fully automated."
       ["managed"; "dedicated"; "source_license"])).

Definition reseller_hub : BotTemplate :=
  _template "reseller-hub" "Multi-API Reseller"
    "Provider-agnostic reseller storefront with routing, wallet funding, and margin controls."
    "Multi-supplier stores that aggregate APIs and choose providers dynamically."
    "#6D5EF7"
    "Welcome. Choose a product and we will route it through the best available supplier."
    "Multi-provider catalog, automated fulfillment, and transparent order tracking."
    None BizReseller every_category RouteAvailability
    (Some (MkTemplateGuidance "provider_api"
       "Multi-category digital catalog aggregating multiple suppliers with automated routing."
       "Real-time upstream supplier execution with automatic fallback and live fulfillment status."
       "High"
       ["Connect 2+ provider adapters"; "Fund upstream supplier deposits"; "Map supplier products to catalog"; "Set pricing markup and profit margin rules"]
       "A digital goods reseller aggregating wholesale APIs across several countries and suppliers."
       "Requires active monitoring of upstream supplier balances and API health."
       ["managed"; "dedicated"; "source_license"])).

Definition numbers_sms : BotTemplate :=
  _template "numbers-sms" "Numbers & SMS"
    "Number reservation and SMS activation storefront using canonical number-provider operations."
    "5sim-style number/SMS providers and similar activation services."
    "#00A8E8"
    "Choose a service and country to reserve a number securely."
    "Fast number reservations with tracked activation status."
    None BizNumberSms [CatNumber] RouteAvailability
    (Some (MkTemplateGuidance "provider_api"
       "Virtual phone numbers, SMS verification codes, and temporary activation lines."
       "Interactive number reservation timer, real-time incoming SMS polling, and one-tap cancellation/refund."
       "Medium"
       ["Connect number provider adapter (e.g. 5sim/SMS-Activate)"; "Fund supplier account balance"; "Configure country and service pricing tiers"]
       "A virtual number service allowing customers to activate WhatsApp, Telegram, or OpenAI accounts."
       "Depends on supplier carrier stock and carrier SMS reception rates."
       ["managed"; "dedicated"; "source_license"])).

Definition accounts_store : BotTemplate :=
  _template "accounts-store" "Accounts Store"
    "Storefront for account inventory supplied through one or more account providers."
    "Account reseller APIs with provider fallback and margin rules."
    "#EC4899"
    "Browse available accounts and receive tracked digital delivery."
    "Account inventory from trusted suppliers with resilient fulfillment."
    None BizAccount [CatAccount] RoutePriority
    (Some (MkTemplateGuidance "hybrid"
       "Verified digital accounts, social media profiles, gaming handles, and pre-configured accounts."
       "Instant credentials delivery (username:password:token) with security instructions and copy buttons."
       "Medium"
       ["Upload pre-made accounts or link account supplier API"; "Set replacement warranty and check rules"; "Configure customer onboarding instructions"]
       "An agency selling aged social accounts, verified developer profiles, or gaming accounts."
       "Requires clear warranty policy for account replacements if credentials expire."
       ["managed"; "dedicated"; "source_license"])).

Definition gift_reseller : BotTemplate :=
  _template "gift-reseller" "Gift Cards & Codes"
    "Gift-card, voucher, and code reseller storefront backed by multiple APIs."
    "Gift-code sellers such as game, prepaid, and voucher catalogs."
    "#F97316"
    "Choose your gift card or code and we will deliver it securely."
    "Gift cards and digital codes with supplier-aware pricing."
    None BizGiftCard [CatGift; CatDigitalProduct] RouteLowestCost
    (Some (MkTemplateGuidance "provider_api"
       "Automated wholesale gift card codes, prepaid cards, and game cards via supplier APIs."
       "Instant code retrieval from lowest-cost active supplier with zero manual inventory holding."
       "Medium"
       ["Connect gift provider APIs"; "Configure lowest-cost routing strategy"; "Set profit margins and tier discounts"]
       "An automated gift card reseller offering Apple, Google Play, and Amazon cards."
       "Wholesale suppliers may run out of stock during peak seasonal periods."
       ["managed"; "dedicated"; "source_license"])).

Definition digital_reseller : BotTemplate :=
  _template "digital-reseller" "Digital Products Reseller"
    "General digital-product reseller template for subscriptions, codes, services, and API inventory."
    "Swagger/OpenAPI-backed resellers and mixed digital product catalogs."
    "#10B981"
    "Browse our digital catalog and track every delivery from one place."
    "Digital inventory, multi-provider routing, and automated fulfillment."
    None BizDigitalProduct [CatDigitalProduct; CatGift; CatService] RoutePriority
    (Some (MkTemplateGuidance "provider_api"
       "Subscriptions, cloud accounts, software licenses, and digital services via OpenAPI/HTTP suppliers."
       "Automated order forwarding to supplier with tracked webhook or polling delivery."
       "Medium"
       ["Configure generic HTTP or built-in provider adapters"; "Map endpoints and response fields"; "Set pricing markup tier"]
       "A reseller connecting to custom supplier REST APIs to deliver VPN or SaaS subscriptions."
       "Custom HTTP providers must comply with SSRF and schema allowlists."
       ["managed"; "dedicated"; "source_license"])).

Definition hybrid_store : BotTemplate :=
  _template "hybrid-store" "Hybrid Store"
    "One bot for numbers, accounts, gifts, digital products, and services."
    "Tenants that want one storefront across several provider categories."
    "#8B5CF6"
    "Everything you need in one store. Choose a category to get started."
    "One storefront across multiple supplier and payment integrations."
    None BizHybrid every_category RouteAvailability
    (Some (MkTemplateGuidance "hybrid"
       "Full-spectrum digital catalog: numbers, accounts, gift cards, digital files, and services."
       "Unified store with category-specific fulfillment (SMS timer, key reveal, account credentials)."
       "High"
       ["Configure multiple provider categories"; "Load manual inventory for stored items"; "Establish routing policies per category"]
       "A full-scale digital mega-store catering to gaming, virtual numbers, and software in one bot."
       "Higher operational complexity to monitor multiple supplier balances simultaneously."
       ["managed"; "dedicated"; "source_license"])).

Definition _TEMPLATES : list BotTemplate :=
  [general_commerce; digital_goods; gift_cards; gaming_store; services; reseller_hub; numbers_sms; accounts_store; gift_reseller; digital_reseller; hybrid_store].

(** ** Looking a template up *)

(** [re.fullmatch("[a-z][a-z0-9-]{1,49}", s)] *)
Definition is_template_key (s : string) : bool :=
  match chars s with
  | c :: rest => is_lower c && (1 <=? length rest)%nat && (length rest <=? 49)%nat
                 && forallb (λ c, is_lower c || is_digit c || (c == "-"%char)) rest
  | [] => false
  end.

Definition get_bot_template (key : string) (version : option Z) : outcome exn BotTemplate :=
  let normalized := lower (strip key) in
  match (if is_template_key normalized then find (λ t, tpl_key t == normalized) _TEMPLATES else None) with
  | None => Raise TemplateValidationError
  | Some t =>
      match version with
      | Some v => if v =? tpl_version t then Ok t else Raise TemplateValidationError
      | None => Ok t
      end
  end.

(** ** Branding *)

Definition PUBLIC_BRANDING_KEYS : list string :=
  ["welcome_text"; "store_tagline"; "store_description"; "brand_accent"; "miniapp_theme"; "brand_logo_url";
   "support_contact"; "support_url"; "menu_text"; "store_button_text"].

Definition _validate_https_url (value : string) : outcome exn string :=
  if value == "" then Ok ""
  else match urlsplit value with
       | None => Raise ValueError
       | Some (scheme, netloc) =>
           if (scheme != "https") || (netloc == "") || has_credentials netloc
           then Raise TemplateValidationError else Ok value
       end.

Definition branding_limit (key : string) : option nat :=
  match dict_get key [("welcome_text", JInt 500); ("store_tagline", JInt 240); ("store_description", JInt 500);
                      ("support_contact", JInt 64); ("menu_text", JInt 64); ("store_button_text", JInt 64)] with
  | Some (JInt n) => Some (Z.to_nat n)
  | _ => None
  end.

(** The loop over the items of the branding. *)
Fixpoint branding_texts (l acc : dict) : outcome exn dict :=
  match l with
  | [] => Ok acc
  | (key, JNull) :: l => branding_texts l acc
  | (key, JStr value) :: l =>
      let text := strip value in
      match branding_limit key with
      | Some n => if (n <? String.length text)%nat then Raise TemplateValidationError
                  else branding_texts l (dict_set key (JStr text) acc)
      | None => branding_texts l (dict_set key (JStr text) acc)
      end
  | _ => Raise TemplateValidationError
  end.

(** [normalized.get(key)] of a dict of texts *)
Definition text_of (key : string) (d : dict) : option string :=
  match dict_get key d with Some (JStr s) => Some s | _ => None end.

(** [re.fullmatch("#[0-9A-Fa-f]{6}", s)] *)
Definition is_hex_color (s : string) : bool :=
  match chars s with
  | c :: rest => (c == "#"%char) && (length rest =? 6)%nat && forallb is_hex rest
  | [] => false
  end.

(** [re.fullmatch("@?[A-Za-z0-9_]{5,32}", s)] *)
Definition is_telegram_handle (s : string) : bool :=
  let name := match chars s with "@"%char :: rest => rest | l => l end in
  (5 <=? length name)%nat && (length name <=? 32)%nat && forallb (λ c, is_alnum c || (c == "_"%char)) name.

(** [if key in normalized: normalized[key] = _validate_https_url(...)] *)
Definition checked_url (key : string) (d : dict) : outcome exn dict :=
  match text_of key d with
  | None => Ok d
  | Some url => match _validate_https_url url with Ok u => Ok (dict_set key (JStr u) d) | Raise e => Raise e end
  end.

Definition validate_branding (branding : dict) : outcome exn dict :=
  if existsb (λ kv, negb (existsb (λ k, k == kv.1) PUBLIC_BRANDING_KEYS)) branding then Raise TemplateValidationError
  else
    match branding_texts branding [] with
    | Raise e => Raise e
    | Ok d =>
        if match text_of "miniapp_theme" d with
           | Some theme => negb (existsb (λ t, t == theme) ["midnight"; "emerald"; "pearl"; "ocean"; "rose"])
           | None => false
           end then Raise TemplateValidationError
        else if truthy (text_of "brand_accent" d) && negb (is_hex_color (default "" (text_of "brand_accent" d)))
        then Raise TemplateValidationError
        else
          match checked_url "brand_logo_url" d with
          | Raise e => Raise e
          | Ok d =>
              match checked_url "support_url" d with
              | Raise e => Raise e
              | Ok d =>
                  if truthy (text_of "support_contact" d)
                     && negb (is_telegram_handle (default "" (text_of "support_contact" d)))
                  then Raise TemplateValidationError else Ok d
              end
          end
    end.

(** ** The configuration *)

Definition SUPPORTED_MODULES : list string := ["catalog"; "orders"; "account"].

Definition is_currency (s : string) : bool := (String.length s =? 3)%nat && forallb is_upper (chars s).

(** [re.fullmatch("[A-Za-z]{2,3}(?:[-_][A-Za-z0-9]{2,8})?", s)] *)
Definition is_locale (s : string) : bool :=
  let '(language, rest) := break_at (λ c, (c == "-"%char) || (c == "_"%char)) (chars s) in
  (2 <=? length language)%nat && (length language <=? 3)%nat && forallb (λ c, is_upper c || is_lower c) language
  && match rest with
     | [] => true
     | _ :: region => (2 <=? length region)%nat && (length region <=? 8)%nat && forallb is_alnum region
     end.

(** [list(dict.fromkeys(l))] *)
Definition distinct (l : list string) : list string :=
  foldl (λ acc x, if existsb (λ y, y == x) acc then acc else acc ++ [x]) [] l.

Definition set_currency (currency : option string) (config : dict) : outcome exn dict :=
  match currency with
  | None => Ok config
  | Some c => let normalized := upper (strip c) in
              if is_currency normalized then Ok (dict_set "currency" (JStr normalized) config)
              else Raise TemplateValidationError
  end.

Definition set_locale (locale : option string) (config : dict) : outcome exn dict :=
  match locale with
  | None => Ok config
  | Some l => let normalized := strip l in
              if is_locale normalized then Ok (dict_set "locale" (JStr normalized) config)
              else Raise TemplateValidationError
  end.

Definition set_modules (enabled_modules : option (list string)) (config : dict) : outcome exn dict :=
  match enabled_modules with
  | None => Ok config
  | Some l =>
      let modules := distinct l in
      if existsb (λ m, negb (existsb (λ k, k == m) SUPPORTED_MODULES)) modules then Raise TemplateValidationError
      else if (length modules =? 0)%nat then Raise TemplateValidationError
      else Ok (dict_set "enabled_modules" (strings_json modules) config)
  end.

(** [config["branding"].update(validate_branding(branding))] *)
Definition set_branding (branding : dict) (config : dict) : outcome exn dict :=
  match validate_branding branding with
  | Raise e => Raise e
  | Ok d => Ok (dict_set "branding"
                  (JObj (dict_merge (match dict_get "branding" config with Some (JObj b) => b | _ => [] end) d)) config)
  end.

Definition set_business (business_profile : option json) (config : dict) : outcome exn dict :=
  match business_profile with
  | None | Some JNull => Ok config
  | Some v => match parse_business_profile (Some v) with
              | Some p => Ok (dict_set "_business" (JObj (public_payload p)) config)
              | None => Raise ValueError
              end
  end.

Record TemplateRequest := MkTemplateRequest {
  trq_template_key : string;
  trq_template_version : option Z;
  trq_currency : option string;
  trq_locale : option string;
  trq_branding : dict;
  trq_enabled_modules : option (list string);
  trq_business_profile : option json;
}.

Definition andThen {A B} (o : outcome exn A) (f : A → outcome exn B) : outcome exn B :=
  match o with Ok a => f a | Raise e => Raise e end.

Definition build_template_config (r : TemplateRequest) : outcome exn dict :=
  andThen (get_bot_template (trq_template_key r) (trq_template_version r)) (λ template,
  andThen (set_currency (trq_currency r) (tpl_default_config template)) (λ config,
  andThen (set_locale (trq_locale r) config) (λ config,
  andThen (set_modules (trq_enabled_modules r) config) (λ config,
  andThen (set_branding (trq_branding r) config) (λ config,
  andThen (set_business (trq_business_profile r) config) (λ config,
  Ok (dict_set "_factory" (JObj [("template_key", JStr (tpl_key template));
                                 ("template_version", JInt (tpl_version template))]) config))))))).

(** [str(key) if key else None, int(version) if isinstance(version, int) else None] *)
Definition template_metadata `{Env} (config : dict) : option string * option Z :=
  match dict_get "_factory" config with
  | Some (JObj factory) =>
      (match dict_get "template_key" factory with
       | Some key => if json_truthy key then Some (json_text key) else None
       | None => None
       end,
       match dict_get "template_version" factory with
       | Some (JInt n) => Some n
       | Some (JBool b) => Some (if b then 1 else 0)
       | _ => None
       end)
  | _ => (None, None)
  end.
