(* ===== verification/Provisioning.v ===== *)
(** * Provisioning of bots

    [packages/factory/provisioning.py] (the durable jobs that turn a verified
    Telegram identity into a bot of a tenant).  The Telegram client behind
    [TelegramIdentityVerifier] and the secret storage are parameters; the
    handlers that request, retry and cancel jobs are in [AdminBots.v]. *)

From Stdlib Require Import ZArith Lia Ascii String.
From stdpp Require Import base tactics list option strings numbers pretty.
From S2P Require Import Prelude Tables Text Money Exceptions StateMachines Models Payments.
From S2P Require Import Operations Reversals Saas Billing.

Local Open Scope Z_scope.

Record VerifiedTelegramBot := MkVerifiedTelegramBot {
  vtb_telegram_bot_id : Z;
  vtb_username : option string;
  vtb_display_name : string;
}.

(** [SecretStorage.get_secret] given what was stored before, and
    [TelegramIdentityVerifier.verify] at a time. *)
Class Identities := {
  stored_secret : list Sent → string → option string;
  verify_identity : Z → string → outcome exn VerifiedTelegramBot;
}.

Section provisioning.
  Context `{Env} `{Settings} `{Identities}.

Definition normalize_expected_username (value : option string) : option string :=
  match value with
  | None => None
  | Some v =>
      let name := lower (of_chars (drop_while (λ c, c == "@"%char) (strip_chars (chars v)))) in
      if name == "" then None else Some name
  end.

(** *** Secrets that must not be stored *)

(** [re.fullmatch(r"\d{5,}:[A-Za-z0-9_-]{20,}", s)], of ASCII text *)
Definition is_telegram_token (s : string) : bool :=
  match break_at (λ c, c == ":"%char) (chars s) with
  | (digits, _ :: rest) =>
      (5 <=? length digits)%nat && forallb is_digit digits
      && (20 <=? length rest)%nat && forallb (λ c, is_alnum c || (c == "_"%char) || (c == "-"%char)) rest
  | _ => false
  end.

(** [re.fullmatch("[A-Za-z_][A-Za-z0-9_]{1,254}", s)] *)
Definition is_secret_ref (s : string) : bool :=
  match chars s with
  | c :: rest =>
      (is_upper c || is_lower c || (c == "_"%char))
      && (1 <=? length rest)%nat && (length rest <=? 254)%nat
      && forallb (λ c, is_alnum c || (c == "_"%char)) rest
  | [] => false
  end.

Definition validate_secret_ref (value : string) : outcome exn string :=
  let ref_ := strip value in
  if is_telegram_token ref_ then Raise ValueError
  else if is_secret_ref ref_ then Ok ref_
  else Raise ValueError.

Definition factory_secretish (key : string) : bool :=
  existsb (λ fragment, occurs fragment (lower key))
    ["secret"; "password"; "token"; "api_key"; "apikey"; "authorization"; "credential"].

Fixpoint secret_free (v : json) : bool :=
  match v with
  | JObj o => forallb (λ kv, negb (factory_secretish kv.1) && secret_free kv.2) o
  | JList l => forallb secret_free l
  | JStr s => negb (is_telegram_token (strip s))
  | _ => true
  end.

Definition reject_secret_material (value : json) : outcome exn unit :=
  if secret_free value then Ok tt else Raise ValueError.

Definition provisioning_fingerprint (token_secret_ref : string) (expected_username display_name : option string)
    (desired_enabled : bool) (desired_config : dict) (credential_fingerprint : option string) : string :=
  env_sha256 (dumps (sorted_json (JObj (
    [("token_secret_ref", JStr token_secret_ref);
     ("expected_username", text_or_null (normalize_expected_username expected_username));
     ("requested_display_name", text_or_null (stripped display_name));
     ("desired_enabled", JBool desired_enabled); ("desired_config", JObj desired_config)]
    ++ match credential_fingerprint with Some f => [("credential_fingerprint", JStr f)] | None => [] end)))).

(** ** Jobs *)

Definition update_bpj (i : UUID) (f : BotProvisioningJob → BotProvisioningJob) : M unit :=
  write (λ d, d <| provisioning_jobs ::= update_row i f |>).

Definition update_bot (i : UUID) (f : Bot → Bot) : M unit := write (λ d, d <| bots ::= update_row i f |>).

Definition lease_expired (n : Z) (j : BotProvisioningJob) : bool :=
  (bpj_status j == ProvRunning)
  && match bpj_lease_expires_at j with Some t => t <? n | None => false end.

Definition recover_stale_jobs : M nat :=
  n ← now;
  k ← query (λ d, rowcount (lease_expired n) (provisioning_jobs d));
  write (λ d, d <| provisioning_jobs ::= update_where (lease_expired n) (λ j,
    j <| bpj_status := ProvRetry |> <| bpj_next_attempt_at := Some n |> <| bpj_locked_at := None |>
      <| bpj_lease_expires_at := None |> <| bpj_last_error_code := Some "WORKER_LEASE_EXPIRED" |>
      <| bpj_last_error_type := Some "LeaseExpired" |>) |>);;
  commit;;
  mret k.

Definition job_due (n : Z) (j : BotProvisioningJob) : bool :=
  ((bpj_status j == ProvPending) || (bpj_status j == ProvRetry))
  && match bpj_next_attempt_at j with Some t => t <=? n | None => true end.

Definition claimed (lease_seconds n : Z) (j : BotProvisioningJob) : BotProvisioningJob :=
  j <| bpj_status := ProvRunning |> <| bpj_attempt_count ::= Z.add 1 |> <| bpj_locked_at := Some n |>
    <| bpj_lease_expires_at := Some (n + seconds lease_seconds) |> <| bpj_next_attempt_at := None |>
    <| bpj_last_error_code := None |> <| bpj_last_error_type := None |>.

Definition next_due (n : Z) (d : DB) : option BotProvisioningJob :=
  head (sort_by (λ a b, bpj_created_at a <=? bpj_created_at b) (select (job_due n) (provisioning_jobs d))).

Definition claim_next_job (lease_seconds : Z) : M (option BotProvisioningJob) :=
  n ← now;
  found ← query (next_due n);
  match found with
  | None => mret None
  | Some j =>
      update_bpj (bpj_id j) (claimed lease_seconds n);;
      commit;;
      mret (Some (claimed lease_seconds n j))
  end.

Definition _audit (j : BotProvisioningJob) (action : string) (details : dict) : M unit :=
  i ← uuid4;
  write (λ d, d <| audit_logs ::= (λ t, t ++ [MkAuditLog i (bpj_tenant_id j) (bpj_requested_by_user_id j) action
                                               "BOT_PROVISIONING_JOB" (uuid_str (bpj_id j)) details]) |>).

Record Backoff := MkBackoff { lease_seconds : Z; base_backoff_seconds : Z; max_backoff_seconds : Z }.

Context (settings_ : Backoff).

Definition retry_delay (attempt_count : Z) : Z :=
  Z.min (max_backoff_seconds settings_) (base_backoff_seconds settings_ * 2 ^ Z.max (attempt_count - 1) 0).

(** [(exc.retryable, exc.code)] *)
Definition failure_of (e : exn) : bool * string :=
  match e with ProvisioningError code retryable => (retryable, code) | _ => (false, "PROVISIONING_INTERNAL_ERROR") end.

Definition unlocked (code error_type : string) (j : BotProvisioningJob) : BotProvisioningJob :=
  j <| bpj_last_error_code := Some code |> <| bpj_last_error_type := Some error_type |>
    <| bpj_locked_at := None |> <| bpj_lease_expires_at := None |>.

Definition _mark_failure (job_id : UUID) (e : exn) : M unit :=
  in_session
    (found ← query (λ d, get_row job_id (provisioning_jobs d));
     match found with
     | None => mret tt
     | Some j =>
         if bpj_status j != ProvRunning then mret tt
         else
           let '(retryable, code) := failure_of e in
           n ← now;
           if retryable && (bpj_attempt_count j <? bpj_max_attempts j) then
             update_bpj job_id (λ j, unlocked code (exn_name e)
               (j <| bpj_status := ProvRetry |>
                  <| bpj_next_attempt_at := Some (n + seconds (retry_delay (bpj_attempt_count j))) |>));;
             commit
           else
             update_bpj job_id (λ j, unlocked code (exn_name e)
               (j <| bpj_status := ProvFailed |> <| bpj_completed_at := Some n |>));;
             _audit j "BOT_PROVISIONING_FAILED"
               [("error_code", JStr code); ("attempt_count", JInt (bpj_attempt_count j))];;
             commit
     end).

(** *** The bot *)

Definition display_name_for (j : BotProvisioningJob) (identity : VerifiedTelegramBot) : string :=
  if truthy (bpj_requested_display_name j) then default "" (bpj_requested_display_name j)
  else vtb_display_name identity.

(** The columns of a bot when it is flushed. *)
Definition flush_bot (i : UUID) : M unit :=
  found ← query (λ d, get_row i (bots d));
  match found with
  | None => mret tt
  | Some b => to_varchar_opt 100 (bot_username b);; to_varchar 100 (bot_display_name b);;
              to_varchar 255 (bot_token_secret_ref b);; mret tt
  end.

Definition insert_bot (j : BotProvisioningJob) (identity : VerifiedTelegramBot) : M Bot :=
  n ← now;
  i ← uuid4;
  let bot := MkBot i (bpj_tenant_id j) (vtb_telegram_bot_id identity) (vtb_username identity)
               (display_name_for j identity) (bpj_token_secret_ref j) "VERIFIED" 1 (Some n) None None 1 "STABLE"
               (bpj_desired_enabled j) None (bpj_desired_config j) in
  await_others;;
  clash ← query (λ d, existsb (λ b, (bot_id b == i) || (bot_telegram_bot_id b == vtb_telegram_bot_id identity)) (bots d));
  raise_if clash (ProvisioningError "TELEGRAM_IDENTITY_RACE" true);;
  write (λ d, d <| bots ::= (λ t, t ++ [bot]) |>);;
  flush_bot i;;
  mret bot.

(** What becomes of a bot that is provisioned again. *)
Definition refreshed_bot (j : BotProvisioningJob) (identity : VerifiedTelegramBot) (n : Z) (b : Bot) : Bot :=
  let rotated := bot_token_secret_ref b != bpj_token_secret_ref j in
  let b' := b <| bot_username := vtb_username identity |> <| bot_display_name := display_name_for j identity |>
              <| bot_token_secret_ref := bpj_token_secret_ref j |> <| bot_credential_status := "VERIFIED" |>
              <| bot_credential_verified_at := Some n |> <| bot_credential_last_error_type := None |> in
  (if rotated then b' <| bot_credential_version ::= Z.add 1 |> <| bot_credential_rotated_at := Some n |> else b')
    <| bot_is_enabled := bpj_desired_enabled j |> <| bot_config := bpj_desired_config j |> <| bot_deleted_at := None |>.

Definition finish_job (j : BotProvisioningJob) (bot : UUID) (identity : VerifiedTelegramBot) : M unit :=
  n ← now;
  update_bpj (bpj_id j) (λ j,
    j <| bpj_bot_id := Some bot |> <| bpj_verified_telegram_bot_id := Some (vtb_telegram_bot_id identity) |>
      <| bpj_verified_username := vtb_username identity |> <| bpj_status := ProvReady |>
      <| bpj_completed_at := Some n |> <| bpj_locked_at := None |> <| bpj_lease_expires_at := None |>
      <| bpj_last_error_code := None |> <| bpj_last_error_type := None |>);;
  _audit j "BOT_PROVISIONING_READY"
    [("bot_id", JStr (uuid_str bot)); ("telegram_bot_id", JInt (vtb_telegram_bot_id identity));
     ("username", text_or_null (vtb_username identity)); ("attempt_count", JInt (bpj_attempt_count j))];;
  commit.

(** The session in which a verified identity becomes a bot. *)
Definition converge_bot (job_id : UUID) (identity : VerifiedTelegramBot) : M bool :=
  found ← query (λ d, get_row job_id (provisioning_jobs d));
  match found with
  | None => mret false
  | Some current =>
      if bpj_status current != ProvRunning then mret false
      else
        found ← query (λ d, get_row (bpj_tenant_id current) (tenants d));
        tenant ← of_option (ProvisioningError "TENANT_INACTIVE" false) found;
        raise_if (negb (ten_is_active tenant) || is_some (ten_deleted_at tenant))
          (ProvisioningError "TENANT_INACTIVE" false);;
        rows ← query (λ d, select (λ b, bot_telegram_bot_id b == vtb_telegram_bot_id identity) (bots d));
        existing ← one_or_none rows;
        match existing with
        | Some b =>
            raise_if (bot_tenant_id b != bpj_tenant_id current)
              (ProvisioningError "TELEGRAM_BOT_OWNED_BY_ANOTHER_TENANT" false);;
            n ← now;
            update_bot (bot_id b) (refreshed_bot current identity n);;
            flush_bot (bot_id b);;
            finish_job current (bot_id b) identity;;
            mret true
        | None =>
            b ← insert_bot current identity;
            finish_job current (bot_id b) identity;;
            mret true
        end
  end.

(** The token of the job, verified. *)
Definition identify (j : BotProvisioningJob) : M VerifiedTelegramBot :=
  token ← gets (λ s, stored_secret (ses_sent s) (bpj_token_secret_ref j));
  token ← of_option (ProvisioningError "TOKEN_SECRET_NOT_FOUND" false) token;
  n ← now;
  identity ← of_outcome (verify_identity n token);
  let expected := normalize_expected_username (bpj_expected_username j) in
  raise_if (truthy expected && (expected != normalize_expected_username (vtb_username identity)))
    (ProvisioningError "TELEGRAM_USERNAME_MISMATCH" false);;
  mret identity.

Definition process_job (j : BotProvisioningJob) : M bool :=
  catch
    (identity ← identify j;
     in_session (converge_bot (bpj_id j) identity))
    (λ e, _mark_failure (bpj_id j) e;; mret false).

Definition process_one : M bool :=
  job ← in_session (claim_next_job (lease_seconds settings_));
  match job with
  | None => mret false
  | Some j => process_job j;; mret true
  end.

End provisioning.
