(* ===== verification/AdminBots.v ===== *)
(** * The tenant's bots

    [apps/api/v1/admin_bots.py]: the handlers with which a tenant's admin asks
    for a bot, retries or cancels the job, and verifies, rotates, restarts,
    configures, enables and disables a bot, and the readiness report.  The
    entitlements come from [Saas.v], the configuration from [Templates.v].  The
    fleet store (Redis) is a parameter; texts of messages are left out. *)

From Stdlib Require Import ZArith Lia Ascii String.
From stdpp Require Import base tactics list option strings numbers pretty.
From S2P Require Import Prelude Tables Text Money Exceptions StateMachines Models Profiles.
From S2P Require Import Payments Operations Saas Billing Templates Provisioning.

Local Open Scope Z_scope.

(** ** Requests *)

Record BotProvisionRequest := MkBotProvisionRequest {
  bpr_token_secret_ref : option string;
  bpr_bot_token : option string;
  bpr_expected_username : option string;
  bpr_display_name : option string;
  bpr_is_enabled : bool;
  bpr_template_key : option string;
  bpr_template_version : option Z;
  bpr_currency : option string;
  bpr_locale : option string;
  bpr_branding : dict;
  bpr_enabled_modules : option (list string);
  bpr_business_profile : option json;
  bpr_config : option dict;
  bpr_max_attempts : Z;
}.

Global Instance BotProvisionRequest_eta : Eta BotProvisionRequest := λ r,
  MkBotProvisionRequest (bpr_token_secret_ref r) (bpr_bot_token r) (bpr_expected_username r) (bpr_display_name r)
    (bpr_is_enabled r) (bpr_template_key r) (bpr_template_version r) (bpr_currency r) (bpr_locale r)
    (bpr_branding r) (bpr_enabled_modules r) (bpr_business_profile r) (bpr_config r) (bpr_max_attempts r).

Record BotConfigurationRequest := MkBotConfigurationRequest {
  bcr_display_name : option string;
  bcr_template_key : string;
  bcr_template_version : option Z;
  bcr_currency : option string;
  bcr_locale : option string;
  bcr_branding : dict;
  bcr_enabled_modules : option (list string);
  bcr_business_profile : option json;
}.

(** [Field(min_length=lo, max_length=hi)] and [Field(ge=lo, le=hi)] of an
    optional field *)
Definition sized (lo hi : nat) (v : option string) : bool :=
  match v with Some s => (lo <=? String.length s)%nat && (String.length s <=? hi)%nat | None => true end.
Definition ranged (lo hi : Z) (v : option Z) : bool :=
  match v with Some n => (lo <=? n) && (n <=? hi) | None => true end.

Definition template_fields_ok (version : option Z) (currency locale : option string) : bool :=
  ranged 1 1000 version && sized 3 3 currency && sized 2 20 locale.

(** The validation of the request body, which answers 422. *)
Definition validate_provision_request (r : BotProvisionRequest) : outcome exn BotProvisionRequest :=
  let has_token := truthy (bpr_bot_token r) in
  if negb (sized 2 255 (bpr_token_secret_ref r) && sized 0 100 (bpr_expected_username r)
           && sized 1 100 (bpr_display_name r) && sized 0 50 (bpr_template_key r)
           && template_fields_ok (bpr_template_version r) (bpr_currency r) (bpr_locale r)
           && ranged 1 10 (Some (bpr_max_attempts r)))
  then Raise (HTTPException 422)
  else if match bpr_config r with Some c => negb (secret_free (JObj c)) | None => false end then Raise (HTTPException 422)
  else
    let r := r <| bpr_expected_username ::= normalize_expected_username |> in
    match bpr_token_secret_ref r with
    | Some ref_ =>
        match validate_secret_ref ref_ with
        | Raise _ => Raise (HTTPException 422)
        | Ok ref_ => if has_token then Raise (HTTPException 422) else Ok (r <| bpr_token_secret_ref := Some ref_ |>)
        end
    | None => if has_token then Ok r else Raise (HTTPException 422)
    end.

Definition validate_configuration_request (r : BotConfigurationRequest) : outcome exn BotConfigurationRequest :=
  if sized 1 100 (bcr_display_name r) && sized 2 50 (Some (bcr_template_key r))
     && template_fields_ok (bcr_template_version r) (bcr_currency r) (bcr_locale r)
  then Ok r else Raise (HTTPException 422).

Definition provision_template (r : BotProvisionRequest) : TemplateRequest :=
  MkTemplateRequest (let k := default "" (bpr_template_key r) in if k == "" then "general-commerce" else k)
    (bpr_template_version r) (bpr_currency r) (bpr_locale r) (bpr_branding r) (bpr_enabled_modules r)
    (bpr_business_profile r).

Definition configuration_template (r : BotConfigurationRequest) : TemplateRequest :=
  MkTemplateRequest (if bcr_template_key r == "" then "general-commerce" else bcr_template_key r)
    (bcr_template_version r) (bcr_currency r) (bcr_locale r) (bcr_branding r) (bcr_enabled_modules r)
    (bcr_business_profile r).

(** [except (TemplateValidationError, ValueError): 422] *)
Definition unprocessable {A} (o : outcome exn A) : M A :=
  match o with
  | Ok a => mret a
  | Raise e => mthrow (if (e == TemplateValidationError) || (e == ValueError) then HTTPException 422 else e)
  end.

Definition _resolved_request_config (r : BotProvisionRequest) : M dict :=
  match bpr_template_key r with
  | None => let legacy := default [] (bpr_config r) in
            unprocessable (reject_secret_material (JObj legacy));; mret legacy
  | Some _ => raise_if (is_some (bpr_config r)) (HTTPException 422);;
              unprocessable (build_template_config (provision_template r))
  end.

Definition _validate_resolved_business_profile (tenant_id : UUID) (config : dict) : M dict :=
  profile ← catch
    (p ← of_option ValueError (parse_business_profile (dict_get "_business" config));
     validate_business_profile_for_tenant tenant_id p)
    (λ e, mthrow (if e == ValueError then HTTPException 422 else e));
  mret (dict_set "_business" (JObj (public_payload profile)) config).

(** [config.get("branding") or {}] *)
Definition branding_of (config : dict) : json :=
  match dict_get "branding" config with
  | Some v => if json_truthy v then v else JObj []
  | None => JObj []
  end.

Definition branding_differs (t : TemplateRequest) (resolved_config : dict) : bool :=
  match build_template_config (MkTemplateRequest (trq_template_key t) (trq_template_version t) (trq_currency t)
                                 (trq_locale t) [] (trq_enabled_modules t) None) with
  | Ok baseline => negb (json_eqb (branding_of resolved_config) (branding_of baseline))
  | Raise _ => true
  end.

Definition _uses_custom_branding (r : BotProvisionRequest) (resolved_config : dict) : bool :=
  match bpr_template_key r with
  | None => match bpr_config r with
            | Some c => match dict_get "branding" c with Some v => json_truthy v | None => false end
            | None => false
            end
  | Some _ => branding_differs (provision_template r) resolved_config
  end.

(** ** What is shown of a bot *)

Fixpoint _redact_config (v : json) : json :=
  match v with
  | JObj o => JObj ((fix go (o : dict) := match o with
                                          | [] => []
                                          | (k, x) :: o => (k, if factory_secretish k then JStr "[REDACTED]"
                                                               else _redact_config x) :: go o
                                          end) o)
  | JList l => JList ((fix go (l : list json) := match l with [] => [] | x :: l => _redact_config x :: go l end) l)
  | _ => v
  end.

Section handlers.
  Context `{Env} `{Settings} `{Identities}.

Record BotResponse := MkBotResponse {
  botr_bot : Bot;
  botr_config : json;
  botr_token_configured : bool;
  botr_template : option string * option Z;
  botr_business_profile : dict;
}.

(** The columns of the bot, its configuration redacted; [botr_bot] stands for
    the columns that are copied. *)
Definition _bot_response (b : Bot) : BotResponse :=
  MkBotResponse b (_redact_config (JObj (bot_config b))) (bot_token_secret_ref b != "")
    (template_metadata (bot_config b)) (public_payload (business_profile_from_config (bot_config b))).

(** In no particular order. *)
Definition list_bots (principal : AuthenticatedPrincipal) : M (list BotResponse) :=
  rows ← query (λ d, select (λ b, (bot_tenant_id b == principal_tenant_id principal)
                                  && negb (is_some (bot_deleted_at b))) (bots d));
  mret (map _bot_response rows).

(** ** Gates *)

Definition _tenant_entitlements_or_503 (tenant_id : UUID) : M EntitlementSnapshot :=
  catch (resolve_tenant_entitlements tenant_id)
    (λ e, mthrow (if e == EntitlementConfigurationError then HTTPException 503 else e)).

Definition _require_commercial_mutation (tenant_id : UUID) : M unit :=
  catch (require_commercial_access tenant_id;; mret tt)
    (λ e, mthrow (if e == CommercialAccessDenied then HTTPException 402 else e)).

Definition _require_product_feature (tenant_id : UUID) (feature : string) : M unit :=
  catch (require_feature_entitlement tenant_id feature;; mret tt)
    (λ e, mthrow (if e == CommercialAccessDenied then HTTPException 402
                  else if e == FeatureEntitlementDenied then HTTPException 403
                  else if e == EntitlementConfigurationError then HTTPException 503 else e)).

Definition live_bot (tenant_id : UUID) (b : Bot) : bool :=
  (bot_tenant_id b == tenant_id) && negb (is_some (bot_deleted_at b)).

Definition _enforce_factory_capacity (tenant_id : UUID) (desired_enabled : bool) : M unit :=
  _require_commercial_mutation tenant_id;;
  entitlements ← _tenant_entitlements_or_503 tenant_id;
  bot_count ← query (λ d, rowcount (live_bot tenant_id) (bots d));
  raise_if (ent_max_bots entitlements <=? Z.of_nat bot_count) (HTTPException 409);;
  open_jobs ← query (λ d, rowcount (λ j, (bpj_tenant_id j == tenant_id) && is_open_job (bpj_status j))
                            (provisioning_jobs d));
  raise_if (ent_max_open_provisioning_jobs entitlements <=? Z.of_nat open_jobs) (HTTPException 429);;
  if desired_enabled then
    enabled_count ← query (λ d, rowcount (λ b, live_bot tenant_id b && bot_is_enabled b) (bots d));
    raise_if (ent_max_enabled_bots entitlements <=? Z.of_nat enabled_count) (HTTPException 409)
  else mret tt.

(** ** Jobs *)

Definition set_secret (ref_ value : string) : M unit := send (SentSecret ref_ value).

Definition jobs_by_key (tenant_id : UUID) (key : string) (d : DB) : list BotProvisioningJob :=
  select (λ j, (bpj_tenant_id j == tenant_id) && (bpj_idempotency_key j == key)) (provisioning_jobs d).

(** [if direct_token: await secret_storage.set_secret(token_secret_ref, direct_token)] *)
Definition store_token (ref_ : string) (direct_token : option string) : M unit :=
  if truthy direct_token then set_secret ref_ (default "" direct_token) else mret tt.

(** The reference and the fingerprint of the credential of a request. *)
Definition credential_of (tenant_id : UUID) (key : string) (r : BotProvisionRequest) : string * option string :=
  if truthy (bpr_bot_token r)
  then (("GHBF_VAULT_BOT_" ++ upper (prefix_of 32 (env_sha256 (uuid_str tenant_id ++ ":" ++ key))))%string,
        Some (env_sha256 (default "" (bpr_bot_token r))))
  else (default "" (bpr_token_secret_ref r), None).

Definition request_fingerprint (tenant_id : UUID) (key : string) (r : BotProvisionRequest) (config : dict) : string :=
  let '(ref_, credential) := credential_of tenant_id key r in
  provisioning_fingerprint ref_ (bpr_expected_username r) (bpr_display_name r) (bpr_is_enabled r) config credential.

(** The flush of a new job; the result says that the unique key was taken. *)
Definition insert_job (j : BotProvisioningJob) : M bool :=
  await_others;;
  clash ← query (λ d, existsb (λ k, (bpj_id k == bpj_id j)
                                    || ((bpj_tenant_id k == bpj_tenant_id j)
                                        && (bpj_idempotency_key k == bpj_idempotency_key j))) (provisioning_jobs d));
  if (clash : bool) then mret true
  else
    to_varchar 100 (bpj_idempotency_key j);; to_varchar 64 (bpj_request_fingerprint j);;
    to_varchar 255 (bpj_token_secret_ref j);; to_varchar_opt 100 (bpj_expected_username j);;
    to_varchar_opt 100 (bpj_requested_display_name j);;
    write (λ d, d <| provisioning_jobs ::= (λ t, t ++ [j]) |>);;
    mret false.

Definition request_bot_provisioning (principal : AuthenticatedPrincipal) (key : string) (req : BotProvisionRequest) :
    M BotProvisioningJob :=
  let t := principal_tenant_id principal in
  raise_if ((String.length key <? 8)%nat || (100 <? String.length key)%nat) (HTTPException 422);;
  r ← of_outcome (validate_provision_request req);
  config ← _resolved_request_config r;
  resolved_config ← _validate_resolved_business_profile t config;
  let ref_ := (credential_of t key r).1 in
  let fingerprint := request_fingerprint t key r resolved_config in
  rows ← query (jobs_by_key t key);
  existing ← one_or_none rows;
  match existing with
  | Some j =>
      raise_if (bpj_request_fingerprint j != fingerprint) (HTTPException 409);;
      store_token ref_ (bpr_bot_token r);;
      mret j
  | None =>
      (if _uses_custom_branding r resolved_config then _require_product_feature t "custom_branding" else mret tt);;
      _enforce_factory_capacity t (bpr_is_enabled r);;
      i ← uuid4;
      n ← now;
      let job := MkBotProvisioningJob i t (Some (principal_user_id principal)) None key fingerprint ref_
                   (bpr_expected_username r) (stripped (bpr_display_name r)) (bpr_is_enabled r) resolved_config
                   ProvPending 0 (bpr_max_attempts r) None None None None None None None None n in
      raced ← insert_job job;
      if (raced : bool) then
        rollback;;
        rows ← query (jobs_by_key t key);
        other ← one_or_none rows;
        match other with
        | Some j =>
            raise_if (bpj_request_fingerprint j != fingerprint) (HTTPException 409);;
            store_token ref_ (bpr_bot_token r);;
            mret j
        | None => mthrow (HTTPException 409)
        end
      else
        store_token ref_ (bpr_bot_token r);;
        let metadata := template_metadata resolved_config in
        audit t (principal_user_id principal) "BOT_PROVISIONING_REQUESTED" "BOT_PROVISIONING_JOB" i
          [("expected_username", text_or_null (bpr_expected_username r)); ("desired_enabled", JBool (bpr_is_enabled r));
           ("request_fingerprint", JStr fingerprint); ("template", text_or_null metadata.1);
           ("template_version", match metadata.2 with Some v => JInt v | None => JNull end)];;
        mret job
  end.

(** [session.get(BotProvisioningJob, ...)], of the tenant *)
Definition own_job (principal : AuthenticatedPrincipal) (i : UUID) : M BotProvisioningJob :=
  found ← query (λ d, get_row i (provisioning_jobs d));
  j ← of_option (HTTPException 404) found;
  raise_if (bpj_tenant_id j != principal_tenant_id principal) (HTTPException 404);;
  mret j.

Definition reopened (j : BotProvisioningJob) : BotProvisioningJob :=
  j <| bpj_status := ProvPending |> <| bpj_attempt_count := 0 |> <| bpj_next_attempt_at := None |>
    <| bpj_locked_at := None |> <| bpj_lease_expires_at := None |> <| bpj_completed_at := None |>
    <| bpj_last_error_code := None |> <| bpj_last_error_type := None |>.

Definition retry_provisioning_job (principal : AuthenticatedPrincipal) (i : UUID) : M unit :=
  j ← own_job principal i;
  raise_if (bpj_status j != ProvFailed) (HTTPException 409);;
  _require_commercial_mutation (principal_tenant_id principal);;
  update_bpj i reopened;;
  audit (principal_tenant_id principal) (principal_user_id principal) "BOT_PROVISIONING_RETRIED"
    "BOT_PROVISIONING_JOB" i [].

Definition cancel_provisioning_job (principal : AuthenticatedPrincipal) (i : UUID) : M unit :=
  j ← own_job principal i;
  raise_if ((bpj_status j != ProvPending) && (bpj_status j != ProvRetry)) (HTTPException 409);;
  n ← now;
  update_bpj i (λ j, j <| bpj_status := ProvCancelled |> <| bpj_completed_at := Some n |>
                       <| bpj_next_attempt_at := None |>);;
  audit (principal_tenant_id principal) (principal_user_id principal) "BOT_PROVISIONING_CANCELLED"
    "BOT_PROVISIONING_JOB" i [].

(** ** Bots *)

Definition own_bot (principal : AuthenticatedPrincipal) (i : UUID) : M Bot :=
  found ← query (λ d, get_row i (bots d));
  b ← of_option (HTTPException 404) found;
  raise_if (negb (live_bot (principal_tenant_id principal) b)) (HTTPException 404);;
  mret b.

Definition bot_audit (principal : AuthenticatedPrincipal) (action : string) (i : UUID) (details : dict) : M unit :=
  audit (principal_tenant_id principal) (principal_user_id principal) action "BOT" i details.

(** A failed verification: recorded and committed, then answered. *)
Definition credential_failed {A} (principal : AuthenticatedPrincipal) (i : UUID) (status error_type : string)
    (details : dict) (code : Z) : M A :=
  update_bot i (λ b, b <| bot_credential_status := status |> <| bot_credential_last_error_type := Some error_type |>);;
  bot_audit principal "BOT_CREDENTIAL_VERIFY_FAILED" i (("error_type", JStr error_type) :: details);;
  commit;;
  mthrow (HTTPException code).

Definition verify_bot_credential (principal : AuthenticatedPrincipal) (i : UUID) : M (option string) :=
  b ← own_bot principal i;
  identity ← catch
    (token ← gets (λ s, stored_secret (ses_sent s) (bot_token_secret_ref b));
     token ← of_option SecretNotFoundError token;
     n ← now;
     identity ← of_outcome (verify_identity n token);
     if vtb_telegram_bot_id identity != bot_telegram_bot_id b
     then credential_failed principal i "INVALID" "TelegramIdentityMismatch" [] 409
     else mret identity)
    (λ e, match e with
          | HTTPException _ => mthrow e
          | SecretNotFoundError => credential_failed principal i "MISSING" (exn_name e) [] 409
          | ProvisioningError code retryable =>
              credential_failed principal i (if retryable then "DEGRADED" else "INVALID") code
                [("retryable", JBool retryable)] (if retryable then 503 else 409)
          | _ => credential_failed principal i "DEGRADED" (exn_name e) [] 503
          end);
  n ← now;
  update_bot i (λ b, b <| bot_credential_status := "VERIFIED" |> <| bot_credential_verified_at := Some n |>
                       <| bot_credential_last_error_type := None |>);;
  bot_audit principal "BOT_CREDENTIAL_VERIFIED" i
    [("telegram_bot_id", JInt (bot_telegram_bot_id b)); ("username", text_or_null (vtb_username identity))];;
  mret (vtb_username identity).

Definition rotate_bot_credential (principal : AuthenticatedPrincipal) (i : UUID) (bot_token : string) : M (option string) :=
  b ← own_bot principal i;
  let new_token := strip bot_token in
  n ← now;
  identity ← (match verify_identity n new_token with
              | Raise (ProvisioningError _ _) => mthrow (HTTPException 422)
              | o => of_outcome o
              end);
  raise_if (vtb_telegram_bot_id identity != bot_telegram_bot_id b) (HTTPException 409);;
  set_secret (bot_token_secret_ref b) new_token;;
  update_bot i (λ b, b <| bot_username := vtb_username identity |> <| bot_credential_version ::= Z.add 1 |>
                       <| bot_credential_status := "VERIFIED" |> <| bot_credential_verified_at := Some n |>
                       <| bot_credential_rotated_at := Some n |> <| bot_credential_last_error_type := None |>);;
  bot_audit principal "BOT_CREDENTIAL_ROTATED" i
    [("credential_version", JInt (bot_credential_version b + 1)); ("telegram_bot_id", JInt (bot_telegram_bot_id b))];;
  flush_bot i;;
  mret (vtb_username identity).

Definition restart_bot_runtime (principal : AuthenticatedPrincipal) (i : UUID) : M unit :=
  b ← own_bot principal i;
  _require_product_feature (principal_tenant_id principal) "runtime_controls";;
  raise_if (negb (bot_is_enabled b)) (HTTPException 409);;
  update_bot i (λ b, b <| bot_runtime_revision ::= Z.add 1 |>);;
  bot_audit principal "BOT_RUNTIME_RESTART_REQUESTED" i [("runtime_revision", JInt (bot_runtime_revision b + 1))].

Definition update_bot_configuration (principal : AuthenticatedPrincipal) (i : UUID) (req : BotConfigurationRequest) :
    M unit :=
  req ← of_outcome (validate_configuration_request req);
  b ← own_bot principal i;
  config ← unprocessable (build_template_config (configuration_template req));
  resolved_config ← _validate_resolved_business_profile (principal_tenant_id principal) config;
  (if branding_differs (configuration_template req) resolved_config
      && negb (json_eqb (branding_of resolved_config) (branding_of (bot_config b)))
   then _require_product_feature (principal_tenant_id principal) "custom_branding" else mret tt);;
  update_bot i (λ b,
    (match bcr_display_name req with Some name => b <| bot_display_name := strip name |> | None => b end)
      <| bot_config := resolved_config |>);;
  let previous := template_metadata (bot_config b) in
  let next := template_metadata resolved_config in
  let version v := match v with Some n => JInt n | None => JNull end in
  bot_audit principal "BOT_CONFIGURATION_UPDATED" i
    [("previous_template", text_or_null previous.1); ("previous_template_version", version previous.2);
     ("template", text_or_null next.1); ("template_version", version next.2);
     ("branding_keys", strings_json (sort_by String.leb (map fst (bcr_branding req))));
     ("enabled_modules", default (JList []) (dict_get "enabled_modules" resolved_config))];;
  flush_bot i.

(** [release_channel] is ["STABLE"] or ["CANARY"]. *)
Definition set_bot_release_channel (principal : AuthenticatedPrincipal) (i : UUID) (release_channel : string) : M unit :=
  raise_if ((release_channel != "STABLE") && (release_channel != "CANARY")) (HTTPException 422);;
  b ← own_bot principal i;
  if bot_release_channel b != release_channel then
    (if release_channel == "CANARY" then _require_product_feature (principal_tenant_id principal) "canary_rollout"
     else mret tt);;
    update_bot i (λ b, b <| bot_release_channel := release_channel |> <| bot_runtime_revision ::= Z.add 1 |>);;
    bot_audit principal "BOT_RELEASE_CHANNEL_CHANGED" i
      [("previous", JStr (bot_release_channel b)); ("next", JStr release_channel);
       ("runtime_revision", JInt (bot_runtime_revision b + 1))]
  else mret tt.

Definition set_bot_state (principal : AuthenticatedPrincipal) (i : UUID) (is_enabled : bool) : M unit :=
  let t := principal_tenant_id principal in
  b ← own_bot principal i;
  (if is_enabled && negb (bot_is_enabled b) then
     _require_commercial_mutation t;;
     enabled_count ← query (λ d, rowcount (λ b, live_bot t b && bot_is_enabled b && (bot_id b != i)) (bots d));
     entitlements ← _tenant_entitlements_or_503 t;
     raise_if (ent_max_enabled_bots entitlements <=? Z.of_nat enabled_count) (HTTPException 409)
   else mret tt);;
  update_bot i (λ b, b <| bot_is_enabled := is_enabled |>);;
  bot_audit principal (if is_enabled then "BOT_ENABLED" else "BOT_DISABLED") i
    [("telegram_bot_id", JInt (bot_telegram_bot_id b)); ("username", text_or_null (bot_username b))].

(** [GET /jobs]: the page, the total and the next offset *)
Definition list_provisioning_jobs (principal : AuthenticatedPrincipal) (job_status : option BotProvisioningStatus)
    (offset limit : nat) : M (list BotProvisioningJob * nat * option nat) :=
  matching ← query (λ d, select (λ j, (bpj_tenant_id j == principal_tenant_id principal)
                                      && match job_status with Some s => bpj_status j == s | None => true end)
                           (provisioning_jobs d));
  let rows := take limit (drop offset (sort_by (λ a b, bpj_created_at b <=? bpj_created_at a) matching)) in
  let total := length matching in
  let next := (offset + length rows)%nat in
  mret (rows, total, if (next <? total)%nat then Some next else None).

(** ** Launch readiness *)

Inductive Readiness := Pass | Warn | Block.

Definition pass_or (other : Readiness) (c : bool) : Readiness := if c then Pass else other.

Definition resolve_tenant_public_url (tenant_settings : dict) (key : string) (fallback : option string) : option string :=
  match dict_get key tenant_settings with
  | Some (JStr value) => if strip value != "" then Some (strip value) else fallback
  | _ => fallback
  end.

Definition is_https (url : option string) : bool :=
  match url with Some u => String.prefix "https://" u | None => false end.

(** [if ids: filters.append(column.in_(ids))] *)
Definition selected (ids : list UUID) (i : UUID) : bool := (length ids =? 0)%nat || existsb (λ u, u == i) ids.

(** [fleet] is the status the fleet store holds of a bot; the fallbacks are the
    public URLs of the process. *)
Definition get_bot_launch_readiness (fleet : UUID → option string) (miniapp_fallback admin_fallback : option string)
    (principal : AuthenticatedPrincipal) (i : UUID) : M (bool * list (string * Readiness)) :=
  let t := principal_tenant_id principal in
  b ← own_bot principal i;
  found ← query (λ d, get_row t (tenants d));
  tenant ← of_option (HTTPException 404) found;
  let runtime_status := if truthy (fleet i) then default "" (fleet i)
                        else if bot_is_enabled b then "OFFLINE" else "DISABLED" in
  let miniapp_url := resolve_tenant_public_url (ten_settings tenant) "miniapp_public_url" miniapp_fallback in
  let admin_url := resolve_tenant_public_url (ten_settings tenant) "admin_public_url" admin_fallback in
  access ← resolve_commercial_access t;
  let profile := business_profile_from_config (bot_config b) in
  let active p := (prod_tenant_id p == t) && negb (is_some (prod_deleted_at p)) && prod_is_active p in
  active_products ← query (λ d, rowcount active (products d));
  active_variants ← query (λ d, sum_of (λ v,
      if negb (is_some (var_deleted_at v)) && var_is_active v
      then Z.of_nat (rowcount (λ p, active p && (prod_id p == var_product_id v)) (products d)) else 0) (variants d));
  enabled_providers ← query (λ d, rowcount (λ p,
      (prov_tenant_id p == t) && prov_is_enabled p
      && existsb (λ c, c == prov_category p) (allowed_provider_categories (business_type profile))
      && selected (provider_ids profile) (prov_id p)) (providers d));
  enabled_mappings ← query (λ d, rowcount (λ m, (map_tenant_id m == t) && map_is_enabled m) (mappings d));
  payment_configs ← query (λ d, rowcount (λ m,
      (pmc_tenant_id m == t) && pmc_is_enabled m && selected (payment_method_ids profile) (pmc_id m))
      (payment_methods d));
  let checks :=
    [("commercial_access", pass_or Block (acc_allowed access));
     ("credential", pass_or Block (bot_credential_status b == "VERIFIED"));
     ("runtime", pass_or Block (runtime_status == "RUNNING"));
     ("miniapp_url", pass_or Block (is_https miniapp_url));
     ("admin_url", pass_or Warn (is_https admin_url));
     ("catalog", pass_or Block ((0 <? active_products)%nat && (0 <? active_variants)));
     ("business_profile", Pass);
     ("fulfillment", pass_or Block ((0 <? enabled_providers)%nat && (0 <? enabled_mappings)%nat));
     ("payments", pass_or Warn (0 <? payment_configs)%nat)] in
  mret (negb (existsb (λ c, match c.2 with Block => true | _ => false end) checks), checks).

End handlers.
