(* ===== verification/ProvisioningSpec.v ===== *)
(** * The bots of the tenants

    That a Telegram bot belongs to one tenant and stays there, that a finished
    job keeps its result, that a claimed job is always settled, and what the
    handlers around it do not guard. *)

From Stdlib Require Import ZArith Lia Ascii String.
From stdpp Require Import base tactics list option strings numbers pretty.
From S2P Require Import Prelude Tables Text Money Exceptions StateMachines Models Profiles.
From S2P Require Import Payments FulfillmentSpec Operations Reversals ReversalsSpec.
From S2P Require Import Saas Billing SaasSpec BillingSpec.
From S2P Require Import Templates Provisioning AdminBots.

Local Open Scope Z_scope.

(** ** The invariant *)

Definition settled (s : BotProvisioningStatus) : bool :=
  match s with ProvReady | ProvCancelled => true | _ => false end.

Definition job_key (j : BotProvisioningJob) : UUID * string := (bpj_tenant_id j, bpj_idempotency_key j).

(** The bot a finished job names. *)
Definition hosts (j : BotProvisioningJob) (b : Bot) : Prop :=
  bpj_bot_id j = Some (bot_id b) ∧ bpj_tenant_id j = bot_tenant_id b
  ∧ bpj_verified_telegram_bot_id j = Some (bot_telegram_bot_id b).

(** What becomes of a bot. *)
Definition succeeds (b b' : Bot) : Prop :=
  bot_id b' = bot_id b ∧ bot_tenant_id b' = bot_tenant_id b ∧ bot_telegram_bot_id b' = bot_telegram_bot_id b
  ∧ bot_credential_version b ≤ bot_credential_version b' ∧ bot_runtime_revision b ≤ bot_runtime_revision b'.

Record fleet_ok (d : DB) : Prop := {
  fo_bot_ids : NoDup (bot_id <$> bots d);
  fo_telegram : NoDup (bot_telegram_bot_id <$> bots d);
  fo_job_ids : NoDup (bpj_id <$> provisioning_jobs d);
  fo_keys : NoDup (job_key <$> provisioning_jobs d);
  fo_ready : ∀ j, j ∈ provisioning_jobs d → bpj_status j = ProvReady → ∃ b, b ∈ bots d ∧ hosts j b;
}.

(** What a later database keeps of an earlier one. *)
Definition evolved (d0 d : DB) : Prop :=
  (∀ b, b ∈ bots d0 → ∃ b', b' ∈ bots d ∧ succeeds b b')
  ∧ ∀ j, j ∈ provisioning_jobs d0 → settled (bpj_status j) = true → j ∈ provisioning_jobs d.

Definition tended (d0 d : DB) : Prop := fleet_ok d ∧ evolved d0 d.

Lemma succeeds_refl b : succeeds b b.
Proof. split_and!; [done..|lia|lia]. Qed.

Lemma succeeds_trans a b c : succeeds a b → succeeds b c → succeeds a c.
Proof. intros (?&?&?&?&?) (?&?&?&?&?). split_and!; congruence || lia. Qed.

Lemma hosts_succeeds j b b' : succeeds b b' → hosts j b → hosts j b'.
Proof. intros (Hi & Ht & Hg & _) (H1 & H2 & H3). split_and!; congruence. Qed.

Lemma NoDup_snoc {A} (l : list A) x : NoDup l → x ∉ l → NoDup (l ++ [x]).
Proof.
  intros Hl Hx. apply NoDup_app. split; [done|]. split; [|apply NoDup_singleton].
  intros y Hy Hz%list_elem_of_singleton. by subst.
Qed.

Section tended.
  Context (d0 : DB).

Lemma tended_rest d d' :
  bots d' = bots d → provisioning_jobs d' = provisioning_jobs d → tended d0 d → tended d0 d'.
Proof. intros Hb Hj [[H1 H2 H3 H4 H5] [H6 H7]]. split; split; rewrite ?Hb, ?Hj; auto. Qed.

Lemma tended_bot i f d :
  (∀ b, succeeds b (f b)) → tended d0 d → tended d0 (d <| bots ::= update_row i f |>).
Proof.
  intros Hf [[H1 H2 H3 H4 H5] [H6 H7]].
  assert (∀ b, b ∈ bots d → ∃ b', b' ∈ update_row i f (bots d) ∧ succeeds b b') as Hup.
  { intros b Hb. eexists. split; [apply elem_of_update_where; by exists b|].
    case_match; [apply Hf|apply succeeds_refl]. }
  split; split; cbn; try done.
  - unfold update_row. rewrite (fmap_update_where bot_id); [done|]. intros b _ _. by destruct (Hf b).
  - unfold update_row. rewrite (fmap_update_where bot_telegram_bot_id); [done|]. intros b _ _.
    by destruct (Hf b) as (_ & _ & ? & _).
  - intros j Hj Hr. destruct (H5 j Hj Hr) as (b & Hb & Hh), (Hup b Hb) as (b' & Hb' & Hs).
    exists b'. split; [done|by eapply hosts_succeeds].
  - intros b Hb. destruct (H6 b Hb) as (b1 & Hb1 & Hs1), (Hup b1 Hb1) as (b2 & Hb2 & Hs2).
    exists b2. split; [done|by eapply succeeds_trans].
Qed.

Lemma tended_new_bot b d :
  bot_id b ∉ bot_id <$> bots d → bot_telegram_bot_id b ∉ bot_telegram_bot_id <$> bots d →
  tended d0 d → tended d0 (d <| bots ::= (λ t, t ++ [b]) |>).
Proof.
  intros Hi Ht [[H1 H2 H3 H4 H5] [H6 H7]]. split; split; cbn; rewrite ?fmap_app; try done.
  - by apply NoDup_snoc.
  - by apply NoDup_snoc.
  - intros j Hj Hr. destruct (H5 j Hj Hr) as (b' & Hb & Hh). exists b'. split; [apply elem_of_app; by left|done].
  - intros b' Hb. destruct (H6 b' Hb) as (b2 & Hb2 & Hs). exists b2. split; [apply elem_of_app; by left|done].
Qed.

(** Jobs that are not settled change, and a job becomes ready with its bot. *)
Lemma tended_jobs p f d :
  (∀ j, j ∈ provisioning_jobs d → p j = true →
     settled (bpj_status j) = false ∧ bpj_id (f j) = bpj_id j ∧ job_key (f j) = job_key j
     ∧ (bpj_status (f j) = ProvReady → ∃ b, b ∈ bots d ∧ hosts (f j) b)) →
  tended d0 d → tended d0 (d <| provisioning_jobs ::= update_where p f |>).
Proof.
  intros Hf [[H1 H2 H3 H4 H5] [H6 H7]]. split; split; cbn; try done.
  - rewrite (fmap_update_where bpj_id); [done|]. intros j Hj Hp. by destruct (Hf j Hj Hp) as (_ & ? & _).
  - rewrite (fmap_update_where job_key); [done|]. intros j Hj Hp. by destruct (Hf j Hj Hp) as (_ & _ & ? & _).
  - intros j (j0 & Hj & ->)%elem_of_update_where. destruct (p j0) eqn:Hp; [|by apply H5].
    by destruct (Hf j0 Hj Hp) as (_ & _ & _ & ?).
  - intros j Hj Hs. apply elem_of_update_where. exists j. split; [by apply H7|]. destruct (p j) eqn:Hp; [|done].
    destruct (Hf j (H7 j Hj Hs) Hp) as [Hn _]. congruence.
Qed.

Lemma tended_job i f d :
  (∀ j, j ∈ provisioning_jobs d → bpj_id j = i →
     settled (bpj_status j) = false ∧ bpj_id (f j) = bpj_id j ∧ job_key (f j) = job_key j
     ∧ (bpj_status (f j) = ProvReady → ∃ b, b ∈ bots d ∧ hosts (f j) b)) →
  tended d0 d → tended d0 (d <| provisioning_jobs ::= update_row i f |>).
Proof. intros Hf. apply tended_jobs. intros j Hj Hp%bool_decide_eq_true. by apply Hf. Qed.

Lemma tended_new_job j d :
  bpj_id j ∉ bpj_id <$> provisioning_jobs d → job_key j ∉ job_key <$> provisioning_jobs d →
  bpj_status j ≠ ProvReady → tended d0 d → tended d0 (d <| provisioning_jobs ::= (λ t, t ++ [j]) |>).
Proof.
  intros Hi Hk Hr [[H1 H2 H3 H4 H5] [H6 H7]]. split; split; cbn; rewrite ?fmap_app; try done.
  - by apply NoDup_snoc.
  - by apply NoDup_snoc.
  - intros x [Hx|Hx%list_elem_of_singleton]%elem_of_app; [by apply H5|by subst].
  - intros x Hx Hs. apply elem_of_app. left. by apply H7.
Qed.

(** The row a lookup finds is the only one with its id. *)
Lemma tended_unique i d j j' :
  tended d0 d → get_row i (provisioning_jobs d) = Some j → j' ∈ provisioning_jobs d → bpj_id j' = i → j' = j.
Proof.
  intros [[_ _ H3 _ _] _] [Hj Hi]%get_row_Some Hj' Hi'. eapply (NoDup_fmap_inj bpj_id); [done..|].
  rewrite Hi'. by symmetry.
Qed.

End tended.

(** ** Every operation keeps it *)

Section keeps.
  Context `{HE : Env} `{!Serial HE} `{Settings} `{Identities} (b_ : Backoff) (d0 : DB).

Abbreviation good := (both (tended d0)).
Abbreviation kept := (keeps good).

Hint Resolve both_commit both_rollback both_uuid4 both_send both_await : steps.

Lemma fleet_write f :
  (∀ d, bots (f d) = bots d ∧ provisioning_jobs (f d) = provisioning_jobs d) → steps kept (write f).
Proof. intros Hf. apply both_write. intros d. destruct (Hf d). by apply tended_rest. Qed.

Lemma kept_bot i f : (∀ b, succeeds b (f b)) → steps kept (update_bot i f).
Proof. intros Hf. apply both_write. intros d. by apply tended_bot. Qed.

Lemma kept_flush_bot i : steps kept (flush_bot i).
Proof. apply both_reads. unfold flush_bot, to_varchar_opt. steps_walk. Qed.

Lemma kept_audit t u action kind i details : steps kept (audit t u action kind i details).
Proof. unfold audit. steps_walk. by apply fleet_write. Qed.

Lemma kept__audit j action details : steps kept (_audit j action details).
Proof. unfold _audit. steps_walk. by apply fleet_write. Qed.

Hint Resolve kept_flush_bot kept_audit kept__audit : steps.

Lemma enter {A} (m : M A) : (∀ s, good s → ensures good m s) → steps kept m.
Proof. intros Hm s Hs. by apply Hm. Qed.

Lemma ensures_steps {A} (m : M A) s : good s → steps kept m → ensures good m s.
Proof. intros Hs Hm. by apply Hm. Qed.

Lemma ensures_write {A} f (k : M A) s :
  good s → (tended d0 (ses_db s) → tended d0 (f (ses_db s))) → steps kept k → ensures good (write f;; k) s.
Proof.
  intros [Hd Hc] Hf Hk. apply ensures_bind; [split; [by apply Hf|done]|]. intros [] s' _ Hs'. by apply Hk.
Qed.

Lemma in_session_kept {A} (m : M A) : steps kept m → steps kept (in_session m).
Proof. intros Hm s Hs. rewrite in_session_state. destruct (Hm s Hs) as [_ Hc]. by split. Qed.

Lemma in_request_kept {A} (m : M A) : steps kept m → steps kept (in_request m).
Proof. intros Hm. unfold in_request. steps_walk. Qed.

(** *** The worker *)

Lemma recover_kept : steps kept recover_stale_jobs.
Proof.
  unfold recover_stale_jobs. steps_walk. apply both_write. intros d. apply tended_jobs. intros j Hj Hl.
  unfold lease_expired in Hl. apply andb_true_iff in Hl as [Hs%bool_decide_eq_true _]. by rewrite Hs.
Qed.

Lemma due_unsettled n j : job_due n j = true → settled (bpj_status j) = false.
Proof. unfold job_due. by destruct (bpj_status j). Qed.

Lemma next_due_in n d j : next_due n d = Some j → j ∈ provisioning_jobs d ∧ job_due n j = true.
Proof.
  unfold next_due. intros Hh%head_Some_elem_of. apply elem_of_select. by apply elem_of_sort_by in Hh.
Qed.

Lemma claim_kept lease : steps kept (claim_next_job lease).
Proof.
  apply enter. intros s Hs. unfold claim_next_job. apply ensures_gets, ensures_gets. cbv beta.
  destruct (next_due _ _) as [j|] eqn:Hn; [|by apply ensures_ret]. apply next_due_in in Hn as [Hj Hdue].
  apply ensures_write; [done| |steps_walk]. intros Ht. apply tended_job; [|done]. intros x Hx Hi.
  assert (x = j) as ->; [|split_and!; [by eapply due_unsettled|done|done|done]].
  eapply (NoDup_fmap_inj bpj_id); [apply Ht|done..].
Qed.

(** A write to the job that was found, and is not settled. *)
Lemma ensures_job {A} i f (k : M A) s j :
  good s → get_row i (provisioning_jobs (ses_db s)) = Some j → settled (bpj_status j) = false →
  bpj_id (f j) = bpj_id j → job_key (f j) = job_key j →
  (bpj_status (f j) = ProvReady → ∃ b, b ∈ bots (ses_db s) ∧ hosts (f j) b) →
  steps kept k → ensures good (update_bpj i f;; k) s.
Proof.
  intros Hs Hj Hn Hi Hk Hr Hk'. apply ensures_write; [done| |done]. intros Ht. apply tended_job; [|done].
  intros x Hx Hxi. by rewrite (tended_unique _ _ _ _ _ Ht Hj Hx Hxi).
Qed.

Lemma mark_failure_kept i e : steps kept (_mark_failure b_ i e).
Proof.
  apply in_session_kept, enter. intros s Hs. apply ensures_gets. cbv beta.
  destruct (get_row i _) as [j|] eqn:Hj; [|by apply ensures_ret].
  destruct (bpj_status j != ProvRunning) eqn:Hr; [by apply ensures_ret|].
  apply negb_false_iff, bool_decide_eq_true in Hr. destruct (failure_of e) as [retryable code]. apply ensures_gets.
  cbv beta. case_match; eapply ensures_job; try done; try (by rewrite Hr); steps_walk.
Qed.

Lemma flush_bot_reads i : steps eq (flush_bot i).
Proof. unfold flush_bot, to_varchar_opt. steps_walk. Qed.

Lemma finish_kept j bot identity s :
  good s → get_row (bpj_id j) (provisioning_jobs (ses_db s)) = Some j → settled (bpj_status j) = false →
  (∃ b, b ∈ bots (ses_db s) ∧ bot_id b = bot ∧ bot_tenant_id b = bpj_tenant_id j
        ∧ bot_telegram_bot_id b = vtb_telegram_bot_id identity) →
  ensures good (finish_job j bot identity) s.
Proof.
  intros Hs Hj Hn (b & Hb & Hi & Ht & Hg). unfold finish_job. apply ensures_gets. cbv beta.
  eapply ensures_job; try done; [|steps_walk]. intros _. exists b. split; [done|]. split_and!; cbn; congruence.
Qed.

(** A read in front of a statement. *)
Lemma ensures_read {A B} (m : M A) (k : A → M B) s :
  good s → steps eq m → (∀ a, ensures good (k a) s) → ensures good (m ≫= k) s.
Proof.
  intros Hs Hm Hk. specialize (Hm s). unfold ensures, mbind, prog_bind.
  destruct (m s) as [[a|e] s']; cbn in Hm; subst; [apply Hk|done].
Qed.

Lemma ensures_then_write {A} f (k : M A) s :
  ensures good k (s <| ses_db ::= f |>) → ensures good (write f;; k) s.
Proof. done. Qed.

Lemma refreshed_succeeds j identity n b : succeeds b (refreshed_bot j identity n b).
Proof. unfold refreshed_bot. cbv zeta. destruct (_ != _); split_and!; cbn; done || lia. Qed.

Lemma insert_bot_spec j identity s :
  good s →
  wp (insert_bot j identity) (λ r s', match r with
    | Ok b => good s' ∧ b ∈ bots (ses_db s') ∧ bot_tenant_id b = bpj_tenant_id j
              ∧ bot_telegram_bot_id b = vtb_telegram_bot_id identity
              ∧ provisioning_jobs (ses_db s') = provisioning_jobs (ses_db s)
    | Raise _ => good s' end) s.
Proof.
  intros Hs.
  unfold insert_bot. apply wp_gets. eapply wp_step; [reflexivity|]. cbv zeta.
  eapply wp_step; [reflexivity|]. apply wp_gets.
  apply wp_guard; [|intros _; destruct Hs; split; [cbn; by rewrite serial_race|done]].
  intros Hclash%not_true_iff_false. eapply wp_step; [reflexivity|]. set (b := MkBot _ _ _ _ _ _ _ _ _ _ _ _ _ _ _ _).
  cbn in Hclash.
  rewrite serial_race in Hclash.
  assert (tended d0 ((env_race (ses_db s)) <| bots ::= (λ t, t ++ [b]) |>)) as Hd.
  { rewrite serial_race. destruct Hs as [Hd _].
    assert (∀ x, x ∈ bots (ses_db s) → bot_id x = bot_id b ∨ bot_telegram_bot_id x = bot_telegram_bot_id b → False) as Hf.
    { intros x Hin Hx. apply Hclash, existsb_exists. exists x. split; [by apply list_elem_of_In|].
      by apply orb_true_iff; rewrite !bool_decide_eq_true. }
    apply tended_new_bot; [intros (x & Hx & Hin)%list_elem_of_fmap_1..|done]; apply (Hf x); auto. }
  apply wp_read; [apply flush_bot_reads|intros _ _; apply wp_ret|intros e _].
  - split; [split; [exact Hd|apply Hs]|]. split_and!; try done; cbn; rewrite ?serial_race; [|done].
    apply elem_of_app. right. by apply list_elem_of_singleton.
  - split; [exact Hd|apply Hs].
Qed.

Lemma one_or_none_read {A} (l : list A) : steps eq (one_or_none l).
Proof. unfold one_or_none. steps_walk. Qed.

Lemma one_or_none_in {A} (l : list A) s x s' : one_or_none l s = (Ok (Some x), s') → x ∈ l.
Proof.
  unfold one_or_none, scalar_one_or_none. destruct l as [|y [|z l]]; cbn; intros Hr; [discriminate| |discriminate].
  injection Hr as ->. by apply list_elem_of_singleton.
Qed.

Lemma converge_kept i identity : steps kept (converge_bot i identity).
Proof.
  apply enter. intros s Hs. unfold converge_bot. apply ensures_gets. cbv beta.
  destruct (get_row i _) as [j|] eqn:Hj; [|by apply ensures_ret].
  destruct (bpj_status j != ProvRunning) eqn:Hr; [by apply ensures_ret|].
  apply negb_false_iff, bool_decide_eq_true in Hr.
  assert (settled (bpj_status j) = false) as Hn by (by rewrite Hr).
  assert (bpj_id j = i) as Hid by apply (get_row_Some _ _ _ Hj). subst i.
  apply ensures_gets, ensures_of_option; [done|]. intros tenant _. apply ensures_guard; [done|intros _].
  apply ensures_gets. cbv beta. apply ensures_bind; [by apply both_reads; [apply one_or_none_read|]|].
  intros found s' Hf _. pose proof (one_or_none_read (A := Bot)) as Hread.
  assert (s' = s) as -> by (specialize (Hread (select (λ b, bot_telegram_bot_id b == vtb_telegram_bot_id identity)
    (bots (ses_db s))) s); by rewrite Hf in Hread). destruct found as [b|].
  - apply one_or_none_in, elem_of_select in Hf as [Hb Hg%bool_decide_eq_true].
    apply ensures_guard; [done|]. intros Ht%negb_false_iff%bool_decide_eq_true. apply ensures_gets. cbv beta.
    apply ensures_then_write. set (s1 := s <| ses_db ::= _ |>).
    assert (good s1) as Hs1.
    { destruct Hs as [Hd Hc]. split; [|done]. apply tended_bot; [|done]. intros x. apply refreshed_succeeds. }
    apply ensures_read; [done|apply flush_bot_reads|intros _].
    apply ensures_bind; [|intros ? ? _ ?; by apply ensures_ret]. apply finish_kept; [done..|].
    eexists. split; [apply elem_of_update_where; exists b; split; [done|by rewrite bool_decide_eq_true_2]|].
    destruct (refreshed_succeeds j identity (env_clock (ses_draws s)) b) as (? & ? & ? & _). split_and!; congruence.
  - pose proof (insert_bot_spec j identity s Hs) as Hi. unfold ensures, mbind at 1, prog_bind.
    unfold wp in Hi. destruct (insert_bot j identity s) as [[b|e] s1]; [|done]. cbn in Hi. destruct Hi as (Hs1 & Hb & Ht & Hg & Hjobs).
    apply (ensures_bind good); [|intros ? ? _ ?; by apply ensures_ret].
    apply finish_kept; [done|by rewrite Hjobs|done|eauto].
Qed.

Lemma process_job_kept j : steps kept (process_job b_ j).
Proof.
  unfold process_job. apply steps_catch; [typeclasses eauto| |intros e].
  - apply steps_bind; [typeclasses eauto|apply both_reads; unfold identify; steps_walk|intros identity].
    apply in_session_kept, converge_kept.
  - pose proof mark_failure_kept. steps_walk.
Qed.

(** *** The handlers *)

Lemma access_reads t : steps eq (resolve_commercial_access t).
Proof. unfold resolve_commercial_access, get_tenant_subscription. steps_walk. Qed.

Lemma entitlements_read t : steps eq (resolve_tenant_entitlements t).
Proof. unfold resolve_tenant_entitlements, get_tenant_subscription. steps_walk. Qed.

Lemma mutation_reads t : steps eq (_require_commercial_mutation t).
Proof. pose proof access_reads. unfold _require_commercial_mutation, require_commercial_access. steps_walk. Qed.

Lemma limits_read t : steps eq (_tenant_entitlements_or_503 t).
Proof. pose proof entitlements_read. unfold _tenant_entitlements_or_503. steps_walk. Qed.

Lemma feature_reads t feature : steps eq (_require_product_feature t feature).
Proof.
  pose proof access_reads. pose proof entitlements_read.
  unfold _require_product_feature, require_feature_entitlement, resolve_product_entitlements. steps_walk.
Qed.

Lemma capacity_reads t enabled : steps eq (_enforce_factory_capacity t enabled).
Proof. pose proof mutation_reads. pose proof limits_read. unfold _enforce_factory_capacity. steps_walk. Qed.

Lemma profile_reads t config : steps eq (_validate_resolved_business_profile t config).
Proof. unfold _validate_resolved_business_profile, validate_business_profile_for_tenant, scalar. steps_walk. Qed.

Lemma request_config_reads r : steps eq (_resolved_request_config r).
Proof. unfold _resolved_request_config, unprocessable. steps_walk. Qed.

Lemma own_job_reads p i : steps eq (own_job p i).
Proof. unfold own_job. steps_walk. Qed.

Lemma own_bot_reads p i : steps eq (own_bot p i).
Proof. unfold own_bot. steps_walk. Qed.

Lemma own_job_found p i s j s' :
  own_job p i s = (Ok j, s') → s' = s ∧ get_row i (provisioning_jobs (ses_db s)) = Some j.
Proof.
  intros Hr. pose proof (own_job_reads p i s) as Hs. rewrite Hr in Hs. cbn in Hs. subst s'. split; [done|].
  unfold own_job in Hr. bind_query Hr. bind_some Hr x Hx. bind_guard Hr Hg. by apply ret_inv in Hr as [[= ->] _].
Qed.

Lemma kept_bot_audit p action i details : steps kept (bot_audit p action i details).
Proof. apply kept_audit. Qed.

Lemma kept_store_token r t : steps kept (store_token r t).
Proof. unfold store_token, set_secret. steps_walk. Qed.

Hint Resolve kept_bot_audit kept_store_token : steps.

Lemma insert_job_kept j : bpj_status j ≠ ProvReady → steps kept (insert_job j).
Proof.
  intros Hn. apply enter. intros s Hs. unfold insert_job.
  apply ensures_bind; [by apply both_await|]. intros [] s1 _ Hs1. apply ensures_gets. cbv beta.
  destruct (existsb _ _) eqn:Hclash; [by apply ensures_ret|]. apply not_true_iff_false in Hclash.
  do 5 (apply ensures_read; [done|unfold to_varchar_opt; steps_walk|intros _]).
  apply ensures_write; [done| |steps_walk]. intros Hd.
  assert (∀ x, x ∈ provisioning_jobs (ses_db s1) → bpj_id x = bpj_id j ∨ job_key x = job_key j → False) as Hf.
  { intros x Hin Hx. apply Hclash, existsb_exists. exists x. split; [by apply list_elem_of_In|].
    apply orb_true_iff. rewrite andb_true_iff, !bool_decide_eq_true. destruct Hx as [?|[= ? ?]]; auto. }
  apply tended_new_job; [intros (x & Hx & Hin)%list_elem_of_fmap_1..|done|done]; apply (Hf x); auto.
Qed.

Lemma request_kept p key req : steps kept (request_bot_provisioning p key req).
Proof.
  pose proof (λ r, both_reads (tended d0) _ (request_config_reads r)). pose proof (λ t c, both_reads (tended d0) _ (profile_reads t c)).
  pose proof (λ t f, both_reads (tended d0) _ (feature_reads t f)). pose proof (λ t e, both_reads (tended d0) _ (capacity_reads t e)).
  pose proof (λ l, both_reads (tended d0) _ (one_or_none_read (A := BotProvisioningJob) l)).
  unfold request_bot_provisioning. cbv zeta.
  do 6 (apply steps_bind; [typeclasses eauto|by steps_walk|intros ?]). case_match; [steps_walk|].
  do 4 (apply steps_bind; [typeclasses eauto|by steps_walk|intros ?]).
  apply steps_bind; [typeclasses eauto|by apply insert_job_kept|intros raced]. steps_walk.
Qed.

Lemma retry_kept p i : steps kept (retry_provisioning_job p i).
Proof.
  apply enter. intros s Hs. unfold retry_provisioning_job.
  apply ensures_bind; [by apply both_reads; [apply own_job_reads|]|]. intros j s' [-> Hj]%own_job_found _.
  apply ensures_guard; [done|]. intros Hst%negb_false_iff%bool_decide_eq_true.
  apply ensures_read; [done|apply mutation_reads|intros _]. eapply ensures_job; try done; [by rewrite Hst|steps_walk].
Qed.

Lemma cancel_kept p i : steps kept (cancel_provisioning_job p i).
Proof.
  apply enter. intros s Hs. unfold cancel_provisioning_job.
  apply ensures_bind; [by apply both_reads; [apply own_job_reads|]|]. intros j s' [-> Hj]%own_job_found _.
  apply ensures_guard; [done|]. intros Hst. apply ensures_gets. cbv beta.
  eapply ensures_job; try done; [by destruct (bpj_status j)|steps_walk].
Qed.

Lemma credential_failed_kept {A} p i status error details code :
  steps kept (credential_failed (A := A) p i status error details code).
Proof. unfold credential_failed. steps_walk. apply kept_bot. intros b. split_and!; done || cbn; lia. Qed.

Lemma verify_kept p i : steps kept (verify_bot_credential p i).
Proof.
  pose proof (both_reads (tended d0) _ (own_bot_reads p i)). pose proof (@credential_failed_kept).
  unfold verify_bot_credential. steps_walk. apply kept_bot. intros b. split_and!; done || cbn; lia.
Qed.

Lemma rotate_kept p i token : steps kept (rotate_bot_credential p i token).
Proof.
  pose proof (both_reads (tended d0) _ (own_bot_reads p i)). unfold rotate_bot_credential, set_secret. steps_walk.
  all: apply kept_bot; intros b; split_and!; done || cbn; lia.
Qed.

Lemma restart_kept p i : steps kept (restart_bot_runtime p i).
Proof.
  pose proof (both_reads (tended d0) _ (own_bot_reads p i)). pose proof (λ t f, both_reads (tended d0) _ (feature_reads t f)).
  unfold restart_bot_runtime. steps_walk. apply kept_bot. intros b. split_and!; done || cbn; lia.
Qed.

Lemma configure_kept p i req : steps kept (update_bot_configuration p i req).
Proof.
  pose proof (both_reads (tended d0) _ (own_bot_reads p i)). pose proof (λ t f, both_reads (tended d0) _ (feature_reads t f)).
  pose proof (λ t c, both_reads (tended d0) _ (profile_reads t c)).
  unfold update_bot_configuration, unprocessable. cbv zeta. steps_walk.
  all: apply kept_bot; intros b; case_match; split_and!; done || cbn; lia.
Qed.

Lemma channel_kept p i c : steps kept (set_bot_release_channel p i c).
Proof.
  pose proof (both_reads (tended d0) _ (own_bot_reads p i)). pose proof (λ t f, both_reads (tended d0) _ (feature_reads t f)).
  unfold set_bot_release_channel. steps_walk. all: apply kept_bot; intros b; split_and!; done || cbn; lia.
Qed.

Lemma state_kept p i e : steps kept (set_bot_state p i e).
Proof.
  pose proof (both_reads (tended d0) _ (own_bot_reads p i)). pose proof (λ t, both_reads (tended d0) _ (mutation_reads t)).
  pose proof (λ t, both_reads (tended d0) _ (limits_read t)).
  unfold set_bot_state. cbv zeta. steps_walk. all: apply kept_bot; intros b; split_and!; done || cbn; lia.
Qed.

End keeps.

(** ** Histories *)

(** A request of a tenant, or one of the worker's sessions: each session of a
    worker is a step of its own, for any job and any identity, so the steps of
    several workers interleave freely. *)
Inductive FleetEvent :=
  | FeRequest (p : AuthenticatedPrincipal) (key : string) (req : BotProvisionRequest)
  | FeRetry (p : AuthenticatedPrincipal) (job : UUID)
  | FeCancel (p : AuthenticatedPrincipal) (job : UUID)
  | FeVerify (p : AuthenticatedPrincipal) (bot : UUID)
  | FeRotate (p : AuthenticatedPrincipal) (bot : UUID) (token : string)
  | FeRestart (p : AuthenticatedPrincipal) (bot : UUID)
  | FeConfigure (p : AuthenticatedPrincipal) (bot : UUID) (req : BotConfigurationRequest)
  | FeChannel (p : AuthenticatedPrincipal) (bot : UUID) (channel : string)
  | FeState (p : AuthenticatedPrincipal) (bot : UUID) (is_enabled : bool)
  | FeRecover
  | FeClaim (lease : Z)
  | FeConverge (job : UUID) (identity : VerifiedTelegramBot)
  | FeFail (job : UUID) (e : exn).

Section fleet.
  Context `{HE : Env} `{Settings} `{Identities} (b_ : Backoff).

Definition run_fleet_event (ev : FleetEvent) (s : Session) : Session :=
  match ev with
  | FeRequest p key req => (in_request (request_bot_provisioning p key req) s).2
  | FeRetry p i => (in_request (retry_provisioning_job p i) s).2
  | FeCancel p i => (in_request (cancel_provisioning_job p i) s).2
  | FeVerify p i => (in_request (verify_bot_credential p i) s).2
  | FeRotate p i token => (in_request (rotate_bot_credential p i token) s).2
  | FeRestart p i => (in_request (restart_bot_runtime p i) s).2
  | FeConfigure p i req => (in_request (update_bot_configuration p i req) s).2
  | FeChannel p i c => (in_request (set_bot_release_channel p i c) s).2
  | FeState p i e => (in_request (set_bot_state p i e) s).2
  | FeRecover => (in_session recover_stale_jobs s).2
  | FeClaim lease => (in_session (claim_next_job lease) s).2
  | FeConverge i identity => (in_session (converge_bot i identity) s).2
  | FeFail i e => (_mark_failure b_ i e s).2
  end.

Definition run_fleet (evs : list FleetEvent) (s : Session) : Session := foldl (λ s ev, run_fleet_event ev s) s evs.

Lemma run_fleet_tended `{!Serial HE} d0 evs s : both (tended d0) s → both (tended d0) (run_fleet evs s).
Proof.
  revert s. induction evs as [|ev evs IH]; intros s Hs; [done|]. apply IH.
  destruct ev; cbn [run_fleet_event]; revert s Hs;
    match goal with
    | |- ∀ s, _ → both _ (in_request ?m s).2 => change (steps (keeps (both (tended d0))) (in_request m))
    | |- ∀ s, _ → both _ (in_session ?m s).2 => change (steps (keeps (both (tended d0))) (in_session m))
    | |- ∀ s, _ → both _ (?m s).2 => change (steps (keeps (both (tended d0))) m)
    end;
    first [by apply mark_failure_kept | apply in_request_kept | apply in_session_kept];
    eauto using request_kept, retry_kept, cancel_kept, verify_kept, rotate_kept, restart_kept, configure_kept,
      channel_kept, state_kept, recover_kept, claim_kept, converge_kept.
Qed.

End fleet.

Lemma evolved_refl d : evolved d d.
Proof. split; [|done]. intros b Hb. exists b. split; [done|apply succeeds_refl]. Qed.

(** [C20] A Telegram bot belongs to one tenant, for good.  After any history of
    requests and of interleaved sessions of the provisioning workers, whatever
    identities Telegram reports: no two bots share a Telegram identity, no two
    jobs of a tenant share an idempotency key, every READY job names a bot of
    its own tenant with the identity that was verified; every bot of before is
    still there, of the same tenant and identity, with a credential version and
    a runtime revision that have not gone back; and a READY or CANCELLED job is
    as it was. *)
Theorem bot_ownership_kept `{HE : Env} `{Settings} `{Identities} b_ evs s :
  Serial HE → persisted s → fleet_ok (ses_db s) →
  fleet_ok (ses_db (run_fleet b_ evs s)) ∧ evolved (ses_db s) (ses_db (run_fleet b_ evs s)).
Proof.
  intros HS Hp Hok. apply (run_fleet_tended b_ (ses_db s) evs s). unfold persisted in Hp. unfold both. rewrite Hp.
  split; (split; [done|apply evolved_refl]).
Qed.

(** ** A claimed job is settled *)

Section settles.
  Context `{HE : Env} `{!Serial HE} `{Settings} `{Identities} (b_ : Backoff).

(** The row of a job, in the database and committed. *)
Definition stored_job (i : UUID) (j : BotProvisioningJob) (s : Session) : Prop :=
  persisted s ∧ get_row i (provisioning_jobs (ses_db s)) = Some j.

Lemma finish_settles j bot identity s :
  get_row (bpj_id j) (provisioning_jobs (ses_db s)) = Some j →
  ∃ s' j', finish_job j bot identity s = (Ok tt, s') ∧ stored_job (bpj_id j) j' s' ∧ bpj_status j' = ProvReady.
Proof.
  intros Hj. eexists _, _. split; [reflexivity|]. split; [split; [done|]|].
  - cbn. rewrite get_update_same; [|done]. rewrite Hj. done.
  - done.
Qed.

Lemma committed_insert_bot j identity : steps same_committed (insert_bot j identity).
Proof. unfold insert_bot, flush_bot, to_varchar_opt. steps_walk. Qed.

Lemma insert_bot_jobs j identity s b s' :
  insert_bot j identity s = (Ok b, s') → provisioning_jobs (ses_db s') = provisioning_jobs (ses_db s).
Proof.
  intros Hr. unfold insert_bot in Hr. apply bind_inv_ok in Hr as (n & s1 & [_ ->]%gets_inv & Hr).
  apply bind_inv_ok in Hr as (i & s2 & Hi & Hr). injection Hi as <- <-. cbv zeta in Hr.
  bind_write Hr. bind_query Hr. bind_guard Hr Hg. bind_write Hr.
  apply bind_inv_ok in Hr as (u & s3 & Hf & [_ ->]%ret_inv). pose proof (flush_bot_reads (env_uuid4 (ses_draws s))) as He.
  apply (steps_run eq) in Hf; [|apply He]. subst s3. cbn. by rewrite serial_race.
Qed.

Lemma converge_settles i identity s j :
  stored_job i j s → bpj_status j = ProvRunning →
  wp (converge_bot i identity) (λ r s', match r with
    | Ok done => done = true ∧ ∃ j', stored_job i j' s' ∧ bpj_status j' = ProvReady
    | Raise _ => ses_committed s' = ses_committed s
    end) s.
Proof.
  intros [Hp Hj] Hr. assert (bpj_id j = i) as Hi by apply (get_row_Some _ _ _ Hj). subst i.
  assert (∀ s1 bot, get_row (bpj_id j) (provisioning_jobs (ses_db s1)) = Some j →
    wp (finish_job j bot identity;; mret true) (λ r s', match r with
      | Ok done => done = true ∧ ∃ j', stored_job (bpj_id j) j' s' ∧ bpj_status j' = ProvReady
      | Raise _ => ses_committed s' = ses_committed s
      end) s1) as Hfin.
  { intros s1 bot Hj1. destruct (finish_settles j bot identity s1 Hj1) as (s' & j' & Hf & Hs' & Hst).
    eapply wp_step; [exact Hf|]. apply wp_ret. eauto. }
  unfold converge_bot. apply wp_gets. rewrite Hj. rewrite Hr, bool_decide_eq_true_2 by done. cbn [negb].
  apply wp_gets, wp_of_option; [intros tenant _|done]. apply wp_guard; [intros _|done]. apply wp_gets.
  apply wp_read; [apply one_or_none_read|intros found _|done]. destruct found as [b|].
  - apply wp_guard; [intros _|done]. apply wp_gets. eapply wp_step; [reflexivity|].
    apply wp_read; [apply flush_bot_reads|intros _ _|done]. by apply Hfin.
  - apply wp_bind. pose proof (committed_insert_bot j identity s) as Hc.
    pose proof (insert_bot_jobs j identity s) as Hjobs. unfold wp at 1. destruct (insert_bot j identity s) as [[b|e] s1];
      [|done]. cbn. apply Hfin. by rewrite (Hjobs b s1 eq_refl).
Qed.

(** A session that ends with its commit. *)
Lemma wp_session {A} (m : M A) Q s : wp m (λ r s', persisted s' ∧ Q r s') s → wp (in_session m) Q s.
Proof.
  unfold wp. rewrite in_session_state. destruct (m s) as [r s']; cbn. intros [Hp HQ]. unfold persisted in Hp.
  destruct s'; cbn in *. by subst.
Qed.

Lemma mark_failure_settles i e s j :
  stored_job i j s → bpj_status j = ProvRunning →
  wp (_mark_failure b_ i e) (λ r s', r = Ok tt ∧ ∃ j', stored_job i j' s'
    ∧ (bpj_status j' = ProvRetry ∧ bpj_attempt_count j' = bpj_attempt_count j ∧ bpj_max_attempts j' = bpj_max_attempts j
         ∧ bpj_attempt_count j < bpj_max_attempts j
         ∧ bpj_next_attempt_at j' = Some (env_clock (ses_draws s) + seconds (retry_delay b_ (bpj_attempt_count j)))
       ∨ bpj_status j' = ProvFailed ∧ bpj_completed_at j' = Some (env_clock (ses_draws s)))) s.
Proof.
  intros [Hp Hj] Hr. apply wp_session, wp_gets. rewrite Hj, Hr, bool_decide_eq_true_2 by done. cbn [negb].
  destruct (failure_of e) as [retryable code]. apply wp_gets.
  assert (∀ f s', (∀ x, bpj_id (f x) = bpj_id x) → ses_db s' = ses_db s →
    get_row i (provisioning_jobs (ses_db (s' <| ses_db ::= (λ d, d <| provisioning_jobs ::= update_row i f |>) |>)))
    = Some (f j)) as Hrow.
  { intros f s' Hf Hs'. cbn. rewrite Hs', get_update_same; [|done]. by rewrite Hj. }
  destruct (retryable && _) eqn:Hc.
  - apply andb_true_iff in Hc as [_ Hlt%Z.ltb_lt]. eapply wp_step; [reflexivity|].
    split; [done|]. split; [done|]. eexists. split; [split; [done|by apply Hrow]|]. left. by split_and!.
  - eapply wp_step; [reflexivity|]. eapply wp_step; [reflexivity|].
    split; [done|]. split; [done|]. eexists. split; [split; [done|by apply Hrow]|]. by right.
Qed.

Lemma claim_stores lease s j :
  NoDup (bpj_id <$> provisioning_jobs (ses_db s)) → next_due (env_clock (ses_draws s)) (ses_db s) = Some j →
  let j1 := claimed lease (env_clock (ses_draws s)) j in
  wp (in_session (claim_next_job lease)) (λ r s1, r = Ok (Some j1) ∧ stored_job (bpj_id j) j1 s1) s.
Proof.
  intros Hnd Hn. cbv zeta. apply wp_session, wp_gets, wp_gets. rewrite Hn.
  eapply wp_step; [reflexivity|]. eapply wp_step; [reflexivity|]. apply wp_ret. split; [done|]. split; [done|].
  split; [done|]. cbn. rewrite get_update_same; [|done]. apply next_due_in in Hn as [Hin _].
  assert (get_row (bpj_id j) (provisioning_jobs (ses_db s)) = Some j) as -> by (by apply get_row_member). done.
Qed.

Lemma process_job_settles j s :
  stored_job (bpj_id j) j s → bpj_status j = ProvRunning →
  wp (process_job b_ j) (λ r s', is_ok r = true ∧ ∃ j', stored_job (bpj_id j) j' s'
    ∧ (bpj_status j' = ProvReady
       ∨ bpj_status j' = ProvRetry ∧ bpj_attempt_count j' = bpj_attempt_count j ∧ bpj_attempt_count j' < bpj_max_attempts j'
         ∧ is_Some (bpj_next_attempt_at j')
       ∨ bpj_status j' = ProvFailed ∧ is_Some (bpj_completed_at j'))) s.
Proof.
  intros Hs Hr. unfold process_job. apply wp_catch.
  assert (∀ e s1, ses_committed s1 = ses_committed s → ses_db s1 = ses_committed s1 →
    wp (_mark_failure b_ (bpj_id j) e;; mret false) (λ r s', is_ok r = true ∧ ∃ j', stored_job (bpj_id j) j' s'
    ∧ (bpj_status j' = ProvReady
       ∨ bpj_status j' = ProvRetry ∧ bpj_attempt_count j' = bpj_attempt_count j ∧ bpj_attempt_count j' < bpj_max_attempts j'
         ∧ is_Some (bpj_next_attempt_at j')
       ∨ bpj_status j' = ProvFailed ∧ is_Some (bpj_completed_at j'))) s1) as Hfail.
  { intros e s1 Hc Hd. apply wp_bind. eapply wp_mono; [apply (mark_failure_settles _ _ _ j); [|done]|].
    - destruct Hs as [Hp Hj]. split; [done|]. by rewrite Hd, Hc, Hp.
    - intros r s' [-> (j' & Hs' & Hst)]. apply wp_ret. split; [done|]. exists j'. split; [done|]. right.
      destruct Hst as [(? & Ha & Hm & Hlt & Hn)|[? Hc']]; [left|right; split; [done|by rewrite Hc']].
      split_and!; [done|done|congruence|by rewrite Hn]. }
  apply wp_read; [unfold identify; steps_walk|intros identity _|intros e _; apply Hfail; [done|by destruct Hs]].
  unfold wp at 1. rewrite in_session_state. pose proof (converge_settles _ identity s j Hs Hr) as Hcv. unfold wp in Hcv.
  destruct (converge_bot (bpj_id j) identity s) as [[done_|e] s']; cbn in Hcv |- *.
  - destruct Hcv as [_ (j' & [Hp' Hj'] & Hst)]. split; [done|]. exists j'. split; [|by left].
    split; [done|]. cbn. by rewrite Hp'.
  - by apply Hfail.
Qed.

End settles.

(** ** A repeated request and a rotated credential *)

Section replay.
  Context `{HE : Env} `{Settings} `{Identities}.

Lemma validated_token req r : validate_provision_request req = Ok r → bpr_bot_token r = bpr_bot_token req.
Proof.
  unfold validate_provision_request. cbv zeta.
  do 2 match goal with |- (if ?c then _ else _) = _ → _ => destruct c; [done|] end.
  destruct (bpr_token_secret_ref (req <| bpr_expected_username ::= _ |>)) as [v|].
  - destruct (validate_secret_ref v); [|done]. case_match; [done|]. by intros [= <-].
  - case_match; [|done]. by intros [= <-].
Qed.

(** A request whose key was used before: nothing but the token is written. *)
Lemma replayed p key req s j s' :
  request_bot_provisioning p key req s = (Ok j, s') → jobs_by_key (principal_tenant_id p) key (ses_db s) ≠ [] →
  truthy (bpr_bot_token req) = true →
  ses_db s' = ses_db s ∧
  ses_sent s' = ses_sent s ++ [SentSecret (credential_of (principal_tenant_id p) key req).1 (default "" (bpr_bot_token req))].
Proof.
  intros Hr Hex Ht. unfold request_bot_provisioning in Hr. bind_guard Hr Hkey. bind_value Hr r Hval.
  apply validated_token in Hval.
  apply bind_inv_ok in Hr as (config & s1 & Hc & Hr). apply (steps_run eq) in Hc; [|apply request_config_reads]. subst s1.
  apply bind_inv_ok in Hr as (resolved & s1 & Hc & Hr). apply (steps_run eq) in Hc; [|apply profile_reads]. subst s1.
  cbv zeta in Hr. bind_query Hr. apply bind_inv_ok in Hr as (existing & s1 & Hone & Hr).
  pose proof Hone as Hs1. apply (steps_run eq) in Hs1; [|apply one_or_none_read]. subst s1.
  destruct existing as [j0|].
  - bind_guard Hr Hfp. apply bind_inv_ok in Hr as (u & s1 & Hst & [_ ->]%ret_inv).
    unfold store_token, credential_of in *. rewrite Hval, Ht in *. unfold set_secret, send in Hst.
    apply modify_inv in Hst as [_ ->]. done.
  - exfalso. apply Hex. unfold one_or_none, scalar_one_or_none in Hone. by destruct (jobs_by_key _ _ _) as [|x [|y l]].
Qed.

Lemma rotated p i new s u s1 b :
  rotate_bot_credential p i new s = (Ok u, s1) → get_row i (bots (ses_db s)) = Some b →
  ses_sent s1 = ses_sent s ++ [SentSecret (bot_token_secret_ref b) (strip new)] ∧
  bot_credential_version <$> get_row i (bots (ses_db s1)) = Some (bot_credential_version b + 1).
Proof.
  intros Hr Hb. unfold rotate_bot_credential in Hr. apply bind_inv_ok in Hr as (b' & s0 & Hown & Hr).
  pose proof Hown as Hs0. apply (steps_run eq) in Hs0; [|apply own_bot_reads]. subst s0.
  assert (b' = b) as ->.
  { unfold own_bot in Hown. bind_query Hown. rewrite Hb in Hown. bind_some Hown x Hx. injection Hx as ->.
    bind_guard Hown Hg. by apply ret_inv in Hown as [[= ->] _]. }
  apply bind_inv_ok in Hr as (n & s0 & [_ ->]%gets_inv & Hr).
  apply bind_inv_ok in Hr as (identity & s0 & Hv & Hr).
  assert (s0 = s) as -> by (destruct (verify_identity n (strip new)) as [x|[]]; by injection Hv).
  bind_guard Hr Hg. apply bind_inv_ok in Hr as (? & s0 & [_ ->]%modify_inv & Hr). bind_write Hr.
  apply bind_inv_ok in Hr as (? & s0 & Ha & Hr). unfold bot_audit, audit in Ha.
  apply bind_inv_ok in Ha as (k & s2 & Hk & [_ ->]%write_inv). injection Hk as _ <-.
  apply bind_inv_ok in Hr as (? & s0 & Hf & [_ ->]%ret_inv). apply (steps_run eq) in Hf; [|apply flush_bot_reads].
  subst s0. split; [done|]. cbn. rewrite get_update_same; [|done]. rewrite Hb. cbn. f_equal. lia.
Qed.

End replay.

Lemma in_request_ok {A} (m : M A) s a s' :
  in_request m s = (Ok a, s') → ∃ s1, m s = (Ok a, s1) ∧ ses_db s' = ses_db s1 ∧ ses_sent s' = ses_sent s1.
Proof.
  unfold in_request. intros [Hr|(e & s1 & _ & Hr)]%catch_inv_ok.
  - apply bind_inv_ok in Hr as (x & s1 & Hm & Hr). unfold commit, mbind, prog_bind in Hr. cbn in Hr.
    injection Hr as -> <-. eauto.
  - unfold mbind, prog_bind in Hr. by cbn in Hr.
Qed.

(** Repeating the request that created a bot undoes the rotation of its
    credential.  After a rotation the secret store holds the new token under
    the bot's reference; when the client then repeats the provisioning request,
    with the same idempotency key, the old token is stored again under that
    reference, while the bot's row still says that the rotated credential is
    verified. *)
Theorem replay_undoes_rotation `{HE : Env} `{Settings} `{Identities} p i new key req b s u s1 j s2 :
  (∀ l ref_ value, stored_secret (l ++ [SentSecret ref_ value]) ref_ = Some value) →
  get_row i (bots (ses_db s)) = Some b → in_request (rotate_bot_credential p i new) s = (Ok u, s1) →
  in_request (request_bot_provisioning p key req) s1 = (Ok j, s2) →
  jobs_by_key (principal_tenant_id p) key (ses_db s1) ≠ [] → truthy (bpr_bot_token req) = true →
  bot_token_secret_ref b = (credential_of (principal_tenant_id p) key req).1 →
  stored_secret (ses_sent s1) (bot_token_secret_ref b) = Some (strip new)
  ∧ stored_secret (ses_sent s2) (bot_token_secret_ref b) = bpr_bot_token req
  ∧ bots (ses_db s2) = bots (ses_db s1)
  ∧ bot_credential_version <$> get_row i (bots (ses_db s2)) = Some (bot_credential_version b + 1).
Proof.
  intros Hvault Hb (s1' & Hrot & Hd1 & Hs1)%in_request_ok (s2' & Hreq & Hd2 & Hs2)%in_request_ok Hex Ht Href.
  destruct (rotated _ _ _ _ _ _ _ Hrot Hb) as [Hsent Hver], (replayed _ _ _ _ _ _ Hreq Hex Ht) as [Hdb Hsent'].
  split_and!.
  - by rewrite Hs1, Hsent.
  - rewrite Hs2, Hsent', Href, Hvault. by destruct (bpr_bot_token req).
  - by rewrite Hd2, Hdb.
  - by rewrite Hd2, Hdb, Hd1.
Qed.

(** ** At work *)

(** The secrets are what was stored last; the identity is the number in front
    of the token. *)
Definition demo_identities : Identities := {|
  stored_secret sent ref_ :=
    foldl (λ acc m, match m with SentSecret r v => if r == ref_ then Some v else acc | _ => acc end) None sent;
  verify_identity n token :=
    match int_of_str (of_chars (break_at (λ c, c == ":"%char) (chars token)).1) with
    | Some i => Ok (MkVerifiedTelegramBot i (Some "shop_bot") "Shop")
    | None => Raise (ProvisioningError "TELEGRAM_TOKEN_UNAUTHORIZED" false)
    end;
|}.

Lemma demo_vault l ref_ value : @stored_secret demo_identities (l ++ [SentSecret ref_ value]) ref_ = Some value.
Proof. cbn. rewrite foldl_app. cbn. by rewrite bool_decide_eq_true_2. Qed.

(** One bot per tenant. *)
Definition one_bot : Settings := {|
  factory_max_bots_per_tenant := 1;
  factory_max_enabled_bots_per_tenant := 1;
  factory_max_open_provisioning_jobs_per_tenant := 2;
  billing_provider := "stripe"; stripe_secret_key := None; stripe_webhook_secret := None;
  billing_webhook_tolerance_seconds := 300; billing_past_due_grace_days := 7; billing_reconcile_enabled := false;
  billing_success_url := None; billing_cancel_url := None; billing_portal_return_url := None;
|}.

Definition shop_owner : AuthenticatedPrincipal := MkPrincipal (mk_uuid "t") (mk_uuid "u").

Definition shop_request (token : string) : BotProvisionRequest :=
  MkBotProvisionRequest None (Some token) None (Some "My shop") true None None None None [] None None None 5.

Definition factory_session : Session :=
  let d := empty_db <| tenants := [MkTenant (mk_uuid "t") "Shop" true [] None] |> in MkSession d d 0 [].

Definition demo_backoff : Backoff := MkBackoff 60 5 300.

Definition token_a : string := "11111:AAAAAAAAAAAAAAAAAAAAAA".
Definition token_b : string := "22222:BBBBBBBBBBBBBBBBBBBBBB".
Definition token_c : string := "11111:CCCCCCCCCCCCCCCCCCCCCC".

(** A job for the first bot, and one for a second. *)
Definition requested : Session :=
  @run_fleet billing_env one_bot demo_identities demo_backoff
    [FeRequest shop_owner "key-aaaa" (shop_request token_a); FeRequest shop_owner "key-bbbbb" (shop_request token_b)]
    factory_session.

Definition one_cycle (s : Session) : Session := (@process_one billing_env demo_identities demo_backoff s).2.

(** A tenant that may have one bot gets two: the second request was accepted
    while the first job was still open, and the worker does not look at the
    limit. *)
Example bot_limit_exceeded :
  ent_max_bots (@self_hosted one_bot) = 1 ∧
  bot_telegram_bot_id <$> bots (ses_db (one_cycle (one_cycle requested))) = [11111; 22222].
Proof. vm_compute. done. Qed.

(** [recover_stale_jobs] does not look at the number of attempts: a job whose
    worker dies is tried again however often it was tried. *)
Example stale_job_retried_for_ever :
  let job := MkBotProvisioningJob (mk_uuid "j") (mk_uuid "t") None None "key-aaaa" "f" "REF" None None true []
               ProvRunning 99 1 None (Some 0) (Some 0) None None None None None 0 in
  let s := factory_session <| ses_db ::= (λ d, d <| provisioning_jobs := [job] |>) |> <| ses_draws := 5%nat |> in
  (λ j, (bpj_status j, bpj_attempt_count j)) <$>
    next_due 5 (ses_db (@recover_stale_jobs billing_env s).2) = Some (ProvRetry, 99).
Proof. vm_compute. done. Qed.

Lemma factory_session_ok : fleet_ok (ses_db factory_session).
Proof. split; cbn; try apply NoDup_nil_2. by intros j Hj%elem_of_nil. Qed.

Definition fleet_events : list FleetEvent :=
  [FeRequest shop_owner "key-aaaa" (shop_request token_a); FeClaim 60;
   FeConverge (mk_uuid "uuid-0") (MkVerifiedTelegramBot 11111 (Some "shop_bot") "Shop");
   FeFail (mk_uuid "uuid-0") RuntimeError].

Lemma bot_ownership_kept_witness :
  let s' := @run_fleet billing_env one_bot demo_identities demo_backoff fleet_events factory_session in
  (length (bots (ses_db s')) = 1%nat ∧ bpj_status <$> provisioning_jobs (ses_db s') = [ProvReady])
  ∧ fleet_ok (ses_db s') ∧ evolved (ses_db factory_session) (ses_db s').
Proof.
  split; [vm_compute; done|].
  refine (@bot_ownership_kept billing_env one_bot demo_identities demo_backoff fleet_events factory_session
            billing_env_serial eq_refl factory_session_ok).
Defined.

Lemma requested_ok : fleet_ok (ses_db requested).
Proof.
  exact (proj1 (proj1 (@run_fleet_tended billing_env one_bot demo_identities demo_backoff billing_env_serial _ _ _
    (conj (conj factory_session_ok (evolved_refl _)) (conj factory_session_ok (evolved_refl _)))))).
Qed.

Lemma requested_persisted : persisted requested.
Proof. vm_compute. reflexivity. Qed.


Definition rotated_shop : outcome exn (option string) * Session :=
  in_request (@rotate_bot_credential billing_env demo_identities shop_owner (mk_uuid "uuid-4") token_c) (one_cycle requested).

(** The request for the first bot, sent again. *)
Definition replayed_shop : outcome exn BotProvisioningJob * Session :=
  in_request (@request_bot_provisioning billing_env one_bot shop_owner "key-aaaa" (shop_request token_a)) rotated_shop.2.

Lemma replay_undoes_rotation_witness :
  ∃ b, get_row (mk_uuid "uuid-4") (bots (ses_db (one_cycle requested))) = Some b
    ∧ @stored_secret demo_identities (ses_sent rotated_shop.2) (bot_token_secret_ref b) = Some token_c
    ∧ @stored_secret demo_identities (ses_sent replayed_shop.2) (bot_token_secret_ref b) = Some token_a
    ∧ bots (ses_db replayed_shop.2) = bots (ses_db rotated_shop.2)
    ∧ bot_credential_version <$> get_row (mk_uuid "uuid-4") (bots (ses_db replayed_shop.2))
      = Some (bot_credential_version b + 1).
Proof.
  destruct (get_row (mk_uuid "uuid-4") (bots (ses_db (one_cycle requested)))) as [b|] eqn:Hb;
    [|vm_compute in Hb; discriminate].
  assert (bot_token_secret_ref b = (@credential_of billing_env (mk_uuid "t") "key-aaaa" (shop_request token_a)).1) as Href.
  { vm_compute in Hb. injection Hb as <-. vm_compute. reflexivity. }
  destruct rotated_shop as [[u|e] s1] eqn:H1; [|vm_compute in H1; discriminate].
  assert (is_ok replayed_shop.1 = true) as Hok by (vm_compute; reflexivity).
  assert (jobs_by_key (mk_uuid "t") "key-aaaa" (ses_db rotated_shop.2) ≠ []) as Hex by (vm_compute; discriminate).
  destruct replayed_shop as [[j|e] s2] eqn:H2; [|discriminate]. unfold replayed_shop in H2. rewrite H1 in H2, Hex.
  exists b. split; [reflexivity|].
  exact (@replay_undoes_rotation billing_env one_bot demo_identities shop_owner (mk_uuid "uuid-4") token_c "key-aaaa"
           (shop_request token_a) b (one_cycle requested) u s1 j s2 demo_vault Hb H1 H2 Hex eq_refl Href).
Defined.
