(* ===== verification/TemplatesSpec.v ===== *)
(** * Configurations of bots

    That a profile that was accepted is read back as it was stored, that an
    accepted configuration only names rows of its own tenant, and what a
    configuration built from a template is like. *)

From Stdlib Require Import ZArith Lia Ascii String.
From stdpp Require Import base tactics list option strings numbers pretty.
From S2P Require Import Prelude Tables Text Money Exceptions StateMachines Models Profiles.
From S2P Require Import Payments Saas Billing Templates Provisioning AdminBots ProvisioningSpec.

Local Open Scope Z_scope.

(** ** UUIDs read back *)

Lemma remove_all_absent n c pat l : c ∉ l → remove_all n (c :: pat) l = l.
Proof.
  revert l. induction n as [|n IH]; intros l Hl; [done|]. destruct l as [|x l]; [done|]. cbn [remove_all].
  apply not_elem_of_cons in Hl as [Hx Hl]. rewrite bool_decide_eq_false_2; [by rewrite IH|].
  cbn. intros [= ->]. done.
Qed.

Lemma remove_all_char n c l : (length l ≤ n)%nat → remove_all n [c] l = select (λ x, x != c) l.
Proof.
  revert n. induction l as [|x l IH]; intros [|n] Hn; cbn in *; try done; [lia|].
  assert (bool_decide (x :: take 0 l = [c]) = bool_decide (x = c)) as ->.
  { apply bool_decide_ext. cbn. split; [by intros [= ->]|by intros ->]. }
  case_bool_decide; cbn; rewrite IH by lia; done.
Qed.

Definition is_lower_hex (c : ascii) : bool := is_hex c && (to_lower c == c).

Lemma lower_hex c : is_hex c = true → is_lower_hex (to_lower c) = true.
Proof. destruct c as [[] [] [] [] [] [] [] []]; vm_compute; congruence. Qed.

Lemma hyphenate_chars h :
  chars (hyphenate h) = take 8 h ++ ["-"%char] ++ take 4 (drop 8 h) ++ ["-"%char] ++ take 4 (drop 12 h)
                        ++ ["-"%char] ++ take 4 (drop 16 h) ++ ["-"%char] ++ drop 20 h.
Proof. unfold hyphenate. by rewrite chars_of_chars. Qed.

Lemma hyphenate_Forall (P : ascii → Prop) h : P "-"%char → Forall P h → Forall P (chars (hyphenate h)).
Proof.
  intros Hd Hh. rewrite hyphenate_chars. rewrite !Forall_app. split_and!; auto using Forall_take, Forall_drop.
Qed.

Lemma drop_while_none {A} (p : A → bool) l : Forall (λ c, p c = false) l → drop_while p l = l.
Proof. destruct 1 as [|x l Hx _]; cbn; [done|]. by rewrite Hx. Qed.

Lemma select_all {A} (p : A → bool) l : Forall (λ c, p c = true) l → select p l = l.
Proof. unfold select. induction 1 as [|x l Hx _ IH]; cbn; [done|]. by rewrite Hx, IH. Qed.

Lemma without_hyphens h :
  Forall (λ c, is_lower_hex c = true) h → select (λ x, x != "-"%char) (chars (hyphenate h)) = h.
Proof.
  intros Hh. assert (Forall (λ c, (c != "-"%char) = true) h) as Hn.
  { eapply Forall_impl; [exact Hh|]. cbn. intros c Hc. apply negb_true_iff, bool_decide_eq_false. by intros ->. }
  assert (∀ l, Forall (λ c, (c != "-"%char) = true) l → List.filter (λ x, x != "-"%char) l = l) as Hall
    by (intros l; apply select_all).
  rewrite hyphenate_chars. unfold select. rewrite !List.filter_app.
  rewrite (Hall (take 8 h)), (Hall (take 4 (drop 8 h))), (Hall (take 4 (drop 12 h))), (Hall (take 4 (drop 16 h))),
    (Hall (drop 20 h)) by auto using Forall_take, Forall_drop.
  change (List.filter (λ x, x != "-"%char) ["-"%char]) with (@nil ascii). cbn [app].
  assert (∀ n (l k : list ascii), k = drop n l → take n l ++ k = l) as Hjoin by (intros n l k ->; apply take_drop).
  apply Hjoin, Hjoin. rewrite drop_drop. apply Hjoin. rewrite drop_drop. apply Hjoin. by rewrite drop_drop.
Qed.

Lemma hex_canonical h :
  length h = 32%nat → Forall (λ c, is_lower_hex c = true) h → canonical (mk_uuid (hyphenate h)).
Proof.
  intros Hlen Hh. unfold canonical, parse_uuid. cbn [uuid_str].
  assert (∀ c, c ≠ "-"%char → is_lower_hex c = false → c ∉ chars (hyphenate h)) as Habs.
  { intros c Hc Hx Hin. assert (Forall (λ c', c' = "-"%char ∨ is_lower_hex c' = true) (chars (hyphenate h))) as Hall.
    { apply hyphenate_Forall; [by left|]. eapply Forall_impl; [exact Hh|]. auto. }
    rewrite list.Forall_forall in Hall. destruct (Hall c Hin); congruence. }
  assert (∀ w, removed (String "u" w) (chars (hyphenate h)) = chars (hyphenate h)) as Hu.
  { intros w. unfold removed. cbn [list_ascii_of_string]. by apply remove_all_absent, Habs. }
  rewrite !Hu. assert (Forall (λ c, is_brace c = false) (chars (hyphenate h))) as Hb.
  { apply hyphenate_Forall; [done|]. eapply Forall_impl; [exact Hh|]. cbn. intros c Hc. unfold is_brace.
    apply orb_false_iff. rewrite !bool_decide_eq_false. split; by intros ->. }
  rewrite (drop_while_none is_brace (chars _)) by done.
  rewrite drop_while_none by (by apply Forall_rev). rewrite rev_involutive.
  unfold removed. change (chars "-") with ["-"%char]. rewrite remove_all_char by done. rewrite without_hyphens by done. rewrite Hlen. cbn [Nat.eqb andb].
  rewrite (proj2 (forallb_forall _ _)).
  - assert (map to_lower h = h) as ->; [|done]. clear - Hh. induction Hh as [|c h Hc _ IH]; cbn; [done|].
    apply andb_true_iff in Hc as [_ Hc%bool_decide_eq_true]. by rewrite Hc, IH.
  - intros c Hc%list_elem_of_In. rewrite list.Forall_forall in Hh. specialize (Hh c Hc).
    by apply andb_true_iff in Hh as [? _].
Qed.

Lemma parse_uuid_canonical text u : parse_uuid text = Some u → canonical u.
Proof.
  unfold parse_uuid. set (h := removed "-" _). destruct (_ && _) eqn:Hc; [|done]. intros [= <-].
  apply andb_true_iff in Hc as [Hlen%Nat.eqb_eq Hhex]. apply hex_canonical; [by rewrite length_map|].
  apply list.Forall_forall. intros c Hc%list_elem_of_In%in_map_iff.
  destruct Hc as (x & <- & Hx). apply lower_hex. by apply (proj1 (forallb_forall _ _) Hhex).
Qed.

(** ** Profiles read back *)

Lemma uuid_list_canonical v l : uuid_list v = Some l → Forall canonical l.
Proof.
  unfold uuid_list. destruct (is_blank v); [by intros [= <-]|]. destruct v; try done.
  destruct (uuid_list_loop _ []) as [r|] eqn:Hl; cbn -[Nat.ltb]; [|done]. destruct (_ <? _)%nat; [done|]. intros [= <-].
  assert (∀ js acc r, Forall canonical acc → uuid_list_loop js acc = Some r → Forall canonical r) as Hloop.
  { clear. induction js as [|x js IH]; intros acc r Hacc; cbn; [by intros [= <-]|].
    destruct (parse_uuid (json_str x)) as [u|] eqn:Hu; cbn; [|done]. apply IH. destruct (existsb _ acc); [done|].
    apply Forall_app. split; [done|]. by constructor; [eapply parse_uuid_canonical|]. }
  by eapply (Hloop _ []); [constructor|].
Qed.

Lemma parsed_canonical v p :
  parse_business_profile v = Some p →
  Forall canonical (provider_ids p) ∧ Forall canonical (payment_method_ids p) ∧
  ∀ u, default_pricing_tier_id p = Some u → canonical u.
Proof.
  unfold parse_business_profile. destruct v as [[| | | | |d]|]; try done.
  1, 3: by intros [= <-].
  case_match; [done|]. intros Hp.
  apply bind_Some in Hp as (biz & _ & Hp). apply bind_Some in Hp as (routing & _ & Hp). case_match; try done.
  apply bind_Some in Hp as (provs & Hprovs & Hp). apply bind_Some in Hp as (methods & Hmethods & Hp).
  apply bind_Some in Hp as (preferred & _ & Hp). apply bind_Some in Hp as (tier & Htier & Hp).
  destruct (match preferred with Some p => negb (existsb (λ u, u == p) provs) | None => false end); [done|].
  destruct ((routing == Some RouteManual) && negb (is_some preferred)); [done|]. injection Hp as <-. cbn.
  split_and!; [by eapply uuid_list_canonical..|]. intros u ->. unfold optional_uuid in Htier. case_match; [done|].
  destruct (parse_uuid _) as [w|] eqn:Hw; [|done]. injection Htier as ->. by eapply parse_uuid_canonical.
Qed.

(** Whatever parses is read back as it was stored. *)
Lemma parsed_reads_back v p :
  parse_business_profile v = Some p → parse_business_profile (Some (JObj (public_payload p))) = Some p.
Proof.
  intros Hp. destruct (parsed_canonical v p Hp) as (H1 & H2 & H3).
  by apply profile_roundtrip; [eapply parse_business_profile_ok|..].
Qed.

Lemma dict_get_set k k' v d : dict_get k (dict_set k' v d) = if k == k' then Some v else dict_get k d.
Proof.
  induction d as [|[k0 v0] d IH]; cbn; [by case_bool_decide|].
  destruct (decide (k' = k0)) as [->|Hne].
  - rewrite bool_decide_eq_true_2 by done. cbn. by case_bool_decide.
  - rewrite (bool_decide_eq_false_2 (k' = k0)) by done. cbn. rewrite IH.
    repeat case_bool_decide; congruence.
Qed.

Lemma same_set_elem a b u : same_set a b = true → u ∈ b → u ∈ a.
Proof.
  unfold same_set. intros [_ Hb]%andb_true_iff Hu%list_elem_of_In. apply existsb_elem.
  by apply (proj1 (forallb_forall _ _) Hb u).
Qed.

Lemma owned_profile t p s p' s' :
  validate_business_profile_for_tenant t p s = (Ok p', s') →
  s' = s ∧ p' = p
  ∧ (∀ u, u ∈ provider_ids p → ∃ r, r ∈ providers (ses_db s) ∧ prov_id r = u ∧ prov_tenant_id r = t
                                   ∧ prov_category r ∈ allowed_provider_categories (business_type p))
  ∧ (∀ u, u ∈ payment_method_ids p → ∃ m, m ∈ payment_methods (ses_db s) ∧ pmc_id m = u ∧ pmc_tenant_id m = t)
  ∧ (∀ u, default_pricing_tier_id p = Some u →
       ∃ r, r ∈ tiers (ses_db s) ∧ tier_id r = u ∧ tier_tenant_id r = t ∧ tier_is_active r = true).
Proof.
  intros Hr. unfold validate_business_profile_for_tenant in Hr.
  apply bind_inv_ok in Hr as ([] & s1 & Hprov & Hr). apply bind_inv_ok in Hr as ([] & s2 & Hmeth & Hr).
  assert (s1 = s ∧ ∀ u, u ∈ provider_ids p → ∃ r, r ∈ providers (ses_db s) ∧ prov_id r = u ∧ prov_tenant_id r = t
            ∧ prov_category r ∈ allowed_provider_categories (business_type p)) as [-> Hprov'].
  { destruct (length (provider_ids p) =? 0)%nat eqn:Hl; cbn [negb] in Hprov.
    - apply ret_inv in Hprov as [_ ->]. split; [done|]. apply Nat.eqb_eq, length_zero_iff_nil in Hl. rewrite Hl.
      by intros u Hu%elem_of_nil.
    - bind_query Hprov. bind_guard Hprov Hset. apply raise_if_ok in Hprov as [Hcat ->]. split; [done|]. intros u Hu.
      apply negb_false_iff in Hset. apply (same_set_elem _ _ u Hset) in Hu.
      apply list_elem_of_fmap_1 in Hu as (r & -> & Hin). pose proof Hin as Hin'.
      apply elem_of_select in Hin as [Hin [Ht%bool_decide_eq_true _]%andb_true_iff]. exists r. split_and!; try done.
      assert (existsb (λ c, c == prov_category r) (allowed_provider_categories (business_type p)) = true) as Hc.
      { apply not_false_iff_true. intros Hn. apply not_true_iff_false in Hcat. apply Hcat, existsb_exists. exists r.
        split; [by apply list_elem_of_In|]. by rewrite Hn. }
      apply existsb_exists in Hc as (c & Hc & ->%bool_decide_eq_true). by apply list_elem_of_In. }
  assert (s2 = s ∧ ∀ u, u ∈ payment_method_ids p →
            ∃ m, m ∈ payment_methods (ses_db s) ∧ pmc_id m = u ∧ pmc_tenant_id m = t) as [-> Hmeth'].
  { destruct (length (payment_method_ids p) =? 0)%nat eqn:Hl; cbn [negb] in Hmeth.
    - apply ret_inv in Hmeth as [_ ->]. split; [done|]. apply Nat.eqb_eq, length_zero_iff_nil in Hl. rewrite Hl.
      by intros u Hu%elem_of_nil.
    - bind_query Hmeth. apply raise_if_ok in Hmeth as [Hset%negb_false_iff ->]. split; [done|]. intros u Hu.
      apply (same_set_elem _ _ u Hset) in Hu. apply list_elem_of_fmap_1 in Hu as (m & -> & Hin).
      apply elem_of_select in Hin as [Hin [Ht%bool_decide_eq_true _]%andb_true_iff]. by exists m. }
  destruct (default_pricing_tier_id p) as [u|].
  - bind_query Hr. bind_guard Hr Htier. apply ret_inv in Hr as [[= ->] ->]. split_and!; try done. intros x [= <-].
    apply negb_false_iff in Htier. destruct (head _) as [r|] eqn:Hh; [|done]. apply head_Some_elem_of in Hh.
    apply elem_of_select in Hh as [Hin Hh]. exists r. rewrite !andb_true_iff, !bool_decide_eq_true in Hh. tauto.
  - apply ret_inv in Hr as [[= ->] ->]. split_and!; try done.
Qed.

(** [C25] An accepted configuration names only what its tenant owns, and is read
    back as it was checked.  When the profile in a configuration passes the
    check for a tenant, the profile the bot will later be run with, read from
    the stored configuration, is the one that was checked (never the sentinel
    that denies everything); every provider it names is a provider of that
    tenant, of a category its business type allows; every payment method is one
    of the tenant; and its pricing tier is an active tier of the tenant. *)
Theorem accepted_profile_owned t config s c s' :
  _validate_resolved_business_profile t config s = (Ok c, s') →
  s' = s ∧ ∃ p, parse_business_profile (dict_get "_business" config) = Some p ∧ business_profile_from_config c = p
  ∧ (∀ u, u ∈ provider_ids p → ∃ r, r ∈ providers (ses_db s) ∧ prov_id r = u ∧ prov_tenant_id r = t
                                   ∧ prov_category r ∈ allowed_provider_categories (business_type p))
  ∧ (∀ u, u ∈ payment_method_ids p → ∃ m, m ∈ payment_methods (ses_db s) ∧ pmc_id m = u ∧ pmc_tenant_id m = t)
  ∧ (∀ u, default_pricing_tier_id p = Some u →
       ∃ r, r ∈ tiers (ses_db s) ∧ tier_id r = u ∧ tier_tenant_id r = t ∧ tier_is_active r = true).
Proof.
  intros Hr. unfold _validate_resolved_business_profile in Hr.
  apply bind_inv_ok in Hr as (p & s1 & Hp & [[= ->] ->]%ret_inv).
  apply catch_inv_ok in Hp as [Hp|(e & s2 & _ & Hp)]; [|by apply throw_inv in Hp as [? _]].
  bind_some Hp p0 Hparse. destruct (owned_profile _ _ _ _ _ Hp) as (-> & -> & Hprov & Hmeth & Htier).
  split; [done|]. exists p0. split_and!; try done.
  unfold business_profile_from_config. rewrite dict_get_set, bool_decide_eq_true_2 by done.
  by rewrite (parsed_reads_back _ _ Hparse).
Qed.

(** ** Configurations from templates *)

(** What a text of the branding may be. *)
Definition branding_ok (key text : string) : bool :=
  existsb (λ k, k == key) PUBLIC_BRANDING_KEYS
  && match branding_limit key with Some n => (String.length text <=? n)%nat | None => true end
  && (if key == "miniapp_theme" then existsb (λ t, t == text) ["midnight"; "emerald"; "pearl"; "ocean"; "rose"] else true)
  && (if key == "brand_accent" then (text == "") || is_hex_color text else true)
  && (if (key == "brand_logo_url") || (key == "support_url") then is_ok (_validate_https_url text) else true)
  && (if key == "support_contact" then (text == "") || is_telegram_handle text else true).

Definition item_ok (kv : string * json) : bool :=
  match kv.2 with JStr text => branding_ok kv.1 text | _ => false end.

Definition modules_ok (ms : list string) : Prop :=
  ms ≠ [] ∧ NoDup ms ∧ ∀ m, m ∈ ms → m ∈ SUPPORTED_MODULES.

(** The parts of a configuration. *)
Record config_ok (config : dict) : Prop := {
  co_currency : ∃ c, text_of "currency" config = Some c ∧ is_currency c = true;
  co_locale : ∃ l, text_of "locale" config = Some l ∧ is_locale l = true;
  co_modules : ∃ ms, dict_get "enabled_modules" config = Some (strings_json ms) ∧ modules_ok ms;
  co_branding : ∃ b, dict_get "branding" config = Some (JObj b) ∧ ∀ kv, kv ∈ b → item_ok kv = true;
  co_business : ∃ p, parse_business_profile (dict_get "_business" config) = Some p;
}.

Lemma text_of_set k k' v d : text_of k (dict_set k' (JStr v) d) = if k == k' then Some v else text_of k d.
Proof. unfold text_of. rewrite dict_get_set. by case_bool_decide. Qed.

Lemma text_of_other k k' v d : k ≠ k' → text_of k (dict_set k' v d) = text_of k d.
Proof. intros Hk. unfold text_of. by rewrite dict_get_set, bool_decide_eq_false_2. Qed.

Lemma dict_get_other k k' v d : k ≠ k' → dict_get k (dict_set k' v d) = dict_get k d.
Proof. intros Hk. by rewrite dict_get_set, bool_decide_eq_false_2. Qed.

Lemma elem_of_set kv k v d : kv ∈ dict_set k v d → kv = (k, v) ∨ kv ∈ d.
Proof.
  induction d as [|[k0 v0] d IH]; cbn; [intros Hkv%list_elem_of_singleton; auto|].
  case_bool_decide; rewrite !elem_of_cons; [tauto|]. intros [?|?]; [tauto|]. destruct IH; auto.
Qed.

Lemma elem_of_merge kv a b : kv ∈ dict_merge a b → kv ∈ a ∨ kv ∈ b.
Proof.
  unfold dict_merge. revert a. induction b as [|[k v] b IH]; intros a; cbn; [by left|].
  intros [H|H]%IH; [|right; by right]. apply elem_of_set in H as [->|?]; [right; left|by left].
Qed.

(** *** Every template *)

Lemma template_ok t : t ∈ _TEMPLATES → config_ok (tpl_default_config t).
Proof.
  intros Ht. assert (∃ biz cats r g k n d rec a w tag,
    t = _template k n d rec a w tag None biz cats r g ∧ r ≠ RouteManual ∧
    forallb item_ok (match dict_get "branding" (tpl_default_config t) with Some (JObj b) => b | _ => [] end) = true)
    as (biz & cats & r & g & k & n & d & rec & a & w & tag & -> & Hr & Hb).
  { unfold _TEMPLATES in Ht. repeat (apply elem_of_cons in Ht as [->|Ht]; [do 11 eexists; split; [reflexivity|split; [discriminate|vm_compute; reflexivity]]|]).
    by apply elem_of_nil in Ht. }
  split.
  - by exists "USD".
  - by exists "en".
  - exists ["catalog"; "orders"; "account"]. split; [done|]. split_and!; [done| |done].
    apply (bool_decide_unpack _). vm_compute. exact I.
  - eexists. split; [reflexivity|]. intros kv Hkv%list_elem_of_In. by apply (proj1 (forallb_forall _ _) Hb).
  - exists (MkBotBusinessProfile biz [] [] (Some r) None None false). cbn.
    by destruct biz, r.
Qed.

(** *** Branding *)

Definition text_ok (kv : string * json) : Prop :=
  existsb (λ k, k == kv.1) PUBLIC_BRANDING_KEYS = true
  ∧ ∃ text, kv.2 = JStr text ∧ match branding_limit kv.1 with Some n => (String.length text <= n)%nat | None => True end.

Lemma dict_set_same k v d : dict_get k d = Some v → dict_set k v d = d.
Proof.
  induction d as [|[k0 v0] d IH]; cbn; [done|]. case_bool_decide; [by intros [= ->]; subst|].
  intros Hd. by rewrite IH.
Qed.

Lemma dict_set_keys k v d : ∀ k', k' ∈ fst <$> dict_set k v d → k' = k ∨ k' ∈ fst <$> d.
Proof.
  intros k' (kv & -> & Hkv)%list_elem_of_fmap_1. apply elem_of_set in Hkv as [->|Hkv]; [by left|].
  right. by apply (list_elem_of_fmap_2 fst).
Qed.

Lemma dict_set_nodup k v d : NoDup (fst <$> d) → NoDup (fst <$> dict_set k v d).
Proof.
  induction d as [|[k0 v0] d IH]; cbn; [intros _; apply NoDup_singleton|]. intros [Hk Hd]%NoDup_cons.
  case_bool_decide; cbn; apply NoDup_cons; split; auto; [by subst|].
  intros [->|?]%dict_set_keys; [done|by apply Hk].
Qed.

Lemma dict_get_elem k v d : NoDup (fst <$> d) → (k, v) ∈ d → dict_get k d = Some v.
Proof.
  induction d as [|[k0 v0] d IH]; cbn; [by intros _ H%elem_of_nil|]. intros [Hk Hd]%NoDup_cons [Heq|Hin]%elem_of_cons.
  - injection Heq as -> ->. by rewrite bool_decide_eq_true_2.
  - rewrite bool_decide_eq_false_2; [by apply IH|]. intros ->. apply Hk. by apply (list_elem_of_fmap_2 fst _ (k0, v)).
Qed.

Lemma branding_texts_ok l acc d :
  (∀ kv, kv ∈ l → existsb (λ k, k == kv.1) PUBLIC_BRANDING_KEYS = true) →
  NoDup (fst <$> acc) → (∀ kv, kv ∈ acc → text_ok kv) → branding_texts l acc = Ok d →
  NoDup (fst <$> d) ∧ ∀ kv, kv ∈ d → text_ok kv.
Proof.
  revert acc. induction l as [|[k v] l IH]; intros acc Hl Hnd Hacc; [by intros [= <-]|].
  assert (∀ kv, kv ∈ l → existsb (λ k, k == kv.1) PUBLIC_BRANDING_KEYS = true) as Hl'
    by (intros kv Hkv; apply Hl; by right).
  assert (∀ value, match branding_limit k with Some n => (String.length (strip value) <= n)%nat | None => True end →
    branding_texts l (dict_set k (JStr (strip value)) acc) = Ok d → NoDup (fst <$> d) ∧ ∀ kv, kv ∈ d → text_ok kv) as Hset.
  { intros value Hlim. apply IH; [done|by apply dict_set_nodup|]. intros kv [->|?]%elem_of_set; [|by apply Hacc].
    split; [apply (Hl (k, v)); left|]. by exists (strip value). }
  destruct v; try done; cbn [branding_texts]; [by apply IH|].
  destruct (branding_limit k) as [n|]; [|by apply Hset]. destruct (Nat.ltb_spec n (String.length (strip s))); [done|].
  by apply Hset.
Qed.

Lemma checked_url_ok key d d' :
  checked_url key d = Ok d' → d' = d ∧ ∀ url, text_of key d = Some url → is_ok (_validate_https_url url) = true.
Proof.
  unfold checked_url. destruct (text_of key d) as [url|] eqn:Ht; [|intros [= <-]; by split].
  destruct (_validate_https_url url) as [u|e] eqn:Hu; [|done]. intros [= <-].
  assert (u = url) as ->.
  { unfold _validate_https_url in Hu. case_bool_decide; [by injection Hu as <-; subst|].
    destruct (urlsplit url) as [[scheme netloc]|]; [|done]. destruct (_ || _); [done|]. by injection Hu as <-. }
  split; [|intros x [= <-]; by rewrite Hu]. apply dict_set_same. unfold text_of in Ht. by repeat case_match; simplify_eq.
Qed.

Lemma validate_branding_ok b d : validate_branding b = Ok d → ∀ kv, kv ∈ d → item_ok kv = true.
Proof.
  unfold validate_branding. destruct (existsb _ b) eqn:Hpub; [done|].
  destruct (branding_texts b []) as [d1|e] eqn:Htexts; [|done].
  apply branding_texts_ok in Htexts as [Hnd Hok];
    [|intros kv Hkv%list_elem_of_In; apply not_false_iff_true; intros Hn; apply not_true_iff_false in Hpub;
      apply Hpub, existsb_exists; exists kv; by rewrite Hn|by apply NoDup_nil_2|by intros kv Hkv%elem_of_nil].
  destruct (match text_of "miniapp_theme" d1 with Some theme => _ | None => false end) eqn:Htheme; [done|].
  destruct (truthy (text_of "brand_accent" d1) && _) eqn:Haccent; [done|].
  destruct (checked_url "brand_logo_url" d1) as [d2|] eqn:Hlogo; [|done]. apply checked_url_ok in Hlogo as [-> Hlogo].
  destruct (checked_url "support_url" d1) as [d3|] eqn:Hsup; [|done]. apply checked_url_ok in Hsup as [-> Hsup].
  destruct (truthy (text_of "support_contact" d1) && _) eqn:Hcontact; [done|]. intros [= <-] [k v] Hkv.
  destruct (Hok _ Hkv) as [Hk (text & Hv & Hlim)]. cbn [fst snd] in Hk, Hv, Hlim. subst v.
  assert (text_of k d1 = Some text) as Ht by (unfold text_of; by rewrite (dict_get_elem _ _ _ Hnd Hkv)).
  unfold item_ok, branding_ok. cbn [fst snd]. rewrite Hk. cbn [andb]. rewrite !andb_true_iff. split_and!.
  - destruct (branding_limit k); [by apply Nat.leb_le|done].
  - case_bool_decide; [|done]. subst k. rewrite Ht in Htheme. by apply negb_false_iff in Htheme.
  - case_bool_decide; [|done]. subst k. rewrite Ht in Haccent. unfold truthy in Haccent. cbn in Haccent.
    by destruct (text == ""); [|apply negb_false_iff in Haccent].
  - destruct (_ || _) eqn:Hu; [|done]. apply orb_true_iff in Hu. rewrite !bool_decide_eq_true in Hu.
    destruct Hu as [->| ->]; auto.
  - case_bool_decide; [|done]. subst k. rewrite Ht in Hcontact. unfold truthy in Hcontact. cbn in Hcontact.
    by destruct (text == ""); [|apply negb_false_iff in Hcontact].
Qed.

(** *** Building one *)

Lemma distinct_ok l : NoDup (distinct l).
Proof.
  unfold distinct. assert (∀ (l acc : list string), NoDup acc →
    NoDup (foldl (λ acc x, if existsb (λ y, y == x) acc then acc else acc ++ [x]) acc l)) as Hgen.
  { clear l. induction l as [|x l IH]; intros acc Hacc; [done|]. cbn. apply IH.
    destruct (existsb _ acc) eqn:He; [done|]. apply list.NoDup_app. split_and!; [done| |apply NoDup_singleton].
    intros y Hy Hx%list_elem_of_singleton. subst y. apply not_true_iff_false in He. apply He, existsb_exists.
    exists x. split; [by apply list_elem_of_In|by rewrite bool_decide_eq_true_2]. }
  by apply Hgen, NoDup_nil_2.
Qed.

Lemma config_set k v config :
  config_ok config →
  k ∉ ["currency"; "locale"; "enabled_modules"; "branding"; "_business"] → config_ok (dict_set k v config).
Proof.
  intros [H1 H2 H3 H4 H5] Hk. rewrite !not_elem_of_cons in Hk. destruct Hk as (K1 & K2 & K3 & K4 & K5 & _).
  split; rewrite ?text_of_other, ?dict_get_other by congruence; done.
Qed.

Ltac other_keys := rewrite ?text_of_other, ?dict_get_other by done; done.

Lemma set_currency_ok o config c : config_ok config → set_currency o config = Ok c → config_ok c.
Proof.
  intros Hok. destruct o as [x|]; cbn; [|by intros [= <-]]. destruct (is_currency _) eqn:Hc; [|done]. intros [= <-].
  destruct Hok as [H1 H2 H3 H4 H5]. split; try other_keys. exists (upper (strip x)). by rewrite text_of_set.
Qed.

Lemma set_locale_ok o config c : config_ok config → set_locale o config = Ok c → config_ok c.
Proof.
  intros Hok. destruct o as [x|]; cbn; [|by intros [= <-]]. destruct (is_locale _) eqn:Hc; [|done]. intros [= <-].
  destruct Hok as [H1 H2 H3 H4 H5]. split; try other_keys. exists (strip x). by rewrite text_of_set.
Qed.

Lemma set_modules_ok o config c : config_ok config → set_modules o config = Ok c → config_ok c.
Proof.
  intros Hok. destruct o as [l|]; cbv beta iota zeta delta [set_modules]; [|by intros [= <-]]. destruct (existsb _ (distinct l)) eqn:Hu; [done|].
  destruct (Nat.eqb_spec (length (distinct l)) 0) as [|Hne]; [done|]. intros [= <-].
  destruct Hok as [H1 H2 H3 H4 H5]. split; try other_keys. exists (distinct l). rewrite dict_get_set. split; [done|].
  split_and!; [by destruct (distinct l)|apply distinct_ok|]. intros m Hm.
  assert (existsb (λ k, k == m) SUPPORTED_MODULES = true) as Hin.
  { apply not_false_iff_true. intros Hn. apply not_true_iff_false in Hu. apply Hu, existsb_exists. exists m.
    split; [by apply list_elem_of_In|by rewrite Hn]. }
  apply existsb_exists in Hin as (k & Hk & ->%bool_decide_eq_true). by apply list_elem_of_In.
Qed.

Lemma set_branding_ok b config c : config_ok config → set_branding b config = Ok c → config_ok c.
Proof.
  intros [H1 H2 H3 (b0 & Hb0 & Hitems) H5]. unfold set_branding. destruct (validate_branding b) as [d|] eqn:Hd; [|done].
  intros [= <-]. rewrite Hb0. split; try other_keys. eexists. rewrite dict_get_set. split; [done|].
  intros kv [?|?]%elem_of_merge; [by apply Hitems|by eapply validate_branding_ok].
Qed.

Lemma set_business_ok o config c : config_ok config → set_business o config = Ok c → config_ok c.
Proof.
  intros Hok. unfold set_business.
  assert (∀ v, match parse_business_profile (Some v) with
    | Some p => Ok (dict_set "_business" (JObj (public_payload p)) config) | None => Raise ValueError end = Ok c →
    config_ok c) as Hset.
  { intros v. destruct (parse_business_profile (Some v)) as [p|] eqn:Hp; [|done]. intros [= <-].
    destruct Hok as [H1 H2 H3 H4 H5]. split; try other_keys. exists p. rewrite dict_get_set.
    by apply (parsed_reads_back (Some v)). }
  destruct o as [[]|]; try apply Hset; by intros [= <-].
Qed.

Lemma get_bot_template_in key version t : get_bot_template key version = Ok t → t ∈ _TEMPLATES.
Proof.
  unfold get_bot_template. destruct (if is_template_key _ then _ else None) as [x|] eqn:Hf; [|done].
  assert (x ∈ _TEMPLATES) as Hx.
  { destruct (is_template_key _); [|done]. apply List.find_some in Hf as [Hf _]. by apply list_elem_of_In. }
  destruct version as [v|]; [destruct (v =? _); [|done]|]; by intros [= <-].
Qed.

(** What is built from a template is well formed.  A configuration built
    from a template and a request has a three-letter currency, a locale, at
    least one module, all of them supported and none twice, branding whose
    every text has a public key, keeps its length limit and is a supported
    theme, a colour, an HTTPS address without credentials or a Telegram handle
    where it must be, and a business profile that parses; and its metadata
    names the template it was built from, with its version. *)
Theorem template_config_ok `{Env} r config :
  build_template_config r = Ok config →
  config_ok config ∧
  ∃ t, get_bot_template (trq_template_key r) (trq_template_version r) = Ok t ∧ t ∈ _TEMPLATES
       ∧ template_metadata config = (Some (tpl_key t), Some (tpl_version t)).
Proof.
  unfold build_template_config. destruct (get_bot_template _ _) as [t|] eqn:Ht; cbn [andThen]; [|done].
  pose proof (get_bot_template_in _ _ _ Ht) as Hin. pose proof (template_ok t Hin) as H0.
  destruct (set_currency _ _) as [c1|] eqn:E1; cbn [andThen]; [|done]. apply set_currency_ok in E1; [|done].
  destruct (set_locale _ _) as [c2|] eqn:E2; cbn [andThen]; [|done]. apply set_locale_ok in E2; [|done].
  destruct (set_modules _ _) as [c3|] eqn:E3; cbn [andThen]; [|done]. apply set_modules_ok in E3; [|done].
  destruct (set_branding _ _) as [c4|] eqn:E4; cbn [andThen]; [|done]. apply set_branding_ok in E4; [|done].
  destruct (set_business _ _) as [c5|] eqn:E5; cbn [andThen]; [|done]. apply set_business_ok in E5; [|done].
  intros [= <-]. split; [apply config_set; [done|rewrite !not_elem_of_cons; split_and!; try done; apply not_elem_of_nil]|].
  exists t. split_and!; [done|done|]. unfold template_metadata. rewrite dict_get_set, bool_decide_eq_true_2 by done.
  assert (tpl_key t ≠ "") as Hk.
  { clear -Hin. unfold _TEMPLATES in Hin. repeat (apply elem_of_cons in Hin as [->|Hin]; [done|]).
    by apply elem_of_nil in Hin. }
  change (dict_get "template_key" _) with (Some (JStr (tpl_key t))).
  change (dict_get "template_version" _) with (Some (JInt (tpl_version t))). cbv beta iota. cbn [json_truthy json_text].
  by rewrite bool_decide_eq_false_2.
Qed.

Definition shop_template : TemplateRequest :=
  MkTemplateRequest " Gift-Cards" (Some 1) (Some "eur") (Some "de-AT")
    [("support_url", JStr "https://shop.example/help"); ("brand_accent", JStr "#00aa11")] (Some ["orders"; "orders"])
    (Some (JObj [("business_type", JStr "gift_card")])).

Lemma template_config_ok_witness :
  ∃ config, build_template_config shop_template = Ok config ∧ text_of "currency" config = Some "EUR" ∧
    config_ok config ∧
    ∃ t, get_bot_template (trq_template_key shop_template) (trq_template_version shop_template) = Ok t ∧ t ∈ _TEMPLATES
         ∧ @template_metadata demo_env config = (Some (tpl_key t), Some (tpl_version t)).
Proof.
  destruct (build_template_config shop_template) as [config|e] eqn:Hc; [|vm_compute in Hc; discriminate].
  exists config. split; [reflexivity|]. split; [vm_compute in Hc; injection Hc as <-; reflexivity|].
  exact (@template_config_ok demo_env shop_template config Hc).
Defined.

Lemma accepted_profile_owned_witness :
  let u := mk_uuid "6f9619ff-8b86-d011-b42d-00c04fc964ff" in
  let d := empty_db <| tiers := [MkPricingTier u (mk_uuid "t") "vip" 1 false true] |> in
  let s := MkSession d d 0 [] in
  let config := [("_business", JObj [("default_pricing_tier_id", JStr (upper (uuid_str u)))])] in
  ∃ c, _validate_resolved_business_profile (mk_uuid "t") config s = (Ok c, s)
    ∧ default_pricing_tier_id (business_profile_from_config c) = Some u
    ∧ ∃ r, r ∈ tiers (ses_db s) ∧ tier_id r = u ∧ tier_tenant_id r = mk_uuid "t" ∧ tier_is_active r = true.
Proof.
  intros u d s config.
  destruct (_validate_resolved_business_profile (mk_uuid "t") config s) as [[c|e] s'] eqn:Hc;
    [|vm_compute in Hc; discriminate].
  destruct (@accepted_profile_owned (mk_uuid "t") config s c s' Hc) as (-> & p & Hp & Hb & _ & _ & Htier).
  assert (default_pricing_tier_id p = Some u) as Hu by (vm_compute in Hp; injection Hp as <-; reflexivity).
  exists c. split; [reflexivity|]. rewrite Hb. split; [exact Hu|]. exact (Htier u Hu).
Defined.

(** ** A bot whose stored profile is broken *)

Lemma no_such_row {A} (p : A → bool) (l : list A) : (∀ x, x ∈ l → p x = false) → rowcount p l = 0%nat.
Proof.
  intros Hp. unfold rowcount. rewrite (proj2 (select_nil p l)); [done|]. intros x Hx. by apply Hp.
Qed.

(** A blocked check in the report. *)
Lemma blocked_report (c : list (string * Readiness)) launchable checks key :
  (Ok (launchable, checks) : outcome exn _)
    = Ok (negb (existsb (λ c, match c.2 with Block => true | _ => false end) c), c) →
  (key, Block) ∈ c → launchable = false ∧ (key, Block) ∈ checks.
Proof.
  intros [= -> ->] Hin. split; [|done]. apply negb_false_iff, existsb_exists. exists (key, Block).
  split; [by apply list_elem_of_In|done].
Qed.

(** A bot whose stored business profile cannot be read is never reported
    ready to launch: the profile it is run with matches no provider, so its
    fulfilment is reported as blocked, whatever else is in order. *)
Theorem broken_profile_blocks_launch `{HE : Env} fleet miniapp admin principal i b s launchable checks s' :
  get_bot_launch_readiness fleet miniapp admin principal i s = (Ok (launchable, checks), s') →
  get_row i (bots (ses_db s)) = Some b → parse_business_profile (dict_get "_business" (bot_config b)) = None →
  (∀ r, r ∈ providers (ses_db s) → prov_id r ≠ nil_uuid) →
  launchable = false ∧ ("fulfillment", Block) ∈ checks.
Proof.
  intros Hr Hb Hbad Hnil. unfold get_bot_launch_readiness in Hr. apply bind_inv_ok in Hr as (b' & s1 & Hown & Hr).
  assert (b' = b ∧ s1 = s) as [-> ->].
  { unfold own_bot in Hown. bind_query Hown. rewrite Hb in Hown. bind_some Hown x Hx. injection Hx as ->.
    bind_guard Hown Hg. by apply ret_inv in Hown as [[= ->] ->]. }
  bind_query Hr. bind_some Hr tenant Htenant. cbv zeta in Hr.
  apply bind_inv_ok in Hr as (access & s1 & Ha & Hr). apply (steps_run eq) in Ha; [|apply access_reads]. subst s1.
  assert (business_profile_from_config (bot_config b) = denied_profile) as Hden
    by (unfold business_profile_from_config; by rewrite Hbad).
  rewrite Hden in Hr. bind_query Hr. bind_query Hr. bind_query Hr. bind_query Hr. bind_query Hr.
  apply ret_inv in Hr as [Hr ->]. rewrite (no_such_row (λ p : Provider, _ && _ && _ && _)) in Hr.
  - apply (blocked_report _ _ _ "fulfillment" Hr). do 7 right. by left.
  - intros r Hin. apply andb_false_iff. right. unfold selected. cbn. rewrite orb_false_r. apply bool_decide_eq_false.
    intros He. by apply (Hnil r Hin).
Qed.

(** A bot of [factory_session]'s tenant whose profile is not an object. *)
Definition broken_bot : Bot :=
  MkBot (mk_uuid "b") (mk_uuid "t") 1 None "Shop" "REF" "VERIFIED" 1 None None None 1 "STABLE" true None
    [("_business", JStr "oops")].

Definition broken_session : Session := factory_session <| ses_db ::= (λ d, d <| bots := [broken_bot] |>) |>.

Lemma broken_profile_blocks_launch_witness :
  ∃ launchable checks,
    @get_bot_launch_readiness demo_env (λ _, Some "RUNNING") (Some "https://m") None shop_owner (mk_uuid "b") broken_session
      = (Ok (launchable, checks), broken_session)
    ∧ launchable = false ∧ ("fulfillment", Block) ∈ checks.
Proof.
  eexists _, _. split; [vm_compute; reflexivity|].
  refine (@broken_profile_blocks_launch demo_env (λ _, Some "RUNNING") (Some "https://m") None shop_owner (mk_uuid "b")
            broken_bot broken_session _ _ broken_session _ _ _ _);
    [vm_compute; reflexivity|reflexivity|reflexivity|]. intros r Hr%elem_of_nil. destruct Hr.
Defined.
